(* ===== verification/_CoqProject ===== *)
-Q . S2P
Prelude.v
Bytes.v
Malloc.v
RangeMap.v
Uart.v
ProxyApi.v
Utils.v
Registers.v
RegTables.v
RegMaps.v
Dart.v
DartMap.v
FwTables.v
Afk.v
Asc.v
Transport.v
Ethlink.v
Q1n1Link.v
GptSurvey.v
Sha256.v
Target.v
Preload.v
Nvme.v
NvmeSafe.v
NvmeWrite.v
NvmeSetup.v
NvmeHash.v
NvmeWindow.v
Ncm.v
Xhci.v
XhciRings.v
XhciSafe.v
XhciLink.v
GpuRegs.v
GpuSession.v
GpuTables.v
GpuLogic.v
GpuSafe.v
GpuFw.v
GpuStage3.v
GpuSafe3.v
GpuSmmu.v
Handoff.v
