(* ===== verification/Prelude.v ===== *)
(** * The q1n1 host tools: a verification development

    q1n1 is a fork of m1n1, a bare-metal playground for ARM machines.  A target
    runs the q1n1 payload; the Python host tools (src/proxyclient/m1n1 and
    src/tools) drive it over a byte stream: they frame requests, call remote
    functions by opcode, move memory in both directions, keep an allocator for
    target memory, describe hardware registers, and decode what they read.  This
    library models that host side and proves what makes it correct.

    ** Parts and how they interact

    - the byte stream: a serial port, a tty (q1n1proxy.Transport) or UDP datagrams
      (udplink.UdpTransport);
    - the framing on it, in two implementations: [UartInterface] of the m1n1
      client (proxy.py) and [Link] of the q1n1 client (q1n1proxy.py);
    - remote calls over the framing: [M1N1Proxy] (proxy.py), which allocates
      target buffers for its arguments in a [Heap] (malloc.py), and [Proxy]
      (q1n1proxy.py), which adds boot information, staged uploads and live reads;
    - address-range maps, registers and register maps (utils.py), and the
      hardware's register declarations (sysreg.py, hw);
    - I/O page tables (hw/dart8020.py, hw/dart8110.py, hw/dart.py), edited in target
      memory allocated from the [Heap], through which coprocessors see memory;
    - coprocessor protocols: the mailbox and its endpoints (hw/asc.py, fw/asc),
      which map buffers through the DART, the system management controller
      (fw/smc.py), the shared-memory ring buffers (fw/afk/rbep.py), the lock and the
      flush requests shared with the GPU firmware (fw/agx/handoff.py) and the message
      declarations of the firmware interfaces (fw, trace, hv);
    - the GPT survey (gpt_survey.py), which decodes a record fetched through the
      proxy;
    - tools that drive hardware through the proxy: the file preloader (preload.py),
      the NVMe driver (nvme_m3.py, nvme_rw.py) with its window and hash tools
      (nvme_window.py, nvme_hash.py), the xHCI host driver with its network
      session (a16xhci.py), and the GPU bring-up (a16gpu.py, a16gpu_stage3.py), which
      touches only registers of a registry (adreno_x2.py, adreno_x2_protect.py).

    ** Files

    - [Prelude]: exceptions, results, the state-and-exception monad [M] (a Python
      method on an object is [S -> result A * S]: state changes made before an
      exception stay), bytes, shared list and integer lemmas, the tactic [zbool].
    - [Bytes]: struct packing, slices, memory as a function, and the three
      checksum implementations (proxy.py [checksum]; q1n1proxy.py
      [checksum_reference] and the vectorised [checksum]).
    - [Malloc]: malloc.py [Heap]; block list as in the code, one definition per
      method.
    - [RangeMap]: utils.py [RangeMap] with its three parallel lists, [AddrLookup],
      [ScalarRangeMap], [BoolRangeMap], [DictRangeMap], [SetRangeMap].  Shared
      mutable values of the dictionary and set maps are values here: the code
      copies them on every split and insertion.
    - [Uart]: proxy.py [UartInterface]; the device is the list of blocks its reads
      return (an empty block is a timeout) and the list of written blocks.
    - [ProxyApi]: proxy.py [M1N1Proxy]; opcodes, [request], every remote method,
      over the class [ProxyIface], which [UartIface] implements by [Uart].
    - [Utils]: alignment, USB CRC-16, hexdump and unhex.
    - [Registers]: utils.py [Register], [RegAdapter], [NdRange], [RegMap],
      accessors over the class [RegBackend], with memory laws [RegMemory].
    - [RegTables], [RegMaps]: the register classes, enumerations and register maps
      of sysreg.py and hw, transcribed declaration by declaration.
    - [Dart]: DART8020, DART8110 and DART; the target's memory, the table cache and
      the heap are the state, one definition per step of the walks and of the
      mapping.  [DartMap]: the table-tree invariant and the refinement of
      DART8020.iomap_at.
    - [FwTables]: the message and register classes of fw, trace and hv,
      transcribed.
    - [Afk]: AFKRingBuf; the generator [read] is [read_next], from one [yield] to
      the next.
    - [Asc]: ASC, StandardASC, the system endpoints and SMCEndpoint; the mailbox is
      the list of what successive looks at it find, the endpoint objects are the
      constructors of [endpoint].
    - [Transport]: the classes [Transport] and [TransportLaws], the tty and UDP
      implementations.  [Ethlink]: raw Ethernet frames (ethlink.py).
    - [Q1n1Link]: q1n1proxy.py [Link] and [Proxy] over any [Transport].
    - [GptSurvey]: gpt_survey.py record parsing, GPT decoding and checking, free
      extents, device paths, raw captures.
    - [Target]: [TargetOps], what the tools use of the proxy, implemented by the
      q1n1 client, by plain memory, and by [env], a target that answers anything;
      [safe], a program logic over it.
    - [Preload]: preload.py manifests, memory regions, resident cache, cached copy.
    - [Sha256]: the digest the tools compare, with its published test vectors.
    - [Nvme]: the drivers [Nvme] and [WritableNvme]; [NvmeSafe]: what they can do to
      any target; [NvmeWrite]: what a write puts on the disk, by replaying the log
      through a controller; [NvmeSetup]: ACPI, SMMU and the choice of the DMA window,
      [adopt].
    - [NvmeHash]: nvme_hash.py (binding the stage, the native hash);
      [NvmeWindow]: nvme_window.py (packages, and the check, probe, apply and restore
      runs over the class [DiskOps]).
    - [Ncm]: the network code of a16xhci.py; [Xhci]: its class [XHCI] and [attach];
      [XhciRings]: the rings as queues; [XhciSafe]: confinement; [XhciLink]:
      [cmd_link].
    - [GpuRegs]: the registry, register by register, and the constants of
      adreno_x2.py; [GpuSession]: a16gpu.py (Session, the survey, cx-on, the guard, run),
      with the session as a record and [check_reg] for Session._check and
      Session3._check; [GpuTables]: PageTables and the walk; [GpuFw]: firmware images,
      RPMh votes, HFI tables and queues; [GpuStage3]: Session3 and every command of
      a16gpu_stage3.py.
    - [GpuLogic]: Hoare triples for sessions on [env], with every access judged against
      the history before it; [GpuSafe], [GpuSafe3]: what Stage 1 and Stage 3 may do;
      [GpuSmmu]: the order in which streams are connected.
    - [Handoff]: GFXHandoff, register by register of its page; the firmware is the class
      [GfxFirmware] (with [GfxFlush] for the flush requests), which takes its steps between
      any two accesses of the host; [dekker] is an instance.

    ** What the theorems show

    - Framing: [reply] finds its frame behind any noise without a frame mark,
      rejects every one-byte corruption of a reply behind its mark (the change of the
      command byte into the event code apart), and terminates; [readmem] and
      [writemem] transfer exactly the announced bytes, and a corrupted byte is
      detected when checksums are on; [Link.readmem] retries corrupted payloads
      over every lawful transport; live reads leave the negotiated mode as it was;
      splitting bulk writes changes nothing in memory.
    - Remote calls: bytes sent and verdict on the reply, end to end; argument
      buffers are released once all of them were prepared; opcodes agree with the target's enum; aligned
      accessors send aligned addresses only.
    - NVMe: on every target the driver is read-only, or writes only inside the
      enabled ranges ([_read_cmd] being called with a slot and a size of the layout,
      [read_cmd_unchecked]); a write that returns has put its data on the disk; the DMA
      window lies in free memory the SSD can reach; a window is published last; the
      native hash stays in its areas; accepted packages and stages are the pinned ones.
    - Preload: coverage is exact, an accepted cache is well formed, a copy is exact.
    - xHCI: a session writes only the registers the controller itself declared and its
      window, on every target; commands, transfers and events pass through the rings in order and once;
      transfer blocks and ICMPv6 messages arrive as sent, and parsing always ends.
    - GPU bring-up: whatever the target answers, Stage 1 and Stage 3 touch a register only
      behind evidence read in the same run, what the tools themselves wrote not counting
      without a read ([stage1_safe], [stage3_safe]), write memory only
      in an accepted arena, and an accepted arena is free memory ([arena_check_sound]); a
      context bank changes only while its stream is cut off, and the stream is enabled only
      after the bank was read back ([smmu_streams_ordered]); the
      page tables translate exactly what they were built for ([build_tables_exact]);
      firmware images are parsed exactly and loaded in bounds, queue messages round trip,
      no operating point is under-voted.
    - Allocator: reachable-state invariant, for positive sizes; malloc and memalign are sound, malloc
      is complete, free is exact and inverse to malloc.
    - Range maps: refinement of functions from addresses to values, the [OverflowError]
      of too long a zone included.
    - Registers: field laws at bit level, round trips, read-modify-write, exact
      lookup; all declared register classes and maps are consistent.
    - Page tables: translation is exact and changes only the cache, reads through
      it return the bytes the tables locate; iomap_at maps exactly the request and
      keeps every other translation of every stream.
    - Coprocessors: booting completes when the coprocessor reports it, an SMC
      command ends with its own reply, whatever other traffic comes between; a
      ring buffer is a queue (for every block size but 0x80); every declared message is well typed.  The host and the
      GPU firmware exclude each other under the handoff lock, for every interleaving; the
      lock's contended path never returns (a defect, [lock_outcome]); a flush request is
      published after its contents and completes ([flush_cycle]).
    - Transports: the UDP stream is faithful, with at most 8 MiB pending and a full
      interface queue at any datagram.
    - GPT survey: a decode without errors means consistent, checksummed tables
      with disjoint partitions, as far as the entry arrays were supplied; free extents
      are exact.
    - Utilities: the checksum implementations agree, the CRC table is the
      bit-serial CRC, unhex inverts hexdump, the alignment helpers are exact.
    Lemmas that record defects found on the way: [malloc_zero_aliases],
    [replace_inverted_zone_corrupts], [populate_open_slice_raises], [wait_and_handle_boot_after_reconnect],
    [request_leaks_on_bad_argument], [tunables_apply_local_addr_is_local],
    [missing_arrays_are_accepted], [ssm3515_rate_truncated], [xhci_rsvd0_lost],
    [remap_four_levels_fails], [page_zero_lost], [translate_truncates],
    [iomap_high_stream], [full_ring_looks_empty], [second_wrap_overwrites],
    [block_80_loses_rptr], [pmp_configure_type_lost], [dummy_endpoint_raises],
    [large_overlay_refused], [lost_event_stalls_receive],
    [control_takes_foreign_event], [scratchpads_unbounded], [ntb_long_table_raises],
    [ntb_signature_unchecked], [short_write_pads], [rsc_send_after_serror].

    ** Bounds and fuel

    Python integers are [Z]; struct codes check their range and raise, as the code
    does.  Loops without a structural measure take fuel and raise [OutOfFuel] only
    when it runs out: [reply_loop] needs more fuel than pending bytes
    ([reply_terminates] proves it suffices), [link_reply_loop] counts the reads a
    deadline allows, [readfull_loop] and the chunk loops take the data length, the
    bisection takes the list length.  The mailbox loops count looks at the outbox
    (one more than the messages that arrive is enough: [boot_completes],
    [smc_cmd_answered]), a ring's read counts messages.  Deadlines are the events of the device
    model: a read that would wait past its deadline is a timeout event.

    The tools' waiting loops (register waits, reaping completions, watching events)
    count looks at the target's clock, and the theorems about them hold for every
    fuel.  The stage 2 walk has four levels, a window check one pass per page, the
    search one candidate per step of a region ([window_search_ends]: never used up).
    Transfer blocks take their length ([parse_ntb_total]), the descriptor walk too
    ([walk_configuration_exact]), the Internet checksum the bits of its sum
    ([fold16_range]).  The GPU tools' polls count the reads the code's own limits allow,
    so they need no fuel; the spin loops of the handoff page take fuel ([flush_cycle]:
    enough exists; [lock_outcome]: none is enough); the block parser of the GMU firmware takes the image's length
    ([parse_gmu_fw_exact]: enough), the padding of a queue message four words.

    ** Not modelled

    Opening devices, interface discovery, command-line parsing, printing and
    interactive terminals (operating-system calls); tracers and hypervisor; the C and Rust
    target, of which only the opcode enum is transcribed.
    The parser of coprocessor crash logs and the floating-point SMC reads (construct
    library, printing).  Of the tools: building the hash helper (it runs compilers),
    nvme_hash_compare.py, the reports of nvme_m3.py and of the other a16xhci.py
    commands, a16ncm.py and a16ucsi.py.  Of the GPU tools: the JSON report, its summary and
    the checkpoint file, the x290 option (a16gpu_x290.py), and the tools on top of Stage 3
    (a16gpu_p6p7.py, a16gpu_render.py, a16gpu_adopt.py, a16gpu_ddr.py, a16gpu_llcc.py,
    a16gpu_replay.py), which build command streams and shaders or survey memory; the AGX
    driver (m1n1/agx, and fw/agx except handoff.py).
    Also left out: the UAT page tables, the AFK endpoint and EPIC on the ring
    buffers, the device-tree parser, chexdump and chexundump, the system-register
    name parser. *)

From Stdlib Require Import ZArith Lia Bool.
From Stdlib Require Import Strings.Byte.
From stdpp Require Import base option list list_numbers numbers strings gmap.

#[global] Open Scope Z_scope.

(** ** Python exceptions *)

(** The exceptions the modelled code raises.  A string is the fixed part of the
    message, an integer the value the message prints (a status, an address). *)
Inductive exn :=
| ValueError (msg : string)
| TypeError (msg : string)
| KeyError (msg : string)
| NameError (msg : string)
| AttributeError (msg : string)
| IndexError
| ZeroDivisionError
| AssertionError
| StructError
| OverflowError
| OSError (errno : Z)
| GenericException (msg : string)
| UartTimeout
| UartCMDError (expected got : Z)
| UartChecksumError
| UartRemoteError (status : Z)
| ProxyReplyError
| ProxyRemoteError (status : Z)
| ProxyCommandError
| AlignmentError
| ProxyTimeout
| ProxyError (msg : string)
| SurveyError (msg : string)
| Stop (msg : string)
| Misbehaved (msg : string)
| Refused (msg : string)
| UdpError (msg : string)
| EthError (msg : string)
| XHCIError (msg : string)
| SErrorStop (msg : string)
| AbortStop (msg : string)
| PollTimeout (reg : string)
| GuardMissing (msg : string)
| TimeoutError
| OutOfFuel.

#[global] Instance exn_eq_dec : EqDecision exn.
Proof. solve_decision. Defined.

(** A Python call returns a value or raises. *)
Inductive result (A : Type) :=
| Ok (a : A)
| Raise (e : exn).
Arguments Ok {A} a.
Arguments Raise {A} e.

Definition rbind {A B} (m : result A) (k : A -> result B) : result B :=
  match m with Ok a => k a | Raise e => Raise e end.

Lemma Ok_inj {A} (a b : A) : Ok a = Ok b -> a = b.
Proof. by intros [= ->]. Qed.

Definition is_ok {A} (r : result A) : bool :=
  match r with Ok _ => true | Raise _ => false end.

Definition rassert (b : bool) : result unit :=
  if b then Ok tt else Raise AssertionError.

Declare Scope py_scope.
Delimit Scope py_scope with py.
#[global] Open Scope py_scope.

Notation "'let?' x ':=' m 'in' k" := (rbind m (fun x => k))
  (at level 10, x binder, m at level 100, k at level 200) : py_scope.

(** ** Stateful code: state passing with exceptions.
    The state survives an exception, as the Python objects do. *)
Definition M (S A : Type) : Type := S -> result A * S.

Definition py_ret {S A} (a : A) : M S A := fun s => (Ok a, s).
Definition py_raise {S A} (e : exn) : M S A := fun s => (Raise e, s).
Definition py_bind {S A B} (m : M S A) (k : A -> M S B) : M S B :=
  fun s => match m s with
           | (Ok a, s') => k a s'
           | (Raise e, s') => (Raise e, s')
           end.
Definition py_get {S A} (f : S -> A) : M S A := fun s => (Ok (f s), s).
Definition py_modify {S} (f : S -> S) : M S unit := fun s => (Ok tt, f s).
Definition py_lift {S A} (r : result A) : M S A := fun s => (r, s).

(** [try: m finally: f]: [f] runs whatever [m] did; an exception of [f] wins. *)
Definition py_finally {S A} (m : M S A) (f : M S unit) : M S A :=
  fun s => let '(r, s') := m s in
           match f s' with
           | (Ok _, s'') => (r, s'')
           | (Raise e, s'') => (Raise e, s'')
           end.

(** [try: m except E: h] for the exceptions [p] selects. *)
Definition py_catch {S A} (m : M S A) (p : exn -> bool) (h : M S A) : M S A :=
  fun s => match m s with
           | (Ok a, s') => (Ok a, s')
           | (Raise e, s') => if p e then h s' else (Raise e, s')
           end.

(** [try: m except E: h; raise] for the exceptions [p] selects. *)
Definition py_reraise {S A} (m : M S A) (p : exn -> bool) (h : M S unit) : M S A :=
  fun s => match m s with
           | (Ok a, s') => (Ok a, s')
           | (Raise e, s') =>
               if p e then match h s' with (Ok _, s'') => (Raise e, s'') | (Raise e', s'') => (Raise e', s'') end
               else (Raise e, s')
           end.

Notation "'let!' x ':=' m 'in' k" := (py_bind m (fun x => k))
  (at level 10, x binder, m at level 100, k at level 200) : py_scope.
Notation "m ';;;' k" := (py_bind m (fun _ => k))
  (at level 199, right associativity) : py_scope.

Lemma py_bind_ok {S A B} (m : M S A) (k : A -> M S B) s a s' :
  m s = (Ok a, s') -> (let! x := m in k x) s = k a s'.
Proof. unfold py_bind. by intros ->. Qed.

Lemma py_bind_raise {S A B} (m : M S A) (k : A -> M S B) s e s' :
  m s = (Raise e, s') -> (let! x := m in k x) s = (Raise e, s').
Proof. unfold py_bind. by intros ->. Qed.

Lemma py_bind_inv {S A B} (m : M S A) (k : A -> M S B) s x s' :
  py_bind m k s = (Ok x, s') -> exists a s1, m s = (Ok a, s1) /\ k a s1 = (Ok x, s').
Proof. unfold py_bind. destruct (m s) as [[a|e] s1]; [|done]. eauto. Qed.

(** ** Bytes *)
Abbreviation byte := Byte.byte.
Abbreviation bytes := (list Byte.byte).

Definition byte_to_Z (b : byte) : Z := Z.of_N (Byte.to_N b).
Definition byte_of_Z (z : Z) : byte :=
  match Byte.of_N (Z.to_N (z mod 256)) with Some b => b | None => Byte.x00 end.

#[global] Instance byte_eq_decision : EqDecision byte := Byte.byte_eq_dec.

Definition bytes_eqb (a b : bytes) : bool := bool_decide (a = b).

Lemma byte_to_Z_range b : 0 <= byte_to_Z b < 256.
Proof. unfold byte_to_Z. pose proof (Byte.to_N_bounded b). lia. Qed.

Lemma byte_of_to_Z b : byte_of_Z (byte_to_Z b) = b.
Proof.
  unfold byte_of_Z. rewrite Z.mod_small by apply byte_to_Z_range.
  unfold byte_to_Z. by rewrite N2Z.id, Byte.of_to_N.
Qed.

Lemma byte_to_of_Z z : byte_to_Z (byte_of_Z z) = z mod 256.
Proof.
  unfold byte_of_Z, byte_to_Z.
  pose proof (Z.mod_pos_bound z 256 ltac:(lia)) as Hb.
  destruct (Byte.of_N (Z.to_N (z mod 256))) as [b|] eqn:E.
  - apply Byte.to_of_N in E. rewrite E. lia.
  - apply Byte.of_N_None_iff in E. lia.
Qed.

Lemma byte_to_Z_inj a b : byte_to_Z a = byte_to_Z b -> a = b.
Proof. intros H. rewrite <- (byte_of_to_Z a), <- (byte_of_to_Z b). by rewrite H. Qed.

(** ** Proof automation *)
Create HintDb q1n1.
Create Rewrite HintDb q1n1_len.
Create Rewrite HintDb q1n1_u32.

(** Split every [match]/[if] of a hypothesis equation, keeping the equations. *)
Ltac case_hyp H :=
  repeat (simpl in H;
          match type of H with
          | context [match ?x with _ => _ end] => destruct x eqn:?; try discriminate H
          end).

(** Turn boolean comparisons on [Z] into propositions everywhere. *)
Ltac zbool :=
  repeat match goal with
  | H : (_ && _)%bool = true |- _ => apply andb_true_iff in H; destruct H
  | H : (_ || _)%bool = false |- _ => apply orb_false_iff in H; destruct H
  | H : negb _ = true |- _ => apply negb_true_iff in H
  | H : negb _ = false |- _ => apply negb_false_iff in H
  | H : (_ <? _) = true |- _ => apply Z.ltb_lt in H
  | H : (_ <? _) = false |- _ => apply Z.ltb_ge in H
  | H : (_ <=? _) = true |- _ => apply Z.leb_le in H
  | H : (_ <=? _) = false |- _ => apply Z.leb_gt in H
  | H : (_ =? _) = true |- _ => apply Z.eqb_eq in H
  | H : (_ =? _) = false |- _ => apply Z.eqb_neq in H
  | H : bool_decide _ = true |- _ => apply bool_decide_eq_true in H
  | H : bool_decide _ = false |- _ => apply bool_decide_eq_false in H
  end.

(** ** Integers and lists shared by the components *)

Definition zlen {A} (l : list A) : Z := Z.of_nat (length l).

Lemma zlen_nonneg {A} (l : list A) : 0 <= zlen l.
Proof. unfold zlen. lia. Qed.

Lemma zlen_app {A} (l k : list A) : zlen (l ++ k) = zlen l + zlen k.
Proof. unfold zlen. rewrite length_app. lia. Qed.

(** Python's [l.insert(i, x)] for an index inside the list. *)
Definition py_insert {A} (i : nat) (x : A) (l : list A) : list A :=
  take i l ++ x :: drop i l.

(** Python's [del l[i]]. *)
Definition py_del {A} (i : nat) (l : list A) : list A :=
  take i l ++ drop (S i) l.

Lemma py_insert_mid {A} (pre : list A) x post :
  py_insert (length pre) x (pre ++ post) = pre ++ x :: post.
Proof. unfold py_insert. by rewrite take_app_length, drop_app_length. Qed.

Lemma py_del_mid {A} (pre : list A) x post :
  py_del (length pre) (pre ++ x :: post) = pre ++ post.
Proof.
  unfold py_del. rewrite take_app_length. f_equal.
  replace (S (length pre)) with (length (pre ++ [x])) by (rewrite length_app; simpl; lia).
  change (x :: post) with ([x] ++ post). by rewrite app_assoc, drop_app_length.
Qed.

Lemma insert_mid {A} (pre : list A) x y post :
  <[length pre := y]> (pre ++ x :: post) = pre ++ y :: post.
Proof. rewrite insert_app_r_alt by lia. by rewrite Nat.sub_diag. Qed.

Lemma lookup_mid {A} (pre : list A) x post :
  (pre ++ x :: post) !! length pre = Some x.
Proof. rewrite lookup_app_r by lia. by rewrite Nat.sub_diag. Qed.

(** Python's floor alignment arithmetic is [Z.div]/[Z.modulo]. *)
Lemma mod_div_exact a b : 0 < b -> a mod b = 0 -> b * (a / b) = a.
Proof. intros Hb H. pose proof (Z.div_mod a b). lia. Qed.
