(* ===== verification/Bytes.v ===== *)
(** * Byte strings: Python's [struct], [bytes] and the proxy checksum

    What the host tools use of Python's [struct] module (little-endian packing
    of 8- to 64-bit integers with its range errors), of [bytes] (slices,
    [ljust]), and the m1n1 data checksum, in the three forms the source has:
    [UartInterface.checksum], [checksum_reference] and the numpy [checksum] of
    tools/q1n1proxy.py. *)

From S2P Require Import Prelude.
From Stdlib Require Import ZArith Lia.
From Stdlib Require Import Strings.Byte.
From stdpp Require Import base list numbers strings.

Local Open Scope Z_scope.

(** ** Little-endian integers *)

Fixpoint le_bytes (n : nat) (z : Z) : bytes :=
  match n with
  | O => []
  | S k => byte_of_Z z :: le_bytes k (z / 256)
  end.

Fixpoint le_Z (bs : bytes) : Z :=
  match bs with
  | [] => 0
  | b :: r => byte_to_Z b + 256 * le_Z r
  end.

Lemma length_le_bytes n z : length (le_bytes n z) = n.
Proof. revert z. induction n; intros; simpl; auto. Qed.

Lemma le_Z_le_bytes n z : le_Z (le_bytes n z) = z mod 256 ^ Z.of_nat n.
Proof.
  revert z. induction n as [|n IH]; intros z.
  - by rewrite Z.mod_1_r.
  - cbn [le_bytes le_Z]. rewrite IH, byte_to_of_Z.
    rewrite Nat2Z.inj_succ, Z.pow_succ_r by lia.
    rewrite Z.rem_mul_r by lia. lia.
Qed.

Lemma le_Z_range bs : 0 <= le_Z bs < 256 ^ zlen bs.
Proof.
  unfold zlen. induction bs as [|b bs IH]; [simpl; lia|].
  cbn [le_Z length]. rewrite Nat2Z.inj_succ, Z.pow_succ_r by lia.
  pose proof (byte_to_Z_range b). lia.
Qed.

Lemma le_bytes_le_Z bs n : length bs = n -> le_bytes n (le_Z bs) = bs.
Proof.
  intros <-. induction bs as [|b bs IH]; [done|]. cbn [length le_bytes le_Z].
  pose proof (byte_to_Z_range b).
  f_equal.
  - apply byte_to_Z_inj. rewrite byte_to_of_Z.
    rewrite Z.mul_comm, Z_mod_plus_full, Z.mod_small; lia.
  - rewrite Z.mul_comm, Z.div_add, Z.div_small, Z.add_0_l by lia. exact IH.
Qed.

Lemma le_bytes_inj n a b :
  0 <= a < 256 ^ Z.of_nat n -> 0 <= b < 256 ^ Z.of_nat n ->
  le_bytes n a = le_bytes n b -> a = b.
Proof.
  intros Ha Hb H. apply (f_equal le_Z) in H. rewrite !le_Z_le_bytes in H.
  by rewrite !Z.mod_small in H.
Qed.

Lemma le_Z_small n z : 0 <= z < 256 ^ Z.of_nat n -> le_Z (le_bytes n z) = z.
Proof. intros H. by rewrite le_Z_le_bytes, Z.mod_small. Qed.

(** ** [struct.pack] and [struct.unpack] *)

(** One unsigned field of [n] bytes ([B], [H], [I], [Q]); out of range raises. *)
Definition pack_u (n : nat) (z : Z) : result bytes :=
  if (0 <=? z) && (z <? 256 ^ Z.of_nat n) then Ok (le_bytes n z) else Raise StructError.

Definition pack_I := pack_u 4.
Definition pack_Q := pack_u 8.

(** Two's complement reading of an [n]-byte field ([i], [q]). *)
Definition to_signed (n : nat) (z : Z) : Z :=
  if z <? 256 ^ Z.of_nat n / 2 then z else z - 256 ^ Z.of_nat n.

Fixpoint pack_Qs (l : list Z) : result bytes :=
  match l with
  | [] => Ok []
  | z :: r => let? a := pack_Q z in let? b := pack_Qs r in Ok (a ++ b)
  end.

(** Python's [bs[i:j]] for [0 <= i <= j]. *)
Definition slice (i j : nat) (bs : bytes) : bytes := take (j - i) (drop i bs).

(** [struct.unpack_from] of one unsigned [n]-byte field at offset [off]:
    raises when the buffer is too short. *)
Definition unpack_u (n off : nat) (bs : bytes) : result Z :=
  if decide (off + n <= length bs)%nat then Ok (le_Z (slice off (off + n) bs)) else Raise StructError.

(** [struct.unpack_from('<kQ')]: [k] consecutive u64 at offset [off]. *)
Fixpoint unpack_Qs (k off : nat) (bs : bytes) : result (list Z) :=
  match k with
  | O => Ok []
  | S k' => let? v := unpack_u 8 off bs in
            let? r := unpack_Qs k' (off + 8) bs in Ok (v :: r)
  end.

(** [b.ljust(n, b'\0')]. *)
Definition ljust (n : nat) (bs : bytes) : bytes := bs ++ replicate (n - length bs) Byte.x00.

Lemma length_ljust n bs : (length bs <= n)%nat -> length (ljust n bs) = n.
Proof. intros. unfold ljust. rewrite length_app, length_replicate. lia. Qed.

Lemma pack_u_ok n z : 0 <= z < 256 ^ Z.of_nat n -> pack_u n z = Ok (le_bytes n z).
Proof.
  intros H. unfold pack_u.
  destruct (0 <=? z) eqn:?, (z <? 256 ^ Z.of_nat n) eqn:?; zbool; simpl; auto; lia.
Qed.

Lemma pack_u_inv n z bs :
  pack_u n z = Ok bs -> 0 <= z < 256 ^ Z.of_nat n /\ bs = le_bytes n z.
Proof. unfold pack_u. intros H. case_hyp H. zbool. injection H as <-. auto. Qed.

Lemma slice_app_mid n (a b c : bytes) :
  length a = n -> slice n (n + length b) (a ++ b ++ c) = b.
Proof.
  intros <-. unfold slice. rewrite drop_app_length.
  replace (length a + length b - length a)%nat with (length b) by lia.
  apply take_app_length.
Qed.

Lemma slice_mid i j (a b d : bytes) : length a = i -> j = (i + length b)%nat -> slice i j (a ++ b ++ d) = b.
Proof. intros Ha ->. by apply slice_app_mid. Qed.

Lemma unpack_u_app n off (a b c : bytes) :
  length a = off -> length b = n -> unpack_u n off (a ++ b ++ c) = Ok (le_Z b).
Proof.
  intros Ha Hb. unfold unpack_u.
  rewrite decide_True by (rewrite !length_app; lia).
  rewrite <- Hb. by rewrite slice_app_mid.
Qed.

Lemma unpack_u_le_bytes n off (a c : bytes) z :
  length a = off -> 0 <= z < 256 ^ Z.of_nat n ->
  unpack_u n off (a ++ le_bytes n z ++ c) = Ok z.
Proof.
  intros Ha Hz. rewrite unpack_u_app; auto using length_le_bytes.
  by rewrite le_Z_small.
Qed.

Lemma unpack_u_range n off bs v : unpack_u n off bs = Ok v -> 0 <= v < 256 ^ Z.of_nat n.
Proof.
  unfold unpack_u. intros H. case_hyp H. injection H as <-.
  pose proof (le_Z_range (slice off (off + n) bs)) as Hr.
  unfold zlen, slice in *. rewrite length_take, length_drop in Hr.
  replace (off + n - off)%nat with n in * by lia.
  by replace (n `min` (length bs - off))%nat with n in Hr by lia.
Qed.

Lemma pack_Qs_length l bs : pack_Qs l = Ok bs -> length bs = (8 * length l)%nat.
Proof.
  revert bs. induction l as [|z l IH]; intros bs H; simpl in H.
  - by injection H as <-.
  - destruct (pack_Q z) as [a|] eqn:Ha; [|discriminate H]. simpl in H.
    destruct (pack_Qs l) as [b|] eqn:Hb; [|discriminate H]. simpl in H. injection H as <-.
    apply pack_u_inv in Ha as [_ ->].
    rewrite length_app, length_le_bytes, (IH b) by done. simpl. lia.
Qed.

(** Packing then unpacking a vector of u64 is the identity. *)
Lemma unpack_Qs_pack l bs pre post :
  pack_Qs l = Ok bs ->
  unpack_Qs (length l) (length pre) (pre ++ bs ++ post) = Ok l.
Proof.
  revert bs pre. induction l as [|z l IH]; intros bs pre H; simpl in *; [done|].
  destruct (pack_Q z) as [a|] eqn:Ha; [|discriminate H]. simpl in H.
  destruct (pack_Qs l) as [b|] eqn:Hb; [|discriminate H]. simpl in H. injection H as <-.
  apply pack_u_inv in Ha as [Hz ->].
  rewrite <- app_assoc, unpack_u_le_bytes by done. cbn [rbind].
  specialize (IH b (pre ++ le_bytes 8 z) eq_refl).
  rewrite <- app_assoc, length_app, length_le_bytes in IH. rewrite IH. done.
Qed.

Lemma pack_Qs_ok l :
  Forall (fun z => 0 <= z < 2 ^ 64) l -> exists bs, pack_Qs l = Ok bs.
Proof.
  induction 1 as [|z l Hz _ [bs IH]]; simpl; [by eexists|].
  unfold pack_Q. rewrite pack_u_ok by (simpl; lia). simpl. rewrite IH. simpl. by eexists.
Qed.

#[export] Hint Rewrite length_le_bytes @length_app @length_take @length_drop
  @length_replicate @length_cons : q1n1_len.

(** ** Byte memory *)
Definition mem_read (s : Z -> byte) (a : Z) (n : nat) : bytes := map (fun i => s (a + Z.of_nat i)) (seq 0 n).
Definition mem_store (a : Z) (d : bytes) (s : Z -> byte) : Z -> byte := fun x =>
  match (if a <=? x then d !! Z.to_nat (x - a) else None) with Some b => b | None => s x end.

Lemma length_mem_read s a n : length (mem_read s a n) = n.
Proof. unfold mem_read. by rewrite length_map, length_seq. Qed.

Lemma lookup_mem_read s a n i : (i < n)%nat -> mem_read s a n !! i = Some (s (a + Z.of_nat i)).
Proof. intros Hi. unfold mem_read. rewrite list_lookup_fmap, lookup_seq_lt by done. done. Qed.

Lemma lookup_slice i j k (d : bytes) : (k < j - i)%nat -> slice i j d !! k = d !! (i + k)%nat.
Proof. intros H. unfold slice. rewrite lookup_take_lt by done. apply lookup_drop. Qed.

Lemma mem_read_slice s a n i j : (i + j <= n)%nat -> slice i (i + j) (mem_read s a n) = mem_read s (a + Z.of_nat i) j.
Proof.
  intros H. assert (Hl : length (slice i (i + j) (mem_read s a n)) = j) by (unfold slice; rewrite length_take, length_drop, length_mem_read; lia).
  apply list_eq. intros k. destruct (decide (k < j)%nat).
  - rewrite lookup_slice, !lookup_mem_read by lia. do 2 f_equal. lia.
  - rewrite !lookup_ge_None_2 by (rewrite ?length_mem_read; lia). done.
Qed.

Lemma mem_read_store s a d : mem_read (mem_store a d s) a (length d) = d.
Proof.
  apply list_eq. intros i. destruct (decide (i < length d)%nat) as [Hi|Hi].
  - rewrite lookup_mem_read by done. unfold mem_store. rewrite (proj2 (Z.leb_le _ _)) by lia.
    replace (Z.to_nat (a + Z.of_nat i - a)) with i by lia. by destruct (lookup_lt_is_Some_2 d i Hi) as [b ->].
  - rewrite !lookup_ge_None_2; [done|lia|rewrite length_mem_read; lia].
Qed.

Lemma mem_read_store_apart s a d a' n :
  a + zlen d <= a' \/ a' + Z.of_nat n <= a -> mem_read (mem_store a d s) a' n = mem_read s a' n.
Proof.
  unfold zlen. intros Hap. unfold mem_read. apply map_ext_in. intros i Hi. apply in_seq in Hi. unfold mem_store.
  destruct (Z.leb_spec a (a' + Z.of_nat i)); [|done]. by rewrite lookup_ge_None_2 by lia.
Qed.

Lemma mem_store_app a (d e : bytes) (s : Z -> byte) x :
  mem_store (a + zlen d) e (mem_store a d s) x = mem_store a (d ++ e) s x.
Proof.
  unfold mem_store, zlen. destruct (Z.leb_spec a x) as [Hx|Hx].
  - destruct (Z.leb_spec (a + Z.of_nat (length d)) x).
    + rewrite lookup_app_r by lia. replace (Z.to_nat (x - a) - length d)%nat with (Z.to_nat (x - (a + Z.of_nat (length d)))) by lia.
      destruct (e !! _); [done|]. by rewrite lookup_ge_None_2 by lia.
    + by rewrite lookup_app_l by lia.
  - by rewrite (proj2 (Z.leb_gt _ _)) by lia.
Qed.

(** ** The m1n1 checksum *)

(** proxyclient/m1n1/proxy.py [UartInterface.checksum]: one step of the loop. *)
Definition uart_checksum_step (sum : Z) (c : byte) : Z :=
  let sum := sum * 31337 in
  let sum := sum + Z.lxor (byte_to_Z c) 0x5a in
  Z.land sum 0xFFFFFFFF.

Definition uart_checksum (data : bytes) : Z :=
  Z.land (Z.lxor (fold_left uart_checksum_step data 0xDEADBEEF) 0xADDEDBAD) 0xFFFFFFFF.

(** tools/q1n1proxy.py [checksum_reference]. *)
Definition checksum_reference (data : bytes) (value : Z) : Z :=
  Z.lxor (fold_left (fun value b => Z.land (value * 31337 + Z.lxor (byte_to_Z b) 0x5A) 0xFFFFFFFF)
            data value) 0xADDEDBAD.

(** tools/q1n1proxy.py [checksum]: the numpy path, with its arithmetic in
    wrapping uint32.  [_checksum_powers] is the table 31337^k mod 2^32. *)
Definition u32 (z : Z) : Z := z mod 2 ^ 32.

Definition CHECKSUM_BLOCK : nat := (2 ^ 16)%nat.

Fixpoint cumprod_from (acc : Z) (l : list Z) : list Z :=
  match l with
  | [] => []
  | x :: r => let a := u32 (acc * x) in a :: cumprod_from a r
  end.

(** [powers = full(BLOCK + 1, 31337); powers[0] = 1; cumprod(powers)]. *)
Definition checksum_powers (block : nat) : list Z :=
  cumprod_from 1 (<[0%nat := 1]> (replicate (block + 1) 31337)).

(** [sum(dtype=uint32)] of the terms [(block ^ 0x5A) * powers[size - 1::-1]]. *)
Definition block_total (powers : list Z) (blk : bytes) : Z :=
  fold_left (fun a t => u32 (a + t))
    (zip_with (fun b p => u32 (Z.lxor (byte_to_Z b) 0x5A * p)) blk
       (reverse (take (length blk) powers))) 0.

Fixpoint checksum_blocks (fuel : nat) (block : nat) (powers : list Z) (view : bytes) (value : Z) : Z :=
  match fuel with
  | O => value
  | S k =>
      match view with
      | [] => value
      | _ => let blk := take block view in
             let size := length blk in
             let value := Z.land (value * (powers !!! size) + block_total powers blk) 0xFFFFFFFF in
             checksum_blocks k block powers (drop block view) value
      end
  end.

(** [have_numpy] is whether [import numpy] succeeded. *)
Definition checksum (have_numpy : bool) (data : bytes) (value : Z) : Z :=
  if negb have_numpy || (zlen data <? 4096) then checksum_reference data value
  else Z.lxor (checksum_blocks (length data) CHECKSUM_BLOCK (checksum_powers CHECKSUM_BLOCK) data value)
         0xADDEDBAD.

(** ** The checksum implementations agree *)

(** The data byte as the recurrence sees it, and the weighted sum the
    recurrence unrolls to. *)
Definition csum_digit (b : byte) : Z := Z.lxor (byte_to_Z b) 0x5A.

Fixpoint weighted (bs : bytes) : Z :=
  match bs with
  | [] => 0
  | b :: r => csum_digit b * 31337 ^ zlen r + weighted r
  end.

Lemma land_u32 z : Z.land z 0xFFFFFFFF = u32 z.
Proof. change 0xFFFFFFFF with (Z.ones 32). by rewrite Z.land_ones. Qed.

Lemma u32_range z : 0 <= u32 z < 2 ^ 32.
Proof. apply Z.mod_pos_bound. lia. Qed.

Lemma u32_small z : 0 <= z < 2 ^ 32 -> u32 z = z.
Proof. apply Z.mod_small. Qed.

Lemma u32_add_l a b : u32 (u32 a + b) = u32 (a + b).
Proof. apply Zplus_mod_idemp_l. Qed.
Lemma u32_add_r a b : u32 (a + u32 b) = u32 (a + b).
Proof. apply Zplus_mod_idemp_r. Qed.
Lemma u32_mul_l a b : u32 (u32 a * b) = u32 (a * b).
Proof. apply Zmult_mod_idemp_l. Qed.
Lemma u32_mul_r a b : u32 (a * u32 b) = u32 (a * b).
Proof. apply Zmult_mod_idemp_r. Qed.
#[export] Hint Rewrite u32_add_l u32_add_r u32_mul_l u32_mul_r : q1n1_u32.

Lemma u32_fma_l a k b : u32 (u32 a * k + b) = u32 (a * k + b).
Proof. by rewrite <- u32_add_l, u32_mul_l, u32_add_l. Qed.

Lemma u32_fma_r a k b : u32 (a * u32 k + b) = u32 (a * k + b).
Proof. by rewrite <- u32_add_l, u32_mul_r, u32_add_l. Qed.

Lemma u32_add_cong a b c : u32 b = u32 c -> u32 (a + b) = u32 (a + c).
Proof. intros H. by rewrite <- (u32_add_r a b), H, u32_add_r. Qed.

Definition csum_step (v : Z) (b : byte) : Z := Z.land (v * 31337 + csum_digit b) 0xFFFFFFFF.

Lemma csum_fold_weighted bs v :
  u32 (fold_left csum_step bs v) = u32 (v * 31337 ^ zlen bs + weighted bs).
Proof.
  revert v. induction bs as [|b bs IH]; intros v.
  - change (zlen []) with 0. cbn [fold_left weighted]. f_equal. lia.
  - cbn [fold_left weighted]. rewrite IH. unfold csum_step. rewrite land_u32, u32_fma_l.
    replace (zlen (b :: bs)) with (zlen bs + 1) by (unfold zlen; simpl; lia).
    rewrite Z.pow_add_r by (unfold zlen; lia). f_equal. lia.
Qed.

Lemma csum_fold_range bs v : 0 <= v < 2 ^ 32 -> 0 <= fold_left csum_step bs v < 2 ^ 32.
Proof.
  revert v. induction bs as [|b bs IH]; intros v Hv; [done|].
  cbn [fold_left]. apply IH. unfold csum_step. rewrite land_u32. apply u32_range.
Qed.

Lemma cumprod_lookup m c acc k :
  (k < m)%nat -> cumprod_from acc (replicate m c) !! k = Some (u32 (acc * c ^ (Z.of_nat k + 1))).
Proof.
  revert acc k. induction m as [|m IH]; intros acc k Hk; [lia|].
  destruct k as [|k]; cbn [replicate cumprod_from lookup list_lookup].
  - by rewrite Z.add_0_l, Z.pow_1_r.
  - rewrite IH by lia. rewrite u32_mul_l.
    replace (Z.of_nat (S k) + 1) with (1 + (Z.of_nat k + 1)) by lia.
    rewrite (Z.pow_add_r c 1) by lia. rewrite Z.pow_1_r. do 2 f_equal. lia.
Qed.

Lemma checksum_powers_lookup block k :
  (k <= block)%nat -> checksum_powers block !! k = Some (u32 (31337 ^ Z.of_nat k)).
Proof.
  intros Hk. unfold checksum_powers. rewrite Nat.add_1_r.
  cbn [replicate insert list_insert cumprod_from]. change (u32 (1 * 1)) with 1.
  destruct k as [|k]; [done|]. cbn [lookup list_lookup].
  rewrite cumprod_lookup by lia. do 2 f_equal. rewrite Nat2Z.inj_succ. f_equal. lia.
Qed.

Lemma fold_u32_add l a : fold_left (fun a t => u32 (a + t)) l (u32 a) = u32 (a + fold_right Z.add 0 l).
Proof.
  revert a. induction l as [|t l IH]; intros a; cbn [fold_left fold_right].
  - f_equal. lia.
  - rewrite u32_add_l, IH. f_equal. lia.
Qed.

Lemma block_terms_sum block blk :
  (length blk <= block)%nat ->
  u32 (fold_right Z.add 0
        (zip_with (fun b p => u32 (csum_digit b * p)) blk
           (reverse (take (length blk) (checksum_powers block))))) = u32 (weighted blk).
Proof.
  induction blk as [|b blk IH]; intros Hl; [done|]. cbn [length] in *.
  rewrite (take_S_r _ _ _ (checksum_powers_lookup block (length blk) ltac:(lia))).
  rewrite reverse_snoc. cbn [zip_with fold_right weighted].
  rewrite u32_add_l, u32_fma_r. apply u32_add_cong, IH. lia.
Qed.

Lemma block_total_weighted block blk :
  (length blk <= block)%nat -> block_total (checksum_powers block) blk = u32 (weighted blk).
Proof.
  intros Hl. unfold block_total. change 0 with (u32 0) at 1.
  rewrite fold_u32_add, Z.add_0_l. by apply block_terms_sum.
Qed.

Lemma checksum_blocks_fold fuel block view v :
  (0 < block)%nat -> (length view <= fuel)%nat -> 0 <= v < 2 ^ 32 ->
  checksum_blocks fuel block (checksum_powers block) view v = fold_left csum_step view v.
Proof.
  intros Hb. revert view v. induction fuel as [|fuel IH]; intros view v Hf Hv.
  - destruct view; simpl in *; [done|lia].
  - destruct view as [|b view]; [done|]. cbn [checksum_blocks].
    set (w := b :: view) in *.
    assert (Hlen : (length (take block w) <= block)%nat) by (rewrite length_take; lia).
    rewrite land_u32, block_total_weighted by done.
    rewrite (list_lookup_total_correct _ _ _ (checksum_powers_lookup block _ Hlen)).
    rewrite u32_add_r, u32_fma_r.
    fold (zlen (take block w)). rewrite <- csum_fold_weighted.
    rewrite u32_small by (by apply csum_fold_range).
    rewrite IH; [|rewrite length_drop; subst w; simpl in *; lia|by apply csum_fold_range].
    by rewrite <- fold_left_app, take_drop.
Qed.

Lemma uart_checksum_as_fold data :
  uart_checksum data = u32 (Z.lxor (fold_left csum_step data 0xDEADBEEF) 0xADDEDBAD).
Proof. unfold uart_checksum. by rewrite land_u32. Qed.

Lemma lxor_u32 a b : 0 <= a < 2 ^ 32 -> 0 <= b < 2 ^ 32 -> 0 <= Z.lxor a b < 2 ^ 32.
Proof.
  intros Ha Hb. split.
  - apply Z.lxor_nonneg. lia.
  - destruct (Z.eq_dec (Z.lxor a b) 0) as [->|Hn]; [lia|].
    apply Z.log2_lt_pow2.
    + pose proof (proj2 (Z.lxor_nonneg a b) ltac:(lia)). lia.
    + eapply Z.le_lt_trans; [apply Z.log2_lxor; lia|].
      assert (Hlog : forall x, 0 <= x < 2 ^ 32 -> Z.log2 x < 32).
      { intros x Hx. destruct (Z.eq_dec x 0) as [->|]; [simpl; lia|]. apply Z.log2_lt_pow2; lia. }
      pose proof (Hlog a Ha). pose proof (Hlog b Hb). lia.
Qed.

Lemma uart_checksum_fold data :
  uart_checksum data = Z.lxor (fold_left csum_step data 0xDEADBEEF) 0xADDEDBAD.
Proof.
  rewrite uart_checksum_as_fold. apply u32_small, lxor_u32; [|lia].
  apply csum_fold_range. lia.
Qed.

Lemma uart_checksum_range data : 0 <= uart_checksum data < 2 ^ 32.
Proof. rewrite uart_checksum_as_fold. apply u32_range. Qed.
#[export] Hint Resolve uart_checksum_range : q1n1.

(** A single corrupted byte always changes the checksum: the multiplier 31337 is
    odd, hence a unit modulo 2^32, and the byte map is injective below 2^32. *)
Lemma csum_step_inj v w b : u32 (csum_step v b) = u32 (csum_step w b) -> u32 v = u32 w.
Proof.
  unfold csum_step. rewrite !land_u32, !(u32_small (u32 _)) by apply u32_range. intros H.
  assert (Hu : forall x, u32 x = u32 ((x * 31337 + csum_digit b - csum_digit b) * 3341596121)).
  { intros x. replace (x * 31337 + csum_digit b - csum_digit b) with (x * 31337) by lia.
    rewrite <- Z.mul_assoc, <- u32_mul_r.
    replace (u32 (31337 * 3341596121)) with 1 by reflexivity. by rewrite Z.mul_1_r. }
  rewrite (Hu v), (Hu w). unfold Z.sub.
  rewrite <- (u32_mul_l (_ + _)), <- (u32_add_l (v * 31337 + _)), H.
  by rewrite u32_add_l, u32_mul_l.
Qed.

Lemma csum_fold_inj post v w :
  u32 (fold_left csum_step post v) = u32 (fold_left csum_step post w) -> u32 v = u32 w.
Proof.
  revert v w. induction post as [|b post IH]; intros v w; [done|].
  cbn [fold_left]. intros H. by apply IH, csum_step_inj in H.
Qed.

Lemma csum_digit_inj a b : csum_digit a = csum_digit b -> a = b.
Proof.
  unfold csum_digit. intros H. apply byte_to_Z_inj.
  apply (f_equal (fun z => Z.lxor z 0x5A)) in H.
  by rewrite !Z.lxor_assoc, !Z.lxor_nilpotent, !Z.lxor_0_r in H.
Qed.

Lemma csum_digit_range b : 0 <= csum_digit b < 2 ^ 32.
Proof. apply lxor_u32; [pose proof (byte_to_Z_range b)|]; lia. Qed.

Lemma lxor_cancel_r a b c : Z.lxor a c = Z.lxor b c -> a = b.
Proof.
  intros H. apply (f_equal (fun z => Z.lxor z c)) in H.
  by rewrite !Z.lxor_assoc, !Z.lxor_nilpotent, !Z.lxor_0_r in H.
Qed.

Lemma csum_step_digit_inj v a b : csum_step v a = csum_step v b -> a = b.
Proof.
  unfold csum_step. rewrite !land_u32. intros H. apply csum_digit_inj.
  rewrite <- (u32_small (csum_digit a)), <- (u32_small (csum_digit b)) by apply csum_digit_range.
  replace (csum_digit a) with (- (v * 31337) + (v * 31337 + csum_digit a)) by lia.
  replace (csum_digit b) with (- (v * 31337) + (v * 31337 + csum_digit b)) by lia.
  by apply u32_add_cong.
Qed.

(** Two messages that differ in exactly one byte have different checksums. *)
Lemma uart_checksum_byte_inj (pre post : bytes) (a b : byte) :
  uart_checksum (pre ++ a :: post) = uart_checksum (pre ++ b :: post) -> a = b.
Proof.
  rewrite !uart_checksum_fold, !fold_left_app.
  cbn [fold_left]. intros H%lxor_cancel_r%(f_equal u32)%csum_fold_inj.
  apply csum_step_digit_inj with (v := fold_left csum_step pre 0xDEADBEEF).
  rewrite <- (u32_small (csum_step _ a)), <- (u32_small (csum_step _ b)); [done| |];
    unfold csum_step; rewrite land_u32; apply u32_range.
Qed.

Lemma checksum_reference_path have_numpy data v :
  0 <= v < 2 ^ 32 -> checksum have_numpy data v = checksum_reference data v.
Proof.
  intros Hv. unfold checksum. destruct (negb have_numpy || (zlen data <? 4096)); [done|].
  rewrite checksum_blocks_fold; [done| |done|done].
  apply Nat.neq_0_lt_0, Nat.pow_nonzero. discriminate.
Qed.

Lemma checksum_is_uart have_numpy data : checksum have_numpy data 0xDEADBEEF = uart_checksum data.
Proof. rewrite uart_checksum_fold. apply checksum_reference_path. lia. Qed.

(** The three checksum implementations of the host tools agree on every
    input: m1n1's [UartInterface.checksum], q1n1's byte loop
    [checksum_reference], and q1n1's [checksum] whichever of its numpy (64 KiB
    blocks of weighted sums in wrapping uint32) and pure-Python paths runs; the
    numpy path also agrees when the running value is not the default seed. *)
Theorem checksum_implementations_agree (have_numpy : bool) (data : bytes) (value : Z)
    (Hv : 0 <= value < 2 ^ 32) :
  checksum have_numpy data value = checksum_reference data value /\
  checksum have_numpy data 0xDEADBEEF = uart_checksum data.
Proof. split; [by apply checksum_reference_path|apply checksum_is_uart]. Qed.

Lemma checksum_implementations_agree_witness :
  checksum true (replicate 5000 Byte.x41) 7 = checksum_reference (replicate 5000 Byte.x41) 7 /\
  checksum true (replicate 5000 Byte.x41) 0xDEADBEEF = uart_checksum (replicate 5000 Byte.x41).
Proof. apply (checksum_implementations_agree true (replicate 5000 Byte.x41) 7). lia. Defined.
