(* ===== verification/Malloc.v ===== *)
(** * proxyclient/m1n1/malloc.py: the host-side heap allocator

    [Heap] hands out target memory: the host keeps a list of (size in blocks,
    in use) entries that tile the heap from its start, allocates first fit, and
    coalesces on free.  The model keeps the list and every list operation of the
    source ([blocks[i] = ..], [insert], [del]). *)

From S2P Require Import Prelude.
From Stdlib Require Import ZArith Lia.
From stdpp Require Import base list numbers strings sorting relations.

Local Open Scope Z_scope.

(** ** The class *)

Record heap := Heap {
  hp_offset : Z;
  hp_count : Z;
  hp_blocks : list (Z * bool);   (* size in blocks, in use *)
  hp_block : Z
}.

Definition hp_set_blocks (h : heap) (l : list (Z * bool)) : heap :=
  {| hp_offset := hp_offset h; hp_count := hp_count h; hp_blocks := l; hp_block := hp_block h |}.

Definition heap_init (start end_ block : Z) : result heap :=
  if block =? 0 then Raise ZeroDivisionError else
  if negb (start mod block =? 0) then Raise (ValueError "heap start not aligned") else
  if negb (end_ mod block =? 0) then Raise (ValueError "heap end not aligned") else
  let count := (end_ - start) / block in
  Ok {| hp_offset := start; hp_count := count; hp_blocks := [(count, false)]; hp_block := block |}.

(** The [for i, (bsize, full) in enumerate(self.blocks)] loop of [malloc]:
    the first free entry that is large enough, with its index and position. *)
Fixpoint malloc_scan (size : Z) (i : nat) (pos : Z) (l : list (Z * bool)) : option (nat * Z * Z) :=
  match l with
  | [] => None
  | (bsize, full) :: r =>
      if negb full && (size <=? bsize) then Some (i, pos, bsize)
      else malloc_scan size (S i) (pos + bsize) r
  end.

Definition heap_malloc (size : Z) : M heap Z := fun h =>
  let size := (size + hp_block h - 1) / hp_block h in
  match malloc_scan size 0 0 (hp_blocks h) with
  | Some (i, pos, bsize) =>
      let blocks := <[i := (size, true)]> (hp_blocks h) in
      let blocks := if size <? bsize then py_insert (S i) (bsize - size, false) blocks else blocks in
      (Ok (hp_offset h + hp_block h * pos), hp_set_blocks h blocks)
  | None => (Raise (GenericException "Out of memory"), h)
  end.

(** The padding [memalign] puts before a block at [pos]. *)
Definition align_pad (align pos : Z) : Z :=
  if pos mod align =? 0 then 0 else align - pos mod align.

Fixpoint memalign_scan (align size : Z) (i : nat) (pos : Z) (l : list (Z * bool)) : option (nat * Z * Z) :=
  match l with
  | [] => None
  | (bsize, full) :: r =>
      if negb full && (size + align_pad align pos <=? bsize) then Some (i, pos, bsize)
      else memalign_scan align size (S i) (pos + bsize) r
  end.

Definition heap_memalign (align size : Z) : M heap Z := fun h =>
  if negb (Z.land align (align - 1) =? 0) then (Raise AssertionError, h) else
  let align := Z.max align (hp_block h) / hp_block h in
  let size := (size + hp_block h - 1) / hp_block h in
  let pos := hp_offset h / hp_block h in
  match memalign_scan align size 0 pos (hp_blocks h) with
  | Some (i, pos, bsize) =>
      let offset := align_pad align pos in
      let '(blocks, i) :=
        if negb (offset =? 0) then (py_insert i (offset, false) (hp_blocks h), S i)
        else (hp_blocks h, i) in
      let blocks := <[i := (size, true)]> blocks in
      let blocks := if size + offset <? bsize
                    then py_insert (S i) (bsize - size - offset, false) blocks else blocks in
      (Ok (hp_block h * (pos + offset)), hp_set_blocks h blocks)
  | None => (Raise (GenericException "Out of memory"), h)
  end.

(** The search loop of [free]: the index and size of the entry starting at [addr]. *)
Fixpoint free_scan (addr : Z) (i : nat) (pos : Z) (l : list (Z * bool)) : result (nat * Z) :=
  match l with
  | [] => Raise (ValueError "bad free address")
  | (bsize, used) :: r =>
      if addr <? pos then Raise (ValueError "bad free address")
      else if pos =? addr then
        if negb used then Raise (ValueError "block already free") else Ok (i, bsize)
      else free_scan addr (S i) (pos + bsize) r
  end.

(** Coalescing with the next entry, then storing the freed entry at [i]. *)
Definition merge_next (i : nat) (bsize : Z) (blocks : list (Z * bool)) : list (Z * bool) :=
  let '(blocks, bsize) :=
    if Nat.eqb i (length blocks - 1) then (blocks, bsize)
    else match blocks !! (S i) with
         | Some (nb, false) => (py_del i blocks, bsize + nb)
         | _ => (blocks, bsize)
         end in
  <[i := (bsize, false)]> blocks.

(** Coalescing with the previous and the next entry, on the list itself. *)
Definition free_merge (i : nat) (bsize : Z) (blocks : list (Z * bool)) : list (Z * bool) :=
  match i, blocks !! (Nat.pred i) with
  | S i', Some (pb, false) => merge_next i' (bsize + pb) (py_del i blocks)
  | _, _ => merge_next i bsize blocks
  end.

Definition heap_free (addr : Z) : M heap unit := fun h =>
  if negb (addr mod hp_block h =? 0) then (Raise (ValueError "free address not aligned"), h) else
  if addr <? hp_offset h then (Raise (ValueError "free address before heap"), h) else
  let addr := (addr - hp_offset h) / hp_block h in
  if hp_count h <=? addr then (Raise (ValueError "free address after heap"), h) else
  match free_scan addr 0 0 (hp_blocks h) with
  | Ok (i, bsize) => (Ok tt, hp_set_blocks h (free_merge i bsize (hp_blocks h)))
  | Raise e => (Raise e, h)
  end.

(** [check]: the two kB figures it prints, or the consistency error. *)
Fixpoint usage_sum (used : bool) (l : list (Z * bool)) : Z :=
  match l with
  | [] => 0
  | (b, u) :: r => (if Bool.eqb u used then b else 0) + usage_sum used r
  end.

Definition heap_check (h : heap) : result (Z * Z) :=
  let free := usage_sum false (hp_blocks h) in
  let inuse := usage_sum true (hp_blocks h) in
  if negb (free + inuse =? hp_count h) then Raise (GenericException "Total block size is inconsistent")
  else Ok (inuse * hp_block h / 1024, free * hp_block h / 1024).

(** [with heap.guarded_malloc(size) as addr: body]. *)
Definition guarded_malloc {A} (size : Z) (body : Z -> M heap A) : M heap A :=
  let! addr := heap_malloc size in
  py_finally (body addr) (heap_free addr).

(** ** Specification vocabulary *)

Definition bsum (l : list (Z * bool)) : Z := fold_right (fun e a => fst e + a) 0 l.

(** No two adjacent entries are free; [pf] says whether the entry before is. *)
Fixpoint coalesced (pf : bool) (l : list (Z * bool)) : Prop :=
  match l with
  | [] => True
  | (_, u) :: r => (pf = true -> u = true) /\ coalesced (negb u) r
  end.

(** Whether the entry after [l] follows a free one. *)
Definition last_free (pf : bool) (l : list (Z * bool)) : bool :=
  match last l with Some (_, u) => negb u | None => pf end.

Record heap_wf (h : heap) : Prop := {
  wf_block : 0 < hp_block h;
  wf_offset : hp_offset h mod hp_block h = 0;
  wf_sum : bsum (hp_blocks h) = hp_count h;
  wf_pos : Forall (fun e => 0 < fst e) (hp_blocks h);
  wf_coal : coalesced false (hp_blocks h)
}.

(** The allocations a block list stands for: (first block, number of blocks). *)
Fixpoint allocs (pos : Z) (l : list (Z * bool)) : list (Z * Z) :=
  match l with
  | [] => []
  | (b, u) :: r => (if u then [(pos, b)] else []) ++ allocs (pos + b) r
  end.

Definition allocated (h : heap) : list (Z * Z) := allocs 0 (hp_blocks h).

(** Two block intervals [p, p + n) and [q, q + m) do not meet. *)
Definition apart (a b : Z * Z) : Prop := fst a + snd a <= fst b \/ fst b + snd b <= fst a.

(** ** Lemmas *)

Lemma bsum_app l k : bsum (l ++ k) = bsum l + bsum k.
Proof. unfold bsum. induction l as [|[b u] l IH]; simpl in *; lia. Qed.

Lemma bsum_nonneg l : Forall (fun e => 0 < fst e) l -> 0 <= bsum l.
Proof. induction 1 as [|[b u] l H _ IH]; simpl in *; lia. Qed.

Lemma coalesced_app pf l k :
  coalesced pf (l ++ k) <-> coalesced pf l /\ coalesced (last_free pf l) k.
Proof.
  revert pf. induction l as [|[b u] l IH]; intros pf; [simpl; tauto|].
  cbn [app coalesced]. rewrite IH.
  assert (last_free pf ((b, u) :: l) = last_free (negb u) l) as ->.
  { unfold last_free. rewrite last_cons. by destruct (last l) as [[c v]|]. }
  tauto.
Qed.

Lemma last_free_snoc pf l b u : last_free pf (l ++ [(b, u)]) = negb u.
Proof. unfold last_free. by rewrite last_snoc. Qed.

Lemma allocs_app pos l k : allocs pos (l ++ k) = allocs pos l ++ allocs (pos + bsum l) k.
Proof.
  revert pos. induction l as [|[b u] l IH]; intros pos; simpl.
  - f_equal. lia.
  - rewrite IH, <- app_assoc. do 3 f_equal. simpl. lia.
Qed.

Lemma allocs_bounds pos l p n :
  Forall (fun e => 0 < fst e) l -> In (p, n) (allocs pos l) ->
  pos <= p /\ p + n <= pos + bsum l /\ 0 < n.
Proof.
  intros Hl. revert pos. induction Hl as [|[b u] l Hb Hl IH]; intros pos; simpl; [done|].
  pose proof (bsum_nonneg l Hl) as Hn. simpl in *.
  intros [H|H]%in_app_or.
  - destruct u; [|done]. destruct H as [[= <- <-]|[]]. lia.
  - apply IH in H. lia.
Qed.

Lemma allocs_apart pos l :
  Forall (fun e => 0 < fst e) l -> ForallOrdPairs apart (allocs pos l).
Proof.
  intros Hl. revert pos. induction Hl as [|[b u] l Hb Hl IH]; intros pos; simpl; [constructor|].
  destruct u; simpl; [|apply IH]. constructor; [|apply IH].
  apply List.Forall_forall. intros [q m] Hin. apply allocs_bounds in Hin; [|done].
  unfold apart. simpl in *. lia.
Qed.

(** What the two allocation scans find. *)
Lemma malloc_scan_Some size i pos l j p b :
  malloc_scan size i pos l = Some (j, p, b) ->
  exists pre post, l = pre ++ (b, false) :: post /\ j = (i + length pre)%nat /\
                   p = pos + bsum pre /\ size <= b.
Proof.
  revert i pos. induction l as [|[c u] l IH]; intros i pos; simpl; [done|].
  destruct (negb u && (size <=? c)) eqn:E.
  - intros [= <- <- <-]. zbool. destruct u; [done|].
    exists [], l. simpl. repeat split; lia.
  - intros H. destruct (IH _ _ H) as (pre & post & -> & -> & -> & Hs).
    exists ((c, u) :: pre), post. simpl. repeat split; lia.
Qed.

Lemma malloc_scan_None size i pos l :
  malloc_scan size i pos l = None <-> Forall (fun e => snd e = false -> fst e < size) l.
Proof.
  revert i pos. induction l as [|[c u] l IH]; intros i pos; simpl; [split; auto|].
  rewrite Forall_cons. simpl. destruct u; simpl.
  - rewrite IH. split; [|tauto]. intros H. split; [|done]. done.
  - destruct (size <=? c) eqn:E; zbool.
    + split; [done|]. intros [H _]. specialize (H eq_refl). lia.
    + rewrite IH. split; [|tauto]. intros H. split; [|done]. lia.
Qed.

Lemma memalign_scan_Some align size i pos l j p b :
  memalign_scan align size i pos l = Some (j, p, b) ->
  exists pre post, l = pre ++ (b, false) :: post /\ j = (i + length pre)%nat /\
                   p = pos + bsum pre /\ size + align_pad align p <= b.
Proof.
  revert i pos. induction l as [|[c u] l IH]; intros i pos; simpl; [done|].
  destruct (negb u && (size + align_pad align pos <=? c)) eqn:E.
  - intros [= <- <- <-]. zbool. destruct u; [done|].
    exists [], l. simpl. repeat split; try lia.
  - intros H. destruct (IH _ _ H) as (pre & post & -> & -> & -> & Hs).
    exists ((c, u) :: pre), post. simpl. repeat split; try lia.
Qed.

(** The remainder entry a split leaves behind. *)
Definition rest (n : Z) : list (Z * bool) := if 0 <? n then [(n, false)] else [].

Lemma bsum_rest n : 0 <= n -> bsum (rest n) = n.
Proof. unfold rest. intros. destruct (0 <? n) eqn:E; zbool; simpl; lia. Qed.

Lemma split_block pre e (b size : Z) post :
  size <= b ->
  (if size <? b
   then py_insert (S (length pre)) (b - size, false) (<[length pre := (size, true)]> (pre ++ e :: post))
   else <[length pre := (size, true)]> (pre ++ e :: post))
  = pre ++ (size, true) :: rest (b - size) ++ post.
Proof.
  intros Hs. rewrite insert_mid. unfold rest.
  destruct (size <? b) eqn:E, (0 <? b - size) eqn:E'; zbool; try lia; [|done].
  replace (S (length pre)) with (length (pre ++ [(size, true)])) by (rewrite length_app; simpl; lia).
  change (pre ++ (size, true) :: post) with (pre ++ [(size, true)] ++ post).
  rewrite app_assoc, py_insert_mid, <- app_assoc. done.
Qed.

Lemma coalesced_head pf b u l : coalesced pf ((b, u) :: l) <-> (pf = true -> u = true) /\ coalesced (negb u) l.
Proof. done. Qed.

Lemma coalesced_used pf l b post :
  coalesced pf (l ++ (b, false) :: post) ->
  coalesced pf l /\ last_free pf l = false /\ coalesced true post.
Proof.
  rewrite coalesced_app, coalesced_head. intros (H1 & H2 & H3).
  split_and!; [done| |done]. destruct (last_free pf l); [|done]. by specialize (H2 eq_refl).
Qed.

Lemma coalesced_weaken l : coalesced true l -> coalesced false l.
Proof. destruct l as [|[b u] l]; [done|]. cbn. tauto. Qed.

Lemma coalesced_rest n post : coalesced true post -> coalesced false (rest n ++ post).
Proof.
  unfold rest. destruct (0 <? n); simpl; [tauto|]. apply coalesced_weaken.
Qed.

(** [malloc] in normal form: it rewrites one free entry in place. *)
Lemma heap_malloc_ok h size a h' :
  heap_malloc size h = (Ok a, h') ->
  exists pre b post, let n := (size + hp_block h - 1) / hp_block h in
    hp_blocks h = pre ++ (b, false) :: post /\ n <= b /\
    a = hp_offset h + hp_block h * bsum pre /\
    h' = hp_set_blocks h (pre ++ (n, true) :: rest (b - n) ++ post).
Proof.
  unfold heap_malloc. intros H.
  destruct (malloc_scan _ _ _ _) as [[[j p] b]|] eqn:E; [|done].
  apply malloc_scan_Some in E as (pre & post & Hl & -> & -> & Hs).
  rewrite Hl in H. cbv zeta in H. rewrite !Nat.add_0_l in H.
  rewrite (split_block pre (b, false) b _ post Hs) in H. injection H as <- <-.
  exists pre, b, post. rewrite Z.add_0_l. done.
Qed.

(** [memalign] in normal form: padding, the allocation, the remainder. *)
Lemma heap_memalign_ok h align size a h' :
  0 < hp_block h -> heap_memalign align size h = (Ok a, h') ->
  exists pre b post,
    let al := Z.max align (hp_block h) / hp_block h in
    let n := (size + hp_block h - 1) / hp_block h in
    let q := hp_offset h / hp_block h + bsum pre in
    let o := align_pad al q in
    hp_blocks h = pre ++ (b, false) :: post /\ n + o <= b /\ 0 < al /\ 0 <= o /\
    a = hp_block h * (q + o) /\
    h' = hp_set_blocks h (pre ++ rest o ++ (n, true) :: rest (b - n - o) ++ post).
Proof.
  unfold heap_memalign. intros Hb H.
  destruct (negb _); [done|]. set (al := Z.max align (hp_block h) / hp_block h) in *.
  set (n := (size + hp_block h - 1) / hp_block h) in *.
  assert (Hal : 0 < al) by (apply Z.div_str_pos; lia).
  destruct (memalign_scan _ _ _ _ _) as [[[j p] b]|] eqn:E; [|done].
  apply memalign_scan_Some in E as (pre & post & Hl & -> & -> & Hs).
  set (q := hp_offset h / hp_block h + bsum pre) in *.
  assert (Ho : 0 <= align_pad al q).
  { unfold align_pad. destruct (q mod al =? 0); [lia|].
    pose proof (Z.mod_pos_bound q al Hal). lia. }
  exists pre, b, post. cbv zeta in *. fold q. rewrite Hl in H. rewrite !Nat.add_0_l in H.
  unfold rest at 1. destruct (align_pad al q =? 0) eqn:Eo; zbool; cbn [negb] in H.
  - rewrite Eo in *. rewrite !Z.add_0_r, ?Z.sub_0_r in *.
    rewrite (split_block pre (b, false) b n post) in H by lia. injection H as <- <-.
    split_and!; auto with lia.
  - set (o := align_pad al q) in *. rewrite py_insert_mid in H.
    change (pre ++ (o, false) :: (b, false) :: post) with (pre ++ [(o, false)] ++ (b, false) :: post) in H.
    rewrite app_assoc in H.
    replace (S (length pre)) with (length (pre ++ [(o, false)])) in H by (rewrite length_app; simpl; lia).
    assert (Hif : (n + o <? b) = (n <? b - o)) by (destruct (n + o <? b) eqn:E1, (n <? b - o) eqn:E2; zbool; lia).
    rewrite Hif in H.
    replace (b - n - o) with (b - o - n) in * by lia.
    rewrite (split_block (pre ++ [(o, false)]) (b, false) (b - o) n post) in H by lia.
    injection H as <- <-. rewrite <- app_assoc.
    assert ((0 <? o) = true) as -> by (apply Z.ltb_lt; lia).
    split_and!; auto with lia.
Qed.

(** The search of [free] in a tiling with positive sizes. *)
Lemma free_scan_found i pos pre b u post :
  Forall (fun e => 0 < fst e) pre ->
  free_scan (pos + bsum pre) i pos (pre ++ (b, u) :: post) =
    if u then Ok ((i + length pre)%nat, b) else Raise (ValueError "block already free").
Proof.
  intros Hp. revert i pos. induction Hp as [|[c v] pre Hc Hp IH]; intros i pos.
  - cbn [app free_scan bsum fold_right]. rewrite Z.add_0_r, Z.ltb_irrefl, Z.eqb_refl, Nat.add_0_r.
    by destruct u.
  - cbn [app free_scan]. pose proof (bsum_nonneg pre Hp). simpl in Hc.
    change (bsum ((c, v) :: pre)) with (c + bsum pre).
    destruct (pos + (c + bsum pre) <? pos) eqn:E1; zbool; [lia|].
    destruct (pos =? pos + (c + bsum pre)) eqn:E2; zbool; [lia|].
    replace (pos + (c + bsum pre)) with (pos + c + bsum pre) by lia.
    rewrite IH. destruct u; [|done]. do 2 f_equal. cbn [length]. lia.
Qed.

Lemma free_scan_Ok addr i pos l j b :
  free_scan addr i pos l = Ok (j, b) ->
  exists pre post, l = pre ++ (b, true) :: post /\ j = (i + length pre)%nat /\ addr = pos + bsum pre.
Proof.
  revert i pos. induction l as [|[c u] l IH]; intros i pos; simpl; [done|].
  destruct (addr <? pos); [done|]. destruct (pos =? addr) eqn:E; zbool.
  - destruct u; [|done]. cbn. intros [= <- <-]. exists [], l. simpl. repeat split; lia.
  - intros H. destruct (IH _ _ H) as (pre & post & -> & -> & ->).
    exists ((c, u) :: pre), post. simpl. repeat split; lia.
Qed.

(** The effect of coalescing, as a function of the surroundings. *)
Definition absorb_left (pre : list (Z * bool)) : list (Z * bool) * Z :=
  match last pre with
  | Some (x, false) => (take (length pre - 1) pre, x)
  | _ => (pre, 0)
  end.
Definition absorb_right (post : list (Z * bool)) : list (Z * bool) * Z :=
  match post with
  | (y, false) :: r => (r, y)
  | _ => (post, 0)
  end.

Lemma merge_next_spec pre b e post :
  merge_next (length pre) b (pre ++ e :: post)
  = pre ++ (b + snd (absorb_right post), false) :: fst (absorb_right post).
Proof.
  unfold merge_next. rewrite length_app. cbn [length].
  destruct (Nat.eqb_spec (length pre) (length pre + S (length post) - 1)) as [E|E].
  - destruct post; [|simpl in E; lia]. rewrite insert_mid. simpl. by rewrite Z.add_0_r.
  - rewrite lookup_app_r by lia. replace (S (length pre) - length pre)%nat with 1%nat by lia.
    destruct post as [|[y []] post]; cbn [lookup list_lookup absorb_right fst snd].
    + simpl in E. lia.
    + rewrite insert_mid. by rewrite Z.add_0_r.
    + rewrite py_del_mid, insert_mid. done.
Qed.

Lemma free_merge_spec pre b post :
  free_merge (length pre) b (pre ++ (b, true) :: post) =
  fst (absorb_left pre) ++
    (b + snd (absorb_left pre) + snd (absorb_right post), false) :: fst (absorb_right post).
Proof.
  unfold free_merge.
  destruct pre as [|[x v] pre _] using rev_ind.
  - cbn [length]. rewrite (merge_next_spec [] b). simpl. by rewrite Z.add_0_r.
  - rewrite length_app. cbn [length]. rewrite Nat.add_1_r. cbn [Nat.pred].
    rewrite <- app_assoc. cbn [app]. rewrite lookup_mid.
    unfold absorb_left. rewrite last_snoc.
    change (pre ++ (x, v) :: (b, true) :: post) with (pre ++ [(x, v)] ++ (b, true) :: post).
    rewrite app_assoc.
    replace (S (length pre)) with (length (pre ++ [(x, v)])) by (rewrite length_app; simpl; lia).
    destruct v; cbn [fst snd].
    + rewrite merge_next_spec. by rewrite Z.add_0_r.
    + rewrite py_del_mid, <- app_assoc. cbn [app]. rewrite merge_next_spec, length_app. cbn [length].
      replace (length pre + 1 - 1)%nat with (length pre) by lia. by rewrite take_app_length.
Qed.

Abbreviation pos_sizes l := (Forall (fun e : Z * bool => 0 < fst e) l).

Lemma rest_pos n : pos_sizes (rest n).
Proof. unfold rest. destruct (0 <? n) eqn:E; zbool; repeat constructor. done. Qed.

Lemma allocs_rest pos n : allocs pos (rest n) = [].
Proof. unfold rest. by destruct (0 <? n). Qed.

Lemma rest_last_free n : 0 <= n -> last_free false (rest n) = (0 <? n).
Proof. unfold rest. by destruct (0 <? n). Qed.

Lemma absorb_left_app p x :
  0 <= x -> last_free false p = false -> absorb_left (p ++ rest x) = (p, x).
Proof.
  intros Hx Hp. unfold absorb_left, rest. destruct (0 <? x) eqn:E; zbool.
  - rewrite last_snoc, length_app. cbn [length].
    replace (length p + 1 - 1)%nat with (length p) by lia. by rewrite take_app_length.
  - rewrite app_nil_r. replace x with 0 by lia. revert Hp. unfold last_free.
    by destruct (last p) as [[c []]|].
Qed.

Lemma absorb_right_app y q : 0 <= y -> coalesced true q -> absorb_right (rest y ++ q) = (q, y).
Proof.
  intros Hy Hq. unfold rest. destruct (0 <? y) eqn:E; zbool; [done|]. cbn [app].
  replace y with 0 by lia. destruct q as [|[c []] q]; [done|done|].
  destruct Hq as [Hq _]. by specialize (Hq eq_refl).
Qed.

(** Every coalesced context decomposes that way. *)
Lemma coalesced_left pre :
  pos_sizes pre -> coalesced false pre ->
  exists p x, pre = p ++ rest x /\ 0 <= x /\ coalesced false p /\ last_free false p = false.
Proof.
  intros Hp Hc. destruct pre as [|[c u] pre _] using rev_ind.
  - exists [], 0. done.
  - apply Forall_app in Hp as [Hp Hc0]. inversion Hc0; subst; simpl in *.
    apply coalesced_app in Hc as [Hc Hu]. destruct u.
    + exists (pre ++ [(c, true)]), 0. unfold rest. simpl. rewrite app_nil_r.
      rewrite last_free_snoc, coalesced_app. done.
    + exists pre, c. unfold rest. destruct (0 <? c) eqn:E; zbool; [|lia].
      destruct Hu as [Hu _]. destruct (last_free false pre); [by specialize (Hu eq_refl)|].
      split_and!; auto with lia.
Qed.

Lemma coalesced_right post :
  pos_sizes post -> coalesced false post ->
  exists y q, post = rest y ++ q /\ 0 <= y /\ coalesced true q.
Proof.
  intros Hp Hc. destruct post as [|[c u] q]; [by exists 0, []|].
  inversion Hp; subst; simpl in *. destruct u.
  - exists 0, ((c, true) :: q). split; [done|]. split; [done|]. split; [done|apply Hc].
  - exists c, q. unfold rest. destruct (0 <? c) eqn:E; zbool; [|lia].
    split_and!; [done|lia|apply Hc].
Qed.

(** Freeing an allocation, in normal form. *)
Lemma heap_free_at h p x b y q :
  0 < hp_block h -> hp_offset h mod hp_block h = 0 ->
  hp_blocks h = (p ++ rest x) ++ (b, true) :: rest y ++ q -> 0 <= x -> 0 <= y -> 0 < b ->
  pos_sizes p -> pos_sizes q -> last_free false p = false -> coalesced true q ->
  bsum (hp_blocks h) = hp_count h ->
  heap_free (hp_offset h + hp_block h * (bsum p + x)) h =
    (Ok tt, hp_set_blocks h (p ++ (b + x + y, false) :: q)).
Proof.
  intros Hb Ho Hl Hx Hy Hbb Hp Hq Hlf Hc Hs. unfold heap_free.
  assert (Hpn := bsum_nonneg p Hp). assert (Hqn := bsum_nonneg q Hq).
  rewrite (Z.mul_comm (hp_block h)), Z_mod_plus_full, Ho. cbn [Z.eqb negb].
  destruct (_ <? hp_offset h) eqn:E1; zbool; [nia|]. clear E1.
  replace (hp_offset h + (bsum p + x) * hp_block h - hp_offset h)
    with ((bsum p + x) * hp_block h) by lia.
  rewrite Z.div_mul by lia.
  destruct (hp_count h <=? bsum p + x) eqn:E2; zbool.
  { rewrite Hl in Hs. rewrite !bsum_app, bsum_rest in Hs by done. cbn [bsum fold_right fst] in Hs.
    fold (bsum (rest y ++ q)) in Hs. rewrite bsum_app, bsum_rest in Hs by done. lia. }
  rewrite Hl. replace (bsum p + x) with (0 + bsum (p ++ rest x)) by (rewrite bsum_app, bsum_rest; lia).
  rewrite free_scan_found by (apply Forall_app; auto using rest_pos).
  rewrite Nat.add_0_l, free_merge_spec, absorb_left_app, absorb_right_app by done. done.
Qed.

Lemma heap_free_ok h a h' :
  heap_wf h -> heap_free a h = (Ok tt, h') ->
  exists p x b y q,
    hp_blocks h = (p ++ rest x) ++ (b, true) :: rest y ++ q /\ 0 <= x /\ 0 <= y /\ 0 < b /\
    pos_sizes p /\ pos_sizes q /\ coalesced false p /\ last_free false p = false /\ coalesced true q /\
    a = hp_offset h + hp_block h * (bsum p + x) /\
    h' = hp_set_blocks h (p ++ (b + x + y, false) :: q).
Proof.
  intros Hwf H. pose proof H as H0. unfold heap_free in H0.
  destruct (negb _) eqn:E1; [done|]. destruct (a <? _) eqn:E2; [done|].
  destruct (_ <=? _) eqn:E3; [done|]. zbool.
  destruct (free_scan _ _ _ _) as [[j b]|] eqn:Es; [|done].
  apply free_scan_Ok in Es as (pre & post & Hl & -> & Ha). clear H0.
  destruct Hwf as [Hb Ho Hs Hp Hc]. rewrite Hl in Hp, Hc.
  apply Forall_app in Hp as [Hp1 Hp2]. inversion Hp2 as [|? ? Hb0 Hp3]; subst. simpl in Hb0.
  apply coalesced_app in Hc as [Hc1 [_ Hc2]].
  destruct (coalesced_left pre Hp1 Hc1) as (p & x & -> & Hx & Hcp & Hlf).
  destruct (coalesced_right post Hp3 Hc2) as (y & q & -> & Hy & Hcq).
  apply Forall_app in Hp1 as [Hp1 _]. apply Forall_app in Hp3 as [_ Hp3].
  rewrite bsum_app, bsum_rest, Z.add_0_l in Ha by done.
  assert (Haa : a = hp_offset h + hp_block h * (bsum p + x)).
  { rewrite <- Ha. pose proof (mod_div_exact (a - hp_offset h) (hp_block h) Hb) as Hd.
    rewrite Zminus_mod, E1, Ho, Z.mod_0_l in Hd by lia. specialize (Hd eq_refl). lia. }
  exists p, x, b, y, q. split_and!; try done.
  rewrite Haa, (heap_free_at h p x b y q) in H by done. by injection H as <-.
Qed.

(** Block counts are rounded up, and positive for a positive request. *)
Lemma blocks_for_bounds size block :
  0 < block -> size <= (size + block - 1) / block * block < size + block.
Proof.
  intros Hb. pose proof (Z.div_mod (size + block - 1) block ltac:(lia)).
  pose proof (Z.mod_pos_bound (size + block - 1) block Hb). lia.
Qed.

Lemma blocks_for_pos size block : 0 < block -> 0 < size -> 0 < (size + block - 1) / block.
Proof. intros Hb Hs. pose proof (blocks_for_bounds size block Hb). nia. Qed.

Lemma wf_split h p b post :
  heap_wf h -> hp_blocks h = p ++ (b, false) :: post ->
  pos_sizes p /\ 0 < b /\ pos_sizes post /\
  coalesced false p /\ last_free false p = false /\ coalesced true post /\
  bsum p + b + bsum post = hp_count h.
Proof.
  intros [Hb Ho Hs Hp Hc] Hl. rewrite Hl in *.
  apply Forall_app in Hp as [Hp1 Hp2]. inversion Hp2; subst.
  apply coalesced_used in Hc as (? & ? & ?). rewrite bsum_app in Hs. simpl in *.
  fold (bsum post) in Hs. split_and!; auto with lia.
Qed.

(** Replacing a free entry by padding, an allocation and a remainder keeps the
    heap well formed. *)
Lemma wf_carve h p o n r post :
  heap_wf h -> hp_blocks h = p ++ (o + n + r, false) :: post -> 0 <= o -> 0 < n -> 0 <= r ->
  heap_wf (hp_set_blocks h (p ++ rest o ++ (n, true) :: rest r ++ post)).
Proof.
  intros Hwf Hl Ho Hn Hr. destruct (wf_split _ _ _ _ Hwf Hl) as (Hp & Hb & Hq & Hcp & Hlf & Hcq & Hs).
  destruct Hwf as [Hb0 Ho0 _ _ _]. constructor; simpl; try done.
  - rewrite bsum_app, bsum_app, bsum_rest by done. cbn [bsum fold_right fst].
    fold (bsum (rest r ++ post)). rewrite bsum_app, bsum_rest by done. lia.
  - rewrite !Forall_app, Forall_cons, Forall_app. auto using rest_pos.
  - rewrite !coalesced_app. split; [done|]. rewrite Hlf. split.
    + unfold rest. by destruct (0 <? o).
    + split; [done|]. by apply coalesced_rest.
Qed.

Lemma allocs_carve pos p o n r post c :
  0 <= o -> 0 <= r -> c = o + n + r ->
  allocs pos (p ++ rest o ++ (n, true) :: rest r ++ post) =
  allocs pos p ++ (pos + bsum p + o, n) :: allocs (pos + bsum p + c) post.
Proof.
  intros Ho Hr ->. rewrite allocs_app, allocs_app, allocs_rest, bsum_rest by done. cbn [allocs app].
  rewrite allocs_app, allocs_rest, bsum_rest by done. cbn [app]. do 3 f_equal. lia.
Qed.

Lemma allocs_free pos p c post :
  allocs pos (p ++ (c, false) :: post) = allocs pos p ++ allocs (pos + bsum p + c) post.
Proof. by rewrite allocs_app. Qed.

Lemma carve_apart p o n r post :
  pos_sizes p -> pos_sizes post -> 0 <= o -> 0 < n -> 0 <= r ->
  Forall (apart (bsum p + o, n)) (allocs 0 (p ++ (o + n + r, false) :: post)).
Proof.
  intros Hp Hq Ho Hn Hr. rewrite allocs_free, Forall_app. split; apply List.Forall_forall; intros [q m] Hin.
  - apply allocs_bounds in Hin; [|done]. unfold apart. simpl. lia.
  - apply allocs_bounds in Hin; [|done]. unfold apart. simpl. lia.
Qed.

Lemma malloc_carve h size a h' :
  heap_wf h -> 0 < size -> heap_malloc size h = (Ok a, h') ->
  exists p n r post,
    n = (size + hp_block h - 1) / hp_block h /\ 0 < n /\ 0 <= r /\
    hp_blocks h = p ++ (0 + n + r, false) :: post /\
    a = hp_offset h + hp_block h * (bsum p + 0) /\
    h' = hp_set_blocks h (p ++ rest 0 ++ (n, true) :: rest r ++ post).
Proof.
  intros Hwf Hs H. destruct (heap_malloc_ok _ _ _ _ H) as (p & b & post & Hl & Hn & -> & ->).
  set (n := (size + hp_block h - 1) / hp_block h) in *.
  exists p, n, (b - n), post. rewrite Z.add_0_r.
  replace (0 + n + (b - n)) with b by lia.
  pose proof (blocks_for_pos size (hp_block h) (wf_block h Hwf) Hs). split_and!; auto with lia.
Qed.

Lemma memalign_carve h align size a h' :
  heap_wf h -> 0 < size -> heap_memalign align size h = (Ok a, h') ->
  exists p o n r post,
    let al := Z.max align (hp_block h) / hp_block h in
    n = (size + hp_block h - 1) / hp_block h /\ 0 <= o /\ 0 < n /\ 0 <= r /\ 0 < al /\
    o = align_pad al (hp_offset h / hp_block h + bsum p) /\
    hp_blocks h = p ++ (o + n + r, false) :: post /\
    a = hp_offset h + hp_block h * (bsum p + o) /\
    h' = hp_set_blocks h (p ++ rest o ++ (n, true) :: rest r ++ post).
Proof.
  intros Hwf Hs H. pose proof (wf_block h Hwf) as Hb.
  destruct (heap_memalign_ok _ _ _ _ _ Hb H) as (p & b & post & Hl & Hn & Hal & Ho & -> & ->).
  set (n := (size + hp_block h - 1) / hp_block h) in *.
  set (al := Z.max align (hp_block h) / hp_block h) in *.
  set (o := align_pad al _) in *.
  exists p, o, n, (b - n - o), post. cbv zeta.
  replace (o + n + (b - n - o)) with b by lia.
  pose proof (blocks_for_pos size (hp_block h) Hb Hs).
  pose proof (mod_div_exact _ _ Hb (wf_offset h Hwf)).
  split_and!; auto with lia.
Qed.

Lemma heap_init_wf start end_ block h :
  0 < block -> start < end_ -> heap_init start end_ block = Ok h -> heap_wf h.
Proof.
  intros Hb Hlt. unfold heap_init. destruct (block =? 0); [done|].
  destruct (negb (start mod block =? 0)) eqn:E1; [done|].
  destruct (negb (end_ mod block =? 0)) eqn:E2; [done|]. intros [= <-]. zbool.
  pose proof (mod_div_exact _ _ Hb E1). pose proof (mod_div_exact _ _ Hb E2).
  assert (0 < (end_ - start) / block).
  { replace (end_ - start) with ((end_ / block - start / block) * block) by lia.
    rewrite Z.div_mul by lia. nia. }
  constructor; simpl; try done; [lia|]. repeat constructor. simpl. lia.
Qed.

Lemma heap_free_wf h a h' : heap_wf h -> heap_free a h = (Ok tt, h') -> heap_wf h'.
Proof.
  intros Hwf H.
  destruct (heap_free_ok _ _ _ Hwf H)
    as (p & x & b & y & q & Hl & Hx & Hy & Hb0 & Hp & Hq & Hcp & Hlf & Hcq & -> & ->).
  destruct Hwf as [Hb Ho Hs _ _]. constructor; simpl; try done.
  - rewrite <- Hs, Hl, !bsum_app, !bsum_rest by done. cbn [bsum fold_right fst].
    fold (bsum q) (bsum (rest y ++ q)). rewrite bsum_app, bsum_rest by done. lia.
  - rewrite Forall_app, Forall_cons. simpl. auto with lia.
  - rewrite coalesced_app. split; [done|]. rewrite Hlf. done.
Qed.

(** One successful operation on a live heap. *)
Inductive heap_step : heap -> heap -> Prop :=
| step_malloc h size a h' : 0 < size -> heap_malloc size h = (Ok a, h') -> heap_step h h'
| step_memalign h align size a h' : 0 < size -> heap_memalign align size h = (Ok a, h') -> heap_step h h'
| step_free h a h' : heap_free a h = (Ok tt, h') -> heap_step h h'.

Lemma heap_step_wf h h' : heap_wf h -> heap_step h h' -> heap_wf h'.
Proof.
  intros Hwf Hs. destruct Hs as [h size a h' Hz H|h align size a h' Hz H|h a h' H].
  - destruct (malloc_carve _ _ _ _ Hwf Hz H) as (p & n & r & post & _ & Hn & Hr & Hl & _ & ->).
    by apply wf_carve.
  - destruct (memalign_carve _ _ _ _ _ Hwf Hz H) as (p & o & n & r & post & _ & Ho & Hn & Hr & _ & _ & Hl & _ & ->).
    by apply wf_carve.
  - by eapply heap_free_wf.
Qed.

(** C22: every state the allocator reaches from its constructor by any sequence of
    successful [malloc], [memalign] and [free] calls with positive sizes (a size of 0
    makes an empty block, [malloc_zero_aliases]) is a coalesced tiling: the
    entries have positive sizes, sum to the heap's block count, and no two free
    entries are adjacent; hence [check] never reports an inconsistency. *)
Theorem heap_reachable_invariant start end_ block h0 h
    (Hb : 0 < block) (Hlt : start < end_)
    (Hi : heap_init start end_ block = Ok h0) (Hr : rtc heap_step h0 h) :
  heap_wf h /\ is_ok (heap_check h) = true.
Proof.
  assert (Hwf : heap_wf h).
  { pose proof (heap_init_wf _ _ _ _ Hb Hlt Hi) as H0.
    clear Hi. induction Hr; [done|]. eauto using heap_step_wf. }
  split; [done|]. unfold heap_check.
  assert (Hu : forall l, usage_sum false l + usage_sum true l = bsum l).
  { induction l as [|[b []] l IH]; simpl in *; lia. }
  by rewrite Hu, (wf_sum h Hwf), Z.eqb_refl.
Qed.

Lemma heap_reachable_invariant_witness :
  let h0 := Heap 0 4 [(4, false)] 64 in
  let h := Heap 0 4 [(2, true); (2, false)] 64 in
  heap_wf h /\ is_ok (heap_check h) = true.
Proof.
  apply (heap_reachable_invariant 0 256 64 (Heap 0 4 [(4, false)] 64)); [lia|lia|reflexivity|].
  eapply rtc_l; [|apply rtc_refl]. eapply (step_malloc _ 100 0); [lia|reflexivity].
Defined.

Lemma malloc_allocates h size a h'
    (Hwf : heap_wf h) (Hs : 0 < size) (H : heap_malloc size h = (Ok a, h')) :
  exists p n, a = hp_offset h + hp_block h * p /\ a mod hp_block h = 0 /\
    size <= n * hp_block h < size + hp_block h /\ 0 <= p /\ p + n <= hp_count h /\
    Forall (apart (p, n)) (allocated h) /\ allocated h' ≡ₚ (p, n) :: allocated h.
Proof.
  destruct (malloc_carve _ _ _ _ Hwf Hs H) as (p & n & r & post & -> & Hn & Hr & Hl & -> & ->).
  set (n := (size + hp_block h - 1) / hp_block h) in *.
  destruct (wf_split _ _ _ _ Hwf Hl) as (Hp & _ & Hq & _ & _ & _ & Hsum).
  pose proof (bsum_nonneg p Hp). pose proof (bsum_nonneg post Hq).
  exists (bsum p + 0), n. split; [done|]. split.
  { rewrite (Z.mul_comm (hp_block h)), Z_mod_plus_full. apply Hwf. }
  split; [apply blocks_for_bounds, Hwf|]. split; [lia|]. split; [lia|]. unfold allocated. split.
  - rewrite Hl. by apply carve_apart.
  - cbn [hp_blocks hp_set_blocks]. rewrite Hl, (allocs_carve 0 p 0 n r post (0 + n + r)), allocs_free by done.
    by rewrite Z.add_0_l, Permutation_middle.
Qed.

(** C23: a successful [malloc] of a positive size returns a block-aligned region
    inside the heap, at least as large as requested and less than one block
    larger, disjoint from every live allocation; the live allocations afterwards
    are exactly the old ones and the new one. *)
Theorem malloc_sound h size a h'
    (Hwf : heap_wf h) (Hs : 0 < size) (H : heap_malloc size h = (Ok a, h')) :
  exists p n, a = hp_offset h + hp_block h * p /\ a mod hp_block h = 0 /\
    size <= n * hp_block h < size + hp_block h /\ 0 <= p /\ p + n <= hp_count h /\
    Forall (apart (p, n)) (allocated h) /\ allocated h' ≡ₚ (p, n) :: allocated h.
Proof. by apply (malloc_allocates h size a h'). Qed.

Lemma malloc_sound_witness :
  exists p n, 64 = 0 + 64 * p /\ 64 mod 64 = 0 /\ 65 <= n * 64 < 65 + 64 /\ 0 <= p /\ p + n <= 4 /\
    Forall (apart (p, n)) (allocated (Heap 0 4 [(1, true); (3, false)] 64)) /\
    allocated (Heap 0 4 [(1, true); (2, true); (1, false)] 64)
      ≡ₚ (p, n) :: allocated (Heap 0 4 [(1, true); (3, false)] 64).
Proof.
  apply (malloc_sound (Heap 0 4 [(1, true); (3, false)] 64) 65 64
           (Heap 0 4 [(1, true); (2, true); (1, false)] 64)); [|lia|reflexivity].
  constructor; simpl; try done; repeat constructor.
Defined.

Lemma no_gap n pf pos l :
  0 < n -> pos_sizes l -> coalesced pf l -> Forall (fun e => snd e = false -> fst e < n) l ->
  forall p, pos <= p -> p + n <= pos + bsum l -> exists q, In q (allocs pos l) /\ ~ apart (p, n) q.
Proof.
  intros Hn Hl. revert pf pos. induction Hl as [|[c u] l Hc Hl IH]; intros pf pos Hco Hf p Hp Hend.
  { simpl in Hend. lia. }
  inversion Hf as [|? ? Hc' Hf']; subst. simpl in Hc, Hc'. change (bsum ((c, u) :: l)) with (c + bsum l) in Hend.
  destruct Hco as [_ Hco].
  destruct (Z_lt_le_dec p (pos + c)) as [Hlt|Hge].
  - destruct u.
    + exists (pos, c). split; [simpl; auto|]. unfold apart. simpl. lia.
    + specialize (Hc' eq_refl). destruct l as [|[c2 u2] l]; [simpl in Hend; lia|].
      destruct Hco as [Hu2 _]. rewrite (Hu2 eq_refl) in *.
      inversion Hl as [|? ? Hc2 _]; subst. simpl in Hc2.
      exists (pos + c, c2). split; [simpl; auto|]. unfold apart. simpl. lia.
  - destruct (IH _ (pos + c) Hco Hf' p Hge ltac:(lia)) as (q & Hin & Hq).
    exists q. split; [|done]. simpl. apply in_or_app. auto.
Qed.

(** First fit with coalescing fails only when it must: [malloc] of a
    positive size raises "Out of memory" exactly when every block-aligned
    placement inside the heap would overlap a live allocation, and a failing
    call leaves the heap unchanged. *)
Theorem malloc_complete h size (Hwf : heap_wf h) (Hs : 0 < size) :
  let n := (size + hp_block h - 1) / hp_block h in
  heap_malloc size h = (Raise (GenericException "Out of memory"), h) <->
  (forall p, 0 <= p -> p + n <= hp_count h -> exists q, In q (allocated h) /\ ~ apart (p, n) q).
Proof.
  intros n. pose proof (blocks_for_pos size _ (wf_block h Hwf) Hs) as Hn. fold n in Hn. split.
  - unfold heap_malloc. fold n. destruct (malloc_scan n 0 0 _) as [[[j q] b]|] eqn:E; [done|].
    intros _ p Hp Hend. apply malloc_scan_None in E.
    eapply (no_gap n false); [done|apply Hwf|apply Hwf|done|done|]. rewrite (wf_sum h Hwf). lia.
  - intros H. destruct (heap_malloc size h) as [[a|e] h'] eqn:E.
    + exfalso. destruct (malloc_carve _ _ _ _ Hwf Hs E) as (p & n' & r & post & -> & _ & Hr & Hl & _ & _).
      fold n in Hl. destruct (wf_split _ _ _ _ Hwf Hl) as (Hp & _ & Hq & _ & _ & _ & Hsum).
      pose proof (bsum_nonneg p Hp). pose proof (bsum_nonneg post Hq).
      destruct (H (bsum p)) as (q & Hin & Hq'); [lia|lia|].
      pose proof (carve_apart p 0 n r post Hp Hq ltac:(lia) Hn Hr) as Ha.
      rewrite Z.add_0_r in Ha. unfold allocated in Hin. rewrite Hl in Hin.
      rewrite List.Forall_forall in Ha. by apply Hq', Ha.
    + unfold heap_malloc in E. destruct (malloc_scan _ _ _ _) as [[[? ?] ?]|]; [done|].
      by injection E as <- <-.
Qed.

Lemma malloc_complete_witness :
  let h := Heap 0 4 [(1, false); (1, true); (2, false)] 64 in
  let n := (200 + 64 - 1) / 64 in
  heap_malloc 200 h = (Raise (GenericException "Out of memory"), h) <->
  (forall p, 0 <= p -> p + n <= 4 -> exists q, In q (allocated h) /\ ~ apart (p, n) q).
Proof.
  apply (malloc_complete (Heap 0 4 [(1, false); (1, true); (2, false)] 64) 200); [|lia].
  constructor; simpl; try done; repeat constructor; done.
Defined.

(** Freeing what was just carved restores the free entry. *)
Lemma free_carve h p o n r post :
  heap_wf h -> hp_blocks h = p ++ (o + n + r, false) :: post -> 0 <= o -> 0 < n -> 0 <= r ->
  heap_free (hp_offset h + hp_block h * (bsum p + o))
    (hp_set_blocks h (p ++ rest o ++ (n, true) :: rest r ++ post)) = (Ok tt, h).
Proof.
  intros Hwf Hl Ho Hn Hr. destruct (wf_split _ _ _ _ Hwf Hl) as (Hp & Hb & Hq & Hcp & Hlf & Hcq & Hs).
  set (h1 := hp_set_blocks h _).
  assert (Hl1 : hp_blocks h1 = (p ++ rest o) ++ (n, true) :: rest r ++ post) by (by rewrite <- app_assoc).
  change (hp_offset h) with (hp_offset h1). change (hp_block h) with (hp_block h1).
  rewrite (heap_free_at h1 p o n r post); try done; try apply Hwf.
  - f_equal. unfold hp_set_blocks. simpl. destruct h as [off cnt bl blk]. simpl in *. subst bl.
    do 4 f_equal. lia.
  - pose proof (wf_carve h p o n r post Hwf Hl Ho Hn Hr) as Hw. by destruct Hw.
Qed.

(** Allocation and release are inverse: on a well-formed heap, freeing the
    address that [malloc] or [memalign] just returned (for a positive size)
    restores the block list exactly, so a [guarded_malloc] whose body leaves the
    heap as it found it leaks nothing, whether the body returns or raises. *)
Theorem alloc_free_roundtrip h align size (A : Type) (body : Z -> M heap A)
    (Hwf : heap_wf h) (Hs : 0 < size) :
  (forall a h', heap_malloc size h = (Ok a, h') -> heap_free a h' = (Ok tt, h)) /\
  (forall a h', heap_memalign align size h = (Ok a, h') -> heap_free a h' = (Ok tt, h)) /\
  (forall a h', heap_malloc size h = (Ok a, h') -> snd (body a h') = h' ->
   guarded_malloc size body h = (fst (body a h'), h)).
Proof.
  assert (Hm : forall a h', heap_malloc size h = (Ok a, h') -> heap_free a h' = (Ok tt, h)).
  { intros a h' H. destruct (malloc_carve _ _ _ _ Hwf Hs H) as (p & n & r & post & _ & Hn & Hr & Hl & -> & ->).
    by apply free_carve. }
  split_and!; [done| |].
  - intros a h' H. destruct (memalign_carve _ _ _ _ _ Hwf Hs H)
      as (p & o & n & r & post & _ & Ho & Hn & Hr & _ & _ & Hl & -> & ->).
    by apply free_carve.
  - intros a h' H Hbody. unfold guarded_malloc, py_bind, py_finally. rewrite H.
    destruct (body a h') as [v h2]. simpl in Hbody. subst h2. by rewrite (Hm _ _ H).
Qed.

Lemma alloc_free_roundtrip_witness :
  let h := Heap 0x1000 8 [(1, true); (7, false)] 64 in
  heap_free 0x1040 (Heap 0x1000 8 [(1, true); (2, true); (5, false)] 64) = (Ok tt, h) /\
  heap_free 0x1080 (Heap 0x1000 8 [(1, true); (1, false); (2, true); (4, false)] 64) = (Ok tt, h) /\
  guarded_malloc 65 (fun a => py_ret a) h = (Ok 0x1040, h).
Proof.
  destruct (alloc_free_roundtrip (Heap 0x1000 8 [(1, true); (7, false)] 64) 128 65 Z (fun a => py_ret a))
    as (H1 & H2 & H3); [constructor; simpl; try done; repeat constructor; done|lia|].
  split; [apply H1; reflexivity|]. split; [apply H2; reflexivity|].
  by rewrite (H3 0x1040 (Heap 0x1000 8 [(1, true); (2, true); (5, false)] 64)).
Defined.

Lemma align_pad_aligned al q : 0 < al -> (q + align_pad al q) mod al = 0.
Proof.
  intros Hal. unfold align_pad. destruct (q mod al =? 0) eqn:E; zbool; [by rewrite Z.add_0_r|].
  replace (q + (al - q mod al)) with ((q - q mod al) + 1 * al) by lia.
  rewrite Z_mod_plus_full. pose proof (Z.div_mod q al ltac:(lia)).
  replace (q - q mod al) with ((q / al) * al) by lia. by apply Z.mod_mul; lia.
Qed.

Lemma memalign_allocates h align size a h'
    (Hwf : heap_wf h) (Hs : 0 < size) (Ha : 0 < align)
    (Hdiv : (align | hp_block h) \/ (hp_block h | align))
    (H : heap_memalign align size h = (Ok a, h')) :
  a mod align = 0 /\ exists p n, a = hp_offset h + hp_block h * p /\ size <= n * hp_block h /\
    0 <= p /\ p + n <= hp_count h /\
    Forall (apart (p, n)) (allocated h) /\ allocated h' ≡ₚ (p, n) :: allocated h.
Proof.
  pose proof (wf_block h Hwf) as Hb.
  destruct (memalign_carve _ _ _ _ _ Hwf Hs H) as (p & o & n & r & post & Hne & Ho & Hn & Hr & Hal & Hoe & Hl & -> & ->).
  destruct (wf_split _ _ _ _ Hwf Hl) as (Hp & _ & Hq & _ & _ & _ & Hsum).
  pose proof (bsum_nonneg p Hp). pose proof (bsum_nonneg post Hq). split.
  - set (al := Z.max align (hp_block h) / hp_block h) in *.
    pose proof (align_pad_aligned al (hp_offset h / hp_block h + bsum p) Hal) as Hm.
    rewrite <- Hoe in Hm. apply Z.mod_divide in Hm as [k Hk]; [|lia].
    pose proof (mod_div_exact _ _ Hb (wf_offset h Hwf)) as Hoff.
    apply Z.mod_divide; [lia|].
    assert (Heq : hp_offset h + hp_block h * (bsum p + o) = hp_block h * al * k) by nia.
    rewrite Heq. apply Z.divide_mul_l. destruct Hdiv as [Hd|Hd].
    + by apply Z.divide_mul_l.
    + apply Z.divide_pos_le in Hd as Hle; [|done].
      exists 1. unfold al. rewrite Z.max_l by done. destruct Hd as [c ->]. rewrite Z.div_mul by lia. lia.
  - exists (bsum p + o), n. split; [done|]. split; [rewrite Hne; apply blocks_for_bounds, Hwf|].
    split; [lia|]. split; [lia|]. unfold allocated. cbn [hp_blocks hp_set_blocks]. split.
    + rewrite Hl. by apply carve_apart.
    + rewrite Hl, (allocs_carve 0 p o n r post (o + n + r)), allocs_free by done.
      by rewrite Z.add_0_l, Permutation_middle.
Qed.

(** A successful [memalign] returns memory aligned to [align] whenever one of
    [align] and the block size divides the other (powers of two always do), of
    at least the requested size, inside the heap and disjoint from every live
    allocation, and records exactly that allocation. *)
Theorem memalign_sound h align size a h'
    (Hwf : heap_wf h) (Hs : 0 < size) (Ha : 0 < align)
    (Hdiv : (align | hp_block h) \/ (hp_block h | align))
    (H : heap_memalign align size h = (Ok a, h')) :
  a mod align = 0 /\ exists p n, a = hp_offset h + hp_block h * p /\ size <= n * hp_block h /\
    0 <= p /\ p + n <= hp_count h /\
    Forall (apart (p, n)) (allocated h) /\ allocated h' ≡ₚ (p, n) :: allocated h.
Proof. exact (memalign_allocates h align size a h' Hwf Hs Ha Hdiv H). Qed.

Lemma memalign_sound_witness :
  0x2000 mod 4096 = 0 /\ exists p n, 0x2000 = 0x1fc0 + 64 * p /\ 10 <= n * 64 /\ 0 <= p /\ p + n <= 8 /\
    Forall (apart (p, n)) (allocated (Heap 0x1fc0 8 [(8, false)] 64)) /\
    allocated (Heap 0x1fc0 8 [(1, false); (1, true); (6, false)] 64)
      ≡ₚ (p, n) :: allocated (Heap 0x1fc0 8 [(8, false)] 64).
Proof.
  apply (memalign_sound (Heap 0x1fc0 8 [(8, false)] 64) 4096 10 0x2000
           (Heap 0x1fc0 8 [(1, false); (1, true); (6, false)] 64)); [|lia|lia| |reflexivity].
  - constructor; simpl; try done; repeat constructor; done.
  - right. by exists 64.
Defined.

Lemma allocs_split pos l p n :
  In (p, n) (allocs pos l) -> exists pre post, l = pre ++ (n, true) :: post /\ p = pos + bsum pre.
Proof.
  revert pos. induction l as [|[c u] l IH]; intros pos; simpl; [done|].
  intros [Hin|Hin]%in_app_or.
  - destruct u; [|done]. destruct Hin as [[= <- <-]|[]]. exists [], l. simpl. split; [done|lia].
  - destruct (IH _ Hin) as (pre & post & -> & ->). exists ((c, u) :: pre), post. simpl.
    split; [done|]. fold (bsum pre). lia.
Qed.

Lemma free_live h p n :
  heap_wf h -> In (p, n) (allocated h) ->
  exists h', heap_free (hp_offset h + hp_block h * p) h = (Ok tt, h') /\ allocated h ≡ₚ (p, n) :: allocated h'.
Proof.
  intros Hwf Hin. destruct (allocs_split _ _ _ _ Hin) as (pre & post & Hl & ->).
  pose proof Hwf as [Hb Ho Hs Hp Hc]. rewrite Hl in Hp, Hc.
  apply Forall_app in Hp as [Hp1 Hp2]. inversion Hp2 as [|? ? Hb0 Hp3]; subst. simpl in Hb0.
  apply coalesced_app in Hc as [Hc1 [_ Hc2]].
  destruct (coalesced_left pre Hp1 Hc1) as (p & x & -> & Hx & Hcp & Hlf).
  destruct (coalesced_right post Hp3 Hc2) as (y & q & -> & Hy & Hcq).
  apply Forall_app in Hp1 as [Hp1 _]. apply Forall_app in Hp3 as [_ Hp3].
  rewrite bsum_app, bsum_rest, Z.add_0_l by done. eexists. split; [by apply heap_free_at|].
  unfold allocated. cbn [hp_blocks hp_set_blocks]. rewrite Hl, allocs_free, <- app_assoc.
  rewrite (allocs_carve 0 p x n y q (x + n + y)) by done.
  replace (n + x + y) with (x + n + y) by lia. by rewrite Permutation_middle.
Qed.

(** A coalesced tiling is determined by its live allocations. *)
Lemma blocks_canonical l : forall l' pf pos,
  Forall (fun e => 0 < fst e) l -> Forall (fun e => 0 < fst e) l' ->
  coalesced pf l -> coalesced pf l' -> bsum l = bsum l' -> allocs pos l = allocs pos l' -> l = l'.
Proof.
  induction l as [|[b u] l IH]; intros l' pf pos Hp Hp' Hc Hc' Hs Ha.
  { destruct l' as [|[b' u'] l']; [done|]. inversion Hp' as [|? ? H1 H2]; subst.
    pose proof (bsum_nonneg _ H2). simpl in *. lia. }
  inversion Hp as [|? ? Hb Hpl]; subst. simpl in Hb.
  destruct l' as [|[b' u'] l'].
  { pose proof (bsum_nonneg _ Hpl). simpl in *. lia. }
  inversion Hp' as [|? ? Hb' Hpl']; subst. simpl in Hb'.
  assert (Hlow : forall k q, Forall (fun e => 0 < fst e) k -> In q (allocs (pos + b) k) \/ In q (allocs (pos + b') k) -> pos < fst q).
  { intros k [q m] Hk [Hin|Hin]; apply allocs_bounds in Hin as (? & _); simpl; auto with lia. }
  destruct Hc as [Hpf Hc], Hc' as [Hpf' Hc'].
  assert (Heq : u = u' /\ b = b').
  { destruct u, u'; simpl in Ha.
    - by injection Ha as ->.
    - pose proof (Hlow l' (pos, b) Hpl') as Hx. rewrite <- Ha in Hx. simpl in Hx. specialize (Hx ltac:(auto)). lia.
    - pose proof (Hlow l (pos, b') Hpl) as Hx. rewrite Ha in Hx. simpl in Hx. specialize (Hx ltac:(auto)). lia.
    - split; [done|]. destruct l as [|[c v] l], l' as [|[c' v'] l'];
        simpl in Hc, Hc'; try (destruct Hc as [Hv _]; rewrite (Hv eq_refl) in *);
        try (destruct Hc' as [Hv' _]; rewrite (Hv' eq_refl) in *); simpl in *; try discriminate Ha; [lia|].
      injection Ha as E1 E2 _. lia. }
  destruct Heq as [-> ->]. f_equal. apply (IH l' (negb u') (pos + b')); auto; simpl in *; [lia|].
  destruct u'; simpl in Ha; [by injection Ha|done].
Qed.

Lemma sorted_starts_perm (l l' : list (Z * Z)) :
  StronglySorted (fun a b => fst a < fst b) l -> StronglySorted (fun a b => fst a < fst b) l' -> l ≡ₚ l' -> l = l'.
Proof.
  revert l'. induction l as [|x l IH]; intros l' Hs Hs' Hp.
  { by apply Permutation_nil in Hp. }
  destruct l' as [|y l']; [by symmetry in Hp; apply Permutation_nil in Hp|].
  inversion Hs as [|? ? Hsl Hx]; subst. inversion Hs' as [|? ? Hsl' Hy]; subst.
  assert (x = y) as ->.
  { assert (Hxin : In x (y :: l')) by (rewrite <- Hp; by left).
    assert (Hyin : In y (x :: l)) by (rewrite Hp; by left).
    destruct Hxin as [->|Hxin]; [done|]. destruct Hyin as [->|Hyin]; [done|].
    rewrite List.Forall_forall in Hx, Hy. specialize (Hx y Hyin). specialize (Hy x Hxin). lia. }
  f_equal. apply IH; auto. by apply Permutation_cons_inv in Hp.
Qed.

Lemma allocs_sorted pos l :
  Forall (fun e => 0 < fst e) l -> StronglySorted (fun a b => fst a < fst b) (allocs pos l).
Proof.
  intros Hl. revert pos. induction Hl as [|[b u] l Hb Hl IH]; intros pos; simpl; [constructor|].
  destruct u; simpl; [|apply IH]. constructor; [apply IH|].
  apply List.Forall_forall. intros [q m] Hin. apply allocs_bounds in Hin as (? & _); simpl in *; auto with lia.
Qed.

Lemma heap_canonical h h' :
  heap_wf h -> heap_wf h' -> hp_offset h = hp_offset h' -> hp_count h = hp_count h' -> hp_block h = hp_block h' ->
  allocated h ≡ₚ allocated h' -> h = h'.
Proof.
  intros [_ _ Hs Hp Hc] [_ _ Hs' Hp' Hc'] Ho Hn Hb Ha.
  apply sorted_starts_perm in Ha; [|by apply allocs_sorted|by apply allocs_sorted].
  destruct h as [o c l b], h' as [o' c' l' b']. simpl in *. subst o' b'.
  rewrite (blocks_canonical l l' false 0) by (auto; lia). congruence.
Qed.

(** [free] accepts exactly the start addresses of live allocations; it then
    removes that allocation and no other.  On any other address it raises and
    the heap is unchanged. *)
Theorem free_exact h a (Hwf : heap_wf h) :
  (forall p n, In (p, n) (allocated h) -> a = hp_offset h + hp_block h * p ->
     exists h', heap_free a h = (Ok tt, h') /\ allocated h ≡ₚ (p, n) :: allocated h') /\
  ((forall p n, In (p, n) (allocated h) -> a <> hp_offset h + hp_block h * p) ->
     exists e, heap_free a h = (Raise e, h)).
Proof.
  split.
  - intros p n Hin ->. by apply free_live.
  - intros Hno. destruct (heap_free a h) as [[[]|e] h'] eqn:E.
    + destruct (heap_free_ok _ _ _ Hwf E) as (p & x & b & y & q & Hl & Hx & _ & _ & _ & _ & _ & _ & _ & Ha & _).
      exfalso. apply (Hno (bsum p + x) b); [|done]. unfold allocated.
      rewrite Hl, allocs_app, bsum_app, bsum_rest by done. apply in_or_app. right. simpl. auto.
    + exists e. f_equal. revert E. unfold heap_free.
      repeat case_match; congruence.
Qed.

Lemma free_exact_witness :
  let h := Heap 0 4 [(1, true); (1, false); (2, true)] 64 in
  (exists h', heap_free 128 h = (Ok tt, h') /\ allocated h ≡ₚ (2, 2) :: allocated h') /\
  (exists e, heap_free 64 h = (Raise e, h)).
Proof.
  intros h.
  assert (Hwf : heap_wf h) by (constructor; simpl; try done; repeat constructor; done).
  destruct (free_exact h 128 Hwf) as [H1 _]. destruct (free_exact h 64 Hwf) as [_ H2]. split.
  - apply H1; [simpl; auto|reflexivity].
  - apply H2. simpl. intros p n [[= <- <-]|[[= <- <-]|[]]]; lia.
Defined.

(** A zero-byte request is not rejected: it records an empty allocation at an
    address the next [malloc] hands out again, and the second of the two
    matching [free] calls then fails. *)
Lemma malloc_zero_aliases :
  exists h1 h2 h3, heap_malloc 0 (Heap 0 4 [(4, false)] 64) = (Ok 0, h1) /\
    heap_malloc 100 h1 = (Ok 0, h2) /\ heap_free 0 h2 = (Ok tt, h3) /\
    heap_free 0 h3 = (Raise (ValueError "block already free"), h3).
Proof. do 3 eexists. split; [reflexivity|]. split; [reflexivity|]. split; reflexivity. Qed.
