(* ===== verification/RangeMap.v ===== *)
(** * proxyclient/m1n1/utils.py: [RangeMap] and its subclasses

    A map from address ranges to values, kept as three parallel lists of
    starts, inclusive ends and values, searched with [bisect].  The model keeps
    the three lists and the index arithmetic of the source.  Values are pure:
    the code copies a value whenever it splits a range, so entries never share
    an object, and the consumer of a generator ([populate], [overlaps]) that
    mutates the yielded value is the argument [f] applied to that entry. *)

From S2P Require Import Prelude.
From Stdlib Require Import ZArith Lia Sorted.
From stdpp Require Import base list numbers strings sorting gmap.

Local Open Scope Z_scope.

(** ** [bisect.bisect_left] *)

Fixpoint bisect_loop (fuel : nat) (a : list Z) (x : Z) (lo hi : nat) : nat :=
  match fuel with
  | O => lo
  | S k => if Nat.ltb lo hi then
             let mid := ((lo + hi) / 2)%nat in
             if (a !!! mid) <? x then bisect_loop k a x (S mid) hi
             else bisect_loop k a x lo mid
           else lo
  end.

Definition bisect_left (a : list Z) (x : Z) : nat :=
  bisect_loop (S (length a)) a x 0 (length a).

(** ** The class *)

Record rangemap (V : Type) := RM {
  rm_start : list Z;
  rm_end : list Z;
  rm_value : list V
}.
Arguments RM {V}.
Arguments rm_start {V}.
Arguments rm_end {V}.
Arguments rm_value {V}.

(** A zone argument: a range, a slice with optional ends, or one address. *)
Inductive zone :=
| ZRange (start stop : Z)
| ZSlice (start stop : option Z)
| ZInt (addr : Z).

Definition rm_zone (z : zone) : Z * Z :=
  match z with
  | ZRange s e => (s, e)
  | ZSlice s e => (default 0 s, default (2 ^ 64) e)
  | ZInt a => (a, a + 1)
  end.

(** [x = l[i]]. *)
Definition py_index {A} (l : list A) (i : nat) : result A :=
  match l !! i with Some x => Ok x | None => Raise IndexError end.

Section RangeMap.
Context {V : Type}.
Implicit Types m : rangemap V.

Definition rm_empty : rangemap V := RM [] [] [].

Definition rm_clone m : rangemap V := RM (rm_start m) (rm_end m) (rm_value m).

Definition rm_len m : nat := length (rm_start m).

Definition rm_contains (pos : nat) (addr : Z) m : bool :=
  match rm_start m !! pos, rm_end m !! pos with
  | Some s, Some e => (s <=? addr) && (addr <=? e)
  | _, _ => false
  end.

Definition rm_split (pos : nat) (addr : Z) m : result (rangemap V) :=
  let? v := py_index (rm_value m) pos in
  Ok (RM (py_insert (pos + 1) addr (rm_start m))
         (py_insert pos (addr - 1) (rm_end m))
         (py_insert (pos + 1) v (rm_value m))).

Definition rm_lookup (addr : Z) (default : V) m : V :=
  let pos := bisect_left (rm_end m) addr in
  if rm_contains pos addr m then
    match rm_value m !! pos with Some v => v | None => default end
  else default.

Definition rm_items m : list ((Z * Z) * V) :=
  zip (zip_with (fun s e => (s, e + 1)) (rm_start m) (rm_end m)) (rm_value m).

(** Left-side overlap: split the range that contains [zs] strictly inside. *)
Definition rm_left (zs : Z) (start : nat) m : result (nat * rangemap V) :=
  match rm_start m !! start with
  | Some s =>
      if rm_contains start zs m && negb (s =? zs) then
        let? m' := rm_split start zs m in
        let? s' := py_index (rm_start m') (start + 1) in
        let? _ := rassert (s' =? zs) in
        Ok ((start + 1)%nat, m')
      else Ok (start, m)
  | None => Ok (start, m)
  end.

(** [for pos in range(start, len(self.__start))] of [_overlap_range]; [n] is the
    number of positions left. *)
Fixpoint overlap_loop (n pos start : nat) (stop : Z) (split : bool) m : result ((nat * nat) * rangemap V) :=
  match n with
  | O => Ok ((start, rm_len m), m)
  | S k =>
      let? s := py_index (rm_start m) pos in
      let? e := py_index (rm_end m) pos in
      if stop <=? s then Ok ((start, pos), m)
      else if split && (stop <? e + 1) then
        let? m' := rm_split pos stop m in Ok ((start, S pos), m')
      else overlap_loop k (S pos) start stop split m
  end.

Definition rm_overlap_range (z : zone) (split : bool) m : result ((nat * nat) * rangemap V) :=
  let '(zs, ze) := rm_zone z in
  if ze <=? zs then Ok ((0, 0)%nat, m)
  else
    let start := bisect_left (rm_end m) zs in
    let? sm := (if split then rm_left zs start m else Ok (start, m)) in
    let '(start, m) := sm in
    overlap_loop (rm_len m - start) start start ze split m.

(** The [while start < stop] loop of [populate].  The result lists the yielded
    ranges; [f] is what the consumer does to each yielded value. *)
Fixpoint populate_loop (fuel : nat) (f : V -> V) (dflt : V) (start stop : Z) (pos : nat) m
    : result (list (Z * Z) * rangemap V) :=
  match fuel with
  | O => Raise OutOfFuel
  | S k =>
      if start <? stop then
        if Nat.eqb pos (rm_len m) then
          Ok ([(start, stop)],
              RM (rm_start m ++ [start]) (rm_end m ++ [stop - 1]) (rm_value m ++ [f dflt]))
        else
          let? s := py_index (rm_start m) pos in
          let? _ := rassert (start <=? s) in
          if start <? s then
            let boundary := Z.min stop s in
            let m' := RM (py_insert pos start (rm_start m))
                         (py_insert pos (boundary - 1) (rm_end m))
                         (py_insert pos (f dflt) (rm_value m)) in
            let? r := populate_loop k f dflt boundary stop (S pos) m' in
            Ok ((start, boundary) :: fst r, snd r)
          else
            let? e := py_index (rm_end m) pos in
            let? m1 := (if stop - 1 <? e then rm_split pos stop m else Ok m) in
            let? s1 := py_index (rm_start m1) pos in
            let? e1 := py_index (rm_end m1) pos in
            let? v1 := py_index (rm_value m1) pos in
            let m2 := RM (rm_start m1) (rm_end m1) (<[pos := f v1]> (rm_value m1)) in
            let? r := populate_loop k f dflt (e1 + 1) stop (S pos) m2 in
            Ok ((s1, e1 + 1) :: fst r, snd r)
      else let? _ := rassert (start =? stop) in Ok ([], m)
  end.

Definition rm_populate (f : V -> V) (z : zone) (dflt : V) m : result (list (Z * Z) * rangemap V) :=
  let '(zs, ze) := rm_zone z in
  if 2 ^ 63 <=? ze - zs then Raise OverflowError   (* len(zone) *)
  else if ze <=? zs then Ok ([], m)
  else
    let pos := bisect_left (rm_end m) zs in
    let? pm := rm_left zs pos m in
    let '(pos, m) := pm in
    populate_loop (2 * rm_len m + 3) f dflt zs ze pos m.

(** [for pos in range(start, stop)] over the overlapping entries. *)
Fixpoint overlaps_apply (n pos : nat) (f : V -> V) (l : list V) : list V :=
  match n with
  | O => l
  | S k => overlaps_apply k (S pos) f (alter f pos l)
  end.

Definition rm_overlaps (f : V -> V) (z : zone) (split : bool) m : result (rangemap V) :=
  let? r := rm_overlap_range z split m in
  let '((start, stop), m) := r in
  Ok (RM (rm_start m) (rm_end m) (overlaps_apply (stop - start) start f (rm_value m))).

Definition rm_replace (z : zone) (v : V) m : result (rangemap V) :=
  let '(zs, ze) := rm_zone z in
  if zs =? ze then Ok m
  else
    let? r := rm_overlap_range (ZRange zs ze) true m in
    let '((start, stop), m) := r in
    Ok (RM (take start (rm_start m) ++ [zs] ++ drop stop (rm_start m))
           (take start (rm_end m) ++ [ze - 1] ++ drop stop (rm_end m))
           (take start (rm_value m) ++ [v] ++ drop stop (rm_value m))).

Definition rm_clear (oz : option zone) m : result (rangemap V) :=
  match oz with
  | None => Ok rm_empty
  | Some z =>
      let '(zs, ze) := rm_zone z in
      if zs =? ze then Ok m
      else
        let? r := rm_overlap_range (ZRange zs ze) true m in
        let '((start, stop), m) := r in
        Ok (RM (take start (rm_start m) ++ drop stop (rm_start m))
               (take start (rm_end m) ++ drop stop (rm_end m))
               (take start (rm_value m) ++ drop stop (rm_value m)))
  end.

(** [compact]: the accumulators hold [new_s], [new_e] and [new_v] in reverse, so
    that [new_e[-1]] is the head; [last] is the head of the reversed [new_v]. *)
Fixpoint compact_loop (equal : V -> V -> bool) (empty : V -> bool)
    (l : list (Z * Z * V)) (acc : list (Z * Z * V)) : list (Z * Z * V) :=
  match l with
  | [] => reverse acc
  | (s, e, v) :: r =>
      if empty v then compact_loop equal empty r acc
      else match acc with
           | (s0, e0, last) :: acc' =>
               if equal last v && (s =? e0 + 1) then compact_loop equal empty r ((s0, e, last) :: acc')
               else compact_loop equal empty r ((s, e, v) :: acc)
           | [] => compact_loop equal empty r [(s, e, v)]
           end
  end.

Definition segs_of m : list (Z * Z * V) := zip (zip (rm_start m) (rm_end m)) (rm_value m).

Definition of_segs (l : list (Z * Z * V)) : rangemap V :=
  RM ((fun x => x.1.1) <$> l) ((fun x => x.1.2) <$> l) (snd <$> l).

Definition rm_compact (equal : V -> V -> bool) (empty : V -> bool) m : rangemap V :=
  if Nat.eqb (rm_len m) 0 then m else of_segs (compact_loop equal empty (segs_of m) []).

End RangeMap.

Arguments rm_empty {V}.

(** ** The subclasses *)

(** [AddrLookup]: lists of (value, zone the caller gave). *)
Section AddrLookup.
Context {A : Type} `{EqDecision A}.
Abbreviation entry := (A * zone)%type.

#[export] Instance zone_eq_dec : EqDecision zone.
Proof. solve_decision. Defined.

Definition addr_add (z : zone) (v : A) (m : rangemap (list entry)) : result (rangemap (list entry)) :=
  let? r := rm_populate (fun l => l ++ [(v, z)]) z [] m in Ok (snd r).

(** [values.remove(x)], with its [ValueError] swallowed. *)
Fixpoint list_remove (x : entry) (l : list entry) : list entry :=
  match l with
  | [] => []
  | y :: r => if bool_decide (y = x) then r else y :: list_remove x r
  end.

Definition addr_remove (z : zone) (v : A) (m : rangemap (list entry)) : result (rangemap (list entry)) :=
  rm_overlaps (list_remove (v, z)) z false m.

Definition addr_lookup (unknown : A) (addr : Z) (m : rangemap (list entry)) : entry :=
  match rm_lookup addr [] m with
  | x :: _ => x
  | [] => (unknown, ZRange 0 (2 ^ 64))
  end.

Definition addr_lookup_all (addr : Z) (m : rangemap (list entry)) : list entry := rm_lookup addr [] m.
End AddrLookup.

(** [ScalarRangeMap] and [BoolRangeMap]. *)
Definition scalar_get {V} (addr : Z) (m : rangemap V) : option V :=
  rm_lookup addr None (RM (rm_start m) (rm_end m) (Some <$> rm_value m)).

Definition scalar_setitem {V} (z : zone) (v : V) (m : rangemap V) := rm_replace z v m.
Definition scalar_delitem {V} (z : zone) (m : rangemap V) := rm_clear (Some z) m.
Definition scalar_getitem {V} (addr : Z) (m : rangemap V) : result V :=
  match scalar_get addr m with
  | Some v => Ok v
  | None => Raise (KeyError "Address has no value")
  end.

Definition bool_set (z : zone) (m : rangemap bool) := rm_replace z true m.
Definition bool_delitem (z : zone) (m : rangemap bool) := rm_clear (Some z) m.
Definition bool_getitem (addr : Z) (m : rangemap bool) : bool := rm_lookup addr false m.

(** [DictRangeMap]: a dict per range. *)
Section DictRangeMap.
Context {K W : Type} `{Countable K}.
Abbreviation dmap := (rangemap (gmap K W)).

Definition dict_setitem_zone (z : zone) (value : gmap K W) (m : dmap) := rm_replace z value m.
Definition dict_setitem_key (z : zone) (key : K) (value : W) (m : dmap) : result dmap :=
  let? r := rm_populate (fun d => <[key := value]> d) z ∅ m in Ok (snd r).
Definition dict_delitem_zone (z : zone) (m : dmap) := rm_clear (Some z) m.
Definition dict_delitem_key (z : zone) (key : K) (m : dmap) : result dmap :=
  rm_overlaps (delete key) z true m.
Definition dict_getitem (addr : Z) (m : dmap) : gmap K W := rm_lookup addr ∅ m.
Definition dict_getitem_key (addr : Z) (k : K) (m : dmap) : option W := rm_lookup addr ∅ m !! k.
End DictRangeMap.

(** [SetRangeMap]: a set per range. *)
Section SetRangeMap.
Context {K : Type} `{Countable K}.
Abbreviation smap := (rangemap (gset K)).

Definition set_add (z : zone) (key : K) (m : smap) : result smap :=
  let? r := rm_populate (fun s => {[key]} ∪ s) z ∅ m in Ok (snd r).
Definition set_discard (z : zone) (key : K) (m : smap) : result smap :=
  rm_overlaps (fun s => s ∖ {[key]}) z true m.
Definition set_setitem (z : zone) (value : gset K) (m : smap) := rm_replace z value m.
Definition set_delitem (z : zone) (m : smap) := rm_clear (Some z) m.
Definition set_getitem (addr : Z) (m : smap) : gset K := rm_lookup addr ∅ m.
End SetRangeMap.

(** The checks of the module's self test run on the model. *)
Example scalar_selftest :
  let m := (let? m := scalar_setitem (ZSlice (Some 0) (Some 5)) 1 rm_empty in
            let? m := scalar_setitem (ZSlice (Some 5) (Some 10)) 2 m in
            let? m := scalar_setitem (ZSlice (Some 4) (Some 8)) 3 m in
            scalar_delitem (ZSlice (Some 2) (Some 4)) m) in
  match m with
  | Ok m => (fun i => scalar_get i m) <$> [0; 1; 2; 3; 4; 5; 6; 7; 8; 9; 10]
  | Raise _ => []
  end = [Some 1; Some 1; None; None; Some 3; Some 3; Some 3; Some 3; Some 2; Some 2; None].
Proof. reflexivity. Qed.

(** ** Correctness of the binary search *)

Lemma bisect_loop_spec fuel a x lo hi n :
  (hi <= length a)%nat -> (lo <= n <= hi)%nat -> (hi - lo < fuel)%nat ->
  (forall i v, (i < n)%nat -> a !! i = Some v -> v < x) ->
  (forall i v, (n <= i)%nat -> a !! i = Some v -> x <= v) ->
  bisect_loop fuel a x lo hi = n.
Proof.
  intros Hlen. revert lo hi Hlen. induction fuel as [|k IH]; intros lo hi Hlen Hn Hf Hlt Hge; [lia|].
  cbn [bisect_loop]. destruct (Nat.ltb_spec lo hi) as [Hlh|Hlh]; [|lia].
  cbv zeta. set (mid := ((lo + hi) / 2)%nat).
  assert (Hmid : (lo <= mid < hi)%nat).
  { unfold mid. split; [apply Nat.div_le_lower_bound; lia|apply Nat.Div0.div_lt_upper_bound; lia]. }
  destruct (lookup_lt_is_Some_2 a mid ltac:(lia)) as [v Hv].
  rewrite (list_lookup_total_correct _ _ _ Hv). destruct (v <? x) eqn:E; zbool.
  - apply IH; auto; [|lia]. split; [|lia].
    destruct (Nat.le_gt_cases n mid) as [Hc|Hc]; [|lia]. pose proof (Hge _ _ Hc Hv). lia.
  - apply IH; auto; try lia. split; [lia|].
    destruct (Nat.le_gt_cases n mid) as [Hc|Hc]; [lia|]. pose proof (Hlt _ _ Hc Hv). lia.
Qed.

(** ** Segment lists: the abstract content of a [RangeMap] *)

Section Segs.
Context {V : Type}.
Abbreviation seg := (Z * Z * V)%type.
Implicit Types l : list seg.

Definition seg_s (x : seg) : Z := x.1.1.
Definition seg_e (x : seg) : Z := x.1.2.

(** Ordered, disjoint, nonempty segments. *)
Fixpoint segs_ok (l : list seg) : Prop :=
  match l with
  | [] => True
  | x :: r => seg_s x <= seg_e x /\ Forall (fun y => seg_e x < seg_s y) r /\ segs_ok r
  end.

(** The function a segment list denotes. *)
Fixpoint den (l : list seg) (a : Z) : option V :=
  match l with
  | [] => None
  | (s, e, v) :: r => if (s <=? a) && (a <=? e) then Some v else den r a
  end.

Definition all_before (c : Z) l : Prop := Forall (fun y => seg_e y < c) l.
Definition all_from (c : Z) l : Prop := Forall (fun y => c <= seg_s y) l.

Lemma segs_ok_app l k :
  segs_ok (l ++ k) <-> segs_ok l /\ segs_ok k /\ Forall (fun x => Forall (fun y => seg_e x < seg_s y) k) l.
Proof.
  induction l as [|x l IH]; simpl; [intuition|].
  rewrite IH, Forall_app, Forall_cons. tauto.
Qed.

Lemma segs_ok_cut c l k :
  segs_ok l -> segs_ok k -> all_before c l -> all_from c k -> segs_ok (l ++ k).
Proof.
  intros Hl Hk Hb Hf. apply segs_ok_app. split_and!; [done|done|].
  eapply Forall_impl; [exact Hb|]. intros x Hx. eapply Forall_impl; [exact Hf|].
  intros y Hy. simpl in *. lia.
Qed.

Lemma all_from_before_e c l : segs_ok l -> all_from c l -> Forall (fun y => c <= seg_e y) l.
Proof.
  induction l as [|x l IH]; intros Hok Hf; [constructor|].
  inversion Hf; subst. destruct Hok as (Hx & _ & Hok). constructor; [lia|auto].
Qed.

Lemma all_before_s c l : segs_ok l -> all_before c l -> Forall (fun y => seg_s y < c) l.
Proof.
  induction l as [|x l IH]; intros Hok Hf; [constructor|].
  inversion Hf; subst. destruct Hok as (Hx & _ & Hok). constructor; [lia|auto].
Qed.

Lemma den_app l k a : den (l ++ k) a = match den l a with Some v => Some v | None => den k a end.
Proof.
  induction l as [|[[s e] v] l IH]; simpl; [done|]. by destruct ((s <=? a) && (a <=? e)).
Qed.

Lemma den_before c l a : all_before c l -> c <= a -> den l a = None.
Proof.
  induction 1 as [|[[s e] v] l Hx _ IH]; intros Ha; simpl; [done|]. unfold seg_e in Hx. simpl in Hx.
  destruct (s <=? a) eqn:E1, (a <=? e) eqn:E2; zbool; simpl; auto; lia.
Qed.

Lemma den_from c l a : all_from c l -> a < c -> den l a = None.
Proof.
  induction 1 as [|[[s e] v] l Hx _ IH]; intros Ha; simpl; [done|]. unfold seg_s in Hx. simpl in Hx.
  destruct (s <=? a) eqn:E1, (a <=? e) eqn:E2; zbool; simpl; auto; lia.
Qed.

Lemma all_from_mono c d l : d <= c -> all_from c l -> all_from d l.
Proof. intros Hcd H. eapply Forall_impl; [exact H|]. simpl. intros; lia. Qed.
Lemma all_before_mono c d l : c <= d -> all_before c l -> all_before d l.
Proof. intros Hcd H. eapply Forall_impl; [exact H|]. simpl. intros; lia. Qed.

Lemma den_sandwich l x k c d a :
  all_before c l -> all_from c x -> all_before d x -> all_from d k -> c <= d ->
  den (l ++ x ++ k) a = if a <? c then den l a else if a <? d then den x a else den k a.
Proof.
  intros Hl Hx1 Hx2 Hk Hcd. rewrite !den_app. destruct (a <? c) eqn:E1; zbool.
  - rewrite (den_from c x), (den_from d k) by (auto; lia). by destruct (den l a).
  - rewrite (den_before c l) by (auto; lia). destruct (a <? d) eqn:E2; zbool.
    + rewrite (den_from d k) by (auto; lia). by destruct (den x a).
    + by rewrite (den_before d x) by (auto; lia).
Qed.

(** Splitting a segment does not change the denotation. *)
Lemma den_split_seg s e v c r a :
  s < c <= e -> den ((s, c - 1, v) :: (c, e, v) :: r) a = den ((s, e, v) :: r) a.
Proof.
  intros Hc. simpl.
  destruct (s <=? a) eqn:E1, (a <=? c - 1) eqn:E2, (c <=? a) eqn:E3, (a <=? e) eqn:E4; zbool; simpl; auto; lia.
Qed.

(** Where [bisect_left] on the ends lands. *)
Lemma bisect_segs l x :
  segs_ok l ->
  exists A B, l = A ++ B /\ bisect_left (seg_e <$> l) x = length A /\ all_before x A /\
              match B with [] => True | y :: _ => x <= seg_e y end.
Proof.
  intros Hok.
  assert (Hex : exists A B, l = A ++ B /\ all_before x A /\ Forall (fun y => x <= seg_e y) B).
  { induction l as [|y l IH]; [exists [], []; split_and!; constructor|]. destruct Hok as (Hy & Hall & Hok).
    destruct (Z_lt_le_dec (seg_e y) x) as [Hlt|Hge].
    - destruct (IH Hok) as (A & B & -> & HA & HB). exists (y :: A), B.
      split_and!; [done| |done]. by constructor.
    - exists [], (y :: l). split_and!; [done|constructor|]. constructor; [done|].
      assert (Hf : all_from x l).
      { eapply Forall_impl; [exact Hall|]. intros z Hz. simpl in *. lia. }
      by apply all_from_before_e. }
  destruct Hex as (A & B & -> & HA & HB). exists A, B. split; [done|]. split.
  - unfold bisect_left. rewrite fmap_app, length_app, !length_fmap.
    apply bisect_loop_spec; rewrite ?length_app, ?length_fmap; try lia.
    + intros i v Hi Hv. rewrite lookup_app_l in Hv by (rewrite length_fmap; lia).
      rewrite list_lookup_fmap in Hv. destruct (A !! i) as [y|] eqn:E; [|done]. simpl in Hv.
      injection Hv as <-. exact (Forall_lookup_1 _ _ _ _ HA E).
    + intros i v Hi Hv. rewrite lookup_app_r in Hv by (rewrite length_fmap; lia).
      rewrite list_lookup_fmap in Hv. destruct (B !! _) as [y|] eqn:E; [|done]. simpl in Hv.
      injection Hv as <-. exact (Forall_lookup_1 _ _ _ _ HB E).
  - split; [done|]. destruct B; [done|]. by inversion HB.
Qed.

(** ** The list operations on [of_segs] *)

Lemma of_segs_of_segs (l : list seg) : segs_of (of_segs l) = l.
Proof.
  unfold segs_of, of_segs. simpl. induction l as [|[[s e] v] l IH]; simpl; [done|]. by f_equal.
Qed.

Lemma rm_end_of_segs (l : list seg) : rm_end (of_segs l) = seg_e <$> l.
Proof. done. Qed.

Lemma py_index_mid {A} (f : seg -> A) (P : list seg) x R n :
  n = length P -> py_index (f <$> (P ++ x :: R)) n = Ok (f x).
Proof.
  intros ->. unfold py_index. rewrite fmap_app, fmap_cons.
  replace (length P) with (length (f <$> P)) by apply length_fmap. by rewrite lookup_mid.
Qed.

Lemma py_index_segs (P : list seg) s e v R :
  py_index (rm_start (of_segs (P ++ (s, e, v) :: R))) (length P) = Ok s /\
  py_index (rm_end (of_segs (P ++ (s, e, v) :: R))) (length P) = Ok e /\
  py_index (rm_value (of_segs (P ++ (s, e, v) :: R))) (length P) = Ok v.
Proof.
  split_and!; [apply (py_index_mid seg_s)|apply (py_index_mid seg_e)|apply (py_index_mid snd)]; done.
Qed.

Lemma rm_contains_mid (P : list seg) x R a n :
  n = length P -> rm_contains n a (of_segs (P ++ x :: R)) = (seg_s x <=? a) && (a <=? seg_e x).
Proof.
  intros ->. unfold rm_contains, of_segs. simpl. rewrite !fmap_app, !fmap_cons.
  replace (length P) with (length ((fun x : seg => x.1.1) <$> P)) at 1 by apply length_fmap.
  rewrite lookup_mid. replace (length P) with (length ((fun x : seg => x.1.2) <$> P)) by apply length_fmap.
  by rewrite lookup_mid.
Qed.

Lemma fmap_py_insert {A B} (f : A -> B) i x (l : list A) : f <$> py_insert i x l = py_insert i (f x) (f <$> l).
Proof. unfold py_insert. by rewrite fmap_app, fmap_take, fmap_cons, fmap_drop. Qed.

Lemma py_insert_after {A} (P : list A) x y R :
  py_insert (length P + 1) y (P ++ x :: R) = P ++ x :: y :: R.
Proof.
  change (P ++ x :: R) with (P ++ [x] ++ R). rewrite app_assoc.
  replace (length P + 1)%nat with (length (P ++ [x])) by (rewrite length_app; simpl; lia).
  rewrite py_insert_mid, <- app_assoc. done.
Qed.

Lemma rm_split_mid (P : list seg) s e v R c n :
  n = length P ->
  rm_split n c (of_segs (P ++ (s, e, v) :: R)) = Ok (of_segs (P ++ (s, c - 1, v) :: (c, e, v) :: R)).
Proof.
  intros ->. unfold rm_split. change (rm_value (of_segs (P ++ (s, e, v) :: R))) with (snd <$> (P ++ (s, e, v) :: R)).
  rewrite (py_index_mid snd) by done. cbn [rbind snd]. unfold of_segs. simpl. do 2 f_equal.
  - rewrite !fmap_app, !fmap_cons. simpl.
    rewrite <- (length_fmap (fun x : seg => x.1.1) P), py_insert_after. done.
  - rewrite !fmap_app, !fmap_cons. simpl.
    rewrite <- (length_fmap (fun x : seg => x.1.2) P), py_insert_mid. done.
  - rewrite !fmap_app, !fmap_cons. simpl.
    rewrite <- (length_fmap snd P), py_insert_after. done.
Qed.

Lemma rm_len_of_segs (l : list seg) : rm_len (of_segs l) = length l.
Proof. unfold rm_len, of_segs. simpl. apply length_fmap. Qed.


Lemma all_from_cons c s e v l : c <= s -> all_from c l -> all_from c ((s, e, v) :: l).
Proof. intros. by constructor. Qed.
Lemma all_before_cons c s e v l : e < c -> all_before c l -> all_before c ((s, e, v) :: l).
Proof. intros. by constructor. Qed.
Lemma all_from_nil c : all_from c [].
Proof. constructor. Qed.
Lemma all_before_nil c : all_before c [].
Proof. constructor. Qed.
Lemma segs_ok_cons s e v l : s <= e -> all_from (e + 1) l -> segs_ok l -> segs_ok ((s, e, v) :: l).
Proof.
  intros Hse Hf Hl. split; [done|]. split; [|done].
  eapply Forall_impl; [exact Hf|]. unfold seg_e. simpl. intros; lia.
Qed.

Lemma segs_ok_tail_from x l c : segs_ok (x :: l) -> c <= seg_e x + 1 -> all_from c l.
Proof.
  intros (_ & Hall & _) Hc. eapply Forall_impl; [exact Hall|]. intros y Hy. simpl in *. lia.
Qed.

Lemma rm_lookup_den (l : list seg) a d :
  segs_ok l -> rm_lookup a d (of_segs l) = match den l a with Some v => v | None => d end.
Proof.
  intros Hok. unfold rm_lookup. rewrite rm_end_of_segs.
  destruct (bisect_segs l a Hok) as (A & B & -> & -> & HA & HB).
  rewrite den_app, (den_before a A) by (auto; lia).
  destruct B as [|[[s e] v] R].
  - unfold rm_contains. rewrite lookup_ge_None_2; [done|].
    unfold of_segs. simpl. rewrite app_nil_r, length_fmap. lia.
  - rewrite rm_contains_mid by done. cbn [den seg_s seg_e fst snd].
    destruct ((s <=? a) && (a <=? e)) eqn:E.
    + unfold of_segs. simpl. rewrite fmap_app, fmap_cons.
      rewrite <- (length_fmap snd A), lookup_mid. done.
    + apply segs_ok_app in Hok as (_ & Hok & _). unfold seg_e in HB. simpl in HB.
      apply andb_false_iff in E as [E|E]; zbool; [|lia].
      rewrite (den_from (e + 1)); [done| |lia]. eapply segs_ok_tail_from; [exact Hok|unfold seg_e; simpl; lia].
Qed.

(** Cutting the map at [c]: everything before it ends before [c], everything
    after starts at or after [c], and the denotation is unchanged. *)
Lemma rm_left_spec (l : list seg) c :
  segs_ok l ->
  exists A B, rm_left c (bisect_left (rm_end (of_segs l)) c) (of_segs l) = Ok (length A, of_segs (A ++ B)) /\
    segs_ok (A ++ B) /\ all_before c A /\ all_from c B /\ (forall a, den (A ++ B) a = den l a) /\
    (length (A ++ B) <= length l + 1)%nat.
Proof.
  intros Hok. rewrite rm_end_of_segs.
  destruct (bisect_segs l c Hok) as (A & B & -> & -> & HA & HB). unfold rm_left.
  destruct B as [|[[s e] v] R].
  - exists A, []. rewrite lookup_ge_None_2.
    + split_and!; auto; [constructor|lia].
    + unfold of_segs. simpl. rewrite app_nil_r, length_fmap. lia.
  - assert (Hs : rm_start (of_segs (A ++ (s, e, v) :: R)) !! length A = Some s).
    { unfold of_segs. simpl. rewrite fmap_app, fmap_cons.
      rewrite <- (length_fmap (fun x : seg => x.1.1) A), lookup_mid. done. }
    rewrite Hs, rm_contains_mid by done. cbn [seg_s seg_e fst snd].
    unfold seg_e in HB. simpl in HB. pose proof Hok as Hok'.
    apply segs_ok_app in Hok' as (HokA & HokB & Hcross).
    pose proof HokB as (Hse & Hall & HokR). unfold seg_s, seg_e in Hse. simpl in Hse.
    destruct ((s <=? c) && (c <=? e) && negb (s =? c)) eqn:E; zbool.
    + rewrite (rm_split_mid A) by done. cbn [rbind].
      set (l1 := A ++ (s, c - 1, v) :: (c, e, v) :: R).
      assert (Hl1 : l1 = (A ++ [(s, c - 1, v)]) ++ (c, e, v) :: R) by (unfold l1; by rewrite <- app_assoc).
      rewrite Hl1. change (rm_start (of_segs ?x)) with (seg_s <$> x).
      rewrite (py_index_mid seg_s) by (rewrite length_app; simpl; lia).
      cbn [seg_s fst snd rbind]. unfold seg_s, rassert. simpl. rewrite Z.eqb_refl. cbn [rbind].
      exists (A ++ [(s, c - 1, v)]), ((c, e, v) :: R). split_and!.
      * do 3 f_equal. rewrite length_app. simpl. lia.
      * apply (segs_ok_cut c).
        -- apply (segs_ok_cut s); [done| | |].
           ++ apply segs_ok_cons; auto using all_from_nil with lia. done.
           ++ eapply Forall_impl; [exact Hcross|]. intros y Hy. by inversion Hy.
           ++ apply all_from_cons; auto using all_from_nil with lia.
        -- apply segs_ok_cons; auto with lia. eapply segs_ok_tail_from; [exact HokB|]. unfold seg_e. simpl. lia.
        -- apply Forall_app. split; [done|]. repeat constructor. unfold seg_e. simpl. lia.
        -- constructor; [unfold seg_s; simpl; lia|].
           eapply segs_ok_tail_from; [exact HokB|]. unfold seg_e. simpl. lia.
      * apply Forall_app. split; [done|]. repeat constructor. unfold seg_e. simpl. lia.
      * constructor; [unfold seg_s; simpl; lia|].
        eapply segs_ok_tail_from; [exact HokB|]. unfold seg_e. simpl. lia.
      * intros a. rewrite <- app_assoc, (den_app A), (den_app A). cbn [app]. by rewrite den_split_seg by lia.
      * rewrite !length_app. simpl. lia.
    + exists A, ((s, e, v) :: R). split_and!; auto with lia.
      apply andb_false_iff in E. constructor.
      * unfold seg_s. simpl. destruct E as [E|E]; [apply andb_false_iff in E as [E|E]|]; zbool; lia.
      * eapply segs_ok_tail_from; [exact HokB|]. unfold seg_e. simpl. lia.
Qed.

Lemma overlap_loop_spec (R P : list seg) start c stop :
  segs_ok R -> all_from c R ->
  exists B C, overlap_loop (length R) (length P) start stop true (of_segs (P ++ R))
                = Ok ((start, (length P + length B)%nat), of_segs (P ++ B ++ C)) /\
    segs_ok B /\ segs_ok C /\ all_from c B /\ all_before stop B /\ all_from stop C /\
    (forall a, den (B ++ C) a = den R a).
Proof.
  revert P c. induction R as [|[[s e] v] R IH]; intros P c Hok Hf.
  - exists [], []. simpl. rewrite rm_len_of_segs, app_nil_r, Nat.add_0_r. split_and!; auto; constructor.
  - cbn [length overlap_loop]. destruct (py_index_segs P s e v R) as (-> & -> & _). cbn [rbind].
    inversion Hf as [|? ? Hs Hf']; subst. unfold seg_s in Hs. simpl in Hs.
    pose proof Hok as (Hse & Hall & HokR). unfold seg_s, seg_e in Hse. simpl in Hse.
    assert (HfR : all_from (e + 1) R) by (eapply segs_ok_tail_from; [exact Hok|]; unfold seg_e; simpl; lia).
    destruct (stop <=? s) eqn:E1; zbool.
    + exists [], ((s, e, v) :: R). rewrite Nat.add_0_r.
      split; [done|]. split; [done|]. split; [done|]. split; [constructor|]. split; [constructor|].
      split; [|done]. constructor; [done|]. eapply all_from_mono; [|exact HfR]. lia.
    + cbn [andb]. destruct (stop <? e + 1) eqn:E2; zbool.
      * rewrite (rm_split_mid P) by done. cbn [rbind].
        exists [(s, stop - 1, v)], ((stop, e, v) :: R). split.
        { do 3 f_equal. simpl. lia. }
        split; [apply segs_ok_cons; auto using all_from_nil with lia; done|].
        split; [apply segs_ok_cons; auto with lia|].
        split; [apply all_from_cons; auto using all_from_nil|].
        split; [apply all_before_cons; auto using all_before_nil with lia|].
        split; [apply all_from_cons; [lia|]; eapply all_from_mono; [|exact HfR]; lia|].
        intros a. apply (den_split_seg s e v stop R a). lia.
      * destruct (IH (P ++ [(s, e, v)]) (e + 1) HokR HfR) as (B & C & Hr & HB & HC & Hf1 & Hb & Hf2 & Hd).
        rewrite length_app, <- !app_assoc in Hr. cbn [length app] in Hr. rewrite Nat.add_1_r in Hr. rewrite Hr.
        exists ((s, e, v) :: B), C. split; [f_equal; f_equal; f_equal; simpl; lia|].
        split. { split; [done|]. split; [|done]. eapply Forall_impl; [exact Hf1|]. unfold seg_e. simpl. intros; lia. }
        split; [done|]. split.
        { constructor; [done|]. eapply all_from_mono; [|exact Hf1]. lia. }
        split. { constructor; [unfold seg_e; simpl; lia|done]. }
        split; [done|]. intros a. simpl. by rewrite Hd.
Qed.

(** [_overlap_range(zone, split=True)]: the entries between the returned indices
    are exactly those inside the zone, and the map still denotes the same. *)
Lemma rm_overlap_range_spec (l : list seg) zs ze :
  segs_ok l -> zs < ze ->
  exists A B C, rm_overlap_range (ZRange zs ze) true (of_segs l)
                = Ok ((length A, (length A + length B)%nat), of_segs (A ++ B ++ C)) /\
    segs_ok A /\ segs_ok B /\ segs_ok C /\
    all_before zs A /\ all_from zs B /\ all_before ze B /\ all_from ze C /\
    (forall a, den (A ++ B ++ C) a = den l a).
Proof.
  intros Hok Hz. unfold rm_overlap_range. cbn [rm_zone].
  destruct (ze <=? zs) eqn:E; zbool; [lia|].
  destruct (rm_left_spec l zs Hok) as (A & R & HL & HokAR & HA & HR & Hd & _).
  rewrite HL. cbn [rbind]. apply segs_ok_app in HokAR as (HokA & HokR & _).
  destruct (overlap_loop_spec R A (length A) zs ze HokR HR) as (B & C & Ho & HB & HC & H1 & H2 & H3 & Hd2).
  exists A, B, C. split.
  - rewrite <- Ho, rm_len_of_segs, length_app. by replace (length A + length R - length A)%nat with (length R) by lia.
  - split_and!; auto. intros a. rewrite den_app, Hd2, <- den_app. apply Hd.
Qed.

Lemma fmap_take_drop_replace {X} (f : seg -> X) (A B C D : list seg) :
  take (length A) (f <$> (A ++ B ++ C)) ++ (f <$> D) ++ drop (length A + length B) (f <$> (A ++ B ++ C))
  = f <$> (A ++ D ++ C).
Proof.
  rewrite <- fmap_take, <- fmap_drop, take_app_length.
  assert (drop (length A + length B) (A ++ B ++ C) = C) as ->
    by (rewrite app_assoc, <- length_app; apply drop_app_length).
  by rewrite !fmap_app.
Qed.

Lemma segs_ok_sandwich (A X C : list seg) zs ze :
  segs_ok A -> segs_ok X -> segs_ok C -> all_before zs A -> all_from zs X -> all_before ze X ->
  all_from ze C -> zs <= ze -> segs_ok (A ++ X ++ C).
Proof.
  intros. apply (segs_ok_cut zs); auto.
  - by apply (segs_ok_cut ze).
  - apply Forall_app. split; [done|]. by eapply all_from_mono.
Qed.

Definition in_zone (zs ze a : Z) : bool := (zs <=? a) && (a <? ze).

Lemma rm_replace_spec (l : list seg) zs ze v :
  segs_ok l -> zs <= ze ->
  exists l', rm_replace (ZRange zs ze) v (of_segs l) = Ok (of_segs l') /\ segs_ok l' /\
    (forall a, den l' a = if in_zone zs ze a then Some v else den l a).
Proof.
  intros Hok Hz. unfold rm_replace. cbn [rm_zone]. destruct (zs =? ze) eqn:E; zbool.
  - exists l. split_and!; auto. intros a. unfold in_zone.
    destruct (zs <=? a) eqn:E1, (a <? ze) eqn:E2; zbool; auto; lia.
  - destruct (rm_overlap_range_spec l zs ze Hok ltac:(lia)) as (A & B & C & -> & HA & HB & HC & H1 & H2 & H3 & H4 & Hd).
    cbn [rbind]. set (X := [(zs, ze - 1, v)]).
    assert (HX : segs_ok X) by (apply segs_ok_cons; auto using all_from_nil with lia; done).
    assert (HX1 : all_from zs X) by (apply all_from_cons; auto using all_from_nil with lia).
    assert (HX2 : all_before ze X) by (apply all_before_cons; auto using all_before_nil with lia).
    exists (A ++ X ++ C). split; [|split].
    + unfold of_segs. cbn [rm_start rm_end rm_value].
      f_equal. f_equal; symmetry; rewrite <- (fmap_take_drop_replace _ A B C X); done.
    + by apply (segs_ok_sandwich A X C zs ze); auto with lia.
    + intros a. rewrite <- Hd, !(den_sandwich _ _ _ zs ze) by (auto with lia).
      unfold in_zone, X. cbn [den].
      destruct (a <? zs) eqn:E1, (a <? ze) eqn:E2, (zs <=? a) eqn:E3, (a <=? ze - 1) eqn:E4; zbool; auto; lia.
Qed.

Lemma rm_clear_spec (l : list seg) zs ze :
  segs_ok l -> zs <= ze ->
  exists l', rm_clear (Some (ZRange zs ze)) (of_segs l) = Ok (of_segs l') /\ segs_ok l' /\
    (forall a, den l' a = if in_zone zs ze a then None else den l a).
Proof.
  intros Hok Hz. unfold rm_clear. cbn [rm_zone]. destruct (zs =? ze) eqn:E; zbool.
  - exists l. split_and!; auto. intros a. unfold in_zone.
    destruct (zs <=? a) eqn:E1, (a <? ze) eqn:E2; zbool; auto; lia.
  - destruct (rm_overlap_range_spec l zs ze Hok ltac:(lia)) as (A & B & C & -> & HA & HB & HC & H1 & H2 & H3 & H4 & Hd).
    cbn [rbind]. exists (A ++ [] ++ C). split; [|split].
    + unfold of_segs. cbn [rm_start rm_end rm_value].
      f_equal. f_equal; symmetry; rewrite <- (fmap_take_drop_replace _ A B C []); done.
    + apply (segs_ok_sandwich A [] C zs ze); auto with lia; constructor.
    + intros a. rewrite <- Hd, !(den_sandwich _ _ _ zs ze) by (auto with lia; constructor).
      unfold in_zone. cbn [den].
      destruct (a <? zs) eqn:E1, (a <? ze) eqn:E2, (zs <=? a) eqn:E3; zbool; auto; lia.
Qed.


(** ** [overlaps] and [populate] *)

Lemma overlaps_apply_mid f (P B C : list V) :
  overlaps_apply (length B) (length P) f (P ++ B ++ C) = P ++ (f <$> B) ++ C.
Proof.
  revert P. induction B as [|b B IH]; intros P; [done|]. cbn [length overlaps_apply].
  assert (Ha : alter f (length P) (P ++ (b :: B) ++ C) = (P ++ [f b]) ++ B ++ C).
  { rewrite <- app_assoc. cbn [app]. rewrite (alter_app_r_alt _ _ _ (length P)) by lia.
    by rewrite Nat.sub_diag. }
  rewrite Ha. replace (S (length P)) with (length (P ++ [f b])) by (rewrite length_app; simpl; lia).
  rewrite IH, <- app_assoc. done.
Qed.

Definition seg_map (f : V -> V) (x : seg) : seg := (x.1, f x.2).

Lemma den_seg_map f l a : den (seg_map f <$> l) a = f <$> den l a.
Proof.
  induction l as [|[[s e] v] l IH]; simpl; [done|]. by destruct ((s <=? a) && (a <=? e)).
Qed.

Lemma seg_map_bounds f l :
  (segs_ok l -> segs_ok (seg_map f <$> l)) /\
  (forall c, all_from c l -> all_from c (seg_map f <$> l)) /\
  (forall c, all_before c l -> all_before c (seg_map f <$> l)).
Proof.
  split_and!.
  - induction l as [|x l IH]; [done|]. intros (H1 & H2 & H3). rewrite fmap_cons. split; [done|].
    split; [|by apply IH]. by apply Forall_fmap.
  - intros c H. by apply Forall_fmap.
  - intros c H. by apply Forall_fmap.
Qed.

Lemma rm_overlaps_spec (l : list seg) f zs ze :
  segs_ok l -> zs <= ze ->
  exists l', rm_overlaps f (ZRange zs ze) true (of_segs l) = Ok (of_segs l') /\ segs_ok l' /\
    (forall a, den l' a = if in_zone zs ze a then f <$> den l a else den l a).
Proof.
  intros Hok Hz. unfold rm_overlaps. destruct (Z.eq_dec zs ze) as [->|Hne].
  - unfold rm_overlap_range. cbn [rm_zone]. rewrite Z.leb_refl. cbn [rbind Nat.sub overlaps_apply].
    exists l. split_and!; auto. intros a. unfold in_zone.
    destruct (ze <=? a) eqn:E1, (a <? ze) eqn:E2; zbool; auto; lia.
  - destruct (rm_overlap_range_spec l zs ze Hok ltac:(lia)) as (A & B & C & -> & HA & HB & HC & H1 & H2 & H3 & H4 & Hd).
    cbn [rbind]. destruct (seg_map_bounds f B) as (HX & HX1 & HX2).
    exists (A ++ (seg_map f <$> B) ++ C). split; [|split].
    + replace (length A + length B - length A)%nat with (length B) by lia.
      unfold of_segs. cbn [rm_start rm_end rm_value]. rewrite !fmap_app.
      rewrite <- (length_fmap snd A), <- (length_fmap snd B), overlaps_apply_mid.
      rewrite <- !list_fmap_compose. done.
    + apply (segs_ok_sandwich A _ C zs ze); auto with lia.
    + intros a. rewrite <- Hd, !(den_sandwich _ _ _ zs ze) by (auto with lia).
      rewrite den_seg_map. unfold in_zone.
      destruct (a <? zs) eqn:E1, (a <? ze) eqn:E2, (zs <=? a) eqn:E3; zbool; auto; lia.
Qed.

Definition gap_fuel (l : list seg) (start : Z) : nat :=
  match l with (s, _, _) :: _ => if start <? s then 1 else 0 | [] => 0 end.

(** What [populate] makes of the values of a zone. *)
Definition populated (f : V -> V) (d : V) (zs ze : Z) (g : Z -> option V) (a : Z) : option V :=
  if in_zone zs ze a then Some (f (match g a with Some v => v | None => d end)) else g a.

Lemma populated_step f d start mid stop (x : list seg) (R R' l : list seg) a :
  start <= mid <= stop ->
  (forall a, den R' a = populated f d mid stop (den R) a) ->
  all_from mid R -> all_from mid R' -> all_before mid x ->
  (forall a, start <= a < mid -> den x a = Some (f (match den l a with Some v => v | None => d end))) ->
  (forall a, a < start -> den x a = den l a) ->
  (forall a, mid <= a -> den l a = den R a) ->
  den (x ++ R') a = populated f d start stop (den l) a.
Proof.
  intros Hm HR Hf Hf' Hx H1 H2 H3. rewrite den_app. unfold populated, in_zone in *.
  destruct (Z_lt_le_dec a start) as [Ha|Ha].
  - assert ((start <=? a) = false) as -> by (apply Z.leb_gt; lia).
    rewrite H2, (den_from mid R') by (auto with lia). cbn [andb]. by destruct (den l a).
  - assert ((start <=? a) = true) as -> by (apply Z.leb_le; lia).
    destruct (Z_lt_le_dec a mid) as [Hb|Hb].
    + assert ((a <? stop) = true) as -> by (apply Z.ltb_lt; lia). cbn [andb]. by rewrite H1 by lia.
    + rewrite (den_before mid x), HR by (auto with lia).
      assert ((mid <=? a) = true) as -> by (apply Z.leb_le; lia). by rewrite H3 by lia.
Qed.

Lemma populate_loop_spec fuel f d start stop (P R : list seg) :
  segs_ok R -> all_from start R -> start <= stop -> (1 <= fuel)%nat ->
  (start < stop -> (2 * length R + 1 + gap_fuel R start <= fuel)%nat) ->
  exists ys R', populate_loop fuel f d start stop (length P) (of_segs (P ++ R)) = Ok (ys, of_segs (P ++ R')) /\
    segs_ok R' /\ all_from start R' /\ (forall a, den R' a = populated f d start stop (den R) a).
Proof.
  revert start P R. induction fuel as [|k IH]; intros start P R Hok Hf Hle Hf1 Hfuel; [lia|].
  cbn [populate_loop]. destruct (start <? stop) eqn:E; zbool.
  2:{ replace stop with start by lia. rewrite Z.eqb_refl. exists [], R. split_and!; auto.
      intros a. unfold populated, in_zone. destruct (start <=? a) eqn:E1, (a <? start) eqn:E2; zbool; auto; lia. }
  specialize (Hfuel E). rewrite rm_len_of_segs, length_app.
  destruct R as [|[[s e] v] R].
  - rewrite app_nil_r. cbn [length]. rewrite Nat.add_0_r, Nat.eqb_refl.
    exists [(start, stop)], [(start, stop - 1, f d)]. split_and!.
    + unfold of_segs. cbn [rm_start rm_end rm_value]. by rewrite !fmap_app.
    + apply segs_ok_cons; auto using all_from_nil with lia.
    + apply all_from_cons; auto using all_from_nil with lia.
    + intros a. unfold populated, in_zone. cbn [den].
      destruct (start <=? a) eqn:E1, (a <? stop) eqn:E2, (a <=? stop - 1) eqn:E3; zbool; auto; lia.
  - inversion Hf as [|? ? Hs Hf']; subst. unfold seg_s in Hs. simpl in Hs.
    pose proof Hok as (Hse & _ & HokR). unfold seg_s, seg_e in Hse. simpl in Hse.
    assert (HfR : all_from (e + 1) R) by (eapply segs_ok_tail_from; [exact Hok|]; unfold seg_e; simpl; lia).
    destruct (Nat.eqb_spec (length P) (length P + length ((s, e, v) :: R))) as [Hc|_]; [simpl in Hc; lia|].
    destruct (py_index_segs P s e v R) as (-> & He & _). cbn [rbind].
    unfold rassert. rewrite (proj2 (Z.leb_le start s) Hs). cbn [rbind].
    assert (Hk : (1 <= k)%nat) by (simpl in Hfuel; lia).
    destruct (start <? s) eqn:E2; zbool.
    + (* a new range is inserted before the next one *)
      set (b := Z.min stop s).
      assert (Hm : RM (py_insert (length P) start (rm_start (of_segs (P ++ (s, e, v) :: R))))
                      (py_insert (length P) (b - 1) (rm_end (of_segs (P ++ (s, e, v) :: R))))
                      (py_insert (length P) (f d) (rm_value (of_segs (P ++ (s, e, v) :: R))))
                   = of_segs ((P ++ [(start, b - 1, f d)]) ++ (s, e, v) :: R)).
      { rewrite <- app_assoc. cbn [app].
        rewrite <- (py_insert_mid P (start, b - 1, f d) ((s, e, v) :: R)).
        unfold of_segs. cbn [rm_start rm_end rm_value]. rewrite !fmap_py_insert. reflexivity. }
      rewrite Hm. replace (S (length P)) with (length (P ++ [(start, b - 1, f d)])) by (rewrite length_app; simpl; lia).
      assert (Hfb : all_from b ((s, e, v) :: R)).
      { apply all_from_cons; [lia|]. eapply all_from_mono; [|exact HfR]. lia. }
      destruct (IH b (P ++ [(start, b - 1, f d)]) ((s, e, v) :: R) Hok Hfb) as (ys & R' & -> & HR' & HfR' & HdR'); [lia|done| |].
      { intros Hbs. replace b with s in * by lia. simpl in Hfuel |- *. rewrite Z.ltb_irrefl.
        rewrite (proj2 (Z.ltb_lt _ _) E2) in Hfuel. lia. }
      cbn [rbind fst snd]. exists ((start, b) :: ys), ((start, b - 1, f d) :: R'). split_and!.
      * by rewrite <- app_assoc.
      * apply segs_ok_cons; auto with lia. by replace (b - 1 + 1) with b by lia.
      * apply all_from_cons; [lia|]. eapply all_from_mono; [|exact HfR']. lia.
      * intros a. apply (populated_step f d start b stop [(start, b - 1, f d)] ((s, e, v) :: R)); auto with lia.
        -- apply all_before_cons; auto using all_before_nil with lia.
        -- intros a' Ha'. rewrite (den_from b _ _ Hfb) by lia. cbn [den].
           by rewrite (proj2 (Z.leb_le start a')), (proj2 (Z.leb_le a' (b - 1))) by lia.
        -- intros a' Ha'. rewrite (den_from b _ _ Hfb) by lia. cbn [den].
           by rewrite (proj2 (Z.leb_gt start a')) by lia.
    + (* the next range starts here *)
      replace s with start in * by lia. clear Hs E2.
      rewrite He. cbn [rbind].
      set (e' := if stop - 1 <? e then stop - 1 else e).
      set (T := if stop - 1 <? e then (stop, e, v) :: R else R).
      assert (Hm1 : (if stop - 1 <? e then rm_split (length P) stop (of_segs (P ++ (start, e, v) :: R))
                     else Ok (of_segs (P ++ (start, e, v) :: R))) = Ok (of_segs (P ++ (start, e', v) :: T))).
      { unfold e', T. destruct (stop - 1 <? e) eqn:E3; [|done]. by rewrite rm_split_mid. }
      rewrite Hm1. cbn [rbind].
      destruct (py_index_segs P start e' v T) as (-> & -> & ->). cbn [rbind].
      assert (Hm2 : RM (rm_start (of_segs (P ++ (start, e', v) :: T))) (rm_end (of_segs (P ++ (start, e', v) :: T)))
                       (<[length P := f v]> (rm_value (of_segs (P ++ (start, e', v) :: T))))
                    = of_segs ((P ++ [(start, e', f v)]) ++ T)).
      { rewrite <- app_assoc. unfold of_segs. cbn [app rm_start rm_end rm_value]. rewrite !fmap_app, !fmap_cons.
        rewrite <- (length_fmap snd P), insert_mid. done. }
      rewrite Hm2.
      replace (S (length P)) with (length (P ++ [(start, e', f v)])) by (rewrite length_app; simpl; lia).
      assert (He' : start <= e' < stop /\ e' <= e) by (unfold e'; destruct (stop - 1 <? e) eqn:E3; zbool; lia).
      assert (HT : segs_ok T /\ all_from (e' + 1) T).
      { unfold T, e'. destruct (stop - 1 <? e) eqn:E3; zbool; [|done]. split.
        - by apply segs_ok_cons; auto with lia.
        - apply all_from_cons; [lia|]. eapply all_from_mono; [|exact HfR]. lia. }
      destruct HT as [HTok HTf].
      destruct (IH (e' + 1) (P ++ [(start, e', f v)]) T HTok HTf) as (ys & R' & -> & HR' & HfR' & HdR'); [lia|done| |].
      { unfold e', T. destruct (stop - 1 <? e) eqn:E3; zbool; [lia|]. intros _. simpl in Hfuel.
        rewrite Z.ltb_irrefl in Hfuel. assert (gap_fuel R (e + 1) <= 1)%nat; [|lia].
        unfold gap_fuel. destruct R as [|[[? ?] ?] ?]; [lia|]. destruct (_ <? _); lia. }
      cbn [rbind fst snd]. exists ((start, e' + 1) :: ys), ((start, e', f v) :: R'). split_and!.
      * by rewrite <- app_assoc.
      * by apply segs_ok_cons; auto with lia.
      * apply all_from_cons; [lia|]. eapply all_from_mono; [|exact HfR']. lia.
      * assert (HdT : forall a, e' + 1 <= a -> den ((start, e, v) :: R) a = den T a).
        { intros a Ha. unfold T, e' in *. cbn [den]. destruct (stop - 1 <? e) eqn:E3; zbool; cbn [den].
          - destruct (start <=? a) eqn:F1, (a <=? e) eqn:F2, (stop <=? a) eqn:F3; zbool; auto; lia.
          - destruct (start <=? a) eqn:F1, (a <=? e) eqn:F2; zbool; auto; lia. }
        intros a. apply (populated_step f d start (e' + 1) stop [(start, e', f v)] T); auto with lia.
        -- apply all_before_cons; auto using all_before_nil with lia.
        -- intros a' Ha'. cbn [den].
           by rewrite (proj2 (Z.leb_le start a')), (proj2 (Z.leb_le a' e')), (proj2 (Z.leb_le a' e)) by lia.
        -- intros a' Ha'. cbn [den]. rewrite (proj2 (Z.leb_gt start a')) by lia. cbn [andb].
           symmetry. apply (den_from (e + 1)); [done|lia].
Qed.

Lemma rm_populate_spec (l : list seg) f d zs ze :
  segs_ok l -> ze - zs < 2 ^ 63 ->
  exists ys l', rm_populate f (ZRange zs ze) d (of_segs l) = Ok (ys, of_segs l') /\ segs_ok l' /\
    (forall a, den l' a = populated f d zs ze (den l) a).
Proof.
  intros Hok Hz. unfold rm_populate. cbn [rm_zone]. rewrite (proj2 (Z.leb_gt _ _) Hz). destruct (ze <=? zs) eqn:E; zbool.
  - exists [], l. split_and!; auto. intros a. unfold populated, in_zone.
    destruct (zs <=? a) eqn:E1, (a <? ze) eqn:E2; zbool; auto; lia.
  - destruct (rm_left_spec l zs Hok) as (A & R & HL & HokAR & HA & HR & Hd & Hlen).
    rewrite HL. cbn [rbind]. apply segs_ok_app in HokAR as (HokA & HokR & _).
    rewrite rm_len_of_segs, length_app.
    destruct (populate_loop_spec (2 * (length A + length R) + 3) f d zs ze A R HokR HR) as (ys & R' & -> & HR' & Hf' & Hd');
      [lia|lia| |].
    { intros _. unfold gap_fuel. destruct R as [|[[? ?] ?] ?]; [simpl; lia|]. destruct (_ <? _); lia. }
    exists ys, (A ++ R'). split_and!; [done|by apply (segs_ok_cut zs)|].
    intros a. rewrite den_app, Hd'. unfold populated. rewrite <- Hd, den_app. unfold in_zone.
    destruct (zs <=? a) eqn:E1; zbool; cbn [andb].
    + rewrite (den_before zs A) by (auto with lia). done.
    + done.
Qed.


(** ** [compact] *)

Lemma den_drop_seg (X : list seg) s e v l a :
  segs_ok (X ++ (s, e, v) :: l) ->
  den (X ++ l) a = if (s <=? a) && (a <=? e) then None else den (X ++ (s, e, v) :: l) a.
Proof.
  intros Hok. rewrite !den_app. apply segs_ok_app in Hok as (_ & Hok & Hcross). cbn [den].
  destruct ((s <=? a) && (a <=? e)) eqn:E; [|done]. zbool.
  rewrite (den_before s X), (den_from (e + 1) l); try done; try lia.
  - eapply segs_ok_tail_from; [exact Hok|]. unfold seg_e. simpl. lia.
  - eapply Forall_impl; [exact Hcross|]. intros y Hy. by inversion Hy.
Qed.

Lemma den_hit (X : list seg) s e v l a :
  segs_ok (X ++ (s, e, v) :: l) -> (s <=? a) && (a <=? e) = true -> den (X ++ (s, e, v) :: l) a = Some v.
Proof.
  intros Hok E. rewrite den_app. apply segs_ok_app in Hok as (_ & Hok & Hcross). cbn [den]. rewrite E. zbool.
  rewrite (den_before s X); [done| |lia]. eapply Forall_impl; [exact Hcross|]. intros y Hy. by inversion Hy.
Qed.

Lemma segs_ok_drop (X : list seg) x l : segs_ok (X ++ x :: l) -> segs_ok (X ++ l).
Proof.
  rewrite !segs_ok_app. intros (HX & (_ & _ & Hl) & Hcross). split_and!; [done|done|].
  eapply Forall_impl; [exact Hcross|]. intros y Hy. by inversion Hy.
Qed.

Lemma segs_ok_join (X : list seg) s0 e0 v0 s e v l :
  segs_ok (X ++ (s0, e0, v0) :: (s, e, v) :: l) -> segs_ok (X ++ (s0, e, v0) :: l).
Proof.
  rewrite !segs_ok_app. intros (HX & (H1 & H2 & (H3 & H4 & Hl)) & Hcross). split_and!; [done| |].
  - split; [|split; [done|done]]. inversion H2 as [|? ? H5 _]; subst.
    unfold seg_s, seg_e in *. simpl in *. lia.
  - eapply Forall_impl; [exact Hcross|]. intros y Hy. inversion Hy as [|? ? Hy1 Hy2]; subst.
    inversion Hy2; subst. by constructor.
Qed.

(** What [compact] keeps of a value. *)
Definition keep_nonempty (empty : V -> bool) (o : option V) : option V :=
  match o with Some v => if empty v then None else Some v | None => None end.

Lemma compact_loop_spec equal empty (l acc : list seg) :
  (forall x y, equal x y = true -> x = y) ->
  segs_ok (reverse acc ++ l) -> Forall (fun x => empty x.2 = false) acc ->
  segs_ok (compact_loop equal empty l acc) /\
  (forall a, den (compact_loop equal empty l acc) a = keep_nonempty empty (den (reverse acc ++ l) a)).
Proof.
  intros Heq. revert acc. induction l as [|[[s e] v] l IH]; intros acc Hok Hne; cbn [compact_loop].
  - rewrite app_nil_r in *. split; [done|]. intros a.
    assert (Hr : Forall (fun x : seg => empty x.2 = false) (reverse acc)) by by apply Forall_reverse.
    clear Hok Hne. induction Hr as [|[[s e] v] r Hv Hr IHr]; [done|]. simpl.
    destruct ((s <=? a) && (a <=? e)); [|done]. simpl in *. by rewrite Hv.
  - destruct (empty v) eqn:Ev.
    + destruct (IH acc (segs_ok_drop _ _ _ Hok) Hne) as [H1 H2]. split; [done|]. intros a.
      rewrite H2, (den_drop_seg _ s e v) by done. destruct ((s <=? a) && (a <=? e)) eqn:E; [|done].
      rewrite den_hit by done. simpl. by rewrite Ev.
    + assert (Happ : reverse acc ++ (s, e, v) :: l = reverse ((s, e, v) :: acc) ++ l)
        by (by rewrite reverse_cons, <- app_assoc).
      assert (Hpush : segs_ok (compact_loop equal empty l ((s, e, v) :: acc)) /\
        (forall a, den (compact_loop equal empty l ((s, e, v) :: acc)) a =
                   keep_nonempty empty (den (reverse acc ++ (s, e, v) :: l) a))).
      { rewrite Happ in *. apply IH; [done|]. by constructor. }
      destruct acc as [|[[s0 e0] v0] acc]; [done|].
      destruct (equal v0 v && (s =? e0 + 1)) eqn:E; [|done]. zbool. apply Heq in H. subst v0 s.
      assert (Hj : reverse ((s0, e0, v) :: acc) ++ (e0 + 1, e, v) :: l =
                   reverse acc ++ (s0, e0, v) :: (e0 + 1, e, v) :: l) by (by rewrite reverse_cons, <- app_assoc).
      assert (Hj' : reverse ((s0, e, v) :: acc) ++ l = reverse acc ++ (s0, e, v) :: l)
        by (by rewrite reverse_cons, <- app_assoc).
      rewrite Hj in *. destruct (IH ((s0, e, v) :: acc)) as [H1 H2].
      * rewrite Hj'. by eapply segs_ok_join.
      * inversion Hne; subst. by constructor.
      * split; [done|]. intros a. rewrite H2, Hj', (den_app (reverse acc)), (den_app (reverse acc)).
        assert (Hr : s0 < e0 + 1 <= e).
        { apply segs_ok_app in Hok as (_ & (Ha & Hb & (Hc & _)) & _). inversion Hb; subst.
          unfold seg_s, seg_e in *. simpl in *. lia. }
        rewrite <- (den_split_seg s0 e v (e0 + 1) l a) by lia. by replace (e0 + 1 - 1) with e0 by lia.
Qed.

Lemma rm_compact_spec equal empty (l : list seg) :
  (forall x y, equal x y = true -> x = y) -> segs_ok l ->
  exists l', rm_compact equal empty (of_segs l) = of_segs l' /\ segs_ok l' /\
    (forall a, den l' a = keep_nonempty empty (den l a)).
Proof.
  intros Heq Hok. unfold rm_compact. rewrite rm_len_of_segs, of_segs_of_segs.
  destruct l as [|x l]; [by exists []|]. cbn [length Nat.eqb].
  destruct (compact_loop_spec equal empty (x :: l) [] Heq Hok) as [H1 H2]; [constructor|]. eauto.
Qed.

End Segs.

(** ** The class as a sequence of calls, and its abstract specification *)

Section Commands.
Context {V : Type}.

Inductive rm_cmd :=
| CReplace (z : zone) (v : V)
| CClear (z : zone)
| CClearAll
| CPopulate (f : V -> V) (z : zone) (d : V)
| COverlaps (f : V -> V) (z : zone)
| CCompact (equal : V -> V -> bool) (empty : V -> bool).

Definition rm_exec (c : rm_cmd) (m : rangemap V) : result (rangemap V) :=
  match c with
  | CReplace z v => rm_replace z v m
  | CClear z => rm_clear (Some z) m
  | CClearAll => rm_clear None m
  | CPopulate f z d => let? r := rm_populate f z d m in Ok (snd r)
  | COverlaps f z => rm_overlaps f z true m
  | CCompact equal empty => Ok (rm_compact equal empty m)
  end.

(** A caller that goes on after an [OverflowError], which [populate] raises before
    it has changed anything. *)
Fixpoint rm_run (cs : list rm_cmd) (m : rangemap V) : result (rangemap V) :=
  match cs with
  | [] => Ok m
  | c :: r => match rm_exec c m with Ok m' => rm_run r m' | Raise OverflowError => rm_run r m | Raise e => Raise e end
  end.

(** The abstract map: a partial function on addresses, updated pointwise. *)
Definition in_z (z : zone) (a : Z) : bool := in_zone (rm_zone z).1 (rm_zone z).2 a.

(** Longer than a Python length can be, as the open slices are. *)
Definition too_long (z : zone) : bool := 2 ^ 63 <=? (rm_zone z).2 - (rm_zone z).1.

Definition abs_exec (c : rm_cmd) (g : Z -> option V) (a : Z) : option V :=
  match c with
  | CReplace z v => if in_z z a then Some v else g a
  | CClear z => if in_z z a then None else g a
  | CClearAll => None
  | CPopulate f z d => if in_z z a && negb (too_long z) then Some (f (match g a with Some v => v | None => d end)) else g a
  | COverlaps f z => if in_z z a then f <$> g a else g a
  | CCompact _ empty => keep_nonempty empty (g a)
  end.

Fixpoint abs_run (cs : list rm_cmd) (g : Z -> option V) (a : Z) : option V :=
  match cs with [] => g a | c :: r => abs_run r (abs_exec c g) a end.

(** What [replace] is given does not run backwards; [compact]'s [equal] implies
    equality. *)
Definition cmd_ok (c : rm_cmd) : Prop :=
  match c with
  | CReplace z _ => (rm_zone z).1 <= (rm_zone z).2
  | CClear _ | CClearAll | CPopulate _ _ _ | COverlaps _ _ => True
  | CCompact equal _ => forall x y, equal x y = true -> x = y
  end.

(** Ordered, disjoint, nonempty ranges in three lists of equal length. *)
Definition rm_wf (m : rangemap V) : Prop := exists l, m = of_segs l /\ segs_ok l.

Lemma zone_norm z : rm_zone z = rm_zone (ZRange (rm_zone z).1 (rm_zone z).2).
Proof. by destruct z. Qed.

Lemma in_z_backwards z a : (rm_zone z).2 <= (rm_zone z).1 -> in_z z a = false.
Proof. intros H. unfold in_z, in_zone. destruct (_ <=? a) eqn:E1, (a <? _) eqn:E2; zbool; auto; lia. Qed.

(** [clear] and [overlaps] do nothing on a zone that runs backwards. *)
Lemma overlap_range_backwards z split (m : rangemap V) : (rm_zone z).2 <= (rm_zone z).1 -> rm_overlap_range z split m = Ok ((0, 0)%nat, m).
Proof. intros H. unfold rm_overlap_range. destruct (rm_zone z) as [zs ze]. cbn in H. by rewrite (proj2 (Z.leb_le _ _) H). Qed.

(** The command raises [OverflowError], and only for too long a zone of [populate]. *)
Definition overflows (c : rm_cmd) : bool := match c with CPopulate _ z _ => too_long z | _ => false end.

Lemma rm_exec_overflow c m : overflows c = true -> rm_exec c m = Raise OverflowError /\ forall g a, abs_exec c g a = g a.
Proof.
  destruct c as [z v|z| |f z d|f z|equal empty]; try done. cbn [overflows rm_exec abs_exec]. intros H. split; [|intros g a; by rewrite H, andb_false_r].
  unfold rm_populate, too_long in *. destruct (rm_zone z) as [zs ze]. cbn [fst snd] in H. by rewrite H.
Qed.

Lemma rm_exec_spec c l :
  cmd_ok c -> overflows c = false -> segs_ok l ->
  exists l', rm_exec c (of_segs l) = Ok (of_segs l') /\ segs_ok l' /\
    (forall a, den l' a = abs_exec c (den l) a).
Proof.
  intros Hc Ho Hok. destruct c as [z v|z| |f z d|f z|equal empty]; cbn [cmd_ok rm_exec] in *.
  - assert (rm_replace z v (of_segs l) = rm_replace (ZRange (rm_zone z).1 (rm_zone z).2) v (of_segs l)) as ->
      by (unfold rm_replace; by rewrite <- zone_norm). by apply rm_replace_spec.
  - assert (rm_clear (Some z) (of_segs l) = rm_clear (Some (ZRange (rm_zone z).1 (rm_zone z).2)) (of_segs l)) as ->
      by (unfold rm_clear; by rewrite <- zone_norm).
    destruct (decide ((rm_zone z).1 <= (rm_zone z).2)) as [|Hz]; [by apply rm_clear_spec|].
    exists l. split_and!; [|done|intros a; cbn [abs_exec]; by rewrite in_z_backwards by lia]. unfold rm_clear. cbn [rm_zone]. destruct (Z.eqb_spec (rm_zone z).1 (rm_zone z).2); [done|].
    rewrite overlap_range_backwards by (cbn; lia). done.
  - by exists [].
  - assert (rm_populate f z d (of_segs l) = rm_populate f (ZRange (rm_zone z).1 (rm_zone z).2) d (of_segs l)) as ->
      by (unfold rm_populate; by rewrite <- zone_norm).
    cbn [overflows] in Ho. unfold too_long in Ho. apply Z.leb_gt in Ho. destruct (rm_populate_spec l f d _ _ Hok Ho) as (ys & l' & -> & Hl' & Hd). exists l'. split_and!; [done|done|].
    intros a. rewrite Hd. cbn [abs_exec]. unfold too_long. rewrite (proj2 (Z.leb_gt _ _) Ho), andb_true_r. done.
  - assert (rm_overlaps f z true (of_segs l) = rm_overlaps f (ZRange (rm_zone z).1 (rm_zone z).2) true (of_segs l)) as ->
      by (unfold rm_overlaps, rm_overlap_range; by rewrite <- zone_norm).
    destruct (decide ((rm_zone z).1 <= (rm_zone z).2)) as [|Hz]; [by apply rm_overlaps_spec|].
    exists l. split_and!; [|done|intros a; cbn [abs_exec]; by rewrite in_z_backwards by lia]. unfold rm_overlaps. rewrite overlap_range_backwards by (cbn; lia). done.
  - destruct (rm_compact_spec equal empty l Hc Hok) as (l' & -> & Hl' & Hd). by exists l'.
Qed.

Lemma abs_exec_ext c g g' : (forall a, g a = g' a) -> forall a, abs_exec c g a = abs_exec c g' a.
Proof. intros H a. destruct c; simpl; by rewrite ?H. Qed.

Lemma abs_run_ext cs g g' : (forall a, g a = g' a) -> forall a, abs_run cs g a = abs_run cs g' a.
Proof.
  revert g g'. induction cs as [|c cs IH]; intros g g' H a; simpl; [done|].
  apply IH. by apply abs_exec_ext.
Qed.

Lemma rm_run_spec cs l :
  Forall cmd_ok cs -> segs_ok l ->
  exists l', rm_run cs (of_segs l) = Ok (of_segs l') /\ segs_ok l' /\ (forall a, den l' a = abs_run cs (den l) a).
Proof.
  intros Hcs. revert l. induction Hcs as [|c cs Hc _ IH]; intros l Hok; simpl; [by exists l|].
  destruct (overflows c) eqn:Ho.
  { destruct (rm_exec_overflow c (of_segs l) Ho) as [-> Ha]. destruct (IH l Hok) as (l2 & -> & Hl2 & Hd2). exists l2. split_and!; [done|done|].
    intros a. rewrite Hd2. symmetry. by apply abs_run_ext. }
  destruct (rm_exec_spec c l Hc Ho Hok) as (l1 & -> & Hl1 & Hd1). simpl.
  destruct (IH l1 Hl1) as (l2 & -> & Hl2 & Hd2). exists l2. split_and!; [done|done|].
  intros a. rewrite Hd2. by apply abs_run_ext.
Qed.

End Commands.
Arguments rm_cmd : clear implicits.

(** C24: [RangeMap] refines its abstract specification: any sequence of [replace],
    [clear], [populate] (with the consumer mutating the yielded values),
    splitting [overlaps] and [compact] calls on a new map, where no zone given to
    [replace] runs backwards (such a zone corrupts the map,
    [replace_inverted_zone_corrupts]) and [compact] merges only equal values,
    completes, raising nothing but the [OverflowError] of a [populate] on a zone of
    2^63 or more addresses, which changes nothing; it leaves sorted, disjoint,
    nonempty ranges, and [lookup] then returns at every address what the pointwise
    specification says. *)
Theorem rangemap_refines {V : Type} (cs : list (rm_cmd V)) (Hcs : Forall cmd_ok cs) :
  exists m, rm_run cs rm_empty = Ok m /\ rm_wf m /\
    (forall a d, rm_lookup a d m = match abs_run cs (fun _ => None) a with Some v => v | None => d end).
Proof.
  destruct (rm_run_spec cs [] Hcs I) as (l & Hr & Hok & Hd).
  exists (of_segs l). split; [done|]. split; [by exists l|].
  intros a d. by rewrite rm_lookup_den, Hd.
Qed.

Lemma rangemap_refines_witness :
  exists m, rm_run [CReplace (ZRange 0 5) 1; CPopulate (Z.add 1) (ZRange 3 8) 10; CClear (ZInt 4); CPopulate (Z.add 1) (ZSlice (Some 6) None) 0;
                    CCompact Z.eqb (Z.eqb 0)] rm_empty = Ok m /\ rm_wf m /\
    (forall a d, rm_lookup a d m =
       match abs_run [CReplace (ZRange 0 5) 1; CPopulate (Z.add 1) (ZRange 3 8) 10; CClear (ZInt 4); CPopulate (Z.add 1) (ZSlice (Some 6) None) 0;
                      CCompact Z.eqb (Z.eqb 0)] (fun _ => None) a with Some v => v | None => d end).
Proof.
  apply rangemap_refines. repeat constructor; simpl; lia.
Defined.

(** A zone that runs backwards is not rejected by [replace]: it inserts an
    inverted range at the front, and addresses that were mapped are lost. *)
Lemma replace_inverted_zone_corrupts :
  exists m, rm_replace (ZRange 5 3) 9 (RM [0] [1] [7]) = Ok m /\
    rm_lookup 0 (-1) (RM [0] [1] [7]) = 7 /\ rm_lookup 0 (-1) m = -1.
Proof. eexists. split; [reflexivity|]. split; reflexivity. Qed.

(** [__zone] gives an open slice its bounds, and [populate] then refuses it. *)
Lemma populate_open_slice_raises {V} (f : V -> V) (d : V) (m : rangemap V) :
  rm_populate f (ZSlice None None) d m = Raise OverflowError /\ rm_populate f (ZSlice (Some 0x1000) None) d m = Raise OverflowError.
Proof. by split. Qed.

Lemma rm_exec_wf {V} (c : rm_cmd V) m :
  cmd_ok c -> overflows c = false -> rm_wf m ->
  exists m', rm_exec c m = Ok m' /\ rm_wf m' /\
    (forall a (d : V), rm_lookup a d m' =
       match abs_exec c (fun a => rm_lookup a None (RM (rm_start m) (rm_end m) (Some <$> rm_value m))) a with
       | Some v => v | None => d end) /\
    (forall a d, rm_lookup a d m =
       match rm_lookup a None (RM (rm_start m) (rm_end m) (Some <$> rm_value m)) with Some v => v | None => d end).
Proof.
  intros Hc Ho (l & -> & Hok). destruct (rm_exec_spec c l Hc Ho Hok) as (l' & -> & Hok' & Hd).
  assert (Hlift : forall a, rm_lookup a None (RM (rm_start (of_segs l)) (rm_end (of_segs l)) (Some <$> rm_value (of_segs l)))
                            = den l a).
  { intros a. set (l1 := (fun x : Z * Z * V => (x.1, Some x.2)) <$> l).
    assert (RM (rm_start (of_segs l)) (rm_end (of_segs l)) (Some <$> rm_value (of_segs l)) = of_segs l1) as ->
      by (unfold of_segs, l1; cbn; by rewrite <- !list_fmap_compose).
    rewrite rm_lookup_den.
    - unfold l1. clear. induction l as [|[[s e] v] l IH]; simpl; [done|]. by destruct ((s <=? a) && (a <=? e)).
    - unfold l1. clear -Hok. induction l as [|x l IH]; [done|]. destruct Hok as (H1 & H2 & H3).
      rewrite fmap_cons. split; [done|]. split; [by apply Forall_fmap|by apply IH]. }
  exists (of_segs l'). split; [done|]. split; [by exists l'|]. split; intros a d.
  - rewrite rm_lookup_den, Hd by done. by erewrite abs_exec_ext.
  - by rewrite Hlift, rm_lookup_den.
Qed.

Lemma set_add_pointwise {K : Type} `{Countable K} (z : zone) (key : K) (ms : rangemap (gset K)) :
  too_long z = false -> rm_wf ms ->
  exists m', set_add z key ms = Ok m' /\ rm_wf m' /\
     forall a, set_getitem a m' = if in_z z a then {[key]} ∪ set_getitem a ms else set_getitem a ms.
Proof.
  intros Hz Hs. destruct (rm_exec_wf (CPopulate (fun s => {[key]} ∪ s) z ∅) ms I Hz Hs) as (m' & He & Hw & Hl & Hl0).
  exists m'. split_and!; [done|done|]. intros a. unfold set_getitem. rewrite Hl, Hl0. simpl. rewrite Hz, andb_true_r.
  by destruct (in_z z a), (rm_lookup a None _).
Qed.

Lemma set_add_overflow {K : Type} `{Countable K} (z : zone) (key : K) (ms : rangemap (gset K)) : too_long z = true -> set_add z key ms = Raise OverflowError.
Proof. intros H1. unfold set_add, rm_populate, too_long in *. destruct (rm_zone z). cbn [fst snd] in H1. by rewrite H1. Qed.

(** On a well-formed map and for zones of less than 2^63 addresses, [SetRangeMap.add] and [discard] and
    [DictRangeMap]'s keyed assignment and deletion complete, keep the map well
    formed, and change exactly the addresses of the zone: there the key is added
    to, or removed from, whatever the address held, and nowhere else. *)
Theorem set_dict_rangemap_pointwise {K W : Type} `{Countable K}
    (z : zone) (key : K) (w : W) (ms : rangemap (gset K)) (md : rangemap (gmap K W))
    (Hz : too_long z = false) (Hs : rm_wf ms) (Hd : rm_wf md) :
  (exists m', set_add z key ms = Ok m' /\ rm_wf m' /\
     forall a, set_getitem a m' = if in_z z a then {[key]} ∪ set_getitem a ms else set_getitem a ms) /\
  (exists m', set_discard z key ms = Ok m' /\ rm_wf m' /\
     forall a, set_getitem a m' = if in_z z a then set_getitem a ms ∖ {[key]} else set_getitem a ms) /\
  (exists m', dict_setitem_key z key w md = Ok m' /\ rm_wf m' /\
     forall a, dict_getitem a m' = if in_z z a then <[key := w]> (dict_getitem a md) else dict_getitem a md) /\
  (exists m', dict_delitem_key z key md = Ok m' /\ rm_wf m' /\
     forall a, dict_getitem a m' = if in_z z a then delete key (dict_getitem a md) else dict_getitem a md).
Proof.
  split_and!.
  - by apply set_add_pointwise.
  - destruct (rm_exec_wf (COverlaps (fun s => s ∖ {[key]}) z) ms I eq_refl Hs) as (m' & He & Hw & Hl & Hl0).
    exists m'. split_and!; [done|done|]. intros a. unfold set_getitem. rewrite Hl, Hl0. simpl.
    destruct (in_z z a), (rm_lookup a None _); simpl; try done. clear. set_solver.
  - destruct (rm_exec_wf (CPopulate (fun d => <[key := w]> d) z ∅) md I Hz Hd) as (m' & He & Hw & Hl & Hl0).
    exists m'. split_and!; [done|done|]. intros a. unfold dict_getitem. rewrite Hl, Hl0. simpl. rewrite Hz, andb_true_r.
    by destruct (in_z z a), (rm_lookup a None _).
  - destruct (rm_exec_wf (COverlaps (delete key) z) md I eq_refl Hd) as (m' & He & Hw & Hl & Hl0).
    exists m'. split_and!; [done|done|]. intros a. unfold dict_getitem. rewrite Hl, Hl0. simpl.
    by destruct (in_z z a), (rm_lookup a None _); simpl.
Qed.

Lemma set_dict_rangemap_pointwise_witness :
  let ms := RM [0] [9] [{[ 1 ]} : gset Z] in
  let md := RM [0] [9] [{[ 1 := 2 ]} : gmap Z Z] in
  (exists m', set_add (ZRange 5 12) 7 ms = Ok m' /\ rm_wf m' /\
     forall a, set_getitem a m' = if in_z (ZRange 5 12) a then {[7]} ∪ set_getitem a ms else set_getitem a ms) /\
  (exists m', set_discard (ZRange 5 12) 7 ms = Ok m' /\ rm_wf m' /\
     forall a, set_getitem a m' = if in_z (ZRange 5 12) a then set_getitem a ms ∖ {[7]} else set_getitem a ms) /\
  (exists m', dict_setitem_key (ZRange 5 12) 7 8 md = Ok m' /\ rm_wf m' /\
     forall a, dict_getitem a m' = if in_z (ZRange 5 12) a then <[7 := 8]> (dict_getitem a md) else dict_getitem a md) /\
  (exists m', dict_delitem_key (ZRange 5 12) 7 md = Ok m' /\ rm_wf m' /\
     forall a, dict_getitem a m' = if in_z (ZRange 5 12) a then delete 7 (dict_getitem a md) else dict_getitem a md).
Proof.
  apply (set_dict_rangemap_pointwise (ZRange 5 12) 7 8 (RM [0] [9] [{[ 1 ]} : gset Z])
           (RM [0] [9] [{[ 1 := 2 ]} : gmap Z Z])).
  - done.
  - exists [(0, 9, {[ 1 ]} : gset Z)]. split; [done|]. split; [done|]. split; [constructor|done].
  - exists [(0, 9, {[ 1 := 2 ]} : gmap Z Z)]. split; [done|]. split; [done|]. split; [constructor|done].
Defined.
