(* ===== verification/Uart.v ===== *)
(** * proxyclient/m1n1/proxy.py: [UartInterface], the framed link to the target

    The serial device is a [wire]: the blocks of bytes its [read] calls will
    deliver (an empty block, or none left, is a read timeout) and the blocks
    written to it.  Boot and event handlers are registered functions; what they
    do is a parameter of the model.  The interface state survives exceptions. *)

From S2P Require Import Prelude Bytes.
From Stdlib Require Import ZArith Lia.
From Stdlib Require Import Strings.Byte.
From stdpp Require Import base list numbers strings gmap.

Local Open Scope Z_scope.

(** ** Constants *)
Definition REQ_NOP := 0x00AA55FF.
Definition REQ_PROXY := 0x01AA55FF.
Definition REQ_MEMREAD := 0x02AA55FF.
Definition REQ_MEMWRITE := 0x03AA55FF.
Definition REQ_BOOT := 0x04AA55FF.
Definition REQ_EVENT := 0x05AA55FF.
Definition CHECKSUM_SENTINEL := 0xD0DECADE.
Definition DATA_END_SENTINEL := 0xB0CACC10.
Definition ST_OK := 0.
Definition ST_BADCMD := -1.
Definition ST_INVAL := -2.
Definition ST_XFERERR := -3.
Definition ST_CSUMERR := -4.
Definition CMD_LEN : nat := 56.
Definition REPLY_LEN : nat := 36.
Definition EVENT_HDR_LEN : nat := 8.

(** [Feature(IntFlag)]: one bit; the enabled set is kept as an integer. *)
Definition DISABLE_DATA_CSUMS := 0x01.
Definition Feature_get_all := DISABLE_DATA_CSUMS.

(** [START], [EXC] and [EVENT] are IntEnums: other values raise. *)
Inductive START_ := START_BOOT | START_EXCEPTION | START_EXCEPTION_LOWER | START_HV.
Definition START_of (v : Z) : result START_ :=
  if v =? 0 then Ok START_BOOT else if v =? 1 then Ok START_EXCEPTION
  else if v =? 2 then Ok START_EXCEPTION_LOWER else if v =? 3 then Ok START_HV
  else Raise (ValueError "not a valid START").
Definition START_val (r : START_) : Z :=
  match r with START_BOOT => 0 | START_EXCEPTION => 1 | START_EXCEPTION_LOWER => 2 | START_HV => 3 end.
Definition EXC_of (v : Z) : result Z :=
  if (0 <=? v) && (v <=? 3) then Ok v else Raise (ValueError "not a valid EXC").
Definition EVENT_of (v : Z) : result Z :=
  if (v =? 1) || (v =? 2) then Ok v else Raise (ValueError "not a valid EVENT").

(** ** The serial device *)
Record wire := Wire {
  w_rx : list bytes;
  w_tx : list bytes;
  w_baud : Z
}.

(** [dev.read(n)]: at most [n] bytes of the next block; [b''] is a timeout. *)
Definition wire_read (n : nat) (w : wire) : bytes * wire :=
  match w_rx w with
  | [] => ([], w)
  | b :: r =>
      (take n b, {| w_rx := if Nat.leb (length b) n then r else drop n b :: r;
                    w_tx := w_tx w; w_baud := w_baud w |})
  end.

Definition wire_write (d : bytes) (w : wire) : wire :=
  {| w_rx := w_rx w; w_tx := w_tx w ++ [d]; w_baud := w_baud w |}.

(** What [unkhandler] prints. *)
Inductive tty_out := TtyPrompt | TtyChar (c : byte).

(** ** The interface object; [H] names the registered handlers *)
Record uart (H : Type) := Uart {
  u_wire : wire;
  u_tty_enable : bool;
  u_pted : bool;
  u_tty : list tty_out;
  u_handlers : gmap (Z * Z) H;
  u_evt_handlers : gmap Z H;
  u_features : Z
}.
Arguments Uart {H}.
Arguments u_wire {H}.
Arguments u_tty_enable {H}.
Arguments u_pted {H}.
Arguments u_tty {H}.
Arguments u_handlers {H}.
Arguments u_evt_handlers {H}.
Arguments u_features {H}.

(** [__init__] on an open device. *)
Definition uart_init {H} (w : wire) : uart H :=
  {| u_wire := w; u_tty_enable := true; u_pted := false; u_tty := [];
     u_handlers := ∅; u_evt_handlers := ∅; u_features := 0 |}.

Section Uart.
Context {H : Type}.
Abbreviation U := (uart H).

(** What a registered boot handler (reason, code, info) and a registered event
    handler (data) do to the interface. *)
Variable run_handler : H -> Z -> Z -> Z -> M (uart H) unit.
Variable run_evt : H -> bytes -> M (uart H) unit.

(** [dev.open()] during reconnection attempt [i]: [None] is SerialException. *)
Variable dev_open : nat -> wire -> option wire.

(** Bound on the iterations of the reply loop. *)
Variable reply_fuel : nat.

Definition set_wire (w : wire) (u : U) : U :=
  {| u_wire := w; u_tty_enable := u_tty_enable u; u_pted := u_pted u; u_tty := u_tty u;
     u_handlers := u_handlers u; u_evt_handlers := u_evt_handlers u; u_features := u_features u |}.
Definition set_tty (pted : bool) (t : list tty_out) (u : U) : U :=
  {| u_wire := u_wire u; u_tty_enable := u_tty_enable u; u_pted := pted; u_tty := t;
     u_handlers := u_handlers u; u_evt_handlers := u_evt_handlers u; u_features := u_features u |}.
Definition set_tty_enable (b : bool) (u : U) : U :=
  {| u_wire := u_wire u; u_tty_enable := b; u_pted := u_pted u; u_tty := u_tty u;
     u_handlers := u_handlers u; u_evt_handlers := u_evt_handlers u; u_features := u_features u |}.
Definition set_features (f : Z) (u : U) : U :=
  {| u_wire := u_wire u; u_tty_enable := u_tty_enable u; u_pted := u_pted u; u_tty := u_tty u;
     u_handlers := u_handlers u; u_evt_handlers := u_evt_handlers u; u_features := f |}.

Definition dev_read (n : nat) : M U bytes := fun u =>
  let '(b, w) := wire_read n (u_wire u) in (Ok b, set_wire w u).
Definition dev_write (d : bytes) : M U unit := fun u =>
  (Ok tt, set_wire (wire_write d (u_wire u)) u).

Definition data_checksum (data : bytes) : M U Z := fun u =>
  (Ok (if negb (Z.land (u_features u) DISABLE_DATA_CSUMS =? 0) then CHECKSUM_SENTINEL
       else uart_checksum data), u).

(** [while len(d) < size]: every iteration that does not raise adds at least one
    byte, so [size] iterations are enough. *)
Fixpoint readfull_loop (fuel : nat) (size : nat) (d : bytes) : M U bytes :=
  if Nat.ltb (length d) size then
    match fuel with
    | O => py_raise OutOfFuel
    | S k =>
        let! block := dev_read (size - length d) in
        match block with
        | [] => py_raise UartTimeout
        | _ => readfull_loop k size (d ++ block)
        end
    end
  else py_ret d.

Definition readfull (size : nat) : M U bytes := readfull_loop size size [].

Definition uart_cmd (cmd : Z) (payload : bytes) : M U unit :=
  if Nat.ltb CMD_LEN (length payload) then py_raise (ValueError "Incorrect payload size") else
  let payload := ljust CMD_LEN payload in
  let! c := py_lift (pack_I cmd) in
  let command := c ++ payload in
  let! s := py_lift (pack_I (uart_checksum command)) in
  dev_write (command ++ s).

Fixpoint unk_loop (s : bytes) (pted : bool) (t : list tty_out) : bool * list tty_out :=
  match s with
  | [] => (pted, t)
  | c :: r =>
      let t := if pted then t else t ++ [TtyPrompt] in
      unk_loop r (if byte_to_Z c =? 10 then false else true) (t ++ [TtyChar c])
  end.

Definition unkhandler (s : bytes) : M U unit := fun u =>
  if u_tty_enable u then
    let '(p, t) := unk_loop s (u_pted u) (u_tty u) in (Ok tt, set_tty p t u)
  else (Ok tt, u).

Definition handle_boot (data : bytes) : M U unit :=
  let d := take 16 data in
  let! reason := py_lift (unpack_u 4 0 d) in
  let! code := py_lift (unpack_u 4 4 d) in
  let! info := py_lift (unpack_u 8 8 d) in
  let! reason := py_lift (START_of reason) in
  let! code := match reason with
               | START_EXCEPTION | START_EXCEPTION_LOWER => py_lift (EXC_of code)
               | _ => py_ret code
               end in
  let! h := py_get (fun u => u_handlers u !! (START_val reason, code)) in
  match h with
  | Some h => run_handler h (START_val reason) code info
  | None => py_ret tt     (* prints a notice unless the reason is BOOT *)
  end.

Definition set_handler (reason code : Z) (h : H) : M U unit := py_modify (fun u =>
  {| u_wire := u_wire u; u_tty_enable := u_tty_enable u; u_pted := u_pted u; u_tty := u_tty u;
     u_handlers := <[(reason, code) := h]> (u_handlers u); u_evt_handlers := u_evt_handlers u;
     u_features := u_features u |}).

Definition handle_event (event_id : Z) (data : bytes) : M U unit :=
  let! h := py_get (fun u => u_evt_handlers u !! event_id) in
  match h with Some h => run_evt h data | None => py_ret tt end.

Definition set_event_handler (event_id : Z) (h : H) : M U unit := py_modify (fun u =>
  {| u_wire := u_wire u; u_tty_enable := u_tty_enable u; u_pted := u_pted u; u_tty := u_tty u;
     u_handlers := u_handlers u; u_evt_handlers := <[event_id := h]> (u_evt_handlers u);
     u_features := u_features u |}).

(** An event frame: header, [data_len] bytes, checksum; [reply] is its first
    four bytes. *)
Definition reply_event (reply : bytes) : M U unit :=
  let! h := readfull (EVENT_HDR_LEN - 4) in
  let reply := reply ++ h in
  let! data_len := py_lift (unpack_u 2 4 reply) in
  let! event_type := py_lift (unpack_u 2 6 reply) in
  let! d := readfull (Z.to_nat data_len + 4) in
  let reply := reply ++ d in
  let body := take (length reply - 4) reply in
  let checksum := le_Z (drop (length reply - 4) reply) in
  let! ccsum := data_checksum body in
  if negb (checksum =? ccsum) then py_raise UartChecksumError
  else let! ev := py_lift (EVENT_of event_type) in
       handle_event ev (drop EVENT_HDR_LEN body).

(** The rest of a reply frame for [cmd]; [Some data] ends the loop. *)
Definition reply_frame (cmd cmdin : Z) (reply : bytes) : M U (option bytes) :=
  let! r := readfull (REPLY_LEN - 4) in
  let reply := reply ++ r in
  let! status := py_lift (unpack_u 4 4 reply) in
  let status := to_signed 4 status in
  let data := slice 8 32 reply in
  let! checksum := py_lift (unpack_u 4 32 reply) in
  let ccsum := uart_checksum (take (length reply - 4) reply) in
  if negb (checksum =? ccsum) then py_raise UartChecksumError
  else if negb (cmdin =? cmd) then
    if (cmdin =? REQ_BOOT) && (status =? ST_OK) then handle_boot data ;;; py_ret None
    else py_raise (UartCMDError cmd cmdin)
  else if negb (status =? ST_OK) then py_raise (UartRemoteError status)
  else py_ret (Some data).

Definition ends_ff (reply : bytes) : bool :=
  match last reply with Some b => byte_to_Z b =? 255 | None => false end.

(** The synchronisation part of one iteration: the four header bytes, or the
    bytes carried into the next iteration ([continue]). *)
Definition sync_step (reply : bytes) : M U (bytes + bytes) :=
  let! first := (if ends_ff reply then py_ret [Byte.xff] else readfull 1) in
  if negb (bytes_eqb first [Byte.xff]) then unkhandler first ;;; py_ret (inl first) else
  let! b := readfull 1 in
  let reply := first ++ b in
  if negb (bytes_eqb reply [Byte.xff; Byte.x55]) then unkhandler reply ;;; py_ret (inl reply) else
  let! b := readfull 1 in
  let reply := reply ++ b in
  if negb (bytes_eqb reply [Byte.xff; Byte.x55; Byte.xaa]) then unkhandler reply ;;; py_ret (inl reply) else
  let! b := readfull 1 in
  py_ret (inr (reply ++ b)).

(** The [while True] loop of [reply], with the bytes carried between
    iterations. *)
Fixpoint reply_loop (fuel : nat) (cmd : Z) (reply : bytes) : M U bytes :=
  match fuel with
  | O => py_raise OutOfFuel
  | S k =>
      let! st := sync_step reply in
      match st with
      | inl carried => reply_loop k cmd carried
      | inr hdr =>
          let cmdin := le_Z hdr in
          if cmdin =? REQ_EVENT then reply_event hdr ;;; reply_loop k cmd []
          else
            let! r := reply_frame cmd cmdin hdr in
            match r with
            | Some data => py_ret data
            | None => reply_loop k cmd []
            end
      end
  end.

Definition uart_reply (cmd : Z) : M U bytes := reply_loop reply_fuel cmd [].

(** [for i in range(200)]: the reconnection loop. *)
Fixpoint reopen_loop (n i : nat) : M U unit :=
  match n with
  | O => py_raise UartTimeout
  | S k => fun u => match dev_open i (u_wire u) with
                    | Some w => (Ok tt, set_wire w u)
                    | None => reopen_loop k (S i) u
                    end
  end.

(** [None] is the Python [None] returned after a reconnection. *)
Definition wait_boot : M U (option bytes) :=
  py_catch (let! d := uart_reply REQ_BOOT in py_ret (Some d)) (fun e => negb (bool_decide (e = OutOfFuel)))
    (reopen_loop 200 0 ;;; py_ret None).

Definition wait_and_handle_boot : M U unit :=
  let! d := wait_boot in
  match d with
  | Some data => handle_boot data
  | None => py_raise (TypeError "'NoneType' object is not subscriptable")
  end.

Definition uart_nop : M U unit :=
  let! p := py_lift (pack_Q Feature_get_all) in
  uart_cmd REQ_NOP p ;;;
  let! result := uart_reply REQ_NOP in
  let! fs := py_lift (unpack_Qs 3 0 result) in
  py_modify (set_features (nth 0 fs 0)).

(** [reboot] and [no_reply] as in the source; the result is [None] when nothing
    was read back. *)
Definition proxyreq (req : bytes) (reboot no_reply : bool) (pre_reply : option (M U unit)) : M U (option bytes) :=
  uart_cmd REQ_PROXY req ;;;
  (match pre_reply with Some f => f | None => py_ret tt end) ;;;
  (if no_reply then py_ret None
   else if reboot then wait_boot
   else let! d := uart_reply REQ_PROXY in py_ret (Some d)).

(** [for i in range(0, len(data), 8192)]. *)
Definition WRITE_CHUNK : nat := (2 ^ 13)%nat.

Fixpoint write_chunks (fuel : nat) (data : bytes) : M U unit :=
  match fuel, data with
  | _, [] => py_ret tt
  | O, _ => py_raise OutOfFuel
  | S k, _ => dev_write (take WRITE_CHUNK data) ;;; write_chunks k (drop WRITE_CHUNK data)
  end.

Definition uart_writemem (addr : Z) (data : bytes) : M U unit :=
  let! checksum := data_checksum data in
  let size := zlen data in
  let! a := py_lift (pack_Q addr) in
  let! s := py_lift (pack_Q size) in
  let! c := py_lift (pack_I checksum) in
  uart_cmd REQ_MEMWRITE (a ++ s ++ c) ;;;
  write_chunks (length data) data ;;;
  let! features := py_get u_features in
  (if negb (Z.land features DISABLE_DATA_CSUMS =? 0)
   then let! e := py_lift (pack_I DATA_END_SENTINEL) in dev_write e
   else py_ret tt) ;;;
  let! _ := uart_reply REQ_MEMWRITE in
  py_ret tt.

Definition uart_readmem (addr size : Z) : M U bytes :=
  if size =? 0 then py_ret [] else
  let! a := py_lift (pack_Q addr) in
  let! s := py_lift (pack_Q size) in
  uart_cmd REQ_MEMREAD (a ++ s) ;;;
  let! reply := uart_reply REQ_MEMREAD in
  let! checksum := py_lift (unpack_u 4 0 (take 4 reply)) in
  let! data := readfull (Z.to_nat size) in
  let! ccsum := data_checksum data in
  if negb (checksum =? ccsum) then py_raise UartChecksumError else
  let! features := py_get u_features in
  if negb (Z.land features DISABLE_DATA_CSUMS =? 0) then
    let! b := readfull 4 in
    let! sentinel := py_lift (unpack_u 4 0 b) in
    if negb (sentinel =? DATA_END_SENTINEL) then py_raise UartChecksumError else py_ret data
  else py_ret data.

End Uart.

(** ** Stream-level reasoning: how the bytes are cut into blocks is irrelevant *)

Section Stream.
Context {H : Type}.
Abbreviation U := (uart H).
Implicit Types u : U.

(** The bytes still to come, and that no read timeout comes before them. *)
Definition stream u : bytes := concat (w_rx (u_wire u)).
Definition no_timeout u : Prop := Forall (fun b => b <> []) (w_rx (u_wire u)).

(** [u'] is [u] after consuming input down to [s]: nothing else changed, except
    what was printed. *)
Record advanced u (s : bytes) u' : Prop := {
  adv_ok : no_timeout u';
  adv_stream : stream u' = s;
  adv_tx : w_tx (u_wire u') = w_tx (u_wire u);
  adv_baud : w_baud (u_wire u') = w_baud (u_wire u);
  adv_tty_enable : u_tty_enable u' = u_tty_enable u;
  adv_handlers : u_handlers u' = u_handlers u;
  adv_evt : u_evt_handlers u' = u_evt_handlers u;
  adv_features : u_features u' = u_features u
}.

Lemma advanced_refl u : no_timeout u -> advanced u (stream u) u.
Proof. by constructor. Qed.

Lemma advanced_trans u s1 u1 s2 u2 : advanced u s1 u1 -> advanced u1 s2 u2 -> advanced u s2 u2.
Proof. intros [] []. constructor; congruence. Qed.

Lemma dev_read_ok u a s n :
  no_timeout u -> stream u = a ++ s -> length a = n -> (0 < n)%nat ->
  exists b c u', a = b ++ c /\ b <> [] /\ dev_read n u = (Ok b, u') /\ advanced u (c ++ s) u'.
Proof.
  intros Hok Hs Hn Hpos. unfold no_timeout, stream in *. unfold dev_read, wire_read.
  destruct (w_rx (u_wire u)) as [|b r] eqn:Er.
  { simpl in Hs. destruct a; simpl in *; [lia|done]. }
  inversion Hok as [|? ? Hb Hr]; subst. simpl in Hs.
  destruct (Nat.leb_spec (length b) (length a)) as [Hle|Hgt].
  - exists b, (drop (length b) a). rewrite take_ge by lia.
    assert (Ha : a = b ++ drop (length b) a).
    { rewrite <- (take_drop (length b) a) at 1. f_equal.
      pose proof (f_equal (take (length b)) Hs) as Ht. rewrite take_app_length, take_app_le in Ht by lia. done. }
    eexists. split_and!; [exact Ha|done|done|]. constructor; try done.
    unfold stream. simpl. rewrite Ha, <- app_assoc in Hs. apply app_inv_head in Hs. done.
  - exists a, []. rewrite app_nil_r.
    assert (Hb2 : b = a ++ drop (length a) b).
    { rewrite <- (take_drop (length a) b) at 1. f_equal.
      pose proof (f_equal (take (length a)) Hs) as Ht. rewrite take_app_length, take_app_le in Ht by lia. done. }
    assert (Ht : take (length a) b = a) by (rewrite Hb2; apply take_app_length). rewrite Ht.
    eexists. split_and!; [done|destruct a; simpl in *; [lia|done]|done|]. constructor; try done.
    + unfold no_timeout. simpl. constructor; [|done]. intros Hd.
      apply (f_equal length) in Hd. rewrite length_drop in Hd. simpl in Hd. lia.
    + unfold stream. simpl. rewrite Hb2, <- app_assoc in Hs. by apply app_inv_head in Hs.
Qed.

Lemma readfull_loop_ok fuel size u d a s :
  no_timeout u -> stream u = a ++ s -> (length d + length a = size)%nat -> (length a <= fuel)%nat ->
  exists u', readfull_loop fuel size d u = (Ok (d ++ a), u') /\ advanced u s u'.
Proof.
  revert u d a. induction fuel as [|k IH]; intros u d a Hok Hs Hlen Hf.
  - destruct a; [|simpl in Hf; lia]. simpl in *. destruct (Nat.ltb_spec (length d) size); [lia|].
    exists u. rewrite app_nil_r. split; [done|]. rewrite <- Hs. by apply advanced_refl.
  - cbn [readfull_loop]. destruct (Nat.ltb_spec (length d) size) as [Hlt|Hge].
    + destruct (dev_read_ok u a s (size - length d) Hok Hs ltac:(lia) ltac:(lia)) as (b & c & u1 & -> & Hb & Hr & Hadv).
      rewrite (py_bind_ok _ _ _ _ _ Hr). rewrite length_app in Hlen, Hf.
      destruct b as [|b0 b]; [done|]. destruct Hadv as [Hok1 Hs1 ? ? ? ? ? ?].
      destruct (IH u1 (d ++ b0 :: b) c Hok1 Hs1) as (u2 & -> & Hadv2);
        [rewrite length_app; lia|simpl in Hf; lia|].
      exists u2. rewrite <- app_assoc. split; [done|]. destruct Hadv2. constructor; congruence.
    + destruct a; [|simpl in *; lia]. exists u. rewrite app_nil_r. split; [done|].
      simpl in Hs. rewrite <- Hs. by apply advanced_refl.
Qed.

Lemma readfull_ok u a s n :
  no_timeout u -> stream u = a ++ s -> length a = n ->
  exists u', readfull n u = (Ok a, u') /\ advanced u s u'.
Proof. intros Hok Hs Hn. apply (readfull_loop_ok n n u [] a s); auto; simpl; lia. Qed.

Lemma unkhandler_ok x u :
  no_timeout u -> exists u', unkhandler x u = (Ok tt, u') /\ advanced u (stream u) u'.
Proof.
  intros Hok. unfold unkhandler. destruct (u_tty_enable u) eqn:E.
  - destruct (unk_loop x (u_pted u) (u_tty u)) as [p t]. eexists. split; [done|]. by constructor.
  - exists u. split; [done|]. by apply advanced_refl.
Qed.

(** A reply frame as the target sends it. *)
Definition encode_reply (cmd status : Z) (data : bytes) : bytes :=
  let h := le_bytes 4 cmd ++ le_bytes 4 status ++ data in
  h ++ le_bytes 4 (uart_checksum h).

(** The request codes: [0xff 0x55 0xaa n] on the wire. *)
Definition req_code (cmd : Z) (b : byte) : Prop :=
  0 <= cmd < 2 ^ 32 /\ le_bytes 4 cmd = [Byte.xff; Byte.x55; Byte.xaa; b].

Lemma req_code_le cmd b : req_code cmd b -> le_Z [Byte.xff; Byte.x55; Byte.xaa; b] = cmd.
Proof. intros [Hr <-]. by rewrite le_Z_small. Qed.

(** ** Resynchronisation *)

(** What the next iteration of the loop will see: a trailing [0xff] of the
    carried bytes counts as already read. *)
Definition pending_view (carried s : bytes) : bytes :=
  if ends_ff carried then Byte.xff :: s else s.

Definition SYNC : bytes := [Byte.xff; Byte.x55; Byte.xaa].

(** [noise] holds no synchronisation mark, also not one completed by the first
    bytes of the mark that follows it. *)
Definition no_mark (noise : bytes) : Prop :=
  forall i, (i < length noise)%nat -> ~ SYNC `prefix_of` drop i (noise ++ SYNC).

Lemma no_mark_drop k noise : no_mark noise -> no_mark (drop k noise).
Proof.
  intros Hn i Hi. rewrite length_drop in Hi.
  replace (drop i (drop k noise ++ SYNC)) with (drop (k + i) (noise ++ SYNC)); [apply Hn; lia|].
  rewrite <- drop_drop, drop_app_le by lia. done.
Qed.

Lemma ends_ff_snoc l x : ends_ff (l ++ [x]) = bool_decide (x = Byte.xff).
Proof.
  unfold ends_ff. rewrite last_snoc. destruct (Z.eqb_spec (byte_to_Z x) 255) as [E|E].
  - rewrite bool_decide_true; [done|]. by apply byte_to_Z_inj.
  - rewrite bool_decide_false; [done|]. by intros ->.
Qed.

Lemma read_first_ok u carried x s :
  no_timeout u -> pending_view carried (stream u) = x :: s ->
  exists u', (if ends_ff carried then py_ret [Byte.xff] else readfull 1) u = (Ok [x], u') /\ advanced u s u'.
Proof.
  unfold pending_view. intros Hok Hv. destruct (ends_ff carried).
  - injection Hv as <- <-. exists u. split; [done|]. by apply advanced_refl.
  - by apply readfull_ok.
Qed.


(** Run the next [readfull 1] of the goal on the bytes [x] known to come. *)
Ltac read_one Ha x :=
  match type of Ha with
  | advanced _ _ ?u1 =>
      let u2 := fresh "u" in let Hr := fresh "Hr" in let Ha2 := fresh "Ha" in
      destruct (readfull_ok u1 [x] _ 1 (adv_ok _ _ _ Ha) (adv_stream _ _ _ Ha) eq_refl) as (u2 & Hr & Ha2);
      rewrite (py_bind_ok _ _ _ _ _ Hr); cbn [app]; clear Hr;
      apply (advanced_trans _ _ _ _ _ Ha) in Ha2; clear Ha; rename Ha2 into Ha
  end.

Ltac compare_bytes :=
  unfold bytes_eqb at 1; first [rewrite bool_decide_true by done | rewrite bool_decide_false by congruence];
  cbn [negb].

Lemma reject_ok (x : bytes) u0 s u1 :
  advanced u0 s u1 ->
  exists u2, (unkhandler x ;;; py_ret (inl x : bytes + bytes)) u1 = (Ok (inl x), u2) /\ advanced u0 s u2.
Proof.
  intros Ha. destruct (unkhandler_ok x u1 (adv_ok _ _ _ Ha)) as (u2 & Hr & Ha2).
  exists u2. rewrite (py_bind_ok _ _ _ _ _ Hr). split; [done|].
  rewrite (adv_stream _ _ _ Ha) in Ha2. eauto using advanced_trans.
Qed.

(** One iteration: reject after the first byte that breaks the mark, or return
    the four header bytes. *)
Lemma sync_step_reject0 u carried x s :
  no_timeout u -> pending_view carried (stream u) = x :: s -> x <> Byte.xff ->
  exists u', sync_step carried u = (Ok (inl [x]), u') /\ advanced u s u'.
Proof.
  intros Hok Hv Hx. unfold sync_step.
  destruct (read_first_ok u carried _ _ Hok Hv) as (u1 & Hr & Ha). rewrite (py_bind_ok _ _ _ _ _ Hr).
  compare_bytes. by apply reject_ok.
Qed.

Lemma sync_step_reject1 u carried x s :
  no_timeout u -> pending_view carried (stream u) = Byte.xff :: x :: s -> x <> Byte.x55 ->
  exists u', sync_step carried u = (Ok (inl [Byte.xff; x]), u') /\ advanced u s u'.
Proof.
  intros Hok Hv Hx. unfold sync_step.
  destruct (read_first_ok u carried _ _ Hok Hv) as (u1 & Hr & Ha). rewrite (py_bind_ok _ _ _ _ _ Hr).
  compare_bytes. read_one Ha x. compare_bytes. by apply reject_ok.
Qed.

Lemma sync_step_reject2 u carried x s :
  no_timeout u -> pending_view carried (stream u) = Byte.xff :: Byte.x55 :: x :: s -> x <> Byte.xaa ->
  exists u', sync_step carried u = (Ok (inl [Byte.xff; Byte.x55; x]), u') /\ advanced u s u'.
Proof.
  intros Hok Hv Hx. unfold sync_step.
  destruct (read_first_ok u carried _ _ Hok Hv) as (u1 & Hr & Ha). rewrite (py_bind_ok _ _ _ _ _ Hr).
  compare_bytes. read_one Ha Byte.x55. compare_bytes. read_one Ha x. compare_bytes. by apply reject_ok.
Qed.

Lemma sync_step_header u carried b s :
  no_timeout u -> pending_view carried (stream u) = SYNC ++ b :: s ->
  exists u', sync_step carried u = (Ok (inr (SYNC ++ [b])), u') /\ advanced u s u'.
Proof.
  intros Hok Hv. unfold sync_step.
  destruct (read_first_ok u carried _ _ Hok Hv) as (u1 & Hr & Ha). rewrite (py_bind_ok _ _ _ _ _ Hr).
  compare_bytes. read_one Ha Byte.x55. compare_bytes. read_one Ha Byte.xaa. compare_bytes.
  read_one Ha b. by eexists.
Qed.

(** An iteration on noise drops some of it and nothing else. *)
Lemma sync_step_noise u carried noise s :
  no_timeout u -> no_mark noise -> noise <> [] ->
  pending_view carried (stream u) = noise ++ SYNC ++ s ->
  exists u' carried' k s', sync_step carried u = (Ok (inl carried'), u') /\ advanced u s' u' /\
    (0 < k <= length noise)%nat /\ pending_view carried' s' = drop k noise ++ SYNC ++ s.
Proof.
  intros Hok Hm Hne Hv. pose proof (Hm 0%nat ltac:(destruct noise; simpl; [done|lia])) as H0. simpl in H0.
  destruct noise as [|x0 n0]; [done|]. cbn [app] in Hv.
  destruct (decide (x0 = Byte.xff)) as [->|Hx0].
  2:{ destruct (sync_step_reject0 _ _ _ _ Hok Hv Hx0) as (u' & Hr & Ha).
      exists u', [x0], 1%nat, (n0 ++ SYNC ++ s). split_and!; [done|done|lia|simpl;lia|].
      unfold pending_view. change [x0] with ([] ++ [x0]). by rewrite ends_ff_snoc, bool_decide_false. }
  assert (Hnext : exists x1 n1, n0 ++ SYNC = x1 :: n1) by (destruct n0; eexists _, _; reflexivity).
  destruct Hnext as (x1 & n1 & E1). rewrite (app_assoc n0), E1 in Hv. cbn [app] in Hv.
  destruct (decide (x1 = Byte.x55)) as [->|Hx1].
  2:{ destruct (sync_step_reject1 _ _ _ _ Hok Hv Hx1) as (u' & Hr & Ha).
      eexists u', _, (if decide (x1 = Byte.xff) then 1 else 2)%nat, _. split_and!; [done|done|case_decide; lia| |].
      - case_decide; [simpl; lia|]. destruct n0; simpl in *; [|lia]. injection E1 as <- <-. done.
      - unfold pending_view. change [Byte.xff; x1] with ([Byte.xff] ++ [x1]). rewrite ends_ff_snoc.
        case_decide; subst; [rewrite bool_decide_true by done|rewrite bool_decide_false by done]; cbn [drop]; rewrite ?drop_0.
        + by rewrite (app_assoc n0), E1.
        + destruct n0; cbn [app drop] in *; injection E1 as <- <-; [done|]. by rewrite <- app_assoc. }
  destruct n0 as [|? n0]; [done|]. injection E1 as -> E1.
  assert (Hnext : exists x2 n2, n0 ++ SYNC = x2 :: n2) by (destruct n0; eexists _, _; reflexivity).
  destruct Hnext as (x2 & n2 & E2). rewrite <- E1, E2 in Hv. cbn [app] in Hv.
  destruct (decide (x2 = Byte.xaa)) as [->|Hx2].
  { destruct H0. simpl. rewrite E2. by exists n2. }
  destruct (sync_step_reject2 _ _ _ _ Hok Hv Hx2) as (u' & Hr & Ha).
  eexists u', _, (if decide (x2 = Byte.xff) then 2 else 3)%nat, _. split_and!; [done|done|case_decide; lia| |].
  - case_decide; [simpl; lia|]. destruct n0; simpl in *; [|lia]. injection E2 as <- <-. done.
  - unfold pending_view. change [Byte.xff; Byte.x55; x2] with ([Byte.xff; Byte.x55] ++ [x2]). rewrite ends_ff_snoc.
    case_decide; subst; [rewrite bool_decide_true by done|rewrite bool_decide_false by done]; cbn [drop]; rewrite ?drop_0.
    + by rewrite (app_assoc n0), E2.
    + destruct n0; cbn [app drop] in *; injection E2 as <- <-; [done|]. by rewrite <- app_assoc.
Qed.

Section Reply.
Variable run_handler : H -> Z -> Z -> Z -> M U unit.
Variable run_evt : H -> bytes -> M U unit.

Definition frame_verdict (cmd cmdin : Z) (hdr st data cs : bytes) : M U (option bytes) :=
  if negb (le_Z cs =? uart_checksum (hdr ++ st ++ data)) then py_raise UartChecksumError
  else if negb (cmdin =? cmd) then
    if (cmdin =? REQ_BOOT) && (to_signed 4 (le_Z st) =? ST_OK)
    then handle_boot run_handler data ;;; py_ret None
    else py_raise (UartCMDError cmd cmdin)
  else if negb (to_signed 4 (le_Z st) =? ST_OK) then py_raise (UartRemoteError (to_signed 4 (le_Z st)))
  else py_ret (Some data).

(** After its 32 remaining bytes have come, a reply frame is judged by its
    checksum, command and status alone. *)
Lemma reply_frame_read u cmd cmdin hdr st data cs s :
  no_timeout u -> length hdr = 4%nat -> length st = 4%nat -> length data = 24%nat -> length cs = 4%nat ->
  stream u = (st ++ data ++ cs) ++ s ->
  exists u', advanced u s u' /\
    reply_frame run_handler cmd cmdin hdr u =
    frame_verdict cmd cmdin hdr st data cs u'.
Proof.
  intros Hok Hh Hst Hd Hcs Hs.
  destruct (readfull_ok u (st ++ data ++ cs) s (REPLY_LEN - 4) Hok Hs) as (u1 & Hr & Ha).
  { rewrite !length_app, Hst, Hd, Hcs. done. }
  exists u1. split; [done|]. unfold reply_frame. rewrite (py_bind_ok _ _ _ _ _ Hr). clear Hr.
  rewrite (unpack_u_app 4 4 hdr st (data ++ cs)) by done.
  assert (E32 : hdr ++ st ++ data ++ cs = (hdr ++ st ++ data) ++ cs ++ [])
    by (by rewrite app_nil_r, <- !app_assoc).
  assert (Hl : length (hdr ++ st ++ data) = 32%nat) by (rewrite !length_app, Hh, Hst, Hd; done).
  rewrite E32, (unpack_u_app 4 32) by done. unfold py_lift at 1 2, py_bind at 1 2.
  replace (slice 8 32 _) with data.
  2:{ replace ((hdr ++ st ++ data) ++ cs ++ []) with ((hdr ++ st) ++ data ++ cs)
        by (by rewrite app_nil_r, <- !app_assoc).
      replace 32%nat with (8 + length data)%nat by (rewrite Hd; done).
      rewrite slice_app_mid; [done|]. rewrite length_app, Hh, Hst. done. }
  rewrite app_nil_r, length_app, Hcs, Nat.add_sub, take_app_length. done.
Qed.

(** The noise loop: all the noise is skipped, the frame is left. *)
Lemma reply_loop_skip noise : forall fuel cmd carried u s,
  no_timeout u -> no_mark noise -> (length noise < fuel)%nat ->
  pending_view carried (stream u) = noise ++ SYNC ++ s ->
  exists u' carried' k s', (0 < k)%nat /\ advanced u s' u' /\ pending_view carried' s' = SYNC ++ s /\
    reply_loop run_handler run_evt fuel cmd carried u = reply_loop run_handler run_evt k cmd carried' u'.
Proof.
  induction noise as [noise IH] using (induction_ltof1 _ (@length byte)). unfold ltof in IH.
  intros fuel cmd carried u s Hok Hm Hf Hv. destruct (decide (noise = [])) as [->|Hne].
  { exists u, carried, fuel, (stream u). split_and!; [lia|by apply advanced_refl|done|done]. }
  destruct fuel as [|fuel]; [lia|].
  destruct (sync_step_noise u carried noise s Hok Hm Hne Hv) as (u1 & c1 & k & s1 & Hr & Ha & Hk & Hv1).
  assert (Hl : (length (drop k noise) < length noise)%nat) by (rewrite length_drop; lia).
  rewrite <- (adv_stream _ _ _ Ha) in Hv1.
  destruct (IH _ Hl fuel cmd c1 u1 s (adv_ok _ _ _ Ha) (no_mark_drop k _ Hm) ltac:(lia) Hv1)
    as (u2 & c2 & j & s2 & Hj & Ha2 & Hv2 & Hr2).
  exists u2, c2, j, s2. split_and!; [done|eauto using advanced_trans|done|].
  cbn [reply_loop]. by rewrite (py_bind_ok _ _ _ _ _ Hr).
Qed.

(** Noise, then any frame that is not an event: the frame decides. *)
Lemma reply_loop_frame noise fuel cmd b st data cs u s :
  no_timeout u -> no_mark noise -> (length noise < fuel)%nat -> b <> Byte.x05 ->
  length st = 4%nat -> length data = 24%nat -> length cs = 4%nat ->
  stream u = noise ++ (SYNC ++ [b]) ++ (st ++ data ++ cs) ++ s ->
  exists u' k, advanced u s u' /\
    reply_loop run_handler run_evt fuel cmd [] u =
    (let! r := frame_verdict cmd (le_Z (SYNC ++ [b])) (SYNC ++ [b]) st data cs in
     match r with Some d => py_ret d | None => reply_loop run_handler run_evt k cmd [] end) u'.
Proof.
  intros Hok Hm Hf Hb Hst Hd Hcs Hs. rewrite <- (app_assoc SYNC) in Hs.
  destruct (reply_loop_skip noise fuel cmd [] u _ Hok Hm Hf Hs) as (u1 & c1 & k & s1 & Hk & Ha & Hv & ->).
  destruct k as [|k]; [lia|]. rewrite <- (adv_stream _ _ _ Ha) in Hv.
  destruct (sync_step_header u1 c1 b _ (adv_ok _ _ _ Ha) Hv) as (u2 & Hr & Ha2).
  destruct (reply_frame_read u2 cmd (le_Z (SYNC ++ [b])) (SYNC ++ [b]) st data cs s
              (adv_ok _ _ _ Ha2) eq_refl Hst Hd Hcs (adv_stream _ _ _ Ha2)) as (u3 & Ha3 & Hf3).
  exists u3, k. split; [eauto using advanced_trans|].
  cbn [reply_loop]. rewrite (py_bind_ok _ _ _ _ _ Hr).
  replace (le_Z (SYNC ++ [b]) =? REQ_EVENT) with false; [|destruct b; done].
  unfold py_bind. by rewrite Hf3.
Qed.

Lemma length_encode_reply cmd status data :
  length data = 24%nat -> length (encode_reply cmd status data) = 36%nat.
Proof. intros Hd. unfold encode_reply. autorewrite with q1n1_len. rewrite Hd. done. Qed.

Lemma frame_split (f : bytes) b :
  length f = 36%nat -> take 4 f = SYNC ++ [b] ->
  f = (SYNC ++ [b]) ++ (slice 4 8 f ++ slice 8 32 f ++ drop 32 f) /\
  take 32 f = (SYNC ++ [b]) ++ slice 4 8 f ++ slice 8 32 f.
Proof.
  intros Hl <-. unfold slice. do 36 (destruct f as [|? f]; [discriminate Hl|]).
  destruct f; [done|discriminate Hl].
Qed.

(** A frame whose checksum field does not match its first 32 bytes. *)
Lemma reply_loop_bad_checksum noise fuel cmd b f u s :
  no_timeout u -> no_mark noise -> (length noise < fuel)%nat -> b <> Byte.x05 ->
  length f = 36%nat -> take 4 f = SYNC ++ [b] -> le_Z (drop 32 f) <> uart_checksum (take 32 f) ->
  stream u = noise ++ f ++ s ->
  exists u', reply_loop run_handler run_evt fuel cmd [] u = (Raise UartChecksumError, u') /\ advanced u s u'.
Proof.
  intros Hok Hm Hf Hb Hl Ht Hne Hs. destruct (frame_split f b Hl Ht) as [Ef Ec].
  rewrite Ef, <- app_assoc in Hs.
  destruct (reply_loop_frame noise fuel cmd b (slice 4 8 f) (slice 8 32 f) (drop 32 f) u s
    Hok Hm Hf Hb) as (u' & k & Ha & ->); try done.
  1-3: unfold slice; rewrite ?length_take, length_drop, Hl; done.
  exists u'. split; [|done]. unfold frame_verdict. rewrite <- Ec.
  rewrite (proj2 (Z.eqb_neq _ _) Hne). done.
Qed.

Lemma le_Z_inj a b : length a = length b -> le_Z a = le_Z b -> a = b.
Proof.
  intros Hl Hz. rewrite <- (le_bytes_le_Z a (length b) Hl), Hz. by apply le_bytes_le_Z.
Qed.

(** Changing one byte of a well-formed frame breaks its checksum. *)
Lemma corrupt_frame (h : bytes) i x :
  (i < length h + 4)%nat ->
  let f := h ++ le_bytes 4 (uart_checksum h) in
  f !! i <> Some x ->
  le_Z (drop (length h) (<[i := x]> f)) <> uart_checksum (take (length h) (<[i := x]> f)).
Proof.
  intros Hi f Hx. unfold f in *. destruct (decide (i < length h)%nat) as [Hlt|Hge].
  - rewrite insert_app_l by done. rewrite <- (length_insert h i x).
    rewrite drop_app_length, take_app_length, le_Z_small by apply uart_checksum_range.
    rewrite lookup_app_l in Hx by done. destruct (lookup_lt_is_Some_2 h i Hlt) as [y Hy].
    rewrite insert_take_drop by done. rewrite <- (take_drop_middle h i y Hy) at 1.
    intros E%uart_checksum_byte_inj. congruence.
  - rewrite insert_app_r_alt by lia. rewrite drop_app_length, take_app_length.
    rewrite lookup_app_r in Hx by lia. intros E. apply Hx.
    rewrite <- (le_Z_small 4 (uart_checksum h)) in E by apply uart_checksum_range.
    apply le_Z_inj in E; [|by rewrite length_insert]. rewrite <- E at 1.
    apply list_lookup_insert_eq. rewrite length_le_bytes. lia.
Qed.

End Reply.

End Stream.

(** ** The link is robust *)

Lemma to_signed_status status : - 2 ^ 31 <= status < 2 ^ 31 -> to_signed 4 (status mod 2 ^ 32) = status.
Proof.
  intros Hst. unfold to_signed. change (256 ^ Z.of_nat 4 / 2) with (2 ^ 31). change (256 ^ Z.of_nat 4) with (2 ^ 32).
    destruct (Z.ltb_spec (status mod 2 ^ 32) (2 ^ 31));
      destruct (Z.le_gt_cases 0 status) as [Hp|Hp];
      [rewrite Z.mod_small in *|rewrite <- (Z.mod_unique status (2 ^ 32) (-1) (status + 2 ^ 32)) in *
      |rewrite Z.mod_small in *|rewrite <- (Z.mod_unique status (2 ^ 32) (-1) (status + 2 ^ 32)) in *]; lia.
Qed.

Lemma uart_reply_frame {H} run_handler run_evt (u : uart H) fuel cmd b noise status data rest
    (Hcmd : req_code cmd b) (Hev : cmd <> REQ_EVENT) (Hd : length data = 24%nat)
    (Hst : - 2 ^ 31 <= status < 2 ^ 31)
    (Hm : no_mark noise) (Hok : no_timeout u) (Hf : (length noise < fuel)%nat)
    (Hs : stream u = noise ++ encode_reply cmd (status mod 2 ^ 32) data ++ rest) :
  exists u', uart_reply run_handler run_evt fuel cmd u =
               (if status =? 0 then Ok data else Raise (UartRemoteError status), u')
             /\ advanced u rest u'.
Proof.
  destruct Hcmd as [Hr Hle]. unfold encode_reply in Hs. rewrite Hle in Hs.
  assert (Hb : b <> Byte.x05).
  { intros ->. apply Hev. rewrite <- (le_Z_small 4 cmd) by done. by rewrite Hle. }
  rewrite <- !app_assoc in Hs.
  destruct (reply_loop_frame run_handler run_evt noise fuel cmd b (le_bytes 4 (status mod 2 ^ 32)) data
    (le_bytes 4 (uart_checksum ([Byte.xff; Byte.x55; Byte.xaa; b] ++ le_bytes 4 (status mod 2 ^ 32) ++ data)))
    u rest Hok Hm Hf Hb) as (u' & k & Ha & Hl);
    [by rewrite length_le_bytes|done|by rewrite length_le_bytes|by rewrite Hs, <- !app_assoc|].
  exists u'. split; [|done]. unfold uart_reply. rewrite Hl. unfold frame_verdict.
  change (SYNC ++ [b]) with [Byte.xff; Byte.x55; Byte.xaa; b].
  rewrite (le_Z_small 4 (uart_checksum _)) by apply uart_checksum_range.
  rewrite Z.eqb_refl. cbn [negb]. rewrite <- Hle, le_Z_small, Z.eqb_refl by done. cbn [negb].
  rewrite le_Z_small by (apply Z.mod_pos_bound; lia).
  rewrite to_signed_status by done. unfold ST_OK. by destruct (status =? 0).
Qed.

(** C1: [reply] resynchronises.  Whatever bytes precede a reply frame, as long as
    they hold no synchronisation mark, and however the device cuts the stream
    into blocks, [reply] consumes exactly the noise and the frame and returns the
    frame's data, or raises the frame's error status; nothing is sent. *)
Theorem reply_resync {H} run_handler run_evt (u : uart H) fuel cmd b noise status data rest
    (Hcmd : req_code cmd b) (Hev : cmd <> REQ_EVENT) (Hd : length data = 24%nat)
    (Hst : - 2 ^ 31 <= status < 2 ^ 31)
    (Hm : no_mark noise) (Hok : no_timeout u) (Hf : (length noise < fuel)%nat)
    (Hs : stream u = noise ++ encode_reply cmd (status mod 2 ^ 32) data ++ rest) :
  exists u', uart_reply run_handler run_evt fuel cmd u =
               (if status =? 0 then Ok data else Raise (UartRemoteError status), u')
             /\ advanced u rest u'.
Proof. by apply (uart_reply_frame run_handler run_evt u fuel cmd b noise). Qed.

Definition demo_wire (blocks : list bytes) : uart unit :=
  uart_init {| w_rx := blocks; w_tx := []; w_baud := 115200 |}.

Lemma reply_resync_witness :
  let noise := [Byte.x41; Byte.xff; Byte.x55] in
  let data := replicate 24 Byte.x07 in
  let frame := encode_reply REQ_PROXY 0 data in
  let u := demo_wire [noise ++ take 5 frame; drop 5 frame ++ [Byte.x42]] in
  exists u', uart_reply (fun _ _ _ _ => py_ret tt) (fun _ _ => py_ret tt) 9 REQ_PROXY u = (Ok data, u')
             /\ advanced u [Byte.x42] u'.
Proof.
  intros noise data frame u.
  apply (reply_resync (fun _ _ _ _ => py_ret tt) (fun _ _ => py_ret tt) u 9 REQ_PROXY Byte.x01 noise 0 data [Byte.x42]).
  - split; [vm_compute; split; congruence|reflexivity].
  - discriminate.
  - reflexivity.
  - lia.
  - intros i Hi [z Hz]. simpl in Hi.
    destruct i as [|[|[|i]]]; [| | |lia]; vm_compute in Hz; discriminate Hz.
  - unfold no_timeout. vm_compute. repeat constructor; discriminate.
  - simpl. lia.
  - vm_compute. reflexivity.
Defined.

(** C2: [reply] never accepts a reply frame with one corrupted byte: change any
    byte after the synchronisation mark (the command byte into anything but the
    event code) of a frame the target sent that is not an event, and [reply] raises
    [UartChecksumError], whatever command it waits for and whatever mark-free noise
    came before.  A corrupted mark makes the frame noise, and a command byte turned
    into the event code starts the handling of an event: neither is covered. *)
Theorem reply_rejects_corruption {H} run_handler run_evt (u : uart H) fuel cmd sent b noise status data rest i x
    (Hcmd : req_code sent b) (Hd : length data = 24%nat)
    (Hi : (3 <= i < 36)%nat) (Hx : encode_reply sent status data !! i <> Some x)
    (Hev : i = 3%nat -> x <> Byte.x05) (Hsent : sent <> REQ_EVENT)
    (Hm : no_mark noise) (Hok : no_timeout u) (Hf : (length noise < fuel)%nat)
    (Hs : stream u = noise ++ <[i := x]> (encode_reply sent status data) ++ rest) :
  exists u', uart_reply run_handler run_evt fuel cmd u = (Raise UartChecksumError, u') /\ advanced u rest u'.
Proof.
  destruct Hcmd as [Hr Hle]. set (h := le_bytes 4 sent ++ le_bytes 4 status ++ data) in *.
  assert (Hh : length h = 32%nat) by (unfold h; autorewrite with q1n1_len; rewrite Hd; done).
  assert (Hbad := corrupt_frame h i x ltac:(lia) Hx). rewrite Hh in Hbad.
  apply (reply_loop_bad_checksum run_handler run_evt noise fuel cmd (if decide (i = 3%nat) then x else b)
           (<[i := x]> (encode_reply sent status data)) u rest); auto.
  - case_decide; [auto|]. intros ->. apply Hsent. rewrite <- (le_Z_small 4 sent) by done. by rewrite Hle.
  - rewrite length_insert. by apply length_encode_reply.
  - unfold encode_reply. rewrite Hle. case_decide; [by subst|].
    destruct i as [|[|[|[|i]]]]; [lia|lia|lia|done|]. done.
Qed.

Lemma reply_rejects_corruption_witness :
  let data := replicate 24 Byte.x07 in
  let u := demo_wire [<[35%nat := Byte.x00]> (encode_reply REQ_PROXY 0 data)] in
  exists u', uart_reply (fun _ _ _ _ => py_ret tt) (fun _ _ => py_ret tt) 9 REQ_PROXY u = (Raise UartChecksumError, u')
             /\ advanced u [] u'.
Proof.
  intros data u.
  apply (reply_rejects_corruption (fun _ _ _ _ => py_ret tt) (fun _ _ => py_ret tt) u 9 REQ_PROXY REQ_PROXY
           Byte.x01 [] 0 data [] 35 Byte.x00).
  - split; [vm_compute; split; congruence|reflexivity].
  - reflexivity.
  - lia.
  - vm_compute. discriminate.
  - discriminate.
  - discriminate.
  - intros i Hi. simpl in Hi. lia.
  - unfold no_timeout. vm_compute. repeat constructor; discriminate.
  - simpl. lia.
  - vm_compute. reflexivity.
Defined.

(** ** Termination of the reply loop *)

Section Tame.
Context {H : Type}.
Abbreviation U := (uart H).

Definition pending (u : U) : nat := length (stream u).

(** [m] never runs out of fuel, never adds pending input, and takes at least [k]
    bytes when it returns. *)
Definition tame {A} (k : nat) (m : M U A) : Prop := forall u r u', m u = (r, u') ->
  r <> Raise OutOfFuel /\ (pending u' <= pending u)%nat /\
  (forall a, r = Ok a -> (pending u' + k <= pending u)%nat).

Lemma tame_ret {A} (a : A) : tame 0 (py_ret a).
Proof. intros u r u' [= <- <-]. split_and!; [done|lia|intros; lia]. Qed.

Lemma tame_raise {A} k e : e <> OutOfFuel -> tame k (@py_raise U A e).
Proof. intros He u r u' [= <- <-]. split_and!; [congruence|lia|done]. Qed.

Lemma tame_lift {A} (x : result A) : x <> Raise OutOfFuel -> tame 0 (@py_lift U A x).
Proof. intros Hx u r u' [= <- <-]. split_and!; [done|lia|intros; lia]. Qed.

Lemma tame_get {A} (f : U -> A) : tame 0 (py_get f).
Proof. intros u r u' [= <- <-]. split_and!; [done|lia|intros; lia]. Qed.

Lemma tame_weaken {A} j k (m : M U A) : (k <= j)%nat -> tame j m -> tame k m.
Proof.
  intros Hk Hm u r u' E. destruct (Hm u r u' E) as (? & ? & Ha). split_and!; [done|done|].
  intros a Er. specialize (Ha a Er). lia.
Qed.

Lemma tame_bind {A B} j k (m : M U A) (f : A -> M U B) :
  tame j m -> (forall a, tame k (f a)) -> tame (j + k) (py_bind m f).
Proof.
  intros Hm Hf u r u' E. unfold py_bind in E. destruct (m u) as [[a|e] u1] eqn:Em;
    destruct (Hm _ _ _ Em) as (Hr & Hp & Ha).
  - specialize (Ha a eq_refl). destruct (Hf a _ _ _ E) as (Hr2 & Hp2 & Ha2).
    split_and!; [done|lia|]. intros b Eb. specialize (Ha2 b Eb). lia.
  - injection E as <- <-. split_and!; [congruence|done|done].
Qed.

Lemma tame_bind0 {A B} k (m : M U A) (f : A -> M U B) :
  tame 0 m -> (forall a, tame k (f a)) -> tame k (py_bind m f).
Proof. apply (tame_bind 0). Qed.

Lemma unpack_u_no_fuel n off bs : unpack_u n off bs <> Raise OutOfFuel.
Proof. unfold unpack_u. by case_decide. Qed.

Lemma tame_dev_read n : tame 0 (dev_read n).
Proof.
  intros u r u' E. unfold dev_read, wire_read in E. unfold pending, stream.
  destruct (w_rx (u_wire u)) as [|b l] eqn:Er; injection E as <- <-; simpl; rewrite ?Er.
  - split_and!; [done|simpl; lia|intros; simpl; lia].
  - split_and!; [done| |intros ? _]; destruct (Nat.leb_spec (length b) n); simpl;
      rewrite !length_app, ?length_drop; lia.
Qed.

Lemma dev_read_takes n u b u' : dev_read n u = (Ok b, u') -> (pending u' + length b <= pending u)%nat.
Proof.
  intros E. unfold dev_read, wire_read in E. unfold pending, stream.
  destruct (w_rx (u_wire u)) as [|c l] eqn:Er; injection E as <- <-; simpl; rewrite ?Er; [simpl; lia|].
  destruct (Nat.leb_spec (length c) n); simpl; rewrite !length_app, ?length_drop, length_take; lia.
Qed.

Lemma dev_read_returns n (u : U) e u' : dev_read n u <> (Raise e, u').
Proof. unfold dev_read. by destruct (wire_read n (u_wire u)). Qed.

Lemma readfull_loop_tame fuel size d u r u' :
  readfull_loop fuel size d u = (r, u') -> (size <= fuel + length d)%nat ->
  r <> Raise OutOfFuel /\ (pending u' <= pending u)%nat /\
  (forall a, r = Ok a -> (size <= length a /\ pending u' + length a <= pending u + length d)%nat).
Proof.
  revert d u. induction fuel as [|k IH]; intros d u E Hf; cbn [readfull_loop] in E;
    destruct (Nat.ltb_spec (length d) size); [lia| | |];
    try (injection E as <- <-; split_and!; [done|lia|]; intros a [= <-]; lia).
  unfold py_bind in E. destruct (dev_read (size - length d) u) as [[b|e] u1] eqn:Er; [|by apply dev_read_returns in Er].
  pose proof (dev_read_takes _ _ _ _ Er). destruct b as [|b0 b].
  - injection E as <- <-. simpl in *. split_and!; [done|lia|done].
  - destruct (IH (d ++ b0 :: b) u1 E) as (Hr & Hp & Ha); [rewrite length_app; simpl; lia|].
    simpl in *. split_and!; [done|lia|]. intros a Ea. destruct (Ha a Ea) as [? Hq].
    rewrite length_app in Hq. simpl in Hq. lia.
Qed.

Lemma tame_readfull n : tame n (readfull n).
Proof.
  intros u r u' E. destruct (readfull_loop_tame _ _ _ _ _ _ E) as (? & ? & Ha); [simpl; lia|].
  split_and!; [done|done|]. intros a Ea. destruct (Ha a Ea) as [? Hq]. simpl in Hq. lia.
Qed.

Lemma tame_unkhandler s : tame 0 (@unkhandler H s).
Proof.
  intros u r u' E. unfold unkhandler in E. destruct (u_tty_enable u);
    [destruct (unk_loop s (u_pted u) (u_tty u)) as [p t]|]; injection E as <- <-;
    (split_and!; [done|done|intros; unfold pending; simpl; apply Nat.eq_le_incl, Nat.add_0_r]).
Qed.

Lemma tame_sync_step c : tame 1 (@sync_step H c).
Proof.
  assert (Hrej : forall x, tame 0 (@unkhandler H x ;;; py_ret (inl x : bytes + bytes))).
  { intros x. apply tame_bind0; [apply tame_unkhandler|intros; apply tame_ret]. }
  assert (Hrest : forall first, tame 1
     (let! b := readfull 1 in
      let reply := first ++ b in
      if negb (bytes_eqb reply [Byte.xff; Byte.x55]) then @unkhandler H reply ;;; py_ret (inl reply) else
      let! b := readfull 1 in
      let reply := reply ++ b in
      if negb (bytes_eqb reply [Byte.xff; Byte.x55; Byte.xaa]) then unkhandler reply ;;; py_ret (inl reply) else
      let! b := readfull 1 in
      py_ret (inr (reply ++ b) : bytes + bytes))).
  { intros first. apply (tame_bind 1 0); [apply tame_readfull|intros b]. cbv zeta.
    destruct (negb _); [apply Hrej|].
    apply (tame_weaken 1 0), (tame_bind 1 0); [lia|apply tame_readfull|intros b'].
    destruct (negb _); [apply Hrej|].
    apply (tame_weaken 1 0), (tame_bind 1 0); [lia|apply tame_readfull|intros b'']. apply tame_ret. }
  unfold sync_step. destruct (ends_ff c).
  - exact (Hrest [Byte.xff]).
  - apply (tame_bind 1 0); [apply tame_readfull|intros first].
    destruct (negb _); [apply Hrej|]. apply (tame_weaken 1 0); [lia|apply Hrest].
Qed.

Variable run_handler : H -> Z -> Z -> Z -> M U unit.
Variable run_evt : H -> bytes -> M U unit.
Hypothesis Hhandler : forall h a b c, tame 0 (run_handler h a b c).
Hypothesis Hevt : forall h d, tame 0 (run_evt h d).

Ltac tame_tac :=
  repeat match goal with
  | |- tame _ (py_bind (readfull ?n) _) =>
      apply tame_bind0; [apply (tame_weaken n 0); [apply Nat.le_0_l|apply tame_readfull]|intros ?]
  | |- tame _ (py_bind _ _) => apply tame_bind0; [|intros ?]
  | |- tame _ (py_lift (unpack_u _ _ _)) => apply tame_lift, unpack_u_no_fuel
  | |- tame _ (py_ret _) => apply tame_ret
  | |- tame _ (py_raise _) => apply tame_raise; discriminate
  | |- tame _ (py_get _) => apply tame_get
  | |- tame _ (if ?b then _ else _) => destruct b
  | |- tame _ (match ?x with _ => _ end) => destruct x
  end.

Lemma tame_handle_boot d : tame 0 (handle_boot run_handler d).
Proof.
  unfold handle_boot. tame_tac; try apply Hhandler; apply tame_lift;
    [unfold START_of|unfold EXC_of|unfold EXC_of]; repeat destruct (_ =? _); try destruct (_ && _)%bool; discriminate.
Qed.

Lemma tame_reply_event hdr : tame 0 (reply_event run_evt hdr).
Proof.
  unfold reply_event. cbv zeta. tame_tac.
  - intros u r u' E. unfold data_checksum in E. injection E as <- <-. split_and!; [done|lia|intros; lia].
  - apply tame_lift. unfold EVENT_of. by destruct (_ || _)%bool.
  - unfold handle_event. tame_tac. apply Hevt.
Qed.

Lemma tame_reply_frame cmd cmdin hdr : tame 0 (reply_frame run_handler cmd cmdin hdr).
Proof. unfold reply_frame. cbv zeta. tame_tac. apply tame_handle_boot. Qed.

Lemma reply_loop_fuel fuel : forall fuel' cmd c u,
  (pending u < fuel)%nat -> (fuel <= fuel')%nat ->
  reply_loop run_handler run_evt fuel' cmd c u = reply_loop run_handler run_evt fuel cmd c u /\
  (reply_loop run_handler run_evt fuel cmd c u).1 <> Raise OutOfFuel.
Proof.
  induction fuel as [|k IH]; intros fuel' cmd c u Hp Hf; [lia|].
  destruct fuel' as [|k']; [lia|]. cbn [reply_loop]. unfold py_bind.
  destruct (sync_step c u) as [r u1] eqn:Es. destruct (tame_sync_step c u r u1 Es) as (Hr & Hp1 & Hk1).
  destruct r as [st|e]; [|split; [done|simpl; congruence]]. specialize (Hk1 st eq_refl).
  destruct st as [carried|hdr]; [apply IH; lia|]. destruct (le_Z hdr =? REQ_EVENT).
  - destruct (reply_event run_evt hdr u1) as [r u2] eqn:Ee.
    destruct (tame_reply_event hdr u1 r u2 Ee) as (Hr2 & Hp2 & _).
    destruct r; [apply IH; lia|split; [done|simpl; congruence]].
  - destruct (reply_frame run_handler cmd (le_Z hdr) hdr u1) as [r u2] eqn:Ee.
    destruct (tame_reply_frame cmd (le_Z hdr) hdr u1 r u2 Ee) as (Hr2 & Hp2 & _).
    destruct r as [[d|]|]; [done|apply IH; lia|split; [done|simpl; congruence]].
Qed.

End Tame.

(** C3: [reply] always ends.  With handlers that end and feed no input back into
    the link, every pass of its [while True] loop takes at least one byte, so more
    fuel than there are pending bytes changes nothing: the loop of the code ends
    with a reply or with an exception (a timeout when the device stays silent). *)
Theorem reply_terminates {H} run_handler run_evt (u : uart H) cmd fuel
    (Hhandler : forall h a b c, tame 0 (run_handler h a b c))
    (Hevt : forall h d, tame 0 (run_evt h d))
    (Hf : (pending u < fuel)%nat) :
  (uart_reply run_handler run_evt fuel cmd u).1 <> Raise OutOfFuel /\
  forall fuel', (fuel <= fuel')%nat ->
    uart_reply run_handler run_evt fuel' cmd u = uart_reply run_handler run_evt fuel cmd u.
Proof.
  split.
  - apply (reply_loop_fuel run_handler run_evt Hhandler Hevt fuel fuel cmd [] u); lia.
  - intros fuel' Hf'. by apply (reply_loop_fuel run_handler run_evt Hhandler Hevt fuel fuel' cmd [] u).
Qed.

Lemma reply_terminates_witness :
  let u := demo_wire [[Byte.xff; Byte.xff]; [Byte.x41]] in
  (uart_reply (fun _ _ _ _ => py_ret tt) (fun _ _ => py_ret tt) 4 REQ_NOP u).1 = Raise UartTimeout /\
  (uart_reply (fun _ _ _ _ => py_ret tt) (fun _ _ => py_ret tt) 4 REQ_NOP u).1 <> Raise OutOfFuel /\
  forall fuel', (4 <= fuel')%nat ->
    uart_reply (fun _ _ _ _ => py_ret tt) (fun _ _ => py_ret tt) fuel' REQ_NOP u =
    uart_reply (fun _ _ _ _ => py_ret tt) (fun _ _ => py_ret tt) 4 REQ_NOP u.
Proof.
  intros u. split; [reflexivity|].
  apply (reply_terminates (fun _ _ _ _ => py_ret tt) (fun _ _ => py_ret tt) u REQ_NOP 4).
  - intros. apply tame_ret.
  - intros. apply tame_ret.
  - vm_compute. lia.
Defined.

(** ** Memory transfers *)

Section Transfers.
Context {H : Type}.
Abbreviation U := (uart H).
Variable run_handler : H -> Z -> Z -> Z -> M U unit.
Variable run_evt : H -> bytes -> M U unit.

(** A command as it goes over the wire. *)
Definition command_frame (cmd : Z) (payload : bytes) : bytes :=
  let c := le_bytes 4 cmd ++ ljust CMD_LEN payload in
  c ++ le_bytes 4 (uart_checksum c).

Definition sent (d : bytes) (u : U) : U := set_wire (wire_write d (u_wire u)) u.

Lemma uart_cmd_ok cmd payload (u : U) :
  0 <= cmd < 2 ^ 32 -> (length payload <= CMD_LEN)%nat ->
  uart_cmd cmd payload u = (Ok tt, sent (command_frame cmd payload) u).
Proof.
  intros Hc Hp. unfold uart_cmd. destruct (Nat.ltb_spec CMD_LEN (length payload)); [lia|].
  unfold pack_I. rewrite (pack_u_ok 4) by done. unfold py_bind, py_lift.
  rewrite (pack_u_ok 4) by apply uart_checksum_range. done.
Qed.

Lemma uart_cmd_too_long cmd payload (u : U) :
  (CMD_LEN < length payload)%nat -> uart_cmd cmd payload u = (Raise (ValueError "Incorrect payload size"), u).
Proof. intros Hp. unfold uart_cmd. by rewrite (proj2 (Nat.ltb_lt _ _) Hp). Qed.

Lemma req_code_MEMREAD : req_code REQ_MEMREAD Byte.x02.
Proof. by split. Qed.
Lemma req_code_MEMWRITE : req_code REQ_MEMWRITE Byte.x03.
Proof. by split. Qed.
Lemma req_code_PROXY : req_code REQ_PROXY Byte.x01.
Proof. by split. Qed.

Lemma sent_stream d u : stream (sent d u) = stream u.
Proof. done. Qed.
Lemma sent_ok d u : no_timeout u -> no_timeout (sent d u).
Proof. done. Qed.

Lemma pack_Q_ok z : 0 <= z < 2 ^ 64 -> pack_Q z = Ok (le_bytes 8 z).
Proof. intros. by apply (pack_u_ok 8). Qed.
Lemma pack_I_ok z : 0 <= z < 2 ^ 32 -> pack_I z = Ok (le_bytes 4 z).
Proof. intros. by apply (pack_u_ok 4). Qed.

Lemma unpack_I_ok z : 0 <= z < 2 ^ 32 -> unpack_u 4 0 (le_bytes 4 z) = Ok z.
Proof. intros Hz. rewrite <- (app_nil_r (le_bytes 4 z)). by apply (unpack_u_le_bytes 4 0 []). Qed.

Definition no_data_csums (u : U) : bool := negb (Z.land (u_features u) DISABLE_DATA_CSUMS =? 0).

Definition data_sum (u : U) (data : bytes) : Z :=
  if no_data_csums u then CHECKSUM_SENTINEL else uart_checksum data.

Lemma data_sum_range u data : 0 <= data_sum u data < 2 ^ 32.
Proof. unfold data_sum. destruct (no_data_csums u); [done|apply uart_checksum_range]. Qed.

Lemma write_chunks_spec fuel : forall data (u : U), (length data <= fuel)%nat ->
  exists u' blocks, write_chunks fuel data u = (Ok tt, u') /\
    w_tx (u_wire u') = w_tx (u_wire u) ++ blocks /\ concat blocks = data /\
    Forall (fun b => 0 < zlen b <= 8192) blocks /\
    stream u' = stream u /\ (no_timeout u -> no_timeout u') /\ u_features u' = u_features u.
Proof.
  induction fuel as [|k IH]; intros data u Hl.
  { destruct data; [|simpl in Hl; lia]. exists u, []. rewrite app_nil_r. split_and!; done. }
  destruct data as [|x data]; [exists u, []; rewrite app_nil_r; split_and!; done|].
  set (d := x :: data) in *.
  assert (Hc : Z.of_nat WRITE_CHUNK = 8192) by (by vm_compute).
  destruct (IH (drop WRITE_CHUNK d) (sent (take WRITE_CHUNK d) u)) as (u' & bl & E & Htx & Hd & Hb & Hs & Ht & Hf).
  { rewrite length_drop. unfold d in *. cbn [length] in *. lia. }
  exists u', (take WRITE_CHUNK d :: bl). split_and!; [exact E| | | |done|auto|done].
  - rewrite Htx. cbn [sent set_wire wire_write w_tx u_wire]. by rewrite <- app_assoc.
  - cbn [concat]. by rewrite Hd, take_drop.
  - constructor; [|done]. unfold zlen. rewrite length_take. unfold d. cbn [length]. lia.
Qed.

Lemma advanced_sent_tx d u s u' :
  advanced (sent d u) s u' -> w_tx (u_wire u') = w_tx (u_wire u) ++ [d] /\ u_features u' = u_features u.
Proof. intros []. done. Qed.

(** The whole of [readmem], once the reply and the data have come: [sum] is the
    checksum announced, [e] the sentinel that follows when checksums are off. *)
Lemma readmem_exchange fuel u addr got noise sum pad e rest :
  0 <= addr < 2 ^ 64 -> 0 < zlen got < 2 ^ 64 -> 0 <= sum < 2 ^ 32 -> 0 <= e < 2 ^ 32 -> length pad = 20%nat ->
  no_mark noise -> no_timeout u -> (length noise < fuel)%nat ->
  stream u = noise ++ encode_reply REQ_MEMREAD (0 mod 2 ^ 32) (le_bytes 4 sum ++ pad) ++
             got ++ (if no_data_csums u then le_bytes 4 e else []) ++ rest ->
  exists u', uart_readmem run_handler run_evt fuel addr (zlen got) u =
      (if (sum =? data_sum u got) && (negb (no_data_csums u) || (e =? DATA_END_SENTINEL))
       then Ok got else Raise UartChecksumError, u') /\
    w_tx (u_wire u') = w_tx (u_wire u) ++ [command_frame REQ_MEMREAD (le_bytes 8 addr ++ le_bytes 8 (zlen got))] /\
    (sum = data_sum u got -> stream u' = rest).
Proof.
  intros Ha Hg Hsum He Hpad Hm Hok Hf Hs. unfold uart_readmem.
  rewrite (proj2 (Z.eqb_neq _ _)) by lia. rewrite !pack_Q_ok by lia.
  set (cf := command_frame REQ_MEMREAD (le_bytes 8 addr ++ le_bytes 8 (zlen got))).
  unfold py_lift at 1 2, py_bind at 1 2.
  assert (Hp : (length (le_bytes 8 addr ++ le_bytes 8 (zlen got)) <= CMD_LEN)%nat)
    by (rewrite length_app, !length_le_bytes; unfold CMD_LEN; lia).
  rewrite (py_bind_ok _ _ _ _ _ (uart_cmd_ok REQ_MEMREAD _ u ltac:(done) Hp)). fold cf.
  destruct (uart_reply_frame run_handler run_evt (sent cf u) fuel REQ_MEMREAD Byte.x02 noise 0 (le_bytes 4 sum ++ pad)
    _ req_code_MEMREAD ltac:(done) ltac:(by rewrite length_app, length_le_bytes, Hpad) ltac:(lia) Hm
    (sent_ok _ _ Hok) Hf Hs) as (u1 & Hr1 & Ha1).
  rewrite (py_bind_ok _ _ _ _ _ Hr1), take_app_length' by (by rewrite length_le_bytes).
  rewrite unpack_I_ok by done.
  unfold py_lift at 1, py_bind at 1.
  destruct (readfull_ok u1 got _ (Z.to_nat (zlen got)) (adv_ok _ _ _ Ha1) (adv_stream _ _ _ Ha1)
    ltac:(unfold zlen; lia)) as (u2 & Hr2 & Ha2).
  rewrite (py_bind_ok _ _ _ _ _ Hr2).
  pose proof (advanced_trans _ _ _ _ _ Ha1 Ha2) as Ha3. destruct (advanced_sent_tx _ _ _ _ Ha3) as [Htx Hft].
  unfold data_checksum at 1, py_bind at 1. rewrite Hft. fold (no_data_csums u). fold (data_sum u got).
  destruct (Z.eqb_spec sum (data_sum u got)) as [Es|Es]; cbn [negb andb].
  2:{ exists u2. split_and!; [done|done|done]. }
  unfold py_get at 1, py_bind at 1. rewrite Hft. fold (no_data_csums u).
  destruct (no_data_csums u) eqn:En; cbn [negb orb].
  - destruct (readfull_ok u2 (le_bytes 4 e) rest 4 (adv_ok _ _ _ Ha3) (adv_stream _ _ _ Ha3) (length_le_bytes 4 e))
      as (u3 & Hr3 & Ha4).
    destruct (advanced_sent_tx _ _ _ _ (advanced_trans _ _ _ _ _ Ha3 Ha4)) as [Htx4 _].
    rewrite (py_bind_ok _ _ _ _ _ Hr3). rewrite unpack_I_ok by done.
    unfold py_lift, py_bind. exists u3. split_and!; [by destruct (e =? DATA_END_SENTINEL)|done|].
    intros _. apply Ha4.
  - exists u2. split_and!; [done|done|]. intros _. apply Ha3.
Qed.

Lemma write_data_ok data (u : U) :
  exists u' blocks, (write_chunks (length data) data ;;;
      let! features := py_get u_features in
      if negb (Z.land features DISABLE_DATA_CSUMS =? 0)
      then let! e := py_lift (pack_I DATA_END_SENTINEL) in dev_write e
      else py_ret tt) u = (Ok tt, u') /\
    w_tx (u_wire u') = w_tx (u_wire u) ++ blocks /\
    concat blocks = data ++ (if no_data_csums u then le_bytes 4 DATA_END_SENTINEL else []) /\
    Forall (fun b => 0 < zlen b <= 8192) blocks /\
    stream u' = stream u /\ (no_timeout u -> no_timeout u').
Proof.
  destruct (write_chunks_spec (length data) data u ltac:(lia)) as (u1 & bl & E & Htx & Hd & Hb & Hs & Ht & Hf).
  rewrite (py_bind_ok _ _ _ _ _ E). unfold py_get at 1, py_bind at 1. rewrite Hf. fold (no_data_csums u).
  destruct (no_data_csums u); [|exists u1, bl; rewrite app_nil_r; by split_and!].
  rewrite pack_I_ok by done. unfold py_lift, py_bind, dev_write.
  eexists _, (bl ++ [le_bytes 4 DATA_END_SENTINEL]). split_and!; [done| | | |done|done].
  - cbn [set_wire wire_write w_tx u_wire]. by rewrite Htx, <- app_assoc.
  - by rewrite concat_app, Hd.
  - apply Forall_app. split; [done|]. by repeat constructor.
Qed.

End Transfers.

(** [readmem] sends one command frame with the address and the length and
    returns the data exactly when the checksum the target announced matches it
    (data checksums on), or when the fixed sentinels stand before and after it
    (checksums disabled by [nop]'s feature negotiation); otherwise it raises
    [UartChecksumError].  It never returns bytes that were not received, and a
    good transfer leaves the stream at its end. *)
Theorem readmem_verified {H} run_handler run_evt (u : uart H) fuel addr got noise sum pad e rest
    (Haddr : 0 <= addr < 2 ^ 64) (Hlen : 0 < zlen got < 2 ^ 64)
    (Hsum : 0 <= sum < 2 ^ 32) (He : 0 <= e < 2 ^ 32) (Hpad : length pad = 20%nat)
    (Hm : no_mark noise) (Hok : no_timeout u) (Hf : (length noise < fuel)%nat)
    (Hs : stream u = noise ++ encode_reply REQ_MEMREAD (0 mod 2 ^ 32) (le_bytes 4 sum ++ pad) ++
                     got ++ (if no_data_csums u then le_bytes 4 e else []) ++ rest) :
  exists u', uart_readmem run_handler run_evt fuel addr (zlen got) u =
      (if (sum =? data_sum u got) && (negb (no_data_csums u) || (e =? DATA_END_SENTINEL))
       then Ok got else Raise UartChecksumError, u') /\
    w_tx (u_wire u') = w_tx (u_wire u) ++ [command_frame REQ_MEMREAD (le_bytes 8 addr ++ le_bytes 8 (zlen got))] /\
    (sum = data_sum u got -> stream u' = rest).
Proof. by apply (readmem_exchange run_handler run_evt fuel u addr got noise sum pad e rest). Qed.

Lemma readmem_verified_witness :
  let got := [Byte.x10; Byte.x20; Byte.x30] in
  let u := demo_wire [encode_reply REQ_MEMREAD 0 (le_bytes 4 (uart_checksum got) ++ replicate 20 Byte.x00);
                      got ++ [Byte.x77]] in
  exists u', uart_readmem (fun _ _ _ _ => py_ret tt) (fun _ _ => py_ret tt) 3 0x8000 3 u = (Ok got, u') /\
    w_tx (u_wire u') = [command_frame REQ_MEMREAD (le_bytes 8 0x8000 ++ le_bytes 8 3)] /\
    (uart_checksum got = data_sum u got -> stream u' = [Byte.x77]).
Proof.
  intros got u.
  apply (readmem_verified (fun _ _ _ _ => py_ret tt) (fun _ _ => py_ret tt) u 3 0x8000 got []
           (uart_checksum got) (replicate 20 Byte.x00) 0 [Byte.x77]).
  - lia.
  - vm_compute. split; reflexivity.
  - apply uart_checksum_range.
  - lia.
  - reflexivity.
  - intros i Hi. simpl in Hi. lia.
  - unfold no_timeout. vm_compute. repeat constructor; discriminate.
  - simpl. lia.
  - vm_compute. reflexivity.
Defined.

(** With data checksums on, [readmem] never returns data in which one byte was
    corrupted on the way: when the target announced the checksum of [good] and
    one byte of it arrives changed, the call raises [UartChecksumError]. *)
Theorem readmem_detects_corruption {H} run_handler run_evt (u : uart H) fuel addr good i x noise pad rest
    (Haddr : 0 <= addr < 2 ^ 64) (Hlen : zlen good < 2 ^ 64)
    (Hi : (i < length good)%nat) (Hx : good !! i <> Some x) (Hpad : length pad = 20%nat)
    (Hon : no_data_csums u = false)
    (Hm : no_mark noise) (Hok : no_timeout u) (Hf : (length noise < fuel)%nat)
    (Hs : stream u = noise ++ encode_reply REQ_MEMREAD 0 (le_bytes 4 (uart_checksum good) ++ pad) ++
                     <[i := x]> good ++ rest) :
  (uart_readmem run_handler run_evt fuel addr (zlen good) u).1 = Raise UartChecksumError.
Proof.
  assert (Hz : zlen (<[i := x]> good) = zlen good) by (unfold zlen; by rewrite length_insert).
  destruct (readmem_exchange run_handler run_evt fuel u addr (<[i := x]> good) noise (uart_checksum good) pad 0 rest)
    as (u' & E & _); try done; try (rewrite Hz; unfold zlen in *; lia); [apply uart_checksum_range| |].
  { by rewrite Hon. }
  rewrite <- Hz, E. cbn [fst]. unfold data_sum. rewrite Hon.
  destruct (Z.eqb_spec (uart_checksum good) (uart_checksum (<[i := x]> good))) as [Ec|]; [|done].
  destruct (lookup_lt_is_Some_2 good i Hi) as [y Hy].
  rewrite insert_take_drop in Ec by done. rewrite <- (take_drop_middle good i y Hy) in Ec at 1.
  apply uart_checksum_byte_inj in Ec. congruence.
Qed.

Lemma readmem_detects_corruption_witness :
  let good := [Byte.x10; Byte.x20; Byte.x30] in
  let u := demo_wire [encode_reply REQ_MEMREAD 0 (le_bytes 4 (uart_checksum good) ++ replicate 20 Byte.x00);
                      [Byte.x10; Byte.x21; Byte.x30]] in
  (uart_readmem (fun _ _ _ _ => py_ret tt) (fun _ _ => py_ret tt) 3 0x8000 3 u).1 = Raise UartChecksumError.
Proof.
  intros good u.
  apply (readmem_detects_corruption (fun _ _ _ _ => py_ret tt) (fun _ _ => py_ret tt) u 3 0x8000 good 1 Byte.x21 []
           (replicate 20 Byte.x00) []).
  - lia.
  - vm_compute. reflexivity.
  - simpl. lia.
  - discriminate.
  - reflexivity.
  - reflexivity.
  - intros i Hi. simpl in Hi. lia.
  - unfold no_timeout. vm_compute. repeat constructor; discriminate.
  - simpl. lia.
  - vm_compute. reflexivity.
Defined.

(** [writemem] puts on the wire exactly one command frame (address, length,
    checksum or checksum sentinel), then the data unchanged in blocks of at most
    8192 bytes, then the end sentinel when data checksums are off; then it
    reports the target's verdict: it returns on status 0 and raises
    [UartRemoteError] with any other status. *)
Theorem writemem_verified {H} run_handler run_evt (u : uart H) fuel addr data noise status pad rest
    (Haddr : 0 <= addr < 2 ^ 64) (Hlen : zlen data < 2 ^ 64) (Hst : - 2 ^ 31 <= status < 2 ^ 31)
    (Hpad : length pad = 24%nat)
    (Hm : no_mark noise) (Hok : no_timeout u) (Hf : (length noise < fuel)%nat)
    (Hs : stream u = noise ++ encode_reply REQ_MEMWRITE (status mod 2 ^ 32) pad ++ rest) :
  exists u' blocks, uart_writemem run_handler run_evt fuel addr data u =
      (if status =? 0 then Ok tt else Raise (UartRemoteError status), u') /\
    stream u' = rest /\
    w_tx (u_wire u') = w_tx (u_wire u) ++
      command_frame REQ_MEMWRITE (le_bytes 8 addr ++ le_bytes 8 (zlen data) ++ le_bytes 4 (data_sum u data)) :: blocks /\
    concat blocks = data ++ (if no_data_csums u then le_bytes 4 DATA_END_SENTINEL else []) /\
    Forall (fun b => 0 < zlen b <= 8192) blocks.
Proof.
  unfold uart_writemem. unfold data_checksum at 1, py_bind at 1. fold (no_data_csums u). fold (data_sum u data).
  pose proof (zlen_nonneg data). rewrite !pack_Q_ok, pack_I_ok by (try apply data_sum_range; lia).
  unfold py_lift at 1 2 3, py_bind at 1 2 3.
  set (pl := le_bytes 8 addr ++ le_bytes 8 (zlen data) ++ le_bytes 4 (data_sum u data)).
  assert (Hp : (length pl <= CMD_LEN)%nat)
    by (unfold pl; rewrite !length_app, !length_le_bytes; unfold CMD_LEN; lia).
  rewrite (py_bind_ok _ _ _ _ _ (uart_cmd_ok REQ_MEMWRITE pl u ltac:(done) Hp)).
  destruct (write_data_ok data (sent (command_frame REQ_MEMWRITE pl) u)) as (u1 & bl & E & Htx & Hd & Hb & Hst1 & Ht1).
  destruct (uart_reply_frame run_handler run_evt u1 fuel REQ_MEMWRITE Byte.x03 noise status pad rest
    req_code_MEMWRITE ltac:(done) Hpad Hst Hm (Ht1 Hok) Hf ltac:(rewrite Hst1; exact Hs)) as (u2 & Hr2 & Ha2).
  unfold py_bind in E |- *. destruct (write_chunks _ _ _) as [[[]|?] u0]; [|discriminate E].
  simpl in E |- *. rewrite E, Hr2. exists u2, bl. rewrite (adv_stream _ _ _ Ha2), (adv_tx _ _ _ Ha2), Htx.
  split_and!; [by destruct (status =? 0)|done|by simpl; rewrite <- app_assoc|done|done].
Qed.

Lemma writemem_verified_witness :
  let data := [Byte.x10; Byte.x20; Byte.x30] in
  let u := demo_wire [encode_reply REQ_MEMWRITE (-4 mod 2 ^ 32) (replicate 24 Byte.x00)] in
  exists u' blocks, uart_writemem (fun _ _ _ _ => py_ret tt) (fun _ _ => py_ret tt) 3 0x8000 data u =
      (Raise (UartRemoteError (-4)), u') /\
    stream u' = [] /\
    w_tx (u_wire u') =
      command_frame REQ_MEMWRITE (le_bytes 8 0x8000 ++ le_bytes 8 3 ++ le_bytes 4 (data_sum u data)) :: blocks /\
    concat blocks = data /\ Forall (fun b => 0 < zlen b <= 8192) blocks.
Proof.
  intros data u.
  apply (writemem_verified (fun _ _ _ _ => py_ret tt) (fun _ _ => py_ret tt) u 3 0x8000 data [] (-4)
           (replicate 24 Byte.x00) []).
  - lia.
  - vm_compute. reflexivity.
  - lia.
  - reflexivity.
  - intros i Hi. simpl in Hi. lia.
  - unfold no_timeout. vm_compute. repeat constructor; discriminate.
  - simpl. lia.
  - vm_compute. reflexivity.
Defined.

(** After a reconnection [wait_boot] returns no boot message and
    [wait_and_handle_boot] raises [TypeError]: the boot handlers are not run. *)
Lemma wait_and_handle_boot_after_reconnect :
  let u := demo_wire [] in
  (wait_boot (fun _ _ _ _ => py_ret tt) (fun _ _ => py_ret tt) (fun _ w => Some w) 9 u).1 = Ok None /\
  (wait_and_handle_boot (fun _ _ _ _ => py_ret tt) (fun _ _ => py_ret tt) (fun _ w => Some w) 9 u).1
  = Raise (TypeError "'NoneType' object is not subscriptable").
Proof. by vm_compute. Qed.
