(* ===== verification/ProxyApi.v ===== *)
(** * proxyclient/m1n1/proxy.py: [M1N1Proxy], the remote calls

    The client of the framed link.  It sees the link through the interface
    [ProxyIface] (the methods of [UartInterface] it calls) and the host-side
    allocator through [Malloc]; [UartIface] is the interface the framed link of
    [Uart] provides.  Every remote call of the source is one definition; keyword
    arguments are the [opts] record, a Python argument is a [parg]. *)

From S2P Require Import Prelude Bytes Malloc Uart.
From Stdlib Require Import ZArith Lia.
From Stdlib Require Import Strings.Byte Strings.String.
From stdpp Require Import base list numbers strings gmap.

Local Open Scope Z_scope.

(** ** Opcodes *)
Definition S_OK := 0.
Definition S_BADCMD := -1.
Definition P_NOP := 0x000.
Definition P_EXIT := 0x001.
Definition P_CALL := 0x002.
Definition P_GET_BOOTARGS := 0x003.
Definition P_GET_BASE := 0x004.
Definition P_SET_BAUD := 0x005.
Definition P_UDELAY := 0x006.
Definition P_SET_EXC_GUARD := 0x007.
Definition P_GET_EXC_COUNT := 0x008.
Definition P_EL0_CALL := 0x009.
Definition P_EL1_CALL := 0x00a.
Definition P_VECTOR := 0x00b.
Definition P_GL1_CALL := 0x00c.
Definition P_GL2_CALL := 0x00d.
Definition P_GET_SIMD_STATE := 0x00e.
Definition P_PUT_SIMD_STATE := 0x00f.
Definition P_REBOOT := 0x010.
Definition P_SLEEP := 0x011.
Definition P_EL3_CALL := 0x012.
Definition P_GET_CHIPID := 0x013.
Definition P_GET_CPU_FEATURES := 0x014.
Definition P_WRITE64 := 0x100.
Definition P_WRITE32 := 0x101.
Definition P_WRITE16 := 0x102.
Definition P_WRITE8 := 0x103.
Definition P_READ64 := 0x104.
Definition P_READ32 := 0x105.
Definition P_READ16 := 0x106.
Definition P_READ8 := 0x107.
Definition P_SET64 := 0x108.
Definition P_SET32 := 0x109.
Definition P_SET16 := 0x10a.
Definition P_SET8 := 0x10b.
Definition P_CLEAR64 := 0x10c.
Definition P_CLEAR32 := 0x10d.
Definition P_CLEAR16 := 0x10e.
Definition P_CLEAR8 := 0x10f.
Definition P_MASK64 := 0x110.
Definition P_MASK32 := 0x111.
Definition P_MASK16 := 0x112.
Definition P_MASK8 := 0x113.
Definition P_WRITEREAD64 := 0x114.
Definition P_WRITEREAD32 := 0x115.
Definition P_WRITEREAD16 := 0x116.
Definition P_WRITEREAD8 := 0x117.
Definition P_MEMCPY64 := 0x200.
Definition P_MEMCPY32 := 0x201.
Definition P_MEMCPY16 := 0x202.
Definition P_MEMCPY8 := 0x203.
Definition P_MEMSET64 := 0x204.
Definition P_MEMSET32 := 0x205.
Definition P_MEMSET16 := 0x206.
Definition P_MEMSET8 := 0x207.
Definition P_IC_IALLUIS := 0x300.
Definition P_IC_IALLU := 0x301.
Definition P_IC_IVAU := 0x302.
Definition P_DC_IVAC := 0x303.
Definition P_DC_ISW := 0x304.
Definition P_DC_CSW := 0x305.
Definition P_DC_CISW := 0x306.
Definition P_DC_ZVA := 0x307.
Definition P_DC_CVAC := 0x308.
Definition P_DC_CVAU := 0x309.
Definition P_DC_CIVAC := 0x30a.
Definition P_MMU_SHUTDOWN := 0x30b.
Definition P_MMU_INIT := 0x30c.
Definition P_MMU_DISABLE := 0x30d.
Definition P_MMU_RESTORE := 0x30e.
Definition P_MMU_INIT_SECONDARY := 0x30f.
Definition P_XZDEC := 0x400.
Definition P_GZDEC := 0x401.
Definition P_SMP_START_SECONDARIES := 0x500.
Definition P_SMP_CALL := 0x501.
Definition P_SMP_CALL_SYNC := 0x502.
Definition P_SMP_WAIT := 0x503.
Definition P_SMP_SET_WFE_MODE := 0x504.
Definition P_SMP_IS_ALIVE := 0x505.
Definition P_SMP_STOP_SECONDARIES := 0x506.
Definition P_SMP_CALL_EL1 := 0x507.
Definition P_SMP_CALL_SYNC_EL1 := 0x508.
Definition P_SMP_CALL_EL0 := 0x509.
Definition P_SMP_CALL_SYNC_EL0 := 0x50a.
Definition P_HEAPBLOCK_ALLOC := 0x600.
Definition P_MALLOC := 0x601.
Definition P_MEMALIGN := 0x602.
Definition P_FREE := 0x603.
Definition P_HEAPBLOCK_SET_LIMIT := 0x604.
Definition P_KBOOT_BOOT := 0x700.
Definition P_KBOOT_SET_CHOSEN := 0x701.
Definition P_KBOOT_SET_INITRD := 0x702.
Definition P_KBOOT_PREPARE_DT := 0x703.
Definition P_KBOOT_SET_UBOOT := 0x704.
Definition P_PMGR_POWER_ENABLE := 0x800.
Definition P_PMGR_POWER_DISABLE := 0x801.
Definition P_PMGR_ADT_POWER_ENABLE := 0x802.
Definition P_PMGR_ADT_POWER_DISABLE := 0x803.
Definition P_PMGR_RESET := 0x804.
Definition P_IODEV_SET_USAGE := 0x900.
Definition P_IODEV_CAN_READ := 0x901.
Definition P_IODEV_CAN_WRITE := 0x902.
Definition P_IODEV_READ := 0x903.
Definition P_IODEV_WRITE := 0x904.
Definition P_IODEV_WHOAMI := 0x905.
Definition P_USB_IODEV_VUART_SETUP := 0x906.
Definition P_TUNABLES_APPLY_GLOBAL := 0xa00.
Definition P_TUNABLES_APPLY_LOCAL := 0xa01.
Definition P_DART_INIT := 0xb00.
Definition P_DART_SHUTDOWN := 0xb01.
Definition P_DART_MAP := 0xb02.
Definition P_DART_UNMAP := 0xb03.
Definition P_HV_INIT := 0xc00.
Definition P_HV_MAP := 0xc01.
Definition P_HV_START := 0xc02.
Definition P_HV_TRANSLATE := 0xc03.
Definition P_HV_PT_WALK := 0xc04.
Definition P_HV_MAP_VUART := 0xc05.
Definition P_HV_TRACE_IRQ := 0xc06.
Definition P_HV_WDT_START := 0xc07.
Definition P_HV_START_SECONDARY := 0xc08.
Definition P_HV_SWITCH_CPU := 0xc09.
Definition P_HV_SET_TIME_STEALING := 0xc0a.
Definition P_HV_PIN_CPU := 0xc0b.
Definition P_HV_WRITE_HCR := 0xc0c.
Definition P_HV_MAP_VIRTIO := 0xc0d.
Definition P_VIRTIO_PUT_BUFFER := 0xc0e.
Definition P_HV_EXIT_CPU := 0xc0f.
Definition P_HV_ADD_TIME := 0xc10.
Definition P_FB_INIT := 0xd00.
Definition P_FB_SHUTDOWN := 0xd01.
Definition P_FB_BLIT := 0xd02.
Definition P_FB_UNBLIT := 0xd03.
Definition P_FB_FILL := 0xd04.
Definition P_FB_CLEAR := 0xd05.
Definition P_FB_DISPLAY_LOGO := 0xd06.
Definition P_FB_RESTORE_LOGO := 0xd07.
Definition P_FB_IMPROVE_LOGO := 0xd08.
Definition P_PCIE_INIT := 0xe00.
Definition P_PCIE_SHUTDOWN := 0xe01.
Definition P_NVME_INIT := 0xf00.
Definition P_NVME_SHUTDOWN := 0xf01.
Definition P_NVME_READ := 0xf02.
Definition P_NVME_FLUSH := 0xf03.
Definition P_MCC_GET_CARVEOUTS := 0x1000.
Definition P_DISPLAY_INIT := 0x1100.
Definition P_DISPLAY_CONFIGURE := 0x1101.
Definition P_DISPLAY_SHUTDOWN := 0x1102.
Definition P_DISPLAY_START_DCP := 0x1103.
Definition P_DISPLAY_IS_EXTERNAL := 0x1104.
Definition P_DAPF_INIT_ALL := 0x1200.
Definition P_DAPF_INIT := 0x1201.
Definition P_CPUFREQ_INIT := 0x1300.
Definition P_READ_GIGALOCKER := 0x1400.
Definition P_FREE_GIGALOCKER := 0x1401.

(** [IODEV], [USAGE], [GUARD], [DART], [PIX_FMT] and the other enumerations are
    integers on the wire; [IODEV] is also built from a reply. *)
Definition IODEV_of (v : Z) : result Z :=
  if (0 <=? v) && (v <=? 11) then Ok v else Raise (ValueError "not a valid IODEV").
Definition DART_T8020 := 0.
Definition PIX_FMT_XRGB := 0.
Definition USAGE_CONSOLE := Z.shiftl 1 0.
Definition USAGE_UARTPROXY := Z.shiftl 1 1.
Definition GUARD_OFF := 0.
Definition GUARD_SKIP := 1.
Definition GUARD_MARK := 2.
Definition GUARD_RETURN := 3.
Definition GUARD_SILENT := 0x100.
Definition REGION_RWX_EL0 := 0x80000000000.
Definition REGION_RW_EL0 := 0xa0000000000.
Definition REGION_RX_EL1 := 0xc0000000000.

(** ** [CPUFeatures], the structure [get_cpu_features] reads *)
Record CPUFeatures := {
  sleep_mode : Z;
  uncore_version : Z;
  cpu_flags : list bool;   (* disable_dc_mva .. counter_redirect, in order *)
  cpu_padding : bytes
}.
Definition CPUFeatures_sizeof : Z := 4 + 4 + 11 + 1.

Definition bool_of (b : byte) : bool := Z.odd (byte_to_Z b).

Definition CPUFeatures_parse (d : bytes) : result CPUFeatures :=
  let? sm := unpack_u 4 0 d in
  let? uv := unpack_u 4 4 d in
  if zlen d <? CPUFeatures_sizeof then Raise StructError else
  Ok {| sleep_mode := sm; uncore_version := uv;
        cpu_flags := map bool_of (slice 8 19 d); cpu_padding := slice 19 20 d |}.

(** ** What the proxy uses of its [iface] *)
Class ProxyIface (I : Type) := {
  iface_proxyreq : bytes -> bool -> bool -> option (M I unit) -> M I (option bytes);
  iface_writemem : Z -> bytes -> M I unit;
  iface_readmem : Z -> Z -> M I bytes;
  iface_wait_boot : M I (option bytes);
  iface_set_tty_enable : bool -> M I unit;
  iface_set_baudrate : Z -> M I unit
}.

(** A Python argument of a remote call; a [str] is given by its UTF-8 bytes. *)
Inductive parg :=
| AInt (z : Z)
| ABytes (b : bytes)
| AStr (s : string)
| ANone.

Definition py_truth (a : parg) : bool :=
  match a with
  | AInt z => negb (z =? 0)
  | ABytes b => negb (Nat.eqb (length b) 0)
  | AStr s => negb (String.eqb s "")
  | ANone => false
  end.

Section M1N1Proxy.
Context {I : Type} `{!ProxyIface I}.

Record proxy := Proxy { px_iface : I; px_heap : option heap }.
Abbreviation P := proxy.
Abbreviation retval := (option Z).

Definition proxy_init (i : I) : proxy := {| px_iface := i; px_heap := None |}.

Definition on_iface {A} (m : M I A) : M P A := fun p =>
  let '(r, i) := m (px_iface p) in (r, {| px_iface := i; px_heap := px_heap p |}).

(** A call on [self.heap]; [None] has no methods. *)
Definition on_heap {A} (m : M heap A) : M P A := fun p =>
  match px_heap p with
  | Some h => let '(r, h') := m h in (r, {| px_iface := px_iface p; px_heap := Some h' |})
  | None => (Raise (TypeError "heap is None"), p)
  end.

(** Keyword arguments of [request]. *)
Record opts := Opts {
  o_reboot : bool;
  o_signed : bool;
  o_no_reply : bool;
  o_pre_reply : option (M I unit)
}.
Definition no_opts := {| o_reboot := false; o_signed := false; o_no_reply := false; o_pre_reply := None |}.
Definition opt_reboot (b : bool) := {| o_reboot := b; o_signed := false; o_no_reply := false; o_pre_reply := None |}.
Definition opt_signed := {| o_reboot := false; o_signed := true; o_no_reply := false; o_pre_reply := None |}.
Definition opt_no_reply := {| o_reboot := false; o_signed := false; o_no_reply := true; o_pre_reply := None |}.
Definition opt_pre_reply (f : M I unit) :=
  {| o_reboot := false; o_signed := false; o_no_reply := false; o_pre_reply := Some f |}.

(** [struct.unpack("<Qq" + ret_fmt, reply)]. *)
Definition unpack_reply (signed : bool) (reply : bytes) : result (Z * Z * Z) :=
  if negb (Nat.eqb (length reply) 24) then Raise StructError else
  let? rop := unpack_u 8 0 reply in
  let? status := unpack_u 8 8 reply in
  let? ret := unpack_u 8 16 reply in
  Ok (rop, to_signed 8 status, if signed then to_signed 8 ret else ret).

(** [_request]: the reply callback it is given is not passed on. *)
Definition raw_request (o : opts) (opcode : Z) (args : list Z) : M P retval :=
  if Nat.ltb 6 (length args) then py_raise (ValueError "Too many arguments") else
  let args := args ++ replicate (6 - length args) 0 in
  let! req := py_lift (pack_Qs (opcode :: args)) in
  let! reply := on_iface (iface_proxyreq req (o_reboot o) (o_no_reply o) None) in
  if o_no_reply o then py_ret None else
  match reply with
  | None => if o_reboot o then py_ret None else py_raise (TypeError "a bytes-like object is required")
  | Some reply =>
      let! '(rop, status, ret) := py_lift (unpack_reply (o_signed o) reply) in
      if o_reboot o then py_ret None
      else if negb (rop =? opcode) then py_raise ProxyReplyError
      else if negb (status =? S_OK) then
        if status =? S_BADCMD then py_raise ProxyCommandError else py_raise (ProxyRemoteError status)
      else py_ret (Some ret)
  end.

(** An argument that is not a buffer: [if arg < 0: arg &= (1 << 64) - 1]. *)
Definition int_arg (a : parg) : result Z :=
  match a with
  | AInt z => Ok (if z <? 0 then Z.land z (Z.shiftl 1 64 - 1) else z)
  | _ => Raise (TypeError "'<' not supported")
  end.

Definition encode_arg (a : parg) : parg :=
  match a with AStr s => ABytes (list_byte_of_string s ++ [Byte.x00]) | _ => a end.

(** The argument loop of [request]: the words to send and the buffers to free.
    [len] is the length a buffer argument left for a following [None]. *)
Fixpoint prepare_args (len : option Z) (args : list parg) : M P (list Z * list Z) :=
  match args with
  | [] => py_ret ([], [])
  | arg :: rest =>
      let arg := match arg, len with ANone, Some n => AInt n | _, _ => arg end in
      let! heap := py_get px_heap in
      match encode_arg arg, heap with
      | ABytes b, Some _ =>
          let! p := on_heap (heap_malloc (zlen b)) in
          on_iface (iface_writemem p b) ;;;
          let! a := py_lift (int_arg (AInt p)) in
          let! '(words, free) := prepare_args (Some (zlen b)) rest in
          py_ret (a :: words, p :: free)
      | arg, _ =>
          let! a := py_lift (int_arg arg) in
          let! '(words, free) := prepare_args None rest in
          py_ret (a :: words, free)
      end
  end.

Fixpoint free_all (free : list Z) : M P unit :=
  match free with
  | [] => py_ret tt
  | p :: r => on_heap (heap_free p) ;;; free_all r
  end.

Definition request (o : opts) (opcode : Z) (args : list parg) : M P retval :=
  let! '(words, free) := prepare_args None args in
  py_finally (raw_request o opcode words) (free_all free).

(** A method that returns nothing. *)
Definition ignore {A} (m : M P A) : M P unit := m ;;; py_ret tt.

(** Arithmetic on a result: [None] is not a number. *)
Definition number (r : retval) : M P Z :=
  match r with Some v => py_ret v | None => py_raise (TypeError "unsupported operand type NoneType") end.

Definition misaligned (addr mask : Z) : bool := negb (Z.land addr mask =? 0).

(** ** The remote calls *)
Definition px_nop : M P unit :=
  ignore (request no_opts P_NOP []).
Definition px_exit (retval : parg) : M P unit :=
  ignore (request no_opts P_EXIT [retval]).
Definition px_call (addr : parg) (args : list parg) (reboot : bool) : M P retval :=
  if Nat.ltb 5 (length args) then py_raise (ValueError "Too many arguments") else
  request (opt_reboot reboot) P_CALL (addr :: args).
Definition is_command_error (e : exn) : bool := match e with ProxyCommandError => true | _ => false end.
Definition px_reload (addr : parg) (args : list parg) (el1 : bool) : M P unit :=
  if Nat.ltb 4 (length args) then py_raise (ValueError "Too many arguments") else
  if el1 then ignore (request opt_no_reply P_EL1_CALL (addr :: args))
  else
    py_catch
      (ignore (request no_opts P_VECTOR (addr :: args)) ;;; ignore (on_iface iface_wait_boot))
      is_command_error
      (py_catch (ignore (request no_opts P_MMU_SHUTDOWN [])) is_command_error (py_ret tt) ;;;
       ignore (request (opt_reboot true) P_CALL (addr :: args))).
Definition px_get_bootargs : M P retval :=
  request no_opts P_GET_BOOTARGS [].
Definition px_get_bootargs_rev : M P (Z * Z) :=
  let! r := request no_opts P_GET_BOOTARGS [] in
  let! ba_addr := number r in
  let! a := request no_opts P_READ8 [AInt ba_addr] in
  let! lo := number a in
  let! b := request no_opts P_READ8 [AInt (ba_addr + 1)] in
  let! hi := number b in
  py_ret (ba_addr, Z.lor lo (Z.shiftl hi 8)).
Definition px_get_base : M P retval :=
  request no_opts P_GET_BASE [].
Definition px_get_cpu_features : M P CPUFeatures :=
  let! addr := request no_opts P_GET_CPU_FEATURES [AInt CPUFeatures_sizeof] in
  match addr with
  | None | Some 0 => py_raise (ValueError "Size mismatch (Outdated CPUFeatures struct definition?)")
  | Some addr =>
      let! d := on_iface (iface_readmem addr CPUFeatures_sizeof) in
      py_lift (CPUFeatures_parse d)
  end.
Definition px_set_baud (baudrate : Z) : M P unit :=
  on_iface (iface_set_tty_enable false) ;;;
  py_finally
    (ignore (request (opt_pre_reply (iface_set_baudrate baudrate)) P_SET_BAUD
               [AInt baudrate; AInt 16; AInt 0x005aa5f0]))
    (on_iface (iface_set_tty_enable true)).
Definition px_udelay (usec : parg) : M P unit :=
  ignore (request no_opts P_UDELAY [usec]).
Definition px_set_exc_guard (mode : parg) : M P unit :=
  ignore (request no_opts P_SET_EXC_GUARD [mode]).
Definition px_get_exc_count : M P retval :=
  request no_opts P_GET_EXC_COUNT [].
Definition px_el0_call (addr : parg) (args : list parg) : M P retval :=
  if Nat.ltb 4 (length args) then py_raise (ValueError "Too many arguments") else
  request no_opts P_EL0_CALL ([addr] ++ args).
Definition px_el1_call (addr : parg) (args : list parg) : M P retval :=
  if Nat.ltb 4 (length args) then py_raise (ValueError "Too many arguments") else
  request no_opts P_EL1_CALL ([addr] ++ args).
Definition px_gl1_call (addr : parg) (args : list parg) : M P retval :=
  if Nat.ltb 4 (length args) then py_raise (ValueError "Too many arguments") else
  request no_opts P_GL1_CALL ([addr] ++ args).
Definition px_gl2_call (addr : parg) (args : list parg) : M P retval :=
  if Nat.ltb 4 (length args) then py_raise (ValueError "Too many arguments") else
  request no_opts P_GL2_CALL ([addr] ++ args).
Definition px_get_simd_state (buf : parg) : M P unit :=
  ignore (request no_opts P_GET_SIMD_STATE [buf]).
Definition px_put_simd_state (buf : parg) : M P unit :=
  ignore (request no_opts P_PUT_SIMD_STATE [buf]).
Definition px_reboot : M P unit :=
  ignore (request opt_no_reply P_REBOOT []).
Definition px_sleep (deep : parg) : M P unit :=
  ignore (request opt_no_reply P_SLEEP [deep]).
Definition px_el3_call (addr : parg) (args : list parg) : M P retval :=
  if Nat.ltb 4 (length args) then py_raise (ValueError "Too many arguments") else
  request no_opts P_EL3_CALL ([addr] ++ args).
Definition px_get_chipid : M P retval :=
  request no_opts P_GET_CHIPID [].
Definition px_write64 (addr : Z) (data : parg) : M P unit :=
  if misaligned addr 7 then py_raise AlignmentError else
  ignore (request no_opts P_WRITE64 [AInt addr; data]).
Definition px_write32 (addr : Z) (data : parg) : M P unit :=
  if misaligned addr 3 then py_raise AlignmentError else
  ignore (request no_opts P_WRITE32 [AInt addr; data]).
Definition px_write16 (addr : Z) (data : parg) : M P unit :=
  if misaligned addr 1 then py_raise AlignmentError else
  ignore (request no_opts P_WRITE16 [AInt addr; data]).
Definition px_write8 (addr data : parg) : M P unit :=
  ignore (request no_opts P_WRITE8 [addr; data]).
Definition px_read64 (addr : Z) : M P retval :=
  if misaligned addr 7 then py_raise AlignmentError else
  request no_opts P_READ64 [AInt addr].
Definition px_read32 (addr : Z) : M P retval :=
  if misaligned addr 3 then py_raise AlignmentError else
  request no_opts P_READ32 [AInt addr].
Definition px_read16 (addr : Z) : M P retval :=
  if misaligned addr 1 then py_raise AlignmentError else
  request no_opts P_READ16 [AInt addr].
Definition px_read8 (addr : parg) : M P retval :=
  request no_opts P_READ8 [addr].
Definition px_set64 (addr : Z) (data : parg) : M P retval :=
  if misaligned addr 7 then py_raise AlignmentError else
  request no_opts P_SET64 [AInt addr; data].
Definition px_set32 (addr : Z) (data : parg) : M P retval :=
  if misaligned addr 3 then py_raise AlignmentError else
  request no_opts P_SET32 [AInt addr; data].
Definition px_set16 (addr : Z) (data : parg) : M P retval :=
  if misaligned addr 1 then py_raise AlignmentError else
  request no_opts P_SET16 [AInt addr; data].
Definition px_set8 (addr data : parg) : M P retval :=
  request no_opts P_SET8 [addr; data].
Definition px_clear64 (addr : Z) (data : parg) : M P retval :=
  if misaligned addr 7 then py_raise AlignmentError else
  request no_opts P_CLEAR64 [AInt addr; data].
Definition px_clear32 (addr : Z) (data : parg) : M P retval :=
  if misaligned addr 3 then py_raise AlignmentError else
  request no_opts P_CLEAR32 [AInt addr; data].
Definition px_clear16 (addr : Z) (data : parg) : M P retval :=
  if misaligned addr 1 then py_raise AlignmentError else
  request no_opts P_CLEAR16 [AInt addr; data].
Definition px_clear8 (addr data : parg) : M P retval :=
  request no_opts P_CLEAR8 [addr; data].
Definition px_mask64 (addr : Z) (clear set_ : parg) : M P retval :=
  if misaligned addr 7 then py_raise AlignmentError else
  request no_opts P_MASK64 [AInt addr; clear; set_].
Definition px_mask32 (addr : Z) (clear set_ : parg) : M P retval :=
  if misaligned addr 3 then py_raise AlignmentError else
  request no_opts P_MASK32 [AInt addr; clear; set_].
Definition px_mask16 (addr : Z) (clear set_ : parg) : M P retval :=
  if misaligned addr 1 then py_raise AlignmentError else
  request no_opts P_MASK16 [AInt addr; clear; set_].
Definition px_mask8 (addr clear set_ : parg) : M P retval :=
  request no_opts P_MASK8 [addr; clear; set_].
Definition px_writeread64 (addr data : parg) : M P retval :=
  request no_opts P_WRITEREAD64 [addr; data].
Definition px_writeread32 (addr data : parg) : M P retval :=
  request no_opts P_WRITEREAD32 [addr; data].
Definition px_writeread16 (addr data : parg) : M P retval :=
  request no_opts P_WRITEREAD16 [addr; data].
Definition px_writeread8 (addr data : parg) : M P retval :=
  request no_opts P_WRITEREAD8 [addr; data].
Definition px_memcpy64 (dst src : Z) (size : parg) : M P unit :=
  if misaligned src 7 || misaligned dst 7 then py_raise AlignmentError else
  ignore (request no_opts P_MEMCPY64 [AInt dst; AInt src; size]).
Definition px_memcpy32 (dst src : Z) (size : parg) : M P unit :=
  if misaligned src 3 || misaligned dst 3 then py_raise AlignmentError else
  ignore (request no_opts P_MEMCPY32 [AInt dst; AInt src; size]).
Definition px_memcpy16 (dst src : Z) (size : parg) : M P unit :=
  if misaligned src 1 || misaligned dst 1 then py_raise AlignmentError else
  ignore (request no_opts P_MEMCPY16 [AInt dst; AInt src; size]).
Definition px_memcpy8 (dst src size : parg) : M P unit :=
  ignore (request no_opts P_MEMCPY8 [dst; src; size]).
Definition px_memset64 (dst : Z) (src size : parg) : M P unit :=
  if misaligned dst 7 then py_raise AlignmentError else
  ignore (request no_opts P_MEMSET64 [AInt dst; src; size]).
Definition px_memset32 (dst : Z) (src size : parg) : M P unit :=
  if misaligned dst 3 then py_raise AlignmentError else
  ignore (request no_opts P_MEMSET32 [AInt dst; src; size]).
Definition px_memset16 (dst : Z) (src size : parg) : M P unit :=
  if misaligned dst 1 then py_raise AlignmentError else
  ignore (request no_opts P_MEMSET16 [AInt dst; src; size]).
Definition px_memset8 (dst src size : parg) : M P unit :=
  ignore (request no_opts P_MEMSET8 [dst; src; size]).
Definition px_ic_ialluis : M P unit :=
  ignore (request no_opts P_IC_IALLUIS []).
Definition px_ic_iallu : M P unit :=
  ignore (request no_opts P_IC_IALLU []).
Definition px_ic_ivau (addr size : parg) : M P unit :=
  ignore (request no_opts P_IC_IVAU [addr; size]).
Definition px_dc_ivac (addr size : parg) : M P unit :=
  ignore (request no_opts P_DC_IVAC [addr; size]).
Definition px_dc_isw (sw : parg) : M P unit :=
  ignore (request no_opts P_DC_ISW [sw]).
Definition px_dc_csw (sw : parg) : M P unit :=
  ignore (request no_opts P_DC_CSW [sw]).
Definition px_dc_cisw (sw : parg) : M P unit :=
  ignore (request no_opts P_DC_CISW [sw]).
Definition px_dc_zva (addr size : parg) : M P unit :=
  ignore (request no_opts P_DC_ZVA [addr; size]).
Definition px_dc_cvac (addr size : parg) : M P unit :=
  ignore (request no_opts P_DC_CVAC [addr; size]).
Definition px_dc_cvau (addr size : parg) : M P unit :=
  ignore (request no_opts P_DC_CVAU [addr; size]).
Definition px_dc_civac (addr size : parg) : M P unit :=
  ignore (request no_opts P_DC_CIVAC [addr; size]).
Definition px_mmu_shutdown : M P unit :=
  ignore (request no_opts P_MMU_SHUTDOWN []).
Definition px_mmu_init : M P unit :=
  ignore (request no_opts P_MMU_INIT []).
Definition px_mmu_disable : M P retval :=
  request no_opts P_MMU_DISABLE [].
Definition px_mmu_restore (flags : parg) : M P unit :=
  ignore (request no_opts P_MMU_RESTORE [flags]).
Definition px_mmu_init_secondary (cpu : parg) : M P unit :=
  ignore (request no_opts P_MMU_INIT_SECONDARY [cpu]).
Definition px_xzdec (inbuf insize outbuf outsize : parg) : M P retval :=
  request opt_signed P_XZDEC [inbuf; insize; outbuf; outsize].
Definition px_gzdec (inbuf insize outbuf outsize : parg) : M P retval :=
  request opt_signed P_GZDEC [inbuf; insize; outbuf; outsize].
Definition px_smp_start_secondaries : M P unit :=
  ignore (request no_opts P_SMP_START_SECONDARIES []).
Definition px_smp_call (cpu addr : parg) (args : list parg) : M P unit :=
  if Nat.ltb 4 (length args) then py_raise (ValueError "Too many arguments") else
  ignore (request no_opts P_SMP_CALL ([cpu; addr] ++ args)).
Definition px_smp_call_sync (cpu addr : parg) (args : list parg) : M P retval :=
  if Nat.ltb 4 (length args) then py_raise (ValueError "Too many arguments") else
  request no_opts P_SMP_CALL_SYNC ([cpu; addr] ++ args).
Definition px_smp_wait (cpu : parg) : M P retval :=
  request no_opts P_SMP_WAIT [cpu].
Definition px_smp_set_wfe_mode (mode : parg) : M P retval :=
  request no_opts P_SMP_SET_WFE_MODE [mode].
Definition px_smp_is_alive (cpu : parg) : M P retval :=
  request no_opts P_SMP_IS_ALIVE [cpu].
Definition px_smp_stop_secondaries (deep_sleep : parg) : M P unit :=
  ignore (request no_opts P_SMP_STOP_SECONDARIES [deep_sleep]).
Definition px_smp_call_el1 (cpu addr : parg) (args : list parg) : M P unit :=
  if Nat.ltb 3 (length args) then py_raise (ValueError "Too many arguments") else
  ignore (request no_opts P_SMP_CALL_EL1 ([cpu; addr] ++ args)).
Definition px_smp_call_sync_el1 (cpu addr : parg) (args : list parg) : M P retval :=
  if Nat.ltb 3 (length args) then py_raise (ValueError "Too many arguments") else
  request no_opts P_SMP_CALL_SYNC_EL1 ([cpu; addr] ++ args).
Definition px_smp_call_el0 (cpu addr : parg) (args : list parg) : M P unit :=
  if Nat.ltb 3 (length args) then py_raise (ValueError "Too many arguments") else
  ignore (request no_opts P_SMP_CALL_EL0 ([cpu; addr] ++ args)).
Definition px_smp_call_sync_el0 (cpu addr : parg) (args : list parg) : M P retval :=
  if Nat.ltb 3 (length args) then py_raise (ValueError "Too many arguments") else
  request no_opts P_SMP_CALL_SYNC_EL0 ([cpu; addr] ++ args).
Definition px_heapblock_alloc (size : parg) : M P retval :=
  request no_opts P_HEAPBLOCK_ALLOC [size].
Definition px_heapblock_set_limit (limit : parg) : M P retval :=
  request no_opts P_HEAPBLOCK_SET_LIMIT [limit].
Definition px_malloc (size : parg) : M P retval :=
  request no_opts P_MALLOC [size].
Definition px_memalign (align size : parg) : M P retval :=
  request no_opts P_MEMALIGN [align; size].
Definition px_free (ptr : parg) : M P unit :=
  ignore (request no_opts P_FREE [ptr]).
Definition px_kboot_boot (kernel : parg) : M P unit :=
  ignore (request no_opts P_KBOOT_BOOT [kernel]).
Definition px_kboot_set_chosen (name value : parg) : M P unit :=
  ignore (request no_opts P_KBOOT_SET_CHOSEN [name; value]).
Definition px_kboot_set_initrd (base size : parg) : M P unit :=
  ignore (request no_opts P_KBOOT_SET_INITRD [base; size]).
Definition px_kboot_prepare_dt (dt_addr : parg) : M P retval :=
  request no_opts P_KBOOT_PREPARE_DT [dt_addr].
Definition px_kboot_set_uboot (name value : parg) : M P unit :=
  ignore (request no_opts P_KBOOT_SET_UBOOT [name; value]).
Definition px_pmgr_power_enable (clkid : parg) : M P retval :=
  request no_opts P_PMGR_POWER_ENABLE [clkid].
Definition px_pmgr_power_disable (clkid : parg) : M P retval :=
  request no_opts P_PMGR_POWER_DISABLE [clkid].
Definition px_pmgr_adt_power_enable (path : parg) : M P retval :=
  request no_opts P_PMGR_ADT_POWER_ENABLE [path].
Definition px_pmgr_adt_power_disable (path : parg) : M P retval :=
  request no_opts P_PMGR_ADT_POWER_DISABLE [path].
Definition px_pmgr_reset (die name : parg) : M P retval :=
  request no_opts P_PMGR_RESET [die; name].
Definition px_iodev_set_usage (iodev usage : parg) : M P retval :=
  request no_opts P_IODEV_SET_USAGE [iodev; usage].
Definition px_iodev_can_read (iodev : parg) : M P retval :=
  request no_opts P_IODEV_CAN_READ [iodev].
Definition px_iodev_can_write (iodev : parg) : M P retval :=
  request no_opts P_IODEV_CAN_WRITE [iodev].
Definition px_iodev_read (iodev buf size : parg) : M P retval :=
  request no_opts P_IODEV_READ [iodev; buf; size].
Definition px_iodev_write (iodev buf size : parg) : M P retval :=
  request no_opts P_IODEV_WRITE [iodev; buf; size].
Definition px_iodev_whoami : M P Z :=
  let! r := request no_opts P_IODEV_WHOAMI [] in
  match r with
  | Some v => py_lift (IODEV_of v)
  | None => py_raise (ValueError "not a valid IODEV")
  end.
Definition px_usb_iodev_vuart_setup (iodev : parg) : M P retval :=
  request no_opts P_USB_IODEV_VUART_SETUP [iodev].
Definition px_tunables_apply_global (path prop : parg) : M P retval :=
  request no_opts P_TUNABLES_APPLY_GLOBAL [path; prop].
Definition px_tunables_apply_local (path prop reg_offset : parg) : M P retval :=
  request no_opts P_TUNABLES_APPLY_LOCAL [path; prop; reg_offset].
Definition px_tunables_apply_local_addr (path prop base : parg) : M P retval :=
  request no_opts P_TUNABLES_APPLY_LOCAL [path; prop; base].
Definition px_dart_init (base sid dart_type : parg) : M P retval :=
  request no_opts P_DART_INIT [base; sid; dart_type].
Definition px_dart_shutdown (dart : parg) : M P retval :=
  request no_opts P_DART_SHUTDOWN [dart].
Definition px_dart_map (dart iova bfr len : parg) : M P retval :=
  request no_opts P_DART_MAP [dart; iova; bfr; len].
Definition px_dart_unmap (dart iova len : parg) : M P retval :=
  request no_opts P_DART_UNMAP [dart; iova; len].
Definition px_hv_init : M P retval :=
  request no_opts P_HV_INIT [].
Definition px_hv_map (from_ to size incr : parg) : M P retval :=
  request no_opts P_HV_MAP [from_; to; size; incr].
Definition px_hv_start (entry : parg) (args : list parg) : M P retval :=
  request no_opts P_HV_START ([entry] ++ args).
Definition px_hv_translate (addr s1 w : parg) : M P retval :=
  request no_opts P_HV_TRANSLATE [addr; s1; w].
Definition px_hv_pt_walk (addr : parg) : M P retval :=
  request no_opts P_HV_PT_WALK [addr].
Definition px_hv_map_vuart (base irq iodev : parg) : M P retval :=
  request no_opts P_HV_MAP_VUART [base; irq; iodev].
Definition px_hv_trace_irq (evt_type num count flags : parg) : M P retval :=
  request no_opts P_HV_TRACE_IRQ [evt_type; num; count; flags].
Definition px_hv_wdt_start (cpu : parg) : M P retval :=
  request no_opts P_HV_WDT_START [cpu].
Definition px_hv_start_secondary (cpu entry : parg) (args : list parg) : M P retval :=
  request no_opts P_HV_START_SECONDARY ([cpu; entry] ++ args).
Definition px_hv_switch_cpu (cpu : parg) : M P retval :=
  request no_opts P_HV_SWITCH_CPU [cpu].
Definition px_hv_set_time_stealing (enabled reset : parg) : M P retval :=
  request no_opts P_HV_SET_TIME_STEALING [AInt (Z.b2z (py_truth enabled)); AInt (Z.b2z (py_truth reset))].
Definition px_hv_pin_cpu (cpu : parg) : M P retval :=
  request no_opts P_HV_PIN_CPU [cpu].
Definition px_hv_write_hcr (hcr : parg) : M P retval :=
  request no_opts P_HV_WRITE_HCR [hcr].
Definition px_hv_map_virtio (base config : parg) : M P retval :=
  request no_opts P_HV_MAP_VIRTIO [base; config].
Definition px_virtio_put_buffer (base qu idx length : parg) : M P retval :=
  request no_opts P_VIRTIO_PUT_BUFFER [base; qu; idx; length].
Definition px_hv_exit_cpu (cpu : parg) : M P retval :=
  request no_opts P_HV_EXIT_CPU [cpu].
Definition px_hv_add_time (time : parg) : M P retval :=
  request no_opts P_HV_ADD_TIME [time].
Definition px_fb_init : M P retval :=
  request no_opts P_FB_INIT [].
Definition px_fb_shutdown (restore_logo : parg) : M P retval :=
  request no_opts P_FB_SHUTDOWN [restore_logo].
Definition px_fb_blit (x y w h ptr : parg) (stride pix_fmt : Z) : M P retval :=
  request no_opts P_FB_BLIT [x; y; w; h; ptr; AInt (Z.lor stride (Z.shiftl pix_fmt 32))].
Definition px_fb_unblit (x y w h ptr stride : parg) : M P retval :=
  request no_opts P_FB_UNBLIT [x; y; w; h; ptr; stride].
Definition px_fb_fill (x y w h color : parg) : M P retval :=
  request no_opts P_FB_FILL [x; y; w; h; color].
Definition px_fb_clear (color : parg) : M P retval :=
  request no_opts P_FB_CLEAR [color].
Definition px_fb_display_logo : M P retval :=
  request no_opts P_FB_DISPLAY_LOGO [].
Definition px_fb_restore_logo : M P retval :=
  request no_opts P_FB_RESTORE_LOGO [].
Definition px_fb_improve_logo : M P retval :=
  request no_opts P_FB_IMPROVE_LOGO [].
Definition px_pcie_init : M P retval :=
  request no_opts P_PCIE_INIT [].
Definition px_pcie_shutdown : M P retval :=
  request no_opts P_PCIE_SHUTDOWN [].
Definition px_nvme_init : M P retval :=
  request no_opts P_NVME_INIT [].
Definition px_nvme_shutdown : M P retval :=
  request no_opts P_NVME_SHUTDOWN [].
Definition px_nvme_read (nsid lba bfr : parg) : M P retval :=
  request no_opts P_NVME_READ [nsid; lba; bfr].
Definition px_nvme_flush (nsid : parg) : M P retval :=
  request no_opts P_NVME_FLUSH [nsid].
Definition px_mcc_get_carveouts : M P retval :=
  request no_opts P_MCC_GET_CARVEOUTS [].
Definition px_display_init : M P retval :=
  request no_opts P_DISPLAY_INIT [].
Definition px_display_configure (cfg : parg) : M P retval :=
  request no_opts P_DISPLAY_CONFIGURE [cfg].
Definition px_display_shutdown (mode : parg) : M P retval :=
  request no_opts P_DISPLAY_SHUTDOWN [mode].
Definition px_display_start_dcp : M P retval :=
  request no_opts P_DISPLAY_START_DCP [].
Definition px_display_is_external : M P retval :=
  request no_opts P_DISPLAY_IS_EXTERNAL [].
Definition px_dapf_init_all : M P retval :=
  request no_opts P_DAPF_INIT_ALL [].
Definition px_dapf_init (path : parg) : M P retval :=
  request no_opts P_DAPF_INIT [path].
Definition px_cpufreq_init : M P retval :=
  request no_opts P_CPUFREQ_INIT [].

End M1N1Proxy.
Arguments proxy : clear implicits.
Arguments opts : clear implicits.

(** The interface of the framed link. *)
Section UartIface.
Context {H : Type}.
Variable run_handler : H -> Z -> Z -> Z -> M (uart H) unit.
Variable run_evt : H -> bytes -> M (uart H) unit.
Variable dev_open : nat -> wire -> option wire.
Variable reply_fuel : nat.

Definition uart_set_baudrate (b : Z) : M (uart H) unit := py_modify (fun u =>
  set_wire {| w_rx := w_rx (u_wire u); w_tx := w_tx (u_wire u); w_baud := b |} u).

#[export] Instance UartIface : ProxyIface (uart H) := {|
  iface_proxyreq := proxyreq run_handler run_evt dev_open reply_fuel;
  iface_writemem := uart_writemem run_handler run_evt reply_fuel;
  iface_readmem := uart_readmem run_handler run_evt reply_fuel;
  iface_wait_boot := wait_boot run_handler run_evt dev_open reply_fuel;
  iface_set_tty_enable := fun b => py_modify (set_tty_enable b);
  iface_set_baudrate := uart_set_baudrate
|}.
End UartIface.

(** ** Buffers passed to remote calls are released *)

Section Buffers.
Context {I : Type} `{!ProxyIface I}.
Implicit Types p : proxy I.

(** An empty [bytes] argument asks [malloc] for nothing. *)
Definition nonempty_arg (a : parg) : Prop := match a with ABytes [] => False | _ => True end.

(** [p'] holds the heap of [p] with the extra allocations [ps]. *)
Definition holds_extra (h : heap) (ps : list (Z * Z)) (h' : heap) : Prop :=
  heap_wf h' /\ hp_offset h' = hp_offset h /\ hp_count h' = hp_count h /\ hp_block h' = hp_block h /\
  allocated h' ≡ₚ ps ++ allocated h.

Definition addr_of (h : heap) (pn : Z * Z) : Z := hp_offset h + hp_block h * fst pn.

Lemma holds_extra_refl h : heap_wf h -> holds_extra h [] h.
Proof. by split. Qed.

Lemma heap_malloc_params size h r h' :
  heap_malloc size h = (r, h') ->
  hp_offset h' = hp_offset h /\ hp_count h' = hp_count h /\ hp_block h' = hp_block h.
Proof. unfold heap_malloc. repeat case_match; intros [= <- <-]; done. Qed.

Lemma heap_free_params a h r h' :
  heap_free a h = (r, h') ->
  hp_offset h' = hp_offset h /\ hp_count h' = hp_count h /\ hp_block h' = hp_block h.
Proof. unfold heap_free. repeat case_match; intros [= <- <-]; done. Qed.

Lemma holds_extra_malloc h ps h1 size a h2 :
  holds_extra h ps h1 -> 0 < size -> heap_malloc size h1 = (Ok a, h2) ->
  exists pn, a = addr_of h pn /\ holds_extra h (pn :: ps) h2.
Proof.
  intros (Hwf & Ho & Hc & Hb & Ha) Hs E.
  destruct (malloc_allocates _ _ _ _ Hwf Hs E) as (p & n & -> & _ & _ & _ & _ & _ & Ha2).
  destruct (heap_malloc_params _ _ _ _ E) as (Ho2 & Hc2 & Hb2).
  exists (p, n). split; [unfold addr_of; simpl; congruence|].
  split_and!; [eapply heap_step_wf; [done|by econstructor]|congruence|congruence|congruence|].
  by rewrite Ha2, Ha.
Qed.

Lemma on_iface_heap {A} (m : M I A) p r p' : on_iface m p = (r, p') -> px_heap p' = px_heap p.
Proof. unfold on_iface. destruct (m (px_iface p)). by intros [= <- <-]. Qed.

Lemma raw_request_heap o opcode words p r p' : raw_request o opcode words p = (r, p') -> px_heap p' = px_heap p.
Proof.
  unfold raw_request. destruct (Nat.ltb _ _); [by intros [= <- <-]|].
  destruct (pack_Qs _) as [req|e]; cbn; [|by intros [= <- <-]]. unfold py_bind at 1.
  destruct (on_iface _ p) as [[reply|e] p1] eqn:E; apply on_iface_heap in E; [|intros [= <- <-]; done].
  rewrite <- E. destruct (o_no_reply o); [by intros [= <- <-]|]. destruct reply as [reply|].
  - unfold py_bind, py_lift. destruct (unpack_reply _ _) as [[[rop st] ret]|e]; [|by intros [= <- <-]].
    repeat case_match; by intros [= <- <-].
  - destruct (o_reboot o); by intros [= <- <-].
Qed.

(** The prepared buffers are live allocations, in the order of [free]. *)
Lemma prepare_args_heap args : forall len h ps h1 p words free p',
  px_heap p = Some h1 -> holds_extra h ps h1 -> Forall nonempty_arg args ->
  prepare_args len args p = (Ok (words, free), p') ->
  exists qs h2, px_heap p' = Some h2 /\ free = map (addr_of h) qs /\ holds_extra h (qs ++ ps) h2.
Proof.
  induction args as [|arg args IH]; intros len h ps h1 p words free p' Hp Hx Hn E.
  { injection E as <- <- <-. by exists [], h1. }
  inversion Hn as [|? ? Ha Hn']; subst. cbn [prepare_args] in E.
  set (arg' := match arg, len with ANone, Some n => AInt n | _, _ => arg end) in E.
  assert (Hint : forall a, (let! a := py_lift (int_arg a) in
            let! '(words, free) := prepare_args None args in py_ret (a :: words, free)) p = (Ok (words, free), p') ->
            exists qs h2, px_heap p' = Some h2 /\ free = map (addr_of h) qs /\ holds_extra h (qs ++ ps) h2).
  { intros a E'. unfold py_bind, py_lift in E'. destruct (int_arg a); [|done].
    destruct (prepare_args None args p) as [[[w f]|e] p1] eqn:E1; [|done].
    injection E' as <- <- <-. by eapply IH. }
  unfold py_bind at 1, py_get at 1 in E. rewrite Hp in E.
  destruct (encode_arg arg') as [z|b|s|] eqn:Ee; try by eapply Hint.
  assert (Hb : 0 < zlen b).
  { unfold zlen. destruct b; [|simpl; lia]. exfalso. unfold arg' in Ee.
    destruct arg, len; simpl in Ee; try discriminate Ee; injection Ee as Ee; subst; try done;
      by destruct (list_byte_of_string s). }
  unfold py_bind at 1, on_heap at 1 in E. rewrite Hp in E.
  destruct (heap_malloc (zlen b) h1) as [[a|e] h2] eqn:Em; [|done].
  destruct (holds_extra_malloc _ _ _ _ _ _ Hx Hb Em) as (pn & -> & Hx2).
  unfold py_bind at 1 in E. destruct (on_iface _ _) as [[[]|e] p2] eqn:Ew; [|done].
  apply on_iface_heap in Ew. simpl in Ew. unfold py_bind at 1, py_lift at 1, int_arg in E.
  unfold py_bind at 1 in E. destruct (prepare_args _ args p2) as [[[w f]|e] p3] eqn:E1; [|done].
  injection E as <- <- <-.
  destruct (IH _ h _ _ _ _ _ _ Ew Hx2 Hn' E1) as (qs & h3 & Hp3 & -> & Hx3).
  exists (pn :: qs), h3. split_and!; [done|done|]. destruct Hx3 as (? & ? & ? & ? & Hx3).
  split_and!; try done. by rewrite Hx3, <- Permutation_middle.
Qed.

Lemma free_all_heap qs : forall h h1 p,
  px_heap p = Some h1 -> holds_extra h qs h1 ->
  exists p' h2, free_all (map (addr_of h) qs) p = (Ok tt, p') /\ px_heap p' = Some h2 /\ holds_extra h [] h2.
Proof.
  induction qs as [|[q n] qs IH]; intros h h1 p Hp Hx; [by exists p, h1|].
  destruct Hx as (Hwf & Ho & Hc & Hb & Ha).
  destruct (free_live h1 q n Hwf) as (h2 & Ef & Ha2).
  { rewrite Ha. by left. }
  cbn [map free_all]. unfold py_bind, on_heap. rewrite Hp. unfold addr_of at 1. cbn [fst].
  rewrite <- Ho, <- Hb, Ef. destruct (heap_free_params _ _ _ _ Ef) as (Ho2 & Hc2 & Hb2).
  apply (IH h h2); [done|]. split_and!; try congruence; [by eapply heap_free_wf|].
  rewrite Ha in Ha2. simpl in Ha2. by apply Permutation_cons_inv in Ha2.
Qed.

End Buffers.

(** C25: [request] releases what it allocated: when the arguments of a remote call, none
    of them an empty buffer, could all be prepared, their buffers allocated and written
    (otherwise those of the earlier arguments leak, [request_leaks_on_bad_argument]),
    the heap after the call is exactly the
    heap before it, whether the call returns or raises, and the result is that of
    the remote call itself (no release fails). *)
Theorem request_restores_heap {I} `{!ProxyIface I} o opcode args (p : proxy I) h words free p1
    (Hh : px_heap p = Some h) (Hwf : heap_wf h) (Hne : Forall nonempty_arg args)
    (Hprep : prepare_args None args p = (Ok (words, free), p1)) :
  px_heap (request o opcode args p).2 = Some h /\
  (request o opcode args p).1 = (raw_request o opcode words p1).1.
Proof.
  destruct (prepare_args_heap args None h [] h p words free p1 Hh (holds_extra_refl h Hwf) Hne Hprep)
    as (qs & h2 & Hp1 & -> & Hx). rewrite app_nil_r in Hx.
  unfold request, py_bind. rewrite Hprep. unfold py_finally.
  destruct (raw_request o opcode words p1) as [r p2] eqn:Er. apply raw_request_heap in Er as Hp2. rewrite Hp1 in Hp2.
  destruct (free_all_heap qs h h2 p2 Hp2 Hx) as (p3 & h3 & -> & Hp3 & (Hw3 & Ho & Hc & Hb & Ha)).
  simpl. split; [|done]. rewrite Hp3. f_equal. by apply heap_canonical.
Qed.

(** A link that accepts every write and answers every request with [reply]. *)
Definition stub_iface (reply : bytes) : ProxyIface (list (Z * bytes)) := {|
  iface_proxyreq := fun _ _ _ _ => py_ret (Some reply);
  iface_writemem := fun a d => py_modify (fun l => l ++ [(a, d)]);
  iface_readmem := fun _ _ => py_ret [];
  iface_wait_boot := py_ret None;
  iface_set_tty_enable := fun _ => py_ret tt;
  iface_set_baudrate := fun _ => py_ret tt
|}.

Lemma request_restores_heap_witness :
  let _ := stub_iface (replicate 24 Byte.x01) in
  let h := Heap 0x1000 8 [(1, true); (7, false)] 64 in
  let r := request no_opts P_KBOOT_SET_CHOSEN [AStr "bootargs"; ABytes [Byte.x31; Byte.x00]] (Proxy (I := list (Z * bytes)) [] (Some h)) in
  px_heap r.2 = Some h /\ r.1 = Raise ProxyReplyError.
Proof.
  intros S h r.
  destruct (request_restores_heap no_opts P_KBOOT_SET_CHOSEN [AStr "bootargs"; ABytes [Byte.x31; Byte.x00]]
    (Proxy (I := list (Z * bytes)) [] (Some h)) h [0x1040; 0x1080] [0x1040; 0x1080]
    (Proxy (I := list (Z * bytes)) [(0x1040, list_byte_of_string "bootargs" ++ [Byte.x00]); (0x1080, [Byte.x31; Byte.x00])]
       (Some (Heap 0x1000 8 [(1, true); (1, true); (1, true); (5, false)] 64)))) as [A B].
  - reflexivity.
  - constructor; simpl; try done; repeat constructor; done.
  - repeat constructor.
  - vm_compute. reflexivity.
  - split; [exact A|]. etransitivity; [exact B|]. vm_compute. reflexivity.
Defined.

(** When an argument after a buffer is rejected, the buffer stays allocated: the
    argument loop runs before the [try]. *)
Lemma request_leaks_on_bad_argument :
  let _ := stub_iface [] in
  let h := Heap 0x1000 8 [(8, false)] 64 in
  let r := request no_opts P_PMGR_RESET [AStr "/arm-io"; ANone; ANone] (Proxy (I := list (Z * bytes)) [] (Some h)) in
  r.1 = Raise (TypeError "'<' not supported") /\
  px_heap r.2 = Some (Heap 0x1000 8 [(1, true); (7, false)] 64).
Proof. by vm_compute. Qed.

(** ** Remote calls over the framed link *)

(** The 24 reply bytes of a proxy call. *)
Definition encode_ret (rop status ret : Z) : bytes :=
  le_bytes 8 rop ++ le_bytes 8 (status mod 2 ^ 64) ++ le_bytes 8 ret.

(** The request words as they are sent. *)
Definition words_of (opcode : Z) (args : list Z) : bytes :=
  concat (map (le_bytes 8) (opcode :: map (fun z => z mod 2 ^ 64) args ++ replicate (6 - length args) 0)).

Lemma pack_Qs_map l :
  Forall (fun z => 0 <= z < 2 ^ 64) l -> pack_Qs l = Ok (concat (map (le_bytes 8) l)).
Proof.
  induction 1 as [|z l Hz _ IH]; [done|]. cbn [pack_Qs]. rewrite pack_Q_ok by done. cbn. rewrite IH. done.
Qed.

Lemma int_arg_word z : z < 2 ^ 64 -> int_arg (AInt z) = Ok (z mod 2 ^ 64).
Proof.
  intros Hz. simpl. destruct (Z.ltb_spec z 0).
  - change (Z.shiftl 1 64 - 1) with (Z.ones 64). by rewrite Z.land_ones.
  - by rewrite Z.mod_small.
Qed.

Lemma prepare_ints {I} `{!ProxyIface I} args (p : proxy I) :
  Forall (fun z => z < 2 ^ 64) args ->
  prepare_args None (map AInt args) p = (Ok (map (fun z => z mod 2 ^ 64) args, []), p).
Proof.
  induction 1 as [|z args Hz _ IH]; [done|]. cbn [map prepare_args encode_arg].
  unfold py_bind at 1, py_get. rewrite (int_arg_word z Hz). unfold py_bind, py_lift. by rewrite IH.
Qed.

Lemma to_signed_mod k z :
  - (256 ^ Z.of_nat k / 2) <= z < 256 ^ Z.of_nat k / 2 -> (0 < k)%nat -> to_signed k (z mod 256 ^ Z.of_nat k) = z.
Proof.
  intros Hz Hk. unfold to_signed.
  assert (He : 256 ^ Z.of_nat k = 2 * (256 ^ Z.of_nat k / 2)).
  { replace (Z.of_nat k) with (1 + Z.of_nat (k - 1)) by lia. rewrite Z.pow_add_r, Z.pow_1_r by lia.
    replace (256 * 256 ^ Z.of_nat (k - 1)) with (128 * 256 ^ Z.of_nat (k - 1) * 2) by lia.
    rewrite Z.div_mul by lia. lia. }
  set (m := 256 ^ Z.of_nat k) in *. set (hm := m / 2) in *.
  destruct (Z.le_gt_cases 0 z).
  - rewrite Z.mod_small by lia. destruct (Z.ltb_spec z hm); lia.
  - rewrite <- (Z.mod_unique z m (-1) (z + m)) by lia. destruct (Z.ltb_spec (z + m) hm); lia.
Qed.

Lemma unpack_reply_encode signed rop status ret :
  0 <= rop < 2 ^ 64 -> - 2 ^ 63 <= status < 2 ^ 63 -> 0 <= ret < 2 ^ 64 ->
  unpack_reply signed (encode_ret rop status ret) = Ok (rop, status, if signed then to_signed 8 ret else ret).
Proof.
  intros Hr Hs Ht. unfold unpack_reply, encode_ret. rewrite !length_app, !length_le_bytes. cbn [negb Nat.eqb Nat.add].
  pose proof (unpack_u_le_bytes 8 0 [] (le_bytes 8 (status mod 2 ^ 64) ++ le_bytes 8 ret) rop eq_refl Hr) as H0.
  cbn [app] in H0. rewrite H0. cbn [rbind].
  rewrite (unpack_u_le_bytes 8 8 (le_bytes 8 rop) (le_bytes 8 ret)) by
    (try apply length_le_bytes; apply Z.mod_pos_bound; lia). cbn [rbind].
  replace (le_bytes 8 rop ++ le_bytes 8 (status mod 2 ^ 64) ++ le_bytes 8 ret)
    with ((le_bytes 8 rop ++ le_bytes 8 (status mod 2 ^ 64)) ++ le_bytes 8 ret ++ []) by (by rewrite app_nil_r, <- app_assoc).
  rewrite (unpack_u_le_bytes 8 16) by (try rewrite length_app, !length_le_bytes; done). cbn [rbind].
  change (2 ^ 64) with (256 ^ Z.of_nat 8). rewrite to_signed_mod by (done || lia). done.
Qed.

Definition verdict (signed : bool) (opcode rop status ret : Z) : result (option Z) :=
  if negb (rop =? opcode) then Raise ProxyReplyError
  else if status =? 0 then Ok (Some (if signed then to_signed 8 ret else ret))
  else if status =? -1 then Raise ProxyCommandError
  else Raise (ProxyRemoteError status).

Section OverUart.
Context {H : Type}.
Variable run_handler : H -> Z -> Z -> Z -> M (uart H) unit.
Variable run_evt : H -> bytes -> M (uart H) unit.
Variable dev_open : nat -> wire -> option wire.
Variable reply_fuel : nat.
#[local] Existing Instance UartIface.
#[local] Instance the_iface : ProxyIface (uart H) := UartIface run_handler run_evt dev_open reply_fuel.

Lemma length_words_of opcode args : (length args <= 6)%nat -> length (words_of opcode args) = 56%nat.
Proof.
  intros Hl. unfold words_of. set (l := opcode :: _).
  assert (Hc : forall l, length (concat (map (le_bytes 8) l)) = (8 * length l)%nat).
  { induction l0 as [|z l0 IH]; [done|]. cbn [map concat length]. rewrite length_app, length_le_bytes, IH. lia. }
  rewrite Hc. unfold l. cbn [length]. rewrite length_app, length_map, length_replicate. lia.
Qed.

Lemma proxyreq_exchange u req noise data rest :
  length req = 56%nat -> length data = 24%nat ->
  no_mark noise -> no_timeout u -> (length noise < reply_fuel)%nat ->
  stream u = noise ++ encode_reply REQ_PROXY (0 mod 2 ^ 32) data ++ rest ->
  exists u', iface_proxyreq req false false None u = (Ok (Some data), u') /\
    w_tx (u_wire u') = w_tx (u_wire u) ++ [command_frame REQ_PROXY req] /\ stream u' = rest /\
    w_baud (u_wire u') = w_baud (u_wire u).
Proof.
  intros Hq Hd Hm Hok Hf Hs. cbn. unfold proxyreq.
  rewrite (py_bind_ok _ _ _ _ _ (uart_cmd_ok REQ_PROXY req u ltac:(done) ltac:(rewrite Hq; done))).
  unfold py_bind at 1, py_ret at 1.
  destruct (uart_reply_frame run_handler run_evt (sent (command_frame REQ_PROXY req) u) reply_fuel REQ_PROXY Byte.x01
    noise 0 data rest req_code_PROXY ltac:(done) Hd ltac:(lia) Hm (sent_ok _ _ Hok) Hf Hs) as (u1 & Hr & Ha).
  rewrite (py_bind_ok _ _ _ _ _ Hr). exists u1. destruct (advanced_sent_tx _ _ _ _ Ha) as [Htx _].
  split_and!; [done|done|apply Ha|]. apply (adv_baud _ _ _ Ha).
Qed.

Lemma request_ints_exchange (o : opts (uart H)) p opcode args noise rop status ret rest :
  o_reboot o = false -> o_no_reply o = false ->
  0 <= opcode < 2 ^ 64 -> (length args <= 6)%nat -> Forall (fun z => z < 2 ^ 64) args ->
  0 <= rop < 2 ^ 64 -> - 2 ^ 63 <= status < 2 ^ 63 -> 0 <= ret < 2 ^ 64 ->
  no_mark noise -> no_timeout (px_iface p) -> (length noise < reply_fuel)%nat ->
  stream (px_iface p) = noise ++ encode_reply REQ_PROXY (0 mod 2 ^ 32) (encode_ret rop status ret) ++ rest ->
  exists p', request o opcode (map AInt args) p = (verdict (o_signed o) opcode rop status ret, p') /\
    px_heap p' = px_heap p /\ stream (px_iface p') = rest /\
    w_tx (u_wire (px_iface p')) = w_tx (u_wire (px_iface p)) ++ [command_frame REQ_PROXY (words_of opcode args)] /\
    w_baud (u_wire (px_iface p')) = w_baud (u_wire (px_iface p)).
Proof.
  intros Hnb Hnr Ho Hl Ha Hr Hst Ht Hm Hok Hf Hs.
  unfold request. rewrite (py_bind_ok _ _ _ _ _ (prepare_ints args p Ha)).
  unfold py_finally, raw_request. rewrite length_map. destruct (Nat.ltb_spec 6 (length args)); [lia|].
  rewrite pack_Qs_map.
  2:{ constructor; [done|]. apply Forall_app. split.
      - apply List.Forall_forall. intros z (y & <- & _)%in_map_iff. by apply Z.mod_pos_bound.
      - apply Forall_replicate. done. }
  unfold py_lift at 1, py_bind at 1. fold (words_of opcode args).
  destruct (proxyreq_exchange (px_iface p) (words_of opcode args) noise (encode_ret rop status ret) rest
    (length_words_of opcode args Hl) ltac:(unfold encode_ret; by rewrite !length_app, !length_le_bytes) Hm Hok Hf Hs)
    as (u1 & E & Htx & Hst1 & Hbd).
  unfold py_bind at 1, on_iface at 1. rewrite Hnb, Hnr, E.
  rewrite unpack_reply_encode by done. unfold py_bind at 1, py_lift at 1.
  exists {| px_iface := u1; px_heap := px_heap p |}. split_and!; [|done|exact Hst1|exact Htx|exact Hbd].
  unfold verdict, S_OK, S_BADCMD. destruct (rop =? opcode); [|done]. destruct (status =? 0); [done|].
  cbn [negb]. by destruct (status =? -1).
Qed.

End OverUart.

(** C26: a remote call over the framed link, end to end: [request] with integer
    arguments (negative ones in two's complement, at most six, below 2^64) sends
    exactly one frame holding the opcode and the zero-padded argument words, and
    its outcome is the target's: the return value (sign-extended when asked), or
    [ProxyReplyError] for an answer to another opcode, [ProxyCommandError] for an
    unknown command, [ProxyRemoteError] for any other status. *)
Theorem request_over_uart {H} run_handler run_evt dev_open reply_fuel
    (o : opts (uart H)) (p : proxy (uart H)) opcode args noise rop status ret rest
    (Hnb : o_reboot o = false) (Hnr : o_no_reply o = false)
    (Hop : 0 <= opcode < 2 ^ 64) (Hl : (length args <= 6)%nat) (Ha : Forall (fun z => z < 2 ^ 64) args)
    (Hr : 0 <= rop < 2 ^ 64) (Hst : - 2 ^ 63 <= status < 2 ^ 63) (Hret : 0 <= ret < 2 ^ 64)
    (Hm : no_mark noise) (Hok : no_timeout (px_iface p)) (Hf : (length noise < reply_fuel)%nat)
    (Hs : stream (px_iface p) =
          noise ++ encode_reply REQ_PROXY (0 mod 2 ^ 32) (encode_ret rop status ret) ++ rest) :
  exists p', @request _ (UartIface run_handler run_evt dev_open reply_fuel) o opcode (map AInt args) p
             = (verdict (o_signed o) opcode rop status ret, p') /\
    px_heap p' = px_heap p /\ stream (px_iface p') = rest /\
    w_tx (u_wire (px_iface p')) = w_tx (u_wire (px_iface p)) ++ [command_frame REQ_PROXY (words_of opcode args)].
Proof.
  destruct (request_ints_exchange run_handler run_evt dev_open reply_fuel o p opcode args noise rop status ret rest)
    as (p' & E & Hh & Hst' & Htx & _); try done. by exists p'.
Qed.

Lemma request_over_uart_witness :
  let p := Proxy (demo_wire [encode_reply REQ_PROXY 0 (encode_ret P_READ32 0 0xcafe)]) None in
  exists p', @request _ (UartIface (fun _ _ _ _ => py_ret tt) (fun _ _ => py_ret tt) (fun _ _ => None) 5)
               no_opts P_READ32 [AInt (-16)] p = (Ok (Some 0xcafe), p') /\
    px_heap p' = None /\ stream (px_iface p') = [] /\
    w_tx (u_wire (px_iface p')) = [command_frame REQ_PROXY (words_of P_READ32 [-16])].
Proof.
  intros p.
  apply (request_over_uart (fun _ _ _ _ => py_ret tt) (fun _ _ => py_ret tt) (fun _ _ => None) 5
           no_opts p P_READ32 [-16] [] P_READ32 0 0xcafe []).
  - reflexivity.
  - reflexivity.
  - vm_compute. split; congruence.
  - simpl. lia.
  - repeat constructor.
  - vm_compute. split; congruence.
  - lia.
  - lia.
  - intros i Hi. simpl in Hi. lia.
  - unfold no_timeout. vm_compute. repeat constructor; discriminate.
  - simpl. lia.
  - vm_compute. reflexivity.
Defined.

(** [set_baud] never changes the host's baud rate: [_request] drops the
    [pre_reply] callback that would do it, so after a successful call the target
    talks at the new rate and the host device is still set to the old one. *)
Theorem set_baud_keeps_host_rate {H} run_handler run_evt dev_open reply_fuel
    (p : proxy (uart H)) baudrate noise status ret rest
    (Hb : 0 <= baudrate < 2 ^ 64) (Hst : - 2 ^ 63 <= status < 2 ^ 63) (Hret : 0 <= ret < 2 ^ 64)
    (Hm : no_mark noise) (Hok : no_timeout (px_iface p)) (Hf : (length noise < reply_fuel)%nat)
    (Hs : stream (px_iface p) =
          noise ++ encode_reply REQ_PROXY (0 mod 2 ^ 32) (encode_ret P_SET_BAUD status ret) ++ rest) :
  exists r p', @px_set_baud _ (UartIface run_handler run_evt dev_open reply_fuel) baudrate p = (r, p') /\
    (r = Ok tt <-> status = 0) /\
    w_baud (u_wire (px_iface p')) = w_baud (u_wire (px_iface p)) /\ u_tty_enable (px_iface p') = true.
Proof.
  unfold px_set_baud. set (I := UartIface run_handler run_evt dev_open reply_fuel).
  set (p0 := {| px_iface := set_tty_enable false (px_iface p); px_heap := px_heap p |}).
  assert (E0 : on_iface (iface_set_tty_enable false) p = (Ok tt, p0)) by done.
  rewrite (py_bind_ok _ _ _ _ _ E0).
  destruct (request_ints_exchange run_handler run_evt dev_open reply_fuel
    (opt_pre_reply (iface_set_baudrate baudrate)) p0 P_SET_BAUD [baudrate; 16; 0x005aa5f0] noise P_SET_BAUD status ret rest)
    as (p' & E & _ & _ & _ & Hbd); try done; [simpl; lia|repeat constructor; lia|].
  unfold py_finally, ignore, py_bind. unfold the_iface in E. fold I in E. cbn [map] in E. rewrite E.
  unfold verdict. rewrite Z.eqb_refl. cbn [negb].
  destruct (Z.eqb_spec status 0) as [->|Hne]; [do 2 eexists; split_and!; [reflexivity|done|exact Hbd|done]|].
  destruct (status =? -1); (do 2 eexists; split_and!; [reflexivity|done|exact Hbd|done]).
Qed.

Lemma set_baud_keeps_host_rate_witness :
  let p := Proxy (demo_wire [encode_reply REQ_PROXY 0 (encode_ret P_SET_BAUD 0 1)]) None in
  exists r p', @px_set_baud _ (UartIface (fun _ _ _ _ => py_ret tt) (fun _ _ => py_ret tt) (fun _ _ => None) 5) 1500000 p = (r, p') /\
    (r = Ok tt <-> 0 = 0) /\
    w_baud (u_wire (px_iface p')) = 115200 /\ u_tty_enable (px_iface p') = true.
Proof.
  intros p.
  apply (set_baud_keeps_host_rate (fun _ _ _ _ => py_ret tt) (fun _ _ => py_ret tt) (fun _ _ => None) 5
           p 1500000 [] 0 1 []).
  - lia.
  - lia.
  - lia.
  - intros i Hi. simpl in Hi. lia.
  - unfold no_timeout. vm_compute. repeat constructor; discriminate.
  - simpl. lia.
  - vm_compute. reflexivity.
Defined.

(** ** Conformance with the target's command table *)

(** The opcode table of the host, by name. *)
Definition host_opcodes : list (string * Z) :=
 [("P_NOP"%string, P_NOP); ("P_EXIT"%string, P_EXIT); ("P_CALL"%string, P_CALL);
   ("P_GET_BOOTARGS"%string, P_GET_BOOTARGS); ("P_GET_BASE"%string, P_GET_BASE);
   ("P_SET_BAUD"%string, P_SET_BAUD); ("P_UDELAY"%string, P_UDELAY);
   ("P_SET_EXC_GUARD"%string, P_SET_EXC_GUARD); ("P_GET_EXC_COUNT"%string, P_GET_EXC_COUNT);
   ("P_EL0_CALL"%string, P_EL0_CALL); ("P_EL1_CALL"%string, P_EL1_CALL); ("P_VECTOR"%string, P_VECTOR);
   ("P_GL1_CALL"%string, P_GL1_CALL); ("P_GL2_CALL"%string, P_GL2_CALL);
   ("P_GET_SIMD_STATE"%string, P_GET_SIMD_STATE); ("P_PUT_SIMD_STATE"%string, P_PUT_SIMD_STATE);
   ("P_REBOOT"%string, P_REBOOT); ("P_SLEEP"%string, P_SLEEP); ("P_EL3_CALL"%string, P_EL3_CALL);
   ("P_GET_CHIPID"%string, P_GET_CHIPID); ("P_GET_CPU_FEATURES"%string, P_GET_CPU_FEATURES);
   ("P_WRITE64"%string, P_WRITE64); ("P_WRITE32"%string, P_WRITE32); ("P_WRITE16"%string, P_WRITE16);
   ("P_WRITE8"%string, P_WRITE8); ("P_READ64"%string, P_READ64); ("P_READ32"%string, P_READ32);
   ("P_READ16"%string, P_READ16); ("P_READ8"%string, P_READ8); ("P_SET64"%string, P_SET64);
   ("P_SET32"%string, P_SET32); ("P_SET16"%string, P_SET16); ("P_SET8"%string, P_SET8);
   ("P_CLEAR64"%string, P_CLEAR64); ("P_CLEAR32"%string, P_CLEAR32); ("P_CLEAR16"%string, P_CLEAR16);
   ("P_CLEAR8"%string, P_CLEAR8); ("P_MASK64"%string, P_MASK64); ("P_MASK32"%string, P_MASK32);
   ("P_MASK16"%string, P_MASK16); ("P_MASK8"%string, P_MASK8); ("P_WRITEREAD64"%string, P_WRITEREAD64);
   ("P_WRITEREAD32"%string, P_WRITEREAD32); ("P_WRITEREAD16"%string, P_WRITEREAD16);
   ("P_WRITEREAD8"%string, P_WRITEREAD8); ("P_MEMCPY64"%string, P_MEMCPY64);
   ("P_MEMCPY32"%string, P_MEMCPY32); ("P_MEMCPY16"%string, P_MEMCPY16); ("P_MEMCPY8"%string, P_MEMCPY8);
   ("P_MEMSET64"%string, P_MEMSET64); ("P_MEMSET32"%string, P_MEMSET32); ("P_MEMSET16"%string, P_MEMSET16);
   ("P_MEMSET8"%string, P_MEMSET8); ("P_IC_IALLUIS"%string, P_IC_IALLUIS); ("P_IC_IALLU"%string, P_IC_IALLU);
   ("P_IC_IVAU"%string, P_IC_IVAU); ("P_DC_IVAC"%string, P_DC_IVAC); ("P_DC_ISW"%string, P_DC_ISW);
   ("P_DC_CSW"%string, P_DC_CSW); ("P_DC_CISW"%string, P_DC_CISW); ("P_DC_ZVA"%string, P_DC_ZVA);
   ("P_DC_CVAC"%string, P_DC_CVAC); ("P_DC_CVAU"%string, P_DC_CVAU); ("P_DC_CIVAC"%string, P_DC_CIVAC);
   ("P_MMU_SHUTDOWN"%string, P_MMU_SHUTDOWN); ("P_MMU_INIT"%string, P_MMU_INIT);
   ("P_MMU_DISABLE"%string, P_MMU_DISABLE); ("P_MMU_RESTORE"%string, P_MMU_RESTORE);
   ("P_MMU_INIT_SECONDARY"%string, P_MMU_INIT_SECONDARY); ("P_XZDEC"%string, P_XZDEC);
   ("P_GZDEC"%string, P_GZDEC); ("P_SMP_START_SECONDARIES"%string, P_SMP_START_SECONDARIES);
   ("P_SMP_CALL"%string, P_SMP_CALL); ("P_SMP_CALL_SYNC"%string, P_SMP_CALL_SYNC);
   ("P_SMP_WAIT"%string, P_SMP_WAIT); ("P_SMP_SET_WFE_MODE"%string, P_SMP_SET_WFE_MODE);
   ("P_SMP_IS_ALIVE"%string, P_SMP_IS_ALIVE); ("P_SMP_STOP_SECONDARIES"%string, P_SMP_STOP_SECONDARIES);
   ("P_SMP_CALL_EL1"%string, P_SMP_CALL_EL1); ("P_SMP_CALL_SYNC_EL1"%string, P_SMP_CALL_SYNC_EL1);
   ("P_SMP_CALL_EL0"%string, P_SMP_CALL_EL0); ("P_SMP_CALL_SYNC_EL0"%string, P_SMP_CALL_SYNC_EL0);
   ("P_HEAPBLOCK_ALLOC"%string, P_HEAPBLOCK_ALLOC); ("P_MALLOC"%string, P_MALLOC);
   ("P_MEMALIGN"%string, P_MEMALIGN); ("P_FREE"%string, P_FREE);
   ("P_HEAPBLOCK_SET_LIMIT"%string, P_HEAPBLOCK_SET_LIMIT); ("P_KBOOT_BOOT"%string, P_KBOOT_BOOT);
   ("P_KBOOT_SET_CHOSEN"%string, P_KBOOT_SET_CHOSEN); ("P_KBOOT_SET_INITRD"%string, P_KBOOT_SET_INITRD);
   ("P_KBOOT_PREPARE_DT"%string, P_KBOOT_PREPARE_DT); ("P_KBOOT_SET_UBOOT"%string, P_KBOOT_SET_UBOOT);
   ("P_PMGR_POWER_ENABLE"%string, P_PMGR_POWER_ENABLE);
   ("P_PMGR_POWER_DISABLE"%string, P_PMGR_POWER_DISABLE);
   ("P_PMGR_ADT_POWER_ENABLE"%string, P_PMGR_ADT_POWER_ENABLE);
   ("P_PMGR_ADT_POWER_DISABLE"%string, P_PMGR_ADT_POWER_DISABLE); ("P_PMGR_RESET"%string, P_PMGR_RESET);
   ("P_IODEV_SET_USAGE"%string, P_IODEV_SET_USAGE); ("P_IODEV_CAN_READ"%string, P_IODEV_CAN_READ);
   ("P_IODEV_CAN_WRITE"%string, P_IODEV_CAN_WRITE); ("P_IODEV_READ"%string, P_IODEV_READ);
   ("P_IODEV_WRITE"%string, P_IODEV_WRITE); ("P_IODEV_WHOAMI"%string, P_IODEV_WHOAMI);
   ("P_USB_IODEV_VUART_SETUP"%string, P_USB_IODEV_VUART_SETUP);
   ("P_TUNABLES_APPLY_GLOBAL"%string, P_TUNABLES_APPLY_GLOBAL);
   ("P_TUNABLES_APPLY_LOCAL"%string, P_TUNABLES_APPLY_LOCAL); ("P_DART_INIT"%string, P_DART_INIT);
   ("P_DART_SHUTDOWN"%string, P_DART_SHUTDOWN); ("P_DART_MAP"%string, P_DART_MAP);
   ("P_DART_UNMAP"%string, P_DART_UNMAP); ("P_HV_INIT"%string, P_HV_INIT); ("P_HV_MAP"%string, P_HV_MAP);
   ("P_HV_START"%string, P_HV_START); ("P_HV_TRANSLATE"%string, P_HV_TRANSLATE);
   ("P_HV_PT_WALK"%string, P_HV_PT_WALK); ("P_HV_MAP_VUART"%string, P_HV_MAP_VUART);
   ("P_HV_TRACE_IRQ"%string, P_HV_TRACE_IRQ); ("P_HV_WDT_START"%string, P_HV_WDT_START);
   ("P_HV_START_SECONDARY"%string, P_HV_START_SECONDARY); ("P_HV_SWITCH_CPU"%string, P_HV_SWITCH_CPU);
   ("P_HV_SET_TIME_STEALING"%string, P_HV_SET_TIME_STEALING); ("P_HV_PIN_CPU"%string, P_HV_PIN_CPU);
   ("P_HV_WRITE_HCR"%string, P_HV_WRITE_HCR); ("P_HV_MAP_VIRTIO"%string, P_HV_MAP_VIRTIO);
   ("P_VIRTIO_PUT_BUFFER"%string, P_VIRTIO_PUT_BUFFER); ("P_HV_EXIT_CPU"%string, P_HV_EXIT_CPU);
   ("P_HV_ADD_TIME"%string, P_HV_ADD_TIME); ("P_FB_INIT"%string, P_FB_INIT);
   ("P_FB_SHUTDOWN"%string, P_FB_SHUTDOWN); ("P_FB_BLIT"%string, P_FB_BLIT);
   ("P_FB_UNBLIT"%string, P_FB_UNBLIT); ("P_FB_FILL"%string, P_FB_FILL); ("P_FB_CLEAR"%string, P_FB_CLEAR);
   ("P_FB_DISPLAY_LOGO"%string, P_FB_DISPLAY_LOGO); ("P_FB_RESTORE_LOGO"%string, P_FB_RESTORE_LOGO);
   ("P_FB_IMPROVE_LOGO"%string, P_FB_IMPROVE_LOGO); ("P_PCIE_INIT"%string, P_PCIE_INIT);
   ("P_PCIE_SHUTDOWN"%string, P_PCIE_SHUTDOWN); ("P_NVME_INIT"%string, P_NVME_INIT);
   ("P_NVME_SHUTDOWN"%string, P_NVME_SHUTDOWN); ("P_NVME_READ"%string, P_NVME_READ);
   ("P_NVME_FLUSH"%string, P_NVME_FLUSH); ("P_MCC_GET_CARVEOUTS"%string, P_MCC_GET_CARVEOUTS);
   ("P_DISPLAY_INIT"%string, P_DISPLAY_INIT); ("P_DISPLAY_CONFIGURE"%string, P_DISPLAY_CONFIGURE);
   ("P_DISPLAY_SHUTDOWN"%string, P_DISPLAY_SHUTDOWN); ("P_DISPLAY_START_DCP"%string, P_DISPLAY_START_DCP);
   ("P_DISPLAY_IS_EXTERNAL"%string, P_DISPLAY_IS_EXTERNAL); ("P_DAPF_INIT_ALL"%string, P_DAPF_INIT_ALL);
   ("P_DAPF_INIT"%string, P_DAPF_INIT); ("P_CPUFREQ_INIT"%string, P_CPUFREQ_INIT);
   ("P_READ_GIGALOCKER"%string, P_READ_GIGALOCKER); ("P_FREE_GIGALOCKER"%string, P_FREE_GIGALOCKER)].

(** The [proxy_op] enumeration of src/src/proxy.h: a missing value is one more
    than the previous one, as in C. *)
Definition target_enum : list (string * option Z) :=
 [("P_NOP"%string, Some 0x000); ("P_EXIT"%string, None); ("P_CALL"%string, None);
   ("P_GET_BOOTARGS"%string, None); ("P_GET_BASE"%string, None); ("P_SET_BAUD"%string, None);
   ("P_UDELAY"%string, None); ("P_SET_EXC_GUARD"%string, None); ("P_GET_EXC_COUNT"%string, None);
   ("P_EL0_CALL"%string, None); ("P_EL1_CALL"%string, None); ("P_VECTOR"%string, None);
   ("P_GL1_CALL"%string, None); ("P_GL2_CALL"%string, None); ("P_GET_SIMD_STATE"%string, None);
   ("P_PUT_SIMD_STATE"%string, None); ("P_REBOOT"%string, None); ("P_SLEEP"%string, None);
   ("P_EL3_CALL"%string, None); ("P_GET_CHIPID"%string, None); ("P_GET_CPU_FEATURES"%string, None);
   ("P_WRITE64"%string, Some 0x100); ("P_WRITE32"%string, None); ("P_WRITE16"%string, None);
   ("P_WRITE8"%string, None); ("P_READ64"%string, None); ("P_READ32"%string, None);
   ("P_READ16"%string, None); ("P_READ8"%string, None); ("P_SET64"%string, None); ("P_SET32"%string, None);
   ("P_SET16"%string, None); ("P_SET8"%string, None); ("P_CLEAR64"%string, None); ("P_CLEAR32"%string, None);
   ("P_CLEAR16"%string, None); ("P_CLEAR8"%string, None); ("P_MASK64"%string, None);
   ("P_MASK32"%string, None); ("P_MASK16"%string, None); ("P_MASK8"%string, None);
   ("P_WRITEREAD64"%string, None); ("P_WRITEREAD32"%string, None); ("P_WRITEREAD16"%string, None);
   ("P_WRITEREAD8"%string, None); ("P_MEMCPY64"%string, Some 0x200); ("P_MEMCPY32"%string, None);
   ("P_MEMCPY16"%string, None); ("P_MEMCPY8"%string, None); ("P_MEMSET64"%string, None);
   ("P_MEMSET32"%string, None); ("P_MEMSET16"%string, None); ("P_MEMSET8"%string, None);
   ("P_IC_IALLUIS"%string, Some 0x300); ("P_IC_IALLU"%string, None); ("P_IC_IVAU"%string, None);
   ("P_DC_IVAC"%string, None); ("P_DC_ISW"%string, None); ("P_DC_CSW"%string, None);
   ("P_DC_CISW"%string, None); ("P_DC_ZVA"%string, None); ("P_DC_CVAC"%string, None);
   ("P_DC_CVAU"%string, None); ("P_DC_CIVAC"%string, None); ("P_MMU_SHUTDOWN"%string, None);
   ("P_MMU_INIT"%string, None); ("P_MMU_DISABLE"%string, None); ("P_MMU_RESTORE"%string, None);
   ("P_MMU_INIT_SECONDARY"%string, None); ("P_XZDEC"%string, Some 0x400); ("P_GZDEC"%string, None);
   ("P_SMP_START_SECONDARIES"%string, Some 0x500); ("P_SMP_CALL"%string, None);
   ("P_SMP_CALL_SYNC"%string, None); ("P_SMP_WAIT"%string, None); ("P_SMP_SET_WFE_MODE"%string, None);
   ("P_SMP_IS_ALIVE"%string, None); ("P_SMP_STOP_SECONDARIES"%string, None); ("P_SMP_CALL_EL1"%string, None);
   ("P_SMP_CALL_EL1_SYNC"%string, None); ("P_SMP_CALL_EL0"%string, None);
   ("P_SMP_CALL_EL0_SYNC"%string, None); ("P_HEAPBLOCK_ALLOC"%string, Some 0x600); ("P_MALLOC"%string, None);
   ("P_MEMALIGN"%string, None); ("P_FREE"%string, None); ("P_HEAPBLOCK_SET_LIMIT"%string, None);
   ("P_KBOOT_BOOT"%string, Some 0x700); ("P_KBOOT_SET_CHOSEN"%string, None);
   ("P_KBOOT_SET_INITRD"%string, None); ("P_KBOOT_PREPARE_DT"%string, None);
   ("P_KBOOT_SET_UBOOT"%string, None); ("P_PMGR_POWER_ENABLE"%string, Some 0x800);
   ("P_PMGR_POWER_DISABLE"%string, None); ("P_PMGR_ADT_POWER_ENABLE"%string, None);
   ("P_PMGR_ADT_POWER_DISABLE"%string, None); ("P_PMGR_RESET"%string, None);
   ("P_IODEV_SET_USAGE"%string, Some 0x900); ("P_IODEV_CAN_READ"%string, None);
   ("P_IODEV_CAN_WRITE"%string, None); ("P_IODEV_READ"%string, None); ("P_IODEV_WRITE"%string, None);
   ("P_IODEV_WHOAMI"%string, None); ("P_USB_IODEV_VUART_SETUP"%string, None);
   ("P_TUNABLES_APPLY_GLOBAL"%string, Some 0xa00); ("P_TUNABLES_APPLY_LOCAL"%string, None);
   ("P_TUNABLES_APPLY_LOCAL_ADDR"%string, None); ("P_DART_INIT"%string, Some 0xb00);
   ("P_DART_SHUTDOWN"%string, None); ("P_DART_MAP"%string, None); ("P_DART_UNMAP"%string, None);
   ("P_HV_INIT"%string, Some 0xc00); ("P_HV_MAP"%string, None); ("P_HV_START"%string, None);
   ("P_HV_TRANSLATE"%string, None); ("P_HV_PT_WALK"%string, None); ("P_HV_MAP_VUART"%string, None);
   ("P_HV_TRACE_IRQ"%string, None); ("P_HV_WDT_START"%string, None); ("P_HV_START_SECONDARY"%string, None);
   ("P_HV_SWITCH_CPU"%string, None); ("P_HV_SET_TIME_STEALING"%string, None); ("P_HV_PIN_CPU"%string, None);
   ("P_HV_WRITE_HCR"%string, None); ("P_HV_MAP_VIRTIO"%string, None); ("P_VIRTIO_PUT_BUFFER"%string, None);
   ("P_HV_EXIT_CPU"%string, None); ("P_HV_ADD_TIME"%string, None); ("P_FB_INIT"%string, Some 0xd00);
   ("P_FB_SHUTDOWN"%string, None); ("P_FB_BLIT"%string, None); ("P_FB_UNBLIT"%string, None);
   ("P_FB_FILL"%string, None); ("P_FB_CLEAR"%string, None); ("P_FB_DISPLAY_LOGO"%string, None);
   ("P_FB_RESTORE_LOGO"%string, None); ("P_FB_IMPROVE_LOGO"%string, None);
   ("P_PCIE_INIT"%string, Some 0xe00); ("P_PCIE_SHUTDOWN"%string, None); ("P_NVME_INIT"%string, Some 0xf00);
   ("P_NVME_SHUTDOWN"%string, None); ("P_NVME_READ"%string, None); ("P_NVME_FLUSH"%string, None);
   ("P_MCC_GET_CARVEOUTS"%string, Some 0x1000); ("P_DISPLAY_INIT"%string, Some 0x1100);
   ("P_DISPLAY_CONFIGURE"%string, None); ("P_DISPLAY_SHUTDOWN"%string, None);
   ("P_DISPLAY_START_DCP"%string, None); ("P_DISPLAY_IS_EXTERNAL"%string, None);
   ("P_DAPF_INIT_ALL"%string, Some 0x1200); ("P_DAPF_INIT"%string, None);
   ("P_CPUFREQ_INIT"%string, Some 0x1300); ("P_READ_GIGALOCKER"%string, Some 0x1400);
   ("P_FREE_GIGALOCKER"%string, None)].

Fixpoint c_enum (next : Z) (l : list (string * option Z)) : list (string * Z) :=
  match l with
  | [] => []
  | (name, v) :: r => let n := default next v in (name, n) :: c_enum (n + 1) r
  end.

Definition target_opcodes : list (string * Z) := c_enum 0 target_enum.

(** The host's command table conforms to the target's: the host's opcodes are
    pairwise distinct, every one of them is an opcode of the target, names used
    on both sides stand for the same number, and the only target command the
    host cannot send is P_TUNABLES_APPLY_LOCAL_ADDR. *)
Theorem opcodes_conform :
  NoDup (map snd host_opcodes) /\
  (forall name v, In (name, v) host_opcodes ->
     In v (map snd target_opcodes) /\ (forall w, In (name, w) target_opcodes -> v = w)) /\
  filter (fun e => snd e ∉ map snd host_opcodes) target_opcodes = [("P_TUNABLES_APPLY_LOCAL_ADDR"%string, 0xa02)].
Proof.
  assert (Hb : forallb (fun e => bool_decide (snd e ∈ map snd target_opcodes) &&
     forallb (fun t => negb (String.eqb (fst e) (fst t)) || (snd e =? snd t)) target_opcodes) host_opcodes = true)
    by (vm_compute; reflexivity).
  split_and!; [apply (bool_decide_unpack _); vm_compute; exact Logic.I| |vm_compute; reflexivity].
  intros name v Hin. rewrite forallb_forall in Hb. specialize (Hb _ Hin). zbool. split; [by apply list_elem_of_In|].
  intros w Hw. match goal with Hf : forallb _ target_opcodes = true |- _ => rewrite forallb_forall in Hf; specialize (Hf _ Hw) end.
  simpl in *. rewrite String.eqb_refl in *. by apply Z.eqb_eq.
Qed.

(** [tunables_apply_local_addr] is the same remote call as
    [tunables_apply_local]: its base address arrives as a register offset. *)
Lemma tunables_apply_local_addr_is_local {I} `{!ProxyIface I} path prop base :
  px_tunables_apply_local_addr path prop base = px_tunables_apply_local path prop base.
Proof. done. Qed.

(** The naturally aligned accessors never put a misaligned access on the wire:
    at an address that is not a multiple of the access size they raise
    [AlignmentError] and leave link and heap untouched; at an aligned address
    they are exactly the remote call. *)
Theorem accesses_aligned {I} `{!ProxyIface I} (p : proxy I) (addr : Z) data (d c : parg) :
  (addr mod 8 <> 0 ->
     px_read64 addr p = (Raise AlignmentError, p) /\ px_write64 addr data p = (Raise AlignmentError, p) /\
     px_set64 addr d p = (Raise AlignmentError, p) /\ px_clear64 addr d p = (Raise AlignmentError, p) /\
     px_mask64 addr c d p = (Raise AlignmentError, p) /\ px_memset64 addr d c p = (Raise AlignmentError, p)) /\
  (addr mod 4 <> 0 ->
     px_read32 addr p = (Raise AlignmentError, p) /\ px_write32 addr data p = (Raise AlignmentError, p) /\
     px_set32 addr d p = (Raise AlignmentError, p) /\ px_clear32 addr d p = (Raise AlignmentError, p) /\
     px_mask32 addr c d p = (Raise AlignmentError, p) /\ px_memset32 addr d c p = (Raise AlignmentError, p)) /\
  (addr mod 2 <> 0 ->
     px_read16 addr p = (Raise AlignmentError, p) /\ px_write16 addr data p = (Raise AlignmentError, p) /\
     px_set16 addr d p = (Raise AlignmentError, p) /\ px_clear16 addr d p = (Raise AlignmentError, p) /\
     px_mask16 addr c d p = (Raise AlignmentError, p) /\ px_memset16 addr d c p = (Raise AlignmentError, p)) /\
  (addr mod 8 = 0 -> px_read64 addr = request no_opts P_READ64 [AInt addr]) /\
  (addr mod 4 = 0 -> px_read32 addr = request no_opts P_READ32 [AInt addr]) /\
  (addr mod 2 = 0 -> px_read16 addr = request no_opts P_READ16 [AInt addr]).
Proof.
  assert (Hm : forall k, 0 < k -> misaligned addr (Z.ones k) = negb (addr mod 2 ^ k =? 0)).
  { intros k Hk. unfold misaligned. by rewrite Z.land_ones by lia. }
  pose proof (Hm 3 ltac:(lia)) as H3. pose proof (Hm 2 ltac:(lia)) as H2. pose proof (Hm 1 ltac:(lia)) as H1.
  change (Z.ones 3) with 7 in H3. change (Z.ones 2) with 3 in H2. change (Z.ones 1) with 1 in H1.
  change (2 ^ 3) with 8 in H3. change (2 ^ 2) with 4 in H2. change (2 ^ 1) with 2 in H1.
  split_and!; intros Hz; rewrite <- Z.eqb_neq in Hz || rewrite <- Z.eqb_eq in Hz;
    rewrite Hz in H3 || rewrite Hz in H2 || rewrite Hz in H1; cbn [negb] in *;
    unfold px_read64, px_write64, px_set64, px_clear64, px_mask64, px_memset64,
      px_read32, px_write32, px_set32, px_clear32, px_mask32, px_memset32,
      px_read16, px_write16, px_set16, px_clear16, px_mask16, px_memset16;
    first [rewrite H3 | rewrite H2 | rewrite H1]; repeat split.
Qed.
