(* ===== verification/Utils.v ===== *)
(** * proxyclient/m1n1/utils.py: alignment, hex text and CRC helpers

    Text is handled as its list of ASCII bytes.  [print_fn] output is the list
    of lines printed. *)

From S2P Require Import Prelude Bytes.
From Stdlib Require Import ZArith Lia.
From Stdlib Require Import Strings.Byte.
From stdpp Require Import base list numbers strings.

Local Open Scope Z_scope.

(** ** Alignment *)
Definition align_up (v a : Z) : Z := Z.land (v + a - 1) (Z.lnot (a - 1)).
Definition align_down (v a : Z) : Z := Z.land v (Z.lnot (a - 1)).

(** [while out < v: out *= 2]; the exponent needed bounds the iterations. *)
Fixpoint align_pot_loop (fuel : nat) (out v : Z) : Z :=
  match fuel with
  | O => out
  | S k => if out <? v then align_pot_loop k (out * 2) v else out
  end.
Definition align_pot (v : Z) : Z := align_pot_loop (Z.to_nat (Z.log2_up v)) 1 v.

(** ** USB CRC-16 *)
Definition _crc16_table : list Z :=
  [0x0000; 0xc0c1; 0xc181; 0x0140; 0xc301; 0x03c0; 0x0280; 0xc241;
   0xc601; 0x06c0; 0x0780; 0xc741; 0x0500; 0xc5c1; 0xc481; 0x0440;
   0xcc01; 0x0cc0; 0x0d80; 0xcd41; 0x0f00; 0xcfc1; 0xce81; 0x0e40;
   0x0a00; 0xcac1; 0xcb81; 0x0b40; 0xc901; 0x09c0; 0x0880; 0xc841;
   0xd801; 0x18c0; 0x1980; 0xd941; 0x1b00; 0xdbc1; 0xda81; 0x1a40;
   0x1e00; 0xdec1; 0xdf81; 0x1f40; 0xdd01; 0x1dc0; 0x1c80; 0xdc41;
   0x1400; 0xd4c1; 0xd581; 0x1540; 0xd701; 0x17c0; 0x1680; 0xd641;
   0xd201; 0x12c0; 0x1380; 0xd341; 0x1100; 0xd1c1; 0xd081; 0x1040;
   0xf001; 0x30c0; 0x3180; 0xf141; 0x3300; 0xf3c1; 0xf281; 0x3240;
   0x3600; 0xf6c1; 0xf781; 0x3740; 0xf501; 0x35c0; 0x3480; 0xf441;
   0x3c00; 0xfcc1; 0xfd81; 0x3d40; 0xff01; 0x3fc0; 0x3e80; 0xfe41;
   0xfa01; 0x3ac0; 0x3b80; 0xfb41; 0x3900; 0xf9c1; 0xf881; 0x3840;
   0x2800; 0xe8c1; 0xe981; 0x2940; 0xeb01; 0x2bc0; 0x2a80; 0xea41;
   0xee01; 0x2ec0; 0x2f80; 0xef41; 0x2d00; 0xedc1; 0xec81; 0x2c40;
   0xe401; 0x24c0; 0x2580; 0xe541; 0x2700; 0xe7c1; 0xe681; 0x2640;
   0x2200; 0xe2c1; 0xe381; 0x2340; 0xe101; 0x21c0; 0x2080; 0xe041;
   0xa001; 0x60c0; 0x6180; 0xa141; 0x6300; 0xa3c1; 0xa281; 0x6240;
   0x6600; 0xa6c1; 0xa781; 0x6740; 0xa501; 0x65c0; 0x6480; 0xa441;
   0x6c00; 0xacc1; 0xad81; 0x6d40; 0xaf01; 0x6fc0; 0x6e80; 0xae41;
   0xaa01; 0x6ac0; 0x6b80; 0xab41; 0x6900; 0xa9c1; 0xa881; 0x6840;
   0x7800; 0xb8c1; 0xb981; 0x7940; 0xbb01; 0x7bc0; 0x7a80; 0xba41;
   0xbe01; 0x7ec0; 0x7f80; 0xbf41; 0x7d00; 0xbdc1; 0xbc81; 0x7c40;
   0xb401; 0x74c0; 0x7580; 0xb541; 0x7700; 0xb7c1; 0xb681; 0x7640;
   0x7200; 0xb2c1; 0xb381; 0x7340; 0xb101; 0x71c0; 0x7080; 0xb041;
   0x5000; 0x90c1; 0x9181; 0x5140; 0x9301; 0x53c0; 0x5280; 0x9241;
   0x9601; 0x56c0; 0x5780; 0x9741; 0x5500; 0x95c1; 0x9481; 0x5440;
   0x9c01; 0x5cc0; 0x5d80; 0x9d41; 0x5f00; 0x9fc1; 0x9e81; 0x5e40;
   0x5a00; 0x9ac1; 0x9b81; 0x5b40; 0x9901; 0x59c0; 0x5880; 0x9841;
   0x8801; 0x48c0; 0x4980; 0x8941; 0x4b00; 0x8bc1; 0x8a81; 0x4a40;
   0x4e00; 0x8ec1; 0x8f81; 0x4f40; 0x8d01; 0x4dc0; 0x4c80; 0x8c41;
   0x4400; 0x84c1; 0x8581; 0x4540; 0x8701; 0x47c0; 0x4680; 0x8641;
   0x8201; 0x42c0; 0x4380; 0x8341; 0x4100; 0x81c1; 0x8081; 0x4040].
Definition crc16_step (crc : Z) (x : byte) : Z :=
  Z.lxor (Z.shiftr crc 8) (nth (Z.to_nat (Z.land (Z.lxor crc (byte_to_Z x)) 0xff)) _crc16_table 0).

Definition crc16USB (crc : Z) (data : bytes) : Z := fold_left crc16_step data crc.

(** ** Hexadecimal text *)
Definition hex_char (d : Z) : byte := byte_of_Z (if d <? 10 then 48 + d else 87 + d).

(** ["%02x" % x]. *)
Definition hex2 (b : byte) : bytes := [hex_char (byte_to_Z b / 16); hex_char (byte_to_Z b mod 16)].

Fixpoint join (sep : bytes) (l : list bytes) : bytes :=
  match l with
  | [] => []
  | [x] => x
  | x :: r => x ++ sep ++ join sep r
  end.

Definition SPACE : byte := Byte.x20.

Definition hexdump (s sep : bytes) : bytes := join sep (map hex2 s).

(** [bytes.fromhex]: pairs of hex digits, white space between pairs. *)
Definition hex_val (c : byte) : option Z :=
  let z := byte_to_Z c in
  if (48 <=? z) && (z <=? 57) then Some (z - 48)
  else if (97 <=? z) && (z <=? 102) then Some (z - 87)
  else if (65 <=? z) && (z <=? 70) then Some (z - 55)
  else None.

Definition is_space (c : byte) : bool :=
  let z := byte_to_Z c in (z =? 32) || ((9 <=? z) && (z <=? 13)).

Fixpoint fromhex (s : bytes) : result bytes :=
  match s with
  | [] => Ok []
  | c :: r =>
      if is_space c then fromhex r else
      match hex_val c, r with
      | Some h, d :: r' =>
          match hex_val d with
          | Some l => let? t := fromhex r' in Ok (byte_of_Z (16 * h + l) :: t)
          | None => Raise (ValueError "non-hexadecimal number found in fromhex() arg")
          end
      | _, _ => Raise (ValueError "non-hexadecimal number found in fromhex() arg")
      end
  end.

(** [re.sub(r"/\*.*?\*/", "", s)]: the nearest close mark on the same line. *)
Fixpoint close_comment (s : bytes) : option bytes :=
  match s with
  | [] => None
  | c :: r =>
      match r with
      | d :: r' => if (byte_to_Z c =? 42) && (byte_to_Z d =? 47) then Some r'
                   else if byte_to_Z c =? 10 then None else close_comment r
      | [] => None
      end
  end.

Fixpoint strip_comments (fuel : nat) (s : bytes) : bytes :=
  match fuel, s with
  | S k, c :: ((d :: r') as r) =>
      if (byte_to_Z c =? 47) && (byte_to_Z d =? 42) then
        match close_comment r' with
        | Some rest => strip_comments k rest
        | None => c :: strip_comments k r
        end
      else c :: strip_comments k r
  | _, _ => s
  end.

Definition unhex (s : bytes) : result bytes :=
  let s := strip_comments (length s) s in
  fromhex (List.filter (fun c => negb ((byte_to_Z c =? 32) || (byte_to_Z c =? 10))) s).

(** ** Lemmas *)

Lemma align_down_spec v k : 0 <= k -> align_down v (2 ^ k) = v - v mod 2 ^ k.
Proof.
  intros Hk. unfold align_down. rewrite Z.sub_1_r, <- Z.ones_equiv.
  change (Z.land v (Z.lnot (Z.ones k))) with (Z.land v (Z.lnot (Z.ones k))).
  rewrite <- Z.ldiff_land, Z.ldiff_ones_r by done. rewrite Z.shiftl_mul_pow2, Z.shiftr_div_pow2 by done.
  pose proof (Z.div_mod v (2 ^ k)). lia.
Qed.

(** The bitwise USB CRC-16: polynomial 0x8005, reflected. *)
Definition crc16_bit (crc : Z) : Z :=
  if Z.odd crc then Z.lxor (Z.shiftr crc 1) 0xA001 else Z.shiftr crc 1.

Definition crc16_bitwise (crc : Z) (data : bytes) : Z :=
  fold_left (fun c x => Nat.iter 8 crc16_bit (Z.lxor c (byte_to_Z x))) data crc.

(** Equality of [lxor] combinations, bit by bit. *)
Ltac lxor_solve :=
  apply Z.bits_inj'; intros n ?; rewrite !Z.lxor_spec;
  repeat match goal with |- context [Z.testbit ?x n] => destruct (Z.testbit x n) end; reflexivity.

Lemma crc16_bit_lxor a b : crc16_bit (Z.lxor a b) = Z.lxor (crc16_bit a) (crc16_bit b).
Proof.
  unfold crc16_bit. rewrite Z.shiftr_lxor, <- !Z.bit0_odd, Z.lxor_spec.
  generalize (Z.shiftr a 1) (Z.shiftr b 1). intros sa sb.
  destruct (Z.testbit a 0), (Z.testbit b 0); cbn [xorb]; set (P := 40961); clearbody P; lxor_solve.
Qed.

Lemma crc16_iter_lxor k a b :
  Nat.iter k crc16_bit (Z.lxor a b) = Z.lxor (Nat.iter k crc16_bit a) (Nat.iter k crc16_bit b).
Proof. induction k as [|k IH]; [done|]. simpl. by rewrite IH, crc16_bit_lxor. Qed.

Lemma crc16_iter_shift k h : Nat.iter k crc16_bit (Z.shiftl h (Z.of_nat k)) = h.
Proof.
  induction k as [|k IH]; [by rewrite Z.shiftl_0_r|].
  rewrite Nat.iter_succ_r.
  assert (E : crc16_bit (Z.shiftl h (Z.of_nat (S k))) = Z.shiftl h (Z.of_nat k)); [|by rewrite E].
  unfold crc16_bit. rewrite <- Z.bit0_odd, Z.shiftl_spec_low by lia.
  rewrite Z.shiftr_shiftl_l by lia. f_equal. lia.
Qed.

Lemma crc16_table_entry i : 0 <= i < 256 -> nth (Z.to_nat i) _crc16_table 0 = Nat.iter 8 crc16_bit i.
Proof.
  intros Hi.
  assert (Hall : forallb (fun n => nth n _crc16_table 0 =? Nat.iter 8 crc16_bit (Z.of_nat n)) (seq 0 256) = true)
    by (vm_compute; reflexivity).
  rewrite forallb_forall in Hall. specialize (Hall (Z.to_nat i)).
  rewrite in_seq in Hall. specialize (Hall ltac:(lia)). apply Z.eqb_eq in Hall. by rewrite Z2Nat.id in Hall by lia.
Qed.

Lemma split_low_byte y : y = Z.lxor (Z.shiftl (Z.shiftr y 8) 8) (Z.land y 0xff).
Proof.
  apply Z.bits_inj'. intros n Hn. change 0xff with (Z.ones 8).
  rewrite Z.lxor_spec, Z.land_spec. destruct (Z.lt_ge_cases n 8).
  - rewrite Z.shiftl_spec_low, Z.ones_spec_low by lia. by rewrite andb_true_r, xorb_false_l.
  - rewrite Z.shiftl_spec_high, Z.shiftr_spec, Z.ones_spec_high by lia.
    rewrite andb_false_r, xorb_false_r. f_equal. lia.
Qed.

Lemma crc16_step_bitwise crc x : crc16_step crc x = Nat.iter 8 crc16_bit (Z.lxor crc (byte_to_Z x)).
Proof.
  unfold crc16_step. pose proof (byte_to_Z_range x) as Hx. set (y := Z.lxor crc (byte_to_Z x)).
  assert (Hy : 0 <= Z.land y 0xff < 256).
  { change 0xff with (Z.ones 8). rewrite Z.land_ones by lia. apply Z.mod_pos_bound. lia. }
  rewrite crc16_table_entry by done. rewrite (split_low_byte y) at 2.
  rewrite crc16_iter_lxor. f_equal. change 8 with (Z.of_nat 8) at 3. rewrite crc16_iter_shift.
  unfold y. rewrite Z.shiftr_lxor. rewrite (Z.shiftr_div_pow2 (byte_to_Z x)), (Z.div_small (byte_to_Z x)) by lia.
  by rewrite Z.lxor_0_r.
Qed.

(** The table-driven USB CRC-16 equals the bit-serial CRC (polynomial 0xA001
    reflected) for every running value and every message: each of the 256 table
    entries is right and so is the way they are combined. *)
Theorem crc16_table_correct (crc : Z) (data : bytes) : crc16USB crc data = crc16_bitwise crc data.
Proof.
  unfold crc16USB, crc16_bitwise. revert crc. induction data as [|x data IH]; intros crc; [done|].
  cbn [fold_left]. by rewrite crc16_step_bitwise, IH.
Qed.

(** *** Alignment *)

Lemma align_up_spec v k : 0 <= k -> align_up v (2 ^ k) = 2 ^ k * ((v + 2 ^ k - 1) / 2 ^ k).
Proof.
  intros Hk. change (align_up v (2 ^ k)) with (align_down (v + 2 ^ k - 1) (2 ^ k)).
  rewrite align_down_spec by done. pose proof (Z.div_mod (v + 2 ^ k - 1) (2 ^ k)). lia.
Qed.

Lemma align_pot_loop_spec fuel j v :
  0 <= j -> (j <= Z.log2_up v) -> (Z.to_nat (Z.log2_up v - j) <= fuel)%nat ->
  align_pot_loop fuel (2 ^ j) v = 2 ^ Z.log2_up v.
Proof.
  revert j. induction fuel as [|k IH]; intros j Hj Hle Hf.
  { simpl. f_equal. lia. }
  simpl. destruct (Z.ltb_spec (2 ^ j) v) as [Hlt|Hge].
  - replace (2 ^ j * 2) with (2 ^ (j + 1)) by (rewrite Z.pow_add_r; lia).
    assert (j < Z.log2_up v). { apply Z.log2_up_lt_pow2; lia. }
    apply IH; lia.
  - f_equal. destruct (Z.eq_dec j (Z.log2_up v)) as [->|Hne]; [done|].
    assert (Hlt : j < Z.log2_up v) by lia.
    assert (1 < v). { destruct (Z.le_gt_cases v 1) as [Hv|]; [|done]. rewrite Z.log2_up_eqn0 in Hlt by done. lia. }
    apply Z.log2_up_lt_pow2 in Hlt; lia.
Qed.

(** The alignment helpers: for a power-of-two [a], [align_down] and [align_up]
    are the nearest multiples of [a] below and above; [align_pot v] is the least
    power of two that is at least [v] (and 1 for [v <= 1]); its loop ends. *)
Theorem alignment_helpers (v k : Z) (Hk : 0 <= k) :
  let a := 2 ^ k in
  (align_down v a mod a = 0 /\ align_down v a <= v < align_down v a + a) /\
  (align_up v a mod a = 0 /\ v <= align_up v a < v + a) /\
  (exists j, 0 <= j /\ align_pot v = 2 ^ j /\ v <= 2 ^ j /\ forall i, 0 <= i -> v <= 2 ^ i -> 2 ^ j <= 2 ^ i).
Proof.
  intros a. assert (Ha : 0 < a) by (apply Z.pow_pos_nonneg; lia).
  pose proof (align_down_spec v k Hk) as Hd. pose proof (align_up_spec v k Hk) as Hu. fold a in Hd, Hu.
  rewrite Hd, Hu. split_and!.
  - rewrite Zminus_mod_idemp_r, Z.sub_diag. apply Z.mod_0_l. lia.
  - pose proof (Z.mod_pos_bound v a Ha). lia.
  - pose proof (Z.mod_pos_bound v a Ha). lia.
  - rewrite Z.mul_comm. apply Z.mod_mul. lia.
  - pose proof (Z.div_mod (v + a - 1) a ltac:(lia)). pose proof (Z.mod_pos_bound (v + a - 1) a Ha). lia.
  - pose proof (Z.div_mod (v + a - 1) a ltac:(lia)). pose proof (Z.mod_pos_bound (v + a - 1) a Ha). lia.
  - exists (Z.log2_up v). pose proof (Z.log2_up_nonneg v). split_and!; [done| | |].
    + unfold align_pot. change 1 with (2 ^ 0). apply align_pot_loop_spec; lia.
    + destruct (Z.le_gt_cases v 1); [pose proof (Z.pow_pos_nonneg 2 (Z.log2_up v)); lia|].
      by apply Z.log2_up_spec.
    + intros i Hi Hv. apply Z.pow_le_mono_r; [lia|].
      destruct (Z.le_gt_cases v 1); [rewrite Z.log2_up_eqn0 by done; lia|].
      by apply Z.log2_up_le_pow2; [lia|].
Qed.

Lemma alignment_helpers_witness :
  (align_down 20000 16384 mod 16384 = 0 /\ align_down 20000 16384 <= 20000 < align_down 20000 16384 + 16384) /\
  (align_up 20000 16384 mod 16384 = 0 /\ 20000 <= align_up 20000 16384 < 20000 + 16384) /\
  (exists j, 0 <= j /\ align_pot 20000 = 2 ^ j /\ 20000 <= 2 ^ j /\ forall i, 0 <= i -> 20000 <= 2 ^ i -> 2 ^ j <= 2 ^ i).
Proof. apply (alignment_helpers 20000 14). lia. Defined.

(** *** Hexadecimal text *)

Lemma hex_char_val d : 0 <= d < 16 -> hex_val (hex_char d) = Some d /\ is_space (hex_char d) = false /\
  (byte_to_Z (hex_char d) =? 47) = false /\ (byte_to_Z (hex_char d) =? 10) = false /\ (byte_to_Z (hex_char d) =? 32) = false.
Proof.
  intros Hd. assert (Hc : d = 0 \/ d = 1 \/ d = 2 \/ d = 3 \/ d = 4 \/ d = 5 \/ d = 6 \/ d = 7 \/ d = 8 \/ d = 9 \/
    d = 10 \/ d = 11 \/ d = 12 \/ d = 13 \/ d = 14 \/ d = 15) by lia.
  repeat (destruct Hc as [->|Hc]; [vm_compute; auto|]). subst d. vm_compute. auto.
Qed.

Lemma hex_digits_range b : 0 <= byte_to_Z b / 16 < 16 /\ 0 <= byte_to_Z b mod 16 < 16.
Proof. pose proof (byte_to_Z_range b). split; [split; [apply Z.div_pos|apply Z.div_lt_upper_bound]; lia|apply Z.mod_pos_bound; lia]. Qed.

Lemma fromhex_hex2 b s : fromhex (hex2 b ++ s) = (let? t := fromhex s in Ok (b :: t)).
Proof.
  destruct (hex_digits_range b) as [Hh Hl]. unfold hex2.
  destruct (hex_char_val _ Hh) as (Eh & Sh & _). destruct (hex_char_val _ Hl) as (El & _).
  cbn [app fromhex]. rewrite Sh, Eh, El. destruct (fromhex s); [|done]. cbn [rbind]. do 2 f_equal.
  rewrite <- (Z.div_mod (byte_to_Z b) 16) by lia. apply byte_of_to_Z.
Qed.

Lemma fromhex_concat s : fromhex (concat (map hex2 s)) = Ok s.
Proof. induction s as [|b s IH]; [done|]. cbn [map concat]. by rewrite fromhex_hex2, IH. Qed.

Lemma strip_comments_id fuel s :
  Forall (fun c => (byte_to_Z c =? 47) = false) s -> strip_comments fuel s = s.
Proof.
  intros Hs. revert fuel. induction Hs as [|c r Hc _ IH]; intros [|k]; try done.
  destruct r as [|d r']; [done|]. cbn [strip_comments]. rewrite Hc. cbn [andb]. f_equal. apply IH.
Qed.

Definition blank (c : byte) : bool := (byte_to_Z c =? 32) || (byte_to_Z c =? 10).

Lemma filter_hex2 b : List.filter (fun c => negb (blank c)) (hex2 b) = hex2 b.
Proof.
  destruct (hex_digits_range b) as [Hh Hl].
  destruct (hex_char_val _ Hh) as (_ & _ & _ & H1 & H2). destruct (hex_char_val _ Hl) as (_ & _ & _ & H3 & H4).
  unfold hex2, blank. cbn [List.filter]. by rewrite H1, H2, H3, H4.
Qed.

Lemma join_cons2 sep x y l : join sep (x :: y :: l) = x ++ sep ++ join sep (y :: l).
Proof. done. Qed.

Lemma filter_join sep s :
  forallb blank sep = true ->
  List.filter (fun c => negb (blank c)) (join sep (map hex2 s)) = concat (map hex2 s).
Proof.
  intros Hsep.
  assert (Hse : List.filter (fun c => negb (blank c)) sep = []).
  { clear s. induction sep as [|c sep IH]; [done|]. simpl in *. apply andb_true_iff in Hsep as [-> Hs]. by apply IH. }
  induction s as [|b s IH]; [done|]. destruct s as [|b' s].
  - cbn [map join concat]. by rewrite filter_hex2, app_nil_r.
  - cbn [map] in *. rewrite join_cons2, !List.filter_app, filter_hex2, Hse, IH. done.
Qed.

Lemma Forall_join (P : byte -> Prop) sep l :
  Forall P sep -> Forall (Forall P) l -> Forall P (join sep l).
Proof.
  intros Hs Hl. induction Hl as [|x l Hx Hl IH]; [constructor|].
  destruct l as [|y l]; [done|]. rewrite join_cons2, !Forall_app. auto.
Qed.

(** [unhex] reads back what [hexdump] prints, with any blank separator (spaces,
    newlines or nothing): the bytes are exactly recovered. *)
Theorem unhex_hexdump (s sep : bytes) (Hsep : forallb blank sep = true) :
  unhex (hexdump s sep) = Ok s.
Proof.
  unfold unhex, hexdump. rewrite strip_comments_id.
  - change (fun c => negb ((byte_to_Z c =? 32) || (byte_to_Z c =? 10))) with (fun c => negb (blank c)).
    rewrite filter_join by done. apply fromhex_concat.
  - apply Forall_join.
    + apply List.Forall_forall. intros c Hc. rewrite forallb_forall in Hsep. specialize (Hsep c Hc).
      unfold blank in Hsep. apply orb_true_iff in Hsep as [E|E]; apply Z.eqb_eq in E; by rewrite E.
    + apply List.Forall_forall. intros x (b & <- & _)%in_map_iff.
      destruct (hex_digits_range b) as [Hh Hl].
      destruct (hex_char_val _ Hh) as (_ & _ & H1 & _). destruct (hex_char_val _ Hl) as (_ & _ & H2 & _).
      by repeat constructor.
Qed.

Lemma unhex_hexdump_witness : unhex (hexdump [Byte.x00; Byte.xff; Byte.x7a] [SPACE]) = Ok [Byte.x00; Byte.xff; Byte.x7a].
Proof. apply (unhex_hexdump [Byte.x00; Byte.xff; Byte.x7a] [SPACE]). reflexivity. Defined.
