(* ===== verification/Registers.v ===== *)
(** * proxyclient/m1n1/utils.py: [Register], [NdRange], [RegMap] and accessors

    A register class is its ordered table of named bit fields; a register object
    is its integer value.  Register maps keep the three class tables the
    metaclass builds (by address, by range, by name); register accesses go
    through the interface [RegBackend] of whatever reads and writes the hardware. *)

From S2P Require Import Prelude Bytes RangeMap.
From Stdlib Require Import ZArith Lia.
From Stdlib Require Import Strings.Byte.
From stdpp Require Import base list numbers strings gmap.

Local Open Scope Z_scope.

(** ** Fields *)

(** The third component of a field tuple: [int], a [Constant], an [Enum]
    (its values), or any other callable applied to the field value. *)
Inductive ftype :=
| TInt
| TConst (v : Z)
| TEnum (vals : list Z)
| TCall (f : Z -> result Z).

Inductive field :=
| FBit (bit : Z)
| FBits (msb lsb : Z) (t : ftype).

Record reg_class := RegClass {
  rc_width : Z;
  rc_fields : list (string * field)
}.

(** [Constant.__call__] asserts; an [Enum] rejects unknown values. *)
Definition ftype_call (t : ftype) (v : Z) : result Z :=
  match t with
  | TInt => Ok v
  | TConst c => if v =? c then Ok v else Raise AssertionError
  | TEnum vals => if existsb (Z.eqb v) vals then Ok v else Raise (ValueError "not a valid enum value")
  | TCall f => f v
  end.

(** Shifts by a negative count raise. *)
Definition py_shl (a n : Z) : result Z := if n <? 0 then Raise (ValueError "negative shift count") else Ok (Z.shiftl a n).
Definition py_shr (a n : Z) : result Z := if n <? 0 then Raise (ValueError "negative shift count") else Ok (Z.shiftr a n).

(** [__getattribute__] on a field. *)
Definition reg_get (f : field) (value : Z) : result Z :=
  match f with
  | FBit n => let? s := py_shr value n in Ok (Z.land s 1)
  | FBits msb lsb t =>
      let? s := py_shr value lsb in
      let? m := py_shl 1 (msb + 1 - lsb) in
      ftype_call t (Z.land s (m - 1))
  end.

(** [__setattr__] on a field. *)
Definition reg_set (f : field) (fvalue value : Z) : result Z :=
  match f with
  | FBit n =>
      let? m := py_shl 1 n in
      let? v := py_shl (Z.land fvalue 1) n in
      Ok (Z.lor (Z.land value (Z.lnot m)) v)
  | FBits msb lsb _ =>
      let? m := py_shl 1 (msb + 1 - lsb) in
      let mask := m - 1 in
      let? mm := py_shl mask lsb in
      let? v := py_shl (Z.land fvalue mask) lsb in
      Ok (Z.lor (Z.land value (Z.lnot mm)) v)
  end.

Definition find_field (c : reg_class) (k : string) : option field :=
  match List.find (fun e => String.eqb (fst e) k) (rc_fields c) with Some e => Some (snd e) | None => None end.

Definition reg_getattr (c : reg_class) (k : string) (value : Z) : result Z :=
  match find_field c k with Some f => reg_get f value | None => Raise (AttributeError "no such attribute") end.
Definition reg_setattr (c : reg_class) (k : string) (v value : Z) : result Z :=
  match find_field c k with Some f => reg_set f v value | None => Raise (AttributeError "no such attribute") end.

(** The loops of [__init__]. *)
Fixpoint reg_validate (fs : list (string * field)) (value : Z) : result unit :=
  match fs with
  | [] => Ok tt
  | (_, f) :: r => let? _ := reg_get f value in reg_validate r value
  end.

Fixpoint set_constants (fs : list (string * field)) (value : Z) : result Z :=
  match fs with
  | [] => Ok value
  | (_, f) :: r =>
      let? value := match f with FBits _ _ (TConst c) => reg_set f c value | _ => Ok value end in
      set_constants r value
  end.

Fixpoint set_kwargs (c : reg_class) (kw : list (string * Z)) (value : Z) : result Z :=
  match kw with
  | [] => Ok value
  | (k, v) :: r => let? value := reg_setattr c k v value in set_kwargs c r value
  end.

Definition reg_init (c : reg_class) (v : option Z) (kw : list (string * Z)) : result Z :=
  let? value := match v with
                | Some v => let? _ := reg_validate (rc_fields c) v in Ok v
                | None => set_constants (rc_fields c) 0
                end in
  set_kwargs c kw value.

(** [fields]: every field in order. *)
Fixpoint reg_fields_of (fs : list (string * field)) (value : Z) : result (list (string * Z)) :=
  match fs with
  | [] => Ok []
  | (k, f) :: r => let? v := reg_get f value in let? t := reg_fields_of r value in Ok ((k, v) :: t)
  end.
Definition reg_fields (c : reg_class) (value : Z) := reg_fields_of (rc_fields c) value.
Definition reg_copy (c : reg_class) (value : Z) : result Z := reg_init c (Some value) [].

(** [RegAdapter]: the struct code of the register width. *)
Definition adapter_size (c : reg_class) : result nat :=
  if rc_width c =? 64 then Ok 8%nat else if rc_width c =? 32 then Ok 4%nat
  else if rc_width c =? 16 then Ok 2%nat else if rc_width c =? 8 then Ok 1%nat
  else Raise (ValueError "Invalid reg width").
Definition adapter_parse (c : reg_class) (d : bytes) : result Z :=
  let? n := adapter_size c in
  let? v := unpack_u n 0 d in
  reg_init c (Some v) [].
Definition adapter_build (c : reg_class) (value : Z) : result bytes :=
  let? n := adapter_size c in pack_u n value.

(** ** Register accessors *)

(** What an accessor uses of its backend: [read(addr, width)] and
    [write(addr, value, width)]. *)
Class RegBackend (S : Type) := {
  bk_read : Z -> Z -> M S Z;
  bk_write : Z -> Z -> Z -> M S unit
}.

Record accessor := Accessor { ac_cls : reg_class; ac_addr : Z }.

Section Accessors.
Context {S : Type} `{!RegBackend S}.

Definition acc_val (a : accessor) : M S Z := bk_read (ac_addr a) (rc_width (ac_cls a)).
Definition acc_val_set (a : accessor) (v : Z) : M S unit := bk_write (ac_addr a) v (rc_width (ac_cls a)).
Definition acc_reg (a : accessor) : M S Z :=
  let! v := acc_val a in py_lift (reg_init (ac_cls a) (Some v) []).
Definition acc_reg_set (a : accessor) (value : Z) : M S unit := acc_val_set a value.
Definition acc_set (a : accessor) (kw : list (string * Z)) : M S unit :=
  let! r := acc_reg a in
  let! r := py_lift (set_kwargs (ac_cls a) kw r) in
  bk_write (ac_addr a) r (rc_width (ac_cls a)).
End Accessors.

(** ** [NdRange]: the addresses of a register array *)

(** A Python [range] with a positive step. *)
Record prange := PRange { pr_start : Z; pr_stop : Z; pr_step : Z }.
Definition pr_len (r : prange) : nat :=
  if pr_start r <? pr_stop r then Z.to_nat ((pr_stop r - pr_start r - 1) / pr_step r + 1) else O.
Definition pr_at (r : prange) (i : nat) : Z := pr_start r + Z.of_nat i * pr_step r.
Definition pr_enum (r : prange) : list (nat * Z) := map (fun i => (i, pr_at r i)) (seq 0 (pr_len r)).
(** [r[0]] and [r[-1]]. *)
Definition pr_first (r : prange) : result Z := if Nat.eqb (pr_len r) 0 then Raise IndexError else Ok (pr_at r 0).
Definition pr_last (r : prange) : result Z := if Nat.eqb (pr_len r) 0 then Raise IndexError else Ok (pr_at r (pr_len r - 1)).

Definition irange (start count step : Z) : prange := {| pr_start := start; pr_stop := start + count * step; pr_step := step |}.

Record ndrange := NdRange {
  nd_ranges : list prange;
  nd_start : Z;
  nd_stop : Z;
  nd_rev : gmap Z (list nat)
}.

(** The loop that gives step-1 ranges the register's own step. *)
Fixpoint nd_steps (min_step least : Z) (rs : list prange) : result (list prange * Z) :=
  match rs with
  | [] => Ok ([], least)
  | r :: rest =>
      if pr_step r =? 1 then
        let? '(l, least) := nd_steps min_step min_step rest in
        Ok ({| pr_start := pr_start r; pr_stop := pr_stop r; pr_step := min_step |} :: l, least)
      else if pr_step r <? min_step then Raise AssertionError
      else let? '(l, least) := nd_steps min_step (Z.min least (pr_step r)) rest in Ok (r :: l, least)
  end.

Fixpoint sum_results (f : prange -> result Z) (rs : list prange) : result Z :=
  match rs with
  | [] => Ok 0
  | r :: rest => let? a := f r in let? b := sum_results f rest in Ok (a + b)
  end.

(** [itertools.product] of the enumerated ranges: index tuples and addresses. *)
Fixpoint nd_product (rs : list prange) : list (list nat * Z) :=
  match rs with
  | [] => [([], 0)]
  | r :: rest => flat_map (fun '(i, a) => map (fun '(ix, b) => (i :: ix, a + b)) (nd_product rest)) (pr_enum r)
  end.

Definition nd_rev_of (l : list (list nat * Z)) : gmap Z (list nat) :=
  fold_left (fun m '(ix, a) => <[a := ix]> m) l ∅.

Definition nd_init (rs : list prange) (min_step : Z) : result ndrange :=
  match rs with
  | [] => Raise IndexError
  | r0 :: _ =>
      let? '(ranges, least) := nd_steps min_step (pr_step r0) rs in
      let? start := sum_results pr_first ranges in
      let? last := sum_results pr_last ranges in
      Ok {| nd_ranges := ranges; nd_start := start; nd_stop := last + least;
            nd_rev := nd_rev_of (nd_product ranges) |}
  end.

Definition nd_index (nd : ndrange) (item : Z) : result (list nat) :=
  match nd_rev nd !! item with Some ix => Ok ix | None => Raise (KeyError "address") end.
Definition nd_len (nd : ndrange) : Z := nd_stop nd - nd_start nd.
Definition nd_contains (nd : ndrange) (item : Z) : bool := bool_decide (is_Some (nd_rev nd !! item)).

(** [__getitem__] with one non-negative integer per dimension. *)
Fixpoint nd_sum (rs : list prange) (ix : list nat) : result Z :=
  match rs, ix with
  | r :: rs, i :: ix => if Nat.ltb i (pr_len r) then let? b := nd_sum rs ix in Ok (pr_at r i + b) else Raise IndexError
  | _, _ => Ok 0
  end.
Definition nd_getitem (nd : ndrange) (ix : list nat) : result Z :=
  if negb (Nat.eqb (length (nd_ranges nd)) (length ix)) then Raise AssertionError
  else nd_sum (nd_ranges nd) ix.

(** ** [RegMap] *)

(** A declaration [NAME = addr, RegClass]: one address, or an array. *)
Inductive reg_addr := RScalar (addr : Z) | RArray (rs : list prange).
Record reg_decl := RegDecl { rd_name : string; rd_addr : reg_addr; rd_cls : reg_class }.

(** What [_namemap] keeps: the array address as an [NdRange]. *)
Inductive map_addr := MScalar (addr : Z) | MArray (nd : ndrange).

(** The class tables.  An entry of [_rngmap] is named by the position of its
    declaration, which indexes [rg_arrays]. *)
Record reg_map := RegMap {
  rg_addrmap : gmap Z (string * reg_class);
  rg_rngmap : rangemap (gset nat);
  rg_namemap : gmap string (map_addr * reg_class);
  rg_arrays : list (ndrange * string * reg_class)
}.

Definition reg_map_empty : reg_map :=
  {| rg_addrmap := ∅; rg_rngmap := rm_empty; rg_namemap := ∅; rg_arrays := [] |}.

(** One iteration of [RegMapMeta.__new__]. *)
Definition reg_map_add (d : reg_decl) (m : reg_map) : result reg_map :=
  match rd_addr d with
  | RScalar addr =>
      Ok {| rg_addrmap := <[addr := (rd_name d, rd_cls d)]> (rg_addrmap m); rg_rngmap := rg_rngmap m;
            rg_namemap := <[rd_name d := (MScalar addr, rd_cls d)]> (rg_namemap m); rg_arrays := rg_arrays m |}
  | RArray rs =>
      let? nd := nd_init rs (rc_width (rd_cls d) / 8) in
      let? rng := set_add (ZRange (nd_start nd) (nd_stop nd)) (length (rg_arrays m)) (rg_rngmap m) in
      Ok {| rg_addrmap := rg_addrmap m; rg_rngmap := rng;
            rg_namemap := <[rd_name d := (MArray nd, rd_cls d)]> (rg_namemap m);
            rg_arrays := rg_arrays m ++ [(nd, rd_name d, rd_cls d)] |}
  end.

Fixpoint reg_map_build (ds : list reg_decl) (m : reg_map) : result reg_map :=
  match ds with
  | [] => Ok m
  | d :: r => let? m := reg_map_add d m in reg_map_build r m
  end.

(** [_lookup_offset]: [order] is the iteration order of a Python set. *)
Definition lookup_offset (order : gset nat -> list nat) (m : reg_map) (offset : Z)
    : option (string * option (list nat) * reg_class) :=
  match rg_addrmap m !! offset with
  | Some (name, cls) => Some (name, None, cls)
  | None =>
      let hits := omap (fun i => match rg_arrays m !! i with
                                 | Some (nd, name, cls) =>
                                     match nd_rev nd !! offset with
                                     | Some ix => Some (name, Some ix, cls) | None => None end
                                 | None => None
                                 end) (order (set_getitem offset (rg_rngmap m))) in
      head hits
  end.

Definition lookup_addr (order : gset nat -> list nat) (m : reg_map) (base addr : Z) :=
  lookup_offset order m (addr - base).

Definition lookup_name (m : reg_map) (name : string) : option (map_addr * reg_class) := rg_namemap m !! name.

(** [BaseRegMap.__init__] and [RegArrayAccessor.__getitem__]: the accessor of a
    name, or of an element of an array. *)
Definition map_accessor (m : reg_map) (base : Z) (name : string) (ix : option (list nat)) : result accessor :=
  match rg_namemap m !! name, ix with
  | Some (MScalar a, cls), None => Ok {| ac_cls := cls; ac_addr := base + a |}
  | Some (MArray nd, cls), Some ix => let? off := nd_getitem nd ix in Ok {| ac_cls := cls; ac_addr := base + off |}
  | _, _ => Raise (KeyError "name")
  end.

(** ** Bit-level specification of fields *)

Definition f_lsb (f : field) : Z := match f with FBit n => n | FBits _ l _ => l end.
Definition f_msb (f : field) : Z := match f with FBit n => n | FBits m _ _ => m end.
Definition f_type (f : field) : ftype := match f with FBit _ => TInt | FBits _ _ t => t end.
Definition f_size (f : field) : Z := f_msb f + 1 - f_lsb f.

(** A field with at least no negative shift: the only fields whose accesses do
    not raise by themselves. *)
Definition field_ok (f : field) : Prop := 0 <= f_lsb f /\ f_lsb f <= f_msb f + 1.
Definition in_field (f : field) (n : Z) : bool := (f_lsb f <=? n) && (n <=? f_msb f).
Definition disjoint_fields (f g : field) : Prop := f_msb f < f_lsb g \/ f_msb g < f_lsb f.

(** The raw bits of a field. *)
Definition f_raw (f : field) (value : Z) : Z := Z.shiftr value (f_lsb f) mod 2 ^ f_size f.

Lemma reg_get_raw f value : field_ok f -> reg_get f value = ftype_call (f_type f) (f_raw f value).
Proof.
  intros [H1 H2]. unfold f_raw, f_size. destruct f as [n|m l t]; simpl in *; unfold py_shr, py_shl.
  - destruct (Z.ltb_spec n 0); [lia|]. cbn [rbind]. f_equal. change 1 with (Z.ones 1) at 1.
    rewrite Z.land_ones by lia. do 2 f_equal. lia.
  - destruct (Z.ltb_spec l 0); [lia|]. destruct (Z.ltb_spec (m + 1 - l) 0); [lia|]. cbn [rbind].
    rewrite <- Z.land_ones, Z.ones_equiv, Z.shiftl_1_l, Z.sub_1_r by lia. done.
Qed.

Lemma testbit_raw f value n :
  field_ok f -> 0 <= n -> Z.testbit (f_raw f value) n = (n <? f_size f) && Z.testbit value (n + f_lsb f).
Proof.
  intros [H1 H2] Hn. unfold f_raw, f_size in *. rewrite Z.testbit_mod_pow2 by lia. by rewrite Z.shiftr_spec.
Qed.

(** The bits a field assignment leaves. *)
Lemma reg_set_bits f v value :
  field_ok f -> exists value', reg_set f v value = Ok value' /\
    forall n, 0 <= n -> Z.testbit value' n = if in_field f n then Z.testbit v (n - f_lsb f) else Z.testbit value n.
Proof.
  intros [H1 H2]. unfold in_field.
  assert (Hm : forall s l, 0 <= s -> 0 <= l ->
    forall n, 0 <= n -> Z.testbit (Z.lor (Z.land value (Z.lnot (Z.shiftl (Z.ones s) l))) (Z.shiftl (Z.land v (Z.ones s)) l)) n
    = if (l <=? n) && (n <? l + s) then Z.testbit v (n - l) else Z.testbit value n).
  { intros s l Hs Hl n Hn. rewrite Z.lor_spec, Z.land_spec, Z.lnot_spec by done.
    destruct (Z.leb_spec l n).
    - rewrite !Z.shiftl_spec_high, Z.land_spec by lia. destruct (Z.ltb_spec n (l + s)); cbn [andb].
      + rewrite Z.ones_spec_low by lia. by rewrite andb_false_r, andb_true_r.
      + rewrite Z.ones_spec_high by lia. by rewrite !andb_false_r, andb_true_r, orb_false_r.
    - rewrite !Z.shiftl_spec_low by lia. by rewrite andb_true_r, orb_false_r. }
  destruct f as [n|m l t]; simpl in *; unfold py_shl.
  - destruct (Z.ltb_spec n 0); [lia|]. cbn [rbind]. eexists. split; [done|]. intros k Hk.
    change 1 with (Z.ones 1) at 1 2. rewrite Hm by lia.
    replace (k <? n + 1) with (k <=? n); [done|]. destruct (Z.leb_spec k n), (Z.ltb_spec k (n + 1)); auto; lia.
  - destruct (Z.ltb_spec (m + 1 - l) 0); [lia|]. destruct (Z.ltb_spec l 0); [lia|]. cbn [rbind].
    eexists. split; [done|]. intros k Hk.
    rewrite Z.shiftl_1_l, Z.sub_1_r, <- Z.ones_equiv, Hm by lia.
    replace (k <? l + (m + 1 - l)) with (k <=? m); [done|].
    destruct (Z.leb_spec k m), (Z.ltb_spec k (l + (m + 1 - l))); auto; lia.
Qed.

Lemma in_field_shift f n : field_ok f -> 0 <= n -> in_field f (n + f_lsb f) = (n <? f_size f).
Proof.
  intros [H1 H2] Hn. unfold in_field, f_size.
  destruct (Z.leb_spec (f_lsb f) (n + f_lsb f)), (Z.leb_spec (n + f_lsb f) (f_msb f)),
    (Z.ltb_spec n (f_msb f + 1 - f_lsb f)); simpl; auto; lia.
Qed.

Lemma f_raw_ext f a b :
  field_ok f -> (forall n, 0 <= n -> in_field f n = true -> Z.testbit a n = Z.testbit b n) -> f_raw f a = f_raw f b.
Proof.
  intros Hf H. apply Z.bits_inj'. intros n Hn. rewrite !testbit_raw by done. destruct Hf as [H1 H2].
  destruct (Z.ltb_spec n (f_size f)) as [Hlt|]; [|done]. cbn [andb]. apply H; [lia|].
  rewrite in_field_shift by (done || lia). by apply Z.ltb_lt.
Qed.

Lemma disjoint_in f g n : disjoint_fields f g -> in_field g n = true -> in_field f n = false.
Proof.
  unfold disjoint_fields, in_field. intros Hd Hg. zbool.
  apply andb_false_iff. destruct (Z.leb_spec (f_lsb f) n), (Z.leb_spec n (f_msb f)); auto; lia.
Qed.

Lemma reg_set_raw f v value value' :
  field_ok f -> reg_set f v value = Ok value' ->
  f_raw f value' = v mod 2 ^ f_size f /\
  (forall g, field_ok g -> disjoint_fields f g -> f_raw g value' = f_raw g value).
Proof.
  intros Hf E. destruct (reg_set_bits f v value Hf) as (w & E' & Hb). assert (w = value') as -> by congruence.
  split.
  - destruct Hf as [H1 H2]. apply Z.bits_inj'. intros n Hn. rewrite testbit_raw by done.
    unfold f_size in *. rewrite Z.testbit_mod_pow2 by lia. destruct (Z.ltb_spec n (f_msb f + 1 - f_lsb f)); [|done].
    cbn [andb]. rewrite Hb by lia. rewrite in_field_shift by (done || lia). unfold f_size.
    rewrite (proj2 (Z.ltb_lt _ _)) by lia. f_equal. lia.
  - intros g Hg Hd. apply f_raw_ext; [done|]. intros n Hn Hin. rewrite Hb by done.
    by rewrite (disjoint_in f g n Hd Hin).
Qed.

Lemma reg_set_range f v value value' width :
  field_ok f -> f_msb f < width -> 0 <= width -> 0 <= value < 2 ^ width -> reg_set f v value = Ok value' ->
  0 <= value' < 2 ^ width.
Proof.
  intros Hf Hw Hwd Hv E. destruct (reg_set_bits f v value Hf) as (w & E' & Hb). assert (w = value') as -> by congruence.
  assert (Hmod : value' = value' mod 2 ^ width); [|rewrite Hmod; apply Z.mod_pos_bound; lia].
  apply Z.bits_inj'. intros n Hn. rewrite Z.testbit_mod_pow2 by lia.
  destruct (Z.ltb_spec n width); [done|]. rewrite Hb by done. unfold in_field.
  rewrite (proj2 (Z.leb_gt n (f_msb f))) by lia. rewrite andb_false_r.
  rewrite <- (Z.mod_small value (2 ^ width)), Z.testbit_mod_pow2 by lia.
  by rewrite (proj2 (Z.ltb_ge n width)).
Qed.

(** Register fields behave as independent variables: assigning a field never
    raises, the field then reads back the assigned value truncated to its width
    (passed through the field's type), every other field that does not share a
    bit with it is unchanged, and so is every bit outside the field; a register
    value that fits the register width still fits it. *)
Theorem register_field_laws (f : field) (v value width : Z)
    (Hf : field_ok f) (Hw : f_msb f < width) (Hv : 0 <= value < 2 ^ width) :
  exists value', reg_set f v value = Ok value' /\
    reg_get f value' = ftype_call (f_type f) (v mod 2 ^ f_size f) /\
    (forall g, field_ok g -> disjoint_fields f g -> reg_get g value' = reg_get g value) /\
    (forall n, 0 <= n -> in_field f n = false -> Z.testbit value' n = Z.testbit value n) /\
    0 <= value' < 2 ^ width.
Proof.
  destruct (reg_set_bits f v value Hf) as (value' & E & Hb). exists value'.
  destruct (reg_set_raw f v value value' Hf E) as [Hr Ho].
  assert (Hwd : 0 <= width) by (destruct Hf; lia).
  split; [done|]. split; [by rewrite reg_get_raw, Hr|]. split; [|split].
  - intros g Hg Hd. rewrite !reg_get_raw by done. by rewrite (Ho g Hg Hd).
  - intros n Hn Hin. by rewrite Hb, Hin.
  - by apply (reg_set_range f v value).
Qed.

Lemma register_field_laws_witness :
  exists value', reg_set (FBits 36 32 TInt) 0x3f 0xff00000000 = Ok value' /\
    reg_get (FBits 36 32 TInt) value' = ftype_call TInt (0x3f mod 2 ^ 5) /\
    (forall g, field_ok g -> disjoint_fields (FBits 36 32 TInt) g -> reg_get g value' = reg_get g 0xff00000000) /\
    (forall n, 0 <= n -> in_field (FBits 36 32 TInt) n = false -> Z.testbit value' n = Z.testbit 0xff00000000 n) /\
    0 <= value' < 2 ^ 64.
Proof. apply (register_field_laws (FBits 36 32 TInt) 0x3f 0xff00000000 64); [split; simpl; lia|simpl; lia|lia]. Defined.

(** ** Building and updating whole registers *)

Definition plain (t : ftype) : bool := match t with TCall _ => false | _ => true end.

Record class_wf (c : reg_class) : Prop := {
  cw_names : NoDup (map fst (rc_fields c));
  cw_ok : Forall (fun e => field_ok (snd e)) (rc_fields c);
  cw_width : Forall (fun e => f_msb (snd e) < rc_width c) (rc_fields c)
}.

(** No bit of [value] outside the declared fields. *)
Definition covered (c : reg_class) (value : Z) : Prop :=
  forall n, 0 <= n -> Z.testbit value n = true -> existsb (fun e => in_field (snd e) n) (rc_fields c) = true.

Lemma find_field_In c k f : NoDup (map fst (rc_fields c)) -> In (k, f) (rc_fields c) -> find_field c k = Some f.
Proof.
  unfold find_field. induction (rc_fields c) as [|[k' f'] l IH]; [done|]. cbn [map List.find fst].
  intros [Hn Hl]%NoDup_cons Hin. destruct (String.eqb_spec k' k) as [->|Hne].
  - destruct Hin as [[= ->]|Hin]; [done|]. exfalso. apply Hn, list_elem_of_In.
    apply in_map_iff. by exists (k, f).
  - destruct Hin as [[= -> ->]|Hin]; [done|]. by apply IH.
Qed.

Lemma find_field_ok c k f : class_wf c -> find_field c k = Some f -> field_ok f /\ f_msb f < rc_width c.
Proof.
  intros [_ Ho Hw]. unfold find_field. destruct (List.find _ _) as [[k' f']|] eqn:E; [|done].
  intros [= <-]. apply find_some in E as [E _]. rewrite List.Forall_forall in Ho, Hw.
  split; [apply (Ho _ E)|apply (Hw _ E)].
Qed.

Lemma reg_fields_raw fs value kw :
  Forall (fun e => field_ok (snd e)) fs -> Forall (fun e => plain (f_type (snd e)) = true) fs ->
  reg_fields_of fs value = Ok kw -> kw = map (fun e => (fst e, f_raw (snd e) value)) fs.
Proof.
  intros Ho Hp. revert kw. induction fs as [|[k f] fs IH]; intros kw E; [by injection E as <-|].
  inversion Ho as [|? ? Hf Ho']; subst. inversion Hp as [|? ? Hpf Hp']; subst. simpl in Hf, Hpf.
  cbn [reg_fields_of] in E. rewrite reg_get_raw in E by done.
  destruct (ftype_call (f_type f) (f_raw f value)) as [v|] eqn:Ef; [|done]. cbn [rbind] in E.
  destruct (reg_fields_of fs value) as [t|]; [|done]. injection E as <-. cbn [map fst snd]. f_equal.
  - f_equal. destruct (f_type f); simpl in Ef, Hpf; repeat case_match; congruence.
  - by apply IH.
Qed.

(** Assigning fields of [value] makes exactly their bits those of [value]. *)
Lemma set_kwargs_bits c value fs : forall acc,
  Forall (fun e => find_field c (fst e) = Some (snd e) /\ field_ok (snd e)) fs ->
  exists acc', set_kwargs c (map (fun e => (fst e, f_raw (snd e) value)) fs) acc = Ok acc' /\
    forall n, 0 <= n -> Z.testbit acc' n =
      if existsb (fun e => in_field (snd e) n) fs then Z.testbit value n else Z.testbit acc n.
Proof.
  induction fs as [|[k f] fs IH]; intros acc Hf; [by exists acc|].
  inversion Hf as [|? ? [Hk Ho] Hf']; subst. simpl in Hk, Ho. cbn [map fst snd set_kwargs].
  unfold reg_setattr. rewrite Hk. destruct (reg_set_bits f (f_raw f value) acc Ho) as (a1 & E1 & Hb1).
  rewrite E1. cbn [rbind]. destruct (IH a1 Hf') as (a2 & E2 & Hb2). exists a2. split; [done|].
  intros n Hn. rewrite Hb2 by done. cbn [existsb snd]. destruct (existsb _ fs); [by rewrite orb_true_r|].
  rewrite orb_false_r, Hb1 by done. destruct (in_field f n) eqn:Ei; [|done].
  unfold in_field in Ei. zbool. rewrite testbit_raw by (done || lia). unfold f_size.
  rewrite (proj2 (Z.ltb_lt _ _)) by lia. cbn [andb]. f_equal. lia.
Qed.

Lemma set_constants_outside fs : forall acc,
  Forall (fun e => field_ok (snd e)) fs ->
  exists acc', set_constants fs acc = Ok acc' /\
    forall n, 0 <= n -> existsb (fun e => in_field (snd e) n) fs = false -> Z.testbit acc' n = Z.testbit acc n.
Proof.
  induction fs as [|[k f] fs IH]; intros acc Ho; [by exists acc|].
  inversion Ho as [|? ? Hf Ho']; subst. simpl in Hf. cbn [set_constants].
  assert (Hstep : exists a1, match f with FBits _ _ (TConst c) => reg_set f c acc | _ => Ok acc end = Ok a1 /\
    forall n, 0 <= n -> in_field f n = false -> Z.testbit a1 n = Z.testbit acc n).
  { destruct f as [|m l [|c| |]]; try by exists acc.
    destruct (reg_set_bits (FBits m l (TConst c)) c acc Hf) as (a1 & E1 & Hb). exists a1. split; [done|].
    intros n Hn Hi. by rewrite Hb, Hi. }
  destruct Hstep as (a1 & -> & H1). cbn [rbind]. destruct (IH a1 Ho') as (a2 & E2 & H2). exists a2. split; [done|].
  intros n Hn Hx. cbn [existsb snd] in Hx. apply orb_false_iff in Hx as [Hx1 Hx2]. by rewrite H2, H1.
Qed.

(** A register is determined by its fields: when every bit of [value] lies in
    a declared field, rebuilding the register from the field values it reports
    ([fields], which is also what [repr] prints) gives back [value], constant
    fields included. *)
Theorem register_fields_roundtrip (c : reg_class) (value : Z) kw
    (Hc : class_wf c) (Hp : Forall (fun e => plain (f_type (snd e)) = true) (rc_fields c))
    (Hv : 0 <= value) (Hcov : covered c value) (Hkw : reg_fields c value = Ok kw) :
  reg_init c None kw = Ok value.
Proof.
  destruct Hc as [Hn Ho _]. unfold reg_fields in Hkw. apply reg_fields_raw in Hkw as ->; [|done|done].
  unfold reg_init. destruct (set_constants_outside (rc_fields c) 0 Ho) as (a0 & -> & H0). cbn [rbind].
  destruct (set_kwargs_bits c value (rc_fields c) a0) as (a1 & -> & H1).
  { apply List.Forall_forall. intros [k f] Hin. split; [by apply find_field_In|].
    rewrite List.Forall_forall in Ho. apply (Ho _ Hin). }
  f_equal. apply Z.bits_inj'. intros n Hn0. rewrite H1 by done.
  destruct (existsb _ (rc_fields c)) eqn:Ex; [done|]. rewrite (H0 n Hn0 Ex), Z.testbit_0_l.
  destruct (Z.testbit value n) eqn:Eb; [|done]. by rewrite (Hcov n Hn0 Eb) in Ex.
Qed.

(** A class of the same shape as the sources declare. *)
Definition demo_class : reg_class :=
  {| rc_width := 32; rc_fields := [("VALID"%string, FBit 31); ("KIND"%string, FBits 10 8 (TEnum [0; 1; 5]));
                                   ("MAGIC"%string, FBits 7 4 (TConst 0xa)); ("IDX"%string, FBits 3 0 TInt)] |}.

Lemma demo_class_wf : class_wf demo_class.
Proof.
  constructor; simpl; [|repeat constructor; simpl; lia|repeat constructor; simpl; lia].
  apply (bool_decide_unpack _). vm_compute. exact Logic.I.
Qed.

Lemma register_fields_roundtrip_witness : reg_init demo_class None
  [("VALID"%string, 1); ("KIND"%string, 5); ("MAGIC"%string, 0xa); ("IDX"%string, 7)] = Ok 0x800005a7.
Proof.
  apply (register_fields_roundtrip demo_class 0x800005a7).
  - apply demo_class_wf.
  - repeat constructor.
  - lia.
  - intros n Hn Hb. destruct (Z.lt_ge_cases n 32) as [Hlt|Hge].
    + assert (Hall : forallb (fun k => implb (Z.testbit 0x800005a7 (Z.of_nat k))
        (existsb (fun e => in_field (snd e) (Z.of_nat k)) (rc_fields demo_class))) (seq 0 32) = true)
        by (vm_compute; reflexivity).
      rewrite forallb_forall in Hall. specialize (Hall (Z.to_nat n)). rewrite in_seq in Hall.
      specialize (Hall ltac:(lia)). rewrite Z2Nat.id in Hall by lia. rewrite Hb in Hall. exact Hall.
    + change 0x800005a7 with (0x800005a7 mod 2 ^ 32) in Hb. rewrite Z.testbit_mod_pow2 in Hb by lia.
      rewrite (proj2 (Z.ltb_ge n 32)) in Hb by lia. discriminate Hb.
  - vm_compute. reflexivity.
Defined.

(** ** Read-modify-write through an accessor *)

Definition reg_width (w : Z) : Prop := w = 8 \/ w = 16 \/ w = 32 \/ w = 64.

(** What a backend promises when it is plain memory: reads have no effect,
    writes of a value of the access width store it and touch no byte outside. *)
Class RegMemory (S : Type) `{!RegBackend S} := {
  peek : S -> Z -> Z -> Z;
  bk_read_law s a w : bk_read a w s = (Ok (peek s a w), s);
  bk_peek_range s a w : reg_width w -> 0 <= peek s a w < 2 ^ w;
  bk_write_law s a v w : reg_width w -> 0 <= v < 2 ^ w ->
    exists s', bk_write a v w s = (Ok tt, s') /\ peek s' a w = v /\
      forall a' w', reg_width w' -> a + w / 8 <= a' \/ a' + w' / 8 <= a -> peek s' a' w' = peek s a' w'
}.

(** Byte memory is such a backend. *)
#[export] Instance byte_backend : RegBackend (Z -> byte) := {|
  bk_read := fun a w s => (Ok (le_Z (mem_read s a (Z.to_nat (w / 8)))), s);
  bk_write := fun a v w s => (Ok tt, mem_store a (le_bytes (Z.to_nat (w / 8)) v) s)
|}.

Lemma reg_width_bytes w : reg_width w -> Z.of_nat (Z.to_nat (w / 8)) = w / 8 /\ 256 ^ Z.of_nat (Z.to_nat (w / 8)) = 2 ^ w.
Proof. intros [->|[->|[->| ->]]]; by vm_compute. Qed.

#[export] Program Instance byte_memory : RegMemory (Z -> byte) := {|
  peek := fun s a w => le_Z (mem_read s a (Z.to_nat (w / 8)))
|}.
Next Obligation. done. Qed.
Next Obligation.
  intros s a w Hw. destruct (reg_width_bytes w Hw) as [_ E]. rewrite <- E.
  pose proof (le_Z_range (mem_read s a (Z.to_nat (w / 8)))) as Hr. unfold zlen in Hr. by rewrite length_mem_read in Hr.
Qed.
Next Obligation.
  intros s a v w Hw Hv. destruct (reg_width_bytes w Hw) as [En E]. eexists. split; [done|]. split.
  - rewrite <- (length_le_bytes (Z.to_nat (w / 8)) v) at 2. rewrite mem_read_store. apply le_Z_small. by rewrite E.
  - intros a' w' Hw' Hap. destruct (reg_width_bytes w' Hw') as [En' _]. f_equal. apply mem_read_store_apart.
    unfold zlen. rewrite length_le_bytes. lia.
Qed.

(** Field assignments keep a value of the register width and change only the
    bits of the named fields. *)
Lemma set_kwargs_effect c kw : forall value,
  class_wf c -> reg_width (rc_width c) -> 0 <= value < 2 ^ rc_width c ->
  Forall (fun e => is_Some (find_field c (fst e))) kw ->
  exists value', set_kwargs c kw value = Ok value' /\ 0 <= value' < 2 ^ rc_width c /\
    (forall n, 0 <= n ->
       (forall k v f, In (k, v) kw -> find_field c k = Some f -> in_field f n = false) ->
       Z.testbit value' n = Z.testbit value n).
Proof.
  induction kw as [|[k v] kw IH]; intros value Hc Hw Hv Hk; [by exists value|].
  inversion Hk as [|? ? [f Hf] Hk']; subst. simpl in Hf. destruct (find_field_ok c k f Hc Hf) as [Ho Hm].
  destruct (reg_set_bits f v value Ho) as (v1 & E1 & Hb1).
  assert (Hr1 : 0 <= v1 < 2 ^ rc_width c).
  { apply (reg_set_range f v value); try done. destruct Hw as [->|[->|[->| ->]]]; lia. }
  destruct (IH v1 Hc Hw Hr1 Hk') as (v2 & E2 & Hr2 & Hb2). exists v2.
  cbn [set_kwargs]. unfold reg_setattr. rewrite Hf, E1. cbn [rbind]. split; [done|]. split; [done|].
  intros n Hn Hout. rewrite Hb2 by (intros; eauto using in_cons). rewrite Hb1 by done.
  by rewrite (Hout k v f (or_introl eq_refl) Hf).
Qed.

(** Assignments to other fields leave a field alone; the last one decides. *)
Lemma set_kwargs_app c kw1 kw2 v : set_kwargs c (kw1 ++ kw2)%list v = (let? v := set_kwargs c kw1 v in set_kwargs c kw2 v).
Proof.
  revert v. induction kw1 as [|[k x] kw1 IH]; intros v; [done|]. cbn [app set_kwargs].
  destruct (reg_setattr c k x v); [apply IH|done].
Qed.

Definition elsewhere (c : reg_class) (f : field) (kw : list (string * Z)) : Prop :=
  Forall (fun e => exists g, find_field c (fst e) = Some g /\ field_ok g /\ disjoint_fields g f) kw.

Lemma set_kwargs_other c kw f : forall v v', field_ok f -> elsewhere c f kw ->
  set_kwargs c kw v = Ok v' -> f_raw f v' = f_raw f v.
Proof.
  induction kw as [|[k x] kw IH]; intros v v' Hf Hk E; [by injection E as <-|].
  inversion Hk as [|? ? (g & Hg & Hgo & Hd) Hk']; subst. cbn [set_kwargs] in E. unfold reg_setattr in E. simpl in Hg.
  rewrite Hg in E. destruct (reg_set g x v) as [v1|] eqn:E1; [|done]. cbn [rbind] in E.
  rewrite (IH v1 v' Hf Hk' E). by apply (reg_set_raw g x v v1 Hgo E1).
Qed.

Lemma set_kwargs_last c pre k x post f v v' : find_field c k = Some f -> field_ok f -> elsewhere c f post ->
  set_kwargs c (pre ++ (k, x) :: post)%list v = Ok v' -> f_raw f v' = x mod 2 ^ f_size f.
Proof.
  intros Hk Hf Hp E. rewrite set_kwargs_app in E. destruct (set_kwargs c pre v) as [v1|]; [|done]. cbn [rbind set_kwargs] in E.
  unfold reg_setattr in E. rewrite Hk in E. destruct (reg_set f x v1) as [v2|] eqn:E2; [|done]. cbn [rbind] in E.
  rewrite (set_kwargs_other c post f v2 v' Hf Hp E). by apply (reg_set_raw f x v1 v2 Hf E2).
Qed.

(** [RegAccessor.set] is a read-modify-write: on a backend that behaves as
    memory, assigning known fields of a register whose current value is valid
    succeeds, stores a value of the register's width in which every bit outside
    the named fields is as before, a field assigned alone reads back the value
    given, and no other register is touched. *)
Theorem accessor_set_rmw {S} `{!RegBackend S} `{!RegMemory S} (a : accessor) kw (s : S)
    (Hc : class_wf (ac_cls a)) (Hw : reg_width (rc_width (ac_cls a)))
    (Hk : Forall (fun e => is_Some (find_field (ac_cls a) (fst e))) kw)
    (Hval : reg_validate (rc_fields (ac_cls a)) (peek s (ac_addr a) (rc_width (ac_cls a))) = Ok tt) :
  let w := rc_width (ac_cls a) in
  exists s', acc_set a kw s = (Ok tt, s') /\
    (forall n, 0 <= n ->
       (forall k v f, In (k, v) kw -> find_field (ac_cls a) k = Some f -> in_field f n = false) ->
       Z.testbit (peek s' (ac_addr a) w) n = Z.testbit (peek s (ac_addr a) w) n) /\
    (forall k v f, kw = [(k, v)] -> find_field (ac_cls a) k = Some f ->
       f_raw f (peek s' (ac_addr a) w) = v mod 2 ^ f_size f) /\
    (forall a' w', reg_width w' -> ac_addr a + w / 8 <= a' \/ a' + w' / 8 <= ac_addr a -> peek s' a' w' = peek s a' w').
Proof.
  intros w. unfold acc_set, acc_reg, acc_val. fold w. unfold py_bind, py_lift. rewrite bk_read_law.
  unfold reg_init. fold w in Hval. rewrite Hval. cbn [rbind set_kwargs].
  destruct (set_kwargs_effect (ac_cls a) kw (peek s (ac_addr a) w) Hc Hw (bk_peek_range s (ac_addr a) w Hw) Hk)
    as (v' & E & Hr & Hb). rewrite E.
  destruct (bk_write_law s (ac_addr a) v' w Hw Hr) as (s' & -> & Hp & Ho). exists s'. rewrite Hp.
  split; [done|]. split; [done|]. split; [|done].
  intros k v f -> Hf. destruct (find_field_ok _ k f Hc Hf) as [Hfo _]. simpl in E. unfold reg_setattr in E. rewrite Hf in E.
  destruct (reg_set f v (peek s (ac_addr a) w)) as [v1|] eqn:E1; [|done]. injection E as <-.
  by destruct (reg_set_raw f v _ _ Hfo E1) as [-> _].
Qed.

Lemma accessor_set_rmw_witness :
  let s : Z -> byte := mem_store 0x100 [Byte.xa7; Byte.x05; Byte.x00; Byte.x80] (fun _ => Byte.x00) in
  let a := {| ac_cls := demo_class; ac_addr := 0x100 |} in
  exists s', acc_set a [("IDX"%string, 0x13)] s = (Ok tt, s') /\
    (forall n, 0 <= n ->
       (forall k v f, In (k, v) [("IDX"%string, 0x13)] -> find_field demo_class k = Some f -> in_field f n = false) ->
       Z.testbit (peek s' 0x100 32) n = Z.testbit (peek s 0x100 32) n) /\
    (forall k v f, [("IDX"%string, 0x13)] = [(k, v)] -> find_field demo_class k = Some f ->
       f_raw f (peek s' 0x100 32) = v mod 2 ^ f_size f) /\
    (forall a' w', reg_width w' -> 0x100 + 32 / 8 <= a' \/ a' + w' / 8 <= 0x100 -> peek s' a' w' = peek s a' w').
Proof.
  intros s a. apply (accessor_set_rmw a [("IDX"%string, 0x13)] s).
  - apply demo_class_wf.
  - right. right. left. reflexivity.
  - repeat constructor. vm_compute. eauto.
  - vm_compute. reflexivity.
Defined.

(** ** Array addresses *)

Definition steps_pos (rs : list prange) : Prop := Forall (fun r => 0 < pr_step r) rs.

Lemma nd_product_In rs ix a :
  In (ix, a) (nd_product rs) <-> length ix = length rs /\ nd_sum rs ix = Ok a.
Proof.
  revert ix a. induction rs as [|r rs IH]; intros ix a; cbn [nd_product length].
  - destruct ix; simpl; split; [by intros [[= <-]|[]]|by intros [_ [= <-]]; left|by intros [[=]|[]]|by intros [[=] _]].
  - rewrite in_flat_map. split.
    + intros ([i b] & Hi & Hin). unfold pr_enum in Hi. apply in_map_iff in Hi as (j & [= -> <-] & Hj%in_seq).
      apply in_map_iff in Hin as ([ix' b'] & [= <- <-] & Hin). apply IH in Hin as [Hl Hs].
      cbn [length nd_sum]. rewrite (proj2 (Nat.ltb_lt i (pr_len r))) by lia. rewrite Hs. split; [lia|done].
    + destruct ix as [|i ix]; [by intros [[=] _]|]. cbn [nd_sum length]. intros [Hl Hs].
      destruct (Nat.ltb_spec i (pr_len r)) as [Hi|]; [|done]. destruct (nd_sum rs ix) as [b|] eqn:E; [|done].
      injection Hs as <-. exists (i, pr_at r i). split.
      * unfold pr_enum. apply in_map_iff. exists i. split; [done|]. apply in_seq. lia.
      * apply in_map_iff. exists (ix, b). split; [done|]. apply IH. split; [lia|done].
Qed.

Lemma nd_sum_bounds rs ix a lo hi :
  steps_pos rs -> length ix = length rs -> nd_sum rs ix = Ok a ->
  sum_results pr_first rs = Ok lo -> sum_results pr_last rs = Ok hi -> lo <= a <= hi.
Proof.
  intros Hs. revert ix a lo hi. induction Hs as [|r rs Hr _ IH]; intros [|i ix] a lo hi Hl; try done.
  { by intros [= <-] [= <-] [= <-]. }
  cbn [nd_sum sum_results]. unfold pr_first at 1, pr_last at 1.
  destruct (Nat.ltb_spec i (pr_len r)) as [Hi|]; [|done]. destruct (nd_sum rs ix) as [b|] eqn:E; [|done].
  destruct (Nat.eqb_spec (pr_len r) 0); [lia|]. cbn [rbind].
  destruct (sum_results pr_first rs) as [lo'|] eqn:E1; [|done].
  destruct (sum_results pr_last rs) as [hi'|] eqn:E2; [|done]. intros [= <-] [= <-] [= <-].
  injection Hl as Hl. specialize (IH ix b lo' hi' Hl E eq_refl eq_refl). unfold pr_at. nia.
Qed.

Lemma nd_rev_lookup (l : list (list nat * Z)) (a : Z) : forall m : gmap Z (list nat),
  match fold_left (fun m '(ix, a) => <[a := ix]> m) l m !! a with
  | Some ix => In (ix, a) l \/ m !! a = Some ix
  | None => (forall ix, ~ In (ix, a) l) /\ m !! a = None
  end.
Proof.
  induction l as [|[ix b] l IH]; intros m; cbn [fold_left].
  - destruct (m !! a); [by right|]. split; [by intros ? []|done].
  - specialize (IH (<[b := ix]> m)). destruct (fold_left _ l _ !! a) as [ix'|].
    + destruct IH as [Hin|Hm]; [left; by right|]. destruct (decide (b = a)) as [->|Hne].
      * rewrite lookup_insert_eq in Hm. injection Hm as ->. left. by left.
      * rewrite lookup_insert_ne in Hm by done. by right.
    + destruct IH as [Hin Hm]. destruct (decide (b = a)) as [->|Hne].
      * by rewrite lookup_insert_eq in Hm.
      * rewrite lookup_insert_ne in Hm by done. split; [|done]. intros ix' [[= _ ->]|Hx]; [done|]. by apply (Hin ix').
Qed.

Lemma nd_steps_pos ms rs : forall least l least',
  0 < ms -> 0 < least -> steps_pos rs -> nd_steps ms least rs = Ok (l, least') -> steps_pos l /\ 0 < least'.
Proof.
  induction rs as [|r rs IH]; intros least l least' Hm Hl Hs E; cbn [nd_steps] in E.
  { injection E as <- <-. by split. }
  inversion Hs as [|? ? Hr Hs']; subst. cbn beta in Hr. destruct (pr_step r =? 1).
  - destruct (nd_steps ms ms rs) as [[l1 le1]|] eqn:E1; [|done]. injection E as <- <-.
    destruct (IH _ _ _ Hm Hm Hs' E1). split; [by constructor|done].
  - destruct (pr_step r <? ms); [done|].
    destruct (nd_steps ms (Z.min least (pr_step r)) rs) as [[l1 le1]|] eqn:E1; [|done]. injection E as <- <-.
    destruct (IH (Z.min least (pr_step r)) _ _ Hm ltac:(lia) Hs' E1). split; [by constructor|done].
Qed.

(** What [NdRange.__init__] establishes. *)
Definition nd_good (nd : ndrange) : Prop :=
  (forall a, is_Some (nd_rev nd !! a) <-> exists ix, nd_getitem nd ix = Ok a) /\
  (forall a ix, nd_rev nd !! a = Some ix -> nd_getitem nd ix = Ok a) /\
  (forall a ix, nd_getitem nd ix = Ok a -> nd_start nd <= a < nd_stop nd) /\
  nd_start nd <= nd_stop nd.

Lemma nd_init_good rs ms nd : 0 < ms -> steps_pos rs -> nd_init rs ms = Ok nd -> nd_good nd.
Proof.
  intros Hm Hs. unfold nd_init. destruct rs as [|r0 rs]; [done|].
  destruct (nd_steps ms (pr_step r0) (r0 :: rs)) as [[l least]|] eqn:E1; [|done]. cbn [rbind].
  destruct (nd_steps_pos ms (r0 :: rs) _ _ _ Hm ltac:(by inversion Hs) Hs E1) as [Hl Hle].
  destruct (sum_results pr_first l) as [lo|] eqn:E2; [|done].
  destruct (sum_results pr_last l) as [hi|] eqn:E3; [|done]. cbn [rbind]. intros [= <-].
  assert (Hget : forall ix a, nd_getitem (NdRange l lo (hi + least) (nd_rev_of (nd_product l))) ix = Ok a <->
                              In (ix, a) (nd_product l)).
  { intros ix a. unfold nd_getitem. cbn [nd_ranges]. rewrite nd_product_In.
    destruct (Nat.eqb_spec (length l) (length ix)) as [El|El]; cbn [negb].
    - split; [by split|by intros [_ ?]].
    - split; [done|]. intros [? _]. congruence. }
  assert (Hmin : lo <= hi).
  { clear - Hl E2 E3. revert lo hi E2 E3. induction Hl as [|r l Hr _ IH]; intros lo hi; cbn [sum_results].
    { by intros [= <-] [= <-]. }
    unfold pr_first at 1, pr_last at 1. destruct (Nat.eqb (pr_len r) 0); [done|]. cbn [rbind].
    destruct (sum_results pr_first l); [|done]. destruct (sum_results pr_last l); [|done]. intros [= <-] [= <-].
    specialize (IH _ _ eq_refl eq_refl). unfold pr_at. nia. }
  split_and!; cbn [nd_rev nd_start nd_stop]; [| | |lia].
  - intros a. pose proof (nd_rev_lookup (nd_product l) a ∅) as Hr. fold (nd_rev_of (nd_product l)) in Hr.
    destruct (nd_rev_of (nd_product l) !! a) as [ix|].
    + destruct Hr as [Hr|Hr]; [|by rewrite lookup_empty in Hr]. split; [|by eexists]. intros _. exists ix. by apply Hget.
    + split; [by intros []|]. intros [ix Hx]. apply Hget in Hx. by destruct (proj1 Hr ix).
  - intros a ix Hx. pose proof (nd_rev_lookup (nd_product l) a ∅) as Hr. fold (nd_rev_of (nd_product l)) in Hr.
    rewrite Hx in Hr. destruct Hr as [Hr|Hr]; [|by rewrite lookup_empty in Hr]. by apply Hget.
  - intros a ix Hx. apply Hget, nd_product_In in Hx as [Hlen Hsum].
    pose proof (nd_sum_bounds l ix a lo hi Hl Hlen Hsum E2 E3). lia.
Qed.

(** ** Lookup by offset *)

Record map_wf (m : reg_map) : Prop := {
  mw_rng : rm_wf (rg_rngmap m);
  mw_nd : forall i nd name cls, rg_arrays m !! i = Some (nd, name, cls) -> nd_good nd;
  mw_mem : forall off i, i ∈ set_getitem off (rg_rngmap m) <->
             exists nd name cls, rg_arrays m !! i = Some (nd, name, cls) /\ nd_start nd <= off < nd_stop nd
}.

Definition decl_ok (d : reg_decl) : Prop :=
  reg_width (rc_width (rd_cls d)) /\ match rd_addr d with RScalar _ => True | RArray rs => steps_pos rs end.

Lemma reg_map_add_wf d m m' : decl_ok d -> map_wf m -> reg_map_add d m = Ok m' -> map_wf m'.
Proof.
  intros [Hw Hd] [H1 H2 H3] E. unfold reg_map_add in E. destruct (rd_addr d) as [addr|rs].
  { injection E as <-. by constructor. }
  destruct (nd_init rs (rc_width (rd_cls d) / 8)) as [nd|] eqn:En; [|done]. cbn [rbind] in E.
  assert (Hg : nd_good nd).
  { eapply nd_init_good; [|exact Hd|exact En]. destruct Hw as [->|[->|[->| ->]]]; by vm_compute. }
  destruct (too_long (ZRange (nd_start nd) (nd_stop nd))) eqn:Hse; [by rewrite set_add_overflow in E|].
  destruct (set_add_pointwise (ZRange (nd_start nd) (nd_stop nd)) (length (rg_arrays m)) (rg_rngmap m) Hse H1)
    as (rng & Ea & Hwf & Hget). rewrite Ea in E. injection E as <-.
  constructor; cbn [rg_rngmap rg_arrays]; [done| |].
  - intros i nd' name cls Hi. apply lookup_app_Some in Hi as [Hi|[_ Hi]]; [by eapply H2|].
    destruct (i - length (rg_arrays m))%nat; simpl in Hi; [|done]. injection Hi as <- _ _. done.
  - intros off i. rewrite Hget. unfold in_z. cbn [rm_zone fst snd]. unfold in_zone.
    assert (Hold : i <> length (rg_arrays m) ->
      (i ∈ set_getitem off (rg_rngmap m) <-> exists nd' name cls,
         (rg_arrays m ++ [(nd, rd_name d, rd_cls d)]) !! i = Some (nd', name, cls) /\ nd_start nd' <= off < nd_stop nd')).
    { intros Hne. rewrite H3. split; intros (nd' & name & cls & Hi & Hr); exists nd', name, cls; (split; [|done]).
      - by apply lookup_app_l_Some.
      - apply lookup_app_Some in Hi as [Hi|[Hge Hi]]; [done|].
        destruct (i - length (rg_arrays m))%nat eqn:Ei; simpl in Hi; [lia|done]. }
    assert (Hnew : i = length (rg_arrays m) -> i ∉ set_getitem off (rg_rngmap m)).
    { intros -> Hin. apply H3 in Hin as (nd' & name & cls & Hi & _). apply lookup_lt_Some in Hi. lia. }
    destruct (decide (i = length (rg_arrays m))) as [->|Hne].
    + specialize (Hnew eq_refl). rewrite list_lookup_middle by done. split.
      * intros Hin. exists nd, (rd_name d), (rd_cls d). split; [done|].
        destruct ((nd_start nd <=? off) && (off <? nd_stop nd)) eqn:Eb; [zbool; lia|done].
      * intros (nd' & name & cls & [= <- _ _] & Hr).
        rewrite (proj2 (andb_true_iff _ _)); [apply elem_of_union; left; by apply elem_of_singleton|]. split; [apply Z.leb_le|apply Z.ltb_lt]; lia.
    + rewrite <- (Hold Hne). destruct ((nd_start nd <=? off) && (off <? nd_stop nd)); [|done].
      rewrite elem_of_union, elem_of_singleton. tauto.
Qed.

Lemma reg_map_build_wf ds : forall m m',
  Forall decl_ok ds -> map_wf m -> reg_map_build ds m = Ok m' -> map_wf m'.
Proof.
  induction ds as [|d ds IH]; intros m m' Hd Hm E; cbn [reg_map_build] in E; [by injection E as <-|].
  inversion Hd; subst. destruct (reg_map_add d m) as [m1|] eqn:E1; [|done]. cbn [rbind] in E.
  eapply IH; [done| |exact E]. by eapply reg_map_add_wf.
Qed.

Lemma reg_map_empty_wf : map_wf reg_map_empty.
Proof.
  constructor; [by exists []|by intros|]. intros off i. split; [by intros ?%elem_of_empty|].
  intros (nd & name & cls & Hi & _). done.
Qed.

Lemma head_omap {A B} (f : A -> option B) l :
  match head (omap f l) with
  | Some b => exists a, a ∈ l /\ f a = Some b
  | None => forall a, a ∈ l -> f a = None
  end.
Proof.
  induction l as [|a l IH]; [by intros a ?%elem_of_nil|]. cbn [omap list_omap].
  destruct (f a) as [b|] eqn:E; cbn [head]; [exists a; split; [apply elem_of_cons; by left|done]|].
  destruct (head (omap f l)) as [b|].
  - destruct IH as (a' & Ha & Hf). exists a'. split; [apply elem_of_cons; by right|done].
  - intros a' [->|Ha]%elem_of_cons; [done|by apply IH].
Qed.

(** Looking a register up by offset is exact, whatever order Python iterates
    the set of candidate arrays in: a scalar register at the offset wins; else
    an array element is reported only if the array's index arithmetic maps the
    reported index back to the offset; and nothing is reported only when no
    scalar and no element of any array lies at the offset. *)
Theorem lookup_offset_exact (ds : list reg_decl) (m : reg_map) order off
    (Hds : Forall decl_ok ds) (Hm : reg_map_build ds reg_map_empty = Ok m)
    (Hord : forall s, order s ≡ₚ elements s) :
  match lookup_offset order m off with
  | Some (name, None, cls) => rg_addrmap m !! off = Some (name, cls)
  | Some (name, Some ix, cls) => rg_addrmap m !! off = None /\
      exists i nd, rg_arrays m !! i = Some (nd, name, cls) /\ nd_getitem nd ix = Ok off
  | None => rg_addrmap m !! off = None /\
      forall i nd name cls ix, rg_arrays m !! i = Some (nd, name, cls) -> nd_getitem nd ix <> Ok off
  end.
Proof.
  destruct (reg_map_build_wf ds _ _ Hds reg_map_empty_wf Hm) as [_ H2 H3].
  unfold lookup_offset. destruct (rg_addrmap m !! off) as [[name cls]|] eqn:Ea; [done|].
  match goal with |- context [head (omap ?f ?l)] => pose proof (head_omap f l) as Hh; destruct (head (omap f l)) as [[[name ix] cls]|] end.
  - destruct Hh as (i & Hi & Hf). destruct (rg_arrays m !! i) as [[[nd name'] cls']|] eqn:Ei; [|done].
    destruct (nd_rev nd !! off) as [ix'|] eqn:Er; [|done]. injection Hf as -> <- ->. split; [done|].
    exists i, nd. split; [done|]. by apply (H2 _ _ _ _ Ei).
  - split; [done|]. intros i nd name cls ix Ei Hx. pose proof (H2 _ _ _ _ Ei) as (Hg1 & _ & Hg3 & _).
    assert (Hin : i ∈ order (set_getitem off (rg_rngmap m))).
    { rewrite Hord. apply elem_of_elements, H3. exists nd, name, cls. split; [done|]. by eapply Hg3. }
    specialize (Hh i Hin). rewrite Ei in Hh.
    assert (Hs : is_Some (nd_rev nd !! off)) by (apply Hg1; eauto). destruct Hs as [ix' Hs]. by rewrite Hs in Hh.
Qed.

Definition demo_map : list reg_decl :=
  [RegDecl "CTRL" (RScalar 0) demo_class; RegDecl "TTBR" (RArray [PRange 0x200 0x220 16; PRange 0 8 4]) demo_class].

Lemma lookup_offset_exact_witness :
  exists m, reg_map_build demo_map reg_map_empty = Ok m /\
  lookup_offset elements m 0x214 = Some ("TTBR"%string, Some [1; 1]%nat, demo_class) /\
  rg_addrmap m !! 0x214 = None /\
  exists i nd, rg_arrays m !! i = Some (nd, "TTBR"%string, demo_class) /\ nd_getitem nd [1; 1]%nat = Ok 0x214.
Proof.
  destruct (reg_map_build demo_map reg_map_empty) as [m|e] eqn:Em; [|vm_compute in Em; discriminate Em].
  exists m. split; [reflexivity|].
  assert (Hl : lookup_offset elements m 0x214 = Some ("TTBR"%string, Some [1; 1]%nat, demo_class)).
  { vm_compute in Em. injection Em as <-. vm_compute. reflexivity. }
  split; [exact Hl|].
  pose proof (lookup_offset_exact demo_map m elements 0x214) as Hx. rewrite Hl in Hx. apply Hx.
  - repeat constructor; simpl; try lia; right; right; left; reflexivity.
  - exact Em.
  - intros s. reflexivity.
Defined.
