(* ===== verification/RegTables.v ===== *)
(** * The register classes of proxyclient/m1n1/sysreg.py and proxyclient/m1n1/hw

    Every class derived from [Register8] ... [Register64] (utils.py) in these
    files, as the table of fields its body declares, with the [IntEnum]s its
    fields are typed by.  A class keeps its Python name; one that two files
    declare differently carries the file's name too.  [register_tables] collects
    them, and the theorems show that the hand-written bit positions are
    consistent: inside the register, non-empty, non-overlapping (up to the
    intended aliases), with every enumeration representable in its field. *)

From S2P Require Import Prelude Registers.
From Stdlib Require Import ZArith Lia.
From stdpp Require Import base list numbers strings.

Local Open Scope string_scope.
Local Open Scope Z_scope.

(** A Python dict keeps the position of a key that is assigned again. *)
Fixpoint dict_put {V} (k : string) (v : V) (l : list (string * V)) : list (string * V) :=
  match l with
  | [] => [(k, v)]
  | (k', v') :: r => if String.eqb k k' then (k, v) :: r else (k', v') :: dict_put k v r
  end.

(** [RegisterMeta.__new__] for a class derived from another register class: the
    fields of the base first, then its own. *)
Definition register_subclass (base : reg_class) (own : list (string * field)) : reg_class :=
  RegClass (rc_width base) (fold_left (fun l e => dict_put (fst e) (snd e) l) own (rc_fields base)).

(** The field-less base classes. *)
Definition Register8 : reg_class := RegClass 8 [].
Definition Register16 : reg_class := RegClass 16 [].
Definition Register32 : reg_class := RegClass 32 [].
Definition Register64 : reg_class := RegClass 64 [].

(** ** sysreg.py *)
Definition ESR_EC : list (string * Z) :=
  [("UNKNOWN", 0); ("WFI", 1); ("FP_TRAP", 7); ("PAUTH_TRAP", 8); ("LS64", 0xa); ("BTI", 0xd);
   ("ILLEGAL", 0xe); ("SVC", 0x15); ("HVC", 0x16); ("SMC", 0x17); ("MSR", 0x18); ("SVE", 0x19);
   ("PAUTH_FAIL", 0x1c); ("IABORT_LOWER", 0x20); ("IABORT", 0x21); ("PC_ALIGN", 0x22); ("DABORT_LOWER", 0x24);
   ("DABORT", 0x25); ("SP_ALIGN", 0x26); ("FP_EXC", 0x2c); ("SERROR", 0x2f); ("BKPT_LOWER", 0x30);
   ("BKPT", 0x31); ("SSTEP_LOWER", 0x32); ("SSTEP", 0x33); ("WATCH_LOWER", 0x34); ("WATCH", 0x35);
   ("BRK", 0x3c); ("IMPDEF", 0x3f)].
Definition MSR_DIR : list (string * Z) :=
  [("WRITE", 0); ("READ", 1)].
Definition ESR_ISS_MSR : reg_class := RegClass 32
  [("Op0", FBits 21 20 TInt); ("Op2", FBits 19 17 TInt); ("Op1", FBits 16 14 TInt); ("CRn", FBits 13 10 TInt);
   ("Rt", FBits 9 5 TInt); ("CRm", FBits 4 1 TInt); ("DIR", FBits 0 0 (TEnum (map snd MSR_DIR)))].
Definition DABORT_DFSC : list (string * Z) :=
  [("ASIZE_L0", 0); ("ASIZE_L1", 1); ("ASIZE_L2", 2); ("ASIZE_L3", 3); ("XLAT_L0", 4); ("XLAT_L1", 5);
   ("XLAT_L2", 6); ("XLAT_L3", 7); ("AF_L0", 8); ("AF_L1", 9); ("AF_L2", 0xa); ("AF_L3", 0xb);
   ("PERM_L0", 0xc); ("PERM_L1", 0xd); ("PERM_L2", 0xe); ("PERM_L3", 0xf); ("EABORT", 0x10);
   ("TAG_CHECK", 0x11); ("PT_EABORT_Lm1", 0x13); ("PT_EABORT_L0", 0x14); ("PT_EABORT_L1", 0x15);
   ("PT_EABORT_L2", 0x16); ("PT_EABORT_L3", 0x17); ("ECC_ERROR", 0x18); ("PT_ECC_ERROR_Lm1", 0x1b);
   ("PT_ECC_ERROR_L0", 0x1c); ("PT_ECC_ERROR_L1", 0x1d); ("PT_ECC_ERROR_L2", 0x1e); ("PT_ECC_ERROR_L3", 0x1f);
   ("ALIGN", 0x21); ("ASIZE_Lm1", 0x29); ("XLAT_Lm1", 0x2b); ("TLB_CONFLICT", 0x30); ("UNSUPP_ATOMIC", 0x31);
   ("IMPDEF_LOCKDOWN", 0x34); ("IMPDEF_ATOMIC", 0x35)].
Definition ESR_ISS_DABORT : reg_class := RegClass 32
  [("ISV", FBit 24); ("SAS", FBits 23 22 TInt); ("SSE", FBit 21); ("SRT", FBits 20 16 TInt); ("SF", FBit 15);
   ("AR", FBit 14); ("VNCR", FBit 13); ("SET", FBits 12 11 TInt); ("LSR", FBits 12 11 TInt); ("FnV", FBit 10);
   ("EA", FBit 9); ("CM", FBit 8); ("S1PTR", FBit 7); ("WnR", FBit 6);
   ("DFSC", FBits 5 0 (TEnum (map snd DABORT_DFSC)))].
Definition ESR : reg_class := RegClass 64
  [("ISS2", FBits 36 32 TInt); ("EC", FBits 31 26 (TEnum (map snd ESR_EC))); ("IL", FBit 25);
   ("ISS", FBits 24 0 TInt)].
Definition SPSR_M : list (string * Z) :=
  [("EL0t", 0); ("EL1t", 4); ("EL1h", 5); ("EL2t", 8); ("EL2h", 9)].
Definition SPSR : reg_class := RegClass 64
  [("N", FBit 31); ("Z", FBit 30); ("C", FBit 29); ("V", FBit 28); ("TCO", FBit 25); ("DIT", FBit 24);
   ("UAO", FBit 23); ("PAN", FBit 22); ("SS", FBit 21); ("IL", FBit 20); ("SSBS", FBit 12);
   ("BTYPE", FBits 11 10 TInt); ("D", FBit 9); ("A", FBit 8); ("I", FBit 7); ("F", FBit 6);
   ("M", FBits 4 0 (TEnum (map snd SPSR_M)))].
Definition ACTLR : reg_class := RegClass 64
  [("EnMDSB", FBit 12); ("EnPRSV", FBit 6); ("EnAFP", FBit 5); ("EnAPFLG", FBit 4); ("DisHWP", FBit 3);
   ("EnTSO", FBit 1)].
Definition HCR : reg_class := RegClass 64
  [("TWEDEL", FBits 63 60 TInt); ("TWEDEn", FBit 59); ("TID5", FBit 58); ("DCT", FBit 57); ("ATA", FBit 56);
   ("TTLBOS", FBit 55); ("TTLBIS", FBit 54); ("EnSCXT", FBit 53); ("TOCU", FBit 52); ("AMVOFFEN", FBit 51);
   ("TICAB", FBit 50); ("TID4", FBit 49); ("FIEN", FBit 47); ("FWB", FBit 46); ("NV2", FBit 45);
   ("AT", FBit 44); ("NV1", FBit 43); ("NV", FBit 42); ("API", FBit 41); ("APK", FBit 40);
   ("MIOCNCE", FBit 38); ("TEA", FBit 37); ("TERR", FBit 36); ("TLOR", FBit 35); ("E2H", FBit 34);
   ("ID", FBit 33); ("CD", FBit 32); ("RW", FBit 31); ("TRVM", FBit 30); ("HCD", FBit 29); ("TDZ", FBit 28);
   ("TGE", FBit 27); ("TVM", FBit 26); ("TTLB", FBit 25); ("TPU", FBit 24); ("TPCP", FBit 23);
   ("TPC", FBit 23); ("TSW", FBit 22); ("TACR", FBit 21); ("TIDCP", FBit 20); ("TSC", FBit 19);
   ("TID3", FBit 18); ("TID2", FBit 17); ("TID1", FBit 16); ("TID0", FBit 15); ("TWE", FBit 14);
   ("TWI", FBit 13); ("DC", FBit 12); ("BSU", FBits 11 10 TInt); ("FB", FBit 9); ("VSE", FBit 8);
   ("VI", FBit 7); ("VF", FBit 6); ("AMO", FBit 5); ("IMO", FBit 4); ("FMO", FBit 3); ("PTW", FBit 2);
   ("SWIO", FBit 1); ("VM", FBit 0)].
Definition HACR : reg_class := RegClass 64
  [("TRAP_CPU_EXT", FBit 0); ("TRAP_AIDR", FBit 4); ("TRAP_AMX", FBit 10); ("TRAP_SPRR", FBit 11);
   ("TRAP_GXF", FBit 13); ("TRAP_CTRR", FBit 14); ("TRAP_IPI", FBit 16); ("TRAP_s3_4_c15_c5z6_x", FBit 18);
   ("TRAP_s3_4_c15_c0z12_5", FBit 19); ("GIC_CNTV", FBit 20); ("TRAP_s3_4_c15_c10_4", FBit 25);
   ("TRAP_SERROR_INFO", FBit 48); ("TRAP_EHID", FBit 49); ("TRAP_HID", FBit 50);
   ("TRAP_s3_0_c15_c12_1z2", FBit 51); ("TRAP_ACC", FBit 52); ("TRAP_PM", FBit 57); ("TRAP_UPM", FBit 58);
   ("TRAP_s3_1z7_c15_cx_3", FBit 59)].
Definition AMX_CONFIG : reg_class := RegClass 64
  [("EN", FBit 63); ("EN_EL1", FBit 62)].
Definition MDCR : reg_class := RegClass 64
  [("TDE", FBit 8); ("TDA", FBit 9); ("TDOSA", FBit 10); ("TDRA", FBit 11)].
Definition MDSCR : reg_class := RegClass 64
  [("SS", FBit 0); ("MDE", FBit 15)].
Definition DBGBCR : reg_class := RegClass 32
  [("BT", FBits 23 20 TInt); ("LBN", FBits 16 16 TInt); ("SSC", FBits 15 14 TInt); ("HMC", FBit 13);
   ("BAS", FBits 8 5 TInt); ("PMC", FBits 2 1 TInt); ("E", FBit 0)].
Definition DBGWCR : reg_class := RegClass 32
  [("SSCE", FBit 29); ("MASK", FBits 28 24 TInt); ("WT", FBit 20); ("LBN", FBits 19 16 TInt);
   ("SSC", FBits 15 14 TInt); ("HMC", FBit 13); ("BAS", FBits 12 5 TInt); ("LSC", FBits 4 3 TInt);
   ("PAC", FBits 2 1 TInt); ("E", FBit 0)].
Definition TCR : reg_class := RegClass 64
  [("DS", FBit 59); ("TCMA1", FBit 58); ("TCMA0", FBit 57); ("E0PD1", FBit 56); ("E0PD0", FBit 55);
   ("NFD1", FBit 54); ("NFD0", FBit 53); ("TBID1", FBit 52); ("TBID0", FBit 51); ("HWU162", FBit 50);
   ("HWU161", FBit 49); ("HWU160", FBit 48); ("HWU159", FBit 47); ("HWU062", FBit 46); ("HWU061", FBit 45);
   ("HWU060", FBit 44); ("HWU059", FBit 43); ("HPD1", FBit 42); ("HPD0", FBit 41); ("HD", FBit 40);
   ("HA", FBit 39); ("TBI1", FBit 38); ("TBI0", FBit 37); ("AS", FBit 36); ("IPS", FBits 34 32 TInt);
   ("TG1", FBits 31 30 TInt); ("SH1", FBits 29 28 TInt); ("ORGN1", FBits 27 26 TInt);
   ("IRGN1", FBits 25 24 TInt); ("EPD1", FBit 23); ("A1", FBit 22); ("T1SZ", FBits 21 16 TInt);
   ("TG0", FBits 15 14 TInt); ("SH0", FBits 13 12 TInt); ("ORGN0", FBits 11 10 TInt);
   ("IRGN0", FBits 9 8 TInt); ("EPD0", FBit 7); ("T0SZ", FBits 5 0 TInt)].
Definition TLBI_RVA : reg_class := RegClass 64
  [("ASID", FBits 63 48 TInt); ("TG", FBits 47 46 TInt); ("SCALE", FBits 45 44 TInt);
   ("NUM", FBits 43 39 TInt); ("TTL", FBits 38 37 TInt); ("BaseADDR", FBits 36 0 TInt)].
Definition MIDR_PART : list (string * Z) :=
  [("T8110_BLIZZARD", 0x30)].
Definition MIDR : reg_class := RegClass 64
  [("REV_LOW", FBits 3 0 TInt); ("PART", FBits 15 4 TInt); ("REV_HIGH", FBits 23 20 TInt)].

(** ** hw/admac.py *)
Definition R_RING : reg_class := RegClass 32
  [("OF_UF", FBits 31 16 TInt); ("READOUT_PROGRESS", FBits 13 12 TInt); ("EMPTY", FBit 8); ("FULL", FBit 9);
   ("ERR", FBit 10); ("READ_SLOT", FBits 5 4 TInt); ("WRITE_SLOT", FBits 1 0 TInt)].
Definition R_CHAN_STATUS : reg_class := RegClass 32
  [("DESC_DONE", FBit 0); ("DESC_RING_EMPTY", FBit 4); ("REPORT_RING_FULL", FBit 5); ("RING_ERR", FBit 6);
   ("UNK0", FBit 1); ("UNK3", FBit 8); ("UNK4", FBit 9); ("UNK5", FBit 10)].
Definition R_CHAN_CONTROL : reg_class := RegClass 32
  [("RESET_RINGS", FBit 0); ("CLEAR_OF_UF_COUNTERS", FBit 1); ("UNK1", FBit 3)].
Definition E_BUSWIDTH : list (string * Z) :=
  [("W_8BIT", 0); ("W_16BIT", 1); ("W_32BIT", 2)].
Definition E_FRAME : list (string * Z) :=
  [("F_1_WORD", 0); ("F_2_WORDS", 1); ("F_4_WORDS", 2)].
Definition R_BUSWIDTH : reg_class := RegClass 32
  [("WORD", FBits 2 0 (TEnum (map snd E_BUSWIDTH))); ("FRAME", FBits 6 4 (TEnum (map snd E_FRAME)))].
Definition R_CARVEOUT : reg_class := RegClass 32
  [("SIZE", FBits 31 16 TInt); ("BASE", FBits 15 0 TInt)].
Definition ADMACDescriptorFlags : reg_class := RegClass 32
  [("NOTIFY", FBit 16); ("REPEAT", FBit 17); ("DESC_ID", FBits 7 0 TInt)].
Definition ADMACReportFlags : reg_class := RegClass 32
  [("UNK1", FBit 24); ("UNK2", FBit 25); ("UNK4", FBit 26); ("UNK3", FBit 27); ("DESC_ID", FBits 7 0 TInt)].

(** ** hw/aes.py *)
Definition AES_OPCODE : list (string * Z) :=
  [("SET_KEY", 1); ("SET_IV", 2); ("CRYPT", 5); ("GET_IV", 6); ("BARRIER", 8)].
Definition AES_SET_KEY_LEN : list (string * Z) :=
  [("AES128", 0); ("AES192", 1); ("AES256", 2)].
Definition AES_SET_KEY_BLOCK_MODE : list (string * Z) :=
  [("ECB", 0); ("CBC", 1); ("CTR", 2)].
Definition AESCommandBase : reg_class := RegClass 32
  [("OPCODE", FBits 31 28 (TEnum (map snd AES_OPCODE)))].
Definition AESHwKey : list (string * Z) :=
  [("SOFTWARE", 0); ("UID", 1); ("GID0", 2); ("GID1", 3)].
Definition AESSetKeyCommand : reg_class := register_subclass AESCommandBase
  [("OPCODE", FBits 31 28 (TConst 1)); ("SLOT", FBits 27 27 TInt); ("KEY_SELECT", FBits 26 24 TInt);
   ("KEYLEN", FBits 23 22 (TEnum (map snd AES_SET_KEY_LEN))); ("ENCRYPT", FBits 20 20 TInt);
   ("KEYGEN", FBits 19 18 TInt); ("BLOCK_MODE", FBits 17 16 (TEnum (map snd AES_SET_KEY_BLOCK_MODE)))].
Definition AESCryptCommand : reg_class := register_subclass AESCommandBase
  [("OPCODE", FBits 31 28 (TConst 5)); ("KEY_SLOT", FBits 27 27 TInt); ("IV_SLOT", FBits 26 25 TInt);
   ("LEN", FBits 24 0 TInt)].
Definition AESBarrierCommand : reg_class := register_subclass AESCommandBase
  [("OPCODE", FBits 31 28 (TConst 8)); ("IRQ", FBits 27 27 TInt)].
Definition AESGetIVCommand : reg_class := register_subclass AESCommandBase
  [("OPCODE", FBits 31 28 (TConst 6))].
Definition AESSetIVCommand : reg_class := register_subclass AESCommandBase
  [("OPCODE", FBits 31 28 (TConst 2)); ("SLOT", FBits 27 26 TInt)].
Definition AESIrqReg : reg_class := RegClass 32
  [("KEY1_EMPTY", FBits 17 17 TInt); ("KEY1_INVALID", FBits 13 13 TInt); ("KEY0_EMPTY", FBits 11 11 TInt);
   ("KEY0_INVALID", FBits 7 7 TInt); ("FLAG", FBits 5 5 TInt); ("UNKNOWN_COMMAND", FBits 2 2 TInt);
   ("FIFO_OVERFLOW", FBits 1 1 TInt)].
Definition AESControlReg : reg_class := RegClass 32
  [("START", FBits 0 0 TInt); ("STOP", FBits 1 1 TInt); ("CLEAR_FIFO", FBits 2 2 TInt);
   ("RESET", FBits 3 3 TInt)].
Definition AESFifoStatusReg : reg_class := RegClass 32
  [("FIFO_WRITE_PTR", FBits 31 24 TInt); ("FIFO_READ_PTR", FBits 23 16 TInt); ("FIFO_LEVEL", FBits 15 8 TInt);
   ("FIFO_FULL", FBits 2 2 TInt); ("FIFO_EMPTY", FBits 1 1 TInt)].

(** ** hw/agx.py *)
Definition FAULT_REASON : list (string * Z) :=
  [("INVALID", 0); ("AF_FAULT", 1); ("WRITE_ONLY", 2); ("READ_ONLY", 3); ("NO_ACCESS", 4); ("UNK", 5)].
Definition R_FAULT_INFO : reg_class := RegClass 64
  [("ADDR", FBits 63 30 TInt); ("SIDEBAND", FBits 29 23 TInt); ("CONTEXT", FBits 22 17 TInt);
   ("UNIT", FBits 16 9 TInt); ("LEVEL", FBits 8 7 TInt); ("UNK_5", FBits 6 5 TInt); ("READ", FBit 4);
   ("REASON", FBits 3 1 (TEnum (map snd FAULT_REASON))); ("FAULTED", FBit 0)].
Definition UNIT_00 : list (string * Z) :=
  [("DCMPn", 0); ("UL1Cn", 1); ("CMPn", 2); ("GSL1_n", 3); ("IAPn", 4); ("VCEn", 5); ("TEn", 6); ("RASn", 7);
   ("VDMn", 8); ("PPPn", 9); ("IPFn", 0xa); ("IPF_CPFn", 0xb); ("VFn", 0xc); ("VF_CPFn", 0xd); ("ZLSn", 0xe)].
Definition UNIT_A0 : list (string * Z) :=
  [("dPM", 0xa1); ("dCDM_KS0", 0xa2); ("dCDM_KS1", 0xa3); ("dCDM_KS2", 0xa4); ("dIPP", 0xa5);
   ("dIPP_CS", 0xa6); ("dVDM_CSD", 0xa7); ("dVDM_SSD", 0xa8); ("dVDM_ILF", 0xa9); ("dVDM_ILD", 0xaa);
   ("dRDE0", 0xab); ("dRDE1", 0xac); ("FC", 0xad); ("GSL2", 0xae); ("GL2CC_META0", 0xb0);
   ("GL2CC_META1", 0xb1); ("GL2CC_META2", 0xb2); ("GL2CC_META3", 0xb3); ("GL2CC_META4", 0xb4);
   ("GL2CC_META5", 0xb5); ("GL2CC_META6", 0xb6); ("GL2CC_META7", 0xb7); ("GL2CC_MB", 0xb8)].
Definition UNIT_D0_T602X : list (string * Z) :=
  [("gCDM_CS", 0xd0); ("gCDM_ID", 0xd1); ("gCDM_CSR", 0xd2); ("gCDM_CSW", 0xd3); ("gCDM_CTXR", 0xd4);
   ("gCDM_CTXW", 0xd5); ("gIPP", 0xd6); ("gIPP_CS", 0xd7); ("gKSM_RCE", 0xd8)].
Definition UNIT_E0_T602X : list (string * Z) :=
  [("gPM_SPn", 0xe0); ("gVDM_CSD_SPn", 0xe1); ("gVDM_SSD_SPn", 0xe2); ("gVDM_ILF_SPn", 0xe3);
   ("gVDM_TFP_SPn", 0xe4); ("gVDM_MMB_SPn", 0xe5); ("gRDE_SPn", 0xe6)].
Definition UNIT_E0_T8103 : list (string * Z) :=
  [("gPM_SPn", 0xe0); ("gVDM_CSD_SPn", 0xe1); ("gVDM_SSD_SPn", 0xe2); ("gVDM_ILF_SPn", 0xe3);
   ("gVDM_TFP_SPn", 0xe4); ("gVDM_MMB_SPn", 0xe5); ("gCDM_CS_SPn_KS0", 0xe6); ("gCDM_CS_SPn_KS1", 0xe7);
   ("gCDM_CS_SPn_KS2", 0xe8); ("gCDM_SPn_KS0", 0xe9); ("gCDM_SPn_KS1", 0xea); ("gCDM_SPn_KS2", 0xeb);
   ("gIPP_SPn", 0xec); ("gIPP_CS_SPn", 0xed); ("gRDE0_SPn", 0xee); ("gRDE1_SPn", 0xef)].

(** ** hw/ane.py *)
Definition R_TQINFO : reg_class := RegClass 32
  [("UNK", FBits 31 16 TInt); ("NID", FBits 15 0 TInt)].
Definition R_REQINFO : reg_class := RegClass 32
  [("TDSIZE", FBits 31 16 TInt); ("TDCOUNT", FBits 15 0 TInt)].
Definition R_IRQINFO : reg_class := RegClass 32
  [("CNT", FBits 31 24 TInt); ("NID", FBits 23 16 TInt); ("UNK1", FBits 15 8 TInt); ("UNK2", FBits 7 0 TInt)].

(** ** hw/asc.py *)
Definition R_MBOX_CTRL : reg_class := RegClass 32
  [("FIFOCNT", FBits 23 20 TInt); ("OVERFLOW", FBit 18); ("EMPTY", FBit 17); ("FULL", FBit 16);
   ("RPTR", FBits 15 12 TInt); ("WPTR", FBits 11 8 TInt); ("ENABLE", FBit 0)].
Definition R_CPU_CONTROL : reg_class := RegClass 32
  [("RUN", FBit 4)].
Definition R_CPU_STATUS : reg_class := RegClass 32
  [("IDLE", FBit 5); ("FIQ_NOT_PEND", FBit 3); ("IRQ_NOT_PEND", FBit 2); ("STOPPED", FBit 1);
   ("RUNNING", FBit 0)].
Definition R_INBOX1 : reg_class := RegClass 64
  [("EP", FBits 7 0 TInt)].
Definition R_OUTBOX1 : reg_class := RegClass 64
  [("OUTCNT", FBits 56 52 TInt); ("INCNT", FBits 51 48 TInt); ("OUTPTR", FBits 47 44 TInt);
   ("INPTR", FBits 43 40 TInt); ("EP", FBits 7 0 TInt)].

(** ** hw/atc.py *)
Definition R_USB2PHY_USBCTL : reg_class := RegClass 32
  [("MODE_HOST", FBit 1); ("MODE_ISOLATION", FBit 2)].
Definition R_USB2PHY_CTL : reg_class := RegClass 32
  [("RESET", FBit 0); ("PORT_RESET", FBit 1); ("APB_RESETN", FBit 2); ("SIDDQ", FBit 3)].
Definition R_USB2PHY_SIG : reg_class := RegClass 32
  [("VBUSDET_FORCE_VAL", FBit 0); ("VBUSDET_FORCE_EN", FBit 1); ("VBUSVLDEXT_FORCE_VAL", FBit 2);
   ("VBUSVLDEXT_FORCE_EN", FBit 3); ("MODE_HOST", FBits 19 12 TInt)].
Definition R_USB2PHY_MISCTUNE : reg_class := RegClass 32
  [("APBCLK_GATE_OFF", FBit 29); ("REFCLK_GATE_OFF", FBit 30)].
Definition R_AUSPLL_DCO_EFUSE_SPARE : reg_class := RegClass 32
  [("RODCO_ENCAP_EFUSE", FBits 10 9 TInt); ("RODCO_BIAS_ADJUST_EFUSE", FBits 14 12 TInt)].
Definition R_AUSPLL_FRACN_CAN : reg_class := RegClass 32
  [("DLL_START_CAPCODE", FBits 18 17 TInt)].
Definition R_AUSPLL_FSM_CTRL : reg_class := RegClass 32
  [("APBREQ_OVSEL", FBits 21 13 TInt)].
Definition R_AUSPLL_CMD_OVERRIDE : reg_class := RegClass 32
  [("APB_OVERRIDE", FBit 28)].
Definition R_AUSPLL_CLKOUT_DTC_VREG : reg_class := RegClass 32
  [("DTC_VREG_ADJUST", FBits 16 14 TInt)].
Definition R_AUS_COMMON_SHIM_BLK_VREG : reg_class := RegClass 32
  [("VREG_TRIM", FBits 6 2 TInt)].
Definition R_CIO3PLL_CLK_CTRL : reg_class := RegClass 32
  [("PCLK_EN", FBit 1); ("REFCLK_EN", FBit 5)].
Definition R_CIO3PLL_DCO_NCTRL : reg_class := RegClass 32
  [("DCO_COARSEBIN_EFUSE0", FBits 6 0 TInt); ("DCO_COARSEBIN_EFUSE1", FBits 23 17 TInt)].
Definition R_CIO3PLL_FRACN_CAN : reg_class := RegClass 32
  [("DLL_CAL_START_CAPCODE", FBits 18 17 TInt)].
Definition R_CIO3PLL_DTC_VREG : reg_class := RegClass 32
  [("DTC_VREG_ADJUST", FBits 16 14 TInt)].
Definition E_ACIOPHY_CROSSBAR_PROTOCOL : list (string * Z) :=
  [("USB4", 0); ("USB3", 5); ("USB3_DP", 8); ("DP", 0xa)].
Definition R_ACIOPHY_CROSSBAR : reg_class := RegClass 32
  [("PROTOCOL_SWAPPED", FBit 0); ("PROTOCOL", FBits 4 1 (TEnum (map snd E_ACIOPHY_CROSSBAR_PROTOCOL)));
   ("DPMODE", FBits 17 5 TInt)].
Definition E_ACIOPHY_LANE_MODE : list (string * Z) :=
  [("USB4", 0); ("USB3", 1); ("DP", 2); ("OFF", 3)].
Definition R_ACIOPHY_LANE_MODE : reg_class := RegClass 32
  [("RX0", FBits 2 0 (TEnum (map snd E_ACIOPHY_LANE_MODE)));
   ("TX0", FBits 5 3 (TEnum (map snd E_ACIOPHY_LANE_MODE)));
   ("RX1", FBits 8 6 (TEnum (map snd E_ACIOPHY_LANE_MODE)));
   ("TX1", FBits 11 9 (TEnum (map snd E_ACIOPHY_LANE_MODE)))].
Definition R_ATCPHY_POWER : reg_class := RegClass 32
  [("SLEEP_SMALL", FBit 0); ("SLEEP_BIG", FBit 1); ("CLAMP_EN", FBit 2); ("APB_RESET_N", FBit 3);
   ("PHY_RESET_N", FBit 4)].
Definition R_ATCPHY_MISC : reg_class := RegClass 32
  [("RESET_N", FBit 0); ("LANE_SWAP", FBit 2)].
Definition R_AUSPMA_TX_SHM_TXA_CFG_MAIN_REG0 : reg_class := RegClass 32
  [("PMA_TXA_BYTECLK_RESET_SYNC_EN_OV", FBit 2); ("PMA_TXA_BYTECLK_RESET_SYNC_EN", FBit 3);
   ("PMA_TXA_BYTECLK_RESET_SYNC_CLR_OV", FBit 4); ("PMA_TXA_BYTECLK_RESET_SYNC_CLR", FBit 5);
   ("PMA_TXA_BYTECLK_RESET_SYNC_SEL_OV", FBit 6)].
Definition R_AUSPMA_TX_SHM_TXA_CFG_MAIN_REG1 : reg_class := RegClass 32
  [("PMA_TXA_DIV2_EN_OV", FBit 8); ("PMA_TXA_DIV2_EN", FBit 9); ("PMA_TXA_DIV2_RESET_OV", FBit 10);
   ("PMA_TXA_DIV2_RESET", FBit 11); ("PMA_TXA_CLK_EN_OV", FBit 22); ("PMA_TXA_CLK_EN", FBit 23)].
Definition R_AUSPMA_TX_SHM_TXA_IMP_REG0 : reg_class := RegClass 32
  [("PMA_TXA_CAL_CTRL_OV", FBit 0); ("PMA_TXA_CAL_CTRL", FBits 18 1 TInt);
   ("PMA_TXA_CAL_CTRL_BASE_OV", FBit 19); ("PMA_TXA_CAL_CTRL_BASE", FBits 23 20 TInt);
   ("PMA_TXA_HIZ_OV", FBit 29); ("PMA_TXA_HIZ", FBit 30)].
Definition R_AUSPMA_TX_SHM_TXA_IMP_REG2 : reg_class := RegClass 32
  [("PMA_TXA_MARGIN_OV", FBit 0); ("PMA_TXA_MARGIN", FBits 18 1 TInt); ("PMA_TXA_MARGIN_2R_OV", FBit 19);
   ("PMA_TXA_MARGIN_2R", FBit 20)].
Definition R_AUSPMA_TX_SHM_TXA_IMP_REG3 : reg_class := RegClass 32
  [("PMA_TXA_MARGIN_POST_OV", FBit 0); ("PMA_TXA_MARGIN_POST", FBits 10 1 TInt);
   ("PMA_TXA_MARGIN_POST_2R_OV", FBit 11); ("PMA_TXA_MARGIN_POST_2R", FBit 12);
   ("PMA_TXA_MARGIN_POST_4R_OV", FBit 13); ("PMA_TXA_MARGIN_POST_4R", FBit 14);
   ("PMA_TXA_MARGIN_PRE_OV", FBit 15); ("PMA_TXA_MARGIN_PRE", FBits 21 16 TInt);
   ("PMA_TXA_MARGIN_PRE_2R_OV", FBit 22); ("PMA_TXA_MARGIN_PRE_2R", FBit 23);
   ("PMA_TXA_MARGIN_PRE_4R_OV", FBit 24); ("PMA_TXA_MARGIN_PRE_4R", FBit 25)].
Definition R_AUSPMA_TX_SHM_TXA_LDOCLK : reg_class := RegClass 32
  [("PMA_TXA_LDOCLK_BYPASS_SML_OV", FBit 8); ("PMA_TXA_LDOCLK_BYPASS_SML", FBit 9);
   ("PMA_TXA_LDOCLK_BYPASS_BIG_OV", FBit 10); ("PMA_TXA_LDOCLK_BYPASS_BIG", FBit 11);
   ("PMA_TXA_LDOCLK_EN_SML_OV", FBit 12); ("PMA_TXA_LDOCLK_EN_SML", FBit 13);
   ("PMA_TXA_LDOCLK_EN_BIG_OV", FBit 14); ("PMA_TXA_LDOCLK_EN_BIG", FBit 15)].
Definition R_AUSPMA_RX_SHM_TJ_RXA_CTLE_CTRL0 : reg_class := RegClass 32
  [("PMA_RXA_TX_CLK_EN", FBit 20); ("PMA_RXA_TX_CLK_EN_OV", FBit 21)].
Definition R_AUSPMA_RX_SHM_TJ_RXA_AFE_CTRL1 : reg_class := RegClass 32
  [("CLK_LANE_RX_DIV20_SYNC_RESET_N_OV", FBit 29); ("CLK_LANE_RX_DIV20_SYNC_RESET_N_VAL", FBit 30)].
Definition R_AUSPMA_RX_SHM_TJ_RXA_DFE_CTRL10 : reg_class := RegClass 32
  [("PMA_RXA_DTVREG_ADJUST", FBits 31 27 TInt)].
Definition R_AUSPMA_RX_SHM_TJ_RXA_DFE_CTRL11 : reg_class := RegClass 32
  [("PMA_RXA_DTVREG_BIG_EN", FBit 23); ("PMA_RXA_DTVREG_BIG_EN_OV", FBit 24);
   ("PMA_RXA_DTVREG_SML_EN", FBit 25); ("PMA_RXA_DTVREG_SML_EN_OV", FBit 26)].
Definition R_AUSPMA_RX_SHM_TJ_RXA_DFE_CTRL12 : reg_class := RegClass 32
  [("PMA_RXA_TX_BYTECLK_RESET_SYNC_CLR", FBit 22); ("PMA_RXA_TX_BYTECLK_RESET_SYNC_CLR_OV", FBit 23);
   ("PMA_RXA_TX_BYTECLK_RESET_SYNC_EN", FBit 24); ("PMA_RXA_TX_BYTECLK_RESET_SYNC_EN_OV", FBit 25);
   ("PMA_RXA_TX_HRCLK_SEL", FBit 28); ("PMA_RXA_TX_HRCLK_SEL_OV", FBit 29); ("PMA_RXA_TX_PBIAS_EN", FBit 30);
   ("PMA_RXA_TX_PBIAS_EN_OV", FBit 31)].
Definition R_AUSPMA_RX_SHM_TJ_RXA_DFE_CTRL13 : reg_class := RegClass 32
  [("PMA_RXA_TX_PRE_EN", FBit 0); ("PMA_RXA_TX_PRE_EN_OV", FBit 1); ("PMA_RXA_TX_PST1_EN", FBit 2);
   ("PMA_RXA_TX_PST1_EN_OV", FBit 3); ("PMA_RXA_DTVREG_ADJUST_OV", FBit 15)].
Definition R_AUSPMA_RX_SHM_TJ_RXA_SAVOS_CTRL16 : reg_class := RegClass 32
  [("PMA_RXA_RXTERM_EN", FBit 21); ("PMA_RXA_RXTERM_EN_OV", FBit 22);
   ("PMA_RXA_RXTERM_PULLUP_LEAK_EN", FBit 23); ("PMA_RXA_RXTERM_PULLUP_LEAK_EN_OV", FBit 24);
   ("PMA_RXA_TX_CAL_CODE", FBits 29 25 TInt); ("PMA_RXA_TX_CAL_CODE_OV", FBit 30)].
Definition R_AUSPMA_RX_SHM_TJ_RXA_TX_CTRL17 : reg_class := RegClass 32
  [("PMA_RXA_TX_MARGIN", FBits 19 15 TInt); ("PMA_RXA_TX_MARGIN_OV", FBit 20);
   ("PMA_RXA_TX_MARGIN_LSB", FBit 21); ("PMA_RXA_TX_MARGIN_LSB_OV", FBit 22);
   ("PMA_RXA_TX_MARGIN_P1", FBits 26 23 TInt); ("PMA_RXA_TX_MARGIN_P1_OV", FBit 27);
   ("PMA_RXA_TX_MARGIN_P1_LSB", FBits 29 28 TInt); ("PMA_RXA_TX_MARGIN_P1_LSB_OV", FBit 30)].
Definition R_AUSPMA_RX_SHM_TJ_RXA_TX_CTRL18 : reg_class := RegClass 32
  [("PMA_RXA_TX_P1_CODE", FBits 3 0 TInt); ("PMA_RXA_TX_P1_CODE_OV", FBit 4);
   ("PMA_RXA_TX_P1_LSB_CODE", FBits 6 5 TInt); ("PMA_RXA_TX_P1_LSB_CODE_OV", FBit 7);
   ("PMA_RXA_TX_MARGIN_PRE", FBits 10 8 TInt); ("PMA_RXA_TX_MARGIN_PRE_OV", FBit 11);
   ("PMA_RXA_TX_MARGIN_PRE_LSB", FBits 13 12 TInt); ("PMA_RXA_TX_MARGIN_PRE_LSB_OV", FBit 14);
   ("PMA_RXA_TX_PRE_LSB_CODE", FBits 16 15 TInt); ("PMA_RXA_TX_PRE_LSB_CODE_OV", FBit 17);
   ("PMA_RXA_TX_PRE_CODE", FBits 21 18 TInt); ("PMA_RXA_TX_PRE_CODE_OV", FBit 22)].
Definition R_AUSPMA_RX_SHM_TJ_RXA_TERM_CTRL19 : reg_class := RegClass 32
  [("PMA_RXA_TX_TEST_EN", FBit 21); ("PMA_RXA_TX_TEST_EN_OV", FBit 22); ("PMA_RXA_TX_EN", FBit 23);
   ("PMA_RXA_TX_EN_OV", FBit 24); ("PMA_RXA_TX_CLK_DLY_CTRL_TAPGEN", FBits 27 25 TInt);
   ("PMA_RXA_TX_CLK_DIV2_EN", FBit 28); ("PMA_RXA_TX_CLK_DIV2_EN_OV", FBit 29);
   ("PMA_RXA_TX_CLK_DIV2_RST", FBit 30); ("PMA_RXA_TX_CLK_DIV2_RST_OV", FBit 31)].
Definition R_AUSPMA_RX_SHM_TJ_RXA_VREF_CTRL22 : reg_class := RegClass 32
  [("PMA_RXA_VREF_ADJUST_GRAY", FBits 11 7 TInt); ("PMA_RXA_VREF_ADJUST_GRAY_OV", FBit 12);
   ("PMA_RXA_VREF_BIAS_SEL", FBits 14 13 TInt); ("PMA_RXA_VREF_BIAS_SEL_OV", FBit 15);
   ("PMA_RXA_VREF_BOOST_EN", FBit 16); ("PMA_RXA_VREF_BOOST_EN_OV", FBit 17); ("PMA_RXA_VREF_EN", FBit 18);
   ("PMA_RXA_VREF_EN_OV", FBit 19); ("LPBKIN_RECOVERED_DATA", FBits 29 28 TInt);
   ("PMA_RXA_TEST_RXLPBKDT_EN", FBit 30); ("PMA_RXA_TEST_RXLPBKDT_EN_OV", FBit 31)].
Definition R_AUSPMA_RX_TOP_TJ_CFG_RX_TXMODE : reg_class := RegClass 32
  [("RX_TXMODE", FBit 0)].
Definition R_ACIOPHY_LANE_DP_CFG_BLK_TX_DP_CTRL0 : reg_class := RegClass 32
  [("DP_PMA_BYTECLK_RESET", FBit 0); ("DP_MAC_DIV20_CLK_SEL", FBit 1); ("DPTXPHY_PMA_LANE_RESET_N", FBit 2);
   ("DPTXPHY_PMA_LANE_RESET_N_OV", FBit 3); ("DPTX_PCLK1_SELECT", FBits 6 4 TInt);
   ("DPTX_PCLK2_SELECT", FBits 9 7 TInt); ("DPRX_PCLK_SELECT", FBits 12 10 TInt);
   ("DPTX_PCLK1_ENABLE", FBit 13); ("DPTX_PCLK2_ENABLE", FBit 14); ("DPRX_PCLK_ENABLE", FBit 15)].

(** ** hw/codecs/__init__.py *)
Definition E_PWR_MODE : list (string * Z) :=
  [("ACTIVE", 0); ("MUTE", 1); ("SHUTDOWN", 2)].
Definition R_PWR_CTL : reg_class := RegClass 8
  [("ISNS_PD", FBit 3); ("VSNS_PD", FBit 2); ("MODE", FBits 1 0 (TEnum (map snd E_PWR_MODE)))].
Definition R_PB_CFG0 : reg_class := RegClass 8
  [("PDM_MAP", FBit 7); ("PB_PDM_SRC", FBit 6); ("PB_SRC", FBit 5); ("AMP_LEVEL", FBits 4 0 TInt)].
Definition R_PB_CFG2 : reg_class := RegClass 8
  [("DVC_PCM", FBits 7 0 TInt)].
Definition R_PB_CFG3 : reg_class := RegClass 8
  [("DVC_PDM", FBits 7 0 TInt)].
Definition E_RX_SCFG : list (string * Z) :=
  [("I2C_OFFSET", 0); ("LEFT", 1); ("RIGHT", 2); ("DOWNMIX", 3)].
Definition E_RX_WLEN : list (string * Z) :=
  [("W_16BIT", 0); ("W_20BIT", 1); ("W_24BIT", 2); ("W_32BIT", 3)].
Definition E_RX_SLEN : list (string * Z) :=
  [("W_16BIT", 0); ("W_24BIT", 1); ("W_32BIT", 2)].
Definition R_TDM_CFG2 : reg_class := RegClass 8
  [("RX_SCFG", FBits 5 4 (TEnum (map snd E_RX_SCFG))); ("RX_WLEN", FBits 3 2 (TEnum (map snd E_RX_WLEN)));
   ("RX_SLEN", FBits 1 0 (TEnum (map snd E_RX_SLEN)))].
Definition R_TDM_CFG3 : reg_class := RegClass 8
  [("RX_SLOT_R", FBits 7 4 TInt); ("RX_SLOT_L", FBits 3 0 TInt)].
Definition R_MODE_CTRL : reg_class := RegClass 8
  [("BOP_SRC", FBit 7); ("ISNS_PD", FBit 3); ("VSNS_PD", FBit 2);
   ("MODE", FBits 1 0 (TEnum (map snd E_PWR_MODE)))].
Definition R_CHNL_0 : reg_class := RegClass 8
  [("CDS_MODE", FBits 7 6 TInt); ("AMP_LEVEL", FBits 5 1 TInt)].
Definition R_DVC : reg_class := RegClass 8
  [("DVC_LVL", FBits 7 0 TInt)].
Definition R_INT_MASK0 : reg_class := RegClass 8
  [("BOPM", FBit 7); ("BOPIH", FBit 6); ("LIMMA", FBit 5); ("PBIP", FBit 4); ("LIMA", FBit 3);
   ("TDMCE", FBit 2); ("OC", FBit 1); ("OT", FBit 0)].
Definition R_INT_CLK_CFG : reg_class := RegClass 8
  [("CLK_ERR_PWR_EN", FBit 7); ("DIS_CLK_HAT", FBit 6); ("CLK_HALT_TIMER", FBits 5 3 TInt);
   ("IRQZ_CLR", FBit 2); ("IRQZ_PIN_CFG", FBits 1 0 TInt)].

(** ** hw/codecs/cs42l84.py *)
Definition R_IRQ_MASK1 : reg_class := RegClass 8
  [("RING_PLUG", FBit 0); ("RING_UNPLUG", FBit 1); ("TIP_PLUG", FBit 2); ("TIP_UNPLUG", FBit 3)].
Definition R_IRQ_MASK3 : reg_class := RegClass 8
  [("HSDET_AUTO_DONE", FBit 7)].
Definition E_DCID_GND_SEL : list (string * Z) :=
  [("NONE", 0); ("HS3", 1); ("HS4", 2)].
Definition E_DCID_Z_RANGE : list (string * Z) :=
  [("NONE", 0); ("UNK2", 2); ("UNK3", 3)].
Definition R_DCID_CTRL1 : reg_class := RegClass 8
  [("Z_RANGE", FBits 2 0 (TEnum (map snd E_DCID_Z_RANGE)))].
Definition R_DCID_CTRL2 : reg_class := RegClass 8
  [("GND_SEL", FBits 6 4 (TEnum (map snd E_DCID_GND_SEL)))].
Definition R_DCID_CTRL3 : reg_class := RegClass 8
  [("START", FBit 0)].
Definition R_DCID_STATUS : reg_class := RegClass 32
  [("OVERALL", FBits 9 0 TInt); ("DONE", FBit 10); ("U", FBits 20 11 TInt); ("D", FBits 30 21 TInt)].
Definition E_DEBOUNCE_TIME : list (string * Z) :=
  [("T_0MS", 0); ("T_125MS", 1); ("T_250MS", 2); ("T_500MS", 3); ("T_750MS", 4); ("T_1S", 5)].
Definition R_TR_SENSE_CTRL : reg_class := RegClass 8
  [("INV", FBit 7); ("UNK1", FBit 6); ("FALLTIME", FBits 5 3 (TEnum (map snd E_DEBOUNCE_TIME)));
   ("RISETIME", FBits 2 0 (TEnum (map snd E_DEBOUNCE_TIME)))].
Definition R_TR_SENSE_STATUS : reg_class := RegClass 8
  [("RING_PLUG", FBit 0); ("RING_UNPLUG", FBit 1); ("TIP_PLUG", FBit 2); ("TIP_UNPLUG", FBit 3)].
Definition R_HS_DET_STATUS2 : reg_class := RegClass 8
  [("HS_TRUE", FBit 1); ("SHORT_TRUE", FBit 0)].
Definition R_MSM_BLOCK_EN1 : reg_class := RegClass 8
  [].
Definition R_MSM_BLOCK_EN2 : reg_class := RegClass 8
  [("ASP_EN", FBit 6); ("BUS_EN", FBit 5); ("DAC_EN", FBit 4); ("ADC_EN", FBit 3)].
Definition R_MSM_BLOCK_EN3 : reg_class := RegClass 8
  [("TR_SENSE_EN", FBit 3); ("DCID_EN", FBit 4)].
Definition R_HS_CLAMP_DISABLE : reg_class := RegClass 8
  [("HS_CLAMP_DISABLE", FBit 0)].
Definition E_SAMP_RATE : list (string * Z) :=
  [("S_16KHZ", 1); ("S_24KHZ", 2); ("S_32KHZ", 3); ("S_48KHZ", 4); ("S_96KHZ", 5); ("S_192KHZ", 6);
   ("S_22K05HZ", 0xa); ("S_44K1HZ", 0xc); ("S_88K2HZ", 0xd); ("S_176K4HZ", 0xe)].
Definition E_MCLK_SRC : list (string * Z) :=
  [("RCO", 0); ("MCLK_PIN", 1); ("BCLK", 2); ("PLL", 3)].
Definition E_MCLK_FREQ : list (string * Z) :=
  [("F_12MHZ", 0); ("F_24MHZ", 1); ("F_12_288KHZ", 2); ("F_24_576KHZ", 3)].
Definition R_CCM_CTRL1 : reg_class := RegClass 8
  [("MCLK_SRC", FBits 1 0 (TEnum (map snd E_MCLK_SRC))); ("MCLK_FREQ", FBits 3 2 (TEnum (map snd E_MCLK_FREQ)))].
Definition E_REFCLK_DIV : list (string * Z) :=
  [("DIV1", 0); ("DIV2", 1); ("DIV4", 2); ("DIV8", 3)].
Definition R_CCM_CTRL3 : reg_class := RegClass 8
  [("REFCLK_DIV", FBits 2 1 (TEnum (map snd E_REFCLK_DIV))); ("REFCLK_IS_MCLK", FBit 0)].
Definition R_CCM_CTRL4 : reg_class := RegClass 8
  [("REFCLK_EN", FBit 0)].
Definition R_CCM_SAMP_RATE : reg_class := RegClass 8
  [("RATE", FBits 7 0 (TEnum (map snd E_SAMP_RATE)))].
Definition E_PLL_MODE : list (string * Z) :=
  [("UNSUPP", 0); ("BYPASS_512", 1); ("BYPASS_1024", 2); ("BYPASS_BOTH", 3)].
Definition R_PLL_CTRL : reg_class := RegClass 8
  [("MODE", FBits 2 1 (TEnum (map snd E_PLL_MODE))); ("EN", FBit 0)].
Definition E_WNF_CF : list (string * Z) :=
  [("F_UNK", 0); ("F_300HZ", 3)].
Definition R_ADC_CTRL1 : reg_class := RegClass 8
  [("PREAMP_GAIN", FBits 7 6 TInt); ("PGA_GAIN", FBits 5 0 TInt)].
Definition R_ADC_CTRL4 : reg_class := RegClass 8
  [("WNF_CF", FBits 5 4 (TEnum (map snd E_WNF_CF))); ("WNF_EN", FBit 3)].
Definition R_DAC_CTRL1 : reg_class := RegClass 8
  [("UNMUTE", FBit 0); ("HP_LOAD", FBit 2); ("UNK1", FBit 3); ("UNK2", FBit 4); ("UNK3", FBit 5);
   ("HIGH_V", FBit 6)].
Definition E_PULLDOWN_R : list (string * Z) :=
  [("NONE", 0); ("R_UNK8", 8); ("R_1K1OHMS", 0xc)].
Definition R_DAC_CTRL2 : reg_class := RegClass 8
  [("PULLDOWN_R", FBits 3 0 (TEnum (map snd E_PULLDOWN_R)))].
Definition R_HP_VOL_CTRL : reg_class := RegClass 8
  [("ZERO_CROSS", FBit 1); ("SOFT", FBit 0)].
Definition E_BUS_SOURCE : list (string * Z) :=
  [("EMPTY", 0); ("ADC", 7); ("ASP_RX_CH1", 0xd); ("ASP_RX_CH2", 0xe)].
Definition R_BUS_DAC_SRC : reg_class := RegClass 8
  [("CHB", FBits 7 4 (TEnum (map snd E_BUS_SOURCE))); ("CHA", FBits 3 0 (TEnum (map snd E_BUS_SOURCE)))].
Definition R_BUS_ASP_TX_SRC : reg_class := RegClass 8
  [("CH2", FBits 7 4 (TEnum (map snd E_BUS_SOURCE))); ("CH1", FBits 3 0 (TEnum (map snd E_BUS_SOURCE)))].
Definition E_HSBIAS_SENSE_TRIP : list (string * Z) :=
  [("C_12UA", 0); ("C_23UA", 1); ("C_41UA", 2); ("C_52UA", 3); ("C_64UA", 4); ("C_75UA", 5); ("C_93UA", 6);
   ("C_104UA", 7)].
Definition R_HSBIAS_SC_AUTOCTL : reg_class := RegClass 8
  [("HSBIAS_SENSE_EN", FBit 7); ("AUTO_HSBIAS_HIZ", FBit 6); ("TIP_SENSE_EN", FBit 5);
   ("SENSE_TRIP", FBits 2 0 (TEnum (map snd E_HSBIAS_SENSE_TRIP)))].
Definition E_TIP_SENSE_CTRL : list (string * Z) :=
  [("DISABLED", 0); ("DIG_INPUT", 1); ("SHORT_DET", 3)].
Definition R_TIP_SENSE_CTRL2 : reg_class := RegClass 8
  [("CTRL", FBits 7 6 (TEnum (map snd E_TIP_SENSE_CTRL))); ("INV", FBit 5)].
Definition E_HSBIAS_DET_MODE : list (string * Z) :=
  [("DISABLED", 0); ("SHORT_DET", 1); ("NORMAL", 3)].
Definition E_HSBIAS_CTRL : list (string * Z) :=
  [("HI_Z", 0); ("U_0V0", 1); ("U_2V0", 2); ("U_2V7", 3)].
Definition R_MISC_DET_CTRL : reg_class := RegClass 8
  [("UNK1", FBit 7); ("DETECT_MODE", FBits 4 3 (TEnum (map snd E_HSBIAS_DET_MODE)));
   ("HSBIAS_CTRL", FBits 2 1 (TEnum (map snd E_HSBIAS_CTRL))); ("PDN_MIC_LVL_DET", FBit 0)].
Definition E_S0_DEBOUNCE_TIME : list (string * Z) :=
  [("T_10MS", 0); ("T_20MS", 1); ("T_30MS", 2); ("T_40MS", 3); ("T_50MS", 4); ("T_60MS", 5); ("T_70MS", 6);
   ("T_80MS", 7)].
Definition R_MIC_DET_CTRL2 : reg_class := RegClass 8
  [("DEBOUNCE_TIME", FBits 7 5 (TEnum (map snd E_S0_DEBOUNCE_TIME)))].
Definition R_MIC_DET_CTRL4 : reg_class := RegClass 8
  [("LATCH_TO_VP", FBit 1)].
Definition R_HS_DET_CTRL2 : reg_class := RegClass 8
  [("CTRL", FBits 7 6 TInt); ("SET", FBits 5 4 TInt); ("REF", FBit 3); ("AUTO_TIME", FBits 1 0 TInt)].
Definition R_HS_SWITCH_CTRL : reg_class := RegClass 8
  [("REF_HS3", FBit 7); ("REF_HS4", FBit 6); ("HSB_FILT_HS3", FBit 5); ("HSB_FILT_HS4", FBit 4);
   ("HSB_HS3", FBit 3); ("HSB_HS4", FBit 2); ("GNDHS_HS3", FBit 1); ("GNDHS_HS4", FBit 0)].
Definition R_ASP_CTRL : reg_class := RegClass 8
  [("TDM_MODE", FBit 2); ("BCLK_EN", FBit 1)].
Definition R_ASP_FSYNC_CTRL23 : reg_class := RegClass 16
  [("BCLK_PERIOD", FBits 12 1 TInt)].
Definition R_ASP_TX_HIZ_DLY_CTRL : reg_class := RegClass 8
  [("DRV_Z", FBits 5 4 TInt); ("HIZ_DELAY", FBits 3 2 TInt); ("FS", FBit 1); ("UNK1", FBit 0)].
Definition R_ASP_RX_EN : reg_class := RegClass 8
  [("CH2_EN", FBit 1); ("CH1_EN", FBit 0)].
Definition R_ASP_CH_CTRL : reg_class := RegClass 32
  [("WIDTH", FBits 23 16 TInt); ("SLOT_START", FBits 10 1 TInt); ("EDGE", FBit 0)].

(** ** hw/codecs/ssm3515.py *)
Definition R_PWR : reg_class := RegClass 8
  [("APWDN_EN", FBit 7); ("BSNS_PWDN", FBit 6); ("S_RST", FBit 1); ("SPWDN", FBit 0)].
Definition R_GEC : reg_class := RegClass 8
  [("EDGE", FBit 4); ("ANA_GAIN", FBits 1 0 TInt)].
Definition E_FS : list (string * Z) :=
  [("FS_8_12", 0); ("FS_16_24", 1); ("FS_32_48", 2); ("FS_64_96", 3); ("FS_128_192", 4); ("FS_48_72", 5)].
Definition R_DAC : reg_class := RegClass 8
  [("HV", FBit 7); ("MUTE", FBit 6); ("HPF", FBit 5); ("LPM", FBit 4); ("FS", FBits 1 0 (TEnum (map snd E_FS)))].
Definition R_SAI1 : reg_class := RegClass 8
  [("DAC_POL", FBit 7); ("BCLK_POL", FBit 6); ("TDM_BCLKS", FBits 5 3 TInt); ("FSYNC_MODE", FBit 2);
   ("SDATA_FMT", FBit 1); ("SAI_MODE", FBit 0)].
Definition R_SAI2 : reg_class := RegClass 8
  [("DATA_WIDTH", FBit 7); ("AUTO_SLOT", FBit 4); ("TDM_SLOT", FBits 3 0 TInt)].
Definition R_STATUS_ssm3515 : reg_class := RegClass 8
  [("UVLO_VREG", FBit 6); ("LIM_EG", FBit 5); ("CLIP", FBit 4); ("AMP_OC", FBit 3); ("OTF", FBit 2);
   ("OTW", FBit 1); ("BAT_WARN", FBit 0)].

(** ** hw/dart8020.py *)
Definition R_ERROR_dart8020 : reg_class := RegClass 32
  [("FLAG", FBit 31); ("STREAM", FBits 27 24 TInt); ("CODE", FBits 23 0 TInt); ("NO_DAPF_MATCH", FBit 11);
   ("WRITE", FBit 10); ("SUBPAGE_PROT", FBit 7); ("PTE_READ_FAULT", FBit 6); ("READ_FAULT", FBit 4);
   ("WRITE_FAULT", FBit 3); ("NO_PTE", FBit 2); ("NO_PMD", FBit 1); ("NO_TTBR", FBit 0)].
Definition R_STREAM_COMMAND : reg_class := RegClass 32
  [("INVALIDATE", FBit 20); ("BUSY", FBit 2)].
Definition R_TCR_dart8020 : reg_class := RegClass 32
  [("BYPASS_DAPF", FBit 12); ("BYPASS_DART", FBit 8); ("TRANSLATE_ENABLE", FBit 7)].
Definition R_TTBR_dart8020 : reg_class := RegClass 32
  [("VALID", FBit 31); ("ADDR", FBits 30 0 TInt)].
Definition R_REMAP : reg_class := RegClass 32
  [("MAP3", FBits 31 24 TInt); ("MAP2", FBits 23 16 TInt); ("MAP1", FBits 15 8 TInt); ("MAP0", FBits 7 0 TInt)].
Definition PTE_T8020 : reg_class := RegClass 64
  [("SP_START", FBits 63 52 TInt); ("SP_END", FBits 51 40 TInt); ("OFFSET", FBits 39 14 TInt);
   ("SP_PROT_DIS", FBit 1); ("VALID", FBit 0)].
Definition PTE_T6000 : reg_class := RegClass 64
  [("SP_START", FBits 63 52 TInt); ("SP_END", FBits 51 40 TInt); ("OFFSET", FBits 39 10 TInt);
   ("SP_PROT_DIS", FBit 1); ("VALID", FBit 0)].
Definition R_CONFIG : reg_class := RegClass 32
  [("LOCK", FBit 15)].
Definition R_DAPF_LOCK : reg_class := RegClass 32
  [("LOCK", FBit 0)].

(** ** hw/dart8110.py *)
Definition R_PARAMS_0 : reg_class := RegClass 32
  [("CLIENT_PARTITIONS_SUPPORTED", FBit 29); ("LOG2_PGSZ", FBits 27 24 TInt);
   ("LOG2_TE_COUNT", FBits 22 20 TInt); ("TLB_SET_COUNT", FBits 11 0 TInt)].
Definition R_PARAMS_4 : reg_class := RegClass 32
  [("LOG2_NUM_WAYS", FBits 30 28 TInt); ("NUM_ASCS", FBits 25 24 TInt); ("NUM_W_PORTS", FBits 22 20 TInt);
   ("NUM_R_PORTS", FBits 18 16 TInt); ("NUM_APFS", FBits 15 8 TInt); ("SUPPORT_STT_PREFETCH", FBit 6);
   ("SUPPORT_TLB_PREFETCH", FBit 5); ("SUPPORT_CTC_PREFETCH", FBit 4); ("SUPPORT_HW_FLUSH", FBit 3);
   ("SUPPORT_TZ_TAGGER", FBit 2); ("SUPPORT_REG_LOCK", FBit 1); ("SUPPORT_FULL_BYPASS", FBit 0)].
Definition R_PARAMS_8 : reg_class := RegClass 32
  [("PA_WIDTH", FBits 29 24 TInt); ("VA_WIDTH", FBits 21 16 TInt); ("VERS_MAJ", FBits 15 8 TInt);
   ("VERS_MIN", FBits 7 0 TInt)].
Definition R_PARAMS_C : reg_class := RegClass 32
  [("NUM_CLIENTS", FBits 24 16 TInt); ("NUM_SIDS", FBits 8 0 TInt)].
Definition R_ERROR_dart8110 : reg_class := RegClass 32
  [("FLAG", FBit 31); ("SMMU", FBit 30); ("REGION_PROTECT", FBit 29); ("WRITE_nREAD", FBit 28);
   ("SID", FBits 27 20 TInt); ("SECONDARY", FBit 19); ("FILL_REGION", FBit 18); ("BPF_REJECT", FBit 14);
   ("EXTERNAL", FBit 13); ("STT_FLUSH", FBit 12); ("STT_MISMATCH", FBit 11); ("APF_REJECT", FBit 10);
   ("DROP_PROTECT", FBit 9); ("CTRR_WRITE_PROTECT", FBit 8); ("AXI_ERROR", FBit 7); ("AXI_DECODE", FBit 6);
   ("READ_FAULT", FBit 5); ("WRITE_FAULT", FBit 4); ("NO_PTE", FBit 3); ("NO_PMD", FBit 2); ("NO_PGD", FBit 1);
   ("NO_TTBR", FBit 0)].
Definition R_TLB_OP : reg_class := RegClass 32
  [("BUSY", FBit 31); ("HARDWARE_FLUSH", FBit 30); ("FLUSH_VA_RANGE", FBit 14); ("ENABLE_STT_FLUSH", FBit 13);
   ("DISABLE_STC_FLUSH", FBit 12); ("OP", FBits 10 8 TInt); ("STREAM", FBits 7 0 TInt)].
Definition R_TLB_OP_IDX : reg_class := RegClass 32
  [("SET", FBits 13 8 TInt); ("WAY", FBits 6 4 TInt); ("TE", FBits 2 0 TInt)].
Definition R_PROTECT : reg_class := RegClass 32
  [("LOCK_TZ_SELECT", FBit 4); ("LOCK_TZ_CONFIG", FBit 3); ("LOCK_REG_4xx", FBit 1); ("LOCK_TCR_TTBR", FBit 0)].
Definition R_DIAG_LOCK : reg_class := RegClass 32
  [("LOCK_ON_ERR", FBit 1); ("LOCK", FBit 0)].
Definition R_TCR_dart8110 : reg_class := RegClass 32
  [("REMAP", FBits 11 8 TInt); ("REMAP_EN", FBit 7); ("FOUR_LEVELS", FBit 3); ("BYPASS_DAPF", FBit 2);
   ("BYPASS_DART", FBit 1); ("TRANSLATE_ENABLE", FBit 0)].
Definition R_TTBR_dart8110 : reg_class := RegClass 32
  [("ADDR", FBits 29 2 TInt); ("VALID", FBit 0)].
Definition PTE_dart8110 : reg_class := RegClass 64
  [("SP_START", FBits 63 52 TInt); ("SP_END", FBits 51 40 TInt); ("OFFSET", FBits 37 10 TInt);
   ("RDPROT", FBit 3); ("WRPROT", FBit 2); ("UNCACHABLE", FBit 1); ("VALID", FBit 0)].

(** ** hw/dockchannel.py *)
Definition R_RX_DATA : reg_class := RegClass 32
  [("DATA", FBits 31 8 TInt); ("COUNT", FBits 7 0 TInt)].

(** ** hw/dwc3.py *)
Definition R_XHCI_USBCMD : reg_class := RegClass 32
  [("EU3S", FBit 11); ("EWE", FBit 10); ("CRS", FBit 9); ("CSS", FBit 8); ("LHCRST", FBit 7); ("HSEE", FBit 3);
   ("INTE", FBit 2); ("HCRST", FBit 1); ("RS", FBit 0)].
Definition R_XHCI_USBSTS : reg_class := RegClass 32
  [("HCE", FBit 12); ("CNR", FBit 11); ("SRE", FBit 10); ("RSS", FBit 9); ("SSS", FBit 8); ("PCD", FBit 4);
   ("EINT", FBit 3); ("HSE", FBit 2); ("HCH", FBit 0)].
Definition R_XHCI_CRCR_LO : reg_class := RegClass 32
  [("CRP", FBits 31 6 TInt); ("CRR", FBit 3); ("CA", FBit 2); ("CS", FBit 1); ("RCS", FBit 0)].
Definition R_XHCI_DNCTRL : reg_class := RegClass 32
  [("N0_N15", FBits 15 0 TInt)].
Definition R_XHCI_DOORBELL : reg_class := RegClass 32
  [("TASK_ID", FBits 31 16 TInt); ("RSVD", FBits 15 8 TInt); ("TARGET", FBits 7 0 TInt)].
Definition R_XHCI_PORTSC : reg_class := RegClass 32
  [("CCS", FBit 0); ("PED", FBit 1); ("OCA", FBit 3); ("RESET", FBit 4); ("PLS", FBits 8 5 TInt);
   ("PP", FBit 9); ("SPEED", FBits 13 10 TInt); ("PIC", FBits 15 14 TInt); ("LWS", FBit 16); ("CSC", FBit 17);
   ("PEC", FBit 18); ("WRC", FBit 19); ("OCC", FBit 20); ("PRC", FBit 21); ("PLC", FBit 22); ("CEC", FBit 23);
   ("CAS", FBit 24); ("WCE", FBit 25); ("WDE", FBit 26); ("WOE", FBit 27); ("DR", FBit 30); ("WPR", FBit 31)].
Definition R_XHCI_PORTLI : reg_class := RegClass 32
  [("ERROR_CNT", FBits 15 0 TInt); ("RLC", FBits 19 16 TInt); ("TLC", FBits 23 20 TInt);
   ("RSV", FBits 31 24 TInt)].
Definition R_XHCI_IMAN : reg_class := RegClass 32
  [("IP", FBit 0); ("IE", FBit 1)].
Definition R_GUSB3PIPECTL : reg_class := RegClass 32
  [("PHYSOFTRST", FBit 31); ("U2SSINP3OK", FBit 29); ("DISRXDETINP3", FBit 28); ("UX_EXIT_PX", FBit 27);
   ("REQP1P2P3", FBit 24); ("DEPOCHANGE", FBit 18); ("SUSPHY", FBit 17); ("LFPSFILT", FBit 9);
   ("RX_DETOPOLL", FBit 8)].
Definition R_GUSB2PHYCFG : reg_class := RegClass 32
  [("PHYSOFTRST", FBit 31); ("U2_FREECLK_EXISTS", FBit 30); ("SUSPHY", FBit 6); ("ULPI_UTMI", FBit 4);
   ("ENBLSLPM", FBit 8)].
Definition R_GCTL : reg_class := RegClass 32
  [("U2RSTECN", FBit 16); ("PRTCAP", FBits 14 12 TInt); ("CORESOFTRESET", FBit 11); ("SOFITPSYNC", FBit 10);
   ("SCALEDOWN", FBits 6 4 TInt); ("DISSCRAMBLE", FBit 3); ("U2EXIT_LFPS", FBit 2);
   ("GBLHIBERNATIONEN", FBit 1); ("DSBLCLKGTNG", FBit 0)].
Definition R_PIPEHANDLER_OVERRIDE : reg_class := RegClass 32
  [("RXVALID", FBit 0); ("RXDETECT", FBit 2)].
Definition E_PIPEHANDLER_MUX_MODE : list (string * Z) :=
  [("USB3_PHY", 0); ("UNK1", 1); ("DUMMY_PHY", 2); ("UNK3", 3)].
Definition E_PIPEHANDLER_CLK_SELECT : list (string * Z) :=
  [("UNK0", 0); ("USB3_PHY", 1); ("UNK2", 2); ("UNK3", 3); ("DUMMY_PHY", 4)].
Definition R_PIPEHANDLER_MUX_CTRL : reg_class := RegClass 32
  [("MUX_MODE", FBits 1 0 (TEnum (map snd E_PIPEHANDLER_MUX_MODE)));
   ("CLK_SELECT", FBits 5 3 (TEnum (map snd E_PIPEHANDLER_CLK_SELECT)))].
Definition R_PIPEHANDLER_LOCK : reg_class := RegClass 32
  [("LOCK_EN", FBit 0)].
Definition R_PIPEHANDLER_AON_GEN : reg_class := RegClass 32
  [("DWC3_FORCE_CLAMP_EN", FBit 4); ("DWC3_RESET_N", FBit 0)].
Definition R_PIPEHANDLER_NONSELECTED_OVERRIDE : reg_class := RegClass 32
  [("NATIVE_POWER_DOWN", FBits 3 0 TInt); ("NATIVE_RESET", FBit 12); ("DUMMY_PHY_EN", FBit 15)].

(** ** hw/i2c.py *)
Definition R_MTXFIFO : reg_class := RegClass 32
  [("READ", FBit 10); ("STOP", FBit 9); ("START", FBit 8); ("DATA", FBits 7 0 TInt)].
Definition R_MRXFIFO : reg_class := RegClass 32
  [("EMPTY", FBit 8); ("DATA", FBits 7 0 TInt)].
Definition R_MCNT : reg_class := RegClass 32
  [("S_RXCNT", FBits 31 24 TInt); ("S_TXCNT", FBits 23 16 TInt); ("M_RXCNT", FBits 15 8 TInt);
   ("M_TXCNT", FBits 7 0 TInt)].
Definition E_MST : list (string * Z) :=
  [("IDLE", 0); ("FRD1", 1); ("FRD2", 2); ("COMMAND", 3); ("START", 4); ("WRITE", 5); ("READ", 6); ("ACK", 7);
   ("STOP", 8); ("BAD", 0xf)].
Definition E_SST : list (string * Z) :=
  [("IDLE", 0); ("START", 1); ("ST_ACK", 2); ("DATA", 3); ("ACK", 4)].
Definition R_XFSTA : reg_class := RegClass 32
  [("MST", FBits 27 24 (TEnum (map snd E_MST))); ("SRD", FBit 20); ("SWR", FBit 19);
   ("SST", FBits 18 16 (TEnum (map snd E_SST))); ("XFIFO", FBits 9 8 TInt); ("XFCNT", FBits 7 0 TInt)].
Definition R_SADDR : reg_class := RegClass 32
  [("DEB", FBit 31); ("DIR", FBit 30); ("ENS", FBit 29); ("RST_STX", FBit 28); ("RST_SRX", FBit 27);
   ("PEN", FBit 26); ("AAE", FBit 25); ("SAE", FBit 24); ("ALTMASK", FBits 23 16 TInt);
   ("SALT", FBits 15 8 TInt); ("SADDR", FBits 7 0 TInt)].
Definition R_SMSTA : reg_class := RegClass 32
  [("XIP", FBit 28); ("XEN", FBit 27); ("UJF", FBit 26); ("JMD", FBit 25); ("JAM", FBit 24); ("MTO", FBit 23);
   ("MTA", FBit 22); ("MTN", FBit 21); ("MRF", FBit 20); ("MRNE", FBit 19); ("MTF", FBit 17); ("MTE", FBit 16);
   ("STO", FBit 15); ("STA", FBit 14); ("STN", FBit 13); ("SRF", FBit 12); ("SRNE", FBit 11); ("STR", FBit 10);
   ("STF", FBit 9); ("STE", FBit 8); ("TOS", FBit 7); ("TOM", FBit 6); ("TOE", FBit 5); ("DCI", FBit 4);
   ("DDI", FBit 3); ("DCO", FBit 2); ("DDO", FBit 1); ("NN", FBit 0)].
Definition R_CTL : reg_class := RegClass 32
  [("MSW", FBits 26 16 TInt); ("ENABLE", FBit 11); ("MRR", FBit 10); ("MTR", FBit 9); ("UJM", FBit 8);
   ("CLK", FBits 7 0 TInt)].
Definition R_STXFIFO : reg_class := RegClass 32
  [("DATA", FBits 7 0 TInt)].
Definition R_SRXFIFO : reg_class := RegClass 32
  [("N", FBit 12); ("P", FBit 11); ("S", FBit 10); ("O", FBit 9); ("E", FBit 8); ("DATA", FBits 7 0 TInt)].
Definition R_FIFOCTL : reg_class := RegClass 32
  [("HALT", FBit 0)].

(** ** hw/isp.py *)
Definition ISP_REVISION : reg_class := RegClass 32
  [("REVISION", FBits 15 0 TInt)].

(** ** hw/jpeg.py *)
Definition R_STATUS_jpeg : reg_class := RegClass 32
  [("DONE", FBit 0); ("TIMEOUT", FBit 1); ("RD_BUF_OVERFLOW", FBit 2); ("WR_BUF_OVERFLOW", FBit 3);
   ("CODEC_BUF_OVERFLOW", FBit 4); ("SOME_KIND_OF_MACROBLOCK_SIZE_ERROR", FBit 5); ("AXI_ERROR", FBit 6);
   ("UNKNOWN_FLAG", FBit 7)].
Definition E_CODEC : list (string * Z) :=
  [("_444", 0); ("_422", 1); ("_411", 2); ("_420", 3); ("_400", 4)].
Definition R_CODEC : reg_class := RegClass 32
  [("CODEC", FBits 2 0 (TEnum (map snd E_CODEC)))].
Definition E_ENCODE_PIXEL_FORMAT : list (string * Z) :=
  [("RGB101010", 0); ("YUV10_linear", 1); ("RGB888", 2); ("RGB565", 3); ("YUV_planar", 4); ("YUV_linear", 5)].
Definition R_ENCODE_PIXEL_FORMAT : reg_class := RegClass 32
  [("FORMAT", FBits 4 0 (TEnum (map snd E_ENCODE_PIXEL_FORMAT)))].
Definition E_SCALE : list (string * Z) :=
  [("DIV1", 0); ("DIV2", 1); ("DIV4", 2); ("DIV8", 3)].
Definition R_SCALE_FACTOR : reg_class := RegClass 32
  [("SCALE", FBits 1 0 (TEnum (map snd E_SCALE)))].
Definition E_DECODE_PIXEL_FORMAT : list (string * Z) :=
  [("YUV444_planar", 0); ("YUV422_planar", 1); ("YUV420_planar", 2); ("YUV422_linear", 3);
   ("_YUV10_broken_doesnt_work", 4); ("RGBA8888", 5); ("RGB565", 6); ("_RGB101010_broken_doesnt_work", 7)].
Definition R_DECODE_PIXEL_FORMAT : reg_class := RegClass 32
  [("FORMAT", FBits 3 0 (TEnum (map snd E_DECODE_PIXEL_FORMAT)))].
Definition E_JPEG_IO_FLAGS_SUBSAMPLING : list (string * Z) :=
  [("_444", 0); ("_422", 1); ("_420", 2); ("_400", 3); ("FOUR_COMPONENTS_MODE", 4); ("_411_BROKEN", 6)].
Definition R_JPEG_IO_FLAGS : reg_class := RegClass 32
  [("SUBSAMPLING_MODE", FBits 2 0 (TEnum (map snd E_JPEG_IO_FLAGS_SUBSAMPLING)));
   ("MAKE_DECODE_WORK_BREAK_ENCODE", FBit 3); ("OUTPUT_MACROBLOCKS_UNFLIPPED_H", FBit 4);
   ("OUTPUT_8BYTE_CHUNKS_CORRECTLY", FBit 5)].
Definition R_JPEG_OUTPUT_FLAGS : reg_class := RegClass 32
  [("SKIP_HEADERS", FBit 1); ("OUTPUT_SOF0_AFTER_DHT", FBit 2); ("COMPRESS_WORSE", FBit 4)].
Definition R_QTBL_SEL : reg_class := RegClass 32
  [("COMPONENT0", FBits 1 0 TInt); ("COMPONENT1", FBits 3 2 TInt); ("COMPONENT2", FBits 5 4 TInt);
   ("COMPONENT3", FBits 7 6 TInt)].

(** ** hw/mca.py *)
Definition R_STATUS_mca : reg_class := RegClass 32
  [("EN", FBit 0); ("RST", FBit 1)].
Definition R_MCLK_CONF : reg_class := RegClass 32
  [("SEL", FBits 3 0 TInt)].
Definition R_PORT_ENABLES : reg_class := RegClass 32
  [("CLOCK1", FBit 1); ("CLOCK2", FBit 2); ("DATA", FBit 3)].
Definition R_PORT_CLKSEL : reg_class := RegClass 32
  [("SEL", FBits 11 8 TInt)].
Definition R_PORT_DATASEL : reg_class := RegClass 32
  [("TXA0", FBit 0); ("TXA1", FBit 2); ("TXA2", FBit 4); ("TXA3", FBit 6); ("TXA4", FBit 8); ("TXA5", FBit 10);
   ("TXB0", FBit 1); ("TXB1", FBit 3); ("TXB2", FBit 5); ("TXB3", FBit 7); ("TXB4", FBit 9); ("TXB5", FBit 11)].
Definition E_SLOT_WIDTH : list (string * Z) :=
  [("NONE", 0); ("W_16BIT", 4); ("W_20BIT", 8); ("W_24BIT", 0xc); ("W_32BIT", 0x10)].
Definition R_SERDES_CONF : reg_class := RegClass 32
  [("NSLOTS", FBits 3 0 TInt); ("SLOT_WIDTH", FBits 8 4 (TEnum (map snd E_SLOT_WIDTH))); ("BCLK_POL", FBit 10);
   ("LSB_FIRST", FBit 11); ("UNK1", FBit 12); ("UNK2", FBit 13); ("IDLE_UNDRIVEN", FBit 14);
   ("NO_DATA_FEEDBACK", FBit 15); ("SYNC_SEL", FBits 18 16 TInt)].
Definition R_INTMASK : reg_class := RegClass 32
  [("UNK1", FBit 2); ("UNK2", FBit 3); ("UNK3", FBit 4); ("TX_UNDERFLOW", FBit 5); ("UNK4", FBit 9);
   ("READ_SENSITIVE_UNK1", FBit 11); ("READ_SENSITIVE_UNK2", FBit 15)].

(** ** hw/pmgr.py *)
Definition R_PSTATE : reg_class := RegClass 32
  [("RESET", FBit 31); ("AUTO_ENABLE", FBit 28); ("AUTO_STATE", FBits 27 24 TInt); ("PARENT_MISSING", FBit 11);
   ("DEV_DISABLE", FBit 10); ("WAS_CLKGATED", FBit 9); ("WAS_PWRGATED", FBit 8); ("ACTUAL", FBits 7 4 TInt);
   ("DESIRED", FBits 3 0 TInt)].
Definition R_PWRGATE : reg_class := RegClass 32
  [("GATE", FBit 31)].
Definition R_CLK_CFG : reg_class := RegClass 32
  [("UNK31", FBit 31); ("SRC", FBits 30 24 TInt); ("UNK20", FBit 20); ("UNK8", FBit 8); ("UNK0", FBits 7 0 TInt)].

(** ** hw/scaler.py *)
Definition R_IRQS : reg_class := RegClass 32
  [("DONE", FBit 0); ("DBGSTS_ERROR", FBit 1); ("READ_ERROR", FBit 3); ("WRITE_ERROR_MAYBE", FBit 4);
   ("DECOMPRESSION_ERROR", FBit 9); ("CONTEXT_SWITCH", FBit 10); ("AXI_ERROR", FBit 12)].
Definition E_ROTATE : list (string * Z) :=
  [("ROT_0", 0); ("ROT_90", 1); ("ROT_180", 2); ("ROT_270", 3)].
Definition R_FLIP_ROTATE : reg_class := RegClass 32
  [("ROTATE", FBits 1 0 (TEnum (map snd E_ROTATE))); ("FLIP_UPDOWN", FBit 2); ("FLIP_LEFTRIGHT", FBit 3)].
Definition R_SCALE_FLAGS : reg_class := RegClass 32
  [("EN", FBit 0); ("MAKE_THE_OUTPUT_YELLOW", FBit 1); ("MAKE_A_BLUE_LINE_APPEAR", FBit 4)].

(** ** hw/sep.py *)
Definition BootRomMsg : list (string * Z) :=
  [("GET_STATUS", 2); ("BOOT_TZ0", 5); ("BOOT_IMG4", 6); ("SET_SHMEM", 0x18)].
Definition BootRomStatus : list (string * Z) :=
  [("STATUS_OK", 0x66); ("STATUS_BOOT_TZ0_DONE", 0x69); ("STATUS_BOOT_IMG4_DONE", 0x6a);
   ("STATUS_BOOT_UNK_DONE", 0xd2)].
Definition SEPMessage : reg_class := RegClass 64
  [("EP", FBits 7 0 TInt); ("TAG", FBits 15 8 TInt); ("TYPE", FBits 23 16 TInt); ("PARAM", FBits 31 24 TInt);
   ("DATA", FBits 63 32 TInt)].

(** ** hw/spi.py *)
Definition R_CTRL : reg_class := RegClass 32
  [("RX_FIFO_RESET", FBit 3); ("TX_FIFO_RESET", FBit 2); ("RUN", FBit 0)].
Definition R_CFG : reg_class := RegClass 32
  [("IE_TX_COMPLETE", FBit 21); ("b19", FBit 19); ("FIFO_THRESH", FBits 18 17 TInt);
   ("WORD_SIZE", FBits 16 15 TInt); ("LSB_FIRST", FBit 13); ("b12", FBit 12); ("IE_RX_THRESH", FBit 8);
   ("IE_RX_COMPLETE", FBit 7); ("MODE", FBits 6 5 TInt); ("CPOL", FBit 2); ("CPHA", FBit 1)].
Definition R_STATUS_spi : reg_class := RegClass 32
  [("TX_COMPLETE", FBit 22); ("TXRX_THRESH", FBit 1); ("RX_COMPLETE", FBit 0)].
Definition R_PIN : reg_class := RegClass 32
  [("CS", FBit 1); ("KEEP_MOSI", FBit 0)].
Definition R_CLKDIV : reg_class := RegClass 32
  [("DIVIDER", FBits 10 0 TInt)].
Definition R_INTER_DELAY : reg_class := RegClass 32
  [("DELAY", FBits 15 0 TInt)].
Definition R_FIFOSTAT : reg_class := RegClass 32
  [("LEVEL_RX", FBits 31 24 TInt); ("RX_EMPTY", FBit 20); ("LEVEL_TX", FBits 15 8 TInt); ("TX_FULL", FBit 4)].
Definition R_IRQ_XFER : reg_class := RegClass 32
  [("TX_XFER_DONE", FBit 1); ("RX_XFER_DONE", FBit 0)].
Definition R_IRQ_FIFO : reg_class := RegClass 32
  [("TX_OVERFLOW", FBit 17); ("RX_UNDERRUN", FBit 16); ("TX_EMPTY", FBit 9); ("RX_FULL", FBit 8);
   ("TX_THRESH", FBit 5); ("RX_THRESH", FBit 4)].
Definition R_XFSTATUS : reg_class := RegClass 32
  [("SR_FULL", FBit 26); ("SHIFTING", FBit 20); ("STATE", FBits 17 16 TInt); ("UNK", FBit 0)].
Definition R_DIVSTATUS : reg_class := RegClass 32
  [("COUNT2", FBits 31 16 TInt); ("COUNT1", FBits 15 0 TInt)].
Definition R_SHIFTCFG : reg_class := RegClass 32
  [("OVERRIDE_CS", FBit 24); ("BITS", FBits 21 16 TInt); ("RX_ENABLE", FBit 11); ("TX_ENABLE", FBit 10);
   ("CS_AS_DATA", FBit 9); ("AND_CLK_DATA", FBit 8); ("CS_ENABLE", FBit 1); ("CLK_ENABLE", FBit 0)].
Definition R_PINCFG : reg_class := RegClass 32
  [("MOSI_INIT_VAL", FBit 10); ("CS_INIT_VAL", FBit 9); ("CLK_INIT_VAL", FBit 8); ("KEEP_MOSI", FBit 2);
   ("KEEP_CS", FBit 1); ("KEEP_CLK", FBit 0)].
Definition R_DELAY : reg_class := RegClass 32
  [("DELAY", FBits 31 16 TInt); ("MOSI_VAL", FBit 12); ("CS_VAL", FBit 10); ("SCK_VAL", FBit 8);
   ("SET_MOSI", FBit 6); ("SET_CS", FBit 5); ("SET_SCK", FBit 4); ("NO_INTERBYTE", FBit 1); ("ENABLE", FBit 0)].
Definition R_SCKCFG : reg_class := RegClass 32
  [("PERIOD", FBits 31 16 TInt); ("PHASE1", FBit 9); ("PHASE0", FBit 8); ("RESET_TO_IDLE", FBit 4)].
Definition R_SCKPHASES : reg_class := RegClass 32
  [("PHASE1_START", FBits 31 16 TInt); ("PHASE0_START", FBits 15 0 TInt)].

(** ** hw/spmi1.py *)
Definition R_CMD : reg_class := RegClass 32
  [("EXTRA", FBits 31 16 TInt); ("ALERT", FBit 15); ("SLAVE_ID", FBits 11 8 TInt); ("OPCODE", FBits 7 0 TInt)].
Definition R_REPLY : reg_class := RegClass 32
  [("FRAME_PARITY", FBits 31 16 TInt); ("ACK", FBit 15); ("SLAVE_ID", FBits 14 8 TInt);
   ("OPCODE", FBits 7 0 TInt)].
Definition R_STATUS_spmi1 : reg_class := RegClass 32
  [("RX_FULL", FBit 25); ("RX_EMPTY", FBit 24); ("RX_COUNT", FBits 23 16 TInt); ("TX_FULL", FBit 9);
   ("TX_EMPTY", FBit 8); ("TX_COUNT", FBits 7 0 TInt)].
Definition R_CURSORS : reg_class := RegClass 32
  [("RX_CURSOR_R", FBits 29 24 TInt); ("RX_CURSOR_W", FBits 21 16 TInt); ("TX_CURSOR_R", FBits 13 8 TInt);
   ("TX_CURSOR_W", FBits 5 0 TInt)].
Definition R_PEEK_POS : reg_class := RegClass 32
  [("BUFFER_POS", FBits 23 16 TInt); ("FIFO_IDX", FBit 8)].
Definition R_ACTION : reg_class := RegClass 32
  [("CLEAR_FIFOS", FBit 0)].
Definition IRQs : reg_class := RegClass 32
  [("ALERT", FBit 0); ("UNK_4", FBit 4); ("UNK_5", FBit 5); ("READ_FAIL_1", FBit 6); ("ACK_FAIL", FBit 7);
   ("UNK_8", FBit 8); ("UNK_9", FBit 9); ("UNK_10", FBit 10); ("READ_FAIL_2", FBit 11); ("UNK_12", FBit 12);
   ("UNK_13", FBit 13); ("UNK_16", FBit 16); ("UNK_17", FBit 17); ("FATAL", FBit 27)].

(** ** hw/spmi4.py *)
Definition R_STATUS_spmi4 : reg_class := RegClass 32
  [("RX_FULL", FBit 31); ("RX_EMPTY", FBit 30); ("RX_COUNT", FBits 23 16 TInt); ("TX_FULL", FBit 15);
   ("TX_EMPTY", FBit 14); ("TX_COUNT", FBits 7 0 TInt)].

(** ** hw/uat.py *)
Definition MemoryAttr : list (string * Z) :=
  [("Normal", 0); ("Device", 1); ("Shared", 2); ("UNK3", 3); ("UNK4", 4); ("UNK5", 5); ("UNK6", 6); ("UNK7", 7)].
Definition TTBR : reg_class := RegClass 64
  [("ASID", FBits 63 48 TInt); ("BADDR", FBits 47 1 TInt); ("VALID", FBit 0)].
Definition PTE_uat : reg_class := RegClass 64
  [("OS", FBit 55); ("UXN", FBit 54); ("PXN", FBit 53); ("OFFSET", FBits 47 14 TInt); ("nG", FBit 11);
   ("AF", FBit 10); ("SH", FBits 9 8 TInt); ("AP", FBits 7 6 TInt); ("AttrIndex", FBits 4 2 TInt);
   ("TYPE", FBit 1); ("VALID", FBit 0)].
Definition Page_PTE : reg_class := register_subclass PTE_uat
  [].

Definition register_tables : list (string * reg_class) :=
  [("ESR_ISS_MSR", ESR_ISS_MSR); ("ESR_ISS_DABORT", ESR_ISS_DABORT); ("ESR", ESR); ("SPSR", SPSR);
   ("ACTLR", ACTLR); ("HCR", HCR); ("HACR", HACR); ("AMX_CONFIG", AMX_CONFIG); ("MDCR", MDCR);
   ("MDSCR", MDSCR); ("DBGBCR", DBGBCR); ("DBGWCR", DBGWCR); ("TCR", TCR); ("TLBI_RVA", TLBI_RVA);
   ("MIDR", MIDR); ("R_RING", R_RING); ("R_CHAN_STATUS", R_CHAN_STATUS); ("R_CHAN_CONTROL", R_CHAN_CONTROL);
   ("R_BUSWIDTH", R_BUSWIDTH); ("R_CARVEOUT", R_CARVEOUT); ("ADMACDescriptorFlags", ADMACDescriptorFlags);
   ("ADMACReportFlags", ADMACReportFlags); ("AESCommandBase", AESCommandBase);
   ("AESSetKeyCommand", AESSetKeyCommand); ("AESCryptCommand", AESCryptCommand);
   ("AESBarrierCommand", AESBarrierCommand); ("AESGetIVCommand", AESGetIVCommand);
   ("AESSetIVCommand", AESSetIVCommand); ("AESIrqReg", AESIrqReg); ("AESControlReg", AESControlReg);
   ("AESFifoStatusReg", AESFifoStatusReg); ("R_FAULT_INFO", R_FAULT_INFO); ("R_TQINFO", R_TQINFO);
   ("R_REQINFO", R_REQINFO); ("R_IRQINFO", R_IRQINFO); ("R_MBOX_CTRL", R_MBOX_CTRL);
   ("R_CPU_CONTROL", R_CPU_CONTROL); ("R_CPU_STATUS", R_CPU_STATUS); ("R_INBOX1", R_INBOX1);
   ("R_OUTBOX1", R_OUTBOX1); ("R_USB2PHY_USBCTL", R_USB2PHY_USBCTL); ("R_USB2PHY_CTL", R_USB2PHY_CTL);
   ("R_USB2PHY_SIG", R_USB2PHY_SIG); ("R_USB2PHY_MISCTUNE", R_USB2PHY_MISCTUNE);
   ("R_AUSPLL_DCO_EFUSE_SPARE", R_AUSPLL_DCO_EFUSE_SPARE); ("R_AUSPLL_FRACN_CAN", R_AUSPLL_FRACN_CAN);
   ("R_AUSPLL_FSM_CTRL", R_AUSPLL_FSM_CTRL); ("R_AUSPLL_CMD_OVERRIDE", R_AUSPLL_CMD_OVERRIDE);
   ("R_AUSPLL_CLKOUT_DTC_VREG", R_AUSPLL_CLKOUT_DTC_VREG);
   ("R_AUS_COMMON_SHIM_BLK_VREG", R_AUS_COMMON_SHIM_BLK_VREG); ("R_CIO3PLL_CLK_CTRL", R_CIO3PLL_CLK_CTRL);
   ("R_CIO3PLL_DCO_NCTRL", R_CIO3PLL_DCO_NCTRL); ("R_CIO3PLL_FRACN_CAN", R_CIO3PLL_FRACN_CAN);
   ("R_CIO3PLL_DTC_VREG", R_CIO3PLL_DTC_VREG); ("R_ACIOPHY_CROSSBAR", R_ACIOPHY_CROSSBAR);
   ("R_ACIOPHY_LANE_MODE", R_ACIOPHY_LANE_MODE); ("R_ATCPHY_POWER", R_ATCPHY_POWER);
   ("R_ATCPHY_MISC", R_ATCPHY_MISC); ("R_AUSPMA_TX_SHM_TXA_CFG_MAIN_REG0", R_AUSPMA_TX_SHM_TXA_CFG_MAIN_REG0);
   ("R_AUSPMA_TX_SHM_TXA_CFG_MAIN_REG1", R_AUSPMA_TX_SHM_TXA_CFG_MAIN_REG1);
   ("R_AUSPMA_TX_SHM_TXA_IMP_REG0", R_AUSPMA_TX_SHM_TXA_IMP_REG0);
   ("R_AUSPMA_TX_SHM_TXA_IMP_REG2", R_AUSPMA_TX_SHM_TXA_IMP_REG2);
   ("R_AUSPMA_TX_SHM_TXA_IMP_REG3", R_AUSPMA_TX_SHM_TXA_IMP_REG3);
   ("R_AUSPMA_TX_SHM_TXA_LDOCLK", R_AUSPMA_TX_SHM_TXA_LDOCLK);
   ("R_AUSPMA_RX_SHM_TJ_RXA_CTLE_CTRL0", R_AUSPMA_RX_SHM_TJ_RXA_CTLE_CTRL0);
   ("R_AUSPMA_RX_SHM_TJ_RXA_AFE_CTRL1", R_AUSPMA_RX_SHM_TJ_RXA_AFE_CTRL1);
   ("R_AUSPMA_RX_SHM_TJ_RXA_DFE_CTRL10", R_AUSPMA_RX_SHM_TJ_RXA_DFE_CTRL10);
   ("R_AUSPMA_RX_SHM_TJ_RXA_DFE_CTRL11", R_AUSPMA_RX_SHM_TJ_RXA_DFE_CTRL11);
   ("R_AUSPMA_RX_SHM_TJ_RXA_DFE_CTRL12", R_AUSPMA_RX_SHM_TJ_RXA_DFE_CTRL12);
   ("R_AUSPMA_RX_SHM_TJ_RXA_DFE_CTRL13", R_AUSPMA_RX_SHM_TJ_RXA_DFE_CTRL13);
   ("R_AUSPMA_RX_SHM_TJ_RXA_SAVOS_CTRL16", R_AUSPMA_RX_SHM_TJ_RXA_SAVOS_CTRL16);
   ("R_AUSPMA_RX_SHM_TJ_RXA_TX_CTRL17", R_AUSPMA_RX_SHM_TJ_RXA_TX_CTRL17);
   ("R_AUSPMA_RX_SHM_TJ_RXA_TX_CTRL18", R_AUSPMA_RX_SHM_TJ_RXA_TX_CTRL18);
   ("R_AUSPMA_RX_SHM_TJ_RXA_TERM_CTRL19", R_AUSPMA_RX_SHM_TJ_RXA_TERM_CTRL19);
   ("R_AUSPMA_RX_SHM_TJ_RXA_VREF_CTRL22", R_AUSPMA_RX_SHM_TJ_RXA_VREF_CTRL22);
   ("R_AUSPMA_RX_TOP_TJ_CFG_RX_TXMODE", R_AUSPMA_RX_TOP_TJ_CFG_RX_TXMODE);
   ("R_ACIOPHY_LANE_DP_CFG_BLK_TX_DP_CTRL0", R_ACIOPHY_LANE_DP_CFG_BLK_TX_DP_CTRL0); ("R_PWR_CTL", R_PWR_CTL);
   ("R_PB_CFG0", R_PB_CFG0); ("R_PB_CFG2", R_PB_CFG2); ("R_PB_CFG3", R_PB_CFG3); ("R_TDM_CFG2", R_TDM_CFG2);
   ("R_TDM_CFG3", R_TDM_CFG3); ("R_MODE_CTRL", R_MODE_CTRL); ("R_CHNL_0", R_CHNL_0); ("R_DVC", R_DVC);
   ("R_INT_MASK0", R_INT_MASK0); ("R_INT_CLK_CFG", R_INT_CLK_CFG); ("R_IRQ_MASK1", R_IRQ_MASK1);
   ("R_IRQ_MASK3", R_IRQ_MASK3); ("R_DCID_CTRL1", R_DCID_CTRL1); ("R_DCID_CTRL2", R_DCID_CTRL2);
   ("R_DCID_CTRL3", R_DCID_CTRL3); ("R_DCID_STATUS", R_DCID_STATUS); ("R_TR_SENSE_CTRL", R_TR_SENSE_CTRL);
   ("R_TR_SENSE_STATUS", R_TR_SENSE_STATUS); ("R_HS_DET_STATUS2", R_HS_DET_STATUS2);
   ("R_MSM_BLOCK_EN1", R_MSM_BLOCK_EN1); ("R_MSM_BLOCK_EN2", R_MSM_BLOCK_EN2);
   ("R_MSM_BLOCK_EN3", R_MSM_BLOCK_EN3); ("R_HS_CLAMP_DISABLE", R_HS_CLAMP_DISABLE);
   ("R_CCM_CTRL1", R_CCM_CTRL1); ("R_CCM_CTRL3", R_CCM_CTRL3); ("R_CCM_CTRL4", R_CCM_CTRL4);
   ("R_CCM_SAMP_RATE", R_CCM_SAMP_RATE); ("R_PLL_CTRL", R_PLL_CTRL); ("R_ADC_CTRL1", R_ADC_CTRL1);
   ("R_ADC_CTRL4", R_ADC_CTRL4); ("R_DAC_CTRL1", R_DAC_CTRL1); ("R_DAC_CTRL2", R_DAC_CTRL2);
   ("R_HP_VOL_CTRL", R_HP_VOL_CTRL); ("R_BUS_DAC_SRC", R_BUS_DAC_SRC); ("R_BUS_ASP_TX_SRC", R_BUS_ASP_TX_SRC);
   ("R_HSBIAS_SC_AUTOCTL", R_HSBIAS_SC_AUTOCTL); ("R_TIP_SENSE_CTRL2", R_TIP_SENSE_CTRL2);
   ("R_MISC_DET_CTRL", R_MISC_DET_CTRL); ("R_MIC_DET_CTRL2", R_MIC_DET_CTRL2);
   ("R_MIC_DET_CTRL4", R_MIC_DET_CTRL4); ("R_HS_DET_CTRL2", R_HS_DET_CTRL2);
   ("R_HS_SWITCH_CTRL", R_HS_SWITCH_CTRL); ("R_ASP_CTRL", R_ASP_CTRL);
   ("R_ASP_FSYNC_CTRL23", R_ASP_FSYNC_CTRL23); ("R_ASP_TX_HIZ_DLY_CTRL", R_ASP_TX_HIZ_DLY_CTRL);
   ("R_ASP_RX_EN", R_ASP_RX_EN); ("R_ASP_CH_CTRL", R_ASP_CH_CTRL); ("R_PWR", R_PWR); ("R_GEC", R_GEC);
   ("R_DAC", R_DAC); ("R_SAI1", R_SAI1); ("R_SAI2", R_SAI2); ("R_STATUS_ssm3515", R_STATUS_ssm3515);
   ("R_ERROR_dart8020", R_ERROR_dart8020); ("R_STREAM_COMMAND", R_STREAM_COMMAND);
   ("R_TCR_dart8020", R_TCR_dart8020); ("R_TTBR_dart8020", R_TTBR_dart8020); ("R_REMAP", R_REMAP);
   ("PTE_T8020", PTE_T8020); ("PTE_T6000", PTE_T6000); ("R_CONFIG", R_CONFIG); ("R_DAPF_LOCK", R_DAPF_LOCK);
   ("R_PARAMS_0", R_PARAMS_0); ("R_PARAMS_4", R_PARAMS_4); ("R_PARAMS_8", R_PARAMS_8);
   ("R_PARAMS_C", R_PARAMS_C); ("R_ERROR_dart8110", R_ERROR_dart8110); ("R_TLB_OP", R_TLB_OP);
   ("R_TLB_OP_IDX", R_TLB_OP_IDX); ("R_PROTECT", R_PROTECT); ("R_DIAG_LOCK", R_DIAG_LOCK);
   ("R_TCR_dart8110", R_TCR_dart8110); ("R_TTBR_dart8110", R_TTBR_dart8110); ("PTE_dart8110", PTE_dart8110);
   ("R_RX_DATA", R_RX_DATA); ("R_XHCI_USBCMD", R_XHCI_USBCMD); ("R_XHCI_USBSTS", R_XHCI_USBSTS);
   ("R_XHCI_CRCR_LO", R_XHCI_CRCR_LO); ("R_XHCI_DNCTRL", R_XHCI_DNCTRL); ("R_XHCI_DOORBELL", R_XHCI_DOORBELL);
   ("R_XHCI_PORTSC", R_XHCI_PORTSC); ("R_XHCI_PORTLI", R_XHCI_PORTLI); ("R_XHCI_IMAN", R_XHCI_IMAN);
   ("R_GUSB3PIPECTL", R_GUSB3PIPECTL); ("R_GUSB2PHYCFG", R_GUSB2PHYCFG); ("R_GCTL", R_GCTL);
   ("R_PIPEHANDLER_OVERRIDE", R_PIPEHANDLER_OVERRIDE); ("R_PIPEHANDLER_MUX_CTRL", R_PIPEHANDLER_MUX_CTRL);
   ("R_PIPEHANDLER_LOCK", R_PIPEHANDLER_LOCK); ("R_PIPEHANDLER_AON_GEN", R_PIPEHANDLER_AON_GEN);
   ("R_PIPEHANDLER_NONSELECTED_OVERRIDE", R_PIPEHANDLER_NONSELECTED_OVERRIDE); ("R_MTXFIFO", R_MTXFIFO);
   ("R_MRXFIFO", R_MRXFIFO); ("R_MCNT", R_MCNT); ("R_XFSTA", R_XFSTA); ("R_SADDR", R_SADDR);
   ("R_SMSTA", R_SMSTA); ("R_CTL", R_CTL); ("R_STXFIFO", R_STXFIFO); ("R_SRXFIFO", R_SRXFIFO);
   ("R_FIFOCTL", R_FIFOCTL); ("ISP_REVISION", ISP_REVISION); ("R_STATUS_jpeg", R_STATUS_jpeg);
   ("R_CODEC", R_CODEC); ("R_ENCODE_PIXEL_FORMAT", R_ENCODE_PIXEL_FORMAT); ("R_SCALE_FACTOR", R_SCALE_FACTOR);
   ("R_DECODE_PIXEL_FORMAT", R_DECODE_PIXEL_FORMAT); ("R_JPEG_IO_FLAGS", R_JPEG_IO_FLAGS);
   ("R_JPEG_OUTPUT_FLAGS", R_JPEG_OUTPUT_FLAGS); ("R_QTBL_SEL", R_QTBL_SEL); ("R_STATUS_mca", R_STATUS_mca);
   ("R_MCLK_CONF", R_MCLK_CONF); ("R_PORT_ENABLES", R_PORT_ENABLES); ("R_PORT_CLKSEL", R_PORT_CLKSEL);
   ("R_PORT_DATASEL", R_PORT_DATASEL); ("R_SERDES_CONF", R_SERDES_CONF); ("R_INTMASK", R_INTMASK);
   ("R_PSTATE", R_PSTATE); ("R_PWRGATE", R_PWRGATE); ("R_CLK_CFG", R_CLK_CFG); ("R_IRQS", R_IRQS);
   ("R_FLIP_ROTATE", R_FLIP_ROTATE); ("R_SCALE_FLAGS", R_SCALE_FLAGS); ("SEPMessage", SEPMessage);
   ("R_CTRL", R_CTRL); ("R_CFG", R_CFG); ("R_STATUS_spi", R_STATUS_spi); ("R_PIN", R_PIN);
   ("R_CLKDIV", R_CLKDIV); ("R_INTER_DELAY", R_INTER_DELAY); ("R_FIFOSTAT", R_FIFOSTAT);
   ("R_IRQ_XFER", R_IRQ_XFER); ("R_IRQ_FIFO", R_IRQ_FIFO); ("R_XFSTATUS", R_XFSTATUS);
   ("R_DIVSTATUS", R_DIVSTATUS); ("R_SHIFTCFG", R_SHIFTCFG); ("R_PINCFG", R_PINCFG); ("R_DELAY", R_DELAY);
   ("R_SCKCFG", R_SCKCFG); ("R_SCKPHASES", R_SCKPHASES); ("R_CMD", R_CMD); ("R_REPLY", R_REPLY);
   ("R_STATUS_spmi1", R_STATUS_spmi1); ("R_CURSORS", R_CURSORS); ("R_PEEK_POS", R_PEEK_POS);
   ("R_ACTION", R_ACTION); ("IRQs", IRQs); ("R_STATUS_spmi4", R_STATUS_spmi4); ("TTBR", TTBR);
   ("PTE_uat", PTE_uat); ("Page_PTE", Page_PTE)].

(** ** Consistency of the tables *)

(** The values a field type admits, when it restricts them. *)
Definition ftype_values (t : ftype) : list Z :=
  match t with TConst v => [v] | TEnum vs => vs | TInt | TCall _ => [] end.

Definition field_checkb (w : Z) (f : field) : bool :=
  (0 <=? f_lsb f) && (f_lsb f <=? f_msb f) && (f_msb f <? w).

(** The values of the type fit in the field. *)
Definition values_fitb (f : field) : bool :=
  forallb (fun v => (0 <=? v) && (v <? 2 ^ f_size f)) (ftype_values (f_type f)).

Fixpoint distinctb (l : list string) : bool :=
  match l with [] => true | k :: r => negb (existsb (String.eqb k) r) && distinctb r end.

Definition width_checkb (w : Z) : bool := existsb (Z.eqb w) [8; 16; 32; 64].

Definition class_checkb (c : reg_class) : bool :=
  width_checkb (rc_width c) && distinctb (map fst (rc_fields c))
  && forallb (fun e => field_checkb (rc_width c) (snd e)) (rc_fields c).

Definition disjointb (f g : field) : bool := (f_msb f <? f_lsb g) || (f_msb g <? f_lsb f).
Fixpoint pairwise_disjointb (l : list field) : bool :=
  match l with [] => true | f :: r => forallb (disjointb f) r && pairwise_disjointb r end.

(** The pairs of fields that name a bit twice on purpose: the two uses of ISS bits
    12:11, the two architectural names of HCR_EL2 bit 23, and the error code whose
    bits also have names. *)
Definition aliased_fields : list (string * string * string) :=
  [("ESR_ISS_DABORT", "SET", "LSR"); ("HCR", "TPCP", "TPC")] ++
  map (fun k => ("R_ERROR_dart8020", "CODE", k))
    ["NO_DAPF_MATCH"; "WRITE"; "SUBPAGE_PROT"; "PTE_READ_FAULT"; "READ_FAULT"; "WRITE_FAULT"; "NO_PTE"; "NO_PMD"; "NO_TTBR"].
Definition aliases (name k1 k2 : string) : Prop := In (name, k1, k2) aliased_fields \/ In (name, k2, k1) aliased_fields.

(** The overlapping pairs of a class, in the order of declaration. *)
Fixpoint overlapping (name : string) (l : list (string * field)) : list (string * string * string) :=
  match l with
  | [] => []
  | (k, f) :: r => map (fun x => (name, k, fst x)) (List.filter (fun x => negb (disjointb f (snd x))) r) ++ overlapping name r
  end.

(** The fields too narrow for their enumeration. *)
Definition narrow_fields : list (string * string) := [("R_DAC", "FS")].
Definition narrow_of (e : string * reg_class) : list (string * string) :=
  map (fun x => (fst e, fst x)) (List.filter (fun x => negb (values_fitb (snd x))) (rc_fields (snd e))).

Lemma distinctb_NoDup l : distinctb l = true -> NoDup l.
Proof.
  induction l as [|k l IH]; [constructor|]. simpl. intros [H1 H2]%andb_true_iff. constructor; [|by apply IH].
  apply negb_true_iff in H1. intros Hin%list_elem_of_In. apply Bool.not_true_iff_false in H1. apply H1, existsb_exists.
  exists k. split; [done|]. apply String.eqb_refl.
Qed.

Lemma width_checkb_ok w : width_checkb w = true -> reg_width w.
Proof.
  unfold width_checkb, reg_width. intros H. apply existsb_exists in H as (x & Hx & E%Z.eqb_eq). subst x.
  simpl in Hx. intuition lia.
Qed.

Lemma field_checkb_ok w f : field_checkb w f = true -> field_ok f /\ f_msb f < w /\ 0 < f_size f.
Proof. unfold field_checkb, field_ok, f_size. intros H. zbool. lia. Qed.

Lemma values_fitb_ok f v : values_fitb f = true -> In v (ftype_values (f_type f)) -> v mod 2 ^ f_size f = v.
Proof.
  unfold values_fitb. intros H Hv. rewrite forallb_forall in H. specialize (H v Hv). zbool. by apply Z.mod_small.
Qed.

Lemma class_checkb_ok c : class_checkb c = true -> class_wf c /\ reg_width (rc_width c).
Proof.
  unfold class_checkb. intros [[Hw Hn]%andb_true_iff Hf]%andb_true_iff. rewrite forallb_forall in Hf.
  split; [constructor|by apply width_checkb_ok].
  - by apply distinctb_NoDup.
  - apply List.Forall_forall. intros e He. by apply (field_checkb_ok (rc_width c)), Hf.
  - apply List.Forall_forall. intros e He. by apply (field_checkb_ok (rc_width c)), Hf.
Qed.

Lemma disjointb_ok f g : disjointb f g = true -> disjoint_fields f g.
Proof. unfold disjointb, disjoint_fields. intros H. apply orb_true_iff in H. lia. Qed.

Lemma pairwise_disjointb_ok l : pairwise_disjointb l = true ->
  forall i j f g, l !! i = Some f -> l !! j = Some g -> i <> j -> disjoint_fields f g.
Proof.
  induction l as [|x l IH]; intros H i j f g Hi Hj Hij; [done|]. simpl in H. apply andb_true_iff in H as [H1 H2].
  rewrite forallb_forall in H1. destruct i as [|i], j as [|j]; simpl in Hi, Hj; [done| | |].
  - injection Hi as <-. apply disjointb_ok, H1, list_elem_of_In. by eapply list_elem_of_lookup_2.
  - injection Hj as <-. assert (Hd : disjoint_fields x f). { apply disjointb_ok, H1, list_elem_of_In. by eapply list_elem_of_lookup_2. }
    unfold disjoint_fields in *. lia.
  - by eapply (IH H2 i j); [| |lia].
Qed.

Lemma tables_checked : forallb (fun e => class_checkb (snd e)) register_tables = true.
Proof. vm_compute. reflexivity. Qed.

Lemma tables_aliased : flat_map (fun e => overlapping (fst e) (rc_fields (snd e))) register_tables = aliased_fields.
Proof. vm_compute. reflexivity. Qed.

Lemma tables_narrow : flat_map narrow_of register_tables = narrow_fields.
Proof. vm_compute. reflexivity. Qed.

Lemma table_wf name c : In (name, c) register_tables -> class_wf c /\ reg_width (rc_width c).
Proof.
  intros Hin. pose proof tables_checked as H. rewrite forallb_forall in H. apply class_checkb_ok, (H _ Hin).
Qed.

Lemma find_field_lookup c k f : find_field c k = Some f -> exists i, rc_fields c !! i = Some (k, f).
Proof.
  unfold find_field. destruct (List.find _ _) as [[k' f']|] eqn:E; [|done]. intros [= <-].
  apply find_some in E as [Hin Hk]. simpl in Hk. apply String.eqb_eq in Hk as ->.
  apply list_elem_of_In in Hin. by apply list_elem_of_lookup_1.
Qed.

Lemma table_values_fit name c k f v :
  In (name, c) register_tables -> find_field c k = Some f -> ~ In (name, k) narrow_fields ->
  In v (ftype_values (f_type f)) -> ftype_call (f_type f) (v mod 2 ^ f_size f) = Ok v.
Proof.
  intros Hin Hf Hn Hv. rewrite values_fitb_ok; [|apply negb_false_iff, not_true_iff_false; intros Hx; apply Hn|done].
  - destruct (f_type f) as [|w|vs|g]; simpl in Hv |- *; [done| | |done].
    + destruct Hv as [<-|[]]. by rewrite Z.eqb_refl.
    + rewrite (proj2 (existsb_exists _ _)); [done|]. exists v. split; [done|apply Z.eqb_refl].
  - rewrite <- tables_narrow. apply in_flat_map. exists (name, c). split; [done|].
    apply in_map_iff. exists (k, f). split; [done|]. apply filter_In. split; [|done].
    destruct (find_field_lookup _ _ _ Hf) as [i Hi]. apply list_elem_of_In. by eapply list_elem_of_lookup_2.
Qed.

Lemma overlapping_complete name l k1 k2 f1 f2 : In (k1, f1) l -> In (k2, f2) l -> k1 <> k2 ->
  disjoint_fields f1 f2 \/ In (name, k1, k2) (overlapping name l) \/ In (name, k2, k1) (overlapping name l).
Proof.
  induction l as [|[k f] l IH]; [done|]. intros H1 H2 Hk. cbn [overlapping]. rewrite !in_app_iff.
  assert (Hhead : forall k' g, In (k', g) l -> disjoint_fields f g \/ In (name, k, k') (map (fun x => (name, k, fst x)) (List.filter (fun x => negb (disjointb f (snd x))) l))).
  { intros k' g Hg. destruct (disjointb f g) eqn:E; [left; by apply disjointb_ok|right]. apply in_map_iff. exists (k', g). split; [done|].
    apply filter_In. split; [done|]. cbn [snd]. by rewrite E. }
  destruct H1 as [[= -> ->]|H1], H2 as [[= -> ->]|H2]; [done| | |].
  - destruct (Hhead _ _ H2); auto.
  - destruct (Hhead _ _ H1) as [Hd|]; auto. left. unfold disjoint_fields in *. tauto.
  - destruct (IH H1 H2 Hk) as [|[|]]; auto.
Qed.

Lemma table_fields_disjoint name c k1 k2 f1 f2 :
  In (name, c) register_tables -> ~ aliases name k1 k2 -> k1 <> k2 ->
  find_field c k1 = Some f1 -> find_field c k2 = Some f2 -> disjoint_fields f1 f2.
Proof.
  intros Hin Ha Hk [i Hi]%find_field_lookup [j Hj]%find_field_lookup.
  destruct (overlapping_complete name (rc_fields c) k1 k2 f1 f2) as [|Ho]; [by eapply list_elem_of_In, list_elem_of_lookup_2|by eapply list_elem_of_In, list_elem_of_lookup_2|done|done|].
  exfalso. apply Ha. unfold aliases. rewrite <- tables_aliased, !in_flat_map. destruct Ho; [left|right]; by exists (name, c).
Qed.

(** C35: in every register class the tools declare, the fields behave as
    independent variables: assigning a declared field always succeeds, keeps the
    value inside the register's width, reads back as the assigned value reduced
    to the field's width, stores every value of the field's enumeration or
    constant unchanged (all fields but [R_DAC.FS], which is a bit too narrow), and
    leaves every other field as it was, except where two fields name the same bits:
    SET and LSR of ESR_ISS_DABORT, TPCP and TPC of HCR, and CODE of the DART's
    R_ERROR with the nine bits it consists of. *)
Theorem register_tables_independent name c k f v value
    (Hin : In (name, c) register_tables) (Hf : find_field c k = Some f) (Hv : 0 <= value < 2 ^ rc_width c) :
  exists value', reg_setattr c k v value = Ok value' /\ 0 <= value' < 2 ^ rc_width c /\
    reg_getattr c k value' = ftype_call (f_type f) (v mod 2 ^ f_size f) /\
    (~ In (name, k) narrow_fields -> In v (ftype_values (f_type f)) -> reg_getattr c k value' = Ok v) /\
    (forall k2, k2 <> k -> ~ aliases name k k2 -> reg_getattr c k2 value' = reg_getattr c k2 value).
Proof.
  destruct (table_wf _ _ Hin) as [Hwf Hw]. destruct (find_field_ok _ _ _ Hwf Hf) as [Hok Hm].
  unfold reg_setattr, reg_getattr. rewrite Hf. destruct (reg_set_bits f v value Hok) as (value' & E & _).
  destruct (reg_set_raw f v value value' Hok E) as [Hraw Hother]. exists value'.
  assert (Hget : reg_get f value' = ftype_call (f_type f) (v mod 2 ^ f_size f)) by (by rewrite reg_get_raw, Hraw).
  split_and!; [done| | |done| |].
  - apply (reg_set_range f v value value' (rc_width c)); try done. destruct Hw as [->|[->|[->| ->]]]; lia.
  - apply (reg_set_range f v value value' (rc_width c)); try done. destruct Hw as [->|[->|[->| ->]]]; lia.
  - intros Hn Hvs. rewrite Hget. by eapply table_values_fit.
  - intros k2 Hk Ha. destruct (find_field c k2) as [g|] eqn:Eg; [|done].
    destruct (find_field_ok _ _ _ Hwf Eg) as [Hgok _].
    assert (Hd : disjoint_fields f g) by (apply (table_fields_disjoint name c k k2); congruence).
    by rewrite !reg_get_raw, (Hother g Hgok Hd) by done.
Qed.

Lemma register_tables_independent_witness :
  exists value', reg_setattr SPSR "M" 5 0x80000000 = Ok value' /\ 0 <= value' < 2 ^ 64 /\
    reg_getattr SPSR "M" value' = ftype_call (TEnum (map snd SPSR_M)) (5 mod 2 ^ 5) /\
    (~ In ("SPSR", "M") narrow_fields -> In 5 (map snd SPSR_M) -> reg_getattr SPSR "M" value' = Ok 5) /\
    (forall k2, k2 <> "M" -> ~ aliases "SPSR" "M" k2 -> reg_getattr SPSR k2 value' = reg_getattr SPSR k2 0x80000000).
Proof.
  apply (register_tables_independent "SPSR" SPSR "M" (FBits 4 0 (TEnum (map snd SPSR_M))) 5 0x80000000).
  - repeat (first [left; reflexivity | right]).
  - reflexivity.
  - split; [lia | vm_compute; reflexivity].
Defined.

(** The SSM3515 sample-rate field is declared two bits wide, its enumeration has
    three-bit values: selecting 128-192 kHz selects 8-12 kHz instead. *)
Lemma ssm3515_rate_truncated :
  exists value', reg_setattr R_DAC "FS" 4 0 = Ok value' /\ In ("FS_128_192", 4) E_FS /\ In ("FS_8_12", 0) E_FS /\
    reg_getattr R_DAC "FS" value' = Ok 0.
Proof. eexists. split_and!; [reflexivity| | |vm_compute; reflexivity]; repeat (first [left; reflexivity | right]). Qed.
