(* ===== verification/RegMaps.v ===== *)
(** * The register maps of proxyclient/m1n1/hw

    Every [RegMap] class of these files as its list of declarations, in source
    order.  [map_class] is what the class statement computes: the class body's
    dictionary, then [RegMapMeta.__new__].  The theorems show that every map can
    be built and that, for the scalar registers, going from a name to an address
    and back by address is the identity. *)

From Stdlib Require Import ZArith Lia.
From stdpp Require Import base list numbers strings gmap.
From S2P Require Import Prelude RangeMap Registers RegTables.

Local Open Scope string_scope.
Local Open Scope Z_scope.

(** ** hw/admac.py *)
Definition ADMACRegs : list reg_decl :=
  [RegDecl "TX_EN" (RScalar 0) Register32; RegDecl "TX_EN_CLR" (RScalar 4) Register32;
   RegDecl "RX_EN" (RScalar 8) Register32; RegDecl "RX_EN_CLR" (RScalar 0xc) Register32;
   RegDecl "UNK_CTL" (RScalar 0x10) Register32; RegDecl "UNK_CTL_28" (RScalar 0x28) Register32;
   RegDecl "UNK_CTL_2C" (RScalar 0x2c) Register32; RegDecl "TX_INTSTATE" (RArray [irange 0x30 4 4]) Register32;
   RegDecl "RX_INTSTATE" (RArray [irange 0x40 4 4]) Register32; RegDecl "COUNTER" (RScalar 0x70) Register64;
   RegDecl "TX_SRAM_SIZE" (RScalar 0x94) Register32; RegDecl "RX_SRAM_SIZE" (RScalar 0x98) Register32;
   RegDecl "CHAN_CTL" (RArray [irange 0x8000 0x20 0x200]) R_CHAN_CONTROL;
   RegDecl "CHAN_BUSWIDTH" (RArray [irange 0x8040 0x20 0x200]) R_BUSWIDTH;
   RegDecl "CHAN_SRAM_CARVEOUT" (RArray [irange 0x8050 0x20 0x200]) R_CARVEOUT;
   RegDecl "CHAN_BURSTSIZE" (RArray [irange 0x8054 0x20 0x200]) Register32;
   RegDecl "CHAN_RESIDUE" (RArray [irange 0x8064 0x20 0x200]) Register32;
   RegDecl "CHAN_DESC_RING" (RArray [irange 0x8070 0x20 0x200]) R_RING;
   RegDecl "CHAN_REPORT_RING" (RArray [irange 0x8074 0x20 0x200]) R_RING;
   RegDecl "TX_DESC_WRITE" (RArray [irange 0x10000 0x10 4]) Register32;
   RegDecl "TX_REPORT_READ" (RArray [irange 0x10100 0x10 4]) Register32;
   RegDecl "RX_DESC_WRITE" (RArray [irange 0x14000 0x10 4]) Register32;
   RegDecl "RX_REPORT_READ" (RArray [irange 0x14100 0x10 4]) Register32;
   RegDecl "CHAN_STATUS" (RArray [irange 0x8010 0x20 0x200; irange 0 4 4]) R_CHAN_STATUS;
   RegDecl "CHAN_INTMASK" (RArray [irange 0x8020 0x20 0x200; irange 0 4 4]) R_CHAN_STATUS].

(** ** hw/aes.py *)
Definition AESRegs : list reg_decl :=
  [RegDecl "R_CONTROL" (RScalar 8) AESControlReg; RegDecl "R_IRQ_STATUS" (RScalar 0x18) AESIrqReg;
   RegDecl "R_IRQ_ENABLE" (RScalar 0x1c) AESIrqReg; RegDecl "R_FIFO_STATUS" (RScalar 0x24) AESFifoStatusReg;
   RegDecl "R_CMD_FIFO" (RScalar 0x200) Register32].

(** ** hw/agx.py *)
Definition SGXRegs : list reg_decl :=
  [RegDecl "FAULT_INFO" (RScalar 0x17030) R_FAULT_INFO].
Definition SGXRegsT602X : list reg_decl :=
  [RegDecl "FAULT_INFO" (RScalar 0xd8c0) R_FAULT_INFO; RegDecl "FAULT_ADDR" (RScalar 0xd8c8) Register64].
Definition SGXInfoRegs : list reg_decl :=
  [RegDecl "CORE_MASK_0" (RScalar 0x1500) Register32; RegDecl "CORE_MASK_1" (RScalar 0x1514) Register32;
   RegDecl "ID_00" (RScalar 0x4000) Register32; RegDecl "ID_04" (RScalar 0x4004) Register32;
   RegDecl "ID_08" (RScalar 0x4008) Register32; RegDecl "ID_0c" (RScalar 0x400c) Register32;
   RegDecl "ID_10" (RScalar 0x4010) Register32; RegDecl "ID_14" (RScalar 0x4014) Register32;
   RegDecl "ID_18" (RScalar 0x4018) Register32; RegDecl "ID_1c" (RScalar 0x401c) Register32;
   RegDecl "ID_8024" (RScalar 0x8024) Register32].

(** ** hw/ane.py *)
Definition ANERegs : list reg_decl :=
  [RegDecl "PMGR1" (RScalar 0x738) Register32; RegDecl "PMGR2" (RScalar 0x798) Register32;
   RegDecl "PMGR3" (RScalar 0x7f8) Register32; RegDecl "ASC_IO_RVBAR" (RScalar 0x1050000) Register32;
   RegDecl "ASC_EDPRCR" (RScalar 0x1010310) Register32; RegDecl "CLK0" (RScalar 0x1160008) Register32;
   RegDecl "CTR0" (RScalar 0x116000c) Register32; RegDecl "CLK1" (RScalar 0x1168008) Register32;
   RegDecl "CTR1" (RScalar 0x116800c) Register32; RegDecl "CLK2" (RScalar 0x1170000) Register32;
   RegDecl "CTR2" (RScalar 0x1170004) Register32; RegDecl "CLK3" (RScalar 0x1178000) Register32;
   RegDecl "CTR3" (RScalar 0x1178004) Register32; RegDecl "VERS" (RScalar 0x1840000) Register32;
   RegDecl "GPIO0" (RScalar 0x1840048) Register32; RegDecl "GPIO1" (RScalar 0x184004c) Register32;
   RegDecl "GPIO2" (RScalar 0x1840050) Register32; RegDecl "GPIO3" (RScalar 0x1840054) Register32;
   RegDecl "GPIO4" (RScalar 0x1840058) Register32; RegDecl "GPIO5" (RScalar 0x184005c) Register32;
   RegDecl "GPIO6" (RScalar 0x1840060) Register32; RegDecl "GPIO7" (RScalar 0x1840064) Register32].
Definition TaskQueue : list reg_decl :=
  [RegDecl "STATUS" (RArray [irange 0 8 0x148]) Register32;
   RegDecl "PRTY" (RArray [irange 0x10 8 0x148]) Register32;
   RegDecl "FREE_SPACE" (RArray [irange 0x14 8 0x148]) Register32;
   RegDecl "TQINFO" (RArray [irange 0x1c 8 0x148]) R_TQINFO;
   RegDecl "BAR1" (RArray [irange 0x20 8 0x148; irange 0 0x20 4]) Register32;
   RegDecl "REQ_NID1" (RArray [irange 0xa0 8 0x148]) Register32;
   RegDecl "REQ_SIZE2" (RArray [irange 0xa4 8 0x148]) Register32;
   RegDecl "REQ_ADDR2" (RArray [irange 0xa8 8 0x148]) Register32;
   RegDecl "BAR2" (RArray [irange 0xac 8 0x148; irange 0 0x20 4]) Register32;
   RegDecl "REQ_NID2" (RArray [irange 0x12c 8 0x148]) Register32;
   RegDecl "REQ_SIZE1" (RArray [irange 0x130 8 0x148]) Register32;
   RegDecl "REQ_ADDR1" (RArray [irange 0x134 8 0x148]) Register32].
Definition TMRegs : list reg_decl :=
  [RegDecl "REQ_ADDR" (RScalar 0) Register32; RegDecl "REQ_INFO" (RScalar 4) R_REQINFO;
   RegDecl "REQ_PUSH" (RScalar 8) Register32; RegDecl "TQ_EN" (RScalar 0xc) Register32;
   RegDecl "IRQ_EVT1_CNT" (RScalar 0x14) Register32; RegDecl "IRQ_EVT1_DAT_INFO" (RScalar 0x18) R_IRQINFO;
   RegDecl "IRQ_EVT1_DAT_UNK1" (RScalar 0x1c) Register32;
   RegDecl "IRQ_EVT1_DAT_TIME" (RScalar 0x20) Register32;
   RegDecl "IRQ_EVT1_DAT_UNK2" (RScalar 0x24) Register32; RegDecl "IRQ_EVT2_CNT" (RScalar 0x28) Register32;
   RegDecl "IRQ_EVT2_DAT_INFO" (RScalar 0x2c) R_IRQINFO; RegDecl "IRQ_EVT2_DAT_UNK1" (RScalar 0x30) Register32;
   RegDecl "IRQ_EVT2_DAT_TIME" (RScalar 0x34) Register32;
   RegDecl "IRQ_EVT2_DAT_UNK2" (RScalar 0x38) Register32; RegDecl "COMMIT_INFO" (RScalar 0x44) Register32;
   RegDecl "TM_STATUS" (RScalar 0x54) Register32; RegDecl "UNK_IRQ_EN1" (RScalar 0x68) Register32;
   RegDecl "UNK_IRQ_ACK" (RScalar 0x6c) Register32; RegDecl "UNK_IRQ_EN2" (RScalar 0x70) Register32].

(** ** hw/asc.py *)
Definition ASCRegs : list reg_decl :=
  [RegDecl "CPU_CONTROL" (RScalar 0x44) R_CPU_CONTROL; RegDecl "CPU_STATUS" (RScalar 0x48) R_CPU_STATUS;
   RegDecl "INBOX_CTRL" (RScalar 0x8110) R_MBOX_CTRL; RegDecl "OUTBOX_CTRL" (RScalar 0x8114) R_MBOX_CTRL;
   RegDecl "INBOX0" (RScalar 0x8800) Register64; RegDecl "INBOX1" (RScalar 0x8808) R_INBOX1;
   RegDecl "OUTBOX0" (RScalar 0x8830) Register64; RegDecl "OUTBOX1" (RScalar 0x8838) R_OUTBOX1].

(** ** hw/atc.py *)
Definition Usb2PhyRegs : list reg_decl :=
  [RegDecl "USB2PHY_USBCTL" (RScalar 0) R_USB2PHY_USBCTL; RegDecl "USB2PHY_CTL" (RScalar 4) R_USB2PHY_CTL;
   RegDecl "USB2PHY_SIG" (RScalar 8) R_USB2PHY_SIG; RegDecl "USB2PHY_MISCTUNE" (RScalar 0x1c) R_USB2PHY_MISCTUNE].
Definition AtcPhyRegs : list reg_decl :=
  [RegDecl "ACIOPHY_CFG0" (RScalar 8) Register32;
   RegDecl "ACIOPHY_LANE_MODE" (RScalar 0x48) R_ACIOPHY_LANE_MODE;
   RegDecl "ACIOPHY_CROSSBAR" (RScalar 0x4c) R_ACIOPHY_CROSSBAR;
   RegDecl "ACIOPHY_BIST_EN" (RScalar 0x84) Register32; RegDecl "ACIOPHY_BIST_OV" (RScalar 0x8c) Register32;
   RegDecl "ACIOPHY_BIST_CFG0" (RScalar 0x90) Register32;
   RegDecl "ACIOPHY_BIST_STAT" (RScalar 0x9c) Register32;
   RegDecl "ACIOPHY_BIST_RESET" (RScalar 0xa8) Register32;
   RegDecl "ACIOPHY_BIST_CFG1" (RScalar 0xac) Register32;
   RegDecl "ACIOPHY_SLEEP_CTRL" (RScalar 0x1b0) Register32;
   RegDecl "AUS_COMMON_SHIM_BLK_VREG" (RScalar 0xa04) R_AUS_COMMON_SHIM_BLK_VREG;
   RegDecl "AUSPLL_FSM_CTRL" (RScalar 0x1014) R_AUSPLL_FSM_CTRL;
   RegDecl "AUSPLL_CMD_OVERRIDE" (RScalar 0x2000) R_AUSPLL_CMD_OVERRIDE;
   RegDecl "AUSPLL_CLKOUT_DTC_VREG" (RScalar 0x2220) R_AUSPLL_CLKOUT_DTC_VREG;
   RegDecl "AUSPLL_DCO_EFUSE_SPARE" (RScalar 0x222c) R_AUSPLL_DCO_EFUSE_SPARE;
   RegDecl "AUSPLL_FRACN_CAN" (RScalar 0x22a4) R_AUSPLL_FRACN_CAN;
   RegDecl "CIO3PLL_CLK_CTRL" (RScalar 0x2a00) R_CIO3PLL_CLK_CTRL;
   RegDecl "CIO3PLL_DTC_VREG" (RScalar 0x2a20) R_CIO3PLL_DTC_VREG;
   RegDecl "CIO3PLL_DCO_NCTRL" (RScalar 0x2a38) R_CIO3PLL_DCO_NCTRL;
   RegDecl "CIO3PLL_FRACN_CAN" (RScalar 0x2aa4) R_CIO3PLL_FRACN_CAN;
   RegDecl "ATCPHY_POWER_CTRL" (RScalar 0x20000) R_ATCPHY_POWER;
   RegDecl "ATCPHY_POWER_STAT" (RScalar 0x20004) R_ATCPHY_POWER;
   RegDecl "ATCPHY_MISC" (RScalar 0x20008) R_ATCPHY_MISC;
   RegDecl "ACIOPHY_LANE_DP_CFG_BLK_TX_DP_CTRL0" (RScalar 0x7000) R_ACIOPHY_LANE_DP_CFG_BLK_TX_DP_CTRL0;
   RegDecl "DPPHY_UNK_1028" (RScalar 0x1028) Register32;
   RegDecl "USB2PHY_AUX_CFG_BLK_AUX_POWER_DOWN_CONTROL_0" (RScalar 0x54000) Register32;
   RegDecl "FABRIC_TUNABLES" (RArray [irange 0x45000 0x400 4]) Register32;
   RegDecl "LPDPTX_AUX_CFG_BLK" (RArray [irange 0x50000 0x400 4]) Register32;
   RegDecl "LPDPTX_AUX_CFG_BLK_AUX_CTRL" (RScalar 0x50000) Register32;
   RegDecl "LPDPTX_AUX_CFG_BLK_AUX_LDO_CTRL" (RScalar 0x50008) Register32;
   RegDecl "LPDPTX_AUX_CFG_BLK_AUX_MARGIN" (RScalar 0x5000c) Register32;
   RegDecl "LPDPTX_AUX_SHM_CFG_BLK_AUX_CTRL_REG0" (RScalar 0x50204) Register32;
   RegDecl "LPDPTX_AUX_SHM_CFG_BLK_AUX_CTRL_REG1" (RScalar 0x50208) Register32;
   RegDecl "LN0_AUSPMA_RX_TOP" (RArray [irange 0x9000 0x400 4]) Register32;
   RegDecl "LN0_AUSPMA_RX_TOP_TJ_CFG_RX_TXMODE" (RScalar 0x90f0) R_AUSPMA_RX_TOP_TJ_CFG_RX_TXMODE;
   RegDecl "LN0_AUSPMA_RX_EQ" (RArray [irange 0xa000 0x400 4]) Register32;
   RegDecl "LN0_AUSPMA_RX_SHM" (RArray [irange 0xb000 0x400 4]) Register32;
   RegDecl "LN0_AUSPMA_RX_SHM_TJ_RXA_CTLE_CTRL0" (RScalar 0xb000) R_AUSPMA_RX_SHM_TJ_RXA_CTLE_CTRL0;
   RegDecl "LN0_AUSPMA_RX_SHM_TJ_RXA_AFE_CTRL1" (RScalar 0xb004) R_AUSPMA_RX_SHM_TJ_RXA_AFE_CTRL1;
   RegDecl "LN0_AUSPMA_RX_SHM_TJ_RXA_UNK_CTRL2" (RScalar 0xb008) Register32;
   RegDecl "LN0_AUSPMA_RX_SHM_TJ_RXA_UNK_CTRL3" (RScalar 0xb00c) Register32;
   RegDecl "LN0_AUSPMA_RX_SHM_TJ_RXA_UNK_CTRL4" (RScalar 0xb010) Register32;
   RegDecl "LN0_AUSPMA_RX_SHM_TJ_RXA_UNK_CTRL5" (RScalar 0xb014) Register32;
   RegDecl "LN0_AUSPMA_RX_SHM_TJ_RXA_UNK_CTRL6" (RScalar 0xb018) Register32;
   RegDecl "LN0_AUSPMA_RX_SHM_TJ_RXA_UNK_CTRL7" (RScalar 0xb01c) Register32;
   RegDecl "LN0_AUSPMA_RX_SHM_TJ_RXA_UNK_CTRL8" (RScalar 0xb020) Register32;
   RegDecl "LN0_AUSPMA_RX_SHM_TJ_RXA_UNK_CTRL9" (RScalar 0xb024) Register32;
   RegDecl "LN0_AUSPMA_RX_SHM_TJ_RXA_DFE_CTRL10" (RScalar 0xb028) R_AUSPMA_RX_SHM_TJ_RXA_DFE_CTRL10;
   RegDecl "LN0_AUSPMA_RX_SHM_TJ_RXA_DFE_CTRL11" (RScalar 0xb02c) R_AUSPMA_RX_SHM_TJ_RXA_DFE_CTRL11;
   RegDecl "LN0_AUSPMA_RX_SHM_TJ_RXA_DFE_CTRL12" (RScalar 0xb030) R_AUSPMA_RX_SHM_TJ_RXA_DFE_CTRL12;
   RegDecl "LN0_AUSPMA_RX_SHM_TJ_RXA_DFE_CTRL13" (RScalar 0xb034) R_AUSPMA_RX_SHM_TJ_RXA_DFE_CTRL13;
   RegDecl "LN0_AUSPMA_RX_SHM_TJ_UNK_CTRL14A" (RScalar 0xb038) Register32;
   RegDecl "LN0_AUSPMA_RX_SHM_TJ_UNK_CTRL14B" (RScalar 0xb03c) Register32;
   RegDecl "LN0_AUSPMA_RX_SHM_TJ_UNK_CTRL15A" (RScalar 0xb040) Register32;
   RegDecl "LN0_AUSPMA_RX_SHM_TJ_UNK_CTRL15B" (RScalar 0xb044) Register32;
   RegDecl "LN0_AUSPMA_RX_SHM_TJ_RXA_SAVOS_CTRL16" (RScalar 0xb048) R_AUSPMA_RX_SHM_TJ_RXA_SAVOS_CTRL16;
   RegDecl "LN0_AUSPMA_RX_SHM_TJ_RXA_TX_CTRL17" (RScalar 0xb04c) R_AUSPMA_RX_SHM_TJ_RXA_TX_CTRL17;
   RegDecl "LN0_AUSPMA_RX_SHM_TJ_RXA_TX_CTRL18" (RScalar 0xb050) R_AUSPMA_RX_SHM_TJ_RXA_TX_CTRL18;
   RegDecl "LN0_AUSPMA_RX_SHM_TJ_RXA_TERM_CTRL19" (RScalar 0xb054) R_AUSPMA_RX_SHM_TJ_RXA_TERM_CTRL19;
   RegDecl "LN0_AUSPMA_RX_SHM_TJ_RXA_UNK_CTRL20" (RScalar 0xb058) Register32;
   RegDecl "LN0_AUSPMA_RX_SHM_TJ_RXA_UNK_CTRL21" (RScalar 0xb05c) Register32;
   RegDecl "LN0_AUSPMA_RX_SHM_TJ_RXA_VREF_CTRL22" (RScalar 0xb060) R_AUSPMA_RX_SHM_TJ_RXA_VREF_CTRL22;
   RegDecl "LN0_AUSPMA_TX_TOP" (RArray [irange 0xc000 0x400 4]) Register32;
   RegDecl "LN0_AUSPMA_TX_SHM" (RArray [irange 0xd000 0x400 4]) Register32;
   RegDecl "LN0_AUSPMA_TX_SHM_TXA_CFG_MAIN_REG0" (RScalar 0xd000) R_AUSPMA_TX_SHM_TXA_CFG_MAIN_REG0;
   RegDecl "LN0_AUSPMA_TX_SHM_TXA_CFG_MAIN_REG1" (RScalar 0xd004) R_AUSPMA_TX_SHM_TXA_CFG_MAIN_REG1;
   RegDecl "LN0_AUSPMA_TX_SHM_TXA_IMP_REG0" (RScalar 0xd008) R_AUSPMA_TX_SHM_TXA_IMP_REG0;
   RegDecl "LN0_AUSPMA_TX_SHM_TXA_IMP_REG1" (RScalar 0xd00c) Register32;
   RegDecl "LN0_AUSPMA_TX_SHM_TXA_IMP_REG2" (RScalar 0xd010) R_AUSPMA_TX_SHM_TXA_IMP_REG2;
   RegDecl "LN0_AUSPMA_TX_SHM_TXA_IMP_REG3" (RScalar 0xd014) R_AUSPMA_TX_SHM_TXA_IMP_REG3;
   RegDecl "LN0_AUSPMA_TX_SHM_TXA_UNK_REG0" (RScalar 0xd018) Register32;
   RegDecl "LN0_AUSPMA_TX_SHM_TXA_UNK_REG1" (RScalar 0xd01c) Register32;
   RegDecl "LN0_AUSPMA_TX_SHM_TXA_UNK_REG2" (RScalar 0xd020) Register32;
   RegDecl "LN0_AUSPMA_TX_SHM_TXA_LDOCLK" (RScalar 0xd024) R_AUSPMA_TX_SHM_TXA_LDOCLK;
   RegDecl "LN1_AUSPMA_RX_TOP" (RArray [irange 0x10000 0x400 4]) Register32;
   RegDecl "LN1_AUSPMA_RX_TOP_TJ_CFG_RX_TXMODE" (RScalar 0x100f0) R_AUSPMA_RX_TOP_TJ_CFG_RX_TXMODE;
   RegDecl "LN1_AUSPMA_RX_EQ" (RArray [irange 0x11000 0x400 4]) Register32;
   RegDecl "LN1_AUSPMA_RX_SHM" (RArray [irange 0x12000 0x400 4]) Register32;
   RegDecl "LN1_AUSPMA_RX_SHM_TJ_RXA_CTLE_CTRL0" (RScalar 0x12000) R_AUSPMA_RX_SHM_TJ_RXA_CTLE_CTRL0;
   RegDecl "LN1_AUSPMA_RX_SHM_TJ_RXA_AFE_CTRL1" (RScalar 0x12004) R_AUSPMA_RX_SHM_TJ_RXA_AFE_CTRL1;
   RegDecl "LN1_AUSPMA_RX_SHM_TJ_RXA_UNK_CTRL2" (RScalar 0x12008) Register32;
   RegDecl "LN1_AUSPMA_RX_SHM_TJ_RXA_UNK_CTRL3" (RScalar 0x1200c) Register32;
   RegDecl "LN1_AUSPMA_RX_SHM_TJ_RXA_UNK_CTRL4" (RScalar 0x12010) Register32;
   RegDecl "LN1_AUSPMA_RX_SHM_TJ_RXA_UNK_CTRL5" (RScalar 0x12014) Register32;
   RegDecl "LN1_AUSPMA_RX_SHM_TJ_RXA_UNK_CTRL6" (RScalar 0x12018) Register32;
   RegDecl "LN1_AUSPMA_RX_SHM_TJ_RXA_UNK_CTRL7" (RScalar 0x1201c) Register32;
   RegDecl "LN1_AUSPMA_RX_SHM_TJ_RXA_UNK_CTRL8" (RScalar 0x12020) Register32;
   RegDecl "LN1_AUSPMA_RX_SHM_TJ_RXA_UNK_CTRL9" (RScalar 0x12024) Register32;
   RegDecl "LN1_AUSPMA_RX_SHM_TJ_RXA_DFE_CTRL10" (RScalar 0x12028) R_AUSPMA_RX_SHM_TJ_RXA_DFE_CTRL10;
   RegDecl "LN1_AUSPMA_RX_SHM_TJ_RXA_DFE_CTRL11" (RScalar 0x1202c) R_AUSPMA_RX_SHM_TJ_RXA_DFE_CTRL11;
   RegDecl "LN1_AUSPMA_RX_SHM_TJ_RXA_DFE_CTRL12" (RScalar 0x12030) R_AUSPMA_RX_SHM_TJ_RXA_DFE_CTRL12;
   RegDecl "LN1_AUSPMA_RX_SHM_TJ_RXA_DFE_CTRL13" (RScalar 0x12034) R_AUSPMA_RX_SHM_TJ_RXA_DFE_CTRL13;
   RegDecl "LN1_AUSPMA_RX_SHM_TJ_UNK_CTRL14A" (RScalar 0x12038) Register32;
   RegDecl "LN1_AUSPMA_RX_SHM_TJ_UNK_CTRL14B" (RScalar 0x1203c) Register32;
   RegDecl "LN1_AUSPMA_RX_SHM_TJ_UNK_CTRL15A" (RScalar 0x12040) Register32;
   RegDecl "LN1_AUSPMA_RX_SHM_TJ_UNK_CTRL15B" (RScalar 0x12044) Register32;
   RegDecl "LN1_AUSPMA_RX_SHM_TJ_RXA_SAVOS_CTRL16" (RScalar 0x12048) R_AUSPMA_RX_SHM_TJ_RXA_SAVOS_CTRL16;
   RegDecl "LN1_AUSPMA_RX_SHM_TJ_RXA_TX_CTRL17" (RScalar 0x1204c) R_AUSPMA_RX_SHM_TJ_RXA_TX_CTRL17;
   RegDecl "LN1_AUSPMA_RX_SHM_TJ_RXA_TX_CTRL18" (RScalar 0x12050) R_AUSPMA_RX_SHM_TJ_RXA_TX_CTRL18;
   RegDecl "LN1_AUSPMA_RX_SHM_TJ_RXA_TERM_CTRL19" (RScalar 0x12054) R_AUSPMA_RX_SHM_TJ_RXA_TERM_CTRL19;
   RegDecl "LN1_AUSPMA_RX_SHM_TJ_RXA_UNK_CTRL20" (RScalar 0x12058) Register32;
   RegDecl "LN1_AUSPMA_RX_SHM_TJ_RXA_UNK_CTRL21" (RScalar 0x1205c) Register32;
   RegDecl "LN1_AUSPMA_RX_SHM_TJ_RXA_VREF_CTRL22" (RScalar 0x12060) R_AUSPMA_RX_SHM_TJ_RXA_VREF_CTRL22;
   RegDecl "LN1_AUSPMA_TX_TOP" (RArray [irange 0x13000 0x400 4]) Register32;
   RegDecl "LN1_AUSPMA_TX_SHM" (RArray [irange 0x14000 0x400 4]) Register32;
   RegDecl "LN1_AUSPMA_TX_SHM_TXA_CFG_MAIN_REG0" (RScalar 0x14000) R_AUSPMA_TX_SHM_TXA_CFG_MAIN_REG0;
   RegDecl "LN1_AUSPMA_TX_SHM_TXA_CFG_MAIN_REG1" (RScalar 0x14004) R_AUSPMA_TX_SHM_TXA_CFG_MAIN_REG1;
   RegDecl "LN1_AUSPMA_TX_SHM_TXA_IMP_REG0" (RScalar 0x14008) R_AUSPMA_TX_SHM_TXA_IMP_REG0;
   RegDecl "LN1_AUSPMA_TX_SHM_TXA_IMP_REG1" (RScalar 0x1400c) Register32;
   RegDecl "LN1_AUSPMA_TX_SHM_TXA_IMP_REG2" (RScalar 0x14010) R_AUSPMA_TX_SHM_TXA_IMP_REG2;
   RegDecl "LN1_AUSPMA_TX_SHM_TXA_IMP_REG3" (RScalar 0x14014) R_AUSPMA_TX_SHM_TXA_IMP_REG3;
   RegDecl "LN1_AUSPMA_TX_SHM_TXA_UNK_REG0" (RScalar 0x14018) Register32;
   RegDecl "LN1_AUSPMA_TX_SHM_TXA_UNK_REG1" (RScalar 0x1401c) Register32;
   RegDecl "LN1_AUSPMA_TX_SHM_TXA_UNK_REG2" (RScalar 0x14020) Register32;
   RegDecl "LN1_AUSPMA_TX_SHM_TXA_LDOCLK" (RScalar 0x14024) R_AUSPMA_TX_SHM_TXA_LDOCLK;
   RegDecl "ACIOPHY_TOP_TUNABLE_118" (RScalar 0x118) Register32;
   RegDecl "ACIOPHY_TOP_TUNABLE_11c" (RScalar 0x11c) Register32;
   RegDecl "ACIOPHY_TOP_TUNABLE_124" (RScalar 0x124) Register32;
   RegDecl "ACIOPHY_TOP_TUNABLE_a00" (RScalar 0xa00) Register32;
   RegDecl "ACIOPHY_TOP_TUNABLE_808" (RScalar 0x808) Register32;
   RegDecl "AUSPLL_TOP_FREQ_DESC_0A" (RScalar 0x2080) Register32;
   RegDecl "AUSPLL_TOP_FREQ_DESC_0B" (RScalar 0x2084) Register32;
   RegDecl "AUSPLL_TOP_FREQ_DESC_0C" (RScalar 0x2088) Register32;
   RegDecl "AUSPLL_TOP_TUNABLE_2094" (RScalar 0x2094) Register32;
   RegDecl "AUSPLL_TOP_TUNABLE_20a0" (RScalar 0x20a0) Register32;
   RegDecl "AUSPLL_TOP_TUNABLE_20ac" (RScalar 0x20ac) Register32;
   RegDecl "AUSPLL_TOP_TUNABLE_20b8" (RScalar 0x20b8) Register32;
   RegDecl "CIO3PLL_TOP_TUNABLE_10" (RScalar 0x2810) Register32;
   RegDecl "CIO3PLL_TOP_TUNABLE_88" (RScalar 0x2888) Register32;
   RegDecl "CIO3PLL_TOP_TUNABLE_94" (RScalar 0x2894) Register32;
   RegDecl "CIO3PLL_CORE_TUNABLE_1c" (RScalar 0x2a1c) Register32;
   RegDecl "CIO3PLL_CORE_TUNABLE_28" (RScalar 0x2a28) Register32;
   RegDecl "CIO3PLL_CORE_TUNABLE_9c" (RScalar 0x2a9c) Register32;
   RegDecl "AUSPLL_CORE_TUNABLE_78" (RScalar 0x2278) Register32].

(** ** hw/codecs/__init__.py *)
Definition TAS5770Regs : list reg_decl :=
  [RegDecl "PWR_CTL" (RScalar 2) R_PWR_CTL; RegDecl "PB_CFG0" (RScalar 3) R_PB_CFG0;
   RegDecl "PB_CFG2" (RScalar 5) R_PB_CFG2; RegDecl "PB_CFG3" (RScalar 6) R_PB_CFG3;
   RegDecl "TDM_CFG2" (RScalar 0xc) R_TDM_CFG2; RegDecl "TDM_CFG3" (RScalar 0xd) R_TDM_CFG3].
Definition SN012776Regs : list reg_decl :=
  [RegDecl "MODE_CTRL" (RScalar 2) R_MODE_CTRL; RegDecl "CHNL_0" (RScalar 3) R_CHNL_0;
   RegDecl "DVC" (RScalar 0x1a) R_DVC; RegDecl "INT_MASK0" (RScalar 0x3b) R_INT_MASK0;
   RegDecl "INT_MASK1" (RScalar 0x3c) Register8; RegDecl "INT_MASK2" (RScalar 0x40) Register8;
   RegDecl "INT_MASK3" (RScalar 0x41) Register8; RegDecl "INT_MASK4" (RScalar 0x3d) Register8;
   RegDecl "INT_LTCH0" (RScalar 0x49) R_INT_MASK0; RegDecl "INT_LTCH1" (RScalar 0x4a) Register8;
   RegDecl "INT_LTCH1_0" (RScalar 0x4b) Register8; RegDecl "INT_LTCH2" (RScalar 0x4f) Register8;
   RegDecl "INT_LTCH3" (RScalar 0x50) Register8; RegDecl "INT_LTCH4" (RScalar 0x51) Register8;
   RegDecl "INT_CLK_CFG" (RScalar 0x5c) R_INT_CLK_CFG].

(** ** hw/codecs/cs42l84.py *)
Definition CS42L84Regs : list reg_decl :=
  [RegDecl "DEVID" (RArray [irange 0 5 1]) Register8; RegDecl "FREEZE" (RScalar 6) Register8;
   RegDecl "SW_RESET" (RScalar 0x203) Register8; RegDecl "IRQ_STATUS1" (RScalar 0x400) R_IRQ_MASK1;
   RegDecl "IRQ_STATUS2" (RScalar 0x401) Register8; RegDecl "IRQ_STATUS3" (RScalar 0x402) R_IRQ_MASK3;
   RegDecl "PLL_LOCK_STATUS" (RScalar 0x40e) Register8; RegDecl "IRQ_MASK1" (RScalar 0x418) R_IRQ_MASK1;
   RegDecl "IRQ_MASK2" (RScalar 0x419) Register8; RegDecl "IRQ_MASK3" (RScalar 0x41a) R_IRQ_MASK3;
   RegDecl "CCM_CTRL1" (RScalar 0x600) R_CCM_CTRL1; RegDecl "CCM_SAMP_RATE" (RScalar 0x601) R_CCM_SAMP_RATE;
   RegDecl "CCM_CTRL3" (RScalar 0x602) R_CCM_CTRL3; RegDecl "CCM_CTRL4" (RScalar 0x603) R_CCM_CTRL4;
   RegDecl "CCM_ASP_CLK_CTRL" (RScalar 0x608) Register8; RegDecl "PLL_CTRL" (RScalar 0x800) R_PLL_CTRL;
   RegDecl "PLL_DIV_FRAC" (RArray [irange 0x804 3 1]) Register8;
   RegDecl "PLL_DIV_INT" (RScalar 0x807) Register8; RegDecl "PLL_DIVOUT" (RScalar 0x808) Register8;
   RegDecl "DCID_CTRL1" (RScalar 0x1200) R_DCID_CTRL1; RegDecl "DCID_CTRL2" (RScalar 0x1201) R_DCID_CTRL2;
   RegDecl "DCID_CTRL3" (RScalar 0x1202) R_DCID_CTRL3; RegDecl "DCID_TRIM_OFFSET" (RScalar 0x1207) Register8;
   RegDecl "DCID_TRIM_SLOPE" (RScalar 0x120a) Register8;
   RegDecl "DCID_PULLDOWN_TRIM" (RScalar 0x120b) Register8;
   RegDecl "DCID_STATUS" (RScalar 0x120c) R_DCID_STATUS; RegDecl "TR_SENSE_CTRL1" (RScalar 0x1280) Register8;
   RegDecl "TR_SENSE_CTRL2" (RScalar 0x1281) Register8;
   RegDecl "RING_SENSE_CTRL" (RScalar 0x1282) R_TR_SENSE_CTRL;
   RegDecl "TIP_SENSE_CTRL" (RScalar 0x1283) R_TR_SENSE_CTRL;
   RegDecl "TR_SENSE_STATUS" (RScalar 0x1288) R_TR_SENSE_STATUS;
   RegDecl "HSBIAS_SC_AUTOCTL" (RScalar 0x1470) R_HSBIAS_SC_AUTOCTL;
   RegDecl "WAKE_CTRL" (RScalar 0x1471) Register8;
   RegDecl "TIP_SENSE_CTRL2" (RScalar 0x1473) R_TIP_SENSE_CTRL2;
   RegDecl "MISC_DET_CTRL" (RScalar 0x1474) R_MISC_DET_CTRL;
   RegDecl "MIC_DET_CTRL2" (RScalar 0x1478) R_MIC_DET_CTRL2;
   RegDecl "MIC_DET_CTRL4" (RScalar 0x1477) R_MIC_DET_CTRL4;
   RegDecl "HS_DET_STATUS1" (RScalar 0x147c) Register8;
   RegDecl "HS_DET_STATUS2" (RScalar 0x147d) R_HS_DET_STATUS2;
   RegDecl "HS_DET_IRQ_MASK" (RArray [irange 0x1480 2 1]) Register8;
   RegDecl "HS_DET_IRQ_STATUS" (RArray [irange 0x1484 2 1]) Register8;
   RegDecl "MSM_BLOCK_EN1" (RScalar 0x1800) R_MSM_BLOCK_EN1;
   RegDecl "MSM_BLOCK_EN2" (RScalar 0x1801) R_MSM_BLOCK_EN2;
   RegDecl "MSM_BLOCK_EN3" (RScalar 0x1802) R_MSM_BLOCK_EN3; RegDecl "HS_DET_CTRL1" (RScalar 0x1810) Register8;
   RegDecl "HS_DET_CTRL2" (RScalar 0x1811) R_HS_DET_CTRL2;
   RegDecl "HS_SWITCH_CTRL" (RScalar 0x1812) R_HS_SWITCH_CTRL;
   RegDecl "HS_CLAMP_DISABLE" (RScalar 0x1813) R_HS_CLAMP_DISABLE;
   RegDecl "ADC_CTRL1" (RScalar 0x2000) R_ADC_CTRL1; RegDecl "ADC_CTRL2" (RScalar 0x2001) Register8;
   RegDecl "ADC_CTRL3" (RScalar 0x2002) Register8; RegDecl "ADC_CTRL4" (RScalar 0x2003) R_ADC_CTRL4;
   RegDecl "DAC_CTRL1" (RScalar 0x3000) R_DAC_CTRL1; RegDecl "DAC_CTRL2" (RScalar 0x3001) R_DAC_CTRL2;
   RegDecl "DACA_VOL_LSB" (RScalar 0x3004) Register8; RegDecl "DACA_VOL_MSB" (RScalar 0x3005) Register8;
   RegDecl "DACB_VOL_LSB" (RScalar 0x3006) Register8; RegDecl "DACB_VOL_MSB" (RScalar 0x3007) Register8;
   RegDecl "HP_VOL_CTRL" (RScalar 0x3020) R_HP_VOL_CTRL; RegDecl "HP_CLAMP_CTRL" (RScalar 0x3123) Register8;
   RegDecl "BUS_ASP_TX_SRC" (RScalar 0x4000) R_BUS_ASP_TX_SRC;
   RegDecl "BUS_DAC_SRC" (RScalar 0x4001) R_BUS_DAC_SRC; RegDecl "ASP_CTRL" (RScalar 0x5000) R_ASP_CTRL;
   RegDecl "ASP_FSYNC_CTRL23" (RScalar 0x5010) R_ASP_FSYNC_CTRL23;
   RegDecl "ASP_DATA_CTRL" (RScalar 0x5018) R_ASP_TX_HIZ_DLY_CTRL;
   RegDecl "ASP_RX_EN" (RScalar 0x5020) R_ASP_RX_EN; RegDecl "ASP_TX_EN" (RScalar 0x5024) Register8;
   RegDecl "ASP_RX1_CTRL" (RScalar 0x5028) R_ASP_CH_CTRL;
   RegDecl "ASP_RX2_CTRL" (RScalar 0x502c) R_ASP_CH_CTRL;
   RegDecl "ASP_TX1_CTRL" (RScalar 0x5068) R_ASP_CH_CTRL; RegDecl "ASP_TX2_CTRL" (RScalar 0x506c) R_ASP_CH_CTRL].

(** ** hw/codecs/ssm3515.py *)
Definition SSM3515Regs : list reg_decl :=
  [RegDecl "PWR" (RScalar 0) R_PWR; RegDecl "GEC" (RScalar 1) R_GEC; RegDecl "DAC" (RScalar 2) R_DAC;
   RegDecl "DAC_VOL" (RScalar 3) Register8; RegDecl "SAI1" (RScalar 4) R_SAI1;
   RegDecl "SAI2" (RScalar 5) R_SAI2; RegDecl "VBAT_OUT" (RScalar 6) Register8;
   RegDecl "LIM1" (RScalar 7) Register8; RegDecl "LIM2" (RScalar 8) Register8;
   RegDecl "LIM3" (RScalar 9) Register8; RegDecl "STATUS" (RScalar 0xa) Register8;
   RegDecl "FAULT" (RScalar 0xb) Register8].

(** ** hw/dart8020.py *)
Definition DART8020Regs : list reg_decl :=
  [RegDecl "STREAM_COMMAND" (RScalar 0x20) R_STREAM_COMMAND; RegDecl "STREAM_SELECT" (RScalar 0x34) Register32;
   RegDecl "ERROR" (RScalar 0x40) R_ERROR_dart8020; RegDecl "ERROR_ADDR_LO" (RScalar 0x50) Register32;
   RegDecl "ERROR_ADDR_HI" (RScalar 0x54) Register32; RegDecl "CONFIG" (RScalar 0x60) R_CONFIG;
   RegDecl "REMAP" (RArray [irange 0x80 4 4]) R_REMAP; RegDecl "DAPF_LOCK" (RScalar 0xf0) R_DAPF_LOCK;
   RegDecl "UNK1" (RScalar 0xf8) Register32; RegDecl "ENABLED_STREAMS" (RScalar 0xfc) Register32;
   RegDecl "TCR" (RArray [irange 0x100 0x10 4]) R_TCR_dart8020;
   RegDecl "TTBR" (RArray [irange 0x200 0x10 0x10; PRange 0 0x10 4]) R_TTBR_dart8020].

(** ** hw/dart8110.py *)
Definition DART8110Regs : list reg_decl :=
  [RegDecl "PARAMS_0" (RScalar 0) R_PARAMS_0; RegDecl "PARAMS_4" (RScalar 4) R_PARAMS_4;
   RegDecl "PARAMS_8" (RScalar 8) R_PARAMS_8; RegDecl "PARAMS_C" (RScalar 0xc) R_PARAMS_C;
   RegDecl "REG_0x10" (RScalar 0x10) Register32; RegDecl "REG_0x14" (RScalar 0x14) Register32;
   RegDecl "TLB_OP" (RScalar 0x80) R_TLB_OP; RegDecl "TLP_OP_IDX" (RScalar 0x84) R_TLB_OP_IDX;
   RegDecl "TLB_TAG_LO" (RScalar 0x88) Register32; RegDecl "TLB_TAG_HI" (RScalar 0x8c) Register32;
   RegDecl "TLB_PA_LO" (RScalar 0x90) Register32; RegDecl "TLB_PA_HI" (RScalar 0x94) Register32;
   RegDecl "TLB_START_DVA_PAGE" (RScalar 0x98) Register32;
   RegDecl "TLB_END_DVA_PAGE" (RScalar 0xa0) Register32; RegDecl "ERROR" (RScalar 0x100) R_ERROR_dart8110;
   RegDecl "ERROR_DISABLE" (RScalar 0x104) R_ERROR_dart8110;
   RegDecl "STREAM_UNK_SET" (RArray [irange 0x120 8 4]) Register32;
   RegDecl "STREAM_UNK_CLR" (RArray [irange 0x140 8 4]) Register32;
   RegDecl "REG_0x160" (RScalar 0x160) Register32; RegDecl "REG_0x164" (RScalar 0x164) Register32;
   RegDecl "ERROR_ADDR_LO" (RScalar 0x170) Register32; RegDecl "ERROR_ADDR_HI" (RScalar 0x174) Register32;
   RegDecl "REG_0x178" (RScalar 0x178) Register32; RegDecl "REG_0x180" (RArray [irange 0x180 4 4]) Register32;
   RegDecl "REG_0x1a0" (RArray [irange 0x1a0 8 4]) Register32;
   RegDecl "ERR_SECONDARY" (RArray [irange 0x1c0 8 4]) Register32;
   RegDecl "REG_PROTECT" (RScalar 0x200) R_PROTECT; RegDecl "REG_UNPROTECT" (RScalar 0x204) R_PROTECT;
   RegDecl "REG_PROTECT_LOCK" (RScalar 0x208) R_PROTECT; RegDecl "REG_0x20c" (RScalar 0x20c) Register32;
   RegDecl "DIAG_LOCK" (RScalar 0x210) R_DIAG_LOCK; RegDecl "REG_0x218" (RScalar 0x218) Register32;
   RegDecl "REG_0x220" (RScalar 0x220) Register32; RegDecl "REG_0x224" (RScalar 0x224) Register32;
   RegDecl "TLIMIT" (RScalar 0x228) Register32; RegDecl "TEQRESERVE" (RScalar 0x22c) Register32;
   RegDecl "TRANS" (RArray [irange 0x230 4 4]) Register32; RegDecl "REG_0x300" (RScalar 0x300) Register32;
   RegDecl "REG_0x308" (RScalar 0x308) Register32; RegDecl "REG_0x310" (RScalar 0x310) Register32;
   RegDecl "REG_0x318" (RScalar 0x318) Register32; RegDecl "REG_0x320" (RScalar 0x320) Register32;
   RegDecl "REG_0x328" (RScalar 0x328) Register32; RegDecl "REG_0x330" (RScalar 0x330) Register32;
   RegDecl "REG_0x338" (RScalar 0x338) Register32; RegDecl "REG_0x340" (RScalar 0x340) Register32;
   RegDecl "REG_0x348" (RScalar 0x348) Register32; RegDecl "REG_0x350" (RScalar 0x350) Register32;
   RegDecl "REG_0x358" (RScalar 0x358) Register32; RegDecl "REG_0x400" (RScalar 0x400) Register32;
   RegDecl "REG_0x404" (RScalar 0x404) Register32; RegDecl "REG_0x408" (RScalar 0x408) Register32;
   RegDecl "REG_0x410" (RScalar 0x410) Register32; RegDecl "TZ_CONFIG" (RScalar 0x500) Register32;
   RegDecl "TZ_SELECT" (RScalar 0x504) Register32; RegDecl "TZ_REGION0_START" (RScalar 0x508) Register32;
   RegDecl "TZ_REGION0_END" (RScalar 0x510) Register32; RegDecl "TZ_REGION0_OFFSET" (RScalar 0x518) Register32;
   RegDecl "TZ_REGION1_START" (RScalar 0x520) Register32; RegDecl "TZ_REGION1_END" (RScalar 0x528) Register32;
   RegDecl "TZ_REGION1_OFFSET" (RScalar 0x530) Register32;
   RegDecl "TZ_REGION2_START" (RScalar 0x538) Register32; RegDecl "TZ_REGION2_END" (RScalar 0x540) Register32;
   RegDecl "TZ_REGION2_OFFSET" (RScalar 0x548) Register32;
   RegDecl "PERF_INTR_ENABLE" (RScalar 0x700) Register32;
   RegDecl "PERF_INTR_STATUS" (RScalar 0x704) Register32;
   RegDecl "PERF_UNK1" (RArray [irange 0x720 8 4]) Register32;
   RegDecl "PERF_UNK2" (RArray [irange 0x740 8 4]) Register32;
   RegDecl "PERF_TLB_MISS" (RScalar 0x760) Register32; RegDecl "PERF_TLB_FILL" (RScalar 0x764) Register32;
   RegDecl "PERF_TLB_HIT" (RScalar 0x768) Register32; RegDecl "PERF_ST_MISS" (RScalar 0x770) Register32;
   RegDecl "PERF_ST_FILL" (RScalar 0x774) Register32; RegDecl "PERF_ST_HIT" (RScalar 0x778) Register32;
   RegDecl "PERF_CTC_MISS" (RScalar 0x780) Register32; RegDecl "PERF_CTC_FILL" (RScalar 0x784) Register32;
   RegDecl "PERF_CTC_HIT" (RScalar 0x788) Register32;
   RegDecl "UNK_TUNABLES" (RArray [irange 0x800 0x100 4]) Register32;
   RegDecl "ENABLE_STREAMS" (RArray [irange 0xc00 8 4]) Register32;
   RegDecl "DISABLE_STREAMS" (RArray [irange 0xc20 8 4]) Register32;
   RegDecl "TCR" (RArray [irange 0x1000 0x100 4]) R_TCR_dart8110;
   RegDecl "TTBR" (RArray [irange 0x1400 0x100 4]) R_TTBR_dart8110].

(** ** hw/dockchannel.py *)
Definition DockChannelIRQRegs : list reg_decl :=
  [RegDecl "IRQ_MASK" (RScalar 0) Register32; RegDecl "IRQ_FLAG" (RScalar 4) Register32].
Definition DockChannelConfigRegs : list reg_decl :=
  [RegDecl "TX_THRESH" (RScalar 0) Register32; RegDecl "RX_THRESH" (RScalar 4) Register32].
Definition DockChannelDataRegs : list reg_decl :=
  [RegDecl "TX_8" (RScalar 4) Register32; RegDecl "TX_16" (RScalar 8) Register32;
   RegDecl "TX_24" (RScalar 0xc) Register32; RegDecl "TX_32" (RScalar 0x10) Register32;
   RegDecl "TX_FREE" (RScalar 0x14) Register32; RegDecl "RX_8" (RScalar 0x1c) R_RX_DATA;
   RegDecl "RX_16" (RScalar 0x20) R_RX_DATA; RegDecl "RX_24" (RScalar 0x24) R_RX_DATA;
   RegDecl "RX_32" (RScalar 0x28) Register32; RegDecl "RX_COUNT" (RScalar 0x2c) Register32].

(** ** hw/dwc3.py *)
Definition XhciRegs : list reg_decl :=
  [RegDecl "HCSPARAMS1" (RScalar 4) Register32; RegDecl "HCSPARAMS2" (RScalar 8) Register32;
   RegDecl "HCSPARAMS3" (RScalar 0xc) Register32; RegDecl "HCCPARAMS1" (RScalar 0x10) Register32;
   RegDecl "DBOFF" (RScalar 0x14) Register32; RegDecl "RTSOFF" (RScalar 0x18) Register32;
   RegDecl "HCCPARAMS2" (RScalar 0x1c) Register32; RegDecl "USBCMD" (RScalar 0x20) R_XHCI_USBCMD;
   RegDecl "USBSTS" (RScalar 0x24) R_XHCI_USBSTS; RegDecl "DNCTRL" (RScalar 0x34) R_XHCI_DNCTRL;
   RegDecl "CRCR_LO" (RScalar 0x38) R_XHCI_CRCR_LO; RegDecl "CRCR_HI" (RScalar 0x3c) Register32;
   RegDecl "DCBAAP_LO" (RScalar 0x50) Register32; RegDecl "DCBAAP_HI" (RScalar 0x54) Register32;
   RegDecl "PORTSC0" (RScalar 0x420) R_XHCI_PORTSC; RegDecl "PORTPMSC0" (RScalar 0x424) Register32;
   RegDecl "PORTLI0" (RScalar 0x428) R_XHCI_PORTLI; RegDecl "PORTHLPMC0" (RScalar 0x42c) Register32;
   RegDecl "PORTSC1" (RScalar 0x430) R_XHCI_PORTSC; RegDecl "PORTPMSC1" (RScalar 0x434) Register32;
   RegDecl "PORTLI1" (RScalar 0x438) R_XHCI_PORTLI; RegDecl "PORTHLPMC1" (RScalar 0x43c) Register32;
   RegDecl "MFINDEX" (RScalar 0x440) Register32; RegDecl "IMAN0" (RScalar 0x460) R_XHCI_IMAN;
   RegDecl "IMOD0" (RScalar 0x464) Register32; RegDecl "ERSTSZ0" (RScalar 0x468) Register32;
   RegDecl "RSVD0" (RScalar 0x46c) Register32; RegDecl "ERSTBA0" (RScalar 0x470) Register64;
   RegDecl "ERDP0" (RScalar 0x478) Register64; RegDecl "IMAN1" (RScalar 0x480) R_XHCI_IMAN;
   RegDecl "IMOD1" (RScalar 0x484) Register32; RegDecl "ERSTSZ1" (RScalar 0x488) Register32;
   RegDecl "RSVD1" (RScalar 0x48c) Register32; RegDecl "ERSTBA1" (RScalar 0x490) Register64;
   RegDecl "ERDP1" (RScalar 0x498) Register64; RegDecl "IMAN2" (RScalar 0x4a0) R_XHCI_IMAN;
   RegDecl "IMOD2" (RScalar 0x4a4) Register32; RegDecl "ERSTSZ2" (RScalar 0x4a8) Register32;
   RegDecl "RSVD0" (RScalar 0x4ac) Register32; RegDecl "ERSTBA2" (RScalar 0x4b0) Register64;
   RegDecl "ERDP2" (RScalar 0x4b8) Register64; RegDecl "IMAN3" (RScalar 0x4c0) R_XHCI_IMAN;
   RegDecl "IMOD3" (RScalar 0x4c4) Register32; RegDecl "ERSTSZ3" (RScalar 0x4c8) Register32;
   RegDecl "RSVD0" (RScalar 0x4cc) Register32; RegDecl "ERSTBA3" (RScalar 0x4d0) Register64;
   RegDecl "ERDP3" (RScalar 0x4d8) Register64;
   RegDecl "DOORBELL" (RArray [irange 0x4e0 0x100 4]) R_XHCI_DOORBELL].
Definition Dwc3CoreRegs : list reg_decl :=
  [RegDecl "GSBUSCFG0" (RScalar 0x100) Register32; RegDecl "GSBUSCFG1" (RScalar 0x104) Register32;
   RegDecl "GTXTHRCFG" (RScalar 0x108) Register32; RegDecl "GRXTHRCFG" (RScalar 0x10c) Register32;
   RegDecl "GCTL" (RScalar 0x110) R_GCTL; RegDecl "GEVTEN" (RScalar 0x114) Register32;
   RegDecl "GSTS" (RScalar 0x118) Register32; RegDecl "GUCTL1" (RScalar 0x11c) Register32;
   RegDecl "GSNPSID" (RScalar 0x120) Register32; RegDecl "GGPIO" (RScalar 0x124) Register32;
   RegDecl "GUID" (RScalar 0x128) Register32; RegDecl "GUCTL" (RScalar 0x12c) Register32;
   RegDecl "GBUSERRADDR0" (RScalar 0x130) Register32; RegDecl "GBUSERRADDR1" (RScalar 0x134) Register32;
   RegDecl "GPRTBIMAP0" (RScalar 0x138) Register32; RegDecl "GPRTBIMAP1" (RScalar 0x13c) Register32;
   RegDecl "GHWPARAMS0" (RScalar 0x140) Register32; RegDecl "GHWPARAMS1" (RScalar 0x144) Register32;
   RegDecl "GHWPARAMS2" (RScalar 0x148) Register32; RegDecl "GHWPARAMS3" (RScalar 0x14c) Register32;
   RegDecl "GHWPARAMS4" (RScalar 0x150) Register32; RegDecl "GHWPARAMS5" (RScalar 0x154) Register32;
   RegDecl "GHWPARAMS6" (RScalar 0x158) Register32; RegDecl "GHWPARAMS7" (RScalar 0x15c) Register32;
   RegDecl "GDBGFIFOSPACE" (RScalar 0x160) Register32; RegDecl "GDBGLTSSM" (RScalar 0x164) Register32;
   RegDecl "GDBGBMU" (RScalar 0x16c) Register32; RegDecl "GDBGLSPMUX" (RScalar 0x170) Register32;
   RegDecl "GDBGLSP" (RScalar 0x174) Register32; RegDecl "GDBGEPINFO0" (RScalar 0x178) Register32;
   RegDecl "GDBGEPINFO1" (RScalar 0x17c) Register32; RegDecl "GPRTBIMAP_HS0" (RScalar 0x180) Register32;
   RegDecl "GPRTBIMAP_HS1" (RScalar 0x184) Register32; RegDecl "GPRTBIMAP_FS0" (RScalar 0x188) Register32;
   RegDecl "GPRTBIMAP_FS1" (RScalar 0x18c) Register32; RegDecl "GUCTL2" (RScalar 0x19c) Register32;
   RegDecl "GUSB2PHYCFG" (RScalar 0x200) R_GUSB2PHYCFG; RegDecl "GUSB2I2CCTL" (RScalar 0x240) Register32;
   RegDecl "GUSB2PHYACC" (RScalar 0x280) Register32; RegDecl "GUSB3PIPECTL" (RScalar 0x2c0) R_GUSB3PIPECTL;
   RegDecl "DWC3_GHWPARAMS8" (RScalar 0x600) Register32; RegDecl "DWC3_GUCTL3" (RScalar 0x60c) Register32;
   RegDecl "DWC3_GFLADJ" (RScalar 0x630) Register32; RegDecl "DWC3_GHWPARAMS9" (RScalar 0x680) Register32;
   RegDecl "DWC3_D38" (RScalar 0xd38) Register32; RegDecl "DWC3_D3C" (RScalar 0xd3c) Register32;
   RegDecl "DWC3_D40" (RScalar 0xd40) Register32].
Definition PipehandlerRegs : list reg_decl :=
  [RegDecl "PIPEHANDLER_OVERRIDE" (RScalar 0) R_PIPEHANDLER_OVERRIDE;
   RegDecl "PIPEHANDLER_OVERRIDE_VALUES" (RScalar 4) R_PIPEHANDLER_OVERRIDE;
   RegDecl "PIPEHANDLER_MUX_CTRL" (RScalar 0xc) R_PIPEHANDLER_MUX_CTRL;
   RegDecl "PIPEHANDLER_LOCK_REQ" (RScalar 0x10) R_PIPEHANDLER_LOCK;
   RegDecl "PIPEHANDLER_LOCK_ACK" (RScalar 0x14) R_PIPEHANDLER_LOCK;
   RegDecl "PIPEHANDLER_AON_GEN" (RScalar 0x1c) R_PIPEHANDLER_AON_GEN;
   RegDecl "PIPEHANDLER_NONSELECTED_OVERRIDE" (RScalar 0x20) R_PIPEHANDLER_NONSELECTED_OVERRIDE].

(** ** hw/i2c.py *)
Definition I2CRegs : list reg_decl :=
  [RegDecl "MTXFIFO" (RScalar 0) R_MTXFIFO; RegDecl "MRXFIFO" (RScalar 4) R_MRXFIFO;
   RegDecl "MCNT" (RScalar 8) R_MCNT; RegDecl "XFSTA" (RScalar 0xc) R_XFSTA;
   RegDecl "SADDR" (RScalar 0x10) R_SADDR; RegDecl "SMSTA" (RScalar 0x14) R_SMSTA;
   RegDecl "IMASK" (RScalar 0x18) R_SMSTA; RegDecl "CTL" (RScalar 0x1c) R_CTL;
   RegDecl "STXFIFO" (RScalar 0x20) R_STXFIFO; RegDecl "SRXFIFO" (RScalar 0x20) R_SRXFIFO;
   RegDecl "FIFOCTL" (RScalar 0x44) R_FIFOCTL].

(** ** hw/isp.py *)
Definition ISPRegs : list reg_decl :=
  [RegDecl "ISP_PMGR_0" (RScalar 0x738) Register32; RegDecl "ISP_PMGR_1" (RScalar 0x798) Register32;
   RegDecl "ISP_PMGR_2" (RScalar 0x7f8) Register32; RegDecl "ISP_PMGR_3" (RScalar 0x858) Register32;
   RegDecl "ISP_ASC_RVBAR" (RScalar 0x1050000) Register64;
   RegDecl "ISP_ASC_EDPRCR" (RScalar 0x1010310) Register32;
   RegDecl "ISP_ASC_CONTROL" (RScalar 0x1400044) Register32;
   RegDecl "ISP_ASC_STATUS" (RScalar 0x1400048) Register32;
   RegDecl "ISP_ASC_POWER_CYCLE_0" (RScalar 0x1400a00) Register32;
   RegDecl "ISP_ASC_POWER_CYCLE_1" (RScalar 0x1400a04) Register32;
   RegDecl "ISP_ASC_POWER_CYCLE_2" (RScalar 0x1400a08) Register32;
   RegDecl "ISP_ASC_POWER_CYCLE_3" (RScalar 0x1400a0c) Register32;
   RegDecl "ISP_ASC_POWER_CYCLE_4" (RScalar 0x1400a10) Register32;
   RegDecl "ISP_ASC_POWER_CYCLE_5" (RScalar 0x1400a14) Register32;
   RegDecl "ISP_REVISION" (RScalar 0x1800000) ISP_REVISION;
   RegDecl "ISP_POWER_UNK_0" (RScalar 0x20e0080) Register32;
   RegDecl "ISP_POWER_UNK_1" (RScalar 0x20f0020) Register32;
   RegDecl "ISP_POWER_UNK_2" (RScalar 0x20f8020) Register32;
   RegDecl "ISP_GPIO_0" (RScalar 0x2104170) Register32; RegDecl "ISP_GPIO_1" (RScalar 0x2104174) Register32;
   RegDecl "ISP_GPIO_2" (RScalar 0x2104178) Register32; RegDecl "ISP_GPIO_3" (RScalar 0x210417c) Register32;
   RegDecl "ISP_GPIO_4" (RScalar 0x2104180) Register32; RegDecl "ISP_GPIO_5" (RScalar 0x2104184) Register32;
   RegDecl "ISP_GPIO_6" (RScalar 0x2104188) Register32; RegDecl "ISP_GPIO_7" (RScalar 0x210418c) Register32;
   RegDecl "ISP_GPIO_0_T6031" (RScalar 0x24c41d0) Register32;
   RegDecl "ISP_GPIO_1_T6031" (RScalar 0x24c41d4) Register32;
   RegDecl "ISP_GPIO_2_T6031" (RScalar 0x24c41d8) Register32;
   RegDecl "ISP_GPIO_3_T6031" (RScalar 0x24c41dc) Register32;
   RegDecl "ISP_GPIO_4_T6031" (RScalar 0x24c41e0) Register32;
   RegDecl "ISP_GPIO_5_T6031" (RScalar 0x24c41e4) Register32;
   RegDecl "ISP_GPIO_6_T6031" (RScalar 0x24c41e8) Register32;
   RegDecl "ISP_GPIO_7_T6031" (RScalar 0x24c41ec) Register32;
   RegDecl "ISP_GPIO_0_T8112" (RScalar 0x24c41b0) Register32;
   RegDecl "ISP_GPIO_1_T8112" (RScalar 0x24c41b4) Register32;
   RegDecl "ISP_GPIO_2_T8112" (RScalar 0x24c41b8) Register32;
   RegDecl "ISP_GPIO_3_T8112" (RScalar 0x24c41bc) Register32;
   RegDecl "ISP_GPIO_4_T8112" (RScalar 0x24c41c0) Register32;
   RegDecl "ISP_GPIO_5_T8112" (RScalar 0x24c41c4) Register32;
   RegDecl "ISP_GPIO_6_T8112" (RScalar 0x24c41c8) Register32;
   RegDecl "ISP_GPIO_7_T8112" (RScalar 0x24c41cc) Register32;
   RegDecl "ISP_SENSOR_CLOCK_0_EN" (RScalar 0x2104190) Register32;
   RegDecl "ISP_SENSOR_CLOCK_1_EN" (RScalar 0x2104194) Register32;
   RegDecl "ISP_SENSOR_CLOCK_2_EN" (RScalar 0x2104198) Register32;
   RegDecl "ISP_IRQ_INTERRUPT" (RScalar 0x2104000) Register32;
   RegDecl "ISP_IRQ_ENABLE" (RScalar 0x2104004) Register32;
   RegDecl "ISP_IRQ_ENABLE_T6031" (RScalar 0x2104008) Register32;
   RegDecl "ISP_IRQ_DOORBELL" (RScalar 0x21043f0) Register32;
   RegDecl "ISP_IRQ_ACK" (RScalar 0x21043fc) Register32;
   RegDecl "ISP_IRQ_INTERRUPT_T8112" (RScalar 0x24c4000) Register32;
   RegDecl "ISP_IRQ_DOORBELL_T8112" (RScalar 0x24c4430) Register32;
   RegDecl "ISP_IRQ_DOORBELL_T8122" (RScalar 0x24c4454) Register32;
   RegDecl "ISP_IRQ_DOORBELL_T6031" (RScalar 0x24c4458) Register32;
   RegDecl "ISP_IRQ_ACK_T8112" (RScalar 0x24c443c) Register32;
   RegDecl "ISP_IRQ_ACK_T8122" (RScalar 0x24c4460) Register32;
   RegDecl "ISP_IRQ_ACK_T6031" (RScalar 0x24c4464) Register32;
   RegDecl "ISP_IRQ_INTERRUPT_1" (RScalar 0x2104008) Register32;
   RegDecl "ISP_IRQ_INTERRUPT_2" (RScalar 0x2104010) Register32;
   RegDecl "ISP_IRQ_INTERRUPT_3" (RScalar 0x2104018) Register32;
   RegDecl "ISP_IRQ_INTERRUPT_4" (RScalar 0x21043f8) Register32;
   RegDecl "ISP_IRQ_INTERRUPT_4_T8112" (RScalar 0x24c4438) Register32;
   RegDecl "ISP_DPE_UNK_0" (RScalar 0x2504000) Register32;
   RegDecl "ISP_DPE_UNK_1" (RScalar 0x2508000) Register32].
Definition ISPPSRegs : list reg_decl :=
  [RegDecl "ISP_PS_00" (RScalar 0x4000) Register32; RegDecl "ISP_PS_08" (RScalar 0x4008) Register32;
   RegDecl "ISP_PS_10" (RScalar 0x4010) Register32; RegDecl "ISP_PS_18" (RScalar 0x4018) Register32;
   RegDecl "ISP_PS_20" (RScalar 0x4020) Register32; RegDecl "ISP_PS_28" (RScalar 0x4028) Register32;
   RegDecl "ISP_PS_30" (RScalar 0x4030) Register32; RegDecl "ISP_PS_38" (RScalar 0x4038) Register32;
   RegDecl "ISP_PS_40" (RScalar 0x4040) Register32; RegDecl "ISP_PS_48" (RScalar 0x4048) Register32;
   RegDecl "ISP_PS_50" (RScalar 0x4050) Register32; RegDecl "ISP_PS_58" (RScalar 0x4058) Register32;
   RegDecl "ISP_PS_60" (RScalar 0x4060) Register32].

(** ** hw/jpeg.py *)
Definition JPEGRegs : list reg_decl :=
  [RegDecl "REG_0x0" (RScalar 0) Register32; RegDecl "REG_0x4" (RScalar 4) Register32;
   RegDecl "MODE" (RScalar 8) Register32; RegDecl "REG_0xc" (RScalar 0xc) Register32;
   RegDecl "REG_0x10" (RScalar 0x10) Register32; RegDecl "REG_0x14" (RScalar 0x14) Register32;
   RegDecl "REG_0x18" (RScalar 0x18) Register32; RegDecl "REG_0x20" (RScalar 0x20) Register32;
   RegDecl "STATUS" (RScalar 0x24) R_STATUS_jpeg; RegDecl "CODEC" (RScalar 0x28) R_CODEC;
   RegDecl "REG_0x2c" (RScalar 0x2c) Register32; RegDecl "REG_0x30" (RScalar 0x30) Register32;
   RegDecl "REG_0x34" (RScalar 0x34) Register32; RegDecl "REG_0x38" (RScalar 0x38) Register32;
   RegDecl "CHROMA_HALVE_H_TYPE1" (RScalar 0x3c) Register32;
   RegDecl "CHROMA_HALVE_H_TYPE2" (RScalar 0x40) Register32;
   RegDecl "CHROMA_HALVE_V_TYPE1" (RScalar 0x44) Register32;
   RegDecl "CHROMA_HALVE_V_TYPE2" (RScalar 0x48) Register32;
   RegDecl "CHROMA_DOUBLE_H" (RScalar 0x4c) Register32; RegDecl "CHROMA_QUADRUPLE_H" (RScalar 0x50) Register32;
   RegDecl "CHROMA_DOUBLE_V" (RScalar 0x54) Register32; RegDecl "PX_USE_PLANE1" (RScalar 0x58) Register32;
   RegDecl "PX_TILES_W" (RScalar 0x5c) Register32; RegDecl "PX_TILES_H" (RScalar 0x60) Register32;
   RegDecl "PX_PLANE0_WIDTH" (RScalar 0x64) Register32; RegDecl "PX_PLANE0_HEIGHT" (RScalar 0x68) Register32;
   RegDecl "PX_PLANE0_TILING_H" (RScalar 0x6c) Register32;
   RegDecl "PX_PLANE0_TILING_V" (RScalar 0x70) Register32;
   RegDecl "PX_PLANE0_STRIDE" (RScalar 0x74) Register32; RegDecl "PX_PLANE1_WIDTH" (RScalar 0x78) Register32;
   RegDecl "PX_PLANE1_HEIGHT" (RScalar 0x7c) Register32;
   RegDecl "PX_PLANE1_TILING_H" (RScalar 0x80) Register32;
   RegDecl "PX_PLANE1_TILING_V" (RScalar 0x84) Register32;
   RegDecl "PX_PLANE1_STRIDE" (RScalar 0x88) Register32; RegDecl "INPUT_START1" (RScalar 0x8c) Register32;
   RegDecl "INPUT_START2" (RScalar 0x90) Register32; RegDecl "REG_0x94" (RScalar 0x94) Register32;
   RegDecl "REG_0x98" (RScalar 0x98) Register32; RegDecl "INPUT_END" (RScalar 0x9c) Register32;
   RegDecl "OUTPUT_START1" (RScalar 0xa0) Register32; RegDecl "OUTPUT_START2" (RScalar 0xa4) Register32;
   RegDecl "OUTPUT_END" (RScalar 0xa8) Register32;
   RegDecl "MATRIX_MULT" (RArray [irange 0xac 0xb 4]) Register32;
   RegDecl "DITHER" (RArray [irange 0xd8 0xa 4]) Register32;
   RegDecl "ENCODE_PIXEL_FORMAT" (RScalar 0x100) R_ENCODE_PIXEL_FORMAT;
   RegDecl "ENCODE_COMPONENT0_POS" (RScalar 0x104) Register32;
   RegDecl "ENCODE_COMPONENT1_POS" (RScalar 0x108) Register32;
   RegDecl "ENCODE_COMPONENT2_POS" (RScalar 0x10c) Register32;
   RegDecl "ENCODE_COMPONENT3_POS" (RScalar 0x110) Register32;
   RegDecl "CONVERT_COLOR_SPACE" (RScalar 0x114) Register32; RegDecl "REG_0x118" (RScalar 0x118) Register32;
   RegDecl "REG_0x11c" (RScalar 0x11c) Register32; RegDecl "REG_0x120" (RScalar 0x120) Register32;
   RegDecl "TILING_ENABLE" (RScalar 0x124) Register32; RegDecl "TILING_PLANE0" (RScalar 0x128) Register32;
   RegDecl "TILING_PLANE1" (RScalar 0x12c) Register32;
   RegDecl "DECODE_MACROBLOCKS_W" (RScalar 0x130) Register32;
   RegDecl "DECODE_MACROBLOCKS_H" (RScalar 0x134) Register32;
   RegDecl "RIGHT_EDGE_PIXELS" (RScalar 0x138) Register32;
   RegDecl "BOTTOM_EDGE_PIXELS" (RScalar 0x13c) Register32;
   RegDecl "RIGHT_EDGE_SAMPLES" (RScalar 0x140) Register32;
   RegDecl "BOTTOM_EDGE_SAMPLES" (RScalar 0x144) Register32;
   RegDecl "SCALE_FACTOR" (RScalar 0x148) R_SCALE_FACTOR;
   RegDecl "DECODE_PIXEL_FORMAT" (RScalar 0x14c) R_DECODE_PIXEL_FORMAT;
   RegDecl "YUV422_ORDER" (RScalar 0x150) Register32; RegDecl "RGBA_ORDER" (RScalar 0x154) Register32;
   RegDecl "RGBA_ALPHA" (RScalar 0x158) Register32; RegDecl "PLANAR_CHROMA_HALVING" (RScalar 0x15c) Register32;
   RegDecl "REG_0x160" (RScalar 0x160) Register32; RegDecl "REG_0x164" (RScalar 0x164) Register32;
   RegDecl "REG_0x16c" (RScalar 0x16c) Register32; RegDecl "REG_0x170" (RScalar 0x170) Register32;
   RegDecl "PERFCOUNTER" (RScalar 0x178) Register32; RegDecl "TIMEOUT" (RScalar 0x184) Register32;
   RegDecl "HWREV" (RScalar 0x188) Register32; RegDecl "REG_0x18c" (RScalar 0x18c) Register32;
   RegDecl "REG_0x190" (RScalar 0x190) Register32; RegDecl "REG_0x194" (RScalar 0x194) Register32;
   RegDecl "REG_0x198" (RScalar 0x198) Register32; RegDecl "REG_0x19c" (RScalar 0x19c) Register32;
   RegDecl "ENABLE_RST_LOGGING" (RScalar 0x1a0) Register32;
   RegDecl "RST_LOG_ENTRIES" (RScalar 0x1a4) Register32; RegDecl "REG_0x1a8" (RScalar 0x1a8) Register32;
   RegDecl "REG_0x1ac" (RScalar 0x1ac) Register32; RegDecl "REG_0x1b0" (RScalar 0x1b0) Register32;
   RegDecl "REG_0x1b4" (RScalar 0x1b4) Register32; RegDecl "REG_0x1b8" (RScalar 0x1b8) Register32;
   RegDecl "REG_0x1bc" (RScalar 0x1bc) Register32; RegDecl "REG_0x1c0" (RScalar 0x1c0) Register32;
   RegDecl "REG_0x1c4" (RScalar 0x1c4) Register32; RegDecl "REG_0x1c8" (RScalar 0x1c8) Register32;
   RegDecl "REG_0x1cc" (RScalar 0x1cc) Register32; RegDecl "REG_0x1d0" (RScalar 0x1d0) Register32;
   RegDecl "REG_0x1d4" (RScalar 0x1d4) Register32; RegDecl "REG_0x1d8" (RScalar 0x1d8) Register32;
   RegDecl "REG_0x1dc" (RScalar 0x1dc) Register32; RegDecl "REG_0x1e0" (RScalar 0x1e0) Register32;
   RegDecl "REG_0x1e4" (RScalar 0x1e4) Register32; RegDecl "REG_0x1e8" (RScalar 0x1e8) Register32;
   RegDecl "REG_0x1ec" (RScalar 0x1ec) Register32; RegDecl "REG_0x1f0" (RScalar 0x1f0) Register32;
   RegDecl "REG_0x1f4" (RScalar 0x1f4) Register32; RegDecl "REG_0x1f8" (RScalar 0x1f8) Register32;
   RegDecl "REG_0x1fc" (RScalar 0x1fc) Register32; RegDecl "REG_0x200" (RScalar 0x200) Register32;
   RegDecl "REG_0x204" (RScalar 0x204) Register32; RegDecl "REG_0x208" (RScalar 0x208) Register32;
   RegDecl "REG_0x20c" (RScalar 0x20c) Register32; RegDecl "REG_0x210" (RScalar 0x210) Register32;
   RegDecl "REG_0x214" (RScalar 0x214) Register32; RegDecl "REG_0x218" (RScalar 0x218) Register32;
   RegDecl "REG_0x21c" (RScalar 0x21c) Register32; RegDecl "REG_0x220" (RScalar 0x220) Register32;
   RegDecl "REG_0x224" (RScalar 0x224) Register32; RegDecl "REG_0x228" (RScalar 0x228) Register32;
   RegDecl "REG_0x22c" (RScalar 0x22c) Register32; RegDecl "REG_0x230" (RScalar 0x230) Register32;
   RegDecl "REG_0x234" (RScalar 0x234) Register32; RegDecl "REG_0x238" (RScalar 0x238) Register32;
   RegDecl "REG_0x23c" (RScalar 0x23c) Register32; RegDecl "REG_0x240" (RScalar 0x240) Register32;
   RegDecl "REG_0x244" (RScalar 0x244) Register32; RegDecl "REG_0x248" (RScalar 0x248) Register32;
   RegDecl "REG_0x24c" (RScalar 0x24c) Register32; RegDecl "REG_0x250" (RScalar 0x250) Register32;
   RegDecl "REG_0x254" (RScalar 0x254) Register32; RegDecl "REG_0x258" (RScalar 0x258) Register32;
   RegDecl "REG_0x25c" (RScalar 0x25c) Register32; RegDecl "REG_0x260" (RScalar 0x260) Register32;
   RegDecl "REG_0x264" (RScalar 0x264) Register32; RegDecl "REG_0x268" (RScalar 0x268) Register32;
   RegDecl "REG_0x26c" (RScalar 0x26c) Register32; RegDecl "REG_0x280" (RScalar 0x280) Register32;
   RegDecl "JPEG_IO_FLAGS" (RScalar 0x1000) R_JPEG_IO_FLAGS; RegDecl "REG_0x1004" (RScalar 0x1004) Register32;
   RegDecl "REG_0x1008" (RScalar 0x1008) Register32; RegDecl "QTBL_SEL" (RScalar 0x100c) R_QTBL_SEL;
   RegDecl "HUFFMAN_TABLE" (RScalar 0x1010) Register32; RegDecl "RST_INTERVAL" (RScalar 0x1014) Register32;
   RegDecl "JPEG_HEIGHT" (RScalar 0x1018) Register32; RegDecl "JPEG_WIDTH" (RScalar 0x101c) Register32;
   RegDecl "COMPRESSED_BYTES" (RScalar 0x1020) Register32;
   RegDecl "JPEG_OUTPUT_FLAGS" (RScalar 0x1024) R_JPEG_OUTPUT_FLAGS;
   RegDecl "REG_0x1028" (RScalar 0x1028) Register32; RegDecl "REG_0x102c" (RScalar 0x102c) Register32;
   RegDecl "BITSTREAM_CORRUPTION" (RScalar 0x1030) Register32;
   RegDecl "REG_0x1080" (RScalar 0x1080) Register32; RegDecl "REG_0x1084" (RScalar 0x1084) Register32;
   RegDecl "REG_0x108c" (RScalar 0x108c) Register32; RegDecl "REG_0x1090" (RScalar 0x1090) Register32;
   RegDecl "SHIKINO_VERSION_MAGIC0" (RScalar 0x10e0) Register32;
   RegDecl "SHIKINO_VERSION_MAGIC1" (RScalar 0x10e4) Register32;
   RegDecl "SHIKINO_VERSION_MAGIC2" (RScalar 0x10e8) Register32;
   RegDecl "SHIKINO_VERSION_MAGIC3" (RScalar 0x10ec) Register32;
   RegDecl "SHIKINO_VERSION_MAGIC4" (RScalar 0x10f0) Register32;
   RegDecl "QTBL" (RArray [irange 0x1100 0x40 4]) Register32;
   RegDecl "RSTLOG" (RArray [irange 0x2000 0x400 4]) Register32].

(** ** hw/mca.py *)
Definition MCAClusterRegs : list reg_decl :=
  [RegDecl "MCLK_STATUS" (RScalar 0) R_STATUS_mca; RegDecl "MCLK_CONF" (RScalar 4) R_MCLK_CONF;
   RegDecl "SYNCGEN_STATUS" (RScalar 0x100) R_STATUS_mca;
   RegDecl "SYNCGEN_MCLK_SEL" (RScalar 0x104) Register32;
   RegDecl "SYNCGEN_HI_PERIOD" (RScalar 0x108) Register32;
   RegDecl "SYNCGEN_LO_PERIOD" (RScalar 0x10c) Register32;
   RegDecl "PORT_ENABLES" (RScalar 0x600) R_PORT_ENABLES; RegDecl "PORT_CLK_SEL" (RScalar 0x604) R_PORT_CLKSEL;
   RegDecl "PORT_DATA_SEL" (RScalar 0x608) R_PORT_DATASEL; RegDecl "INTSTATE" (RScalar 0x700) R_INTMASK;
   RegDecl "INTMASK" (RScalar 0x704) R_INTMASK].
Definition MCATXSerdesRegs : list reg_decl :=
  [RegDecl "STATUS" (RScalar 0) R_STATUS_mca; RegDecl "CONF" (RScalar 4) R_SERDES_CONF;
   RegDecl "BITDELAY" (RScalar 8) Register32; RegDecl "CHANMASK" (RArray [irange 0xc 4 4]) Register32].
Definition MCARXSerdesRegs : list reg_decl :=
  [RegDecl "STATUS" (RScalar 0) R_STATUS_mca; RegDecl "UNK1" (RScalar 4) Register32;
   RegDecl "CONF" (RScalar 8) R_SERDES_CONF; RegDecl "BITDELAY" (RScalar 0xc) Register32;
   RegDecl "CHANMASK" (RArray [irange 0x10 4 4]) Register32].

(** ** hw/pmgr.py *)
Definition PMGRRegs0 : list reg_decl :=
  [RegDecl "PS3" (RArray [irange 0 0xa 8]) R_PSTATE; RegDecl "PS4" (RArray [irange 0x200 0x20 8]) R_PSTATE;
   RegDecl "PS5" (RArray [irange 0x300 0x20 8]) R_PSTATE; RegDecl "PS6" (RArray [irange 0xc00 2 8]) R_PSTATE;
   RegDecl "PS7" (RArray [irange 0x4000 0xd 8]) R_PSTATE; RegDecl "PS8" (RArray [irange 0x8000 5 8]) R_PSTATE;
   RegDecl "PS9" (RArray [irange 0xc000 7 8]) R_PSTATE;
   RegDecl "PS10" (RArray [irange 0x10000 0xa 8]) R_PSTATE;
   RegDecl "PS11" (RArray [irange 0x100 0x20 8]) R_PSTATE;
   RegDecl "PS12" (RArray [irange 0x400 0xf 8]) R_PSTATE;
   RegDecl "PG1" (RArray [irange 0x1c010 0x10 8]) R_PWRGATE;
   RegDecl "PG1CFG" (RArray [irange 0x1c090 0x45 0x18; irange 0 6 4]) Register32;
   RegDecl "CPUTVM0" (RScalar 0x48000) Register32; RegDecl "CPUTVM1" (RScalar 0x48c00) Register32;
   RegDecl "CPUTVM2" (RScalar 0x48800) Register32; RegDecl "CPUTVM3" (RScalar 0x48400) Register32].
Definition PMGRRegs1 : list reg_decl :=
  [RegDecl "PS0" (RArray [irange 0x58 0x20 8]) R_PSTATE;
   RegDecl "PS1" (RArray [irange 0x4000 0x20 8]) R_PSTATE;
   RegDecl "PS2" (RArray [irange 0x8000 0x20 8]) R_PSTATE;
   RegDecl "PG0" (RArray [irange 0x1c010 0x20 8]) R_PWRGATE].
Definition PMGRRegs2 : list reg_decl :=
  [RegDecl "CLK_CFG0" (RArray [irange 0x40000 0x56 4]) R_CLK_CFG;
   RegDecl "CLK_CFG1" (RArray [irange 0x40200 8 4]) R_CLK_CFG;
   RegDecl "CLK_CFG2" (RArray [irange 0x40280 2 4]) R_CLK_CFG].

(** ** hw/prores.py *)
Definition ProResRegs : list reg_decl :=
  [RegDecl "REG_0x0" (RScalar 0) Register32; RegDecl "MODE" (RScalar 8) Register32;
   RegDecl "IRQ_ENABLE" (RScalar 0xc) Register32; RegDecl "IRQ_STATUS" (RScalar 0x10) Register32;
   RegDecl "ST0" (RScalar 0x14) Register32; RegDecl "ST1" (RScalar 0x18) Register32;
   RegDecl "REG_0x1c" (RScalar 0x1c) Register32; RegDecl "REG_0x38" (RScalar 0x38) Register32;
   RegDecl "REG_0x3c" (RScalar 0x3c) Register32; RegDecl "REG_0x40" (RScalar 0x40) Register32;
   RegDecl "REG_0x44" (RScalar 0x44) Register32; RegDecl "REG_0x48" (RScalar 0x48) Register32;
   RegDecl "REG_0x4c" (RScalar 0x4c) Register32; RegDecl "REG_0x50" (RScalar 0x50) Register32;
   RegDecl "REG_0x54" (RScalar 0x54) Register32; RegDecl "DR_SIZE" (RScalar 0x100) Register32;
   RegDecl "DR_ADDR_LO" (RScalar 0x104) Register32; RegDecl "DR_ADDR_HI" (RScalar 0x108) Register32;
   RegDecl "DR_HEAD" (RScalar 0x10c) Register32; RegDecl "DR_TAIL" (RScalar 0x110) Register32;
   RegDecl "REG_0x114" (RScalar 0x114) Register32; RegDecl "REG_0x118" (RScalar 0x118) Register32;
   RegDecl "REG_0x134" (RScalar 0x134) Register32; RegDecl "REG_0x144" (RScalar 0x144) Register32;
   RegDecl "REG_0x148" (RScalar 0x148) Register32; RegDecl "REG_0x160" (RScalar 0x160) Register32;
   RegDecl "REG_0x164" (RScalar 0x164) Register32; RegDecl "REG_0x170" (RScalar 0x170) Register32;
   RegDecl "REG_0x174" (RScalar 0x174) Register32; RegDecl "REG_0x180" (RScalar 0x180) Register32;
   RegDecl "REG_0x184" (RScalar 0x184) Register32; RegDecl "REG_0x190" (RScalar 0x190) Register32;
   RegDecl "REG_0x194" (RScalar 0x194) Register32; RegDecl "REG_0x198" (RScalar 0x198) Register32;
   RegDecl "REG_0x1a0" (RScalar 0x1a0) Register32; RegDecl "REG_0x1a4" (RScalar 0x1a4) Register32;
   RegDecl "REG_0x1a8" (RScalar 0x1a8) Register32; RegDecl "REG_0x1b0" (RScalar 0x1b0) Register32;
   RegDecl "REG_0x1b4" (RScalar 0x1b4) Register32; RegDecl "REG_0x1b8" (RScalar 0x1b8) Register32;
   RegDecl "REG_0x1c0" (RScalar 0x1c0) Register32; RegDecl "REG_0x1c4" (RScalar 0x1c4) Register32;
   RegDecl "REG_0x1c8" (RScalar 0x1c8) Register32; RegDecl "REG_0x1d0" (RScalar 0x1d0) Register32;
   RegDecl "REG_0x1d4" (RScalar 0x1d4) Register32; RegDecl "REG_0x1d8" (RScalar 0x1d8) Register32;
   RegDecl "REG_0x1dc" (RScalar 0x1dc) Register32; RegDecl "REG_0x1ec" (RScalar 0x1ec) Register32;
   RegDecl "REG_0x270" (RScalar 0x270) Register32; RegDecl "REG_0x274" (RScalar 0x274) Register32;
   RegDecl "REG_0x278" (RScalar 0x278) Register32; RegDecl "REG_0x27c" (RScalar 0x27c) Register32;
   RegDecl "REG_0x280" (RScalar 0x280) Register32; RegDecl "REG_0x284" (RScalar 0x284) Register32;
   RegDecl "REG_0x28c" (RScalar 0x28c) Register32; RegDecl "REG_0x290" (RScalar 0x290) Register32;
   RegDecl "REG_0x294" (RScalar 0x294) Register32; RegDecl "REG_0x298" (RScalar 0x298) Register32;
   RegDecl "REG_0x2a0" (RScalar 0x2a0) Register32; RegDecl "REG_0x2a4" (RScalar 0x2a4) Register32;
   RegDecl "REG_0x2a8" (RScalar 0x2a8) Register32; RegDecl "REG_0x2b0" (RScalar 0x2b0) Register32;
   RegDecl "REG_0x2b4" (RScalar 0x2b4) Register32; RegDecl "REG_0x2b8" (RScalar 0x2b8) Register32;
   RegDecl "REG_0x2c0" (RScalar 0x2c0) Register32; RegDecl "REG_0x2c4" (RScalar 0x2c4) Register32;
   RegDecl "REG_0x2c8" (RScalar 0x2c8) Register32; RegDecl "REG_0x2d0" (RScalar 0x2d0) Register32;
   RegDecl "REG_0x2d4" (RScalar 0x2d4) Register32; RegDecl "REG_0x2d8" (RScalar 0x2d8) Register32;
   RegDecl "REG_0x2dc" (RScalar 0x2dc) Register32; RegDecl "REG_0x2e0" (RScalar 0x2e0) Register32;
   RegDecl "REG_0x2f0" (RScalar 0x2f0) Register32; RegDecl "REG_0x2f8" (RScalar 0x2f8) Register32;
   RegDecl "REG_0x2fc" (RScalar 0x2fc) Register32; RegDecl "REG_0x300" (RScalar 0x300) Register32;
   RegDecl "REG_0x304" (RScalar 0x304) Register32; RegDecl "REG_0x308" (RScalar 0x308) Register32;
   RegDecl "REG_0x318" (RScalar 0x318) Register32; RegDecl "REG_0x320" (RScalar 0x320) Register32;
   RegDecl "REG_0x324" (RScalar 0x324) Register32; RegDecl "REG_0x328" (RScalar 0x328) Register32;
   RegDecl "REG_0x32c" (RScalar 0x32c) Register32; RegDecl "REG_0x330" (RScalar 0x330) Register32;
   RegDecl "REG_0x340" (RScalar 0x340) Register32; RegDecl "REG_0x350" (RScalar 0x350) Register32;
   RegDecl "REG_0x354" (RScalar 0x354) Register32; RegDecl "REG_0x358" (RScalar 0x358) Register32;
   RegDecl "REG_0x35c" (RScalar 0x35c) Register32; RegDecl "REG_0x360" (RScalar 0x360) Register32;
   RegDecl "REG_0x364" (RScalar 0x364) Register32; RegDecl "REG_0x368" (RScalar 0x368) Register32;
   RegDecl "REG_0x370" (RScalar 0x370) Register32; RegDecl "REG_0x374" (RScalar 0x374) Register32;
   RegDecl "QUANT_LUMA_EHQ" (RArray [irange 0x800 0x20 4]) Register32;
   RegDecl "QUANT_LUMA_HQ" (RArray [irange 0x880 0x20 4]) Register32;
   RegDecl "QUANT_LUMA_NQ" (RArray [irange 0x900 0x20 4]) Register32;
   RegDecl "QUANT_LUMA_LT" (RArray [irange 0x980 0x20 4]) Register32;
   RegDecl "QUANT_LUMA_PROXY" (RArray [irange 0xa00 0x20 4]) Register32;
   RegDecl "QUANT_CHROMA_EHQ" (RArray [irange 0x1000 0x20 4]) Register32;
   RegDecl "QUANT_CHROMA_HQ" (RArray [irange 0x1080 0x20 4]) Register32;
   RegDecl "QUANT_CHROMA_NQ" (RArray [irange 0x1100 0x20 4]) Register32;
   RegDecl "QUANT_CHROMA_LT" (RArray [irange 0x1180 0x20 4]) Register32;
   RegDecl "QUANT_CHROMA_PROXY" (RArray [irange 0x1200 0x20 4]) Register32;
   RegDecl "DC_QUANT_SCALE" (RArray [irange 0x1800 0x70 4]) Register32;
   RegDecl "REG_0x19c0" (RScalar 0x19c0) Register32; RegDecl "REG_0x19c4" (RScalar 0x19c4) Register32;
   RegDecl "REG_0x19c8" (RScalar 0x19c8) Register32; RegDecl "REG_0x19cc" (RScalar 0x19cc) Register32;
   RegDecl "REG_0x19d0" (RScalar 0x19d0) Register32; RegDecl "REG_0x19d4" (RScalar 0x19d4) Register32;
   RegDecl "REG_0x19d8" (RScalar 0x19d8) Register32; RegDecl "REG_0x19dc" (RScalar 0x19dc) Register32;
   RegDecl "REG_0x1A00" (RScalar 0x1a00) Register32].

(** ** hw/scaler.py *)
Definition ScalerMainRegs : list reg_decl :=
  [RegDecl "HW_VERSION" (RScalar 0) Register32; RegDecl "RESET" (RScalar 4) Register32;
   RegDecl "RESET_APIODMA_RELATED" (RScalar 8) Register32; RegDecl "IS_RUNNING" (RScalar 0xc) Register32;
   RegDecl "REG_0x10" (RScalar 0x10) Register32;
   RegDecl "REGISTER_FIFO_AVAILABILITY" (RScalar 0x14) Register32; RegDecl "IRQ_ENABLE" (RScalar 0x18) R_IRQS;
   RegDecl "MSR_GLBL_IRQSTS" (RScalar 0x1c) R_IRQS; RegDecl "FRAME_COUNT" (RScalar 0x20) Register32;
   RegDecl "REG_0x58" (RScalar 0x58) Register32; RegDecl "REG_0x74" (RScalar 0x74) Register32;
   RegDecl "START" (RScalar 0x80) Register32; RegDecl "REG_0x84" (RScalar 0x84) Register32;
   RegDecl "REG_0x88" (RScalar 0x88) Register32; RegDecl "REG_0x8c" (RScalar 0x8c) Register32;
   RegDecl "REG_0x98" (RScalar 0x98) Register32; RegDecl "MSR_CTRL_DBGSTS" (RScalar 0x9c) Register32;
   RegDecl "REG_0xa0" (RScalar 0xa0) Register32; RegDecl "PROFILING_RELATED" (RScalar 0xa4) Register32;
   RegDecl "PIXEL_AVERAGING" (RScalar 0xe4) Register32; RegDecl "TRANSFORM_ID" (RScalar 0x110) Register32;
   RegDecl "RDMA_THING0" (RScalar 0x180) Register32; RegDecl "RDMA_THING1" (RScalar 0x184) Register32;
   RegDecl "RDMA_THING2" (RScalar 0x188) Register32; RegDecl "RDMA_THING3" (RScalar 0x18c) Register32;
   RegDecl "RDMA_THING4" (RScalar 0x190) Register32; RegDecl "SRC_PLANE0_LO" (RScalar 0x198) Register32;
   RegDecl "SRC_PLANE0_HI" (RScalar 0x19c) Register32; RegDecl "SRC_PLANE1_LO" (RScalar 0x1a0) Register32;
   RegDecl "SRC_PLANE1_HI" (RScalar 0x1a4) Register32; RegDecl "SRC_PLANE2_LO" (RScalar 0x1a8) Register32;
   RegDecl "SRC_PLANE2_HI" (RScalar 0x1ac) Register32;
   RegDecl "SRC_PLANE0_COMPRESSEDTHING_LO" (RScalar 0x1b8) Register32;
   RegDecl "SRC_PLANE0_COMPRESSEDTHING_HI" (RScalar 0x1bc) Register32;
   RegDecl "SRC_PLANE1_COMPRESSEDTHING_LO" (RScalar 0x1c0) Register32;
   RegDecl "SRC_PLANE1_COMPRESSEDTHING_HI" (RScalar 0x1c4) Register32;
   RegDecl "SRC_PLANE2_COMPRESSEDTHING_LO" (RScalar 0x1c8) Register32;
   RegDecl "SRC_PLANE2_COMPRESSEDTHING_HI" (RScalar 0x1cc) Register32;
   RegDecl "SRC_PLANE0_STRIDE" (RScalar 0x1d8) Register32;
   RegDecl "SRC_PLANE1_STRIDE" (RScalar 0x1dc) Register32;
   RegDecl "SRC_PLANE2_STRIDE" (RScalar 0x1e0) Register32;
   RegDecl "SRC_PLANE0_OFFSET" (RScalar 0x1e8) Register32;
   RegDecl "SRC_PLANE1_OFFSET" (RScalar 0x1ec) Register32;
   RegDecl "SRC_PLANE2_OFFSET" (RScalar 0x1f0) Register32; RegDecl "SRC_SWIZZLE" (RScalar 0x1f8) Register32;
   RegDecl "SRC_W" (RScalar 0x1fc) Register32; RegDecl "SRC_H" (RScalar 0x200) Register32;
   RegDecl "CACHE_HINTS_THING0" (RArray [irange 0x204 4 4]) Register32;
   RegDecl "CACHE_HINTS_THING1" (RArray [irange 0x214 4 4]) Register32;
   RegDecl "TUNABLES_THING0" (RArray [irange 0x224 4 4]) Register32;
   RegDecl "SRC_SIZE_THING2" (RScalar 0x234) Register32; RegDecl "SRC_SIZE_THING3" (RScalar 0x238) Register32;
   RegDecl "SRC_SIZE_THING4" (RScalar 0x23c) Register32; RegDecl "SRC_SIZE_THING5" (RScalar 0x244) Register32;
   RegDecl "SRC_SIZE_THING6" (RScalar 0x248) Register32; RegDecl "SRC_SIZE_THING7" (RScalar 0x24c) Register32;
   RegDecl "WDMA_THING0" (RScalar 0x280) Register32; RegDecl "WDMA_THING1" (RScalar 0x284) Register32;
   RegDecl "WDMA_THING2" (RScalar 0x288) Register32; RegDecl "WDMA_THING3" (RScalar 0x28c) Register32;
   RegDecl "DST_PLANE0_LO" (RScalar 0x290) Register32; RegDecl "DST_PLANE0_HI" (RScalar 0x294) Register32;
   RegDecl "DST_PLANE1_LO" (RScalar 0x298) Register32; RegDecl "DST_PLANE1_HI" (RScalar 0x29c) Register32;
   RegDecl "DST_PLANE2_LO" (RScalar 0x2a0) Register32; RegDecl "DST_PLANE2_HI" (RScalar 0x2a4) Register32;
   RegDecl "DST_PLANE0_COMPRESSEDTHING_LO" (RScalar 0x2a8) Register32;
   RegDecl "DST_PLANE0_COMPRESSEDTHING_HI" (RScalar 0x2ac) Register32;
   RegDecl "DST_PLANE1_COMPRESSEDTHING_LO" (RScalar 0x2b0) Register32;
   RegDecl "DST_PLANE1_COMPRESSEDTHING_HI" (RScalar 0x2b4) Register32;
   RegDecl "DST_PLANE2_COMPRESSEDTHING_LO" (RScalar 0x2b8) Register32;
   RegDecl "DST_PLANE2_COMPRESSEDTHING_HI" (RScalar 0x2bc) Register32;
   RegDecl "DST_PLANE0_STRIDE" (RScalar 0x2c0) Register32;
   RegDecl "DST_PLANE1_STRIDE" (RScalar 0x2c4) Register32;
   RegDecl "DST_PLANE2_STRIDE" (RScalar 0x2c8) Register32;
   RegDecl "DST_PLANE0_OFFSET" (RScalar 0x2cc) Register32;
   RegDecl "DST_PLANE1_OFFSET" (RScalar 0x2d0) Register32;
   RegDecl "DST_PLANE2_OFFSET" (RScalar 0x2d4) Register32; RegDecl "DST_SWIZZLE" (RScalar 0x2d8) Register32;
   RegDecl "DST_W" (RScalar 0x2dc) Register32; RegDecl "DST_H" (RScalar 0x2e0) Register32;
   RegDecl "CACHE_HINTS_THING2" (RArray [irange 0x2e4 3 4]) Register32;
   RegDecl "CACHE_HINTS_THING3" (RArray [irange 0x2f0 3 4]) Register32;
   RegDecl "TUNABLES_THING1" (RArray [irange 0x2fc 3 4]) Register32;
   RegDecl "DST_SIZE_THING2" (RScalar 0x308) Register32; RegDecl "DST_SIZE_THING3" (RScalar 0x30c) Register32;
   RegDecl "DST_SIZE_THING4" (RScalar 0x310) Register32; RegDecl "DST_SIZE_THING5" (RScalar 0x314) Register32;
   RegDecl "DST_SIZE_THING6" (RScalar 0x318) Register32; RegDecl "DST_SIZE_THING7" (RScalar 0x31c) Register32;
   RegDecl "FLIP_ROTATE" (RScalar 0x380) R_FLIP_ROTATE;
   RegDecl "PSEUDO_LINEAR_SCALING" (RScalar 0x480) Register32;
   RegDecl "SCALE_V_FLAGS" (RScalar 0x1000) R_SCALE_FLAGS;
   RegDecl "SCALE_V_DDA_THING0" (RScalar 0x1004) Register32;
   RegDecl "SCALE_V_DDA_THING1" (RScalar 0x1008) Register32;
   RegDecl "SCALE_V_RATIO_0" (RScalar 0x100c) Register32;
   RegDecl "SCALE_V_RATIO_1" (RScalar 0x1010) Register32;
   RegDecl "SCALE_V_RATIO_2" (RScalar 0x1014) Register32;
   RegDecl "SCALE_V_RATIO_3" (RScalar 0x1018) Register32;
   RegDecl "SCALE_V_DDA_THING2" (RScalar 0x101c) Register32;
   RegDecl "SCALE_V_RATIO_4" (RScalar 0x1020) Register32;
   RegDecl "SCALE_V_RATIO_5" (RScalar 0x1024) Register32;
   RegDecl "SCALE_FILTER_V_BLOCK0" (RArray [irange 0x1400 0x120 4]) Register32;
   RegDecl "SCALE_FILTER_V_BLOCK1" (RArray [irange 0x1c00 0x90 4]) Register32;
   RegDecl "SCALE_H_FLAGS" (RScalar 0x2000) R_SCALE_FLAGS;
   RegDecl "SCALE_H_DDA_THING0" (RScalar 0x2004) Register32;
   RegDecl "SCALE_H_DDA_THING1" (RScalar 0x2008) Register32;
   RegDecl "SCALE_H_RATIO_0" (RScalar 0x200c) Register32;
   RegDecl "SCALE_H_RATIO_1" (RScalar 0x2010) Register32;
   RegDecl "SCALE_H_RATIO_2" (RScalar 0x2014) Register32;
   RegDecl "SCALE_H_RATIO_3" (RScalar 0x2018) Register32;
   RegDecl "SCALE_H_DDA_THING2" (RScalar 0x201c) Register32;
   RegDecl "SCALE_H_RATIO_4" (RScalar 0x2020) Register32;
   RegDecl "SCALE_H_RATIO_5" (RScalar 0x2024) Register32;
   RegDecl "SCALE_FILTER_H_BLOCK0" (RArray [irange 0x2400 0x1e0 4]) Register32;
   RegDecl "SCALE_FILTER_H_BLOCK1" (RArray [irange 0x2c00 0xf0 4]) Register32].

(** ** hw/spi.py *)
Definition SPIRegs : list reg_decl :=
  [RegDecl "CTRL" (RScalar 0) R_CTRL; RegDecl "CFG" (RScalar 4) R_CFG;
   RegDecl "STATUS" (RScalar 8) R_STATUS_spi; RegDecl "PIN" (RScalar 0xc) R_PIN;
   RegDecl "TXDATA" (RScalar 0x10) Register32; RegDecl "RXDATA" (RScalar 0x20) Register32;
   RegDecl "CLKDIV" (RScalar 0x30) R_CLKDIV; RegDecl "RXCNT" (RScalar 0x34) Register32;
   RegDecl "INTER_DELAY" (RScalar 0x38) R_INTER_DELAY; RegDecl "TXCNT" (RScalar 0x4c) Register32;
   RegDecl "FIFOSTAT" (RScalar 0x10c) R_FIFOSTAT; RegDecl "IE_XFER" (RScalar 0x130) R_IRQ_XFER;
   RegDecl "IF_XFER" (RScalar 0x134) R_IRQ_XFER; RegDecl "IE_FIFO" (RScalar 0x138) R_IRQ_FIFO;
   RegDecl "IF_FIFO" (RScalar 0x13c) R_IRQ_FIFO; RegDecl "SHIFTCFG" (RScalar 0x150) R_SHIFTCFG;
   RegDecl "PINCFG" (RScalar 0x154) R_PINCFG; RegDecl "DELAY_PRE" (RScalar 0x160) R_DELAY;
   RegDecl "SCKCFG" (RScalar 0x164) R_SCKCFG; RegDecl "DELAY_POST" (RScalar 0x168) R_DELAY;
   RegDecl "SCKPHASES" (RScalar 0x180) R_SCKPHASES; RegDecl "UNK_PHASE" (RScalar 0x18c) Register32;
   RegDecl "XFSTATUS" (RScalar 0x1c0) R_XFSTATUS; RegDecl "DIVSTATUS" (RScalar 0x1e0) R_DIVSTATUS].

(** ** hw/spmi1.py *)
Definition SPMI1Regs : list reg_decl :=
  [RegDecl "STATUS" (RScalar 0) R_STATUS_spmi1; RegDecl "CMD" (RScalar 4) R_CMD;
   RegDecl "REPLY" (RScalar 8) R_REPLY; RegDecl "BUS_EVENTS_0_MASK" (RScalar 0x20) Register32;
   RegDecl "BUS_EVENTS_1_MASK" (RScalar 0x24) Register32;
   RegDecl "BUS_EVENTS_2_MASK" (RScalar 0x28) Register32;
   RegDecl "BUS_EVENTS_3_MASK" (RScalar 0x2c) Register32;
   RegDecl "BUS_EVENTS_4_MASK" (RScalar 0x30) Register32;
   RegDecl "BUS_EVENTS_5_MASK" (RScalar 0x34) Register32;
   RegDecl "BUS_EVENTS_6_MASK" (RScalar 0x38) Register32;
   RegDecl "BUS_EVENTS_7_MASK" (RScalar 0x3c) Register32; RegDecl "IRQ_MASK" (RScalar 0x40) IRQs;
   RegDecl "BUS_EVENTS_0_FLAG" (RScalar 0x60) Register32;
   RegDecl "BUS_EVENTS_1_FLAG" (RScalar 0x64) Register32;
   RegDecl "BUS_EVENTS_2_FLAG" (RScalar 0x68) Register32;
   RegDecl "BUS_EVENTS_3_FLAG" (RScalar 0x6c) Register32;
   RegDecl "BUS_EVENTS_4_FLAG" (RScalar 0x70) Register32;
   RegDecl "BUS_EVENTS_5_FLAG" (RScalar 0x74) Register32;
   RegDecl "BUS_EVENTS_6_FLAG" (RScalar 0x78) Register32;
   RegDecl "BUS_EVENTS_7_FLAG" (RScalar 0x7c) Register32; RegDecl "IRQ_FLAG" (RScalar 0x80) IRQs;
   RegDecl "CONFIG1" (RScalar 0xa0) Register32; RegDecl "ACTION1" (RScalar 0xa4) R_ACTION;
   RegDecl "CURSORS" (RScalar 0xb0) R_CURSORS; RegDecl "PEEK_POS" (RScalar 0xb4) R_PEEK_POS;
   RegDecl "PEEK_VALUE" (RScalar 0xb8) Register32; RegDecl "STATUS_2" (RScalar 0xbc) Register32].

(** ** hw/spmi4.py *)
Definition SPMI4Regs : list reg_decl :=
  [RegDecl "STATUS" (RScalar 0x200) R_STATUS_spmi4; RegDecl "CMD" (RScalar 0x210) R_CMD;
   RegDecl "REPLY" (RScalar 0x220) R_REPLY].

Definition register_maps : list (string * list reg_decl) :=
  [("ADMACRegs", ADMACRegs); ("AESRegs", AESRegs); ("SGXRegs", SGXRegs); ("SGXRegsT602X", SGXRegsT602X);
   ("SGXInfoRegs", SGXInfoRegs); ("ANERegs", ANERegs); ("TaskQueue", TaskQueue); ("TMRegs", TMRegs);
   ("ASCRegs", ASCRegs); ("Usb2PhyRegs", Usb2PhyRegs); ("AtcPhyRegs", AtcPhyRegs);
   ("TAS5770Regs", TAS5770Regs); ("SN012776Regs", SN012776Regs); ("CS42L84Regs", CS42L84Regs);
   ("SSM3515Regs", SSM3515Regs); ("DART8020Regs", DART8020Regs); ("DART8110Regs", DART8110Regs);
   ("DockChannelIRQRegs", DockChannelIRQRegs); ("DockChannelConfigRegs", DockChannelConfigRegs);
   ("DockChannelDataRegs", DockChannelDataRegs); ("XhciRegs", XhciRegs); ("Dwc3CoreRegs", Dwc3CoreRegs);
   ("PipehandlerRegs", PipehandlerRegs); ("I2CRegs", I2CRegs); ("ISPRegs", ISPRegs); ("ISPPSRegs", ISPPSRegs);
   ("JPEGRegs", JPEGRegs); ("MCAClusterRegs", MCAClusterRegs); ("MCATXSerdesRegs", MCATXSerdesRegs);
   ("MCARXSerdesRegs", MCARXSerdesRegs); ("PMGRRegs0", PMGRRegs0); ("PMGRRegs1", PMGRRegs1);
   ("PMGRRegs2", PMGRRegs2); ("ProResRegs", ProResRegs); ("ScalerMainRegs", ScalerMainRegs);
   ("SPIRegs", SPIRegs); ("SPMI1Regs", SPMI1Regs); ("SPMI4Regs", SPMI4Regs)].

(** ** From a class body to the class tables *)

(** A name declared again replaces its value and keeps its position. *)
Fixpoint decl_put (d : reg_decl) (l : list reg_decl) : list reg_decl :=
  match l with
  | [] => [d]
  | e :: r => if String.eqb (rd_name d) (rd_name e) then d :: r else e :: decl_put d r
  end.
Definition class_dict (ds : list reg_decl) : list reg_decl := fold_left (fun l d => decl_put d l) ds [].

Definition map_class (ds : list reg_decl) : result reg_map := reg_map_build (class_dict ds) reg_map_empty.

(** The scalar registers declared at one and the same offset. *)
Definition shared_offsets : list (string * string) :=
  [("I2CRegs", "STXFIFO"); ("I2CRegs", "SRXFIFO"); ("ISPRegs", "ISP_IRQ_ENABLE_T6031"); ("ISPRegs", "ISP_IRQ_INTERRUPT_1")].

(** ** Every declaration can be built *)

Definition range_checkb (min_step : Z) (r : prange) : bool :=
  (0 <? pr_step r) && (pr_start r <? pr_stop r) && ((pr_step r =? 1) || (min_step <=? pr_step r)).

(** The array spans less than 2^63 addresses, as [len] of its range needs. *)
Definition nd_shortb (min_step : Z) (rs : list prange) : bool :=
  match nd_steps min_step (match rs with r :: _ => pr_step r | [] => 0 end) rs with
  | Ok (l, least) => match sum_results pr_first l, sum_results pr_last l with Ok a, Ok b => b + least - a <? 2 ^ 63 | _, _ => false end
  | Raise _ => false
  end.

Definition decl_checkb (d : reg_decl) : bool :=
  width_checkb (rc_width (rd_cls d)) &&
  match rd_addr d with
  | RScalar _ => true
  | RArray rs => negb (Nat.eqb (length rs) 0) && forallb (range_checkb (rc_width (rd_cls d) / 8)) rs && nd_shortb (rc_width (rd_cls d) / 8) rs
  end.

Lemma nd_steps_total ms rs : 0 < ms -> forallb (range_checkb ms) rs = true -> forall least,
  exists l least', nd_steps ms least rs = Ok (l, least') /\
    Forall (fun r => 0 < pr_step r /\ pr_start r < pr_stop r) l.
Proof.
  intros Hm. induction rs as [|r rs IH]; intros Hc least; [by exists [], least|].
  simpl in Hc. apply andb_true_iff in Hc as [Hr Hc]. unfold range_checkb in Hr. zbool. cbn [nd_steps].
  destruct (Z.eqb_spec (pr_step r) 1) as [E1|E1].
  - destruct (IH Hc ms) as (l & least' & -> & Hl). cbn [rbind].
    eexists _, _. split; [done|]. constructor; [simpl; lia|done].
  - destruct (Z.ltb_spec (pr_step r) ms) as [Hlt|Hge].
    { match goal with H : _ || _ = true |- _ => apply orb_true_iff in H as [H|H] end; zbool; lia. }
    destruct (IH Hc (Z.min least (pr_step r))) as (l & least' & -> & Hl). cbn [rbind].
    eexists _, _. split; [done|]. by constructor.
Qed.

Lemma pr_len_pos r : 0 < pr_step r -> pr_start r < pr_stop r -> pr_len r <> O.
Proof.
  intros Hs Hl. unfold pr_len. rewrite (proj2 (Z.ltb_lt _ _) Hl).
  pose proof (Z.div_pos (pr_stop r - pr_start r - 1) (pr_step r) ltac:(lia) Hs). lia.
Qed.

Lemma sum_results_total (f : prange -> result Z) l :
  Forall (fun r => exists a, f r = Ok a) l -> exists s, sum_results f l = Ok s.
Proof.
  induction 1 as [|r l [a Ha] _ [s Hs]]; [by exists 0|]. cbn [sum_results]. rewrite Ha. cbn [rbind]. rewrite Hs.
  by eexists.
Qed.

Lemma nd_init_total ms rs : 0 < ms -> rs <> [] -> forallb (range_checkb ms) rs = true -> exists nd, nd_init rs ms = Ok nd.
Proof.
  intros Hm Hne Hc. unfold nd_init. destruct rs as [|r0 rs]; [done|].
  destruct (nd_steps_total ms (r0 :: rs) Hm Hc (pr_step r0)) as (l & least & -> & Hl). cbn [rbind].
  assert (Hf : Forall (fun r => exists a, pr_first r = Ok a) l).
  { eapply Forall_impl; [exact Hl|]. intros r [H1 H2]. unfold pr_first. pose proof (pr_len_pos r H1 H2).
    destruct (Nat.eqb_spec (pr_len r) 0); [lia|by eexists]. }
  assert (Hla : Forall (fun r => exists a, pr_last r = Ok a) l).
  { eapply Forall_impl; [exact Hl|]. intros r [H1 H2]. unfold pr_last. pose proof (pr_len_pos r H1 H2).
    destruct (Nat.eqb_spec (pr_len r) 0); [lia|by eexists]. }
  destruct (sum_results_total _ _ Hf) as [a ->], (sum_results_total _ _ Hla) as [b ->]. by eexists.
Qed.

Lemma nd_shortb_ok ms rs nd : nd_shortb ms rs = true -> nd_init rs ms = Ok nd -> too_long (ZRange (nd_start nd) (nd_stop nd)) = false.
Proof.
  unfold nd_shortb, nd_init. destruct rs as [|r rs]; [done|]. destruct (nd_steps _ _ _) as [[l least]|]; [|done]. cbn [rbind].
  destruct (sum_results pr_first l); [|done]. destruct (sum_results pr_last l); [|done]. cbn [rbind]. intros H%Z.ltb_lt [= <-].
  unfold too_long. cbn. by apply Z.leb_gt.
Qed.

Lemma decl_checkb_ok d : decl_checkb d = true -> decl_ok d.
Proof.
  unfold decl_checkb, decl_ok. intros [Hw Ha]%andb_true_iff. split; [by apply width_checkb_ok|].
  destruct (rd_addr d) as [a|rs]; [done|]. apply andb_true_iff in Ha as [[_ Ha]%andb_true_iff _]. apply List.Forall_forall. intros r Hr.
  rewrite forallb_forall in Ha. specialize (Ha r Hr). unfold range_checkb in Ha. zbool. done.
Qed.

Lemma reg_map_add_total d m : decl_checkb d = true -> map_wf m -> exists m', reg_map_add d m = Ok m'.
Proof.
  intros Hc Hm. pose proof (decl_checkb_ok d Hc) as [Hw Hsp]. unfold decl_checkb in Hc. apply andb_true_iff in Hc as [_ Ha].
  unfold reg_map_add. destruct (rd_addr d) as [a|rs]; [by eexists|]. apply andb_true_iff in Ha as [[Hne Ha]%andb_true_iff Hsh].
  assert (Hms : 0 < rc_width (rd_cls d) / 8) by (destruct Hw as [->|[->|[->| ->]]]; by vm_compute).
  destruct (nd_init_total _ rs Hms) as [nd En]; [by destruct rs|done|]. rewrite En. cbn [rbind].
  pose proof (nd_shortb_ok _ _ _ Hsh En) as Hse.
  destruct (set_add_pointwise (ZRange (nd_start nd) (nd_stop nd)) (length (rg_arrays m)) (rg_rngmap m) Hse (mw_rng _ Hm))
    as (rng & -> & _). by eexists.
Qed.

Lemma reg_map_build_total ds : forallb decl_checkb ds = true -> forall m, map_wf m -> exists m', reg_map_build ds m = Ok m'.
Proof.
  induction ds as [|d ds IH]; intros Hc m Hm; [by eexists|]. simpl in Hc. apply andb_true_iff in Hc as [Hd Hc].
  cbn [reg_map_build]. destruct (reg_map_add_total d m Hd Hm) as [m1 E1]. rewrite E1. cbn [rbind].
  apply (IH Hc). eapply reg_map_add_wf; [by apply decl_checkb_ok|exact Hm|exact E1].
Qed.

(** ** Names and offsets *)

Lemma decl_put_names d l n : In n (map rd_name (decl_put d l)) -> n = rd_name d \/ In n (map rd_name l).
Proof.
  induction l as [|e l IH]; simpl; [by intros [<-|[]]; left|]. destruct (String.eqb_spec (rd_name d) (rd_name e)) as [E|]; simpl.
  - intros [<-|H]; [by left|right; by right].
  - intros [<-|H]; [right; by left|]. destruct (IH H); [by left|right; by right].
Qed.

Lemma decl_put_NoDup d l : NoDup (map rd_name l) -> NoDup (map rd_name (decl_put d l)).
Proof.
  induction l as [|e l IH]; intros Hn; simpl.
  { constructor; [by intros ?%elem_of_nil|constructor]. }
  apply NoDup_cons in Hn as [He Hl]. destruct (String.eqb_spec (rd_name d) (rd_name e)) as [E|E]; simpl.
  - constructor; [by rewrite E|done].
  - constructor; [|by apply IH]. intros [Hx|Hx]%list_elem_of_In%decl_put_names; [congruence|]. by apply He, list_elem_of_In.
Qed.

Lemma class_dict_NoDup ds : NoDup (map rd_name (class_dict ds)).
Proof.
  unfold class_dict. assert (H : forall l, NoDup (map rd_name l) -> NoDup (map rd_name (fold_left (fun l d => decl_put d l) ds l))).
  { induction ds as [|d ds IH]; intros l Hl; [done|]. simpl. by apply IH, decl_put_NoDup. }
  apply H. constructor.
Qed.

Lemma reg_map_add_maps d m m' : reg_map_add d m = Ok m' ->
  (forall n, n <> rd_name d -> rg_namemap m' !! n = rg_namemap m !! n) /\
  (forall a, rd_addr d <> RScalar a -> rg_addrmap m' !! a = rg_addrmap m !! a) /\
  (forall a, rd_addr d = RScalar a ->
     rg_namemap m' !! rd_name d = Some (MScalar a, rd_cls d) /\ rg_addrmap m' !! a = Some (rd_name d, rd_cls d)).
Proof.
  unfold reg_map_add. destruct (rd_addr d) as [a|rs].
  - intros [= <-]. cbn [rg_namemap rg_addrmap]. split_and!.
    + intros n Hn. by rewrite lookup_insert_ne.
    + intros b Hb. rewrite lookup_insert_ne; [done|]. congruence.
    + intros b [= <-]. by rewrite !lookup_insert_eq.
  - destruct (nd_init rs _); [|done]. cbn [rbind]. destruct (set_add _ _ _); [|done]. intros [= <-].
    cbn [rg_namemap rg_addrmap]. split_and!; [|done|done]. intros n Hn. by rewrite lookup_insert_ne.
Qed.

Lemma reg_map_build_keeps ds : forall m m', reg_map_build ds m = Ok m' ->
  (forall n, ~ In n (map rd_name ds) -> rg_namemap m' !! n = rg_namemap m !! n) /\
  (forall a, Forall (fun d => rd_addr d <> RScalar a) ds -> rg_addrmap m' !! a = rg_addrmap m !! a).
Proof.
  induction ds as [|d ds IH]; intros m m' E; cbn [reg_map_build] in E; [by injection E as <-|].
  destruct (reg_map_add d m) as [m1|] eqn:E1; [|done]. cbn [rbind] in E.
  destruct (reg_map_add_maps _ _ _ E1) as (H1 & H2 & _), (IH _ _ E) as [I1 I2]. split.
  - intros n Hn. simpl in Hn. rewrite I1, H1; [done| |]; intuition.
  - intros a [Ha Hds]%Forall_cons. by rewrite I2, H2.
Qed.

(** A scalar whose offset no other declaration uses is found both ways. *)
Lemma reg_map_build_scalar ds m m' r a cls :
  NoDup (map rd_name ds) -> reg_map_build ds m = Ok m' -> In (RegDecl r (RScalar a) cls) ds ->
  (forall d, In d ds -> rd_addr d = RScalar a -> rd_name d = r) ->
  rg_namemap m' !! r = Some (MScalar a, cls) /\ rg_addrmap m' !! a = Some (r, cls).
Proof.
  revert m. induction ds as [|d ds IH]; intros m Hn E Hin Hu; [done|]. cbn [reg_map_build] in E.
  destruct (reg_map_add d m) as [m1|] eqn:E1; [|done]. cbn [rbind] in E. apply NoDup_cons in Hn as [Hd Hn].
  destruct Hin as [->|Hin].
  - destruct (reg_map_add_maps _ _ _ E1) as (_ & _ & H3). destruct (H3 a eq_refl) as [H4 H5]. cbn [rd_name rd_cls] in *.
    destruct (reg_map_build_keeps _ _ _ E) as [K1 K2]. rewrite K1, K2; [done| |].
    + apply List.Forall_forall. intros e He Ha. apply Hd, list_elem_of_In. rewrite <- (Hu e (or_intror He) Ha). by apply in_map.
    + intros Hx. by apply Hd, list_elem_of_In.
  - apply (IH m1); [done|done|done|]. intros e He. apply Hu. by right.
Qed.

(** ** The maps of the tools *)

Definition offset_checkb (name : string) (ds : list reg_decl) (d : reg_decl) : bool :=
  existsb (fun e => String.eqb (fst e) name && String.eqb (snd e) (rd_name d)) shared_offsets ||
  match rd_addr d with
  | RScalar a => forallb (fun e => match rd_addr e with
                                   | RScalar b => negb (a =? b) || String.eqb (rd_name e) (rd_name d)
                                   | RArray _ => true end) ds
  | RArray _ => true
  end.

Lemma maps_checked :
  forallb (fun e => let ds := class_dict (snd e) in forallb decl_checkb ds && forallb (offset_checkb (fst e) ds) ds)
    register_maps = true.
Proof. vm_compute. reflexivity. Qed.

Lemma offset_checkb_ok name ds r a cls d :
  In (RegDecl r (RScalar a) cls) ds -> forallb (offset_checkb name ds) ds = true -> ~ In (name, r) shared_offsets ->
  In d ds -> rd_addr d = RScalar a -> rd_name d = r.
Proof.
  intros Hin Hc Hs Hd Ea. rewrite forallb_forall in Hc. specialize (Hc _ Hin). unfold offset_checkb in Hc. cbn [rd_name rd_addr] in Hc.
  apply orb_true_iff in Hc as [Hc|Hc].
  - exfalso. apply existsb_exists in Hc as ([n k] & Hx & [E1%String.eqb_eq E2%String.eqb_eq]%andb_true_iff).
    simpl in *. subst. by apply Hs.
  - rewrite forallb_forall in Hc. specialize (Hc d Hd). rewrite Ea in Hc. rewrite Z.eqb_refl in Hc. by apply String.eqb_eq.
Qed.

(** Every register map of the hardware modules can be built, and for each of
    its scalar registers (except the two pairs declared at one offset) name and
    address are inverse: the accessor the map creates for the name addresses base
    plus the declared offset with the declared class, and looking that address up
    gives the name and class back, at any base and in any iteration order of the
    candidate set. *)
Theorem register_maps_roundtrip name ds (Hin : In (name, ds) register_maps) :
  exists m, map_class ds = Ok m /\
    forall r a cls base order, In (RegDecl r (RScalar a) cls) (class_dict ds) -> ~ In (name, r) shared_offsets ->
      map_accessor m base r None = Ok {| ac_cls := cls; ac_addr := base + a |} /\
      lookup_addr order m base (base + a) = Some (r, None, cls).
Proof.
  pose proof maps_checked as Hc. rewrite forallb_forall in Hc. specialize (Hc _ Hin). cbn [fst snd] in Hc.
  apply andb_true_iff in Hc as [Hb Ho].
  destruct (reg_map_build_total _ Hb reg_map_empty reg_map_empty_wf) as [m Em]. exists m. split; [exact Em|].
  intros r a cls base order Hr Hs.
  destruct (reg_map_build_scalar _ _ _ r a cls (class_dict_NoDup ds) Em Hr) as [Hn Ha].
  { intros d. by apply (offset_checkb_ok name (class_dict ds) r a cls). }
  unfold map_accessor, lookup_addr, lookup_offset. rewrite Hn, Z.add_simpl_l, Ha. done.
Qed.

Lemma register_maps_roundtrip_witness :
  exists m, map_class PMGRRegs0 = Ok m /\
    forall r a cls base order, In (RegDecl r (RScalar a) cls) (class_dict PMGRRegs0) -> ~ In ("PMGRRegs0", r) shared_offsets ->
      map_accessor m base r None = Ok {| ac_cls := cls; ac_addr := base + a |} /\
      lookup_addr order m base (base + a) = Some (r, None, cls).
Proof. apply (register_maps_roundtrip "PMGRRegs0" PMGRRegs0). repeat (first [left; reflexivity | right]). Defined.

(** [XhciRegs] declares [RSVD0] three times; only the last offset survives in the
    class, so the registers at the first two have no name. *)
Lemma xhci_rsvd0_lost :
  (length (class_dict XhciRegs) < length XhciRegs)%nat /\
  In (RegDecl "RSVD0" (RScalar 0x46c) Register32) XhciRegs /\
  ~ In 0x46c (omap (fun d => match rd_addr d with RScalar a => Some a | _ => None end) (class_dict XhciRegs)).
Proof.
  split_and!; [vm_compute; lia|repeat (first [left; reflexivity | right])|].
  intros Hin. vm_compute in Hin. repeat (destruct Hin as [Hin|Hin]; [discriminate Hin|]). done.
Qed.
