(* ===== verification/Dart.v ===== *)
(** * proxyclient/m1n1/hw/dart.py, dart8020.py, dart8110.py: IOMMU page tables

    [DART8020] and [DART8110] build and walk the page tables of Apple's IOMMU in
    target memory: [iomap_at] maps a range page by page, allocating tables with
    the target heap and keeping a cache of tables that it flushes at the end;
    [iotranslate] walks the tables and merges adjacent pages into ranges; [DART]
    adds an I/O address allocator per stream and reads and writes through the
    translation.

    Hardware registers are the raw values of the register arrays, read and
    written through the register classes of [RegTables]; target memory is a
    function from addresses to bytes, which [iface.readmem] and [iface.writemem]
    access reliably (see [Uart] for the transfers themselves). *)

From Stdlib Require Import ZArith Lia.
From Stdlib Require Import Strings.Byte.
From stdpp Require Import base list numbers strings gmap.
From S2P Require Import Prelude Bytes Malloc RangeMap Utils Registers RegTables.

Local Open Scope string_scope.
Local Open Scope list_scope.
Local Open Scope Z_scope.
Local Open Scope py_scope.

Definition PAGE_BITS := 14.
Definition PAGE_SIZE := Z.shiftl 1 PAGE_BITS.
Definition L0_SIZE := 4.
Definition L0_OFF := 36.
Definition L1_OFF := 25.
Definition L2_OFF := 14.
Definition IDX_BITS := 11.
Definition Lx_SIZE : nat := 2048.
Definition IDX_MASK := Z.shiftl 1 IDX_BITS - 1.

(** ** State *)
Record dart := Dart {
  dt_tcr : Z -> Z;                  (* TCR[stream] *)
  dt_ttbr : Z -> Z -> Z;            (* TTBR[stream, l0]; l0 is 0 on the T8110 *)
  dt_enabled_reg : Z -> Z;          (* ENABLED_STREAMS / ENABLE_STREAMS[i] *)
  dt_enabled : Z;                   (* self.enabled_streams *)
  dt_cache : gmap Z (list Z);       (* self.pt_cache *)
  dt_mem : Z -> byte;               (* target memory *)
  dt_heap : heap                    (* u.heap, behind u.memalign *)
}.

Definition dt_set_ttbr (s i v : Z) (d : dart) : dart :=
  {| dt_tcr := dt_tcr d; dt_ttbr := fun s' i' => if (s' =? s) && (i' =? i) then v else dt_ttbr d s' i';
     dt_enabled_reg := dt_enabled_reg d; dt_enabled := dt_enabled d; dt_cache := dt_cache d; dt_mem := dt_mem d;
     dt_heap := dt_heap d |}.
Definition dt_set_tcr (s v : Z) (d : dart) : dart :=
  {| dt_tcr := fun s' => if s' =? s then v else dt_tcr d s'; dt_ttbr := dt_ttbr d;
     dt_enabled_reg := dt_enabled_reg d; dt_enabled := dt_enabled d; dt_cache := dt_cache d; dt_mem := dt_mem d;
     dt_heap := dt_heap d |}.
Definition dt_set_enabled (reg : Z -> Z) (e : Z) (d : dart) : dart :=
  {| dt_tcr := dt_tcr d; dt_ttbr := dt_ttbr d; dt_enabled_reg := reg; dt_enabled := e; dt_cache := dt_cache d;
     dt_mem := dt_mem d; dt_heap := dt_heap d |}.
Definition dt_set_cache (c : gmap Z (list Z)) (d : dart) : dart :=
  {| dt_tcr := dt_tcr d; dt_ttbr := dt_ttbr d; dt_enabled_reg := dt_enabled_reg d; dt_enabled := dt_enabled d;
     dt_cache := c; dt_mem := dt_mem d; dt_heap := dt_heap d |}.
Definition dt_set_mem (m : Z -> byte) (d : dart) : dart :=
  {| dt_tcr := dt_tcr d; dt_ttbr := dt_ttbr d; dt_enabled_reg := dt_enabled_reg d; dt_enabled := dt_enabled d;
     dt_cache := dt_cache d; dt_mem := m; dt_heap := dt_heap d |}.
Definition dt_set_heap (h : heap) (d : dart) : dart :=
  {| dt_tcr := dt_tcr d; dt_ttbr := dt_ttbr d; dt_enabled_reg := dt_enabled_reg d; dt_enabled := dt_enabled d;
     dt_cache := dt_cache d; dt_mem := dt_mem d; dt_heap := h |}.

(** ** Registers, memory and the table cache *)

(** Index of a register array of [n] registers: Python counts from the end when
    it is negative. *)
Definition reg_index (n i : Z) : result Z :=
  if (0 <=? i) && (i <? n) then Ok i else if (- n <=? i) && (i <? 0) then Ok (i + n) else Raise IndexError.

Definition dart_tcr (cls : reg_class) (n stream : Z) : M dart Z :=
  let! s := py_lift (reg_index n stream) in
  let! v := py_get (fun d => dt_tcr d s) in py_lift (reg_init cls (Some v) []).
Definition dart_ttbr (cls : reg_class) (n k stream i : Z) : M dart Z :=
  let! s := py_lift (reg_index n stream) in
  let! j := py_lift (reg_index k i) in
  let! v := py_get (fun d => dt_ttbr d s j) in py_lift (reg_init cls (Some v) []).
Definition dart_ttbr_set (n k stream i v : Z) : M dart unit :=
  let! s := py_lift (reg_index n stream) in
  let! j := py_lift (reg_index k i) in
  py_modify (dt_set_ttbr s j v).

Definition on_dart_heap {A} (m : M heap A) : M dart A := fun d =>
  let '(r, h) := m (dt_heap d) in (r, dt_set_heap h d).
Definition dart_memalign : M dart Z := on_dart_heap (heap_memalign PAGE_SIZE PAGE_SIZE).

Definition dart_readmem (addr : Z) (n : nat) : M dart bytes := py_get (fun d => mem_read (dt_mem d) addr n).
Definition dart_writemem (addr : Z) (b : bytes) : M dart unit := py_modify (fun d => dt_set_mem (mem_store addr b (dt_mem d)) d).

Definition pt_bytes : nat := 8 * Lx_SIZE.
Definition cache_put (addr : Z) (l : list Z) : M dart unit := py_modify (fun d => dt_set_cache (<[addr := l]> (dt_cache d)) d).

(** [get_pt]. *)
Definition get_pt (addr : Z) (uncached : bool) : M dart (bool * list Z) :=
  let! c := py_get dt_cache in
  match c !! addr, uncached with
  | Some l, false => py_ret (true, l)
  | _, _ =>
      let! b := dart_readmem addr pt_bytes in
      let! l := py_lift (unpack_Qs Lx_SIZE 0 b) in
      cache_put addr l ;;; py_ret (false, l)
  end.

(** [flush_pt]. *)
Definition flush_pt (addr : Z) : M dart unit :=
  let! c := py_get dt_cache in
  match c !! addr with
  | None => py_raise AssertionError
  | Some l => let! b := py_lift (pack_Qs l) in dart_writemem addr b
  end.

Fixpoint flush_all (pages : list Z) : M dart unit :=
  match pages with [] => py_ret tt | p :: r => flush_pt p ;;; flush_all r end.

Definition zero_table : list Z := replicate Lx_SIZE 0.
Definition new_table : M dart Z :=
  let! a := dart_memalign in cache_put a zero_table ;;; py_ret a.

(** [l[idx] = v] on the list object that [get_pt] returned for [addr]; a new
    table cached at the same address in between has taken its place there. *)
Definition table_set (addr : Z) (l : list Z) (idx : nat) (v fresh : Z) : M dart unit :=
  if fresh =? addr then py_ret tt else cache_put addr (<[idx := v]> l).

Definition table_index (page off : Z) : nat := Z.to_nat (Z.land (Z.shiftr page off) IDX_MASK).

Definition getf (cls : reg_class) (k : string) (v : Z) : M dart Z := py_lift (reg_getattr cls k v).

(** The mode checks at the top of [iomap_at]. *)
Definition check_mode (cls : reg_class) (tcr : Z) : M dart unit :=
  let! byp := getf cls "BYPASS_DART" tcr in
  let! tr := getf cls "TRANSLATE_ENABLE" tcr in
  if negb (byp =? 0) && (tr =? 0) then py_raise (GenericException "Stream is bypassed in DART") else
  if negb (byp =? 0) || (tr =? 0) then py_raise (GenericException "Unknown DART mode") else py_ret tt.

Definition check_aligned (addr iova : Z) : M dart unit :=
  if negb (Z.land addr (PAGE_SIZE - 1) =? 0) then py_raise (GenericException "Unaligned PA") else
  if negb (Z.land iova (PAGE_SIZE - 1) =? 0) then py_raise (GenericException "Unaligned IOVA") else py_ret tt.

Definition page_count (start_page end_page : Z) : nat := Z.to_nat ((end_page - start_page) / PAGE_SIZE).

(** ** Merging pages into ranges *)

(** One iteration of the merge loop; the head of the list is [ranges[-1]]. *)
Definition merge_page (rev : list (option Z * Z)) (page : option Z) : list (option Z * Z) :=
  match rev with
  | [] => [(page, PAGE_SIZE)]
  | (laddr, lsize) :: r =>
      let same := match page, laddr with
                  | None, None => true
                  | Some p, Some l => l =? p - lsize
                  | _, _ => false
                  end in
      if same then (laddr, lsize + PAGE_SIZE) :: r else (page, PAGE_SIZE) :: rev
  end.

Definition merge_ranges (pages : list (option Z)) (start_off end_size : Z) : result (list (option Z * Z)) :=
  match fold_left merge_page pages [] with
  | [] => Raise IndexError
  | (a, s) :: r =>
      match rev ((a, s - PAGE_SIZE + end_size) :: r) with
      | [] => Raise IndexError
      | (a0, s0) :: rest =>
          Ok (if start_off =? 0 then (a0, s0) :: rest
              else (match a0 with Some p => if p =? 0 then None else Some (p + start_off) | None => None end,
                    s0 - start_off) :: rest)
      end
  end.

(** The common end of [iotranslate]: the page loop [walk] on the pages of the
    request, then the merge. *)
Fixpoint walk_pages (walk : Z -> M dart (option Z)) (page : Z) (n : nat) : M dart (list (option Z)) :=
  match n with
  | O => py_ret []
  | S k => let! p := walk page in let! r := walk_pages walk (page + PAGE_SIZE) k in py_ret (p :: r)
  end.

Definition translate_range (walk : Z -> M dart (option Z)) (start size : Z) : M dart (list (option Z * Z)) :=
  let start_page := align_down start PAGE_SIZE in
  let start_off := start - start_page in
  let end_ := start + size in
  let end_page := align_up end_ PAGE_SIZE in
  let end_size := end_ - (end_page - PAGE_SIZE) in
  let! pages := walk_pages walk start_page (page_count start_page end_page) in
  py_lift (merge_ranges pages start_off end_size).

(** A table entry during a walk: an invalid cached entry is looked up again in
    memory. *)
Definition walk_entry (cls : reg_class) (table page off : Z) : M dart Z :=
  let idx := table_index page off in
  let! '(cached, l) := get_pt table false in
  let! e := py_lift (py_index l idx) in
  let! pte := py_lift (reg_init cls (Some e) []) in
  let! v := getf cls "VALID" pte in
  if (v =? 0) && cached then
    let! '(_, l) := get_pt table true in
    let! e := py_lift (py_index l idx) in
    py_lift (reg_init cls (Some e) [])
  else py_ret pte.

(** The last two levels of every walk, from the L1 table at [l1]. *)
Definition walk_l1 (cls : reg_class) (l1 page : Z) : M dart (option Z) :=
  let! l1pte := walk_entry cls l1 page L1_OFF in
  let! v := getf cls "VALID" l1pte in
  if v =? 0 then py_ret None else
  let! o := getf cls "OFFSET" l1pte in
  let! l2pte := walk_entry cls (Z.shiftl o PAGE_BITS) page L2_OFF in
  let! v := getf cls "VALID" l2pte in
  if v =? 0 then py_ret None else
  let! o := getf cls "OFFSET" l2pte in
  py_ret (Some (Z.shiftl o PAGE_BITS)).

(** The L2 table of [page], allocated when the entry of the L1 table at [l1a] is
    not valid: the L1 entry, the address of the table and the dirty set.  [extra]
    holds the fields a T8020 entry has besides. *)
Definition ensure_l2 (cls : reg_class) (extra : list (string * Z)) (l1a page : Z) (dirty : gset Z) : M dart (Z * Z * gset Z) :=
  let! '(_, l1) := get_pt l1a false in
  let l1idx := table_index page L1_OFF in
  let! e := py_lift (py_index l1 l1idx) in
  let! l1pte := py_lift (reg_init cls (Some e) []) in
  let! v := getf cls "VALID" l1pte in
  if v =? 0 then
    let! l2addr := new_table in
    let! pte := py_lift (reg_init cls None ([("OFFSET", Z.shiftr l2addr PAGE_BITS); ("VALID", 1)] ++ extra)) in
    table_set l1a l1 l1idx pte l2addr ;;;
    py_ret (pte, l2addr, {[l1a]} ∪ dirty)
  else
    let! o := getf cls "OFFSET" l1pte in
    py_ret (l1pte, Z.shiftl o PAGE_BITS, dirty).

(** ** DART8020 *)
Definition PTE_TYPES (compat : string) : result reg_class :=
  if String.eqb compat "dart,t8020" then Ok PTE_T8020
  else if String.eqb compat "dart,t6000" then Ok PTE_T6000 else Raise (KeyError "compat").

Definition tcr_8020 := dart_tcr R_TCR_dart8020 16.
Definition ttbr_8020 := dart_ttbr R_TTBR_dart8020 16 4.
Definition TTBR_8020 := R_TTBR_dart8020.

(** [ENABLED_STREAMS.val |= self.enabled_streams]. *)
Definition enable_stream_8020 (stream : Z) : M dart unit :=
  let! bit := py_lift (py_shl 1 stream) in
  let! e := py_get dt_enabled in
  if negb (Z.land e bit =? 0) then py_ret tt else
  py_modify (fun d => let e := Z.lor e bit in
    dt_set_enabled (fun i => if i =? 0 then Z.lor (dt_enabled_reg d 0) e else dt_enabled_reg d i) e d).

(** [initialize]: streams 0 to 14 translate, stream 15 is bypassed, no stream has
    a table.  The error, TLB and [UNK1] registers it also writes are not part of
    the state. *)
Fixpoint for_range (n : nat) (body : Z -> M dart unit) : M dart unit :=
  match n with O => py_ret tt | S k => for_range k body ;;; body (Z.of_nat k) end.

Definition initialize_8020 : M dart unit :=
  let! on := py_lift (reg_init R_TCR_dart8020 None [("TRANSLATE_ENABLE", 1)]) in
  let! off := py_lift (reg_init R_TCR_dart8020 None [("BYPASS_DART", 1)]) in
  let! none := py_lift (reg_init TTBR_8020 None [("VALID", 0)]) in
  for_range 15 (fun i => py_modify (dt_set_tcr i on)) ;;;
  py_modify (dt_set_tcr 15 off) ;;;
  for_range 16 (fun i => for_range 4 (fun j => dart_ttbr_set 16 4 i j none)) ;;;
  py_modify (fun d => dt_set_enabled (fun i => if i =? 0 then 0 else dt_enabled_reg d i) 0 d).

(** The L1 table of [page], allocated when the TTBR is not valid. *)
Definition ensure_l1 (stream l0 : Z) : M dart Z :=
  let! t := ttbr_8020 stream l0 in
  let! v := getf TTBR_8020 "VALID" t in
  let! t := (if v =? 0 then
               let! l1addr := new_table in
               let! t := py_lift (reg_setattr TTBR_8020 "VALID" 1 t) in
               let! t := py_lift (reg_setattr TTBR_8020 "ADDR" (Z.shiftr l1addr 12) t) in
               dart_ttbr_set 16 4 stream l0 t ;;; py_ret t
             else py_ret t) in
  let! a := getf TTBR_8020 "ADDR" t in
  py_ret (Z.shiftl a 12).

(** One iteration of the mapping loop. *)
Definition map_page_8020 (cls : reg_class) (stream page paddr : Z) (dirty : gset Z) : M dart (gset Z) :=
  let l0 := Z.shiftr page L0_OFF in
  if negb (l0 <? L0_SIZE) then py_raise AssertionError else
  let! l1a := ensure_l1 stream l0 in
  let! '(l1pte, l2addr, dirty) := ensure_l2 cls [("SP_PROT_DIS", 1)] l1a page dirty in
  let! o := getf cls "OFFSET" l1pte in
  let dirty := {[Z.shiftl o PAGE_BITS]} ∪ dirty in
  let! '(_, l2) := get_pt l2addr false in
  let! pte := py_lift (reg_init cls None [("SP_START", 0); ("SP_END", 0xfff); ("OFFSET", Z.shiftr paddr PAGE_BITS);
                                          ("VALID", 1); ("SP_PROT_DIS", 1)]) in
  cache_put l2addr (<[table_index page L2_OFF := pte]> l2) ;;;
  py_ret dirty.

Fixpoint map_pages_8020 (cls : reg_class) (stream page paddr : Z) (n : nat) (dirty : gset Z) : M dart (gset Z) :=
  match n with
  | O => py_ret dirty
  | S k => let! dirty := map_page_8020 cls stream page paddr dirty in
           map_pages_8020 cls stream (page + PAGE_SIZE) (paddr + PAGE_SIZE) k dirty
  end.

(** [order] is the iteration order of the set of dirty tables. *)
Definition iomap_at_8020 (order : gset Z -> list Z) (cls : reg_class) (stream iova addr size : Z) : M dart unit :=
  if size =? 0 then py_ret tt else
  enable_stream_8020 stream ;;;
  let! t := tcr_8020 stream in
  check_mode R_TCR_dart8020 t ;;;
  check_aligned addr iova ;;;
  let start_page := align_down iova PAGE_SIZE in
  let end_page := align_up (iova + size) PAGE_SIZE in
  let! dirty := map_pages_8020 cls stream start_page (addr + start_page - start_page) (page_count start_page end_page) ∅ in
  flush_all (order dirty).

Definition walk_8020 (cls : reg_class) (stream page : Z) : M dart (option Z) :=
  let l0 := Z.shiftr page L0_OFF in
  if negb (l0 <? L0_SIZE) then py_raise AssertionError else
  let! t := ttbr_8020 stream l0 in
  let! v := getf TTBR_8020 "VALID" t in
  if v =? 0 then py_ret None else
  let! a := getf TTBR_8020 "ADDR" t in
  walk_l1 cls (Z.shiftl a 12) page.

Definition iotranslate_8020 (cls : reg_class) (stream start size : Z) : M dart (list (option Z * Z)) :=
  if size =? 0 then py_ret [] else
  let! t := tcr_8020 stream in
  let! byp := getf R_TCR_dart8020 "BYPASS_DART" t in
  let! tr := getf R_TCR_dart8020 "TRANSLATE_ENABLE" t in
  if negb (byp =? 0) && (tr =? 0) then py_ret [(Some start, size)] else
  if negb (byp =? 0) || (tr =? 0) then py_raise (GenericException "Unknown DART mode") else
  translate_range (walk_8020 cls stream) (Z.land start 0xffffffff) size.

(** ** DART8110 *)
Definition PTE_8110 := PTE_dart8110.
Definition TCR_8110 := R_TCR_dart8110.
Definition TTBR_8110 := R_TTBR_dart8110.
Definition tcr_8110 := dart_tcr TCR_8110 256.
Definition ttbr_8110 (stream : Z) := dart_ttbr TTBR_8110 256 1 stream 0.

(** [__init__]'s [enabled_streams]. *)
Definition enabled_streams (reg : Z -> Z) : Z :=
  fold_left (fun e i => Z.lor e (Z.shiftl (reg (Z.of_nat i)) (32 * Z.of_nat i))) (seq 0 8) 0.

(** [ENABLE_STREAMS[stream // 32].val |= 1 << (stream % 32)]. *)
Definition enable_stream_8110 (stream : Z) : M dart unit :=
  let! bit := py_lift (py_shl 1 stream) in
  let! e := py_get dt_enabled in
  if negb (Z.land e bit =? 0) then py_ret tt else
  py_modify (fun d => dt_set_enabled (dt_enabled_reg d) (Z.lor e bit) d) ;;;
  let! k := py_lift (reg_index 8 (stream / 32)) in
  py_modify (fun d => dt_set_enabled (fun i => if i =? k then Z.lor (dt_enabled_reg d i) (Z.shiftl 1 (stream mod 32))
                                               else dt_enabled_reg d i) (dt_enabled d) d).

Definition ensure_root (stream : Z) : M dart Z :=
  let! t := ttbr_8110 stream in
  let! v := getf TTBR_8110 "VALID" t in
  let! t := (if v =? 0 then
               let! l1addr := new_table in
               let! t := py_lift (reg_setattr TTBR_8110 "VALID" 1 t) in
               let! t := py_lift (reg_setattr TTBR_8110 "ADDR" (Z.shiftr l1addr PAGE_BITS) t) in
               dart_ttbr_set 256 1 stream 0 t ;;; py_ret t
             else py_ret t) in
  getf TTBR_8110 "ADDR" t.

(** A child table of [table], allocated when the entry is not valid: the page
    number of the child and the dirty set.  [prev] is the local [l1pte] as the
    previous iteration left it; the valid branch of the L0 level reads it. *)
Definition ensure_l0 (table page : Z) (prev : option Z) (dirty : gset Z) : M dart (Z * gset Z) :=
  let! '(_, l0) := get_pt table false in
  let l0idx := table_index page L0_OFF in
  let! e := py_lift (py_index l0 l0idx) in
  let! l0pte := py_lift (reg_init PTE_8110 (Some e) []) in
  let! v := getf PTE_8110 "VALID" l0pte in
  if v =? 0 then
    let! l1addr := new_table in
    let! pte := py_lift (reg_init PTE_8110 None [("OFFSET", Z.shiftr l1addr PAGE_BITS); ("VALID", 1)]) in
    table_set table l0 l0idx pte l1addr ;;;
    let! o := getf PTE_8110 "OFFSET" pte in
    py_ret (o, {[table]} ∪ dirty)
  else
    match prev with
    | None => py_raise (NameError "l1pte")
    | Some l1pte =>
        getf PTE_8110 "OFFSET" l1pte ;;;
        let! o := getf PTE_8110 "OFFSET" l0pte in
        py_ret (o, dirty)
    end.

(** One iteration of the mapping loop; returns its [l1pte] as well. *)
Definition map_page_8110 (four : bool) (stream page paddr : Z) (prev : option Z) (dirty : gset Z) : M dart (Z * gset Z) :=
  let! root := ensure_root stream in
  let! '(l1page, dirty) :=
    (if four then ensure_l0 (Z.shiftl root PAGE_BITS) page prev dirty else py_ret (root, dirty)) in
  let l1a := Z.shiftl l1page PAGE_BITS in
  let! '(l1pte, l2addr, dirty) := ensure_l2 PTE_8110 [] l1a page dirty in
  let! o := getf PTE_8110 "OFFSET" l1pte in
  let dirty := {[Z.shiftl o PAGE_BITS]} ∪ dirty in
  let! '(_, l2) := get_pt l2addr false in
  let! pte := py_lift (reg_init PTE_8110 None [("SP_START", 0); ("SP_END", 0xfff); ("OFFSET", Z.shiftr paddr PAGE_BITS);
                                          ("VALID", 1)]) in
  cache_put l2addr (<[table_index page L2_OFF := pte]> l2) ;;;
  py_ret (l1pte, dirty).

Fixpoint map_pages_8110 (four : bool) (stream page paddr : Z) (n : nat) (prev : option Z) (dirty : gset Z) : M dart (gset Z) :=
  match n with
  | O => py_ret dirty
  | S k => let! '(l1pte, dirty) := map_page_8110 four stream page paddr prev dirty in
           map_pages_8110 four stream (page + PAGE_SIZE) (paddr + PAGE_SIZE) k (Some l1pte) dirty
  end.

Definition iomap_at_8110 (order : gset Z -> list Z) (stream iova addr size : Z) : M dart unit :=
  if size =? 0 then py_ret tt else
  enable_stream_8110 stream ;;;
  let! t := tcr_8110 stream in
  check_mode TCR_8110 t ;;;
  check_aligned addr iova ;;;
  let! four := getf TCR_8110 "FOUR_LEVELS" t in
  let start_page := align_down iova PAGE_SIZE in
  let end_page := align_up (iova + size) PAGE_SIZE in
  let! dirty := map_pages_8110 (negb (four =? 0)) stream start_page (addr + start_page - start_page)
                  (page_count start_page end_page) None ∅ in
  flush_all (order dirty).

Definition walk_8110 (four : bool) (stream page : Z) : M dart (option Z) :=
  let! t := ttbr_8110 stream in
  let! v := getf TTBR_8110 "VALID" t in
  if v =? 0 then py_ret None else
  let! root := getf TTBR_8110 "ADDR" t in
  if four then
    let! l0pte := walk_entry PTE_8110 (Z.shiftl root PAGE_BITS) page L0_OFF in
    let! v := getf PTE_8110 "VALID" l0pte in
    if v =? 0 then py_ret None else
    let! o := getf PTE_8110 "OFFSET" l0pte in
    walk_l1 PTE_8110 (Z.shiftl o PAGE_BITS) page
  else walk_l1 PTE_8110 (Z.shiftl root PAGE_BITS) page.

Definition iotranslate_8110 (stream start size : Z) : M dart (list (option Z * Z)) :=
  if size =? 0 then py_ret [] else
  let! t := tcr_8110 stream in
  let! byp := getf TCR_8110 "BYPASS_DART" t in
  let! tr := getf TCR_8110 "TRANSLATE_ENABLE" t in
  if negb (byp =? 0) && (tr =? 0) then py_ret [(Some start, size)] else
  if negb (byp =? 0) || (tr =? 0) then py_raise (GenericException "Unknown DART mode") else
  let! four := getf TCR_8110 "FOUR_LEVELS" t in
  translate_range (walk_8110 (negb (four =? 0)) stream)
    (Z.land start (if negb (four =? 0) then 0xfffffffffff else 0xfffffffff)) size.

(** ** DART *)

(** Which driver the constructor picks. *)
Inductive dart_kind := K8020 (cls : reg_class) | K8110.

Definition dart_kind_of (compat : string) : result dart_kind :=
  if String.eqb compat "dart,t8020" || String.eqb compat "dart,t6000"
  then let? cls := PTE_TYPES compat in Ok (K8020 cls)
  else if String.eqb compat "dart,t8110" then Ok K8110 else Raise (TypeError compat).

Definition dart_iotranslate (k : dart_kind) (stream start size : Z) : M dart (list (option Z * Z)) :=
  match k with K8020 cls => iotranslate_8020 cls stream start size | K8110 => iotranslate_8110 stream start size end.
Definition dart_iomap_at (order : gset Z -> list Z) (k : dart_kind) (stream iova addr size : Z) : M dart unit :=
  match k with
  | K8020 cls => iomap_at_8020 order cls stream iova addr size
  | K8110 => iomap_at_8110 order stream iova addr size
  end.

Fixpoint read_ranges (ranges : list (option Z * Z)) : M dart bytes :=
  match ranges with
  | [] => py_ret []
  | (None, _) :: _ => py_raise (GenericException "Unmapped page")
  | (Some a, size) :: r =>
      let! b := dart_readmem a (Z.to_nat size) in
      let! t := read_ranges r in py_ret (b ++ t)
  end.

Definition ioread (k : dart_kind) (stream base size : Z) : M dart bytes :=
  if size =? 0 then py_ret [] else
  let! ranges := dart_iotranslate k stream base size in read_ranges ranges.

Fixpoint write_ranges (ranges : list (option Z * Z)) (data : bytes) : M dart unit :=
  match ranges with
  | [] => py_ret tt
  | (None, _) :: _ => py_raise (GenericException "Unmapped page")
  | (Some a, size) :: r =>
      dart_writemem a (take (Z.to_nat size) data) ;;; write_ranges r (drop (Z.to_nat size) data)
  end.

Definition iowrite (k : dart_kind) (stream base : Z) (data : bytes) : M dart unit :=
  match data with
  | [] => py_ret tt
  | _ => let! ranges := dart_iotranslate k stream base (zlen data) in write_ranges ranges data
  end.

(** [iomap] with the I/O address allocators, one heap of pages per stream. *)
Definition iomap (order : gset Z -> list Z) (k : dart_kind) (stream addr size : Z) : M (list heap * dart) Z := fun '(hs, d) =>
  match reg_index (zlen hs) stream with
  | Raise e => (Raise e, (hs, d))
  | Ok s =>
      match hs !! Z.to_nat s with
      | None => (Raise IndexError, (hs, d))
      | Some h =>
          let '(r, h') := heap_malloc size h in
          let hs' := <[Z.to_nat s := h']> hs in
          match r with
          | Raise e => (Raise e, (hs', d))
          | Ok iova => let '(r, d') := dart_iomap_at order k stream iova addr size d in
                       (match r with Ok _ => Ok iova | Raise e => Raise e end, (hs', d'))
          end
      end
  end.

Definition invalidate_cache : M dart unit := py_modify (dt_set_cache ∅).

(** The constructor's I/O address allocators: sixteen, whatever the DART. *)
Definition iova_allocators (lo hi : Z) : result (list heap) :=
  let? h := heap_init lo hi PAGE_SIZE in Ok (replicate 16 h).

(** ** What a list of ranges means *)

(** The physical address of byte [k] of the translated request: [None] past the
    end, [Some None] on an unmapped page. *)
Fixpoint locate (rs : list (option Z * Z)) (k : Z) : option (option Z) :=
  match rs with
  | [] => None
  | (a, s) :: r => if k <? s then Some (option_map (fun p => p + k) a) else locate r (k - s)
  end.

Definition total (rs : list (option Z * Z)) : Z := fold_right (fun e t => snd e + t) 0 rs.
Definition sizes_pos (rs : list (option Z * Z)) : Prop := Forall (fun e => 0 < snd e) rs.

Lemma total_cons a s r : total ((a, s) :: r) = s + total r.
Proof. done. Qed.

Lemma total_app r1 r2 : total (r1 ++ r2) = total r1 + total r2.
Proof. induction r1 as [|[a s] r1 IH]; [done|]. cbn [app]. rewrite !total_cons. lia. Qed.

Lemma total_nonneg rs : sizes_pos rs -> 0 <= total rs.
Proof. induction 1 as [|[a s] rs He _ IH]; [done|]. rewrite total_cons. simpl in He. lia. Qed.

Lemma locate_app r1 r2 k : sizes_pos r1 -> 0 <= k ->
  locate (r1 ++ r2) k = if k <? total r1 then locate r1 k else locate r2 (k - total r1).
Proof.
  intros Hp. revert k. induction Hp as [|[a s] r1 Hs Hp IH]; intros k Hk.
  - cbn [total fold_right app]. rewrite Z.sub_0_r, (proj2 (Z.ltb_ge _ _)) by lia. done.
  - cbn [app locate]. rewrite total_cons. simpl in Hs. pose proof (total_nonneg r1 Hp).
    destruct (Z.ltb_spec k s).
    + by rewrite (proj2 (Z.ltb_lt _ _)) by lia.
    + rewrite IH by lia. destruct (Z.ltb_spec (k - s) (total r1)), (Z.ltb_spec k (s + total r1)); try lia; [done|].
      f_equal. lia.
Qed.

Lemma PAGE_SIZE_pos : 0 < PAGE_SIZE.
Proof. done. Qed.

(** The byte [k] of a sequence of pages. *)
Definition page_byte (pages : list (option Z)) (k : Z) : option (option Z) :=
  option_map (option_map (fun p => p + k mod PAGE_SIZE)) (pages !! Z.to_nat (k / PAGE_SIZE)).

(** What the merge loop keeps. *)
Record merged (pages : list (option Z)) (rs : list (option Z * Z)) : Prop := {
  mg_pos : sizes_pos rs;
  mg_total : total rs = zlen pages * PAGE_SIZE;
  mg_pages : Forall (fun e => PAGE_SIZE <= snd e) rs;
  mg_locate : forall k, 0 <= k < zlen pages * PAGE_SIZE -> locate rs k = page_byte pages k;
  mg_first : head (map fst rs) = head pages
}.

Lemma page_byte_app_l pages q k : 0 <= k < zlen pages * PAGE_SIZE -> page_byte (pages ++ q) k = page_byte pages k.
Proof.
  intros Hk. unfold page_byte. rewrite lookup_app_l; [done|]. unfold zlen in Hk.
  assert (0 <= k / PAGE_SIZE < Z.of_nat (length pages)); [|lia].
  split; [apply Z.div_pos; [lia|done]|apply Z.div_lt_upper_bound; [done|lia]].
Qed.

Lemma page_byte_last pages q k : zlen pages * PAGE_SIZE <= k < (zlen pages + 1) * PAGE_SIZE ->
  page_byte (pages ++ [q]) k = Some (option_map (fun p => p + (k - zlen pages * PAGE_SIZE)) q).
Proof.
  intros Hk. unfold page_byte. unfold zlen in *. pose proof PAGE_SIZE_pos.
  assert (Hd : k / PAGE_SIZE = Z.of_nat (length pages)).
  { symmetry. apply Z.div_unique with (k - Z.of_nat (length pages) * PAGE_SIZE); [left|]; lia. }
  rewrite Hd, Nat2Z.id, lookup_app_r, Nat.sub_diag by lia. simpl. f_equal.
  rewrite Z.mod_eq, Hd by lia. destruct q; simpl; [|done]. f_equal. lia.
Qed.

Lemma merge_page_step pages acc q : merged pages (rev acc) -> merged (pages ++ [q]) (rev (merge_page acc q)).
Proof.
  intros [Hp Ht Hpg Hl Hf]. pose proof PAGE_SIZE_pos as HP.
  assert (Hz : zlen (pages ++ [q]) = zlen pages + 1) by (by rewrite zlen_app).
  destruct acc as [|[la ls] acc]; cbn [merge_page rev].
  { assert (pages = []) as ->. { destruct pages; [done|]. cbn [rev total fold_right] in Ht. unfold zlen in Ht. cbn [length] in Ht. lia. }
    constructor; cbn [app rev]; [by repeat constructor|done|by repeat constructor| |done].
    intros k Hk. pose proof (page_byte_last [] q k ltac:(unfold zlen in *; simpl in *; lia)) as Hq. cbn [app] in Hq. rewrite Hq. cbn [locate].
    unfold zlen in *. simpl in Hk |- *. rewrite (proj2 (Z.ltb_lt _ _)) by lia. f_equal. destruct q; simpl; [f_equal; lia|done]. }
  cbn [rev] in Hp, Ht, Hpg, Hl, Hf. apply Forall_app in Hp as [Hp0 Hp1]. apply Forall_app in Hpg as [Hpg0 Hpg1].
  inversion Hp1 as [|? ? Hs _]; subst. inversion Hpg1 as [|? ? Hs' _]; subst. cbn [snd] in Hs, Hs'.
  rewrite total_app, total_cons in Ht. cbn [total fold_right] in Ht.
  set (R := rev acc) in *. fold (total R) in Ht. pose proof (total_nonneg R Hp0).
  assert (Hsame : (match q, la with None, None => true | Some p, Some l => l =? p - ls | _, _ => false end) = true ->
    forall k, ls <= k < ls + PAGE_SIZE -> option_map (fun p => p + k) la = option_map (fun p => p + (k - ls)) q).
  { destruct q as [p|], la as [l|]; try done. intros E k Hk. apply Z.eqb_eq in E. simpl. f_equal. lia. }
  destruct (match q, la with None, None => true | Some p, Some l => l =? p - ls | _, _ => false end) eqn:Es; cbn [rev]; fold R.
  - constructor.
    + apply Forall_app. split; [done|]. repeat constructor. simpl. lia.
    + rewrite total_app, total_cons. cbn [total fold_right]. fold (total R). lia.
    + apply Forall_app. split; [done|]. repeat constructor. simpl. lia.
    + intros k Hk. rewrite locate_app by (done || lia). destruct (Z.lt_ge_cases k (zlen pages * PAGE_SIZE)) as [Hlt|Hge].
      * rewrite page_byte_app_l by lia. rewrite <- Hl by lia. rewrite locate_app by (done || lia).
        destruct (Z.ltb_spec k (total R)); [done|]. cbn [locate].
        by rewrite !(proj2 (Z.ltb_lt _ _)) by lia.
      * rewrite page_byte_last by lia. rewrite (proj2 (Z.ltb_ge _ _)) by lia. cbn [locate].
        rewrite (proj2 (Z.ltb_lt _ _)) by lia. f_equal. rewrite (Hsame eq_refl) by lia. destruct q; simpl; [|done]. f_equal. lia.
    + rewrite map_app in Hf |- *. destruct R; destruct pages; simpl in *; try done; unfold zlen in *; cbn [length] in *; lia.
  - assert (HpR : sizes_pos (R ++ [(la, ls)])) by (apply Forall_app; split; [done|by repeat constructor]).
    assert (HtR : total (R ++ [(la, ls)]) = zlen pages * PAGE_SIZE).
    { rewrite total_app, total_cons. cbn [total fold_right]. fold (total R). lia. }
    constructor.
    + apply Forall_app. split; [done|]. by repeat constructor.
    + rewrite total_app, HtR, total_cons. cbn [total fold_right]. lia.
    + apply Forall_app. split; [apply Forall_app; split; [done|by repeat constructor]|]. repeat constructor. simpl. lia.
    + intros k Hk. rewrite locate_app by (done || lia). rewrite HtR. destruct (Z.ltb_spec k (zlen pages * PAGE_SIZE)).
      * rewrite page_byte_app_l by lia. apply Hl. lia.
      * rewrite page_byte_last by lia. cbn [locate]. by rewrite (proj2 (Z.ltb_lt _ _)) by lia.
    + rewrite !map_app in Hf |- *. destruct R as [|[? ?] ?]; destruct pages; simpl in *; try done; unfold zlen in *; cbn [length] in *; lia.
Qed.

Lemma merge_fold pages : merged pages (rev (fold_left merge_page pages [])).
Proof.
  induction pages as [|q pages IH] using rev_ind.
  - constructor; simpl; [constructor|done|constructor|unfold zlen; simpl; lia|done].
  - rewrite fold_left_app. simpl. by apply merge_page_step.
Qed.

(** Cutting the last range leaves every byte before the cut in place. *)
Lemma locate_cut R a s s' k : sizes_pos (R ++ [(a, s)]) -> s' <= s -> 0 <= k < total R + s' ->
  locate (R ++ [(a, s')]) k = locate (R ++ [(a, s)]) k.
Proof.
  intros Hp Hs Hk. apply Forall_app in Hp as [Hp _]. rewrite !locate_app by (done || lia).
  destruct (Z.ltb_spec k (total R)); [done|]. cbn [locate]. by rewrite !(proj2 (Z.ltb_lt _ _)) by lia.
Qed.

(** The merge is exact: the ranges cover the request byte by byte. *)
Lemma merge_ranges_exact pages start_off end_size :
  pages <> [] -> 0 <= start_off < PAGE_SIZE -> 0 < end_size <= PAGE_SIZE ->
  0 < (zlen pages - 1) * PAGE_SIZE + end_size - start_off ->
  start_off = 0 \/ head pages <> Some (Some 0) ->
  exists rs, merge_ranges pages start_off end_size = Ok rs /\
    sizes_pos rs /\ total rs = (zlen pages - 1) * PAGE_SIZE + end_size - start_off /\
    forall k, 0 <= k < total rs -> locate rs k = page_byte pages (k + start_off).
Proof.
  intros Hne Hso Hes Hsz Hz. pose proof PAGE_SIZE_pos as HP. unfold merge_ranges.
  pose proof (merge_fold pages) as Hm. destruct (fold_left merge_page pages []) as [|[la ls] acc] eqn:Ef.
  { destruct Hm as [_ Ht _ _ _]. destruct pages; [done|]. cbn [rev total fold_right] in Ht. unfold zlen in Ht. cbn [length] in Ht. lia. }
  cbn [rev] in Hm |- *. set (R := rev acc) in *. destruct Hm as [Hp Ht Hpg Hl Hf].
  pose proof Hp as Hp'. apply Forall_app in Hp' as [HpR Hp1]. apply Forall_app in Hpg as [HpgR Hpg1].
  inversion Hpg1 as [|? ? Hs' _]; subst. cbn [snd] in Hs'. rewrite total_app, total_cons in Ht. cbn [total fold_right] in Ht. fold (total R) in Ht.
  set (ls' := ls - PAGE_SIZE + end_size) in *.
  assert (Hcut : forall k, 0 <= k < total R + ls' -> locate (R ++ [(la, ls')]) k = page_byte pages k).
  { intros k Hk. rewrite (locate_cut R la ls ls') by (done || lia). apply Hl. pose proof (total_nonneg R HpR). lia. }
  assert (Hpc : sizes_pos (R ++ [(la, ls')])).
  { apply Forall_app. split; [done|]. repeat constructor. simpl. lia. }
  assert (Htc : total (R ++ [(la, ls')]) = total R + ls').
  { rewrite total_app, total_cons. cbn [total fold_right]. lia. }
  destruct (R ++ [(la, ls')]) as [|[a0 s0] rest0] eqn:ER; [by destruct R|].
  rewrite total_cons in Htc. inversion Hpc as [|? ? Hs0 Hrest]; subst. cbn [snd] in Hs0. pose proof (total_nonneg rest0 Hrest) as Hrn.
  assert (Hh : head pages = Some a0).
  { rewrite <- Hf, map_app. destruct R as [|[a1 s1] R']; simpl in ER |- *; by injection ER as <- _. }
  destruct (Z.eqb_spec start_off 0) as [->|Hso0].
  { eexists. split; [reflexivity|]. split; [done|]. rewrite total_cons. split; [lia|].
    intros k Hk. rewrite Z.add_0_r. apply Hcut. lia. }
  assert (Hs0' : start_off < s0).
  { destruct R as [|[a1 s1] R']; simpl in ER; injection ER as <- <- <-.
    - cbn [total fold_right] in *. lia.
    - inversion HpgR as [|? ? H1 _]; subst. cbn [snd] in H1. lia. }
  eexists. split; [reflexivity|]. split; [constructor; [simpl; lia|done]|]. rewrite total_cons. split; [lia|].
  intros k Hk. rewrite <- Hcut by lia. cbn [locate].
  destruct (Z.ltb_spec k (s0 - start_off)), (Z.ltb_spec (k + start_off) s0); try lia; [|f_equal; lia].
  f_equal. destruct a0 as [p|]; [|done]. destruct (Z.eqb_spec p 0) as [->|Hp0].
  - destruct Hz as [Hz|Hz]; [lia|]. by rewrite Hh in Hz.
  - simpl. f_equal. lia.
Qed.

(** ** Walking the tables *)

Lemma table_index_lt page off : (table_index page off < Lx_SIZE)%nat.
Proof.
  unfold table_index. change IDX_MASK with (Z.ones 11). rewrite Z.land_ones by lia.
  pose proof (Z.mod_pos_bound (Z.shiftr page off) (2 ^ 11) ltac:(lia)). unfold Lx_SIZE. lia.
Qed.

#[local] Opaque table_index.

Lemma pt_bytes_eq : pt_bytes = (8 * Lx_SIZE)%nat.
Proof. reflexivity. Qed.

#[local] Opaque Lx_SIZE pt_bytes.

(** The 64-bit words of the table stored at an address. *)
Definition table_word (m : Z -> byte) (a : Z) (i : nat) : Z := le_Z (mem_read m (a + 8 * Z.of_nat i) 8).
Definition table_of (m : Z -> byte) (a : Z) : list Z := map (table_word m a) (seq 0%nat Lx_SIZE).

Lemma slice_mem_read m a n i k : (i + k <= n)%nat -> slice i (i + k) (mem_read m a n) = mem_read m (a + Z.of_nat i) k.
Proof.
  intros Hn. unfold slice. replace (i + k - i)%nat with k by lia. apply list_eq. intros j. destruct (Nat.lt_ge_cases j k).
  - rewrite lookup_take_lt, lookup_drop, !lookup_mem_read by lia. f_equal. f_equal. lia.
  - rewrite lookup_take_ge by lia. by rewrite lookup_ge_None_2 by (rewrite length_mem_read; lia).
Qed.

Lemma unpack_Qs_mem m a n k : forall off, (off + 8 * k <= n)%nat ->
  unpack_Qs k off (mem_read m a n) = Ok (map (table_word m (a + Z.of_nat off)) (seq 0%nat k)).
Proof.
  induction k as [|k IH]; intros off Hl; cbn [unpack_Qs]; [done|].
  unfold unpack_u. rewrite decide_True by (rewrite length_mem_read; lia). cbn [rbind].
  rewrite IH by lia. cbn [rbind seq map]. rewrite slice_mem_read by lia. do 2 f_equal.
  - unfold table_word. do 2 f_equal. lia.
  - rewrite <- seq_shift, map_map. apply map_ext. intros i. unfold table_word. do 2 f_equal. lia.
Qed.

Lemma table_word_range m a i : 0 <= table_word m a i < 2 ^ 64.
Proof. unfold table_word. pose proof (le_Z_range (mem_read m (a + 8 * Z.of_nat i) 8)) as H. unfold zlen in H. by rewrite length_mem_read in H. Qed.

#[local] Opaque unpack_Qs mem_read.

Lemma table_of_spec m a :
  unpack_Qs Lx_SIZE 0%nat (mem_read m a pt_bytes) = Ok (table_of m a) /\ length (table_of m a) = Lx_SIZE /\
  Forall (fun v => 0 <= v < 2 ^ 64) (table_of m a).
Proof.
  unfold table_of. rewrite pt_bytes_eq, unpack_Qs_mem by lia. cbn [Z.of_nat]. rewrite Z.add_0_r. split; [reflexivity|].
  split; [by rewrite length_map, length_seq|]. apply Forall_map, Forall_forall. intros i _. apply table_word_range.
Qed.

Lemma table_of_lookup m a i : (i < Lx_SIZE)%nat -> table_of m a !! i = Some (table_word m a i).
Proof. intros Hi. unfold table_of. rewrite list_lookup_fmap, lookup_seq_lt by exact Hi. reflexivity. Qed.

#[local] Opaque table_of table_word.

(** The cache agrees with memory. *)
Definition coherent (d : dart) : Prop := forall a l, dt_cache d !! a = Some l -> l = table_of (dt_mem d) a.

(** What a walk does to the driver's state: it may cache more tables. *)
Definition observed (d d' : dart) : Prop := coherent d' /\ d' = dt_set_cache (dt_cache d') d.

Lemma observed_refl d : coherent d -> observed d d.
Proof. intros H. split; [done|]. by destruct d. Qed.

Lemma observed_trans d1 d2 d3 : observed d1 d2 -> observed d2 d3 -> observed d1 d3.
Proof. intros [_ E1] [H E2]. split; [done|]. rewrite E2, E1. by destruct d1. Qed.

Lemma observed_mem d d' : observed d d' -> dt_mem d' = dt_mem d.
Proof. intros [_ ->]. done. Qed.
Lemma observed_ttbr d d' : observed d d' -> dt_ttbr d' = dt_ttbr d.
Proof. intros [_ ->]. done. Qed.

Lemma get_pt_coherent d a u : coherent d ->
  exists c d', get_pt a u d = (Ok (c, table_of (dt_mem d) a), d') /\ observed d d'.
Proof.
  intros Hc. unfold get_pt. rewrite (py_bind_ok _ _ d (dt_cache d) d) by done.
  assert (Hread : exists d', (let! b := dart_readmem a pt_bytes in
      let! l := py_lift (unpack_Qs Lx_SIZE 0 b) in cache_put a l ;;; py_ret (false, l)) d =
      (Ok (false, table_of (dt_mem d) a), d') /\ observed d d').
  { rewrite (py_bind_ok (dart_readmem a pt_bytes) _ d (mem_read (dt_mem d) a pt_bytes) d eq_refl).
    destruct (table_of_spec (dt_mem d) a) as [E _]. rewrite (py_bind_ok _ _ d (table_of (dt_mem d) a) d) by (unfold py_lift; by rewrite E).
    eexists. split; [reflexivity|]. split; [|done]. intros a' l' Hl. cbn [dt_cache dt_set_cache dt_mem] in *.
    apply lookup_insert_Some in Hl as [[<- <-]|[_ Hl]]; [reflexivity|exact (Hc _ _ Hl)]. }
  destruct (dt_cache d !! a) as [l|] eqn:E.
  - destruct u.
    + destruct Hread as (d' & -> & Ho). by exists false, d'.
    + exists true, d. rewrite (Hc a l E). split; [done|by apply observed_refl].
  - destruct Hread as (d' & -> & Ho). by exists false, d'.
Qed.

(** What the walk uses of a page-table-entry class. *)
Record pte_class (cls : reg_class) (fo : field) : Prop := {
  pc_valid : find_field cls "VALID" = Some (FBit 0);
  pc_offset : find_field cls "OFFSET" = Some fo;
  pc_ok : field_ok fo;
  pc_int : f_type fo = TInt;
  pc_init : forall v, reg_init cls (Some v) [] = Ok v
}.

Abbreviation pte_valid v := (negb (f_raw (FBit 0) v =? 0)) (only parsing).
Abbreviation pte_addr fo v := (Z.shiftl (f_raw fo v) PAGE_BITS) (only parsing).

Lemma field_ok_bit n : 0 <= n -> field_ok (FBit n).
Proof. unfold field_ok. simpl. lia. Qed.

Lemma getf_int cls k f v (d : dart) : find_field cls k = Some f -> field_ok f -> f_type f = TInt ->
  getf cls k v d = (Ok (f_raw f v), d).
Proof. intros Hf Hok Ht. unfold getf, py_lift, reg_getattr. by rewrite Hf, reg_get_raw, Ht. Qed.

Lemma getf_valid cls fo v (d : dart) : pte_class cls fo -> getf cls "VALID" v d = (Ok (f_raw (FBit 0) v), d).
Proof. intros [Hv _ _ _ _]. by apply getf_int; [|apply field_ok_bit|]. Qed.

Lemma getf_offset cls fo v (d : dart) : pte_class cls fo -> getf cls "OFFSET" v d = (Ok (f_raw fo v), d).
Proof. intros [_ Ho Hok Ht _]. by apply getf_int. Qed.

Lemma init_ok cls fo v (d : dart) : pte_class cls fo -> py_lift (reg_init cls (Some v) []) d = (Ok v, d).
Proof. intros Hp. unfold py_lift. by rewrite (pc_init _ _ Hp). Qed.

Definition entry (m : Z -> byte) (table page off : Z) : Z := table_word m table (table_index page off).

Lemma table_lookup m t page off : table_of m t !! table_index page off = Some (entry m t page off).
Proof. apply table_of_lookup, table_index_lt. Qed.

Lemma table_entry m t page off (d : dart) :
  py_lift (py_index (table_of m t) (table_index page off)) d = (Ok (entry m t page off), d).
Proof. unfold py_lift, py_index. rewrite table_lookup. reflexivity. Qed.

#[local] Opaque entry.

Lemma walk_entry_ok cls fo d t page off : pte_class cls fo -> coherent d ->
  exists d', walk_entry cls t page off d = (Ok (entry (dt_mem d) t page off), d') /\ observed d d'.
Proof.
  intros Hp Hc. unfold walk_entry. destruct (get_pt_coherent d t false Hc) as (c & d1 & E1 & O1).
  rewrite (py_bind_ok _ _ _ _ _ E1). rewrite (py_bind_ok _ _ _ _ _ (table_entry _ _ _ _ d1)).
  rewrite (py_bind_ok _ _ _ _ _ (init_ok _ _ _ d1 Hp)).
  rewrite (py_bind_ok _ _ _ _ _ (getf_valid _ _ _ d1 Hp)).
  destruct ((_ =? 0) && c); [|exists d1; split; [reflexivity|exact O1]].
  destruct (get_pt_coherent d1 t true (proj1 O1)) as (c2 & d2 & E2 & O2). rewrite (py_bind_ok _ _ _ _ _ E2).
  rewrite (observed_mem _ _ O1), (py_bind_ok _ _ _ _ _ (table_entry _ _ _ _ d2)). exists d2.
  split; [exact (init_ok _ _ _ d2 Hp)|exact (observed_trans _ _ _ O1 O2)].
Qed.

#[local] Opaque walk_entry.

(** The last two levels as a function of the tables' entries. *)
Definition walk_tables (fo : field) (ent : Z -> Z -> Z -> Z) (l1 page : Z) : option Z :=
  let e1 := ent l1 page L1_OFF in
  if pte_valid e1 then
    let e2 := ent (pte_addr fo e1) page L2_OFF in
    if pte_valid e2 then Some (pte_addr fo e2) else None
  else None.

Section walk.
  Context (cls : reg_class) (fo : field) (Hp : pte_class cls fo) (m : Z -> byte) (ent : Z -> Z -> Z -> Z).
  Hypothesis Hent : forall d t page off, coherent d -> dt_mem d = m ->
    exists d', walk_entry cls t page off d = (Ok (ent t page off), d') /\ observed d d'.

Lemma walk_l1_ent d l1 page : coherent d -> dt_mem d = m ->
  exists d', walk_l1 cls l1 page d = (Ok (walk_tables fo ent l1 page), d') /\ observed d d'.
Proof.
  intros Hc Hm. unfold walk_l1, walk_tables. destruct (Hent d l1 page L1_OFF Hc Hm) as (d1 & E1 & O1).
  rewrite (py_bind_ok _ _ _ _ _ E1), (py_bind_ok _ _ _ _ _ (getf_valid _ _ _ d1 Hp)).
  destruct (f_raw (FBit 0) (ent l1 page L1_OFF) =? 0); cbn [negb]; [by exists d1|].
  rewrite (py_bind_ok _ _ _ _ _ (getf_offset _ _ _ d1 Hp)). pose proof (observed_mem _ _ O1) as Hm1.
  destruct (Hent d1 (pte_addr fo (ent l1 page L1_OFF)) page L2_OFF (proj1 O1) ltac:(congruence)) as (d2 & E2 & O2).
  pose proof (observed_trans _ _ _ O1 O2) as O3.
  rewrite (py_bind_ok _ _ _ _ _ E2), (py_bind_ok _ _ _ _ _ (getf_valid _ _ _ d2 Hp)).
  destruct (f_raw (FBit 0) (ent _ page L2_OFF) =? 0); cbn [negb]; [by exists d2|].
  rewrite (py_bind_ok _ _ _ _ _ (getf_offset _ _ _ d2 Hp)). by exists d2.
Qed.
End walk.

Lemma walk_entry_at cls fo m d t page off : pte_class cls fo -> coherent d -> dt_mem d = m ->
  exists d', walk_entry cls t page off d = (Ok (entry m t page off), d') /\ observed d d'.
Proof. intros Hp Hc <-. exact (walk_entry_ok cls fo d t page off Hp Hc). Qed.

Lemma walk_l1_ok cls fo m d l1 page : pte_class cls fo -> coherent d -> dt_mem d = m ->
  exists d', walk_l1 cls l1 page d = (Ok (walk_tables fo (entry m) l1 page), d') /\ observed d d'.
Proof.
  intros Hp. apply (walk_l1_ent cls fo Hp m (entry m)). intros d0 t p o. exact (walk_entry_at cls fo m d0 t p o Hp).
Qed.

#[local] Opaque walk_l1 walk_tables.

(** ** Translation as a function of registers and memory *)

Definition offset_field (cls : reg_class) : field := default (FBit 0) (find_field cls "OFFSET").

Definition four_levels (d : dart) (stream : Z) : bool := negb (f_raw (FBit 3) (dt_tcr d stream) =? 0).

(** The physical page an I/O page is mapped to. *)
Definition phys_page (k : dart_kind) (d : dart) (stream page : Z) : option Z :=
  match k with
  | K8020 cls =>
      let t := dt_ttbr d stream (Z.shiftr page L0_OFF) in
      if f_raw (FBit 31) t =? 0 then None
      else walk_tables (offset_field cls) (entry (dt_mem d)) (Z.shiftl (f_raw (FBits 30 0 TInt) t) 12) page
  | K8110 =>
      let t := dt_ttbr d stream 0 in
      if f_raw (FBit 0) t =? 0 then None else
      let root := Z.shiftl (f_raw (FBits 29 2 TInt) t) PAGE_BITS in
      if four_levels d stream then
        let e0 := entry (dt_mem d) root page L0_OFF in
        if pte_valid e0 then walk_tables (offset_field PTE_8110) (entry (dt_mem d)) (pte_addr (offset_field PTE_8110) e0) page else None
      else walk_tables (offset_field PTE_8110) (entry (dt_mem d)) root page
  end.

(** The physical address of an I/O address. *)
Definition phys (k : dart_kind) (d : dart) (stream x : Z) : option Z :=
  option_map (fun p => p + x mod PAGE_SIZE) (phys_page k d stream (x - x mod PAGE_SIZE)).

Definition kind_ok (k : dart_kind) : Prop :=
  match k with K8020 cls => cls = PTE_T8020 \/ cls = PTE_T6000 | K8110 => True end.

(** The stream translates: neither bypassed nor disabled. *)
Definition translating (k : dart_kind) (d : dart) (stream : Z) : Prop :=
  match k with
  | K8020 _ => f_raw (FBit 8) (dt_tcr d stream) = 0 /\ f_raw (FBit 7) (dt_tcr d stream) <> 0
  | K8110 => f_raw (FBit 1) (dt_tcr d stream) = 0 /\ f_raw (FBit 0) (dt_tcr d stream) <> 0
  end.

(** The I/O addresses the driver does not truncate. *)
Definition window (k : dart_kind) (d : dart) (stream : Z) : Z :=
  match k with K8020 _ => 2 ^ 32 | K8110 => if four_levels d stream then 2 ^ 44 else 2 ^ 36 end.

(** The addresses it can walk to from there. *)
Definition walk_limit (k : dart_kind) (x : Z) : Prop := match k with K8020 _ => x <= 2 ^ 38 | K8110 => True end.

Lemma pte_class_8020 cls : cls = PTE_T8020 \/ cls = PTE_T6000 -> pte_class cls (offset_field cls).
Proof. intros [-> | ->]; constructor; try reflexivity; unfold field_ok; simpl; lia. Qed.
Lemma pte_class_8110 : pte_class PTE_8110 (offset_field PTE_8110).
Proof. constructor; try reflexivity; unfold field_ok; simpl; lia. Qed.

Lemma reg_index_in n i : 0 <= i < n -> reg_index n i = Ok i.
Proof. intros H. unfold reg_index. by rewrite (proj2 (Z.leb_le _ _)), (proj2 (Z.ltb_lt _ _)) by lia. Qed.

Lemma dart_ttbr_ok cls n k d s i : 0 <= s < n -> 0 <= i < k -> (forall v, reg_init cls (Some v) [] = Ok v) ->
  dart_ttbr cls n k s i d = (Ok (dt_ttbr d s i), d).
Proof.
  intros Hs Hi Hr. unfold dart_ttbr, py_lift, py_get, py_bind. by rewrite !reg_index_in, Hr by done.
Qed.

Lemma dart_tcr_ok cls n d s : 0 <= s < n -> (forall v, reg_init cls (Some v) [] = Ok v) ->
  dart_tcr cls n s d = (Ok (dt_tcr d s), d).
Proof. intros Hs Hr. unfold dart_tcr, py_lift, py_get, py_bind. by rewrite reg_index_in, Hr by done. Qed.

Ltac int_field := first [reflexivity | unfold field_ok; simpl; lia].

Lemma walk_8020_ok cls d stream page :
  cls = PTE_T8020 \/ cls = PTE_T6000 -> coherent d -> 0 <= stream < 16 -> 0 <= page < 2 ^ 38 ->
  exists d', walk_8020 cls stream page d = (Ok (phys_page (K8020 cls) d stream page), d') /\ observed d d'.
Proof.
  intros Hk Hc Hs Hpg. pose proof (pte_class_8020 cls Hk) as Hp.
  assert (Hl0 : 0 <= Z.shiftr page L0_OFF < 4).
  { rewrite Z.shiftr_div_pow2 by done. split; [apply Z.div_pos; [lia|done]|]. apply Z.div_lt_upper_bound; [done|]. change (2 ^ L0_OFF * 4) with (2 ^ 38). lia. }
  unfold walk_8020. rewrite (proj2 (Z.ltb_lt (Z.shiftr page L0_OFF) L0_SIZE)) by (unfold L0_SIZE; lia). cbn [negb].
  rewrite (py_bind_ok _ _ _ _ _ (dart_ttbr_ok R_TTBR_dart8020 16 4 d stream _ Hs Hl0 ltac:(reflexivity))).
  rewrite (py_bind_ok _ _ _ _ _ (getf_int TTBR_8020 "VALID" (FBit 31) _ d ltac:(reflexivity) ltac:(int_field) ltac:(reflexivity))).
  cbn [phys_page]. destruct (_ =? 0); [exists d; split; [reflexivity|exact (observed_refl d Hc)]|].
  rewrite (py_bind_ok _ _ _ _ _ (getf_int TTBR_8020 "ADDR" (FBits 30 0 TInt) _ d ltac:(reflexivity) ltac:(int_field) ltac:(reflexivity))).
  exact (walk_l1_ok cls _ _ d _ page Hp Hc eq_refl).
Qed.

Lemma walk_8110_ok d stream page : coherent d -> 0 <= stream < 256 ->
  exists d', walk_8110 (four_levels d stream) stream page d = (Ok (phys_page K8110 d stream page), d') /\ observed d d'.
Proof.
  intros Hc Hs. unfold walk_8110. assert (H01 : 0 <= 0 < 1) by lia. pose proof pte_class_8110 as Hp.
  rewrite (py_bind_ok _ _ _ _ _ (dart_ttbr_ok R_TTBR_dart8110 256 1 d stream 0 Hs H01 ltac:(reflexivity))).
  rewrite (py_bind_ok _ _ _ _ _ (getf_int TTBR_8110 "VALID" (FBit 0) _ d ltac:(reflexivity) ltac:(int_field) ltac:(reflexivity))).
  cbn [phys_page]. destruct (f_raw (FBit 0) (dt_ttbr d stream 0) =? 0); [exists d; split; [reflexivity|exact (observed_refl d Hc)]|].
  rewrite (py_bind_ok _ _ _ _ _ (getf_int TTBR_8110 "ADDR" (FBits 29 2 TInt) _ d ltac:(reflexivity) ltac:(int_field) ltac:(reflexivity))).
  destruct (four_levels d stream); [|exact (walk_l1_ok PTE_8110 _ _ d _ page Hp Hc eq_refl)].
  set (root := Z.shiftl (f_raw (FBits 29 2 TInt) _) PAGE_BITS).
  match goal with |- context [walk_entry PTE_8110 ?t page L0_OFF] =>
    destruct (walk_entry_ok PTE_8110 _ d t page L0_OFF Hp Hc) as (d1 & E1 & O1) end.
  rewrite (py_bind_ok _ _ _ _ _ E1), (py_bind_ok _ _ _ _ _ (getf_valid _ _ _ d1 Hp)).
  destruct (f_raw (FBit 0) (entry _ _ _ _) =? 0); cbn [negb]; [exists d1; split; [reflexivity|exact O1]|].
  rewrite (py_bind_ok _ _ _ _ _ (getf_offset _ _ _ d1 Hp)).
  match goal with |- context [walk_l1 PTE_8110 ?t page] =>
    destruct (walk_l1_ok PTE_8110 _ (dt_mem d) d1 t page Hp (proj1 O1) (observed_mem _ _ O1)) as (d2 & E2 & O2) end.
  exists d2. split; [exact E2|exact (observed_trans _ _ _ O1 O2)].
Qed.

(** ** Translating a range *)

Lemma phys_page_observed k d d' stream page : observed d d' -> phys_page k d' stream page = phys_page k d stream page.
Proof. intros [_ E]. rewrite E. reflexivity. Qed.

#[local] Opaque phys_page.

(** A page loop whose body is exact returns the pages in order. *)
Lemma walk_pages_ok walk (f : Z -> option Z) n : forall d page, coherent d ->
  (forall d' i, observed d d' -> 0 <= i < Z.of_nat n ->
     exists d'', walk (page + i * PAGE_SIZE) d' = (Ok (f (page + i * PAGE_SIZE)), d'') /\ observed d' d'') ->
  exists d', walk_pages walk page n d = (Ok (map (fun i => f (page + Z.of_nat i * PAGE_SIZE)) (seq 0 n)), d') /\ observed d d'.
Proof.
  induction n as [|n IH]; intros d page Hc Hw; cbn [walk_pages].
  { exists d. split; [reflexivity|exact (observed_refl d Hc)]. }
  destruct (Hw d 0 (observed_refl d Hc) ltac:(lia)) as (d1 & E1 & O1). rewrite Z.mul_0_l, Z.add_0_r in E1.
  rewrite (py_bind_ok _ _ _ _ _ E1).
  destruct (IH d1 (page + PAGE_SIZE) (proj1 O1)) as (d2 & E2 & O2).
  { intros d' i Ho Hi. destruct (Hw d' (i + 1) (observed_trans _ _ _ O1 Ho) ltac:(lia)) as (d'' & E & O).
    replace (page + PAGE_SIZE + i * PAGE_SIZE) with (page + (i + 1) * PAGE_SIZE) by lia. by exists d''. }
  rewrite (py_bind_ok _ _ _ _ _ E2). exists d2. split; [|exact (observed_trans _ _ _ O1 O2)].
  unfold py_ret. cbn [seq map]. f_equal. f_equal. f_equal.
  - f_equal. lia.
  - rewrite <- seq_shift, map_map. apply map_ext. intros i. f_equal. lia.
Qed.

(** The pages of a request. *)
Lemma page_split start size : 0 < size ->
  let sp := align_down start PAGE_SIZE in let ep := align_up (start + size) PAGE_SIZE in
  sp = start - start mod PAGE_SIZE /\ exists n, page_count sp ep = n /\ (0 < n)%nat /\
    0 < start + size - (ep - PAGE_SIZE) <= PAGE_SIZE /\ ep - sp = Z.of_nat n * PAGE_SIZE.
Proof.
  intros Hs sp ep. pose proof (align_down_spec start 14 ltac:(lia)) as Hd. pose proof (align_up_spec (start + size) 14 ltac:(lia)) as Hu.
  change (2 ^ 14) with PAGE_SIZE in Hd, Hu. fold sp in Hd. fold ep in Hu. split; [done|].
  pose proof PAGE_SIZE_pos as HP. pose proof (Z.div_mod (start + size + PAGE_SIZE - 1) PAGE_SIZE ltac:(lia)) as H1.
  pose proof (Z.mod_pos_bound (start + size + PAGE_SIZE - 1) PAGE_SIZE HP) as H2.
  pose proof (Z.div_mod start PAGE_SIZE ltac:(lia)) as H3. pose proof (Z.mod_pos_bound start PAGE_SIZE HP) as H4.
  set (q := (start + size + PAGE_SIZE - 1) / PAGE_SIZE) in *. set (q' := start / PAGE_SIZE) in *.
  assert (He : ep - sp = (q - q') * PAGE_SIZE) by lia.
  exists (Z.to_nat (q - q')). unfold page_count. rewrite He, Z.div_mul by lia.
  assert (0 < q - q') by nia. split; [done|]. split; [lia|]. split; [lia|]. rewrite Z2Nat.id by lia. done.
Qed.

Lemma locate_page (f : Z -> option Z) n start i : 0 <= i -> let so := start mod PAGE_SIZE in
  i + so < Z.of_nat n * PAGE_SIZE ->
  page_byte (map (fun j => f (start - so + Z.of_nat j * PAGE_SIZE)) (seq 0 n)) (i + so) =
  Some (option_map (fun p => p + (start + i) mod PAGE_SIZE) (f (start + i - (start + i) mod PAGE_SIZE))).
Proof.
  intros Hi so Hlt. unfold page_byte. pose proof PAGE_SIZE_pos as HP.
  pose proof (Z.mod_pos_bound start PAGE_SIZE HP) as Hm. fold so in Hm.
  assert (Hd : 0 <= (i + so) / PAGE_SIZE < Z.of_nat n).
  { split; [apply Z.div_pos; lia|apply Z.div_lt_upper_bound; lia]. }
  rewrite list_lookup_fmap, lookup_seq_lt by lia. cbn [fmap option_fmap option_map].
  pose proof (Z.div_mod start PAGE_SIZE ltac:(lia)) as Hs. fold so in Hs.
  assert (Hmod : (start + i) mod PAGE_SIZE = (i + so) mod PAGE_SIZE).
  { replace (start + i) with (i + so + start / PAGE_SIZE * PAGE_SIZE) by lia. apply Z_mod_plus_full. }
  rewrite Hmod. rewrite Nat.add_0_l, Z2Nat.id by lia.
  replace (start - so + (i + so) / PAGE_SIZE * PAGE_SIZE) with (start + i - (i + so) mod PAGE_SIZE); [done|].
  rewrite Z.mod_eq by lia. lia.
Qed.

(** What [iotranslate] promises: ranges of positive size that cover the request
    and locate every byte of it. *)
Definition ranges_exact (rs : list (option Z * Z)) (size : Z) (f : Z -> option Z) : Prop :=
  sizes_pos rs /\ total rs = size /\ forall i, 0 <= i < size -> locate rs i = Some (f i).

(** A walk that computes [phys_page] on the pages of a request. *)
Definition exact_walk (walk : Z -> M dart (option Z)) (k : dart_kind) (d : dart) (stream start size : Z) : Prop :=
  forall d' page, observed d d' -> start - start mod PAGE_SIZE <= page < start + size ->
    exists d'', walk page d' = (Ok (phys_page k d' stream page), d'') /\ observed d' d''.

(** The pages a translation merges. *)
Definition request_pages (k : dart_kind) (d : dart) (stream start size : Z) : list (option Z) :=
  map (fun i => phys_page k d stream (start - start mod PAGE_SIZE + Z.of_nat i * PAGE_SIZE))
    (seq 0%nat (page_count (align_down start PAGE_SIZE) (align_up (start + size) PAGE_SIZE))).

Lemma translate_range_pages walk k d stream start size : coherent d -> 0 < size ->
  exact_walk walk k d stream start size ->
  exists d', observed d d' /\ translate_range walk start size d =
    (merge_ranges (request_pages k d stream start size) (start mod PAGE_SIZE)
       (start + size - (align_up (start + size) PAGE_SIZE - PAGE_SIZE)), d').
Proof.
  intros Hc Hs Hw. unfold translate_range, request_pages. destruct (page_split start size Hs) as (Hsp & n & Hn & Hn0 & Hes & Hep).
  rewrite Hn, Hsp in *. set (so := start mod PAGE_SIZE) in *. pose proof PAGE_SIZE_pos as HP.
  destruct (walk_pages_ok walk (phys_page k d stream) n d (start - so) Hc) as (d1 & E1 & O1).
  { intros d' i Ho Hi. rewrite <- (phys_page_observed k d d' stream _ Ho). apply Hw; [done|].
    pose proof (Z.mod_pos_bound start PAGE_SIZE HP) as Hso. fold so in Hso |- *.
    assert (i * PAGE_SIZE <= (Z.of_nat n - 1) * PAGE_SIZE) by (apply Z.mul_le_mono_nonneg_r; lia). nia. }
  exists d1. split; [done|]. rewrite (py_bind_ok _ _ _ _ _ E1). by replace (start - (start - so)) with so by lia.
Qed.

Lemma translate_range_ok walk k d stream start size : coherent d -> 0 < size ->
  (start mod PAGE_SIZE = 0 \/ phys_page k d stream (start - start mod PAGE_SIZE) <> Some 0) ->
  exact_walk walk k d stream start size ->
  exists rs d', translate_range walk start size d = (Ok rs, d') /\ observed d d' /\
    ranges_exact rs size (fun i => phys k d stream (start + i)).
Proof.
  intros Hc Hs Hz Hw. destruct (translate_range_pages walk k d stream start size Hc Hs Hw) as (d1 & O1 & ->). unfold request_pages.
  destruct (page_split start size Hs) as (Hsp & n & Hn & Hn0 & Hes & Hep). rewrite Hn, Hsp in *.
  set (so := start mod PAGE_SIZE) in *. pose proof PAGE_SIZE_pos as HP.
  pose proof (Z.mod_pos_bound start PAGE_SIZE HP) as Hso. fold so in Hso.
  set (pages := map _ (seq 0 n)) in *.
  assert (Hzp : zlen pages = Z.of_nat n) by (unfold zlen, pages; by rewrite length_map, length_seq).
  destruct (merge_ranges_exact pages so (start + size - (align_up (start + size) PAGE_SIZE - PAGE_SIZE)))
    as (rs & Hrs & Hpos & Htot & Hloc).
  - intros E. rewrite E in Hzp. unfold zlen in Hzp. simpl in Hzp. lia.
  - done.
  - done.
  - rewrite Hzp. lia.
  - destruct Hz as [Hz|Hz]; [by left|]. right. unfold pages. destruct n; [lia|]. cbn [seq map head].
    replace (start - so + Z.of_nat 0 * PAGE_SIZE) with (start - so) by lia. congruence.
  - rewrite Hzp in Htot. rewrite Hrs.
    exists rs, d1. split; [done|]. split; [done|]. split; [done|]. split; [lia|].
    intros i Hi. rewrite Hloc by lia. apply locate_page; [lia|]. fold so. lia.
Qed.

(** ** The translations *)

Definition streams (k : dart_kind) : Z := match k with K8020 _ => 16 | K8110 => 256 end.

(** The conditions under which [iotranslate] and what is built on it are exact. *)
Record translatable (k : dart_kind) (d : dart) (stream start size : Z) : Prop := {
  tr_kind : kind_ok k;
  tr_cache : coherent d;
  tr_stream : 0 <= stream < streams k;
  tr_on : translating k d stream;
  tr_size : 0 < size;
  tr_start : 0 <= start < window k d stream;
  tr_end : walk_limit k (start + size);
  tr_first : start mod PAGE_SIZE = 0 \/ phys_page k d stream (start - start mod PAGE_SIZE) <> Some 0
}.

Lemma land_window x n : 0 <= n -> 0 <= x < 2 ^ n -> Z.land x (2 ^ n - 1) = x.
Proof. intros Hn Hx. replace (2 ^ n - 1) with (Z.ones n) by (rewrite Z.ones_equiv; lia). rewrite Z.land_ones by done. by apply Z.mod_small. Qed.

(** With the mode and the window right, [iotranslate] is the translation of a
    range by an exact walk. *)
Lemma iotranslate_walk k d stream start size :
  kind_ok k -> coherent d -> 0 <= stream < streams k -> translating k d stream -> 0 < size ->
  0 <= start < window k d stream -> walk_limit k (start + size) ->
  exists walk, dart_iotranslate k stream start size d = translate_range walk start size d /\
    exact_walk walk k d stream start size.
Proof.
  intros Hk Hc Hst Htr Hs Hw He. pose proof PAGE_SIZE_pos as HP. pose proof (Z.mod_pos_bound start PAGE_SIZE HP) as Hm.
  assert (Hm' : start mod PAGE_SIZE <= start) by (apply Z.mod_le; lia).
  destruct k as [cls|]; cbn [dart_iotranslate streams kind_ok window translating walk_limit] in *; destruct Htr as [Hb Ht].
  - exists (walk_8020 cls stream). split.
    + unfold iotranslate_8020. rewrite (proj2 (Z.eqb_neq _ _)) by lia.
      rewrite (py_bind_ok _ _ _ _ _ (dart_tcr_ok R_TCR_dart8020 16 d stream Hst ltac:(reflexivity))).
      rewrite (py_bind_ok _ _ _ _ _ (getf_int R_TCR_dart8020 "BYPASS_DART" (FBit 8) _ d ltac:(reflexivity) ltac:(int_field) ltac:(reflexivity))).
      rewrite (py_bind_ok _ _ _ _ _ (getf_int R_TCR_dart8020 "TRANSLATE_ENABLE" (FBit 7) _ d ltac:(reflexivity) ltac:(int_field) ltac:(reflexivity))).
      rewrite Hb. apply Z.eqb_neq in Ht. rewrite Ht. cbn [Z.eqb negb andb orb].
      by replace (Z.land start _) with start by (symmetry; apply (land_window start 32); lia).
    + intros d' page Ho Hp. apply walk_8020_ok; [done|exact (proj1 Ho)|done|lia].
  - exists (walk_8110 (four_levels d stream) stream). split.
    + unfold iotranslate_8110. rewrite (proj2 (Z.eqb_neq _ _)) by lia.
      rewrite (py_bind_ok _ _ _ _ _ (dart_tcr_ok TCR_8110 256 d stream Hst ltac:(reflexivity))).
      rewrite (py_bind_ok _ _ _ _ _ (getf_int TCR_8110 "BYPASS_DART" (FBit 1) _ d ltac:(reflexivity) ltac:(int_field) ltac:(reflexivity))).
      rewrite (py_bind_ok _ _ _ _ _ (getf_int TCR_8110 "TRANSLATE_ENABLE" (FBit 0) _ d ltac:(reflexivity) ltac:(int_field) ltac:(reflexivity))).
      rewrite Hb. apply Z.eqb_neq in Ht. rewrite Ht. cbn [Z.eqb negb andb orb].
      rewrite (py_bind_ok _ _ _ _ _ (getf_int TCR_8110 "FOUR_LEVELS" (FBit 3) _ d ltac:(reflexivity) ltac:(int_field) ltac:(reflexivity))).
      fold (four_levels d stream). replace (Z.land start _) with start; [done|].
      symmetry. destruct (four_levels d stream); [apply (land_window start 44)|apply (land_window start 36)]; lia.
    + intros d' page Ho Hp. replace (four_levels d stream) with (four_levels d' stream) by (destruct Ho as [_ ->]; done).
      apply walk_8110_ok; [exact (proj1 Ho)|done].
Qed.

Lemma iotranslate_ok k d stream start size : translatable k d stream start size ->
  exists rs d', dart_iotranslate k stream start size d = (Ok rs, d') /\ observed d d' /\
    ranges_exact rs size (fun i => phys k d stream (start + i)).
Proof.
  intros [Hk Hc Hst Htr Hs Hw He Hz]. destruct (iotranslate_walk k d stream start size Hk Hc Hst Htr Hs Hw He) as (walk & -> & Hex).
  by apply translate_range_ok.
Qed.

(** C28: [iotranslate] is exact on every DART.  For a stream that translates, with
    a table cache that agrees with memory and a request inside the window the
    driver does not truncate, it returns ranges of positive size that sum to the
    request and locate each of its bytes where the hardware tables do (or report
    it unmapped), and changes nothing but the cache, which stays in agreement.
    The first page must not be physical page 0 when the request starts inside it.
    (What goes wrong outside these conditions: [translate_truncates],
    [page_zero_lost].)
    A zero size gives no ranges. *)
Theorem iotranslate_exact k d stream start size (H : size = 0 \/ translatable k d stream start size) :
  exists rs d', dart_iotranslate k stream start size d = (Ok rs, d') /\
    (d' = d \/ observed d d') /\ ranges_exact rs size (fun i => phys k d stream (start + i)).
Proof.
  destruct H as [->|H].
  - exists [], d. split; [by destruct k|]. split; [by left|]. split; [constructor|]. split; [done|lia].
  - destruct (iotranslate_ok k d stream start size H) as (rs & d' & E & O & Hr). exists rs, d'. eauto.
Qed.

(** ** Reading and writing through the translation *)

Lemma read_ranges_ok rs : forall d, sizes_pos rs ->
  (forall i, 0 <= i < total rs -> exists p, locate rs i = Some (Some p)) ->
  exists b, read_ranges rs d = (Ok b, d) /\ zlen b = total rs /\
    forall i p, 0 <= i -> locate rs i = Some (Some p) -> b !! Z.to_nat i = Some (dt_mem d p).
Proof.
  induction rs as [|[a s] rs IH]; intros d Hp Hm.
  { exists []. split; [done|]. split; [done|]. intros i p _ [=]. }
  inversion Hp as [|? ? Hs Hp']; subst. cbn [snd] in Hs. rewrite total_cons in *. pose proof (total_nonneg rs Hp').
  destruct (Hm 0 ltac:(lia)) as [p0 H0]. cbn [locate] in H0. rewrite (proj2 (Z.ltb_lt _ _)) in H0 by lia.
  destruct a as [a|]; [|done].
  assert (Hrest : forall i, 0 <= i < total rs -> exists p, locate rs i = Some (Some p)).
  { intros i Hi. destruct (Hm (i + s) ltac:(lia)) as [p Hpi]. cbn [locate] in Hpi.
    rewrite (proj2 (Z.ltb_ge _ _)) in Hpi by lia. replace (i + s - s) with i in Hpi by lia. by exists p. }
  destruct (IH d Hp' Hrest) as (t & Et & Hlt & Hlk). cbn [read_ranges].
  rewrite (py_bind_ok (dart_readmem a (Z.to_nat s)) _ d (mem_read (dt_mem d) a (Z.to_nat s)) d eq_refl), (py_bind_ok _ _ _ _ _ Et).
  eexists. split; [reflexivity|]. split; [rewrite zlen_app, Hlt; unfold zlen; rewrite length_mem_read; lia|].
  intros i p Hi Hpi. cbn [locate] in Hpi. destruct (Z.ltb_spec i s).
  - injection Hpi as <-. rewrite lookup_app_l by (rewrite length_mem_read; lia). rewrite lookup_mem_read by lia.
    by rewrite Z2Nat.id by lia.
  - rewrite lookup_app_r by (rewrite length_mem_read; lia). rewrite length_mem_read.
    replace (Z.to_nat i - Z.to_nat s)%nat with (Z.to_nat (i - s)) by lia. apply Hlk; [lia|done].
Qed.

Lemma read_ranges_unmapped rs : forall d i, sizes_pos rs -> 0 <= i -> locate rs i = Some None ->
  read_ranges rs d = (Raise (GenericException "Unmapped page"), d).
Proof.
  induction rs as [|[[a|] s] rs IH]; intros d i Hp Hi Hl; [done| |done].
  inversion Hp as [|? ? Hs Hp']; subst. cbn [locate read_ranges] in *. destruct (Z.ltb_spec i s); [done|].
  rewrite (py_bind_ok (dart_readmem a (Z.to_nat s)) _ d (mem_read (dt_mem d) a (Z.to_nat s)) d eq_refl).
  by rewrite (py_bind_raise _ _ _ _ _ (IH d (i - s) Hp' ltac:(lia) Hl)).
Qed.

(** [ioread] reads through the tables: when every byte of the request is
    mapped it returns exactly the target's bytes at the translated addresses;
    when any byte is unmapped it raises.  Neither memory nor a register changes. *)
Theorem ioread_exact k d stream base size (H : translatable k d stream base size) :
  exists r d', ioread k stream base size d = (r, d') /\ observed d d' /\
    ((forall i, 0 <= i < size -> is_Some (phys k d stream (base + i))) ->
       exists b, r = Ok b /\ zlen b = size /\
         forall i p, 0 <= i < size -> phys k d stream (base + i) = Some p -> b !! Z.to_nat i = Some (dt_mem d p)) /\
    ((exists i, 0 <= i < size /\ phys k d stream (base + i) = None) ->
       r = Raise (GenericException "Unmapped page")).
Proof.
  pose proof (tr_size _ _ _ _ _ H) as Hs. unfold ioread. rewrite (proj2 (Z.eqb_neq _ _)) by lia.
  destruct (iotranslate_ok k d stream base size H) as (rs & d' & E & O & Hp & Ht & Hl).
  rewrite (py_bind_ok _ _ _ _ _ E). exists (fst (read_ranges rs d')), (snd (read_ranges rs d')).
  split; [apply surjective_pairing|].
  assert (Hst : snd (read_ranges rs d') = d').
  { clear. induction rs as [|[[a|] s] rs IH]; [done| |done]. cbn [read_ranges].
    rewrite (py_bind_ok (dart_readmem a (Z.to_nat s)) _ d' (mem_read (dt_mem d') a (Z.to_nat s)) d' eq_refl).
    unfold py_bind. destruct (read_ranges rs d') as [[|] ?]; exact IH. }
  rewrite Hst. split; [done|]. split.
  - intros Hm. destruct (read_ranges_ok rs d' Hp) as (b & Eb & Hzb & Hlk).
    { intros i Hi. rewrite Ht in Hi. destruct (Hm i Hi) as [p Hpi]. exists p. rewrite Hl by lia. by rewrite Hpi. }
    exists b. rewrite Eb. split; [done|]. split; [lia|]. intros i p Hi Hpi. rewrite <- (observed_mem _ _ O).
    apply Hlk; [lia|]. rewrite Hl by lia. by rewrite Hpi.
  - intros (i & Hi & Hn). rewrite (read_ranges_unmapped rs d' i Hp); [done|lia|]. rewrite Hl by lia. by rewrite Hn.
Qed.

(** Writing the ranges stores the data where they locate it. *)
Lemma write_ranges_ok rs : forall d data, sizes_pos rs -> zlen data = total rs ->
  (forall i, 0 <= i < total rs -> exists p, locate rs i = Some (Some p)) ->
  (forall i j p, 0 <= i -> 0 <= j -> locate rs i = Some (Some p) -> locate rs j = Some (Some p) -> i = j) ->
  exists m, write_ranges rs data d = (Ok tt, dt_set_mem m d) /\
    (forall i p b, 0 <= i -> locate rs i = Some (Some p) -> data !! Z.to_nat i = Some b -> m p = b) /\
    (forall x, (forall i, 0 <= i -> locate rs i <> Some (Some x)) -> m x = dt_mem d x).
Proof.
  induction rs as [|[a s] rs IH]; intros d data Hp Hz Hm Hinj.
  { exists (dt_mem d). split; [by destruct d|]. split; [intros i p b _ [=]|done]. }
  inversion Hp as [|? ? Hs Hp']; subst. cbn [snd] in Hs. rewrite total_cons in *. pose proof (total_nonneg rs Hp').
  destruct (Hm 0 ltac:(lia)) as [p0 H0]. cbn [locate] in H0. rewrite (proj2 (Z.ltb_lt _ _)) in H0 by lia.
  destruct a as [a|]; [|done]. clear p0 H0.
  assert (Hhere : forall i, 0 <= i < s -> locate ((Some a, s) :: rs) i = Some (Some (a + i))).
  { intros i Hi. cbn [locate]. by rewrite (proj2 (Z.ltb_lt _ _)) by lia. }
  assert (Hthere : forall i, 0 <= i -> locate ((Some a, s) :: rs) (i + s) = locate rs i).
  { intros i Hi. cbn [locate]. rewrite (proj2 (Z.ltb_ge _ _)) by lia. f_equal. lia. }
  set (d1 := dt_set_mem (mem_store a (take (Z.to_nat s) data) (dt_mem d)) d).
  destruct (IH d1 (drop (Z.to_nat s) data) Hp') as (m & E & Hset & Hkeep).
  { unfold zlen in *. rewrite length_drop. lia. }
  { intros i Hi. rewrite <- Hthere by lia. apply Hm. lia. }
  { intros i j p Hi Hj. rewrite <- !Hthere by lia. intros H1 H2. pose proof (Hinj (i + s) (j + s) p ltac:(lia) ltac:(lia) H1 H2). lia. }
  exists m. cbn [write_ranges]. split; [|split].
  - rewrite (py_bind_ok (dart_writemem a (take (Z.to_nat s) data)) _ d tt d1 eq_refl), E. by destruct d.
  - intros i p b Hi Hl Hb. destruct (Z.lt_ge_cases i s) as [Hlt|Hge].
    + rewrite Hhere in Hl by lia. injection Hl as <-. rewrite Hkeep.
      * cbn [d1 dt_mem dt_set_mem]. unfold mem_store. rewrite (proj2 (Z.leb_le _ _)) by lia.
        replace (Z.to_nat (a + i - a)) with (Z.to_nat i) by lia. by rewrite lookup_take_lt, Hb by lia.
      * intros j Hj Hlj. rewrite <- Hthere in Hlj by lia. pose proof (Hinj (j + s) i _ ltac:(lia) ltac:(lia) Hlj (Hhere i ltac:(lia))). lia.
    + apply (Hset (i - s)); [lia| |].
      * rewrite <- Hthere by lia. by replace (i - s + s) with i by lia.
      * rewrite lookup_drop. by replace (Z.to_nat s + Z.to_nat (i - s))%nat with (Z.to_nat i) by lia.
  - intros x Hx. rewrite Hkeep.
    + cbn [d1 dt_mem dt_set_mem]. unfold mem_store. destruct (Z.leb_spec a x); [|done].
      destruct (take (Z.to_nat s) data !! Z.to_nat (x - a)) eqn:El; [|done]. apply lookup_lt_Some in El.
      rewrite length_take in El. exfalso. apply (Hx (x - a)); [lia|]. rewrite Hhere by lia. f_equal. f_equal. lia.
    + intros i Hi. rewrite <- Hthere by lia. apply Hx. lia.
Qed.

(** [iowrite] writes through the tables: when every byte of the request is
    mapped and no two to the same address, it stores byte [i] of the data at the
    translation of [base + i] and leaves every other byte of memory, every
    register and the heap as they were. *)
Theorem iowrite_exact k d stream base data
    (H : translatable k d stream base (zlen data))
    (Hm : forall i, 0 <= i < zlen data -> is_Some (phys k d stream (base + i)))
    (Hinj : forall i j, 0 <= i < zlen data -> 0 <= j < zlen data ->
              phys k d stream (base + i) = phys k d stream (base + j) -> i = j) :
  exists d1 m, iowrite k stream base data d = (Ok tt, dt_set_mem m d1) /\ observed d d1 /\
    (forall i p b, 0 <= i -> phys k d stream (base + i) = Some p -> data !! Z.to_nat i = Some b -> m p = b) /\
    (forall x, (forall i, 0 <= i < zlen data -> phys k d stream (base + i) <> Some x) -> m x = dt_mem d x).
Proof.
  destruct (iotranslate_ok _ _ _ _ _ H) as (rs & d1 & E & O & Hp & Ht & Hl).
  assert (Hrange : forall i p, 0 <= i -> locate rs i = Some (Some p) -> i < zlen data /\ phys k d stream (base + i) = Some p).
  { intros i p Hi Hli. destruct (Z.lt_ge_cases i (zlen data)) as [Hlt|Hge].
    - rewrite Hl in Hli by lia. injection Hli as Hli. done.
    - exfalso. rewrite <- Ht in Hge. clear -Hp Hi Hge Hli. revert i Hi Hge Hli.
      induction Hp as [|[a s] rs Hs Hp IH]; intros i Hi Hge Hli; [done|]. rewrite total_cons in Hge. cbn [locate snd] in *.
      pose proof (total_nonneg rs Hp). rewrite (proj2 (Z.ltb_ge _ _)) in Hli by lia. apply (IH (i - s)); [lia|lia|done]. }
  destruct (write_ranges_ok rs d1 data Hp (eq_sym Ht)) as (m & Em & Hset & Hkeep).
  { intros i Hi. rewrite Ht in Hi. destruct (Hm i Hi) as [p Hpi]. exists p. rewrite Hl by lia. by rewrite Hpi. }
  { intros i j p Hi Hj H1 H2. apply Hrange in H1 as [? H1], H2 as [? H2]; [|done..]. apply Hinj; [lia..|congruence]. }
  exists d1, m. split; [|split; [done|split]].
  - unfold iowrite. destruct data as [|b0 data]; [pose proof (tr_size _ _ _ _ _ H) as Hs0; unfold zlen in Hs0; simpl in Hs0; lia|].
    by rewrite (py_bind_ok _ _ _ _ _ E).
  - intros i p b Hi Hpi Hb. apply (Hset i); [done| |done]. apply lookup_lt_Some in Hb as Hlt.
    rewrite Hl by (unfold zlen; lia). by rewrite Hpi.
  - intros x Hx. rewrite Hkeep; [by rewrite (observed_mem _ _ O)|]. intros i Hi Hli.
    apply Hrange in Hli as [? Hli]; [|done]. apply (Hx i); [lia|done].
Qed.

(** ** A small IOMMU *)

(** Stream 1 maps I/O pages 0 and 1 to the physical pages 0x20000 and 0x28000. *)
Definition words_mem (ws : list (Z * Z)) (x : Z) : byte :=
  match List.find (fun w => (fst w <=? x) && (x <? fst w + 8)) ws with
  | Some (a, v) => nth (Z.to_nat (x - a)) (le_bytes 8 v) x00
  | None => x00
  end.
Definition demo_dart : dart :=
  {| dt_tcr := fun _ => 0x80; dt_ttbr := fun s i => if (s =? 1) && (i =? 0) then 0x80000010 else 0;
     dt_enabled_reg := fun _ => 2; dt_enabled := 2; dt_cache := ∅; dt_mem := words_mem [(0x10000, 0x14001); (0x14000, 0x20001); (0x14008, 0x28001)];
     dt_heap := {| hp_offset := 0; hp_count := 64; hp_blocks := [(64, false)]; hp_block := 0x4000 |} |}.

Lemma demo_phys_0 : phys_page (K8020 PTE_T8020) demo_dart 1 0 = Some 0x20000.
Proof. vm_compute. reflexivity. Qed.

Lemma demo_translatable size : 0 < size <= 0x8000 -> translatable (K8020 PTE_T8020) demo_dart 1 0x10 size.
Proof.
  intros Hs. constructor; simpl; try lia; [by left|intros a l; simpl; by rewrite lookup_empty| |].
  - split; [reflexivity|discriminate].
  - right. change (0x10 - 0x10 mod PAGE_SIZE) with 0. rewrite demo_phys_0. discriminate.
Qed.

Lemma iotranslate_exact_witness :
  exists rs d', dart_iotranslate (K8020 PTE_T8020) 1 0x10 0x5000 demo_dart = (Ok rs, d') /\
    (d' = demo_dart \/ observed demo_dart d') /\
    ranges_exact rs 0x5000 (fun i => phys (K8020 PTE_T8020) demo_dart 1 (0x10 + i)).
Proof. apply iotranslate_exact. right. apply demo_translatable. lia. Defined.

Lemma ioread_exact_witness :
  exists r d', ioread (K8020 PTE_T8020) 1 0x10 0x5000 demo_dart = (r, d') /\ observed demo_dart d' /\
    ((forall i, 0 <= i < 0x5000 -> is_Some (phys (K8020 PTE_T8020) demo_dart 1 (0x10 + i))) ->
       exists b, r = Ok b /\ zlen b = 0x5000 /\
         forall i p, 0 <= i < 0x5000 -> phys (K8020 PTE_T8020) demo_dart 1 (0x10 + i) = Some p ->
           b !! Z.to_nat i = Some (dt_mem demo_dart p)) /\
    ((exists i, 0 <= i < 0x5000 /\ phys (K8020 PTE_T8020) demo_dart 1 (0x10 + i) = None) ->
       r = Raise (GenericException "Unmapped page")).
Proof. apply ioread_exact. apply demo_translatable. lia. Defined.

Lemma demo_phys i : 0 <= i < 0x3ff0 -> phys (K8020 PTE_T8020) demo_dart 1 (0x10 + i) = Some (0x20010 + i).
Proof.
  intros Hi. unfold phys. rewrite (Z.mod_small (0x10 + i)) by (change PAGE_SIZE with 0x4000; lia).
  rewrite Z.sub_diag, demo_phys_0. cbn [option_map]. f_equal. lia.
Qed.

Lemma iowrite_exact_witness :
  exists d1 m, iowrite (K8020 PTE_T8020) 1 0x10 [xaa; xbb] demo_dart = (Ok tt, dt_set_mem m d1) /\ observed demo_dart d1 /\
    (forall i p b, 0 <= i -> phys (K8020 PTE_T8020) demo_dart 1 (0x10 + i) = Some p -> [xaa; xbb] !! Z.to_nat i = Some b -> m p = b) /\
    (forall x, (forall i, 0 <= i < zlen [xaa; xbb] -> phys (K8020 PTE_T8020) demo_dart 1 (0x10 + i) <> Some x) ->
       m x = dt_mem demo_dart x).
Proof.
  apply iowrite_exact; change (zlen [xaa; xbb]) with 2.
  - apply demo_translatable. lia.
  - intros i Hi. rewrite demo_phys by lia. by eexists.
  - intros i j Hi Hj. rewrite !demo_phys by lia. intros [=]. lia.
Defined.

(** A request inside the page mapped to physical address 0 is reported unmapped,
    although the page is mapped and a request at its start translates. *)
Definition zero_page_dart : dart :=
  dt_set_mem (words_mem [(0x10000, 0x14001); (0x14000, 1)]) demo_dart.

Lemma page_zero_lost :
  phys_page (K8020 PTE_T8020) zero_page_dart 1 0 = Some 0 /\
  fst (dart_iotranslate (K8020 PTE_T8020) 1 0 0x10 zero_page_dart) = Ok [(Some 0, 0x10)] /\
  fst (dart_iotranslate (K8020 PTE_T8020) 1 0x10 0x10 zero_page_dart) = Ok [(None, 0x10)].
Proof.
  assert (Hrun : forall start, 0 <= start < 2 ^ 32 -> fst (dart_iotranslate (K8020 PTE_T8020) 1 start 0x10 zero_page_dart) =
    merge_ranges (request_pages (K8020 PTE_T8020) zero_page_dart 1 start 0x10) (start mod PAGE_SIZE)
      (start + 0x10 - (align_up (start + 0x10) PAGE_SIZE - PAGE_SIZE))).
  { intros start Hs.
    destruct (iotranslate_walk (K8020 PTE_T8020) zero_page_dart 1 start 0x10) as (walk & -> & Hw); simpl; try lia;
      [by left|intros a l; simpl; by rewrite lookup_empty|by split|].
    destruct (translate_range_pages walk (K8020 PTE_T8020) zero_page_dart 1 start 0x10) as (d' & _ & ->);
      [intros a l; simpl; by rewrite lookup_empty|lia|done|done]. }
  rewrite !Hrun by lia. split; [|split]; vm_compute; reflexivity.
Qed.

(** A T8020 DART truncates the start of a translation to 32 bits while it maps
    38-bit addresses: above 4 GiB [iotranslate] answers for another page. *)
Lemma translate_truncates :
  dart_iotranslate (K8020 PTE_T8020) 1 (2 ^ 32) 0x4000 demo_dart = dart_iotranslate (K8020 PTE_T8020) 1 0 0x4000 demo_dart /\
  phys_page (K8020 PTE_T8020) demo_dart 1 (2 ^ 32) = None.
Proof. split; [reflexivity|vm_compute; reflexivity]. Qed.

(** [iomap] has allocators for streams 0 to 15 only; a T8110 has 256 streams, and
    [iomap] raises on the others before it maps anything. *)
Lemma iomap_high_stream order lo hi hs d stream addr size : iova_allocators lo hi = Ok hs -> 16 <= stream ->
  iomap order K8110 stream addr size (hs, d) = (Raise IndexError, (hs, d)).
Proof.
  intros E Hs. assert (Hl : zlen hs = 16).
  { unfold iova_allocators in E. destruct (heap_init lo hi PAGE_SIZE) as [h|]; [|done]. cbn [rbind] in E. by injection E as <-. }
  unfold iomap. rewrite Hl. unfold reg_index.
  by rewrite (proj2 (Z.ltb_ge stream 16)), (proj2 (Z.ltb_ge stream 0)), !andb_false_r by lia.
Qed.

(** ** A second mapping on a four-level T8110 *)

Lemma enable_stream_8110_ok d stream : 0 <= stream < 256 ->
  exists reg e, enable_stream_8110 stream d = (Ok tt, dt_set_enabled reg e d).
Proof.
  intros Hs. unfold enable_stream_8110. unfold py_shl. rewrite (proj2 (Z.ltb_ge _ _)) by lia.
  unfold py_bind, py_lift, py_get, py_modify. destruct (negb _).
  - exists (dt_enabled_reg d), (dt_enabled d). by destruct d.
  - rewrite reg_index_in.
    + eexists _, _. reflexivity.
    + split; [apply Z.div_pos; lia|apply Z.div_lt_upper_bound; lia].
Qed.

Lemma check_mode_8110 d stream : translating K8110 d stream -> check_mode TCR_8110 (dt_tcr d stream) d = (Ok tt, d).
Proof.
  intros [Hb Ht]. unfold check_mode.
  rewrite (py_bind_ok _ _ _ _ _ (getf_int TCR_8110 "BYPASS_DART" (FBit 1) _ d ltac:(reflexivity) ltac:(int_field) ltac:(reflexivity))).
  rewrite (py_bind_ok _ _ _ _ _ (getf_int TCR_8110 "TRANSLATE_ENABLE" (FBit 0) _ d ltac:(reflexivity) ltac:(int_field) ltac:(reflexivity))).
  rewrite Hb. apply Z.eqb_neq in Ht. rewrite Ht. reflexivity.
Qed.

Lemma check_aligned_ok addr iova (d : dart) : addr mod PAGE_SIZE = 0 -> iova mod PAGE_SIZE = 0 ->
  check_aligned addr iova d = (Ok tt, d).
Proof.
  intros Ha Hi. unfold check_aligned. change (PAGE_SIZE - 1) with (Z.ones 14). rewrite !Z.land_ones by lia.
  change (2 ^ 14) with PAGE_SIZE. by rewrite Ha, Hi.
Qed.

Definition root_8110 (d : dart) (stream : Z) : Z := Z.shiftl (f_raw (FBits 29 2 TInt) (dt_ttbr d stream 0)) PAGE_BITS.

(** Mapping into a four-level T8110 stream fails once the first entry exists:
    when the root table already has a valid L0 entry for the first page of the
    request, [iomap_at] raises a [NameError] before it maps anything, because
    the branch that reuses the entry reads [l1pte] before it is assigned; memory,
    TTBR and tables stay as they were. *)
Theorem remap_four_levels_fails order d stream iova addr size
    (Hc : coherent d) (Hs : 0 <= stream < 256) (Htr : translating K8110 d stream) (H4 : four_levels d stream = true)
    (Hv : f_raw (FBit 0) (dt_ttbr d stream 0) <> 0)
    (Hl0 : f_raw (FBit 0) (entry (dt_mem d) (root_8110 d stream) iova L0_OFF) <> 0)
    (Ha : addr mod PAGE_SIZE = 0) (Hi : iova mod PAGE_SIZE = 0) (Hsz : 0 < size) :
  exists d' reg e, iomap_at_8110 order stream iova addr size d = (Raise (NameError "l1pte"), d') /\
    observed (dt_set_enabled reg e d) d'.
Proof.
  unfold iomap_at_8110. rewrite (proj2 (Z.eqb_neq _ _)) by lia.
  destruct (enable_stream_8110_ok d stream Hs) as (reg & e & E). rewrite (py_bind_ok _ _ _ _ _ E).
  set (d0 := dt_set_enabled reg e d). assert (Hc0 : coherent d0) by exact Hc.
  rewrite (py_bind_ok _ _ _ _ _ (dart_tcr_ok TCR_8110 256 d0 stream Hs ltac:(reflexivity))).
  rewrite (py_bind_ok _ _ _ _ _ (check_mode_8110 d0 stream Htr)), (py_bind_ok _ _ _ _ _ (check_aligned_ok _ _ d0 Ha Hi)).
  rewrite (py_bind_ok _ _ _ _ _ (getf_int TCR_8110 "FOUR_LEVELS" (FBit 3) _ d0 ltac:(reflexivity) ltac:(int_field) ltac:(reflexivity))).
  fold (four_levels d0 stream). change (four_levels d0 stream) with (four_levels d stream). rewrite H4.
  destruct (page_split iova size Hsz) as (Hsp & n & Hn & Hn0 & _). rewrite Hn, Hsp, Hi, Z.sub_0_r. destruct n as [|n]; [lia|].
  cbn [map_pages_8110].
  assert (Hmap : exists d', map_page_8110 true stream iova (addr + iova - iova) None ∅ d0 = (Raise (NameError "l1pte"), d') /\ observed d0 d').
  { unfold map_page_8110, ensure_root.
    rewrite (py_bind_ok _ _ d0 (f_raw (FBits 29 2 TInt) (dt_ttbr d stream 0)) d0).
    2: { rewrite (py_bind_ok _ _ _ _ _ (dart_ttbr_ok TTBR_8110 256 1 d0 stream 0 Hs ltac:(lia) ltac:(reflexivity))).
         rewrite (py_bind_ok _ _ _ _ _ (getf_int TTBR_8110 "VALID" (FBit 0) _ d0 ltac:(reflexivity) ltac:(int_field) ltac:(reflexivity))).
         apply Z.eqb_neq in Hv. change (dt_ttbr d0) with (dt_ttbr d). rewrite Hv.
         apply (getf_int TTBR_8110 "ADDR" (FBits 29 2 TInt)); int_field. }
    fold (root_8110 d stream). unfold ensure_l0.
    destruct (get_pt_coherent d0 (root_8110 d stream) false Hc0) as (c & d1 & E1 & O1). exists d1. split; [|done].
    apply py_bind_raise. rewrite (py_bind_ok _ _ _ _ _ E1), (py_bind_ok _ _ _ _ _ (table_entry _ _ _ _ d1)).
    rewrite (py_bind_ok _ _ _ _ _ (init_ok _ _ _ d1 pte_class_8110)), (py_bind_ok _ _ _ _ _ (getf_valid _ _ _ d1 pte_class_8110)).
    apply Z.eqb_neq in Hl0. change (dt_mem d0) with (dt_mem d). rewrite Hl0. reflexivity. }
  destruct Hmap as (d' & Em & Om). exists d', reg, e. split; [|exact Om].
  apply py_bind_raise. by rewrite (py_bind_raise _ _ _ _ _ Em).
Qed.

Definition four_level_dart : dart :=
  {| dt_tcr := fun _ => 9; dt_ttbr := fun _ _ => 1 + Z.shiftl 4 2; dt_enabled_reg := fun _ => 0; dt_enabled := 0; dt_cache := ∅;
     dt_mem := words_mem [(0x10000, 1 + Z.shiftl 5 10)]; dt_heap := dt_heap demo_dart |}.

Lemma remap_four_levels_fails_witness :
  exists d' reg e, iomap_at_8110 elements 3 0x8000 0x40000 0x4000 four_level_dart = (Raise (NameError "l1pte"), d') /\
    observed (dt_set_enabled reg e four_level_dart) d'.
Proof.
  apply remap_four_levels_fails; [|lia|by split|reflexivity|discriminate| |reflexivity|reflexivity|lia].
  - intros a l. simpl. by rewrite lookup_empty.
  - vm_compute. discriminate.
Defined.
