(* ===== verification/DartMap.v ===== *)
(** * Mapping through a T8020 or T6000 DART

    [iomap_at] of dart8020.py refines an update of the I/O address space: the
    tables it builds translate exactly the pages of the request to the physical
    range, and every other page of every managed stream as before.

    Tables are separate objects as long as nothing else shares them: [own] is a
    ghost map from the address of a table to the place in the tree that points
    to it.  [tree_ok] is the tree read through the driver's view of the tables
    (the cache over memory); [cache_ok] relates the cache to memory, up to the
    set of dirty tables; [heap_ok] says the tables are allocated. *)

From Stdlib Require Import ZArith Lia.
From Stdlib Require Import Strings.Byte.
From stdpp Require Import base list numbers strings gmap fin_sets.
From S2P Require Import Prelude Bytes Malloc RangeMap Utils Registers RegTables Dart.

Local Open Scope string_scope.
Local Open Scope list_scope.
Local Open Scope Z_scope.
Local Open Scope py_scope.

Lemma table_index_eq page off : 0 <= off -> Z.of_nat (table_index page off) = (page / 2 ^ off) mod 2 ^ 11.
Proof.
  intros Ho. unfold table_index. change IDX_MASK with (Z.ones 11). rewrite Z.land_ones, Z.shiftr_div_pow2 by lia.
  rewrite Z2Nat.id; [done|]. apply Z.mod_pos_bound. lia.
Qed.

#[local] Opaque Lx_SIZE pt_bytes unpack_Qs mem_read table_of table_word table_index.

(** ** Building page-table entries *)

(** What a valid entry pointing to [a] looks like. *)
Definition pte_to (fo : field) (a pte : Z) : Prop :=
  0 <= pte < 2 ^ 64 /\ f_raw (FBit 0) pte = 1 /\ Z.shiftl (f_raw fo pte) PAGE_BITS = a.

Definition phys_limit := 2 ^ 40.
Definition cls_8020 (cls : reg_class) : Prop := cls = PTE_T8020 \/ cls = PTE_T6000.

Lemma class_wf_pte cls : cls_8020 cls -> class_wf cls.
Proof.
  intros [-> | ->]; constructor; try (repeat constructor; simpl; lia);
    apply (bool_decide_unpack _); vm_compute; exact Logic.I.
Qed.

Ltac field_side := repeat (constructor; [eexists; split; [reflexivity|split; [unfold field_ok; simpl; lia|unfold disjoint_fields; simpl; lia]]|]); constructor.

Lemma page_of_addr fo a : f_size fo = 26 \/ f_size fo = 30 -> a mod PAGE_SIZE = 0 -> 0 <= a < phys_limit ->
  Z.shiftl (Z.shiftr a PAGE_BITS mod 2 ^ f_size fo) PAGE_BITS = a.
Proof.
  intros Hf Ha Hb. rewrite Z.shiftr_div_pow2, Z.shiftl_mul_pow2 by done. change (2 ^ PAGE_BITS) with PAGE_SIZE.
  rewrite Z.mod_small.
  - rewrite Z.mod_eq in Ha by done. lia.
  - split; [apply Z.div_pos; [lia|done]|]. apply Z.div_lt_upper_bound; [done|]. unfold phys_limit in Hb.
    destruct Hf as [-> | ->]; change PAGE_SIZE with (2 ^ 14); lia.
Qed.

(** The constructors of the two kinds of entry. *)
Lemma pte_built cls pre a post kw : cls_8020 cls -> kw = pre ++ ("OFFSET", Z.shiftr a PAGE_BITS) :: post ->
  post = [("VALID", 1); ("SP_PROT_DIS", 1)] -> Forall (fun e => is_Some (find_field cls (fst e))) kw ->
  a mod PAGE_SIZE = 0 -> 0 <= a < phys_limit ->
  exists pte, reg_init cls None kw = Ok pte /\ pte_to (offset_field cls) a pte.
Proof.
  intros Hc -> -> Hk Ha Hb. pose proof (class_wf_pte cls Hc) as Hw.
  assert (Hwd : rc_width cls = 64) by (by destruct Hc as [-> | ->]).
  destruct (set_kwargs_effect cls (pre ++ [("OFFSET", Z.shiftr a PAGE_BITS); ("VALID", 1); ("SP_PROT_DIS", 1)]) 0 Hw) as (v & E & Hr & _).
  { rewrite Hwd. right. right. by right. }
  { rewrite Hwd. lia. }
  { exact Hk. }
  exists v. rewrite Hwd in Hr. split; [unfold reg_init; by destruct Hc as [-> | ->]|]. split; [done|]. split.
  - assert (E' : set_kwargs cls ((pre ++ [("OFFSET", Z.shiftr a PAGE_BITS)]) ++ ("VALID", 1) :: [("SP_PROT_DIS", 1)]) 0 = Ok v)
      by (rewrite <- app_assoc; exact E).
    rewrite (set_kwargs_last cls _ "VALID" 1 _ (FBit 0) 0 v) with (4 := E'); [done|by destruct Hc as [-> | ->]|unfold field_ok; simpl; lia|].
    destruct Hc as [-> | ->]; field_side.
  - rewrite (set_kwargs_last cls _ "OFFSET" _ _ (offset_field cls) 0 v) with (4 := E);
      [|by destruct Hc as [-> | ->]|destruct Hc as [-> | ->]; unfold field_ok; simpl; lia|destruct Hc as [-> | ->]; field_side].
    apply page_of_addr; [destruct Hc as [-> | ->]; auto|done|done].
Qed.

Lemma table_pte cls a : cls_8020 cls -> a mod PAGE_SIZE = 0 -> 0 <= a < phys_limit ->
  exists pte, reg_init cls None [("OFFSET", Z.shiftr a PAGE_BITS); ("VALID", 1); ("SP_PROT_DIS", 1)] = Ok pte /\
    pte_to (offset_field cls) a pte.
Proof.
  intros Hc Ha Hb. apply (pte_built cls [] a _ _ Hc eq_refl eq_refl); [|done|done].
  destruct Hc as [-> | ->]; repeat constructor; by eexists.
Qed.

Lemma leaf_pte cls a : cls_8020 cls -> a mod PAGE_SIZE = 0 -> 0 <= a < phys_limit ->
  exists pte, reg_init cls None [("SP_START", 0); ("SP_END", 0xfff); ("OFFSET", Z.shiftr a PAGE_BITS); ("VALID", 1); ("SP_PROT_DIS", 1)] = Ok pte /\
    pte_to (offset_field cls) a pte.
Proof.
  intros Hc Ha Hb. apply (pte_built cls [("SP_START", 0); ("SP_END", 0xfff)] a _ _ Hc eq_refl eq_refl); [|done|done].
  destruct Hc as [-> | ->]; repeat constructor; by eexists.
Qed.

(** The TTBR of a new L1 table. *)
Definition l1_root (t : Z) : Z := Z.shiftl (f_raw (FBits 30 0 TInt) t) 12.
Definition ttbr_valid (t : Z) : Prop := f_raw (FBit 31) t <> 0.

Lemma ttbr_built t a : a mod PAGE_SIZE = 0 -> 0 <= a < phys_limit ->
  exists t1 t2, reg_setattr TTBR_8020 "VALID" 1 t = Ok t1 /\ reg_setattr TTBR_8020 "ADDR" (Z.shiftr a 12) t1 = Ok t2 /\
    ttbr_valid t2 /\ l1_root t2 = a.
Proof.
  intros Ha Hb. unfold reg_setattr. change (find_field TTBR_8020 "VALID") with (Some (FBit 31)).
  change (find_field TTBR_8020 "ADDR") with (Some (FBits 30 0 TInt)).
  assert (H31 : field_ok (FBit 31)) by (unfold field_ok; simpl; lia).
  assert (H30 : field_ok (FBits 30 0 TInt)) by (unfold field_ok; simpl; lia).
  destruct (reg_set_bits (FBit 31) 1 t H31) as (t1 & E1 & _). destruct (reg_set_bits (FBits 30 0 TInt) (Z.shiftr a 12) t1 H30) as (t2 & E2 & _).
  exists t1, t2. split; [done|]. split; [done|].
  destruct (reg_set_raw _ _ _ _ H31 E1) as [R1 _]. destruct (reg_set_raw _ _ _ _ H30 E2) as [R2 K2]. split.
  - unfold ttbr_valid. rewrite K2 by (done || unfold disjoint_fields; simpl; lia). rewrite R1. done.
  - unfold l1_root. rewrite R2. change (f_size (FBits 30 0 TInt)) with 31. rewrite Z.shiftr_div_pow2, Z.shiftl_mul_pow2 by lia.
    rewrite Z.mod_eq in Ha by done. change PAGE_SIZE with (4 * 2 ^ 12) in Ha. unfold phys_limit in Hb.
    rewrite Z.mod_small by (split; [apply Z.div_pos; lia|apply Z.div_lt_upper_bound; lia]).
    set (q := a / (4 * 2 ^ 12)) in *. replace a with ((4 * q) * 2 ^ 12) at 1 by lia. rewrite Z.div_mul by lia. lia.
Qed.

(** ** The tree of tables *)

Inductive slot := SL1 (stream l0 : Z) | SL2 (stream l0 : Z) (l1idx : nat).

Lemma zero_lookup i e : zero_table !! i = Some e -> e = 0.
Proof. unfold zero_table. intros H%lookup_replicate_1. tauto. Qed.

Lemma zero_entry page off : default 0 (zero_table !! table_index page off) = 0.
Proof. destruct (zero_table !! _) eqn:E; [|done]. by apply zero_lookup in E. Qed.

Section tree.
  Context (fo : field) (S : Z -> Prop).
  Implicit Types (own : gmap Z slot) (T : Z -> Z -> Z) (V : Z -> list Z).

(** Tables reached from different places are different. *)
Record tree_ok own T V : Prop := {
  tk_l1 : forall s l0, S s -> 0 <= l0 < 4 -> ttbr_valid (T s l0) -> own !! l1_root (T s l0) = Some (SL1 s l0);
  tk_l2 : forall s l0 i e, S s -> 0 <= l0 < 4 -> ttbr_valid (T s l0) -> V (l1_root (T s l0)) !! i = Some e ->
    f_raw (FBit 0) e <> 0 -> own !! Z.shiftl (f_raw fo e) PAGE_BITS = Some (SL2 s l0 i)
}.

Definition view_entry V (t page off : Z) : Z := default 0 (V t !! table_index page off).

(** The page a tree maps an I/O page to. *)
Definition tree_page T V (s page : Z) : option Z :=
  let t := T s (Z.shiftr page L0_OFF) in
  if f_raw (FBit 31) t =? 0 then None else walk_tables fo (view_entry V) (l1_root t) page.

Definition put V (a : Z) (l : list Z) : Z -> list Z := fun b => if decide (b = a) then l else V b.
Definition put_ttbr T (s l0 t : Z) : Z -> Z -> Z := fun s' i => if (s' =? s) && (i =? l0) then t else T s' i.

Lemma put_same V a l : put V a l a = l.
Proof. unfold put. by rewrite decide_True. Qed.
Lemma put_other V a l b : b <> a -> put V a l b = V b.
Proof. intros H. unfold put. by rewrite decide_False. Qed.

Lemma put_ttbr_same T s l0 t : put_ttbr T s l0 t s l0 = t.
Proof. unfold put_ttbr. by rewrite !Z.eqb_refl. Qed.
Lemma put_ttbr_other T s l0 t s' i : s' <> s \/ i <> l0 -> put_ttbr T s l0 t s' i = T s' i.
Proof. intros H. unfold put_ttbr. destruct (Z.eqb_spec s' s), (Z.eqb_spec i l0); try done. lia. Qed.

Lemma tree_ok_ext own T V V' : (forall b, V' b = V b) -> tree_ok own T V -> tree_ok own T V'.
Proof. intros E [H1 H2]. split; [done|]. intros s l0 i e. rewrite E. eauto. Qed.

Lemma tree_page_ext T V V' s page : (forall b, V' b = V b) -> tree_page T V' s page = tree_page T V s page.
Proof. intros E. unfold tree_page, walk_tables, view_entry. by rewrite !E. Qed.

Definition page_ok (page : Z) : Prop := page mod PAGE_SIZE = 0 /\ 0 <= page < 2 ^ 38.

Lemma l0_range page : 0 <= page < 2 ^ 38 -> 0 <= Z.shiftr page L0_OFF < 4.
Proof.
  intros Hp. rewrite Z.shiftr_div_pow2 by done. split; [apply Z.div_pos; [lia|done]|].
  apply Z.div_lt_upper_bound; [done|]. change (2 ^ L0_OFF * 4) with (2 ^ 38). lia.
Qed.

(** Publishing an empty L1 table: no page is mapped by it. *)
Lemma tree_new_l1 own T V s l0 a t : tree_ok own T V -> own !! a = None ->
  f_raw (FBit 31) (T s l0) = 0 -> l1_root t = a ->
  tree_ok (<[a := SL1 s l0]> own) (put_ttbr T s l0 t) (put V a zero_table) /\
  forall s' page, S s' -> page_ok page -> tree_page (put_ttbr T s l0 t) (put V a zero_table) s' page = tree_page T V s' page.
Proof.
  intros [H1 H2] Hn Hinv Hr.
  assert (Hneq : forall b sl, own !! b = Some sl -> b <> a) by (intros b sl Hb ->; congruence).
  split; [split|].
  - intros s' l' Hs Hl Hv. destruct (decide (s' = s /\ l' = l0)) as [[-> ->]|Hd].
    + rewrite put_ttbr_same, Hr. apply lookup_insert_eq.
    + rewrite put_ttbr_other in * by lia. pose proof (H1 s' l' Hs Hl Hv) as Ho. rewrite lookup_insert_ne by (by apply not_eq_sym, (Hneq _ _ Ho)). done.
  - intros s' l' i e Hs Hl Hv He Hve. destruct (decide (s' = s /\ l' = l0)) as [[-> ->]|Hd].
    + rewrite put_ttbr_same, Hr, put_same in He. apply zero_lookup in He as ->. done.
    + rewrite put_ttbr_other in * by lia. pose proof (Hneq _ _ (H1 s' l' Hs Hl Hv)) as Hne. rewrite put_other in He by done.
      pose proof (H2 s' l' i e Hs Hl Hv He Hve) as Ho. rewrite lookup_insert_ne by (by apply not_eq_sym, (Hneq _ _ Ho)). done.
  - intros s' page Hs [Hal Hp]. unfold tree_page. pose proof (l0_range page Hp) as Hl. set (l' := Z.shiftr page L0_OFF) in *.
    destruct (decide (s' = s /\ l' = l0)) as [[-> ->]|Hd].
    + rewrite put_ttbr_same, Hinv. destruct (f_raw (FBit 31) t =? 0); [done|]. rewrite Hr. unfold walk_tables, view_entry.
      rewrite put_same, zero_entry by done. done.
    + rewrite put_ttbr_other by lia. destruct (Z.eqb_spec (f_raw (FBit 31) (T s' l')) 0) as [|Hv]; [done|].
      pose proof (Hneq _ _ (H1 s' l' Hs Hl Hv)) as Hne. unfold walk_tables, view_entry. rewrite put_other by done.
      destruct (V (l1_root (T s' l')) !! table_index page L1_OFF) as [e1|] eqn:E1; [|done]. simpl.
      destruct (Z.eqb_spec (f_raw (FBit 0) e1) 0) as [|Hv1]; [done|].
      rewrite put_other; [done|]. apply (Hneq _ _ (H2 s' l' _ e1 Hs Hl Hv E1 Hv1)).
Qed.

(** Pointing an invalid L1 entry to an empty L2 table. *)
Lemma tree_new_l2 own T V s l0 i a pte e0 : tree_ok own T V -> own !! a = None -> S s -> 0 <= l0 < 4 ->
  ttbr_valid (T s l0) -> let r := l1_root (T s l0) in V r !! i = Some e0 -> f_raw (FBit 0) e0 = 0 -> pte_to fo a pte ->
  tree_ok (<[a := SL2 s l0 i]> own) T (put (put V a zero_table) r (<[i := pte]> (V r))) /\
  forall s' page, S s' -> page_ok page ->
    tree_page T (put (put V a zero_table) r (<[i := pte]> (V r))) s' page = tree_page T V s' page.
Proof.
  intros [H1 H2] Hn Hs Hl0 Hv r Hi He0 (Hpr & Hpv & Hpa).
  assert (Hneq : forall b sl, own !! b = Some sl -> b <> a) by (intros b sl Hb ->; congruence).
  pose proof (H1 s l0 Hs Hl0 Hv) as Hor. fold r in Hor. pose proof (Hneq _ _ Hor) as Hra.
  assert (Hroot : forall s' l', S s' -> 0 <= l' < 4 -> ttbr_valid (T s' l') -> l1_root (T s' l') = r -> s' = s /\ l' = l0).
  { intros s' l' Hs' Hl' Hv' E. pose proof (H1 s' l' Hs' Hl' Hv') as Ho. rewrite E, Hor in Ho. by injection Ho. }
  assert (Hlen : (i < length (V r))%nat) by (by apply lookup_lt_Some in Hi).
  split; [split|].
  - intros s' l' Hs' Hl' Hv'. pose proof (H1 s' l' Hs' Hl' Hv') as Ho. by rewrite lookup_insert_ne by (by apply not_eq_sym, (Hneq _ _ Ho)).
  - intros s' l' j e Hs' Hl' Hv' He Hve. destruct (decide (l1_root (T s' l') = r)) as [E|E].
    + rewrite E, put_same in He. destruct (Hroot s' l' Hs' Hl' Hv' E) as [-> ->]. destruct (decide (j = i)) as [->|Hji].
      * rewrite list_lookup_insert_eq in He by done. injection He as <-. rewrite Hpa. apply lookup_insert_eq.
      * rewrite list_lookup_insert_ne in He by done. pose proof (H2 s l0 j e Hs Hl0 Hv He Hve) as Ho.
        by rewrite lookup_insert_ne by (by apply not_eq_sym, (Hneq _ _ Ho)).
    + rewrite put_other, put_other in He by (done || by eapply Hneq, H1).
      pose proof (H2 s' l' j e Hs' Hl' Hv' He Hve) as Ho. by rewrite lookup_insert_ne by (by apply not_eq_sym, (Hneq _ _ Ho)).
  - intros s' page Hs' [Hal Hp]. unfold tree_page. pose proof (l0_range page Hp) as Hl'. set (l' := Z.shiftr page L0_OFF) in *.
    destruct (Z.eqb_spec (f_raw (FBit 31) (T s' l')) 0) as [|Hv']; [done|]. unfold walk_tables, view_entry.
    assert (Hold : forall e1, V (l1_root (T s' l')) !! table_index page L1_OFF = Some e1 -> f_raw (FBit 0) e1 <> 0 ->
      put (put V a zero_table) r (<[i := pte]> (V r)) (Z.shiftl (f_raw fo e1) PAGE_BITS) = V (Z.shiftl (f_raw fo e1) PAGE_BITS)).
    { intros e1 E1 Hv1. pose proof (H2 s' l' _ e1 Hs' Hl' Hv' E1 Hv1) as Ho. rewrite !put_other; [done|by apply (Hneq _ _ Ho)|].
      intros E. rewrite E, Hor in Ho. done. }
    destruct (decide (l1_root (T s' l') = r)) as [E|E].
    + rewrite E in Hold |- *. rewrite put_same. destruct (Hroot s' l' Hs' Hl' Hv' E) as [-> _].
      destruct (decide (table_index page L1_OFF = i)) as [Ei|Ei].
      * rewrite Ei, list_lookup_insert_eq, Hi by done. simpl. rewrite Hpv, He0. simpl. rewrite Hpa, put_other, put_same by done.
        by rewrite zero_entry.
      * rewrite list_lookup_insert_ne by done. destruct (V r !! table_index page L1_OFF) as [e1|] eqn:E1; [|done]. simpl.
        destruct (Z.eqb_spec (f_raw (FBit 0) e1) 0) as [|Hv1]; [done|]. by rewrite (Hold e1).
    + rewrite put_other, put_other by (done || by eapply Hneq, H1).
      destruct (V (l1_root (T s' l')) !! table_index page L1_OFF) as [e1|] eqn:E1; [|done]. simpl.
      destruct (Z.eqb_spec (f_raw (FBit 0) e1) 0) as [|Hv1]; [done|]. by rewrite (Hold e1).
Qed.

(** The three indices identify an aligned page. *)
Lemma page_indices_inj p q : page_ok p -> page_ok q -> Z.shiftr p L0_OFF = Z.shiftr q L0_OFF ->
  table_index p L1_OFF = table_index q L1_OFF -> table_index p L2_OFF = table_index q L2_OFF -> p = q.
Proof.
  intros [Hp0 Hp] [Hq0 Hq] H0 H1 H2. rewrite !Z.shiftr_div_pow2 in H0 by done.
  apply (f_equal Z.of_nat) in H1, H2. rewrite !table_index_eq in H1, H2 by done.
  unfold L0_OFF, L1_OFF, L2_OFF in *. change PAGE_SIZE with (2 ^ 14) in *.
  assert (Hdec : forall x, x mod 2 ^ 14 = 0 -> x = ((x / 2 ^ 36) * 2 ^ 11 * 2 ^ 11 + (x / 2 ^ 25) mod 2 ^ 11 * 2 ^ 11 + (x / 2 ^ 14) mod 2 ^ 11) * 2 ^ 14).
  { intros x Hx. assert (E25 : x / 2 ^ 25 = (x / 2 ^ 14) / 2 ^ 11) by (rewrite Z.div_div by lia; f_equal).
    assert (E36 : x / 2 ^ 36 = (x / 2 ^ 25) / 2 ^ 11) by (rewrite Z.div_div by lia; f_equal).
    pose proof (Z.div_mod x (2 ^ 14) ltac:(lia)). pose proof (Z.div_mod (x / 2 ^ 14) (2 ^ 11) ltac:(lia)).
    pose proof (Z.div_mod (x / 2 ^ 25) (2 ^ 11) ltac:(lia)). rewrite <- E25 in *. rewrite <- E36 in *. lia. }
  rewrite (Hdec p Hp0), (Hdec q Hq0). by rewrite H0, H1, H2.
Qed.

(** Writing a leaf: exactly its page changes. *)
Lemma tree_leaf own T V s page a pte : tree_ok own T V -> S s -> page_ok page ->
  let l0 := Z.shiftr page L0_OFF in let i1 := table_index page L1_OFF in let i2 := table_index page L2_OFF in
  ttbr_valid (T s l0) -> forall e1, V (l1_root (T s l0)) !! i1 = Some e1 -> f_raw (FBit 0) e1 <> 0 ->
  let r := Z.shiftl (f_raw fo e1) PAGE_BITS in (i2 < length (V r))%nat -> pte_to fo a pte ->
  tree_ok own T (put V r (<[i2 := pte]> (V r))) /\
  forall s' page', S s' -> page_ok page' ->
    tree_page T (put V r (<[i2 := pte]> (V r))) s' page' = if decide (s' = s /\ page' = page) then Some a else tree_page T V s' page'.
Proof.
  intros [H1 H2] Hs Hpg l0 i1 i2 Hv e1 E1 Hv1 r Hlen (Hpr & Hpv & Hpa).
  pose proof (l0_range page (proj2 Hpg)) as Hl0. fold l0 in Hl0. pose proof (H2 s l0 i1 e1 Hs Hl0 Hv E1 Hv1) as Hor. fold r in Hor.
  assert (Hl1 : forall s' l', S s' -> 0 <= l' < 4 -> ttbr_valid (T s' l') -> l1_root (T s' l') <> r).
  { intros s' l' Hs' Hl' Hv' E. pose proof (H1 s' l' Hs' Hl' Hv') as Ho. rewrite E, Hor in Ho. done. }
  split; [split|].
  - done.
  - intros s' l' j e Hs' Hl' Hv' He Hve. rewrite put_other in He by (by apply Hl1). by apply H2.
  - intros s' page' Hs' Hpg'. unfold tree_page. pose proof (l0_range page' (proj2 Hpg')) as Hl'. set (l' := Z.shiftr page' L0_OFF) in *.
    destruct (Z.eqb_spec (f_raw (FBit 31) (T s' l')) 0) as [Hinv|Hv'].
    { rewrite decide_False; [done|]. intros [-> ->]. done. }
    unfold walk_tables, view_entry. rewrite (put_other V r _ (l1_root (T s' l'))) by (by apply Hl1).
    destruct (V (l1_root (T s' l')) !! table_index page' L1_OFF) as [e1'|] eqn:E1'; simpl.
    2: { rewrite decide_False; [done|]. intros [-> ->]. fold l0 i1 in l', E1'. subst l'. congruence. }
    destruct (Z.eqb_spec (f_raw (FBit 0) e1') 0) as [Hinv|Hv1']; simpl.
    { rewrite decide_False; [done|]. intros [-> ->]. subst l'. fold l0 i1 in E1'. congruence. }
    pose proof (H2 s' l' _ e1' Hs' Hl' Hv' E1' Hv1') as Ho'.
    destruct (decide (Z.shiftl (f_raw fo e1') PAGE_BITS = r)) as [Er|Er].
    + rewrite Er, Hor in Ho'. injection Ho' as Es El Ei. rewrite Er, put_same.
      destruct (decide (table_index page' L2_OFF = i2)) as [E2|E2].
      * rewrite decide_True; [|split; [done|by apply page_indices_inj]].
        rewrite E2, list_lookup_insert_eq by done. simpl. rewrite Hpv. simpl. by rewrite Hpa.
      * rewrite list_lookup_insert_ne by done. rewrite decide_False; [done|]. intros [_ ->]. done.
    + rewrite put_other by done. rewrite decide_False; [done|]. intros [-> ->]. subst l'. fold l0 i1 in E1'. apply Er. unfold r. congruence.
Qed.
End tree.

(** ** The cache and the heap *)

Definition view (d : dart) (a : Z) : list Z := match dt_cache d !! a with Some l => l | None => table_of (dt_mem d) a end.

Record cache_ok (dirty : gset Z) (d : dart) : Prop := {
  ck_wf : forall a l, dt_cache d !! a = Some l -> length l = Lx_SIZE /\ Forall (fun v => 0 <= v < 2 ^ 64) l /\ a mod PAGE_SIZE = 0;
  ck_clean : forall a l, dt_cache d !! a = Some l -> a ∉ dirty -> l = table_of (dt_mem d) a;
  ck_dirty : forall a, a ∈ dirty -> is_Some (dt_cache d !! a)
}.

(** The page at [a] is allocated, or not the heap's. *)
Definition held (h : heap) (a : Z) : Prop :=
  (exists p n, In (p, n) (allocated h) /\ hp_offset h + hp_block h * p <= a < hp_offset h + hp_block h * (p + n)) \/
  a < hp_offset h \/ hp_offset h + hp_block h * hp_count h <= a.

Record heap_ok (own : gmap Z slot) (h : heap) : Prop := {
  hk_wf : heap_wf h;
  hk_block : (PAGE_SIZE | hp_block h) \/ (hp_block h | PAGE_SIZE);
  hk_limit : 0 <= hp_offset h /\ hp_offset h + hp_block h * hp_count h <= phys_limit;
  hk_own : forall a s, own !! a = Some s -> a mod PAGE_SIZE = 0 /\ held h a
}.

(** A page from the heap is fresh. *)
Lemma memalign_fresh own h a h' : heap_ok own h -> heap_memalign PAGE_SIZE PAGE_SIZE h = (Ok a, h') ->
  own !! a = None /\ a mod PAGE_SIZE = 0 /\ 0 <= a < phys_limit /\ forall sl, heap_ok (<[a := sl]> own) h'.
Proof.
  intros [Hw Hb [Hl0 Hl] Ho] E. pose proof (wf_block h Hw) as Hbk.
  destruct (memalign_allocates h PAGE_SIZE PAGE_SIZE a h' Hw PAGE_SIZE_pos PAGE_SIZE_pos Hb E) as (Ha & p & n & Hap & Hn & Hp & Hpn & Hapart & Hperm).
  destruct (memalign_carve _ _ _ _ _ Hw PAGE_SIZE_pos E) as (p1 & o & n1 & r & post & _ & Ho1 & Hn1 & Hr & _ & _ & Hbl & _ & Hh').
  assert (Hw' : heap_wf h') by (rewrite Hh'; by apply wf_carve).
  assert (Hoff : hp_offset h' = hp_offset h /\ hp_block h' = hp_block h /\ hp_count h' = hp_count h) by (rewrite Hh'; done).
  destruct Hoff as (E1 & E2 & E3). pose proof PAGE_SIZE_pos.
  assert (Hin : hp_offset h <= a < hp_offset h + hp_block h * hp_count h) by nia.
  split; [|split; [done|split; [lia|]]].
  - destruct (own !! a) as [sl|] eqn:Eo; [|done]. exfalso. destruct (Ho a sl Eo) as [_ [(q & m & Hq & Hqa)|Hout]]; [|lia].
    rewrite List.Forall_forall in Hapart. specialize (Hapart _ Hq). unfold apart in Hapart. simpl in Hapart. nia.
  - intros sl. constructor; rewrite ?E1, ?E2, ?E3; [done|done|lia|]. intros b sl' Hb'. unfold held. rewrite E1, E2, E3.
    apply lookup_insert_Some in Hb' as [[<- <-]|[Hne Hb']].
    + split; [done|]. left. exists p, n. split; [|nia]. apply list_elem_of_In. rewrite Hperm. left.
    + destruct (Ho b sl' Hb') as [Hal [(q & m & Hq & Hqb)|Hout]]; (split; [done|]); [left|by right].
      exists q, m. split; [|done]. apply list_elem_of_In. rewrite Hperm. right. by apply list_elem_of_In.
Qed.

Lemma memalign_raises h e h' : heap_memalign PAGE_SIZE PAGE_SIZE h = (Raise e, h') -> e = GenericException "Out of memory".
Proof.
  unfold heap_memalign. change (negb (Z.land PAGE_SIZE (PAGE_SIZE - 1) =? 0)) with false. cbv iota.
  destruct (memalign_scan _ _ _ _ _) as [[[i pos] b]|]; [|by intros [= <- _]]. destruct (negb _); by intros [=].
Qed.

Lemma view_wf dirty d a : cache_ok dirty d -> length (view d a) = Lx_SIZE /\ Forall (fun v => 0 <= v < 2 ^ 64) (view d a).
Proof.
  intros Hc. unfold view. destruct (dt_cache d !! a) as [l|] eqn:E.
  - destruct (ck_wf _ _ Hc a l E) as (H1 & H2 & _). by split.
  - destruct (table_of_spec (dt_mem d) a) as (_ & H1 & H2). by split.
Qed.

(** [get_pt] returns the view of a table and caches it. *)
Lemma get_pt_view d a : exists c, get_pt a false d = (Ok (c, view d a), dt_set_cache (<[a := view d a]> (dt_cache d)) d).
Proof.
  unfold get_pt, view. rewrite (py_bind_ok (py_get dt_cache) _ d (dt_cache d) d eq_refl).
  destruct (dt_cache d !! a) as [l|] eqn:E.
  - exists true. rewrite insert_id by done. by destruct d.
  - exists false. rewrite (py_bind_ok (dart_readmem a pt_bytes) _ d (mem_read (dt_mem d) a pt_bytes) d eq_refl).
    assert (El : @py_lift dart _ (unpack_Qs Lx_SIZE 0%nat (mem_read (dt_mem d) a pt_bytes)) d = (Ok (table_of (dt_mem d) a), d)).
    { unfold py_lift. by rewrite (proj1 (table_of_spec (dt_mem d) a)). }
    rewrite (py_bind_ok _ _ _ _ _ El). reflexivity.
Qed.

(** Caching what is seen changes nothing; caching something else is a write. *)
Lemma cache_seen dirty d a : cache_ok dirty d -> a mod PAGE_SIZE = 0 ->
  cache_ok dirty (dt_set_cache (<[a := view d a]> (dt_cache d)) d) /\
  forall b, view (dt_set_cache (<[a := view d a]> (dt_cache d)) d) b = view d b.
Proof.
  intros Hc Ha. destruct (view_wf dirty d a Hc) as [Hl Hr]. split; [split; cbn [dt_cache dt_set_cache dt_mem]|].
  - intros b l [[<- <-]|[_ Hb]]%lookup_insert_Some; [done|]. by apply (ck_wf _ _ Hc).
  - intros b l [[<- <-]|[_ Hb]]%lookup_insert_Some Hd; [|by apply (ck_clean _ _ Hc)]. unfold view.
    destruct (dt_cache d !! a) as [l|] eqn:E; [by apply (ck_clean _ _ Hc)|done].
  - intros b Hb. destruct (decide (b = a)) as [->|Hne]; [rewrite lookup_insert_eq; by eexists|].
    rewrite lookup_insert_ne by done. by apply (ck_dirty _ _ Hc).
  - intros b. unfold view at 1. cbn [dt_cache dt_set_cache dt_mem]. destruct (decide (b = a)) as [->|Hne].
    + by rewrite lookup_insert_eq.
    + by rewrite lookup_insert_ne.
Qed.

Lemma cache_write dirty d a l : cache_ok dirty d -> a mod PAGE_SIZE = 0 -> length l = Lx_SIZE ->
  Forall (fun v => 0 <= v < 2 ^ 64) l ->
  cache_ok ({[a]} ∪ dirty) (dt_set_cache (<[a := l]> (dt_cache d)) d) /\
  forall b, view (dt_set_cache (<[a := l]> (dt_cache d)) d) b = put (view d) a l b.
Proof.
  intros Hc Ha Hl Hr. split; [split; cbn [dt_cache dt_set_cache dt_mem]|].
  - intros b l' [[<- <-]|[_ Hb]]%lookup_insert_Some; [done|]. by apply (ck_wf _ _ Hc).
  - intros b l' [[<- <-]|[_ Hb]]%lookup_insert_Some Hd; [set_solver|]. apply (ck_clean _ _ Hc); [done|set_solver].
  - intros b Hb. destruct (decide (b = a)) as [->|Hne]; [rewrite lookup_insert_eq; by eexists|].
    rewrite lookup_insert_ne by done. apply (ck_dirty _ _ Hc). set_solver.
  - intros b. unfold view, put. cbn [dt_cache dt_set_cache dt_mem]. destruct (decide (b = a)) as [->|Hne].
    + by rewrite lookup_insert_eq.
    + by rewrite lookup_insert_ne.
Qed.

Lemma zero_table_wf : length zero_table = Lx_SIZE /\ Forall (fun v => 0 <= v < 2 ^ 64) zero_table.
Proof. unfold zero_table. split; [apply length_replicate|]. apply Forall_replicate. lia. Qed.

(** ** The mapping loop *)

(** What the driver does not touch while it maps. *)
Definition same_machine (d d' : dart) : Prop := dt_mem d' = dt_mem d /\ dt_tcr d' = dt_tcr d.

Lemma same_trans d1 d2 d3 : same_machine d1 d2 -> same_machine d2 d3 -> same_machine d1 d3.
Proof. unfold same_machine. intuition congruence. Qed.

Section mapping.
  Context (cls : reg_class) (Hcls : cls_8020 cls) (S : Z -> Prop).
  Abbreviation fo := (offset_field cls).

Record tables (own : gmap Z slot) (dirty : gset Z) (d : dart) : Prop := {
  tb_tree : tree_ok fo S own (dt_ttbr d) (view d);
  tb_cache : cache_ok dirty d;
  tb_heap : heap_ok own (dt_heap d)
}.

Definition mapped (d : dart) : Z -> Z -> option Z := tree_page fo (dt_ttbr d) (view d).
Definition oom : exn := GenericException "Out of memory".

(** A step of the driver that ends in [Q], unless the heap is exhausted. *)
Definition runs {A} (m : M dart A) (d : dart) (Q : A -> dart -> Prop) : Prop :=
  exists r d', m d = (r, d') /\ same_machine d d' /\ (r = Raise oom \/ exists a, r = Ok a /\ Q a d').

Lemma runs_bind {A B} (m : M dart A) (k : A -> M dart B) d Q R :
  runs m d Q -> (forall a d', Q a d' -> runs (k a) d' R) -> runs (py_bind m k) d R.
Proof.
  intros (r & d1 & E & Hs & [->|(a & -> & Ha)]) Hk.
  - exists (Raise oom), d1. split; [by apply py_bind_raise|]. split; [done|by left].
  - destruct (Hk a d1 Ha) as (r2 & d2 & E2 & Hs2 & H2). exists r2, d2. split; [by rewrite (py_bind_ok _ _ _ _ _ E)|].
    split; [by eapply same_trans|done].
Qed.

Lemma runs_ok {A} (m : M dart A) d (a : A) d' (Q : A -> dart -> Prop) : m d = (Ok a, d') -> same_machine d d' -> Q a d' -> runs m d Q.
Proof. intros E Hs Hq. exists (Ok a), d'. split; [done|]. split; [done|]. right. by exists a. Qed.

Lemma runs_mono {A} (m : M dart A) d (Q R : A -> dart -> Prop) : runs m d Q -> (forall a d', Q a d' -> R a d') -> runs m d R.
Proof.
  intros (r & d' & E & Hs & H) HQR. exists r, d'. split; [done|]. split; [done|]. destruct H as [->|(a & -> & Ha)]; [by left|]. right. eauto.
Qed.

(** A new table is fresh and empty. *)
Lemma new_table_runs own dirty d : tables own dirty d ->
  runs new_table d (fun a d' => own !! a = None /\ a mod PAGE_SIZE = 0 /\ 0 <= a < phys_limit /\
    cache_ok ({[a]} ∪ dirty) d' /\ (forall b, view d' b = put (view d) a zero_table b) /\
    (forall sl, heap_ok (<[a := sl]> own) (dt_heap d')) /\ dt_ttbr d' = dt_ttbr d).
Proof.
  intros [Ht Hc Hh]. unfold new_table, dart_memalign, on_dart_heap, runs. unfold py_bind at 1.
  destruct (heap_memalign PAGE_SIZE PAGE_SIZE (dt_heap d)) as [[a|e] h'] eqn:E.
  - destruct (memalign_fresh own (dt_heap d) a h' Hh E) as (Hn & Ha & Hb & Hh').
    destruct zero_table_wf as [Hzl Hzr].
    destruct (cache_write dirty (dt_set_heap h' d) a zero_table) as [Hc' Hv]; [|done|done|done|].
    { destruct Hc as [H1 H2 H3]. by constructor. }
    eexists _, _. split; [reflexivity|]. split; [done|]. right. exists a. split; [done|].
    split; [exact Hn|]. split; [exact Ha|]. split; [exact Hb|]. split; [exact Hc'|]. split; [exact Hv|]. split; [exact Hh'|done].
  - apply memalign_raises in E as ->. eexists _, _. split; [reflexivity|]. split; [done|by left].
Qed.

(** [ensure_l1]: after it, the stream has an L1 table for the page. *)
Lemma ensure_l1_runs own dirty d stream l0 : tables own dirty d -> S stream -> 0 <= stream < 16 -> 0 <= l0 < 4 ->
  runs (ensure_l1 stream l0) d (fun a d' => a = l1_root (dt_ttbr d' stream l0) /\ ttbr_valid (dt_ttbr d' stream l0) /\
    (forall s p, S s -> page_ok p -> mapped d' s p = mapped d s p) /\
    exists own', tables own' dirty d' \/ (tables own' ({[a]} ∪ dirty) d' /\ view d' a = zero_table)).
Proof.
  intros Htb HS Hs Hl. unfold ensure_l1. eapply (runs_bind _ _ _ (fun t d' => t = dt_ttbr d stream l0 /\ d' = d)).
  { eapply runs_ok; [exact (dart_ttbr_ok R_TTBR_dart8020 16 4 d stream l0 Hs Hl ltac:(reflexivity))|done|done]. }
  intros ? ? [-> ->]. set (t := dt_ttbr d stream l0). eapply (runs_bind _ _ _ (fun v d' => v = f_raw (FBit 31) t /\ d' = d)).
  { eapply runs_ok; [exact (getf_int TTBR_8020 "VALID" (FBit 31) t d ltac:(reflexivity) ltac:(int_field) ltac:(reflexivity))|done|done]. }
  intros ? ? [-> ->].
  eapply (runs_bind _ _ _ (fun t' d' => t' = dt_ttbr d' stream l0 /\ ttbr_valid t' /\
    (forall s p, S s -> page_ok p -> mapped d' s p = mapped d s p) /\
    exists own', tables own' dirty d' \/ (tables own' ({[l1_root t']} ∪ dirty) d' /\ view d' (l1_root t') = zero_table))).
  - destruct (Z.eqb_spec (f_raw (FBit 31) t) 0) as [Hi|Hv].
    2: { eapply runs_ok; [reflexivity|done|]. split; [done|]. split; [done|]. split; [done|]. exists own. by left. }
    eapply runs_bind; [by apply (new_table_runs own dirty)|]. intros a d1 (Hn & Ha & Hb & Hc1 & Hv1 & Hh1 & Ht1).
    destruct (ttbr_built t a Ha Hb) as (t1 & t2 & E1 & E2 & Hv2 & Hr2).
    destruct (tree_new_l1 fo S own (dt_ttbr d) (view d) stream l0 a t2 (tb_tree _ _ _ Htb) Hn Hi Hr2) as [Htree Hpg].
    eapply (runs_ok _ d1 t2 (dt_set_ttbr stream l0 t2 d1)).
    + unfold py_bind, py_lift, dart_ttbr_set. rewrite E1, E2, !reg_index_in by done. reflexivity.
    + done.
    + assert (HT : dt_ttbr (dt_set_ttbr stream l0 t2 d1) = put_ttbr (dt_ttbr d) stream l0 t2) by (unfold put_ttbr; by rewrite <- Ht1).
      assert (HV : forall b, view (dt_set_ttbr stream l0 t2 d1) b = put (view d) a zero_table b) by exact Hv1.
      rewrite HT, put_ttbr_same. split; [done|]. split; [done|]. split.
      * intros s p HSs Hp. unfold mapped. rewrite HT, <- Hpg by done. by apply tree_page_ext.
      * exists (<[a := SL1 stream l0]> own). right. rewrite Hr2. split; [|rewrite HV; apply put_same].
        constructor; [rewrite HT; by apply (tree_ok_ext _ _ _ _ _ _ HV)| |apply Hh1].
        destruct Hc1 as [K1 K2 K3]. by constructor.
  - intros t' d' (-> & Hv' & Hpg & Hown). eapply (runs_bind _ _ _ (fun v d'' => v = f_raw (FBits 30 0 TInt) (dt_ttbr d' stream l0) /\ d'' = d')).
    { eapply runs_ok; [exact (getf_int TTBR_8020 "ADDR" (FBits 30 0 TInt) _ d' ltac:(reflexivity) ltac:(int_field) ltac:(reflexivity))|done|done]. }
    intros ? ? [-> ->]. eapply runs_ok; [reflexivity|done|]. done.
Qed.

Lemma list_set_wf (l : list Z) i v : length l = Lx_SIZE -> Forall (fun v => 0 <= v < 2 ^ 64) l -> 0 <= v < 2 ^ 64 ->
  length (<[i := v]> l) = Lx_SIZE /\ Forall (fun v => 0 <= v < 2 ^ 64) (<[i := v]> l).
Proof. intros Hl Hr Hv. split; [by rewrite length_insert|]. by apply Forall_insert. Qed.

Lemma view_lookup dirty d a page off : cache_ok dirty d -> exists e, view d a !! table_index page off = Some e.
Proof.
  intros Hc. destruct (view_wf dirty d a Hc) as [Hl _]. pose proof (table_index_lt page off) as Hi. rewrite <- Hl in Hi.
  by apply lookup_lt_is_Some_2 in Hi.
Qed.

Lemma runs_get_pt own dirty d a : tables own dirty d -> a mod PAGE_SIZE = 0 ->
  runs (get_pt a false) d (fun cl d' => snd cl = view d a /\ tables own dirty d' /\ dt_ttbr d' = dt_ttbr d /\ dt_heap d' = dt_heap d /\
    (forall b, view d' b = view d b) /\ (forall s p, mapped d' s p = mapped d s p)).
Proof.
  intros [Ht Hc Hh] Ha. destruct (get_pt_view d a) as [c E]. destruct (cache_seen dirty d a Hc Ha) as [Hc' Hv].
  eapply runs_ok; [exact E|done|]. split; [done|]. split; [|split; [done|split; [done|split; [done|]]]].
  - constructor; [by apply (tree_ok_ext _ _ _ _ _ _ Hv)|done|done].
  - intros s p. unfold mapped. by apply (tree_page_ext fo (dt_ttbr d) _ _ s p Hv).
Qed.

(** What [ensure_l2] establishes: a valid L1 entry for the page. *)
Definition has_l2 (stream page : Z) (own : gmap Z slot) (dirty : gset Z) (d' : dart) (l1pte l2a : Z) : Prop :=
  let t := dt_ttbr d' stream (Z.shiftr page L0_OFF) in
  ttbr_valid t /\ view d' (l1_root t) !! table_index page L1_OFF = Some l1pte /\ f_raw (FBit 0) l1pte <> 0 /\
  l2a = Z.shiftl (f_raw fo l1pte) PAGE_BITS /\ (tables own dirty d' \/ tables own ({[l2a]} ∪ dirty) d').

Lemma ensure_l2_runs own dirty D d stream page : S stream -> page_ok page ->
  let t := dt_ttbr d stream (Z.shiftr page L0_OFF) in ttbr_valid t -> tables own D d ->
  D = dirty \/ (D = {[l1_root t]} ∪ dirty /\ view d (l1_root t) = zero_table) ->
  runs (ensure_l2 cls [("SP_PROT_DIS", 1)] (l1_root t) page dirty) d (fun '(l1pte, l2a, dirty') d' =>
    (forall s p, S s -> page_ok p -> mapped d' s p = mapped d s p) /\ exists own', has_l2 stream page own' dirty' d' l1pte l2a).
Proof.
  intros HS Hpg t Hv Htb HD. pose proof (l0_range page (proj2 Hpg)) as Hl0. set (l0 := Z.shiftr page L0_OFF) in *.
  pose proof (tk_l1 _ _ _ _ _ (tb_tree _ _ _ Htb) stream l0 HS Hl0 Hv) as Hown. fold t in Hown.
  destruct (hk_own _ _ (tb_heap _ _ _ Htb) _ _ Hown) as [Hal _].
  unfold ensure_l2. eapply runs_bind; [by apply (runs_get_pt own D)|]. intros [c l1] d1 (El & Htb1 & Ht1 & Hh1 & Hv1 & Hm1). cbn [snd] in El. subst l1.
  pose proof (pte_class_8020 cls Hcls) as Hp. destruct (view_lookup D d (l1_root t) page L1_OFF (tb_cache _ _ _ Htb)) as [e He].
  set (i1 := table_index page L1_OFF) in *.
  eapply (runs_bind _ _ _ (fun v d' => v = e /\ d' = d1)).
  { eapply runs_ok; [unfold py_lift, py_index; rewrite He; reflexivity|done|done]. }
  intros ? ? [-> ->]. eapply (runs_bind _ _ _ (fun v d' => v = e /\ d' = d1)).
  { eapply runs_ok; [exact (init_ok _ _ _ d1 Hp)|done|done]. }
  intros ? ? [-> ->]. eapply (runs_bind _ _ _ (fun v d' => v = f_raw (FBit 0) e /\ d' = d1)).
  { eapply runs_ok; [exact (getf_valid _ _ _ d1 Hp)|done|done]. }
  intros ? ? [-> ->]. destruct (Z.eqb_spec (f_raw (FBit 0) e) 0) as [Hi|Hve].
  - eapply runs_bind; [by apply (new_table_runs own D)|]. intros a d2 (Hn & Ha & Hb & Hc2 & Hv2 & Hh2 & Ht2).
    destruct (table_pte cls a Hcls Ha Hb) as (pte & Ep & Hpte).
    eapply (runs_bind _ _ _ (fun v d' => v = pte /\ d' = d2)).
    { eapply runs_ok; [unfold py_lift; cbn [app]; rewrite Ep; reflexivity|done|done]. }
    intros ? ? [-> ->]. assert (Hra : l1_root t <> a) by (intros E; rewrite E, Hn in Hown; done).
    destruct (view_wf D d (l1_root t) (tb_cache _ _ _ Htb)) as [Hwl Hwr].
    destruct (list_set_wf (view d (l1_root t)) i1 pte Hwl Hwr (proj1 Hpte)) as [Hwl' Hwr'].
    destruct (cache_write ({[a]} ∪ D) d2 (l1_root t) (<[i1 := pte]> (view d (l1_root t))) Hc2 Hal Hwl' Hwr') as [Hc3 Hv3].
    destruct (tree_new_l2 fo S own (dt_ttbr d) (view d) stream l0 i1 a pte e (tb_tree _ _ _ Htb) Hn HS Hl0 Hv He Hi Hpte) as [Htree Hpgs].
    fold t in Htree, Hpgs.
    set (d3 := dt_set_cache (<[l1_root t := <[i1 := pte]> (view d (l1_root t))]> (dt_cache d2)) d2) in *.
    assert (HV : forall b, view d3 b = put (put (view d) a zero_table) (l1_root t) (<[i1 := pte]> (view d (l1_root t))) b).
    { intros b. rewrite Hv3. unfold put at 1 2. destruct (decide (b = l1_root t)); [done|]. rewrite Hv2. unfold put. by rewrite Hv1. }
    assert (HT : dt_ttbr d3 = dt_ttbr d) by (cbn; congruence).
    eapply (runs_bind _ _ _ (fun _ d' => d' = d3)).
    { eapply runs_ok; [unfold table_set; rewrite (proj2 (Z.eqb_neq a _)) by congruence; reflexivity|done|done]. }
    intros _ ? ->. eapply runs_ok; [reflexivity|done|]. split.
    + intros s p HSs Hpp. unfold mapped. rewrite HT, <- Hpgs by done. by apply tree_page_ext.
    + exists (<[a := SL2 stream l0 i1]> own). unfold has_l2. rewrite HT. fold l0 t. split; [done|]. split.
      { rewrite HV, put_same. apply list_lookup_insert_eq. by apply lookup_lt_Some in He. }
      destruct Hpte as (_ & Hpv & Hpa). split; [by rewrite Hpv|]. split; [done|]. right. constructor.
      * rewrite HT. by apply (tree_ok_ext _ _ _ _ _ _ HV).
      * replace ({[a]} ∪ ({[l1_root t]} ∪ dirty)) with ({[l1_root t]} ∪ ({[a]} ∪ D)); [done|].
        apply leibniz_equiv. destruct HD as [->|[-> _]]; set_solver.
      * apply Hh2.
  - eapply (runs_bind _ _ _ (fun v d' => v = f_raw fo e /\ d' = d1)).
    { eapply runs_ok; [exact (getf_offset _ _ _ d1 Hp)|done|done]. }
    intros ? ? [-> ->]. eapply runs_ok; [reflexivity|done|]. split; [intros; apply Hm1|]. exists own. unfold has_l2. rewrite Ht1. fold l0 t.
    split; [done|]. split; [by rewrite Hv1|]. split; [done|]. split; [done|]. left.
    destruct HD as [->|[_ Hz]]; [done|]. exfalso. rewrite Hz in He. apply zero_lookup in He as ->. done.
Qed.

(** One iteration maps one page. *)
Lemma map_page_runs own dirty d stream page paddr : tables own dirty d -> S stream -> 0 <= stream < 16 -> page_ok page ->
  paddr mod PAGE_SIZE = 0 -> 0 <= paddr < phys_limit ->
  runs (map_page_8020 cls stream page paddr dirty) d (fun dirty' d' => (exists own', tables own' dirty' d') /\
    forall s p, S s -> page_ok p -> mapped d' s p = if decide (s = stream /\ p = page) then Some paddr else mapped d s p).
Proof.
  intros Htb HS Hs Hpg Hpa Hpl. pose proof (l0_range page (proj2 Hpg)) as Hl0. unfold map_page_8020.
  rewrite (proj2 (Z.ltb_lt (Z.shiftr page L0_OFF) L0_SIZE)) by (unfold L0_SIZE; lia). cbn [negb].
  pose proof (pte_class_8020 cls Hcls) as Hp.
  eapply runs_bind; [by apply (ensure_l1_runs own dirty)|]. intros l1a d1 (-> & Hv1 & Hm1 & own1 & Hown1).
  eapply runs_bind.
  { destruct Hown1 as [H1|[H1 Hz]]; [eapply (ensure_l2_runs own1 dirty dirty)|eapply (ensure_l2_runs own1 dirty)]; try done; [by left|by right]. }
  intros [[l1pte l2a] dirty2] d2 (Hm2 & own2 & Hv2 & He2 & Hvp & Hl2 & Hown2). set (t := dt_ttbr d2 stream (Z.shiftr page L0_OFF)) in *.
  eapply (runs_bind _ _ _ (fun v d' => v = f_raw fo l1pte /\ d' = d2)).
  { eapply runs_ok; [exact (getf_offset _ _ _ d2 Hp)|done|done]. }
  intros ? ? [-> ->]. rewrite <- Hl2.
  assert (HD : exists D, tables own2 D d2 /\ {[l2a]} ∪ D = {[l2a]} ∪ dirty2).
  { destruct Hown2 as [H|H]; eexists; (split; [exact H|]); [done|]. apply leibniz_equiv. set_solver. }
  destruct HD as (D & HtbD & HDe). cbv zeta.
  pose proof (tk_l2 _ _ _ _ _ (tb_tree _ _ _ HtbD) stream _ _ l1pte HS Hl0 Hv2 He2 Hvp) as Hown. rewrite <- Hl2 in Hown.
  destruct (hk_own _ _ (tb_heap _ _ _ HtbD) _ _ Hown) as [Hal _].
  eapply runs_bind; [by apply (runs_get_pt own2 D)|]. intros [c l2] d3 (El & Htb3 & Ht3 & Hh3 & Hv3 & Hm3). cbn [snd] in El. subst l2.
  destruct (leaf_pte cls paddr Hcls Hpa Hpl) as (pte & Ep & Hpte).
  eapply (runs_bind _ _ _ (fun v d' => v = pte /\ d' = d3)).
  { eapply runs_ok; [unfold py_lift; rewrite Ep; reflexivity|done|done]. }
  intros ? ? [-> ->]. destruct (view_wf D d2 l2a (tb_cache _ _ _ HtbD)) as [Hwl Hwr]. set (i2 := table_index page L2_OFF) in *.
  destruct (list_set_wf (view d2 l2a) i2 pte Hwl Hwr (proj1 Hpte)) as [Hwl' Hwr'].
  destruct (cache_write D d3 l2a (<[i2 := pte]> (view d2 l2a)) (tb_cache _ _ _ Htb3) Hal Hwl' Hwr') as [Hc4 Hv4].
  set (d4 := dt_set_cache (<[l2a := <[i2 := pte]> (view d2 l2a)]> (dt_cache d3)) d3) in *.
  assert (HV : forall b, view d4 b = put (view d2) l2a (<[i2 := pte]> (view d2 l2a)) b).
  { intros b. rewrite Hv4. unfold put. destruct (decide (b = l2a)); [done|]. apply Hv3. }
  assert (HT : dt_ttbr d4 = dt_ttbr d2) by exact Ht3.
  destruct (tree_leaf fo S own2 (dt_ttbr d2) (view d2) stream page paddr pte (tb_tree _ _ _ HtbD) HS Hpg Hv2 l1pte He2 Hvp) as [Htree Hpgs].
  { rewrite <- Hl2, Hwl. apply table_index_lt. }
  { done. }
  rewrite <- Hl2 in Htree, Hpgs.
  eapply (runs_bind _ _ _ (fun _ d' => d' = d4)); [by eapply runs_ok|]. intros _ ? ->. eapply runs_ok; [reflexivity|done|]. split.
  - exists own2. constructor; [rewrite HT; by apply (tree_ok_ext _ _ _ _ _ _ HV)|by rewrite <- HDe|]. change (dt_heap d4) with (dt_heap d3).
    rewrite Hh3. apply HtbD.
  - intros s p HSs Hpp. assert (E4 : mapped d4 s p = tree_page fo (dt_ttbr d2) (put (view d2) l2a (<[i2 := pte]> (view d2 l2a))) s p).
    { unfold mapped. rewrite HT. by apply tree_page_ext. }
    rewrite E4, Hpgs by done. destruct (decide _); [done|]. fold (mapped d2 s p). by rewrite Hm2, Hm1.
Qed.

(** The loop maps the pages of the request, in order, and nothing else. *)
Lemma map_pages_runs stream n : forall own dirty d page paddr, tables own dirty d -> S stream -> 0 <= stream < 16 ->
  page mod PAGE_SIZE = 0 -> 0 <= page -> page + Z.of_nat n * PAGE_SIZE <= 2 ^ 38 ->
  paddr mod PAGE_SIZE = 0 -> 0 <= paddr -> paddr + Z.of_nat n * PAGE_SIZE <= phys_limit ->
  runs (map_pages_8020 cls stream page paddr n dirty) d (fun dirty' d' => (exists own', tables own' dirty' d') /\
    forall s p, S s -> page_ok p ->
      mapped d' s p = if decide (s = stream /\ page <= p < page + Z.of_nat n * PAGE_SIZE) then Some (paddr + (p - page)) else mapped d s p).
Proof.
  pose proof PAGE_SIZE_pos as HP.
  assert (Hstep : forall x, x mod PAGE_SIZE = 0 -> (x + PAGE_SIZE) mod PAGE_SIZE = 0).
  { intros x Hx. replace (x + PAGE_SIZE) with (x + 1 * PAGE_SIZE) by lia. by rewrite Z_mod_plus_full. }
  assert (Hgap : forall x p, x mod PAGE_SIZE = 0 -> p mod PAGE_SIZE = 0 -> x <= p -> p <> x -> x + PAGE_SIZE <= p).
  { intros x p Hx Hp Hle Hne. rewrite Z.mod_eq in Hx, Hp by lia.
    set (i := x / PAGE_SIZE) in *. set (j := p / PAGE_SIZE) in *. assert (i < j) by nia. nia. }
  induction n as [|n IH]; intros own dirty d page paddr Htb HS Hs Hpm Hp0 Hp1 Ham Ha0 Ha1; cbn [map_pages_8020].
  { eapply runs_ok; [reflexivity|done|]. split; [by exists own|]. intros s p _ _. rewrite decide_False; [done|]. lia. }
  eapply runs_bind; [apply (map_page_runs own dirty d stream page paddr); try done; [split; [done|lia]|lia]|].
  intros dirty1 d1 [[own1 Htb1] Hm1]. eapply runs_mono.
  { apply (IH own1 dirty1 d1 (page + PAGE_SIZE) (paddr + PAGE_SIZE)); try done; try lia; by apply Hstep. }
  intros dirty2 d2 [Hown2 Hm2]. split; [done|]. intros s p HSs Hp. rewrite Hm2, Hm1 by done. destruct Hp as [Hpm' Hpr].
  destruct (decide (s = stream)) as [->|Hne]; [|rewrite !decide_False by tauto; done].
  destruct (decide (p = page)) as [->|Hne].
  - rewrite (decide_False (P := stream = stream /\ page + PAGE_SIZE <= page < _)) by lia.
    rewrite !decide_True by (split; [done|lia]). f_equal. lia.
  - rewrite (decide_False (P := stream = stream /\ p = page)) by tauto.
    destruct (decide (stream = stream /\ page + PAGE_SIZE <= p < page + PAGE_SIZE + Z.of_nat n * PAGE_SIZE)) as [[_ H]|H].
    + rewrite decide_True by (split; [done|lia]). f_equal. lia.
    + rewrite decide_False; [done|]. intros [_ H']. apply H. split; [done|]. split; [apply Hgap; [done|done|lia|done]|lia].
Qed.
End mapping.

(** ** Flushing *)

#[local] Opaque pack_Qs.

Lemma table_store m a l : length l = Lx_SIZE -> forall bs, pack_Qs l = Ok bs -> table_of (mem_store a bs m) a = l.
Proof.
  intros Hl bs Hb. pose proof (pack_Qs_length l bs Hb) as Hn. destruct (table_of_spec (mem_store a bs m) a) as [E _].
  pose proof (unpack_Qs_pack l bs [] [] Hb) as Hu. cbn [app length] in Hu. rewrite app_nil_r, Hl in Hu.
  rewrite pt_bytes_eq, <- Hl, <- Hn, mem_read_store, Hl in E. exact (Ok_inj _ _ (eq_trans (eq_sym E) Hu)).
Qed.

Lemma table_store_apart m a b l bs : length l = Lx_SIZE -> pack_Qs l = Ok bs -> a mod PAGE_SIZE = 0 -> b mod PAGE_SIZE = 0 -> a <> b ->
  table_of (mem_store a bs m) b = table_of m b.
Proof.
  intros Hl Hb Ha Hbm Hne. pose proof (pack_Qs_length l bs Hb) as Hn.
  destruct (table_of_spec (mem_store a bs m) b) as [E _]. destruct (table_of_spec m b) as [E' _].
  assert (Hrd : mem_read (mem_store a bs m) b pt_bytes = mem_read m b pt_bytes); [|rewrite Hrd in E; exact (Ok_inj _ _ (eq_trans (eq_sym E) E'))].
  apply mem_read_store_apart. unfold zlen. rewrite Hn, Hl, pt_bytes_eq.
  assert (Hsz : Z.of_nat (8 * Lx_SIZE) = PAGE_SIZE) by (vm_compute; reflexivity). rewrite Hsz.
  rewrite Z.mod_eq in Ha, Hbm by done. pose proof PAGE_SIZE_pos.
  set (i := a / PAGE_SIZE) in *. set (j := b / PAGE_SIZE) in *. assert (i <> j) by (intros Eij; rewrite Eij in Ha; lia). assert (i < j \/ j < i) as [?|?] by lia; [left|right]; nia.
Qed.

(** Flushing the dirty tables makes memory agree with the view. *)
Lemma flush_all_ok ps : forall dirty d, cache_ok dirty d -> (forall a, In a ps -> a ∈ dirty) ->
  exists m, flush_all ps d = (Ok tt, dt_set_mem m d) /\
    (forall a, In a ps -> table_of m a = view d a) /\
    (forall b, b mod PAGE_SIZE = 0 -> ~ In b ps -> table_of m b = table_of (dt_mem d) b).
Proof.
  induction ps as [|a ps IH]; intros dirty d Hc Hin.
  { exists (dt_mem d). split; [by destruct d|]. done. }
  destruct (ck_dirty _ _ Hc a (Hin a (or_introl eq_refl))) as [l El]. destruct (ck_wf _ _ Hc a l El) as (Hl & Hr & Ha).
  destruct (pack_Qs_ok l Hr) as [bs Hb]. cbn [flush_all].
  set (d1 := dt_set_mem (mem_store a bs (dt_mem d)) d).
  assert (E1 : flush_pt a d = (Ok tt, d1)).
  { unfold flush_pt. rewrite (py_bind_ok (py_get dt_cache) _ d (dt_cache d) d eq_refl), El. unfold py_lift, py_bind. by rewrite Hb. }
  assert (Hc1 : cache_ok ({[a]} ∪ dirty) d1).
  { constructor; [apply (ck_wf _ _ Hc)| |].
    - intros b l' Hb' Hd. cbn [d1 dt_mem dt_set_mem]. rewrite (table_store_apart (dt_mem d) a b l bs); try done; [|by destruct (ck_wf _ _ Hc b l' Hb') as (_ & _ & ?)|set_solver].
      apply (ck_clean _ _ Hc); [done|set_solver].
    - intros b Hb'. change (dt_cache d1) with (dt_cache d). destruct (decide (b = a)) as [->|Hne]; [by exists l|]. apply (ck_dirty _ _ Hc). set_solver. }
  destruct (IH _ d1 Hc1) as (m & Em & Hset & Hkeep); [intros b Hbi; apply elem_of_union_r, Hin; by right|].
  exists m. split; [by rewrite (py_bind_ok _ _ _ _ _ E1), Em|]. split.
  - intros b [<-|Hbi].
    + destruct (in_dec Z.eq_dec a ps) as [Hi|Hi].
      * rewrite (Hset a Hi). unfold view. change (dt_cache d1) with (dt_cache d). by rewrite El.
      * rewrite (Hkeep a Ha Hi). cbn [d1 dt_mem dt_set_mem]. rewrite (table_store (dt_mem d) a l Hl bs Hb). unfold view. by rewrite El.
    + rewrite (Hset b Hbi). unfold view. change (dt_cache d1) with (dt_cache d).
      destruct (ck_dirty _ _ Hc b (Hin b (or_intror Hbi))) as [l' ->]. done.
  - intros b Hbm Hnb. rewrite Hkeep by (done || (intros H; apply Hnb; by right)). cbn [d1 dt_mem dt_set_mem].
    apply (table_store_apart (dt_mem d) a b l bs); try done. intros ->. apply Hnb. by left.
Qed.

(** ** [iomap_at] *)

Lemma walk_tables_ext fo e e' l1 page : (forall t p o, e t p o = e' t p o) -> walk_tables fo e l1 page = walk_tables fo e' l1 page.
Proof. intros H. unfold walk_tables. by rewrite !H. Qed.

(** With a clean cache the driver's view is memory's. *)
Lemma mapped_clean cls d s page : cache_ok ∅ d -> mapped cls d s page = phys_page (K8020 cls) d s page.
Proof.
  intros Hc. unfold mapped, tree_page, phys_page. destruct (_ =? 0); [done|]. apply walk_tables_ext. intros t p o.
  unfold view_entry. assert (Hv : view d t = table_of (dt_mem d) t).
  { unfold view. destruct (dt_cache d !! t) as [l|] eqn:E; [|done]. apply (ck_clean _ _ Hc); [done|set_solver]. }
  rewrite Hv, table_lookup. reflexivity.
Qed.

Lemma enable_stream_8020_ok d stream : 0 <= stream -> exists reg e, enable_stream_8020 stream d = (Ok tt, dt_set_enabled reg e d).
Proof.
  intros Hs. unfold enable_stream_8020, py_shl. rewrite (proj2 (Z.ltb_ge _ _)) by lia. unfold py_bind, py_lift, py_get, py_modify.
  destruct (negb _); [exists (dt_enabled_reg d), (dt_enabled d); by destruct d|]. eexists _, _. reflexivity.
Qed.

Lemma check_mode_8020 cls d stream : translating (K8020 cls) d stream -> check_mode R_TCR_dart8020 (dt_tcr d stream) d = (Ok tt, d).
Proof.
  intros [Hb Ht]. unfold check_mode.
  rewrite (py_bind_ok _ _ _ _ _ (getf_int R_TCR_dart8020 "BYPASS_DART" (FBit 8) _ d ltac:(reflexivity) ltac:(int_field) ltac:(reflexivity))).
  rewrite (py_bind_ok _ _ _ _ _ (getf_int R_TCR_dart8020 "TRANSLATE_ENABLE" (FBit 7) _ d ltac:(reflexivity) ltac:(int_field) ltac:(reflexivity))).
  rewrite Hb. apply Z.eqb_neq in Ht. rewrite Ht. reflexivity.
Qed.

(** The driver's invariant: the tables of the streams in [S] form a tree of
    allocated pages, no two places share a table, and the cache is clean. *)
Definition dart_inv (cls : reg_class) (S : Z -> Prop) (d : dart) : Prop := exists own, tables cls S own ∅ d.

Lemma dart_inv_coherent cls S d : dart_inv cls S d -> coherent d.
Proof. intros [own [_ Hc _]] a l E. apply (ck_clean _ _ Hc); [done|set_solver]. Qed.

(** ** Initialisation *)

Lemma for_range_inv (P : Z -> dart -> Prop) body n d : P 0 d ->
  (forall k d1, 0 <= k < Z.of_nat n -> P k d1 -> exists d2, body k d1 = (Ok tt, d2) /\ P (k + 1) d2) ->
  exists d', for_range n body d = (Ok tt, d') /\ P (Z.of_nat n) d'.
Proof.
  induction n as [|n IH]; intros H0 Hs; cbn [for_range]; [by exists d|].
  destruct IH as (d1 & E1 & H1); [done|intros k d1 Hk; apply Hs; lia|]. rewrite (py_bind_ok _ _ _ _ _ E1).
  destruct (Hs (Z.of_nat n) d1 ltac:(lia) H1) as (d2 & E2 & H2). exists d2. split; [done|]. by replace (Z.of_nat (Datatypes.S n)) with (Z.of_nat n + 1) by lia.
Qed.

(** Everything but the registers is kept. *)
Definition same_tables (d d' : dart) : Prop := dt_cache d' = dt_cache d /\ dt_mem d' = dt_mem d /\ dt_heap d' = dt_heap d.

(** [initialize] establishes the invariant: with the tables of every stream gone
    and streams 0 to 14 translating, mapping can start. *)
Lemma initialize_inv cls S d : (forall s, S s -> 0 <= s < 16) -> cache_ok ∅ d -> heap_ok ∅ (dt_heap d) ->
  exists d', initialize_8020 d = (Ok tt, d') /\ dart_inv cls S d' /\ forall s, 0 <= s < 15 -> translating (K8020 cls) d' s.
Proof.
  intros HS Hc Hh. unfold initialize_8020.
  assert (L : forall (r : result Z) v (k : Z -> M dart unit) d0, r = Ok v -> py_bind (py_lift r) k d0 = k v d0) by (by intros r v k d0 ->).
  rewrite (L _ 0x80) by reflexivity. rewrite (L _ 0x100) by reflexivity. rewrite (L _ 0) by reflexivity. clear L.
  destruct (for_range_inv (fun k d1 => same_tables d d1 /\ forall s, 0 <= s < k -> dt_tcr d1 s = 0x80) (fun i => py_modify (dt_set_tcr i 0x80)) 15 d)
    as (d1 & E1 & Hs1 & Ht1); [split; [done|lia]| |].
  { intros k d1 Hk [Hs Ht]. eexists. split; [reflexivity|]. split; [done|]. intros s Hsk. cbn [dt_tcr dt_set_tcr].
    destruct (Z.eqb_spec s k); [done|]. apply Ht. lia. }
  rewrite (py_bind_ok _ _ _ _ _ E1), (py_bind_ok (py_modify (dt_set_tcr 15 0x100)) _ d1 tt (dt_set_tcr 15 0x100 d1) eq_refl).
  set (d2 := dt_set_tcr 15 0x100 d1).
  destruct (for_range_inv (fun k d3 => same_tables d d3 /\ dt_tcr d3 = dt_tcr d2 /\ forall s j, 0 <= s < k -> 0 <= j < 4 -> dt_ttbr d3 s j = 0)
    (fun i => for_range 4 (fun j => dart_ttbr_set 16 4 i j 0)) 16 d2) as (d3 & E3 & Hs3 & Ht3 & Hz3); [split; [done|split; [done|lia]]| |].
  { intros k d3 Hk (Hs & Ht & Hz).
    destruct (for_range_inv (fun j d4 => same_tables d d4 /\ dt_tcr d4 = dt_tcr d2 /\
      (forall s j', 0 <= s < k -> 0 <= j' < 4 -> dt_ttbr d4 s j' = 0) /\ forall j', 0 <= j' < j -> dt_ttbr d4 k j' = 0)
      (fun j => dart_ttbr_set 16 4 k j 0) 4 d3) as (d4 & E4 & H4 & Ht4 & Hz4 & Hk4); [split_and!; done || lia| |].
    - intros j d4 Hj (Hs4 & Ht4 & Hz4 & Hk4). eexists. split; [unfold dart_ttbr_set, py_bind, py_lift; rewrite !reg_index_in by lia; reflexivity|].
      split; [done|]. split; [done|]. cbn [dt_ttbr dt_set_ttbr]. split.
      + intros s j' Hs' Hj'. destruct ((s =? k) && (j' =? j)); [done|by apply Hz4].
      + intros j' Hj'. rewrite Z.eqb_refl. cbn [andb]. destruct (Z.eqb_spec j' j); [done|]. apply Hk4. lia.
    - exists d4. split; [done|]. split; [done|]. split; [done|]. intros s j Hsk Hj. destruct (decide (s = k)) as [->|]; [by apply Hk4|apply Hz4; lia]. }
  rewrite (py_bind_ok _ _ _ _ _ E3). eexists. split; [reflexivity|]. destruct Hs3 as (Hca & Hme & Hhe). split.
  - exists ∅. constructor.
    + split.
      * intros s l0 Hss Hl Hv. exfalso. apply Hv. cbn [dt_ttbr dt_set_enabled]. rewrite Hz3; [done|by apply HS|done].
      * intros s l0 i e Hss Hl Hv. exfalso. apply Hv. cbn [dt_ttbr dt_set_enabled]. rewrite Hz3; [done|by apply HS|done].
    + destruct Hc as [K1 K2 K3]. constructor; cbn [dt_cache dt_mem dt_set_enabled]; rewrite ?Hca, ?Hme; done.
    + cbn [dt_heap dt_set_enabled]. by rewrite Hhe.
  - intros s Hs. unfold translating. cbn [dt_tcr dt_set_enabled]. rewrite Ht3. cbn [d2 dt_tcr dt_set_tcr].
    rewrite (proj2 (Z.eqb_neq s 15)), Ht1 by lia. by split.
Qed.

(** Flushing after the loop restores the invariant and publishes the mapping. *)
Lemma flush_publishes cls S own dirty d (ps : list Z) : tables cls S own dirty d -> (forall a, In a ps <-> a ∈ dirty) ->
  exists m, flush_all ps d = (Ok tt, dt_set_mem m d) /\ dart_inv cls S (dt_set_mem m d) /\
    forall s p, S s -> page_ok p -> phys_page (K8020 cls) (dt_set_mem m d) s p = mapped cls d s p.
Proof.
  intros [Ht Hc Hh] Hps. destruct (flush_all_ok ps dirty d Hc) as (m & E & Hset & Hkeep); [by intros a; apply Hps|].
  exists m. split; [done|].
  assert (Hclean : cache_ok ∅ (dt_set_mem m d)).
  { constructor; [apply (ck_wf _ _ Hc)| |set_solver]. intros a l Ea _. cbn [dt_cache dt_mem dt_set_mem] in *.
    destruct (decide (a ∈ dirty)) as [Hd|Hd].
    - rewrite Hset by (by apply Hps). unfold view. by rewrite Ea.
    - rewrite Hkeep; [by apply (ck_clean _ _ Hc)|by destruct (ck_wf _ _ Hc a l Ea) as (_ & _ & ?)|by rewrite Hps]. }
  assert (Hview : forall b, is_Some (dt_cache d !! b) \/ b mod PAGE_SIZE = 0 -> view (dt_set_mem m d) b = view d b).
  { intros b Hb. unfold view. cbn [dt_cache dt_mem dt_set_mem]. destruct (dt_cache d !! b) as [l|] eqn:El; [done|].
    apply Hkeep; [destruct Hb as [[? ?]|]; done|]. rewrite Hps. intros Hd. destruct (ck_dirty _ _ Hc b Hd) as [? ?]. congruence. }
  assert (Hl1 : forall s l0, S s -> 0 <= l0 < 4 -> ttbr_valid (dt_ttbr d s l0) ->
    view (dt_set_mem m d) (l1_root (dt_ttbr d s l0)) = view d (l1_root (dt_ttbr d s l0))).
  { intros s l0 HS Hl Hv. apply Hview. right. apply (hk_own _ _ Hh _ _ (tk_l1 _ _ _ _ _ Ht s l0 HS Hl Hv)). }
  split.
  - exists own. constructor; [|done|done]. split; [apply (tk_l1 _ _ _ _ _ Ht)|].
    intros s l0 i e HS Hl Hv. cbn [dt_ttbr dt_set_mem] in *. rewrite Hl1 by done. by apply (tk_l2 _ _ _ _ _ Ht).
  - intros s p HS [_ Hp]. rewrite <- mapped_clean by done. unfold mapped, tree_page. cbn [dt_ttbr dt_set_mem].
    pose proof (l0_range p Hp) as Hl. set (l0 := Z.shiftr p L0_OFF) in *.
    destruct (Z.eqb_spec (f_raw (FBit 31) (dt_ttbr d s l0)) 0) as [|Hv]; [done|]. unfold walk_tables, view_entry. rewrite Hl1 by done.
    destruct (view d (l1_root (dt_ttbr d s l0)) !! table_index p L1_OFF) as [e1|] eqn:E1; [|done]. simpl.
    destruct (Z.eqb_spec (f_raw (FBit 0) e1) 0) as [|Hv1]; [done|]. rewrite Hview; [done|].
    right. apply (hk_own _ _ Hh _ _ (tk_l2 _ _ _ _ _ Ht s l0 _ e1 HS Hl Hv E1 Hv1)).
Qed.

(** The pages of a mapping request. *)
Lemma request_span start size limit : start mod PAGE_SIZE = 0 -> 0 < size -> start + size <= limit -> limit mod PAGE_SIZE = 0 ->
  align_up (start + size) PAGE_SIZE <= limit.
Proof.
  intros Hst Hs Hle Hl. destruct (page_split start size Hs) as (_ & n & _ & _ & He & _). pose proof (align_up_spec (start + size) 14 ltac:(lia)) as Hu.
  change (2 ^ 14) with PAGE_SIZE in Hu. pose proof PAGE_SIZE_pos. rewrite Z.mod_eq in Hl by lia. set (j := limit / PAGE_SIZE) in *.
  set (q := (start + size + PAGE_SIZE - 1) / PAGE_SIZE) in *. assert (q <= j) by nia. nia.
Qed.

(** C27: [iomap_at] on a T8020 or T6000 DART refines an update of the I/O address
    space.  From a state in which the tables of the managed streams form a tree,
    mapping page-aligned addresses either runs out of heap or returns, and then
    the tree invariant holds again, the cache agrees with memory, and the
    hardware translation of every address of every managed stream is what it
    was, except that the pages of the request translate to the physical range,
    byte by byte. *)
Theorem iomap_at_refines order cls (S : Z -> Prop) d stream iova addr size
    (Hcls : cls_8020 cls) (Hord : forall D a, In a (order D) <-> a ∈ D)
    (Hinv : dart_inv cls S d) (HS : S stream) (Hs : 0 <= stream < 16) (Htr : translating (K8020 cls) d stream)
    (Hsz : 0 < size) (Hi : iova mod PAGE_SIZE = 0) (Ha : addr mod PAGE_SIZE = 0)
    (Hir : 0 <= iova /\ iova + size <= 2 ^ 38) (Har : 0 <= addr /\ addr + size <= phys_limit) :
  exists r d', dart_iomap_at order (K8020 cls) stream iova addr size d = (r, d') /\
    (r = Raise oom \/
     r = Ok tt /\ dart_inv cls S d' /\ coherent d' /\ dt_tcr d' = dt_tcr d /\
     forall s x, S s -> 0 <= x < 2 ^ 38 ->
       phys (K8020 cls) d' s x =
         if decide (s = stream /\ iova <= x < align_up (iova + size) PAGE_SIZE) then Some (addr + (x - iova))
         else phys (K8020 cls) d s x).
Proof.
  destruct Hinv as [own Htb]. cbn [dart_iomap_at]. unfold iomap_at_8020. rewrite (proj2 (Z.eqb_neq size 0)) by lia.
  destruct (enable_stream_8020_ok d stream ltac:(lia)) as (reg & en & E). rewrite (py_bind_ok _ _ _ _ _ E).
  set (d0 := dt_set_enabled reg en d). rewrite (py_bind_ok _ _ _ _ _ (dart_tcr_ok R_TCR_dart8020 16 d0 stream Hs ltac:(reflexivity))).
  rewrite (py_bind_ok _ _ _ _ _ (check_mode_8020 cls d0 stream Htr)), (py_bind_ok _ _ _ _ _ (check_aligned_ok _ _ d0 Ha Hi)).
  destruct (page_split iova size Hsz) as (Hsp & n & Hn & Hn0 & He & Hep). rewrite Hn, Hsp, Hi, Z.sub_0_r in *.
  pose proof (request_span iova size (2 ^ 38) Hi Hsz ltac:(lia) eq_refl) as Hr1.
  pose proof PAGE_SIZE_pos as HP. replace (addr + iova - iova) with addr by lia.
  assert (Htb0 : tables cls S own ∅ d0) by (destruct Htb as [? [? ? ?] ?]; constructor; [done|by constructor|done]).
  assert (Hpl : addr + Z.of_nat n * PAGE_SIZE <= phys_limit).
  { assert (Hl : phys_limit mod PAGE_SIZE = 0) by reflexivity. rewrite Z.mod_eq in Ha, Hl by lia.
    set (i := addr / PAGE_SIZE) in *. set (j := phys_limit / PAGE_SIZE) in *.
    assert (Hlt : addr + (Z.of_nat n - 1) * PAGE_SIZE < phys_limit) by lia.
    assert (i + Z.of_nat n - 1 < j) by nia. nia. }
  destruct (map_pages_runs cls Hcls S stream n own ∅ d0 iova addr) as (r & d1 & E1 & [Hmem Htcr] & Hres); try done; try lia.
  destruct Hres as [->|(dirty & -> & [own1 Htb1] & Hm)].
  { exists (Raise oom), d1. split; [by apply py_bind_raise|by left]. }
  rewrite (py_bind_ok _ _ _ _ _ E1). destruct (flush_publishes cls S own1 dirty d1 (order dirty) Htb1 (Hord dirty)) as (m & Ef & Hinv & Hph).
  exists (Ok tt), (dt_set_mem m d1). split; [done|]. right. split; [done|]. split; [done|]. split; [by eapply dart_inv_coherent|]. split; [exact Htcr|].
  intros s x HSs Hx. unfold phys. pose proof (Z.mod_pos_bound x PAGE_SIZE HP) as Hxm. pose proof (Z.mod_eq x PAGE_SIZE ltac:(lia)) as Hxe.
  assert (Hpg : page_ok (x - x mod PAGE_SIZE)).
  { split; [|lia || (pose proof (Z.mod_le x PAGE_SIZE ltac:(lia) HP); lia)]. rewrite Hxe. replace (x - (x - PAGE_SIZE * (x / PAGE_SIZE))) with ((x / PAGE_SIZE) * PAGE_SIZE) by lia. by apply Z.mod_mul. }
  rewrite Hph, Hm by done. rewrite (mapped_clean cls d0 s _ (tb_cache _ _ _ _ _ Htb0)).
  change (phys_page (K8020 cls) d0 s) with (phys_page (K8020 cls) d s).
  assert (Hiff : (iova <= x - x mod PAGE_SIZE < iova + Z.of_nat n * PAGE_SIZE) <-> (iova <= x < align_up (iova + size) PAGE_SIZE)).
  { replace (align_up (iova + size) PAGE_SIZE) with (iova + Z.of_nat n * PAGE_SIZE) by lia. rewrite Z.mod_eq in Hi by lia.
    set (i := iova / PAGE_SIZE) in *. set (q := x / PAGE_SIZE) in *. 
    split; intros H; (assert (i <= q) by nia); (assert (q < i + Z.of_nat n) by nia); (assert (q + 1 <= i + Z.of_nat n) by lia); nia. }
  destruct (decide (s = stream /\ iova <= x < align_up (iova + size) PAGE_SIZE)) as [[-> H]|H].
  - rewrite decide_True by (split; [done|by apply Hiff]). cbn [option_map]. f_equal. lia.
  - rewrite decide_False; [done|]. intros [-> H']. apply H. split; [done|by apply Hiff].
Qed.

(** ** Mapping on an empty IOMMU *)

Definition empty_dart : dart :=
  {| dt_tcr := fun _ => 0x80; dt_ttbr := fun _ _ => 0; dt_enabled_reg := fun _ => 0; dt_enabled := 0; dt_cache := ∅; dt_mem := fun _ => x00;
     dt_heap := {| hp_offset := 0x100000; hp_count := 16; hp_blocks := [(16, false)]; hp_block := 0x4000 |} |}.

Lemma empty_dart_inv S : dart_inv PTE_T8020 S empty_dart.
Proof.
  exists ∅. constructor.
  - split; intros s l0; [intros _ _ H|intros i e _ _ H]; by destruct H.
  - constructor; [intros a l H|intros a l H|set_solver]; cbn [dt_cache empty_dart] in H; by rewrite lookup_empty in H.
  - constructor; [|by left; exists 1|unfold phys_limit; simpl; lia|intros a s H; by rewrite lookup_empty in H].
    constructor; simpl; try done. by repeat constructor.
Qed.

Lemma empty_dart_maps : fst (dart_iomap_at elements (K8020 PTE_T8020) 1 0x8000 0x200000 0x9000 empty_dart) = Ok tt.
Proof. vm_compute. reflexivity. Qed.

Lemma iomap_at_refines_witness :
  exists d', dart_iomap_at elements (K8020 PTE_T8020) 1 0x8000 0x200000 0x9000 empty_dart = (Ok tt, d') /\
    phys (K8020 PTE_T8020) d' 1 0x8010 = Some 0x200010 /\ phys (K8020 PTE_T8020) d' 1 0x13fff = Some 0x20bfff /\
    phys (K8020 PTE_T8020) d' 1 0x14000 = None /\ phys (K8020 PTE_T8020) d' 0 0x8010 = None.
Proof.
  destruct (iomap_at_refines elements PTE_T8020 (fun s => 0 <= s < 16) empty_dart 1 0x8000 0x200000 0x9000)
    as (r & d' & E & H); [by left| |apply empty_dart_inv|lia|lia|by split|lia|reflexivity|reflexivity|lia|unfold phys_limit; lia|].
  - intros D a. rewrite <- list_elem_of_In. apply elem_of_elements.
  - pose proof empty_dart_maps as Hok. rewrite E in Hok. cbn [fst] in Hok. subst r.
    destruct H as [[=]|(_ & _ & _ & _ & Hph)]. exists d'. split; [exact E|].
    rewrite !Hph by lia. split; [|split; [|split]]; vm_compute; reflexivity.
Defined.
