(* ===== verification/FwTables.v ===== *)
(** * Register classes of the firmware protocols, tracers and experiments

    The 64-bit mailbox messages of proxyclient/m1n1/fw and the register classes of
    proxyclient/m1n1/{trace,hv,agx}, proxyclient/hv and proxyclient/experiments, as the tables of
    fields their bodies declare (see [RegTables] for the hardware registers and the
    conventions).  The theorem shows that a message built by any of these classes
    is well formed: it fits its register, carries the constants of its class and
    every argument it was given. *)

From S2P Require Import Prelude Registers RegTables.
From Stdlib Require Import ZArith Lia.
From stdpp Require Import base list numbers strings.

Local Open Scope string_scope.
Local Open Scope list_scope.
Local Open Scope Z_scope.

(** ** m1n1/fw/asc/base.py *)
Definition ASCMessage1 : reg_class := RegClass 64
  [("EP", FBits 7 0 TInt)].

(** ** m1n1/fw/asc/mgmt.py *)
Definition ManagementMessage : reg_class := RegClass 64
  [("TYPE", FBits 59 52 TInt)].
Definition Mgmt_Hello : reg_class := register_subclass ManagementMessage
  [("TYPE", FBits 59 52 (TConst 1)); ("MAX_VER", FBits 31 16 TInt); ("MIN_VER", FBits 15 0 TInt)].
Definition Mgmt_HelloAck : reg_class := register_subclass ManagementMessage
  [("TYPE", FBits 59 52 (TConst 2)); ("MAX_VER", FBits 31 16 TInt); ("MIN_VER", FBits 15 0 TInt)].
Definition Mgmt_Ping : reg_class := register_subclass ManagementMessage
  [("TYPE", FBits 59 52 (TConst 3))].
Definition Mgmt_Pong : reg_class := register_subclass ManagementMessage
  [("TYPE", FBits 59 52 (TConst 4))].
Definition Mgmt_StartEP : reg_class := register_subclass ManagementMessage
  [("TYPE", FBits 59 52 (TConst 5)); ("EP", FBits 39 32 TInt); ("FLAG", FBits 1 0 TInt)].
Definition Mgmt_SetIOPPower : reg_class := register_subclass ManagementMessage
  [("TYPE", FBits 59 52 (TConst 6)); ("STATE", FBits 15 0 TInt)].
Definition Mgmt_IOPPowerAck : reg_class := register_subclass ManagementMessage
  [("TYPE", FBits 59 52 (TConst 7)); ("STATE", FBits 15 0 TInt)].
Definition Mgmt_EPMap : reg_class := register_subclass ManagementMessage
  [("TYPE", FBits 59 52 (TConst 8)); ("LAST", FBit 51); ("BASE", FBits 34 32 TInt); ("BITMAP", FBits 31 0 TInt)].
Definition Mgmt_EPMap_Ack : reg_class := register_subclass ManagementMessage
  [("TYPE", FBits 59 52 (TConst 8)); ("LAST", FBit 51); ("BASE", FBits 34 32 TInt); ("MORE", FBit 0)].
Definition Mgmt_SetAPPower : reg_class := register_subclass ManagementMessage
  [("TYPE", FBits 59 52 (TConst 0xb)); ("STATE", FBits 15 0 TInt)].

(** ** m1n1/fw/asc/crash.py *)
Definition CrashLogMessage : reg_class := RegClass 64
  [("TYPE", FBits 63 52 TInt); ("SIZE", FBits 51 44 TInt); ("DVA", FBits 43 0 TInt)].

(** ** m1n1/fw/asc/syslog.py *)
Definition SyslogMessage : reg_class := RegClass 64
  [("TYPE", FBits 59 52 TInt)].
Definition Syslog_Init : reg_class := register_subclass SyslogMessage
  [("TYPE", FBits 59 52 (TConst 8)); ("ENTRYSIZE", FBits 39 24 TInt); ("COUNT", FBits 15 0 TInt)].
Definition Syslog_GetBuf : reg_class := register_subclass SyslogMessage
  [("TYPE", FBits 59 52 (TConst 1)); ("SIZE", FBits 51 44 TInt); ("DVA", FBits 43 0 TInt)].
Definition Syslog_Log : reg_class := register_subclass SyslogMessage
  [("TYPE", FBits 59 52 (TConst 5)); ("INDEX", FBits 7 0 TInt)].

(** ** m1n1/fw/asc/kdebug.py *)
Definition KDebugMessage : reg_class := RegClass 64
  [("TYPE", FBits 55 48 TInt)].
Definition KDebugGetBufMessage : reg_class := register_subclass KDebugMessage
  [("TYPE", FBits 55 48 (TConst 1)); ("COUNT", FBits 47 0 TInt)].
Definition KDebugPreallocBuf1Message : reg_class := register_subclass KDebugMessage
  [("TYPE", FBits 55 48 (TConst 2)); ("DVA", FBits 47 12 TInt); ("FLAGS", FBits 11 0 TInt)].
Definition KDebugPreallocBuf2Message : reg_class := register_subclass KDebugMessage
  [("TYPE", FBits 55 48 (TConst 3)); ("DVA", FBits 47 0 TInt)].
Definition KDebugSendBufMessage : reg_class := register_subclass KDebugMessage
  [("TYPE", FBits 55 48 TInt); ("DVA", FBits 47 0 TInt)].
Definition KDebugStart : reg_class := register_subclass KDebugMessage
  [("TYPE", FBits 55 48 (TConst 8))].

(** ** m1n1/fw/asc/ioreporting.py *)
Definition IOReportingMessage : reg_class := RegClass 64
  [("TYPE", FBits 63 52 TInt)].
Definition IOReporting_GetBuf : reg_class := register_subclass IOReportingMessage
  [("TYPE", FBits 63 52 (TConst 1)); ("SIZE", FBits 51 44 TInt); ("DVA", FBits 43 0 TInt)].
Definition IOReporting_Start : reg_class := register_subclass IOReportingMessage
  [("TYPE", FBits 63 52 (TConst 0xc))].
Definition IOReporting_Report : reg_class := register_subclass IOReportingMessage
  [("TYPE", FBits 63 52 (TConst 8))].

(** ** m1n1/fw/asc/oslog.py *)
Definition OSLogMessage : reg_class := RegClass 64
  [("TYPE", FBits 63 56 TInt)].
Definition OSLog_GetBuf : reg_class := register_subclass OSLogMessage
  [("TYPE", FBits 63 56 (TConst 1)); ("SIZE", FBits 55 48 TInt); ("DVA", FBits 47 0 TInt)].

(** ** m1n1/fw/afk/rbep.py *)
Definition AFKEPMessage : reg_class := RegClass 64
  [("TYPE", FBits 63 48 TInt)].
Definition AFKEP_GetBuf : reg_class := register_subclass AFKEPMessage
  [("TYPE", FBits 63 48 (TConst 0x89)); ("SIZE", FBits 31 16 TInt); ("TAG", FBits 15 0 TInt)].
Definition AFKEP_GetBuf_Ack : reg_class := register_subclass AFKEPMessage
  [("TYPE", FBits 63 48 (TConst 0xa1)); ("DVA", FBits 47 0 TInt)].
Definition AFKEP_InitRB : reg_class := register_subclass AFKEPMessage
  [("OFFSET", FBits 47 32 TInt); ("SIZE", FBits 31 16 TInt); ("TAG", FBits 15 0 TInt)].
Definition AFKEP_Send : reg_class := register_subclass AFKEPMessage
  [("TYPE", FBits 63 48 (TConst 0xa2)); ("WPTR", FBits 31 0 TInt)].
Definition AFKEP_Recv : reg_class := register_subclass AFKEPMessage
  [("TYPE", FBits 63 48 (TConst 0x85)); ("WPTR", FBits 31 0 TInt)].
Definition AFKEP_Init : reg_class := register_subclass AFKEPMessage
  [("TYPE", FBits 63 48 (TConst 0x80))].
Definition AFKEP_Init_Ack : reg_class := register_subclass AFKEPMessage
  [("TYPE", FBits 63 48 (TConst 0xa0))].
Definition AFKEP_Start : reg_class := register_subclass AFKEPMessage
  [("TYPE", FBits 63 48 (TConst 0xa3))].
Definition AFKEP_Start_Ack : reg_class := register_subclass AFKEPMessage
  [("TYPE", FBits 63 48 (TConst 0x86))].
Definition AFKEP_Shutdown : reg_class := register_subclass AFKEPMessage
  [("TYPE", FBits 63 48 (TConst 0xc0))].
Definition AFKEP_Shutdown_Ack : reg_class := register_subclass AFKEPMessage
  [("TYPE", FBits 63 48 (TConst 0xc1))].

(** ** m1n1/fw/smc.py *)
Definition SMCMessage : reg_class := RegClass 64
  [("TYPE", FBits 7 0 TInt); ("UNK", FBits 11 8 (TConst 0)); ("ID", FBits 15 12 TInt)].
Definition SMCInitialize : reg_class := register_subclass SMCMessage
  [("TYPE", FBits 7 0 (TConst 0x17))].
Definition SMCGetKeyInfo : reg_class := register_subclass SMCMessage
  [("TYPE", FBits 7 0 (TConst 0x13)); ("KEY", FBits 63 32 TInt)].
Definition SMCGetKeyByIndex : reg_class := register_subclass SMCMessage
  [("TYPE", FBits 7 0 (TConst 0x12)); ("INDEX", FBits 63 32 TInt)].
Definition SMCWriteKey : reg_class := register_subclass SMCMessage
  [("TYPE", FBits 7 0 (TConst 0x11)); ("SIZE", FBits 23 16 TInt); ("KEY", FBits 63 32 TInt)].
Definition SMCReadKey : reg_class := register_subclass SMCMessage
  [("TYPE", FBits 7 0 (TConst 0x10)); ("SIZE", FBits 23 16 TInt); ("KEY", FBits 63 32 TInt)].
Definition SMCReadWriteKey : reg_class := register_subclass SMCMessage
  [("TYPE", FBits 7 0 (TConst 0x20)); ("RSIZE", FBits 23 16 TInt); ("WSIZE", FBits 31 24 TInt);
   ("KEY", FBits 63 32 TInt)].
Definition SMCResult : reg_class := RegClass 64
  [("RESULT", FBits 7 0 TInt); ("ID", FBits 15 12 TInt); ("SIZE", FBits 31 16 TInt); ("VALUE", FBits 63 32 TInt)].

(** ** m1n1/fw/pmp.py *)
Definition PMPMessage_pmp : reg_class := RegClass 64
  [("TYPE", FBits 56 44 TInt)].
Definition PMP_Startup : reg_class := register_subclass PMPMessage_pmp
  [("TYPE", FBits 56 44 (TConst 0))].
Definition PMP_Configure : reg_class := register_subclass PMPMessage_pmp
  [("TYPE", FBits 56 44 (TConst 0x10)); ("DVA", FBits 47 0 TInt)].
Definition PMP_Configure_Ack : reg_class := register_subclass PMPMessage_pmp
  [("TYPE", FBits 56 44 (TConst 0x20)); ("UNK", FBits 47 0 TInt)].
Definition PMP_Init1 : reg_class := register_subclass PMPMessage_pmp
  [("TYPE", FBits 56 44 (TConst 0x200)); ("UNK1", FBits 43 16 TInt); ("UNK2", FBits 15 0 TInt)].
Definition PMP_Init1_Ack : reg_class := register_subclass PMPMessage_pmp
  [("TYPE", FBits 56 44 (TConst 0x201)); ("UNK1", FBits 43 16 TInt); ("UNK2", FBits 15 0 TInt)].
Definition PMP_Init2 : reg_class := register_subclass PMPMessage_pmp
  [("TYPE", FBits 56 44 (TConst 0x202)); ("UNK1", FBits 43 16 TInt); ("UNK2", FBits 15 0 TInt)].
Definition PMP_Init2_Ack : reg_class := register_subclass PMPMessage_pmp
  [("TYPE", FBits 56 44 (TConst 0x203)); ("UNK1", FBits 43 16 TInt); ("UNK2", FBits 15 0 TInt)].
Definition PMP_Unk : reg_class := register_subclass PMPMessage_pmp
  [("TYPE", FBits 56 44 (TConst 0x100)); ("UNK1", FBits 43 16 TInt); ("UNK2", FBits 15 0 TInt)].
Definition PMP_Unk_Ack : reg_class := register_subclass PMPMessage_pmp
  [("TYPE", FBits 56 44 (TConst 0x110)); ("UNK1", FBits 43 16 TInt); ("UNK2", FBits 15 0 TInt)].
Definition PMP_DevPwr : reg_class := register_subclass PMPMessage_pmp
  [("TYPE", FBits 56 44 (TConst 0x20e)); ("DEV", FBits 31 16 TInt); ("STATE", FBits 15 0 TInt)].
Definition PMP_DevPwr_Sync : reg_class := register_subclass PMPMessage_pmp
  [("TYPE", FBits 56 44 (TConst 0x208)); ("DEV", FBits 31 16 TInt); ("STATE", FBits 15 0 TInt)].
Definition PMP_DevPwr_Ack : reg_class := register_subclass PMPMessage_pmp
  [("TYPE", FBits 56 44 (TConst 0x209)); ("DEV", FBits 31 16 TInt); ("STATE", FBits 15 0 TInt)].

(** ** m1n1/fw/dcp/dcpep.py *)
Definition DCPMessage : reg_class := RegClass 64
  [("TYPE", FBits 3 0 TInt)].
Definition DCPEp_SetShmem : reg_class := register_subclass DCPMessage
  [("DVA", FBits 63 16 TInt); ("FLAG", FBits 7 4 TInt); ("TYPE", FBits 3 0 (TConst 0))].
Definition DCPEp_InitComplete : reg_class := register_subclass DCPMessage
  [("TYPE", FBits 3 0 (TConst 1))].
Definition CallContext : list (string * Z) :=
  [("CB", 0); ("CMD", 2); ("ASYNC", 3); ("OOBCB", 4); ("OOBCMD", 6); ("OOBASYNC", 7)].
Definition DCPEp_Msg : reg_class := register_subclass DCPMessage
  [("LEN", FBits 63 32 TInt); ("OFF", FBits 31 16 TInt); ("CTX", FBits 11 8 (TEnum (map snd CallContext)));
   ("ACK", FBit 6); ("TYPE", FBits 3 0 (TConst 2))].

(** ** m1n1/fw/agx/__init__.py *)
Definition GpuMsg_agx : reg_class := RegClass 64
  [("TYPE", FBits 63 48 TInt)].
Definition InitMsg : reg_class := register_subclass GpuMsg_agx
  [("TYPE", FBits 63 48 (TConst 0x81)); ("UNK", FBits 47 44 (TConst 0)); ("INITDATA", FBits 43 0 TInt)].
Definition EventMsg : reg_class := register_subclass GpuMsg_agx
  [("TYPE", FBits 63 48 (TConst 0x42)); ("UNK", FBits 47 0 (TConst 0))].
Definition DoorbellMsg : reg_class := register_subclass GpuMsg_agx
  [("TYPE", FBits 63 48 (TConst 0x83)); ("CHANNEL", FBits 15 0 TInt)].
Definition FWCtlMsg : reg_class := register_subclass GpuMsg_agx
  [("TYPE", FBits 63 48 (TConst 0x84))].
Definition HaltMsg : reg_class := register_subclass GpuMsg_agx
  [("TYPE", FBits 63 48 (TConst 0x85))].

(** ** m1n1/trace/pcie.py *)
Definition R_BAR : reg_class := RegClass 32
  [("BASE", FBits 31 4 TInt); ("PREFETCH", FBit 3); ("ADDR64", FBit 2); ("BELOW_1M", FBit 1); ("SPACE", FBit 0)].

(** ** m1n1/trace/gpio.py *)
Definition R_PIN_gpio : reg_class := RegClass 32
  [("DRIVE_STRENGTH1", FBits 23 22 TInt); ("LOCK", FBit 21); ("GROUP", FBits 18 16 TInt); ("SCHMITT", FBit 15);
   ("DRIVE_STRENGTH0", FBits 11 10 TInt); ("INPUT_ENABLE", FBit 9); ("PULL", FBits 8 7 TInt);
   ("PERIPH", FBits 6 5 TInt); ("MODE", FBits 3 1 TInt); ("DATA", FBit 0)].

(** ** m1n1/trace/agx.py *)
Definition GpuMsg_trace_agx : reg_class := RegClass 64
  [("TYPE", FBits 55 48 TInt)].
Definition PongMsg : reg_class := register_subclass GpuMsg_trace_agx
  [("TYPE", FBits 59 52 TInt); ("UNK", FBits 47 0 TInt)].
Definition KickMsg : reg_class := register_subclass GpuMsg_trace_agx
  [("TYPE", FBits 59 52 TInt); ("KICK", FBits 7 0 TInt)].

(** ** m1n1/agx/shim.py *)
Definition IOCTL : reg_class := RegClass 32
  [("NR", FBits 7 0 TInt); ("TYPE", FBits 15 8 TInt); ("SIZE", FBits 29 16 TInt); ("DIR", FBits 31 30 TInt)].

(** ** m1n1/hv/virtio.py *)
Definition VirtioDescFlags : reg_class := RegClass 16
  [("WRITE", FBit 1); ("NEXT", FBit 0)].

(** ** m1n1/hv/types.py *)
Definition MMIOTraceFlags : reg_class := RegClass 32
  [("ATTR", FBits 31 24 TInt); ("CPU", FBits 23 16 TInt); ("SH", FBits 15 14 TInt); ("WIDTH", FBits 4 0 TInt);
   ("WRITE", FBit 5); ("MULTI", FBit 6)].
Definition HV_EVENT : list (string * Z) :=
  [("HOOK_VM", 1); ("VTIMER", 2); ("USER_INTERRUPT", 3); ("WDT_BARK", 4); ("CPU_SWITCH", 5); ("VIRTIO", 6);
   ("PANIC", 7)].
Definition TraceMode : list (string * Z) :=
  [("OFF", 0); ("BYPASS", 1); ("ASYNC", 2); ("UNBUF", 3); ("WSYNC", 4); ("SYNC", 5); ("HOOK", 6);
   ("RESERVED", 7)].

(** ** experiments/pmp_init.py *)
Definition PMPMessage_pmp_init : reg_class := RegClass 64
  [("TYPE", FBits 56 48 TInt)].
Definition PMPMessage_IOVATableAck_pmp_init : reg_class := register_subclass PMPMessage_pmp_init
  [("TYPE", FBits 56 48 (TConst 0x11)); ("IOVA", FBits 47 0 TInt)].
Definition PMPMessage_Malloc_pmp_init : reg_class := register_subclass PMPMessage_pmp_init
  [("TYPE", FBits 56 48 (TConst 0x12)); ("SIZE", FBits 23 0 TInt)].
Definition PMPMessage_MallocAck_pmp_init : reg_class := register_subclass PMPMessage_pmp_init
  [("TYPE", FBits 56 48 (TConst 0x13)); ("IOVA", FBits 47 0 TInt)].
Definition PMPMessage_Free_pmp_init : reg_class := register_subclass PMPMessage_pmp_init
  [("TYPE", FBits 56 48 (TConst 0x14)); ("IOVA", FBits 47 0 TInt)].
Definition PMPMessage_SetBuf_pmp_init : reg_class := register_subclass PMPMessage_pmp_init
  [("TYPE", FBits 56 48 (TConst 0x30)); ("IOVA", FBits 47 0 TInt)].
Definition PMPMessage_Advertise_pmp_init : reg_class := register_subclass PMPMessage_pmp_init
  [("TYPE", FBits 56 48 (TConst 0x32)); ("IOVA", FBits 47 0 TInt)].
Definition PMPMessage_AdvertiseAck_pmp_init : reg_class := register_subclass PMPMessage_pmp_init
  [("TYPE", FBits 56 48 (TConst 0x33)); ("INDEX", FBits 47 32 TInt); ("SIZE", FBits 31 0 TInt)].
Definition PMPMessage_SetVal_pmp_init : reg_class := register_subclass PMPMessage_pmp_init
  [("TYPE", FBits 56 48 (TConst 0x34)); ("INDEX", FBits 15 0 TInt)].
Definition PMPMessage_SetValAck_pmp_init : reg_class := register_subclass PMPMessage_pmp_init
  [("TYPE", FBits 56 48 (TConst 0x35)); ("SIZE", FBits 31 0 TInt)].

(** ** experiments/cpu_id_regs.py *)
Definition ID_AA64ISAR0 : reg_class := RegClass 64
  [("RNDR", FBits 63 60 TInt); ("TS", FBits 55 52 TInt); ("FHM", FBits 51 48 TInt); ("DP", FBits 47 44 TInt);
   ("SM4", FBits 43 40 TInt); ("SM3", FBits 39 36 TInt); ("SHA3", FBits 35 32 TInt); ("RDM", FBits 31 28 TInt);
   ("ATOMICS", FBits 23 20 TInt); ("CRC32", FBits 19 16 TInt); ("SHA2", FBits 15 12 TInt);
   ("SHA1", FBits 11 8 TInt); ("AES", FBits 7 4 TInt)].
Definition ID_AA64PFR0 : reg_class := RegClass 64
  [("DIT", FBits 51 48 TInt); ("MPAM", FBits 43 40 TInt); ("SVE", FBits 35 32 TInt); ("GIC", FBits 27 24 TInt);
   ("FP", FBits 19 16 TInt); ("EL3", FBits 15 12 TInt); ("EL2", FBits 11 8 TInt); ("EL1", FBits 7 4 TInt);
   ("EL0", FBits 3 0 TInt)].
Definition ID_AA64PFR1 : reg_class := RegClass 64
  [("SME", FBits 27 24 TInt); ("MTE", FBits 11 8 TInt); ("SSBS", FBits 7 4 TInt); ("BT", FBits 3 0 TInt)].
Definition ID_AA64ISAR1 : reg_class := RegClass 64
  [("I8MM", FBits 55 52 TInt); ("DGH", FBits 51 48 TInt); ("BF16", FBits 47 44 TInt); ("SB", FBits 39 36 TInt);
   ("FRINTTS", FBits 35 32 TInt); ("GPI", FBits 31 28 TInt); ("GPA", FBits 27 24 TInt);
   ("LRCPC", FBits 23 20 TInt); ("FCMA", FBits 19 16 TInt); ("JSCVT", FBits 15 12 TInt);
   ("API", FBits 11 8 TInt); ("APA", FBits 7 4 TInt); ("DPB", FBits 3 0 TInt)].
Definition ID_AA64MMFR0 : reg_class := RegClass 64
  [("ECV", FBits 63 60 TInt)].
Definition ID_AA64MMFR2 : reg_class := RegClass 64
  [("AT", FBits 35 32 TInt)].
Definition ID_AA64ZFR0 : reg_class := RegClass 64
  [("F64MM", FBits 59 56 TInt); ("F32MM", FBits 55 52 TInt); ("I8MM", FBits 47 44 TInt);
   ("SM4", FBits 43 40 TInt); ("SHA3", FBits 35 32 TInt); ("B16B16", FBits 27 24 TInt);
   ("BF16", FBits 23 20 TInt); ("AES", FBits 7 4 TInt); ("SVEVer", FBits 3 0 TInt)].
Definition ID_AA64MMFR1 : reg_class := RegClass 64
  [("AFP", FBits 47 44 TInt)].
Definition ID_AA64ISAR2 : reg_class := RegClass 64
  [("CSSC", FBits 55 52 TInt); ("RPRFM", FBits 51 48 TInt); ("BC", FBits 23 20 TInt);
   ("MOPS", FBits 19 16 TInt); ("APA3", FBits 15 12 TInt); ("GPA3", FBits 11 8 TInt);
   ("RPRES", FBits 7 4 TInt); ("WFXT", FBits 3 0 TInt)].
Definition ID_AA64AFR0 : reg_class := RegClass 64
  [].
Definition ID_AA64AFR1 : reg_class := RegClass 64
  [].
Definition ID_AA64DFR0 : reg_class := RegClass 64
  [("PMSVer", FBits 35 32 TInt); ("CTX_CMPs", FBits 31 28 TInt); ("WRPs", FBits 23 20 TInt);
   ("PMSS", FBits 19 16 TInt); ("BRPs", FBits 15 12 TInt); ("PMUVer", FBits 11 8 TInt);
   ("TraceVer", FBits 7 4 TInt); ("DebugVer", FBits 3 0 TInt)].
Definition ID_AA64DFR1 : reg_class := RegClass 64
  [].
Definition ID_AA64FPFR0 : reg_class := RegClass 64
  [].
Definition ID_AA64ISAR3 : reg_class := RegClass 64
  [].
Definition ID_AA64MMFR3 : reg_class := RegClass 64
  [].
Definition ID_AA64MMFR4 : reg_class := RegClass 64
  [].
Definition ID_AA64PFR2 : reg_class := RegClass 64
  [].
Definition ID_AA64SMFR0 : reg_class := RegClass 64
  [("FA64", FBit 63); ("LUTv2", FBit 60); ("SMEver", FBits 59 56 TInt); ("I16I64", FBits 55 52 TInt);
   ("F64F64", FBit 48); ("I16I32", FBits 47 44 TInt); ("B16B16", FBit 43); ("F16F16", FBit 42);
   ("F8F16", FBit 41); ("F8F32", FBit 40); ("I8I32", FBits 39 36 TInt); ("F16F32", FBit 35);
   ("B16F32", FBit 34); ("BI32I32", FBit 33); ("F32F32", FBit 32); ("SF8FMA", FBit 30); ("SF8DP4", FBit 29);
   ("SF8DP2", FBit 28); ("SBitPerm", FBit 25); ("AES", FBit 24); ("SFEXPA", FBit 23); ("STMOP", FBit 16);
   ("SMOP4", FBit 0)].

(** ** hv/trace_keyboard.py *)
Definition SIOMessage_trace_keyboard : reg_class := RegClass 64
  [("EP", FBits 7 0 TInt); ("TAG", FBits 13 8 TInt); ("TYPE", FBits 23 16 TInt); ("PARAM", FBits 31 24 TInt);
   ("DATA", FBits 63 32 TInt)].
Definition SIOStart_trace_keyboard : reg_class := register_subclass SIOMessage_trace_keyboard
  [("TYPE", FBits 23 16 (TConst 2))].
Definition SIOSetup_trace_keyboard : reg_class := register_subclass SIOMessage_trace_keyboard
  [("TYPE", FBits 23 16 (TConst 3))].
Definition SIOConfig_trace_keyboard : reg_class := register_subclass SIOMessage_trace_keyboard
  [("TYPE", FBits 23 16 (TConst 5))].
Definition SIOAck_trace_keyboard : reg_class := register_subclass SIOMessage_trace_keyboard
  [("TYPE", FBits 23 16 (TConst 0x65))].
Definition SIOSetupIO_trace_keyboard : reg_class := register_subclass SIOMessage_trace_keyboard
  [("TYPE", FBits 23 16 (TConst 6))].
Definition SIOCompleteIO_trace_keyboard : reg_class := register_subclass SIOMessage_trace_keyboard
  [("TYPE", FBits 23 16 (TConst 0x68))].

(** ** hv/trace_mesa.py *)
Definition SIOMessage_trace_mesa : reg_class := RegClass 64
  [("EP", FBits 7 0 TInt); ("TAG", FBits 13 8 TInt); ("TYPE", FBits 23 16 TInt); ("PARAM", FBits 31 24 TInt);
   ("DATA", FBits 63 32 TInt)].
Definition SIOStart_trace_mesa : reg_class := register_subclass SIOMessage_trace_mesa
  [("TYPE", FBits 23 16 (TConst 2))].
Definition SIOSetup_trace_mesa : reg_class := register_subclass SIOMessage_trace_mesa
  [("TYPE", FBits 23 16 (TConst 3))].
Definition SIOConfig_trace_mesa : reg_class := register_subclass SIOMessage_trace_mesa
  [("TYPE", FBits 23 16 (TConst 5))].
Definition SIOAck_trace_mesa : reg_class := register_subclass SIOMessage_trace_mesa
  [("TYPE", FBits 23 16 (TConst 0x65))].
Definition SIOSetupIO_trace_mesa : reg_class := register_subclass SIOMessage_trace_mesa
  [("TYPE", FBits 23 16 (TConst 6))].
Definition SIOCompleteIO_trace_mesa : reg_class := register_subclass SIOMessage_trace_mesa
  [("TYPE", FBits 23 16 (TConst 0x68))].

(** ** hv/trace_wlan.py *)
Definition REG_IOCTL : reg_class := RegClass 32
  [("CLK", FBit 0); ("FGC", FBit 1); ("CORE_SPECIFIC", FBits 13 2 TInt); ("PME_EN", FBit 14);
   ("BIST_EN", FBit 15)].
Definition REG_IOST : reg_class := RegClass 32
  [("CORE_SPECIFIC", FBits 11 0 TInt); ("DMA64", FBit 12); ("GATED_CLK", FBit 13); ("BIST_ERROR", FBit 14);
   ("BIST_DONE", FBit 15)].
Definition REG_RESET_CTL : reg_class := RegClass 32
  [("RESET", FBit 0)].
Definition REG_CLK_CTL : reg_class := RegClass 32
  [("FORCEALP", FBit 0); ("FORCEHT", FBit 1); ("FORCEILP", FBit 2); ("HAVEALPREQ", FBit 3);
   ("HAVEHTREQ", FBit 4); ("HWCROFF", FBit 5); ("HQCLKREQ", FBit 6); ("EXTRESREQ", FBits 11 8 TInt);
   ("HAVEALP", FBit 16); ("HAVEHT", FBit 17); ("BP_ON_ALP", FBit 18); ("BP_ON_HT", FBit 19);
   ("EXTRESST", FBits 26 24 TInt)].
Definition REG_PWR_CTL : reg_class := RegClass 32
  [("DMN0", FBit 0); ("DMN1", FBit 1); ("DMN2", FBit 2); ("DMN3", FBit 3); ("DMN4", FBit 4);
   ("PWRON_DMN0", FBit 8); ("PWRON_DMN1", FBit 9); ("PWRON_DMN2", FBit 10); ("PWRON_DMN3", FBit 11);
   ("PWRON_DMN4", FBit 12); ("ST_DMN0", FBit 16); ("ST_DMN1", FBit 17); ("ST_DMN2", FBit 18);
   ("ST_DMN3", FBit 19); ("ST_DMN4", FBit 20); ("BT_STATUS", FBits 21 20 TInt); ("DMN_ID", FBits 31 28 TInt)].

(** ** hv/trace_pmp.py *)
Definition PMPMessage_trace_pmp : reg_class := RegClass 64
  [("TYPE", FBits 56 48 TInt)].
Definition PMPMessage_IOVATableAck_trace_pmp : reg_class := register_subclass PMPMessage_trace_pmp
  [("TYPE", FBits 56 48 (TConst 0x11)); ("IOVA", FBits 47 0 TInt)].
Definition PMPMessage_Malloc_trace_pmp : reg_class := register_subclass PMPMessage_trace_pmp
  [("TYPE", FBits 56 48 (TConst 0x12)); ("SIZE", FBits 23 0 TInt)].
Definition PMPMessage_MallocAck_trace_pmp : reg_class := register_subclass PMPMessage_trace_pmp
  [("TYPE", FBits 56 48 (TConst 0x13)); ("IOVA", FBits 47 0 TInt)].
Definition PMPMessage_Free_trace_pmp : reg_class := register_subclass PMPMessage_trace_pmp
  [("TYPE", FBits 56 48 (TConst 0x14)); ("IOVA", FBits 47 0 TInt)].
Definition PMPMessage_SetBuf_trace_pmp : reg_class := register_subclass PMPMessage_trace_pmp
  [("TYPE", FBits 56 48 (TConst 0x30)); ("IOVA", FBits 47 0 TInt)].
Definition PMPMessage_Advertise_trace_pmp : reg_class := register_subclass PMPMessage_trace_pmp
  [("TYPE", FBits 56 48 (TConst 0x32)); ("IOVA", FBits 47 0 TInt)].
Definition PMPMessage_AdvertiseAck_trace_pmp : reg_class := register_subclass PMPMessage_trace_pmp
  [("TYPE", FBits 56 48 (TConst 0x33)); ("INDEX", FBits 47 32 TInt); ("SIZE", FBits 31 0 TInt)].
Definition PMPMessage_SetVal_trace_pmp : reg_class := register_subclass PMPMessage_trace_pmp
  [("TYPE", FBits 56 48 (TConst 0x34)); ("INDEX", FBits 15 0 TInt)].
Definition PMPMessage_SetValAck_trace_pmp : reg_class := register_subclass PMPMessage_trace_pmp
  [("TYPE", FBits 56 48 (TConst 0x35)); ("SIZE", FBits 31 0 TInt)].
Definition R_PmpStatus : reg_class := RegClass 64
  [("READY", FBit 0)].

(** ** hv/trace_dcp.py *)
Definition DCPDevType : list (string * Z) :=
  [("DCP", 0); ("DART_DCP", 1); ("DART_DISP", 2)].
Definition DCPDPTXRemotePortTarget : reg_class := RegClass 32
  [("CORE", FBits 3 0 TInt); ("ATC", FBits 7 4 TInt); ("DIE", FBits 11 8 TInt); ("CONNECTED", FBits 15 15 TInt)].

Definition message_tables : list (string * reg_class) :=
  [("ASCMessage1", ASCMessage1); ("ManagementMessage", ManagementMessage); ("Mgmt_Hello", Mgmt_Hello);
   ("Mgmt_HelloAck", Mgmt_HelloAck); ("Mgmt_Ping", Mgmt_Ping); ("Mgmt_Pong", Mgmt_Pong);
   ("Mgmt_StartEP", Mgmt_StartEP); ("Mgmt_SetIOPPower", Mgmt_SetIOPPower);
   ("Mgmt_IOPPowerAck", Mgmt_IOPPowerAck); ("Mgmt_EPMap", Mgmt_EPMap); ("Mgmt_EPMap_Ack", Mgmt_EPMap_Ack);
   ("Mgmt_SetAPPower", Mgmt_SetAPPower); ("CrashLogMessage", CrashLogMessage);
   ("SyslogMessage", SyslogMessage); ("Syslog_Init", Syslog_Init); ("Syslog_GetBuf", Syslog_GetBuf);
   ("Syslog_Log", Syslog_Log); ("KDebugMessage", KDebugMessage); ("KDebugGetBufMessage", KDebugGetBufMessage);
   ("KDebugPreallocBuf1Message", KDebugPreallocBuf1Message);
   ("KDebugPreallocBuf2Message", KDebugPreallocBuf2Message); ("KDebugSendBufMessage", KDebugSendBufMessage);
   ("KDebugStart", KDebugStart); ("IOReportingMessage", IOReportingMessage);
   ("IOReporting_GetBuf", IOReporting_GetBuf); ("IOReporting_Start", IOReporting_Start);
   ("IOReporting_Report", IOReporting_Report); ("OSLogMessage", OSLogMessage); ("OSLog_GetBuf", OSLog_GetBuf);
   ("AFKEPMessage", AFKEPMessage); ("AFKEP_GetBuf", AFKEP_GetBuf); ("AFKEP_GetBuf_Ack", AFKEP_GetBuf_Ack);
   ("AFKEP_InitRB", AFKEP_InitRB); ("AFKEP_Send", AFKEP_Send); ("AFKEP_Recv", AFKEP_Recv);
   ("AFKEP_Init", AFKEP_Init); ("AFKEP_Init_Ack", AFKEP_Init_Ack); ("AFKEP_Start", AFKEP_Start);
   ("AFKEP_Start_Ack", AFKEP_Start_Ack); ("AFKEP_Shutdown", AFKEP_Shutdown);
   ("AFKEP_Shutdown_Ack", AFKEP_Shutdown_Ack); ("SMCMessage", SMCMessage); ("SMCInitialize", SMCInitialize);
   ("SMCGetKeyInfo", SMCGetKeyInfo); ("SMCGetKeyByIndex", SMCGetKeyByIndex); ("SMCWriteKey", SMCWriteKey);
   ("SMCReadKey", SMCReadKey); ("SMCReadWriteKey", SMCReadWriteKey); ("SMCResult", SMCResult);
   ("PMPMessage_pmp", PMPMessage_pmp); ("PMP_Startup", PMP_Startup); ("PMP_Configure", PMP_Configure);
   ("PMP_Configure_Ack", PMP_Configure_Ack); ("PMP_Init1", PMP_Init1); ("PMP_Init1_Ack", PMP_Init1_Ack);
   ("PMP_Init2", PMP_Init2); ("PMP_Init2_Ack", PMP_Init2_Ack); ("PMP_Unk", PMP_Unk);
   ("PMP_Unk_Ack", PMP_Unk_Ack); ("PMP_DevPwr", PMP_DevPwr); ("PMP_DevPwr_Sync", PMP_DevPwr_Sync);
   ("PMP_DevPwr_Ack", PMP_DevPwr_Ack); ("DCPMessage", DCPMessage); ("DCPEp_SetShmem", DCPEp_SetShmem);
   ("DCPEp_InitComplete", DCPEp_InitComplete); ("DCPEp_Msg", DCPEp_Msg); ("GpuMsg_agx", GpuMsg_agx);
   ("InitMsg", InitMsg); ("EventMsg", EventMsg); ("DoorbellMsg", DoorbellMsg); ("FWCtlMsg", FWCtlMsg);
   ("HaltMsg", HaltMsg); ("R_BAR", R_BAR); ("R_PIN_gpio", R_PIN_gpio); ("GpuMsg_trace_agx", GpuMsg_trace_agx);
   ("PongMsg", PongMsg); ("KickMsg", KickMsg); ("IOCTL", IOCTL); ("VirtioDescFlags", VirtioDescFlags);
   ("MMIOTraceFlags", MMIOTraceFlags); ("PMPMessage_pmp_init", PMPMessage_pmp_init);
   ("PMPMessage_IOVATableAck_pmp_init", PMPMessage_IOVATableAck_pmp_init);
   ("PMPMessage_Malloc_pmp_init", PMPMessage_Malloc_pmp_init);
   ("PMPMessage_MallocAck_pmp_init", PMPMessage_MallocAck_pmp_init);
   ("PMPMessage_Free_pmp_init", PMPMessage_Free_pmp_init);
   ("PMPMessage_SetBuf_pmp_init", PMPMessage_SetBuf_pmp_init);
   ("PMPMessage_Advertise_pmp_init", PMPMessage_Advertise_pmp_init);
   ("PMPMessage_AdvertiseAck_pmp_init", PMPMessage_AdvertiseAck_pmp_init);
   ("PMPMessage_SetVal_pmp_init", PMPMessage_SetVal_pmp_init);
   ("PMPMessage_SetValAck_pmp_init", PMPMessage_SetValAck_pmp_init); ("ID_AA64ISAR0", ID_AA64ISAR0);
   ("ID_AA64PFR0", ID_AA64PFR0); ("ID_AA64PFR1", ID_AA64PFR1); ("ID_AA64ISAR1", ID_AA64ISAR1);
   ("ID_AA64MMFR0", ID_AA64MMFR0); ("ID_AA64MMFR2", ID_AA64MMFR2); ("ID_AA64ZFR0", ID_AA64ZFR0);
   ("ID_AA64MMFR1", ID_AA64MMFR1); ("ID_AA64ISAR2", ID_AA64ISAR2); ("ID_AA64AFR0", ID_AA64AFR0);
   ("ID_AA64AFR1", ID_AA64AFR1); ("ID_AA64DFR0", ID_AA64DFR0); ("ID_AA64DFR1", ID_AA64DFR1);
   ("ID_AA64FPFR0", ID_AA64FPFR0); ("ID_AA64ISAR3", ID_AA64ISAR3); ("ID_AA64MMFR3", ID_AA64MMFR3);
   ("ID_AA64MMFR4", ID_AA64MMFR4); ("ID_AA64PFR2", ID_AA64PFR2); ("ID_AA64SMFR0", ID_AA64SMFR0);
   ("SIOMessage_trace_keyboard", SIOMessage_trace_keyboard);
   ("SIOStart_trace_keyboard", SIOStart_trace_keyboard); ("SIOSetup_trace_keyboard", SIOSetup_trace_keyboard);
   ("SIOConfig_trace_keyboard", SIOConfig_trace_keyboard); ("SIOAck_trace_keyboard", SIOAck_trace_keyboard);
   ("SIOSetupIO_trace_keyboard", SIOSetupIO_trace_keyboard);
   ("SIOCompleteIO_trace_keyboard", SIOCompleteIO_trace_keyboard);
   ("SIOMessage_trace_mesa", SIOMessage_trace_mesa); ("SIOStart_trace_mesa", SIOStart_trace_mesa);
   ("SIOSetup_trace_mesa", SIOSetup_trace_mesa); ("SIOConfig_trace_mesa", SIOConfig_trace_mesa);
   ("SIOAck_trace_mesa", SIOAck_trace_mesa); ("SIOSetupIO_trace_mesa", SIOSetupIO_trace_mesa);
   ("SIOCompleteIO_trace_mesa", SIOCompleteIO_trace_mesa); ("REG_IOCTL", REG_IOCTL); ("REG_IOST", REG_IOST);
   ("REG_RESET_CTL", REG_RESET_CTL); ("REG_CLK_CTL", REG_CLK_CTL); ("REG_PWR_CTL", REG_PWR_CTL);
   ("PMPMessage_trace_pmp", PMPMessage_trace_pmp);
   ("PMPMessage_IOVATableAck_trace_pmp", PMPMessage_IOVATableAck_trace_pmp);
   ("PMPMessage_Malloc_trace_pmp", PMPMessage_Malloc_trace_pmp);
   ("PMPMessage_MallocAck_trace_pmp", PMPMessage_MallocAck_trace_pmp);
   ("PMPMessage_Free_trace_pmp", PMPMessage_Free_trace_pmp);
   ("PMPMessage_SetBuf_trace_pmp", PMPMessage_SetBuf_trace_pmp);
   ("PMPMessage_Advertise_trace_pmp", PMPMessage_Advertise_trace_pmp);
   ("PMPMessage_AdvertiseAck_trace_pmp", PMPMessage_AdvertiseAck_trace_pmp);
   ("PMPMessage_SetVal_trace_pmp", PMPMessage_SetVal_trace_pmp);
   ("PMPMessage_SetValAck_trace_pmp", PMPMessage_SetValAck_trace_pmp); ("R_PmpStatus", R_PmpStatus);
   ("DCPDPTXRemotePortTarget", DCPDPTXRemotePortTarget)].

(** ** Consistency *)

(** The classes that name a bit twice on purpose. *)
Definition message_aliases : list string := ["PMP_Configure"; "PMP_Configure_Ack"; "REG_PWR_CTL"].

Lemma messages_checked : forallb (fun e => class_checkb (snd e)) message_tables = true.
Proof. vm_compute. reflexivity. Qed.

Lemma messages_aliased :
  map fst (List.filter (fun e => negb (pairwise_disjointb (map snd (rc_fields (snd e))))) message_tables) = message_aliases.
Proof. vm_compute. reflexivity. Qed.

Lemma messages_fit : flat_map narrow_of message_tables = [].
Proof. vm_compute. reflexivity. Qed.

(** The constants of a class are the keyword arguments its constructor starts with. *)
Definition constants (fs : list (string * field)) : list (string * Z) :=
  flat_map (fun e => match snd e with FBits _ _ (TConst x) => [(fst e, x)] | _ => [] end) fs.

Lemma set_constants_kwargs c fs : forall v, Forall (fun e => find_field c (fst e) = Some (snd e)) fs ->
  set_constants fs v = set_kwargs c (constants fs) v.
Proof.
  induction fs as [|[k f] fs IH]; intros v Hf; [done|]. inversion Hf as [|? ? Hk Hf']; subst. simpl in Hk.
  unfold constants. cbn [set_constants flat_map snd fst]. fold (constants fs).
  destruct f as [n|m l [|x| |]]; cbn [app rbind]; try (by apply IH). cbn [set_kwargs]. unfold reg_setattr. rewrite Hk.
  destruct (reg_set _ x v); [by apply IH|done].
Qed.

Section message.
  Context (name : string) (c : reg_class) (Hin : In (name, c) message_tables) (Ha : ~ In name message_aliases).

Lemma message_wf : class_wf c /\ reg_width (rc_width c).
Proof.
  pose proof messages_checked as H. rewrite forallb_forall in H. apply class_checkb_ok, (H _ Hin).
Qed.

Lemma message_disjoint k1 k2 f1 f2 : k1 <> k2 -> find_field c k1 = Some f1 -> find_field c k2 = Some f2 -> disjoint_fields f1 f2.
Proof.
  intros Hk [i Hi]%find_field_lookup [j Hj]%find_field_lookup.
  apply (pairwise_disjointb_ok (map snd (rc_fields c))) with i j.
  - apply negb_false_iff, not_true_iff_false. intros Hn. apply Ha. rewrite <- messages_aliased.
    apply (in_map fst _ (name, c)), filter_In. by split.
  - by rewrite list_lookup_fmap, Hi.
  - by rewrite list_lookup_fmap, Hj.
  - intros ->. rewrite Hi in Hj. injection Hj as -> _. done.
Qed.

Lemma message_elsewhere k f kw : find_field c k = Some f -> ~ In k (map fst kw) ->
  Forall (fun e => is_Some (find_field c (fst e))) kw -> elsewhere c f kw.
Proof.
  intros Hf Hk Hkw. unfold elsewhere. rewrite List.Forall_forall in *. intros e He. destruct (Hkw e He) as [g Hg]. exists g.
  split; [done|]. split; [by apply (find_field_ok c (fst e)); [apply message_wf|]|].
  apply (message_disjoint (fst e) k); try done. intros E. apply Hk. rewrite <- E. by apply in_map.
Qed.

Lemma message_fields_found : Forall (fun e => find_field c (fst e) = Some (snd e)) (rc_fields c).
Proof.
  apply List.Forall_forall. intros [k f] He. apply find_field_In; [apply message_wf|done].
Qed.

Lemma message_value k f x : find_field c k = Some f -> In x (ftype_values (f_type f)) -> x mod 2 ^ f_size f = x.
Proof.
  intros Hf Hx. apply values_fitb_ok; [|done]. apply negb_false_iff, not_true_iff_false. intros Hn.
  assert (Hnil : In (name, k) (flat_map narrow_of message_tables)); [|by rewrite messages_fit in Hnil].
  apply in_flat_map. exists (name, c). split; [done|]. apply in_map_iff. exists (k, f). split; [done|]. apply filter_In. split; [|done].
  destruct (find_field_lookup _ _ _ Hf) as [i Hi]. apply list_elem_of_In. by eapply list_elem_of_lookup_2.
Qed.
End message.

Lemma message_build name c kw : In (name, c) message_tables -> ~ In name message_aliases ->
  NoDup (map fst kw) -> Forall (fun e => is_Some (find_field c (fst e))) kw ->
  exists v, reg_init c None kw = Ok v /\ 0 <= v < 2 ^ rc_width c /\
    (forall k x f, In (k, x) kw -> find_field c k = Some f -> f_raw f v = x mod 2 ^ f_size f) /\
    (forall k m l x, find_field c k = Some (FBits m l (TConst x)) -> ~ In k (map fst kw) -> f_raw (FBits m l (TConst x)) v = x).
Proof.
  intros Hin Ha Hnd Hkw. destruct (message_wf name c Hin) as [Hwf Hw]. unfold reg_init.
  rewrite (set_constants_kwargs c) by (by apply (message_fields_found name)).
  assert (Hck : Forall (fun e => is_Some (find_field c (fst e))) (constants (rc_fields c))).
  { apply List.Forall_forall. intros [k x] He. apply in_flat_map in He as ([k' f'] & He & Hx).
    pose proof (message_fields_found name c Hin) as Hff. rewrite List.Forall_forall in Hff. specialize (Hff _ He). simpl in *.
    destruct f' as [|? ? []]; simpl in Hx; try done. destruct Hx as [[= <- <-]|[]]. by eexists. }
  destruct (set_kwargs_effect c (constants (rc_fields c) ++ kw) 0 Hwf Hw) as (v & E & Hr & _).
  { destruct Hw as [->|[->|[->| ->]]]; lia. }
  { by apply Forall_app. }
  exists v. rewrite set_kwargs_app in E. destruct (set_kwargs c (constants (rc_fields c)) 0) as [v0|] eqn:E0; [|done]. cbn [rbind] in *.
  split; [done|]. split; [done|]. split.
  - intros k x f Hi Hf. apply in_split in Hi as (pre & post & ->). rewrite map_app in Hnd. cbn [map fst] in Hnd.
    apply NoDup_app in Hnd as (_ & _ & Hnd). apply NoDup_cons in Hnd as [Hk _]. apply Forall_app in Hkw as [_ Hkw]. apply Forall_cons in Hkw as [_ Hkw].
    apply (set_kwargs_last c pre k x post f v0 v); try done; [by apply (find_field_ok c k)|].
    apply (message_elsewhere name c Hin Ha k); try done. by rewrite <- list_elem_of_In.
  - intros k m l x Hf Hk. destruct (find_field_ok c k _ Hwf Hf) as [Hok _].
    rewrite (set_kwargs_other c kw _ v0 v Hok); [|by apply (message_elsewhere name c Hin Ha k)|done].
    destruct (find_field_lookup _ _ _ Hf) as [i Hi]. apply list_elem_of_lookup_2, list_elem_of_split in Hi as (fs1 & fs2 & Hfs).
    assert (Hc : constants (rc_fields c) = constants fs1 ++ (k, x) :: constants fs2) by (rewrite Hfs; unfold constants; by rewrite flat_map_app).
    rewrite Hc in E0, Hck. apply Forall_app in Hck as [_ Hck]. apply Forall_cons in Hck as [_ Hck].
    rewrite (set_kwargs_last c (constants fs1) k x (constants fs2) _ 0 v0 Hf Hok) by
      (done || (apply (message_elsewhere name c Hin Ha k); try done; intros Hx;
        destruct Hwf as [Hn _ _]; rewrite Hfs, map_app in Hn; cbn [map fst] in Hn; apply NoDup_app in Hn as (_ & _ & Hn);
        apply NoDup_cons in Hn as [Hn _]; apply Hn, list_elem_of_In; apply in_map_iff in Hx as ([k' x'] & E' & Hx); simpl in E'; subst k';
        apply in_flat_map in Hx as ([k' f'] & Hx & Hx'); apply in_map_iff; exists (k', f'); destruct f' as [|? ? []]; simpl in Hx'; try done;
        destruct Hx' as [[= <- <-]|[]]; done)).
    apply (message_value name c Hin k (FBits m l (TConst x))); [done|by left].
Qed.

(** C36: every message is well typed.  A message or register built by any class of
    the firmware protocols (all but three, which name bits twice) from distinct
    fields of the class fits its register, reads back each argument reduced to
    the width of its field, and carries the class's constants: a class with a
    constant [TYPE] always builds a message of that type. *)
Theorem message_well_typed name c kw
    (Hin : In (name, c) message_tables) (Ha : ~ In name message_aliases)
    (Hnd : NoDup (map fst kw)) (Hkw : Forall (fun e => is_Some (find_field c (fst e))) kw) :
  exists v, reg_init c None kw = Ok v /\ 0 <= v < 2 ^ rc_width c /\
    (forall k x f, In (k, x) kw -> find_field c k = Some f -> reg_getattr c k v = ftype_call (f_type f) (x mod 2 ^ f_size f)) /\
    (forall k m l x, find_field c k = Some (FBits m l (TConst x)) -> ~ In k (map fst kw) -> reg_getattr c k v = Ok x).
Proof.
  destruct (message_build name c kw Hin Ha Hnd Hkw) as (v & E & Hr & Hf & Hc). destruct (message_wf name c Hin) as [Hwf _].
  exists v. split; [done|]. split; [done|]. unfold reg_getattr. split.
  - intros k x f Hi Hk. rewrite Hk, reg_get_raw by (by apply (find_field_ok c k)). by rewrite (Hf k x f Hi Hk).
  - intros k m l x Hk Hn. rewrite Hk, reg_get_raw by (by apply (find_field_ok c k)). rewrite (Hc k m l x Hk Hn). simpl. by rewrite Z.eqb_refl.
Qed.

Lemma message_well_typed_witness :
  exists v, reg_init Mgmt_StartEP None [("EP", 0x20); ("FLAG", 2)] = Ok v /\
    reg_getattr Mgmt_StartEP "TYPE" v = Ok 5 /\ reg_getattr Mgmt_StartEP "EP" v = Ok 0x20.
Proof.
  destruct (message_well_typed "Mgmt_StartEP" Mgmt_StartEP [("EP", 0x20); ("FLAG", 2)]) as (v & E & _ & Hf & Hc).
  - repeat (first [left; reflexivity | right]).
  - intros H. repeat (destruct H as [H|H]; [discriminate H|]). destruct H.
  - apply (bool_decide_unpack _). vm_compute. exact Logic.I.
  - repeat constructor; by eexists.
  - exists v. split; [done|]. split.
    + apply (Hc "TYPE" 59 52 5); [reflexivity|]. intros H. repeat (destruct H as [H|H]; [discriminate H|]). destruct H.
    + apply (Hf "EP" 0x20 (FBits 39 32 TInt)); [by left|reflexivity].
Defined.

(** [PMP_Configure] places the buffer address over its own type field: an address
    of 2^44 or more changes the type of the message. *)
Lemma pmp_configure_type_lost :
  exists v, reg_init PMP_Configure None [("DVA", 2 ^ 44)] = Ok v /\ reg_getattr PMPMessage_pmp "TYPE" v = Ok 0x11.
Proof. eexists. split; [reflexivity|]. vm_compute. reflexivity. Qed.
