(* ===== verification/Afk.v ===== *)
(** * proxyclient/m1n1/fw/afk/rbep.py: AFK ring buffers

    [AFKRingBuf] is the queue two processors share in memory: a header of three
    blocks (size, read pointer, write pointer) and a circular data area of
    messages, each a 16-byte header and a payload, padded to the block size.  A
    message that does not fit before the end is announced there and stored from
    the start.  One object writes ([write]), another reads ([read], a generator);
    they share nothing but the memory. *)

From Stdlib Require Import ZArith Lia.
From Stdlib Require Import Strings.Byte.
From stdpp Require Import base list numbers strings.
From S2P Require Import Prelude Bytes Utils.

Local Open Scope string_scope.
Local Open Scope list_scope.
Local Open Scope Z_scope.
Local Open Scope py_scope.

Definition BLOCK_STEP := 0x40.
Definition BLOCK_COUNT := 3.

Record ring := Ring {
  rb_base : Z;
  rb_block : Z;          (* block_size *)
  rb_bufsize : Z;
  rb_rptr : Z;
  rb_wptr : Z;
  rb_mem : Z -> byte     (* memory, shared with the other side *)
}.

Definition rb_set_rptr (v : Z) (r : ring) : ring :=
  {| rb_base := rb_base r; rb_block := rb_block r; rb_bufsize := rb_bufsize r; rb_rptr := v; rb_wptr := rb_wptr r; rb_mem := rb_mem r |}.
Definition rb_set_wptr (v : Z) (r : ring) : ring :=
  {| rb_base := rb_base r; rb_block := rb_block r; rb_bufsize := rb_bufsize r; rb_rptr := rb_rptr r; rb_wptr := v; rb_mem := rb_mem r |}.
Definition rb_set_mem (m : Z -> byte) (r : ring) : ring :=
  {| rb_base := rb_base r; rb_block := rb_block r; rb_bufsize := rb_bufsize r; rb_rptr := rb_rptr r; rb_wptr := rb_wptr r; rb_mem := m |}.

Definition AFKError (msg : string) : exn := GenericException msg.
Definition ring_full : exn := AFKError "Ring buffer is full".

Definition read_buf (off : Z) (n : nat) : M ring bytes := py_get (fun r => mem_read (rb_mem r) (rb_base r + off) n).
Definition write_buf (off : Z) (b : bytes) : M ring unit :=
  py_modify (fun r => rb_set_mem (mem_store (rb_base r + off) b (rb_mem r)) r).

(** [__init__]: the sizes come from the first two words of the buffer. *)
Definition ring_init (base size : Z) (m : Z -> byte) : result ring :=
  let b := mem_read m base 8 in
  let? bs := unpack_u 4 0 b in
  let? _ := unpack_u 4 4 b in
  if negb ((size - bs) mod BLOCK_COUNT =? 0) then Raise AssertionError else
  let block_size := (size - bs) / BLOCK_COUNT in
  if negb (block_size mod BLOCK_STEP =? 0) then Raise AssertionError else
  Ok {| rb_base := base; rb_block := block_size; rb_bufsize := bs; rb_rptr := 0; rb_wptr := 0; rb_mem := m |}.

Definition read_word (blk : Z) : M ring Z :=
  let! bs := py_get rb_block in
  let! b := read_buf (bs * blk) 4 in
  py_lift (unpack_u 4 0 b).
Definition get_rptr : M ring Z := read_word 1.
Definition get_wptr : M ring Z := read_word 2.

(** [update_rptr] and [update_wptr]: the pointer's block, and the same pointer a
    [BLOCK_STEP] apart. *)
Definition update_word (blk v : Z) : M ring unit :=
  let! bs := py_get rb_block in
  let! b := py_lift (pack_I v) in
  write_buf (bs * blk) b ;;;
  write_buf (blk * BLOCK_STEP) b.
Definition update_rptr (v : Z) : M ring unit := update_word 1 v.
Definition update_wptr (v : Z) : M ring unit := update_word 2 v.

Definition IOP : bytes := [Byte.x49; Byte.x4f; Byte.x50; Byte.x20].
Definition AOP : bytes := [Byte.x41; Byte.x4f; Byte.x50; Byte.x20].

(** [magic, size = struct.unpack("<4sI", hdr[:8])] and the check of the magic. *)
Definition parse_hdr (hdr : bytes) : result Z :=
  let? size := unpack_u 4 4 (take 8 hdr) in
  if bytes_eqb (take 4 hdr) IOP || bytes_eqb (take 4 hdr) AOP then Ok size else Raise AssertionError.

Definition py_mod (a n : Z) : result Z := if n =? 0 then Raise ZeroDivisionError else Ok (a mod n).

(** One step of the generator [read]: from a test of the loop to the next [yield]
    (the message) or to the end ([None]). *)
Definition read_next : M ring (option bytes) :=
  let! r := py_get rb_rptr in
  let! w := py_get rb_wptr in
  let! bs := py_get rb_block in
  let! bufsize := py_get rb_bufsize in
  let base := bs * 3 in
  if w =? r then update_rptr r ;;; py_ret None else
  let! hdr := read_buf (base + r) 16 in
  let r := r + 16 in
  py_modify (rb_set_rptr r) ;;;
  let! size := py_lift (parse_hdr hdr) in
  let! '(hdr, size, r) :=
    (if bufsize - r <? size then
       let! hdr := read_buf base 16 in
       py_modify (rb_set_rptr 16) ;;;
       let! size := py_lift (parse_hdr hdr) in
       py_ret (hdr, size, 16)
     else py_ret (hdr, size, r)) in
  let! payload := read_buf (base + r) (Z.to_nat size) in
  let! r := py_lift (py_mod (align_up (r + size) bs) bufsize) in
  py_modify (rb_set_rptr r) ;;;
  update_rptr r ;;;
  py_ret (Some (drop 8 hdr ++ payload)).

(** The end of an iteration and the start of the generator. *)
Definition read_poll : M ring unit := let! w := get_wptr in py_modify (rb_set_wptr w).

(** [read] driven by a [for] loop: the messages it yields, with [fuel] messages
    at most. *)
Fixpoint read_all (fuel : nat) : M ring (list bytes) :=
  match fuel with
  | O => py_raise OutOfFuel
  | S k =>
      let! m := read_next in
      match m with
      | None => py_ret []
      | Some d => read_poll ;;; let! r := read_all k in py_ret (d :: r)
      end
  end.
Definition ring_read (fuel : nat) : M ring (list bytes) := read_poll ;;; read_all fuel.

Definition ring_write (data : bytes) : M ring Z :=
  let! bs := py_get rb_block in
  let! bufsize := py_get rb_bufsize in
  let base := bs * 3 in
  let hdr2 := take 8 data in
  let data := drop 8 data in
  let! r := get_rptr in
  py_modify (rb_set_rptr r) ;;;
  let! w := py_get rb_wptr in
  if (w <? r) && (r <=? w + 0x10) then py_raise ring_full else
  let! sz := py_lift (pack_I (zlen data)) in
  let hdr := IOP ++ sz ++ hdr2 in
  write_buf (base + w) hdr ;;;
  let! w := (if bufsize - w - 16 <? zlen data then
               if r <? 0x10 then py_raise ring_full else
               write_buf base hdr ;;; py_modify (rb_set_wptr 0) ;;; py_ret 0
             else py_ret w) in
  if (w <? r) && (r <=? w + 0x10 + zlen data) then py_raise ring_full else
  write_buf (base + w + 0x10) data ;;;
  let! w := py_lift (py_mod (align_up (w + 0x10 + zlen data) bs) bufsize) in
  py_modify (rb_set_wptr w) ;;;
  update_wptr w ;;;
  py_ret w.

(** ** The queue a ring holds *)

Section ring.
  Context (base k N : Z).
  Abbreviation B := (2 ^ k).
  Hypothesis Hk : 6 <= k.
  Hypothesis Hstray : k <> 7.
  Hypothesis HN : 0 < N < 2 ^ 32.
  Hypothesis HNB : N mod B = 0.

Definition area : Z := base + B * 3.
Definition word (m : Z -> byte) (a : Z) : Z := le_Z (mem_read m a 4).
Definition plen (msg : bytes) : Z := zlen (drop 8 msg).
Definition next (p len : Z) : Z := align_up (p + 16 + len) B.

(** A header announcing [msg] at [p], and the payload of [msg] at [p]. *)
Definition hdr_at (m : Z -> byte) (p : Z) (msg : bytes) : Prop :=
  exists magic, (magic = IOP \/ magic = AOP) /\ mem_read m (area + p) 16 = magic ++ le_bytes 4 (plen msg) ++ take 8 msg.
Definition pay_at (m : Z -> byte) (p : Z) (msg : bytes) : Prop :=
  mem_read m (area + p) (length (drop 8 msg)) = drop 8 msg.

(** Messages stored one after the other from [a] to [c]. *)
Inductive seg (m : Z -> byte) : Z -> Z -> list bytes -> Prop :=
| seg_nil a : seg m a a []
| seg_cons a c msg q : (8 <= length msg)%nat -> hdr_at m a msg -> pay_at m (a + 16) msg -> next a (plen msg) <= N ->
    seg m (next a (plen msg)) c q -> seg m a c (msg :: q).

(** The queue between the read and the write pointer: in one piece, around the end
    exactly, or with one message announced at [p] and stored from the start. *)
Inductive live (m : Z -> byte) (r w : Z) : list bytes -> Prop :=
| live_line q : r <= w -> seg m r w q -> live m r w q
| live_exact q1 q2 : w < r -> seg m r N q1 -> seg m 0 w q2 -> live m r w (q1 ++ q2)
| live_split q1 p msg q2 : w < r -> seg m r p q1 -> p + 16 <= N -> (8 <= length msg)%nat -> N - p - 16 < plen msg ->
    hdr_at m p msg -> hdr_at m 0 msg -> pay_at m 16 msg -> next 0 (plen msg) <= N -> seg m (next 0 (plen msg)) w q2 ->
    live m r w (q1 ++ msg :: q2).

Record ring_rel (m : Z -> byte) (r w : Z) (q : list bytes) : Prop := {
  rr_r : 0 <= r < N /\ r mod B = 0;
  rr_w : 0 <= w < N /\ w mod B = 0;
  rr_rword : word m (base + B) = r;
  rr_wword : word m (base + B * 2) = w;
  rr_live : live m r w q
}.

Lemma B_pos : 64 <= B.
Proof. change 64 with (2 ^ 6). apply Z.pow_le_mono_r; lia. Qed.

Lemma next_spec p len : p + 16 + len <= next p len < p + 16 + len + B /\ next p len mod B = 0.
Proof.
  unfold next. pose proof B_pos. rewrite align_up_spec by lia. set (x := p + 16 + len).
  pose proof (Z.div_mod (x + B - 1) B ltac:(lia)). pose proof (Z.mod_pos_bound (x + B - 1) B ltac:(lia)).
  split; [lia|]. rewrite Z.mul_comm. apply Z.mod_mul. lia.
Qed.

Lemma plen_nonneg msg : 0 <= plen msg.
Proof. unfold plen, zlen. lia. Qed.

(** ** Memory *)

Definition agree (m m' : Z -> byte) (lo hi : Z) : Prop := forall x, lo <= x < hi -> m' x = m x.

Lemma mem_read_agree m m' a n lo hi : agree m m' lo hi -> lo <= a -> a + Z.of_nat n <= hi -> mem_read m' a n = mem_read m a n.
Proof. intros Hg Hlo Hhi. unfold mem_read. apply map_ext_in. intros i Hi%in_seq. apply Hg. lia. Qed.

Lemma mem_store_agree m a d lo hi : hi <= a \/ a + zlen d <= lo -> agree m (mem_store a d m) lo hi.
Proof.
  intros H x Hx. unfold mem_store. destruct (Z.leb_spec a x); [|done]. rewrite lookup_ge_None_2; [done|]. unfold zlen in H. lia.
Qed.

Lemma agree_trans m1 m2 m3 lo hi : agree m1 m2 lo hi -> agree m2 m3 lo hi -> agree m1 m3 lo hi.
Proof. intros H1 H2 x Hx. by rewrite H2, H1. Qed.

Lemma agree_sub m m' lo hi lo' hi' : agree m m' lo hi -> lo <= lo' -> hi' <= hi -> agree m m' lo' hi'.
Proof. intros H H1 H2 x Hx. apply H. lia. Qed.

Lemma word_agree m m' a lo hi : agree m m' lo hi -> lo <= a -> a + 4 <= hi -> word m' a = word m a.
Proof. intros H H1 H2. unfold word. by rewrite (mem_read_agree m m' a 4 lo hi). Qed.

Lemma hdr_at_agree m m' p msg lo hi : agree m m' lo hi -> lo <= area + p -> area + p + 16 <= hi -> hdr_at m p msg -> hdr_at m' p msg.
Proof. intros H H1 H2 (mg & Hmg & E). exists mg. split; [done|]. by rewrite (mem_read_agree m m' (area + p) 16 lo hi). Qed.

Lemma pay_at_agree m m' p msg lo hi : agree m m' lo hi -> lo <= area + p -> area + p + plen msg <= hi -> pay_at m p msg -> pay_at m' p msg.
Proof. intros H H1 H2 E. unfold pay_at. rewrite (mem_read_agree m m' (area + p) _ lo hi); [done..|]. exact H2. Qed.

Lemma word_store m a v : 0 <= v < 2 ^ 32 -> word (mem_store a (le_bytes 4 v) m) a = v.
Proof.
  intros Hv. unfold word. rewrite <- (length_le_bytes 4 v) at 2. rewrite mem_read_store. by apply le_Z_small.
Qed.

(** ** Segments *)

Lemma seg_bounds m a c q : seg m a c q -> 0 <= a -> a <= c /\ (q <> [] -> a < c) /\ (q = [] -> a = c) /\ (a mod B = 0 -> c mod B = 0) /\ (q <> [] -> c <= N).
Proof.
  induction 1 as [a|a c msg q Hl Hh Hp Hn Hs IH]; intros Ha; [split_and!; done || lia|].
  destruct (next_spec a (plen msg)) as [Hn1 Hn2]. pose proof (plen_nonneg msg). destruct (IH ltac:(lia)) as (I1 & I2 & I3 & I4 & I5).
  split_and!; [lia|lia|done|auto|]. intros _. destruct q as [|x q]; [rewrite <- I3 by done; lia|apply I5; done].
Qed.

Lemma seg_agree m m' a c q lo hi : seg m a c q -> agree m m' lo hi -> 0 <= a -> lo <= area + a -> area + c <= hi -> seg m' a c q.
Proof.
  induction 1 as [a|a c msg q Hl Hh Hp Hn Hs IH]; intros Hg Ha Hlo Hhi; [constructor|].
  destruct (next_spec a (plen msg)) as [Hn1 _]. pose proof (plen_nonneg msg).
  destruct (seg_bounds _ _ _ _ Hs ltac:(lia)) as (Hc & _).
  constructor; [done| | |done|apply IH; [done|lia..]].
  - apply (hdr_at_agree m m' a msg lo hi); [done|lia|lia|done].
  - apply (pay_at_agree m m' (a + 16) msg lo hi); [done|lia|lia|done].
Qed.

Lemma seg_snoc m a b q msg : seg m a b q -> (8 <= length msg)%nat -> hdr_at m b msg -> pay_at m (b + 16) msg -> next b (plen msg) <= N ->
  seg m a (next b (plen msg)) (q ++ [msg]).
Proof.
  induction 1 as [a|a c msg' q Hl Hh Hp Hn Hs IH]; intros; cbn [app]; [constructor; try done; constructor|].
  constructor; auto.
Qed.

(** ** The pointers *)

(** An object on this ring. *)
Definition on_ring (R : ring) : Prop := rb_base R = base /\ rb_block R = B /\ rb_bufsize R = N.

Lemma read_word_ok R blk : on_ring R -> read_word blk R = (Ok (word (rb_mem R) (base + B * blk)), R).
Proof.
  intros (Hb & Hbl & _). unfold read_word, read_buf, py_bind, py_get, py_lift. rewrite Hbl, Hb. reflexivity.
Qed.

Lemma update_word_ok R blk v : on_ring R -> blk = 1 \/ blk = 2 -> 0 <= v < 2 ^ 32 ->
  exists m, update_word blk v R = (Ok tt, rb_set_mem m R) /\ word m (base + B * blk) = v /\
    word m (base + B * (3 - blk)) = word (rb_mem R) (base + B * (3 - blk)) /\ forall hi, agree (rb_mem R) m area hi.
Proof.
  intros (Hb & Hbl & _) Hblk Hv. pose proof B_pos as HB. unfold update_word, write_buf, py_bind, py_get, py_lift, py_modify.
  unfold pack_I. rewrite pack_u_ok by done. rewrite Hbl. cbn [rb_base rb_mem rb_set_mem]. rewrite Hb.
  set (b := le_bytes 4 v). assert (Hz : zlen b = 4) by (unfold zlen, b; by rewrite length_le_bytes).
  set (m1 := mem_store (base + B * blk) b (rb_mem R)). exists (mem_store (base + blk * BLOCK_STEP) b m1). split; [done|].
  unfold BLOCK_STEP. assert (Hcase : B = 64 \/ 256 <= B).
  { destruct (decide (k = 6)) as [->|]; [by left|]. right. change 256 with (2 ^ 8). apply Z.pow_le_mono_r; lia. }
  split; [|split].
  - destruct (decide (base + B * blk = base + blk * 64)) as [E|E]; [rewrite E; by apply word_store|].
    rewrite (word_agree m1 _ (base + B * blk) (base + B * blk) (base + B * blk + 4)); [by apply word_store| |lia|lia].
    apply mem_store_agree. rewrite Hz. nia.
  - rewrite (word_agree m1 _ (base + B * (3 - blk)) (base + B * (3 - blk)) (base + B * (3 - blk) + 4)); [| |lia|lia].
    + apply (word_agree _ _ _ (base + B * (3 - blk)) (base + B * (3 - blk) + 4)); [|lia|lia]. apply mem_store_agree. rewrite Hz. nia.
    + apply mem_store_agree. rewrite Hz. destruct Hblk as [-> | ->]; lia.
  - intros hi. apply (agree_trans _ m1); apply mem_store_agree; rewrite Hz; right; unfold area; nia.
Qed.

(** ** Reading *)

Lemma parse_hdr_ok m p msg : hdr_at m p msg -> (8 <= length msg)%nat -> plen msg < 2 ^ 32 ->
  parse_hdr (mem_read m (area + p) 16) = Ok (plen msg) /\ drop 8 (mem_read m (area + p) 16) = take 8 msg.
Proof.
  intros (mg & Hmg & ->) Hl Hp. pose proof (plen_nonneg msg). assert (Hml : length mg = 4%nat) by (by destruct Hmg as [-> | ->]).
  unfold parse_hdr. rewrite app_assoc, take_app_length', drop_app_length' by (rewrite length_app, length_le_bytes; lia).
  split; [|done]. rewrite <- (app_nil_r (le_bytes 4 (plen msg))), unpack_u_le_bytes by (done || (simpl; lia)). cbn [rbind].
  rewrite app_nil_r, <- app_assoc, take_app_length' by done. destruct Hmg as [-> | ->]; done.
Qed.

Lemma pop_entry_bound a len : 0 <= a -> 0 <= len -> next a len <= N -> a + 16 + len <= N /\ len < 2 ^ 32.
Proof. intros Ha Hl Hn. destruct (next_spec a len). lia. Qed.

(** The step of the generator on a header at [r] and a payload at [p]: what the
    two ways of storing a message have in common. *)
Lemma read_finish R p msg r' : on_ring R -> pay_at (rb_mem R) p msg -> 0 <= r' < N ->
  py_mod (align_up (p + plen msg) B) N = Ok r' -> length (take 8 msg) = 8%nat ->
  forall hdr, drop 8 hdr = take 8 msg ->
  exists m, (let! payload := read_buf (B * 3 + p) (Z.to_nat (plen msg)) in
       let! r := py_lift (py_mod (align_up (p + plen msg) B) N) in
       py_modify (rb_set_rptr r) ;;; update_rptr r ;;; py_ret (Some (drop 8 hdr ++ payload))) R =
    (Ok (Some msg), rb_set_mem m (rb_set_rptr r' R)) /\
    word m (base + B) = r' /\ word m (base + B * 2) = word (rb_mem R) (base + B * 2) /\ forall hi, agree (rb_mem R) m area hi.
Proof.
  intros HR Hpay Hr' Hmod Hl8 hdr Hhdr. pose proof HR as (Hb & Hbl & HbN).
  destruct (update_word_ok (rb_set_rptr r' R) 1 r') as (m & E & Hw1 & Hw2 & Hg); [done|by left|lia|].
  rewrite Z.mul_1_r in Hw1. exists m. split; [|done].
  assert (Er : read_buf (B * 3 + p) (Z.to_nat (plen msg)) R = (Ok (drop 8 msg), R)).
  { unfold read_buf, py_get. rewrite Hb. f_equal. f_equal. unfold pay_at, area in Hpay.
    replace (base + (B * 3 + p)) with (base + B * 3 + p) by lia. replace (Z.to_nat (plen msg)) with (length (drop 8 msg)) by (unfold plen, zlen; lia). exact Hpay. }
  rewrite (py_bind_ok _ _ _ _ _ Er). rewrite Hmod.
  rewrite (py_bind_ok (py_lift (Ok r')) _ R r' R eq_refl), (py_bind_ok (py_modify (rb_set_rptr r')) _ R tt _ eq_refl).
  unfold update_rptr. rewrite (py_bind_ok _ _ _ _ _ E), Hhdr. unfold py_ret. by rewrite take_drop.
Qed.

(** Reading a stored header. *)
Lemma read_hdr_ok R p msg : on_ring R -> hdr_at (rb_mem R) p msg -> (8 <= length msg)%nat -> plen msg < 2 ^ 32 ->
  exists hdr, read_buf (B * 3 + p) 16 R = (Ok hdr, R) /\ parse_hdr hdr = Ok (plen msg) /\ drop 8 hdr = take 8 msg.
Proof.
  intros (Hb & _ & _) Hh Hl Hp. exists (mem_read (rb_mem R) (area + p) 16). destruct (parse_hdr_ok _ _ _ Hh Hl Hp) as [E1 E2].
  split; [|done]. unfold read_buf, py_get, area. rewrite Hb. f_equal. f_equal. f_equal. lia.
Qed.

(** A message stored whole at the read pointer. *)
Lemma read_whole R msg : on_ring R -> let r := rb_rptr R in 0 <= r -> rb_wptr R <> r -> (8 <= length msg)%nat ->
  hdr_at (rb_mem R) r msg -> pay_at (rb_mem R) (r + 16) msg -> next r (plen msg) <= N ->
  let r' := next r (plen msg) mod N in
  exists m, read_next R = (Ok (Some msg), rb_set_mem m (rb_set_rptr r' R)) /\
    word m (base + B) = r' /\ word m (base + B * 2) = word (rb_mem R) (base + B * 2) /\ forall hi, agree (rb_mem R) m area hi.
Proof.
  intros HR r Hr Hne Hl Hh Hp Hn r'. pose proof HR as (Hb & Hbl & HbN). pose proof (plen_nonneg msg) as Hp0.
  destruct (pop_entry_bound r (plen msg) Hr Hp0 Hn) as [Hfit Hlt].
  unfold read_next, py_bind at 1 2 3 4, py_get. fold r. rewrite Hbl, HbN.
  rewrite (proj2 (Z.eqb_neq _ _)) by done.
  destruct (read_hdr_ok R r msg HR Hh Hl Hlt) as (hdr & E1 & E2 & E3). rewrite (py_bind_ok _ _ _ _ _ E1).
  set (R1 := rb_set_rptr (r + 16) R). rewrite (py_bind_ok (py_modify (rb_set_rptr (r + 16))) _ R tt R1 eq_refl).
  rewrite E2, (py_bind_ok (py_lift (Ok (plen msg))) _ R1 (plen msg) R1 eq_refl).
  rewrite (proj2 (Z.ltb_ge _ _)) by lia. rewrite (py_bind_ok (py_ret (hdr, plen msg, r + 16)) _ R1 (hdr, plen msg, r + 16) R1 eq_refl).
  destruct (read_finish R1 (r + 16) msg r') with (hdr := hdr) as (m & E & H); try done.
  - apply Z.mod_pos_bound. lia.
  - unfold py_mod. rewrite (proj2 (Z.eqb_neq _ _)) by lia. done.
  - rewrite length_take. lia.
  - exists m. split; [|done]. rewrite E. done.
Qed.

(** A message announced at the read pointer and stored from the start. *)
Lemma read_split R msg : on_ring R -> let r := rb_rptr R in 0 <= r -> rb_wptr R <> r -> (8 <= length msg)%nat ->
  hdr_at (rb_mem R) r msg -> N - r - 16 < plen msg -> hdr_at (rb_mem R) 0 msg -> pay_at (rb_mem R) 16 msg -> next 0 (plen msg) <= N ->
  let r' := next 0 (plen msg) mod N in
  exists m, read_next R = (Ok (Some msg), rb_set_mem m (rb_set_rptr r' R)) /\
    word m (base + B) = r' /\ word m (base + B * 2) = word (rb_mem R) (base + B * 2) /\ forall hi, agree (rb_mem R) m area hi.
Proof.
  intros HR r Hr Hne Hl Hh Hbig Hh0 Hp Hn r'. pose proof HR as (Hb & Hbl & HbN). pose proof (plen_nonneg msg) as Hp0.
  destruct (pop_entry_bound 0 (plen msg) ltac:(lia) Hp0 Hn) as [Hfit Hlt].
  unfold read_next, py_bind at 1 2 3 4, py_get. fold r. rewrite Hbl, HbN.
  rewrite (proj2 (Z.eqb_neq _ _)) by done.
  destruct (read_hdr_ok R r msg HR Hh Hl Hlt) as (hdr & E1 & E2 & E3). rewrite (py_bind_ok _ _ _ _ _ E1).
  set (R1 := rb_set_rptr (r + 16) R). rewrite (py_bind_ok (py_modify (rb_set_rptr (r + 16))) _ R tt R1 eq_refl).
  rewrite E2, (py_bind_ok (py_lift (Ok (plen msg))) _ R1 (plen msg) R1 eq_refl).
  rewrite (proj2 (Z.ltb_lt _ _)) by lia.
  destruct (read_hdr_ok R1 0 msg HR Hh0 Hl Hlt) as (hdr0 & E4 & E5 & E6). rewrite Z.add_0_r in E4.
  set (R2 := rb_set_rptr 16 R1).
  assert (Ein : (let! hdr := read_buf (B * 3) 16 in py_modify (rb_set_rptr 16) ;;; let! size := py_lift (parse_hdr hdr) in py_ret (hdr, size, 16)) R1 =
    (Ok (hdr0, plen msg, 16), R2)).
  { rewrite (py_bind_ok _ _ _ _ _ E4), (py_bind_ok (py_modify (rb_set_rptr 16)) _ R1 tt R2 eq_refl), E5. done. }
  rewrite (py_bind_ok _ _ _ _ _ Ein).
  destruct (read_finish R2 16 msg r') with (hdr := hdr0) as (m & E & H); try done.
  - apply Z.mod_pos_bound. lia.
  - unfold py_mod. rewrite (proj2 (Z.eqb_neq _ _)) by lia. done.
  - rewrite length_take. lia.
  - exists m. split; [|done]. rewrite E. done.
Qed.

(** Changing memory below the data area keeps the queue. *)
Lemma live_agree m m' r w q : live m r w q -> (forall hi, agree m m' area hi) -> 0 <= r -> 0 <= w -> live m' r w q.
Proof.
  intros H Hg Hr Hw. assert (Hseg : forall a c q, seg m a c q -> 0 <= a -> seg m' a c q).
  { intros a c q0 Hs Ha. apply (seg_agree m m' a c q0 area (area + c)); [done|apply Hg|done|lia|lia]. }
  destruct H as [q Hle Hs|q1 q2 Hlt H1 H2|q1 p msg q2 Hlt H1 Hp Hl Hb Hh Hh0 Hpay Hn H2].
  - apply live_line; auto.
  - apply live_exact; auto with lia.
  - destruct (seg_bounds _ _ _ _ H1 Hr) as (Hrp & _). destruct (next_spec 0 (plen msg)) as [Hn1 _]. pose proof (plen_nonneg msg).
    apply (live_split m' r w q1 p msg q2); try done.
    + by apply Hseg.
    + apply (hdr_at_agree m m' p msg area (area + p + 16)); [apply Hg|lia|lia|done].
    + apply (hdr_at_agree m m' 0 msg area (area + 16)); [apply Hg|lia|lia|done].
    + apply (pay_at_agree m m' 16 msg area (area + 16 + plen msg)); [apply Hg|lia|lia|done].
    + apply Hseg; [done|lia].
Qed.

Lemma live_nil m r w : 0 <= r < N -> 0 <= w < N -> (live m r w [] <-> r = w).
Proof.
  intros Hr Hw. split.
  - intros H. inversion H as [q Hle Hs|q1 q2 Hlt H1 H2 E|q1 p msg q2 Hlt H1 _ _ _ _ _ _ _ _ E]; subst.
    + by apply (seg_bounds _ _ _ _ Hs (proj1 Hr)).
    + apply app_eq_nil in E as [-> ->]. destruct (seg_bounds _ _ _ _ H1 (proj1 Hr)) as (_ & _ & E1 & _). specialize (E1 eq_refl). lia.
    + by destruct q1.
  - intros ->. apply live_line; [lia|constructor].
Qed.

(** One step of the reader takes the oldest message. *)
Lemma read_pops R msg q : on_ring R -> ring_rel (rb_mem R) (rb_rptr R) (rb_wptr R) (msg :: q) ->
  exists r' m, read_next R = (Ok (Some msg), rb_set_mem m (rb_set_rptr r' R)) /\ ring_rel m r' (rb_wptr R) q.
Proof.
  intros HR [[Hr Hrm] [Hw Hwm] Hrw Hww Hlive]. set (r := rb_rptr R) in *. set (w := rb_wptr R) in *. set (m := rb_mem R) in *.
  assert (Hfin : forall r' m', 0 <= r' < N -> r' mod B = 0 -> word m' (base + B) = r' -> word m' (base + B * 2) = word m (base + B * 2) ->
    (forall hi, agree m m' area hi) -> live m r' w q -> ring_rel m' r' w q).
  { intros r' m' Hr' Hm' H1 H2 H3 H4. constructor; [done|done|done|by rewrite H2|]. apply (live_agree m); try done; lia. }
  assert (Hwhole : rb_wptr R <> r -> (8 <= length msg)%nat -> hdr_at m r msg -> pay_at m (r + 16) msg -> next r (plen msg) <= N ->
    live m (next r (plen msg) mod N) w q -> exists r' m', read_next R = (Ok (Some msg), rb_set_mem m' (rb_set_rptr r' R)) /\ ring_rel m' r' w q).
  { intros Hne Hl Hh Hp Hn Hlv. destruct (read_whole R msg HR ltac:(fold r; lia) Hne Hl Hh Hp Hn) as (m' & E & H1 & H2 & H3).
    exists (next r (plen msg) mod N), m'. split; [done|]. apply Hfin; try done; [apply Z.mod_pos_bound; lia|].
    destruct (next_spec r (plen msg)) as [_ Hnm]. pose proof (plen_nonneg msg). destruct (next_spec r (plen msg)) as [Hn1 _].
    destruct (decide (next r (plen msg) = N)) as [->|Hnn]; [by rewrite Z.mod_same by lia|].
    by rewrite (Z.mod_small (next r (plen msg)) N) by lia. }
  pose proof B_pos as HB.
  inversion Hlive as [q0 Hle Hs E|q1 q2 Hlt H1 H2 E|q1 p msg' q2 Hlt H1 Hp Hl Hb Hh Hh0 Hpay Hn H2 E]; subst.
  - inversion Hs as [|? ? ? ? Hl Hh Hpay Hn Hs']; subst. destruct (next_spec r (plen msg)) as [Hn1 _]. pose proof (plen_nonneg msg).
    destruct (seg_bounds _ _ _ _ Hs' ltac:(lia)) as (Hc & _). apply Hwhole; try done; [fold w; lia|].
    rewrite Z.mod_small by lia. by apply live_line.
  - destruct q1 as [|msg' q1]; [inversion H1; subst; lia|]. cbn [app] in E. injection E as -> <-.
    inversion H1 as [|? ? ? ? Hl Hh Hpay Hn Hs']; subst. destruct (next_spec r (plen msg)) as [Hn1 _]. pose proof (plen_nonneg msg).
    apply Hwhole; try done; [fold w; lia|]. destruct (decide (next r (plen msg) = N)) as [En|En].
    + rewrite En in *. rewrite Z.mod_same by lia. destruct q1 as [|x q1].
      * apply live_line; [lia|done].
      * exfalso. destruct (seg_bounds _ _ _ _ Hs' ltac:(lia)) as (_ & Hx & _). specialize (Hx ltac:(done)). lia.
    + rewrite Z.mod_small by lia. apply live_exact; [lia|done|done].
  - destruct q1 as [|msg1 q1].
    + cbn [app] in E. injection E as -> <-. inversion H1; subst. destruct (next_spec 0 (plen msg)) as [Hn1 Hnm]. pose proof (plen_nonneg msg).
      destruct (seg_bounds _ _ _ _ H2 ltac:(lia)) as (Hc & _).
      destruct (read_split R msg HR ltac:(fold r; lia) ltac:(fold w r; lia) Hl Hh Hb Hh0 Hpay Hn) as (m' & E & K1 & K2 & K3).
      rewrite Z.mod_small in * by lia. exists (next 0 (plen msg)), m'. split; [done|]. apply Hfin; try done; [lia|]. by apply live_line.
    + cbn [app] in E. injection E as -> <-. inversion H1 as [|? ? ? ? Hl' Hh' Hpay' Hn' Hs']; subst.
      destruct (next_spec r (plen msg)) as [Hn1 Hnm]. pose proof (plen_nonneg msg). destruct (seg_bounds _ _ _ _ Hs' ltac:(lia)) as (Hc & _).
      apply Hwhole; try done; [fold w; lia|]. rewrite Z.mod_small by lia. apply live_split with p; try done. lia.
Qed.

(** The last step of the reader, on an empty ring. *)
Lemma read_ends R : on_ring R -> ring_rel (rb_mem R) (rb_rptr R) (rb_wptr R) [] ->
  exists m, read_next R = (Ok None, rb_set_mem m R) /\ ring_rel m (rb_rptr R) (rb_wptr R) [].
Proof.
  intros HR [[Hr Hrm] [Hw Hwm] Hrw Hww Hlive]. apply live_nil in Hlive as E; [|lia|lia]. pose proof HR as (Hb & Hbl & HbN).
  unfold read_next, py_bind at 1 2 3 4, py_get. rewrite E, Z.eqb_refl.
  destruct (update_word_ok R 1 (rb_wptr R) HR (or_introl eq_refl) ltac:(lia)) as (m & Em & H1 & H2 & H3). rewrite Z.mul_1_r in H1. change (3 - 1) with 2 in H2.
  exists m. unfold update_rptr. rewrite (py_bind_ok _ _ _ _ _ Em). split; [done|]. constructor; [by rewrite <- E|done|done|by rewrite H2|].
  apply live_nil; lia.
Qed.

Lemma on_ring_set R m r : on_ring R -> on_ring (rb_set_mem m (rb_set_rptr r R)).
Proof. done. Qed.

(** Reading to the end yields the queue in order, and empties it. *)
Lemma read_drains q : forall R fuel, (length q < fuel)%nat -> on_ring R -> ring_rel (rb_mem R) (rb_rptr R) (rb_wptr R) q ->
  exists r m, read_all fuel R = (Ok q, rb_set_mem m (rb_set_rptr r R)) /\ ring_rel m r (rb_wptr R) [].
Proof.
  induction q as [|msg q IH]; intros R fuel Hf HR Hrel; (destruct fuel as [|fuel]; [simpl in Hf; lia|]); cbn [read_all].
  - destruct (read_ends R HR Hrel) as (m & E & H). exists (rb_rptr R), m. rewrite (py_bind_ok _ _ _ _ _ E). split; [by destruct R|done].
  - destruct (read_pops R msg q HR Hrel) as (r' & m & E & H). rewrite (py_bind_ok _ _ _ _ _ E).
    set (R1 := rb_set_mem m (rb_set_rptr r' R)) in *.
    assert (Ep : read_poll R1 = (Ok tt, R1)).
    { unfold read_poll, get_wptr. rewrite (py_bind_ok _ _ _ _ _ (read_word_ok R1 2 HR)). unfold py_modify. f_equal.
      change (rb_mem R1) with m. rewrite (rr_wword _ _ _ _ H). by destruct R. }
    rewrite (py_bind_ok _ _ _ _ _ Ep). destruct (IH R1 fuel ltac:(simpl in Hf; lia) HR H) as (r2 & m2 & E2 & H2).
    rewrite (py_bind_ok _ _ _ _ _ E2). exists r2, m2. split; [by destruct R|done].
Qed.

(** ** Writing *)

(** The room a message needs: the padded message must end before the read
    pointer, and a ring read up to position 0 cannot be filled to the end. *)
Definition fits (r w len : Z) : Prop :=
  if r <=? w then if len <=? N - w - 16 then next w len < N \/ 0 < r else next 0 len < r
  else next w len < r.

Definition header (msg : bytes) : bytes := IOP ++ le_bytes 4 (plen msg) ++ take 8 msg.

Lemma header_length msg : (8 <= length msg)%nat -> length (header msg) = 16%nat.
Proof. intros Hl. unfold header. rewrite !length_app, length_le_bytes, length_take. change (length IOP) with 4%nat. lia. Qed.

Lemma hdr_at_store m p msg : (8 <= length msg)%nat -> hdr_at (mem_store (area + p) (header msg) m) p msg.
Proof. intros Hl. exists IOP. split; [by left|]. rewrite <- (header_length msg Hl). apply mem_read_store. Qed.

Lemma pay_at_store m p msg : pay_at (mem_store (area + p) (drop 8 msg) m) p msg.
Proof. apply mem_read_store. Qed.

Lemma write_buf_ok R off b : on_ring R -> write_buf (B * 3 + off) b R = (Ok tt, rb_set_mem (mem_store (area + off) b (rb_mem R)) R).
Proof. intros (Hb & _ & _). unfold write_buf, py_modify, area. rewrite Hb. by replace (base + (B * 3 + off)) with (base + B * 3 + off) by lia. Qed.

(** From the choice of the position [p] on. *)
Lemma write_finish R p msg r : on_ring R -> 0 <= p -> (p < r -> p + 16 + plen msg < r) -> next p (plen msg) <= N ->
  let w' := next p (plen msg) mod N in
  exists m, (if (p <? r) && (r <=? p + 0x10 + plen msg) then py_raise ring_full else
       write_buf (B * 3 + p + 0x10) (drop 8 msg) ;;;
       let! w := py_lift (py_mod (align_up (p + 0x10 + plen msg) B) N) in
       py_modify (rb_set_wptr w) ;;; update_wptr w ;;; py_ret w) R =
    (Ok w', rb_set_mem m (rb_set_wptr w' R)) /\ word m (base + B * 2) = w' /\ word m (base + B) = word (rb_mem R) (base + B) /\
    forall hi, agree (mem_store (area + p + 16) (drop 8 msg) (rb_mem R)) m area hi.
Proof.
  intros HR Hp Hfull Hn w'. pose proof (plen_nonneg msg) as Hp0. pose proof B_pos as HB.
  assert (Hc : (p <? r) && (r <=? p + 0x10 + plen msg) = false).
  { destruct (Z.ltb_spec p r), (Z.leb_spec r (p + 16 + plen msg)); try done. lia. }
  rewrite Hc. rewrite <- Z.add_assoc, (py_bind_ok _ _ _ _ _ (write_buf_ok R (p + 0x10) (drop 8 msg) HR)).
  set (m1 := mem_store (area + (p + 16)) (drop 8 msg) (rb_mem R)).
  assert (Hm : py_mod (align_up (p + 0x10 + plen msg) B) N = Ok w') by (unfold py_mod; by rewrite (proj2 (Z.eqb_neq N 0)) by lia).
  rewrite Hm, (py_bind_ok (py_lift (Ok w')) _ (rb_set_mem m1 R) w' (rb_set_mem m1 R) eq_refl).
  set (R1 := rb_set_wptr w' (rb_set_mem m1 R)). rewrite (py_bind_ok (py_modify (rb_set_wptr w')) _ (rb_set_mem m1 R) tt R1 eq_refl).
  pose proof (Z.mod_pos_bound (next p (plen msg)) N ltac:(lia)) as Hw'. fold w' in Hw'.
  destruct (update_word_ok R1 2 w' HR (or_intror eq_refl) ltac:(lia)) as (m & E & H1 & H2 & H3).
  unfold update_wptr. rewrite (py_bind_ok _ _ _ _ _ E). exists m. split; [by destruct R|]. split; [done|]. split.
  - change (3 - 2) with 1 in H2. rewrite Z.mul_1_r in H2. rewrite H2. cbn [R1 rb_mem rb_set_mem rb_set_wptr].
    apply (word_agree (rb_mem R) m1 (base + B) (base + B) (base + B + 4)); [|lia|lia]. apply mem_store_agree. left. unfold area. lia.
  - intros hi. cbn [R1 rb_mem rb_set_mem rb_set_wptr] in H3. unfold m1 in H3. rewrite Z.add_assoc in H3. apply H3.
Qed.

(** Writing the header first. *)
Lemma write_start R msg r : on_ring R -> word (rb_mem R) (base + B) = r -> let w := rb_wptr R in 0 <= w -> plen msg < 2 ^ 32 ->
  (w < r -> w + 16 < r) ->
  let R1 := rb_set_mem (mem_store (area + w) (header msg) (rb_mem R)) (rb_set_rptr r R) in
  ring_write msg R =
  (let! w := (if N - w - 16 <? plen msg then
                if r <? 0x10 then py_raise ring_full else
                write_buf (B * 3) (header msg) ;;; py_modify (rb_set_wptr 0) ;;; py_ret 0
              else py_ret w) in
   if (w <? r) && (r <=? w + 0x10 + plen msg) then py_raise ring_full else
   write_buf (B * 3 + w + 0x10) (drop 8 msg) ;;;
   let! w := py_lift (py_mod (align_up (w + 0x10 + plen msg) B) N) in
   py_modify (rb_set_wptr w) ;;; update_wptr w ;;; py_ret w) R1.
Proof.
  intros HR Hr w Hw Hlt Hfull R1. pose proof HR as (Hb & Hbl & HbN). pose proof (plen_nonneg msg).
  unfold ring_write. rewrite (py_bind_ok (py_get rb_block) _ R B R) by (unfold py_get; by rewrite Hbl).
  rewrite (py_bind_ok (py_get rb_bufsize) _ R N R) by (unfold py_get; by rewrite HbN).
  unfold get_rptr. rewrite (py_bind_ok _ _ _ _ _ (read_word_ok R 1 HR)), Z.mul_1_r, Hr.
  rewrite (py_bind_ok (py_modify (rb_set_rptr r)) _ R tt (rb_set_rptr r R) eq_refl).
  rewrite (py_bind_ok (py_get rb_wptr) _ (rb_set_rptr r R) w (rb_set_rptr r R) eq_refl).
  assert (Hc : (w <? r) && (r <=? w + 0x10) = false) by (destruct (Z.ltb_spec w r), (Z.leb_spec r (w + 16)); try done; lia).
  rewrite Hc. fold (plen msg). unfold pack_I. rewrite pack_u_ok by (simpl; lia).
  rewrite (py_bind_ok (py_lift (Ok (le_bytes 4 (plen msg)))) _ (rb_set_rptr r R) _ (rb_set_rptr r R) eq_refl).
  fold (header msg). rewrite (py_bind_ok _ _ _ _ _ (write_buf_ok (rb_set_rptr r R) w (header msg) HR)). reflexivity.
Qed.

(** A queue in one piece before the write pointer, or in the two pieces that end
    there, kept when memory changes only between the write and the read pointer. *)
Lemma live_extend m m' r w w' q msg : live m r w q -> 0 <= r < N -> 0 <= w -> (8 <= length msg)%nat ->
  hdr_at m' w msg -> pay_at m' (w + 16) msg -> w' = next w (plen msg) ->
  (forall lo hi, area <= lo -> hi <= area + w -> agree m m' lo hi) -> (w < r -> w' < r /\ forall hi, agree m m' (area + r) hi) ->
  w' <= N -> (w' = N -> 0 < r) -> live m' r (w' mod N) (q ++ [msg]).
Proof.
  intros Hlive Hr Hw Hl Hh Hp Ew' Hbelow Habove HwN Hzero. pose proof (plen_nonneg msg). destruct (next_spec w (plen msg)) as [Hn1 _]. rewrite <- Ew' in Hn1.
  assert (Hlow : forall a q0, seg m a w q0 -> 0 <= a -> seg m' a w q0).
  { intros a q0 Hs Ha. apply (seg_agree m m' a w q0 area (area + w)); [done|apply Hbelow; lia|lia|lia|lia]. }
  destruct Hlive as [q Hle Hs|q1 q2 Hlt H1 H2|q1 p msg' q2 Hlt H1 Hp' Hl' Hb' Hh' Hh0 Hpay Hn' H2].
  - assert (Hs' : seg m' r w' (q ++ [msg])) by (rewrite Ew'; apply seg_snoc; auto; [apply Hlow; [done|lia]|lia]).
    destruct (decide (w' = N)) as [E|E].
    + rewrite E, Z.mod_same by lia. rewrite <- (app_nil_r (q ++ [msg])). apply live_exact; [lia|by rewrite <- E|constructor].
    + rewrite Z.mod_small by lia. apply live_line; [lia|done].
  - destruct (Habove Hlt) as [Hlt' Hab]. rewrite Z.mod_small by lia. rewrite <- app_assoc. apply live_exact; [done| |].
    + apply (seg_agree m m' r N q1 (area + r) (area + N)); [done|apply Hab|lia|lia|lia].
    + rewrite Ew'. apply seg_snoc; auto; [apply Hlow; [done|lia]|lia].
  - destruct (Habove Hlt) as [Hlt' Hab]. rewrite Z.mod_small by lia. rewrite <- app_assoc. cbn [app].
    destruct (seg_bounds _ _ _ _ H1 ltac:(lia)) as (Hrp & _). destruct (next_spec 0 (plen msg')) as [Hn2 _]. pose proof (plen_nonneg msg').
    destruct (seg_bounds _ _ _ _ H2 ltac:(lia)) as (Hc & _).
    apply (live_split m' r w' q1 p msg' (q2 ++ [msg])); try done.
    + apply (seg_agree m m' r p q1 (area + r) (area + p)); [done|apply Hab|lia|lia|lia].
    + apply (hdr_at_agree m m' p msg' (area + r) (area + p + 16)); [apply Hab|lia|lia|done].
    + apply (hdr_at_agree m m' 0 msg' area (area + w)); [apply Hbelow; lia|lia|lia|done].
    + apply (pay_at_agree m m' 16 msg' area (area + w)); [apply Hbelow; lia|lia|lia|done].
    + rewrite Ew'. apply seg_snoc; auto; [apply Hlow; [done|lia]|lia].
Qed.

Lemma multiples_apart a c : a mod B = 0 -> c mod B = 0 -> a < c -> a + B <= c.
Proof.
  intros Ha Hc Hlt. pose proof B_pos. rewrite Z.mod_eq in Ha, Hc by lia. set (b := B) in *. set (i := a / b) in *. set (j := c / b) in *.
  assert (i < j) by nia. nia.
Qed.

(** Writing appends the message. *)
Lemma write_pushes R r msg q : on_ring R -> (8 <= length msg)%nat -> ring_rel (rb_mem R) r (rb_wptr R) q -> fits r (rb_wptr R) (plen msg) ->
  exists w' m, ring_write msg R = (Ok w', rb_set_mem m (rb_set_wptr w' (rb_set_rptr r R))) /\ ring_rel m r w' (q ++ [msg]).
Proof.
  intros HR Hl [[Hr Hrm] [Hw Hwm] Hrw Hww Hlive] Hfits. set (w := rb_wptr R) in *. set (m := rb_mem R) in *. pose proof B_pos as HB.
  pose proof (plen_nonneg msg) as Hp0. destruct (next_spec w (plen msg)) as [Hnw Hnwm]. destruct (next_spec 0 (plen msg)) as [Hn0 Hn0m].
  assert (Hcap : plen msg < 2 ^ 32 /\ (w < r -> w + 16 < r)).
  { unfold fits in Hfits. destruct (Z.leb_spec r w); [destruct (Z.leb_spec (plen msg) (N - w - 16))|]; lia. }
  destruct Hcap as [Hcap Hfull]. pose proof (header_length msg Hl) as Hhl.
  assert (Hzh : zlen (header msg) = 16) by (unfold zlen; by rewrite Hhl).
  pose proof (write_start R msg r HR Hrw ltac:(fold w; lia) Hcap Hfull) as Estart. fold w m in Estart. rewrite Estart. clear Estart.
  set (m1 := mem_store (area + w) (header msg) m). set (R1 := rb_set_mem m1 (rb_set_rptr r R)).
  destruct (Z.leb_spec (plen msg) (N - w - 16)) as [Hwhole|Hbig].
  - rewrite (proj2 (Z.ltb_ge _ _)) by lia. rewrite (py_bind_ok (py_ret w) _ R1 w R1 eq_refl).
    assert (Hnext : next w (plen msg) <= N).
    { pose proof (multiples_apart N (next w (plen msg)) HNB Hnwm). lia. }
    assert (Habove : w < r -> next w (plen msg) < r) by (unfold fits in Hfits; destruct (Z.leb_spec r w); lia).
    destruct (write_finish R1 w msg r) as (m' & E & K1 & K2 & K3); [done|lia|lia|done|].
    exists (next w (plen msg) mod N), m'. split; [rewrite E; by destruct R|].
    set (m2 := mem_store (area + w + 16) (drop 8 msg) m1) in *. change (rb_mem R1) with m1 in K3. fold m2 in K3.
    assert (Hout : forall lo hi, area <= lo -> hi <= area + w \/ area + w + 16 + plen msg <= lo -> agree m m' lo hi).
    { intros lo hi Hlo Hcase. apply (agree_trans _ m1); [apply mem_store_agree; rewrite Hzh; lia|]. apply (agree_trans _ m2).
      - apply mem_store_agree. fold (plen msg). lia.
      - eapply agree_sub; [apply (K3 hi)|lia|lia]. }
    constructor; [done| |rewrite K2; change (rb_mem R1) with m1|done|].
    + split; [apply Z.mod_pos_bound; lia|]. destruct (decide (next w (plen msg) = N)) as [->|]; [by rewrite Z.mod_same by lia|].
      by rewrite (Z.mod_small (next w (plen msg)) N) by lia.
    + rewrite <- Hrw. apply (word_agree m m1 (base + B) (base + B) (base + B + 4)); [|lia|lia]. apply mem_store_agree. unfold area. lia.
    + apply (live_extend m m' r w (next w (plen msg)) q msg); try done; try lia.
      * apply (hdr_at_agree m1 m' w msg (area + w) (area + w + 16)); [|lia|lia|by apply hdr_at_store].
        apply (agree_trans _ m2); [apply mem_store_agree; lia|]. eapply agree_sub; [apply (K3 (area + w + 16))|lia|lia].
      * apply (pay_at_agree m2 m' (w + 16) msg area (area + (w + 16) + plen msg)); [apply K3|lia|lia|].
        unfold m2. rewrite <- Z.add_assoc. apply pay_at_store.
      * intros lo hi Hlo Hhi. apply Hout; [done|by left].
      * intros Hlt. split; [by apply Habove|]. intros hi. apply Hout; [lia|right; specialize (Habove Hlt); lia].
      * intros EN. unfold fits in Hfits. destruct (Z.leb_spec r w); [|specialize (Habove ltac:(lia)); lia].
        rewrite (proj2 (Z.leb_le _ _)) in Hfits by lia. lia.
  - assert (Hle : r <= w) by (unfold fits in Hfits; destruct (Z.leb_spec r w); lia).
    assert (Hroom : next 0 (plen msg) < r).
    { unfold fits in Hfits. rewrite (proj2 (Z.leb_le r w)), (proj2 (Z.leb_gt _ _)) in Hfits by lia. done. }
    rewrite (proj2 (Z.ltb_lt _ _)) by lia. rewrite (proj2 (Z.ltb_ge r 16)) by lia.
    set (m1b := mem_store (area + 0) (header msg) m1). set (R2 := rb_set_wptr 0 (rb_set_mem m1b R1)).
    assert (Ein : (write_buf (B * 3) (header msg) ;;; py_modify (rb_set_wptr 0) ;;; py_ret 0) R1 = (Ok 0, R2)).
    { pose proof (write_buf_ok R1 0 (header msg) HR) as Ew. rewrite Z.add_0_r in Ew at 1. rewrite (py_bind_ok _ _ _ _ _ Ew). reflexivity. }
    rewrite (py_bind_ok _ _ _ _ _ Ein).
    destruct (write_finish R2 0 msg r) as (m' & E & K1 & K2 & K3); [done|lia|lia|lia|].
    exists (next 0 (plen msg) mod N), m'. split; [rewrite E; by destruct R|].
    change (rb_mem R2) with m1b in K3, K2. set (m2 := mem_store (area + 0 + 16) (drop 8 msg) m1b) in *.
    rewrite (Z.mod_small (next 0 (plen msg)) N) in * by lia.
    assert (Hword : word m1b (base + B) = r).
    { rewrite <- Hrw. apply (word_agree m m1b (base + B) (base + B) (base + B + 4)); [|lia|lia].
      apply (agree_trans _ m1); apply mem_store_agree; unfold area; lia. }
    constructor; [done|split; [lia|done]|by rewrite K2|done|].
    inversion Hlive as [q0 _ Hs E0|q1 q2 Hlt|q1 p msg' q2 Hlt]; subst q0 || (exfalso; lia); clear Hlive.
    assert (Hm2 : agree m1b m' (area) (area + 16) ).
    { apply (agree_trans _ m2); [apply mem_store_agree; lia|]. apply K3. }
    apply live_split with w; try done; try lia.
    + apply (seg_agree m m' r w q (area + r) (area + w)); [done| |lia|lia|lia].
      apply (agree_trans _ m1); [apply mem_store_agree; lia|]. apply (agree_trans _ m1b); [apply mem_store_agree; rewrite Hzh; lia|].
      apply (agree_trans _ m2); [apply mem_store_agree; fold (plen msg); lia|]. eapply agree_sub; [apply (K3 (area + w))|lia|lia].
    + pose proof (multiples_apart w N Hwm HNB). lia.
    + apply (hdr_at_agree m1 m' w msg (area + w) (area + w + 16)); [|lia|lia|by apply hdr_at_store].
      apply (agree_trans _ m1b); [apply mem_store_agree; rewrite Hzh; lia|].
      apply (agree_trans _ m2); [apply mem_store_agree; fold (plen msg); lia|]. eapply agree_sub; [apply (K3 (area + w + 16))|lia|lia].
    + apply (hdr_at_agree m1b m' 0 msg area (area + 16)); [done|lia|lia|by apply hdr_at_store].
    + apply (pay_at_agree m2 m' 16 msg area (area + 16 + plen msg)); [apply K3|lia|lia|]. unfold m2. rewrite Z.add_0_r. apply pay_at_store.
    + constructor.
Qed.
End ring.

(** ** Two objects on one ring *)

(** The writer [W] and the reader [R] of a ring that holds the queue [q]. *)
Definition ring_pair (base k N : Z) (W R : ring) (q : list bytes) : Prop :=
  on_ring base k N W /\ on_ring base k N R /\ rb_mem W = rb_mem R /\ ring_rel base k N (rb_mem R) (rb_rptr R) (rb_wptr W) q.

(** A ring as the sizes in its first block lay it out, with both pointers zero. *)
Lemma ring_init_rel base k N m W : 6 <= k -> k <> 7 -> 0 < N < 2 ^ 32 -> N mod 2 ^ k = 0 -> word m base = N ->
  word m (base + 2 ^ k) = 0 -> word m (base + 2 ^ k * 2) = 0 ->
  ring_init base (N + 3 * 2 ^ k) m = Ok W -> ring_pair base k N W W [].
Proof.
  intros Hk Hs HN HNB Hw Hr0 Hw0. unfold ring_init. pose proof (B_pos k Hk) as HB.
  assert (E1 : unpack_u 4 0 (mem_read m base 8) = Ok N) by (rewrite <- Hw; reflexivity). rewrite E1. cbn [rbind].
  destruct (unpack_u 4 4 (mem_read m base 8)) as [u|]; [|done]. cbn [rbind].
  replace (N + 3 * 2 ^ k - N) with (2 ^ k * BLOCK_COUNT) by (unfold BLOCK_COUNT; lia). rewrite Z.mod_mul, Z.div_mul by done. cbn [Z.eqb negb].
  destruct (negb (2 ^ k mod BLOCK_STEP =? 0)); [done|]. intros [= <-]. split; [done|]. split; [done|]. split; [done|].
  constructor; cbn [rb_mem rb_rptr rb_wptr]; [split; [lia|by apply Z.mod_0_l; lia]|split; [lia|by apply Z.mod_0_l; lia]|done|done|].
  apply live_line; [lia|constructor].
Qed.

(** C29: the AFK ring buffer refines a queue.  For a writer and a reader that share
    only the memory, with a block size that is a power of two from 0x40 on and not 0x80
    (with 0x80 the read pointer is lost, [block_80_loses_rptr]), [write] of a
    message that fits appends it to the queue and reports the new write pointer,
    and reading yields the queued messages in order, complete and unchanged, and
    leaves the queue empty, whatever the positions of the pointers and however
    the messages wrap around the end. *)
Theorem ring_refines_queue base k N W R q
    (Hk : 6 <= k) (Hstray : k <> 7) (HN : 0 < N < 2 ^ 32) (HNB : N mod 2 ^ k = 0) (Hpair : ring_pair base k N W R q) :
  (forall msg, (8 <= length msg)%nat -> fits k N (rb_rptr R) (rb_wptr W) (plen msg) ->
     exists w W', ring_write msg W = (Ok w, W') /\ rb_wptr W' = w /\
       ring_pair base k N W' (rb_set_mem (rb_mem W') R) (q ++ [msg])) /\
  (forall fuel, (length q < fuel)%nat ->
     exists R', ring_read fuel R = (Ok q, R') /\ ring_pair base k N (rb_set_mem (rb_mem R') W) R' []).
Proof.
  destruct Hpair as (HW & HR & Hm & Hrel). split.
  - intros msg Hl Hf. rewrite <- Hm in Hrel.
    destruct (write_pushes base k N Hk Hstray HN HNB W (rb_rptr R) msg q HW Hl Hrel Hf) as (w & m & E & H).
    eexists w, _. split; [exact E|]. split; [done|]. split; [done|]. split; [done|]. split; [done|]. exact H.
  - intros fuel Hf. unfold ring_read, read_poll, get_wptr.
    assert (Ep : (let! w := read_word 2 in py_modify (rb_set_wptr w)) R = (Ok tt, rb_set_wptr (rb_wptr W) R)).
    { rewrite (py_bind_ok _ _ _ _ _ (read_word_ok base k N R 2 HR)). by rewrite (rr_wword _ _ _ _ _ _ _ Hrel). }
    rewrite (py_bind_ok _ _ _ _ _ Ep).
    destruct (read_drains base k N Hk Hstray HN HNB q (rb_set_wptr (rb_wptr W) R) fuel Hf HR Hrel) as (r & m & E & H).
    eexists. split; [exact E|]. split; [done|]. split; [done|]. split; [done|]. exact H.
Qed.

(** A ring of 0x100 bytes in blocks of 0x40. *)
Definition small_mem : Z -> byte := mem_store 0 (le_bytes 4 0x100) (fun _ => x00).
Definition small_ring : ring := {| rb_base := 0; rb_block := 0x40; rb_bufsize := 0x100; rb_rptr := 0; rb_wptr := 0; rb_mem := small_mem |}.
Definition hello : bytes := replicate 8 x01 ++ [x68; x69].

Lemma ring_refines_queue_witness :
  exists w W', ring_write hello small_ring = (Ok w, W') /\ rb_wptr W' = w /\
    ring_pair 0 6 0x100 W' (rb_set_mem (rb_mem W') small_ring) [hello].
Proof.
  destruct (ring_refines_queue 0 6 0x100 small_ring small_ring []) as [Hpush _]; [lia|lia|lia|reflexivity| |].
  - apply (ring_init_rel 0 6 0x100 small_mem); try lia; vm_compute; reflexivity.
  - apply Hpush; [simpl; lia|]. vm_compute. by left.
Defined.

(** ** What the checks of [write] let through *)

(** A message that fills the ring to the end makes it look empty: it is accepted
    and never read. *)
Lemma full_ring_looks_empty :
  let r := ring_write (replicate 8 x01 ++ replicate 0xf0 x02) small_ring in
  fst r = Ok 0 /\ fst (ring_read 5 (rb_set_mem (rb_mem (snd r)) small_ring)) = Ok [].
Proof. split; vm_compute; reflexivity. Qed.

(** Both sides of a ring after a list of operations: [Some msg] writes, [None]
    reads everything; with what was read. *)
Fixpoint ring_run (ops : list (option bytes)) (W R : ring) : result (list (list bytes)) * ring * ring :=
  match ops with
  | [] => (Ok [], W, R)
  | Some msg :: ops =>
      match ring_write msg W with
      | (Raise e, W) => (Raise e, W, R)
      | (Ok _, W) => ring_run ops W (rb_set_mem (rb_mem W) R)
      end
  | None :: ops =>
      match ring_read 20 R with
      | (Raise e, R) => (Raise e, W, R)
      | (Ok l, R) => let '(r, W', R') := ring_run ops (rb_set_mem (rb_mem R) W) R in
                     ((let? t := r in Ok (l :: t)), W', R')
      end
  end.

Definition big_ring : ring :=
  {| rb_base := 0; rb_block := 0x40; rb_bufsize := 0x400; rb_rptr := 0; rb_wptr := 0; rb_mem := mem_store 0 (le_bytes 4 0x400) (fun _ => x00) |}.
Definition message (c : byte) (len : nat) : bytes := replicate 8 c ++ replicate len c.

(** A message too long for the end of a ring that already wraps is stored from
    the start, over the messages waiting there: the first of the two unread
    messages is lost, although both were accepted. *)
Lemma second_wrap_overwrites :
  let '(r, _, _) := ring_run [Some (message x01 0x3b0); None; Some (message x02 0xf0); Some (message x03 0x300); None] big_ring big_ring in
  r = Ok [[message x01 0x3b0]; [message x03 0x300]].
Proof. vm_compute. reflexivity. Qed.

(** With the block size 0x80 of the documented layout, [update_wptr] also writes
    the write pointer over the read pointer, so that the writer never sees the
    ring fill up. *)
Lemma block_80_loses_rptr R v : rb_block R = 0x80 -> 0 <= v < 2 ^ 32 ->
  exists m, update_wptr v R = (Ok tt, rb_set_mem m R) /\ word m (rb_base R + 0x80) = v.
Proof.
  intros Hb Hv. unfold update_wptr, update_word, write_buf, py_bind, py_get, py_lift, py_modify, pack_I. rewrite pack_u_ok by done.
  rewrite Hb. eexists. split; [reflexivity|]. apply word_store. exact Hv.
Qed.
