(* ===== verification/Asc.v ===== *)
(** * proxyclient/m1n1/hw/asc.py, fw/asc and fw/smc.py: coprocessor mailboxes

    An ASC is a coprocessor reached through a mailbox of 64-bit messages.  [ASC]
    (hw/asc.py) moves messages and dispatches them to endpoint objects;
    [StandardASC] (fw/asc/__init__.py) adds the system endpoints and I/O memory
    through the DART; [ASCManagementEndpoint] boots the coprocessor; [SMCEndpoint]
    runs commands on the system management controller.

    The coprocessor is the environment: [as_out] is what successive looks at the
    outbox find ([None]: empty), and [as_sent] collects the messages written to
    the inbox.  Time is a clock read by [time.time()]. *)

From Stdlib Require Import ZArith Lia.
From Stdlib Require Import Strings.Byte.
From stdpp Require Import base list numbers strings gmap.
From S2P Require Import Prelude Bytes Malloc Utils Registers RegTables FwTables Dart.

Local Open Scope string_scope.
Local Open Scope list_scope.
Local Open Scope Z_scope.
Local Open Scope py_scope.

(** ** State *)

(** The endpoint objects, with the attributes they keep. *)
Inductive endpoint :=
| EMgmt (iop_power_state ap_power_state : Z)
| ECrash (started : bool) (iobuffer iobuffer_dva : option Z)
| ESyslog (started : bool) (entrysize count iobuffer iobuffer_dva : option Z)
| EKDebug (buf0 buf1 : option (Z * Z))
| EIOReporting (bufsize iobuffer iobuffer_dva : option Z)
| EOSLog (bufsize iobuffer iobuffer_dva : option Z)
| EDummy
| ESmc (shmem : option Z) (msgid : Z) (outstanding : gset Z) (ret : gmap Z Z).

Record asc := Asc {
  as_out : list (option (Z * Z));      (* the outbox, look by look *)
  as_sent : list (Z * Z);              (* the inbox, newest first *)
  as_eps : list Z;                     (* self.eps *)
  as_epmap : gmap Z endpoint;          (* self.epmap *)
  as_dart : option (dart_kind * Z);    (* self.dart and self.stream *)
  as_io : list heap * dart;            (* the DART and the target behind it *)
  as_dva_offset : Z;
  as_clock : nat -> Z;                 (* the readings of time.time() *)
  as_ticks : nat
}.

Definition as_set_out (o : list (option (Z * Z))) (a : asc) : asc :=
  {| as_out := o; as_sent := as_sent a; as_eps := as_eps a; as_epmap := as_epmap a; as_dart := as_dart a; as_io := as_io a;
     as_dva_offset := as_dva_offset a; as_clock := as_clock a; as_ticks := as_ticks a |}.
Definition as_add_sent (m : Z * Z) (a : asc) : asc :=
  {| as_out := as_out a; as_sent := m :: as_sent a; as_eps := as_eps a; as_epmap := as_epmap a; as_dart := as_dart a; as_io := as_io a;
     as_dva_offset := as_dva_offset a; as_clock := as_clock a; as_ticks := as_ticks a |}.
Definition as_set_eps (e : list Z) (a : asc) : asc :=
  {| as_out := as_out a; as_sent := as_sent a; as_eps := e; as_epmap := as_epmap a; as_dart := as_dart a; as_io := as_io a;
     as_dva_offset := as_dva_offset a; as_clock := as_clock a; as_ticks := as_ticks a |}.
Definition as_set_epmap (e : gmap Z endpoint) (a : asc) : asc :=
  {| as_out := as_out a; as_sent := as_sent a; as_eps := as_eps a; as_epmap := e; as_dart := as_dart a; as_io := as_io a;
     as_dva_offset := as_dva_offset a; as_clock := as_clock a; as_ticks := as_ticks a |}.
Definition as_set_io (io : list heap * dart) (a : asc) : asc :=
  {| as_out := as_out a; as_sent := as_sent a; as_eps := as_eps a; as_epmap := as_epmap a; as_dart := as_dart a; as_io := io;
     as_dva_offset := as_dva_offset a; as_clock := as_clock a; as_ticks := as_ticks a |}.
Definition as_tick (a : asc) : asc :=
  {| as_out := as_out a; as_sent := as_sent a; as_eps := as_eps a; as_epmap := as_epmap a; as_dart := as_dart a; as_io := as_io a;
     as_dva_offset := as_dva_offset a; as_clock := as_clock a; as_ticks := S (as_ticks a) |}.

Definition time_time : M asc Z := fun a => (Ok (as_clock a (as_ticks a)), as_tick a).

(** ** Sending *)

(** [ASCBaseEndpoint.send]: the message and its endpoint number, through
    [ASC.send], which waits until the inbox has room. *)
Definition asc_send (epnum msg : Z) : M asc unit :=
  let! m1 := py_lift (reg_init ASCMessage1 None [("EP", epnum)]) in
  py_modify (as_add_sent (msg, m1)).

(** Building a message of a class and sending it. *)
Definition send_new (epnum : Z) (cls : reg_class) (kw : list (string * Z)) : M asc unit :=
  let! m := py_lift (reg_init cls None kw) in asc_send epnum m.

Definition getm (cls : reg_class) (k : string) (v : Z) : M asc Z := py_lift (reg_getattr cls k v).

(** ** I/O memory *)
Definition on_io {A} (m : M (list heap * dart) A) : M asc A := fun a => let '(r, io) := m (as_io a) in (r, as_set_io io a).
Definition io_memalign (align size : Z) : M asc Z := on_io (fun '(hs, d) =>
  let '(r, h) := heap_memalign align size (dt_heap d) in (r, (hs, dt_set_heap h d))).

(** [StandardASC.iomap] and [ioalloc]; [order] is the iteration order of the DART's
    set of dirty tables. *)
Definition asc_iomap (order : gset Z -> list Z) (addr size : Z) : M asc Z :=
  let! d := py_get as_dart in
  match d with
  | None => py_ret addr
  | Some (k, stream) =>
      let! off := py_get as_dva_offset in
      let! iova := on_io (iomap order k stream addr size) in
      py_ret (Z.lor off iova)
  end.
Definition ioalloc (order : gset Z -> list Z) (size : Z) : M asc (Z * Z) :=
  let! paddr := io_memalign 0x4000 size in
  let! dva := asc_iomap order paddr size in
  py_ret (paddr, dva).

Definition asc_readmem (addr : Z) (n : nat) : M asc bytes := py_get (fun a => mem_read (dt_mem (snd (as_io a))) addr n).
Definition asc_writemem (addr : Z) (b : bytes) : M asc unit :=
  on_io (fun '(hs, d) => (Ok tt, (hs, dt_set_mem (mem_store addr b (dt_mem d)) d))).

(** [StandardASC.ioread] with its default [allow_phys = False] and [dva_size]. *)
Definition asc_ioread (dva size : Z) : M asc bytes :=
  let! off := py_get as_dva_offset in
  if off + Z.shiftl 1 32 <=? dva then asc_readmem dva (Z.to_nat size) else
  let! d := py_get as_dart in
  match d with
  | None => asc_readmem dva (Z.to_nat size)
  | Some (k, stream) => on_io (fun '(hs, d) => let '(r, d) := ioread k stream (Z.land dva 0xFFFFFFFFF) size d in (r, (hs, d)))
  end.

(** ** Endpoints *)

Definition put_ep (n : Z) (e : endpoint) : M asc unit := py_modify (fun a => as_set_epmap (<[n := e]> (as_epmap a)) a).

(** A new endpoint object of the class [StandardASC.ENDPOINTS] (and a client's
    [ENDPOINTS]) gives the number. *)
Inductive epclass := CMgmt | CCrash | CSyslog | CKDebug | CIOReporting | COSLog | CDummy | CSmc.
#[global] Instance epclass_eq_dec : EqDecision epclass.
Proof. solve_decision. Defined.
Definition new_endpoint (c : epclass) : endpoint :=
  match c with
  | CMgmt => EMgmt 0 0
  | CCrash => ECrash false None None
  | CSyslog => ESyslog false None None None None
  | CKDebug => EKDebug None None
  | CIOReporting => EIOReporting None None None
  | COSLog => EOSLog None None None
  | CDummy => EDummy
  | CSmc => ESmc None 0 ∅ ∅
  end.
Definition ENDPOINTS : gmap Z epclass :=
  {[0 := CMgmt; 1 := CCrash; 2 := CSyslog; 3 := CKDebug; 4 := CIOReporting; 8 := COSLog; 0xa := CDummy]}.
Definition SMC_ENDPOINTS : gmap Z epclass := <[0x20 := CSmc]> ENDPOINTS.

(** ** The management endpoint *)
Definition mgmt_start_ep (epno : Z) : M asc unit := send_new 0 Mgmt_StartEP [("EP", epno); ("FLAG", 2)].
Definition mgmt_stop_ep (epno : Z) : M asc unit := send_new 0 Mgmt_StartEP [("EP", epno); ("FLAG", 1)].
Definition boot_done : M asc unit := send_new 0 Mgmt_SetAPPower [("STATE", 0x20)].
Definition mgmt_ping : M asc unit := send_new 0 Mgmt_Ping [].
Definition mgmt_start : M asc unit := send_new 0 Mgmt_SetIOPPower [("STATE", 0x220)].

(** [ep.start()] of the endpoints that [start_ep] is used on while booting; an
    SMC waits for its reply in [smc_start]. *)
Definition ep_start (epno : Z) (c : epclass) : M asc unit :=
  match c with
  | CKDebug => put_ep epno (EKDebug None None) ;;; send_new epno KDebugStart []
  | _ => py_ret tt
  end.

(** [StandardASC.start_ep]. *)
Definition start_ep (epcls : gmap Z epclass) (epno : Z) : M asc unit :=
  match epcls !! epno with
  | None => py_raise (GenericException "Unknown endpoint")
  | Some c => put_ep epno (new_endpoint c) ;;; mgmt_start_ep epno ;;; ep_start epno c
  end.

Fixpoint start_low (epcls : gmap Z epclass) (eps : list Z) : M asc unit :=
  match eps with
  | [] => py_ret tt
  | ep :: r => (if ep =? 0 then py_ret tt else if ep <? 0x10 then start_ep epcls ep else py_ret tt) ;;; start_low epcls r
  end.

(** The endpoints of a bitmap. *)
Definition bitmap_eps (base bitmap : Z) : list Z :=
  map (fun i => 32 * base + Z.of_nat i) (List.filter (fun i => negb (Z.land bitmap (Z.shiftl 1 (Z.of_nat i)) =? 0)) (seq 0 32)).

Definition mgmt_hello (msg : Z) : M asc bool :=
  let! v := getm Mgmt_Hello "MAX_VER" msg in
  send_new 0 Mgmt_HelloAck [("MIN_VER", v); ("MAX_VER", v)] ;;; py_ret true.

Definition mgmt_epmap (epcls : gmap Z epclass) (msg : Z) : M asc bool :=
  let! bitmap := getm Mgmt_EPMap "BITMAP" msg in
  let! base := getm Mgmt_EPMap "BASE" msg in
  let! last := getm Mgmt_EPMap "LAST" msg in
  py_modify (fun a => as_set_eps (as_eps a ++ bitmap_eps base bitmap) a) ;;;
  send_new 0 Mgmt_EPMap_Ack [("BASE", base); ("LAST", last); ("MORE", if last =? 0 then 1 else 0)] ;;;
  (if last =? 0 then py_ret tt
   else let! eps := py_get as_eps in start_low epcls eps ;;; boot_done) ;;;
  py_ret true.

Section endpoints.
  Context (order : gset Z -> list Z) (epcls : gmap Z epclass).
  (** The parse of a crash log (by the construct library) and its printout. *)
  Context (crash_dump : bytes -> M asc unit).

(** ** Handlers of the system endpoints *)

Definition crash_handle (n msg : Z) (started : bool) (buf : option Z) : M asc bool :=
  let! dva := getm CrashLogMessage "DVA" msg in
  let! size := getm CrashLogMessage "SIZE" msg in
  if started then let! data := asc_ioread dva (0x1000 * size) in crash_dump data ;;; py_raise (GenericException "ASC crashed!") else
  if negb (dva =? 0) then put_ep n (ECrash true buf (Some dva)) ;;; py_ret true else
  let size := align_up (0x1000 * size) 0x4000 in
  let! '(p, d) := ioalloc order size in
  put_ep n (ECrash false (Some p) (Some d)) ;;;
  send_new n CrashLogMessage [("TYPE", 1); ("SIZE", size / 0x1000); ("DVA", d)] ;;;
  put_ep n (ECrash true (Some p) (Some d)) ;;; py_ret true.

Definition syslog_init (n msg : Z) (started : bool) (buf dva : option Z) : M asc bool :=
  let! e := getm Syslog_Init "ENTRYSIZE" msg in
  let! c := getm Syslog_Init "COUNT" msg in
  put_ep n (ESyslog started (Some e) (Some c) buf dva) ;;; py_ret true.

Definition syslog_getbuf (n msg : Z) (started : bool) (entrysize count buf : option Z) : M asc bool :=
  let! size := getm Syslog_GetBuf "SIZE" msg in
  let! dva := getm Syslog_GetBuf "DVA" msg in
  let size := align_up (0x1000 * size) 0x4000 in
  if negb (dva =? 0) then put_ep n (ESyslog true entrysize count buf (Some dva)) ;;; py_ret true else
  let! '(p, d) := ioalloc order size in
  put_ep n (ESyslog started entrysize count (Some p) (Some d)) ;;;
  send_new n Syslog_GetBuf [("SIZE", size / 0x1000); ("DVA", d)] ;;;
  put_ep n (ESyslog true entrysize count (Some p) (Some d)) ;;; py_ret true.

(** The text up to the first NUL must be ASCII. *)
Fixpoint cstring (b : bytes) : bytes :=
  match b with [] => [] | c :: r => if byte_to_Z c =? 0 then [] else c :: cstring r end.
Definition check_ascii (b : bytes) : result unit :=
  if forallb (fun c => byte_to_Z c <? 128) b then Ok tt else Raise (ValueError "ascii").

Definition syslog_log (n msg : Z) (entrysize dva : option Z) : M asc bool :=
  match entrysize, dva with
  | Some e, Some dva =>
      let stride := 0x20 + e in
      let! idx := getm Syslog_Log "INDEX" msg in
      let! log := asc_ioread (dva + idx * stride) stride in
      py_lift (check_ascii (cstring (slice 8 32 log))) ;;;
      py_lift (check_ascii (cstring (drop 32 log))) ;;;
      asc_send n msg ;;; py_ret true
  | _, _ => py_raise (TypeError "NoneType")
  end.

Definition kdebug_getbuf (n : Z) (buf1 : option (Z * Z)) (msg : Z) : M asc bool :=
  let! count := getm KDebugGetBufMessage "COUNT" msg in
  let! b0 := ioalloc order (align_up (count * 0x20) 0x4000) in
  put_ep n (EKDebug (Some b0) buf1) ;;;
  send_new n KDebugSendBufMessage [("TYPE", 1); ("DVA", snd b0)] ;;;
  let! b1 := ioalloc order 0x2000 in
  send_new n KDebugSendBufMessage [("TYPE", 2); ("DVA", snd b1)] ;;;
  put_ep n (EKDebug (Some b0) (Some b1)) ;;; py_ret true.

Definition ioreporting_getbuf (n : Z) (buf dva0 : option Z) (msg : Z) : M asc bool :=
  let! dva := getm IOReporting_GetBuf "DVA" msg in
  let! size := getm IOReporting_GetBuf "SIZE" msg in
  if negb (dva =? 0) then put_ep n (EIOReporting (Some (0x1000 * size)) (Some dva) (Some dva)) ;;; py_ret true else
  let size := align_up (0x1000 * size) 0x4000 in
  put_ep n (EIOReporting (Some size) buf dva0) ;;;
  let! '(p, d) := ioalloc order size in
  put_ep n (EIOReporting (Some size) (Some p) (Some d)) ;;;
  send_new n IOReporting_GetBuf [("DVA", d); ("SIZE", size / 0x1000)] ;;; py_ret true.

Definition ioreporting_report (n : Z) (bufsize buf : option Z) : M asc bool :=
  match bufsize, buf with
  | Some s, Some b => asc_readmem b (Z.to_nat s) ;;; send_new n IOReporting_Report [] ;;; py_ret true
  | None, _ => py_raise (AttributeError "bufsize")
  | _, None => py_raise (TypeError "NoneType")
  end.

Definition oslog_getbuf (n : Z) (buf dva0 : option Z) (msg : Z) : M asc bool :=
  let! dva := getm OSLog_GetBuf "DVA" msg in
  let! size := getm OSLog_GetBuf "SIZE" msg in
  if negb (dva =? 0) then
    put_ep n (EOSLog (Some (0x1000 * size)) (Some (Z.shiftl dva 12)) (Some (Z.shiftl dva 12))) ;;; py_ret true else
  let size := align_up (0x1000 * size) 0x4000 in
  put_ep n (EOSLog (Some size) buf dva0) ;;;
  let! '(p, d) := ioalloc order size in
  put_ep n (EOSLog (Some size) (Some p) (Some d)) ;;;
  send_new n OSLog_GetBuf [("DVA", Z.shiftr d 12); ("SIZE", size / 0x1000)] ;;; py_ret true.

(** [SMCEndpoint.handle_msg], which replaces the common dispatch. *)
Definition smc_handle (n msg0 : Z) (shmem : option Z) (msgid : Z) (outstanding : gset Z) (ret : gmap Z Z) : M asc bool :=
  match shmem with
  | None => put_ep n (ESmc (Some msg0) msgid outstanding ret) ;;; py_ret true
  | Some _ =>
      let! m := py_lift (reg_init SMCResult (Some msg0) []) in
      let! res := getm SMCResult "RESULT" m in
      let! mid := getm SMCResult "ID" m in
      if res =? 0x18 then py_ret true else
      put_ep n (ESmc shmem msgid (outstanding ∖ {[mid]}) (<[mid := m]> ret)) ;;; py_ret true
  end.

(** [ASCBaseEndpoint.handle_msg]: the type of the message selects the handler and
    the class the message is checked against. *)
Definition BASE_MESSAGE (e : endpoint) : reg_class :=
  match e with
  | EMgmt _ _ => ManagementMessage
  | ECrash _ _ _ => CrashLogMessage
  | ESyslog _ _ _ _ _ => SyslogMessage
  | EKDebug _ _ => KDebugMessage
  | EIOReporting _ _ _ => IOReportingMessage
  | EOSLog _ _ _ => OSLogMessage
  | EDummy => Register64
  | ESmc _ _ _ _ => SMCMessage
  end.

Definition handler (n : Z) (e : endpoint) (typ : Z) : option (reg_class * (Z -> M asc bool)) :=
  match e with
  | EMgmt iop ap =>
      if typ =? 1 then Some (Mgmt_Hello, mgmt_hello)
      else if typ =? 8 then Some (Mgmt_EPMap, mgmt_epmap epcls)
      else if typ =? 0xb then Some (Mgmt_SetAPPower, fun msg =>
        let! s := getm Mgmt_SetAPPower "STATE" msg in put_ep n (EMgmt iop s) ;;; py_ret true)
      else if typ =? 7 then Some (Mgmt_IOPPowerAck, fun msg =>
        let! s := getm Mgmt_IOPPowerAck "STATE" msg in put_ep n (EMgmt s ap) ;;; py_ret true)
      else if typ =? 4 then Some (Mgmt_Pong, fun _ => py_ret true) else None
  | ECrash st buf _ => if typ =? 1 then Some (CrashLogMessage, fun msg => crash_handle n msg st buf) else None
  | ESyslog st e c buf dva =>
      if typ =? 8 then Some (Syslog_Init, fun msg => syslog_init n msg st buf dva)
      else if typ =? 1 then Some (Syslog_GetBuf, fun msg => syslog_getbuf n msg st e c buf)
      else if typ =? 5 then Some (Syslog_Log, fun msg => syslog_log n msg e dva) else None
  | EKDebug _ buf1 =>
      if typ =? 1 then Some (KDebugGetBufMessage, kdebug_getbuf n buf1)
      else if typ =? 2 then Some (KDebugPreallocBuf1Message, fun _ => py_ret true)
      else if typ =? 3 then Some (KDebugPreallocBuf2Message, fun _ => py_ret true) else None
  | EIOReporting s b d =>
      if typ =? 1 then Some (IOReporting_GetBuf, ioreporting_getbuf n b d)
      else if typ =? 0xc then Some (IOReporting_Start, fun _ => py_ret true)
      else if typ =? 8 then Some (IOReporting_Report, fun _ => ioreporting_report n s b) else None
  | EOSLog _ b d => if typ =? 1 then Some (OSLog_GetBuf, oslog_getbuf n b d) else None
  | EDummy | ESmc _ _ _ _ => None
  end.

Definition handle_msg (n : Z) (e : endpoint) (msg0 : Z) : M asc bool :=
  match e with
  | ESmc shmem msgid outstanding ret => smc_handle n msg0 shmem msgid outstanding ret
  | _ =>
      let! m := py_lift (reg_init (BASE_MESSAGE e) (Some msg0) []) in
      let! typ := getm (BASE_MESSAGE e) "TYPE" m in
      match handler n e typ with
      | None => py_ret false
      | Some (regtype, h) => let! m := py_lift (reg_init regtype (Some m) []) in h m
      end
  end.

(** ** Moving messages *)

(** [ASC.work]: one look at the outbox. *)
Definition work : M asc bool :=
  let! o := py_get as_out in
  match o with
  | [] => py_ret true
  | None :: r => py_modify (as_set_out r) ;;; py_ret true
  | Some (m0, m1) :: r =>
      py_modify (as_set_out r) ;;;
      let! m1 := py_lift (reg_init R_INBOX1 (Some m1) []) in
      let! ep := getm R_INBOX1 "EP" m1 in
      let! em := py_get as_epmap in
      match em !! ep with
      | Some e => handle_msg ep e m0
      | None => py_ret false
      end
  end.

(** The loops [while cond: self.asc.work()], with [fuel] iterations at most. *)
Fixpoint work_while (cond : asc -> bool) (fuel : nat) : M asc unit :=
  match fuel with
  | O => py_raise OutOfFuel
  | S k => let! c := py_get cond in if c then work ;;; work_while cond k else py_ret tt
  end.

Fixpoint work_forever (fuel : nat) : M asc unit :=
  match fuel with
  | O => py_raise OutOfFuel
  | S k => let! handled := work in if handled then work_forever k else py_ret tt
  end.

(** ** Booting *)
Definition mgmt_power (a : asc) : Z * Z := match as_epmap a !! 0 with Some (EMgmt i p) => (i, p) | _ => (0, 0) end.
Definition booted (a : asc) : bool := let '(i, p) := mgmt_power a in (i =? 0x20) && (p =? 0x20).

Definition ASCTimeout : exn := GenericException "Boot timed out".

(** The loop of [mgmt_wait_boot] with its deadline. *)
Fixpoint wait_loop (deadline : option Z) (fuel : nat) : M asc unit :=
  match fuel with
  | O => py_raise OutOfFuel
  | S k =>
      let! b := py_get booted in
      if b then py_ret tt else
      work ;;;
      let! late := (match deadline with
                    | None => py_ret false
                    | Some t => if t =? 0 then py_ret false else let! now := time_time in py_ret (t <? now)
                    end) in
      if late then py_raise ASCTimeout else wait_loop deadline k
  end.
Definition mgmt_wait_boot (timeout : option Z) (fuel : nat) : M asc unit :=
  let! deadline := (match timeout with
                    | None => py_ret None
                    | Some t => let! now := time_time in py_ret (Some (t + now))
                    end) in
  wait_loop deadline fuel.

(** [StandardASC.start], after its write of the RUN bit. *)
Definition asc_start (fuel : nat) : M asc unit := mgmt_start ;;; mgmt_wait_boot (Some 3) fuel.

(** [ASC.work_for]. *)
Fixpoint work_until (deadline : Z) (fuel : nat) : M asc unit :=
  match fuel with
  | O => py_raise OutOfFuel
  | S k => let! now := time_time in if now <? deadline then work ;;; work_until deadline k else py_ret tt
  end.
Definition work_for (timeout : Z) (fuel : nat) : M asc unit :=
  let! now := time_time in work_until (now + timeout) fuel.

(** [stop] of the management endpoint. *)
Definition mgmt_stop (state : Z) (fuel : nat) : M asc unit :=
  send_new 0 Mgmt_SetAPPower [("STATE", 0x10)] ;;;
  work_while (fun a => snd (mgmt_power a) =? 0x20) fuel ;;;
  send_new 0 Mgmt_SetIOPPower [("STATE", state)] ;;;
  work_while (fun a => negb (fst (mgmt_power a) =? state)) fuel.

(** ** SMC commands, on endpoint [n] *)
Definition smc_state (n : Z) (a : asc) : option (option Z * Z * gset Z * gmap Z Z) :=
  match as_epmap a !! n with Some (ESmc s i o r) => Some (s, i, o, r) | _ => None end.
Definition smc_get (n : Z) : M asc (option Z * Z * gset Z * gmap Z Z) :=
  let! s := py_get (smc_state n) in match s with Some x => py_ret x | None => py_raise (KeyError "smcep") end.

Definition smc_start (n : Z) (fuel : nat) : M asc unit :=
  send_new n SMCInitialize [("ID", 0)] ;;;
  let! '(s, i, o, r) := smc_get n in
  put_ep n (ESmc s (i + 1) o r) ;;;
  work_while (fun a => match smc_state n a with Some (None, _, _, _) => true | _ => false end) fuel.

(** [StandardASC.start_ep] on a client's endpoint, whose [start] may wait. *)
Definition start_client_ep (epno : Z) (fuel : nat) : M asc unit :=
  start_ep epcls epno ;;;
  match epcls !! epno with Some CSmc => smc_start epno fuel | _ => py_ret tt end.

Definition new_msgid (n : Z) : M asc Z :=
  let! '(s, i, o, r) := smc_get n in
  let mid := Z.land i 0xF in
  put_ep n (ESmc s (i + 1) o r) ;;;
  if bool_decide (mid ∈ o) then py_raise AssertionError else
  put_ep n (ESmc s (i + 1) ({[mid]} ∪ o) r) ;;; py_ret mid.

Definition SMCError (ret : Z) : exn := GenericException "SMC error".

Definition waiting_for (n mid : Z) (a : asc) : bool :=
  match smc_state n a with Some (_, _, o, _) => bool_decide (mid ∈ o) | None => false end.

Definition smc_cmd (n : Z) (cls : reg_class) (kw : list (string * Z)) (fuel : nat) : M asc Z :=
  let! m := py_lift (reg_init cls None kw) in
  let! mid := new_msgid n in
  let! m := py_lift (reg_setattr cls "ID" mid m) in
  asc_send n m ;;;
  let! id := getm cls "ID" m in
  work_while (waiting_for n id) fuel ;;;
  let! '(_, _, _, ret) := smc_get n in
  match ret !! id with
  | None => py_raise (KeyError "ret")
  | Some v =>
      let! res := getm SMCResult "RESULT" v in
      if res =? 0 then py_ret v else py_raise (SMCError v)
  end.

Definition smc_shmem (n : Z) : M asc Z :=
  let! '(s, _, _, _) := smc_get n in match s with Some x => py_ret x | None => py_raise (TypeError "NoneType") end.

(** [int.from_bytes(key, "big")]. *)
Definition be_Z (b : bytes) : Z := fold_left (fun z c => 256 * z + byte_to_Z c) b 0.

Definition smc_write (n : Z) (key data : bytes) (fuel : nat) : M asc unit :=
  let! sh := smc_shmem n in
  asc_writemem sh data ;;;
  smc_cmd n SMCWriteKey [("KEY", be_Z key); ("SIZE", zlen data)] fuel ;;; py_ret tt.

(** The value of a reply: in the message up to four bytes, else in shared memory. *)
Definition smc_value (n size ret : Z) : M asc bytes :=
  if size <=? 4 then
    let! v := getm SMCResult "VALUE" ret in
    let! b := py_lift (pack_I v) in py_ret (take (Z.to_nat (if size <? 0 then 4 + size else size)) b)
  else
    let! sh := smc_shmem n in
    let! sz := getm SMCResult "SIZE" ret in
    asc_readmem sh (Z.to_nat sz).

Definition smc_read (n : Z) (key : bytes) (size : Z) (fuel : nat) : M asc bytes :=
  let! ret := smc_cmd n SMCReadKey [("KEY", be_Z key); ("SIZE", size)] fuel in smc_value n size ret.

Definition smc_rw (n : Z) (key data : bytes) (outsize : Z) (fuel : nat) : M asc bytes :=
  let! sh := smc_shmem n in
  asc_writemem sh data ;;;
  let! ret := smc_cmd n SMCReadWriteKey [("KEY", be_Z key); ("RSIZE", outsize); ("WSIZE", zlen data)] fuel in
  smc_value n outsize ret.

Definition smc_get_key_by_index (n index : Z) (fuel : nat) : M asc bytes :=
  let! ret := smc_cmd n SMCGetKeyByIndex [("INDEX", index)] fuel in
  let! v := getm SMCResult "VALUE" ret in
  let b := le_bytes 4 v in
  py_lift (check_ascii b) ;;; py_ret b.

Definition smc_get_key_info (n : Z) (key : bytes) (fuel : nat) : M asc (Z * bytes * Z) :=
  smc_cmd n SMCGetKeyInfo [("KEY", be_Z key)] fuel ;;;
  let! sh := smc_shmem n in
  let! info := asc_readmem sh 6 in
  let! len := py_lift (unpack_u 1 0 info) in
  py_lift (check_ascii (slice 1 5 info)) ;;;
  let! flags := py_lift (unpack_u 1 5 info) in
  py_ret (len, slice 1 5 info, flags).

(** The typed accessors. *)
Definition smc_read_int (w : nat) (n : Z) (key : bytes) (fuel : nat) : M asc Z :=
  let! b := smc_read n key (Z.of_nat w) fuel in
  if Nat.eqb (length b) w then py_ret (le_Z b) else py_raise StructError.
Definition smc_read64 := smc_read_int 8.
Definition smc_read32 := smc_read_int 4.
Definition smc_read16 := smc_read_int 2.
Definition smc_read8 := smc_read_int 1.
Definition smc_read32b (n : Z) (key : bytes) (fuel : nat) : M asc Z :=
  let! b := smc_read n key 4 fuel in
  if Nat.eqb (length b) 4 then py_ret (be_Z b) else py_raise StructError.
Definition smc_write_int (w : nat) (n : Z) (key : bytes) (v : Z) (fuel : nat) : M asc unit :=
  let! b := py_lift (pack_u w v) in smc_write n key b fuel.
Definition smc_write64 := smc_write_int 8.
Definition smc_write32 := smc_write_int 4.
Definition smc_write16 := smc_write_int 2.
Definition smc_write8 := smc_write_int 1.
Definition smc_rw32 (n : Z) (key : bytes) (v : Z) (fuel : nat) : M asc Z :=
  let! b := py_lift (pack_I v) in
  let! b := smc_rw n key b 4 fuel in
  if Nat.eqb (length b) 4 then py_ret (le_Z b) else py_raise StructError.

(** ** Single messages *)

Lemma getm_int cls k f v (a : asc) : find_field cls k = Some f -> field_ok f -> f_type f = TInt -> getm cls k v a = (Ok (f_raw f v), a).
Proof. intros Hf Hok Ht. unfold getm, py_lift, reg_getattr. by rewrite Hf, reg_get_raw, Ht. Qed.

Ltac msg_field := first [reflexivity | unfold field_ok; simpl; lia].

(** The endpoint a mailbox word names. *)
Definition ep_of (m1 : Z) : Z := f_raw (FBits 7 0 TInt) m1.
Definition smc_id (m0 : Z) : Z := f_raw (FBits 15 12 TInt) m0.
Definition smc_result (m0 : Z) : Z := f_raw (FBits 7 0 TInt) m0.

Lemma work_dispatch a m0 m1 r : as_out a = Some (m0, m1) :: r ->
  work a = match as_epmap a !! ep_of m1 with
           | Some e => handle_msg (ep_of m1) e m0 (as_set_out r a)
           | None => (Ok false, as_set_out r a)
           end.
Proof.
  intros Ho. unfold work. rewrite (py_bind_ok (py_get as_out) _ a (as_out a) a eq_refl), Ho.
  set (a1 := as_set_out r a). rewrite (py_bind_ok (py_modify (as_set_out r)) _ a tt a1 eq_refl).
  rewrite (py_bind_ok (py_lift (reg_init R_INBOX1 (Some m1) [])) _ a1 m1 a1 eq_refl).
  rewrite (py_bind_ok _ _ _ _ _ (getm_int R_INBOX1 "EP" (FBits 7 0 TInt) m1 a1 ltac:(reflexivity) ltac:(msg_field) ltac:(reflexivity))).
  rewrite (py_bind_ok (py_get as_epmap) _ a1 (as_epmap a) a1 eq_refl). unfold ep_of. by destruct (as_epmap a !! _).
Qed.

Lemma work_empty a r : as_out a = None :: r -> work a = (Ok true, as_set_out r a).
Proof. intros Ho. unfold work, py_bind, py_get. by rewrite Ho. Qed.

(** ** SMC commands *)

(** The SMC endpoint after a reply. *)
Lemma work_smc n a m0 m1 r sh i o ret : as_out a = Some (m0, m1) :: r -> ep_of m1 = n -> as_epmap a !! n = Some (ESmc (Some sh) i o ret) ->
  work a = (Ok true, if smc_result m0 =? 0x18 then as_set_out r a
                     else as_set_epmap (<[n := ESmc (Some sh) i (o ∖ {[smc_id m0]}) (<[smc_id m0 := m0]> ret)]> (as_epmap a)) (as_set_out r a)).
Proof.
  intros Ho He Hn. rewrite (work_dispatch a m0 m1 r Ho), He, Hn. cbn [handle_msg]. unfold smc_handle. set (a1 := as_set_out r a).
  rewrite (py_bind_ok (py_lift (reg_init SMCResult (Some m0) [])) _ a1 m0 a1 eq_refl).
  rewrite (py_bind_ok _ _ _ _ _ (getm_int SMCResult "RESULT" (FBits 7 0 TInt) m0 a1 ltac:(reflexivity) ltac:(msg_field) ltac:(reflexivity))).
  rewrite (py_bind_ok _ _ _ _ _ (getm_int SMCResult "ID" (FBits 15 12 TInt) m0 a1 ltac:(reflexivity) ltac:(msg_field) ltac:(reflexivity))).
  fold (smc_result m0) (smc_id m0). by destruct (smc_result m0 =? 0x18).
Qed.

(** Traffic that does not answer command [mid] of endpoint [n]: nothing, messages
    for endpoints that are not there, notifications and other replies. *)
Definition other_traffic (n mid : Z) (em : gmap Z endpoint) (x : option (Z * Z)) : Prop :=
  match x with
  | None => True
  | Some (m0, m1) => (ep_of m1 <> n /\ em !! ep_of m1 = None) \/ (ep_of m1 = n /\ (smc_result m0 = 0x18 \/ smc_id m0 <> mid))
  end.

(** The wait of a command ends with the first reply that has its number. *)
Lemma smc_wait n mid em m0 m1 rest : forall pre a fuel sh i o ret,
  as_out a = pre ++ Some (m0, m1) :: rest -> as_epmap a = <[n := ESmc (Some sh) i o ret]> em -> mid ∈ o ->
  Forall (other_traffic n mid em) pre -> ep_of m1 = n -> smc_id m0 = mid -> smc_result m0 <> 0x18 -> (length pre + 1 < fuel)%nat ->
  exists a' o' ret', work_while (waiting_for n mid) fuel a = (Ok tt, a') /\ as_out a' = rest /\ as_sent a' = as_sent a /\
    as_epmap a' = <[n := ESmc (Some sh) i o' ret']> em /\ ret' !! mid = Some m0 /\ mid ∉ o'.
Proof.
  assert (Hwait : forall a sh i o ret, as_epmap a = <[n := ESmc (Some sh) i o ret]> em -> waiting_for n mid a = bool_decide (mid ∈ o)).
  { intros a sh i o ret E. unfold waiting_for, smc_state. by rewrite E, lookup_insert_eq. }
  induction pre as [|x pre IH]; intros a fuel sh i o ret Ho He Hm Hpre Hep Hid Hres Hf; (destruct fuel as [|fuel]; [lia|]);
    cbn [work_while]; rewrite (py_bind_ok (py_get (waiting_for n mid)) _ a (waiting_for n mid a) a eq_refl), (Hwait _ _ _ _ _ He), (bool_decide_eq_true_2 _ Hm).
  - rewrite (py_bind_ok _ _ _ _ _ (work_smc n a m0 m1 rest sh i o ret Ho Hep ltac:(by rewrite He, lookup_insert_eq))).
    rewrite (proj2 (Z.eqb_neq _ _)) by done. rewrite Hid. destruct fuel as [|fuel]; [simpl in Hf; lia|]. cbn [work_while].
    set (a1 := as_set_epmap _ _).
    assert (E1 : as_epmap a1 = <[n := ESmc (Some sh) i (o ∖ {[mid]}) (<[mid := m0]> ret)]> em) by (cbn; by rewrite He, insert_insert_eq).
    rewrite (py_bind_ok (py_get (waiting_for n mid)) _ a1 (waiting_for n mid a1) a1 eq_refl), (Hwait _ _ _ _ _ E1).
    rewrite bool_decide_eq_false_2 by set_solver. exists a1, (o ∖ {[mid]}), (<[mid := m0]> ret).
    split_and!; try done; [by rewrite lookup_insert_eq|set_solver].
  - apply Forall_cons in Hpre as [Hx Hpre']. destruct x as [[x0 x1]|]; cbn [app] in Ho.
    + destruct Hx as [[Hne Hnone]|[Hen Hother]].
      * rewrite (py_bind_ok _ _ a false (as_set_out (pre ++ Some (m0, m1) :: rest) a)).
        2: { rewrite (work_dispatch _ _ _ _ Ho), He, lookup_insert_ne, Hnone by done. done. }
        apply (IH (as_set_out _ a) fuel sh i o ret); try done. simpl in Hf. lia.
      * rewrite (py_bind_ok _ _ _ _ _ (work_smc n a x0 x1 _ sh i o ret Ho Hen ltac:(by rewrite He, lookup_insert_eq))).
        destruct (Z.eqb_spec (smc_result x0) 0x18) as [En|En].
        -- apply (IH (as_set_out _ a) fuel sh i o ret); try done. simpl in Hf. lia.
        -- destruct Hother as [?|Hother]; [done|].
           destruct (IH (as_set_epmap (<[n := ESmc (Some sh) i (o ∖ {[smc_id x0]}) (<[smc_id x0 := x0]> ret)]> (as_epmap a)) (as_set_out (pre ++ Some (m0, m1) :: rest) a))
             fuel sh i (o ∖ {[smc_id x0]}) (<[smc_id x0 := x0]> ret)) as (a' & o' & ret' & H); try done; [cbn; by rewrite He, insert_insert_eq|set_solver|simpl in Hf; lia|].
           by exists a', o', ret'.
    + rewrite (py_bind_ok _ _ _ _ _ (work_empty a _ Ho)). apply (IH (as_set_out _ a) fuel sh i o ret); try done. simpl in Hf. lia.
Qed.

Definition smc_commands : list reg_class := [SMCGetKeyInfo; SMCGetKeyByIndex; SMCWriteKey; SMCReadKey; SMCReadWriteKey].

Lemma smc_command_id cls : In cls smc_commands -> find_field cls "ID" = Some (FBits 15 12 TInt).
Proof. intros H. repeat (destruct H as [<-|H]; [reflexivity|]). destruct H. Qed.

(** C31: an SMC command is answered by its own reply.  When the coprocessor, after
    any amount of other traffic (nothing, messages for unknown endpoints,
    notifications, replies to other commands), sends a reply with the number
    [new_msgid] gave the command, [cmd] ends: it returns that reply, or raises
    when the reply reports an error; it has sent exactly the command, tagged with
    that number, and read exactly up to the reply. *)
Theorem smc_cmd_answered n cls kw m a sh i o ret pre m0 m1 rest fuel
    (Hcls : In cls smc_commands) (Hm : reg_init cls None kw = Ok m)
    (Hn : as_epmap a !! n = Some (ESmc (Some sh) i o ret))
    (Hfree : Z.land i 0xF ∉ o)
    (Hout : as_out a = pre ++ Some (m0, m1) :: rest)
    (Hpre : Forall (other_traffic n (Z.land i 0xF) (as_epmap a)) pre)
    (Hep : ep_of m1 = n) (Hid : smc_id m0 = Z.land i 0xF) (Hres : smc_result m0 <> 0x18)
    (Hfuel : (length pre + 1 < fuel)%nat) :
  exists a' msg m1', smc_cmd n cls kw fuel a = (if smc_result m0 =? 0 then Ok m0 else Raise (SMCError m0), a') /\
    as_out a' = rest /\ as_sent a' = (msg, m1') :: as_sent a /\
    reg_setattr cls "ID" (Z.land i 0xF) m = Ok msg /\ reg_getattr cls "ID" msg = Ok (Z.land i 0xF).
Proof.
  set (mid := Z.land i 0xF) in *. pose proof (smc_command_id cls Hcls) as Hf.
  assert (Hok : field_ok (FBits 15 12 TInt)) by (unfold field_ok; simpl; lia).
  destruct (reg_set_bits (FBits 15 12 TInt) mid m Hok) as (msg & Eset & _). destruct (reg_set_raw _ _ _ _ Hok Eset) as [Eget _].
  assert (Hmid : mid mod 2 ^ f_size (FBits 15 12 TInt) = mid).
  { unfold mid. change 0xF with (Z.ones 4). rewrite Z.land_ones by lia. by rewrite Z.mod_mod. }
  rewrite Hmid in Eget. unfold smc_cmd. rewrite Hm, (py_bind_ok (py_lift (Ok m)) _ a m a eq_refl).
  set (a1 := as_set_epmap (<[n := ESmc (Some sh) (i + 1) o ret]> (as_epmap a)) a).
  set (a2 := as_set_epmap (<[n := ESmc (Some sh) (i + 1) ({[mid]} ∪ o) ret]> (as_epmap a1)) a1).
  assert (Enew : new_msgid n a = (Ok mid, a2)).
  { unfold new_msgid, smc_get, smc_state, py_bind at 1 2, py_get. rewrite Hn. unfold py_ret at 1.
    rewrite (py_bind_ok (put_ep n (ESmc (Some sh) (i + 1) o ret)) _ a tt a1 eq_refl). rewrite bool_decide_eq_false_2 by done.
    by rewrite (py_bind_ok (put_ep n (ESmc (Some sh) (i + 1) ({[mid]} ∪ o) ret)) _ a1 tt a2 eq_refl). }
  rewrite (py_bind_ok _ _ _ _ _ Enew).
  assert (Esm : @py_lift asc _ (reg_setattr cls "ID" mid m) a2 = (Ok msg, a2)) by (unfold py_lift, reg_setattr; by rewrite Hf, Eset).
  rewrite (py_bind_ok _ _ _ _ _ Esm).
  destruct (set_kwargs_effect ASCMessage1 [("EP", n)] 0) as (m1' & E1 & _).
  { constructor; [apply (bool_decide_unpack _); vm_compute; exact Logic.I|repeat constructor; simpl; lia|repeat constructor; simpl; lia]. }
  { right. right. by right. }
  { simpl. lia. }
  { repeat constructor. by eexists. }
  set (a3 := as_add_sent (msg, m1') a2).
  assert (Esend : asc_send n msg a2 = (Ok tt, a3)).
  { unfold asc_send, py_bind, py_lift. assert (Ei : reg_init ASCMessage1 None [("EP", n)] = Ok m1') by exact E1. by rewrite Ei. }
  rewrite (py_bind_ok _ _ _ _ _ Esend).
  rewrite (py_bind_ok _ _ _ _ _ (getm_int cls "ID" (FBits 15 12 TInt) msg a3 Hf Hok eq_refl)), Eget.
  destruct (smc_wait n mid (as_epmap a) m0 m1 rest pre a3 fuel sh (i + 1) ({[mid]} ∪ o) ret) as (a4 & o' & ret' & Ew & Ho4 & Hs4 & He4 & Hr4 & _); try done.
  { cbn. by rewrite insert_insert_eq. }
  { set_solver. }
  rewrite (py_bind_ok _ _ _ _ _ Ew).
  assert (Eg : smc_get n a4 = (Ok (Some sh, i + 1, o', ret'), a4)).
  { unfold smc_get, smc_state, py_bind, py_get. by rewrite He4, lookup_insert_eq. }
  rewrite (py_bind_ok _ _ _ _ _ Eg). rewrite Hr4.
  rewrite (py_bind_ok _ _ _ _ _ (getm_int SMCResult "RESULT" (FBits 7 0 TInt) m0 a4 ltac:(reflexivity) ltac:(msg_field) ltac:(reflexivity))).
  fold (smc_result m0). exists a4, msg, m1'. split; [by destruct (smc_result m0 =? 0)|]. split; [done|]. split; [by rewrite Hs4|].
  unfold reg_setattr, reg_getattr. rewrite Hf. split; [done|]. rewrite reg_get_raw by done. by rewrite Eget.
Qed.

(** ** Booting *)

Lemma validate_ok cls v : Forall (fun e => field_ok (snd e) /\ is_ok (ftype_call (f_type (snd e)) (f_raw (snd e) v)) = true) (rc_fields cls) ->
  reg_init cls (Some v) [] = Ok v.
Proof.
  intros H. unfold reg_init. assert (E : reg_validate (rc_fields cls) v = Ok tt); [|by rewrite E].
  induction H as [|[k f] fs [Hok Hv] _ IH]; [done|]. cbn [reg_validate]. simpl in Hok, Hv. rewrite reg_get_raw by done.
  destruct (ftype_call (f_type f) (f_raw f v)); [exact IH|done].
Qed.

Lemma asc_send_ok n m (a : asc) : exists m1, asc_send n m a = (Ok tt, as_add_sent (m, m1) a).
Proof.
  destruct (message_build "ASCMessage1" ASCMessage1 [("EP", n)]) as (m1 & E & _).
  - repeat (first [left; reflexivity | right]).
  - intros H. repeat (destruct H as [H|H]; [discriminate H|]). destruct H.
  - repeat constructor. set_solver.
  - repeat constructor. by eexists.
  - exists m1. unfold asc_send, py_bind, py_lift. by rewrite E.
Qed.

Lemma send_new_ok n name cls kw (a : asc) : In (name, cls) message_tables -> ~ In name message_aliases ->
  NoDup (map fst kw) -> Forall (fun e => is_Some (find_field cls (fst e))) kw ->
  exists m, send_new n cls kw a = (Ok tt, as_add_sent m a).
Proof.
  intros H1 H2 H3 H4. destruct (message_build name cls kw H1 H2 H3 H4) as (m & E & _). destruct (asc_send_ok n m a) as [m1 E1].
  exists (m, m1). unfold send_new, py_bind, py_lift. by rewrite E.
Qed.

(** Sending a message of a known class with known fields. *)
Ltac send_by name n cls kw a :=
  let m := fresh "m" in let E := fresh "E" in
  destruct (send_new_ok n name cls kw a) as [m E];
  [repeat (first [left; reflexivity | right])
  |let H := fresh in intros H; repeat (destruct H as [H|H]; [discriminate H|]); destruct H
  |apply (bool_decide_unpack _); vm_compute; exact Logic.I
  |repeat constructor; by eexists|].
Ltac send_known name := lazymatch goal with
  | |- context [py_bind (send_new ?n ?cls ?kw) _ ?a] => send_by name n cls kw a
  | |- context [send_new ?n ?cls ?kw ?a] => send_by name n cls kw a
  end.

(** What starting endpoints leaves alone. *)
Definition keeps (a a' : asc) : Prop :=
  as_out a' = as_out a /\ as_eps a' = as_eps a /\ as_epmap a' !! 0 = as_epmap a !! 0 /\ as_clock a' = as_clock a /\ as_ticks a' = as_ticks a.

Lemma keeps_trans a b c : keeps a b -> keeps b c -> keeps a c.
Proof. unfold keeps. intuition congruence. Qed.

Lemma keeps_sent m a : keeps a (as_add_sent m a).
Proof. by unfold keeps. Qed.

Lemma keeps_ep n e a : n <> 0 -> keeps a (as_set_epmap (<[n := e]> (as_epmap a)) a).
Proof. intros Hn. unfold keeps. cbn. by rewrite lookup_insert_ne. Qed.

Lemma start_ep_ok ep c a : epcls !! ep = Some c -> ep <> 0 -> exists a', start_ep epcls ep a = (Ok tt, a') /\ keeps a a'.
Proof.
  intros Hc Hep. unfold start_ep. rewrite Hc. set (a1 := as_set_epmap (<[ep := new_endpoint c]> (as_epmap a)) a).
  rewrite (py_bind_ok (put_ep ep (new_endpoint c)) _ a tt a1 eq_refl). unfold mgmt_start_ep.
  pose proof (keeps_ep ep (new_endpoint c) a Hep) as K1. fold a1 in K1.
  send_known "Mgmt_StartEP".
  rewrite (py_bind_ok _ _ _ _ _ E). set (a2 := as_add_sent m a1). pose proof (keeps_trans _ _ _ K1 (keeps_sent m a1)) as K2. fold a2 in K2.
  destruct c; try (exists a2; split; [reflexivity|done]). cbn [ep_start].
  set (a3 := as_set_epmap (<[ep := EKDebug None None]> (as_epmap a2)) a2).
  rewrite (py_bind_ok (put_ep ep (EKDebug None None)) _ a2 tt a3 eq_refl).
  pose proof (keeps_trans _ _ _ K2 (keeps_ep ep (EKDebug None None) a2 Hep)) as K3. fold a3 in K3.
  send_known "KDebugStart".
  rewrite E0. exists (as_add_sent m0 a3).
split; [done|]. apply (keeps_trans _ _ _ K3), keeps_sent.
Qed.

(** The endpoints that boot starts are system endpoints the client knows. *)
Definition known_eps (eps : list Z) : Prop := Forall (fun ep => 0 < ep < 0x10 -> exists c, epcls !! ep = Some c /\ c <> CSmc) eps.

Lemma start_low_ok eps : forall a, Forall (fun ep => 0 <= ep) eps -> known_eps eps -> exists a', start_low epcls eps a = (Ok tt, a') /\ keeps a a'.
Proof.
  induction eps as [|ep eps IH]; intros a Hp Hk; [by exists a|]. inversion Hp as [|? ? Hp0 Hp']; subst. inversion Hk as [|? ? Hk0 Hk']; subst.
  cbn [start_low]. destruct (Z.eqb_spec ep 0) as [->|Hne].
  { rewrite (py_bind_ok (py_ret tt) _ a tt a eq_refl). by apply IH. }
  destruct (Z.ltb_spec ep 0x10) as [Hlt|Hge].
  - destruct (Hk0 ltac:(lia)) as (c & Hc & _). destruct (start_ep_ok ep c a Hc Hne) as (a1 & E & K). rewrite (py_bind_ok _ _ _ _ _ E).
    destruct (IH a1 Hp' Hk') as (a2 & E2 & K2). exists a2. split; [done|]. by apply (keeps_trans _ _ _ K).
  - rewrite (py_bind_ok (py_ret tt) _ a tt a eq_refl). by apply IH.
Qed.

Definition mtype (m0 : Z) : Z := f_raw (FBits 59 52 TInt) m0.
Definition mstate (m0 : Z) : Z := f_raw (FBits 15 0 TInt) m0.
Definition announced (m0 : Z) : list Z := bitmap_eps (f_raw (FBits 34 32 TInt) m0) (f_raw (FBits 31 0 TInt) m0).

(** What a management message does to the endpoint list and the two power states. *)
Definition mgmt_after (st : list Z * (Z * Z)) (x : option (Z * Z)) : list Z * (Z * Z) :=
  match x with
  | None => st
  | Some (m0, _) =>
      let '(eps, (iop, ap)) := st in
      if mtype m0 =? 8 then (eps ++ announced m0, (iop, ap))
      else if mtype m0 =? 0xb then (eps, (iop, mstate m0))
      else if mtype m0 =? 7 then (eps, (mstate m0, ap)) else st
  end.

(** Management traffic while booting: hello, endpoint maps (the last one over
    known endpoints), power acknowledgements, pongs. *)
Definition boot_traffic (eps : list Z) (x : option (Z * Z)) : Prop :=
  match x with
  | None => True
  | Some (m0, m1) => ep_of m1 = 0 /\ In (mtype m0) [1; 4; 7; 8; 0xb] /\
      (mtype m0 = 8 -> f_raw (FBit 51) m0 <> 0 -> known_eps (eps ++ announced m0))
  end.

Lemma bitmap_eps_nonneg base bitmap : 0 <= base -> Forall (fun ep => 0 <= ep) (bitmap_eps base bitmap).
Proof. intros Hb. unfold bitmap_eps. apply Forall_map, List.Forall_forall. intros i _. lia. Qed.

#[local] Opaque bitmap_eps.

Lemma f_raw_nonneg f v : field_ok f -> 0 <= f_raw f v.
Proof. intros [H1 H2]. unfold f_raw. apply Z.mod_pos_bound. unfold f_size. apply Z.pow_pos_nonneg; lia. Qed.

(** A message of type [t] passes the checks of a class whose only constant is
    that type. *)
Lemma typed_init cls m0 t : find_field cls "TYPE" = Some (FBits 59 52 (TConst t)) -> mtype m0 = t ->
  Forall (fun e => field_ok (snd e) /\ (fst e = "TYPE" \/ f_type (snd e) = TInt)) (rc_fields cls) ->
  Forall (fun e => fst e = "TYPE" -> snd e = FBits 59 52 (TConst t)) (rc_fields cls) ->
  reg_init cls (Some m0) [] = Ok m0.
Proof.
  intros Hf Ht H1 H2. apply validate_ok. rewrite List.Forall_forall in *. intros e He. destruct (H1 e He) as [Hok [Hn|Hi]].
  - split; [done|]. rewrite (H2 e He Hn). cbn [f_type ftype_call]. change (f_raw (FBits 59 52 (TConst t)) m0) with (mtype m0).
    by rewrite Ht, Z.eqb_refl.
  - split; [done|]. by rewrite Hi.
Qed.

Ltac typed_cls := eapply typed_init; [reflexivity|done
  |repeat (constructor; [split; [unfold field_ok; simpl; lia|first [by left | by right]]|]); constructor
  |repeat (constructor; [first [by intros | by intros [=]]|]); constructor].

(** One look at the outbox while booting. *)
Lemma work_boot a x r iop ap : as_out a = x :: r -> as_epmap a !! 0 = Some (EMgmt iop ap) -> boot_traffic (as_eps a) x ->
  Forall (fun ep => 0 <= ep) (as_eps a) ->
  exists b a', work a = (Ok b, a') /\ as_out a' = r /\ as_clock a' = as_clock a /\ as_ticks a' = as_ticks a /\
    as_eps a' = fst (mgmt_after (as_eps a, (iop, ap)) x) /\
    as_epmap a' !! 0 = Some (EMgmt (fst (snd (mgmt_after (as_eps a, (iop, ap)) x))) (snd (snd (mgmt_after (as_eps a, (iop, ap)) x)))).
Proof.
  intros Ho He Hx Hpos. destruct x as [[m0 m1]|].
  2: { eexists _, _. split; [by apply work_empty|]. by split_and!. }
  destruct Hx as (Hep & Hty & Hknown). rewrite (work_dispatch _ _ _ _ Ho), Hep, He. set (a1 := as_set_out r a).
  cbn [handle_msg BASE_MESSAGE]. rewrite (py_bind_ok (py_lift (reg_init ManagementMessage (Some m0) [])) _ a1 m0 a1 eq_refl).
  rewrite (py_bind_ok _ _ _ _ _ (getm_int ManagementMessage "TYPE" (FBits 59 52 TInt) m0 a1 ltac:(reflexivity) ltac:(msg_field) ltac:(reflexivity))).
  fold (mtype m0). cbn [mgmt_after].
  assert (Hrun : forall cls (h : Z -> M asc bool), reg_init cls (Some m0) [] = Ok m0 ->
    (let! m := py_lift (reg_init cls (Some m0) []) in h m) a1 = h m0 a1) by (by intros cls h ->).
  destruct Hty as [Ht|[Ht|[Ht|[Ht|[Ht|[]]]]]]; rewrite <- Ht; cbn [handler Z.eqb Pos.eqb].
  - rewrite Hrun by typed_cls. unfold mgmt_hello.
    rewrite (py_bind_ok _ _ _ _ _ (getm_int Mgmt_Hello "MAX_VER" (FBits 31 16 TInt) m0 a1 ltac:(reflexivity) ltac:(msg_field) ltac:(reflexivity))).
    send_known "Mgmt_HelloAck". rewrite (py_bind_ok _ _ _ _ _ E). eexists _, _. split; [reflexivity|]. by split_and!.
  - rewrite Hrun by typed_cls. eexists _, _. split; [reflexivity|]. by split_and!.
  - rewrite Hrun by typed_cls.
    rewrite (py_bind_ok _ _ _ _ _ (getm_int Mgmt_IOPPowerAck "STATE" (FBits 15 0 TInt) m0 a1 ltac:(reflexivity) ltac:(msg_field) ltac:(reflexivity))).
    eexists _, _. split; [reflexivity|]. split_and!; try done. cbn. by rewrite lookup_insert_eq.
  - rewrite Hrun by typed_cls. unfold mgmt_epmap.
    rewrite (py_bind_ok _ _ _ _ _ (getm_int Mgmt_EPMap "BITMAP" (FBits 31 0 TInt) m0 a1 ltac:(reflexivity) ltac:(msg_field) ltac:(reflexivity))).
    rewrite (py_bind_ok _ _ _ _ _ (getm_int Mgmt_EPMap "BASE" (FBits 34 32 TInt) m0 a1 ltac:(reflexivity) ltac:(msg_field) ltac:(reflexivity))).
    rewrite (py_bind_ok _ _ _ _ _ (getm_int Mgmt_EPMap "LAST" (FBit 51) m0 a1 ltac:(reflexivity) ltac:(msg_field) ltac:(reflexivity))).
    change (bitmap_eps (f_raw (FBits 34 32 TInt) m0) (f_raw (FBits 31 0 TInt) m0)) with (announced m0). set (a2 := as_set_eps (as_eps a ++ announced m0) a1).
    rewrite (py_bind_ok (py_modify (fun a => as_set_eps (as_eps a ++ announced m0) a)) _ a1 tt a2 eq_refl).
    send_known "Mgmt_EPMap_Ack". rewrite (py_bind_ok _ _ _ _ _ E). set (a3 := as_add_sent m a2).
    destruct (Z.eqb_spec (f_raw (FBit 51) m0) 0) as [Hl|Hl].
    { eexists _, _. split; [reflexivity|]. by split_and!. }
    destruct (start_low_ok (as_eps a ++ announced m0) a3) as (a4 & E4 & K).
    { apply Forall_app. split; [done|]. apply bitmap_eps_nonneg, f_raw_nonneg. unfold field_ok. simpl. lia. }
    { by apply Hknown. }
    assert (Ein : exists m5, (let! eps := py_get as_eps in start_low epcls eps ;;; boot_done) a3 = (Ok tt, as_add_sent m5 a4)).
    { rewrite (py_bind_ok (py_get as_eps) _ a3 (as_eps a ++ announced m0) a3 eq_refl), (py_bind_ok _ _ _ _ _ E4). unfold boot_done.
      send_known "Mgmt_SetAPPower". by eexists. }
    destruct Ein as [m5 Ein]. rewrite (py_bind_ok _ _ _ _ _ Ein). eexists _, _. split; [reflexivity|].
    destruct K as (K1 & K2 & K3 & K4 & K5). cbn. rewrite K1, K2, K3, K4, K5. by split_and!.
  - rewrite Hrun by typed_cls.
    rewrite (py_bind_ok _ _ _ _ _ (getm_int Mgmt_SetAPPower "STATE" (FBits 15 0 TInt) m0 a1 ltac:(reflexivity) ltac:(msg_field) ltac:(reflexivity))).
    eexists _, _. split; [reflexivity|]. split_and!; try done. cbn. by rewrite lookup_insert_eq.
Qed.

(** Traffic that brings both power states to 0x20, and not before its end. *)
Fixpoint boot_script (st : list Z * (Z * Z)) (xs : list (option (Z * Z))) : Prop :=
  match xs with
  | [] => snd st = (0x20, 0x20)
  | x :: r => snd st <> (0x20, 0x20) /\ boot_traffic (fst st) x /\ boot_script (mgmt_after st x) r
  end.

Lemma booted_spec a iop ap : as_epmap a !! 0 = Some (EMgmt iop ap) -> booted a = bool_decide ((iop, ap) = (0x20, 0x20)).
Proof.
  intros He. unfold booted, mgmt_power. rewrite He. destruct (Z.eqb_spec iop 0x20), (Z.eqb_spec ap 0x20); subst;
    symmetry; try (by apply bool_decide_eq_true_2); apply bool_decide_eq_false_2; congruence.
Qed.

Lemma mgmt_after_nonneg st x : Forall (fun ep => 0 <= ep) (fst st) -> Forall (fun ep => 0 <= ep) (fst (mgmt_after st x)).
Proof.
  intros H. destruct x as [[m0 m1]|], st as [eps [iop ap]]; [|done]. cbn [mgmt_after fst] in *.
  destruct (mtype m0 =? 8); [|by destruct (mtype m0 =? 0xb), (mtype m0 =? 7)].
  apply Forall_app. split; [done|]. apply bitmap_eps_nonneg, f_raw_nonneg. unfold field_ok. simpl. lia.
Qed.

Definition in_time (deadline : option Z) (a : asc) : Prop :=
  match deadline with None => True | Some t => forall j, as_clock a j <= t end.

Lemma wait_loop_ends deadline rest pre : forall a iop ap fuel, as_out a = pre ++ rest -> as_epmap a !! 0 = Some (EMgmt iop ap) ->
  Forall (fun ep => 0 <= ep) (as_eps a) -> boot_script (as_eps a, (iop, ap)) pre -> in_time deadline a -> (length pre < fuel)%nat ->
  exists a', wait_loop deadline fuel a = (Ok tt, a') /\ as_out a' = rest /\ booted a' = true /\
    as_eps a' = fst (fold_left mgmt_after pre (as_eps a, (iop, ap))).
Proof.
  induction pre as [|x pre IH]; intros a iop ap fuel Ho He Hpos Hs Ht Hf; (destruct fuel as [|fuel]; [simpl in Hf; lia|]);
    cbn [wait_loop]; rewrite (py_bind_ok (py_get booted) _ a (booted a) a eq_refl); cbn [boot_script] in Hs.
  - assert (Hb : booted a = true) by (rewrite (booted_spec _ _ _ He); by apply bool_decide_eq_true_2). rewrite Hb. by exists a.
  - destruct Hs as (Hnot & Htr & Hs). rewrite (booted_spec _ _ _ He), bool_decide_eq_false_2 by exact Hnot.
    destruct (work_boot a x (pre ++ rest) iop ap Ho He Htr Hpos) as (b & a1 & E1 & Ho1 & Hc1 & Hk1 & Heps & Hem).
    rewrite (py_bind_ok _ _ _ _ _ E1). pose proof (mgmt_after_nonneg (as_eps a, (iop, ap)) x Hpos) as Hpos1.
    destruct (mgmt_after (as_eps a, (iop, ap)) x) as [eps1 [iop1 ap1]] eqn:Est. cbn [fst snd] in *. rewrite <- Heps in Hs, Hpos1.
    assert (Hlate : exists a2, (match deadline with None => py_ret false
        | Some t => if t =? 0 then py_ret false else let! now := time_time in py_ret (t <? now) end) a1 = (Ok false, a2) /\
      as_out a2 = as_out a1 /\ as_epmap a2 = as_epmap a1 /\ as_eps a2 = as_eps a1 /\ in_time deadline a2).
    { unfold in_time in *. destruct deadline as [t|]; [|by exists a1]. rewrite <- Hc1 in Ht. destruct (t =? 0); [by exists a1|].
      exists (as_tick a1). unfold time_time, py_bind, py_ret. rewrite (proj2 (Z.ltb_ge _ _)) by apply Ht. by split_and!. }
    destruct Hlate as (a2 & E2 & Ho2 & Hem2 & Heps2 & Ht2). rewrite (py_bind_ok _ _ _ _ _ E2).
    destruct (IH a2 iop1 ap1 fuel) as (a' & E' & H1 & H2 & H3); [congruence|congruence|congruence|congruence|done|simpl in Hf; lia|].
    exists a'. split; [done|]. split; [done|]. split; [done|]. rewrite H3. cbn [fold_left]. rewrite Est. congruence.
Qed.

(** C30: booting completes as soon as the coprocessor reports it.  When the outbox
    delivers management traffic (hellos, endpoint maps over known endpoints, power
    acknowledgements, pongs, with idle looks in between) that brings both power
    states to 0x20, and the clock stays within the timeout, [mgmt_wait_boot] returns:
    it has read exactly up to the message that completed the boot, and the
    endpoint list holds exactly the announced endpoints, in order. *)
Theorem boot_completes a pre rest iop ap timeout fuel
    (Hout : as_out a = pre ++ rest) (Hm : as_epmap a !! 0 = Some (EMgmt iop ap))
    (Hpos : Forall (fun ep => 0 <= ep) (as_eps a)) (Hs : boot_script (as_eps a, (iop, ap)) pre)
    (Ht : in_time (option_map (fun t => t + as_clock a (as_ticks a)) timeout) a) (Hf : (length pre < fuel)%nat) :
  exists a', mgmt_wait_boot timeout fuel a = (Ok tt, a') /\ as_out a' = rest /\ booted a' = true /\
    as_eps a' = fst (fold_left mgmt_after pre (as_eps a, (iop, ap))).
Proof.
  unfold mgmt_wait_boot. destruct timeout as [t|]; cbn [option_map] in Ht.
  - set (a1 := as_tick a).
    assert (E : (let! now := time_time in py_ret (Some (t + now))) a = (Ok (Some (t + as_clock a (as_ticks a))), a1)) by reflexivity.
    rewrite (py_bind_ok _ _ _ _ _ E). by apply (wait_loop_ends _ rest pre a1 iop ap).
  - rewrite (py_bind_ok (py_ret None) _ a None a eq_refl). by apply (wait_loop_ends _ rest pre a iop ap).
Qed.
End endpoints.

(** ** A coprocessor session *)

Definition no_dump : bytes -> M asc unit := fun _ => py_ret tt.
Definition session (out : list (option (Z * Z))) (em : gmap Z endpoint) : asc :=
  {| as_out := out; as_sent := []; as_eps := []; as_epmap := em; as_dart := None; as_io := ([], demo_dart); as_dva_offset := 0;
     as_clock := fun j => Z.of_nat (Nat.min j 2); as_ticks := 0 |}.

(** Hello, endpoints 0 to 4 and 0x20 in two maps, and the two power states. *)
Definition boot_messages : list (option (Z * Z)) :=
  [None; Some (Z.shiftl 1 52 + Z.shiftl 12 16 + 11, 0); Some (Z.shiftl 8 52 + 0x1f, 0); None;
   Some (Z.shiftl 8 52 + Z.shiftl 1 51 + Z.shiftl 1 32 + 1, 0); Some (Z.shiftl 7 52 + 0x20, 0); Some (Z.shiftl 11 52 + 0x20, 0)].

Lemma boot_completes_witness :
  exists a', mgmt_wait_boot elements ENDPOINTS no_dump (Some 3) 10 (session (boot_messages ++ [None]) {[0 := EMgmt 0 0]}) = (Ok tt, a') /\
    as_out a' = [None] /\ booted a' = true /\ as_eps a' = [0; 1; 2; 3; 4; 0x20].
Proof.
  destruct (boot_completes elements ENDPOINTS no_dump (session (boot_messages ++ [None]) {[0 := EMgmt 0 0]}) boot_messages [None] 0 0 (Some 3) 10)
    as (a' & E & H1 & H2 & H3).
  - reflexivity.
  - reflexivity.
  - constructor.
  - assert (Hk : forall l, bool_decide (Forall (fun ep => ep = 0 \/ 0x10 <= ep \/ ENDPOINTS !! ep ∈ [Some CCrash; Some CSyslog; Some CKDebug; Some CIOReporting; Some COSLog]) l) = true -> known_eps ENDPOINTS l).
    { intros l Hl. apply bool_decide_eq_true_1 in Hl. eapply Forall_impl; [exact Hl|]. intros ep [->|[H|H]] ?; [lia|lia|].
      rewrite !elem_of_cons in H. destruct H as [H|[H|[H|[H|[H|H]]]]]; [eexists; split; [exact H|congruence]..|by apply elem_of_nil in H]. }
    unfold boot_messages. cbn [boot_script boot_traffic]. repeat match goal with |- _ /\ _ => split end;
      try (vm_compute; congruence); try (intros H8 H51; apply Hk; vm_compute; reflexivity); try exact Logic.I.
    all: vm_compute; auto 6.
  - intros j. unfold session. cbn [as_clock as_ticks]. lia.
  - simpl. lia.
  - exists a'. split; [exact E|]. split; [exact H1|]. split; [exact H2|]. rewrite H3. vm_compute. reflexivity.
Defined.

(** A read of a key: a notification and a reply to another command come first. *)
Definition smc_session : asc :=
  session [None; Some (0x18, 0x20); Some (Z.shiftl 7 32 + Z.shiftl 4 12, 0x20); Some (Z.shiftl 0x2a 32 + Z.shiftl 4 16 + Z.shiftl 1 12, 0x20)]
    {[0x20 := ESmc (Some 0x8000) 1 ∅ ∅]}.

Lemma smc_cmd_answered_witness :
  exists a' msg m1', smc_cmd elements SMC_ENDPOINTS no_dump 0x20 SMCReadKey [("KEY", 0x23545354); ("SIZE", 4)] 10 smc_session =
      (Ok (Z.shiftl 0x2a 32 + Z.shiftl 4 16 + Z.shiftl 1 12), a') /\
    as_out a' = [] /\ as_sent a' = [(msg, m1')] /\ reg_getattr SMCReadKey "ID" msg = Ok 1.
Proof.
  destruct (smc_cmd_answered elements SMC_ENDPOINTS no_dump 0x20 SMCReadKey [("KEY", 0x23545354); ("SIZE", 4)] 0x2354535400040010 smc_session 0x8000 1 ∅ ∅
    [None; Some (0x18, 0x20); Some (Z.shiftl 7 32 + Z.shiftl 4 12, 0x20)] (Z.shiftl 0x2a 32 + Z.shiftl 4 16 + Z.shiftl 1 12) 0x20 [] 10)
    as (a' & msg & m1' & E & H1 & H2 & H3 & H4).
  - do 3 right. by left.
  - vm_compute. reflexivity.
  - reflexivity.
  - set_solver.
  - reflexivity.
  - constructor; [exact Logic.I|]. constructor; [right; split; [reflexivity|left; reflexivity]|].
    constructor; [right; split; [reflexivity|right; vm_compute; congruence]|constructor].
  - reflexivity.
  - reflexivity.
  - vm_compute. congruence.
  - simpl. lia.
  - exists a', msg, m1'. split; [exact E|]. split; [exact H1|]. split; [exact H2|exact H4].
Defined.

(** A message for the trace endpoint, whose dummy class has no message type,
    raises instead of being reported as unknown. *)
Lemma dummy_endpoint_raises order epcls dump a m0 m1 r : as_out a = Some (m0, m1) :: r -> ep_of m1 = 0xa -> as_epmap a !! 0xa = Some EDummy ->
  work order epcls dump a = (Raise (AttributeError "no such attribute"), as_set_out r a).
Proof. intros Ho He Hd. rewrite (work_dispatch order epcls dump a m0 m1 r Ho), He, Hd. reflexivity. Qed.
