(* ===== verification/Transport.v ===== *)
(** * tools/q1n1proxy.py [Transport], tools/udplink.py [UdpTransport]

    The byte streams under [Link].  [Transport] is the surface both classes
    present; [TransportLaws] is what [Link] relies on, proved for both.

    The outside world of a transport is the finite list of what its system calls
    will return before the deadline of the call in progress: when the list of
    input events is used up, the deadline has passed.  Output plans hold what the
    next send calls return, one element per call, also between the chunks of one
    write; after them every call is accepted. *)

From S2P Require Import Prelude Bytes.
From Stdlib Require Import ZArith Lia.
From Stdlib Require Import Strings.Byte.
From stdpp Require Import base list numbers strings.

Local Open Scope Z_scope.

Class Transport (T : Type) := {
  tr_read : nat -> M T bytes;
  tr_write : bytes -> M T unit;
  tr_max_write : T -> Z
}.

(** The stream contract: [tr_pending] is what reads will deliver in time, in
    order; [tr_sent] what was put on the wire; [tr_good] that the link is up. *)
Class TransportLaws (T : Type) `{!Transport T} := {
  tr_pending : T -> bytes;
  tr_sent : T -> bytes;
  tr_good : T -> Prop;
  tr_read_ok n t : tr_good t -> (n <= length (tr_pending t))%nat ->
    exists t', tr_read n t = (Ok (take n (tr_pending t)), t') /\ tr_pending t' = drop n (tr_pending t) /\
      tr_sent t' = tr_sent t /\ tr_good t';
  tr_read_short n t : tr_good t -> (length (tr_pending t) < n)%nat ->
    exists e t', tr_read n t = (Raise e, t') /\ tr_sent t' = tr_sent t /\ (e = ProxyTimeout \/ e = TimeoutError);
  tr_write_ok d t : tr_good t ->
    exists t', tr_write d t = (Ok tt, t') /\ tr_sent t' = tr_sent t ++ d /\ tr_pending t' = tr_pending t /\ tr_good t'
}.

(** ** The tty (or UNIX socket) *)

(** A poll of the descriptor: nothing to read, or a block of bytes. *)
Inductive rin := RIdle | RBlock (b : bytes).
(** A poll for writing: not writable or [BlockingIOError]; [k] bytes accepted;
    the deadline passes; the peer closed. *)
Inductive wout := WBusy | WAccept (k : nat) | WTimeout | WClosed.

Record tty := Tty { ty_in : list rin; ty_plan : list wout; ty_out : list bytes }.

(** The [while len(out) < count] loop over the events left. *)
Fixpoint tty_read_loop (ev : list rin) (count : nat) (out : bytes) : result bytes * list rin :=
  if Nat.ltb (length out) count then
    match ev with
    | [] => (Raise ProxyTimeout, [])
    | RIdle :: r => tty_read_loop r count out
    | RBlock b :: r =>
        let want := (count - length out)%nat in
        if Nat.leb (length b) want then tty_read_loop r count (out ++ b)
        else (Ok (out ++ take want b), RBlock (drop want b) :: r)
    end
  else (Ok out, ev).

Definition tty_read (count : nat) : M tty bytes := fun t =>
  let '(r, ev) := tty_read_loop (ty_in t) count [] in
  (r, {| ty_in := ev; ty_plan := ty_plan t; ty_out := ty_out t |}).

(** The [while view] loop: one element of the plan per poll. *)
Fixpoint tty_write_loop (plan : list wout) (view : bytes) (out : list bytes) : result unit * (list wout * list bytes) :=
  match view with
  | [] => (Ok tt, (plan, out))
  | _ =>
      match plan with
      | [] => (Ok tt, ([], out ++ [view]))
      | WBusy :: p => tty_write_loop p view out
      | WAccept O :: p => (Raise (ProxyError "serial transport closed during write"), (p, out))
      | WAccept k :: p => tty_write_loop p (drop k view) (out ++ [take k view])
      | WTimeout :: p => (Raise ProxyTimeout, (p, out))
      | WClosed :: p => (Raise (ProxyError "serial transport closed during write"), (p, out))
      end
  end.

Definition tty_write (data : bytes) : M tty unit := fun t =>
  let '(r, (plan, out)) := tty_write_loop (ty_plan t) data (ty_out t) in
  (r, {| ty_in := ty_in t; ty_plan := plan; ty_out := out |}).

#[export] Instance tty_transport : Transport tty := {|
  tr_read := tty_read; tr_write := tty_write; tr_max_write := fun _ => 0
|}.

(** ** UDP over IPv6 *)

(** [link_local]: the interface identifier of the EUI-64 of a MAC. *)
Definition link_local (mac : bytes) : result bytes :=
  match mac with
  | m0 :: _ =>
      let eui := byte_of_Z (Z.lxor (byte_to_Z m0) 2) :: slice 1 3 mac ++ [Byte.xff; Byte.xfe] ++ slice 3 6 mac in
      let addr := [Byte.xfe; Byte.x80] ++ replicate 6 Byte.x00 ++ eui in
      if Nat.eqb (length addr) 16 then Ok addr else Raise (ValueError "invalid length of packed IP address string")
  | [] => Raise IndexError
  end.

(** A sender: packed address, port, scope. *)
Record peer := Peer { pe_addr : bytes; pe_port : Z; pe_scope : Z }.

(** [recvfrom]: would block (or failed), or a datagram. *)
Inductive uin := UEmpty | UData (d : bytes) (from : peer).
(** One call of [sendto]: the datagram is taken; ENOBUFS or EAGAIN before the
    deadline; any other error, or these after it. *)
Inductive uout := USent | UBusy | UFail (errno : Z).

Record udp := Udp {
  ud_addr : bytes; ud_port : Z; ud_scope : Z;
  ud_buffer : bytes;
  ud_frames_in : Z; ud_frames_out : Z;
  ud_in : list uin; ud_plan : list uout; ud_out : list bytes
}.

Definition udp_open (addr : bytes) (port scope : Z) (ev : list uin) (plan : list uout) : udp :=
  {| ud_addr := addr; ud_port := port; ud_scope := scope; ud_buffer := []; ud_frames_in := 0; ud_frames_out := 0;
     ud_in := ev; ud_plan := plan; ud_out := [] |}.

Definition UDP_MAX_WRITE := Z.shiftl 4 10.
Definition UDP_CHUNK : nat := 1400.

(** "Accept only this exact link-local peer and proxy port". *)
Definition from_target (t : udp) (p : peer) : bool :=
  (pe_port p =? ud_port t) && ((pe_scope p =? 0) || (pe_scope p =? ud_scope t)) && bytes_eqb (pe_addr p) (ud_addr t).

Definition harvest_limit (want : nat) : Z := Z.max (Z.shiftl 8 20) (Z.of_nat want + Z.shiftl 1 20).

(** The [_harvest] loop: events left, buffer, frames accepted. *)
Fixpoint harvest_loop (ok : peer -> bool) (limit : Z) (ev : list uin) (buf : bytes) (got : Z)
    : result unit * (list uin * bytes * Z) :=
  match ev with
  | [] => (Ok tt, ([], buf, got))
  | UEmpty :: r => (Ok tt, (r, buf, got))
  | UData [] _ :: r => (Ok tt, (r, buf, got))
  | UData d p :: r =>
      if negb (ok p) then harvest_loop ok limit r buf got
      else if limit <? zlen buf + zlen d then (Raise (UdpError "proxy receive buffer exceeded"), (r, buf, got))
      else harvest_loop ok limit r (buf ++ d) (got + 1)
  end.

Definition udp_harvest (want : nat) : M udp Z := fun t =>
  let '(r, (ev, buf, got)) := harvest_loop (from_target t) (harvest_limit want) (ud_in t) (ud_buffer t) 0 in
  (match r with Ok _ => Ok got | Raise e => Raise e end,
   {| ud_addr := ud_addr t; ud_port := ud_port t; ud_scope := ud_scope t; ud_buffer := buf;
      ud_frames_in := ud_frames_in t + got; ud_frames_out := ud_frames_out t;
      ud_in := ev; ud_plan := ud_plan t; ud_out := ud_out t |}).

Definition udp_set_buffer (b : bytes) (t : udp) : udp :=
  {| ud_addr := ud_addr t; ud_port := ud_port t; ud_scope := ud_scope t; ud_buffer := b;
     ud_frames_in := ud_frames_in t; ud_frames_out := ud_frames_out t;
     ud_in := ud_in t; ud_plan := ud_plan t; ud_out := ud_out t |}.

(** The wait loop of [read]; each pass uses at least one event. *)
Fixpoint udp_fill (fuel : nat) (count : nat) : M udp unit := fun t =>
  if Nat.ltb (length (ud_buffer t)) count then
    match ud_in t, fuel with
    | [], _ => (Raise TimeoutError, t)
    | _, O => (Raise OutOfFuel, t)
    | _, S k => (let! _ := udp_harvest count in udp_fill k count) t
    end
  else (Ok tt, t).

Definition udp_read (count : nat) : M udp bytes := fun t =>
  (udp_fill (length (ud_in t)) count ;;;
   let! b := py_get ud_buffer in
   py_modify (udp_set_buffer (drop count b)) ;;;
   py_ret (take count b)) t.

(** The send loop: chunks of 1400 bytes, each retried while the queue is full. *)
Fixpoint udp_write_loop (fuel : nat) (plan : list uout) (view : bytes) (out : list bytes)
    : result unit * (list uout * list bytes) :=
  match view with
  | [] => (Ok tt, (plan, out))
  | _ =>
      match fuel with
      | O => (Raise OutOfFuel, (plan, out))
      | S k =>
          match plan with
          | UBusy :: p => udp_write_loop k p view out
          | UFail e :: p => (Raise (OSError e), (p, out))
          | USent :: p => udp_write_loop k p (drop UDP_CHUNK view) (out ++ [take UDP_CHUNK view])
          | [] => udp_write_loop k [] (drop UDP_CHUNK view) (out ++ [take UDP_CHUNK view])
          end
      end
  end.

Definition udp_write (data : bytes) : M udp unit := fun t =>
  let '(r, (plan, out)) := udp_write_loop (length (ud_plan t) + length data) (ud_plan t) data (ud_out t) in
  (r, {| ud_addr := ud_addr t; ud_port := ud_port t; ud_scope := ud_scope t; ud_buffer := ud_buffer t;
         ud_frames_in := ud_frames_in t;
         ud_frames_out := ud_frames_out t + (zlen out - zlen (ud_out t));
         ud_in := ud_in t; ud_plan := plan; ud_out := out |}).

#[export] Instance udp_transport : Transport udp := {|
  tr_read := udp_read; tr_write := udp_write; tr_max_write := fun _ => UDP_MAX_WRITE
|}.

(** ** Both transports keep the contract *)

Definition rin_bytes (ev : list rin) : bytes := concat (map (fun e => match e with RIdle => [] | RBlock b => b end) ev).

Lemma tty_read_loop_ok ev count out :
  (length out <= count)%nat -> (count - length out <= length (rin_bytes ev))%nat ->
  exists ev', tty_read_loop ev count out = (Ok (out ++ take (count - length out) (rin_bytes ev)), ev') /\
    rin_bytes ev' = drop (count - length out) (rin_bytes ev).
Proof.
  revert out. induction ev as [|e ev IH]; intros out Ho Hc; cbn [tty_read_loop].
  { simpl in Hc. destruct (Nat.ltb_spec (length out) count); [lia|]. exists [].
    replace (count - length out)%nat with 0%nat by lia. by rewrite app_nil_r. }
  destruct (Nat.ltb_spec (length out) count) as [Hlt|Hge].
  2:{ exists (e :: ev). replace (count - length out)%nat with 0%nat by lia. by rewrite take_0, app_nil_r. }
  destruct e as [|b]; [by apply IH|].
  change (rin_bytes (RBlock b :: ev)) with (b ++ rin_bytes ev) in *. rewrite length_app in Hc.
  destruct (Nat.leb_spec (length b) (count - length out)) as [Hb|Hb].
  - destruct (IH (out ++ b)) as (ev' & -> & Hd); [rewrite length_app; lia|rewrite length_app; lia|].
    exists ev'. rewrite length_app in Hd |- *. rewrite take_app_ge, drop_app_ge by lia.
    rewrite Nat.sub_add_distr in Hd |- *. by rewrite app_assoc.
  - eexists. split; [by rewrite take_app_le by lia|]. cbn. by rewrite drop_app_le by lia.
Qed.

Lemma tty_read_loop_short ev count out :
  (length out + length (rin_bytes ev) < count)%nat -> tty_read_loop ev count out = (Raise ProxyTimeout, []).
Proof.
  revert out. induction ev as [|e ev IH]; intros out Hc; cbn [tty_read_loop];
    (destruct (Nat.ltb_spec (length out) count) as [Hlt|Hge]; [|lia]); [done|].
  destruct e as [|b]; [by apply IH|].
  change (rin_bytes (RBlock b :: ev)) with (b ++ rin_bytes ev) in *. rewrite length_app in Hc.
  destruct (Nat.leb_spec (length b) (count - length out)); [|lia]. apply IH. rewrite length_app. lia.
Qed.

Definition wout_ok (w : wout) : bool := match w with WBusy | WAccept (S _) => true | _ => false end.

Lemma tty_write_loop_ok plan view out :
  forallb wout_ok plan = true ->
  exists plan' out', tty_write_loop plan view out = (Ok tt, (plan', out')) /\
    concat out' = concat out ++ view /\ forallb wout_ok plan' = true.
Proof.
  revert view out. induction plan as [|w plan IH]; intros view out Hp.
  - destruct view as [|x view]; cbn [tty_write_loop].
    + exists [], out. by rewrite app_nil_r.
    + exists [], (out ++ [x :: view]). by rewrite concat_app, concat_cons, concat_nil, app_nil_r.
  - destruct view as [|x view]; [exists (w :: plan), out; by rewrite app_nil_r|].
    simpl in Hp. apply andb_true_iff in Hp as [Hw Hp]. cbn [tty_write_loop].
    destruct w as [|[|k]| |]; try discriminate Hw; [by apply IH|].
    destruct (IH (drop (S k) (x :: view)) (out ++ [take (S k) (x :: view)]) Hp) as (p' & o' & -> & Hc & Hp').
    exists p', o'. rewrite Hc, concat_app, concat_cons, concat_nil, app_nil_r, <- app_assoc, take_drop. done.
Qed.

#[export] Program Instance tty_laws : TransportLaws tty := {|
  tr_pending := fun t => rin_bytes (ty_in t);
  tr_sent := fun t => concat (ty_out t);
  tr_good := fun t => forallb wout_ok (ty_plan t) = true
|}.
Next Obligation.
  intros n t Hg Hn. cbn. unfold tty_read.
  destruct (tty_read_loop_ok (ty_in t) n []) as (ev & -> & Hd); [simpl; lia|simpl; lia|].
  simpl in Hd. rewrite Nat.sub_0_r in Hd. cbn [app length]. rewrite Nat.sub_0_r. by eexists.
Qed.
Next Obligation.
  intros n t Hg Hn. cbn. unfold tty_read. rewrite tty_read_loop_short by (simpl; lia).
  do 2 eexists. split; [done|]. auto.
Qed.
Next Obligation.
  intros d t Hg. cbn. unfold tty_write.
  destruct (tty_write_loop_ok (ty_plan t) d (ty_out t) Hg) as (p & o & -> & Hc & Hp). by eexists.
Qed.

(** *** UDP *)

Definition uin_bytes (ok : peer -> bool) (ev : list uin) : bytes :=
  concat (map (fun e => match e with UData d p => if ok p then d else [] | UEmpty => [] end) ev).

Lemma harvest_loop_ok ok limit ev buf got :
  zlen buf + zlen (uin_bytes ok ev) <= limit ->
  exists ev' buf' got', harvest_loop ok limit ev buf got = (Ok tt, (ev', buf', got')) /\
    buf' ++ uin_bytes ok ev' = buf ++ uin_bytes ok ev /\ (length ev' <= pred (length ev))%nat.
Proof.
  revert buf got. induction ev as [|e ev IH]; intros buf got Hl; cbn [harvest_loop]; [by eexists _, _, _|].
  destruct e as [|d p]; [exists ev, buf, got; auto|].
  change (uin_bytes ok (UData d p :: ev)) with ((if ok p then d else []) ++ uin_bytes ok ev) in *.
  rewrite zlen_app in Hl. pose proof (zlen_nonneg (uin_bytes ok ev)).
  destruct d as [|x d]; [exists ev, buf, got; by destruct (ok p); auto|].
  destruct (ok p) eqn:Ep; cbn [negb].
  - destruct (Z.ltb_spec limit (zlen buf + zlen (x :: d))) as [|Hle]; [lia|].
    destruct (IH (buf ++ x :: d) (got + 1)) as (ev' & b' & g' & -> & Hb & Hlen); [rewrite zlen_app; lia|].
    exists ev', b', g'. rewrite Hb, <- app_assoc. split_and!; [done|done|simpl; lia].
  - destruct (IH buf got) as (ev' & b' & g' & -> & Hb & Hlen); [change (zlen (@nil byte)) with 0 in Hl; lia|].
    exists ev', b', g'. split_and!; [done|done|simpl; lia].
Qed.

Definition udp_pending (t : udp) : bytes := ud_buffer t ++ uin_bytes (from_target t) (ud_in t).

(** What a call leaves alone. *)
Definition udp_same (t t' : udp) : Prop :=
  ud_addr t' = ud_addr t /\ ud_port t' = ud_port t /\ ud_scope t' = ud_scope t /\
  ud_plan t' = ud_plan t /\ ud_out t' = ud_out t.

Lemma from_target_same t t' : udp_same t t' -> from_target t' = from_target t.
Proof. intros (Ha & Hp & Hs & _). unfold from_target. by rewrite Ha, Hp, Hs. Qed.

Lemma udp_harvest_ok want t :
  zlen (udp_pending t) <= Z.shiftl 8 20 ->
  exists got t', udp_harvest want t = (Ok got, t') /\ udp_same t t' /\ udp_pending t' = udp_pending t /\
    (length (ud_in t') <= pred (length (ud_in t)))%nat.
Proof.
  intros Hl. unfold udp_harvest.
  destruct (harvest_loop_ok (from_target t) (harvest_limit want) (ud_in t) (ud_buffer t) 0) as (ev & b & g & -> & Hb & Hlen).
  { rewrite <- zlen_app. unfold udp_pending in Hl. unfold harvest_limit. lia. }
  eexists _, _. split; [done|]. split; [done|]. split; [|done]. unfold udp_pending. cbn [ud_buffer ud_in]. done.
Qed.

Lemma udp_fill_ok fuel count t :
  zlen (udp_pending t) <= Z.shiftl 8 20 -> (length (ud_in t) <= fuel)%nat ->
  exists r t', udp_fill fuel count t = (r, t') /\ udp_same t t' /\ udp_pending t' = udp_pending t /\
    (if (count <=? length (udp_pending t))%nat then r = Ok tt /\ (count <= length (ud_buffer t'))%nat
     else r = Raise TimeoutError).
Proof.
  revert t. induction fuel as [|k IH]; intros t Hl Hf; cbn [udp_fill];
    (destruct (Nat.ltb_spec (length (ud_buffer t)) count) as [Hlt|Hge];
     [|exists (Ok tt), t; split_and!; try done; unfold udp_pending; rewrite length_app;
       (destruct (Nat.leb_spec count (length (ud_buffer t) + length (uin_bytes (from_target t) (ud_in t)))); [done|lia])]);
    destruct (ud_in t) as [|e ev] eqn:Ei; try (simpl in Hf; lia).
  1,2: exists (Raise TimeoutError), t; split_and!; try done; unfold udp_pending; rewrite length_app, Ei; simpl;
       destruct (Nat.leb_spec count (length (ud_buffer t) + 0)); [lia|done].
  destruct (udp_harvest_ok count t Hl) as (g & t1 & E1 & Hs1 & Hp1 & Hlen1).
  unfold py_bind. rewrite E1. rewrite Ei in Hlen1. simpl in Hlen1, Hf.
  destruct (IH t1) as (r & t2 & E2 & Hs2 & Hp2 & Hr2); [by rewrite Hp1|lia|].
  exists r, t2. rewrite Hp1 in Hp2, Hr2. split_and!; try done; unfold udp_same in *; intuition congruence.
Qed.

Definition uout_ok (o : uout) : bool := match o with USent | UBusy => true | UFail _ => false end.

(** The datagrams of a write: none is empty, none longer than a chunk. *)
Definition datagram_ok (d : bytes) : Prop := (0 < length d <= UDP_CHUNK)%nat.

Lemma take_chunk x (v : bytes) : datagram_ok (take UDP_CHUNK (x :: v)).
Proof. unfold datagram_ok. rewrite length_take. unfold UDP_CHUNK. cbn [length]. lia. Qed.

Lemma udp_write_loop_ok fuel : forall plan view out,
  forallb uout_ok plan = true -> (length plan + length view <= fuel)%nat ->
  exists plan' ds, udp_write_loop fuel plan view out = (Ok tt, (plan', out ++ ds)) /\
    concat ds = view /\ Forall datagram_ok ds /\ forallb uout_ok plan' = true.
Proof.
  induction fuel as [|k IH]; intros plan view out Hp Hf.
  { destruct view; [|simpl in Hf; lia]. exists plan, []. by rewrite app_nil_r. }
  destruct view as [|x view]; [exists plan, []; by rewrite app_nil_r|].
  assert (Hsend : forall p, forallb uout_ok p = true -> (length p <= length plan)%nat ->
    exists plan' ds, udp_write_loop k p (drop UDP_CHUNK (x :: view)) (out ++ [take UDP_CHUNK (x :: view)]) = (Ok tt, (plan', out ++ ds)) /\
      concat ds = x :: view /\ Forall datagram_ok ds /\ forallb uout_ok plan' = true).
  { intros p Hpp Hlp. destruct (IH p (drop UDP_CHUNK (x :: view)) (out ++ [take UDP_CHUNK (x :: view)]) Hpp) as (p' & ds & -> & Hc & Hd & Hp').
    - rewrite length_drop. unfold UDP_CHUNK. cbn [length] in *. lia.
    - exists p', (take UDP_CHUNK (x :: view) :: ds). rewrite <- app_assoc, concat_cons, Hc, take_drop. split_and!; try done. constructor; [apply take_chunk|done]. }
  cbn [udp_write_loop]. destruct plan as [|[| |e] plan].
  - by apply Hsend.
  - apply Hsend; [done|simpl; lia].
  - apply IH; [done|simpl in *; lia].
  - discriminate Hp.
Qed.

#[export] Program Instance udp_laws : TransportLaws udp := {|
  tr_pending := udp_pending;
  tr_sent := fun t => concat (ud_out t);
  tr_good := fun t => forallb uout_ok (ud_plan t) = true /\ zlen (udp_pending t) <= Z.shiftl 8 20
|}.
Next Obligation.
  intros n t [Hg Hl] Hn. cbn. unfold udp_read.
  destruct (udp_fill_ok (length (ud_in t)) n t Hl ltac:(lia)) as (r & t1 & E & Hs & Hp & Hr).
  rewrite (proj2 (Nat.leb_le _ _) Hn) in Hr. destruct Hr as [-> Hb]. unfold py_bind. rewrite E.
  eexists. split.
  - unfold py_get, py_modify, py_ret. do 2 f_equal. rewrite <- Hp. unfold udp_pending.
    by rewrite take_app_le by lia.
  - assert (Hq : udp_pending (udp_set_buffer (drop n (ud_buffer t1)) t1) = drop n (udp_pending t)).
    { rewrite <- Hp. unfold udp_pending. by rewrite drop_app_le by lia. }
    split; [exact Hq|]. destruct Hs as (_ & _ & _ & Hpl & Ho). split; [simpl; by rewrite Ho|].
    split; [simpl; by rewrite Hpl|]. rewrite Hq. unfold zlen in *. rewrite length_drop. lia.
Qed.
Next Obligation.
  intros n t [Hg Hl] Hn. cbn. unfold udp_read.
  destruct (udp_fill_ok (length (ud_in t)) n t Hl ltac:(lia)) as (r & t1 & E & Hs & Hp & Hr).
  rewrite (proj2 (Nat.leb_gt _ _) Hn) in Hr. subst r. unfold py_bind. rewrite E.
  do 2 eexists. split; [done|]. destruct Hs as (_ & _ & _ & _ & Ho). rewrite Ho. auto.
Qed.
Next Obligation.
  intros d t [Hg Hl]. cbn. unfold udp_write.
  destruct (udp_write_loop_ok (length (ud_plan t) + length d) (ud_plan t) d (ud_out t) Hg ltac:(lia)) as (p & ds & -> & Hc & _ & Hp).
  eexists. split_and!; [done|cbn; by rewrite concat_app, Hc|done|done|done].
Qed.

(** C34: the UDP transport is a faithful byte stream: with at most 8 MiB pending, a
    read returns exactly the next bytes of the payloads received from the
    target's own address, port and scope, in order and across datagram borders
    (datagrams of any other sender are dropped), or raises [TimeoutError] when
    they do not come; a write whose send calls fail only because the
    interface queue is full, before whichever datagrams, puts exactly its bytes on
    the wire, in nonempty datagrams of at most 1400 bytes, which it counts. *)
Theorem udp_stream_faithful (t : udp) (n : nat) (d : bytes)
    (Hplan : forallb uout_ok (ud_plan t) = true) (Hl : zlen (udp_pending t) <= Z.shiftl 8 20) :
  (if (n <=? length (udp_pending t))%nat
   then exists t', udp_read n t = (Ok (take n (udp_pending t)), t') /\ udp_pending t' = drop n (udp_pending t)
   else exists t', udp_read n t = (Raise TimeoutError, t')) /\
  (exists t' ds, udp_write d t = (Ok tt, t') /\ ud_out t' = ud_out t ++ ds /\ concat ds = d /\ Forall datagram_ok ds /\
     ud_frames_out t' = ud_frames_out t + zlen ds /\ udp_pending t' = udp_pending t).
Proof.
  split.
  - destruct (Nat.leb_spec n (length (udp_pending t))) as [Hn|Hn].
    + destruct (@tr_read_ok udp _ udp_laws n t (conj Hplan Hl) Hn) as (t' & E & Hp & _). by exists t'.
    + unfold udp_read. destruct (udp_fill_ok (length (ud_in t)) n t Hl ltac:(lia)) as (r & t1 & E & _ & _ & Hr).
      rewrite (proj2 (Nat.leb_gt _ _) Hn) in Hr. subst r. exists t1. unfold py_bind. by rewrite E.
  - unfold udp_write. destruct (udp_write_loop_ok (length (ud_plan t) + length d) (ud_plan t) d (ud_out t) Hplan ltac:(lia)) as (p & ds & -> & Hc & Hd & Hp).
    eexists _, ds. split; [done|]. cbn. rewrite zlen_app. split_and!; [done|done|done|lia|done].
Qed.

Lemma udp_stream_faithful_witness :
  let me := Peer [Byte.xfe] 4919 7 in
  let t := udp_open [Byte.xfe] 4919 7
    [UEmpty; UData [Byte.x01; Byte.x02] me; UData [Byte.x99] (Peer [Byte.xff] 4919 7); UData [Byte.x03] me] [UBusy; USent; UBusy] in
  (exists t', udp_read 3 t = (Ok [Byte.x01; Byte.x02; Byte.x03], t') /\ udp_pending t' = []) /\
  (exists t' ds, udp_write (replicate 2000 Byte.x41) t = (Ok tt, t') /\ ud_out t' = ud_out t ++ ds /\ concat ds = replicate 2000 Byte.x41 /\ Forall datagram_ok ds /\
     ud_frames_out t' = ud_frames_out t + zlen ds /\ udp_pending t' = [Byte.x01; Byte.x02; Byte.x03]).
Proof.
  intros me t. apply (udp_stream_faithful t 3 (replicate 2000 Byte.x41)).
  - reflexivity.
  - vm_compute. discriminate.
Defined.
