(* ===== verification/Ethlink.v ===== *)
(** * tools/ethlink.py: the proxy stream in raw Ethernet frames

    [EthTransport]: a third transport for [Link], over a BPF device.  The outside
    world is the list of what the next reads of the device return (a block of
    captured frames, or nothing); a used-up list is a passed deadline.

    Reading back captured frames is exact ([harvest_exact]).  Writing is not: a
    chunk shorter than an Ethernet frame's minimum is padded with zeros that the
    other side takes for data ([short_write_pads]), so this transport does not have
    the stream laws the other two have. *)

From Stdlib Require Import ZArith Lia.
From Stdlib Require Import Strings.Byte.
From stdpp Require Import base list numbers strings.
From S2P Require Import Prelude Bytes Transport.

Local Open Scope list_scope.
Local Open Scope Z_scope.
Local Open Scope py_scope.

Definition ETHERTYPE : Z := 0x88B5.

Record eth := Eth {
  et_ethertype : Z; et_source : bytes; et_peer : option bytes;
  et_buffer : bytes; et_frames_in : Z; et_frames_out : Z;
  et_in : list bytes;                (* what the next reads of the device return; empty: nothing yet *)
  et_out : list bytes
}.

(** A big-endian 16-bit field. *)
Definition be16 (z : Z) : bytes := rev (le_bytes 2 z).
Definition frame_type (frame : bytes) : Z := le_Z (rev (slice 12 14 frame)).

(** The frames of one block: peer, payloads, number of frames. *)
Definition take_frame (ethertype : Z) (frame : bytes) (st : option bytes * bytes * Z) : option bytes * bytes * Z :=
  let '(peer, buf, got) := st in
  if (length frame <? 14)%nat then st
  else if negb (frame_type frame =? ethertype) then st
  else (match peer with Some p => Some p | None => Some (slice 6 12 frame) end, buf ++ drop 14 frame, got + 1).

Fixpoint bpf_loop (fuel : nat) (ethertype : Z) (block : bytes) (offset : nat) (st : option bytes * bytes * Z) : option bytes * bytes * Z :=
  match fuel with
  | O => st
  | S k =>
      if (offset + 18 <=? length block)%nat then
        let caplen := Z.to_nat (le_Z (slice (offset + 8) (offset + 12) block)) in
        let hdrlen := Z.to_nat (le_Z (slice (offset + 16) (offset + 18) block)) in
        if (hdrlen <? 18)%nat || (length block <? offset + hdrlen + caplen)%nat then st
        else
          let frame := slice (offset + hdrlen) (offset + hdrlen + caplen) block in
          let step := Z.to_nat (Z.land (Z.of_nat (hdrlen + caplen) + 3) (Z.lnot 3)) in
          bpf_loop k ethertype block (offset + step) (take_frame ethertype frame st)
      else st
  end.

Definition eth_set (peer : option bytes) (buf : bytes) (got : Z) (ev : list bytes) (t : eth) : eth :=
  {| et_ethertype := et_ethertype t; et_source := et_source t; et_peer := peer; et_buffer := buf;
     et_frames_in := et_frames_in t + got; et_frames_out := et_frames_out t; et_in := ev; et_out := et_out t |}.

(** [_harvest]: one read of the device. *)
Definition eth_harvest : M eth Z := fun t =>
  match et_in t with
  | [] => (Ok 0, t)
  | block :: ev =>
      let '(peer, buf, got) := bpf_loop (length block) (et_ethertype t) block 0 (et_peer t, et_buffer t, 0) in
      (Ok got, eth_set peer buf got ev t)
  end.

(** [read]: each pass uses one read of the device. *)
Fixpoint eth_fill (fuel : nat) (count : nat) : M eth unit := fun t =>
  if Nat.ltb (length (et_buffer t)) count then
    match et_in t, fuel with
    | [], _ => (Raise TimeoutError, t)
    | _, O => (Raise OutOfFuel, t)
    | _, S k => (let! _ := eth_harvest in eth_fill k count) t
    end
  else (Ok tt, t).
Definition eth_read (count : nat) : M eth bytes := fun t =>
  (eth_fill (length (et_in t)) count ;;;
   let! b := py_get et_buffer in
   py_modify (fun t => eth_set (et_peer t) (drop count b) 0 (et_in t) t) ;;;
   py_ret (take count b)) t.

(** [write]: chunks of 1400 bytes, padded to 60-byte frames. *)
Definition eth_frame (peer source : bytes) (ethertype : Z) (chunk : bytes) : bytes :=
  let frame := peer ++ source ++ be16 ethertype ++ chunk in
  if (length frame <? 60)%nat then frame ++ replicate (60 - length frame) x00 else frame.
Fixpoint eth_frames (fuel : nat) (peer source : bytes) (ethertype : Z) (view : bytes) : list bytes :=
  match fuel, view with
  | _, [] => []
  | O, _ => []
  | S k, _ => eth_frame peer source ethertype (take 1400 view) :: eth_frames k peer source ethertype (drop 1400 view)
  end.
Definition eth_write (data : bytes) : M eth unit := fun t =>
  match et_peer t with
  | None => (Raise (EthError "no peer address yet: nothing has been received"), t)
  | Some peer =>
      let fs := eth_frames (length data) peer (et_source t) (et_ethertype t) data in
      (Ok tt, {| et_ethertype := et_ethertype t; et_source := et_source t; et_peer := et_peer t; et_buffer := et_buffer t;
                 et_frames_in := et_frames_in t; et_frames_out := et_frames_out t + zlen fs; et_in := et_in t; et_out := et_out t ++ fs |})
  end.

(** [discover]: reads until a frame tells the peer's address. *)
Fixpoint eth_discover (fuel : nat) : M eth (option bytes) := fun t =>
  match et_peer t, et_in t, fuel with
  | Some p, _, _ => (Ok (Some p), t)
  | None, [], _ => (Ok None, t)
  | None, _, O => (Raise OutOfFuel, t)
  | None, _, S k => (let! _ := eth_harvest in eth_discover k) t
  end.

#[export] Instance eth_transport : Transport eth := {| tr_read := eth_read; tr_write := eth_write; tr_max_write := fun _ => 0 |}.

(** ** Captured frames *)

(** One capture record: an 18-byte header whose last field is its length, the
    frame, and padding to four bytes. *)
Definition pad4 (n : nat) : nat := Z.to_nat (Z.land (Z.of_nat n + 3) (Z.lnot 3)).
Definition bpf_record (stamp : bytes) (frame : bytes) : bytes :=
  stamp ++ le_bytes 4 (zlen frame) ++ le_bytes 4 (zlen frame) ++ le_bytes 2 18 ++ frame ++ replicate (pad4 (18 + length frame) - (18 + length frame)) x00.
Definition capture (stamp : bytes) (frames : list bytes) : bytes := concat (map (bpf_record stamp) frames).

Lemma pad4_spec n : (n <= pad4 n < n + 4)%nat.
Proof.
  unfold pad4. rewrite <- Z.ldiff_land.
  replace (Z.ldiff (Z.of_nat n + 3) 3) with ((Z.of_nat n + 3) / 4 * 4)
    by (change 3 with (Z.ones 2) at 3; by rewrite Z.ldiff_ones_r, Z.shiftl_mul_pow2, Z.shiftr_div_pow2 by lia).
  pose proof (Z.div_mod (Z.of_nat n + 3) 4 ltac:(lia)). pose proof (Z.mod_pos_bound (Z.of_nat n + 3) 4 ltac:(lia)). lia.
Qed.

Lemma length_bpf_record stamp f : length stamp = 8%nat -> length (bpf_record stamp f) = pad4 (18 + length f).
Proof. intros Hs. pose proof (pad4_spec (18 + length f)). unfold bpf_record. rewrite !length_app, !length_le_bytes, length_replicate. lia. Qed.

(** The loop takes the frames of a capture one by one. *)
Lemma bpf_loop_exact ethertype stamp : length stamp = 8%nat -> forall frames fuel pre st,
  Forall (fun f => zlen f < 2 ^ 32) frames -> (length frames < fuel)%nat ->
  bpf_loop fuel ethertype (pre ++ capture stamp frames) (length pre) st = fold_left (fun st f => take_frame ethertype f st) frames st.
Proof.
  intros Hs. induction frames as [|f frames IH]; intros fuel pre st Hok Hf; (destruct fuel as [|k]; [lia|]); cbn [bpf_loop fold_left].
  - rewrite (proj2 (Nat.leb_gt _ _)); [done|]. unfold capture. cbn. rewrite app_nil_r. lia.
  - inversion Hok as [|? ? Hlf Hok']; subst. set (block := pre ++ capture stamp (f :: frames)).
    set (rest := capture stamp frames). set (p := replicate (pad4 (18 + length f) - (18 + length f)) x00).
    assert (Hb : block = (pre ++ stamp) ++ le_bytes 4 (zlen f) ++ (le_bytes 4 (zlen f) ++ le_bytes 2 18 ++ f ++ p ++ rest)).
    { unfold block, capture, bpf_record. cbn [map concat]. fold (capture stamp frames) rest p. by rewrite <- !app_assoc. }
    assert (Hlen : (length pre + 18 + length f + length p + length rest = length block)%nat).
    { rewrite Hb, !length_app, !length_le_bytes. lia. }
    rewrite (proj2 (Nat.leb_le _ _)) by lia.
    assert (E1 : slice (length pre + 8) (length pre + 12) block = le_bytes 4 (zlen f)).
    { rewrite Hb. apply slice_mid; rewrite ?length_app, ?length_le_bytes; lia. }
    assert (E2 : slice (length pre + 16) (length pre + 18) block = le_bytes 2 18).
    { replace block with ((pre ++ stamp ++ le_bytes 4 (zlen f) ++ le_bytes 4 (zlen f)) ++ le_bytes 2 18 ++ (f ++ p ++ rest)) by (rewrite Hb, <- !app_assoc; done).
      apply slice_mid; rewrite ?length_app, ?length_le_bytes; lia. }
    rewrite E1, E2, !le_Z_small by (unfold zlen in *; simpl; lia). change (Z.to_nat 18) with 18%nat.
    replace (Z.to_nat (zlen f)) with (length f) by (unfold zlen; lia). change (18 <? 18)%nat with false. cbn [orb]. rewrite (proj2 (Nat.ltb_ge (length block) _)) by lia.
    assert (E3 : slice (length pre + 18) (length pre + 18 + length f) block = f).
    { replace block with ((pre ++ stamp ++ le_bytes 4 (zlen f) ++ le_bytes 4 (zlen f) ++ le_bytes 2 18) ++ f ++ (p ++ rest)) by (rewrite Hb, <- !app_assoc; done).
      apply slice_app_mid. rewrite !length_app, !length_le_bytes. lia. }
    rewrite E3. fold (pad4 (18 + length f)). replace (length pre + pad4 (18 + length f))%nat with (length (pre ++ bpf_record stamp f)) by (rewrite length_app, length_bpf_record; lia).
    unfold block, capture. cbn [map concat]. rewrite app_assoc. apply (IH k (pre ++ bpf_record stamp f)); [done|cbn in Hf; lia].
Qed.

(** The payloads of the frames with our type, in order. *)
Definition ours (ethertype : Z) (f : bytes) : bool := (14 <=? length f)%nat && (frame_type f =? ethertype).
Definition payloads (ethertype : Z) (frames : list bytes) : bytes := concat (map (drop 14) (List.filter (ours ethertype) frames)).

Lemma take_frames ethertype frames : forall peer buf got,
  let '(peer', buf', got') := fold_left (fun st f => take_frame ethertype f st) frames (peer, buf, got) in
  buf' = buf ++ payloads ethertype frames /\ got' = got + zlen (List.filter (ours ethertype) frames).
Proof.
  induction frames as [|f frames IH]; intros peer buf got; cbn [fold_left]; [by rewrite app_nil_r, Z.add_0_r|].
  unfold payloads, take_frame, ours in *. cbn [List.filter]. rewrite Nat.leb_antisym.
  destruct (length f <? 14)%nat; cbn [negb andb]; [apply IH|]. destruct (frame_type f =? ethertype); cbn [negb]; [|apply IH].
  specialize (IH (match peer with Some p => Some p | None => Some (slice 6 12 f) end) (buf ++ drop 14 f) (got + 1)).
  destruct (fold_left _ _ _) as [[p b] g]. destruct IH as [-> ->]. cbn [map concat]. rewrite app_assoc. split; [done|]. unfold zlen. cbn [length]. lia.
Qed.

(** Reading a capture appends exactly the payloads of the frames with the proxy's
    type, in order, and nothing of any other frame. *)
Theorem harvest_exact (t : eth) (stamp : bytes) (frames : list bytes) (ev : list bytes) :
  length stamp = 8%nat -> Forall (fun f => zlen f < 2 ^ 32) frames -> et_in t = capture stamp frames :: ev ->
  exists got t', eth_harvest t = (Ok got, t') /\ got = zlen (List.filter (ours (et_ethertype t)) frames) /\
    et_buffer t' = et_buffer t ++ payloads (et_ethertype t) frames /\ et_in t' = ev.
Proof.
  intros Hs Hok Hin. unfold eth_harvest. rewrite Hin.
  assert (Hlen : (18 * length frames <= length (capture stamp frames))%nat).
  { clear Hin. induction frames as [|f frames IH]; [cbn; lia|]. inversion Hok; subst. unfold capture in *. cbn [map concat length]. rewrite length_app, length_bpf_record by done.
    pose proof (pad4_spec (18 + length f)). specialize (IH ltac:(done)). lia. }
  destruct frames as [|f frames].
  - cbn. exists 0. eexists. split; [reflexivity|]. cbn. by rewrite app_nil_r.
  - pose proof (bpf_loop_exact (et_ethertype t) stamp Hs (f :: frames) (length (capture stamp (f :: frames))) [] (et_peer t, et_buffer t, 0) Hok ltac:(cbn [length] in *; lia)) as E.
    cbn [app length] in E. rewrite E. pose proof (take_frames (et_ethertype t) (f :: frames) (et_peer t) (et_buffer t) 0) as H.
    destruct (fold_left _ _ _) as [[p b] g]. destruct H as [-> ->]. exists (0 + zlen (List.filter (ours (et_ethertype t)) (f :: frames))). eexists. done.
Qed.

(** ** Frames written *)

(** A write that fills whole frames puts its bytes on the wire and nothing else. *)
Lemma long_write_exact (peer source : bytes) ethertype data fuel : length peer = 6%nat -> length source = 6%nat -> 0 <= ethertype < 65536 ->
  (length data <= fuel)%nat -> (46 <= length data mod 1400 \/ length data mod 1400 = 0)%nat ->
  payloads ethertype (eth_frames fuel peer source ethertype data) = data.
Proof.
  intros Hp Hs He. revert data. induction fuel as [|k IH]; intros data Hf Hm; [destruct data; [done|cbn in Hf; lia]|].
  destruct data as [|b data]; [done|]. cbn [eth_frames]. set (d := b :: data) in *. set (ch := take 1400 d).
  assert (Hlc : (46 <= length ch)%nat).
  { unfold ch. rewrite length_take. destruct (decide (1400 <= length d)%nat); [lia|]. rewrite Nat.mod_small in Hm by lia. cbn [length d] in *. lia. }
  assert (Hfr : eth_frame peer source ethertype ch = (peer ++ source ++ be16 ethertype) ++ ch).
  { unfold eth_frame. rewrite <- !app_assoc. rewrite (proj2 (Nat.ltb_ge _ _)); [done|]. rewrite !length_app, Hp, Hs. unfold be16. rewrite length_rev, length_le_bytes. lia. }
  assert (H14 : length (peer ++ source ++ be16 ethertype) = 14%nat) by (rewrite !length_app, Hp, Hs; unfold be16; by rewrite length_rev, length_le_bytes).
  assert (Ho : ours ethertype (eth_frame peer source ethertype ch) = true).
  { rewrite Hfr. unfold ours. rewrite length_app, H14. cbn [Nat.leb Nat.add andb]. unfold frame_type.
    assert (slice 12 14 ((peer ++ source ++ be16 ethertype) ++ ch) = be16 ethertype) as ->.
    { replace ((peer ++ source ++ be16 ethertype) ++ ch) with ((peer ++ source) ++ be16 ethertype ++ ch) by (by rewrite <- !app_assoc).
      apply slice_mid; [by rewrite length_app, Hp, Hs|]. unfold be16. by rewrite length_rev, length_le_bytes. }
    unfold be16. rewrite rev_involutive, le_Z_small by done. apply Z.eqb_refl. }
  unfold payloads in *. cbn [List.filter]. rewrite Ho. cbn [map concat]. rewrite Hfr at 1. rewrite <- H14 at 1. rewrite drop_app_length.
  rewrite IH; [by apply take_drop|rewrite length_drop; cbn [length d] in *; lia|].
  rewrite length_drop. destruct (decide (1400 <= length d)%nat).
  - replace (length d) with (length d - 1400 + 1 * 1400)%nat in Hm by lia. by rewrite Nat.Div0.mod_add in Hm.
  - right. replace (length d - 1400)%nat with 0%nat by lia. done.
Qed.

(** A short write is padded, and the receiver's own [_harvest] delivers the padding. *)
Lemma short_write_pads :
  payloads ETHERTYPE (eth_frames 4 (replicate 6 x01) (replicate 6 x02) ETHERTYPE [x0a; x0b; x0c; x0d]) = [x0a; x0b; x0c; x0d] ++ replicate 42 x00.
Proof. reflexivity. Qed.
