(* ===== verification/Q1n1Link.v ===== *)
(** * tools/q1n1proxy.py: [Link] and [Proxy]

    q1n1's own host side of the proxy protocol, over any [Transport].  A call
    deadline is the number of reply bytes it allows ([budget]).  The exception
    callback of the target re-enters the client: [handler] is what
    [Link.exception_handler] does, and [Proxy] ties the knot by nesting depth. *)

From S2P Require Import Prelude Bytes Uart Transport.
From Stdlib Require Import ZArith Lia.
From Stdlib Require Import Strings.Byte Strings.String.
From stdpp Require Import base list numbers strings gmap.

Local Open Scope Z_scope.

(** ** Constants and record layouts *)
Definition MAGIC := 0x4F464E49314E3151.
Definition FEATURE_DISABLE_DATA_CSUMS := 1.
Definition STAGE_MAGIC := 0x3147545331314E51.
Definition STAGE_FEATURES_MAGIC := 0x3153544145463151.
Definition STAGE_NCM_BACKPRESSURE := 1.
Definition BACKPRESSURE_WRITE := Z.shiftl 1 20.
Definition STAGE_USB_CONTRACT := 0x3154525055533151.
Definition SERROR_MAGIC := 0x3130525245533151.
Definition SERROR_STRICT := 1.
Definition START_EXCEPTION_REASON := 1.
Definition EXC_RET_HANDLED := 2.
Definition LIVE_BATTERY_VERSION := 2.
Definition LIVE_BATTERY_MAGIC := 0x54544142314E3151.
Definition LIVE_BATTERY_PARTITIONS : nat := 24.
Definition LIVE_BATTERY_TEXT : nat := 160.
Definition STAGE_LOGO (logo : string) : option Z :=
  (if String.eqb logo "centre" then Some 0 else if String.eqb logo "corner" then Some 1
   else if String.eqb logo "none" then Some 2 else if String.eqb logo "asahi" then Some 3 else None)%string.

Definition BOOTINFO_FIELDS : list string := (
  ["magic"; "version"; "size"; "image_base"; "image_size"; "entry_el"; "current_el"; "mode"; "system_table";
   "runtime_services"; "config_tables"; "config_count"; "acpi_rsdp"; "smbios3"; "fb_base"; "fb_size";
   "fb_width"; "fb_height"; "fb_stride"; "fb_format"; "memory_map"; "memory_map_size"; "memory_map_stride";
   "memory_map_version"; "heap_base"; "heap_size"; "dma_base"; "dma_size"; "usb_dwc3"; "usb_qscratch";
   "usb_snapshot"; "usb_stats"; "proxy_stats"; "exception"; "boot_current"; "return_armed"; "arm_status";
   "entry_status"; "timer_hz"; "gic_distributor"; "gic_redistributor"; "gic_stats"; "stage_base";
   "stage_size"; "stage_generation"; "xhci_base"; "xhci_stats"; "ncm_stats"; "ncm_proxy_stats"; "usb_ports";
   "usb_port_count"; "preload_table"; "preload_size"; "preload_status"; "preload_verify";
   "preload_diagnostics"; "battery_call"; "battery_result"; "battery_session"; "gpu_call"; "gpu_state";
   "gpu_arena_base"; "gpu_arena_size"; "gpu_arena_flags"; "gpt_survey"; "gpt_survey_size"; "call_service";
   "call_service_state"])%string.

Definition LIVE_BATTERY_FIELDS : list string := (
  ["magic"; "version"; "size"; "calls"; "successes"; "status"; "phase"; "flags"; "elapsed_us"; "plausible";
   "state"; "rate"; "remaining"; "voltage"; "unit"; "design"; "full"; "cycles"; "ac"; "percent";
   "ucsi_version"; "target_pointer"; "target_status"; "target_base"; "target_size"; "smem_base"; "smem_size";
   "smem_status"; "smem_version"; "smem_items"; "ptable_entries"; "remote_host"; "partition_status";
   "partition_offset"; "partition_size"; "partition_cacheline"; "desc_offset"; "tx_offset"; "tx_length";
   "tx_cached"; "rx_offset"; "rx_length"; "rx_cached"; "desc0"; "desc1"; "desc2"; "desc3"; "sample_status";
   "smp2p_offset"; "smp2p_status"; "smp2p_value"; "smem_attr"; "ipcc_attr"; "ipcc_version";
   "doorbell_address"; "doorbell_value"; "glink_state"; "glink_error"; "glink_command"; "glink_mode"; "lcid";
   "rcid"; "features"; "version_acked"; "remote_version"; "open_sent"; "open_acked"; "remote_opened";
   "remote_intents"; "restarts"; "adoptions"; "tx_frames"; "rx_frames"; "doorbells"; "messages"; "dropped";
   "foreign_opens"; "protocol_errors"; "pmic_requests"; "pmic_replies"; "pmic_stale"; "pmic_unsolicited";
   "pmic_foreign"; "pmic_bad"; "reply_owner"; "reply_type"; "reply_opcode"; "reply_length"; "reply_error";
   "desc_attr"; "tx_attr"; "rx_attr"; "release_status"; "releases"; "cleanup_sent"; "cleanup_done";
   "ssr_opened"; "service_polls"; "service_frames"; "version_zero_acks"; "remote_closes"; "adopt_refused";
   "desc_end0"; "desc_end1"; "desc_end2"; "desc_end3"; "partitions"])%string.

Definition SERROR_FIELDS : list string := (
  ["magic"; "mechanism"; "flags"; "checks"; "before"; "during"; "refused"; "unconsumed"; "last_syndrome";
   "last_when"; "last_opcode"; "last_address"])%string.

Definition EXCEPTION_FIELDS : list string := (
  ["x0"; "x1"; "x2"; "x3"; "x4"; "x5"; "x6"; "x7"; "x8"; "x9"; "x10"; "x11"; "x12"; "x13"; "x14"; "x15";
   "x16"; "x17"; "x18"; "x19"; "x20"; "x21"; "x22"; "x23"; "x24"; "x25"; "x26"; "x27"; "x28"; "x29"; "x30";
   "sp"; "spsr"; "elr"; "esr"; "far"; "el"; "vector"])%string.

Definition signed64 (value : Z) : Z :=
  let value := Z.land value 0xFFFFFFFFFFFFFFFF in
  if Z.shiftr value 63 =? 0 then value else value - Z.shiftl 1 64.

(** A parsed record: field names in order with their values. *)
Definition record_of (names : list string) (vals : list Z) : list (string * Z) := zip names vals.
Definition rget (r : list (string * Z)) (name : string) : Z :=
  match List.find (fun e => String.eqb (fst e) name) r with Some e => snd e | None => 0 end.

Section Link.
Context {T : Type} `{!Transport T} {X : Type}.

(** Whether numpy is installed: picks the checksum path. *)
Variable have_numpy : bool.

(** The [Link] object; [lk_client] is the state of the client that owns it. *)
Record link := Link {
  lk_tr : T;
  lk_features : Z;
  lk_boot_seen : Z;
  lk_retries : Z;
  lk_tty : bytes;
  lk_client : X
}.
Abbreviation L := link.

Definition link_init (t : T) (x : X) : link :=
  {| lk_tr := t; lk_features := 0; lk_boot_seen := 0; lk_retries := 0; lk_tty := []; lk_client := x |}.

Definition lk_set_tr (t : T) (l : L) : L :=
  {| lk_tr := t; lk_features := lk_features l; lk_boot_seen := lk_boot_seen l; lk_retries := lk_retries l;
     lk_tty := lk_tty l; lk_client := lk_client l |}.
Definition lk_set_features (f : Z) (l : L) : L :=
  {| lk_tr := lk_tr l; lk_features := f; lk_boot_seen := lk_boot_seen l; lk_retries := lk_retries l;
     lk_tty := lk_tty l; lk_client := lk_client l |}.
Definition lk_add_boot (l : L) : L :=
  {| lk_tr := lk_tr l; lk_features := lk_features l; lk_boot_seen := lk_boot_seen l + 1; lk_retries := lk_retries l;
     lk_tty := lk_tty l; lk_client := lk_client l |}.
Definition lk_add_retry (l : L) : L :=
  {| lk_tr := lk_tr l; lk_features := lk_features l; lk_boot_seen := lk_boot_seen l; lk_retries := lk_retries l + 1;
     lk_tty := lk_tty l; lk_client := lk_client l |}.
Definition lk_add_tty (d : bytes) (l : L) : L :=
  {| lk_tr := lk_tr l; lk_features := lk_features l; lk_boot_seen := lk_boot_seen l; lk_retries := lk_retries l;
     lk_tty := lk_tty l ++ d; lk_client := lk_client l |}.
Definition lk_set_client (x : X) (l : L) : L :=
  {| lk_tr := lk_tr l; lk_features := lk_features l; lk_boot_seen := lk_boot_seen l; lk_retries := lk_retries l;
     lk_tty := lk_tty l; lk_client := x |}.

Definition on_tr {A} (m : M T A) : M L A := fun l =>
  let '(r, t) := m (lk_tr l) in (r, lk_set_tr t l).
Definition lread (n : nat) : M L bytes := on_tr (tr_read n).
Definition lwrite (d : bytes) : M L unit := on_tr (tr_write d).

Definition lsum (d : bytes) : Z := checksum have_numpy d 0xDEADBEEF.

Definition link_cmd (command : Z) (payload : bytes) : M L unit :=
  if Nat.ltb CMD_LEN (length payload) then py_raise (ValueError "payload too long") else
  let! c := py_lift (pack_I command) in
  let message := c ++ ljust CMD_LEN payload in
  let! s := py_lift (pack_I (lsum message)) in
  lwrite (message ++ s).

Definition link_unknown (d : bytes) : M L unit := py_modify (lk_add_tty d).

(** What the exception callback of the client does. *)
Variable handler : Z -> Z -> M L unit.

Definition link_handle_boot (data : bytes) : M L unit :=
  let d := take 16 data in
  let! reason := py_lift (unpack_u 4 0 d) in
  let! code := py_lift (unpack_u 4 4 d) in
  let! info := py_lift (unpack_u 8 8 d) in
  py_modify lk_add_boot ;;;
  if reason =? START_EXCEPTION_REASON then handler code info else py_ret tt.

(** [window = (window + byte)[-4:]]. *)
Definition last4 (w : bytes) : bytes := drop (length w - 4) w.

Definition is_mark (w : bytes) : bool := negb (Nat.ltb (length w) 4) && bytes_eqb (take 3 w) SYNC.

(** The judgement of a whole frame; [None] continues the loop. *)
Definition link_frame (command : Z) (window : bytes) : M L (option bytes) :=
  let kind := le_Z window in
  if kind =? REQ_EVENT then
    let! header := lread (EVENT_HDR_LEN - 4) in
    let! len := py_lift (unpack_u 2 0 header) in
    let! _ := lread (Z.to_nat len + 4) in
    py_ret None
  else
    let! body := lread (REPLY_LEN - 4) in
    let! status := py_lift (unpack_u 4 0 body) in
    let status := to_signed 4 status in
    let data := slice 4 28 body in
    let! check := py_lift (unpack_u 4 28 body) in
    if negb (check =? lsum (window ++ take (length body - 4) body)) then py_raise (ProxyError "reply checksum error")
    else if (kind =? REQ_BOOT) && (status =? ST_OK) && negb (kind =? command) then
      link_handle_boot data ;;; py_ret None
    else if negb (kind =? command) then py_raise (ProxyError "reply for another command")
    else if negb (status =? ST_OK) then py_raise (ProxyRemoteError status)
    else py_ret (Some data).

Fixpoint link_reply_loop (budget : nat) (command : Z) (window : bytes) : M L bytes :=
  match budget with
  | O => py_raise ProxyTimeout
  | S k =>
      let! byte := lread 1 in
      let window := last4 (window ++ byte) in
      if negb (is_mark window) then
        (if Nat.eqb (length window) 4 then link_unknown (take 1 window) else py_ret tt) ;;;
        link_reply_loop k command window
      else
        let! r := link_frame command window in
        match r with
        | Some data => py_ret data
        | None => link_reply_loop k command []
        end
  end.

Variable budget : nat.
Definition link_reply (command : Z) : M L bytes := link_reply_loop budget command [].

Definition link_nop (features : Z) : M L Z :=
  let! p := py_lift (pack_Q features) in
  link_cmd REQ_NOP p ;;;
  let! r := link_reply REQ_NOP in
  let! f := py_lift (unpack_u 8 0 (take 8 r)) in
  py_modify (lk_set_features f) ;;;
  py_ret f.

Definition csums_off (f : Z) : bool := negb (Z.land f FEATURE_DISABLE_DATA_CSUMS =? 0).

Definition link_data_checksum (d : bytes) : M L Z := fun l =>
  (Ok (if csums_off (lk_features l) then CHECKSUM_SENTINEL else lsum d), l).

Definition link_proxyreq (request : bytes) (no_reply : bool) : M L (option bytes) :=
  link_cmd REQ_PROXY request ;;;
  if no_reply then py_ret None
  else let! d := link_reply REQ_PROXY in py_ret (Some d).

(** The [for attempt in range(attempts)] loop. *)
Fixpoint link_readmem_loop (attempts : nat) (address size : Z) : M L bytes :=
  match attempts with
  | O => py_raise (ProxyError "read data checksum error")
  | S k =>
      let! a := py_lift (pack_Q address) in
      let! s := py_lift (pack_Q size) in
      link_cmd REQ_MEMREAD (a ++ s) ;;;
      let! r := link_reply REQ_MEMREAD in
      let! expected := py_lift (unpack_u 4 0 (take 4 r)) in
      let! data := lread (Z.to_nat size) in
      let! f := py_get lk_features in
      (if csums_off f then
         let! b := lread 4 in
         let! sentinel := py_lift (unpack_u 4 0 b) in
         if negb (sentinel =? DATA_END_SENTINEL) then py_raise (ProxyError "read data sentinel error") else py_ret tt
       else py_ret tt) ;;;
      let! sum := link_data_checksum data in
      if expected =? sum then py_ret data
      else py_modify lk_add_retry ;;; link_readmem_loop k address size
  end.

Definition link_readmem (attempts : nat) (address size : Z) : M L bytes :=
  if size =? 0 then py_ret [] else link_readmem_loop attempts address size.

(** [for offset in range(0, len(data), 8192)]. *)
Fixpoint link_write_chunks (fuel : nat) (data : bytes) : M L unit :=
  match fuel, data with
  | _, [] => py_ret tt
  | O, _ => py_raise OutOfFuel
  | S k, _ => lwrite (take WRITE_CHUNK data) ;;; link_write_chunks k (drop WRITE_CHUNK data)
  end.

Definition link_writemem (address : Z) (data : bytes) : M L unit :=
  let! sum := link_data_checksum data in
  let! a := py_lift (pack_Q address) in
  let! s := py_lift (pack_Q (zlen data)) in
  let! c := py_lift (pack_I sum) in
  link_cmd REQ_MEMWRITE (a ++ s ++ c) ;;;
  link_write_chunks (length data) data ;;;
  let! f := py_get lk_features in
  (if csums_off f then let! e := py_lift (pack_I DATA_END_SENTINEL) in lwrite e else py_ret tt) ;;;
  let! _ := link_reply REQ_MEMWRITE in
  py_ret tt.

End Link.
Arguments link : clear implicits.

(** ** [Proxy] *)

Definition P_NOP := 0x000.
Definition P_EXIT := 0x001.
Definition P_CALL := 0x002.
Definition P_GET_BOOTARGS := 0x003.
Definition P_GET_BASE := 0x004.
Definition P_UDELAY := 0x006.
Definition P_SET_EXC_GUARD := 0x007.
Definition P_GET_EXC_COUNT := 0x008.
Definition P_VECTOR := 0x00B.
Definition P_REBOOT := 0x010.
Definition P_WRITE64 := 0x100.
Definition P_WRITE32 := 0x101.
Definition P_WRITE16 := 0x102.
Definition P_WRITE8 := 0x103.
Definition P_READ64 := 0x104.
Definition P_READ32 := 0x105.
Definition P_READ16 := 0x106.
Definition P_READ8 := 0x107.
Definition P_SET32 := 0x109.
Definition P_CLEAR32 := 0x10D.
Definition P_MASK32 := 0x111.
Definition P_WRITEREAD32 := 0x115.
Definition P_MEMCPY8 := 0x203.
Definition P_MEMSET32 := 0x205.
Definition P_MEMSET8 := 0x207.
Definition P_IC_IVAU := 0x302.
Definition P_DC_CVAU := 0x309.
Definition P_FB_INIT := 0xD00.
Definition P_FB_SHUTDOWN := 0xD01.
Definition P_Q1N1_SERROR := 0x5131.

(** The client state of a [Proxy]. *)
Record proxy_st := ProxySt {
  ps_exceptions : list (list (string * Z));
  ps_resume_skip : bool;
  ps_features : option Z;
  ps_live_saved : option Z
}.
Definition proxy_st_init : proxy_st :=
  {| ps_exceptions := []; ps_resume_skip := true; ps_features := None; ps_live_saved := None |}.

Section Proxy.
Context {T : Type} `{!Transport T}.
Variable have_numpy : bool.
Variable budget : nat.
Variable handler : Z -> Z -> M (link T proxy_st) unit.
Abbreviation L := (link T proxy_st).

Definition client {A} (f : proxy_st -> A) : M L A := py_get (fun l => f (lk_client l)).
Definition set_live_saved (v : option Z) : M L unit := py_modify (fun l => let s := lk_client l in
  lk_set_client {| ps_exceptions := ps_exceptions s; ps_resume_skip := ps_resume_skip s; ps_features := ps_features s;
                   ps_live_saved := v |} l).
Definition set_stage_features (v : option Z) : M L unit := py_modify (fun l => let s := lk_client l in
  lk_set_client {| ps_exceptions := ps_exceptions s; ps_resume_skip := ps_resume_skip s; ps_features := v;
                   ps_live_saved := ps_live_saved s |} l).
Definition add_exception (r : list (string * Z)) : M L unit := py_modify (fun l => let s := lk_client l in
  lk_set_client {| ps_exceptions := ps_exceptions s ++ [r]; ps_resume_skip := ps_resume_skip s;
                   ps_features := ps_features s; ps_live_saved := ps_live_saved s |} l).

Definition l_readmem (address size : Z) : M L bytes := link_readmem have_numpy handler budget 3 address size.
Definition l_writemem (address : Z) (d : bytes) : M L unit := link_writemem have_numpy handler budget address d.
Definition l_nop (f : Z) : M L Z := link_nop have_numpy handler budget f.

(** Exactly 24 bytes unpack as [<QqQ]. *)
Definition q_unpack (reply : bytes) : result (Z * Z * Z) :=
  if negb (Nat.eqb (length reply) 24) then Raise StructError else
  let? echo := unpack_u 8 0 reply in
  let? status := unpack_u 8 8 reply in
  let? value := unpack_u 8 16 reply in
  Ok (echo, to_signed 8 status, value).

Definition q_request (opcode : Z) (args : list Z) (no_reply : bool) : M L (option Z) :=
  let values := args ++ replicate (6 - length args) 0 in
  if negb (Nat.eqb (length values) 6) then py_raise StructError else
  let! req := py_lift (pack_Qs (opcode :: map (fun v => Z.land v 0xFFFFFFFFFFFFFFFF) values)) in
  let! reply := link_proxyreq have_numpy handler budget req no_reply in
  match reply with
  | None => py_ret None
  | Some reply =>
      let! '(echo, status, value) := py_lift (q_unpack reply) in
      if negb (echo =? opcode) then py_raise (ProxyError "opcode echo")
      else if negb (status =? 0) then py_raise (ProxyRemoteError status)
      else py_ret (Some value)
  end.

Definition call_ (opcode : Z) (args : list Z) : M L unit := q_request opcode args false ;;; py_ret tt.
(** A result used as a number. *)
Definition value_of (opcode : Z) (args : list Z) : M L Z :=
  let! r := q_request opcode args false in
  match r with Some v => py_ret v | None => py_raise (TypeError "NoneType") end.

Definition q_fb_console (enabled : bool) := q_request (if enabled then P_FB_INIT else P_FB_SHUTDOWN) [0] false.
Definition q_nop := q_request P_NOP [] false.
Definition q_get_base := q_request P_GET_BASE [] false.
Definition q_read64 (a : Z) := q_request P_READ64 [a] false.
Definition q_read32 (a : Z) := q_request P_READ32 [a] false.
Definition q_read16 (a : Z) := q_request P_READ16 [a] false.
Definition q_read8 (a : Z) := q_request P_READ8 [a] false.
Definition q_write64 (a v : Z) := call_ P_WRITE64 [a; v].
Definition q_write32 (a v : Z) := call_ P_WRITE32 [a; v].
Definition q_write16 (a v : Z) := call_ P_WRITE16 [a; v].
Definition q_write8 (a v : Z) := call_ P_WRITE8 [a; v].
Definition q_set32 (a v : Z) := q_request P_SET32 [a; v] false.
Definition q_clear32 (a v : Z) := q_request P_CLEAR32 [a; v] false.
Definition q_mask32 (a c s : Z) := q_request P_MASK32 [a; c; s] false.
Definition q_writeread32 (a v : Z) := q_request P_WRITEREAD32 [a; v] false.
Definition q_memcpy8 (dst src size : Z) := call_ P_MEMCPY8 [dst; src; size].
Definition q_memset8 (dst v size : Z) := call_ P_MEMSET8 [dst; v; size].
Definition q_memset32 (dst v size : Z) := call_ P_MEMSET32 [dst; v; size].
Definition q_ic_ivau (a size : Z) := call_ P_IC_IVAU [a; size].
Definition q_dc_cvau (a size : Z) := call_ P_DC_CVAU [a; size].
Definition q_flush_code (a size : Z) : M L unit := q_dc_cvau a size ;;; q_ic_ivau a size.
Definition q_call (a : Z) (args : list Z) := q_request P_CALL (a :: args) false.
Definition q_udelay (us : Z) := call_ P_UDELAY [us].
Definition q_set_exc_guard (mode : Z) := call_ P_SET_EXC_GUARD [mode].
Definition q_get_exc_count := q_request P_GET_EXC_COUNT [] false.
Definition q_reboot : M L unit := q_request P_REBOOT [] true ;;; py_ret tt.

(** ** Exceptions reported by the target *)
Definition q_read_exception (address : Z) : M L (list (string * Z)) :=
  let! d := l_readmem address (8 * zlen EXCEPTION_FIELDS) in
  let! vals := py_lift (unpack_Qs (length EXCEPTION_FIELDS) 0 d) in
  py_ret (record_of EXCEPTION_FIELDS vals).

Definition ELR_INDEX : Z := 33.

Definition q_on_exception (code info : Z) : M L unit :=
  let! registers := q_read_exception info in
  add_exception registers ;;;
  let! skip := client ps_resume_skip in
  if skip then
    q_write64 (info + 8 * ELR_INDEX) (rget registers "elr" + 4) ;;;
    call_ P_EXIT [EXC_RET_HANDLED]
  else py_ret tt.

(** ** Boot information *)
Definition q_bootinfo : M L (list (string * Z)) :=
  let! address := value_of P_GET_BOOTARGS [] in
  let! h := l_readmem address 24 in
  let! hv := py_lift (unpack_Qs 3 0 h) in
  let magic := nth 0 hv 0 in let version := nth 1 hv 0 in let size := nth 2 hv 0 in
  if negb (magic =? MAGIC) || negb (version =? 1) || (size <? 24) || negb (size mod 8 =? 0) || (4096 <? size)
  then py_raise (ProxyError "invalid bootinfo header") else
  let count := Z.min (size / 8) (zlen BOOTINFO_FIELDS) in
  let! d := l_readmem address (8 * count) in
  let! vals := py_lift (unpack_Qs (Z.to_nat count) 0 d) in
  py_ret (("address"%string, address) :: record_of BOOTINFO_FIELDS vals).

(** ** Live reads: a sticky checksum-free mode *)
Definition q_end_live : M L unit :=
  let! s := client ps_live_saved in
  match s with
  | Some saved =>
      set_live_saved None ;;;
      let! f := py_get lk_features in
      if negb (saved =? f) then (l_nop saved ;;; py_ret tt) else py_ret tt
  | None => py_ret tt
  end.

Definition q_readmem (address size : Z) (live : bool) : M L bytes :=
  if negb live then q_end_live ;;; l_readmem address size
  else
    let! s := client ps_live_saved in
    (match s with
     | Some _ => py_ret tt
     | None =>
         let! saved := py_get lk_features in
         (if negb (csums_off saved) then (l_nop FEATURE_DISABLE_DATA_CSUMS ;;; py_ret tt) else py_ret tt) ;;;
         set_live_saved (Some saved)
     end) ;;;
    l_readmem address size.

(** ** Writes, cut to what the running stage can take *)
Definition q_stage_features : M L Z :=
  let! c := client ps_features in
  match c with
  | Some bits => py_ret bits
  | None =>
      let! info := q_bootinfo in
      let! bits := (if negb (rget info "stage_generation" =? 0) then
                      let! d := q_readmem (rget info "image_base" + 48) 16 false in
                      let! v := py_lift (unpack_Qs 2 0 d) in
                      py_ret (if nth 0 v 0 =? STAGE_FEATURES_MAGIC then nth 1 v 0 else 0)
                    else py_ret 0) in
      set_stage_features (Some bits) ;;;
      py_ret bits
  end.

Definition q_write_chunk : M L Z :=
  let! limit := py_get (fun l => tr_max_write (lk_tr l)) in
  if limit =? 0 then py_ret 0 else
  let! bits := q_stage_features in
  py_ret (if negb (Z.land bits STAGE_NCM_BACKPRESSURE =? 0) then Z.max limit BACKPRESSURE_WRITE else limit).

(** [for offset in range(0, len(data), limit)]. *)
Fixpoint q_write_pieces (fuel : nat) (limit : nat) (address : Z) (data : bytes) : M L unit :=
  match fuel, data with
  | _, [] => py_ret tt
  | O, _ => py_raise OutOfFuel
  | S k, _ => l_writemem address (take limit data) ;;; q_write_pieces k limit (address + Z.of_nat limit) (drop limit data)
  end.

Definition q_writemem (address : Z) (data : bytes) : M L unit :=
  q_end_live ;;;
  let! limit := q_write_chunk in
  if negb (limit =? 0) && (limit <? zlen data) then q_write_pieces (length data) (Z.to_nat limit) address data
  else l_writemem address data.

(** ** SError record *)
Definition q_serror_state : M L (list (string * Z)) :=
  let! address := value_of P_Q1N1_SERROR [0] in
  let! d := q_readmem address (8 * zlen SERROR_FIELDS) false in
  let! vals := py_lift (unpack_Qs (length SERROR_FIELDS) 0 d) in
  let values := record_of SERROR_FIELDS vals in
  if negb (rget values "magic" =? SERROR_MAGIC) then py_raise (ProxyError "bad SError record magic")
  else py_ret (("address"%string, address) :: values).
Definition q_serror_reset := call_ P_Q1N1_SERROR [1].
Definition q_serror_strict (enabled : bool) := call_ P_Q1N1_SERROR [2; if enabled then SERROR_STRICT else 0].

(** ** Battery record *)
Fixpoint until_nul (d : bytes) : bytes :=
  match d with [] => [] | Byte.x00 :: _ => [] | c :: r => c :: until_nul r end.

Record battery := Battery { bt_fields : list (string * Z); bt_partition : list (list Z); bt_text : bytes }.

Definition SIGNED_FIELDS : list string :=
  (["status"; "target_status"; "smem_status"; "partition_status"; "sample_status"; "smp2p_status"; "glink_error";
    "release_status"])%string.

Definition q_live_battery_record (address : Z) : M L battery :=
  let! h := q_readmem address 24 true in
  let! hv := py_lift (unpack_Qs 3 0 h) in
  let size := nth 2 hv 0 in
  if negb (nth 0 hv 0 =? LIVE_BATTERY_MAGIC) || negb (nth 1 hv 0 =? LIVE_BATTERY_VERSION)
     || (size <? 8 * zlen LIVE_BATTERY_FIELDS) || (65536 <? size)
  then py_raise (ProxyError "invalid live battery record") else
  let! data := q_readmem address size true in
  let count := length LIVE_BATTERY_FIELDS in
  let! vals := py_lift (unpack_Qs count 0 data) in
  let rec := record_of LIVE_BATTERY_FIELDS vals in
  let rows := Nat.min (Z.to_nat (rget rec "partitions")) LIVE_BATTERY_PARTITIONS in
  let! table := py_lift (unpack_Qs (4 * LIVE_BATTERY_PARTITIONS) (8 * count) data) in
  let text := until_nul (take LIVE_BATTERY_TEXT (drop (8 * count + 32 * LIVE_BATTERY_PARTITIONS) data)) in
  py_ret {| bt_fields := map (fun '(k, v) => (k, if existsb (String.eqb k) SIGNED_FIELDS then signed64 v else v)) rec;
            bt_partition := map (fun i => take 4 (drop (4 * i) table)) (seq 0 rows);
            bt_text := text |}.

Definition q_live_battery (flags timeout_ms host smem_base smem_size : Z) : M L (Z * battery) :=
  let! info := q_bootinfo in
  if (rget info "battery_call" =? 0) || (rget info "battery_result" =? 0)
  then py_raise (ProxyError "this q1n1 image has no live battery path; chainload a newer stage") else
  let! st := value_of P_CALL [rget info "battery_call"; flags; timeout_ms; host; smem_base; smem_size] in
  let! rec := q_live_battery_record (rget info "battery_result") in
  py_ret (signed64 st, rec).

(** ** Stages *)
Definition stage_configure (data : bytes) (logo : option string) (xhci : bool) : result bytes :=
  if (match logo with None => true | Some _ => false end) && negb xhci then Ok data else
  let? value := match logo with
                | None => Ok 0
                | Some s => match STAGE_LOGO s with Some v => Ok v | None => Raise (KeyError "logo") end
                end in
  let value := if xhci then Z.lor value 4 else value in
  let? w := pack_Q value in
  Ok (take 24 data ++ w ++ drop 32 data).

Definition stage_header (data : bytes) : result Z :=
  if Nat.ltb (length data) 24 then Raise (ProxyError "too short to be a stage image") else
  let? magic := unpack_u 8 8 data in
  let? lnk := unpack_u 8 16 data in
  if negb (magic =? STAGE_MAGIC) then Raise (ProxyError "not a q1n1 stage image (bad magic)") else Ok lnk.

(** [pick_stage]: the candidate files, [None] for one that does not exist. *)
Fixpoint pick_candidates (info : list (string * Z)) (cands : list (option bytes)) : result (bytes * Z) :=
  match cands with
  | [] => Raise (ProxyError "no stage image for a free slot")
  | None :: r => pick_candidates info r
  | Some data :: r =>
      let? lnk := stage_header data in
      if lnk =? rget info "image_base" then pick_candidates info r
      else if negb ((rget info "stage_base" <=? lnk) && (lnk <? rget info "stage_base" + rget info "stage_size"))
      then pick_candidates info r
      else Ok (data, lnk)
  end.
Definition q_pick_stage (cands : list (option bytes)) : M L (bytes * Z) :=
  let! info := q_bootinfo in py_lift (pick_candidates info cands).

Fixpoint any_port_up (states : bytes) (i n : nat) : result bool :=
  match n with
  | O => Ok false
  | S k => let? v := unpack_u 8 (i * 80 + 8) states in
           if v =? 1 then Ok true else any_port_up states (S i) k
  end.

Definition q_check_stage_transport (data : bytes) (info : list (string * Z)) : M L unit :=
  if rget info "usb_ports" =? 0 then py_ret tt else
  let count := rget info "usb_port_count" in
  if negb ((1 <=? count) && (count <=? 2)) then py_raise (ProxyError "invalid USB port table size") else
  let! states := q_readmem (rget info "usb_ports") (count * 80) true in
  let! up := py_lift (any_port_up states 0 (Z.to_nat count)) in
  if negb up then py_ret tt else
  if Nat.ltb (length data) 48 then py_raise (ProxyError "stage has no USB handoff contract; refusing to reset a live NCM link") else
  let! magic := py_lift (unpack_u 8 32 data) in
  if negb (magic =? STAGE_USB_CONTRACT) then py_raise (ProxyError "stage has no USB handoff contract; refusing to reset a live NCM link") else
  let! ptr := py_lift (unpack_u 8 40 data) in
  let! lnk := py_lift (stage_header data) in
  let offset := ptr - lnk in
  if (offset <? 48) || (zlen data <? offset + 24) then py_raise (ProxyError "stage USB handoff contract is outside the image") else
  let! current := q_readmem (rget info "usb_ports" - 24) 24 false in
  if negb (bytes_eqb (slice (Z.to_nat offset) (Z.to_nat offset + 24) data) current)
  then py_raise (ProxyError "incompatible USB state layout; use a cold boot of the new EFI image") else py_ret tt.

(** [base] as given; 0 stands for [None]. *)
Definition q_chainload (data : bytes) (base : Z) : M L (Z * Z * Z) :=
  let! info := q_bootinfo in
  q_check_stage_transport data info ;;;
  let! base := (if base =? 0 then py_lift (stage_header data) else py_ret base) in
  if base =? 0 then py_raise (ProxyError "the payload reserved no stage region") else
  if base =? rget info "image_base" then py_raise (ProxyError "that stage is linked for the address it would overwrite") else
  if rget info "stage_size" <? zlen data then py_raise (ProxyError "stage is larger than the region") else
  q_writemem base data ;;;
  let! back := q_readmem base (zlen data) false in
  if negb (bytes_eqb back data) then py_raise (ProxyError "stage did not verify after upload") else
  q_flush_code base (zlen data) ;;;
  call_ P_VECTOR [base; rget info "address"] ;;;
  set_stage_features None ;;;
  py_ret (base, zlen data, rget info "stage_generation").

(** ** ACPI tables *)

(** [.decode('ascii', 'replace')]: 0xff stands for the replacement character. *)
Definition ascii_replace (d : bytes) : bytes := map (fun c => if byte_to_Z c <? 128 then c else Byte.xff) d.

(** [tables[signature] = address]. *)
Fixpoint dict_set (k : bytes) (v : Z) (l : list (bytes * Z)) : list (bytes * Z) :=
  match l with
  | [] => [(k, v)]
  | (k', v') :: r => if bytes_eqb k' k then (k', v) :: r else (k', v') :: dict_set k v r
  end.

Fixpoint acpi_loop (fuel : nat) (entries : bytes) (tables : list (bytes * Z)) : M L (list (bytes * Z)) :=
  match fuel with
  | O => py_ret tables
  | S k =>
      if Nat.ltb (length entries) 8 then py_ret tables else
      let! address := py_lift (unpack_u 8 0 entries) in
      let! sig := q_readmem address 4 false in
      acpi_loop k (drop 8 entries) (dict_set (ascii_replace sig) address tables)
  end.

Definition q_acpi_tables : M L (list (bytes * Z)) :=
  let! info := q_bootinfo in
  let rsdp := rget info "acpi_rsdp" in
  if rsdp =? 0 then py_ret [] else
  let! x := q_readmem (rsdp + 24) 8 false in
  let! xsdt := py_lift (unpack_u 8 0 x) in
  let! n := q_readmem (xsdt + 4) 4 false in
  let! len := py_lift (unpack_u 4 0 n) in
  let! entries := q_readmem (xsdt + 36) (Z.max 0 (len - 36)) false in
  acpi_loop (length entries) entries [].

End Proxy.

(** The callback installed by [Proxy.__init__], for [depth] nested exceptions. *)
Fixpoint q_handler {T} `{!Transport T} (have_numpy : bool) (budget depth : nat) (code info : Z)
    : M (link T proxy_st) unit :=
  match depth with
  | O => py_raise (GenericException "maximum recursion depth exceeded")
  | S d => q_on_exception have_numpy budget (q_handler have_numpy budget d) code info
  end.

(** ** [Link] over a transport that keeps the stream contract *)

Section LinkLaws.
Context {T : Type} `{!Transport T} `{!TransportLaws T} {X : Type}.
Variable have_numpy : bool.
Variable handler : Z -> Z -> M (link T X) unit.
Abbreviation L := (link T X).
Implicit Types l : L.

(** [l'] is [l] after input was consumed down to [s] and [d] was sent. *)
Record moved l (s d : bytes) l' : Prop := {
  mv_good : tr_good (lk_tr l');
  mv_pending : tr_pending (lk_tr l') = s;
  mv_sent : tr_sent (lk_tr l') = tr_sent (lk_tr l) ++ d;
  mv_features : lk_features l' = lk_features l;
  mv_retries : lk_retries l' = lk_retries l;
  mv_client : lk_client l' = lk_client l
}.

Lemma moved_trans l s1 d1 l1 s2 d2 l2 : moved l s1 d1 l1 -> moved l1 s2 d2 l2 -> moved l s2 (d1 ++ d2) l2.
Proof. intros [] []. constructor; try congruence. rewrite app_assoc. congruence. Qed.

Lemma moved_refl l : tr_good (lk_tr l) -> moved l (tr_pending (lk_tr l)) [] l.
Proof. constructor; try done. by rewrite app_nil_r. Qed.

Lemma lread_ok l a s n :
  tr_good (lk_tr l) -> tr_pending (lk_tr l) = a ++ s -> length a = n ->
  exists l', lread n l = (Ok a, l') /\ moved l s [] l'.
Proof.
  intros Hg Hp Hn. destruct (tr_read_ok n (lk_tr l) Hg) as (t' & E & Hd & Hs & Hg').
  { rewrite Hp, length_app. lia. }
  rewrite Hp in E, Hd. subst n. rewrite take_app_length in E. rewrite drop_app_length in Hd.
  exists (lk_set_tr t' l). split; [unfold lread, on_tr; by rewrite E|].
  constructor; try done. simpl. by rewrite app_nil_r.
Qed.

Lemma lwrite_ok l d :
  tr_good (lk_tr l) -> exists l', lwrite d l = (Ok tt, l') /\ moved l (tr_pending (lk_tr l)) d l'.
Proof.
  intros Hg. destruct (tr_write_ok d (lk_tr l) Hg) as (t' & E & Hs & Hp & Hg').
  exists (lk_set_tr t' l). split; [unfold lwrite, on_tr; by rewrite E|]. by constructor.
Qed.

(** The frame is byte for byte the one [UartInterface.cmd] sends. *)
Lemma link_cmd_ok l cmd payload :
  tr_good (lk_tr l) -> 0 <= cmd < 2 ^ 32 -> (length payload <= CMD_LEN)%nat ->
  exists l', link_cmd have_numpy cmd payload l = (Ok tt, l') /\
    moved l (tr_pending (lk_tr l)) (command_frame cmd payload) l'.
Proof.
  intros Hg Hc Hp. unfold link_cmd. destruct (Nat.ltb_spec CMD_LEN (length payload)); [lia|].
  rewrite pack_I_ok by done. unfold py_lift at 1, py_bind at 1. unfold lsum. rewrite checksum_is_uart.
  rewrite pack_I_ok by apply uart_checksum_range. unfold py_lift, py_bind. by apply lwrite_ok.
Qed.

Definition last3 (w : bytes) : bytes := drop (length w - 3) w.

Lemma last4_snoc w x : last4 (w ++ [x]) = last3 w ++ [x].
Proof.
  unfold last4, last3. rewrite length_app. simpl. rewrite drop_app_le by lia. do 2 f_equal. lia.
Qed.

Lemma length_last3 w : (length (last3 w) <= 3)%nat.
Proof. unfold last3. rewrite length_drop. lia. Qed.

Lemma last3_snoc w x : (length w <= 3)%nat -> last3 (w ++ [x]) = (if (length w <? 3)%nat then w ++ [x] else drop 1 w ++ [x]).
Proof.
  intros Hw. unfold last3. rewrite length_app. simpl. destruct (Nat.ltb_spec (length w) 3).
  - replace (length w + 1 - 3)%nat with 0%nat by lia. done.
  - replace (length w + 1 - 3)%nat with 1%nat by lia. by rewrite drop_app_le by lia.
Qed.

(** The sliding window finds the first mark. *)
Lemma link_loop_skip budget : forall cmd w noise b s l,
  tr_good (lk_tr l) -> no_mark noise ->
  last3 w ++ tr_pending (lk_tr l) = noise ++ SYNC ++ b :: s ->
  (length noise + 4 - length (last3 w) <= budget)%nat ->
  exists l' k, moved l s [] l' /\
    link_reply_loop have_numpy handler budget cmd w l =
    (let! r := link_frame have_numpy handler cmd (SYNC ++ [b]) in
     match r with Some d => py_ret d | None => link_reply_loop have_numpy handler k cmd [] end) l'.
Proof.
  induction budget as [|k IH]; intros cmd w noise b s l Hg Hm Hv Hb.
  { pose proof (length_last3 w). lia. }
  pose proof (length_last3 w) as Hl3.
  destruct (tr_pending (lk_tr l)) as [|x p] eqn:Ep.
  { apply (f_equal length) in Hv. rewrite !length_app in Hv. simpl in Hv. lia. }
  destruct (lread_ok l [x] p 1 Hg Ep eq_refl) as (l1 & Hr1 & Hm1).
  cbn [link_reply_loop]. rewrite (py_bind_ok _ _ _ _ _ Hr1). rewrite last4_snoc.
  assert (Hnot : is_mark (last3 w ++ [x]) = false \/ noise = [] /\ last3 w ++ [x] = SYNC ++ [b] /\ p = s).
  { unfold is_mark. rewrite length_app. simpl. destruct (Nat.ltb_spec (length (last3 w) + 1) 4); [by left|].
    cbn [negb andb]. assert (Hw3 : length (last3 w) = 3%nat) by lia.
    rewrite take_app_le, take_ge by lia. destruct (decide (noise = [])) as [->|Hne].
    - right. simpl in Hv. destruct (last3 w) as [|a0 [|a1 [|a2 [|]]]]; try discriminate Hw3.
      injection Hv as -> -> -> -> ->. done.
    - left. unfold bytes_eqb. apply bool_decide_eq_false. intros Es. apply (Hm 0%nat); [destruct noise; simpl; [done|lia]|].
      rewrite Es in Hv. rewrite drop_0.
      destruct (prefix_weak_total SYNC (noise ++ SYNC) (SYNC ++ x :: p)) as [Hp|Hp%prefix_length]; [| |done|].
      + by exists (x :: p).
      + exists (b :: s). by rewrite Hv, <- app_assoc.
      + rewrite length_app in Hp. destruct noise; simpl in Hp; [done|lia]. }
  destruct Hnot as [Hnot|(-> & Hw & ->)].
  2:{ rewrite Hw. exists l1, k. split; [done|].
      replace (is_mark (SYNC ++ [b])) with true by (destruct b; reflexivity). done. }
  rewrite Hnot. cbn [negb].
  assert (Hstep : exists l2, (if Nat.eqb (length (last3 w ++ [x])) 4 then link_unknown (take 1 (last3 w ++ [x])) else py_ret tt) l1
                    = (Ok tt, l2) /\ moved l p [] l2).
  { destruct (Nat.eqb _ 4); eexists; (split; [reflexivity|]); [|exact Hm1]. destruct Hm1. by constructor. }
  destruct Hstep as (l2 & Hr2 & Hm2). rewrite (py_bind_ok _ _ _ _ _ Hr2).
  assert (Hlen : length (last3 w ++ [x]) = S (length (last3 w))) by (rewrite length_app; simpl; lia).
  destruct (Nat.ltb_spec (length (last3 w)) 3) as [Hlt|Hge].
  - destruct (IH cmd (last3 w ++ [x]) noise b s l2) as (l3 & k' & Hm3 & E).
    + apply Hm2.
    + done.
    + rewrite last3_snoc, (proj2 (Nat.ltb_lt _ _) Hlt), (mv_pending _ _ _ _ Hm2), <- app_assoc by done. done.
    + rewrite last3_snoc, (proj2 (Nat.ltb_lt _ _) Hlt), Hlen by done. lia.
    + exists l3, k'. split; [by apply (moved_trans _ _ _ _ _ _ _ Hm2 Hm3)|exact E].
  - assert (Hnn : noise <> []).
    { intros ->. simpl in Hv. destruct (last3 w) as [|a0 [|a1 [|a2 [|? ?]]]]; simpl in *; try lia.
      injection Hv as -> -> -> -> ->. by vm_compute in Hnot; destruct b. }
    assert (Hn0 : (0 < length noise)%nat) by (destruct noise; [done|simpl; lia]).
    destruct (IH cmd (last3 w ++ [x]) (drop 1 noise) b s l2) as (l3 & k' & Hm3 & E).
    + apply Hm2.
    + by apply no_mark_drop.
    + rewrite last3_snoc, (proj2 (Nat.ltb_ge _ _) Hge), (mv_pending _ _ _ _ Hm2), <- app_assoc by done. cbn [app].
      apply (f_equal (drop 1)) in Hv. rewrite !drop_app_le in Hv by lia. done.
    + rewrite last3_snoc, (proj2 (Nat.ltb_ge _ _) Hge), length_app, !length_drop by done. cbn [length]. lia.
    + exists l3, k'. split; [by apply (moved_trans _ _ _ _ _ _ _ Hm2 Hm3)|exact E].
Qed.

Lemma encode_reply_split cmd b st data :
  le_bytes 4 cmd = SYNC ++ [b] ->
  encode_reply cmd st data =
  SYNC ++ b :: (le_bytes 4 st ++ data ++ le_bytes 4 (uart_checksum ((SYNC ++ [b]) ++ le_bytes 4 st ++ data))).
Proof. intros Hle. unfold encode_reply. rewrite Hle. cbn [app SYNC]. by rewrite <- !app_assoc. Qed.

Lemma link_frame_ok cmd b status data rest l :
  tr_good (lk_tr l) -> req_code cmd b -> cmd <> REQ_EVENT -> length data = 24%nat -> - 2 ^ 31 <= status < 2 ^ 31 ->
  tr_pending (lk_tr l) = (le_bytes 4 (status mod 2 ^ 32) ++ data ++
      le_bytes 4 (uart_checksum ((SYNC ++ [b]) ++ le_bytes 4 (status mod 2 ^ 32) ++ data))) ++ rest ->
  exists l', link_frame have_numpy handler cmd (SYNC ++ [b]) l =
      (if status =? 0 then Ok (Some data) else Raise (ProxyRemoteError status), l') /\ moved l rest [] l'.
Proof.
  intros Hg [Hr Hle] Hev Hd Hst Hp. unfold link_frame.
  assert (Hk : le_Z (SYNC ++ [b]) = cmd) by (rewrite <- (le_Z_small 4 cmd) by done; by rewrite Hle).
  rewrite Hk, (proj2 (Z.eqb_neq _ _) Hev). set (st := le_bytes 4 (status mod 2 ^ 32)) in *.
  set (cs := le_bytes 4 (uart_checksum _)) in *.
  assert (Hlst : length st = 4%nat) by apply length_le_bytes. assert (Hlcs : length cs = 4%nat) by apply length_le_bytes.
  destruct (lread_ok l (st ++ data ++ cs) rest (REPLY_LEN - 4) Hg Hp) as (l1 & Hr1 & Hm1).
  { rewrite !length_app, Hlst, Hd, Hlcs. done. }
  rewrite (py_bind_ok _ _ _ _ _ Hr1). exists l1. split; [|done].
  pose proof (unpack_u_app 4 0 [] st (data ++ cs) eq_refl Hlst) as H0. cbn [app] in H0. rewrite H0.
  unfold py_lift at 1, py_bind at 1.
  assert (Hsl : slice 4 28 (st ++ data ++ cs) = data).
  { replace 28%nat with (4 + length data)%nat by (rewrite Hd; done). by apply slice_app_mid. }
  assert (E28 : st ++ data ++ cs = (st ++ data) ++ cs ++ []) by (by rewrite app_nil_r, <- app_assoc).
  rewrite Hsl. rewrite E28, (unpack_u_app 4 28) by (rewrite ?length_app, ?Hlst, ?Hd; done).
  unfold py_lift at 1, py_bind at 1. rewrite app_nil_r, length_app, Hlcs, Nat.add_sub, take_app_length.
  assert (Hzst : le_Z st = status mod 2 ^ 32) by (apply le_Z_small, Z.mod_pos_bound; lia).
  assert (Hzcs : le_Z cs = uart_checksum ((SYNC ++ [b]) ++ st ++ data)) by apply le_Z_small, uart_checksum_range.
  unfold lsum. rewrite checksum_is_uart, Hzcs, Hzst, Z.eqb_refl. cbn [negb].
  rewrite to_signed_status by done. rewrite Z.eqb_refl. cbn [negb]. rewrite andb_false_r.
  unfold ST_OK. by destruct (status =? 0).
Qed.

Lemma link_reply_frame budget cmd b noise status data rest l :
  tr_good (lk_tr l) -> req_code cmd b -> cmd <> REQ_EVENT -> length data = 24%nat -> - 2 ^ 31 <= status < 2 ^ 31 ->
  no_mark noise -> (length noise + 4 <= budget)%nat ->
  tr_pending (lk_tr l) = noise ++ encode_reply cmd (status mod 2 ^ 32) data ++ rest ->
  exists l', link_reply have_numpy handler budget cmd l =
      (if status =? 0 then Ok data else Raise (ProxyRemoteError status), l') /\ moved l rest [] l'.
Proof.
  intros Hg Hc Hev Hd Hst Hm Hb Hp. pose proof Hc as [_ Hle]. rewrite (encode_reply_split cmd b) in Hp by done.
  destruct (link_loop_skip budget cmd [] noise b _ l Hg Hm ltac:(rewrite <- app_assoc in Hp; exact Hp) ltac:(simpl; lia))
    as (l1 & k & Hm1 & E).
  destruct (link_frame_ok cmd b status data rest l1 (mv_good _ _ _ _ Hm1) Hc Hev Hd Hst (mv_pending _ _ _ _ Hm1))
    as (l2 & E2 & Hm2).
  exists l2. split; [|by apply (moved_trans _ _ _ _ _ _ _ Hm1 Hm2)].
  unfold link_reply. rewrite E. unfold py_bind. rewrite E2. by destruct (status =? 0).
Qed.

(** One attempt of [readmem] with data checksums on. *)
Definition read_exchange (sum : Z) (pad data : bytes) : bytes :=
  encode_reply REQ_MEMREAD (0 mod 2 ^ 32) (le_bytes 4 sum ++ pad) ++ data.

Lemma link_readmem_attempt budget k addr size sum pad data rest l :
  tr_good (lk_tr l) -> csums_off (lk_features l) = false ->
  0 <= addr < 2 ^ 64 -> 0 <= size < 2 ^ 64 -> 0 <= sum < 2 ^ 32 -> length pad = 20%nat -> zlen data = size ->
  (4 <= budget)%nat -> tr_pending (lk_tr l) = read_exchange sum pad data ++ rest ->
  exists l', moved l rest (command_frame REQ_MEMREAD (le_bytes 8 addr ++ le_bytes 8 size)) l' /\
    link_readmem_loop have_numpy handler budget (S k) addr size l =
    (if sum =? uart_checksum data then py_ret data
     else py_modify lk_add_retry ;;; link_readmem_loop have_numpy handler budget k addr size) l'.
Proof.
  intros Hg Hf Ha Hs Hsum Hpad Hl Hb Hp. cbn [link_readmem_loop]. rewrite !pack_Q_ok by done.
  unfold py_lift at 1 2, py_bind at 1 2.
  set (pl := le_bytes 8 addr ++ le_bytes 8 size).
  assert (Hpl : (length pl <= CMD_LEN)%nat) by (unfold pl; rewrite length_app, !length_le_bytes; unfold CMD_LEN; lia).
  destruct (link_cmd_ok l REQ_MEMREAD pl Hg ltac:(done) Hpl) as (l1 & Hr1 & Hm1).
  rewrite (py_bind_ok _ _ _ _ _ Hr1). pose proof (mv_pending _ _ _ _ Hm1) as Hp1. rewrite Hp in Hp1.
  unfold read_exchange in Hp1. rewrite <- app_assoc in Hp1.
  destruct (link_reply_frame budget REQ_MEMREAD Byte.x02 [] 0 (le_bytes 4 sum ++ pad) (data ++ rest) l1
    (mv_good _ _ _ _ Hm1) req_code_MEMREAD ltac:(done) ltac:(by rewrite length_app, length_le_bytes, Hpad) ltac:(lia)
    ltac:(intros i Hi; simpl in Hi; lia) ltac:(simpl; lia) Hp1) as (l2 & Hr2 & Hm2).
  rewrite (py_bind_ok _ _ _ _ _ Hr2), take_app_length' by (by rewrite length_le_bytes).
  rewrite unpack_I_ok by done. unfold py_lift at 1, py_bind at 1.
  destruct (lread_ok l2 data rest (Z.to_nat size) (mv_good _ _ _ _ Hm2) (mv_pending _ _ _ _ Hm2)
    ltac:(unfold zlen in Hl; lia)) as (l3 & Hr3 & Hm3).
  rewrite (py_bind_ok _ _ _ _ _ Hr3).
  pose proof (moved_trans _ _ _ _ _ _ _ (moved_trans _ _ _ _ _ _ _ Hm1 Hm2) Hm3) as Hmv. rewrite !app_nil_r in Hmv.
  exists l3. split; [done|]. unfold py_get at 1, py_bind at 1. rewrite (mv_features _ _ _ _ Hmv), Hf.
  unfold py_bind at 1, py_ret at 1. unfold link_data_checksum at 1, py_bind at 1.
  rewrite (mv_features _ _ _ _ Hmv), Hf. unfold lsum. by rewrite checksum_is_uart.
Qed.

Lemma link_readmem_bad budget addr size bads : forall attempts rest l,
  tr_good (lk_tr l) -> csums_off (lk_features l) = false ->
  0 <= addr < 2 ^ 64 -> 0 <= size < 2 ^ 64 -> (4 <= budget)%nat ->
  Forall (fun e => 0 <= e.1.1 < 2 ^ 32 /\ length e.1.2 = 20%nat /\ zlen e.2 = size /\ e.1.1 <> uart_checksum e.2) bads ->
  tr_pending (lk_tr l) = concat (map (fun e => read_exchange e.1.1 e.1.2 e.2) bads) ++ rest ->
  exists l', link_readmem_loop have_numpy handler budget (length bads + attempts) addr size l =
             link_readmem_loop have_numpy handler budget attempts addr size l' /\
    tr_good (lk_tr l') /\ tr_pending (lk_tr l') = rest /\ lk_features l' = lk_features l /\
    lk_retries l' = lk_retries l + zlen bads.
Proof.
  induction bads as [|[[sum pad] data] bads IH]; intros attempts rest l Hg Hf Ha Hs Hb Hbad Hp.
  { exists l. unfold zlen. simpl. rewrite Z.add_0_r. by split_and!. }
  inversion Hbad as [|? ? (Hsum & Hpad & Hl & Hne) Hbad']; subst. simpl in Hsum, Hpad, Hne. cbn [snd] in *.
  cbn [map concat fst snd] in Hp. rewrite <- app_assoc in Hp.
  destruct (link_readmem_attempt budget (length bads + attempts) addr (zlen data) sum pad data _ l Hg Hf Ha Hs Hsum Hpad
    eq_refl Hb Hp) as (l1 & Hm1 & E1).
  cbn [length Nat.add]. rewrite E1, (proj2 (Z.eqb_neq _ _) Hne). unfold py_modify, py_bind.
  destruct (IH attempts rest (lk_add_retry l1)) as (l2 & E2 & Hg2 & Hp2 & Hf2 & Hrt2); try done.
  { apply Hm1. }
  { simpl. by rewrite (mv_features _ _ _ _ Hm1). }
  { apply Hm1. }
  exists l2. split; [exact E2|]. split_and!; [done|done|rewrite Hf2; apply Hm1|].
  rewrite Hrt2. simpl. rewrite (mv_retries _ _ _ _ Hm1). unfold zlen. cbn [length]. lia.
Qed.

End LinkLaws.

(** C4: [Link.readmem] survives payload corruption, over every transport that
    keeps the stream contract: when the first payloads do not match their
    checksums and a later one does, within the number of attempts, the call
    returns the good payload and counts each bad one; when all attempts are
    corrupted it raises [ProxyError]; it never returns a bad payload. *)
Theorem link_readmem_retries {T X} `{!Transport T} `{!TransportLaws T} have_numpy handler budget (l : link T X)
    attempts addr (bads : list (Z * bytes * bytes)) (good : option (bytes * bytes)) size rest
    (Hg : tr_good (lk_tr l)) (Hf : csums_off (lk_features l) = false)
    (Ha : 0 <= addr < 2 ^ 64) (Hs : 0 < size < 2 ^ 64) (Hb : (4 <= budget)%nat)
    (Hbad : Forall (fun e => 0 <= e.1.1 < 2 ^ 32 /\ length e.1.2 = 20%nat /\ zlen e.2 = size /\
                             e.1.1 <> uart_checksum e.2) bads)
    (Hgood : match good with
             | Some (pad, data) => length pad = 20%nat /\ zlen data = size /\ (length bads < attempts)%nat
             | None => length bads = attempts
             end)
    (Hp : tr_pending (lk_tr l) =
          concat (map (fun e => read_exchange e.1.1 e.1.2 e.2) bads) ++
          match good with Some (pad, data) => read_exchange (uart_checksum data) pad data | None => [] end ++ rest) :
  exists l', link_readmem have_numpy handler budget attempts addr size l =
      (match good with Some (_, data) => Ok data | None => Raise (ProxyError "read data checksum error") end, l') /\
    lk_retries l' = lk_retries l + zlen bads /\ tr_pending (lk_tr l') = rest.
Proof.
  unfold link_readmem. rewrite (proj2 (Z.eqb_neq _ _)) by lia. destruct good as [[pad data]|].
  - destruct Hgood as (Hpad & Hl & Hn). replace attempts with (length bads + S (attempts - length bads - 1))%nat by lia.
    destruct (link_readmem_bad have_numpy handler budget addr size bads (S (attempts - length bads - 1)) _ l Hg Hf Ha
      ltac:(lia) Hb Hbad Hp) as (l1 & -> & Hg1 & Hp1 & Hf1 & Hr1).
    rewrite <- Hf1 in Hf.
    destruct (link_readmem_attempt have_numpy handler budget (attempts - length bads - 1) addr size _ pad data rest l1
      Hg1 Hf Ha ltac:(lia) (uart_checksum_range data) Hpad Hl Hb Hp1) as (l2 & Hm2 & ->).
    rewrite Z.eqb_refl. exists l2. split; [done|]. split; [|apply Hm2]. by rewrite (mv_retries _ _ _ _ Hm2).
  - replace attempts with (length bads + 0)%nat by lia.
    destruct (link_readmem_bad have_numpy handler budget addr size bads 0 _ l Hg Hf Ha ltac:(lia) Hb Hbad Hp)
      as (l1 & -> & Hg1 & Hp1 & Hf1 & Hr1). by exists l1.
Qed.

Lemma link_readmem_retries_witness :
  let pad := replicate 20 Byte.x00 in
  let good := [Byte.x10; Byte.x20] in
  let stream := read_exchange (uart_checksum good) pad [Byte.x10; Byte.x21] ++ read_exchange (uart_checksum good) pad good in
  let l := link_init (Tty [RIdle; RBlock (take 7 stream); RBlock (drop 7 stream)] [WBusy] []) tt in
  exists l', link_readmem true (fun _ _ => py_ret tt) 9 3 0x1000 2 l = (Ok good, l') /\
    lk_retries l' = 0 + 1 /\ tr_pending (lk_tr l') = [].
Proof.
  intros pad good stream l.
  apply (link_readmem_retries true (fun _ _ => py_ret tt) 9 l 3 0x1000
           [(uart_checksum good, pad, [Byte.x10; Byte.x21])] (Some (pad, good)) 2 []).
  - reflexivity.
  - reflexivity.
  - lia.
  - lia.
  - lia.
  - repeat constructor; simpl; try apply uart_checksum_range; vm_compute; discriminate.
  - repeat split; simpl; lia.
  - vm_compute. reflexivity.
Defined.

(** ** Bulk writes in pieces *)

(** The requests a chunked write issues. *)
Fixpoint write_plan (fuel limit : nat) (address : Z) (data : bytes) : list (Z * bytes) :=
  match fuel, data with
  | _, [] => []
  | O, _ => []
  | S k, _ => (address, take limit data) :: write_plan k limit (address + Z.of_nat limit) (drop limit data)
  end.

Fixpoint run_writes {T} `{!Transport T} have_numpy budget handler (ws : list (Z * bytes)) : M (link T proxy_st) unit :=
  match ws with
  | [] => py_ret tt
  | (a, d) :: r => l_writemem have_numpy budget handler a d ;;; run_writes have_numpy budget handler r
  end.

Lemma q_write_pieces_plan {T} `{!Transport T} have_numpy budget handler fuel limit : forall address data (l : link T proxy_st),
  (0 < limit)%nat -> (length data <= fuel)%nat ->
  q_write_pieces have_numpy budget handler fuel limit address data l =
  run_writes have_numpy budget handler (write_plan fuel limit address data) l.
Proof.
  induction fuel as [|k IH]; intros address data l Hl Hf; destruct data as [|x data]; try done; [simpl in Hf; lia|].
  cbn [q_write_pieces write_plan run_writes]. unfold py_bind. destruct (l_writemem _ _ _ _ _ l) as [[[]|e] l1]; [|done].
  apply IH; [done|]. rewrite length_drop. cbn [length] in *. lia.
Qed.

Lemma write_plan_effect fuel limit : forall address data (m : Z -> byte) x,
  (0 < limit)%nat -> (length data <= fuel)%nat ->
  fold_left (fun m '(a, d) => mem_store a d m) (write_plan fuel limit address data) m x = mem_store address data m x.
Proof.
  induction fuel as [|k IH]; intros address data m x Hl Hf; destruct data as [|y data]; try (simpl in Hf; lia);
    try (cbn; unfold mem_store; by destruct (address <=? x)).
  cbn [write_plan fold_left]. rewrite IH by (rewrite ?length_drop; cbn [length] in *; lia).
  set (d := y :: data) in *. destruct (Nat.le_gt_cases (length d) limit) as [Hle|Hgt].
  - rewrite drop_ge, take_ge by lia. unfold mem_store at 1. by destruct (address + Z.of_nat limit <=? x).
  - rewrite <- (take_drop limit d) at 3. rewrite <- mem_store_app. unfold zlen. rewrite length_take, Nat.min_l by lia. done.
Qed.

Lemma write_plan_pieces fuel limit : forall address data,
  (0 < limit)%nat -> Forall (fun e => 0 < zlen (snd e) <= Z.of_nat limit) (write_plan fuel limit address data).
Proof.
  induction fuel as [|k IH]; intros address data Hl; destruct data as [|y data]; try constructor.
  - cbn [snd]. unfold zlen. rewrite length_take. cbn [length]. lia.
  - by apply IH.
Qed.

(** C32: cutting a bulk write to the size the running stage can take changes
    nothing in target memory: for every limit, a chunked [writemem] is the
    sequence of [Link.writemem] calls of its plan, every piece is nonempty and
    within the limit, and storing the pieces one after the other leaves the same
    memory as storing the whole data at the address. *)
Theorem chunked_write_equivalent {T} `{!Transport T} have_numpy budget handler (l : link T proxy_st)
    limit address data (m : Z -> byte) (Hl : (0 < limit)%nat) :
  let plan := write_plan (length data) limit address data in
  q_write_pieces have_numpy budget handler (length data) limit address data l = run_writes have_numpy budget handler plan l /\
  Forall (fun e => 0 < zlen (snd e) <= Z.of_nat limit) plan /\
  (forall x, fold_left (fun m '(a, d) => mem_store a d m) plan m x = mem_store address data m x).
Proof.
  intros plan. split_and!; [by apply q_write_pieces_plan|by apply write_plan_pieces|].
  intros x. by apply write_plan_effect.
Qed.

Lemma chunked_write_equivalent_witness :
  let data := [Byte.x01; Byte.x02; Byte.x03; Byte.x04; Byte.x05] in
  let l := link_init (Tty [] [] []) proxy_st_init in
  let plan := write_plan 5 2 0x1000 data in
  plan = [(0x1000, [Byte.x01; Byte.x02]); (0x1002, [Byte.x03; Byte.x04]); (0x1004, [Byte.x05])] /\
  q_write_pieces false 9 (fun _ _ => py_ret tt) 5 2 0x1000 data l = run_writes false 9 (fun _ _ => py_ret tt) plan l /\
  Forall (fun e => 0 < zlen (snd e) <= Z.of_nat 2) plan /\
  (forall x, fold_left (fun m '(a, d) => mem_store a d m) plan (fun _ => Byte.x00) x = mem_store 0x1000 data (fun _ => Byte.x00) x).
Proof.
  intros data l plan. split; [reflexivity|].
  apply (chunked_write_equivalent false 9 (fun _ _ => py_ret tt) l 2 0x1000 data (fun _ => Byte.x00)). lia.
Defined.

(** ** The live-read mode is transparent *)

Section LiveMode.
Context {T : Type} `{!Transport T}.
Variable have_numpy : bool.
Variable budget : nat.
Variable handler : Z -> Z -> M (link T proxy_st) unit.
Abbreviation L := (link T proxy_st).

Definition mode_of (l : L) : Z * option Z := (lk_features l, ps_live_saved (lk_client l)).

(** [m] does not touch the negotiated features nor the saved ones. *)
Definition keeps_mode {A} (m : M L A) : Prop := forall l r l', m l = (r, l') -> mode_of l' = mode_of l.

Lemma keeps_bind {A B} (m : M L A) (k : A -> M L B) :
  keeps_mode m -> (forall a, keeps_mode (k a)) -> keeps_mode (py_bind m k).
Proof.
  intros Hm Hk l r l' E. unfold py_bind in E. destruct (m l) as [[a|e] l1] eqn:E1.
  - rewrite (Hk a _ _ _ E). by apply Hm in E1.
  - injection E as <- <-. by apply Hm in E1.
Qed.
Lemma keeps_ret {A} (a : A) : keeps_mode (py_ret a).
Proof. by intros l r l' [= <- <-]. Qed.
Lemma keeps_raise {A} e : keeps_mode (@py_raise L A e).
Proof. by intros l r l' [= <- <-]. Qed.
Lemma keeps_lift {A} (x : result A) : keeps_mode (@py_lift L A x).
Proof. by intros l r l' [= <- <-]. Qed.
Lemma keeps_get {A} (f : L -> A) : keeps_mode (py_get f).
Proof. by intros l r l' [= <- <-]. Qed.
Lemma keeps_modify (f : L -> L) : (forall l, mode_of (f l) = mode_of l) -> keeps_mode (py_modify f).
Proof. intros Hf l r l' [= <- <-]. apply Hf. Qed.
Lemma keeps_tr {A} (m : M T A) : keeps_mode (on_tr m).
Proof. intros l r l'. unfold on_tr. destruct (m (lk_tr l)). by intros [= <- <-]. Qed.

Ltac keeps :=
  repeat (cbv zeta;
    match goal with
    | |- keeps_mode (py_bind _ _) => apply keeps_bind; [|intros ?]
    | |- keeps_mode (py_ret _) => apply keeps_ret
    | |- keeps_mode (py_raise _) => apply keeps_raise
    | |- keeps_mode (py_lift _) => apply keeps_lift
    | |- keeps_mode (py_get _) => apply keeps_get
    | |- keeps_mode (on_tr _) => apply keeps_tr
    | |- keeps_mode (lread _) => apply keeps_tr
    | |- keeps_mode (lwrite _) => apply keeps_tr
    | |- keeps_mode (py_modify _) => apply keeps_modify; done
    | |- keeps_mode (if ?b then _ else _) => destruct b
    | |- keeps_mode (match ?x with _ => _ end) => destruct x
    end).

Hypothesis Hhandler : forall code info, keeps_mode (handler code info).

Lemma keeps_cmd c p : keeps_mode (link_cmd have_numpy (X := proxy_st) (T := T) c p).
Proof. unfold link_cmd. keeps. Qed.

Lemma keeps_frame c w : keeps_mode (link_frame have_numpy handler c w).
Proof. unfold link_frame, link_handle_boot. keeps. apply Hhandler. Qed.

Lemma keeps_reply b c : keeps_mode (link_reply have_numpy handler b c).
Proof.
  unfold link_reply. generalize (@nil byte). induction b as [|k IH]; intros w; cbn [link_reply_loop]; keeps;
    first [apply IH|apply keeps_frame|unfold link_unknown; keeps].
Qed.

Lemma keeps_data_checksum d : keeps_mode (link_data_checksum (X := proxy_st) (T := T) have_numpy d).
Proof. by intros l r l' [= <- <-]. Qed.

Lemma keeps_readmem a s : keeps_mode (l_readmem have_numpy budget handler a s).
Proof.
  unfold l_readmem, link_readmem. destruct (s =? 0); [apply keeps_ret|].
  generalize 3%nat. intros n. induction n as [|k IH]; cbn [link_readmem_loop]; keeps;
    auto using keeps_cmd, keeps_reply, keeps_data_checksum.
Qed.

(** The state in which [end_live] renegotiates. *)
Definition clear_saved (l : L) : L := (set_live_saved None l).2.

(** The target grants the renegotiation a read will make, if it makes one. *)
Definition grant_here (live : bool) (l : L) : Prop :=
  if live then
    ps_live_saved (lk_client l) = None -> csums_off (lk_features l) = false ->
    forall r l', l_nop have_numpy budget handler FEATURE_DISABLE_DATA_CSUMS l = (Ok r, l') -> r = FEATURE_DISABLE_DATA_CSUMS
  else
    forall saved, ps_live_saved (lk_client l) = Some saved -> saved <> lk_features l ->
    forall r l', l_nop have_numpy budget handler saved (clear_saved l) = (Ok r, l') -> r = saved.

Lemma nop_mode f l r l' :
  l_nop have_numpy budget handler f l = (Ok r, l') -> r = f -> mode_of l' = (f, ps_live_saved (lk_client l)).
Proof.
  intros E ->. unfold l_nop, link_nop in E.
  assert (Hk : keeps_mode (let! p := py_lift (pack_Q f) in
     link_cmd have_numpy REQ_NOP p ;;; let! r := link_reply have_numpy handler budget REQ_NOP in
     py_lift (unpack_u 8 0 (take 8 r)))) by (keeps; auto using keeps_cmd, keeps_reply).
  specialize (Hk l). unfold py_bind, py_lift in E, Hk.
  destruct (pack_Q f) as [p|e]; [|done]. destruct (link_cmd have_numpy REQ_NOP p l) as [[[]|e] l1]; [|done].
  destruct (link_reply have_numpy handler budget REQ_NOP l1) as [[rep|e] l2]; [|done].
  destruct (unpack_u 8 0 (take 8 rep)) as [g|e]; [|done]. injection E as -> <-.
  specialize (Hk _ _ eq_refl). unfold mode_of in *. simpl. congruence.
Qed.

(** The mode with [f0] negotiated: off, or live with [f0] saved. *)
Definition mode_inv (f0 : Z) (l : L) : Prop :=
  mode_of l = (f0, None) \/ (exists f, mode_of l = (f, Some f0) /\ csums_off f = true).

Lemma end_live_mode f0 l l' :
  mode_inv f0 l -> grant_here false l -> q_end_live have_numpy budget handler l = (Ok tt, l') -> mode_of l' = (f0, None).
Proof.
  intros Hi Hgr E. unfold q_end_live, client, py_bind, py_get in E.
  destruct Hi as [Hm|(f & Hm & Hf)]; unfold mode_of in Hm; injection Hm as Hm1 Hm2; rewrite Hm2 in E.
  - injection E as <-. unfold mode_of. by rewrite Hm1, Hm2.
  - unfold set_live_saved, py_modify in E. cbn [lk_features lk_set_client] in E. rewrite Hm1 in E.
    destruct (Z.eqb_spec f0 f) as [->|Hne]; cbn [negb] in E.
    + injection E as <-. unfold mode_of. simpl. by rewrite Hm1.
    + fold (clear_saved l) in E. change (lk_set_client _ l) with (clear_saved l) in E.
      destruct (l_nop have_numpy budget handler f0 (clear_saved l)) as [[g|e] l2] eqn:En; [|done].
      injection E as <-. assert (Hgf : g = f0) by (apply (Hgr f0 Hm2 ltac:(congruence) g l2 En)).
      apply nop_mode in En; [|done]. by rewrite En.
Qed.

Lemma readmem_mode f0 a s live l d l' :
  mode_inv f0 l -> grant_here live l -> q_readmem have_numpy budget handler a s live l = (Ok d, l') ->
  mode_inv f0 l' /\ (if live then csums_off (lk_features l') = true else mode_of l' = (f0, None)).
Proof.
  intros Hi Hgr E. unfold q_readmem in E. destruct live; cbn [negb] in E.
  - unfold client, py_bind, py_get in E.
    destruct Hi as [Hm|(f & Hm & Hf)]; pose proof Hm as Hm'; unfold mode_of in Hm'; injection Hm' as Hm1 Hm2; rewrite Hm2 in E.
    + rewrite Hm1 in E. destruct (csums_off f0) eqn:Ef; cbn [negb] in E.
      * unfold set_live_saved, py_modify, py_ret in E. apply keeps_readmem in E.
        unfold mode_inv. rewrite E. unfold mode_of at 1 2. cbn. rewrite Hm1. split; [right; by exists f0|].
        unfold mode_of in E. injection E as Ea _. simpl in Ea. by rewrite Ea, Hm1.
      * destruct (l_nop have_numpy budget handler FEATURE_DISABLE_DATA_CSUMS l) as [[g|e] l1] eqn:En; [|done].
        assert (Hgf : g = FEATURE_DISABLE_DATA_CSUMS) by (apply (Hgr Hm2 ltac:(congruence) g l1 En)).
        apply nop_mode in En; [|done]. unfold set_live_saved, py_modify, py_ret in E. apply keeps_readmem in E.
        unfold mode_of in En. injection En as Ea Eb. unfold mode_inv. rewrite E. unfold mode_of at 1 2. cbn. rewrite Ea.
        split; [right; by exists 1|]. unfold mode_of in E. injection E as Ec _. simpl in Ec. by rewrite Ec, Ea.
    + apply keeps_readmem in E. unfold mode_inv. rewrite E, Hm. split; [right; by exists f|].
      unfold mode_of in E. injection E as Ec _. by rewrite Ec, Hm1.
  - unfold py_bind in E. destruct (q_end_live have_numpy budget handler l) as [[[]|e] l1] eqn:E1; [|done].
    apply (end_live_mode f0) in E1; [|done|done]. apply keeps_readmem in E. unfold mode_inv. rewrite E, E1. by split; [left|].
Qed.

(** A run of reads, [(address, size, live)] each. *)
Fixpoint run_reads (rs : list (Z * Z * bool)) : M L unit :=
  match rs with
  | [] => py_ret tt
  | (a, s, live) :: r => q_readmem have_numpy budget handler a s live ;;; run_reads r
  end.

(** Every renegotiation of the run is granted. *)
Fixpoint granted (rs : list (Z * Z * bool)) (l : L) : Prop :=
  match rs with
  | [] => True
  | (a, s, live) :: r =>
      grant_here live l /\ granted r (q_readmem have_numpy budget handler a s live l).2
  end.

Lemma run_reads_mode f0 rs : forall l l', mode_inv f0 l -> granted rs l -> run_reads rs l = (Ok tt, l') -> mode_inv f0 l'.
Proof.
  induction rs as [|[[a s] live] rs IH]; intros l l' Hi Hg E; cbn [run_reads] in E.
  { by injection E as <-. }
  destruct Hg as [Hg1 Hg2]. unfold py_bind in E.
  destruct (q_readmem have_numpy budget handler a s live l) as [[d|e] l1] eqn:E1; [|done].
  destruct (readmem_mode f0 a s live l d l1 Hi Hg1 E1) as [Hi1 _]. by eapply IH.
Qed.

Lemma granted_app rs1 rs2 : forall l l',
  run_reads rs1 l = (Ok tt, l') -> granted (rs1 ++ rs2) l -> granted rs1 l /\ granted rs2 l'.
Proof.
  induction rs1 as [|[[a s] live] rs1 IH]; intros l l' E Hg; cbn [run_reads app granted] in *.
  { by injection E as <-. }
  destruct Hg as [Hg1 Hg2]. unfold py_bind in E.
  destruct (q_readmem have_numpy budget handler a s live l) as [[d|e] l1] eqn:E1; [|done].
  destruct (IH _ _ E Hg2) as [H1 H2]. by split_and!.
Qed.

End LiveMode.

(** Live reads do not leak their mode: starting from negotiated features [f0],
    after any run of live and checked reads, a checked read is made with exactly
    the features [f0] (so its data is checksummed whenever the session negotiated
    checksums) and a live read with checksums off.  It assumes only that the
    target grants the renegotiations of the run and that the exception callback
    leaves the mode alone. *)
Theorem live_mode_transparent {T} `{!Transport T} have_numpy budget handler (l l1 l2 : link T proxy_st) f0 rs a s live d
    (Hhandler : forall code info, keeps_mode (handler code info))
    (Hgrant : granted have_numpy budget handler (rs ++ [(a, s, live)]) l)
    (H0 : lk_features l = f0) (Hn : ps_live_saved (lk_client l) = None)
    (Hrun : run_reads have_numpy budget handler rs l = (Ok tt, l1))
    (Hread : q_readmem have_numpy budget handler a s live l1 = (Ok d, l2)) :
  if live then csums_off (lk_features l2) = true
  else lk_features l2 = f0 /\ ps_live_saved (lk_client l2) = None.
Proof.
  destruct (granted_app have_numpy budget handler rs _ _ _ Hrun Hgrant) as [Hg1 [Hg2 _]].
  assert (Hi : mode_inv f0 l1).
  { apply (run_reads_mode have_numpy budget handler Hhandler f0 rs l l1); [|done|done].
    left. unfold mode_of. congruence. }
  destruct (readmem_mode have_numpy budget handler Hhandler f0 a s live l1 d l2 Hi Hg2 Hread) as [_ Hx].
  destruct live; [done|]. unfold mode_of in Hx. by injection Hx as -> ->.
Qed.

(** A session with a live read of one byte, then a checked one. *)
Definition live_session : list bytes :=
  [encode_reply REQ_NOP 0 (ljust 24 [Byte.x01]);
   encode_reply REQ_MEMREAD 0 (le_bytes 4 CHECKSUM_SENTINEL ++ replicate 20 Byte.x00); [Byte.x41];
   le_bytes 4 DATA_END_SENTINEL;
   encode_reply REQ_NOP 0 (ljust 24 []);
   read_exchange (uart_checksum [Byte.x42]) (replicate 20 Byte.x00) [Byte.x42]].

Lemma live_mode_transparent_witness :
  let h := (fun _ _ => py_ret tt) : Z -> Z -> M (link tty proxy_st) unit in
  let l := link_init (Tty (map RBlock live_session) [] []) proxy_st_init in
  let l1 := (run_reads false 9 h [(0x1000, 1, true)] l).2 in
  let l2 := (q_readmem false 9 h 0x2000 1 false l1).2 in
  lk_features l1 = 1 /\ (lk_features l2 = 0 /\ ps_live_saved (lk_client l2) = None).
Proof.
  intros h l l1 l2. split; [vm_compute; reflexivity|].
  apply (live_mode_transparent false 9 h l l1 l2 0 [(0x1000, 1, true)] 0x2000 1 false [Byte.x42]).
  - intros code info. apply keeps_ret.
  - split; [|split; [|exact Logic.I]].
    + intros _ _ r l' E. vm_compute in E. injection E as <- _. reflexivity.
    + intros saved Hs _ r l' E. vm_compute in Hs. injection Hs as <-. vm_compute in E. injection E as <- _. reflexivity.
  - reflexivity.
  - reflexivity.
  - vm_compute. reflexivity.
  - vm_compute. reflexivity.
Defined.
