(* ===== verification/GptSurvey.v ===== *)
(** * tools/gpt_survey.py: decoding and checking the partition table record

    [parse_record] validates the layout of the record q1n1 left in memory,
    [decode_gpt] checks both GPT copies and collects the problems it finds,
    [unallocated] computes the free extents.  Error messages are the
    constructors of [gpt_error]; [zlib.crc32] is its bit-serial definition. *)

From S2P Require Import Prelude Bytes Utils.
From Stdlib Require Import ZArith Lia Sorted.
From Stdlib Require Import Strings.Byte Strings.String.
From stdpp Require Import base list numbers strings.

Local Open Scope Z_scope.

Definition MAGIC := 0x31545047314E3151.
Definition VERSION := 1.
Definition BLOCK : nat := 64 * 64.
Definition ARRAY : nat := 256 * 256.
Definition PATH : nat := 256.
Definition MAX_DISKS : nat := 4.
Definition READ_LIMIT := Z.shiftl 2 20.
Definition MIB := Z.shiftl 1 20.

Definition HEADER_FIELDS : list string := (
  ["magic"; "version"; "size"; "disk_size"; "max_disks"; "off_lba0"; "off_primary"; "off_backup";
   "off_primary_array"; "off_backup_array"; "off_path"; "off_scalars"; "off_disks"; "status"; "phase";
   "handles"; "examined"; "candidates"; "recorded"; "reads"; "skipped_absent"; "skipped_logical";
   "skipped_removable"; "skipped_geometry"; "skipped_no_media"])%string.

Definition DISK_FIELDS : list string := (
  ["status"; "flags"; "handle_index"; "revision"; "media_id"; "block_size"; "io_align"; "last_block";
   "removable"; "present"; "logical_partition"; "read_only"; "reads"; "path_bytes"; "primary_array_lba";
   "primary_array_bytes"; "backup_lba"; "backup_array_lba"; "backup_array_bytes"])%string.

Definition TYPES : list (string * string) := (
  [("c12a7328-f81f-11d2-ba4b-00a0c93ec93b", "EFI system");
   ("e3c9e316-0b5c-4db8-817d-f92df00215ae", "Microsoft reserved");
   ("ebd0a0a2-b9e5-4433-87c0-68b6b72699c7", "Basic data");
   ("de94bba4-06d1-4d40-a16a-bfd50179d6ac", "Windows recovery");
   ("7c3457ef-0000-11aa-aa11-00306543ecac", "Apple APFS");
   ("69646961-6700-11aa-aa11-00306543ecac", "Apple iBootSystemContainer");
   ("52637672-7900-11aa-aa11-00306543ecac", "Apple RecoveryOSContainer")])%string.

(** The [LAYOUT] dictionary and the sizes derived from it. *)
Definition off_lba0 : nat := 0.
Definition off_primary : nat := BLOCK.
Definition off_backup : nat := 2 * BLOCK.
Definition off_primary_array : nat := 3 * BLOCK.
Definition off_backup_array : nat := 3 * BLOCK + ARRAY.
Definition off_path : nat := 3 * BLOCK + 2 * ARRAY.
Definition off_scalars : nat := 3 * BLOCK + 2 * ARRAY + PATH.
Definition off_disks : nat := 8 * length HEADER_FIELDS.
Definition LAYOUT : list (string * nat) :=
  ([("off_lba0", off_lba0); ("off_primary", off_primary); ("off_backup", off_backup);
    ("off_primary_array", off_primary_array); ("off_backup_array", off_backup_array); ("off_path", off_path);
    ("off_scalars", off_scalars); ("off_disks", off_disks)])%string.
Definition DISK_SIZE : nat := off_scalars + 8 * length DISK_FIELDS.
Definition RECORD_SIZE : nat := off_disks + MAX_DISKS * DISK_SIZE.

Definition field (r : list (string * Z)) (name : string) : Z :=
  match List.find (fun e => String.eqb (fst e) name) r with Some e => snd e | None => 0 end.

Definition FLAGS : list (Z * string) :=
  ([(1, "lba0"); (2, "primary"); (4, "primary-array"); (8, "backup"); (16, "backup-array"); (32, "array-too-large");
    (64, "path-truncated"); (128, "nvme"); (256, "primary-not-gpt"); (512, "backup-not-gpt");
    (1024, "array-out-of-range")])%string.
Definition flag_names (flags : Z) : list string :=
  map snd (List.filter (fun e => negb (Z.land flags (fst e) =? 0)) FLAGS).

(** ** [parse_record] *)
Record disk := Disk {
  d_fields : list (string * Z);
  d_lba0 : bytes; d_primary : bytes; d_backup : bytes;
  d_primary_array : bytes; d_backup_array : bytes; d_path : bytes;
  d_flag_names : list string
}.
Definition d_block_size (d : disk) : Z := field (d_fields d) "block_size".

Definition block_size_ok (bs : Z) : bool := (bs =? 512) || (bs =? 1024) || (bs =? 2048) || (bs =? 4096).

Definition parse_disk (raw : bytes) (n : nat) : result disk :=
  let base := (off_disks + n * DISK_SIZE)%nat in
  let? vals := unpack_Qs (length DISK_FIELDS) (base + off_scalars) raw in
  let d := zip DISK_FIELDS vals in
  let bs := field d "block_size" in
  if negb (block_size_ok bs) || (Z.of_nat PATH <? field d "path_bytes") || (5 <? field d "reads")
  then Raise (SurveyError "implausible scalars") else
  if (Z.of_nat ARRAY <? field d "primary_array_bytes") || negb (field d "primary_array_bytes" mod bs =? 0)
  then Raise (SurveyError "primary_array_bytes out of bounds") else
  if (Z.of_nat ARRAY <? field d "backup_array_bytes") || negb (field d "backup_array_bytes" mod bs =? 0)
  then Raise (SurveyError "backup_array_bytes out of bounds") else
  let blob off (len : Z) := slice (base + off) (base + off + Z.to_nat len) raw in
  Ok {| d_fields := d;
        d_lba0 := blob off_lba0 bs; d_primary := blob off_primary bs; d_backup := blob off_backup bs;
        d_primary_array := blob off_primary_array (field d "primary_array_bytes");
        d_backup_array := blob off_backup_array (field d "backup_array_bytes");
        d_path := blob off_path (field d "path_bytes");
        d_flag_names := flag_names (field d "flags") |}.

Fixpoint parse_disks (raw : bytes) (n k : nat) : result (list disk) :=
  match k with
  | O => Ok []
  | S k' => let? d := parse_disk raw n in let? r := parse_disks raw (S n) k' in Ok (d :: r)
  end.

Definition parse_record (raw : bytes) : result (list (string * Z) * list disk) :=
  if Nat.ltb (length raw) (8 * length HEADER_FIELDS) then Raise (SurveyError "record shorter than its header") else
  let? vals := unpack_Qs (length HEADER_FIELDS) 0 raw in
  let header := zip HEADER_FIELDS vals in
  if negb (field header "magic" =? MAGIC) || negb (field header "version" =? VERSION)
  then Raise (SurveyError "not a q1n1 GPT survey record") else
  if negb (field header "size" =? Z.of_nat RECORD_SIZE) || negb (Nat.eqb (length raw) RECORD_SIZE)
     || negb (field header "disk_size" =? Z.of_nat DISK_SIZE) || negb (field header "max_disks" =? Z.of_nat MAX_DISKS)
     || existsb (fun e => negb (field header (fst e) =? Z.of_nat (snd e))) LAYOUT
  then Raise (SurveyError "record layout differs from this tool; rebuild both from one tree") else
  if (Z.of_nat MAX_DISKS <? field header "recorded") || (field header "candidates" <? field header "recorded")
  then Raise (SurveyError "record claims more disks than it can hold") else
  let? disks := parse_disks raw 0 (Z.to_nat (field header "recorded")) in
  Ok (header, disks).

(** ** GUIDs, CRC and names *)

(** [str(uuid.UUID(bytes_le=raw))]. *)
Definition DASH : byte := Byte.x2d.
Definition guid (raw : bytes) : result bytes :=
  if negb (Nat.eqb (length raw) 16) then Raise (ValueError "bytes_le is not a 16-char string") else
  let hex l := concat (map hex2 l) in
  Ok (hex (reverse (slice 0 4 raw)) ++ [DASH] ++ hex (reverse (slice 4 6 raw)) ++ [DASH] ++
      hex (reverse (slice 6 8 raw)) ++ [DASH] ++ hex (slice 8 10 raw) ++ [DASH] ++ hex (slice 10 16 raw)).

Definition type_name (t : bytes) : string :=
  match List.find (fun e => bytes_eqb (list_byte_of_string (fst e)) t) TYPES with Some e => snd e | None => EmptyString end.

(** [zlib.crc32]: reflected polynomial 0xEDB88320. *)
Definition crc32_bit (c : Z) : Z := if Z.odd c then Z.lxor (Z.shiftr c 1) 0xEDB88320 else Z.shiftr c 1.
Definition crc32 (d : bytes) : Z :=
  Z.lxor (fold_left (fun c x => Nat.iter 8 crc32_bit (Z.lxor c (byte_to_Z x))) d 0xFFFFFFFF) 0xFFFFFFFF.

(** [.decode('utf-16le', 'replace').split('\0', 1)[0]] as code points. *)
Fixpoint utf16_units (d : bytes) : list Z :=
  match d with
  | a :: b :: r => byte_to_Z a + 256 * byte_to_Z b :: utf16_units r
  | [_] => [0xFFFD]
  | [] => []
  end.
Definition is_high (u : Z) : bool := (0xD800 <=? u) && (u <=? 0xDBFF).
Definition is_low (u : Z) : bool := (0xDC00 <=? u) && (u <=? 0xDFFF).
Fixpoint utf16_text (l : list Z) : list Z :=
  match l with
  | [] => []
  | u :: r =>
      if is_high u then
        match r with
        | v :: r' => if is_low v then 0x10000 + (u - 0xD800) * 1024 + (v - 0xDC00) :: utf16_text r' else 0xFFFD :: utf16_text r
        | [] => [0xFFFD]
        end
      else if is_low u then 0xFFFD :: utf16_text r
      else u :: utf16_text r
  end.
Fixpoint until_zero (l : list Z) : list Z :=
  match l with [] => [] | u :: r => if u =? 0 then [] else u :: until_zero r end.
Definition part_name (d : bytes) : list Z := until_zero (utf16_text (utf16_units d)).

(** ** Headers and entries *)
Inductive side := Primary | Backup.

Inductive gpt_error :=
| EMbr
| ENoSignature (s : side) | EHeaderSize (s : side) | EHeaderCrc (s : side) | EEntryShape (s : side)
| EUnavailable (s : side)
| EArrayShort (s : side) | EArrayCrc (s : side)
| EPrimaryLba | EAlternateLba | EUsableRange | EBackupLbas
| EHeadersDiffer (key : string) | EEntriesDiffer
| EInverted (index : Z) | EOutside (index : Z) | EDuplicateGuid (index : Z) | EOverlap (a b : Z)
| EFirmwareStatus | EArrayTooLarge.

Record gpt_header := GptHeader {
  h_my_lba : Z; h_alternate_lba : Z; h_first_usable : Z; h_last_usable : Z;
  h_disk_guid : bytes; h_entries_lba : Z; h_count : Z; h_entry_size : Z; h_array_crc : Z;
  h_header_crc : Z; h_header_size : Z; h_revision : Z
}.

Definition EFI_PART : bytes := list_byte_of_string "EFI PART".

(** [_header]: the parsed header, if any, and the problems found. *)
Definition gpt_header_of (s : side) (block : bytes) (block_size : Z) : result (option gpt_header * list gpt_error) :=
  if negb (bytes_eqb (take 8 block) EFI_PART) then Ok (None, [ENoSignature s]) else
  let? rev := unpack_u 4 8 block in
  let? size := unpack_u 4 12 block in
  let? crc := unpack_u 4 16 block in
  let? mine := unpack_u 8 24 block in
  let? other := unpack_u 8 32 block in
  let? first := unpack_u 8 40 block in
  let? last := unpack_u 8 48 block in
  let? entries := unpack_u 8 72 block in
  let? count := unpack_u 4 80 block in
  let? esize := unpack_u 4 84 block in
  let? array_crc := unpack_u 4 88 block in
  let? g := guid (slice 56 72 block) in
  let h := {| h_my_lba := mine; h_alternate_lba := other; h_first_usable := first; h_last_usable := last;
              h_disk_guid := g; h_entries_lba := entries; h_count := count; h_entry_size := esize;
              h_array_crc := array_crc; h_header_crc := crc; h_header_size := size; h_revision := rev |} in
  if negb ((92 <=? size) && (size <=? block_size)) then Ok (Some h, [EHeaderSize s]) else
  let raw := take (Z.to_nat size) block in
  let raw := take 16 raw ++ replicate 4 Byte.x00 ++ drop 20 raw in
  let e1 := if crc32 raw =? crc then [] else [EHeaderCrc s] in
  let e2 := if (esize <? 128) || negb (Z.land esize (esize - 1) =? 0) || (count =? 0) then [EEntryShape s] else [] in
  Ok (Some h, e1 ++ e2).

Record part := Part {
  p_index : Z; p_type : bytes; p_type_name : string; p_guid : bytes;
  p_first : Z; p_last : Z; p_attrs : Z; p_name : list Z
}.

#[global] Instance part_eq_dec : EqDecision part.
Proof. solve_decision. Defined.

(** One iteration of the entry loop. *)
Definition gpt_entry (i : nat) (e : bytes) : result (option part) :=
  if bytes_eqb (take 16 e) (replicate 16 Byte.x00) then Ok None else
  let? first := unpack_u 8 32 e in
  let? last := unpack_u 8 40 e in
  let? attrs := unpack_u 8 48 e in
  let? t := guid (take 16 e) in
  let? g := guid (slice 16 32 e) in
  Ok (Some {| p_index := Z.of_nat i; p_type := t; p_type_name := type_name t; p_guid := g;
              p_first := first; p_last := last; p_attrs := attrs; p_name := part_name (slice 56 128 e) |}).

Fixpoint gpt_entry_loop (array : bytes) (esize i k : nat) : result (list part) :=
  match k with
  | O => Ok []
  | S k' =>
      let? p := gpt_entry i (slice (i * esize) ((i + 1) * esize) array) in
      let? r := gpt_entry_loop array esize (S i) k' in
      Ok (match p with Some p => p :: r | None => r end)
  end.

(** [_entries]. *)
Definition gpt_entries (s : side) (array : bytes) (h : gpt_header) : result (option (list part) * list gpt_error) :=
  let need := h_count h * h_entry_size h in
  if zlen array <? need then Ok (None, [EArrayShort s]) else
  let errs := if crc32 (take (Z.to_nat need) array) =? h_array_crc h then [] else [EArrayCrc s] in
  let? parts := gpt_entry_loop array (Z.to_nat (h_entry_size h)) 0 (Z.to_nat (h_count h)) in
  Ok (Some parts, errs).

(** ** Free extents *)

(** [sorted(parts, key=first_lba)]: stable. *)
Fixpoint insert_part (x : part) (l : list part) : list part :=
  match l with
  | [] => [x]
  | y :: r => if p_first x <=? p_first y then x :: y :: r else y :: insert_part x r
  end.
Definition sort_parts (l : list part) : list part := fold_right insert_part [] l.

Fixpoint gap_loop (parts : list part) (cursor : Z) : list (Z * Z) * Z :=
  match parts with
  | [] => ([], cursor)
  | x :: r =>
      let '(gs, c) := gap_loop r (Z.max cursor (p_last x + 1)) in
      ((if cursor <? p_first x then [(cursor, p_first x - 1)] else []) ++ gs, c)
  end.

Record extent := Extent {
  x_first : Z; x_last : Z; x_blocks : Z; x_offset : Z; x_end : Z; x_bytes : Z; x_aligned_offset : Z; x_aligned_bytes : Z
}.

Definition extent_of (block_size align : Z) (fl : Z * Z) : extent :=
  let '(first, last) := fl in
  let start := first * block_size in
  let end_ := (last + 1) * block_size in
  let a_start := - (- start / align) * align in
  let a_end := end_ / align * align in
  {| x_first := first; x_last := last; x_blocks := last - first + 1; x_offset := start; x_end := end_;
     x_bytes := end_ - start; x_aligned_offset := a_start; x_aligned_bytes := Z.max 0 (a_end - a_start) |}.

Definition unallocated (parts : list part) (first_usable last_usable block_size align : Z) : list extent :=
  let '(gs, cursor) := gap_loop (sort_parts parts) first_usable in
  map (extent_of block_size align) (gs ++ (if cursor <=? last_usable then [(cursor, last_usable)] else [])).

(** ** [decode_gpt] *)
Record decoded := Decoded {
  g_block_size : Z; g_last_block : Z;
  g_primary : option gpt_header; g_backup : option gpt_header;
  g_partitions : list part;
  g_unallocated : option (list extent);
  g_errors : list gpt_error;
  g_warnings : list string
}.

(** The derived entries of the result dictionary. *)
Definition g_blocks (g : decoded) : Z := g_last_block g + 1.
Definition g_disk_bytes (g : decoded) : Z := (g_last_block g + 1) * g_block_size g.
Definition g_header (g : decoded) : option gpt_header := match g_primary g with Some h => Some h | None => g_backup g end.
Definition g_disk_guid (g : decoded) : option bytes := option_map h_disk_guid (g_header g).
Definition p_bytes (block_size : Z) (x : part) : Z :=
  if p_first x <=? p_last x then (p_last x - p_first x + 1) * block_size else 0.
Definition p_offset (block_size : Z) (x : part) : Z := p_first x * block_size.

(** The two byte checks of the protective MBR; indexing past the end raises. *)
Definition mbr_ok (lba0 : bytes) : bool :=
  negb (Nat.ltb (length lba0) 512) && bytes_eqb (slice 510 512 lba0) [Byte.x55; Byte.xaa]
  && match lba0 !! 450%nat with Some b => byte_to_Z b =? 0xEE | None => false end.

Definition header_if (s : side) (block : bytes) (block_size : Z) : result (option gpt_header * list gpt_error) :=
  match block with [] => Ok (None, []) | _ => gpt_header_of s block block_size end.

Definition entries_if (s : side) (h : option gpt_header) (array : bytes) : result (option (list part) * list gpt_error) :=
  match h, array with
  | Some h, _ :: _ => gpt_entries s array h
  | _, _ => Ok (None, [])
  end.

Definition err_if (b : bool) (e : gpt_error) : list gpt_error := if b then [e] else [].

Definition primary_checks (p : option gpt_header) (last_block : Z) : list gpt_error :=
  match p with
  | None => []
  | Some p =>
      err_if (negb (h_my_lba p =? 1)) EPrimaryLba ++
      err_if (negb (h_alternate_lba p =? last_block)) EAlternateLba ++
      err_if (negb ((2 <=? h_entries_lba p) && (h_first_usable p <=? h_last_usable p) && (h_last_usable p <? last_block)))
        EUsableRange
  end.

Definition backup_checks (b : option gpt_header) (last_block : Z) : list gpt_error :=
  match b with
  | None => []
  | Some b => err_if (negb (h_my_lba b =? last_block) || negb (h_alternate_lba b =? 1)) EBackupLbas
  end.

Definition agree_checks (p b : option gpt_header) : list gpt_error :=
  match p, b with
  | Some p, Some b =>
      err_if (negb (bytes_eqb (h_disk_guid p) (h_disk_guid b))) (EHeadersDiffer "disk_guid") ++
      err_if (negb (h_first_usable p =? h_first_usable b)) (EHeadersDiffer "first_usable") ++
      err_if (negb (h_last_usable p =? h_last_usable b)) (EHeadersDiffer "last_usable") ++
      err_if (negb (h_count p =? h_count b)) (EHeadersDiffer "count") ++
      err_if (negb (h_entry_size p =? h_entry_size b)) (EHeadersDiffer "entry_size") ++
      err_if (negb (h_array_crc p =? h_array_crc b)) (EHeadersDiffer "array_crc")
  | _, _ => []
  end.

(** The loop over the partitions with the set of GUIDs seen. *)
Fixpoint part_checks (first_usable last_usable : Z) (seen : list bytes) (l : list part) : list gpt_error :=
  match l with
  | [] => []
  | x :: r =>
      err_if (p_last x <? p_first x) (EInverted (p_index x)) ++
      err_if ((p_first x <? first_usable) || (last_usable <? p_last x)) (EOutside (p_index x)) ++
      err_if (existsb (bytes_eqb (p_guid x)) seen) (EDuplicateGuid (p_index x)) ++
      part_checks first_usable last_usable (p_guid x :: seen) r
  end.

Fixpoint overlap_checks (l : list part) : list gpt_error :=
  match l with
  | a :: ((c :: _) as r) => err_if (p_first c <=? p_last a) (EOverlap (p_index a) (p_index c)) ++ overlap_checks r
  | _ => []
  end.

Definition decode_gpt (block_size last_block : Z) (lba0 primary primary_array backup backup_array : bytes) : result decoded :=
  let e0 := err_if (negb (mbr_ok lba0)) EMbr in
  let? '(p, ep) := header_if Primary primary block_size in
  let? '(b, eb) := header_if Backup backup block_size in
  let e1 := (match p with None => [EUnavailable Primary] | Some _ => [] end) ++
            (match b with None => [EUnavailable Backup] | Some _ => [] end) in
  let? '(pp, epp) := entries_if Primary p primary_array in
  let? '(bp, ebp) := entries_if Backup b backup_array in
  let e2 := primary_checks p last_block ++ backup_checks b last_block ++ agree_checks p b in
  let e3 := match pp, bp with Some x, Some y => err_if (negb (bool_decide (x = y))) EEntriesDiffer | _, _ => [] end in
  let parts := match pp with Some x => x | None => default [] bp end in
  let ordered := sort_parts parts in
  let hdr := match p with Some _ => p | None => b end in
  let e4 := match hdr with
            | Some h => part_checks (h_first_usable h) (h_last_usable h) [] ordered ++ overlap_checks ordered
            | None => []
            end in
  Ok {| g_block_size := block_size; g_last_block := last_block; g_primary := p; g_backup := b;
        g_partitions := ordered;
        g_unallocated := match hdr with
                         | Some h => Some (unallocated ordered (h_first_usable h) (h_last_usable h) block_size MIB)
                         | None => None end;
        g_errors := e0 ++ ep ++ eb ++ e1 ++ epp ++ ebp ++ e2 ++ e3 ++ e4;
        g_warnings := [] |}.

(** ** Device paths, records and raw captures *)

Inductive node :=
| NAcpi (hid uid : Z) | NPci (dev fn : Z) | NNvme (nsid : Z) (eui : bytes) | NUsb | NOther (kind sub : Z) | NTruncated.

(** The node loop: each node is at least four bytes long. *)
Fixpoint device_path_loop (fuel : nat) (raw : bytes) : result (list node) :=
  match fuel with
  | O => Raise OutOfFuel
  | S k =>
      match raw with
      | kind :: sub :: a :: b :: _ =>
          let kind := byte_to_Z kind in let sub := byte_to_Z sub in
          let len := byte_to_Z a + 256 * byte_to_Z b in
          if (len <? 4) || (zlen raw <? len) then Ok [NTruncated] else
          let body := slice 4 (Z.to_nat len) raw in
          if (kind =? 0x7F) && (sub =? 0xFF) then Ok [] else
          let? n := (if (kind =? 2) && (sub =? 1) && (8 <=? zlen body) then
                       let? hid := unpack_u 4 0 body in let? uid := unpack_u 4 4 body in Ok (NAcpi hid uid)
                     else if (kind =? 1) && (sub =? 1) && (2 <=? zlen body) then
                       let? d := unpack_u 1 1 body in let? f := unpack_u 1 0 body in Ok (NPci d f)
                     else if (kind =? 3) && (sub =? 0x17) && (12 <=? zlen body) then
                       let? nsid := unpack_u 4 0 body in Ok (NNvme nsid (slice 4 12 body))
                     else if (kind =? 3) && (sub =? 5) then Ok NUsb
                     else Ok (NOther kind sub)) in
          let? r := device_path_loop k (drop (Z.to_nat len) raw) in
          Ok (n :: r)
      | _ => Ok []
      end
  end.
Definition device_path (raw : bytes) : result (list node) := device_path_loop (S (length raw)) raw.

(** The [info] dictionary of [device_path]: first ACPI uid, all PCI functions,
    last NVMe namespace, whether a USB node was seen. *)
Record path_info := PathInfo {
  i_acpi_uid : option Z; i_pci : list (Z * Z); i_nvme : option (Z * bytes); i_usb : bool
}.
Definition info_step (i : path_info) (n : node) : path_info :=
  match n with
  | NAcpi _ uid => PathInfo (match i_acpi_uid i with Some u => Some u | None => Some uid end) (i_pci i) (i_nvme i) (i_usb i)
  | NPci d f => PathInfo (i_acpi_uid i) (i_pci i ++ [(d, f)]) (i_nvme i) (i_usb i)
  | NNvme nsid eui => PathInfo (i_acpi_uid i) (i_pci i) (Some (nsid, eui)) (i_usb i)
  | NUsb => PathInfo (i_acpi_uid i) (i_pci i) (i_nvme i) true
  | NOther _ _ | NTruncated => i
  end.
Definition device_info (ns : list node) : path_info := fold_left info_step ns (PathInfo None [] None false).

(** [_eui_matches] on the raw EUI bytes: either byte order. *)
Definition eui_matches (i : path_info) (want : bytes) : bool :=
  match i_nvme i with
  | Some (_, eui) => match eui with [] => false | _ => bytes_eqb want eui || bytes_eqb want (reverse eui) end
  | None => false
  end.

Definition flag (d : disk) (bit : Z) : bool := negb (Z.land (field (d_fields d) "flags") bit =? 0).

Definition decode_disk (d : disk) : result decoded :=
  let? g := decode_gpt (d_block_size d) (field (d_fields d) "last_block") (d_lba0 d)
              (if flag d 2 then d_primary d else []) (d_primary_array d)
              (if flag d 8 then d_backup d else []) (d_backup_array d) in
  Ok {| g_block_size := g_block_size g; g_last_block := g_last_block g; g_primary := g_primary g;
        g_backup := g_backup g; g_partitions := g_partitions g; g_unallocated := g_unallocated g;
        g_errors := g_errors g ++ err_if (negb (field (d_fields d) "status" =? 0)) EFirmwareStatus
                      ++ err_if (flag d 32) EArrayTooLarge;
        g_warnings := g_warnings g ++ (if flag d 64 then ["device path truncated"%string] else []) |}.

Fixpoint decode_disks (ds : list disk) : result (list (disk * decoded * list node)) :=
  match ds with
  | [] => Ok []
  | d :: r => let? g := decode_disk d in let? n := device_path (d_path d) in
              let? t := decode_disks r in Ok ((d, g, n) :: t)
  end.

Definition add_warning (w : string) (g : decoded) : decoded :=
  {| g_block_size := g_block_size g; g_last_block := g_last_block g; g_primary := g_primary g;
     g_backup := g_backup g; g_partitions := g_partitions g; g_unallocated := g_unallocated g;
     g_errors := g_errors g; g_warnings := g_warnings g ++ [w] |}.

Definition decode_record (raw : bytes) : result (list (string * Z) * list (disk * decoded * list node)) :=
  let? '(header, disks) := parse_record raw in
  let? rs := decode_disks disks in
  Ok (header, if field header "examined" <? field header "handles"
              then match rs with
                   | (d, g, n) :: r => (d, add_warning "only some of the handles examined" g, n) :: r
                   | [] => []
                   end
              else rs).

(** [pinned_disk]: which disk the pins select; [inr k] when [k] match instead
    of one. *)
Definition pin_matches (want_eui want_guid : option bytes) (r : disk * decoded * list node) : bool :=
  let '(_, g, ns) := r in
  match want_eui with Some w => eui_matches (device_info ns) w | None => true end
  && match want_guid with
     | Some w => match g_disk_guid g with Some h => bytes_eqb h w | None => false end
     | None => true
     end.
Fixpoint pin_hits (want_eui want_guid : option bytes) (n : nat) (l : list (disk * decoded * list node)) : list nat :=
  match l with
  | [] => []
  | r :: t => if pin_matches want_eui want_guid r then n :: pin_hits want_eui want_guid (S n) t
              else pin_hits want_eui want_guid (S n) t
  end.
Definition pinned_disk (want_eui want_guid : option bytes) (l : list (disk * decoded * list node)) : option nat + nat :=
  match want_eui, want_guid with
  | None, None => inl None
  | _, _ => match pin_hits want_eui want_guid 0 l with [n] => inl (Some n) | hits => inr (length hits) end
  end.

(** [raw_windows]: the first and last bytes of the disk as captured. *)
Definition raw_at (first last : bytes) (disk_bytes block_size lba nbytes : Z) : result bytes :=
  let off := lba * block_size in
  let window_start := disk_bytes - zlen last in
  if off + nbytes <=? zlen first then Ok (slice (Z.to_nat off) (Z.to_nat (off + nbytes)) first)
  else if window_start <=? off
  then Ok (slice (Z.to_nat (off - window_start)) (Z.to_nat (off - window_start + nbytes)) last)
  else Raise (SurveyError "LBA is outside the captured windows").

Definition raw_array (first last : bytes) (disk_bytes block_size : Z) (block : bytes) : result bytes :=
  if negb (bytes_eqb (take 8 block) EFI_PART) then Ok [] else
  let? entries := unpack_u 8 72 block in
  let? count := unpack_u 4 80 block in
  let? esize := unpack_u 4 84 block in
  let need := - (- count * esize / block_size) * block_size in
  if (0 <? need) && (need <=? Z.of_nat ARRAY) then raw_at first last disk_bytes block_size entries need else Ok [].

Definition raw_windows (first last : bytes) (disk_bytes block_size : Z) : result decoded :=
  if block_size =? 0 then Raise ZeroDivisionError else
  if negb (disk_bytes mod block_size =? 0) || (zlen first <? 2 * block_size) || (zlen last <? block_size)
  then Raise (SurveyError "raw capture geometry is inconsistent") else
  let last_block := disk_bytes / block_size - 1 in
  let at_ := raw_at first last disk_bytes block_size in
  let? primary := at_ 1 block_size in
  let? backup := at_ last_block block_size in
  let? lba0 := at_ 0 block_size in
  let? pa := raw_array first last disk_bytes block_size primary in
  let? ba := raw_array first last disk_bytes block_size backup in
  decode_gpt block_size last_block lba0 primary pa backup ba.

(** [ReadOnlyProxy.readmem]'s guard. *)
Definition read_allowed (size : Z) : bool := (0 <? size) && (size <=? READ_LIMIT).

(** ** Sorting *)

Definition by_first (a b : part) : Prop := p_first a <= p_first b.

Lemma insert_part_perm x l : insert_part x l ≡ₚ x :: l.
Proof.
  induction l as [|y l IH]; [done|]. simpl. destruct (p_first x <=? p_first y); [done|].
  rewrite IH. apply Permutation_swap.
Qed.

Lemma sort_parts_perm l : sort_parts l ≡ₚ l.
Proof. induction l as [|x l IH]; [done|]. simpl. by rewrite insert_part_perm, IH. Qed.

Lemma insert_part_sorted x l : StronglySorted by_first l -> StronglySorted by_first (insert_part x l).
Proof.
  induction 1 as [|y l Hl IH Hy]; [by repeat constructor|]. simpl. destruct (Z.leb_spec (p_first x) (p_first y)).
  - constructor; [by constructor|]. constructor; [done|]. eapply Forall_impl; [exact Hy|]. unfold by_first. intros. lia.
  - constructor; [done|]. rewrite insert_part_perm. constructor; [unfold by_first; lia|done].
Qed.

Lemma sort_parts_sorted l : StronglySorted by_first (sort_parts l).
Proof. induction l as [|x l IH]; [constructor|]. by apply insert_part_sorted. Qed.

Lemma sort_parts_id l : StronglySorted by_first l -> sort_parts l = l.
Proof.
  induction 1 as [|x l Hl IH Hx]; [done|]. simpl. rewrite IH. destruct l as [|y l]; [done|].
  inversion Hx as [|? ? Hy _]; subst. simpl. by rewrite (proj2 (Z.leb_le _ _) Hy).
Qed.

(** ** Free extents are exact *)

Definition covers (x : part) (lba : Z) : Prop := p_first x <= lba <= p_last x.
Definition within (fl : Z * Z) (lba : Z) : Prop := fst fl <= lba <= snd fl.

Lemma gap_loop_spec l : forall cursor gs c,
  StronglySorted by_first l -> gap_loop l cursor = (gs, c) ->
  cursor <= c /\
  (forall lba, cursor <= lba -> (Exists (fun g => within g lba) gs \/ c <= lba) <-> Forall (fun x => ~ covers x lba) l) /\
  Forall (fun g => cursor <= fst g <= snd g /\ exists x, In x l /\ snd g < p_first x) gs.
Proof.
  induction l as [|x l IH]; intros cursor gs c Hs E; cbn [gap_loop] in E.
  { injection E as <- <-. split; [lia|]. split; [|constructor]. intros lba Hl. split; [constructor|by right]. }
  inversion Hs as [|? ? Hsl Hx]; subst.
  destruct (gap_loop l (Z.max cursor (p_last x + 1))) as [gs' c'] eqn:E1. injection E as <- <-.
  destruct (IH _ _ _ Hsl E1) as (Hc & Hiff & Hgs). split; [lia|]. split.
  - intros lba Hl. rewrite Forall_cons, Exists_app. destruct (Z.lt_ge_cases lba (p_first x)) as [Hlt|Hge].
    + assert (Hall : Forall (fun y => ~ covers y lba) l).
      { rewrite List.Forall_forall in Hx |- *. intros y Hy. specialize (Hx y Hy). unfold by_first, covers in *. lia. }
      rewrite (proj2 (Z.ltb_lt cursor (p_first x))) by lia. split; [|intros _; left; left; constructor; unfold within; simpl; lia].
      intros _. split; [unfold covers; lia|done].
    + destruct (Z.le_gt_cases lba (p_last x)) as [Hle|Hgt].
      * split; [|intros [Hn _]; exfalso; apply Hn; unfold covers; lia]. intros [[Hg|Hg]|Hg].
        -- destruct (cursor <? p_first x); [|inversion Hg]. inversion Hg as [? ? Hw|? ? Hw]; subst; [|inversion Hw].
           unfold within in Hw. simpl in Hw. lia.
        -- exfalso. apply Exists_exists in Hg as (g & Hin & Hw). rewrite Forall_forall in Hgs.
           destruct (Hgs g Hin) as [Hb _]. unfold within in Hw. lia.
        -- lia.
      * destruct (Z.lt_ge_cases lba (Z.max cursor (p_last x + 1))) as [Hm|Hm]; [lia|]. rewrite <- (Hiff lba Hm). split.
        -- intros [[Hg|Hg]|Hg]; [|split; [unfold covers; lia|by left]|split; [unfold covers; lia|by right]].
           destruct (cursor <? p_first x); [|inversion Hg]. inversion Hg as [? ? Hw|? ? Hw]; subst; [|inversion Hw].
           unfold within in Hw. simpl in Hw. lia.
        -- intros [_ [Hg|Hg]]; [left; by right|by right].
  - apply Forall_app. split.
    + destruct (Z.ltb_spec cursor (p_first x)); [|constructor]. repeat constructor; simpl; try lia.
      exists x. split; [by left|lia].
    + eapply Forall_impl; [exact Hgs|]. intros g [Hb (y & Hy & Hlt)]. split; [lia|]. exists y. split; [by right|done].
Qed.

(** The free extents are exact: with every partition starting at or before the
    block after the usable range, an LBA of the usable range lies in one of the
    reported extents exactly when no partition covers it (overlapping or
    out-of-order entries included); every extent is a nonempty part of the usable
    range; and the aligned interior of an extent is aligned and inside it. *)
Theorem unallocated_exact (parts : list part) (fu lu bs align : Z)
    (Hbs : 0 < bs) (Hal : 0 < align) (Hin : Forall (fun x => p_first x <= lu + 1) parts) :
  let out := unallocated parts fu lu bs align in
  (forall lba, fu <= lba <= lu ->
     (Exists (fun x => x_first x <= lba <= x_last x) out <-> Forall (fun p => ~ covers p lba) parts)) /\
  Forall (fun x => fu <= x_first x <= x_last x /\ x_last x <= lu /\
                   x_offset x = x_first x * bs /\ x_end x = (x_last x + 1) * bs /\
                   x_aligned_offset x mod align = 0 /\ x_offset x <= x_aligned_offset x /\
                   (0 < x_aligned_bytes x -> x_aligned_offset x + x_aligned_bytes x <= x_end x)) out.
Proof.
  intros out. unfold out, unallocated.
  destruct (gap_loop (sort_parts parts) fu) as [gs c] eqn:E.
  destruct (gap_loop_spec _ _ _ _ (sort_parts_sorted parts) E) as (Hc & Hiff & Hgs).
  set (ext := gs ++ (if c <=? lu then [(c, lu)] else [])).
  assert (Hext : Forall (fun g => fu <= fst g <= snd g /\ snd g <= lu) ext).
  { apply Forall_app. split.
    - eapply Forall_impl; [exact Hgs|]. intros g [Hb (x & Hx & Hlt)]. split; [lia|].
      rewrite List.Forall_forall in Hin. assert (Hx' : In x parts) by (by rewrite <- sort_parts_perm).
      specialize (Hin x Hx'). lia.
    - destruct (Z.leb_spec c lu); repeat constructor; simpl; lia. }
  split.
  - intros lba Hl. rewrite <- (sort_parts_perm parts), <- (Hiff lba) by lia. rewrite Exists_exists. split.
    + intros (x & Hx & Hr). apply list_elem_of_In, in_map_iff in Hx as ([f t] & <- & Hg). simpl in Hr.
      apply in_app_or in Hg as [Hg|Hg].
      * left. apply Exists_exists. exists (f, t). split; [by apply list_elem_of_In|done].
      * right. destruct (c <=? lu); [|done]. destruct Hg as [[= <- <-]|[]]. lia.
    + intros Hor. assert (Hw : exists g, In g ext /\ within g lba).
      { destruct Hor as [Hg|Hg].
        - apply Exists_exists in Hg as (g & Hg & Hw). exists g. split; [|done]. apply in_or_app. left. by apply list_elem_of_In.
        - exists (c, lu). split; [|unfold within; simpl; lia]. apply in_or_app. right.
          rewrite (proj2 (Z.leb_le c lu)) by lia. by left. }
      destruct Hw as ([f t] & Hg & Hw). exists (extent_of bs align (f, t)). split; [|exact Hw].
      apply list_elem_of_In, in_map_iff. by exists (f, t).
  - apply List.Forall_forall. intros x Hx. apply in_map_iff in Hx as ([f t] & <- & Hg).
    rewrite List.Forall_forall in Hext. specialize (Hext _ Hg). simpl in *.
    pose proof (Z.div_mod (- (f * bs)) align ltac:(lia)). pose proof (Z.mod_pos_bound (- (f * bs)) align Hal).
    pose proof (Z.div_mod ((t + 1) * bs) align ltac:(lia)). pose proof (Z.mod_pos_bound ((t + 1) * bs) align Hal).
    split_and!; try lia; try nia. by apply Z.mod_mul; lia.
Qed.

Definition demo_part (i first last : Z) : part :=
  {| p_index := i; p_type := []; p_type_name := ""; p_guid := [byte_of_Z i]; p_first := first; p_last := last;
     p_attrs := 0; p_name := [] |}.

Lemma unallocated_exact_witness :
  let out := unallocated [demo_part 1 4096 8191; demo_part 0 2048 4095] 34 10000 512 MIB in
  (forall lba, 34 <= lba <= 10000 ->
     (Exists (fun x => x_first x <= lba <= x_last x) out <->
      Forall (fun p => ~ covers p lba) [demo_part 1 4096 8191; demo_part 0 2048 4095])) /\
  Forall (fun x => 34 <= x_first x <= x_last x /\ x_last x <= 10000 /\
                   x_offset x = x_first x * 512 /\ x_end x = (x_last x + 1) * 512 /\
                   x_aligned_offset x mod MIB = 0 /\ x_offset x <= x_aligned_offset x /\
                   (0 < x_aligned_bytes x -> x_aligned_offset x + x_aligned_bytes x <= x_end x)) out.
Proof.
  apply (unallocated_exact [demo_part 1 4096 8191; demo_part 0 2048 4095] 34 10000 512 MIB).
  - lia.
  - vm_compute. reflexivity.
  - repeat constructor; simpl; lia.
Defined.

(** ** A survey without errors describes a sound disk *)

Lemma err_if_nil b e : err_if b e = [] -> b = false.
Proof. by destruct b. Qed.

Ltac split_nil :=
  repeat match goal with
  | H : _ ++ _ = [] |- _ => apply app_nil in H as [? ?]
  | H : err_if _ _ = [] |- _ => apply err_if_nil in H
  end.

Lemma part_checks_nil fu lu l : forall seen,
  part_checks fu lu seen l = [] ->
  Forall (fun x => fu <= p_first x <= p_last x /\ p_last x <= lu) l /\
  NoDup (map p_guid l) /\ Forall (fun x => p_guid x ∉ seen) l.
Proof.
  induction l as [|x l IH]; intros seen E; [by repeat constructor|]. cbn [part_checks] in E. split_nil. zbool.
  match goal with H : part_checks _ _ _ l = [] |- _ => destruct (IH _ H) as (Hr & Hn & Hs) end.
  split; [constructor; [lia|done]|]. cbn [map]. split.
  - constructor; [|done]. intros Hin. apply list_elem_of_In, in_map_iff in Hin as (y & Ey & Hy).
    rewrite List.Forall_forall in Hs. apply (Hs y Hy). rewrite Ey. apply elem_of_cons. by left.
  - constructor.
    + intros Hin. match goal with H : existsb _ seen = false |- _ => rename H into Hex end.
      apply Bool.not_true_iff_false in Hex. apply Hex, existsb_exists. exists (p_guid x).
      split; [by apply list_elem_of_In|]. unfold bytes_eqb. by apply bool_decide_eq_true.
    + eapply Forall_impl; [exact Hs|]. intros y Hy Hin. apply Hy. apply elem_of_cons. by right.
Qed.

(** Adjacent checks on a sorted list of well-oriented partitions separate all
    pairs. *)
Lemma overlap_checks_nil l :
  StronglySorted by_first l -> Forall (fun x => p_first x <= p_last x) l -> overlap_checks l = [] ->
  StronglySorted (fun a c => p_last a < p_first c) l.
Proof.
  induction 1 as [|x l Hl IH Hx]; intros Ho E; [constructor|]. inversion Ho as [|? ? Hox Hol]; subst.
  destruct l as [|y l]; [by repeat constructor|]. change (overlap_checks (x :: y :: l)) with
    (err_if (p_first y <=? p_last x) (EOverlap (p_index x) (p_index y)) ++ overlap_checks (y :: l)) in E.
  apply app_nil in E as [E1 E2]. apply err_if_nil in E1. zbool. specialize (IH Hol E2).
  constructor; [done|]. constructor; [done|].
  inversion Hl as [|? ? _ Hy]; subst. eapply Forall_impl; [exact Hy|]. unfold by_first. intros z Hz. lia.
Qed.

Ltac bind_ok E :=
  repeat match type of E with
  | rbind ?m _ = Ok _ => let Em := fresh "Em" in destruct m eqn:Em; cbn [rbind] in E; [|discriminate E]
  end.

(** What a header without complaints satisfies. *)
Record header_ok (block : bytes) (bs : Z) (h : gpt_header) : Prop := {
  ho_signature : take 8 block = EFI_PART;
  ho_size : 92 <= h_header_size h <= bs;
  ho_entries : 128 <= h_entry_size h /\ Z.land (h_entry_size h) (h_entry_size h - 1) = 0 /\ h_count h <> 0;
  ho_crc : crc32 (take 16 (take (Z.to_nat (h_header_size h)) block) ++ replicate 4 Byte.x00 ++
                  drop 20 (take (Z.to_nat (h_header_size h)) block)) = h_header_crc h
}.

Lemma header_if_checked s block bs h : header_if s block bs = Ok (Some h, []) -> header_ok block bs h.
Proof.
  intros E. destruct block as [|x block]; [discriminate E|]. cbn [header_if] in E.
  unfold gpt_header_of in E. destruct (bytes_eqb (take 8 (x :: block)) EFI_PART) eqn:Es; [|discriminate E].
  cbn [negb] in E. bind_ok E.
  destruct ((92 <=? _) && _) eqn:Ez; cbn [negb] in E; [|discriminate E]. injection E as <- E.
  apply app_nil in E as [E1 E2]. destruct (_ =? _) eqn:Ec in E1; [|discriminate E1].
  destruct (_ || _ || _) eqn:Eo in E2; [discriminate E2|]. zbool.
  constructor; cbn [h_header_size h_entry_size h_count h_header_crc]; [by apply bool_decide_eq_true in Es|done|split_and!; done|done].
Qed.

Lemma entries_if_checked s h array parts :
  entries_if s (Some h) array = Ok (Some parts, []) ->
  array <> [] /\ h_count h * h_entry_size h <= zlen array /\
  crc32 (take (Z.to_nat (h_count h * h_entry_size h)) array) = h_array_crc h.
Proof.
  intros E. destruct array as [|x a]; [discriminate E|]. cbn [entries_if] in E. unfold gpt_entries in E.
  destruct (Z.ltb_spec (zlen (x :: a)) (h_count h * h_entry_size h)); [discriminate E|].
  destruct (gpt_entry_loop _ _ _ _); [|discriminate E]. cbn [rbind] in E. injection E as _ E.
  destruct (_ =? _) eqn:Ec in E; [|discriminate E]. zbool. by split_and!.
Qed.

(** A layout in which nothing collides. *)
Record layout_ok (g : decoded) (p : gpt_header) : Prop := {
  lo_range : Forall (fun x => h_first_usable p <= p_first x <= p_last x /\ p_last x <= h_last_usable p) (g_partitions g);
  lo_apart : StronglySorted (fun a c => p_last a < p_first c) (g_partitions g);
  lo_guids : NoDup (map p_guid (g_partitions g));
  lo_usable : 2 <= h_entries_lba p /\ h_first_usable p <= h_last_usable p < g_last_block g
}.

(** What a clean decode means for the two tables. *)
Record tables_ok (g : decoded) (p b : gpt_header) : Prop := {
  to_primary : g_primary g = Some p;
  to_backup : g_backup g = Some b;
  to_lbas : h_my_lba p = 1 /\ h_alternate_lba p = g_last_block g /\ h_my_lba b = g_last_block g /\ h_alternate_lba b = 1;
  to_agree : h_disk_guid p = h_disk_guid b /\ h_first_usable p = h_first_usable b /\ h_last_usable p = h_last_usable b /\
             h_count p = h_count b /\ h_entry_size p = h_entry_size b /\ h_array_crc p = h_array_crc b
}.

(** C33: a decode without errors is trustworthy: both headers are present, carry
    the signature and a matching CRC, sit at and point to the right LBAs and
    agree with each other; each entry array that was supplied, that is not empty, is
    complete and matches its header's CRC, and describes the partitions of the result
    (an array that is missing is accepted without an error,
    [missing_arrays_are_accepted]); and the
    partitions lie inside the usable range, do not overlap pairwise, and have
    distinct GUIDs (the code compares only neighbours in LBA order: this
    suffices). *)
Theorem decode_gpt_sound bs lb lba0 pri pa bak ba g
    (Hd : decode_gpt bs lb lba0 pri pa bak ba = Ok g) (He : g_errors g = []) :
  exists p b, tables_ok g p b /\ layout_ok g p /\
    mbr_ok lba0 = true /\ header_ok pri bs p /\ header_ok bak bs b /\
    (forall s h a, (s = Primary /\ h = p /\ a = pa) \/ (s = Backup /\ h = b /\ a = ba) -> a <> [] ->
       h_count h * h_entry_size h <= zlen a /\
       crc32 (take (Z.to_nat (h_count h * h_entry_size h)) a) = h_array_crc h /\
       exists parts, gpt_entries s a h = Ok (Some parts, []) /\ g_partitions g ≡ₚ parts).
Proof.
  unfold decode_gpt in Hd. destruct (header_if Primary pri bs) as [[p ep]|] eqn:Ep; [|discriminate Hd].
  cbn [rbind] in Hd. destruct (header_if Backup bak bs) as [[b eb]|] eqn:Eb; [|discriminate Hd]. cbn [rbind] in Hd.
  destruct (entries_if Primary p pa) as [[pp epp]|] eqn:Epp; [|discriminate Hd]. cbn [rbind] in Hd.
  destruct (entries_if Backup b ba) as [[bp ebp]|] eqn:Ebp; [|discriminate Hd]. cbn [rbind] in Hd.
  injection Hd as <-. cbn [g_errors] in He. apply app_nil in He as [He0 He]. apply app_nil in He as [-> He].
  apply app_nil in He as [-> He]. apply app_nil in He as [He1 He]. apply app_nil in He as [-> He].
  apply app_nil in He as [-> He]. apply app_nil in He as [He2 He]. apply app_nil in He as [He3 He4].
  destruct p as [p|]; [|discriminate He1]. destruct b as [b|]; [|discriminate He1].
  cbn [primary_checks backup_checks agree_checks] in He2. split_nil. zbool.
  match goal with H : part_checks _ _ _ _ = [] |- _ => destruct (part_checks_nil _ _ _ _ H) as (Hr & Hn & _) end.
  exists p, b. split_and!.
  - constructor; cbn; try done; split_and!; try done. by eapply bool_decide_eq_true_1.
  - constructor; cbn; try done; try lia. apply overlap_checks_nil; [apply sort_parts_sorted| |done].
    eapply Forall_impl; [exact Hr|]. intros x Hx. simpl in Hx. lia.
  - done.
  - by apply (header_if_checked Primary).
  - by apply (header_if_checked Backup).
  - intros s h a Hs Ha.
    assert (Hsame : forall x y, pp = Some x -> bp = Some y -> x = y).
    { intros x y -> ->. apply err_if_nil in He3. zbool. done. }
    destruct Hs as [(-> & -> & ->)|(-> & -> & ->)].
    + destruct pa as [|x0 a0]; [done|]. pose proof Epp as Epp'. cbn [entries_if] in Epp.
      destruct pp as [parts|].
      * destruct (entries_if_checked _ _ _ _ Epp') as (_ & Hl & Hc). split_and!; [done|done|].
        exists parts. split; [done|]. apply sort_parts_perm.
      * unfold gpt_entries in Epp. destruct (_ <? _); [discriminate Epp|]. destruct (gpt_entry_loop _ _ _ _); discriminate Epp.
    + destruct ba as [|x0 a0]; [done|]. pose proof Ebp as Ebp'. cbn [entries_if] in Ebp.
      destruct bp as [parts|].
      * destruct (entries_if_checked _ _ _ _ Ebp') as (_ & Hl & Hc). split_and!; [done|done|].
        exists parts. split; [done|]. cbn [g_partitions]. destruct pp as [x|]; [|apply sort_parts_perm].
        rewrite (Hsame x parts eq_refl eq_refl). apply sort_parts_perm.
      * unfold gpt_entries in Ebp. destruct (_ <? _); [discriminate Ebp|]. destruct (gpt_entry_loop _ _ _ _); discriminate Ebp.
Qed.

(** A small disk that decodes cleanly: 512-byte blocks, 100 LBAs, one
    partition; checksums are computed, so the same builder gives both copies. *)
Definition demo_array : bytes :=
  replicate 16 Byte.x07 ++ replicate 16 Byte.x09 ++ le_bytes 8 40 ++ le_bytes 8 59 ++ le_bytes 8 0 ++
  [Byte.x45; Byte.x00; Byte.x53; Byte.x00] ++ replicate 68 Byte.x00.

Definition demo_header (mine other entries array_crc : Z) : bytes :=
  let front := EFI_PART ++ le_bytes 4 0x10000 ++ le_bytes 4 92 in
  let rest := le_bytes 4 0 ++ le_bytes 8 mine ++ le_bytes 8 other ++ le_bytes 8 34 ++ le_bytes 8 90 ++
              replicate 16 Byte.x05 ++ le_bytes 8 entries ++ le_bytes 4 1 ++ le_bytes 4 128 ++ le_bytes 4 array_crc in
  front ++ le_bytes 4 (crc32 (front ++ replicate 4 Byte.x00 ++ rest)) ++ rest ++ replicate 420 Byte.x00.

Definition demo_lba0 : bytes := replicate 450 Byte.x00 ++ [Byte.xee] ++ replicate 59 Byte.x00 ++ [Byte.x55; Byte.xaa].
Definition demo_primary : bytes := demo_header 1 99 2 (crc32 demo_array).
Definition demo_backup : bytes := demo_header 99 1 98 (crc32 demo_array).

Definition no_disk : decoded :=
  {| g_block_size := 0; g_last_block := 0; g_primary := None; g_backup := None; g_partitions := [];
     g_unallocated := None; g_errors := [EMbr]; g_warnings := [] |}.
Definition demo_decoded : decoded :=
  match decode_gpt 512 99 demo_lba0 demo_primary demo_array demo_backup demo_array with Ok g => g | Raise _ => no_disk end.

Lemma decode_gpt_sound_witness :
  map p_first (g_partitions demo_decoded) = [40] /\
  exists p b, tables_ok demo_decoded p b /\ layout_ok demo_decoded p /\
    mbr_ok demo_lba0 = true /\ header_ok demo_primary 512 p /\ header_ok demo_backup 512 b /\
    (forall s h a, (s = Primary /\ h = p /\ a = demo_array) \/ (s = Backup /\ h = b /\ a = demo_array) -> a <> [] ->
       h_count h * h_entry_size h <= zlen a /\
       crc32 (take (Z.to_nat (h_count h * h_entry_size h)) a) = h_array_crc h /\
       exists parts, gpt_entries s a h = Ok (Some parts, []) /\ g_partitions demo_decoded ≡ₚ parts).
Proof.
  split; [vm_compute; reflexivity|].
  apply (decode_gpt_sound 512 99 demo_lba0 demo_primary demo_array demo_backup demo_array demo_decoded);
    vm_compute; reflexivity.
Defined.

(** Without entry arrays (the firmware reader found none readable) the decode
    raises no error at all: the disk counts as valid, without partitions, and
    its whole usable range is reported unallocated although both headers
    describe an array with a partition in it. *)
Lemma missing_arrays_are_accepted :
  exists g, decode_gpt 512 99 demo_lba0 demo_primary [] demo_backup [] = Ok g /\ g_errors g = [] /\
    g_partitions g = [] /\
    option_map (map (fun x => (x_first x, x_last x))) (g_unallocated g) = Some [(34, 90)].
Proof.
  pose (g := match decode_gpt 512 99 demo_lba0 demo_primary [] demo_backup [] with Ok g => g | Raise _ => no_disk end).
  exists g. split_and!; vm_compute; reflexivity.
Qed.
