(* ===== verification/Sha256.v ===== *)
(** * hashlib.sha256, as the tools under src/tools use it

    The tools compare SHA-256 digests in hexadecimal; nothing here relies on more
    than that equal data has equal digests.  FIPS 180-4, on 32-bit words as [Z]. *)

From Stdlib Require Import ZArith Lia.
From Stdlib Require Import Strings.Byte Strings.String.
From stdpp Require Import base list numbers.
From S2P Require Import Prelude Bytes.

Local Open Scope list_scope.
Local Open Scope Z_scope.

Definition w32 (z : Z) : Z := Z.land z 0xFFFFFFFF.
Definition rotr (n x : Z) : Z := Z.lor (Z.shiftr x n) (w32 (Z.shiftl x (32 - n))).

(** The constants are the first 32 bits of the fractional parts of roots of the
    first primes: cube roots for the rounds, square roots for the initial state. *)
Definition is_prime (n : Z) : bool :=
  forallb (fun d => negb (n mod d =? 0)) (map Z.of_nat (seq 2 (Z.to_nat (Z.sqrt n) - 1))).
Definition primes_below (n : nat) : list Z :=
  List.filter is_prime (map Z.of_nat (seq 2 (n - 2))).

(** The cube root rounded down, one bit at a time from bit [n - 1]. *)
Fixpoint cube_root (n : nat) (x acc : Z) : Z :=
  match n with
  | O => acc
  | S k =>
      let t := acc + 2 ^ Z.of_nat k in
      cube_root k x (if t * t * t <=? x then t else acc)
  end.

Definition sha_k : list Z :=
  Eval vm_compute in map (fun p => w32 (cube_root 36 (p * 2 ^ 96) 0)) (primes_below 312).
Definition sha_iv : list Z :=
  Eval vm_compute in map (fun p => w32 (Z.sqrt (p * 2 ^ 64))) (primes_below 20).

Definition small0 (x : Z) : Z := Z.lxor (Z.lxor (rotr 7 x) (rotr 18 x)) (Z.shiftr x 3).
Definition small1 (x : Z) : Z := Z.lxor (Z.lxor (rotr 17 x) (rotr 19 x)) (Z.shiftr x 10).
Definition big0 (x : Z) : Z := Z.lxor (Z.lxor (rotr 2 x) (rotr 13 x)) (rotr 22 x).
Definition big1 (x : Z) : Z := Z.lxor (Z.lxor (rotr 6 x) (rotr 11 x)) (rotr 25 x).
Definition choose (e f g : Z) : Z := Z.lxor (Z.land e f) (Z.land (Z.lxor e 0xFFFFFFFF) g).
Definition majority (a b c : Z) : Z := Z.lxor (Z.lxor (Z.land a b) (Z.land a c)) (Z.land b c).

Definition be_word (b : bytes) : Z := le_Z (rev b).
Definition be_bytes (n : nat) (z : Z) : bytes := rev (le_bytes n z).

(** The message schedule, newest word first. *)
Fixpoint schedule (n : nat) (w : list Z) : list Z :=
  match n with
  | O => w
  | S k =>
      let at_ i := default 0 (w !! i) in
      schedule k (w32 (small1 (at_ 1%nat) + at_ 6%nat + small0 (at_ 14%nat) + at_ 15%nat) :: w)
  end.

Definition sha_round (st : list Z) (kw : Z * Z) : list Z :=
  match st with
  | [a; b; c; d; e; f; g; h] =>
      let t1 := h + big1 e + choose e f g + fst kw + snd kw in
      let t2 := big0 a + majority a b c in
      [w32 (t1 + t2); a; b; c; w32 (d + t1); e; f; g]
  | _ => st
  end.

Fixpoint block_words (n : nat) (b : bytes) : list Z :=
  match n with O => [] | S k => be_word (take 4 b) :: block_words k (drop 4 b) end.

Definition compress (st : list Z) (block : bytes) : list Z :=
  let w := rev (schedule 48 (rev (block_words 16 block))) in
  let out := fold_left sha_round (combine sha_k w) st in
  zip_with (fun x y => w32 (x + y)) st out.

Definition sha_pad (data : bytes) : bytes :=
  let zeros := Z.to_nat ((55 - zlen data) mod 64) in
  data ++ [x80] ++ replicate zeros x00 ++ be_bytes 8 (8 * zlen data).

Fixpoint sha_blocks (n : nat) (st : list Z) (b : bytes) : list Z :=
  match n with O => st | S k => sha_blocks k (compress st (take 64 b)) (drop 64 b) end.

Definition sha256 (data : bytes) : bytes :=
  let p := sha_pad data in
  concat (map (be_bytes 4) (sha_blocks (length p / 64) sha_iv p)).

(** [bytes.hex()]. *)
Definition hex_digit (d : Z) : byte := byte_of_Z (if d <? 10 then 48 + d else 87 + d).
Definition hex_lower (b : bytes) : bytes :=
  concat (map (fun c => [hex_digit (byte_to_Z c / 16); hex_digit (byte_to_Z c mod 16)]) b).
(** [hashlib.sha256(data).hexdigest()]. *)
Definition digest (data : bytes) : bytes := hex_lower (sha256 data).

Lemma length_hex_lower b : length (hex_lower b) = (2 * length b)%nat.
Proof. induction b as [|c b IH]; [done|]. change (length (hex_lower (c :: b))) with (S (S (length (hex_lower b)))). cbn [length]. lia. Qed.

(** Test vectors of FIPS 180-4. *)
Lemma digest_empty : digest [] = list_byte_of_string "e3b0c44298fc1c149afbf4c8996fb92427ae41e4649b934ca495991b7852b855"%string.
Proof. vm_compute. reflexivity. Qed.
Lemma digest_abc : digest (list_byte_of_string "abc"%string) = list_byte_of_string "ba7816bf8f01cfea414140de5dae2223b00361a396177a9cb410ff61f20015ad"%string.
Proof. vm_compute. reflexivity. Qed.
Lemma digest_two_blocks : digest (list_byte_of_string "abcdbcdecdefdefgefghfghighijhijkijkljklmklmnlmnomnopnopq"%string)
  = list_byte_of_string "248d6a61d20638b8e5c026930c3e6039a33ce45964ff2167f6ecedd419db06c1"%string.
Proof. vm_compute. reflexivity. Qed.
