(* ===== verification/Target.v ===== *)
(** * The target as the tools see it

    The tools under src/tools drive the target through a few operations of
    q1n1proxy.Proxy: register reads and writes, memory reads and writes, raw
    requests, calls and copies; deadlines come from the host's clock.  [TargetOps]
    is that interface; [LinkTarget] implements it by the q1n1 client.

    [env] is a target that can do anything: it records what was done to it and
    answers from an arbitrary function of that record, so a theorem about every
    [env] holds for every target, honest or not. *)

From Stdlib Require Import ZArith Lia.
From Stdlib Require Import Strings.Byte.
From stdpp Require Import base list numbers strings.
From S2P Require Import Prelude Bytes Transport Q1n1Link.

Local Open Scope list_scope.
Local Open Scope Z_scope.
Local Open Scope py_scope.

Class TargetOps (S : Type) := {
  t_read32 : Z -> M S Z;
  t_read64 : Z -> M S Z;
  t_write32 : Z -> Z -> M S unit;
  t_readmem : Z -> Z -> bool -> M S bytes;
  t_writemem : Z -> bytes -> M S unit;
  t_request : Z -> list Z -> M S unit;
  t_query : Z -> list Z -> M S Z;
  t_call : Z -> list Z -> M S Z;
  t_memcpy8 : Z -> Z -> Z -> M S unit;
  t_now : M S Z
}.

(** ** The q1n1 client as a target *)
Section LinkTarget.
  Context {T : Type} `{!Transport T}.
  Variable have_numpy : bool.
  Variable budget : nat.
  Variable handler : Z -> Z -> M (link T proxy_st) unit.
  (** The host's clock. *)
  Variable now : M (link T proxy_st) Z.

Definition LinkTarget : TargetOps (link T proxy_st) := {|
  t_read32 a := value_of have_numpy budget handler P_READ32 [a];
  t_read64 a := value_of have_numpy budget handler P_READ64 [a];
  t_write32 a v := q_write32 have_numpy budget handler a v;
  t_readmem a n live := q_readmem have_numpy budget handler a n live;
  t_writemem a d := q_writemem have_numpy budget handler a d;
  t_request opcode args := call_ have_numpy budget handler opcode args;
  t_query opcode args := value_of have_numpy budget handler opcode args;
  t_call a args := value_of have_numpy budget handler P_CALL (a :: args);
  t_memcpy8 dst src n := q_memcpy8 have_numpy budget handler dst src n;
  t_now := now
|}.
End LinkTarget.

(** ** Targets with memory *)

(** Targets whose reads leave memory alone and whose copies copy: what a client
    that moves data on the target relies on. *)
Class TargetMemory (S : Type) `{!TargetOps S} := {
  tm_mem : S -> Z -> byte;
  tm_readmem a n live s r s' : t_readmem a n live s = (r, s') -> forall x, tm_mem s' x = tm_mem s x;
  tm_memcpy8 dst src n s s' : t_memcpy8 dst src n s = (Ok tt, s') -> 0 <= n -> dst + n <= src \/ src + n <= dst ->
    forall x, tm_mem s' x = if (dst <=? x) && (x <? dst + n) then tm_mem s (src + (x - dst)) else tm_mem s x
}.

(** A target that is a memory; calls return [ram_answer]. *)
Record ram := Ram { ram_mem : Z -> byte; ram_answer : Z }.
Definition ram_word (n : nat) (a : Z) : M ram Z := py_get (fun r => le_Z (mem_read (ram_mem r) a n)).
Definition ram_store (a : Z) (d : bytes) : M ram unit :=
  py_modify (fun r => {| ram_mem := mem_store a d (ram_mem r); ram_answer := ram_answer r |}).

#[global] Instance RamTarget : TargetOps ram := {|
  t_read32 := ram_word 4;
  t_read64 := ram_word 8;
  t_write32 a v := ram_store a (le_bytes 4 v);
  t_readmem a n _ := py_get (fun r => mem_read (ram_mem r) a (Z.to_nat n));
  t_writemem a d := ram_store a d;
  t_request _ _ := py_ret tt;
  t_query _ _ := py_ret 0;
  t_call _ _ := py_get ram_answer;
  t_memcpy8 dst src n := let! d := py_get (fun r => mem_read (ram_mem r) src (Z.to_nat n)) in ram_store dst d;
  t_now := py_ret 0
|}.

#[global, refine] Instance RamMemory : TargetMemory ram := {| tm_mem := ram_mem |}.
Proof.
  - by intros a n live s r s' [= <- <-] x.
  - intros dst src n s s' [= <-] Hn _ x. cbn [ram_mem]. unfold mem_store.
    destruct (Z.leb_spec dst x) as [Hle|]; [|done]. cbn [andb]. destruct (Z.ltb_spec x (dst + n)) as [Hlt|Hge].
    + rewrite lookup_mem_read by lia. f_equal. lia.
    + rewrite lookup_ge_None_2; [done|]. rewrite length_mem_read. lia.
Defined.

(** ** An arbitrary target *)

Inductive action :=
| ARead32 (a : Z)
| ARead64 (a : Z)
| AWrite32 (a v : Z)
| AReadMem (a n : Z) (live : bool)
| AWriteMem (a : Z) (d : bytes)
| ARequest (opcode : Z) (args : list Z)
| ACall (a : Z) (args : list Z)
| ACopy (dst src n : Z)
| ANow.

Record env := Env {
  ev_log : list action;                       (* newest first *)
  ev_word : list action -> result Z;          (* the answer to the newest action *)
  ev_data : list action -> result bytes
}.

Definition ev_push (x : action) (e : env) : env :=
  {| ev_log := x :: ev_log e; ev_word := ev_word e; ev_data := ev_data e |}.
Definition ask (x : action) : M env Z := fun e => (ev_word e (x :: ev_log e), ev_push x e).
Definition ask_data (x : action) : M env bytes := fun e => (ev_data e (x :: ev_log e), ev_push x e).
Definition tell (x : action) : M env unit := ask x ;;; py_ret tt.

#[global] Instance EnvTarget : TargetOps env := {|
  t_read32 a := ask (ARead32 a);
  t_read64 a := ask (ARead64 a);
  t_write32 a v := tell (AWrite32 a v);
  t_readmem a n live := ask_data (AReadMem a n live);
  t_writemem a d := tell (AWriteMem a d);
  t_request opcode args := tell (ARequest opcode args);
  t_query opcode args := ask (ARequest opcode args);
  t_call a args := ask (ACall a args);
  t_memcpy8 dst src n := tell (ACopy dst src n);
  t_now := ask ANow
|}.

(** ** What a program does to an arbitrary target *)

(** A program whose state holds an arbitrary target: from a state with the
    invariant [I] it keeps [I], whatever it returns, and everything it does to the
    target satisfies [P]. *)
Section safe.
  Context {St : Type} (tgt : St -> env) (I : St -> Prop) (P : action -> Prop).

Definition safe {A} (m : M St A) : Prop := forall s r s', I s -> m s = (r, s') ->
  I s' /\ exists new, ev_log (tgt s') = new ++ ev_log (tgt s) /\ Forall P new.

Lemma safe_ret {A} (a : A) : safe (py_ret a).
Proof. intros s r s' HI [= <- <-]. split; [done|]. by exists []. Qed.

Lemma safe_raise {A} x : safe (py_raise (A := A) x).
Proof. intros s r s' HI [= <- <-]. split; [done|]. by exists []. Qed.

Lemma safe_lift {A} (x : result A) : safe (py_lift x).
Proof. intros s r s' HI [= <- <-]. split; [done|]. by exists []. Qed.

Lemma safe_bind {A B} (m : M St A) (k : A -> M St B) : safe m -> (forall a, safe (k a)) -> safe (py_bind m k).
Proof.
  intros Hm Hk s r s' HI E. unfold py_bind in E. destruct (m s) as [[a|x] s1] eqn:E1; destruct (Hm _ _ _ HI E1) as (HI1 & n1 & L1 & F1).
  - destruct (Hk a _ _ _ HI1 E) as (HI2 & n2 & L2 & F2). split; [done|]. exists (n2 ++ n1). rewrite L2, L1, app_assoc. split; [done|by apply Forall_app].
  - injection E as <- <-. split; [done|]. by exists n1.
Qed.

(** Reading an attribute: the rest may use that some state with the invariant
    has that value. *)
Lemma safe_get {A B} (f : St -> A) (k : A -> M St B) : (forall s, I s -> safe (k (f s))) -> safe (py_bind (py_get f) k).
Proof. intros Hk s r s' HI E. exact (Hk s HI s r s' HI E). Qed.

Lemma safe_modify f : (forall s, I s -> I (f s) /\ tgt (f s) = tgt s) -> safe (py_modify f).
Proof. intros Hf s r s' HI [= <- <-]. destruct (Hf s HI) as [? ->]. split; [done|]. by exists []. Qed.

(** An operation on the target through [set], which replaces it in the state. *)
Lemma safe_on {A} (set : env -> St -> St) (m : M env A) :
  (forall e s, I s -> I (set e s) /\ tgt (set e s) = e) ->
  (forall e r e', m e = (r, e') -> exists new, ev_log e' = new ++ ev_log e /\ Forall P new) ->
  safe (fun s => let '(r, e) := m (tgt s) in (r, set e s)).
Proof.
  intros Hset Hm s r s' HI E. destruct (m (tgt s)) as [r1 e1] eqn:E1. injection E as <- <-.
  destruct (Hset e1 s HI) as [? ->]. split; [done|]. by apply (Hm _ _ _ E1).
Qed.

Lemma safe_finally {A} (m : M St A) f : safe m -> safe f -> safe (py_finally m f).
Proof.
  intros Hm Hf s r s' HI E. unfold py_finally in E. destruct (m s) as [r1 s1] eqn:E1. destruct (Hm _ _ _ HI E1) as (HI1 & n1 & L1 & F1).
  destruct (f s1) as [r2 s2] eqn:E2. destruct (Hf _ _ _ HI1 E2) as (HI2 & n2 & L2 & F2).
  assert (s' = s2) as -> by (by destruct r2; injection E as _ <-).
  split; [done|]. exists (n2 ++ n1). rewrite L2, L1, app_assoc. split; [done|by apply Forall_app].
Qed.
End safe.

(** The actions of the single operations. *)
Lemma ask_log x e r e' : ask x e = (r, e') -> e' = ev_push x e.
Proof. by intros [= <- <-]. Qed.
Lemma ask_data_log x e r e' : ask_data x e = (r, e') -> e' = ev_push x e.
Proof. by intros [= <- <-]. Qed.
Lemma tell_log x e r e' : tell x e = (r, e') -> e' = ev_push x e.
Proof. unfold tell, py_bind. destruct (ask x e) as [[v|y] e1] eqn:E; apply ask_log in E as ->; by intros [= <- <-]. Qed.

Create HintDb target.
#[export] Hint Resolve safe_ret safe_raise safe_lift : target.

(** A check that changes nothing and, when it passes, establishes [Q]. *)
Lemma safe_check {St B} (tgt : St -> env) I P (m : M St unit) (k : unit -> M St B) (Q : Prop) :
  (forall s r s', I s -> m s = (r, s') -> s' = s /\ (r = Ok tt -> Q)) -> (Q -> safe tgt I P (k tt)) -> safe tgt I P (py_bind m k).
Proof.
  intros Hm Hk s r s' HI E. unfold py_bind in E. destruct (m s) as [[[]|x] s1] eqn:E1; destruct (Hm _ _ _ HI E1) as [-> HQ].
  - exact (Hk (HQ eq_refl) _ _ _ HI E).
  - injection E as <- <-. split; [done|]. by exists [].
Qed.
