(* ===== verification/Preload.v ===== *)
(** * src/tools/preload.py: preload manifests and the resident cache

    Files that the EFI loader leaves in memory for later stages: [manifest] builds
    the list the loader works from, [resident_cache] validates what it says it
    loaded against the EFI memory map, and [copy_cached] copies a file into free
    memory.  A Python string is the list of its code points, [info] the boot
    information the proxy returns. *)

From Stdlib Require Import ZArith Lia Sorting.
From Stdlib Require Import Strings.Byte.
From stdpp Require Import base list sorting numbers strings sets.
From S2P Require Import Prelude Bytes Utils Q1n1Link Target.

Local Open Scope string_scope.
Local Open Scope list_scope.
Local Open Scope Z_scope.
Local Open Scope py_scope.

Definition MANIFEST_MAGIC := 0x31444C50314E3151.
Definition CACHE_MAGIC := 0x31484343314E3151.
Definition MAX_FILES := 16.
Definition LIMIT := Z.shiftl 1 32.
(** The sizes of the structures [FILE], [ENTRY] and [HEADER]. *)
Definition FILE_SIZE : nat := 8 + 32 + 256.
Definition ENTRY_SIZE : nat := 24 + 32 + 256.
Definition HEADER_SIZE : nat := 32.
Definition CACHE_SIZE : Z := Z.of_nat HEADER_SIZE + MAX_FILES * Z.of_nat ENTRY_SIZE.
Definition DIAGNOSTICS_FIELDS : list string :=
  ["version"; "size"; "phase"; "status"; "block_devices"; "connect_successes";
   "filesystems"; "roots"; "manifests"; "asset_index"; "read_bytes"; "expected_bytes"].

Definition boot_info := list (string * Z).
Definition str := list Z.

(** ** Paths *)

(** [s.split(c)]. *)
Fixpoint split_on (c : Z) (s : str) : list str :=
  match s with
  | [] => [[]]
  | x :: r =>
      match split_on c r with
      | p :: ps => if x =? c then [] :: p :: ps else (x :: p) :: ps
      | [] => []
      end
  end.

(** The characters a path may not hold: slash, colon, star, question mark, double
    quote, angle brackets and bar. *)
Definition path_forbidden : list Z := [47; 58; 42; 63; 34; 60; 62; 124].
Definition bad_part (p : str) : bool := bool_decide (p = [] \/ p = [46] \/ p = [46; 46]).

Definition encode_path (path : str) : result bytes :=
  if negb (match path with c :: _ => c =? 92 | [] => false end)
     || existsb (fun c => bool_decide (c ∈ path)) path_forbidden
     || existsb bad_part (split_on 92 (tl path))
  then Raise (ValueError "preload path must be an absolute, canonical EFI file path") else
  if existsb (fun c => 128 <=? c) path then Raise (ValueError "ascii") else
  let raw := map byte_of_Z path in
  if (256 <=? zlen raw) || existsb (fun c => (byte_to_Z c <? 32) || (126 <? byte_to_Z c)) raw
  then Raise (ValueError "preload path must contain fewer than 256 printable ASCII bytes") else
  Ok (ljust 256 raw).

(** [lower] on ASCII text. *)
Definition lower_code (c : Z) : Z := if (65 <=? c) && (c <=? 90) then c + 32 else c.
Definition lower_bytes (b : bytes) : bytes := map (fun c => byte_of_Z (lower_code (byte_to_Z c))) b.
Definition lower_str (s : str) : str := map lower_code s.

(** ** The manifest *)

Fixpoint manifest_records (files : list (str * Z * bytes)) (total : Z) (seen : list bytes) : result bytes :=
  match files with
  | [] => Ok []
  | (path, size, digest) :: r =>
      let? raw := encode_path path in
      if bool_decide (lower_bytes raw ∈ seen) || negb ((0 <? size) && (size <=? LIMIT - total))
      then Raise (ValueError "duplicate path or preload exceeds 4 GiB") else
      let? hashed := fromhex digest in
      if negb (zlen hashed =? 32) then Raise (ValueError "preload SHA256 must contain 32 bytes") else
      let? q := pack_Q size in
      let? rest := manifest_records r (total + size) (lower_bytes raw :: seen) in
      Ok (q ++ hashed ++ raw ++ rest)
  end.

Definition manifest (files : list (str * Z * bytes)) : result bytes :=
  if negb ((1 <=? zlen files) && (zlen files <=? MAX_FILES)) then Raise (ValueError "manifest needs 1..16 files") else
  let? records := manifest_records files 0 [] in
  let? header := pack_Qs [MANIFEST_MAGIC; 1; zlen files; Z.of_nat FILE_SIZE] in
  Ok (header ++ records).

(** ** The EFI memory map *)

Definition region : Type := Z * Z * Z.

(** The sweep of [_covered] over the regions of one kind, in order. *)
Fixpoint sweep (regions : list (Z * Z)) (cursor limit : Z) : bool :=
  match regions with
  | [] => false
  | (lo, hi) :: r =>
      if (lo <=? cursor) && (cursor <? hi) then
        if limit <=? hi then true else sweep r hi limit
      else sweep r cursor limit
  end.

(** Tuples sort by their first component, then by the second. *)
Definition pair_le (a b : Z * Z) : Prop := a.1 < b.1 \/ (a.1 = b.1 /\ a.2 <= b.2).
#[global] Instance pair_le_dec : RelDecision pair_le.
Proof. intros [a b] [c d]. unfold pair_le. apply _. Defined.

Definition of_kind (kind : Z) (regions : list region) : list (Z * Z) :=
  map (fun '(_, lo, hi) => (lo, hi)) (List.filter (fun '(k, _, _) => k =? kind) regions).

Definition covered (regions : list region) (kind base size : Z) : bool :=
  let limit := base + size in
  if (base =? 0) || (size <=? 0) || (Z.shiftl 1 64 <? limit) then false
  else sweep (merge_sort pair_le (of_kind kind regions)) base limit.

Fixpoint parse_regions (n : nat) (off stride : nat) (raw : bytes) : result (list region) :=
  match n with
  | O => Ok []
  | S k =>
      let? kind := unpack_u 4 off raw in
      let? _ := unpack_u 4 (off + 4) raw in
      let? start := unpack_u 8 (off + 8) raw in
      let? _ := unpack_u 8 (off + 16) raw in
      let? pages := unpack_u 8 (off + 24) raw in
      let? _ := unpack_u 8 (off + 32) raw in
      let last := start + pages * 4096 in
      if negb (start mod 4096 =? 0) || (Z.shiftl 1 64 <? last) then Raise (ValueError "invalid EFI memory descriptor") else
      let? rest := parse_regions k (off + stride) stride raw in
      Ok ((kind, start, last) :: rest)
  end.

(** Rounding up to a page. *)
Definition page_up (n : Z) : Z := Z.land (n + 4095) (Z.lnot 4095).

Record cached_file := CachedFile {
  cf_index : Z;
  cf_base : Z;
  cf_allocation : Z;
  cf_size : Z;
  cf_sha256 : bytes;   (* the digest; the code keeps its hexadecimal form *)
  cf_path : str
}.

(** [info[k]]. *)
Definition info_item (info : boot_info) (k : string) : result Z :=
  match List.find (fun e => String.eqb (fst e) k) info with Some e => Ok (snd e) | None => Raise (KeyError k) end.

Section Preload.
  Context {S : Type} `{!TargetOps S}.

Definition memory_regions (info : boot_info) : M S (list region) :=
  let base := rget info "memory_map" in
  let size := rget info "memory_map_size" in
  let stride := rget info "memory_map_stride" in
  if (base =? 0) || negb ((40 <=? stride) && (stride <=? 4096)) || negb ((0 <? size) && (size <=? Z.shiftl 1 20))
     || negb (size mod stride =? 0)
  then py_raise (ValueError "invalid EFI memory map for preload validation") else
  let! raw := t_readmem base size false in
  py_lift (parse_regions (Z.to_nat (size / stride)) 0 (Z.to_nat stride) raw).

Definition diagnostics (info : boot_info) : M S (option (list (string * Z))) :=
  let address := rget info "preload_diagnostics" in
  if address =? 0 then py_ret None else
  let! regions := memory_regions info in
  let n := zlen DIAGNOSTICS_FIELDS * 8 in
  if negb (covered regions 1 address n) then py_raise (ValueError "preload diagnostics are not in reserved EFI LoaderCode") else
  let! raw := t_readmem address n false in
  if negb (Nat.eqb (length raw) 96) then py_raise StructError else
  let! vals := py_lift (unpack_Qs 12 0 raw) in
  let result := record_of DIAGNOSTICS_FIELDS vals in
  if negb (rget result "version" =? 1) || negb (rget result "size" =? zlen raw)
  then py_raise (ValueError "unsupported preload diagnostics") else py_ret (Some result).

(** The loop over the entries of the table. *)
Fixpoint cache_entries (regions : list region) (raw : bytes) (n : nat) (i total : Z)
    (ranges : list (Z * Z)) (paths : list str) : result (list cached_file) :=
  match n with
  | O => Ok []
  | Datatypes.S k =>
      let off := (HEADER_SIZE + Z.to_nat i * ENTRY_SIZE)%nat in
      let? base := unpack_u 8 off raw in
      let? allocation := unpack_u 8 (off + 8) raw in
      let? len := unpack_u 8 (off + 16) raw in
      let digest := slice (off + 24) (off + 56) raw in
      let path := slice (off + 56) (off + 312) raw in
      if negb (Nat.leb (off + 312) (length raw)) then Raise StructError else
      if negb (base mod 4096 =? 0) || negb ((0 <? len) && (len <=? LIMIT - total)) || negb (allocation =? page_up len)
         || negb (covered regions 2 base allocation)
      then Raise (ValueError "preload data is outside its reserved allocation") else
      if existsb (fun '(lo, hi) => (base <? hi) && (lo <? base + allocation)) ranges
      then Raise (ValueError "overlapping preload allocations") else
      let name_raw := until_nul path in
      if existsb (fun c => 128 <=? byte_to_Z c) name_raw then Raise (ValueError "ascii") else
      let name := map byte_to_Z name_raw in
      let? enc := encode_path name in
      if negb (bytes_eqb enc path) || bool_decide (lower_str name ∈ paths)
      then Raise (ValueError "invalid or duplicate preload path") else
      let? rest := cache_entries regions raw k (i + 1) (total + len) (ranges ++ [(base, base + allocation)]) (lower_str name :: paths) in
      Ok ({| cf_index := i; cf_base := base; cf_allocation := allocation; cf_size := len; cf_sha256 := digest; cf_path := name |} :: rest)
  end.

Definition resident_cache (info : boot_info) : M S (list cached_file) :=
  let address := rget info "preload_table" in
  let size := rget info "preload_size" in
  if (address =? 0) && (size =? 0) then py_ret [] else
  if negb (rget info "preload_status" =? 0) || negb (size =? CACHE_SIZE) || negb (address mod 4096 =? 0)
  then py_raise (ValueError "invalid preload table/status") else
  let! regions := memory_regions info in
  if negb (covered regions 2 address (page_up size)) then py_raise (ValueError "preload table is not reserved EFI LoaderData") else
  let verify := rget info "preload_verify" in
  if negb (verify mod 4 =? 0) || negb (covered regions 1 verify 4)
  then py_raise (ValueError "preload verifier is not in reserved EFI LoaderCode") else
  let! raw := t_readmem address size false in
  let! header := py_lift (unpack_Qs 4 0 raw) in
  match header with
  | [magic; version; count; stride] =>
      if negb (magic =? CACHE_MAGIC) || negb (version =? 1) || negb ((1 <=? count) && (count <=? MAX_FILES))
         || negb (stride =? Z.of_nat ENTRY_SIZE)
      then py_raise (ValueError "unsupported preload cache header") else
      py_lift (cache_entries regions raw (Z.to_nat count) 0 0 [(address, address + page_up size)] [])
  | _ => py_raise StructError
  end.

Definition COPY_CHUNK := Z.shiftl 8 20.

Fixpoint copy_pieces (n : nat) (offset destination base size : Z) : M S unit :=
  match n with
  | O => py_ret tt
  | Datatypes.S k =>
      if size <=? offset then py_ret tt else
      let amount := Z.min COPY_CHUNK (size - offset) in
      t_memcpy8 (destination + offset) (base + offset) amount ;;;
      copy_pieces k (offset + COPY_CHUNK) destination base size
  end.

Definition copy_cached (info : boot_info) (entry : cached_file) (destination size : Z) : M S unit :=
  if negb (size =? cf_size entry) || negb (destination mod 4096 =? 0)
  then py_raise (ValueError "cached copy length/alignment mismatch") else
  let! regions := memory_regions info in
  if negb (covered regions 7 destination size)
  then py_raise (ValueError "cached copy destination is not EFI conventional memory") else
  let! verify := py_lift (info_item info "preload_verify") in
  let! ok := t_call verify [cf_index entry] in
  if negb (ok =? 1) then py_raise (ValueError "resident preload SHA256 no longer matches its manifest") else
  copy_pieces (Z.to_nat (size / COPY_CHUNK + 1)) 0 destination (cf_base entry) size.
End Preload.

(** ** Coverage *)

Lemma sweep_sound l : forall c lim, sweep l c lim = true -> forall x, c <= x < lim -> exists lo hi, (lo, hi) ∈ l /\ lo <= x < hi.
Proof.
  induction l as [|[lo hi] l IH]; intros c lim E x Hx; [done|]. cbn [sweep] in E.
  destruct ((lo <=? c) && (c <? hi)) eqn:Hin.
  - apply andb_true_iff in Hin as [H1%Z.leb_le H2%Z.ltb_lt].
    destruct (Z.lt_ge_cases x hi) as [Hlt|Hge]; [exists lo, hi; split; [set_solver|lia]|].
    destruct (Z.leb_spec lim hi) as [?|?]; [lia|]. destruct (IH hi lim E x ltac:(lia)) as (a & b & ? & ?). exists a, b. set_solver.
  - destruct (IH c lim E x Hx) as (a & b & ? & ?). exists a, b. set_solver.
Qed.

Lemma sweep_complete l : forall c lim, StronglySorted pair_le l -> c < lim ->
  (forall x, c <= x < lim -> exists lo hi, (lo, hi) ∈ l /\ lo <= x < hi) -> sweep l c lim = true.
Proof.
  induction l as [|[lo hi] l IH]; intros c lim Hs Hlt Hc.
  { destruct (Hc c ltac:(lia)) as (a & b & H & _). set_solver. }
  apply StronglySorted_inv in Hs as [Hs Hall]. cbn [sweep]. destruct ((lo <=? c) && (c <? hi)) eqn:Hin.
  - apply andb_true_iff in Hin as [H1%Z.leb_le H2%Z.ltb_lt]. destruct (Z.leb_spec lim hi) as [?|?]; [done|].
    apply IH; [done|lia|]. intros x Hx. destruct (Hc x ltac:(lia)) as (a & b & Hab & ?).
    apply elem_of_cons in Hab as [[= -> ->]|?]; [lia|]. by exists a, b.
  - assert (Hhi : hi <= c).
    { destruct (Hc c ltac:(lia)) as (a & b & Hab & Hx). apply elem_of_cons in Hab as [[= -> ->]|Hab].
      - apply andb_false_iff in Hin as [?%Z.leb_gt|?%Z.ltb_ge]; lia.
      - rewrite Forall_forall in Hall. destruct (Hall _ Hab) as [?|[? ?]]; simpl in *; apply andb_false_iff in Hin as [?%Z.leb_gt|?%Z.ltb_ge]; lia. }
    apply IH; [done|done|]. intros x Hx. destruct (Hc x Hx) as (a & b & Hab & ?).
    apply elem_of_cons in Hab as [[= -> ->]|?]; [lia|]. by exists a, b.
Qed.

#[global] Instance pair_le_total : Total pair_le.
Proof. intros [a b] [c d]. unfold pair_le. simpl. lia. Qed.
#[global] Instance pair_le_trans : Transitive pair_le.
Proof. intros [a b] [c d] [e f]. unfold pair_le. simpl. lia. Qed.

Lemma of_kind_elem regions kind lo hi : (lo, hi) ∈ of_kind kind regions <-> (kind, lo, hi) ∈ regions.
Proof.
  unfold of_kind. rewrite list_elem_of_In, in_map_iff. setoid_rewrite filter_In. split.
  - intros ([[k a] b] & [= <- <-] & Hin & ->%Z.eqb_eq). by apply list_elem_of_In.
  - intros H%list_elem_of_In. exists (kind, lo, hi). split; [done|]. split; [done|apply Z.eqb_refl].
Qed.

(** The bytes of a range lie in regions of a kind. *)
Definition range_in (regions : list region) (kind base size : Z) : Prop :=
  forall x, base <= x < base + size -> exists lo hi, (kind, lo, hi) ∈ regions /\ lo <= x < hi.

Lemma covered_spec regions kind base size :
  covered regions kind base size = true <->
  base <> 0 /\ 0 < size /\ base + size <= 2 ^ 64 /\ range_in regions kind base size.
Proof.
  unfold covered. change (Z.shiftl 1 64) with (2 ^ 64).
  destruct (Z.eqb_spec base 0) as [?|Hb]; cbn [orb]; [split; [done|lia]|].
  destruct (Z.leb_spec size 0) as [?|Hs]; cbn [orb]; [split; [done|lia]|].
  destruct (Z.ltb_spec (2 ^ 64) (base + size)) as [?|Hl]; [split; [done|lia]|].
  assert (Hel : forall lo hi, (lo, hi) ∈ merge_sort pair_le (of_kind kind regions) <-> (kind, lo, hi) ∈ regions).
  { intros lo hi. by rewrite merge_sort_Permutation, of_kind_elem. }
  split.
  - intros E. split_and!; [done..|]. intros x Hx. destruct (sweep_sound _ _ _ E x Hx) as (lo & hi & ?%Hel & ?). eauto.
  - intros (_ & _ & _ & Hr). apply sweep_complete; [apply StronglySorted_merge_sort; apply _|lia|].
    intros x Hx. destruct (Hr x Hx) as (lo & hi & ? & ?). exists lo, hi. by rewrite Hel.
Qed.

(** [_covered] is exact.  It accepts a range if and only if the range is not
    empty, does not start at address 0 nor end past the 64-bit space, and every
    byte of it lies in some region of the kind, however many regions it takes, in
    whatever order the memory map lists them and however they overlap. *)
Theorem covered_exact regions kind base size :
  covered regions kind base size = true <->
  base <> 0 /\ 0 < size /\ base + size <= 2 ^ 64 /\
  forall x, base <= x < base + size -> exists lo hi, (kind, lo, hi) ∈ regions /\ lo <= x < hi.
Proof. apply covered_spec. Qed.

(** ** Paths *)

Lemma encode_path_spec path raw : encode_path path = Ok raw ->
  raw = ljust 256 (map byte_of_Z path) /\ zlen path < 256 /\ Forall (fun c => 32 <= byte_to_Z c <= 126) (map byte_of_Z path).
Proof.
  unfold encode_path. destruct (_ || _ || _); [done|]. destruct (existsb _ path); [done|]. destruct (_ || existsb _ (map byte_of_Z path)) eqn:E; [done|].
  intros [= <-]. apply orb_false_iff in E as [E1%Z.leb_gt E2]. split; [done|]. unfold zlen in *. rewrite length_map in E1. split; [lia|].
  apply Forall_forall. intros c Hc%list_elem_of_In. destruct ((byte_to_Z c <? 32) || (126 <? byte_to_Z c)) eqn:Ec.
  - assert (existsb (fun c => (byte_to_Z c <? 32) || (126 <? byte_to_Z c)) (map byte_of_Z path) = true); [|congruence].
    apply existsb_exists. by exists c.
  - apply orb_false_iff in Ec as [?%Z.ltb_ge ?%Z.ltb_ge]. lia.
Qed.

Lemma length_encode_path path raw : encode_path path = Ok raw -> length raw = 256%nat.
Proof. intros (-> & Hl & _)%encode_path_spec. apply length_ljust. unfold zlen in Hl. rewrite length_map. lia. Qed.

Lemma until_nul_app (a b : bytes) : Forall (fun c => c <> Byte.x00) a -> until_nul (a ++ Byte.x00 :: b) = a.
Proof. induction 1 as [|c a Hc _ IH]; [done|]. cbn [app until_nul]. destruct c; try (by f_equal); done. Qed.

(** What [resident_cache] reads back from an encoded path is the path itself. *)
Lemma until_nul_encode path raw : encode_path path = Ok raw -> until_nul raw = map byte_of_Z path.
Proof.
  intros (-> & Hl & Hc)%encode_path_spec. unfold ljust. rewrite length_map. unfold zlen in Hl.
  destruct (256 - length path)%nat as [|k] eqn:Ek; [lia|]. cbn [replicate]. apply until_nul_app.
  eapply Forall_impl; [exact Hc|]. intros c Hr ->. change (byte_to_Z x00) with 0 in Hr. lia.
Qed.

(** ** The resident cache *)

Definition apart (a b : Z * Z) : Prop := a.2 <= b.1 \/ b.2 <= a.1.
Definition alloc_range (f : cached_file) : Z * Z := (cf_base f, cf_base f + cf_allocation f).

(** What the checks of one entry establish. *)
Record entry_ok (regions : list region) (f : cached_file) : Prop := {
  eo_base : cf_base f mod 4096 = 0;
  eo_size : 0 < cf_size f;
  eo_alloc : cf_allocation f = page_up (cf_size f);
  eo_reserved : covered regions 2 (cf_base f) (cf_allocation f) = true;
  eo_path : is_ok (encode_path (cf_path f)) = true;
  eo_digest : length (cf_sha256 f) = 32%nat
}.

Fixpoint sum_sizes (fs : list cached_file) : Z := match fs with [] => 0 | f :: r => cf_size f + sum_sizes r end.

Lemma bind_inv {A B} (m : result A) (k : A -> result B) b : rbind m k = Ok b -> exists a, m = Ok a /\ k a = Ok b.
Proof. destruct m as [a|]; [|done]. by exists a. Qed.

Lemma page_up_ge n : n <= page_up n.
Proof.
  unfold page_up. change (Z.lnot 4095) with (Z.lnot (2 ^ 12 - 1)). fold (align_down (n + 4095) (2 ^ 12)). rewrite align_down_spec by lia.
  pose proof (Z.mod_pos_bound (n + 4095) (2 ^ 12) ltac:(lia)). change (2 ^ 12) with 4096 in *. lia.
Qed.

Lemma cache_entries_sound regions raw : forall n i total ranges paths fs,
  cache_entries regions raw n i total ranges paths = Ok fs -> 0 <= total ->
  length fs = n /\
  Forall (entry_ok regions) fs /\
  total + sum_sizes fs <= Z.max total LIMIT /\
  (forall k f, fs !! k = Some f -> cf_index f = i + Z.of_nat k) /\
  Forall (fun f => Forall (apart (alloc_range f)) ranges) fs /\
  ForallOrdPairs (fun f g => apart (alloc_range f) (alloc_range g)) fs /\
  Forall (fun f => lower_str (cf_path f) ∉ paths) fs /\
  NoDup (map (fun f => lower_str (cf_path f)) fs).
Proof.
  induction n as [|n IH]; intros i total ranges paths fs E Ht.
  { injection E as <-. split_and!; try constructor; simpl; try lia. intros k f. by rewrite lookup_nil. }
  cbn [cache_entries] in E. apply bind_inv in E as (base & Eb & E). apply bind_inv in E as (al & Ea & E).
  apply bind_inv in E as (len & El & E). destruct (Nat.leb_spec (HEADER_SIZE + Z.to_nat i * ENTRY_SIZE + 312) (length raw)) as [Hraw|]; [|done].
  cbn [negb] in E. destruct (_ || _ || _ || _) eqn:Hchk; [done|]. apply orb_false_iff in Hchk as [[[H1 H2]%orb_false_iff H3]%orb_false_iff H4].
  apply negb_false_iff in H1, H2, H3, H4. apply Z.eqb_eq in H1, H3. apply andb_true_iff in H2 as [H2%Z.ltb_lt H2'%Z.leb_le].
  destruct (existsb _ ranges) eqn:Hov; [done|]. destruct (existsb _ (until_nul _)); [done|]. apply bind_inv in E as (enc & Eenc & E).
  destruct (_ || _) eqn:Hpath; [done|]. apply orb_false_iff in Hpath as [Hp1 Hp2]. apply negb_false_iff in Hp1. apply bool_decide_eq_false_1 in Hp2.
  apply bind_inv in E as (rest & Er & [= <-]).
  destruct (IH _ _ _ _ _ Er ltac:(lia)) as (Hn & Hok & Hsum & Hidx & Hap & Hord & Hnp & Hnd). clear IH Er.
  set (name := map byte_to_Z _) in *. split_and!.
  - simpl. by rewrite Hn.
  - constructor; [|done]. constructor; simpl; try done.
    + by rewrite Eenc.
    + unfold slice. rewrite length_take, length_drop. lia.
  - cbn [sum_sizes cf_size]. lia.
  - intros [|k] f; simpl; [intros [= <-]; simpl; lia|]. intros Hf%Hidx. lia.
  - constructor.
    + apply Forall_forall. intros [lo hi] Hin%list_elem_of_In. unfold apart, alloc_range. simpl.
      destruct (Z.lt_ge_cases base hi) as [Hlt|?]; [|lia]. destruct (Z.lt_ge_cases lo (base + al)) as [Hlt'|?]; [|lia].
      assert (existsb (fun '(lo, hi) => (base <? hi) && (lo <? base + al)) ranges = true); [|congruence].
      apply existsb_exists. exists (lo, hi). split; [done|]. apply andb_true_iff. split; by apply Z.ltb_lt.
    + eapply Forall_impl; [exact Hap|]. intros f Hf. by apply Forall_app in Hf as [? _].
  - constructor; [|done]. eapply Forall_impl; [exact Hap|]. intros f [_ Hf%Forall_inv]%Forall_app. unfold apart, alloc_range in *. simpl in *. lia.
  - constructor; [done|]. eapply Forall_impl; [exact Hnp|]. set_solver.
  - cbn [map]. constructor; [|done]. intros Hin%list_elem_of_In. apply in_map_iff in Hin as (f & Hf & Hin%list_elem_of_In).
    rewrite Forall_forall in Hnp. specialize (Hnp f Hin). rewrite Hf in Hnp. set_solver.
Qed.

(** A set of files a loader may leave behind, for the memory map [regions] and
    its table at [table]. *)
Record honest_cache (regions : list region) (table : Z) (fs : list cached_file) : Prop := {
  hc_count : 1 <= zlen fs <= MAX_FILES;
  hc_entries : Forall (entry_ok regions) fs;
  hc_total : sum_sizes fs <= LIMIT;
  hc_index : forall k f, fs !! k = Some f -> cf_index f = Z.of_nat k;
  hc_table : Forall (fun f => apart (alloc_range f) (table, table + page_up CACHE_SIZE)) fs;
  hc_apart : ForallOrdPairs (fun f g => apart (alloc_range f) (alloc_range g)) fs;
  hc_paths : NoDup (map (fun f => lower_str (cf_path f)) fs)
}.

(** What the boot information must say about the table and its verifier. *)
Record cache_info (regions : list region) (info : boot_info) : Prop := {
  ci_status : rget info "preload_status" = 0;
  ci_size : rget info "preload_size" = CACHE_SIZE;
  ci_align : rget info "preload_table" mod 4096 = 0;
  ci_table : covered regions 2 (rget info "preload_table") (page_up CACHE_SIZE) = true;
  ci_verify_align : rget info "preload_verify" mod 4 = 0;
  ci_verify : covered regions 1 (rget info "preload_verify") 4 = true
}.

(** The header at the start of the table. *)
Definition cache_header (raw : bytes) (count : Z) : Prop :=
  unpack_Qs 4 0 raw = Ok [CACHE_MAGIC; 1; count; Z.of_nat ENTRY_SIZE].

Section resident.
  Context {S : Type} `{!TargetOps S}.

(** The function on the branches that go through. *)
Lemma resident_cache_inv info (s : S) fs s' : resident_cache info s = (Ok fs, s') ->
  (rget info "preload_table" = 0 /\ rget info "preload_size" = 0 /\ fs = [] /\ s' = s) \/
  exists regions s1 raw count, memory_regions info s = (Ok regions, s1) /\ cache_info regions info /\
    t_readmem (rget info "preload_table") CACHE_SIZE false s1 = (Ok raw, s') /\ cache_header raw count /\ 1 <= count <= MAX_FILES /\
    cache_entries regions raw (Z.to_nat count) 0 0
      [(rget info "preload_table", rget info "preload_table" + page_up CACHE_SIZE)] [] = Ok fs.
Proof.
  unfold resident_cache. destruct (_ && _) eqn:E0.
  { apply andb_true_iff in E0 as [?%Z.eqb_eq ?%Z.eqb_eq]. intros [= <- <-]. by left. }
  destruct (_ || _ || _) eqn:E1; [done|]. apply orb_false_iff in E1 as [[H1 H2]%orb_false_iff H3].
  apply negb_false_iff, Z.eqb_eq in H1, H2, H3. rewrite H2. unfold py_bind at 1.
  destruct (memory_regions info s) as [[regions|e] s1] eqn:Em; [|done].
  destruct (covered regions 2 _ _) eqn:H4; [|done]. cbn [negb]. destruct (_ || _) eqn:E2; [done|].
  apply orb_false_iff in E2 as [H5 H6]. apply negb_false_iff in H5, H6. apply Z.eqb_eq in H5.
  unfold py_bind at 1. destruct (t_readmem _ _ _ s1) as [[raw|e] s2] eqn:Er; [|done].
  unfold py_bind, py_lift. destruct (unpack_Qs 4 0 raw) as [header|e] eqn:Eh; [|done].
  destruct header as [|magic [|version [|count [|stride [|]]]]]; try done.
  destruct (_ || _ || _ || _) eqn:E3; [done|]. apply orb_false_iff in E3 as [[[G1 G2]%orb_false_iff G3]%orb_false_iff G4].
  apply negb_false_iff in G1, G2, G3, G4. apply Z.eqb_eq in G1 as ->, G2 as ->, G4 as ->. apply andb_true_iff in G3 as [G3%Z.leb_le G3'%Z.leb_le].
  intros [= Ec <-]. right. exists regions, s1, raw, count. by repeat (split; [done|]).
Qed.

Lemma resident_cache_ok info (s : S) regions s1 raw s2 count : memory_regions info s = (Ok regions, s1) -> cache_info regions info ->
  t_readmem (rget info "preload_table") CACHE_SIZE false s1 = (Ok raw, s2) -> cache_header raw count -> 1 <= count <= MAX_FILES ->
  resident_cache info s = (cache_entries regions raw (Z.to_nat count) 0 0
      [(rget info "preload_table", rget info "preload_table" + page_up CACHE_SIZE)] [], s2).
Proof.
  intros Em [H1 H2 H3 H4 H5 H6] Er Eh Hc. unfold resident_cache. rewrite H2, H1, H3. rewrite andb_false_r. cbn [Z.eqb negb orb].
  rewrite Z.eqb_refl. cbn [negb orb]. rewrite (py_bind_ok _ _ _ _ _ Em), H4. cbn [negb]. rewrite H5, H6. cbn [Z.eqb negb orb].
  rewrite (py_bind_ok _ _ _ _ _ Er), Eh. rewrite (py_bind_ok (py_lift (Ok _)) _ s2 _ s2 eq_refl). rewrite !Z.eqb_refl. cbn [negb orb].
  rewrite (proj2 (Z.leb_le 1 count)), (proj2 (Z.leb_le count MAX_FILES)) by lia. done.
Qed.
End resident.

(** [resident_cache] fails closed.  On any target, when it returns files, each
    of them starts on a page, is not empty, has exactly the allocation its size
    needs, and all of that allocation lies in memory the EFI map reserves as
    LoaderData; allocations overlap neither each other nor the table; the files
    together stay within 4 GiB; their paths are canonical and no two are equal up
    to case; and the verifier that [copy_cached] will call is in LoaderCode. *)
Theorem resident_cache_sound {S} `{!TargetOps S} info (s : S) fs s'
    (E : resident_cache info s = (Ok fs, s')) (Hadv : rget info "preload_table" <> 0 \/ rget info "preload_size" <> 0) :
  exists regions s1, memory_regions info s = (Ok regions, s1) /\ cache_info regions info /\
    honest_cache regions (rget info "preload_table") fs /\
    Forall (fun f => range_in regions 2 (cf_base f) (cf_allocation f) /\ cf_size f <= cf_allocation f) fs /\
    range_in regions 1 (rget info "preload_verify") 4.
Proof.
  destruct (resident_cache_inv info s fs s' E) as [(H1 & H2 & _)|(regions & s1 & raw & count & Em & Hci & Er & Hh & Hc & Ec)]; [lia|].
  exists regions, s1. destruct (cache_entries_sound _ _ _ _ _ _ _ _ Ec ltac:(lia)) as (Hn & Hok & Hsum & Hidx & Hap & Hord & _ & Hnd).
  split; [done|]. split; [done|]. split_and!.
  - split; [unfold zlen, MAX_FILES in *; lia|done|change LIMIT with (2 ^ 32) in *; lia|intros k f Hf; by rewrite (Hidx k f Hf)| |done|done].
    eapply Forall_impl; [exact Hap|]. intros f Hf. by apply Forall_inv in Hf.
  - eapply Forall_impl; [exact Hok|]. intros f [Hb Hs Ha Hr _ _]. apply covered_spec in Hr. split; [tauto|]. rewrite Ha. apply page_up_ge.
  - apply covered_spec, (ci_verify _ _ Hci).
Qed.

(** ** Reading back a table *)

(** An entry of the table, and the table of a list of files. *)
Definition entry_bytes (f : cached_file) : bytes :=
  le_bytes 8 (cf_base f) ++ le_bytes 8 (cf_allocation f) ++ le_bytes 8 (cf_size f) ++ cf_sha256 f ++ ljust 256 (map byte_of_Z (cf_path f)).
Definition table_bytes (fs : list cached_file) : bytes :=
  le_bytes 8 CACHE_MAGIC ++ le_bytes 8 1 ++ le_bytes 8 (zlen fs) ++ le_bytes 8 (Z.of_nat ENTRY_SIZE) ++ concat (map entry_bytes fs) ++
  replicate ((16 - length fs) * ENTRY_SIZE) Byte.x00.

(** Strings that hold code points: what [encode_path] accepts is ASCII. *)
Lemma encode_path_codes path raw : encode_path path = Ok raw -> Forall (fun c => 0 <= c) path -> map byte_to_Z (map byte_of_Z path) = path /\
  Forall (fun c => 0 <= c < 128) path.
Proof.
  intros E Hpos. unfold encode_path in E. destruct (_ || _ || _); [done|]. destruct (existsb (fun c => 128 <=? c) path) eqn:Ea; [done|]. clear E.
  assert (H : Forall (fun c => 0 <= c < 128) path).
  { apply Forall_forall. intros c Hc. rewrite Forall_forall in Hpos. specialize (Hpos c Hc). cbv beta in *. destruct (Z.lt_ge_cases c 128); [lia|].
    assert (existsb (fun c => 128 <=? c) path = true); [|congruence]. apply existsb_exists. exists c. split; [by apply list_elem_of_In|by apply Z.leb_le]. }
  split; [|done]. rewrite map_map. rewrite <- (map_id path) at 2. apply map_ext_Forall. eapply Forall_impl; [exact H|]. intros c Hc. cbv beta in Hc. rewrite byte_to_of_Z. apply Z.mod_small. lia.
Qed.

Lemma length_entry f : is_ok (encode_path (cf_path f)) = true -> length (cf_sha256 f) = 32%nat -> length (entry_bytes f) = 312%nat.
Proof.
  intros Hp Hd. unfold entry_bytes. rewrite !length_app, !length_le_bytes, Hd. destruct (encode_path (cf_path f)) as [raw|] eqn:Er; [|done].
  destruct (encode_path_spec _ _ Er) as (<- & _). by rewrite (length_encode_path _ _ Er).
Qed.

Lemma length_entries fs : Forall (fun f => is_ok (encode_path (cf_path f)) = true /\ length (cf_sha256 f) = 32%nat) fs ->
  length (concat (map entry_bytes fs)) = (length fs * 312)%nat.
Proof. induction 1 as [|f fs [Hp Hd] _ IH]; [done|]. cbn [map concat length]. rewrite length_app, IH, length_entry by done. lia. Qed.

(** The fields of an entry that sits at offset [off] of a table. *)
Lemma entry_fields regions f (a c : bytes) off : entry_ok regions f -> off = length a ->
  0 <= cf_base f < 2 ^ 64 -> 0 <= cf_allocation f < 2 ^ 64 -> 0 <= cf_size f < 2 ^ 64 ->
  let raw := a ++ entry_bytes f ++ c in
  unpack_u 8 off raw = Ok (cf_base f) /\ unpack_u 8 (off + 8) raw = Ok (cf_allocation f) /\ unpack_u 8 (off + 16) raw = Ok (cf_size f) /\
  slice (off + 24) (off + 56) raw = cf_sha256 f /\ slice (off + 56) (off + 312) raw = ljust 256 (map byte_of_Z (cf_path f)) /\
  (off + 312 <= length raw)%nat.
Proof.
  intros [_ _ _ _ Hp Hd] -> Hb Ha Hs raw. destruct (encode_path (cf_path f)) as [p|] eqn:Ep; [|done].
  destruct (encode_path_spec _ _ Ep) as (Hraw & _). pose proof (length_encode_path _ _ Ep) as Hl. rewrite Hraw in Hl.
  set (P := ljust 256 _) in *. unfold raw, entry_bytes. fold P. rewrite <- !app_assoc.
  set (B := le_bytes 8 (cf_base f)). set (A := le_bytes 8 (cf_allocation f)). set (Z0 := le_bytes 8 (cf_size f)).
  assert (HB : length B = 8%nat) by apply length_le_bytes. assert (HA : length A = 8%nat) by apply length_le_bytes.
  assert (HZ : length Z0 = 8%nat) by apply length_le_bytes. split_and!.
  - by apply unpack_u_le_bytes.
  - rewrite (app_assoc a B). apply unpack_u_le_bytes; [rewrite length_app; lia|done].
  - rewrite (app_assoc a B), (app_assoc (a ++ B) A). apply unpack_u_le_bytes; [rewrite !length_app; lia|done].
  - rewrite (app_assoc a B), (app_assoc (a ++ B) A), (app_assoc ((a ++ B) ++ A) Z0).
    replace (length a + 24)%nat with (length (((a ++ B) ++ A) ++ Z0)) by (rewrite !length_app; lia).
    unfold slice. rewrite drop_app_length. apply take_app_length'. rewrite !length_app. lia.
  - rewrite (app_assoc a B), (app_assoc (a ++ B) A), (app_assoc ((a ++ B) ++ A) Z0), (app_assoc (((a ++ B) ++ A) ++ Z0) (cf_sha256 f)).
    replace (length a + 56)%nat with (length ((((a ++ B) ++ A) ++ Z0) ++ cf_sha256 f)) by (rewrite !length_app; lia).
    unfold slice. rewrite drop_app_length. apply take_app_length'. rewrite !length_app. lia.
  - rewrite !length_app. lia.
Qed.

(** Files as a table can hold them: unsigned addresses, paths of code points. *)
Definition wf_file (f : cached_file) : Prop := 0 <= cf_base f /\ Forall (fun c => 0 <= c) (cf_path f).

Lemma no_overlap base al ranges : Forall (apart (base, base + al)) ranges ->
  existsb (fun '(lo, hi) => (base <? hi) && (lo <? base + al)) ranges = false.
Proof.
  induction 1 as [|[lo hi] l H _ IH]; [done|]. cbn [existsb]. rewrite IH, orb_false_r. unfold apart in H. simpl in H.
  destruct (Z.ltb_spec base hi); [|done]. destruct (Z.ltb_spec lo (base + al)); [lia|done].
Qed.

Lemma ascii_name path raw : encode_path path = Ok raw -> Forall (fun c => 0 <= c) path ->
  existsb (fun c => 128 <=? byte_to_Z c) (map byte_of_Z path) = false /\ map byte_to_Z (map byte_of_Z path) = path.
Proof.
  intros E Hp. destruct (encode_path_codes path raw E Hp) as [Hm Ha]. split; [|done]. clear E Hp Hm.
  induction Ha as [|c path Hc _ IH]; [done|]. cbn [map existsb]. rewrite IH, orb_false_r. rewrite byte_to_of_Z, Z.mod_small by lia. apply Z.leb_gt. lia.
Qed.

Lemma cache_entries_complete regions (post : bytes) : forall fs (a : bytes) i total ranges paths,
  0 <= i -> length a = (HEADER_SIZE + Z.to_nat i * ENTRY_SIZE)%nat -> 0 <= total ->
  Forall (entry_ok regions) fs -> Forall wf_file fs -> total + sum_sizes fs <= LIMIT ->
  (forall k f, fs !! k = Some f -> cf_index f = i + Z.of_nat k) ->
  Forall (fun f => Forall (apart (alloc_range f)) ranges) fs ->
  ForallOrdPairs (fun f g => apart (alloc_range f) (alloc_range g)) fs ->
  Forall (fun f => lower_str (cf_path f) ∉ paths) fs -> NoDup (map (fun f => lower_str (cf_path f)) fs) ->
  cache_entries regions (a ++ concat (map entry_bytes fs) ++ post) (length fs) i total ranges paths = Ok fs.
Proof.
  induction fs as [|f fs IH]; intros a i total ranges paths Hi Ha Ht Hok Hwf Hsum Hidx Hap Hord Hnp Hnd; [done|].
  apply Forall_cons in Hok as [Hf Hok]. apply Forall_cons in Hwf as [[Hb0 Hcp] Hwf]. apply Forall_cons in Hap as [Hapf Hap].
  apply Forall_cons in Hnp as [Hnpf Hnp]. inversion Hord as [|? ? Hof Hord']; subst. cbn [map] in Hnd. apply NoDup_cons in Hnd as [Hndf Hnd].
  cbn [sum_sizes] in Hsum. cbn [map concat length cache_entries]. rewrite <- (app_assoc (entry_bytes f)).
  pose proof Hf as [Hba Hs0 Hal Hcov Hp Hd]. pose proof (proj1 (covered_spec _ _ _ _) Hcov) as (Hbn & Hal0 & Hend & _).
  assert (Hsz : 0 <= sum_sizes fs).
  { clear -Hok. induction Hok as [|g gs [_ Hg _ _ _ _] _ IHg]; cbn [sum_sizes]; lia. }
  change LIMIT with (2 ^ 32) in *.
  destruct (entry_fields regions f a (concat (map entry_bytes fs) ++ post) (HEADER_SIZE + Z.to_nat i * ENTRY_SIZE)%nat) as (E1 & E2 & E3 & E4 & E5 & E6);
    [done|done|lia|lia|lia|]. rewrite E1, E2, E3. cbn [rbind]. rewrite E4, E5, (proj2 (Nat.leb_le _ _) E6). cbn [negb].
  rewrite Hba, (proj2 (Z.eqb_eq _ _) Hal), Hcov. rewrite (proj2 (Z.ltb_lt 0 _)), (proj2 (Z.leb_le (cf_size f) _)) by lia. cbn [Z.eqb negb orb andb].
  rewrite no_overlap by exact Hapf. destruct (encode_path (cf_path f)) as [p|] eqn:Ep; [|done]. destruct (encode_path_spec _ _ Ep) as (Hraw & _).
  rewrite <- Hraw, (until_nul_encode _ _ Ep). destruct (ascii_name _ _ Ep Hcp) as [En Em]. rewrite En, Em, Ep. cbn [rbind].
  unfold bytes_eqb. rewrite bool_decide_eq_true_2 by done. rewrite bool_decide_eq_false_2 by done. cbn [negb orb].
  rewrite app_assoc. rewrite IH; [|..]; cbn [rbind]; try done; try lia.
  - f_equal. f_equal. specialize (Hidx 0%nat f eq_refl). destruct f; simpl in *. f_equal; lia.
  - rewrite length_app, Ha, length_entry by (by rewrite ?Ep). unfold ENTRY_SIZE. lia.
  - intros k g Hg. rewrite (Hidx (Datatypes.S k) g Hg). lia.
  - rewrite Forall_forall in Hap, Hof |- *. intros g Hg. apply Forall_app. split; [by apply Hap|]. constructor; [|constructor].
    specialize (Hof g Hg). unfold apart, alloc_range in *. simpl in *. lia.
  - rewrite Forall_forall in Hnp |- *. intros g Hg. rewrite not_elem_of_cons. split; [|by apply Hnp]. intros Heq. apply Hndf.
    apply list_elem_of_In, in_map_iff. exists g. split; [done|by apply list_elem_of_In].
Qed.

Lemma unpack_4Q a b c d (post : bytes) : 0 <= a < 2 ^ 64 -> 0 <= b < 2 ^ 64 -> 0 <= c < 2 ^ 64 -> 0 <= d < 2 ^ 64 ->
  unpack_Qs 4 0 (le_bytes 8 a ++ le_bytes 8 b ++ le_bytes 8 c ++ le_bytes 8 d ++ post) = Ok [a; b; c; d].
Proof.
  intros Ha Hb Hc Hd. destruct (pack_Qs_ok [a; b; c; d]) as [bs Hp]; [repeat (apply Forall_cons_2; [done|]); constructor|].
  pose proof (unpack_Qs_pack [a; b; c; d] bs [] post Hp) as Hu. cbn [pack_Qs] in Hp. unfold pack_Q in Hp. rewrite !pack_u_ok in Hp by done.
  cbn [rbind] in Hp. assert (bs = le_bytes 8 a ++ le_bytes 8 b ++ le_bytes 8 c ++ le_bytes 8 d ++ []) as -> by congruence.
  rewrite <- !app_assoc in Hu. exact Hu.
Qed.

(** [resident_cache] accepts what an honest loader leaves.  When the table in
    memory lists files that are honest for the memory map, with the boot
    information pointing at it, [resident_cache] returns exactly those files, in
    order: the validation rejects nothing it should accept, and every field
    survives the encoding. *)
Theorem resident_cache_complete {S} `{!TargetOps S} info (s : S) regions s1 s2 fs
    (Hm : memory_regions info s = (Ok regions, s1)) (Hinfo : cache_info regions info)
    (Hr : t_readmem (rget info "preload_table") CACHE_SIZE false s1 = (Ok (table_bytes fs), s2))
    (Hh : honest_cache regions (rget info "preload_table") fs) (Hwf : Forall wf_file fs) :
  resident_cache info s = (Ok fs, s2).
Proof.
  destruct Hh as [Hc Hok Hsum Hidx Htab Hord Hnd].
  assert (Hhd : cache_header (table_bytes fs) (zlen fs)).
  { unfold cache_header, table_bytes, MAX_FILES in *. apply unpack_4Q; [unfold CACHE_MAGIC; lia|lia|lia|unfold ENTRY_SIZE; lia]. }
  rewrite (resident_cache_ok info s regions s1 (table_bytes fs) s2 (zlen fs)); try done. f_equal.
  unfold zlen. rewrite Nat2Z.id. unfold table_bytes.
  set (h := le_bytes 8 CACHE_MAGIC ++ le_bytes 8 1 ++ le_bytes 8 (zlen fs) ++ le_bytes 8 (Z.of_nat ENTRY_SIZE)).
  replace (le_bytes 8 CACHE_MAGIC ++ _) with (h ++ concat (map entry_bytes fs) ++ replicate ((16 - length fs) * ENTRY_SIZE) Byte.x00)
    by (unfold h; by rewrite <- !app_assoc).
  assert (Hlh : length h = 32%nat) by (unfold h; by rewrite !length_app, !length_le_bytes).
  apply (cache_entries_complete regions _ fs h 0 0 [(rget info "preload_table", rget info "preload_table" + page_up CACHE_SIZE)] []); try assumption.
  - done.
  - done.
  - eapply Forall_impl; [exact Htab|]. intros f Hf. by constructor.
  - apply Forall_forall. intros f _. apply not_elem_of_nil.
Qed.

(** ** Copying *)

Section copy.
  Context {S : Type} `{!TargetOps S} `{!TargetMemory S}.

(** Memory where the first [done] bytes of a copy have arrived. *)
Definition copied (m0 : Z -> byte) (dst base done : Z) (m : Z -> byte) : Prop :=
  forall x, m x = if (dst <=? x) && (x <? dst + done) then m0 (base + (x - dst)) else m0 x.

Lemma copied_step m0 dst base off n m m' : copied m0 dst base off m -> 0 <= off -> 0 <= n ->
  (dst + (off + n) <= base \/ base + (off + n) <= dst) ->
  (forall x, m' x = if (dst + off <=? x) && (x <? dst + off + n) then m (base + off + (x - (dst + off))) else m x) ->
  copied m0 dst base (off + n) m'.
Proof.
  intros Hm Hoff Hn Hap Hm' x. rewrite Hm'. destruct (Z.leb_spec (dst + off) x), (Z.ltb_spec x (dst + off + n)); cbn [andb]; rewrite Hm;
    repeat match goal with |- context [Z.leb ?a ?b] => destruct (Z.leb_spec a b) | |- context [Z.ltb ?a ?b] => destruct (Z.ltb_spec a b) end; cbn [andb];
    try lia; try done; f_equal; lia.
Qed.

Lemma copy_pieces_exact dst base size m0 : forall n off (s s' : S), copy_pieces n off dst base size s = (Ok tt, s') ->
  0 <= off -> size <= off + Z.of_nat n * COPY_CHUNK -> (dst + size <= base \/ base + size <= dst) ->
  copied m0 dst base (Z.min off size) (tm_mem s) -> copied m0 dst base size (tm_mem s').
Proof.
  change COPY_CHUNK with 8388608. induction n as [|n IH]; intros off s s' E Hoff Hn Hap Hc; cbn [copy_pieces] in E.
  - injection E as <-. by rewrite Z.min_r in Hc by lia.
  - destruct (Z.leb_spec size off) as [Hle|Hlt]. { injection E as <-. by rewrite Z.min_r in Hc by lia. }
    unfold py_bind in E. change COPY_CHUNK with 8388608 in E. destruct (t_memcpy8 _ _ _ s) as [[[]|e] s1] eqn:E1; [|done].
    apply (IH _ _ _ E); [lia|lia|done|]. rewrite Z.min_l in Hc by lia.
    pose proof (tm_memcpy8 _ _ _ _ _ E1 ltac:(lia) ltac:(lia)) as Hx.
    replace (Z.min (off + 8388608) size) with (off + Z.min 8388608 (size - off)) by lia.
    apply (copied_step m0 dst base off _ (tm_mem s)); [done|lia|lia|lia|done].
Qed.
End copy.

(** [copy_cached] delivers the file or raises.  When it returns, the verifier
    has just confirmed the file's hash, the destination is page-aligned and lies
    in memory the EFI map calls conventional, every byte of the file is at its
    place there, and no other byte of memory has changed; for a verifier that
    changes no memory and a destination that does not overlap the file. *)
Theorem copy_cached_exact {S} `{!TargetOps S} `{!TargetMemory S} info f dst size (s s' : S)
    (E : copy_cached info f dst size s = (Ok tt, s'))
    (Hverify : forall args st r st', t_call (rget info "preload_verify") args st = (r, st') -> forall x, tm_mem st' x = tm_mem st x)
    (Hap : dst + size <= cf_base f \/ cf_base f + size <= dst) :
  size = cf_size f /\ dst mod 4096 = 0 /\
  (exists regions s1 s2, memory_regions info s = (Ok regions, s1) /\ range_in regions 7 dst size /\
     t_call (rget info "preload_verify") [cf_index f] s1 = (Ok 1, s2)) /\
  (forall i, 0 <= i < size -> tm_mem s' (dst + i) = tm_mem s (cf_base f + i)) /\
  (forall x, x < dst \/ dst + size <= x -> tm_mem s' x = tm_mem s x).
Proof.
  unfold copy_cached in E. destruct (_ || _) eqn:E0; [done|]. apply orb_false_iff in E0 as [H1 H2]. apply negb_false_iff, Z.eqb_eq in H1, H2.
  unfold py_bind at 1 in E. destruct (memory_regions info s) as [[regions|e] s1] eqn:Em; [|done].
  destruct (covered regions 7 dst size) eqn:Hc; [|done]. cbn [negb] in E. unfold py_bind, py_lift in E.
  unfold info_item in E. assert (Hrg : forall v, match List.find (fun e => String.eqb (fst e) "preload_verify") info with Some e => Ok (snd e) | None => Raise (KeyError "preload_verify") end = Ok v ->
    rget info "preload_verify" = v) by (intros v; unfold rget; destruct (List.find _ info); [by intros [= ->]|done]).
  destruct (match List.find _ _ with Some e => Ok (snd e) | None => _ end) as [v|] eqn:Ev; [|done]. specialize (Hrg v eq_refl). rewrite <- Hrg in E.
  destruct (t_call _ _ s1) as [[ok|e] s2] eqn:Ecall; [|done]. destruct (Z.eqb_spec ok 1) as [->|]; [|done]. cbn [negb] in E.
  assert (Hm : forall x, tm_mem s2 x = tm_mem s x).
  { intros x. rewrite (Hverify _ _ _ _ Ecall). unfold memory_regions in Em. destruct (_ || _) in Em; [by injection Em as _ <-|].
    unfold py_bind in Em. destruct (t_readmem _ _ _ s) as [[raw|e] s1'] eqn:Er; [|done]. injection Em as _ <-. apply (tm_readmem _ _ _ _ _ _ Er). }
  apply covered_spec in Hc as (_ & Hpos & _ & Hr).
  assert (Hcp : copied (tm_mem s) dst (cf_base f) size (tm_mem s')).
  { apply (copy_pieces_exact dst (cf_base f) size (tm_mem s) _ 0 s2 s' E); [done| |done|].
    - change COPY_CHUNK with 8388608. rewrite Z2Nat.id by (pose proof (Z.div_pos size 8388608); lia).
      pose proof (Z.div_mod size 8388608 ltac:(lia)). pose proof (Z.mod_pos_bound size 8388608 ltac:(lia)). lia.
    - intros x. rewrite Z.min_l by lia. rewrite Hm. destruct (Z.leb_spec dst x), (Z.ltb_spec x (dst + 0)); try done; lia. }
  split; [done|]. split; [done|]. split; [by exists regions, s1, s2|]. split.
  - intros i Hi. rewrite Hcp, (proj2 (Z.leb_le dst (dst + i))), (proj2 (Z.ltb_lt (dst + i) (dst + size))) by lia. cbn [andb]. f_equal. lia.
  - intros x Hx. rewrite Hcp. destruct (Z.leb_spec dst x), (Z.ltb_spec x (dst + size)); try done; lia.
Qed.

(** ** A loaded target *)

Definition descriptor (kind start pages : Z) : bytes :=
  le_bytes 4 kind ++ le_bytes 4 0 ++ le_bytes 8 start ++ le_bytes 8 0 ++ le_bytes 8 pages ++ le_bytes 8 0.
Definition demo_regions : list region := [(7, 0x100000, 0x110000); (2, 0x10000, 0x30000); (1, 0x40000, 0x41000)].
Definition demo_file : cached_file :=
  {| cf_index := 0; cf_base := 0x20000; cf_allocation := 0x1000; cf_size := 5; cf_sha256 := replicate 32 Byte.x11; cf_path := [92; 97; 46; 98] |}.
Definition demo_info : boot_info :=
  [("memory_map", 0x200000); ("memory_map_size", 120); ("memory_map_stride", 40); ("preload_table", 0x10000);
   ("preload_size", CACHE_SIZE); ("preload_verify", 0x40000)].
Definition demo_ram : ram :=
  {| ram_mem := mem_store 0x200000 (descriptor 7 0x100000 16 ++ descriptor 2 0x10000 32 ++ descriptor 1 0x40000 1)
       (mem_store 0x10000 (table_bytes [demo_file]) (mem_store 0x20000 [Byte.x01; Byte.x02; Byte.x03; Byte.x04; Byte.x05] (fun _ => Byte.x00)));
     ram_answer := 1 |}.

(** A run that ends well, up to the state it leaves. *)
Lemma run_ok {A} (m : M ram A) s a : fst (m s) = Ok a -> m s = (Ok a, snd (m s)).
Proof. intros <-. apply surjective_pairing. Qed.

Lemma demo_memory_map : memory_regions demo_info demo_ram = (Ok demo_regions, demo_ram).
Proof. apply run_ok. vm_compute. reflexivity. Qed.

Lemma demo_read_table : t_readmem (rget demo_info "preload_table") CACHE_SIZE false demo_ram = (Ok (table_bytes [demo_file]), demo_ram).
Proof. apply run_ok. vm_compute. reflexivity. Qed.

Lemma demo_info_ok : cache_info demo_regions demo_info.
Proof. split; vm_compute; reflexivity. Qed.

Lemma demo_file_ok : entry_ok demo_regions demo_file.
Proof. split; vm_compute; reflexivity. Qed.

Lemma demo_honest : honest_cache demo_regions 0x10000 [demo_file].
Proof.
  split.
  - vm_compute. split; congruence.
  - constructor; [apply demo_file_ok|constructor].
  - vm_compute. congruence.
  - intros [|k] f; [by intros [= <-]|]. simpl. by rewrite lookup_nil.
  - constructor; [|constructor]. right. vm_compute. congruence.
  - repeat constructor.
  - apply (bool_decide_unpack _). vm_compute. exact Logic.I.
Qed.

Lemma resident_cache_complete_witness : resident_cache demo_info demo_ram = (Ok [demo_file], demo_ram).
Proof.
  apply (resident_cache_complete demo_info demo_ram demo_regions demo_ram demo_ram [demo_file]).
  - apply demo_memory_map.
  - apply demo_info_ok.
  - apply demo_read_table.
  - apply demo_honest.
  - constructor; [|constructor]. split; [vm_compute; congruence|]. repeat constructor; vm_compute; congruence.
Defined.

Lemma resident_cache_sound_witness : exists regions s1, memory_regions demo_info demo_ram = (Ok regions, s1) /\
  range_in regions 2 0x20000 0x1000.
Proof.
  destruct (resident_cache_sound demo_info demo_ram [demo_file] demo_ram) as (regions & s1 & Em & _ & _ & Hf & _).
  - apply run_ok. vm_compute. reflexivity.
  - left. vm_compute. congruence.
  - exists regions, s1. split; [exact Em|]. apply Forall_inv in Hf. apply Hf.
Defined.

Definition after_copy : ram := snd (copy_cached demo_info demo_file 0x100000 5 demo_ram).
Lemma demo_copy : copy_cached demo_info demo_file 0x100000 5 demo_ram = (Ok tt, after_copy).
Proof. apply run_ok. vm_compute. reflexivity. Qed.

Lemma copy_cached_exact_witness : exists s', copy_cached demo_info demo_file 0x100000 5 demo_ram = (Ok tt, s') /\
  ram_mem s' 0x100004 = Byte.x05 /\ ram_mem s' 0x100005 = Byte.x00.
Proof.
  exists after_copy. split; [exact demo_copy|].
  destruct (copy_cached_exact demo_info demo_file 0x100000 5 demo_ram after_copy demo_copy) as (_ & _ & _ & Hin & Hout).
  - by intros args st r st' [= <- <-] x.
  - right. vm_compute. congruence.
  - split.
    + etransitivity; [exact (Hin 4 ltac:(lia))|vm_compute; reflexivity].
    + etransitivity; [exact (Hout 0x100005 ltac:(right; lia))|vm_compute; reflexivity].
Defined.

(** ** Manifests *)

Definition sum_files (fs : list (str * Z * bytes)) : Z := fold_right (fun f t => f.1.2 + t) 0 fs.

(** The record [r] of a file. *)
Definition is_record (f : str * Z * bytes) (r : bytes) : Prop :=
  exists raw h, encode_path f.1.1 = Ok raw /\ fromhex f.2 = Ok h /\ length h = 32%nat /\ 0 < f.1.2 < 2 ^ 64 /\ r = le_bytes 8 f.1.2 ++ h ++ raw.

Lemma length_is_record f r : is_record f r -> length r = FILE_SIZE.
Proof. intros (raw & h & E & _ & Hh & _ & ->). by rewrite !length_app, length_le_bytes, Hh, (length_encode_path _ _ E). Qed.

Lemma manifest_records_inv files : forall total seen bs, manifest_records files total seen = Ok bs -> 0 <= total <= LIMIT ->
  (exists rs, bs = concat rs /\ Forall2 is_record files rs) /\ total + sum_files files <= LIMIT /\
  exists raws, Forall2 (fun f raw => encode_path f.1.1 = Ok raw) files raws /\
    Forall (fun raw => lower_bytes raw ∉ seen) raws /\ NoDup (map lower_bytes raws).
Proof.
  change LIMIT with (2 ^ 32). induction files as [|[[path size] digest] files IH]; intros total seen bs E Ht; cbn [manifest_records] in E.
  { injection E as <-. split; [by exists []|]. split; [simpl; lia|]. exists []. split_and!; constructor. }
  apply bind_inv in E as (raw & Eraw & E). destruct (_ || _) eqn:Hchk; [done|]. apply orb_false_iff in Hchk as [H1 H2].
  apply bool_decide_eq_false_1 in H1. apply negb_false_iff in H2. apply andb_true_iff in H2 as [H2%Z.ltb_lt H2'%Z.leb_le].
  apply bind_inv in E as (h & Eh & E). destruct (Z.eqb_spec (zlen h) 32) as [Hh|]; [|done]. cbn [negb] in E.
  apply bind_inv in E as (q & Eq & E). apply pack_u_inv in Eq as [_ ->]. apply bind_inv in E as (rest & Er & [= <-]).
  change LIMIT with (2 ^ 32) in *. destruct (IH _ _ _ Er ltac:(lia)) as ((rs & -> & Hrs) & Hsum & raws & Hraws & Hns & Hnd). unfold zlen in Hh.
  split; [|split].
  - exists ((le_bytes 8 size ++ h ++ raw) :: rs). split; [cbn [concat]; by rewrite <- !app_assoc|]. constructor; [|done].
    exists raw, h. cbn [fst snd]. split; [done|]. split; [done|]. split; [lia|]. split; [lia|done].
  - unfold sum_files in *. cbn [fold_right fst snd]. lia.
  - exists (raw :: raws). split; [by constructor|]. split.
    + constructor; [done|]. eapply Forall_impl; [exact Hns|]. set_solver.
    + cbn [map]. constructor; [|done]. intros Hin%list_elem_of_In. apply in_map_iff in Hin as (x & Hx & Hin%list_elem_of_In).
      rewrite Forall_forall in Hns. apply (Hns x Hin). rewrite Hx. set_solver.
Qed.

(** The [i]-th of a sequence of pieces of equal length. *)
Lemma concat_piece n (rs : list bytes) : Forall (fun r => length r = n) rs -> forall i r, rs !! i = Some r ->
  exists a c, concat rs = a ++ r ++ c /\ length a = (i * n)%nat.
Proof.
  induction 1 as [|x rs Hx _ IH]; intros i r Hi; [done|]. destruct i as [|i]; simpl in Hi.
  - injection Hi as ->. by exists [], (concat rs).
  - destruct (IH i r Hi) as (a & c & E & Hl). exists (x ++ a), c. cbn [concat]. rewrite E, <- !app_assoc, length_app. split; [done|lia].
Qed.

(** A manifest can be read back.  [manifest] accepts at most sixteen files of
    4 GiB in all whose paths differ by more than case, and its record [i] then
    holds the size, the digest and the path of file [i]: the path up to the first
    NUL is the one given, so [resident_cache] accepts the paths that a loader
    copies from a manifest. *)
Theorem manifest_roundtrip files data (E : manifest files = Ok data) :
  1 <= zlen files <= 16 /\ length data = (HEADER_SIZE + length files * FILE_SIZE)%nat /\ sum_files files <= 2 ^ 32 /\
  (forall i path size digest, files !! i = Some (path, size, digest) ->
    let off := (HEADER_SIZE + i * FILE_SIZE)%nat in
    unpack_u 8 off data = Ok size /\ fromhex digest = Ok (slice (off + 8) (off + 40) data) /\
    encode_path path = Ok (slice (off + 40) (off + 296) data) /\
    until_nul (slice (off + 40) (off + 296) data) = map byte_of_Z path) /\
  exists raws, Forall2 (fun f raw => encode_path f.1.1 = Ok raw) files raws /\ NoDup (map lower_bytes raws).
Proof.
  unfold manifest in E. destruct ((1 <=? zlen files) && (zlen files <=? MAX_FILES)) eqn:Hn; [|done]. cbn [negb] in E.
  apply andb_true_iff in Hn as [Hn1%Z.leb_le Hn2%Z.leb_le]. apply bind_inv in E as (records & Er & E). apply bind_inv in E as (header & Eh & E).
  assert (data = header ++ records) as -> by congruence. clear E.
  pose proof (pack_Qs_length _ _ Eh) as Hh. cbn [length] in Hh.
  destruct (manifest_records_inv _ _ _ _ Er ltac:(change LIMIT with (2 ^ 32); lia)) as ((rs & -> & Hrs) & Hsum & raws & Hraws & _ & Hnd).
  assert (Hlen : Forall (fun r => length r = FILE_SIZE) rs).
  { clear -Hrs. induction Hrs as [|f r fs rs Hf _ IH]; constructor; [by apply (length_is_record f)|done]. }
  unfold MAX_FILES in Hn2. split; [lia|]. split; [|split; [change LIMIT with (2 ^ 32) in *; lia|split; [|by exists raws]]].
  - rewrite length_app, Hh. rewrite (Forall2_length _ _ _ Hrs). clear -Hlen. induction Hlen as [|r rs Hr _ IH]; [done|]. cbn [concat length]. rewrite length_app, Hr. lia.
  - intros i path size digest Hi off. destruct (Forall2_lookup_l _ _ _ _ _ Hrs Hi) as (r & Hri & raw & h & Hraw & Hhex & Hhl & Hsz & ->). cbn [fst snd] in *.
    destruct (concat_piece _ _ Hlen i _ Hri) as (a & c & -> & Ha). pose proof (length_encode_path _ _ Hraw) as Hrl. rewrite <- !app_assoc, (app_assoc header).
    assert (Hoff : length (header ++ a) = off) by (rewrite length_app; unfold off, HEADER_SIZE; lia). split_and!.
    + apply unpack_u_le_bytes; [done|simpl; lia].
    + rewrite Hhex. f_equal. rewrite (app_assoc (header ++ a)). unfold slice. rewrite drop_app_length'; [|rewrite length_app, length_le_bytes; lia].
      symmetry. apply take_app_length'. rewrite ?Hhl, ?Hrl. lia.
    + rewrite Hraw. f_equal. rewrite (app_assoc (header ++ a)), (app_assoc ((header ++ a) ++ _)). unfold slice.
      rewrite drop_app_length'; [|rewrite length_app, Hhl, length_app, length_le_bytes; lia]. symmetry. apply take_app_length'. rewrite ?Hhl, ?Hrl. lia.
    + rewrite (app_assoc (header ++ a)), (app_assoc ((header ++ a) ++ _)). unfold slice.
      rewrite drop_app_length'; [|rewrite length_app, Hhl, length_app, length_le_bytes; lia]. rewrite take_app_length' by lia. by apply until_nul_encode.
Qed.

Definition demo_digest : bytes := concat (replicate 32 [Byte.x61; Byte.x62]).
Lemma manifest_roundtrip_witness : exists data, manifest [([92; 65; 46; 98], 7, demo_digest); ([92; 99], 9, demo_digest)] = Ok data /\
  unpack_u 8 (HEADER_SIZE + 1 * FILE_SIZE) data = Ok 9.
Proof.
  destruct (manifest [([92; 65; 46; 98], 7, demo_digest); ([92; 99], 9, demo_digest)]) as [data|e] eqn:E; [|vm_compute in E; discriminate E].
  exists data. split; [reflexivity|]. destruct (manifest_roundtrip _ data E) as (_ & _ & _ & H & _). apply (H 1%nat [92; 99] 9 demo_digest eq_refl).
Defined.
