(* ===== verification/Nvme.v ===== *)
(** * src/tools/nvme_m3.py and nvme_rw.py: the NVMe driver

    The host drives the target's SSD through the proxy: it finds the controller,
    proves what it can reach by DMA, takes it over, and runs commands through
    queues in target memory.  [Nvme] (nvme_m3.py) is read-only by construction;
    [WritableNvme] (nvme_rw.py) allows writes inside ranges that were enabled
    before.

    The driver object is [driver]; its base addresses, layout and class never
    change and are the parameters of the section.  The evidence record the tool
    keeps for its log, and the operation counter, are not modelled.  Times are in
    milliseconds; sleeps are not modelled, the clock is the target's [t_now].
    Waiting loops take fuel. *)

From Stdlib Require Import ZArith Lia.
From Stdlib Require Import Strings.Byte Strings.String.
From stdpp Require Import base list sorting numbers strings gmap sets.
From S2P Require Import Prelude Bytes Registers Q1n1Link GptSurvey Target Preload.

Local Open Scope string_scope.
Local Open Scope list_scope.
Local Open Scope Z_scope.
Local Open Scope py_scope.

Definition PAGE := 4096.
Definition SEGMENT := 5.
Definition SMMU_BASE := 0x15480000.
Definition EXPECT_VENDOR := 0x144D.
Definition EXPECT_CLASS := 0x010802.
Definition EXPECT_EUI64 : bytes := list_byte_of_string "002538F261C3C291".
Definition EFI_CONVENTIONAL := 7.

(** The opcodes of the allow-lists: delete and create queues, Get Log Page,
    Identify, Set and Get Features; Read. *)
Definition ADMIN_ALLOWED : list Z := [0x00; 0x01; 0x02; 0x04; 0x05; 0x06; 0x09; 0x0A].
Definition SET_FEATURES_ALLOWED : list Z := [0x07].
Definition IO_ALLOWED : list Z := [0x02].

Definition REG_CAP := 0x00.
Definition REG_VS := 0x08.
Definition REG_CC := 0x14.
Definition REG_CSTS := 0x1C.
Definition REG_AQA := 0x24.
Definition REG_ASQ := 0x28.
Definition REG_ACQ := 0x30.
Definition CC_EN := 1.
Definition CC_SHN_NORMAL := Z.shiftl 1 14.
Definition CSTS_RDY := 1.
Definition CSTS_CFS := 2.
Definition ADMIN_ENTRIES := 32.
Definition IO_ENTRIES := 64.
Definition COMPLETION_READS : nat := 8.
Definition P_DC_CIVAC := 0x30A.
Definition P_MEMSET64 := 0x204.

(** [Layout]: offsets inside the DMA window; the fixed ones are below. *)
Record layout := Layout { ly_size : Z; ly_data : Z; ly_data_bytes : Z; ly_chunk : Z }.
Definition ly_asq := 0x0000.
Definition ly_acq := 0x1000.
Definition ly_iosq := 0x2000.
Definition ly_iocq := 0x3000.
Definition ly_ident := 0x4000.
Definition ly_aux := 0x5000.
Definition ly_prp := 0x8000.
Definition ly_slots (l : layout) : Z := ly_data_bytes l / ly_chunk l.
(** The assertion of its constructor. *)
Definition layout_init (size data data_bytes chunk : Z) : result layout :=
  let l := Layout size data data_bytes chunk in
  if (ly_slots l <=? 8) && (ly_prp + 8 * PAGE <=? data) && (data + data_bytes <=? size) then Ok l else Raise AssertionError.
Definition M3_LAYOUT : layout := Layout (Z.shiftl 4 20) (Z.shiftl 2 20) (Z.shiftl 2 20) (Z.shiftl 256 10).
Definition ADOPT_LAYOUT : layout := Layout (Z.shiftl 1 20) 0x10000 (Z.shiftl 256 10) (Z.shiftl 128 10).

(** [Queue]; of [outstanding] only the command numbers matter. *)
Record queue := Queue {
  q_qid : Z; q_sq : Z; q_cq : Z; q_entries : Z; q_sq_db : Z; q_cq_db : Z;
  q_tail : Z; q_head : Z; q_phase : Z; q_next_cid : Z; q_outstanding : gset Z
}.
Definition queue_init (qid sq cq entries stride bar : Z) : queue :=
  {| q_qid := qid; q_sq := sq; q_cq := cq; q_entries := entries;
     q_sq_db := bar + 0x1000 + (2 * qid) * Z.shiftl 4 stride;
     q_cq_db := bar + 0x1000 + (2 * qid + 1) * Z.shiftl 4 stride;
     q_tail := 0; q_head := 0; q_phase := 1; q_next_cid := 1; q_outstanding := ∅ |}.

Definition q_set_next (c : Z) (q : queue) : queue :=
  {| q_qid := q_qid q; q_sq := q_sq q; q_cq := q_cq q; q_entries := q_entries q; q_sq_db := q_sq_db q; q_cq_db := q_cq_db q;
     q_tail := q_tail q; q_head := q_head q; q_phase := q_phase q; q_next_cid := c; q_outstanding := q_outstanding q |}.
Definition q_set_tail (t : Z) (q : queue) : queue :=
  {| q_qid := q_qid q; q_sq := q_sq q; q_cq := q_cq q; q_entries := q_entries q; q_sq_db := q_sq_db q; q_cq_db := q_cq_db q;
     q_tail := t; q_head := q_head q; q_phase := q_phase q; q_next_cid := q_next_cid q; q_outstanding := q_outstanding q |}.
Definition q_set_head (h p : Z) (q : queue) : queue :=
  {| q_qid := q_qid q; q_sq := q_sq q; q_cq := q_cq q; q_entries := q_entries q; q_sq_db := q_sq_db q; q_cq_db := q_cq_db q;
     q_tail := q_tail q; q_head := h; q_phase := p; q_next_cid := q_next_cid q; q_outstanding := q_outstanding q |}.
Definition q_set_outstanding (o : gset Z) (q : queue) : queue :=
  {| q_qid := q_qid q; q_sq := q_sq q; q_cq := q_cq q; q_entries := q_entries q; q_sq_db := q_sq_db q; q_cq_db := q_cq_db q;
     q_tail := q_tail q; q_head := q_head q; q_phase := q_phase q; q_next_cid := q_next_cid q; q_outstanding := o |}.

(** The attributes of the driver object; [None] is an attribute that is [None] or
    not set yet. *)
Record driver := Driver {
  d_lba_bytes : option Z; d_nsze : option Z; d_max_transfer : option Z; d_stride : option Z; d_timeout : option Z;
  d_admin : option queue; d_io : option queue; d_ranges : list (Z * Z)
}.
Definition driver_init : driver := Driver None None None None None None None [].

Definition d_set_transfer (v : Z) (d : driver) : driver :=
  Driver (d_lba_bytes d) (d_nsze d) (Some v) (d_stride d) (d_timeout d) (d_admin d) (d_io d) (d_ranges d).
Definition d_set_namespace (b n : Z) (d : driver) : driver :=
  Driver (Some b) (Some n) (d_max_transfer d) (d_stride d) (d_timeout d) (d_admin d) (d_io d) (d_ranges d).
Definition d_set_caps (st t : Z) (d : driver) : driver :=
  Driver (d_lba_bytes d) (d_nsze d) (d_max_transfer d) (Some st) (Some t) (d_admin d) (d_io d) (d_ranges d).
Definition d_set_admin (q : queue) (d : driver) : driver :=
  Driver (d_lba_bytes d) (d_nsze d) (d_max_transfer d) (d_stride d) (d_timeout d) (Some q) (d_io d) (d_ranges d).
Definition d_set_io (q : option queue) (d : driver) : driver :=
  Driver (d_lba_bytes d) (d_nsze d) (d_max_transfer d) (d_stride d) (d_timeout d) (d_admin d) q (d_ranges d).
Definition d_set_ranges (r : list (Z * Z)) (d : driver) : driver :=
  Driver (d_lba_bytes d) (d_nsze d) (d_max_transfer d) (d_stride d) (d_timeout d) (d_admin d) (d_io d) r.

(** [struct.pack('<kI')] and friends over lists. *)
Fixpoint pack_Is (l : list Z) : result bytes :=
  match l with [] => Ok [] | z :: r => let? a := pack_I z in let? b := pack_Is r in Ok (a ++ b) end.

(** A submission queue entry, [<IIQQQQ6I]. *)
Definition sq_entry (opcode cid nsid prp1 prp2 : Z) (cdw : list Z) : result bytes :=
  let words := cdw ++ replicate (6 - length cdw) 0 in
  if negb (Nat.eqb (length words) 6) then Raise StructError else
  let? a := pack_Is [Z.lor opcode (Z.shiftl cid 16); nsid] in
  let? b := pack_Qs [0; 0; prp1; prp2] in
  let? c := pack_Is words in
  Ok (a ++ b ++ c).

(** Which queue a method was given. *)
Inductive qref := Adm | Io.
#[global] Instance qref_eq_dec : EqDecision qref.
Proof. solve_decision. Defined.

Section Nvme.
  Context {S : Type} `{!TargetOps S}.
  (** The base of the controller's registers, the DMA window, its layout, and
      whether the object is a [WritableNvme]. *)
  Context (bar w : Z) (l : layout) (writable : bool).
  Abbreviation N := (S * driver)%type.

Definition on_hw {A} (m : M S A) : M N A := fun s => let '(r, h) := m (fst s) in (r, (h, snd s)).
Definition attr {A} (f : driver -> A) : M N A := py_get (fun s => f (snd s)).
Definition set_attr (f : driver -> driver) : M N unit := py_modify (fun s => (fst s, f (snd s))).
(** An attribute that must be there: a missing one raises when it is read, a
    [None] when it is used as a number. *)
Definition need {A} (f : driver -> option A) (e : exn) : M N A :=
  let! v := attr f in match v with Some x => py_ret x | None => py_raise e end.

Definition hw_r32 (a : Z) : M N Z := on_hw (t_read32 a).
Definition hw_r64 (a : Z) : M N Z := on_hw (t_read64 a).
Definition hw_w32 (a v : Z) : M N unit := on_hw (t_write32 a v).
Definition hw_read (a n : Z) : M N bytes := on_hw (t_readmem a n false).
Definition hw_read_live (a n : Z) : M N bytes := on_hw (t_readmem a n true).
Definition hw_write (a : Z) (d : bytes) : M N unit := on_hw (t_writemem a d).
Definition civac (a n : Z) : M N unit := on_hw (t_request P_DC_CIVAC [a; n]).
Definition hw_zero (a n : Z) : M N unit := on_hw (t_request P_MEMSET64 [a; 0; n]) ;;; civac a n.
Definition monotonic : M N Z := on_hw t_now.

Definition reg (off : Z) : M N Z := hw_r32 (bar + off).

(** The loop of [wait]. *)
Fixpoint wait_loop_nv (cond : Z -> bool) (deadline : Z) (fuel : nat) : M N Z :=
  match fuel with
  | O => py_raise OutOfFuel
  | Datatypes.S k =>
      let! csts := reg REG_CSTS in
      if cond csts then py_ret csts else
      let! now := monotonic in
      if deadline <? now then reg REG_CC ;;; py_raise (Misbehaved "timed out") else wait_loop_nv cond deadline k
  end.
Definition nv_wait (cond : Z -> bool) (ms : Z) (fuel : nat) : M N Z :=
  let! now := monotonic in wait_loop_nv cond (now + ms) fuel.

Definition shut_down (csts : Z) : bool := Z.land (Z.shiftr csts 2) 3 =? 2.
Definition not_ready (csts : Z) : bool := Z.land csts CSTS_RDY =? 0.

Definition takeover (fuel : nat) : M N unit :=
  let! cap := hw_r64 (bar + REG_CAP) in
  reg REG_VS ;;; reg REG_CC ;;; reg REG_CSTS ;;; reg REG_AQA ;;; hw_r64 (bar + REG_ASQ) ;;; hw_r64 (bar + REG_ACQ) ;;;
  let stride := Z.land (Z.shiftr cap 32) 0xF in
  let timeout := Z.max 1 (Z.land (Z.shiftr cap 24) 0xFF) * 500 in
  set_attr (d_set_caps stride timeout) ;;;
  let mpsmin := Z.shiftl 1 (12 + Z.land (Z.shiftr cap 48) 0xF) in
  let mqes := Z.land cap 0xFFFF + 1 in
  if (PAGE <? mpsmin) || (Z.land (Z.shiftr cap 37) 1 =? 0) || (mqes <? IO_ENTRIES)
  then py_raise (Stop "controller capabilities") else
  let! cc := reg REG_CC in
  let! csts := reg REG_CSTS in
  (if negb (Z.land cc CC_EN =? 0) then
     (if negb (Z.land csts CSTS_RDY =? 0) && (Z.land csts CSTS_CFS =? 0) then
        hw_w32 (bar + REG_CC) (Z.lor cc CC_SHN_NORMAL) ;;; nv_wait shut_down 10000 fuel ;;; py_ret tt
      else py_ret tt) ;;;
     hw_w32 (bar + REG_CC) 0 ;;;
     nv_wait not_ready timeout fuel ;;; py_ret tt
   else py_ret tt) ;;;
  hw_zero w (ly_size l) ;;;
  let admin := queue_init 0 (w + ly_asq) (w + ly_acq) ADMIN_ENTRIES stride bar in
  set_attr (d_set_admin admin) ;;;
  hw_w32 (bar + REG_AQA) (Z.lor (Z.shiftl (ADMIN_ENTRIES - 1) 16) (ADMIN_ENTRIES - 1)) ;;;
  hw_w32 (bar + REG_ASQ) (Z.land (q_sq admin) 0xFFFFFFFF) ;;; hw_w32 (bar + REG_ASQ + 4) (Z.shiftr (q_sq admin) 32) ;;;
  hw_w32 (bar + REG_ACQ) (Z.land (q_cq admin) 0xFFFFFFFF) ;;; hw_w32 (bar + REG_ACQ + 4) (Z.shiftr (q_cq admin) 32) ;;;
  hw_w32 (bar + REG_CC) (Z.lor (Z.lor (Z.shiftl 4 20) (Z.shiftl 6 16)) CC_EN) ;;;
  let! csts := nv_wait (fun s => negb (Z.land s (Z.lor CSTS_RDY CSTS_CFS) =? 0)) timeout fuel in
  if negb (Z.land csts CSTS_CFS =? 0) then py_raise (Misbehaved "controller fatal status after enable") else py_ret tt.

(** ** Commands *)

Definition get_queue (r : qref) : M N queue :=
  match r with
  | Adm => need d_admin (AttributeError "admin")
  | Io => need d_io (AttributeError "NoneType")
  end.
Definition put_queue (r : qref) (q : queue) : M N unit :=
  match r with Adm => set_attr (d_set_admin q) | Io => set_attr (d_set_io (Some q)) end.

Definition allow_write (first count : Z) : M N unit :=
  if (first <? 0) || (count <=? 0) then py_raise (Refused "invalid write LBA/count") else
  let! rs := attr d_ranges in
  if existsb (fun '(lo, hi) => (lo <=? first) && (first + count <=? hi)) rs then py_ret tt
  else py_raise (Refused "outside the explicitly enabled ranges").

(** [Nvme._check_io_command] and its override in [WritableNvme]. *)
Definition check_io_readonly (opcode : Z) : M N unit :=
  if bool_decide (opcode ∈ IO_ALLOWED) then py_ret tt else py_raise (Refused "not on the read-only allow-list").

Definition check_io_writable (opcode nsid prp1 prp2 : Z) (cdw : list Z) : M N unit :=
  if opcode =? 0x02 then check_io_readonly opcode else
  let! rs := attr d_ranges in
  if bool_decide (rs = []) || negb (nsid =? 1) then py_raise (Refused "namespace writes/flush are not enabled") else
  if opcode =? 0x00 then
    if negb (prp1 =? 0) || negb (prp2 =? 0) || existsb (fun c => negb (c =? 0)) cdw
    then py_raise (Refused "Flush must not contain data pointers or command dwords") else py_ret tt
  else
  match cdw with
  | [c0; c1; c2] =>
      if negb (opcode =? 0x01) || negb (Z.land c2 (Z.lnot 0x4000ffff) =? 0)
      then py_raise (Refused "only plain FUA NVM Write and Flush are permitted") else
      if Z.land c2 (Z.shiftl 1 30) =? 0 then py_raise (Refused "writes must set FUA") else
      let first := Z.lor c0 (Z.shiftl c1 32) in
      let count := Z.land c2 0xffff + 1 in
      allow_write first count ;;;
      let! lba_bytes := need d_lba_bytes (TypeError "NoneType") in
      let size := count * lba_bytes in
      let! max_transfer := need d_max_transfer (AttributeError "max_transfer") in
      if (max_transfer <? size) || negb (prp1 =? w + ly_data l)
      then py_raise (Refused "write exceeds bounce buffer or controller transfer limit") else
      let pages := (size + PAGE - 1) / PAGE in
      let expected := if pages =? 1 then 0 else if pages =? 2 then prp1 + PAGE else w + ly_prp in
      if negb (prp2 =? expected) then py_raise (Refused "unexpected write PRP2") else py_ret tt
  | _ => py_raise (Refused "only plain FUA NVM Write and Flush are permitted")
  end.

Definition check_io_command (opcode nsid prp1 prp2 : Z) (cdw : list Z) : M N unit :=
  if writable then check_io_writable opcode nsid prp1 prp2 cdw else check_io_readonly opcode.

(** The checks at the start of [_submit]. *)
Definition check_command (q : queue) (opcode nsid prp1 prp2 : Z) (cdw : list Z) : M N unit :=
  if q_qid q =? 0 then
    if negb (bool_decide (opcode ∈ ADMIN_ALLOWED)) then py_raise (Refused "admin opcode not on the allow-list") else
    if opcode =? 0x09 then
      match cdw with
      | [] => py_raise IndexError
      | c0 :: _ =>
          if negb (bool_decide (Z.land c0 0xFF ∈ SET_FEATURES_ALLOWED)) || negb (Z.shiftr c0 31 =? 0)
          then py_raise (Refused "Set Features not on the allow-list") else py_ret tt
      end
    else py_ret tt
  else check_io_command opcode nsid prp1 prp2 cdw.

Definition submit (r : qref) (opcode nsid prp1 prp2 : Z) (cdw : list Z) : M N Z :=
  let! q := get_queue r in
  check_command q opcode nsid prp1 prp2 cdw ;;;
  if q_entries q - 1 <=? Z.of_nat (size (q_outstanding q)) then py_raise (Stop "queue full") else
  let cid := q_next_cid q in
  put_queue r (q_set_next (q_next_cid q mod 0xFFFF + 1) q) ;;;
  let! entry := py_lift (sq_entry opcode cid nsid prp1 prp2 cdw) in
  let! q := get_queue r in
  let at_ := q_sq q + q_tail q * 64 in
  hw_write at_ entry ;;;
  civac at_ 64 ;;;
  put_queue r (q_set_tail ((q_tail q + 1) mod q_entries q) q) ;;;
  monotonic ;;;
  let! q := get_queue r in
  put_queue r (q_set_outstanding ({[cid]} ∪ q_outstanding q) q) ;;;
  py_ret cid.

Definition nv_ring (r : qref) : M N unit := let! q := get_queue r in hw_w32 (q_sq_db q) (q_tail q).

(** The rereads of a new completion until two agree. *)
Fixpoint stable_entry (n : nat) (at_ : Z) (entry : bytes) : M N bytes :=
  match n with
  | O => py_raise (Misbehaved "completion never read the same twice")
  | Datatypes.S k =>
      civac at_ 16 ;;;
      let! again := hw_read_live at_ 16 in
      if bytes_eqb again entry then py_ret entry else stable_entry k at_ again
  end.

Definition phase_of (dw3 : Z) : Z := Z.land (Z.shiftr dw3 16) 1.

(** [done]: command number to status and results, latest first. *)
Definition completions := list (Z * (Z * Z * Z)).
Definition find_done (c : Z) (done : completions) : option (Z * Z * Z) :=
  match List.find (fun e => fst e =? c) done with Some e => Some (snd e) | None => None end.
Definition all_done (cids : list Z) (done : completions) : bool :=
  forallb (fun c => match find_done c done with Some _ => true | None => false end) cids.

Fixpoint reap_loop (fuel : nat) (r : qref) (cids : list Z) (deadline : Z) (done : completions) : M N completions :=
  match fuel with
  | O => py_raise OutOfFuel
  | Datatypes.S k =>
      if all_done cids done then py_ret done else
      let! q := get_queue r in
      let at_ := q_cq q + q_head q * 16 in
      civac at_ 16 ;;;
      let! entry := hw_read_live at_ 16 in
      let! dw3 := py_lift (unpack_u 4 12 entry) in
      let! entry := (if phase_of dw3 =? q_phase q then stable_entry COMPLETION_READS at_ entry else py_ret entry) in
      if negb (Nat.eqb (length entry) 16) then py_raise StructError else
      let! dw0 := py_lift (unpack_u 4 0 entry) in
      let! dw2 := py_lift (unpack_u 4 8 entry) in
      let! dw3 := py_lift (unpack_u 4 12 entry) in
      if negb (phase_of dw3 =? q_phase q) then
        let! now := monotonic in
        if deadline <? now then reg REG_CSTS ;;; py_raise (Misbehaved "no completion") else reap_loop k r cids deadline done
      else
      let cid := Z.land dw3 0xFFFF in
      let status := Z.land (Z.shiftr dw3 17) 0x7FFF in
      let head := (q_head q + 1) mod q_entries q in
      let phase := if head =? 0 then Z.lxor (q_phase q) 1 else q_phase q in
      put_queue r (q_set_head head phase (q_set_outstanding (q_outstanding q ∖ {[cid]}) q)) ;;;
      hw_w32 (q_cq_db q) head ;;;
      reap_loop k r cids deadline ((cid, (status, dw0, Z.land dw2 0xFFFF)) :: done)
  end.

(** The results in the order of [cids]; a failed command raises. *)
Fixpoint reap_results (cids : list Z) (done : completions) : result (list (Z * Z * Z)) :=
  match cids with
  | [] => Ok []
  | c :: r =>
      match find_done c done with
      | None => Raise (KeyError "done")
      | Some (status, dw0, sqhd) =>
          if negb (status =? 0) then Raise (Misbehaved "command failed") else
          let? t := reap_results r done in Ok ((status, dw0, sqhd) :: t)
      end
  end.

Definition reap (r : qref) (cids : list Z) (ms : Z) (fuel : nat) : M N (list (Z * Z * Z)) :=
  let! now := monotonic in
  let! done := reap_loop fuel r cids (now + ms) [] in
  py_lift (reap_results cids done).

Definition admin_cmd (opcode nsid prp1 : Z) (cdw : list Z) (ms : Z) (fuel : nat) : M N (Z * Z * Z) :=
  let! cid := submit Adm opcode nsid prp1 0 cdw in
  nv_ring Adm ;;;
  let! done := reap Adm [cid] ms fuel in
  match done with d :: _ => py_ret d | [] => py_raise IndexError end.

Definition nv_fetch (off n : Z) : M N bytes := civac (w + off) n ;;; hw_read (w + off) n.

(** ** Bring-up *)

(** [c[i]] of a bytes object. *)
Definition byte_at (b : bytes) (i : nat) : result Z := match b !! i with Some x => Ok (byte_to_Z x) | None => Raise IndexError end.

(** The power state table: only what can raise. *)
Fixpoint power_states (n i : nat) (c : bytes) : result unit :=
  match n with
  | O => Ok tt
  | Datatypes.S k =>
      let d := slice (2048 + 32 * i) (2048 + 32 * (i + 1)) c in
      let? _ := unpack_u 2 0 d in
      let? _ := byte_at d 3 in
      let? _ := unpack_u 4 4 d in
      let? _ := unpack_u 4 8 d in
      power_states k (i + 1) c
  end.

(** [formats]: block size and metadata bytes of each LBA format. *)
Fixpoint lba_formats (k i : nat) (n : bytes) : result (list (Z * Z)) :=
  match k with
  | O => Ok []
  | Datatypes.S k' =>
      let? ms := unpack_u 2 (128 + 4 * i) n in
      let? lbads := unpack_u 1 (128 + 4 * i + 2) n in
      let? _ := unpack_u 1 (128 + 4 * i + 3) n in
      let? r := lba_formats k' (i + 1) n in
      Ok ((Z.shiftl 1 lbads, ms) :: r)
  end.

(** [b.hex().upper()]. *)
Definition hex_upper (b : bytes) : bytes :=
  let digit d := byte_of_Z (if d <? 10 then 48 + d else 55 + d) in
  concat (map (fun c => [digit (byte_to_Z c / 16); digit (byte_to_Z c mod 16)]) b).

Definition identify (fuel : nat) : M N unit :=
  admin_cmd 0x06 0 (w + ly_ident) [1] 5000 fuel ;;;
  let! c := nv_fetch ly_ident PAGE in
  let! mdts := py_lift (byte_at c 77) in
  let! npss := py_lift (byte_at c 263) in
  py_lift (power_states (Z.to_nat npss + 1) 0 c) ;;;
  py_lift (unpack_u 2 0 c) ;;; py_lift (unpack_u 4 80 c) ;;; py_lift (unpack_u 4 88 c) ;;; py_lift (unpack_u 2 256 c) ;;;
  py_lift (byte_at c 265) ;;; py_lift (byte_at c 512) ;;; py_lift (byte_at c 513) ;;; py_lift (unpack_u 4 516 c) ;;;
  py_lift (unpack_u 2 520 c) ;;; py_lift (byte_at c 525) ;;;
  set_attr (d_set_transfer (Z.min (ly_chunk l) (if mdts =? 0 then ly_chunk l else Z.shiftl PAGE mdts))) ;;;
  admin_cmd 0x06 1 (w + ly_ident) [0] 5000 fuel ;;;
  let! n := nv_fetch ly_ident PAGE in
  let! nsze := py_lift (unpack_u 8 0 n) in
  py_lift (unpack_u 8 8 n) ;;; py_lift (unpack_u 8 16 n) ;;;
  let! f := py_lift (byte_at n 26) in
  let flbas := Z.land f 0xF in
  let! nlbaf := py_lift (byte_at n 25) in
  let! formats := py_lift (lba_formats (Z.to_nat nlbaf + 1) 0 n) in
  py_lift (byte_at n 33) ;;;
  if negb (bytes_eqb (hex_upper (slice 120 128 n)) EXPECT_EUI64) then py_raise (Stop "namespace 1 EUI64 is not the pinned one") else
  match formats !! Z.to_nat flbas with
  | None => py_raise IndexError
  | Some (lba_bytes, metadata) =>
      set_attr (d_set_namespace lba_bytes nsze) ;;;
      if negb (metadata =? 0) then py_raise (Stop "the current LBA format carries metadata") else py_ret tt
  end.

Definition features (fuel : nat) : M N unit :=
  admin_cmd 0x0A 0 (w + ly_aux) [0x0C] 5000 fuel ;;;
  admin_cmd 0x02 0xFFFFFFFF (w + ly_aux) [Z.lor (Z.shiftl 127 16) 0x02] 5000 fuel ;;;
  let! s := nv_fetch ly_aux 512 in
  py_lift (byte_at s 0) ;;; py_lift (unpack_u 2 1 s) ;;; py_lift (byte_at s 3) ;;; py_lift (byte_at s 5) ;;; py_ret tt.

Definition io_queues (fuel : nat) : M N unit :=
  admin_cmd 0x09 0 0 [0x07; 0] 5000 fuel ;;;
  admin_cmd 0x05 0 (w + ly_iocq) [Z.lor (Z.shiftl (IO_ENTRIES - 1) 16) 1; 1] 5000 fuel ;;;
  admin_cmd 0x01 0 (w + ly_iosq) [Z.lor (Z.shiftl (IO_ENTRIES - 1) 16) 1; Z.lor (Z.shiftl 1 16) 1] 5000 fuel ;;;
  let! stride := need d_stride (AttributeError "stride") in
  set_attr (d_set_io (Some (queue_init 1 (w + ly_iosq) (w + ly_iocq) IO_ENTRIES stride bar))).

Definition delete_io_queues (fuel : nat) : M N unit :=
  let! io := attr d_io in
  match io with
  | None => py_ret tt
  | Some _ =>
      admin_cmd 0x00 0 0 [1] 5000 fuel ;;;
      admin_cmd 0x04 0 0 [1] 5000 fuel ;;;
      set_attr (d_set_io None)
  end.

Definition nv_shutdown (fuel : nat) : M N unit :=
  let! cc := reg REG_CC in
  if Z.land cc CC_EN =? 0 then py_ret tt else
  hw_w32 (bar + REG_CC) (Z.lor cc CC_SHN_NORMAL) ;;;
  nv_wait shut_down 10000 fuel ;;;
  hw_w32 (bar + REG_CC) 0 ;;;
  let! timeout := need d_timeout (AttributeError "timeout") in
  nv_wait not_ready timeout fuel ;;; py_ret tt.

(** ** Reads *)

(** The PRP entries after the first: [data + PAGE * i] for [1 <= i < pages]. *)
Definition prp_list (data pages : Z) : list Z := map (fun i => data + PAGE * Z.of_nat i) (seq 1 (Z.to_nat (pages - 1))).

(** The second PRP of a transfer, and the list it needs at [lst]. *)
Definition set_prp (data pages lst : Z) : M N Z :=
  if pages =? 2 then py_ret (data + PAGE) else
  if 2 <? pages then
    let! e := py_lift (pack_Qs (prp_list data pages)) in
    hw_write lst e ;;; civac lst (8 * (pages - 1)) ;;; py_ret lst
  else py_ret 0.

Definition read_cmd (slot lba count : Z) : M N Z :=
  let! lba_bytes := need d_lba_bytes (TypeError "NoneType") in
  let nbytes := count * lba_bytes in
  let data := w + ly_data l + slot * ly_chunk l in
  let pages := (nbytes + PAGE - 1) / PAGE in
  let! prp2 := set_prp data pages (w + ly_prp + slot * PAGE) in
  submit Io 0x02 1 data prp2 [Z.land lba 0xFFFFFFFF; Z.shiftr lba 32; count - 1].

Fixpoint read_loop (fuel : nat) (per lba count : Z) : M N bytes :=
  if count =? 0 then py_ret [] else
  match fuel with
  | O => py_raise OutOfFuel
  | Datatypes.S k =>
      let n := Z.min per count in
      let! cid := read_cmd 0 lba n in
      nv_ring Io ;;;
      reap Io [cid] 5000 fuel ;;;
      let! lba_bytes := need d_lba_bytes (TypeError "NoneType") in
      let! out := nv_fetch (ly_data l) (n * lba_bytes) in
      let! rest := read_loop k per (lba + n) (count - n) in
      py_ret (out ++ rest)
  end.

(** Integer division by an attribute. *)
Definition py_div (a b : Z) : result Z := if b =? 0 then Raise ZeroDivisionError else Ok (a / b).

Definition nv_read (lba count : Z) (fuel : nat) : M N bytes :=
  if (lba <? 0) || (count <=? 0) then py_raise (Stop "read outside namespace 1") else
  let! nsze := need d_nsze (TypeError "NoneType") in
  if nsze <? lba + count then py_raise (Stop "read outside namespace 1") else
  let! max_transfer := need d_max_transfer (AttributeError "max_transfer") in
  let! lba_bytes := need d_lba_bytes (TypeError "NoneType") in
  let! per := py_lift (py_div max_transfer lba_bytes) in
  read_loop fuel per lba count.

(** The commands of one round of [timed]: one per slot while blocks are left. *)
Fixpoint timed_round (slots : nat) (slot per lba rest moved : Z) (cids : list Z) : M N (list Z * Z * Z * Z) :=
  match slots with
  | O => py_ret (cids, lba, rest, moved)
  | Datatypes.S k =>
      if rest =? 0 then py_ret (cids, lba, rest, moved) else
      let n := Z.min per rest in
      let! cid := read_cmd slot lba n in
      let! lba_bytes := need d_lba_bytes (TypeError "NoneType") in
      timed_round k (slot + 1) per (lba + n) (rest - n) (moved + n * lba_bytes) (cids ++ [cid])
  end.
Fixpoint timed_loop (fuel : nat) (per lba rest moved : Z) : M N Z :=
  if rest =? 0 then py_ret moved else
  match fuel with
  | O => py_raise OutOfFuel
  | Datatypes.S k =>
      let! '(cids, lba, rest, moved) := timed_round (Z.to_nat (ly_slots l)) 0 per lba rest moved [] in
      nv_ring Io ;;;
      reap Io cids 10000 fuel ;;;
      timed_loop k per lba rest moved
  end.
(** [timed]: the bytes moved and the time they took. *)
Definition timed (lba total_bytes : Z) (fuel : nat) : M N (Z * Z) :=
  let! max_transfer := need d_max_transfer (AttributeError "max_transfer") in
  let! lba_bytes := need d_lba_bytes (TypeError "NoneType") in
  let! per := py_lift (py_div max_transfer lba_bytes) in
  let! rest := py_lift (py_div total_bytes lba_bytes) in
  let! start := monotonic in
  let! moved := timed_loop fuel per lba rest 0 in
  let! stop := monotonic in
  py_ret (moved, stop - start).

(** ** Writes *)

Fixpoint check_ranges (nsze : Z) (ranges : list (Z * Z)) : result (list (Z * Z)) :=
  match ranges with
  | [] => Ok []
  | (first, count) :: r =>
      if (first <? 0) || (count <=? 0) || (nsze <? first + count) then Raise (Refused "invalid writable namespace range") else
      let? t := check_ranges nsze r in Ok ((first, first + count) :: t)
  end.
(** [any(b > c for (_, b), (c, _) in zip(checked, checked[1:]))]. *)
Fixpoint some_overlap (rs : list (Z * Z)) : bool :=
  match rs with
  | (_, b) :: (((c, _) :: _) as r) => (c <? b) || some_overlap r
  | _ => false
  end.

Definition enable_writes (ranges : list (Z * Z)) : M N unit :=
  let! nsze := attr d_nsze in
  let! lba_bytes := attr d_lba_bytes in
  let! io := attr d_io in
  match nsze, lba_bytes, io with
  | Some nsze, Some lba_bytes, Some _ =>
      if (nsze =? 0) || (lba_bytes =? 0) then py_raise (Refused "Identify and I/O queues are required before enabling writes") else
      let! checked := py_lift (check_ranges nsze ranges) in
      let checked := merge_sort pair_le checked in
      if bool_decide (checked = []) || some_overlap checked then py_raise (Refused "writable ranges are empty or overlap") else
      set_attr (d_set_ranges checked)
  | _, _, _ => py_raise (Refused "Identify and I/O queues are required before enabling writes")
  end.

Definition disable_writes : M N unit := set_attr (d_set_ranges []).

(** One iteration of [write]. *)
Definition write_chunk (fuel : nat) (lba_bytes lba : Z) (chunk : bytes) : M N unit :=
  let count := zlen chunk / lba_bytes in
  let address := w + ly_data l in
  let pages := (zlen chunk + PAGE - 1) / PAGE in
  let! prp2 := set_prp address pages (w + ly_prp) in
  hw_write address chunk ;;;
  civac address (zlen chunk) ;;;
  let! cid := submit Io 0x01 1 address prp2 [Z.land lba 0xffffffff; Z.shiftr lba 32; Z.lor (count - 1) (Z.shiftl 1 30)] in
  nv_ring Io ;;;
  reap Io [cid] 5000 fuel ;;; py_ret tt.

Fixpoint write_loop (fuel n : nat) (lba_bytes per lba : Z) (data : bytes) : M N unit :=
  match data, n with
  | [], _ => py_ret tt
  | _, O => py_raise OutOfFuel
  | _, Datatypes.S k =>
      let chunk := take (Z.to_nat per) data in
      write_chunk fuel lba_bytes lba chunk ;;;
      write_loop fuel k lba_bytes per (lba + zlen chunk / lba_bytes) (drop (Z.to_nat per) data)
  end.

Definition nv_write (lba : Z) (data : bytes) (fuel : nat) : M N unit :=
  if bool_decide (data = []) then py_raise (Refused "write payload must be nonempty and LBA aligned") else
  let! lb := attr d_lba_bytes in
  match lb with
  | None => py_raise (Refused "write payload must be nonempty and LBA aligned")
  | Some lba_bytes =>
      if (lba_bytes =? 0) || negb (zlen data mod lba_bytes =? 0) then py_raise (Refused "write payload must be nonempty and LBA aligned") else
      allow_write lba (zlen data / lba_bytes) ;;;
      let! max_transfer := need d_max_transfer (AttributeError "max_transfer") in
      let per := Z.min max_transfer (65536 * lba_bytes) in
      if per =? 0 then py_raise (ValueError "range() arg 3 must not be zero") else
      if per <? 0 then py_ret tt else
      write_loop fuel (length data) lba_bytes per lba data
  end.

Definition nv_flush (fuel : nat) : M N unit :=
  let! cid := submit Io 0x00 1 0 0 [] in
  nv_ring Io ;;; reap Io [cid] 15000 fuel ;;; py_ret tt.

(** ** The partition table and the window header *)

Definition read_gpt (last_block : Z) (fuel : nat) : M N decoded :=
  let! bs := need d_lba_bytes (TypeError "NoneType") in
  let! head := nv_read 0 34 fuel in
  let b := Z.to_nat bs in
  let lba0 := take b head in
  let primary := slice b (2 * b) head in
  let! entries_lba := py_lift (unpack_u 8 72 primary) in
  let! count := py_lift (unpack_u 4 80 primary) in
  let! esize := py_lift (unpack_u 4 84 primary) in
  let array_blocks := (count * esize + bs - 1) / bs in
  let! primary_array := (if (entries_lba =? 2) && (array_blocks <=? 32) then py_ret (drop (2 * b) head)
                         else nv_read entries_lba array_blocks fuel) in
  let! backup := nv_read last_block 1 fuel in
  let! b_entries := py_lift (unpack_u 8 72 backup) in
  let! backup_array := nv_read b_entries array_blocks fuel in
  py_lift (decode_gpt bs last_block lba0 primary primary_array backup backup_array).

Definition SNAP_TYPE : bytes := list_byte_of_string "af494c0f-7849-4186-8d2c-9b05cf6ab8b8".
Definition HEADER_OFF := Z.shiftl 512 10.
Definition NXSB : bytes := list_byte_of_string "NXSB".

(** One of the two APFS superblock checks. *)
Definition check_apfs (first off lba_bytes per : Z) (fuel : nat) : M N unit :=
  let! block := nv_read (first + off / lba_bytes) per fuel in
  if bytes_eqb (slice 32 36 block) NXSB then py_ret tt else py_raise (Stop "no APFS container superblock").

(** [arm_window]: the first and last block of the partition whose header checks. *)
Definition arm_window (want : bytes) (fuel : nat) : M N (Z * Z) :=
  let! nsze := need d_nsze (TypeError "NoneType") in
  let! g := read_gpt (nsze - 1) fuel in
  if negb (bool_decide (g_errors g = [])) then py_raise (Stop "the GPT read through the driver has errors") else
  match List.filter (fun p => bytes_eqb (p_type p) SNAP_TYPE) (g_partitions g) with
  | [part] =>
      if negb (bytes_eqb (p_guid part) (lower_bytes want)) then py_raise (Stop "expected one partition") else
      let first := p_first part in
      let last := p_last part in
      let! lba_bytes := need d_lba_bytes (TypeError "NoneType") in
      let! per := py_lift (py_div 4096 lba_bytes) in
      let! raw := nv_read (first + HEADER_OFF / lba_bytes) per fuel in
      if Nat.ltb (length raw) 232 then py_raise StructError else
      let! version := py_lift (unpack_u 4 8 raw) in
      let! g := py_lift (guid (slice 16 32 raw)) in
      let! h_first := py_lift (unpack_u 8 32 raw) in
      let! h_last := py_lift (unpack_u 8 40 raw) in
      let! vblock := py_lift (unpack_u 4 48 raw) in
      let! state := py_lift (unpack_u 4 52 raw) in
      let! isc_offset := py_lift (unpack_u 8 56 raw) in
      let! container_offset := py_lift (unpack_u 8 80 raw) in
      let! crc := py_lift (unpack_u 4 4092 raw) in
      if negb (bytes_eqb (take 8 raw) (list_byte_of_string "SNAPWIN1")) || negb (version =? 1)
         || negb (crc32 (take 4092 raw) =? crc) || negb (bytes_eqb g (lower_bytes want))
         || negb ((h_first =? first) && (h_last =? last)) || negb (vblock =? 4096) || negb (state =? 1)
      then py_raise (Stop "window header check failed") else
      check_apfs first isc_offset lba_bytes per fuel ;;;
      check_apfs first container_offset lba_bytes per fuel ;;;
      py_ret (first, last)
  | _ => py_raise (Stop "expected one partition")
  end.
End Nvme.

(** ** Submission entries as the controller sees them *)

Definition entry_op (d : bytes) : Z := Z.land (le_Z (slice 0 4 d)) 0xFFFF.
Definition entry_nsid (d : bytes) : Z := le_Z (slice 4 8 d).
Definition entry_cdw (d : bytes) (i : nat) : Z := le_Z (slice (40 + 4 * i) (44 + 4 * i) d).
(** First block and number of blocks of a read or write. *)
Definition entry_lba (d : bytes) : Z := entry_cdw d 0 + 2 ^ 32 * entry_cdw d 1.
Definition entry_blocks (d : bytes) : Z := Z.land (entry_cdw d 2) 0xFFFF + 1.

Lemma pack_Is_inv ws b : pack_Is ws = Ok b -> Forall (fun z => 0 <= z < 2 ^ 32) ws /\ b = concat (map (le_bytes 4) ws).
Proof.
  revert b. induction ws as [|z ws IH]; intros b E; cbn [pack_Is] in E; [by injection E as <-|].
  apply bind_inv in E as (a & Ea & E). apply bind_inv in E as (c & Ec & [= <-]). apply pack_u_inv in Ea as [Hz ->].
  destruct (IH c Ec) as [Hf ->]. split; [|done]. constructor; [exact Hz|done].
Qed.

Lemma pack_Qs_inv ws b : pack_Qs ws = Ok b -> b = concat (map (le_bytes 8) ws).
Proof.
  revert b. induction ws as [|z ws IH]; intros b E; cbn [pack_Qs] in E; [by injection E as <-|].
  apply bind_inv in E as (a & Ea & E). apply bind_inv in E as (c & Ec & [= <-]). apply pack_u_inv in Ea as [_ ->]. by rewrite (IH c Ec).
Qed.

Lemma length_pieces n (ws : list Z) : length (concat (map (le_bytes n) ws)) = (length ws * n)%nat.
Proof. induction ws as [|z ws IH]; [done|]. cbn [map concat length]. rewrite length_app, length_le_bytes, IH. lia. Qed.

(** Field [i] of a packed list that follows [a]. *)
Lemma piece_field n (a c : bytes) ws i z : ws !! i = Some z -> 0 <= z < 256 ^ Z.of_nat n ->
  le_Z (slice (length a + i * n) (length a + i * n + n) (a ++ concat (map (le_bytes n) ws) ++ c)) = z.
Proof.
  revert a i. induction ws as [|x ws IH]; intros a i Hi Hz; [done|]. cbn [map concat]. destruct i as [|i]; simpl in Hi.
  - injection Hi as ->. rewrite <- app_assoc. unfold slice. replace (length a + 0 * n)%nat with (length a) by lia. rewrite drop_app_length.
    rewrite take_app_length' by (rewrite length_le_bytes; lia). by apply le_Z_small.
  - rewrite <- app_assoc, app_assoc. specialize (IH (a ++ le_bytes n x) i Hi Hz). rewrite length_app, length_le_bytes in IH.
    replace (length a + Datatypes.S i * n)%nat with (length a + n + i * n)%nat by lia. exact IH.
Qed.

Lemma lor_low16 a b : 0 <= a < 2 ^ 16 -> Z.land (Z.lor a (Z.shiftl b 16)) 0xFFFF = a.
Proof.
  intros Ha. change 0xFFFF with (Z.ones 16). rewrite Z.land_ones by lia. rewrite Z.shiftl_mul_pow2 by lia.
  rewrite <- (Z.mod_small a (2 ^ 16)) at 2 by lia. apply Z.bits_inj'. intros n Hn.
  destruct (Z.lt_ge_cases n 16) as [Hlt|Hge].
  - rewrite !Z.mod_pow2_bits_low by lia. rewrite Z.lor_spec, Z.mul_pow2_bits_low by lia. apply orb_false_r.
  - rewrite !Z.mod_pow2_bits_high by lia. done.
Qed.

(** The entry [_submit] writes carries its arguments. *)
Lemma sq_entry_fields opcode cid nsid prp1 prp2 cdw d : sq_entry opcode cid nsid prp1 prp2 cdw = Ok d -> 0 <= opcode < 2 ^ 16 ->
  length d = 64%nat /\ entry_op d = opcode /\ entry_nsid d = nsid /\
  forall i, (i < 6)%nat -> entry_cdw d i = default 0 (cdw !! i) /\ 0 <= entry_cdw d i < 2 ^ 32.
Proof.
  intros E Hop. unfold sq_entry in E. set (words := cdw ++ _) in E. destruct (Nat.eqb_spec (length words) 6) as [Hw|]; [|done]. cbn [negb] in E.
  apply bind_inv in E as (a & Ea & E). apply bind_inv in E as (b & Eb & E). apply bind_inv in E as (c & Ec & [= <-]).
  apply pack_Is_inv in Ea as [Ha Ea], Ec as [Hc Ec]. apply pack_Qs_inv in Eb.
  assert (Hla : length a = 8%nat) by (by rewrite Ea, length_pieces). assert (Hlb : length b = 32%nat) by (by rewrite Eb, length_pieces).
  assert (Hlc : length c = 24%nat) by (rewrite Ec, length_pieces, Hw; lia).
  assert (Hw0 : forall i z, words !! i = Some z -> entry_cdw (a ++ b ++ c) i = z).
  { intros i z Hi. unfold entry_cdw. assert (Hz : 0 <= z < 2 ^ 32) by (rewrite Forall_forall in Hc; apply Hc, list_elem_of_lookup; eauto).
    pose proof (piece_field 4 (a ++ b) [] words i z Hi Hz) as Hf. rewrite <- Ec, app_nil_r, <- app_assoc, length_app, Hla, Hlb in Hf.
    rewrite <- Hf. do 2 f_equal; lia. }
  split; [rewrite !length_app; lia|]. split; [|split].
  - unfold entry_op. apply Forall_cons in Ha as [Ha _].
    pose proof (piece_field 4 [] (b ++ c) [Z.lor opcode (Z.shiftl cid 16); nsid] 0 _ eq_refl Ha) as Hf. rewrite <- Ea in Hf. cbn [length app] in Hf.
    change (slice 0 4 (a ++ b ++ c)) with (slice (0 + 0 * 4) (0 + 0 * 4 + 4) (a ++ b ++ c)). rewrite Hf. by apply lor_low16.
  - unfold entry_nsid. apply Forall_cons in Ha as [_ Ha]. apply Forall_cons in Ha as [Ha _].
    pose proof (piece_field 4 [] (b ++ c) [Z.lor opcode (Z.shiftl cid 16); nsid] 1 _ eq_refl Ha) as Hf. rewrite <- Ea in Hf. exact Hf.
  - intros i Hi. destruct (words !! i) as [z|] eqn:Hz; [|apply lookup_ge_None in Hz; lia]. rewrite (Hw0 i z Hz). split.
    + unfold words in Hz. destruct (Nat.lt_ge_cases i (length cdw)) as [Hlt|Hge].
      * rewrite lookup_app_l in Hz by done. by rewrite Hz.
      * rewrite lookup_app_r in Hz by done. apply lookup_replicate in Hz as [-> _]. by rewrite (lookup_ge_None_2 cdw i).
    + rewrite Forall_forall in Hc. apply Hc, list_elem_of_lookup. eauto.
Qed.
