(* ===== verification/NvmeSafe.v ===== *)
(** * What the NVMe driver can do to the target and the disk

    On every target, whatever it answers: the read-only driver submits nothing but
    the commands of its allow-lists, the writable one no write outside the enabled
    ranges, and both write target memory only inside the DMA window. *)

From Stdlib Require Import ZArith Lia.
From Stdlib Require Import Strings.Byte.
From stdpp Require Import base list sorting numbers strings gmap sets.
From S2P Require Import Prelude Bytes GptSurvey Target Preload Nvme.

Local Open Scope list_scope.
Local Open Scope Z_scope.
Local Open Scope py_scope.

(** Layouts whose transfers fit: the constructor's assertions, and PRP lists of at
    most one page. *)
Record layout_fits (l : layout) : Prop := {
  lf_slots : ly_slots l <= 8;
  lf_prp : ly_prp + 8 * PAGE <= ly_data l;
  lf_data : ly_data l + ly_data_bytes l <= ly_size l;
  lf_chunk : 0 < ly_chunk l <= 512 * PAGE;
  lf_room : ly_chunk l <= ly_data_bytes l
}.

Lemma m3_layout_fits : layout_fits M3_LAYOUT.
Proof. split; vm_compute; split || idtac; congruence. Qed.
Lemma adopt_layout_fits : layout_fits ADOPT_LAYOUT.
Proof. split; vm_compute; split || idtac; congruence. Qed.

(** Steps that leave the state alone. *)
Ltac sf_pure := first [apply safe_ret | apply safe_raise | apply safe_lift].

Section safety.
  Context (bar w : Z) (l : layout) (writable : bool).
  Abbreviation N := (env * driver)%type.

(** ** Allowed actions *)

Definition admin_entry_ok (d : bytes) : Prop :=
  length d = 64%nat /\ entry_op d ∈ ADMIN_ALLOWED /\
  (entry_op d = 0x09 -> Z.land (entry_cdw d 0) 0xFF = 0x07 /\ entry_cdw d 0 < 2 ^ 31).

(** A write of whole blocks that lies in one of the ranges, and is durable on
    completion. *)
Definition write_confined (R : list (Z * Z)) (d : bytes) : Prop :=
  Z.testbit (entry_cdw d 2) 30 = true /\
  exists lo hi, (lo, hi) ∈ R /\ lo <= entry_lba d /\ entry_lba d + entry_blocks d <= hi.

Definition io_entry_ok (R : list (Z * Z)) (d : bytes) : Prop :=
  length d = 64%nat /\
  (entry_op d = 0x02 \/
   (writable = true /\ R <> [] /\ entry_nsid d = 1 /\ (entry_op d = 0x00 \/ (entry_op d = 0x01 /\ write_confined R d)))).

(** Slot of a submission queue. *)
Definition in_queue (base entries a : Z) : Prop := exists t, 0 <= t < entries /\ a = base + t * 64.

Definition write_ok (R : list (Z * Z)) (a : Z) (d : bytes) : Prop :=
  (in_queue (w + ly_asq) ADMIN_ENTRIES a /\ admin_entry_ok d) \/
  (in_queue (w + ly_iosq) IO_ENTRIES a /\ io_entry_ok R d) \/
  (w + ly_prp <= a /\ a + zlen d <= w + ly_prp + 8 * PAGE) \/
  (writable = true /\ w + ly_data l <= a /\ a + zlen d <= w + ly_data l + ly_data_bytes l).

(** Registers the driver writes: CC, AQA, ASQ, ACQ and the four doorbells. *)
Definition register_ok (a : Z) : Prop :=
  a ∈ [bar + REG_CC; bar + REG_AQA; bar + REG_ASQ; bar + REG_ASQ + 4; bar + REG_ACQ; bar + REG_ACQ + 4] \/
  exists k stride, 0 <= k <= 3 /\ 0 <= stride <= 15 /\ a = bar + 0x1000 + k * Z.shiftl 4 stride.

Definition allowed (R : list (Z * Z)) (x : action) : Prop :=
  match x with
  | ARead32 _ | ARead64 _ | AReadMem _ _ _ | ANow => True
  | AWrite32 a _ => register_ok a
  | AWriteMem a d => write_ok R a d
  | ARequest op args => op = P_DC_CIVAC \/ (op = P_MEMSET64 /\ args = [w; 0; ly_size l])
  | ACall _ _ | ACopy _ _ _ => False
  end.

(** ** The state *)

Record queue_ok (qid sq entries : Z) (q : queue) : Prop := {
  qo_qid : q_qid q = qid;
  qo_sq : q_sq q = sq;
  qo_entries : q_entries q = entries;
  qo_tail : 0 <= q_tail q < entries;
  qo_sq_db : register_ok (q_sq_db q);
  qo_cq_db : register_ok (q_cq_db q)
}.

(** [G] holds what is known of the block size and the transfer limit. *)
Definition known := option Z -> option Z -> Prop.
Definition anything : known := fun _ _ => True.
Definition pinned (lb mt : option Z) : known := fun a b => a = lb /\ b = mt.

Record drv_ok (G : known) (R : list (Z * Z)) (s : N) : Prop := {
  do_admin : forall q, d_admin (snd s) = Some q -> queue_ok 0 (w + ly_asq) ADMIN_ENTRIES q;
  do_io : forall q, d_io (snd s) = Some q -> queue_ok 1 (w + ly_iosq) IO_ENTRIES q;
  do_transfer : forall v, d_max_transfer (snd s) = Some v -> v <= ly_chunk l;
  do_lba : forall v, d_lba_bytes (snd s) = Some v -> 0 < v;
  do_known : G (d_lba_bytes (snd s)) (d_max_transfer (snd s));
  do_ranges : d_ranges (snd s) = R;
  do_stride : forall v, d_stride (snd s) = Some v -> 0 <= v <= 15
}.

Definition qref_ok (r : qref) (q : queue) : Prop :=
  match r with Adm => queue_ok 0 (w + ly_asq) ADMIN_ENTRIES q | Io => queue_ok 1 (w + ly_iosq) IO_ENTRIES q end.

Context (R : list (Z * Z)).
Section rules.
Context (G : known).
Abbreviation sf := (safe (@fst env driver) (drv_ok G R) (allowed R)).

Lemma drv_ok_hw e s : drv_ok G R s -> drv_ok G R (e, snd s).
Proof. by intros [H1 H2 H3 H4 H5 H6 H7]. Qed.

Lemma sf_hw {A} (m : M env A) x : (forall e r e', m e = (r, e') -> e' = ev_push x e) -> allowed R x -> sf (on_hw m).
Proof.
  intros Hm Hx. unfold on_hw. refine (safe_on _ _ _ (fun e s => (e, snd s)) m _ _).
  - intros e s Hs. split; [by apply drv_ok_hw|done].
  - intros e r e' E. rewrite (Hm e r e' E). exists [x]. split; [done|by repeat constructor].
Qed.

Lemma sf_r32 a : sf (hw_r32 a).
Proof. apply (sf_hw _ (ARead32 a)); [intros e r e'; apply ask_log|done]. Qed.
Lemma sf_r64 a : sf (hw_r64 a).
Proof. apply (sf_hw _ (ARead64 a)); [intros e r e'; apply ask_log|done]. Qed.
Lemma sf_now : sf (monotonic (S := env)).
Proof. apply (sf_hw _ ANow); [intros e r e'; apply ask_log|done]. Qed.
Lemma sf_read a n : sf (hw_read a n).
Proof. apply (sf_hw _ (AReadMem a n false)); [intros e r e'; apply ask_data_log|done]. Qed.
Lemma sf_read_live a n : sf (hw_read_live a n).
Proof. apply (sf_hw _ (AReadMem a n true)); [intros e r e'; apply ask_data_log|done]. Qed.
Lemma sf_civac a n : sf (civac a n).
Proof. apply (sf_hw _ (ARequest P_DC_CIVAC [a; n])); [intros e r e'; apply tell_log|by left]. Qed.
Lemma sf_zero : sf (hw_zero w (ly_size l)).
Proof.
  apply safe_bind; [|intros _; apply sf_civac]. apply (sf_hw _ (ARequest P_MEMSET64 [w; 0; ly_size l])); [intros e r e'; apply tell_log|by right].
Qed.
Lemma sf_w32 a v : register_ok a -> sf (hw_w32 a v).
Proof. intros H. apply (sf_hw _ (AWrite32 a v)); [intros e r e'; apply tell_log|done]. Qed.
Lemma sf_write a d : write_ok R a d -> sf (hw_write a d).
Proof. intros H. apply (sf_hw _ (AWriteMem a d)); [intros e r e'; apply tell_log|done]. Qed.

Lemma sf_attr {A B} (f : driver -> A) (k : A -> M N B) : (forall s, drv_ok G R s -> sf (k (f (snd s)))) -> sf (py_bind (attr f) k).
Proof. intros Hk. unfold attr. by apply safe_get. Qed.

Lemma sf_need {A B} (f : driver -> option A) e (k : A -> M N B) :
  (forall s v, drv_ok G R s -> f (snd s) = Some v -> sf (k v)) -> sf (py_bind (need f e) k).
Proof.
  intros Hk s r s' HI E. unfold need, py_bind, attr, py_get in E. destruct (f (snd s)) as [v|] eqn:Ef.
  - exact (Hk s v HI Ef s r s' HI E).
  - injection E as <- <-. split; [done|]. by exists [].
Qed.

Lemma sf_set f : (forall s, drv_ok G R s -> drv_ok G R (fst s, f (snd s))) -> sf (set_attr f).
Proof. intros Hf. apply safe_modify. intros s Hs. split; [by apply Hf|done]. Qed.

Lemma sf_queue {B} r (k : queue -> M N B) : (forall q, qref_ok r q -> sf (k q)) -> sf (py_bind (get_queue r) k).
Proof. intros Hk. destruct r; apply sf_need; intros s q Hs Hq; apply Hk; [by apply (do_admin _ _ _ Hs)|by apply (do_io _ _ _ Hs)]. Qed.

Lemma sf_put r q : qref_ok r q -> sf (put_queue r q).
Proof.
  intros Hq. destruct r; apply sf_set; intros s [H1 H2 H3 H4 H5 H6 H7]; split; try done; cbn; by intros q' [= <-].
Qed.

(** ** The checks *)

Lemma in_allowed (x : Z) ls : bool_decide (x ∈ ls) = true -> Forall (fun y => 0 <= y < 2 ^ 16) ls -> x ∈ ls /\ 0 <= x < 2 ^ 16.
Proof. intros Hx%bool_decide_eq_true_1 Hf. split; [done|]. rewrite Forall_forall in Hf. by apply Hf. Qed.

Lemma lor_shift_add a b : 0 <= a < 2 ^ 32 -> 0 <= b -> Z.lor a (Z.shiftl b 32) = a + 2 ^ 32 * b.
Proof.
  intros Ha Hb. rewrite Z.shiftl_mul_pow2 by lia. pose proof (Z.add_lor_land a (b * 2 ^ 32)) as Hs.
  assert (Hl : Z.land a (b * 2 ^ 32) = 0).
  { apply Z.bits_inj'. intros n Hn. rewrite Z.land_spec, Z.bits_0. destruct (Z.lt_ge_cases n 32) as [Hlt|Hge].
    - rewrite Z.mul_pow2_bits_low by lia. apply andb_false_r.
    - rewrite <- (Z.mod_small a (2 ^ 32)) by lia. by rewrite Z.mod_pow2_bits_high by lia. }
  rewrite Hl in Hs. lia.
Qed.

Lemma allow_write_spec first count (s : N) r s' : allow_write first count s = (r, s') ->
  s' = s /\ (r = Ok tt -> 0 <= first /\ 0 < count /\ exists lo hi, (lo, hi) ∈ d_ranges (snd s) /\ lo <= first /\ first + count <= hi).
Proof.
  unfold allow_write. destruct (Z.ltb_spec first 0) as [?|H0]; cbn [orb]; [by intros [= <- <-]|]. destruct (Z.leb_spec count 0) as [?|H1]; [by intros [= <- <-]|].
  unfold py_bind, attr, py_get. destruct (existsb _ _) eqn:Ex; intros [= <- <-]; [|done]. split; [done|]. intros _. split; [done|]. split; [done|].
  apply existsb_exists in Ex as ([lo hi] & Hin & [H2%Z.leb_le H3%Z.leb_le]%andb_true_iff). exists lo, hi. split; [by apply list_elem_of_In|done].
Qed.

(** What a command that passed the checks of the I/O queue is. *)
Definition io_command_ok (opcode nsid : Z) (cdw : list Z) : Prop :=
  opcode = 0x02 \/
  (writable = true /\ R <> [] /\ nsid = 1 /\
   (opcode = 0x00 \/
    (opcode = 0x01 /\ exists c0 c1 c2 lo hi, cdw = [c0; c1; c2] /\ Z.land c2 (Z.shiftl 1 30) <> 0 /\ (lo, hi) ∈ R /\
       lo <= Z.lor c0 (Z.shiftl c1 32) /\ Z.lor c0 (Z.shiftl c1 32) + (Z.land c2 0xffff + 1) <= hi))).

Lemma check_io_readonly_spec opcode (s : N) r s' : check_io_readonly opcode s = (r, s') -> s' = s /\ (r = Ok tt -> opcode = 0x02).
Proof.
  unfold check_io_readonly. destruct (bool_decide _) eqn:E; intros [= <- <-]; [|done]. split; [done|]. intros _.
  apply bool_decide_eq_true_1 in E. unfold IO_ALLOWED in E. set_solver.
Qed.

Lemma check_io_writable_spec opcode nsid prp1 prp2 cdw (s : N) r s' : d_ranges (snd s) = R -> writable = true ->
  check_io_writable w l opcode nsid prp1 prp2 cdw s = (r, s') -> s' = s /\ (r = Ok tt -> io_command_ok opcode nsid cdw).
Proof.
  intros HR Hw. unfold check_io_writable. destruct (Z.eqb_spec opcode 0x02) as [Hop|Hop].
  { intros [-> H]%check_io_readonly_spec. split; [done|]. intros Hr. left. by apply H. }
  unfold py_bind at 1, attr, py_get. rewrite HR. destruct (bool_decide (R = [])) eqn:ER; cbn [orb]; [by intros [= <- <-]|].
  apply bool_decide_eq_false_1 in ER. destruct (Z.eqb_spec nsid 1) as [Hns|]; cbn [negb]; [|by intros [= <- <-]].
  destruct (Z.eqb_spec opcode 0) as [Hop0|Hop0].
  { destruct (_ || _ || _); intros [= <- <-]; [done|]. split; [done|]. intros _. right. split_and!; try done. by left. }
  destruct cdw as [|c0 [|c1 [|c2 [|]]]]; try (by intros [= <- <-]). destruct (Z.eqb_spec opcode 1) as [Hop1|]; cbn [negb orb]; [|by intros [= <- <-]].
  destruct (negb (Z.land c2 (Z.lnot 0x4000ffff) =? 0)); [by intros [= <- <-]|]. destruct (Z.eqb_spec (Z.land c2 (Z.shiftl 1 30)) 0) as [|Hfua]; [by intros [= <- <-]|].
  unfold py_bind at 1. destruct (allow_write _ _ s) as [[[]|e] s1] eqn:Ea; apply allow_write_spec in Ea as [-> Ha]; [|by intros [= <- <-]].
  destruct (Ha eq_refl) as (_ & _ & lo & hi & Hin & Hlo & Hhi). rewrite HR in Hin.
  assert (Hok : io_command_ok opcode nsid [c0; c1; c2]).
  { right. split_and!; try done. right. split; [done|]. by exists c0, c1, c2, lo, hi. }
  unfold need, py_bind, attr, py_get, py_ret, py_raise. destruct (d_lba_bytes (snd s)); [|by intros [= <- <-]]. destruct (d_max_transfer (snd s)); [|by intros [= <- <-]].
  destruct (_ || _); [by intros [= <- <-]|]. destruct (negb _); by intros [= <- <-].
Qed.

Lemma check_io_same opcode nsid prp1 prp2 cdw (s : N) r s' : d_ranges (snd s) = R ->
  check_io_command w l writable opcode nsid prp1 prp2 cdw s = (r, s') -> s' = s /\ (r = Ok tt -> io_command_ok opcode nsid cdw).
Proof.
  intros HR. unfold check_io_command. destruct writable eqn:Ew.
  - intros E. by apply (check_io_writable_spec _ _ _ _ _ _ _ _ HR Ew E).
  - intros [-> H]%check_io_readonly_spec. split; [done|]. intros Hr. left. by apply H.
Qed.

Lemma check_command_spec q opcode nsid prp1 prp2 cdw (s : N) r s' : d_ranges (snd s) = R ->
  check_command w l writable q opcode nsid prp1 prp2 cdw s = (r, s') -> s' = s /\
  (r = Ok tt -> if q_qid q =? 0 then opcode ∈ ADMIN_ALLOWED /\ (opcode = 0x09 -> exists c0 t, cdw = c0 :: t /\ Z.land c0 0xFF = 0x07 /\ Z.shiftr c0 31 = 0)
                else io_command_ok opcode nsid cdw).
Proof.
  intros HR. unfold check_command. destruct (q_qid q =? 0).
  - destruct (bool_decide (opcode ∈ ADMIN_ALLOWED)) eqn:Ea; cbn [negb]; [|by intros [= <- <-]]. apply bool_decide_eq_true_1 in Ea.
    destruct (Z.eqb_spec opcode 0x09) as [->|Hne]; [|intros [= <- <-]; by split].
    destruct cdw as [|c0 t]; [by intros [= <- <-]|]. destruct (bool_decide (_ ∈ SET_FEATURES_ALLOWED)) eqn:Ef; cbn [negb orb]; [|by intros [= <- <-]].
    apply bool_decide_eq_true_1 in Ef. destruct (Z.eqb_spec (Z.shiftr c0 31) 0) as [Hs|]; cbn [negb]; intros [= <- <-]; [|done].
    split; [done|]. intros _. split; [done|]. intros _. exists c0, t. split; [done|]. split; [unfold SET_FEATURES_ALLOWED in Ef; set_solver|done].
  - by apply check_io_same.
Qed.

(** A checked command is an allowed entry of its queue. *)
Lemma admin_entry opcode cid nsid prp1 prp2 cdw d : sq_entry opcode cid nsid prp1 prp2 cdw = Ok d -> opcode ∈ ADMIN_ALLOWED ->
  (opcode = 0x09 -> exists c0 t, cdw = c0 :: t /\ Z.land c0 0xFF = 0x07 /\ Z.shiftr c0 31 = 0) -> admin_entry_ok d.
Proof.
  intros E Hop H9. assert (Hr : 0 <= opcode < 2 ^ 16).
  { apply (in_allowed opcode ADMIN_ALLOWED); [by apply bool_decide_eq_true_2|]. repeat constructor; vm_compute; congruence. }
  destruct (sq_entry_fields _ _ _ _ _ _ _ E Hr) as (Hl & Ho & _ & Hc). split; [done|]. rewrite Ho. split; [done|]. intros Heq.
  destruct (H9 Heq) as (c0 & t & -> & H1 & H2). destruct (Hc 0%nat ltac:(lia)) as [Hc0 Hb]. change (entry_cdw d 0 = c0) in Hc0. rewrite Hc0 in *. split; [done|]. destruct (Z.lt_ge_cases c0 (2 ^ 31)) as [?|Hge]; [lia|].
  rewrite Z.shiftr_div_pow2 in H2 by lia. apply Z.div_small_iff in H2; lia.
Qed.

Lemma io_entry opcode cid nsid prp1 prp2 cdw d : sq_entry opcode cid nsid prp1 prp2 cdw = Ok d -> io_command_ok opcode nsid cdw -> io_entry_ok R d.
Proof.
  intros E Hok. assert (Hr : 0 <= opcode < 2 ^ 16) by (destruct Hok as [->|(_ & _ & _ & [->|[-> _]])]; lia).
  destruct (sq_entry_fields _ _ _ _ _ _ _ E Hr) as (Hl & Ho & Hn & Hc). split; [done|]. rewrite Ho, Hn.
  destruct Hok as [Hop|(Hw & HR & Hns & [Hop|(Hop & c0 & c1 & c2 & lo & hi & -> & Hf & Hin & Hlo & Hhi)])]; [by left| |].
  - right. split_and!; try done. by left.
  - right. split_and!; try done. right. split; [done|].
    destruct (Hc 0%nat ltac:(lia)) as [E0 B0], (Hc 1%nat ltac:(lia)) as [E1 B1], (Hc 2%nat ltac:(lia)) as [E2 B2]. change (entry_cdw d 0 = c0) in E0. change (entry_cdw d 1 = c1) in E1. change (entry_cdw d 2 = c2) in E2.
    unfold write_confined, entry_lba, entry_blocks. rewrite E0 in B0. rewrite E1 in B1. rewrite E0, E1, E2. rewrite lor_shift_add in Hlo, Hhi by lia. split.
    + destruct (Z.testbit c2 30) eqn:Et; [done|]. exfalso. apply Hf. apply Z.bits_inj'. intros n Hn0. rewrite Z.land_spec, Z.shiftl_spec, Z.bits_0 by done.
      destruct (decide (n = 30)) as [->|Hne]; [by rewrite Et|].
      assert (Hb : Z.testbit 1 (n - 30) = false); [|by rewrite Hb, andb_false_r].
      destruct (Z.lt_ge_cases n 30); [by apply Z.testbit_neg_r; lia|]. change 1 with (2 ^ 0). apply Z.pow2_bits_false. lia.
    + exists lo, hi. by split_and!.
Qed.

(** ** The operations *)

Ltac sf_base := first
  [ apply safe_ret | apply safe_raise | apply safe_lift | apply sf_r32 | apply sf_r64 | apply sf_now | apply sf_read
  | apply sf_read_live | apply sf_civac | apply sf_zero ].
(** One construct of the program: an attribute read, a sequence, a branch. *)
Ltac sf_step := first
  [ sf_base
  | apply sf_attr; intros ? ?
  | apply sf_need; intros ? ? ? ?
  | apply sf_queue; intros ? ?
  | apply safe_bind; [|intros ?]
  | match goal with
    | |- context [if ?b then _ else _] => destruct b eqn:?
    | |- context [match ?x with _ => _ end] => destruct x eqn:?
    end ].
Ltac sf_auto := repeat (cbv beta zeta; sf_step).

Lemma qref_db r q : qref_ok r q -> register_ok (q_sq_db q) /\ register_ok (q_cq_db q).
Proof. by destruct r; intros []. Qed.

Lemma qref_same r q q' : qref_ok r q -> q_qid q' = q_qid q -> q_sq q' = q_sq q -> q_entries q' = q_entries q ->
  q_sq_db q' = q_sq_db q -> q_cq_db q' = q_cq_db q -> 0 <= q_tail q' < q_entries q -> qref_ok r q'.
Proof. destruct r; intros [] ? ? ? ? ? ?; split; congruence || lia. Qed.

Lemma qref_tail r q : qref_ok r q -> 0 <= q_tail q < q_entries q.
Proof. destruct r; intros []; lia. Qed.

Lemma sf_ring r : sf (nv_ring r).
Proof. apply sf_queue. intros q Hq. apply sf_w32. apply (qref_db r q Hq). Qed.

Lemma qref_slot r q d : qref_ok r q -> (if q_qid q =? 0 then admin_entry_ok d else io_entry_ok R d) -> forall q', qref_ok r q' -> write_ok R (q_sq q' + q_tail q' * 64) d.
Proof.
  destruct r; intros Hq Hd q' []; [left|right; left]; (split; [exists (q_tail q'); split; [lia|congruence]|]); by rewrite (qo_qid _ _ _ _ Hq) in Hd.
Qed.

Lemma sf_submit r opcode nsid prp1 prp2 cdw : sf (submit w l writable r opcode nsid prp1 prp2 cdw).
Proof.
  apply sf_queue. intros q Hq. refine (safe_check _ _ _ _ _ _ (fun s r0 s' Hs E => check_command_spec q _ _ _ _ _ s r0 s' (do_ranges _ _ _ Hs) E) _).
  intros Hc. sf_step; [apply safe_raise|]. cbv zeta. apply safe_bind; [|intros _].
  { apply sf_put, (qref_same r q); try done. exact (qref_tail r q Hq). }
  intros s r0 s' HI E. unfold py_bind at 1, py_lift in E. destruct (sq_entry _ _ _ _ _ _) as [d|x] eqn:Ed; revert s r0 s' HI E; [|apply safe_raise].
  assert (Hd : if q_qid q =? 0 then admin_entry_ok d else io_entry_ok R d).
  { destruct (q_qid q =? 0); [by destruct Hc; eapply admin_entry|by eapply io_entry]. }
  apply sf_queue. intros q1 Hq1. apply safe_bind; [by apply sf_write, (qref_slot r q)|intros _]. sf_step; [sf_base|]. apply safe_bind; [|intros _].
  { apply sf_put, (qref_same r q1); try done. apply Z.mod_pos_bound. pose proof (qref_tail r q1 Hq1). lia. }
  sf_step; [sf_base|]. apply sf_queue. intros q2 Hq2. apply safe_bind; [|intros _; sf_base].
  apply sf_put, (qref_same r q2); try done. exact (qref_tail r q2 Hq2).
Qed.

Lemma sf_stable n a e : sf (stable_entry n a e).
Proof. revert e. induction n as [|n IH]; intros e; cbn [stable_entry]; sf_auto. apply IH. Qed.

Lemma sf_reap_loop fuel r cids deadline dn : sf (reap_loop bar fuel r cids deadline dn).
Proof.
  revert dn. induction fuel as [|k IH]; intros dn; cbn [reap_loop]; [sf_base|]. sf_step; [sf_base|]. apply sf_queue. intros q Hq.
  cbv zeta. do 3 (apply safe_bind; [sf_base|intros ?]). apply safe_bind; [destruct (_ =? _); [apply sf_stable|sf_base]|intros e].
  destruct (negb _); [sf_base|]. do 3 (apply safe_bind; [sf_base|intros ?]). destruct (negb _).
  - apply safe_bind; [sf_base|intros now]. destruct (_ <? _); [|apply IH]. apply safe_bind; [apply sf_r32|intros; sf_base].
  - apply safe_bind; [|intros _].
    + apply sf_put, (qref_same r q); try done. exact (qref_tail r q Hq).
    + apply safe_bind; [apply sf_w32, (qref_db r q Hq)|intros _; apply IH].
Qed.

Lemma sf_reap r cids ms fuel : sf (reap bar r cids ms fuel).
Proof. apply safe_bind; [sf_base|intros now]. apply safe_bind; [apply sf_reap_loop|intros dn; sf_base]. Qed.

Lemma sf_admin opcode nsid prp1 cdw ms fuel : sf (admin_cmd bar w l writable opcode nsid prp1 cdw ms fuel).
Proof.
  apply safe_bind; [apply sf_submit|intros cid]. apply safe_bind; [apply sf_ring|intros _]. apply safe_bind; [apply sf_reap|intros dn].
  destruct dn; sf_base.
Qed.

Lemma sf_fetch off n : sf (nv_fetch w off n).
Proof. apply safe_bind; [sf_base|intros _; sf_base]. Qed.

Lemma sf_reg off : sf (reg bar off).
Proof. unfold reg. sf_base. Qed.

Lemma sf_same (m : M N unit) : (forall s r s', drv_ok G R s -> m s = (r, s') -> s' = s) -> sf m.
Proof. intros H s r s' HI E. rewrite (H _ _ _ HI E). split; [done|]. by exists []. Qed.

Lemma sf_wait cond ms fuel : sf (nv_wait bar cond ms fuel).
Proof.
  apply safe_bind; [sf_base|intros now]. revert now. intros now. generalize (now + ms). intros deadline.
  induction fuel as [|k IH]; cbn [wait_loop_nv]; unfold reg; sf_auto. apply IH.
Qed.

Lemma register_fixed a : a ∈ [bar + REG_CC; bar + REG_AQA; bar + REG_ASQ; bar + REG_ASQ + 4; bar + REG_ACQ; bar + REG_ACQ + 4] -> register_ok a.
Proof. by left. Qed.

Lemma queue_init_ok qid sq cq entries stride : 0 <= qid <= 1 -> 0 <= stride <= 15 -> 0 < entries -> queue_ok qid sq entries (queue_init qid sq cq entries stride bar).
Proof.
  intros Hq Hst He. split; try done; cbn; try lia; right.
  - exists (2 * qid), stride. by split; [lia|].
  - exists (2 * qid + 1), stride. by split; [lia|].
Qed.

Lemma stride_range v : 0 <= Z.land v 0xF <= 15.
Proof. replace (Z.land v 0xF) with (v mod 2 ^ 4) by (symmetry; by apply (Z.land_ones v 4)). assert (0 <= v mod 2 ^ 4 < 16) by (by apply Z.mod_pos_bound). lia. Qed.

Lemma sf_cc v : sf (hw_w32 (bar + REG_CC) v).
Proof. apply sf_w32, register_fixed. rewrite !elem_of_cons. tauto. Qed.

(** Operations whose safety is known. *)
Ltac sf_known := first
  [ apply sf_submit | apply sf_ring | apply sf_reap | apply sf_admin | apply sf_fetch | apply sf_wait | apply sf_cc
  | apply (sf_put Adm) | apply (sf_put Io) ].
Ltac sf_all := repeat (cbv beta zeta; unfold reg; first [sf_known | sf_step]).

Lemma sf_takeover fuel : sf (takeover bar w l fuel).
Proof.
  unfold takeover. do 7 (sf_step; [unfold reg; sf_base|]). cbv zeta. apply safe_bind; [|intros _].
  { apply sf_set. intros s []. split; try done. cbn. intros v [= <-]. apply stride_range. }
  sf_step; [sf_base|]. do 2 (apply safe_bind; [unfold reg; sf_base|intros ?]). apply safe_bind; [sf_all|intros _].
  apply safe_bind; [sf_base|intros _]. apply safe_bind; [apply (sf_put Adm); apply queue_init_ok; [done|apply stride_range|done]|intros _].
  do 5 (apply safe_bind; [apply sf_w32, register_fixed; rewrite !elem_of_cons; tauto|intros _]). sf_all.
Qed.

Lemma sf_features fuel : sf (features bar w l writable fuel).
Proof. unfold features. sf_all. Qed.

Lemma sf_io_queues fuel : sf (io_queues bar w l writable fuel).
Proof. unfold io_queues. do 3 (apply safe_bind; [sf_known|intros _]). apply sf_need. intros s v Hs Hv. apply (sf_put Io). apply queue_init_ok; [done|by apply (do_stride _ _ _ Hs)|done]. Qed.

Lemma sf_delete fuel : sf (delete_io_queues bar w l writable fuel).
Proof.
  unfold delete_io_queues. apply sf_attr. intros s _. destruct (d_io (snd s)); [|sf_base]. do 2 (apply safe_bind; [sf_known|intros _]).
  apply sf_set. by intros s1 [].
Qed.

Lemma sf_shutdown fuel : sf (nv_shutdown bar fuel).
Proof. unfold nv_shutdown. sf_all. Qed.

Lemma sf_flush fuel : sf (nv_flush bar w l writable fuel).
Proof. unfold nv_flush. sf_all. Qed.

(** ** Transfers *)

Hypothesis (Hl : layout_fits l).

Lemma length_prp_list data pages : 1 <= pages -> Z.of_nat (length (prp_list data pages)) = pages - 1.
Proof. intros H. unfold prp_list. rewrite length_map, length_seq. lia. Qed.

Lemma sf_prp data pages lst : w + ly_prp <= lst -> lst + PAGE <= w + ly_prp + 8 * PAGE -> pages <= 512 -> sf (set_prp data pages lst).
Proof.
  intros H1 H2 Hp. unfold set_prp. sf_step; [sf_base|]. destruct (Z.ltb_spec 2 pages) as [Hlt|]; [|sf_base].
  intros s r s' HI E. unfold py_bind at 1, py_lift in E. destruct (pack_Qs _) as [d|x] eqn:Ed; revert s r s' HI E; [|apply safe_raise].
  apply safe_bind; [|intros _; sf_auto]. apply sf_write. right. right. left. apply pack_Qs_inv in Ed as ->. split; [done|].
  unfold zlen. rewrite length_pieces. pose proof (length_prp_list data pages ltac:(lia)) as Hlen. unfold PAGE in *. lia.
Qed.

Lemma pages_bound n : n <= ly_chunk l -> (n + PAGE - 1) / PAGE <= 512.
Proof. intros H. destruct Hl. unfold PAGE in *. apply Z.lt_succ_r, Z.div_lt_upper_bound; lia. Qed.
End rules.

(** The block size and the transfer limit of the state are fixed while an
    operation that does not identify runs. *)
Lemma safe_pin {A} (m : M N A) :
  (forall lb mt, (forall v, lb = Some v -> 0 < v) -> (forall v, mt = Some v -> v <= ly_chunk l) ->
     safe (@fst env driver) (drv_ok (pinned lb mt) R) (allowed R) m) ->
  safe (@fst env driver) (drv_ok anything R) (allowed R) m.
Proof.
  intros Hm s r s' [H1 H2 H3 H4 _ H6 H7] E. destruct (Hm _ _ H4 H3 s r s') as [[K1 K2 K3 K4 _ K6 K7] K]; [by split|done|]. by split.
Qed.

Hypothesis (Hl : layout_fits l).

Section pinned.
  Context (b t : Z) (Hb : 0 < b) (Ht : t <= ly_chunk l).
  Abbreviation sf := (safe (@fst env driver) (drv_ok (pinned (Some b) (Some t)) R) (allowed R)).

Lemma pin_lba {B} e (k : Z -> M N B) : sf (k b) -> sf (py_bind (need d_lba_bytes e) k).
Proof. intros Hk. apply sf_need. intros s v Hs Hv. destruct (do_known _ _ _ Hs) as [E _]. rewrite Hv in E. by injection E as ->. Qed.

Lemma pin_transfer {B} e (k : Z -> M N B) : sf (k t) -> sf (py_bind (need d_max_transfer e) k).
Proof. intros Hk. apply sf_need. intros s v Hs Hv. destruct (do_known _ _ _ Hs) as [_ E]. rewrite Hv in E. by injection E as ->. Qed.

Lemma sf_read_cmd slot lba n : 0 <= slot < 8 -> n * b <= t -> sf (read_cmd w l writable slot lba n).
Proof.
  intros Hs Hn. apply pin_lba. cbv zeta. apply safe_bind; [|intros p; apply sf_submit].
  apply sf_prp; [unfold PAGE; lia|unfold PAGE; lia|]. apply pages_bound; [done|lia].
Qed.

Lemma per_fits n : n <= t / b -> n * b <= t.
Proof. intros H. pose proof (Z.mul_div_le t b Hb). nia. Qed.

Lemma sf_read_loop fuel lba count : sf (read_loop bar w l writable fuel (t / b) lba count).
Proof.
  revert lba count. induction fuel as [|k IH]; intros lba count; cbn [read_loop]; destruct (count =? 0); try sf_pure. cbv zeta.
  apply safe_bind; [apply sf_read_cmd; [lia|]; apply per_fits; lia|intros cid].
  apply safe_bind; [apply sf_ring|intros _]. apply safe_bind; [apply sf_reap|intros _]. apply pin_lba. apply safe_bind; [apply sf_fetch|intros out].
  apply safe_bind; [apply IH|intros rest; sf_pure].
Qed.

Lemma lift_div {B} a (k : Z -> M N B) : sf (k (a / b)) -> sf (py_bind (py_lift (py_div a b)) k).
Proof. intros Hk. unfold py_div. destruct (Z.eqb_spec b 0); [lia|]. exact Hk. Qed.

Lemma sf_timed_round slots slot lba rest moved cids : 0 <= slot -> slot + Z.of_nat slots <= 8 -> sf (timed_round w l writable slots slot (t / b) lba rest moved cids).
Proof.
  revert slot lba rest moved cids. induction slots as [|k IH]; intros slot lba rest moved cids H0 H8; cbn [timed_round]; [sf_pure|]. destruct (rest =? 0); [sf_pure|]. cbv zeta.
  apply safe_bind; [apply sf_read_cmd; [lia|]; apply per_fits; lia|intros cid]. apply pin_lba. apply IH; lia.
Qed.

Lemma sf_timed_loop fuel lba rest moved : sf (timed_loop bar w l writable fuel (t / b) lba rest moved).
Proof.
  revert lba rest moved. induction fuel as [|k IH]; intros lba rest moved; cbn [timed_loop]; destruct (rest =? 0); try sf_pure.
  apply safe_bind; [apply sf_timed_round; [lia|]; destruct Hl; lia|intros [[[cids lba'] rest'] moved']].
  apply safe_bind; [apply sf_ring|intros _]. apply safe_bind; [apply sf_reap|intros _]. apply IH.
Qed.

Lemma sf_write_chunk fuel lba chunk : writable = true -> zlen chunk <= t -> sf (write_chunk bar w l writable fuel b lba chunk).
Proof.
  intros Hw Hc. unfold write_chunk. cbv zeta. apply safe_bind; [|intros p2].
  { apply sf_prp; [lia|unfold PAGE; lia|]. apply pages_bound; [done|lia]. }
  apply safe_bind; [|intros _].
  { apply sf_write. right. right. right. split; [done|]. destruct Hl. lia. }
  apply safe_bind; [apply sf_civac|intros _]. apply safe_bind; [apply sf_submit|intros cid]. apply safe_bind; [apply sf_ring|intros _].
  apply safe_bind; [apply sf_reap|intros _; sf_pure].
Qed.

Lemma sf_write_loop fuel n per lba data : writable = true -> 0 <= per <= t -> sf (write_loop bar w l writable fuel n b per lba data).
Proof.
  intros Hw Hp. revert lba data. induction n as [|n IH]; intros lba [|x data]; cbn [write_loop]; try sf_pure.
  apply safe_bind; [|intros _; apply IH]. apply sf_write_chunk; [done|]. unfold zlen. rewrite length_take. lia.
Qed.
End pinned.

Abbreviation sa := (safe (@fst env driver) (drv_ok anything R) (allowed R)).

Lemma sa_read lba count fuel : sa (nv_read bar w l writable lba count fuel).
Proof.
  apply safe_pin. intros lb mt Hlb Hmt. unfold nv_read. destruct (_ || _); [sf_pure|]. apply sf_need. intros s0 nsze _ _. destruct (_ <? _); [sf_pure|].
  apply sf_need. intros s1 t Hs1 Ht. destruct (do_known _ _ _ Hs1) as [_ E1]. rewrite Ht in E1. subst mt.
  apply sf_need. intros s2 b Hs2 Hb. destruct (do_known _ _ _ Hs2) as [E2 _]. rewrite Hb in E2. subst lb.
  apply lift_div; [by apply Hlb|]. apply sf_read_loop; [by apply Hlb|by apply Hmt].
Qed.

Lemma sa_timed lba total fuel : sa (timed bar w l writable lba total fuel).
Proof.
  apply safe_pin. intros lb mt Hlb Hmt. unfold timed.
  apply sf_need. intros s1 t Hs1 Ht. destruct (do_known _ _ _ Hs1) as [_ E1]. rewrite Ht in E1. subst mt.
  apply sf_need. intros s2 b Hs2 Hb. destruct (do_known _ _ _ Hs2) as [E2 _]. rewrite Hb in E2. subst lb.
  do 2 (apply lift_div; [by apply Hlb|]). apply safe_bind; [apply sf_now|intros start].
  apply safe_bind; [apply sf_timed_loop; [by apply Hlb|by apply Hmt]|intros moved]. apply safe_bind; [apply sf_now|intros stop; sf_pure].
Qed.

Lemma sa_write lba data fuel : writable = true -> sa (nv_write bar w l writable lba data fuel).
Proof.
  intros Hw. apply safe_pin. intros lb mt Hlb Hmt. unfold nv_write. destruct (bool_decide _); [sf_pure|]. apply sf_attr. intros s2 Hs2.
  destruct (do_known _ _ _ Hs2) as [E2 _]. rewrite E2. destruct lb as [b|]; [|sf_pure]. destruct (_ || _); [sf_pure|].
  apply (safe_check _ _ _ _ _ True); [intros s r s' _ E; by apply allow_write_spec in E as [-> _]|intros _].
  apply sf_need. intros s1 t Hs1 Ht. destruct (do_known _ _ _ Hs1) as [_ E1]. rewrite Ht in E1. subst mt. cbv zeta.
  destruct (_ =? 0); [sf_pure|]. destruct (Z.ltb_spec (Z.min t (65536 * b)) 0) as [|H0]; [sf_pure|].
  apply sf_write_loop; [by apply Hmt|done|lia].
Qed.

Lemma lba_formats_pos k i n fs : lba_formats k i n = Ok fs -> Forall (fun f => 0 < fst f) fs.
Proof.
  revert i fs. induction k as [|k IH]; intros i fs E; cbn [lba_formats] in E; [by injection E as <-|].
  apply bind_inv in E as (ms & _ & E). apply bind_inv in E as (ds & Ed & E). apply bind_inv in E as (rp & _ & E). apply bind_inv in E as (r & Er & [= <-]).
  constructor; [|by apply (IH (i + 1)%nat)]. cbn [fst]. rewrite Z.shiftl_1_l. apply Z.pow_pos_nonneg; [lia|].
  unfold unpack_u in Ed. case_decide; [|done]. injection Ed as <-. apply le_Z_range.
Qed.

Lemma sa_identify fuel : sa (identify bar w l writable fuel).
Proof.
  unfold identify. apply safe_bind; [apply sf_admin|intros _]. apply safe_bind; [apply sf_fetch|intros c].
  do 2 (apply safe_bind; [sf_pure|intros ?]). do 11 (apply safe_bind; [sf_pure|intros _]). apply safe_bind; [|intros _].
  { apply sf_set. intros s [H1 H2 H3 H4 H5 H6 H7]. split; try done. cbn. intros v [= <-]. lia. }
  apply safe_bind; [apply sf_admin|intros _]. apply safe_bind; [apply sf_fetch|intros n]. do 5 (apply safe_bind; [sf_pure|intros ?]). cbv zeta.
  intros s r s' HI E. unfold py_bind at 1, py_lift in E. destruct (lba_formats _ _ n) as [fs|x] eqn:Ef; revert s r s' HI E; [|apply safe_raise].
  apply lba_formats_pos in Ef. apply safe_bind; [sf_pure|intros _]. destruct (negb _); [sf_pure|]. destruct (fs !! _) as [[lb md]|] eqn:Eg; [|sf_pure].
  rewrite Forall_lookup in Ef. specialize (Ef _ _ Eg). cbn [fst] in Ef. apply safe_bind; [|intros _; destruct (negb _); sf_pure].
  apply sf_set. intros s [H1 H2 H3 H4 H5 H6 H7]. split; try done. cbn. by intros v [= <-].
Qed.

Lemma sa_gpt last fuel : sa (read_gpt bar w l writable last fuel).
Proof.
  unfold read_gpt. apply sf_need. intros s bs _ _. apply safe_bind; [apply sa_read|intros head]. do 3 (apply safe_bind; [sf_pure|intros ?]). cbv zeta.
  apply safe_bind; [destruct (_ && _); [sf_pure|apply sa_read]|intros pa]. apply safe_bind; [apply sa_read|intros bk]. apply safe_bind; [sf_pure|intros be].
  apply safe_bind; [apply sa_read|intros ba; sf_pure].
Qed.

Lemma sa_apfs first off b per fuel : sa (check_apfs bar w l writable first off b per fuel).
Proof. unfold check_apfs. apply safe_bind; [apply sa_read|intros blk]. destruct (bytes_eqb _ _); sf_pure. Qed.

Lemma sa_arm want fuel : sa (arm_window bar w l writable want fuel).
Proof.
  unfold arm_window. apply sf_need. intros s nsze _ _. apply safe_bind; [apply sa_gpt|intros g]. destruct (negb _); [sf_pure|].
  destruct (List.filter _ _) as [|part [|]]; try sf_pure. destruct (negb _); [sf_pure|]. cbv zeta. apply sf_need. intros s1 b _ _.
  apply safe_bind; [sf_pure|intros per]. apply safe_bind; [apply sa_read|intros raw]. destruct (_ <? _)%nat; [sf_pure|].
  do 9 (apply safe_bind; [sf_pure|intros ?]). match goal with |- context [if ?b then _ else _] => destruct b end; [sf_pure|]. do 2 (apply safe_bind; [apply sa_apfs|intros _]). sf_pure.
Qed.
End safety.

(** ** Programs *)

(** The methods a program can call on the driver object, the private ones too.
    The one restriction is on [_read_cmd]: it checks neither its slot nor its
    count, see [slot_and_size]. *)
Inductive nvme_op :=
| OReg (off : Z) | OWait (cond : Z -> bool) (ms : Z) | OCheckIo (opcode nsid prp1 prp2 : Z) (cdw : list Z) | OAllowWrite (first count : Z)
| OReadCmd (slot lba count : Z)
| OTakeover | OIdentify | OFeatures | OIoQueues | ODeleteIoQueues | OShutdown
| OSubmit (r : qref) (opcode nsid prp1 prp2 : Z) (cdw : list Z) | ORing (r : qref) | OReap (r : qref) (cids : list Z) (ms : Z)
| OAdminCmd (opcode nsid prp1 : Z) (cdw : list Z) (ms : Z) | OFetch (off n : Z)
| ORead (lba count : Z) | OTimed (lba total : Z) | OReadGpt (last : Z) | OArmWindow (guid : bytes)
| OEnableWrites (ranges : list (Z * Z)) | ODisableWrites | OWrite (lba : Z) (data : bytes) | OFlush.

Section programs.
  Context (bar w : Z) (l : layout) (writable : bool) (fuel : nat).
  Abbreviation N := (env * driver)%type.

(** A method of [WritableNvme] only. *)
Definition rw_only {A} (m : M N A) : M N A := if writable then m else py_raise (AttributeError "Nvme").

(** What [read] and [timed] pass to [_read_cmd]: a slot of the layout, and no
    more blocks than one transfer carries.  Before the namespace is identified
    the method raises whatever it is given. *)
Definition slot_and_size (slot count : Z) (d : driver) : bool :=
  match d_lba_bytes d, d_max_transfer d with
  | None, _ => true
  | Some b, Some t => (0 <=? slot) && (slot <? ly_slots l) && (count * b <=? t)
  | Some _, None => false
  end.

Definition run_op (o : nvme_op) : M N unit :=
  match o with
  | OReg off => reg bar off ;;; py_ret tt
  | OWait cond ms => nv_wait bar cond ms fuel ;;; py_ret tt
  | OCheckIo opcode nsid prp1 prp2 cdw => check_io_command w l writable opcode nsid prp1 prp2 cdw
  | OAllowWrite first count => rw_only (allow_write first count)
  | OReadCmd slot lba count =>
      let! fits := attr (slot_and_size slot count) in
      if fits then read_cmd w l writable slot lba count ;;; py_ret tt else py_ret tt
  | OTakeover => takeover bar w l fuel
  | OIdentify => identify bar w l writable fuel
  | OFeatures => features bar w l writable fuel
  | OIoQueues => io_queues bar w l writable fuel
  | ODeleteIoQueues => delete_io_queues bar w l writable fuel
  | OShutdown => nv_shutdown bar fuel
  | OSubmit r opcode nsid prp1 prp2 cdw => submit w l writable r opcode nsid prp1 prp2 cdw ;;; py_ret tt
  | ORing r => nv_ring r
  | OReap r cids ms => reap bar r cids ms fuel ;;; py_ret tt
  | OAdminCmd opcode nsid prp1 cdw ms => admin_cmd bar w l writable opcode nsid prp1 cdw ms fuel ;;; py_ret tt
  | OFetch off n => nv_fetch w off n ;;; py_ret tt
  | ORead lba count => nv_read bar w l writable lba count fuel ;;; py_ret tt
  | OTimed lba total => timed bar w l writable lba total fuel ;;; py_ret tt
  | OReadGpt last => read_gpt bar w l writable last fuel ;;; py_ret tt
  | OArmWindow guid => arm_window bar w l writable guid fuel ;;; py_ret tt
  | OEnableWrites ranges => rw_only (enable_writes ranges)
  | ODisableWrites => rw_only disable_writes
  | OWrite lba data => rw_only (nv_write bar w l writable lba data fuel)
  | OFlush => rw_only (nv_flush bar w l writable fuel)
  end.

(** A program that goes on after exceptions. *)
Fixpoint run_ops (os : list nvme_op) (s : N) : N := match os with [] => s | o :: r => run_ops r (snd (run_op o s)) end.

Definition changes_ranges (o : nvme_op) : bool := match o with OEnableWrites _ | ODisableWrites => true | _ => false end.

Context (Hl : layout_fits l).

Lemma driver_init_ok e : drv_ok bar w l anything [] (e, driver_init).
Proof. by split. Qed.

Lemma safe_then {A} R (m : M N A) : safe fst (drv_ok bar w l anything R) (allowed bar w l writable R) m ->
  safe fst (drv_ok bar w l anything R) (allowed bar w l writable R) (m ;;; py_ret tt).
Proof. intros Hm. apply safe_bind; [done|intros _; sf_pure]. Qed.

Lemma sa_read_cmd R slot lba count : safe fst (drv_ok bar w l anything R) (allowed bar w l writable R) (run_op (OReadCmd slot lba count)).
Proof.
  cbn [run_op]. apply safe_pin. intros lb mt Hlb Hmt. apply sf_attr. intros s Hs. destruct (do_known _ _ _ _ _ _ Hs) as [E1 E2]. unfold slot_and_size. rewrite E1, E2.
  destruct lb as [b|].
  - destruct mt as [t|]; [|sf_pure]. destruct (_ && _) eqn:E; [|sf_pure]. rewrite !andb_true_iff, !Z.leb_le, Z.ltb_lt in E.
    apply safe_bind; [|intros _; sf_pure]. apply sf_read_cmd; [done|by apply Hmt|destruct Hl; lia|lia].
  - apply safe_bind; [|intros _; sf_pure]. unfold read_cmd. apply sf_need. intros s0 v Hs0 Hv. destruct (do_known _ _ _ _ _ _ Hs0) as [E _]. congruence.
Qed.

Lemma run_op_safe R o : changes_ranges o = false -> safe fst (drv_ok bar w l anything R) (allowed bar w l writable R) (run_op o).
Proof.
  intros Hc. destruct o; try apply sa_read_cmd; cbn [run_op]; try done; try apply safe_then; unfold rw_only;
    auto using sf_reg, sf_wait, sf_takeover, sa_identify, sf_features, sf_io_queues, sf_delete, sf_shutdown, sf_submit, sf_ring, sf_reap, sf_admin, sf_fetch, sa_read, sa_timed, sa_gpt, sa_arm.
  - apply sf_same. intros s r s' HI E. by apply (check_io_same _ _ _ _ _ _ _ _ _ _ _ _ (do_ranges _ _ _ _ _ _ HI) E).
  - destruct writable; [|sf_pure]. apply sf_same. intros s r s' _ E. by apply allow_write_spec in E as [-> _].
  - destruct writable eqn:E; [by apply sa_write|sf_pure].
  - destruct writable; [apply sf_flush|sf_pure].
Qed.

(** [enable_writes] and [disable_writes] only touch the ranges. *)
Lemma ranges_change o s r s' : changes_ranges o = true -> run_op o s = (r, s') -> exists rs, s' = (fst s, d_set_ranges rs (snd s)) /\ (rs = d_ranges (snd s) \/ writable = true).
Proof.
  intros Hc E. assert (Hs : s = (fst s, d_set_ranges (d_ranges (snd s)) (snd s))) by (by destruct s as [e []]). destruct o; try done; cbn [run_op] in E; unfold rw_only in E; destruct writable; try (injection E as _ <-; exists (d_ranges (snd s)); by split; [|left]).
  - unfold enable_writes, py_bind at 1 2 3, attr, py_get in E. destruct (d_nsze (snd s)), (d_lba_bytes (snd s)), (d_io (snd s)); try (injection E as _ <-; exists (d_ranges (snd s)); by split; [|left]).
    destruct (_ || _); [injection E as _ <-; exists (d_ranges (snd s)); by split; [|left]|]. unfold py_bind, py_lift in E.
    destruct (check_ranges _ _); [|injection E as _ <-; exists (d_ranges (snd s)); by split; [|left]].
    destruct (_ || _); [injection E as _ <-; exists (d_ranges (snd s)); by split; [|left]|]. injection E as _ <-. eexists. split; [done|by right].
  - injection E as _ <-. eexists. split; [done|by right].
Qed.

Lemma run_op_ok R o s r s' : drv_ok bar w l anything R s -> run_op o s = (r, s') ->
  drv_ok bar w l anything (d_ranges (snd s')) s' /\ (writable = false -> d_ranges (snd s') = R) /\ (changes_ranges o = false -> d_ranges (snd s') = R) /\
  exists new, ev_log (fst s') = new ++ ev_log (fst s) /\ Forall (allowed bar w l writable R) new /\ (changes_ranges o = true -> new = []).
Proof.
  intros Hs E. destruct (changes_ranges o) eqn:Hc.
  - destruct (ranges_change o s r s' Hc E) as (rs & -> & Hr). destruct Hs as [H1 H2 H3 H4 H5 H6 H7]. split; [by split|]. split; [|split; [done|by exists []]].
    cbn. destruct Hr as [->|]; congruence.
  - destruct (run_op_safe R o Hc s r s' Hs E) as (Hs' & new & Hn & Hf). rewrite (do_ranges _ _ _ _ _ _ Hs'). split; [done|]. split; [done|]. split; [done|]. by exists new.
Qed.

Lemma run_ops_ok os s : drv_ok bar w l anything (d_ranges (snd s)) s -> drv_ok bar w l anything (d_ranges (snd (run_ops os s))) (run_ops os s).
Proof.
  revert s. induction os as [|o os IH]; intros s Hs; cbn [run_ops]; [done|]. apply IH. destruct (run_op o s) as [r s'] eqn:E. by apply (run_op_ok _ _ _ _ _ Hs E).
Qed.
End programs.

(** C5: the NVMe driver of nvme_m3.py is read-only: whatever the target answers and
    whatever methods a program calls on it, the private ones and failed ones too
    ([_read_cmd] only with what [read] and [timed] pass to it, a slot of the layout
    and at most one transfer: it checks neither, and beyond them its PRP list
    leaves the pages set aside for it, [read_cmd_unchecked]), everything it does to
    the target is a read, a write of one of the registers CC, AQA, ASQ, ACQ and the doorbells, the zeroing of the DMA window, a PRP list
    inside the window, or a command of the allow-lists placed in a slot of its
    queue: on the I/O queue only Read, on the admin queue never a format,
    firmware, namespace or security command, and Set Features only for the number
    of queues and without Save. *)
Theorem nvme_read_only (bar w : Z) (l : layout) (fuel : nat) (os : list nvme_op) (e : env) : layout_fits l ->
  let s' := run_ops bar w l false fuel os (e, driver_init) in
  exists new, ev_log (fst s') = new ++ ev_log e /\ Forall (allowed bar w l false []) new.
Proof.
  intros Hl. cbv zeta. assert (Hs : drv_ok bar w l anything [] (e, driver_init)) by apply driver_init_ok.
  change e with (fst (e, driver_init)) at 2. revert Hs. generalize (e, driver_init). induction os as [|o os IH]; intros s Hs; cbn [run_ops]; [by exists []|].
  destruct (run_op bar w l false fuel o s) as [r s1] eqn:E. destruct (run_op_ok bar w l false fuel Hl [] o s r s1 Hs E) as (Hs1 & HR & _ & n1 & L1 & F1 & _).
  rewrite (HR eq_refl) in Hs1. destruct (IH s1 Hs1) as (n2 & L2 & F2). exists (n2 ++ n1). cbn [snd]. rewrite L2, L1, app_assoc. split; [done|by apply Forall_app].
Qed.

(** C6: the driver of nvme_rw.py writes only where it was told to: after any program,
    one more method call on any target puts a Write into the I/O queue only when
    its blocks lie inside one of the ranges enabled at that moment and it is
    durable on completion, and a Flush only while some range is enabled; whatever
    else it does is allowed as in the read-only driver, with payloads inside the
    data area of the window.  Only the methods that enable and disable writes
    change the ranges, and these do nothing to the target. *)
Theorem nvme_writes_confined (bar w : Z) (l : layout) (fuel : nat) (os : list nvme_op) (o : nvme_op) (e : env) : layout_fits l ->
  let s := run_ops bar w l true fuel os (e, driver_init) in
  let s' := snd (run_op bar w l true fuel o s) in
  exists new, ev_log (fst s') = new ++ ev_log (fst s) /\ Forall (allowed bar w l true (d_ranges (snd s))) new /\
    (if changes_ranges o then new = [] else d_ranges (snd s') = d_ranges (snd s)).
Proof.
  intros Hl. cbv zeta. assert (Hs := run_ops_ok bar w l true fuel Hl os (e, driver_init) (driver_init_ok bar w l e)). set (s := run_ops _ _ _ _ _ _ _) in *.
  destruct (run_op bar w l true fuel o s) as [r s'] eqn:E. destruct (run_op_ok bar w l true fuel Hl _ o s r s' Hs E) as (_ & _ & HR & new & L & F & Hc).
  exists new. split; [done|]. split; [done|]. destruct (changes_ranges o); auto.
Qed.

(** ** Enabling writes *)

Definition apart (a b : Z * Z) : Prop := snd a <= fst b \/ snd b <= fst a.
Definition range_of (p : Z * Z) : Z * Z := (fst p, fst p + snd p).
Definition before (a b : Z * Z) : Prop := snd a <= fst b.

Lemma pairwise_perm (a b : list (Z * Z)) : a ≡ₚ b -> ForallOrdPairs apart a -> ForallOrdPairs apart b.
Proof.
  induction 1 as [|x a b Hp IH|x y a|a b c _ IH1 _ IH2]; intros H; [done| | |by auto].
  - inversion_clear H as [|? ? Hx Ha]. constructor; [by rewrite <- Hp|by apply IH].
  - inversion_clear H as [|? ? Hx Ha]. inversion_clear Ha as [|? ? Hy Hr]. apply Forall_cons in Hx as [Hxy Hx].
    constructor; [constructor; [unfold apart in *; tauto|done]|by constructor].
Qed.

Lemma before_apart rs : StronglySorted before rs -> ForallOrdPairs apart rs.
Proof. induction 1 as [|x rs Hs IH Hf]; constructor; [|done]. eapply Forall_impl; [exact Hf|]. intros y Hy. by left. Qed.

(** The adjacent test finds every overlap of a sorted list of nonempty ranges. *)
Lemma some_overlap_sorted rs : Forall (fun p => fst p < snd p) rs -> some_overlap rs = false -> StronglySorted before rs.
Proof.
  induction rs as [|[a b] rs IH]; intros Hf Ho; [constructor|]. apply Forall_cons in Hf as [Hab Hf]. destruct rs as [|[c d] rs]; [by repeat constructor|].
  change ((c <? b) || some_overlap ((c, d) :: rs) = false) in Ho. apply orb_false_iff in Ho as [Hbc%Z.ltb_ge Ho]. specialize (IH Hf Ho). constructor; [done|].
  constructor; [exact Hbc|]. apply Forall_cons in Hf as [Hcd _]. inversion_clear IH as [|? ? _ Hd]. eapply Forall_impl; [exact Hd|].
  intros [x y] Hx. unfold before in *. cbn [fst snd] in *. lia.
Qed.

Lemma apart_no_overlap rs : Forall (fun p => fst p < snd p) rs -> StronglySorted pair_le rs -> ForallOrdPairs apart rs -> some_overlap rs = false.
Proof.
  induction rs as [|[a b] rs IH]; intros Hf Hs Ha; [done|]. destruct rs as [|[c d] rs]; [done|]. change (some_overlap ((a, b) :: (c, d) :: rs)) with ((c <? b) || some_overlap ((c, d) :: rs)).
  apply Forall_cons in Hf as [Hab Hf]. inversion_clear Hs as [|? ? Hs' Hle]. inversion_clear Ha as [|? ? Hap Ha']. rewrite IH by done. rewrite orb_false_r.
  apply Forall_cons in Hle as [Hle _], Hap as [Hap _], Hf as [Hcd _]. apply Z.ltb_ge. unfold apart, pair_le in *. cbn [fst snd] in *. lia.
Qed.

Definition valid_range (nsze : Z) (p : Z * Z) : Prop := 0 <= fst p /\ 0 < snd p /\ fst p + snd p <= nsze.

Lemma check_ranges_exact nsze rs : match check_ranges nsze rs with Ok c => Forall (valid_range nsze) rs /\ c = map range_of rs | Raise _ => ~ Forall (valid_range nsze) rs end.
Proof.
  induction rs as [|[f c] rs IH]; cbn [check_ranges map]; [by split|]. destruct (_ || _) eqn:E.
  - intros [[H1 [H2 H3]] _]%Forall_cons. cbn [fst snd] in *. rewrite !orb_true_iff, Z.ltb_lt, Z.leb_le, Z.ltb_lt in E. lia.
  - rewrite !orb_false_iff, Z.ltb_ge, Z.leb_gt, Z.ltb_ge in E. destruct (check_ranges nsze rs) as [t|x]; cbn.
    + destruct IH as [IH ->]. split; [|done]. constructor; [|done]. unfold valid_range. cbn. lia.
    + intros [_ H]%Forall_cons. by apply IH.
Qed.

(** C37: enabling writes: once the namespace is identified and the I/O queues exist,
    the request is accepted exactly when it is not empty, every range is nonempty
    and inside the namespace, and no two ranges share a block; the enabled ranges
    are then exactly the requested ones, in order and disjoint.  A refused request
    leaves the driver as it was. *)
Theorem enable_writes_exact (ranges : list (Z * Z)) (s : env * driver) (nsze b : Z) (q : queue) :
  d_nsze (snd s) = Some nsze -> d_lba_bytes (snd s) = Some b -> d_io (snd s) = Some q -> nsze <> 0 -> b <> 0 ->
  let '(r, s') := enable_writes ranges s in
  (r = Ok tt <-> ranges <> [] /\ Forall (valid_range nsze) ranges /\ ForallOrdPairs apart (map range_of ranges)) /\
  (r = Ok tt -> d_ranges (snd s') ≡ₚ map range_of ranges /\ StronglySorted before (d_ranges (snd s'))) /\
  (r <> Ok tt -> s' = s).
Proof.
  intros Hn Hb Hq Hn0 Hb0. unfold enable_writes, py_bind at 1 2 3, attr, py_get. rewrite Hn, Hb, Hq. cbv beta iota.
  rewrite (proj2 (Z.eqb_neq nsze 0)), (proj2 (Z.eqb_neq b 0)) by done. cbn [orb]. unfold py_bind, py_lift.
  pose proof (check_ranges_exact nsze ranges) as Hc. destruct (check_ranges nsze ranges) as [c|x].
  2:{ split; [|done]. split; [done|]. by intros (_ & ? & _). }
  destruct Hc as [Hv ->]. pose proof (merge_sort_Permutation pair_le (map range_of ranges)) as Hp. set (cs := merge_sort _ _) in *.
  assert (Hf : Forall (fun p => fst p < snd p) cs).
  { rewrite Hp, Forall_map. eapply Forall_impl; [exact Hv|]. intros [x y] (_ & Hy & _). cbn in *. lia. }
  assert (He : cs = [] <-> ranges = []).
  { split; intros E; [|by rewrite E in Hp; apply Permutation_nil_r in Hp]. rewrite E in Hp. apply Permutation_nil_l in Hp. by destruct ranges. }
  destruct (bool_decide (cs = [])) eqn:Ee; cbn [orb].
  { apply bool_decide_eq_true_1 in Ee. split; [|done]. split; [done|]. intros (H & _). exfalso. by apply H, He. }
  apply bool_decide_eq_false_1 in Ee. destruct (some_overlap cs) eqn:Eo.
  - split; [|done]. split; [done|]. intros (_ & _ & Ha). exfalso. rewrite apart_no_overlap in Eo; [done|done| |by apply (pairwise_perm _ _ (symmetry Hp))].
    apply StronglySorted_merge_sort; apply _.
  - pose proof (some_overlap_sorted cs Hf Eo) as Hs. split; [|split; [|done]].
    + split; [|done]. intros _. split; [by intros E; apply Ee, He|]. split; [done|]. by apply (pairwise_perm _ _ Hp), before_apart.
    + intros _. cbn. by split.
Qed.

(** A target that answers every read with the same words. *)
Definition quiet : env := {| ev_log := []; ev_word := fun _ => Ok 0x3800000FF; ev_data := fun _ => Ok (replicate 4096 x00) |}.
Definition stubborn : list nvme_op :=
  [OTakeover; OSubmit Adm 0x10 0 0 0 []; OSubmit Adm 0x06 0 0x4000 0 [1]; ORing Adm; OIoQueues; OReadCmd 0 5 2; OWrite 0 (replicate 4096 x00); OShutdown].
(** A driver whose namespace is identified. *)
Definition ready_driver : driver :=
  {| d_lba_bytes := Some 4096; d_nsze := Some 1000; d_max_transfer := Some 16384; d_stride := Some 0; d_timeout := Some 500;
     d_admin := None; d_io := Some (queue_init 1 (0x80000000 + ly_iosq) (0x80000000 + ly_iocq) IO_ENTRIES 0 0x7c000000); d_ranges := [] |}.

(** [_read_cmd] itself bounds neither slot nor count: given slot 8 it writes its
    PRP list past the eight pages set aside for the lists. *)
Example read_cmd_unchecked : ~ Forall (allowed 0x7c000000 0x80000000 M3_LAYOUT false [])
  (ev_log (fst (snd (read_cmd 0x80000000 M3_LAYOUT false 8 0 3 (quiet, ready_driver))))).
Proof.
  assert (El : exists x d log, ev_log (fst (snd (read_cmd 0x80000000 M3_LAYOUT false 8 0 3 (quiet, ready_driver)))) = log ++ [AWriteMem 0x80010000 (x :: d)]) by
    (eexists _, _, [_; _; _; _]; vm_compute; reflexivity).
  destruct El as (x & d & log & ->). intros [_ [Hw _]%Forall_cons]%Forall_app. destruct Hw as [((t & Ht & E) & _)|[((t & Ht & E) & _)|[H|H]]].
  - unfold ADMIN_ENTRIES, ly_asq in *. lia.
  - unfold IO_ENTRIES, ly_iosq in *. lia.
  - change (0x80000000 + ly_prp + 8 * PAGE) with 0x80010000 in H. unfold zlen in H. cbn [length] in H. lia.
  - by destruct H.
Qed.

Lemma nvme_read_only_witness : layout_fits M3_LAYOUT /\
  exists new, ev_log (fst (run_ops 0x7c000000 0x80000000 M3_LAYOUT false 3 stubborn (quiet, driver_init))) = new ++ [] /\
    Forall (allowed 0x7c000000 0x80000000 M3_LAYOUT false []) new.
Proof. split; [exact m3_layout_fits|exact (nvme_read_only 0x7c000000 0x80000000 M3_LAYOUT 3 stubborn quiet m3_layout_fits)]. Defined.

Lemma nvme_writes_confined_witness : layout_fits ADOPT_LAYOUT /\
  let s := run_ops 0x7c000000 0x80000000 ADOPT_LAYOUT true 3 [OEnableWrites [(5, 2)]] (quiet, driver_init) in
  let s' := snd (run_op 0x7c000000 0x80000000 ADOPT_LAYOUT true 3 (OWrite 5 (replicate 4096 x00)) s) in
  exists new, ev_log (fst s') = new ++ ev_log (fst s) /\ Forall (allowed 0x7c000000 0x80000000 ADOPT_LAYOUT true (d_ranges (snd s))) new /\
    d_ranges (snd s') = d_ranges (snd s).
Proof.
  split; [exact adopt_layout_fits|].
  exact (nvme_writes_confined 0x7c000000 0x80000000 ADOPT_LAYOUT 3 [OEnableWrites [(5, 2)]] (OWrite 5 (replicate 4096 x00)) quiet adopt_layout_fits).
Defined.

Lemma enable_writes_exact_witness : d_nsze ready_driver = Some 1000 /\
  d_ranges (snd (snd (enable_writes [(20, 5); (3, 2)] (quiet, ready_driver)))) ≡ₚ [(20, 25); (3, 5)].
Proof.
  split; [reflexivity|].
  destruct (enable_writes_exact [(20, 5); (3, 2)] (quiet, ready_driver) 1000 4096 _ eq_refl eq_refl eq_refl ltac:(lia) ltac:(lia)) as (_ & H & _).
  destruct (H eq_refl) as [Hp _]. exact Hp.
Defined.
