(* ===== verification/NvmeWrite.v ===== *)
(** * What a successful NVMe write puts on the disk

    The log of an arbitrary target is replayed the way the controller executes it:
    host writes fill memory, and a Write entry in the I/O queue makes the
    controller fetch the pages its PRP entries name.  [nvme_write_exact]: a write
    that returns has submitted commands whose fetched data is the payload, block
    after block. *)

From Stdlib Require Import ZArith Lia.
From Stdlib Require Import Strings.Byte.
From stdpp Require Import base list sorting numbers strings gmap sets.
From S2P Require Import Prelude Bytes GptSurvey Target Preload Nvme NvmeSafe.

Local Open Scope list_scope.
Local Open Scope Z_scope.
Local Open Scope py_scope.

(** ** The controller's side *)

Definition entry_prp1 (d : bytes) : Z := le_Z (slice 24 32 d).
Definition entry_prp2 (d : bytes) : Z := le_Z (slice 32 40 d).

(** The pages of a transfer of [n] bytes: the first from PRP1, the second from PRP2,
    or all but the first from the list at PRP2. *)
Definition prp_pages (mem : Z -> byte) (d : bytes) (n : Z) : list Z :=
  let pages := (n + PAGE - 1) / PAGE in
  entry_prp1 d ::
    if pages =? 2 then [entry_prp2 d]
    else map (fun i => le_Z (mem_read mem (entry_prp2 d + 8 * Z.of_nat i) 8)) (seq 0 (Z.to_nat (pages - 1))).
Definition prp_fetch (mem : Z -> byte) (d : bytes) (n : Z) : bytes :=
  take (Z.to_nat n) (concat (map (fun p => mem_read mem p (Z.to_nat PAGE)) (prp_pages mem d n))).

Section replay.
  (** The submission queue, and the block size. *)
  Context (sq b : Z).

Definition in_sq (a : Z) : bool := (sq <=? a) && (a <? sq + IO_ENTRIES * 64).
Definition play (st : (Z -> byte) * list (Z * bytes)) (x : action) : (Z -> byte) * list (Z * bytes) :=
  match x with
  | AWriteMem a d =>
      let mem := mem_store a d (fst st) in
      (mem, if in_sq a && (entry_op d =? 0x01) then snd st ++ [(entry_lba d, prp_fetch mem d (entry_blocks d * b))] else snd st)
  | _ => st
  end.
(** The writes a log (oldest first) makes the controller do. *)
Definition replay (log : list action) (mem : Z -> byte) : (Z -> byte) * list (Z * bytes) := fold_left play log (mem, []).

Lemma play_out log mem out : fold_left play log (mem, out) = (fst (replay log mem), out ++ snd (replay log mem)).
Proof.
  unfold replay. revert mem out. induction log as [|x log IH]; intros mem out; cbn [fold_left]; [by rewrite app_nil_r|].
  destruct x as [| | | |a d| | | |]; cbn [play]; try apply IH. cbn [fst snd app]. destruct (_ && _); [|apply IH].
  rewrite IH, (IH _ [_]). cbn [fst snd app]. by rewrite <- app_assoc.
Qed.

Lemma replay_app l1 l2 mem : replay (l1 ++ l2) mem = (fst (replay l2 (fst (replay l1 mem))), snd (replay l1 mem) ++ snd (replay l2 (fst (replay l1 mem)))).
Proof.
  unfold replay at 1. rewrite fold_left_app. change (fold_left play l1 (mem, [])) with (replay l1 mem). destruct (replay l1 mem) as [m1 o1]. apply play_out.
Qed.

Definition silent (x : action) : Prop := match x with AWriteMem _ _ => False | _ => True end.
Lemma replay_silent log mem : Forall silent log -> replay log mem = (mem, []).
Proof. unfold replay. induction 1 as [|x log Hx _ IH]; [done|]. destruct x; done || exact IH. Qed.
End replay.

(** ** Fetching a payload *)

Lemma mem_read_app s a m n : mem_read s a (m + n) = mem_read s a m ++ mem_read s (a + Z.of_nat m) n.
Proof.
  unfold mem_read. rewrite seq_app, map_app. f_equal. replace (seq (0 + m) n) with (map (Nat.add m) (seq 0 n)) by (etransitivity; [apply fmap_add_seq|f_equal; lia]).
  rewrite map_map. apply map_ext. intros i. f_equal. lia.
Qed.

Lemma take_mem_read s a m n : (m <= n)%nat -> take m (mem_read s a n) = mem_read s a m.
Proof. intros H. replace n with (m + (n - m))%nat by lia. rewrite mem_read_app. by rewrite take_app_length' by (by rewrite length_mem_read). Qed.

(** Consecutive pages are one stretch of memory. *)
Lemma read_pages s a k n : concat (map (fun p => mem_read s p n) (map (fun i => a + Z.of_nat n * Z.of_nat i) (seq 0 k))) = mem_read s a (k * n).
Proof.
  induction k as [|k IH]; [done|]. rewrite seq_S, !map_app, concat_app, IH. cbn [map concat]. rewrite app_nil_r.
  replace (Datatypes.S k * n)%nat with (k * n + n)%nat by lia. rewrite mem_read_app. do 2 f_equal. lia.
Qed.

(** Entry [i] of a packed list of pages in memory. *)
Lemma read_packed mem a ws i z : mem_read mem a (length ws * 8) = concat (map (le_bytes 8) ws) -> ws !! i = Some z -> 0 <= z < 2 ^ 64 ->
  le_Z (mem_read mem (a + 8 * Z.of_nat i) 8) = z.
Proof.
  intros Hm Hi Hz. pose proof (piece_field 8 [] [] ws i z Hi Hz) as Hf. rewrite app_nil_r in Hf. cbn [length app] in Hf. rewrite <- Hm in Hf. rewrite <- Hf.
  pose proof (lookup_lt_Some _ _ _ Hi) as Hlt. f_equal. unfold slice. replace (length ws * 8)%nat with (0 + i * 8 + (8 + (length ws - i - 1) * 8))%nat by lia.
  rewrite mem_read_app, drop_app_length' by (rewrite length_mem_read; lia). rewrite take_mem_read by lia. f_equal; lia.
Qed.

(** The PRP entries [set_prp] prepares name the pages of the payload. *)
Definition prp_ready (mem : Z -> byte) (data pages lst p2 : Z) : Prop :=
  if pages =? 2 then p2 = data + PAGE else if 2 <? pages then
    p2 = lst /\ Forall (fun z => 0 <= z < 2 ^ 64) (prp_list data pages) /\
    mem_read mem lst (length (prp_list data pages) * 8) = concat (map (le_bytes 8) (prp_list data pages)) else True.

Lemma prp_pages_ready mem d lst n : 0 < n -> prp_ready mem (entry_prp1 d) ((n + PAGE - 1) / PAGE) lst (entry_prp2 d) ->
  prp_pages mem d n = map (fun i => entry_prp1 d + PAGE * Z.of_nat i) (seq 0 (Z.to_nat ((n + PAGE - 1) / PAGE))).
Proof.
  intros Hn. unfold prp_pages, prp_ready. set (pages := _ / PAGE). assert (Hp : 1 <= pages).
  { apply Z.div_le_lower_bound; unfold PAGE; lia. }
  destruct (Z.eqb_spec pages 2) as [->|H2].
  { intros ->. change (Z.to_nat 2) with 2%nat. cbn [seq map]. apply (f_equal2 cons); [lia|done]. }
  replace (Z.to_nat pages) with (Datatypes.S (Z.to_nat (pages - 1))) by lia. cbn [seq map]. intros H. apply (f_equal2 cons); [lia|].
  destruct (Z.ltb_spec 2 pages) as [Hlt|Hge]; [|by replace (Z.to_nat (pages - 1)) with 0%nat by lia].
  destruct H as (-> & Hr & Hm). rewrite <- seq_shift, map_map. apply map_ext_in. intros i Hi%in_seq.
  assert (Hl : prp_list (entry_prp1 d) pages !! i = Some (entry_prp1 d + PAGE * Z.of_nat (Datatypes.S i))).
  { unfold prp_list. rewrite list_lookup_fmap, lookup_seq_lt by lia. done. }
  apply (read_packed mem lst _ i _ Hm Hl). rewrite Forall_forall in Hr. apply Hr, list_elem_of_lookup. eauto.
Qed.

Lemma prp_fetch_ready mem d lst n : 0 < n -> prp_ready mem (entry_prp1 d) ((n + PAGE - 1) / PAGE) lst (entry_prp2 d) ->
  prp_fetch mem d n = mem_read mem (entry_prp1 d) (Z.to_nat n).
Proof.
  intros Hn Hr. unfold prp_fetch. rewrite (prp_pages_ready mem d lst n Hn Hr).
  change (fun i => entry_prp1 d + PAGE * Z.of_nat i) with (fun i => entry_prp1 d + Z.of_nat (Z.to_nat PAGE) * Z.of_nat i). rewrite read_pages.
  apply take_mem_read. assert (H1 := Z.div_mod (n + PAGE - 1) PAGE ltac:(done)). assert (H2 := Z.mod_pos_bound (n + PAGE - 1) PAGE ltac:(done)). unfold PAGE in *. lia.
Qed.

(** ** The log of a write *)

Section writes.
  Context (bar w : Z) (l : layout) (R : list (Z * Z)) (Hl : layout_fits l) (b t : Z).
  Abbreviation N := (env * driver)%type.
  Abbreviation ok := (drv_ok bar w l (pinned (Some b) (Some t)) R).

(** [L], oldest first, is what happened between two states. *)
Definition trace (s s' : N) (L : list action) : Prop := ev_log (fst s') = rev L ++ ev_log (fst s).

Lemma trace_app s s1 s2 L1 L2 : trace s s1 L1 -> trace s1 s2 L2 -> trace s s2 (L1 ++ L2).
Proof. unfold trace. intros H1 H2. by rewrite H2, H1, rev_app_distr, app_assoc. Qed.

Lemma on_hw_log {A} (m : M env A) x s r s' : (forall e r e', m e = (r, e') -> e' = ev_push x e) -> on_hw m s = (r, s') -> trace s s' [x] /\ snd s' = snd s.
Proof. intros Hm. unfold on_hw. destruct (m (fst s)) as [r1 e] eqn:E. intros [= <- <-]. by rewrite (Hm _ _ _ E). Qed.

Lemma hw_write_log a d (s : N) r s' : hw_write a d s = (r, s') -> trace s s' [AWriteMem a d] /\ snd s' = snd s.
Proof. apply on_hw_log. intros e r0 e'. apply tell_log. Qed.
Lemma civac_log a n (s : N) r s' : civac a n s = (r, s') -> trace s s' [ARequest P_DC_CIVAC [a; n]] /\ snd s' = snd s.
Proof. apply on_hw_log. intros e r0 e'. apply tell_log. Qed.
Lemma now_log (s : N) r s' : monotonic s = (r, s') -> trace s s' [ANow] /\ snd s' = snd s.
Proof. apply on_hw_log. intros e r0 e'. apply ask_log. Qed.
Lemma w32_log a v (s : N) r s' : hw_w32 a v s = (r, s') -> trace s s' [AWrite32 a v] /\ snd s' = snd s.
Proof. apply on_hw_log. intros e r0 e'. apply tell_log. Qed.

Abbreviation noisy := (safe (@fst env driver) (fun _ => True) silent).

Lemma quiet_on {A} (m : M env A) x : (forall e r e', m e = (r, e') -> e' = ev_push x e) -> silent x -> noisy (on_hw m).
Proof. intros Hm Hx s r s' _ E. split; [done|]. destruct (on_hw_log m x s r s' Hm E) as [Ht _]. exists [x]. by split; [|constructor]. Qed.

Lemma quiet_queue r : noisy (get_queue r).
Proof. destruct r; unfold get_queue, need, attr; (apply safe_get; intros s _; destruct (_ s.2); sf_pure). Qed.
Lemma quiet_put r q : noisy (put_queue r q).
Proof. destruct r; apply safe_modify; by intros. Qed.

Ltac quiet_base := first
  [ sf_pure | apply quiet_queue | apply quiet_put
  | apply (quiet_on _ ANow); [intros ? ? ?; apply ask_log|done]
  | eapply quiet_on; [intros ? ? ?; first [apply tell_log | apply ask_log | apply ask_data_log]|done] ].

Lemma quiet_stable n a e : noisy (stable_entry n a e).
Proof. revert e. induction n as [|n IH]; intros e; cbn [stable_entry]; repeat (apply safe_bind; [quiet_base|intros ?]); [quiet_base|]. destruct (bytes_eqb _ _); [quiet_base|apply IH]. Qed.

Lemma quiet_reap r cids ms fuel : noisy (reap bar r cids ms fuel).
Proof.
  apply safe_bind; [quiet_base|intros now]. apply safe_bind; [|intros dn; quiet_base]. generalize (now + ms), (@nil (Z * (Z * Z * Z))).
  induction fuel as [|k IH]; intros deadline dn; cbn [reap_loop]; [quiet_base|]. destruct (all_done _ _); [quiet_base|].
  apply safe_bind; [quiet_base|intros q]. cbv zeta. do 3 (apply safe_bind; [quiet_base|intros ?]). apply safe_bind; [destruct (_ =? _); [apply quiet_stable|quiet_base]|intros e].
  destruct (negb _); [quiet_base|]. do 3 (apply safe_bind; [quiet_base|intros ?]). destruct (negb _).
  - apply safe_bind; [quiet_base|intros nw]. destruct (_ <? _); [|apply IH]. apply safe_bind; [unfold reg, hw_r32; quiet_base|intros; quiet_base].
  - do 2 (apply safe_bind; [quiet_base|intros _]). apply IH.
Qed.

Lemma quiet_trace {A} (m : M N A) s r s' : noisy m -> m s = (r, s') -> exists L, trace s s' L /\ Forall silent L.
Proof.
  intros Hm E. destruct (Hm s r s' Logic.I E) as (_ & new & Hn & Hf). exists (rev new). split; [unfold trace; by rewrite rev_involutive|].
  by apply Forall_rev.
Qed.

Lemma get_io (s : N) q s' : get_queue Io s = (Ok q, s') -> s' = s /\ d_io (snd s) = Some q.
Proof. unfold get_queue, need, py_bind, attr, py_get. destruct (d_io (snd s)); by intros [= <- <-]. Qed.

Lemma pack_Qs_range ws d : pack_Qs ws = Ok d -> Forall (fun z => 0 <= z < 2 ^ 64) ws.
Proof.
  revert d. induction ws as [|z ws IH]; intros d E; cbn [pack_Qs] in E; [done|]. apply bind_inv in E as (a & Ea & E). apply bind_inv in E as (c & Ec & _).
  apply pack_u_inv in Ea as [Hz _]. constructor; [exact Hz|by apply (IH c)].
Qed.

Lemma sq_entry_prps opcode cid nsid prp1 prp2 cdw d : sq_entry opcode cid nsid prp1 prp2 cdw = Ok d -> entry_prp1 d = prp1 /\ entry_prp2 d = prp2.
Proof.
  unfold sq_entry. destruct (negb _); [done|]. intros E. apply bind_inv in E as (a & Ea & E). apply bind_inv in E as (q & Eq & E). apply bind_inv in E as (c & _ & [= <-]).
  apply pack_Is_inv in Ea as [_ Ea]. pose proof (pack_Qs_range _ _ Eq) as Hr. apply pack_Qs_inv in Eq. assert (Hla : length a = 8%nat) by (by rewrite Ea, length_pieces).
  rewrite !Forall_cons in Hr. destruct Hr as (_ & _ & H1 & H2 & _). unfold entry_prp1, entry_prp2.
  pose proof (piece_field 8 a c [0; 0; prp1; prp2] 2 prp1 eq_refl H1) as F1. pose proof (piece_field 8 a c [0; 0; prp1; prp2] 3 prp2 eq_refl H2) as F2.
  rewrite <- Eq, Hla in F1, F2. by split.
Qed.

(** A submission is one entry in a slot of the I/O queue. *)
Lemma submit_log opcode nsid p1 p2 cdw (s : N) cid s' : ok s -> submit w l true Io opcode nsid p1 p2 cdw s = (Ok cid, s') ->
  exists a c d, trace s s' [AWriteMem a d; ARequest P_DC_CIVAC [a; 64]; ANow] /\ sq_entry opcode c nsid p1 p2 cdw = Ok d /\ in_sq (w + ly_iosq) a = true.
Proof.
  intros Hs E. unfold submit in E. apply py_bind_inv in E as (q & s1 & [-> Hq]%get_io & E).
  apply py_bind_inv in E as (u & s1 & Ec & E). eapply check_command_spec in Ec as [-> _]; [|exact (do_ranges _ _ _ _ _ _ Hs)].
  destruct (_ <=? _); [done|]. cbv zeta in E. apply py_bind_inv in E as (u1 & s1 & [= <- <-] & E).
  apply py_bind_inv in E as (d & s1 & Ed & E). unfold py_lift in Ed. injection Ed as Ed <-.
  apply py_bind_inv in E as (q1 & s2 & [-> Hq1]%get_io & E). cbn in Hq1. injection Hq1 as <-.
  apply py_bind_inv in E as (u2 & s2 & [T1 _]%hw_write_log & E). apply py_bind_inv in E as (u3 & s3 & [T2 _]%civac_log & E).
  apply py_bind_inv in E as (u4 & s4 & [= <- <-] & E). apply py_bind_inv in E as (u5 & s5 & [T3 _]%now_log & E).
  apply py_bind_inv in E as (q2 & s6 & [-> _]%get_io & E). apply py_bind_inv in E as (u6 & s6 & [= <- <-] & [= <- <-]).
  destruct (do_io _ _ _ _ _ _ Hs q Hq) as [Q1 Q2 Q3 Q4 Q5 Q6]. eexists _, _, d. split; [|split; [exact Ed|]].
  - change [?x; ?y; ?z] with ([x] ++ [y] ++ [z]). exact (trace_app _ _ _ _ _ T1 (trace_app _ _ _ _ _ T2 T3)).
  - unfold in_sq. cbn [q_sq q_tail q_set_next]. rewrite Q2. apply andb_true_iff. rewrite Z.leb_le, Z.ltb_lt. lia.
Qed.

Lemma in_sq_above a : w + ly_prp <= a -> in_sq (w + ly_iosq) a = false.
Proof. intros H. unfold in_sq, ly_prp, ly_iosq, IO_ENTRIES in *. apply andb_false_iff. right. apply Z.ltb_ge. lia. Qed.

(** The PRP list is in memory, and nothing was submitted. *)
Lemma set_prp_log data pages (s : N) p2 s' : set_prp data pages (w + ly_prp) s = (Ok p2, s') ->
  exists L, trace s s' L /\ snd s' = snd s /\ forall mem, snd (replay (w + ly_iosq) b L mem) = [] /\ prp_ready (fst (replay (w + ly_iosq) b L mem)) data pages (w + ly_prp) p2.
Proof.
  unfold set_prp, prp_ready. destruct (Z.eqb_spec pages 2) as [Hp|Hp]; [intros [= <- <-]; by exists []|].
  destruct (Z.ltb_spec 2 pages) as [Hlt|Hge]; [|intros [= <- <-]; by exists []]. intros E.
  apply py_bind_inv in E as (d & s1 & Ed & E). unfold py_lift in Ed. injection Ed as Ed <-.
  apply py_bind_inv in E as (u & s1 & [T1 S1]%hw_write_log & E). apply py_bind_inv in E as (u1 & s2 & [T2 S2]%civac_log & [= <- <-]).
  eexists. split; [exact (trace_app _ _ _ _ _ T1 T2)|]. split; [congruence|]. intros mem. unfold replay. cbn [app fold_left play fst snd]. rewrite in_sq_above by lia. cbn [andb].
  split; [done|]. split; [done|]. pose proof (pack_Qs_range _ _ Ed) as Hr. apply pack_Qs_inv in Ed. split; [done|].
  rewrite <- Ed, <- length_pieces, <- Ed. apply mem_read_store.
Qed.

Lemma prp_ready_store mem a d data pages lst p2 : (2 < pages -> a + zlen d <= lst \/ lst + 8 * (pages - 1) <= a) ->
  prp_ready mem data pages lst p2 -> prp_ready (mem_store a d mem) data pages lst p2.
Proof.
  intros Ha. unfold prp_ready. destruct (pages =? 2); [done|]. destruct (Z.ltb_spec 2 pages) as [Hlt|]; [|done]. intros (H1 & H2 & H3). split; [done|]. split; [done|].
  rewrite mem_read_store_apart; [done|]. specialize (Ha Hlt). pose proof (length_prp_list data pages ltac:(lia)). lia.
Qed.

Lemma entry_lba_split lba d : entry_cdw d 0 = Z.land lba 0xffffffff -> entry_cdw d 1 = Z.shiftr lba 32 -> entry_lba d = lba.
Proof.
  intros E0 E1. unfold entry_lba. rewrite E0, E1. change 0xffffffff with (Z.ones 32). rewrite Z.land_ones, Z.shiftr_div_pow2 by lia.
  pose proof (Z.div_mod lba (2 ^ 32) ltac:(lia)). lia.
Qed.

Lemma entry_blocks_count count d : 0 < count <= 65536 -> entry_cdw d 2 = Z.lor (count - 1) (Z.shiftl 1 30) -> entry_blocks d = count.
Proof.
  intros Hc E. unfold entry_blocks. rewrite E. replace (Z.shiftl 1 30) with (Z.shiftl 0x4000 16) by done. rewrite lor_low16 by lia. lia.
Qed.

Context (Hb : 0 < b) (Ht : t <= ly_chunk l).

(** The memory a submitted chunk is fetched from. *)
Lemma fetch_chunk mem a d chunk p2 : chunk <> [] -> zlen chunk <= t -> length d = 64%nat -> in_sq (w + ly_iosq) a = true -> entry_prp1 d = w + ly_data l -> entry_prp2 d = p2 ->
  prp_ready mem (w + ly_data l) ((zlen chunk + PAGE - 1) / PAGE) (w + ly_prp) p2 ->
  prp_fetch (mem_store a d (mem_store (w + ly_data l) chunk mem)) d (zlen chunk) = chunk.
Proof.
  intros Hne Hc Hd Ha E1 E2 Hr. destruct Hl as [L1 L2 L3 L4 L5]. assert (Hp : (zlen chunk + PAGE - 1) / PAGE <= 512) by (apply (pages_bound l Hl); lia).
  unfold in_sq in Ha. apply andb_true_iff in Ha as [Ha1%Z.leb_le Ha2%Z.ltb_lt]. unfold ly_iosq, ly_prp, IO_ENTRIES, PAGE in *.
  assert (0 < zlen chunk) by (destruct chunk; [done|unfold zlen; cbn; lia]). assert (Hz : zlen d = 64) by (unfold zlen; lia).
  rewrite (prp_fetch_ready _ _ (w + 0x8000)); [|done|].
  - rewrite E1. unfold zlen at 1. rewrite Nat2Z.id, mem_read_store_apart by (rewrite Hz; lia). apply mem_read_store.
  - rewrite E1, E2. unfold PAGE. apply prp_ready_store; [rewrite Hz; lia|]. apply prp_ready_store; [lia|done].
Qed.

Lemma write_chunk_log fuel lba chunk (s s' : N) : ok s -> chunk <> [] -> zlen chunk <= t -> zlen chunk <= 65536 * b -> zlen chunk mod b = 0 ->
  write_chunk bar w l true fuel b lba chunk s = (Ok tt, s') ->
  exists L, trace s s' L /\ forall mem, snd (replay (w + ly_iosq) b L mem) = [(lba, chunk)].
Proof.
  intros Hs Hne Hc H64 Hm E. unfold write_chunk in E. cbv zeta in E. apply py_bind_inv in E as (p2 & s1 & (L1 & T1 & D1 & P1)%set_prp_log & E).
  apply py_bind_inv in E as (u2 & s2 & [T2 D2]%hw_write_log & E). apply py_bind_inv in E as (u3 & s3 & [T3 D3]%civac_log & E).
  assert (Hs3 : ok s3) by (replace s3 with (fst s3, snd s) by (destruct s3; cbn in *; congruence); by apply drv_ok_hw).
  apply py_bind_inv in E as (cid & s4 & (a & c & d & T4 & Ed & Ha)%(submit_log _ _ _ _ _ _ _ _ Hs3) & E).
  apply py_bind_inv in E as (u5 & s5 & E5 & E). apply py_bind_inv in E5 as (q & s6 & [-> _]%get_io & [T5 _]%w32_log).
  apply py_bind_inv in E as (u6 & s6 & (L6 & T6 & Q6)%(quiet_trace _ _ _ _ (quiet_reap Io [cid] 5000 fuel)) & [= <-]).
  exists (L1 ++ [AWriteMem (w + ly_data l) chunk] ++ [ARequest P_DC_CIVAC [w + ly_data l; zlen chunk]] ++ [AWriteMem a d; ARequest P_DC_CIVAC [a; 64]; ANow] ++ [AWrite32 (q_sq_db q) (q_tail q)] ++ L6).
  split; [eauto 10 using trace_app|]. intros mem. destruct (P1 mem) as [O1 R1]. rewrite replay_app, O1. set (m1 := fst (replay _ _ L1 mem)) in *. cbn [snd app].
  destruct (sq_entry_fields _ _ _ _ _ _ _ Ed ltac:(lia)) as (Hd & Hop & _ & Hcdw). destruct (sq_entry_prps _ _ _ _ _ _ _ Ed) as [E1 E2].
  destruct (Hcdw 0%nat ltac:(lia)) as [C0 _], (Hcdw 1%nat ltac:(lia)) as [C1 _], (Hcdw 2%nat ltac:(lia)) as [C2 _]. cbn [lookup list_lookup default] in C0, C1, C2.
  assert (Hcount : 0 < zlen chunk / b <= 65536).
  { pose proof (mod_div_exact _ _ Hb Hm). assert (0 < zlen chunk) by (destruct chunk; [done|unfold zlen; cbn; lia]). nia. }
  unfold replay. cbn [fold_left play fst snd]. rewrite (in_sq_above (w + ly_data l)) by (destruct Hl; unfold PAGE in *; lia). rewrite Ha, Hop. cbn [andb Z.eqb Pos.eqb app].
  rewrite play_out, replay_silent by done. cbn [fst snd app].
  rewrite (entry_lba_split lba d C0 C1), (entry_blocks_count _ d Hcount C2), Z.mul_comm, (mod_div_exact _ _ Hb Hm).
  by rewrite (fetch_chunk m1 a d chunk p2).
Qed.

(** Whole blocks, one stretch after the other. *)
Fixpoint contiguous (lba : Z) (out : list (Z * bytes)) : Prop :=
  match out with [] => True | (a, d) :: r => a = lba /\ zlen d mod b = 0 /\ contiguous (lba + zlen d / b) r end.

Lemma write_loop_log fuel n per lba data (s s' : N) : ok s -> 0 < per <= t -> per <= 65536 * b -> per mod b = 0 -> zlen data mod b = 0 ->
  write_loop bar w l true fuel n b per lba data s = (Ok tt, s') ->
  exists L, trace s s' L /\ forall mem, concat (map snd (snd (replay (w + ly_iosq) b L mem))) = data /\ contiguous lba (snd (replay (w + ly_iosq) b L mem)).
Proof.
  intros Hs Hp H64 Hpm. revert lba data s Hs. induction n as [|n IH]; intros lba [|x data] s Hs Hm E; cbn [write_loop] in E; try done;
    try (injection E as <-; exists []; split; [done|]; by intros mem). set (chunk := take _ _) in *. set (rest := drop _ _) in *.
  assert (Hx : x :: data = chunk ++ rest) by (unfold chunk, rest; by rewrite take_drop).
  assert (Hcl : zlen chunk = Z.min per (zlen (x :: data))) by (unfold chunk, zlen; rewrite length_take; lia).
  assert (Hcm : zlen chunk mod b = 0) by (rewrite Hcl; destruct (Z.min_spec per (zlen (x :: data))) as [[_ ->]|[_ ->]]; done).
  assert (Hrm : zlen rest mod b = 0).
  { rewrite Hx, zlen_app in Hm. rewrite Z.add_mod, Hcm in Hm by lia. by rewrite Z.add_0_l, Z.mod_mod in Hm by lia. }
  assert (Hne : chunk <> []) by (intros E0; rewrite E0 in Hcl; unfold zlen in Hcl; cbn [length] in Hcl; lia).
  apply py_bind_inv in E as ([] & s1 & E1 & E).
  assert (Hs1 : ok s1) by (apply (sf_write_chunk bar w l true R Hl b t Ht fuel lba chunk eq_refl ltac:(lia) s _ _ Hs E1)).
  destruct (write_chunk_log fuel lba chunk s s1 Hs Hne ltac:(lia) ltac:(lia) Hcm E1) as (L1 & T1 & O1). destruct (IH _ _ _ Hs1 Hrm E) as (L2 & T2 & O2).
  exists (L1 ++ L2). split; [by eapply trace_app|]. intros mem. rewrite replay_app, O1. cbn [snd app map concat contiguous].
  destruct (O2 (fst (replay (w + ly_iosq) b L1 mem))) as [O3 O4]. rewrite O3. by rewrite Hx.
Qed.
End writes.

(** C7: a write through the driver of nvme_rw.py that returns has put exactly its data
    on the disk: whatever the target answered, the Write commands it submitted,
    executed by a controller that fetches the pages their PRP entries name from
    the memory the host filled, carry the payload in order, whole blocks, one
    stretch after the other from the requested block on; and the whole stretch
    lies in one enabled range. *)
Theorem nvme_write_exact (bar w : Z) (l : layout) (R : list (Z * Z)) (s s' : env * driver) (b t lba : Z) (data : bytes) (fuel : nat) :
  layout_fits l -> drv_ok bar w l anything R s -> d_lba_bytes (snd s) = Some b -> d_max_transfer (snd s) = Some t -> 0 < t -> t mod b = 0 ->
  nv_write bar w l true lba data fuel s = (Ok tt, s') ->
  (exists lo hi, (lo, hi) ∈ R /\ lo <= lba /\ lba + zlen data / b <= hi) /\
  exists L, trace s s' L /\ forall mem,
    concat (map snd (snd (replay (w + ly_iosq) b L mem))) = data /\ contiguous b lba (snd (replay (w + ly_iosq) b L mem)).
Proof.
  intros Hl Hs Eb Et Ht0 Hm E. assert (Hb := do_lba _ _ _ _ _ _ Hs b Eb). assert (Ht := do_transfer _ _ _ _ _ _ Hs t Et).
  assert (Hp : drv_ok bar w l (pinned (Some b) (Some t)) R s) by (destruct Hs; by split).
  unfold nv_write in E. destruct (bool_decide _); [done|]. apply py_bind_inv in E as (lb & s1 & [= <- <-] & E). rewrite Eb in E.
  destruct (Z.eqb_spec b 0) as [|_]; [done|]. cbn [orb] in E. destruct (Z.eqb_spec (zlen data mod b) 0) as [Hd|]; [|done]. cbn [negb] in E.
  apply py_bind_inv in E as ([] & s1 & Ea & E). apply allow_write_spec in Ea as [-> Ha]. destruct (Ha eq_refl) as (_ & _ & Hin). rewrite (do_ranges _ _ _ _ _ _ Hs) in Hin.
  split; [done|]. unfold need in E. apply py_bind_inv in E as (mt & s1 & E1 & E). unfold py_bind, attr, py_get in E1. rewrite Et in E1. injection E1 as <- <-. cbv zeta in E.
  destruct (Z.eqb_spec (Z.min t (65536 * b)) 0) as [|_]; [done|]. destruct (Z.ltb_spec (Z.min t (65536 * b)) 0) as [|_]; [lia|].
  refine (write_loop_log bar w l R Hl b t Hb Ht fuel _ _ lba data s s' Hp _ _ _ Hd E); [lia|lia|].
  destruct (Z.min_spec t (65536 * b)) as [[_ ->]|[_ ->]]; [done|]. apply Z.mod_mul. lia.
Qed.

(** ** A write of six blocks *)

(** A controller that completes the newest command. *)
Definition newest_cid (log : list action) : Z :=
  match List.find (fun x => match x with AWriteMem _ d => Nat.eqb (length d) 64 | _ => false end) log with
  | Some (AWriteMem _ d) => le_Z (slice 2 4 d)
  | _ => 0
  end.
Definition prompt : env :=
  {| ev_log := []; ev_word := fun _ => Ok 0; ev_data := fun log => Ok (replicate 12 x00 ++ le_bytes 2 (newest_cid log) ++ [x01; x00]) |}.
Definition writing : driver := d_set_ranges [(40, 50)] (d_set_transfer 2048 (d_set_namespace 512 1000 ready_driver)).
Definition payload : bytes := map (fun i => byte_of_Z (Z.of_nat i)) (seq 0 (6 * 512)).

Lemma writing_ok : drv_ok 0x7c000000 0x80000000 M3_LAYOUT anything [(40, 50)] (prompt, writing).
Proof.
  split; cbn; try done.
  - intros q [= <-]. by apply queue_init_ok.
  - intros v [= <-]. done.
  - by intros v [= <-].
  - by intros v [= <-].
Qed.

Lemma returned {A B} (p : result A * B) a : fst p = Ok a -> p = (Ok a, snd p).
Proof. destruct p. by intros [= ->]. Qed.

Lemma nvme_write_exact_witness :
  fst (nv_write 0x7c000000 0x80000000 M3_LAYOUT true 42 payload 3 (prompt, writing)) = Ok tt /\
  exists L, forall mem, concat (map snd (snd (replay (0x80000000 + ly_iosq) 512 L mem))) = payload.
Proof.
  assert (Hok : fst (nv_write 0x7c000000 0x80000000 M3_LAYOUT true 42 payload 3 (prompt, writing)) = Ok tt) by (vm_compute; reflexivity).
  split; [exact Hok|].
  destruct (nvme_write_exact 0x7c000000 0x80000000 M3_LAYOUT [(40, 50)] (prompt, writing) (snd (nv_write 0x7c000000 0x80000000 M3_LAYOUT true 42 payload 3 (prompt, writing))) 512 2048 42 payload 3
    m3_layout_fits writing_ok eq_refl eq_refl eq_refl eq_refl (returned _ _ Hok)) as (_ & L & _ & H).
  exists L. intros mem. apply H.
Defined.
