(* ===== verification/NvmeSetup.v ===== *)
(** * src/tools/nvme_m3.py: the controller and its DMA window

    Before the driver runs, the tool finds the SSD through the ACPI and PCI tables,
    reads what the SMMU does with its stream, and takes a DMA window that is
    Conventional memory, clear of q1n1's own regions, and identity-mapped read/write
    for the SSD.  [adopt] puts the parts together in the mode that leaves the SSD
    running.  What the tool records for its log is not modelled. *)

From Stdlib Require Import ZArith Lia.
From Stdlib Require Import Strings.Byte Strings.String.
From stdpp Require Import base list sorting numbers strings gmap sets.
From S2P Require Import Prelude Bytes Registers Q1n1Link GptSurvey Target Preload Nvme NvmeSafe.

Local Open Scope string_scope.
Local Open Scope list_scope.
Local Open Scope Z_scope.
Local Open Scope py_scope.

(** What the SMMU does with the stream: the values of [mode]. *)
Inductive smmu_mode := Abort_ | Bypass | Unconfigured | Invalid | S1 | S2 | S1S2 | Config (n : Z).
#[global] Instance smmu_mode_eq_dec : EqDecision smmu_mode.
Proof. solve_decision. Defined.

(** [ipa_bits], [start_level] and [ttb] are set in mode [S2] only. *)
Record smmu := Smmu { sm_mode : smmu_mode; sm_ipa_bits : Z; sm_start_level : Z; sm_ttb : Z }.
Definition smmu_in (m : smmu_mode) : smmu := Smmu m 0 0 0.

Definition config_mode (config : Z) : smmu_mode :=
  match config with 0 => Abort_ | 4 => Bypass | 5 => S1 | 6 => S2 | 7 => S1S2 | n => Config n end.

(** The regions q1n1 itself uses. *)
Definition OWN_KEYS : list (string * string) :=
  [("heap_base", "heap_size"); ("dma_base", "dma_size"); ("stage_base", "stage_size"); ("image_base", "image_size");
   ("memory_map", "memory_map_size"); ("preload_table", "preload_size"); ("fb_base", "fb_size");
   ("gpu_arena_base", "gpu_arena_size"); ("gpt_survey", "gpt_survey_size")].
Definition q1n1_regions (info : boot_info) : list (Z * Z) :=
  List.filter (fun '(b, s) => negb (b =? 0) && negb (s =? 0)) (map (fun '(b, s) => (rget info b, rget info s)) OWN_KEYS).
Definition overlaps_own (base size : Z) (own : list (Z * Z)) : bool :=
  existsb (fun '(b, s) => (base <? b + s) && (b <? base + size)) own.

(** [sorted(regions, key=lambda r: -r[2])], which is stable. *)
Fixpoint insert_end (r : region) (rs : list region) : list region :=
  match rs with
  | [] => [r]
  | x :: t => if snd x <=? snd r then r :: rs else x :: insert_end r t
  end.
Definition by_end (rs : list region) : list region := fold_right insert_end [] rs.

Section setup.
  Context {S : Type} `{!TargetOps S}.

(** ** Finding the controller *)

Definition RSDP_MAGIC : bytes := list_byte_of_string "RSD PTR ".
Definition MCFG : bytes := list_byte_of_string "MCFG".

(** The loop over the tables of the XSDT: [n] offsets from [off]. *)
Fixpoint xsdt_loop (n : nat) (off : nat) (body want : bytes) : M S bytes :=
  match n with
  | O => py_raise (Stop "ACPI table not found")
  | Datatypes.S k =>
      let! addr := py_lift (unpack_u 8 off body) in
      let! sig := t_readmem addr 8 false in
      if bytes_eqb (take 4 sig) want then
        let! len := py_lift (unpack_u 4 4 sig) in t_readmem addr len false
      else xsdt_loop k (off + 8) body want
  end.
(** The length of [range(a, b, step)]. *)
Definition range_len (a b step : Z) : nat := Z.to_nat ((b - a + step - 1) / step).

Definition acpi_table (rsdp : Z) (want : bytes) : M S bytes :=
  let! head := t_readmem rsdp 36 false in
  if negb (bytes_eqb (take 8 head) RSDP_MAGIC) then py_raise (Stop "no RSDP") else
  let! xsdt := py_lift (unpack_u 8 24 head) in
  let! h := t_readmem xsdt 8 false in
  let! len := py_lift (unpack_u 4 4 h) in
  let! body := t_readmem xsdt len false in
  xsdt_loop (range_len 36 len 8) 36 body want.

Fixpoint unpack_Is (n off : nat) (b : bytes) : result (list Z) :=
  match n with O => Ok [] | Datatypes.S k => let? x := unpack_u 4 off b in let? r := unpack_Is k (off + 4) b in Ok (x :: r) end.
Definition config_header (base : Z) : M S (list Z) :=
  let! raw := t_readmem base 64 false in
  if negb (Nat.eqb (length raw) 64) then py_raise StructError else py_lift (unpack_Is 16 0 raw).
(** [words[i]] of the sixteen. *)
Definition word (ws : list Z) (i : nat) : Z := default 0 (ws !! i).

(** The first MCFG entry of the segment: its ECAM base and buses. *)
Fixpoint mcfg_loop (n off : nat) (mcfg : bytes) : result (Z * Z * Z) :=
  match n with
  | O => Raise (Stop "MCFG has no such segment")
  | Datatypes.S k =>
      let? ecam := unpack_u 8 off mcfg in
      let? seg := unpack_u 2 (off + 8) mcfg in
      let? first_bus := unpack_u 1 (off + 10) mcfg in
      let? last_bus := unpack_u 1 (off + 11) mcfg in
      if seg =? SEGMENT then Ok (ecam, first_bus, last_bus) else mcfg_loop k (off + 16) mcfg
  end.

(** [locate]: the base of BAR 0 and the stream number. *)
Definition locate (info : boot_info) : M S (Z * Z) :=
  let! rsdp := py_lift (info_item info "acpi_rsdp") in
  let! mcfg := acpi_table rsdp MCFG in
  let! '(ecam, first_bus, last_bus) := py_lift (mcfg_loop (range_len 44 (zlen mcfg) 16) 44 mcfg) in
  let root := ecam + Z.shiftl first_bus 20 in
  let! rp := config_header root in
  if negb (Z.land (Z.shiftr (word rp 3) 16) 0x7F =? 1) then py_raise (Stop "segment root 0:0.0 is not a bridge") else
  let secondary := Z.land (Z.shiftr (word rp 6) 8) 0xFF in
  if negb ((first_bus <? secondary) && (secondary <=? last_bus)) then py_raise (Stop "root port secondary bus outside MCFG buses") else
  let mem_base := Z.shiftl (Z.land (word rp 8) 0xFFF0) 16 in
  let mem_limit := Z.lor (Z.shiftl (Z.land (Z.shiftr (word rp 8) 16) 0xFFF0) 16) 0xFFFFF in
  let ep_cfg := ecam + Z.shiftl secondary 20 in
  let! ep := config_header ep_cfg in
  let vendor := Z.land (word ep 0) 0xFFFF in
  let klass := Z.shiftr (word ep 2) 8 in
  let command := Z.land (word ep 1) 0xFFFF in
  let bar_lo := word ep 4 in
  let bar_hi := word ep 5 in
  let bar := Z.lor (Z.land bar_lo (Z.lnot 0xF)) (if Z.land (Z.shiftr bar_lo 1) 3 =? 2 then Z.shiftl bar_hi 32 else 0) in
  if negb (vendor =? EXPECT_VENDOR) || negb (klass =? EXPECT_CLASS) then py_raise (Stop "endpoint is not the pinned SSD") else
  if (Z.land command 2 =? 0) || (Z.land command 4 =? 0) then py_raise (Stop "Memory Space / Bus Master not both on") else
  if negb ((mem_base <=? bar) && (bar + 0x4000 - 1 <=? mem_limit)) then py_raise (Stop "BAR0 outside the root port window") else
  let rid := Z.shiftl secondary 8 in
  py_ret (bar, Z.lor (Z.shiftl SEGMENT 16) rid).

(** ** The SMMU *)

(** Stage 2 of a valid stream table entry. *)
Definition smmu_stage2 (w : list Z) : result smmu :=
  let w2 := word w 2 in
  let t0sz := Z.land (Z.shiftr w2 32) 0x3F in
  let sl0 := Z.land (Z.shiftr w2 38) 3 in
  let tg := Z.land (Z.shiftr w2 46) 3 in
  let aa64 := Z.land (Z.shiftr w2 51) 1 in
  if negb (tg =? 0) || (aa64 =? 0) || (2 <? sl0) then Raise (Stop "stage 2 is not AArch64 with a 4 KiB granule") else
  Ok (Smmu S2 (64 - t0sz) (2 - sl0) (Z.land (word w 3) 0xFFFFFFFFFFF0)).

(** The stream table entry at [ste]. *)
Definition smmu_entry (ste : Z) : M S smmu :=
  let! raw := t_readmem ste 32 false in
  if negb (Nat.eqb (length raw) 32) then py_raise StructError else
  let! w := py_lift (unpack_Qs 4 0 raw) in
  if Z.land (word w 0) 1 =? 0 then py_ret (smmu_in Invalid) else
  let mode := config_mode (Z.land (Z.shiftr (word w 0) 1) 7) in
  if bool_decide (mode = S2) then py_lift (smmu_stage2 w) else py_ret (smmu_in mode).

Definition smmu_init (sid base : Z) : M S smmu :=
  let! cr0 := t_read32 (base + 0x20) in
  let! gbpa := t_read32 (base + 0x44) in
  if Z.land cr0 1 =? 0 then
    py_ret (smmu_in (if negb (Z.land gbpa (Z.shiftl 1 20) =? 0) then Abort_ else Bypass))
  else
  let! st := t_read64 (base + 0x80) in
  let strtab := Z.land st 0xFFFFFFFFFFC0 in
  let! cfg := t_read32 (base + 0x88) in
  let fmt := Z.land (Z.shiftr cfg 16) 3 in
  let split := Z.land (Z.shiftr cfg 6) 0x1F in
  let log2size := Z.land cfg 0x3F in
  if negb (Z.shiftr sid log2size =? 0) then py_raise (Stop "SID is beyond the stream table") else
  if fmt =? 0 then smmu_entry (strtab + sid * 64) else
  let! l1 := t_read64 (strtab + Z.shiftr sid split * 8) in
  if Z.land l1 0x1F =? 0 then py_ret (smmu_in Unconfigured) else
  smmu_entry (Z.land l1 0xFFFFFFFFFFC0 + Z.land sid (Z.shiftl 1 split - 1) * 64).

(** The loop of [translate]; a table below the start level has nine index bits. *)
Fixpoint translate_loop (n : nat) (m : smmu) (ipa table level : Z) : M S (option (Z * Z * Z)) :=
  match n with
  | O => py_raise OutOfFuel
  | Datatypes.S k =>
      let shift := 12 + 9 * (3 - level) in
      let width := if level =? sm_start_level m then sm_ipa_bits m - shift else 9 in
      let! top := py_lift (py_shl 1 width) in
      let! desc := t_read64 (table + 8 * Z.land (Z.shiftr ipa shift) (top - 1)) in
      if Z.land desc 1 =? 0 then py_ret None else
      if (level <? 3) && negb (Z.land desc 2 =? 0) then translate_loop k m ipa (Z.land desc 0xFFFFFFFFF000) (level + 1) else
      if (level =? 3) && (Z.land desc 2 =? 0) then py_ret None else
      let span := Z.shiftl 1 shift in
      let oa := Z.land (Z.land desc 0xFFFFFFFFF000) (Z.lnot (span - 1)) in
      py_ret (Some (oa + Z.land (Z.land ipa (span - 1)) (Z.lnot (PAGE - 1)), span - Z.land ipa (span - 1), Z.land (Z.shiftr desc 6) 3))
  end.
(** At most one table per level from 0 to 3. *)
Definition translate (m : smmu) (ipa : Z) : M S (option (Z * Z * Z)) :=
  let! over := py_lift (py_shr ipa (sm_ipa_bits m)) in
  if negb (over =? 0) then py_ret None else translate_loop 4 m ipa (sm_ttb m) (sm_start_level m).

Fixpoint reaches_loop (n : nat) (m : smmu) (at_ limit : Z) : M S bool :=
  if limit <=? at_ then py_ret true else
  match n with
  | O => py_raise OutOfFuel
  | Datatypes.S k =>
      let! t := translate m at_ in
      match t with
      | None => py_ret false
      | Some (oa, len, ap) => if negb (oa =? at_) || negb (ap =? 3) then py_ret false else reaches_loop k m (at_ + len) limit
      end
  end.
(** Every descriptor covers a page or more. *)
Definition reaches (m : smmu) (base size : Z) : M S bool :=
  match sm_mode m with
  | Bypass => py_ret true
  | S2 => reaches_loop (Z.to_nat (size / PAGE + 1)) m base (base + size)
  | _ => py_ret false
  end.

(** ** The window *)

Definition given_window (info : boot_info) (m : smmu) (base : Z) (l : layout) : M S Z :=
  let size := ly_size l in
  if negb (base mod Z.shiftl 64 10 =? 0) then py_raise (Stop "DMA window is not 64 KiB aligned") else
  let! regions := memory_regions info in
  if negb (existsb (fun '(k, lo, hi) => (k =? EFI_CONVENTIONAL) && (lo <=? base) && (base + size <=? hi)) regions)
  then py_raise (Stop "DMA window is not inside one Conventional region") else
  if overlaps_own base size (q1n1_regions info) then py_raise (Stop "DMA window overlaps q1n1's own memory") else
  let! ok := reaches m base size in
  if negb ok then py_raise (Stop "DMA window is not identity-mapped read/write for the SSD") else py_ret base.

Definition WINDOW_STEP := Z.shiftl 2 20.

(** The candidates of one region, from the top down. *)
Fixpoint candidates (n : nat) (m : smmu) (own : list (Z * Z)) (window start cand tried : Z) : M S (option Z * Z) :=
  if (start <=? cand) && (tried <? 64) then
    match n with
    | O => py_raise OutOfFuel
    | Datatypes.S k =>
        if negb (overlaps_own cand window own) then
          let! ok := reaches m cand window in
          if (ok : bool) then py_ret (Some cand, tried + 1) else candidates k m own window start (cand - WINDOW_STEP) (tried + 1)
        else candidates k m own window start (cand - WINDOW_STEP) tried
    end
  else py_ret (None, tried).

Fixpoint pick_loop (rs : list region) (m : smmu) (own : list (Z * Z)) (window tried : Z) : M S Z :=
  match rs with
  | [] => py_raise (Stop "no Conventional 4 MiB window the SSD can reach")
  | (kind, start, stop) :: r =>
      if negb (kind =? EFI_CONVENTIONAL) then pick_loop r m own window tried else
      let cand := Z.land (stop - window) (Z.lnot (WINDOW_STEP - 1)) in
      let! '(found, tried) := candidates (Z.to_nat ((cand - start) / WINDOW_STEP + 1)) m own window start cand tried in
      match found with Some c => py_ret c | None => pick_loop r m own window tried end
  end.

Definition pick_window (info : boot_info) (m : smmu) : M S Z :=
  let! regions := memory_regions info in
  pick_loop (by_end regions) m (q1n1_regions info) (ly_size M3_LAYOUT) 0.

(** ** Adopting the SSD *)

Abbreviation N := (S * driver)%type.

(** [adopt]: a fresh [Nvme] object, and the armed window it hands over. *)
Definition adopt (info : boot_info) (bar : Z) (m : smmu) (adopt_dma : Z) (partition_guid : bytes) (fuel : nat) : M N (Z * Z) :=
  let! w := on_hw (given_window info m adopt_dma ADOPT_LAYOUT) in
  set_attr (fun _ => driver_init) ;;;
  takeover bar w ADOPT_LAYOUT fuel ;;;
  identify bar w ADOPT_LAYOUT false fuel ;;;
  io_queues bar w ADOPT_LAYOUT false fuel ;;;
  let! armed := arm_window bar w ADOPT_LAYOUT false partition_guid fuel in
  let! io := get_queue Io in
  let! admin := get_queue Adm in
  if negb (bool_decide (q_outstanding io = ∅)) || negb (bool_decide (q_outstanding admin = ∅))
  then py_raise (Stop "commands still outstanding at hand-off") else py_ret armed.

(** [run] with [--adopt-dma]. *)
Definition run_adopt (info : boot_info) (adopt_dma : Z) (partition_guid : bytes) (fuel : nat) : M N (Z * Z) :=
  let! '(bar, sid) := on_hw (locate info) in
  let! m := on_hw (smmu_init sid SMMU_BASE) in
  if negb (bool_decide (sm_mode m = Bypass) || bool_decide (sm_mode m = S2)) then py_raise (Stop "the SSD stream") else
  adopt info bar m adopt_dma partition_guid fuel.
End setup.

(** ** The stage 2 walk, address by address *)

(** Output address and permissions of one address [x]: at each level the index bits
    select a descriptor; bits 47..12 of a descriptor are the address of the next
    table or, with the bits above the level's span kept, of the output. *)
Definition desc_addr (d : Z) : Z := 2 ^ 12 * ((d / 2 ^ 12) mod 2 ^ 36).
Fixpoint s2_walk (n : nat) (rd : Z -> Z) (start bits table level x : Z) : option (Z * Z) :=
  match n with
  | O => None
  | S k =>
      let shift := 12 + 9 * (3 - level) in
      let width := if level =? start then bits - shift else 9 in
      let d := rd (table + 8 * ((x / 2 ^ shift) mod 2 ^ width)) in
      if negb (Z.testbit d 0) then None else
      if level <? 3 then
        if Z.testbit d 1 then s2_walk k rd start bits (desc_addr d) (level + 1) x
        else Some (2 ^ shift * (desc_addr d / 2 ^ shift) + x mod 2 ^ shift, (d / 2 ^ 6) mod 4)
      else if Z.testbit d 1 then Some (2 ^ shift * (desc_addr d / 2 ^ shift) + x mod 2 ^ shift, (d / 2 ^ 6) mod 4) else None
  end.
(** The SSD's access to [x] reaches the memory at [x], for reads and writes. *)
Definition identity_rw (rd : Z -> Z) (m : smmu) (x : Z) : Prop :=
  0 <= x < 2 ^ sm_ipa_bits m /\ s2_walk 4 rd (sm_start_level m) (sm_ipa_bits m) (sm_ttb m) (sm_start_level m) x = Some (x, 3).

Lemma land_low x k : 0 <= k -> Z.land x (Z.shiftl 1 k - 1) = x mod 2 ^ k.
Proof. intros Hk. rewrite Z.shiftl_1_l, <- Z.land_ones by done. by rewrite Z.ones_equiv, Z.sub_1_r. Qed.

Lemma land_high x k : 0 <= k -> Z.land x (Z.lnot (2 ^ k - 1)) = 2 ^ k * (x / 2 ^ k).
Proof.
  intros Hk. replace (2 ^ k - 1) with (Z.ones k) by (rewrite Z.ones_equiv; lia). rewrite <- Z.ldiff_land, Z.ldiff_ones_r by done.
  rewrite Z.shiftr_div_pow2, Z.shiftl_mul_pow2 by done. lia.
Qed.

Lemma desc_addr_mask d : Z.land d 0xFFFFFFFFF000 = desc_addr d.
Proof.
  unfold desc_addr. replace 0xFFFFFFFFF000 with (Z.shiftl (Z.ones 36) 12) by done. apply Z.bits_inj'. intros n Hn.
  rewrite (Z.mul_comm (2 ^ 12)), <- Z.shiftl_mul_pow2, Z.land_spec, !Z.shiftl_spec by lia. destruct (Z.lt_ge_cases n 12) as [Hlt|Hge].
  - rewrite !(Z.testbit_neg_r _ (n - 12)) by lia. apply andb_false_r.
  - rewrite <- Z.land_ones, Z.land_spec, <- Z.shiftr_div_pow2, Z.shiftr_spec by lia. do 2 f_equal. lia.
Qed.

Lemma bit_test d k : 0 <= k -> (Z.land d (2 ^ k) =? 0) = negb (Z.testbit d k).
Proof.
  intros Hk. destruct (Z.testbit d k) eqn:E; cbn [negb].
  - apply Z.eqb_neq. intros H. assert (Hb : Z.testbit (Z.land d (2 ^ k)) k = false) by (rewrite H; apply Z.bits_0).
    by rewrite Z.land_spec, E, Z.pow2_bits_true in Hb by done.
  - apply Z.eqb_eq. apply Z.bits_inj'. intros n Hn. rewrite Z.land_spec, Z.bits_0. destruct (decide (n = k)) as [->|Hne]; [by rewrite E|].
    rewrite Z.pow2_bits_false by done. apply andb_false_r.
Qed.

(** Addresses of one span agree above it. *)
Lemma same_span x y k j : 0 <= k <= j -> x / 2 ^ k = y / 2 ^ k -> x / 2 ^ j = y / 2 ^ j.
Proof.
  intros Hk H. replace j with (k + (j - k)) by lia. rewrite Z.pow_add_r, <- !Z.div_div by lia. by rewrite H.
Qed.

(** Targets whose 64-bit reads are those of an unchanging memory. *)
Class TargetWords (S : Type) `{!TargetOps S} := {
  tw_word : S -> Z -> Z;
  tw_read64 a s : t_read64 a s = (Ok (tw_word s a), s);
  tw_readmem a n live s r s' : t_readmem a n live s = (r, s') -> tw_word s' = tw_word s
}.
#[global, refine] Instance RamWords : TargetWords ram := {| tw_word r a := le_Z (mem_read (ram_mem r) a 8) |}.
Proof. - done. - by intros a n live s r s' [= <- <-]. Defined.

Section reach.
  Context {S : Type} `{!TargetOps S, !TargetWords S}.

(** The leaf of a translation, in arithmetic. *)
Lemma leaf_value k d ipa : 12 <= k ->
  (Z.land (Z.land d 0xFFFFFFFFF000) (Z.lnot (Z.shiftl 1 k - 1)) + Z.land (Z.land ipa (Z.shiftl 1 k - 1)) (Z.lnot (PAGE - 1)),
   Z.shiftl 1 k - Z.land ipa (Z.shiftl 1 k - 1), Z.land (Z.shiftr d 6) 3)
  = (2 ^ k * (desc_addr d / 2 ^ k) + 2 ^ 12 * (ipa mod 2 ^ k / 2 ^ 12), 2 ^ k - ipa mod 2 ^ k, (d / 2 ^ 6) mod 4).
Proof.
  intros Hk. rewrite land_low by lia. rewrite Z.shiftl_1_l, desc_addr_mask, land_high by lia. change PAGE with (2 ^ 12). rewrite land_high by lia.
  rewrite Z.shiftr_div_pow2 by lia. change 3 with (Z.ones 2) at 1. by rewrite Z.land_ones by lia.
Qed.

(** An address that is its own output page is aligned, and its span leaves a page. *)
Lemma page_aligned k o a : 12 <= k -> a = 2 ^ k * o + 2 ^ 12 * (a mod 2 ^ k / 2 ^ 12) -> 2 ^ 12 <= 2 ^ k - a mod 2 ^ k /\ o = a / 2 ^ k.
Proof.
  intros Hk Ha. pose proof (Z.mod_pos_bound a (2 ^ k) ltac:(lia)) as Hr. set (r := a mod 2 ^ k) in *. pose proof (Z.div_mod a (2 ^ k) ltac:(lia)) as Hdm. fold r in Hdm.
  pose proof (Z.div_mod r (2 ^ 12) ltac:(lia)) as Hdr. pose proof (Z.mod_pos_bound r (2 ^ 12) ltac:(lia)) as Hr12.
  assert (Hr0 : 0 <= r / 2 ^ 12) by (apply Z.div_pos; lia).
  assert (Ho : o = a / 2 ^ k) by (apply (Z.div_unique_pos _ _ _ (2 ^ 12 * (r / 2 ^ 12))); [lia|exact Ha]).
  assert (Hrr : r = 2 ^ 12 * (r / 2 ^ 12)) by (rewrite <- Ho in Hdm; lia).
  assert (Hpow : 2 ^ k = 2 ^ 12 * 2 ^ (k - 12)) by (rewrite <- Z.pow_add_r by lia; f_equal; lia). split; [nia|done].
Qed.

(** A translation of [ipa] is the walk of every address its descriptor covers. *)
Lemma translate_loop_walk n m ipa table level s oa len ap s' : level <= 3 ->
  translate_loop n m ipa table level s = (Ok (Some (oa, len, ap)), s') -> s' = s /\
  exists k o, 12 <= k <= 12 + 9 * (3 - level) /\ (level = sm_start_level m -> k <= sm_ipa_bits m) /\ len = 2 ^ k - ipa mod 2 ^ k /\ oa = 2 ^ k * o + 2 ^ 12 * (ipa mod 2 ^ k / 2 ^ 12) /\
  forall x, x / 2 ^ k = ipa / 2 ^ k -> s2_walk n (tw_word s) (sm_start_level m) (sm_ipa_bits m) table level x = Some (2 ^ k * o + x mod 2 ^ k, ap).
Proof.
  revert table level. induction n as [|n IH]; intros table level Hlev E; cbn [translate_loop] in E; [done|]. cbv zeta in E. cbn [s2_walk]. set (k := 12 + 9 * (3 - level)) in *.
  set (width := if level =? _ then _ else 9) in *. unfold py_bind at 1, py_lift, py_shl in E. destruct (Z.ltb_spec width 0) as [|Hw]; [done|].
  assert (Hbits : level = sm_start_level m -> k <= sm_ipa_bits m) by (intros Hst; unfold width in Hw; rewrite (proj2 (Z.eqb_eq _ _) Hst) in Hw; lia).
  unfold py_bind at 1 in E. rewrite tw_read64, land_low, Z.shiftr_div_pow2 in E by lia. set (d := tw_word s _) in *.
  assert (Hd : forall x, x / 2 ^ k = ipa / 2 ^ k -> tw_word s (table + 8 * ((x / 2 ^ k) mod 2 ^ width)) = d) by (intros x ->; done).
  pose proof (bit_test d 0 ltac:(lia)) as B0. pose proof (bit_test d 1 ltac:(lia)) as B1. change (2 ^ 0) with 1 in B0. change (2 ^ 1) with 2 in B1. rewrite B0, !B1 in E. rewrite !negb_involutive in E. destruct (Z.testbit d 0) eqn:E0; [|done]. cbn [negb] in E.
  destruct ((level <? 3) && Z.testbit d 1) eqn:Et.
  - apply andb_true_iff in Et as [Hlt Hb]. apply Z.ltb_lt in Hlt as Hlt'. rewrite desc_addr_mask in E.
    assert (Hlev' : level + 1 <= 3) by lia. destruct (IH _ _ Hlev' E) as (-> & k' & o & Hk & _ & Hlen & Hoa & Hx). split; [done|]. exists k', o. split; [lia|]. split; [intros Hst; specialize (Hbits Hst); lia|]. split; [done|]. split; [done|].
    intros x Hxx. rewrite Hd, E0, Hlt, Hb by (apply (same_span _ _ k'); [lia|done]). cbn [negb]. by apply Hx.
  - destruct ((level =? 3) && negb (Z.testbit d 1)) eqn:E3; [done|]. rewrite leaf_value in E by lia. injection E as <- <- <- <-. split; [done|].
    exists k, (desc_addr d / 2 ^ k). split; [lia|]. split; [done|]. split; [done|]. split; [done|]. intros x Hxx. rewrite Hd, E0 by done. cbn [negb].
    destruct (Z.ltb_spec level 3) as [Hlt|Hge]; [by rewrite andb_true_l in Et; rewrite Et|].
    assert (level = 3) as Hl3 by lia. apply Z.eqb_eq in Hl3. rewrite Hl3 in E3. cbn [andb] in E3. apply negb_false_iff in E3. by rewrite E3.
Qed.

Lemma translate_walk m at_ s len s' : sm_start_level m <= 3 -> translate m at_ s = (Ok (Some (at_, len, 3)), s') ->
  s' = s /\ 2 ^ 12 <= len /\ forall x, at_ <= x < at_ + len -> identity_rw (tw_word s) m x.
Proof.
  intros Hl E. unfold translate, py_bind at 1, py_lift, py_shr in E. destruct (Z.ltb_spec (sm_ipa_bits m) 0) as [|Hb]; [done|].
  destruct (Z.eqb_spec (Z.shiftr at_ (sm_ipa_bits m)) 0) as [H0|]; [|done]. cbn [negb] in E. rewrite Z.shiftr_div_pow2 in H0 by done.
  apply translate_loop_walk in E as (-> & k & o & Hk & Hkb & -> & Hoa & Hx); [|done]. specialize (Hkb eq_refl). split; [done|].
  destruct (page_aligned k o at_ ltac:(lia) Hoa) as [Hlen Ho]. pose proof (Z.mod_pos_bound at_ (2 ^ k) ltac:(lia)) as Hr. pose proof (Z.div_mod at_ (2 ^ k) ltac:(lia)) as Hdm.
  split; [done|]. intros x Hxx.
  assert (Hxk : x / 2 ^ k = at_ / 2 ^ k) by (symmetry; apply (Z.div_unique_pos _ _ _ (at_ mod 2 ^ k + (x - at_))); lia).
  split.
  - assert (H1 : x / 2 ^ sm_ipa_bits m = 0) by (rewrite (same_span x at_ k); [done|lia|done]).
    pose proof (Z.div_mod x (2 ^ sm_ipa_bits m) ltac:(lia)) as Hm. rewrite H1 in Hm. pose proof (Z.mod_pos_bound x (2 ^ sm_ipa_bits m) ltac:(lia)). lia.
  - rewrite (Hx x Hxk), Ho, <- Hxk. do 2 f_equal. symmetry. apply Z.div_mod. lia.
Qed.

(** A loop that answers yes covers every address. *)
Lemma reaches_loop_sound n m at_ limit s s' : sm_start_level m <= 3 -> reaches_loop n m at_ limit s = (Ok true, s') ->
  s' = s /\ forall x, at_ <= x < limit -> identity_rw (tw_word s) m x.
Proof.
  intros Hl. revert at_. induction n as [|n IH]; intros at_ E; cbn [reaches_loop] in E; destruct (Z.leb_spec limit at_) as [Hge|Hlt]; try done;
    try (injection E as <-; split; [done|]; intros x Hx; lia).
  unfold py_bind in E. destruct (translate m at_ s) as [[[[[oa len] ap]|]|e] s1] eqn:Et; try done. destruct (Z.eqb_spec oa at_) as [->|]; [|done]. destruct (Z.eqb_spec ap 3) as [->|]; [|done].
  cbn [negb orb] in E. apply translate_walk in Et as (-> & Hlen & Hx); [|done]. destruct (IH _ E) as [-> Hy]. split; [done|]. intros x Hxx.
  destruct (Z.lt_ge_cases x (at_ + len)); [apply Hx|apply Hy]; lia.
Qed.

(** The walk only reads. *)
Lemma translate_loop_same n m ipa table level (s : S) r s' : translate_loop n m ipa table level s = (r, s') -> s' = s.
Proof.
  revert table level. induction n as [|n IH]; intros table level E; cbn [translate_loop] in E; [by injection E|]. cbv zeta in E.
  unfold py_bind, py_lift in E. destruct (py_shl _ _); [|by injection E]. rewrite tw_read64 in E. destruct (_ =? 0); [by injection E|].
  destruct (_ && _); [by apply IH in E|]. destruct (_ && _); by injection E.
Qed.
Lemma reaches_same m base size (s : S) r s' : reaches m base size s = (r, s') -> s' = s.
Proof.
  unfold reaches. destruct (sm_mode m); try (by intros [= _ <-]). generalize (Z.to_nat (size / PAGE + 1)), (base + size). intros n lim. revert base.
  induction n as [|n IH]; intros at_; cbn [reaches_loop]; destruct (_ <=? _); try (by intros [= _ <-]). unfold py_bind. destruct (translate m at_ s) as [[t|e] s1] eqn:Et.
  - assert (s1 = s) as ->.
    { unfold translate, py_bind, py_lift in Et. destruct (py_shr _ _); [|by injection Et]. destruct (negb _); [by injection Et|]. by apply translate_loop_same in Et. }
    destruct t as [[[oa len] ap]|]; [|by intros [= _ <-]]. destruct (_ || _); [by intros [= _ <-]|]. apply IH.
  - intros [= _ <-]. unfold translate, py_bind, py_lift in Et. destruct (py_shr _ _); [|by injection Et]. destruct (negb _); [by injection Et|]. by apply translate_loop_same in Et.
Qed.

(** What the SSD can reach at [x], in the words of the target's memory. *)
Definition reachable (rd : Z -> Z) (m : smmu) (x : Z) : Prop := sm_mode m = Bypass \/ (sm_mode m = S2 /\ identity_rw rd m x).

Lemma reaches_sound m base size s s' : sm_start_level m <= 3 -> reaches m base size s = (Ok true, s') ->
  s' = s /\ forall x, base <= x < base + size -> reachable (tw_word s) m x.
Proof.
  intros Hl. unfold reaches, reachable. destruct (sm_mode m); try done; [intros [= <-]; auto|]. intros [-> H]%reaches_loop_sound; [|done]. split; [done|]. intros x Hx. right. auto.
Qed.
End reach.

(** ** Windows *)

Definition wf_smmu (m : smmu) : Prop := 0 <= sm_start_level m <= 2.

Definition apart_from (base size : Z) (own : list (Z * Z)) : Prop := Forall (fun '(b, s) => b + s <= base \/ base + size <= b) own.

(** Inside one Conventional region of the memory map, and clear of q1n1's memory. *)
Definition window_clear (info : boot_info) (regions : list region) (base size : Z) : Prop :=
  (exists lo hi, (EFI_CONVENTIONAL, lo, hi) ∈ regions /\ lo <= base /\ base + size <= hi) /\ apart_from base size (q1n1_regions info).

Lemma overlaps_apart base size own : overlaps_own base size own = false -> apart_from base size own.
Proof.
  induction own as [|[b s] own IH]; intros E; [constructor|]. cbn in E. apply orb_false_iff in E as [E1 E]. constructor; [|by apply IH].
  apply andb_false_iff in E1 as [?%Z.ltb_ge|?%Z.ltb_ge]; lia.
Qed.

Lemma insert_end_elem r x rs : x ∈ insert_end r rs <-> x = r \/ x ∈ rs.
Proof. induction rs as [|y rs IH]; cbn [insert_end]; [set_solver|]. destruct (_ <=? _); set_solver. Qed.
Lemma by_end_elem x rs : x ∈ by_end rs <-> x ∈ rs.
Proof. unfold by_end. induction rs as [|r rs IH]; cbn [fold_right]; [done|]. rewrite insert_end_elem, elem_of_cons, IH. done. Qed.

Section windows.
  Context {S : Type} `{!TargetOps S, !TargetWords S}.

Lemma memory_regions_word info (s : S) r s' : memory_regions info s = (r, s') -> tw_word s' = tw_word s.
Proof.
  unfold memory_regions. destruct (_ || _ || _ || _); [by intros [= _ <-]|]. unfold py_bind. destruct (t_readmem _ _ _ s) as [[raw|e] s1] eqn:E; intros [= _ <-]; by apply tw_readmem in E.
Qed.

Lemma candidates_sound n m own window start cand tried s c t' s' : wf_smmu m -> candidates n m own window start cand tried s = (Ok (Some c, t'), s') ->
  s' = s /\ start <= c <= cand /\ apart_from c window own /\ forall x, c <= x < c + window -> reachable (tw_word s) m x.
Proof.
  intros Hm. revert cand tried s. induction n as [|n IH]; intros cand tried s E; cbn [candidates] in E; destruct ((start <=? cand) && (tried <? 64)) eqn:Eg; try done.
  apply andb_true_iff in Eg as [Hge%Z.leb_le _].
  assert (Hnext : forall tr, candidates n m own window start (cand - WINDOW_STEP) tr s = (Ok (Some c, t'), s') -> s' = s /\ start <= c <= cand /\ apart_from c window own /\ forall x, c <= x < c + window -> reachable (tw_word s) m x).
  { intros tr (-> & Hc & Hr)%IH. split; [done|]. split; [|done]. assert (0 < WINDOW_STEP) by done. lia. }
  destruct (overlaps_own cand window own) eqn:Eo; cbn [negb] in E; [by eapply Hnext|]. unfold py_bind in E.
  destruct (reaches m cand window s) as [[[|]|e] s1] eqn:Er; [| |done].
  - injection E as <- <- <-. apply reaches_sound in Er as [-> Hr]; [|unfold wf_smmu in Hm; lia]. split; [done|]. split; [lia|]. split; [by apply overlaps_apart|done].
  - apply reaches_same in Er as ->. by eapply Hnext.
Qed.

Lemma candidates_same n m own window start cand tried (s : S) r s' : candidates n m own window start cand tried s = (r, s') -> s' = s.
Proof.
  revert cand tried s. induction n as [|n IH]; intros cand tried s E; cbn [candidates] in E; destruct (_ && _); try (by injection E).
  destruct (negb _); [|by apply IH in E]. unfold py_bind in E. destruct (reaches m cand window s) as [[[|]|e] s1] eqn:Er; apply reaches_same in Er as ->; try (by injection E). by apply IH in E.
Qed.

Lemma pick_loop_sound rs m own window tried (s : S) w s' : wf_smmu m -> pick_loop rs m own window tried s = (Ok w, s') ->
  s' = s /\ (exists lo hi, (EFI_CONVENTIONAL, lo, hi) ∈ rs /\ lo <= w /\ w + window <= hi) /\ apart_from w window own /\ forall x, w <= x < w + window -> reachable (tw_word s) m x.
Proof.
  intros Hm. revert tried. induction rs as [|[[kind lo] hi] rs IH]; intros tried E; cbn [pick_loop] in E; [done|].
  assert (Hrest : forall tr, pick_loop rs m own window tr s = (Ok w, s') -> s' = s /\ (exists lo0 hi0, (EFI_CONVENTIONAL, lo0, hi0) ∈ (kind, lo, hi) :: rs /\ lo0 <= w /\ w + window <= hi0) /\
    apart_from w window own /\ forall x, w <= x < w + window -> reachable (tw_word s) m x).
  { intros tr (-> & (lo0 & hi0 & Hin & Hb) & Hr)%IH. split; [done|]. split; [|done]. exists lo0, hi0. split; [by right|done]. }
  destruct (Z.eqb_spec kind EFI_CONVENTIONAL) as [->|]; cbn [negb] in E; [|by eapply Hrest]. cbv zeta in E. unfold py_bind in E.
  destruct (candidates _ _ _ _ _ _ _ s) as [[[[c|] t']|e] s1] eqn:Ec; [| |done].
  - injection E as <- <-. apply candidates_sound in Ec as (-> & Hc & Ha & Hx); [|done]. split; [done|]. split; [|done]. exists lo, hi. split; [by left|]. split; [lia|].
    change (WINDOW_STEP - 1) with (2 ^ 21 - 1) in Hc. rewrite land_high in Hc by lia. pose proof (Z.mul_div_le (hi - window) (2 ^ 21) ltac:(lia)). lia.
  - apply candidates_same in Ec as ->. by eapply Hrest.
Qed.
End windows.

(** A given window that is accepted, on any target. *)
Lemma given_window_clear {S} `{!TargetOps S} info m base l (s : S) w s' : given_window info m base l s = (Ok w, s') ->
  w = base /\ exists regions s1, memory_regions info s = (Ok regions, s1) /\ window_clear info regions base (ly_size l) /\ reaches m base (ly_size l) s1 = (Ok true, s').
Proof.
  intros E. unfold given_window in E. cbv zeta in E. destruct (negb _); [done|]. unfold py_bind at 1 in E. destruct (memory_regions info s) as [[regions|x] s1] eqn:Er; [|done].
  match type of E with context [existsb ?f ?r] => destruct (existsb f r) eqn:Ex end; [|done]. cbn [negb] in E. destruct (overlaps_own _ _ _) eqn:Eo; [done|]. unfold py_bind in E.
  destruct (reaches m base (ly_size l) s1) as [[[|]|x] s2] eqn:Ec; [|done|done]. injection E as <- <-. split; [done|]. exists regions, s1. split; [done|]. split; [|done]. split; [|by apply overlaps_apart].
  apply existsb_exists in Ex as ([[k lo] hi] & Hin & Hb). rewrite !andb_true_iff, Z.eqb_eq, !Z.leb_le in Hb. destruct Hb as [[-> ?] ?]. exists lo, hi. split; [by apply list_elem_of_In|done].
Qed.

(** C10: the DMA window is safe to give to the SSD: whether the tool picks it or the
    caller gives it, a window it accepts lies inside one Conventional region of the
    EFI memory map, shares no byte with any of q1n1's own regions, and the SSD
    reaches every byte of it at its own address, for reads and writes: the stream
    bypasses the SMMU, or the stage 2 walk of every single address ends in an
    identity mapping with full permissions. *)
Theorem dma_window_sound {S} `{!TargetOps S, !TargetWords S} (info : boot_info) (m : smmu) (s s' : S) (w size : Z) : wf_smmu m ->
  (exists base l, given_window info m base l s = (Ok w, s') /\ size = ly_size l) \/ (pick_window info m s = (Ok w, s') /\ size = ly_size M3_LAYOUT) ->
  exists regions s1, memory_regions info s = (Ok regions, s1) /\ window_clear info regions w size /\
    forall x, w <= x < w + size -> reachable (tw_word s) m x.
Proof.
  intros Hm [(base & l & E & ->)|[E ->]].
  - apply given_window_clear in E as (-> & regions & s1 & Er & Hc & E). exists regions, s1. split; [done|]. split; [done|].
    apply reaches_sound in E as [_ Hx]; [|unfold wf_smmu in Hm; lia]. by rewrite (memory_regions_word _ _ _ _ Er) in Hx.
  - unfold pick_window, py_bind in E. destruct (memory_regions info s) as [[regions|e] s1] eqn:Er; [|done].
    apply pick_loop_sound in E as (-> & (lo & hi & Hin & Hb) & Ha & Hx); [|done]. rewrite (memory_regions_word _ _ _ _ Er) in Hx. exists regions, s1. split; [done|].
    split; [|done]. split; [|done]. exists lo, hi. split; [by apply by_end_elem|done].
Qed.

(** ** The search ends *)

Section ends.
  Context {S : Type} `{!TargetOps S}.
  Hypothesis (Hword : forall a (s : S), fst (t_read64 a s) <> Raise OutOfFuel).
  Hypothesis (Hdata : forall a n live (s : S), fst (t_readmem a n live s) <> Raise OutOfFuel).

(** A program that does not run out of fuel. *)
Definition ends {A} (m : M S A) : Prop := forall s, fst (m s) <> Raise OutOfFuel.

Lemma ends_bind {A B} (m : M S A) (k : A -> M S B) : ends m -> (forall a, ends (k a)) -> ends (py_bind m k).
Proof. intros Hm Hk s. unfold py_bind. specialize (Hm s). destruct (m s) as [[a|e] s1]; [apply Hk|]. cbn in *. congruence. Qed.
Lemma ends_ret {A} (a : A) : ends (py_ret a).
Proof. by intros s. Qed.
Lemma ends_raise {A} e : e <> OutOfFuel -> ends (py_raise (A := A) e).
Proof. intros He s. cbn. congruence. Qed.
Lemma ends_lift {A} (r : result A) : r <> Raise OutOfFuel -> ends (py_lift r).
Proof. by intros Hr s. Qed.

Lemma ends_translate_loop n m ipa table level : 4 - level <= Z.of_nat n -> level <= 3 -> ends (translate_loop n m ipa table level).
Proof.
  revert table level. induction n as [|n IH]; intros table level Hn Hl; [lia|]. cbn [translate_loop]. cbv zeta.
  apply ends_bind; [apply ends_lift; unfold py_shl; by destruct (_ <? _)|intros top]. apply ends_bind; [intros s; apply Hword|intros d].
  destruct (_ =? 0); [apply ends_ret|]. destruct (Z.ltb_spec level 3) as [Hlt|]; cbn [andb]; [destruct (negb _); [apply IH; lia|]|]; destruct (_ && _); apply ends_ret.
Qed.

Lemma translate_loop_shape n m ipa table level (s : S) oa len ap s' : level <= 3 -> translate_loop n m ipa table level s = (Ok (Some (oa, len, ap)), s') ->
  exists k o, 12 <= k /\ len = 2 ^ k - ipa mod 2 ^ k /\ oa = 2 ^ k * o + 2 ^ 12 * (ipa mod 2 ^ k / 2 ^ 12).
Proof.
  revert table level s. induction n as [|n IH]; intros table level s Hl E; cbn [translate_loop] in E; [done|]. cbv zeta in E. unfold py_bind, py_lift in E. destruct (py_shl _ _); [|done].
  destruct (t_read64 _ s) as [[d|e] s1]; [|done]. destruct (_ =? 0); [done|]. destruct (Z.ltb_spec level 3) as [Hlt|Hge]; cbn [andb] in E.
  - destruct (negb _); [apply IH in E; [done|lia]|]. destruct (_ && _); [done|]. rewrite leaf_value in E by lia. injection E as <- <- _ _. do 2 eexists. split; [|done]. lia.
  - destruct (_ && _); [done|]. rewrite leaf_value in E by lia. injection E as <- <- _ _. do 2 eexists. split; [|done]. lia.
Qed.

Context (m : smmu) (Hm : wf_smmu m).

Lemma ends_reaches base size : ends (reaches m base size).
Proof.
  unfold reaches. destruct (sm_mode m); try apply ends_ret. assert (Hn : base + size <= base + Z.of_nat (Z.to_nat (size / PAGE + 1)) * 4096).
  { pose proof (Z.div_mod size PAGE ltac:(done)). pose proof (Z.mod_pos_bound size PAGE ltac:(done)). unfold PAGE in *. lia. }
  revert Hn. generalize (Z.to_nat (size / PAGE + 1)), (base + size). intros n lim. revert base. induction n as [|n IH]; intros at_ Hn; cbn [reaches_loop];
    (destruct (Z.leb_spec lim at_); [apply ends_ret|]); [lia|]. intros s. unfold py_bind.
  assert (Ht : ends (translate m at_)).
  { unfold translate. apply ends_bind; [apply ends_lift; unfold py_shr; by destruct (_ <? _)|intros over]. destruct (negb _); [apply ends_ret|]. apply ends_translate_loop; unfold wf_smmu in Hm; lia. }
  specialize (Ht s). destruct (translate m at_ s) as [[[[[oa len] ap]|]|e] s1] eqn:Et; [|done|cbn in *; congruence].
  destruct (Z.eqb_spec oa at_) as [->|]; [|done]. cbn [negb orb]. destruct (negb _); [done|]. apply IH.
  unfold translate, py_bind, py_lift in Et. destruct (py_shr _ _); [|done]. destruct (negb _); [done|]. apply translate_loop_shape in Et as (k & o & Hk & -> & Hoa); [|unfold wf_smmu in Hm; lia].
  destruct (page_aligned k o at_ Hk Hoa). lia.
Qed.

Lemma parse_regions_ends n off stride raw : parse_regions n off stride raw <> Raise OutOfFuel.
Proof.
  assert (Hu : forall k o (b : bytes), unpack_u k o b <> Raise OutOfFuel) by (intros k o b; unfold unpack_u; by case_decide).
  assert (Hb : forall A B (x : result A) (f : A -> result B), x <> Raise OutOfFuel -> (forall a, f a <> Raise OutOfFuel) -> rbind x f <> Raise OutOfFuel).
  { intros A B [a|e] f Hx Hf; [apply Hf|]. cbn in *. congruence. }
  revert off. induction n as [|n IH]; intros off; cbn [parse_regions]; [done|]. do 6 (apply Hb; [apply Hu|intros ?]). cbv zeta. destruct (_ || _); [done|]. by apply Hb.
Qed.

Lemma ends_regions info : ends (memory_regions info).
Proof.
  unfold memory_regions. cbv zeta. destruct (_ || _ || _ || _); [by apply ends_raise|]. apply ends_bind; [intros s; apply Hdata|intros raw]. apply ends_lift, parse_regions_ends.
Qed.

Lemma ends_candidates n own window start cand tried : cand < start + Z.of_nat n * WINDOW_STEP -> ends (candidates n m own window start cand tried).
Proof.
  revert cand tried. induction n as [|n IH]; intros cand tried Hn; cbn [candidates]; (destruct (Z.leb_spec start cand); cbn [andb]; [|apply ends_ret]); destruct (_ <? _); try apply ends_ret; [lia|].
  destruct (negb _); [|apply IH; lia]. apply ends_bind; [apply ends_reaches|intros [|]]; [apply ends_ret|apply IH; lia].
Qed.

Lemma ends_pick_loop rs own window tried : ends (pick_loop rs m own window tried).
Proof.
  revert tried. induction rs as [|[[kind lo] hi] rs IH]; intros tried; cbn [pick_loop]; [by apply ends_raise|]. destruct (negb _); [apply IH|]. cbv zeta.
  apply ends_bind; [|intros [[c|] t']; [apply ends_ret|apply IH]]. apply ends_candidates. set (cand := Z.land _ _).
  pose proof (Z.div_mod (cand - lo) WINDOW_STEP ltac:(done)). pose proof (Z.mod_pos_bound (cand - lo) WINDOW_STEP ltac:(done)). assert (0 < WINDOW_STEP) by done. nia.
Qed.
End ends.

(** The search for a DMA window ends on every target: checking whether the SSD
    reaches a stretch of memory, whatever the translation tables hold, takes at
    most one step per page and four table reads per step, and the candidates of a
    region are tried at most once each; so picking or checking a window returns or
    stops with an error of its own or of the target. *)
Theorem window_search_ends {S} `{!TargetOps S} (info : boot_info) (m : smmu) (base : Z) (l : layout) :
  (forall a (s : S), fst (t_read64 a s) <> Raise OutOfFuel) -> (forall a n live (s : S), fst (t_readmem a n live s) <> Raise OutOfFuel) -> wf_smmu m ->
  ends (S := S) (pick_window info m) /\ ends (S := S) (given_window info m base l).
Proof.
  intros Hw Hd Hm. split.
  - apply ends_bind; [by apply ends_regions|intros rs]. by apply ends_pick_loop.
  - unfold given_window. cbv zeta. destruct (negb _); [by apply ends_raise|]. apply ends_bind; [by apply ends_regions|intros rs].
    destruct (negb _); [by apply ends_raise|]. destruct (overlaps_own _ _ _); [by apply ends_raise|]. apply ends_bind; [by apply ends_reaches|intros ok].
    destruct (negb ok); [by apply ends_raise|apply ends_ret].
Qed.

(** ** A memory map, a stage 2 table and two windows *)

Definition window_info : boot_info := [("memory_map", 0x1000); ("memory_map_size", 40); ("memory_map_stride", 40); ("heap_base", 0x80600000); ("heap_size", 0x1000)].
Definition window_ram : ram :=
  {| ram_mem := mem_store 0x1000 (le_bytes 8 7 ++ le_bytes 8 0x80000000 ++ le_bytes 8 0 ++ le_bytes 8 2048 ++ le_bytes 8 0)
                 (mem_store 0x2010 (le_bytes 8 0x800000C1) (fun _ => x00)); ram_answer := 0 |}.
Definition window_smmu : smmu := Smmu S2 39 1 0x2000.

Lemma dma_window_sound_witness : fst (pick_window window_info window_smmu window_ram) = Ok 0x80200000 /\
  forall x, 0x80200000 <= x < 0x80200000 + ly_size M3_LAYOUT -> reachable (tw_word window_ram) window_smmu x.
Proof.
  assert (Hok : fst (pick_window window_info window_smmu window_ram) = Ok 0x80200000) by (vm_compute; reflexivity). split; [exact Hok|].
  destruct (dma_window_sound window_info window_smmu window_ram (snd (pick_window window_info window_smmu window_ram)) 0x80200000 (ly_size M3_LAYOUT)) as (rs & s1 & _ & _ & H).
  - unfold wf_smmu. cbn. lia.
  - right. split; [|reflexivity]. rewrite <- Hok. apply surjective_pairing.
  - exact H.
Defined.

Lemma window_search_ends_witness : wf_smmu window_smmu /\ fst (pick_window window_info window_smmu window_ram) <> Raise OutOfFuel /\
  fst (given_window window_info window_smmu 0x80600000 ADOPT_LAYOUT window_ram) <> Raise OutOfFuel.
Proof.
  assert (Hm : wf_smmu window_smmu) by (unfold wf_smmu; cbn; lia). split; [exact Hm|].
  destruct (window_search_ends (S := ram) window_info window_smmu 0x80600000 ADOPT_LAYOUT) as [H1 H2]; [intros a s; cbn; discriminate|intros a n live s; cbn; discriminate|exact Hm|].
  split; [apply H1|apply H2].
Defined.

(** ** The whole hand-over *)

Definition harmless (x : action) : Prop := match x with ARead32 _ | ARead64 _ | AReadMem _ _ _ | ANow => True | _ => False end.

(** The environment after [n] more actions. *)
Definition later (n : list action) (e : env) : env := {| ev_log := n ++ ev_log e; ev_word := ev_word e; ev_data := ev_data e |}.

(** Programs that only read. *)
Definition reads {A} (m : M env A) : Prop := forall e r e', m e = (r, e') -> exists n, e' = later n e /\ Forall harmless n.

Lemma later_later a b e : later a (later b e) = later (a ++ b) e.
Proof. unfold later. cbn. by rewrite app_assoc. Qed.
Lemma later_nil e : e = later [] e.
Proof. by destruct e. Qed.

Lemma reads_bind {A B} (m : M env A) (k : A -> M env B) : reads m -> (forall a, reads (k a)) -> reads (py_bind m k).
Proof.
  intros Hm Hk e r e' E. unfold py_bind in E. destruct (m e) as [[a|x] e1] eqn:E1; destruct (Hm _ _ _ E1) as (n1 & -> & F1).
  - destruct (Hk a _ _ _ E) as (n2 & -> & F2). exists (n2 ++ n1). split; [apply later_later|by apply Forall_app].
  - injection E as <- <-. by exists n1.
Qed.
Lemma reads_ret {A} (a : A) : reads (py_ret a).
Proof. intros e r e' [= <- <-]. exists []. split; [apply later_nil|done]. Qed.
Lemma reads_raise {A} x : reads (py_raise (A := A) x).
Proof. intros e r e' [= <- <-]. exists []. split; [apply later_nil|done]. Qed.
Lemma reads_lift {A} (x : result A) : reads (py_lift x).
Proof. intros e r e' [= <- <-]. exists []. split; [apply later_nil|done]. Qed.
Lemma reads_r32 a : reads (t_read32 a).
Proof. intros e r e' ->%ask_log. exists [ARead32 a]. split; [done|by repeat constructor]. Qed.
Lemma reads_r64 a : reads (t_read64 a).
Proof. intros e r e' ->%ask_log. exists [ARead64 a]. split; [done|by repeat constructor]. Qed.
Lemma reads_mem a n live : reads (t_readmem a n live).
Proof. intros e r e' ->%ask_data_log. exists [AReadMem a n live]. split; [done|by repeat constructor]. Qed.

Create HintDb reads.
#[export] Hint Resolve reads_bind reads_ret reads_raise reads_lift reads_r32 reads_r64 reads_mem : reads.
Ltac reads_auto := repeat first
  [ progress intros
  | progress cbv zeta
  | solve [auto 1 with reads]
  | apply reads_bind
  | match goal with |- reads (if ?b then _ else _) => destruct b end
  | match goal with |- reads (match ?x with _ => _ end) => destruct x end ].

Lemma reads_regions info : reads (memory_regions info).
Proof. unfold memory_regions. cbv zeta. reads_auto. Qed.
Lemma reads_xsdt n off body want : reads (xsdt_loop n off body want).
Proof. revert off. induction n as [|n IH]; intros off; cbn [xsdt_loop]; reads_auto. Qed.
#[export] Hint Resolve reads_regions reads_xsdt : reads.
Lemma reads_config base : reads (config_header base).
Proof. unfold config_header. reads_auto. Qed.
#[export] Hint Resolve reads_config : reads.
Lemma reads_locate info : reads (locate info).
Proof. unfold locate, acpi_table. reads_auto. Qed.
Lemma reads_smmu_entry ste : reads (smmu_entry ste).
Proof. unfold smmu_entry. cbv zeta. reads_auto. Qed.
#[export] Hint Resolve reads_smmu_entry : reads.
Lemma reads_smmu sid base : reads (smmu_init sid base).
Proof. unfold smmu_init. cbv zeta. reads_auto. Qed.
Lemma reads_translate n m ipa table level : reads (translate_loop n m ipa table level).
Proof. revert table level. induction n as [|n IH]; intros table level; cbn [translate_loop]; cbv zeta; reads_auto. Qed.
#[export] Hint Resolve reads_translate : reads.
Lemma reads_reaches m base size : reads (reaches m base size).
Proof.
  unfold reaches. generalize (Z.to_nat (size / PAGE + 1)), (base + size). intros n lim. destruct (sm_mode m); auto with reads. revert base. induction n as [|n IH]; intros at_; cbn [reaches_loop]; unfold translate; reads_auto.
Qed.
#[export] Hint Resolve reads_reaches : reads.

Lemma reads_given info m base l : reads (given_window info m base l).
Proof. unfold given_window. cbv zeta. reads_auto. Qed.

(** Memory writes stay inside the window. *)
Lemma allowed_inside bar w l wr R a d : layout_fits l -> allowed bar w l wr R (AWriteMem a d) -> w <= a /\ a + zlen d <= w + ly_size l.
Proof.
  intros [L1 L2 L3 L4 L5] Hw. cbn in Hw. unfold write_ok, in_queue, admin_entry_ok, io_entry_ok, ly_asq, ly_iosq, ly_prp, ADMIN_ENTRIES, IO_ENTRIES, PAGE in *.
  destruct Hw as [[(t & Ht & ->) (Hd & _)]|[[(t & Ht & ->) (Hd & _)]|[Hp|(_ & Hp)]]]; unfold zlen in *; lia.
Qed.

(** The part of [adopt] that drives the controller. *)
Lemma adopt_drives bar w guid fuel : safe fst (drv_ok bar w ADOPT_LAYOUT anything []) (allowed bar w ADOPT_LAYOUT false [])
  (takeover bar w ADOPT_LAYOUT fuel ;;; identify bar w ADOPT_LAYOUT false fuel ;;; io_queues bar w ADOPT_LAYOUT false fuel ;;;
   let! armed := arm_window bar w ADOPT_LAYOUT false guid fuel in
   let! io := get_queue Io in
   let! admin := get_queue Adm in
   if negb (bool_decide (q_outstanding io = ∅)) || negb (bool_decide (q_outstanding admin = ∅))
   then py_raise (Stop "commands still outstanding at hand-off") else py_ret armed).
Proof.
  pose proof adopt_layout_fits. apply safe_bind; [apply sf_takeover|intros _]. apply safe_bind; [by apply sa_identify|intros _]. apply safe_bind; [apply sf_io_queues|intros _].
  apply safe_bind; [by apply sa_arm|intros armed]. do 2 (apply sf_queue; intros ? ?). destruct (_ || _); sf_pure.
Qed.

Lemma harmless_allowed bar w l wr R x : harmless x -> allowed bar w l wr R x.
Proof. by destruct x. Qed.

(** What [adopt] did: nothing but reads, or commands of the read-only driver in the
    window it checked. *)
Definition handed_over (info : boot_info) (dma : Z) (e : env) (new : list action) : Prop :=
  Forall harmless new \/
  exists bar n1 regions e1, (exists n2, new = n2 ++ n1) /\ memory_regions info (later n1 e) = (Ok regions, e1) /\
    window_clear info regions dma (ly_size ADOPT_LAYOUT) /\ Forall (allowed bar dma ADOPT_LAYOUT false []) new.

Lemma adopt_spec info bar m dma guid fuel e d r s' : adopt info bar m dma guid fuel (e, d) = (r, s') ->
  exists new, ev_log (fst s') = new ++ ev_log e /\ handed_over info dma e new.
Proof.
  unfold adopt. unfold py_bind at 1. unfold on_hw at 1. cbn [fst snd]. destruct (given_window info m dma ADOPT_LAYOUT e) as [[w|x] e1] eqn:Eg; destruct (reads_given _ _ _ _ _ _ _ Eg) as (n1 & -> & F1).
  2:{ intros [= <- <-]. exists n1. split; [done|by left]. }
  apply given_window_clear in Eg as (-> & regions & e1 & Er & Hc & _). unfold py_bind at 1. cbn [set_attr py_modify fst snd]. intros E.
  destruct (adopt_drives bar dma guid fuel _ _ _ (driver_init_ok bar dma ADOPT_LAYOUT (later n1 e)) E) as (_ & n2 & Hn & F2). exists (n2 ++ n1). split; [rewrite Hn; cbn; by rewrite app_assoc|].
  right. exists bar, [], regions, e1. split; [exists (n2 ++ n1); by rewrite app_nil_r|]. rewrite <- later_nil. split; [done|]. split; [done|]. apply Forall_app. split; [done|].
  eapply Forall_impl; [exact F1|]. intros x. apply harmless_allowed.
Qed.

(** C9: adopting the SSD is confined to the caller's window: on every target, whatever
    its tables hold and its controller answers, the whole run, from finding the
    controller to the hand-over, either only reads, or has checked that the given
    window lies inside one Conventional region of the memory map the target
    reported and shares no byte with q1n1's own memory; and then all it does is
    what the read-only driver is allowed in that window: no command but reads of
    the disk and the admin commands of the allow-list, and no memory written
    outside the window. *)
Theorem adopt_confined (info : boot_info) (dma : Z) (guid : bytes) (fuel : nat) (e : env) (d : driver) :
  let s' := snd (run_adopt info dma guid fuel (e, d)) in
  exists new, ev_log (fst s') = new ++ ev_log e /\ handed_over info dma e new /\
    forall a b, AWriteMem a b ∈ new -> dma <= a /\ a + zlen b <= dma + ly_size ADOPT_LAYOUT.
Proof.
  cbv zeta. assert (Hmain : exists new, ev_log (fst (snd (run_adopt info dma guid fuel (e, d)))) = new ++ ev_log e /\ handed_over info dma e new).
  { unfold run_adopt. unfold py_bind at 1. unfold on_hw at 1. cbn [fst snd]. destruct (locate info e) as [[[bar sid]|x] e1] eqn:El; destruct (reads_locate _ _ _ _ El) as (n1 & -> & F1); [|exists n1; split; [done|by left]].
    unfold py_bind at 1. unfold on_hw at 1. cbn [fst snd]. destruct (smmu_init sid SMMU_BASE (later n1 e)) as [[m|x] e1] eqn:Es; destruct (reads_smmu _ _ _ _ _ Es) as (n2 & -> & F2); rewrite later_later;
      (assert (F12 : Forall harmless (n2 ++ n1)) by (by apply Forall_app)); [|exists (n2 ++ n1); split; [done|by left]].
    destruct (negb _); [exists (n2 ++ n1); split; [done|by left]|]. destruct (adopt info bar m dma guid fuel (later (n2 ++ n1) e, d)) as [r s'] eqn:Ea.
    destruct (adopt_spec _ _ _ _ _ _ _ _ _ _ Ea) as (n3 & Hn & Hh). exists (n3 ++ n2 ++ n1). split; [cbn [snd]; rewrite Hn; cbn; by rewrite <- !app_assoc|].
    destruct Hh as [Hr|(b & k & regions & e1 & (k2 & ->) & Hm & Hc & Hf)]; [left; by apply Forall_app|right]. exists b, (k ++ n2 ++ n1), regions, e1.
    split; [exists k2; by rewrite <- !app_assoc|]. rewrite later_later in Hm. split; [done|]. split; [done|]. apply Forall_app. split; [done|]. eapply Forall_impl; [exact F12|]. intros x. apply harmless_allowed. }
  destruct Hmain as (new & Hn & Hh). exists new. split; [done|]. split; [done|]. intros a b Hin. destruct Hh as [Hr|(bar & _ & _ & _ & _ & _ & _ & Hf)].
  - rewrite Forall_forall in Hr. by apply Hr in Hin.
  - rewrite Forall_forall in Hf. apply Hf in Hin. by apply allowed_inside in Hin; [|exact adopt_layout_fits].
Qed.
