(* ===== verification/NvmeHash.v ===== *)
(** * src/tools/nvme_hash.py: the native hash helper

    Large parts of the disk are hashed on the target, by a small program that runs
    from the unused tail of the stage's slot.  Before it is uploaded, the running
    stage is bound to a local build: the resident text must be that build's ELF
    text.  [digest] then calls the helper piece by piece and takes the queue
    cursors over from it.

    Files are arguments: a build directory is the contents of its ELF and binary,
    or [None] when they do not exist.  Section names are kept as bytes.  Progress
    reports and the log are not modelled. *)

From Stdlib Require Import ZArith Lia.
From Stdlib Require Import Strings.Byte Strings.String.
From stdpp Require Import base list sorting numbers strings gmap sets.
From S2P Require Import Prelude Bytes Q1n1Link Sha256 Target Preload Nvme NvmeSafe NvmeSetup.

Local Open Scope string_scope.
Local Open Scope list_scope.
Local Open Scope Z_scope.
Local Open Scope py_scope.

Definition HASH_MAGIC := 0x31485341484D564E.
Definition HASH_HEADER : nat := 160.
Definition WORK_BYTES := 296.
Definition SHF_ALLOC := 2.
Definition SHT_NOBITS := 8.
Definition ELF_MAGIC : bytes := x7f :: list_byte_of_string "ELF" ++ [x02; x01].

(** ** ELF sections *)

Record section := Section_ { sh_name : Z; sh_type : Z; sh_flags : Z; sh_addr : Z; sh_offset : Z; sh_size : Z }.

Definition section_at (elf : bytes) (off : nat) : result section :=
  let? name := unpack_u 4 off elf in
  let? type := unpack_u 4 (off + 4) elf in
  let? flags := unpack_u 8 (off + 8) elf in
  let? addr := unpack_u 8 (off + 16) elf in
  let? offset := unpack_u 8 (off + 24) elf in
  let? size := unpack_u 8 (off + 32) elf in
  let? _ := unpack_u 8 (off + 56) elf in
  Ok (Section_ name type flags addr offset size).

Fixpoint sections_at (n : nat) (i shoff entsize : Z) (elf : bytes) : result (list section) :=
  match n with
  | O => Ok []
  | S k =>
      let? s := section_at elf (Z.to_nat (shoff + i * entsize)) in
      let? r := sections_at k (i + 1) shoff entsize elf in Ok (s :: r)
  end.

(** [elf[o:o + n]] for a section. *)
Definition contents (elf : bytes) (s : section) : bytes := slice (Z.to_nat (sh_offset s)) (Z.to_nat (sh_offset s + sh_size s)) elf.

(** The name table [{name: s}]: a repeated name keeps its place and takes the later
    section. *)
Fixpoint dict_put (k : bytes) (v : section) (d : list (bytes * section)) : list (bytes * section) :=
  match d with
  | [] => [(k, v)]
  | (k', v') :: r => if bytes_eqb k' k then (k, v) :: r else (k', v') :: dict_put k v r
  end.
Definition elf_sections (elf : bytes) : result (list (bytes * section)) :=
  if negb (bytes_eqb (take 6 elf) ELF_MAGIC) then Raise (Refused "stage ELF format") else
  let? shoff := unpack_u 8 40 elf in
  let? entsize := unpack_u 2 58 elf in
  let? count := unpack_u 2 60 elf in
  let? names_index := unpack_u 2 62 elf in
  let? sections := sections_at (Z.to_nat count) 0 shoff entsize elf in
  match sections !! Z.to_nat names_index with
  | None => Raise IndexError
  | Some names =>
      let strings := contents elf names in
      Ok (fold_left (fun d s => dict_put (until_nul (drop (Z.to_nat (sh_name s)) strings)) s d) sections [])
  end.

(** ** Stage images *)

Record image := Image { im_elf : bytes; im_bin : bytes; im_text : bytes; im_text_address : Z; im_allocated_end : Z }.

Definition has_flag (s : section) : bool := negb (Z.land (sh_flags s) SHF_ALLOC =? 0).
Definition is_loaded (s : section) : bool := has_flag s && negb (sh_type s =? SHT_NOBITS).
Definition py_min (l : list Z) : result Z := match l with [] => Raise (ValueError "min() arg is an empty sequence") | x :: r => Ok (fold_left Z.min r x) end.
Definition py_max (l : list Z) : result Z := match l with [] => Raise (ValueError "max() arg is an empty sequence") | x :: r => Ok (fold_left Z.max r x) end.

(** [flat[a:b] = data] on a bytearray. *)
Definition set_slice (a b : nat) (data flat : bytes) : bytes := take a flat ++ data ++ drop b flat.
Definition lay (elf : bytes) (base : Z) (flat : bytes) (s : section) : bytes :=
  set_slice (Z.to_nat (sh_addr s - base)) (Z.to_nat (sh_addr s - base + sh_size s)) (contents elf s) flat.

Definition TEXT : bytes := list_byte_of_string ".text".
Definition find_section (k : bytes) (d : list (bytes * section)) : option section :=
  match List.find (fun e => bytes_eqb (fst e) k) d with Some e => Some (snd e) | None => None end.

Definition stage_image (elf bin : bytes) : result image :=
  let? sections := elf_sections elf in
  match find_section TEXT sections with
  | None => Raise (Refused "no .text")
  | Some text =>
      let all := map snd sections in
      let loaded := List.filter is_loaded all in
      let base := sh_addr text in
      let? low := py_min (map sh_addr loaded) in
      if negb (low =? base) then Raise (Refused ".text is not the first loaded section") else
      let? high := py_max (map (fun s => sh_addr s + sh_size s) loaded) in
      let flat := fold_left (lay elf base) loaded (replicate (Z.to_nat (high - base)) x00) in
      if negb (bytes_eqb bin flat) then Raise (Refused "not the image of the ELF") else
      let? allocated_end := py_max (map (fun s => sh_addr s + sh_size s) (List.filter has_flag all)) in
      Ok (Image elf bin (contents elf text) (sh_addr text) allocated_end)
  end.

(** ** Binding the running stage *)

(** [expected]: the build's text with the resident configuration word. *)
Definition with_config (live text : bytes) : bytes := set_slice 24 32 (slice 24 32 live) text.

(** A build directory: the pair of files per slot, [None] when absent. *)
Record build := Build { bu_stage : option (bytes * bytes); bu_alt : option (bytes * bytes) }.

Section native_hash.
  Context {S : Type} `{!TargetOps S}.

(** The loop of [bind_stage]: [resident] caches what was read, by size. *)
Fixpoint bind_loop (builds : list (option (bytes * bytes))) (image_base : Z) (resident : list (Z * bytes)) : M S (list image) :=
  match builds with
  | [] => py_ret []
  | None :: r => bind_loop r image_base resident
  | Some (elf, bin) :: r =>
      let! im := py_lift (stage_image elf bin) in
      if negb (im_text_address im =? image_base) then bind_loop r image_base resident else
      let size := zlen (im_text im) in
      let! live := (match List.find (fun e => fst e =? size) resident with
                    | Some e => py_ret (snd e)
                    | None => t_readmem image_base size false
                    end) in
      let resident := (size, live) :: resident in
      if negb (bytes_eqb live (with_config live (im_text im))) then bind_loop r image_base resident else
      let! rest := bind_loop r image_base resident in
      py_ret (im :: rest)
  end.

Definition bind_stage (info : boot_info) (builds : list build) : M S (image * Z) :=
  let! stage_size := py_lift (info_item info "stage_size") in
  let slot := stage_size / 2 in
  let! image_base := py_lift (info_item info "image_base") in
  let! stage_base := py_lift (info_item info "stage_base") in
  if negb ((image_base =? stage_base) || (image_base =? stage_base + slot))
  then py_raise (Refused "no unused executable tail in the current q1n1 stage slot") else
  let! matched := bind_loop (map (if image_base =? stage_base then bu_stage else bu_alt) builds) image_base [] in
  match matched with
  | [] => py_raise (Refused "running stage text does not match any local stage build")
  | m :: r =>
      if negb (forallb (fun x => bytes_eqb (sha256 (im_bin x)) (sha256 (im_bin m))) r) || negb (forallb (fun x => im_allocated_end x =? im_allocated_end m) r)
      then py_raise (Refused "running stage text matches different stage builds") else py_ret (m, slot)
  end.

(** ** The helper *)

Context (bar w : Z) (l : layout).
Abbreviation N := (S * driver)%type.

Definition flush_code (a n : Z) : M N unit := on_hw (t_request P_DC_CVAU [a; n]) ;;; on_hw (t_request P_IC_IVAU [a; n]).
Definition set_exc_guard (mode : Z) : M N unit := on_hw (t_request P_SET_EXC_GUARD [mode]).
(** [mov x0, #0; ret]. *)
Definition LEAF : bytes := [x00; x00; x80; xd2; xc0; x03; x5f; xd6].

(** The build record: the sources with their digests, and the binary's. *)
Record hash_build := HashBuild { hb_sources : list (bytes * bytes); hb_binary : bytes; hb_binary_sha256 : bytes }.

Definition idle (q : queue) : bool := bool_decide (q_outstanding q = ∅).

(** [NativeHash(nvme)]: the addresses of the code and of its state. *)
Definition native_hash (hb : hash_build) (info : boot_info) (builds : list build) : M N (Z * Z) :=
  if negb ((ly_size l =? ly_size M3_LAYOUT) && (ly_data l =? ly_data M3_LAYOUT) && (ly_data_bytes l =? ly_data_bytes M3_LAYOUT) && (ly_chunk l =? ly_chunk M3_LAYOUT))
  then py_raise (Refused "native hash requires idle M3-layout queues") else
  let! io := get_queue Io in
  if negb (idle io) then py_raise (Refused "native hash requires idle M3-layout queues") else
  let! admin := get_queue Adm in
  if negb (idle admin) then py_raise (Refused "native hash requires idle M3-layout queues") else
  if negb (forallb (fun '(src, want) => bytes_eqb (digest src) want) (hb_sources hb)) then py_raise (Refused "native hash source changed after build") else
  let binary := hb_binary hb in
  if negb (bytes_eqb (digest binary) (hb_binary_sha256 hb)) then py_raise (Refused "native hash binary changed after build") else
  let! '(stage, slot) := on_hw (bind_stage info builds) in
  let! image_base := py_lift (info_item info "image_base") in
  let code := image_base + slot - 65536 in
  let state := w + 0x60000 in
  if code <? im_allocated_end stage then py_raise (Refused "helper code would overlap the linked stage/BSS/stack") else
  hw_write code LEAF ;;;
  flush_code code (zlen LEAF) ;;;
  set_exc_guard 3 ;;;
  py_finally
    (let! result := on_hw (t_call code []) in
     let! faults := on_hw (t_query P_GET_EXC_COUNT []) in
     if negb (result =? 0) || negb (faults =? 0) then py_raise (Refused "reserved stage tail is not executable") else py_ret tt)
    (set_exc_guard 0) ;;;
  hw_write code binary ;;;
  flush_code code (zlen binary) ;;;
  let! back := hw_read code (zlen binary) in
  if negb (bytes_eqb back binary) then py_raise (Refused "native hash upload differs") else
  py_ret (code, state).

(** ** Hashing *)

(** The overlay table and its payload. *)
Fixpoint overlay_table (overlays : list (Z * bytes)) (limit at_ : Z) : result (bytes * bytes) :=
  match overlays with
  | [] => Ok ([], [])
  | (absolute, data) :: r =>
      if bool_decide (data = []) || (absolute <? 0) || (limit <? absolute + zlen data) then Raise (Refused "restore overlay is outside namespace 1") else
      let? entry := pack_Qs [absolute; at_; zlen data] in
      let? rest := overlay_table r limit (at_ + zlen data) in
      Ok (entry ++ fst rest, data ++ snd rest)
  end.

Definition q_set_cursors (tail head phase next : Z) (q : queue) : queue := q_set_next next (q_set_head head phase (q_set_tail tail q)).

(** The loop of [digest]; [st] is the hash state carried from call to call. *)
Fixpoint digest_loop (fuel : nat) (code state lba count per done commands table_at entries : Z) (st : bytes) : M N bytes :=
  if count <=? done then py_ret st else
  match fuel with
  | O => py_raise OutOfFuel
  | Datatypes.S k =>
      let n := Z.min per (count - done) in
      let! lba_bytes := need d_lba_bytes (TypeError "NoneType") in
      let! max_transfer := need d_max_transfer (AttributeError "max_transfer") in
      let! nsze := need d_nsze (TypeError "NoneType") in
      let! q := get_queue Io in
      let! stride := need d_stride (AttributeError "stride") in
      let! head := py_lift (pack_Qs [HASH_MAGIC; bar; w; lba + done; n; lba_bytes; max_transfer; nsze;
                                     q_tail q; q_head q; q_phase q; q_next_cid q; stride; q_entries q; 0; 0; 0; commands;
                                     table_at; entries]) in
      hw_write state (head ++ st) ;;;
      let! result := on_hw (t_call code [state; if done =? 0 then 1 else 0; if done + n =? count then 1 else 0]) in
      let! output := hw_read state WORK_BYTES in
      let! after := py_lift (unpack_Qs 20 0 output) in
      let at_ i := default 0 (after !! i) in
      put_queue Io (q_set_cursors (at_ 8%nat) (at_ 9%nat) (at_ 10%nat) (at_ 11%nat) q) ;;;
      if negb (result =? 0) || negb (at_ 14%nat =? 0) || negb (at_ 15%nat =? n) then py_raise (Misbehaved "native NVMe hash failed") else
      digest_loop k code state lba count per (done + n) (at_ 17%nat) table_at entries (drop HASH_HEADER output)
  end.

(** [NativeHash.digest]: the digest in hexadecimal. *)
Definition nh_digest (code state lba count : Z) (overlays : list (Z * bytes)) (fuel : nat) : M N bytes :=
  if (lba <? 0) || (count <=? 0) then py_raise (Refused "native hash range/queue invalid") else
  let! nsze := need d_nsze (TypeError "NoneType") in
  if nsze <? lba + count then py_raise (Refused "native hash range/queue invalid") else
  let! q := get_queue Io in
  if negb (idle q) then py_raise (Refused "native hash range/queue invalid") else
  if (256 <? zlen overlays) || (Z.shiftl 1 20 <? fold_right (fun o t => zlen (snd o) + t) 0 overlays)
  then py_raise (Refused "restore overlay exceeds the hash helper RAM reservation") else
  let! lba_bytes := need d_lba_bytes (TypeError "NoneType") in
  let! '(table, payload) := py_lift (overlay_table overlays (nsze * lba_bytes) (w + 0x70000)) in
  (if bool_decide (table = []) then py_ret tt else hw_write (w + 0x61000) table ;;; hw_write (w + 0x70000) payload) ;;;
  let! per := py_lift (py_div (Z.shiftl 16 20) lba_bytes) in
  let! st := digest_loop fuel code state lba count per 0 0 (if bool_decide (overlays = []) then 0 else w + 0x61000) (zlen overlays) (replicate 136 x00) in
  py_ret (hex_lower (drop (length st - 32) st)).
End native_hash.

(** ** Binding *)

Section binding.
  Context {S : Type} `{!TargetOps S}.

(** A build that the running stage was found to come from. *)
Definition bound_to (image_base : Z) (p : bytes * bytes) (m : image) : Prop :=
  stage_image (fst p) (snd p) = Ok m /\ im_text_address m = image_base /\
  exists live s s', t_readmem (S := S) image_base (zlen (im_text m)) false s = (Ok live, s') /\ live = with_config live (im_text m).

Lemma bind_loop_sound builds base resident (s : S) ms s' :
  Forall (fun e => exists s1 s2, t_readmem (S := S) base (fst e) false s1 = (Ok (snd e), s2)) resident ->
  bind_loop builds base resident s = (Ok ms, s') -> Forall (fun m => exists p, Some p ∈ builds /\ bound_to base p m) ms.
Proof.
  revert resident s ms. induction builds as [|[[elf bin]|] builds IH]; intros resident s ms Hr E; cbn [bind_loop] in E; [injection E as <- _; constructor| |].
  2:{ eapply Forall_impl; [by eapply (IH _ _ _ Hr)|]. intros m (p & Hp & Hb). exists p. split; [by right|done]. }
  assert (Hrest : forall res st l1, Forall (fun e => exists s1 s2, t_readmem (S := S) base (fst e) false s1 = (Ok (snd e), s2)) res -> bind_loop builds base res st = (Ok l1, s') ->
    Forall (fun m => exists p, Some p ∈ Some (elf, bin) :: builds /\ bound_to base p m) l1).
  { intros res st l1 H1 H2. eapply Forall_impl; [by eapply (IH _ _ _ H1)|]. intros m (p & Hp & Hb). exists p. split; [by right|done]. }
  unfold py_bind at 1, py_lift in E. destruct (stage_image elf bin) as [im|] eqn:Ei; [|done].
  destruct (Z.eqb_spec (im_text_address im) base) as [Ha|]; [|by eapply Hrest]. cbn [negb] in E. cbv zeta in E.
  unfold py_bind at 1 in E. set (size := zlen (im_text im)) in *.
  destruct ((match List.find _ _ with Some e => py_ret (snd e) | None => _ end) s) as [[live|x] s1] eqn:El; [|done].
  assert (Hl : exists s2 s3, t_readmem (S := S) base size false s2 = (Ok live, s3)).
  { destruct (List.find _ resident) as [[sz lv]|] eqn:Ef; [|eauto]. injection El as <- <-. apply List.find_some in Ef as [Hin Hs%Z.eqb_eq]. cbn in Hs. subst sz.
    apply list_elem_of_In in Hin. rewrite Forall_forall in Hr. exact (Hr _ Hin). }
  assert (Hr' : Forall (fun e => exists s2 s3, t_readmem (S := S) base (fst e) false s2 = (Ok (snd e), s3)) ((size, live) :: resident)) by (by constructor).
  destruct (bytes_eqb live (with_config live (im_text im))) eqn:Eb; cbn [negb] in E; [|by eapply Hrest]. apply bool_decide_eq_true_1 in Eb.
  unfold py_bind in E. destruct (bind_loop builds base _ s1) as [[rest|x] s2] eqn:Er; [|done]. injection E as <- <-. constructor; [|by eapply Hrest].
  exists (elf, bin). split; [by left|]. split; [done|]. split; [done|]. destruct Hl as (s3 & s4 & Hl). by exists live, s3, s4.
Qed.
End binding.

(** Text that is its own configured copy is the build's, but for the configuration
    word. *)
Lemma with_config_same live text i : length live = length text -> live = with_config live text -> (i < 24 \/ 32 <= i)%nat -> live !! i = text !! i.
Proof.
  intros Hlen E Hi. rewrite E. unfold with_config, set_slice. destruct (Nat.lt_ge_cases i 24) as [Hlt|Hge].
  - destruct (Nat.lt_ge_cases i (length text)) as [H1|H1].
    + rewrite lookup_app_l by (rewrite length_take; lia). by apply lookup_take_lt.
    + rewrite (lookup_ge_None_2 text) by done. apply lookup_ge_None_2. rewrite !length_app, length_take, length_drop. unfold slice. rewrite length_take, length_drop. lia.
  - destruct Hi as [?|Hi]; [lia|]. destruct (Nat.lt_ge_cases i (length text)) as [H1|H1].
    + assert (Hs : length (slice 24 32 live) = 8%nat) by (unfold slice; rewrite length_take, length_drop; lia).
      rewrite lookup_app_r by (rewrite length_take; lia). rewrite length_take, lookup_app_r by (rewrite Hs; lia). rewrite Hs, lookup_drop. f_equal. lia.
    + rewrite (lookup_ge_None_2 text) by done. apply lookup_ge_None_2. rewrite !length_app, length_take, length_drop. unfold slice. rewrite length_take, length_drop. lia.
Qed.

(** The helper is placed only beside a stage that is known: when the running
    stage is bound to a build, the build's ELF for the slot is linked exactly
    where the stage runs, the binary that is chainloaded is the ELF's loaded
    sections laid out flat, and the text read back from the target equals the
    ELF's text in every byte except the configuration word. *)
Theorem bind_stage_sound {S} `{!TargetOps S} (info : boot_info) (builds : list build) (s s' : S) (m : image) (slot : Z) :
  bind_stage info builds s = (Ok (m, slot), s') ->
  exists image_base p, info_item info "image_base" = Ok image_base /\
    (exists b, b ∈ builds /\ (bu_stage b = Some p \/ bu_alt b = Some p)) /\ stage_image (fst p) (snd p) = Ok m /\ im_text_address m = image_base /\
    exists live s1 s2, t_readmem image_base (zlen (im_text m)) false s1 = (Ok live, s2) /\
      (length live = length (im_text m) -> forall i, (i < 24 \/ 32 <= i)%nat -> live !! i = im_text m !! i).
Proof.
  unfold bind_stage. intros E. unfold py_bind at 1, py_lift in E. destruct (info_item info "stage_size") as [size|]; [|done].
  cbv zeta in E. unfold py_bind at 1 in E. destruct (info_item info "image_base") as [base|] eqn:Eb; [|done]. unfold py_bind at 1 in E. destruct (info_item info "stage_base") as [sb|]; [|done].
  destruct (negb _); [done|]. unfold py_bind in E. destruct (bind_loop _ _ _ s) as [[ms|x] s1] eqn:Ebl; [|done]. apply bind_loop_sound in Ebl; [|constructor].
  destruct ms as [|m0 r]; [done|]. destruct (_ || _); [done|]. injection E as -> _ _. apply Forall_cons in Ebl as [(p & Hp & Hi & Ha & live & s2 & s3 & Hl & Hw) _].
  exists base, p. split; [done|]. split.
  { apply list_elem_of_fmap in Hp as (b & Hb & Hin). exists b. split; [done|]. destruct (base =? sb); [left|right]; by symmetry. }
  split; [done|]. split; [done|]. exists live, s2, s3. split; [done|]. intros Hlen i Hi0. by apply with_config_same.
Qed.

(** ** What the helper touches *)

(** Targets that return as many bytes as were asked for. *)
Definition full_reads (e : env) : Prop := forall a n live log b, 0 <= n -> ev_data e (AReadMem a n live :: log) = Ok b -> zlen b = n.

(** The helper's own memory in the DMA window: its state, the overlay table and
    the overlay payload. *)
Definition in_area (a n lo size : Z) : Prop := lo <= a /\ a + n <= lo + size.
Definition digest_may (w code : Z) (x : action) : Prop :=
  match x with
  | ARead32 _ | ARead64 _ | AReadMem _ _ _ | ANow => True
  | AWriteMem a d => in_area a (zlen d) (w + 0x60000) WORK_BYTES \/ in_area a (zlen d) (w + 0x61000) 6144 \/ in_area a (zlen d) (w + 0x70000) (Z.shiftl 1 20)
  | ACall a _ => a = code
  | _ => False
  end.

Section touches.
  Context (bar w code : Z).
  Abbreviation N := (env * driver)%type.
  Abbreviation dg := (safe (@fst env driver) (fun s => full_reads (fst s)) (digest_may w code)).

Lemma full_push x e : full_reads e -> full_reads (ev_push x e).
Proof. done. Qed.

Lemma dg_hw {A} (m : M env A) x : (forall e r e', m e = (r, e') -> e' = ev_push x e) -> digest_may w code x -> dg (on_hw m).
Proof.
  intros Hm Hx s r s' Hs E. unfold on_hw in E. destruct (m (fst s)) as [r1 e1] eqn:E1. injection E as <- <-. rewrite (Hm _ _ _ E1). split; [done|]. exists [x]. split; [done|by constructor].
Qed.
Lemma dg_need {A B} (f : driver -> option A) e (k : A -> M N B) : (forall v, dg (k v)) -> dg (py_bind (need f e) k).
Proof. intros Hk. apply safe_bind; [|done]. unfold need, attr. apply safe_get. intros s _. destruct (f (snd s)); [apply safe_ret|apply safe_raise]. Qed.
Lemma dg_queue {B} r (k : queue -> M N B) : (forall q, dg (k q)) -> dg (py_bind (get_queue r) k).
Proof. intros Hk. destruct r; by apply dg_need. Qed.
Lemma dg_put r q : dg (put_queue r q).
Proof. destruct r; apply safe_modify; by intros. Qed.
Lemma dg_write a d : digest_may w code (AWriteMem a d) -> dg (hw_write a d).
Proof. apply dg_hw. intros e r e'. apply tell_log. Qed.

(** A read with what it returned. *)
Lemma dg_read {B} a n (k : bytes -> M N B) : 0 <= n -> (forall b, zlen b = n -> dg (k b)) -> dg (py_bind (hw_read a n) k).
Proof.
  intros Hn Hk s r s' Hs E. unfold py_bind, hw_read, on_hw in E. cbn [t_readmem EnvTarget ask_data] in E.
  destruct (ev_data (fst s) (AReadMem a n false :: ev_log (fst s))) as [b|x] eqn:Ed.
  - destruct (Hk b (Hs _ _ _ _ _ Hn Ed) (ev_push (AReadMem a n false) (fst s), snd s) r s' Hs E) as (Hs' & new & Hl & Hf). split; [done|]. exists (new ++ [AReadMem a n false]).
    split; [rewrite Hl; cbn; by rewrite <- app_assoc|]. apply Forall_app. split; [done|by constructor].
  - injection E as <- <-. split; [done|]. exists [AReadMem a n false]. split; [done|by constructor].
Qed.

Lemma dg_pack {B} ws (k : bytes -> M N B) : (forall b, length b = (8 * length ws)%nat -> dg (k b)) -> dg (py_bind (py_lift (pack_Qs ws)) k).
Proof.
  intros Hk s r s' Hs E. unfold py_bind, py_lift in E. destruct (pack_Qs ws) as [b|x] eqn:Ep.
  - exact (Hk b (pack_Qs_length _ _ Ep) s r s' Hs E).
  - injection E as <- <-. split; [done|]. by exists [].
Qed.

Lemma dg_digest_loop fuel lba count per don commands ta en st : length st = 136%nat -> dg (digest_loop bar w fuel code (w + 0x60000) lba count per don commands ta en st).
Proof.
  revert don commands st. induction fuel as [|k IH]; intros don commands st Hst; cbn [digest_loop]; (destruct (_ <=? _); [sf_pure|]); [sf_pure|]. cbv zeta.
  do 3 (apply dg_need; intros ?). apply dg_queue. intros q. apply dg_need. intros stride. apply dg_pack. intros head Hh.
  apply safe_bind; [|intros _].
  { apply dg_write. left. unfold in_area, zlen, WORK_BYTES. rewrite length_app, Hh, Hst. cbn [length]. lia. }
  apply safe_bind; [by eapply dg_hw; [intros e r e'; apply ask_log|]|intros res]. apply dg_read; [done|]. intros out Hout. apply safe_bind; [sf_pure|intros after].
  apply safe_bind; [apply dg_put|intros _]. destruct (_ || _); [sf_pure|]. apply IH. rewrite length_drop. unfold zlen, WORK_BYTES, HASH_HEADER in *. lia.
Qed.

Lemma overlay_table_length overlays limit at_ t p : overlay_table overlays limit at_ = Ok (t, p) ->
  length t = (24 * length overlays)%nat /\ zlen p = fold_right (fun o t => zlen (snd o) + t) 0 overlays.
Proof.
  revert at_ t p. induction overlays as [|[a d] r IH]; intros at_ t p E; cbn [overlay_table] in E; [by injection E as <- <-|]. destruct (_ || _); [done|].
  apply bind_inv in E as (e & Ee & E). apply bind_inv in E as ([t1 p1] & Er & [= <- <-]). destruct (IH _ _ _ Er) as [H1 H2]. cbn [fst snd fold_right] in *.
  rewrite length_app, (pack_Qs_length _ _ Ee), H1, zlen_app, H2. cbn [length]. split; [lia|done].
Qed.

Lemma dg_digest lba count overlays fuel : dg (nh_digest bar w code (w + 0x60000) lba count overlays fuel).
Proof.
  unfold nh_digest. destruct (_ || _); [sf_pure|]. apply dg_need. intros nsze. destruct (_ <? _); [sf_pure|]. apply dg_queue. intros q. destruct (negb _); [sf_pure|].
  destruct (Z.ltb_spec 256 (zlen overlays)) as [|H256]; [sf_pure|]. cbn [orb]. destruct (Z.ltb_spec (Z.shiftl 1 20) (fold_right (fun o t => zlen (snd o) + t) 0 overlays)) as [|Hp]; [sf_pure|].
  apply dg_need. intros b. intros s r s' Hs E. unfold py_bind at 1, py_lift in E. destruct (overlay_table _ _ _) as [[t p]|x] eqn:Eo; revert s r s' Hs E; [|apply safe_raise].
  apply overlay_table_length in Eo as [Ht Hpl]. apply safe_bind; [|intros _].
  { destruct (bool_decide _); [sf_pure|]. apply safe_bind; [|intros _]; apply dg_write; right; [left|right]; unfold in_area; [unfold zlen in *|]; lia. }
  apply safe_bind; [sf_pure|intros per]. apply safe_bind; [|intros st; sf_pure]. by apply dg_digest_loop.
Qed.
End touches.

(** Hashing on the target leaves everything but the helper's own memory alone: on
    every target that returns the bytes it was asked for, whatever else it
    answers, [digest] writes only the helper's state, the overlay table and the
    overlay payload, three areas of the DMA window that lie between the PRP lists
    and the data buffers, and calls only the helper. *)
Theorem digest_confined (bar w code lba count : Z) (overlays : list (Z * bytes)) (fuel : nat) (s : env * driver) : full_reads (fst s) ->
  let s' := snd (nh_digest bar w code (w + 0x60000) lba count overlays fuel s) in
  exists new, ev_log (fst s') = new ++ ev_log (fst s) /\ Forall (digest_may w code) new /\
    forall a d, AWriteMem a d ∈ new -> w + ly_prp + 8 * PAGE <= a /\ a + zlen d <= w + ly_data M3_LAYOUT.
Proof.
  intros Hs. cbv zeta. destruct (nh_digest _ _ _ _ _ _ _ _ s) as [r s'] eqn:E. destruct (dg_digest _ _ _ _ _ _ _ _ _ _ Hs E) as (_ & new & Hn & Hf). exists new. split; [done|]. split; [done|].
  intros a d Hin. rewrite Forall_forall in Hf. specialize (Hf _ Hin). cbn in Hf. unfold in_area, WORK_BYTES, ly_prp, PAGE in *. change (ly_data M3_LAYOUT) with 0x200000. change (Z.shiftl 1 20) with 0x100000 in Hf. lia.
Qed.

(** The helper's memory holds at most 1 MiB of overlays: a hash over more is refused,
    so a package with a larger payload can be applied but not restored. *)
Lemma large_overlay_refused {S} `{!TargetOps S} bar w code state lba count overlays fuel (s : S * driver) nsze q :
  0 <= lba -> 0 < count -> d_nsze (snd s) = Some nsze -> lba + count <= nsze -> d_io (snd s) = Some q -> q_outstanding q = ∅ ->
  2 ^ 20 < fold_right (fun o t => zlen (snd o) + t) 0 overlays ->
  nh_digest bar w code state lba count overlays fuel s = (Raise (Refused "restore overlay exceeds the hash helper RAM reservation"), s).
Proof.
  intros H1 H2 Hn H3 Hq Ho Hs. unfold nh_digest. rewrite (proj2 (Z.ltb_ge lba 0)), (proj2 (Z.leb_gt count 0)) by lia. cbn [orb].
  unfold need, get_queue, py_bind, attr, py_get. rewrite Hn. cbn. rewrite (proj2 (Z.ltb_ge nsze (lba + count))) by lia. unfold need, py_bind, attr, py_get. rewrite Hq. cbn.
  unfold idle. rewrite Ho. cbn. change (Z.shiftl 1 20) with (2 ^ 20). rewrite (proj2 (Z.ltb_lt _ _) Hs). by rewrite orb_true_r.
Qed.

(** ** A stage of forty bytes, and a target that answers zeros *)

Definition shdr (name type flags addr off size : Z) : bytes :=
  le_bytes 4 name ++ le_bytes 4 type ++ le_bytes 8 flags ++ le_bytes 8 addr ++ le_bytes 8 off ++ le_bytes 8 size ++ replicate 24 x00.
Definition small_text : bytes := map (fun i => byte_of_Z (Z.of_nat i)) (seq 1 40).
Definition small_elf : bytes :=
  ELF_MAGIC ++ replicate 34 x00 ++ le_bytes 8 64 ++ replicate 10 x00 ++ le_bytes 2 64 ++ le_bytes 2 2 ++ le_bytes 2 1 ++
  shdr 1 1 2 0x1000 192 40 ++ shdr 7 3 0 0 232 10 ++ small_text ++ [x00] ++ TEXT ++ [x00] ++ list_byte_of_string ".s" ++ [x00].
Definition small_info : boot_info := [("stage_size", 0x20000); ("image_base", 0x1000); ("stage_base", 0x1000)].
Definition small_ram : ram := {| ram_mem := mem_store 0x1018 (replicate 8 xff) (mem_store 0x1000 small_text (fun _ => x00)); ram_answer := 0 |}.
Definition small_build : build := Build (Some (small_elf, small_text)) None.

Lemma bind_stage_sound_witness : fst (bind_stage small_info [Build None None; small_build] small_ram) = Ok (Image small_elf small_text small_text 0x1000 0x1028, 0x10000) /\
  stage_image small_elf small_text = Ok (Image small_elf small_text small_text 0x1000 0x1028).
Proof.
  assert (Hok : fst (bind_stage small_info [Build None None; small_build] small_ram) = Ok (Image small_elf small_text small_text 0x1000 0x1028, 0x10000)) by (vm_compute; reflexivity).
  split; [exact Hok|]. destruct (bind_stage small_info [Build None None; small_build] small_ram) as [r s'] eqn:E. cbn [fst] in Hok. subst r.
  destruct (bind_stage_sound small_info [Build None None; small_build] small_ram s' _ _ E) as (base & p & _ & (b & Hin & Hb) & Hi & _).
  apply elem_of_cons in Hin as [->|Hin]; [destruct Hb as [Hb|Hb]; discriminate Hb|]. apply list_elem_of_singleton in Hin as ->. destruct Hb as [Hb|Hb]; [|discriminate Hb].
  injection Hb as <-. exact Hi.
Defined.

Definition zero_target : env :=
  {| ev_log := []; ev_word := fun _ => Ok 0; ev_data := fun log => match log with AReadMem _ n _ :: _ => Ok (replicate (Z.to_nat n) x00) | _ => Ok [] end |}.

Lemma zero_target_full : full_reads zero_target.
Proof. intros a n live log b Hn [= <-]. unfold zlen. rewrite length_replicate. lia. Qed.

Lemma digest_confined_witness : full_reads zero_target /\
  exists new, ev_log (fst (snd (nh_digest 0x7c000000 0x80000000 0x5000 (0x80000000 + 0x60000) 5 10 [(0, small_text)] 3 (zero_target, ready_driver)))) = new ++ [] /\
    forall a d, AWriteMem a d ∈ new -> a + zlen d <= 0x80000000 + ly_data M3_LAYOUT.
Proof.
  split; [exact zero_target_full|].
  destruct (digest_confined 0x7c000000 0x80000000 0x5000 5 10 [(0, small_text)] 3 (zero_target, ready_driver) zero_target_full) as (new & Hn & _ & Hw).
  exists new. split; [exact Hn|]. intros a d Hin. exact (proj2 (Hw a d Hin)).
Defined.
