(* ===== verification/NvmeWindow.v ===== *)
(** * src/tools/nvme_window.py: applying a bounded delta to the disk

    The tool checks a package against the disk, and on request writes it: the window
    header is invalidated first, the changed extents are written and read back, the
    whole container is hashed, and only then the new header is published.

    [package] checks the package's files; parsing JSON is an argument, since the
    files hold what their digests pin.  A missing key raises where the file is
    parsed.  [window_body] is what [run] does with an identified controller, over
    the operations of [DiskOps]; [NvmeDisk] implements these by the writable driver
    and the native hash helper.  The record of the run and its progress output are
    not modelled. *)

From Stdlib Require Import ZArith Lia.
From Stdlib Require Import Strings.Byte Strings.String.
From stdpp Require Import base list sorting numbers strings gmap sets.
From S2P Require Import Prelude Bytes Q1n1Link Sha256 GptSurvey Target Preload Nvme NvmeSafe NvmeSetup NvmeHash.

Local Open Scope string_scope.
Local Open Scope list_scope.
Local Open Scope Z_scope.
Local Open Scope py_scope.

Definition MIB := Z.shiftl 1 20.

(** ** The package *)

Record extent_json := ExtentJson { ej_container_offset : Z; ej_bytes : Z; ej_pack_offset : Z; ej_before_sha256 : bytes; ej_after_sha256 : bytes }.
Record package_json := PackageJson {
  pj_result : bytes; pj_manifest_sha256 : bytes; pj_header_before_sha256 : bytes; pj_header_after_sha256 : bytes; pj_extents : Z
}.
Record manifest_json := ManifestJson {
  mj_schema : bytes; mj_block_bytes : Z; mj_payload_bytes : Z; mj_before_pack_sha256 : bytes; mj_after_pack_sha256 : bytes;
  mj_extents : list extent_json;
  mj_container_bytes : Z; mj_container_before_sha256 : bytes; mj_container_after_sha256 : bytes;
  mj_disk_bytes : Z; mj_disk_unique_id : bytes; mj_disk_guid : bytes;
  mj_partition_guid : bytes; mj_partition_offset : Z; mj_partition_size : Z; mj_partition_type : bytes;
  mj_header_offset : Z; mj_container_offset : Z; mj_isc_offset : Z; mj_isc_image : Z; mj_isc_region : Z;
  mj_isc_sha256 : bytes; mj_isc_zero_tail_sha256 : bytes
}.

(** The files of the package directory. *)
Record package_files := PackageFiles { pf_package : bytes; pf_manifest : bytes; pf_before : bytes; pf_after : bytes; pf_header_before : bytes; pf_header_after : bytes }.

Definition require (c : bool) (message : string) : result unit := if c then Ok tt else Raise (Refused message).

(** The loop over the extents: [packed] and [stop] from the one before. *)
Fixpoint check_extents (es : list extent_json) (container_bytes : Z) (before after : bytes) (packed stop : Z) : result Z :=
  match es with
  | [] => Ok packed
  | e :: r =>
      let off := ej_container_offset e in
      let size := ej_bytes e in
      let po := ej_pack_offset e in
      let? _ := require ((stop <=? off) && (0 <? size) && ((off mod 4096 =? 0) && (size mod 4096 =? 0)) && (off + size <=? container_bytes) && (po =? packed)) "extent layout" in
      let? _ := require (bytes_eqb (digest (slice (Z.to_nat po) (Z.to_nat (po + size)) before)) (ej_before_sha256 e)
                         && bytes_eqb (digest (slice (Z.to_nat po) (Z.to_nat (po + size)) after)) (ej_after_sha256 e)) "extent digest" in
      check_extents r container_bytes before after (packed + size) (off + size)
  end.

Section package.
  (** [json.loads]. *)
  Context (loads_package : bytes -> result package_json) (loads_manifest : bytes -> result manifest_json).

Definition package (f : package_files) (pin : bytes) : result (package_json * manifest_json) :=
  let? _ := require (bytes_eqb (digest (pf_package f)) pin) "package.json differs from the explicitly supplied SHA-256" in
  let? p := loads_package (pf_package f) in
  let? _ := require (bytes_eqb (pj_result p) (list_byte_of_string "PACKAGED_LOCAL_ONLY")) "incomplete package" in
  let? _ := require (bytes_eqb (digest (pf_manifest f)) (pj_manifest_sha256 p)) "manifest digest" in
  let? m := loads_manifest (pf_manifest f) in
  let? _ := require (bytes_eqb (mj_schema m) (list_byte_of_string "snapintosh-window-delta/1") && (mj_block_bytes m =? 4096)) "package schema" in
  let before := pf_before f in
  let after := pf_after f in
  let? _ := require ((0 <? zlen before) && (zlen before =? zlen after) && (zlen after =? mj_payload_bytes m) && (mj_payload_bytes m <=? 64 * MIB)) "package byte bound" in
  let? _ := require (bytes_eqb (digest before) (mj_before_pack_sha256 m) && bytes_eqb (digest after) (mj_after_pack_sha256 m)) "pack digest" in
  let? _ := require ((zlen (pf_header_before f) =? zlen (pf_header_after f)) && (zlen (pf_header_after f) =? 4096)
                     && bytes_eqb (digest (pf_header_before f)) (pj_header_before_sha256 p)
                     && bytes_eqb (digest (pf_header_after f)) (pj_header_after_sha256 p)) "header digest" in
  let? packed := check_extents (mj_extents m) (mj_container_bytes m) before after 0 0 in
  let? _ := require ((packed =? zlen before) && (zlen (mj_extents m) =? pj_extents p)) "extent coverage" in
  Ok (p, m).
End package.

(** ** The disk *)

Class DiskOps (S : Type) := {
  dk_read : Z -> Z -> M S bytes;
  dk_write : Z -> bytes -> M S unit;
  dk_flush : M S unit;
  dk_hash : Z -> Z -> list (Z * bytes) -> M S bytes;
  dk_enable : list (Z * Z) -> M S unit;
  dk_disable : M S unit;
  dk_gpt : Z -> M S decoded;
  dk_place : M S unit;
  dk_close : M S unit
}.

Inductive mode := Check_ | Probe | Apply | Restore_.
#[global] Instance mode_eq_dec : EqDecision mode.
Proof. solve_decision. Defined.

(** [s.strip('{}')]. *)
Definition is_brace (c : byte) : bool := match c with "{"%byte | "}"%byte => true | _ => false end.
Fixpoint strip_front (b : bytes) : bytes := match b with c :: r => if is_brace c then strip_front r else b | [] => [] end.
Definition strip_braces (b : bytes) : bytes := rev (strip_front (rev (strip_front b))).

(** [max] and [min] with a key: the first of equal elements. *)
Definition max_by {A} (key : A -> Z) (l : list A) : result A :=
  match l with [] => Raise (ValueError "max() arg is an empty sequence") | x :: r => Ok (fold_left (fun b y => if key b <? key y then y else b) r x) end.
Definition min_by {A} (key : A -> Z) (l : list A) : result A :=
  match l with [] => Raise (ValueError "min() arg is an empty sequence") | x :: r => Ok (fold_left (fun b y => if key y <? key b then y else b) r x) end.

(** What [run] works out before it touches the disk: block size, offsets in bytes,
    the regions whose digests must not change. *)
Record plan := Plan { pl_bs : Z; pl_po : Z; pl_part_bytes : Z; pl_co : Z; pl_cb : Z; pl_ho : Z; pl_edges : list (Z * Z) }.

Definition text (s : string) : bytes := list_byte_of_string s.
Definition zeros4k : bytes := replicate 4096 x00.

(** The checks between reading the partition table and the first edge. *)
Definition window_plan (m : manifest_json) (gpt : decoded) (nsze bs : Z) : result plan :=
  let? _ := require (bool_decide (g_errors gpt = []) && bool_decide (g_disk_guid gpt = Some (lower_bytes (strip_braces (mj_disk_guid m))))) "GPT identity/CRC" in
  let parts := g_partitions gpt in
  let? _ := require (zlen parts =? 19) "expected the provisioned 19-partition layout" in
  match List.filter (fun v => bytes_eqb (p_guid v) (lower_bytes (strip_braces (mj_partition_guid m)))) parts with
  | [part] =>
      let? _ := require ((p_offset bs part =? mj_partition_offset m) && (p_bytes bs part =? mj_partition_size m)
                         && bytes_eqb (p_type part) (lower_bytes (strip_braces (mj_partition_type m)))) "partition type/range" in
      let po := p_offset bs part in
      let size := p_bytes bs part in
      let co := po + mj_container_offset m in
      let cb := mj_container_bytes m in
      let ho := po + mj_header_offset m in
      let? _ := require ((mj_header_offset m =? 524288) && (mj_container_offset m =? 537919488) && (co + cb <? po + size - MIB)) "window layout" in
      let? lft := max_by (p_offset bs) (List.filter (fun v => p_offset bs v + p_bytes bs v <=? po) parts) in
      let? rgt := min_by (p_offset bs) (List.filter (fun v => po + size <=? p_offset bs v) parts) in
      Ok (Plan bs po size co cb ho
        [(0, MIB); (nsze * bs - MIB, MIB); (p_offset bs lft + p_bytes bs lft - MIB, MIB); (p_offset bs rgt, MIB)])
  | _ => Raise (Refused "partition GUID missing or ambiguous")
  end.

(** The extents of a pack, with their place on the disk. *)
Definition extent_data (pack : bytes) (e : extent_json) : bytes := slice (Z.to_nat (ej_pack_offset e)) (Z.to_nat (ej_pack_offset e + ej_bytes e)) pack.

Section window.
  Context {S : Type} `{!DiskOps S}.
  (** [hashlib.shake_256] of the qualification text, to a length. *)
  Context (shake : Z -> bytes).

Definition check (c : bool) (message : string) : M S unit := py_lift (require c message).
Definition rd (bs absolute size : Z) : M S bytes :=
  check ((absolute mod bs =? 0) && (size mod bs =? 0)) "unaligned disk read" ;;; dk_read (absolute / bs) (size / bs).
Definition wr (bs absolute : Z) (data : bytes) : M S unit :=
  check (absolute mod bs =? 0) "unaligned disk write" ;;; dk_write (absolute / bs) data.
Definition hash_range (bs absolute size : Z) (overlays : list (Z * bytes)) : M S bytes :=
  check ((absolute mod bs =? 0) && (size mod bs =? 0)) "unaligned hash range" ;;; dk_hash (absolute / bs) (size / bs) overlays.

Fixpoint edges (bs : Z) (regions : list (Z * Z)) : M S (list bytes) :=
  match regions with
  | [] => py_ret []
  | (a, n) :: r => let! b := rd bs a n in let! t := edges bs r in py_ret (digest b :: t)
  end.

(** [args.mode == 'probe']: write a scratch area, check it, and restore it. *)
Definition probe_body (pl : plan) (max_transfer : Z) (current_header : bytes) : M S unit :=
  let bs := pl_bs pl in
  let absolute := pl_co pl + pl_cb pl + MIB in
  let size := max_transfer + 4096 in
  check (absolute + size <? pl_po pl + pl_part_bytes pl - MIB) "scratch would leave unused window space" ;;;
  let! original := rd bs absolute size in
  let pattern := shake size in
  dk_enable [(absolute / bs, size / bs)] ;;;
  wr bs absolute pattern ;;;
  dk_flush ;;;
  let! back := rd bs absolute size in
  check (bytes_eqb back pattern) "scratch write read-back differs" ;;;
  let! native := dk_hash (absolute / bs) (size / bs) [] in
  check (bytes_eqb native (digest pattern)) "scratch native hash differs" ;;;
  let! masked := dk_hash (absolute / bs) (size / bs) [(absolute, original)] in
  check (bytes_eqb masked (digest original)) "native rollback-overlay hash differs" ;;;
  wr bs absolute original ;;;
  dk_flush ;;;
  let! again := rd bs absolute size in
  check (bytes_eqb again original) "scratch restoration differs" ;;;
  let! header := rd bs (pl_ho pl) 4096 in
  check (bytes_eqb header current_header) "header changed during scratch probe".

(** Writing the extents, each read back. *)
Fixpoint write_extents (pl : plan) (pack : bytes) (es : list extent_json) : M S unit :=
  match es with
  | [] => py_ret tt
  | e :: r =>
      let block := extent_data pack e in
      wr (pl_bs pl) (pl_co pl + ej_container_offset e) block ;;;
      let! back := rd (pl_bs pl) (pl_co pl + ej_container_offset e) (ej_bytes e) in
      check (bytes_eqb back block) "extent read-back" ;;;
      write_extents pl pack r
  end.

(** The two ISC hashes. *)
Definition check_isc (pl : plan) (m : manifest_json) : M S unit :=
  let io := pl_po pl + mj_isc_offset m in
  let ib := mj_isc_image m in
  let! isc := hash_range (pl_bs pl) io ib [] in
  check (bytes_eqb isc (mj_isc_sha256 m)) "ISC image differs" ;;;
  let! tail := hash_range (pl_bs pl) (io + ib) (mj_isc_region m - ib) [] in
  check (bytes_eqb tail (mj_isc_zero_tail_sha256 m)) "ISC tail differs".

(** The part of [apply] and [restore] that writes. *)
Definition write_window (pl : plan) (m : manifest_json) (pack header wanted : bytes) (original_edges : list bytes) : M S unit :=
  let bs := pl_bs pl in
  dk_enable ((pl_ho pl / bs, 4096 / bs) :: map (fun e => ((pl_co pl + ej_container_offset e) / bs, ej_bytes e / bs)) (mj_extents m)) ;;;
  wr bs (pl_ho pl) zeros4k ;;;
  dk_flush ;;;
  let! back := rd bs (pl_ho pl) 4096 in
  check (bytes_eqb back zeros4k) "header invalidation read-back" ;;;
  write_extents pl pack (mj_extents m) ;;;
  dk_flush ;;;
  let! h := hash_range bs (pl_co pl) (pl_cb pl) [] in
  check (bytes_eqb h wanted) "complete container read-back differs; header remains invalid" ;;;
  check_isc pl m ;;;
  let! now := edges bs (pl_edges pl) in
  check (bool_decide (now = original_edges)) "GPT or neighbour edge changed; header remains invalid" ;;;
  wr bs (pl_ho pl) header ;;;
  dk_flush ;;;
  let! back := rd bs (pl_ho pl) 4096 in
  check (bytes_eqb back header) "published header read-back".

(** Modes other than [probe]. *)
Definition delta_body (md : mode) (pl : plan) (m : manifest_json) (f : package_files) (original_edges : list bytes) : M S unit :=
  let restore := bool_decide (md = Restore_) in
  check_isc pl m ;;;
  let overlays := if restore then map (fun e => (pl_co pl + ej_container_offset e, extent_data (pf_before f) e)) (mj_extents m) else [] in
  let! h := hash_range (pl_bs pl) (pl_co pl) (pl_cb pl) overlays in
  check (bytes_eqb h (mj_container_before_sha256 m)) "complete container baseline differs" ;;;
  if bool_decide (md = Check_) then py_ret tt else
  write_window pl m (if restore then pf_before f else pf_after f) (if restore then pf_header_before f else pf_header_after f)
    (if restore then mj_container_before_sha256 m else mj_container_after_sha256 m) original_edges.

(** [run] once the partition is found. *)
Definition window_rest (md : mode) (m : manifest_json) (f : package_files) (pl : plan) (max_transfer : Z) : M S unit :=
  let bs := pl_bs pl in
  let! original_edges := edges bs (pl_edges pl) in
  let! current_header := rd bs (pl_ho pl) 4096 in
  let accepted := if bool_decide (md = Restore_) then [pf_header_before f; pf_header_after f; zeros4k] else [pf_header_before f] in
  check (bool_decide (current_header ∈ accepted)) "SSD window header differs from the permitted baseline" ;;;
  dk_place ;;;
  let! sample := rd bs (pl_co pl) (4 * MIB) in
  let! native := dk_hash (pl_co pl / bs) (zlen sample / bs) [] in
  check (bytes_eqb native (digest sample)) "native hash disagrees with host SHA-256 on SSD sample" ;;;
  (if bool_decide (md = Probe) then probe_body pl max_transfer current_header else delta_body md pl m f original_edges) ;;;
  dk_disable ;;;
  let! last := edges bs (pl_edges pl) in
  check (bool_decide (last = original_edges)) "GPT or neighbour edge changed".

(** [run] from the identified controller on: its block size, size and transfer limit,
    and the EUI64 it reported. *)
Definition window_body (md : mode) (m : manifest_json) (f : package_files) (nsze bs max_transfer : Z) (eui64 : bytes) : M S unit :=
  check (bool_decide (bs ∈ [512; 4096]) && (nsze * bs =? mj_disk_bytes m)) "namespace byte size" ;;;
  check (bytes_eqb (text "eui." ++ lower_bytes eui64) (lower_bytes (mj_disk_unique_id m))) "package namespace EUI" ;;;
  let! gpt := dk_gpt (nsze - 1) in
  let! pl := py_lift (window_plan m gpt nsze bs) in
  window_rest md m f pl max_transfer.

(** The [finally] of [run]: writes are disabled and the controller shut down; an
    error of the run itself is the one that is raised. *)
Definition window_run (md : mode) (m : manifest_json) (f : package_files) (nsze bs max_transfer : Z) (eui64 : bytes) : M S unit := fun s =>
  let '(r, s) := window_body md m f nsze bs max_transfer eui64 s in
  let '(c, s) := (dk_disable ;;; dk_close) s in
  (match r with Raise e => Raise e | Ok _ => c end, s).
End window.

(** ** The driver as a disk *)
Section NvmeDisk.
  Context {S : Type} `{!TargetOps S}.
  Context (bar w : Z) (code state : Z) (hb : hash_build) (info : boot_info) (builds : list build) (fuel : nat).

(** The helper's addresses are fixed by the window and the stage; placing it again
    gives the same. *)
Definition NvmeDisk : DiskOps (S * driver) := {|
  dk_read lba n := nv_read bar w M3_LAYOUT true lba n fuel;
  dk_write lba d := nv_write bar w M3_LAYOUT true lba d fuel;
  dk_flush := nv_flush bar w M3_LAYOUT true fuel;
  dk_hash lba n overlays := nh_digest bar w code state lba n overlays fuel;
  dk_enable rs := enable_writes rs;
  dk_disable := disable_writes;
  dk_gpt last := read_gpt bar w M3_LAYOUT true last fuel;
  dk_place := native_hash w M3_LAYOUT hb info builds ;;; py_ret tt;
  dk_close := py_finally (delete_io_queues bar w M3_LAYOUT true fuel) (nv_shutdown bar fuel)
|}.
End NvmeDisk.

(** ** An arbitrary disk *)

(** What was asked of the disk, with the answer. *)
Inductive event :=
| ERead (lba n : Z) (r : result bytes)
| EWrite (lba : Z) (d : bytes) (r : result unit)
| EFlush (r : result unit)
| EHash (lba n : Z) (overlays : list (Z * bytes)) (r : result bytes)
| EEnable (rs : list (Z * Z)) (r : result unit)
| EOther (r : result unit)
| EGpt (last : Z) (r : result decoded).

(** A disk, and a controller, that can answer anything. *)
Record disk := Disk {
  de_log : list event;                                      (* newest first *)
  de_unit : list event -> result unit;
  de_bytes : list event -> result bytes;
  de_table : list event -> result decoded
}.
Definition de_push (e : event) (d : disk) : disk := {| de_log := e :: de_log d; de_unit := de_unit d; de_bytes := de_bytes d; de_table := de_table d |}.
Definition tell_unit (f : result unit -> event) : M disk unit := fun d => let r := de_unit d (f (Ok tt) :: de_log d) in (r, de_push (f r) d).
Definition tell_bytes (f : result bytes -> event) : M disk bytes := fun d => let r := de_bytes d (f (Ok []) :: de_log d) in (r, de_push (f r) d).

#[global] Instance AnyDisk : DiskOps disk := {|
  dk_read lba n := tell_bytes (ERead lba n);
  dk_write lba d := tell_unit (EWrite lba d);
  dk_flush := tell_unit EFlush;
  dk_hash lba n overlays := tell_bytes (EHash lba n overlays);
  dk_enable rs := tell_unit (EEnable rs);
  dk_disable := tell_unit EOther;
  dk_gpt last := fun d => let r := de_table d (EOther (Ok tt) :: de_log d) in (r, de_push (EGpt last r) d);
  dk_place := tell_unit EOther;
  dk_close := tell_unit EOther
|}.

(** ** Monitors *)

(** A monitor follows the events and refuses those that must not happen. *)
Section monitor.
  Context {St : Type} (step : St -> event -> option St).

Fixpoint follow (st : St) (evs : list event) : option St :=
  match evs with [] => Some st | e :: r => match step st e with Some st' => follow st' r | None => None end end.

Lemma follow_app st a b : follow st (a ++ b) = match follow st a with Some st' => follow st' b | None => None end.
Proof. revert st. induction a as [|e a IH]; intros st; cbn; [done|]. by destruct (step st e). Qed.

(** From monitor state [st], the program is accepted on every disk, and when it
    returns, [Q] holds. *)
Definition watched {A} (st : St) (m : M disk A) (Q : A -> St -> Prop) : Prop := forall d r d', m d = (r, d') ->
  exists new st', de_log d' = rev new ++ de_log d /\ follow st new = Some st' /\ match r with Ok a => Q a st' | Raise _ => True end.

Lemma watched_ret {A} st (a : A) (Q : A -> St -> Prop) : Q a st -> watched st (py_ret a) Q.
Proof. intros H d r d' [= <- <-]. by exists [], st. Qed.
Lemma watched_lift {A} st (x : result A) (Q : A -> St -> Prop) : (forall a, x = Ok a -> Q a st) -> watched st (py_lift x) Q.
Proof. intros H d r d' [= <- <-]. exists [], st. split; [done|]. split; [done|]. destruct x; auto. Qed.
Lemma watched_check st c message (Q : unit -> St -> Prop) : (c = true -> Q tt st) -> watched st (check c message) Q.
Proof. intros H. apply watched_lift. intros [] E. apply H. unfold require in E. by destruct c. Qed.
Lemma watched_bind {A B} st (m : M disk A) (k : A -> M disk B) Q1 Q : watched st m Q1 -> (forall a st1, Q1 a st1 -> watched st1 (k a) Q) -> watched st (py_bind m k) Q.
Proof.
  intros Hm Hk d r d' E. unfold py_bind in E. destruct (m d) as [[a|x] d1] eqn:E1; destruct (Hm _ _ _ E1) as (n1 & st1 & L1 & F1 & H1).
  - destruct (Hk a st1 H1 _ _ _ E) as (n2 & st2 & L2 & F2 & H2). exists (n1 ++ n2), st2. rewrite L2, L1, rev_app_distr, app_assoc. split; [done|]. by rewrite follow_app, F1.
  - injection E as <- <-. by exists n1, st1.
Qed.
Lemma watched_impl {A} st (m : M disk A) (Q Q' : A -> St -> Prop) : watched st m Q -> (forall a s, Q a s -> Q' a s) -> watched st m Q'.
Proof. intros Hm HQ d r d' E. destruct (Hm _ _ _ E) as (n & st' & L & F & H). exists n, st'. split; [done|]. split; [done|]. destruct r; auto. Qed.

(** One operation: the monitor must take its event, whatever the answer. *)
Lemma watched_unit st f (Q : unit -> St -> Prop) : (forall r, exists st', step st (f r) = Some st' /\ (r = Ok tt -> Q tt st')) -> watched st (tell_unit f) Q.
Proof.
  intros H d r d' [= <- <-]. destruct (H (de_unit d (f (Ok tt) :: de_log d))) as (st' & Hs & HQ). exists [f (de_unit d (f (Ok tt) :: de_log d))], st'. split; [done|]. cbn [follow]. rewrite Hs.
  split; [done|]. destruct (de_unit d _) as [[]|]; auto.
Qed.
Lemma watched_bytes st f (Q : bytes -> St -> Prop) : (forall r, exists st', step st (f r) = Some st' /\ (forall b, r = Ok b -> Q b st')) -> watched st (tell_bytes f) Q.
Proof.
  intros H d r d' [= <- <-]. destruct (H (de_bytes d (f (Ok []) :: de_log d))) as (st' & Hs & HQ). exists [f (de_bytes d (f (Ok []) :: de_log d))], st'. split; [done|]. cbn [follow]. rewrite Hs.
  split; [done|]. destruct (de_bytes d _); auto.
Qed.
End monitor.

(** ** The rule of publishing *)

(** How far the rewriting of the window has come. *)
Inductive stage :=
| Looking                       (* nothing was written *)
| Cleared                       (* the header was overwritten with zeros *)
| ClearedDurable                (* and the disk flushed *)
| Writing (k : nat)             (* the header reads as zeros, the first k extents are written and read back *)
| Wrote (k : nat)               (* extent k was written, not read back yet *)
| Durable                       (* all extents are written and the disk flushed *)
| HashOk | IscOk                (* the container, then the ISC image have the wanted digests *)
| TailOk (i : nat)              (* the ISC tail too; i edges read as before *)
| Published                     (* the header was written *)
| Stopped.                      (* a write failed *)

(** The stage, and the digests of the edges read at the start. *)
Record watch := Watch { wa_stage : stage; wa_edges : list bytes }.

Section rule.
  Context (pl : plan) (m : manifest_json) (pack header wanted : bytes).

Definition same_place (lba n absolute size : Z) : bool := (lba =? absolute / pl_bs pl) && (n =? size / pl_bs pl).
Definition written (r : result unit) (st : stage) : stage := if is_ok r then st else Stopped.

Definition may_write (st : watch) (lba : Z) (d : bytes) (r : result unit) : option watch :=
  match wa_stage st with
  | Looking => if (lba =? pl_ho pl / pl_bs pl) && bytes_eqb d zeros4k then Some (Watch (written r Cleared) (wa_edges st)) else None
  | Writing k =>
      match mj_extents m !! k with
      | Some e => if (lba =? (pl_co pl + ej_container_offset e) / pl_bs pl) && bytes_eqb d (extent_data pack e) then Some (Watch (written r (Wrote k)) (wa_edges st)) else None
      | None => None
      end
  | TailOk i => if Nat.eqb i (length (pl_edges pl)) && (lba =? pl_ho pl / pl_bs pl) && bytes_eqb d header then Some (Watch (written r Published) (wa_edges st)) else None
  | _ => None
  end.

Definition after_read (st : watch) (lba n : Z) (b : bytes) : watch :=
  match wa_stage st with
  | Looking =>
      match pl_edges pl !! length (wa_edges st) with
      | Some (a, s) => if same_place lba n a s then Watch Looking (wa_edges st ++ [digest b]) else st
      | None => st
      end
  | ClearedDurable => if same_place lba n (pl_ho pl) 4096 && bytes_eqb b zeros4k then Watch (Writing 0) (wa_edges st) else st
  | Wrote k =>
      match mj_extents m !! k with
      | Some e => if same_place lba n (pl_co pl + ej_container_offset e) (ej_bytes e) && bytes_eqb b (extent_data pack e) then Watch (Writing (S k)) (wa_edges st) else st
      | None => st
      end
  | TailOk i =>
      match pl_edges pl !! i with
      | Some (a, s) => if same_place lba n a s && bool_decide (wa_edges st !! i = Some (digest b)) then Watch (TailOk (S i)) (wa_edges st) else st
      | None => st
      end
  | _ => st
  end.

Definition after_flush (st : watch) : watch :=
  match wa_stage st with
  | Cleared => Watch ClearedDurable (wa_edges st)
  | Writing k => if Nat.eqb k (length (mj_extents m)) then Watch Durable (wa_edges st) else st
  | _ => st
  end.

Definition after_hash (st : watch) (lba n : Z) (h : bytes) : watch :=
  let io := pl_po pl + mj_isc_offset m in
  match wa_stage st with
  | Durable => if same_place lba n (pl_co pl) (pl_cb pl) && bytes_eqb h wanted then Watch HashOk (wa_edges st) else st
  | HashOk => if same_place lba n io (mj_isc_image m) && bytes_eqb h (mj_isc_sha256 m) then Watch IscOk (wa_edges st) else st
  | IscOk => if same_place lba n (io + mj_isc_image m) (mj_isc_region m - mj_isc_image m) && bytes_eqb h (mj_isc_zero_tail_sha256 m) then Watch (TailOk 0) (wa_edges st) else st
  | _ => st
  end.

(** Writes are refused except where the rule allows them. *)
Definition rule (st : watch) (e : event) : option watch :=
  match e with
  | EWrite lba d r => may_write st lba d r
  | ERead lba n (Ok b) => Some (after_read st lba n b)
  | EFlush (Ok _) => Some (after_flush st)
  | EHash lba n [] (Ok h) => Some (after_hash st lba n h)
  | _ => Some st
  end.

(** ** The tool keeps the rule *)

Abbreviation W := (watched (rule)).
Abbreviation bs := (pl_bs pl).

Lemma w_rd st a n : W st (rd bs a n) (fun b st' => st' = after_read st (a / bs) (n / bs) b).
Proof.
  eapply watched_bind; [by apply (watched_check _ _ _ _ (fun _ s => s = st))|intros [] ? ->]. apply watched_bytes. intros [b|x].
  - eexists. split; [done|]. by intros b' [= ->].
  - by exists st.
Qed.

Lemma w_hash st lba n ov : W st (dk_hash lba n ov) (fun h st' => st' = match ov with [] => after_hash st lba n h | _ => st end).
Proof.
  apply watched_bytes. intros [b|x]; destruct ov; eexists; (split; [done|]); by intros b' [= ->].
Qed.
Lemma w_hash_range st a n ov : W st (hash_range bs a n ov) (fun h st' => st' = match ov with [] => after_hash st (a / bs) (n / bs) h | _ => st end).
Proof. eapply watched_bind; [by apply (watched_check _ _ _ _ (fun _ s => s = st))|intros [] ? ->]. apply w_hash. Qed.

Lemma w_flush st : W st dk_flush (fun _ st' => st' = after_flush st).
Proof. apply watched_unit. intros [[]|x]; eexists; by split. Qed.
Lemma w_enable st rs : W st (dk_enable rs) (fun _ st' => st' = st).
Proof. apply watched_unit. intros r. by exists st. Qed.
Lemma w_other st : W st (tell_unit EOther) (fun _ st' => st' = st).
Proof. apply watched_unit. intros r. by exists st. Qed.

Lemma w_wr st a d X : (forall r, may_write st (a / bs) d r = Some (Watch (written r X) (wa_edges st))) -> W st (wr bs a d) (fun _ st' => st' = Watch X (wa_edges st)).
Proof.
  intros H. eapply watched_bind; [by apply (watched_check _ _ _ _ (fun _ s => s = st))|intros [] ? ->]. apply watched_unit. intros r. eexists. split; [apply H|]. by intros ->.
Qed.

Lemma same_place_refl a n : same_place (a / bs) (n / bs) a n = true.
Proof. unfold same_place. by rewrite !Z.eqb_refl. Qed.

(** Sequencing with a check of what was just read. *)
Lemma w_then_check {A} st (p : M disk A) (c : A -> bool) (message : A -> string) (f : A -> watch) (k : A -> M disk unit) Q :
  W st p (fun a st' => st' = f a) -> (forall a, c a = true -> W (f a) (k a) Q) ->
  W st (let! a := p in check (c a) (message a) ;;; k a) Q.
Proof.
  intros Hm Hk. eapply watched_bind; [exact Hm|]. intros a ? ->. eapply watched_bind; [by apply (watched_check _ _ _ _ (fun _ s => s = f a /\ c a = true))|].
  intros [] ? [-> Hc]. by apply Hk.
Qed.
Lemma w_last_check {A} st (p : M disk A) (c : A -> bool) (message : A -> string) (f : A -> watch) (Q : unit -> watch -> Prop) :
  W st p (fun a st' => st' = f a) -> (forall a, c a = true -> Q tt (f a)) -> W st (let! a := p in check (c a) (message a)) Q.
Proof. intros Hm Hk. eapply watched_bind; [exact Hm|]. intros a ? ->. apply watched_check. auto. Qed.

Lemma bytes_eqb_true a b : bytes_eqb a b = true -> a = b.
Proof. apply bool_decide_eq_true_1. Qed.

(** The edges, from any state; at the start; and when they are compared. *)
Lemma w_edges_any regions st : W st (edges bs regions) (fun _ _ => True).
Proof.
  revert st. induction regions as [|[a n] r IH]; intros st; cbn [edges]; [by apply watched_ret|]. eapply watched_bind; [apply w_rd|]. intros b ? ->.
  eapply watched_bind; [apply IH|]. intros t st1 _. by apply watched_ret.
Qed.

Lemma w_edges_look pre regions acc : pl_edges pl = pre ++ regions -> length acc = length pre ->
  W (Watch Looking acc) (edges bs regions) (fun t st' => st' = Watch Looking (acc ++ t) /\ length t = length regions).
Proof.
  revert pre acc. induction regions as [|[a n] r IH]; intros pre acc Hp Hl; cbn [edges]; [apply watched_ret; by rewrite app_nil_r|].
  eapply watched_bind; [apply w_rd|]. intros b ? ->. unfold after_read. cbn [wa_stage wa_edges]. rewrite Hl, Hp, lookup_app_r, Nat.sub_diag by lia. cbn [lookup list_lookup]. rewrite same_place_refl.
  eapply watched_bind; [apply (IH (pre ++ [(a, n)]) (acc ++ [digest b])); [by rewrite <- app_assoc|rewrite !length_app; cbn; lia]|].
  intros t ? [-> Ht]. apply watched_ret. rewrite <- app_assoc. cbn [length]. by rewrite Ht.
Qed.

Lemma w_edges_again pre regions ed : pl_edges pl = pre ++ regions -> length ed = length (pl_edges pl) ->
  W (Watch (TailOk (length pre)) ed) (edges bs regions) (fun t st' => t = drop (length pre) ed -> st' = Watch (TailOk (length (pl_edges pl))) ed).
Proof.
  revert pre. induction regions as [|[a n] r IH]; intros pre Hp Hl; cbn [edges]; [apply watched_ret; intros _; rewrite Hp, app_nil_r; done|].
  destruct (lookup_lt_is_Some_2 ed (length pre)) as [x Hx]; [rewrite Hl, Hp, length_app; cbn; lia|].
  eapply watched_bind; [apply w_rd|]. intros b ? ->. unfold after_read. cbn [wa_stage wa_edges]. rewrite Hp at 1. rewrite lookup_app_r, Nat.sub_diag by lia. cbn [lookup list_lookup]. rewrite same_place_refl. cbn [andb].
  destruct (bool_decide (ed !! length pre = Some (digest b))) eqn:Eb.
  - apply bool_decide_eq_true_1 in Eb. specialize (IH (pre ++ [(a, n)])). rewrite length_app, Nat.add_1_r in IH. eapply watched_bind; [apply IH; [by rewrite <- app_assoc|done]|]. cbn [length].
    intros t st1 Ht. apply watched_ret. intros E. apply Ht. rewrite (drop_S _ _ _ Eb) in E. by injection E.
  - apply bool_decide_eq_false_1 in Eb. eapply watched_bind; [apply w_edges_any|]. intros t st1 _. apply watched_ret. intros E. exfalso. rewrite (drop_S _ _ _ Hx) in E. injection E as E _. apply Eb. by rewrite Hx, E.
Qed.

(** Reads and hashes in a stage that does not follow them. *)
Lemma w_edges_still regions st : (forall lba n b, after_read st lba n b = st) -> W st (edges bs regions) (fun _ st' => st' = st).
Proof.
  intros H. induction regions as [|[a n] r IH]; cbn [edges]; [by apply watched_ret|]. eapply watched_bind; [apply w_rd|]. intros b ? ->. rewrite H.
  eapply watched_bind; [apply IH|]. intros t ? ->. by apply watched_ret.
Qed.

Lemma w_extents ed k es : drop k (mj_extents m) = es -> W (Watch (Writing k) ed) (write_extents pl pack es) (fun _ st' => exists k', st' = Watch (Writing k') ed /\ k' = length (mj_extents m) \/ (mj_extents m !! k = None /\ st' = Watch (Writing k) ed)).
Proof.
  revert k. induction es as [|e es IH]; intros k Hk; cbn [write_extents].
  - apply watched_ret. exists k. right. split; [|done]. apply lookup_ge_None_2. assert (H : length (drop k (mj_extents m)) = 0%nat) by (by rewrite Hk). rewrite length_drop in H. lia.
  - assert (He : mj_extents m !! k = Some e) by (rewrite <- (Nat.add_0_r k), <- lookup_drop, Hk; done).
    eapply watched_bind; [apply (w_wr _ _ _ (Wrote k)); intros r; unfold may_write; cbn [wa_stage wa_edges]; rewrite He, Z.eqb_refl; unfold bytes_eqb; by rewrite bool_decide_eq_true_2|].
    intros [] ? ->. apply (w_then_check _ _ _ _ _ _ _ (w_rd _ _ _)). intros b Hb%bytes_eqb_true. subst b. unfold after_read. cbn [wa_stage wa_edges]. rewrite He, same_place_refl. unfold bytes_eqb. rewrite bool_decide_eq_true_2 by done. cbn [andb].
    eapply watched_impl; [apply (IH (S k)); by rewrite (drop_S _ _ _ He) in Hk; injection Hk|]. intros [] st' (k' & [[-> ->]|[Hn ->]]).
    + exists (length (mj_extents m)). by left.
    + exists (S k). left. split; [done|]. apply lookup_ge_None_1 in Hn. apply lookup_lt_Some in He. lia.
Qed.

Lemma w_all_extents ed : W (Watch (Writing 0) ed) (write_extents pl pack (mj_extents m)) (fun _ st' => st' = Watch (Writing (length (mj_extents m))) ed).
Proof.
  eapply watched_impl; [by apply (w_extents ed 0)|]. intros [] st' (k' & [[-> ->]|[Hn ->]]); [done|]. apply lookup_ge_None_1 in Hn. do 2 f_equal. lia.
Qed.

Lemma w_isc_tail ed : W (Watch HashOk ed) (check_isc pl m) (fun _ st' => st' = Watch (TailOk 0) ed).
Proof.
  unfold check_isc. cbv zeta. apply (w_then_check _ _ _ _ _ _ _ (w_hash_range _ _ _ _)). intros h Hh. unfold after_hash at 1. cbn [wa_stage wa_edges]. rewrite same_place_refl, Hh. cbn [andb].
  apply (w_last_check _ _ _ _ _ _ (w_hash_range _ _ _ _)). intros h2 Hh2. unfold after_hash. cbn [wa_stage wa_edges]. rewrite same_place_refl, Hh2. done.
Qed.
Lemma w_isc_look ed : W (Watch Looking ed) (check_isc pl m) (fun _ st' => st' = Watch Looking ed).
Proof.
  unfold check_isc. cbv zeta. apply (w_then_check _ _ _ _ _ _ _ (w_hash_range _ _ _ _)). intros h _. cbn. by apply (w_last_check _ _ _ _ _ _ (w_hash_range _ _ _ _)).
Qed.

Lemma eqb_refl_bytes b : bytes_eqb b b = true.
Proof. by apply bool_decide_eq_true_2. Qed.

Lemma w_write_window ed : length ed = length (pl_edges pl) -> W (Watch Looking ed) (write_window pl m pack header wanted ed) (fun _ st' => st' = Watch Published ed).
Proof.
  intros Hl. unfold write_window. cbv zeta. eapply watched_bind; [apply w_enable|intros [] ? ->].
  eapply watched_bind; [apply (w_wr _ _ _ Cleared); intros r; unfold may_write; cbn [wa_stage wa_edges]; by rewrite Z.eqb_refl, eqb_refl_bytes|intros [] ? ->]. cbn [wa_edges].
  eapply watched_bind; [apply w_flush|intros [] ? ->]. cbn [after_flush wa_stage wa_edges]. apply (w_then_check _ _ _ _ _ _ _ (w_rd _ _ _)). intros b Hb. unfold after_read. cbn [wa_stage wa_edges]. rewrite same_place_refl, Hb. cbn [andb].
  eapply watched_bind; [apply w_all_extents|intros [] ? ->]. eapply watched_bind; [apply w_flush|intros [] ? ->]. unfold after_flush. cbn [wa_stage wa_edges]. rewrite Nat.eqb_refl.
  apply (w_then_check _ _ _ _ _ _ _ (w_hash_range _ _ _ _)). intros h Hh. unfold after_hash. cbn [wa_stage wa_edges]. rewrite same_place_refl, Hh. cbn [andb].
  eapply watched_bind; [apply w_isc_tail|intros [] ? ->]. eapply watched_bind; [by apply (w_edges_again [] (pl_edges pl) ed)|]. intros now st1 Hst1. cbn [length] in Hst1. rewrite drop_0 in Hst1.
  eapply watched_bind; [by apply (watched_check _ _ _ _ (fun _ s => s = st1 /\ bool_decide (now = ed) = true))|]. intros [] ? [-> Hn%bool_decide_eq_true_1]. rewrite (Hst1 Hn).
  eapply watched_bind; [apply (w_wr _ _ _ Published); intros r; unfold may_write; cbn [wa_stage wa_edges]; by rewrite Nat.eqb_refl, Z.eqb_refl, eqb_refl_bytes|intros [] ? ->]. cbn [wa_edges].
  eapply watched_bind; [apply w_flush|intros [] ? ->]. by apply (w_last_check _ _ _ _ _ _ (w_rd _ _ _)).
Qed.
End rule.

(** ** Whole runs *)

Definition writes (e : event) : bool := match e with EWrite _ _ _ => true | _ => false end.
Definition never (u : unit) (e : event) : option unit := if writes e then None else Some tt.

Lemma follow_never new u st : follow never u new = Some st -> Forall (fun e => writes e = false) new.
Proof. revert u. induction new as [|e new IH]; intros u H; cbn in H; [constructor|]. unfold never at 1 in H. destruct (writes e) eqn:E; [done|]. constructor; [done|by eapply IH]. Qed.

Section passive.
  Abbreviation P := (watched never tt).
Lemma p_unit f : (forall r, writes (f r) = false) -> P (tell_unit f) (fun _ _ => True).
Proof. intros H. apply watched_unit. intros r. exists tt. unfold never. by rewrite H. Qed.
Lemma p_bytes f : (forall r, writes (f r) = false) -> P (tell_bytes f) (fun _ _ => True).
Proof. intros H. apply watched_bytes. intros r. exists tt. unfold never. by rewrite H. Qed.
Lemma p_bind {A B} (m : M disk A) (k : A -> M disk B) : P m (fun _ _ => True) -> (forall a, P (k a) (fun _ _ => True)) -> P (py_bind m k) (fun _ _ => True).
Proof. intros Hm Hk. eapply watched_bind; [exact Hm|]. intros a [] _. apply Hk. Qed.
Lemma p_check c msg : P (check c msg) (fun _ _ => True).
Proof. by apply watched_check. Qed.
Lemma p_rd bs a n : P (rd bs a n) (fun _ _ => True).
Proof. apply p_bind; [apply p_check|intros _]. by apply p_bytes. Qed.
Lemma p_hash_range bs a n ov : P (hash_range bs a n ov) (fun _ _ => True).
Proof. apply p_bind; [apply p_check|intros _]. by apply p_bytes. Qed.
Lemma p_edges bs rs : P (edges bs rs) (fun _ _ => True).
Proof. induction rs as [|[a n] r IH]; cbn [edges]; [by apply watched_ret|]. apply p_bind; [apply p_rd|intros b]. apply p_bind; [done|intros t]. by apply watched_ret. Qed.
Lemma p_isc pl m : P (check_isc pl m) (fun _ _ => True).
Proof. unfold check_isc. cbv zeta. apply p_bind; [apply p_hash_range|intros h]. apply p_bind; [apply p_check|intros _]. apply p_bind; [apply p_hash_range|intros t; apply p_check]. Qed.

(** Checking never writes. *)
Lemma p_check_mode shake m f pl mt : P (window_rest shake Check_ m f pl mt) (fun _ _ => True).
Proof.
  unfold window_rest. cbv zeta. apply p_bind; [apply p_edges|intros oe]. apply p_bind; [apply p_rd|intros ch]. apply p_bind; [apply p_check|intros _]. apply p_bind; [by apply p_unit|intros _].
  apply p_bind; [apply p_rd|intros sm]. apply p_bind; [by apply p_bytes|intros nt]. apply p_bind; [apply p_check|intros _]. apply p_bind; [|intros _; apply p_bind; [by apply p_unit|intros _]; apply p_bind; [apply p_edges|intros l; apply p_check]].
  cbn. unfold delta_body. cbv zeta. apply p_bind; [apply p_isc|intros _]. apply p_bind; [apply p_hash_range|intros h]. apply p_bind; [apply p_check|intros _]. by apply watched_ret.
Qed.
End passive.

Definition chosen {A} (md : mode) (restore apply : A) : A := if bool_decide (md = Restore_) then restore else apply.
(** The rule for a mode that writes. *)
Definition mode_rule (md : mode) (pl : plan) (m : manifest_json) (f : package_files) : watch -> event -> option watch :=
  rule pl m (chosen md (pf_before f) (pf_after f)) (chosen md (pf_header_before f) (pf_header_after f))
    (chosen md (mj_container_before_sha256 m) (mj_container_after_sha256 m)).

Lemma look_read pl m pack ed lba n b : length ed = length (pl_edges pl) -> after_read pl m pack (Watch Looking ed) lba n b = Watch Looking ed.
Proof. intros H. unfold after_read. cbn [wa_stage wa_edges]. by rewrite lookup_ge_None_2 by lia. Qed.

Lemma w_rest shake md m f pl mt : md = Apply \/ md = Restore_ ->
  watched (mode_rule md pl m f) (Watch Looking []) (window_rest shake md m f pl mt) (fun _ st' => wa_stage st' = Published).
Proof.
  intros Hmd. unfold window_rest. cbv zeta. eapply watched_bind; [by apply (w_edges_look _ _ _ _ _ [] (pl_edges pl) [])|]. cbn [app]. intros oe ? [-> Hoe].
  eapply watched_bind; [apply w_rd|]. intros ch ? ->. rewrite look_read by done. eapply watched_bind; [by apply (watched_check _ _ _ _ (fun _ s => s = Watch Looking oe))|intros [] ? ->].
  eapply watched_bind; [apply w_other|intros [] ? ->]. eapply watched_bind; [apply w_rd|]. intros sm ? ->. rewrite look_read by done. eapply watched_bind; [apply w_hash|]. intros nt ? ->. cbn [after_hash wa_stage].
  eapply watched_bind; [by apply (watched_check _ _ _ _ (fun _ s => s = Watch Looking oe))|intros [] ? ->].
  assert (bool_decide (md = Probe) = false) as -> by (apply bool_decide_eq_false_2; by destruct Hmd; subst).
  eapply watched_bind with (Q1 := fun _ st => st = Watch Published oe).
  - unfold delta_body. cbv zeta. eapply watched_bind; [apply w_isc_look|intros [] ? ->].
    eapply watched_bind with (Q1 := fun _ s => s = Watch Looking oe).
    { eapply watched_impl; [apply w_hash_range|]. intros h st' ->. by destruct (if bool_decide (md = Restore_) then _ else _). }
    intros h ? ->. eapply watched_bind; [by apply (watched_check _ _ _ _ (fun _ s => s = Watch Looking oe))|intros [] ? ->].
    assert (bool_decide (md = Check_) = false) as -> by (apply bool_decide_eq_false_2; by destruct Hmd; subst). by apply w_write_window.
  - intros [] ? ->. eapply watched_bind; [apply w_other|intros [] ? ->]. eapply watched_bind; [by apply w_edges_still|]. intros l ? ->. by apply watched_check.
Qed.

(** ** The rule of probing *)

(** The scratch area was last read as ..., overwritten, or given back. *)
Inductive pstage := PLook (o : option bytes) | PWrote (o : bytes) | PRestored (o : bytes) | PStopped.

Section probing.
  Context (shake : Z -> bytes) (pl : plan) (mt : Z).
  Abbreviation bs := (pl_bs pl).
  Abbreviation scratch := (pl_co pl + pl_cb pl + MIB).
  Abbreviation size := (mt + 4096).

Definition p_after_read (st : pstage) (lba n : Z) (b : bytes) : pstage :=
  match st with PLook _ => if same_place pl lba n scratch size then PLook (Some b) else st | _ => st end.
(** The only writes: the pattern, then what was read before, both to the scratch
    area. *)
Definition probe_rule (st : pstage) (e : event) : option pstage :=
  match e with
  | EWrite lba d r =>
      match st with
      | PLook (Some o) => if (lba =? scratch / bs) && bytes_eqb d (shake size) then Some (if is_ok r then PWrote o else PStopped) else None
      | PWrote o => if (lba =? scratch / bs) && bytes_eqb d o then Some (if is_ok r then PRestored o else PStopped) else None
      | _ => None
      end
  | ERead lba n (Ok b) => Some (p_after_read st lba n b)
  | _ => Some st
  end.

Abbreviation W := (watched probe_rule).

Lemma q_rd st a n : W st (rd bs a n) (fun b st' => st' = p_after_read st (a / bs) (n / bs) b).
Proof.
  eapply watched_bind; [by apply (watched_check _ _ _ _ (fun _ s => s = st))|intros [] ? ->]. apply watched_bytes. intros [b|x].
  - eexists. split; [done|]. by intros b' [= ->].
  - by exists st.
Qed.
Lemma q_unit st f : (forall r, probe_rule st (f r) = Some st) -> W st (tell_unit f) (fun _ st' => st' = st).
Proof. intros H. apply watched_unit. intros r. by exists st. Qed.
Lemma q_hash st lba n ov : W st (dk_hash lba n ov) (fun _ st' => st' = st).
Proof. apply watched_bytes. intros r. by exists st. Qed.
Lemma q_edges st rs : W st (edges bs rs) (fun _ st' => match st with PLook _ => exists o, st' = PLook o | _ => st' = st end).
Proof.
  revert st. induction rs as [|[a n] r IH]; intros st; cbn [edges]; [apply watched_ret; destruct st; eauto|]. eapply watched_bind; [apply q_rd|]. intros b ? ->.
  eapply watched_bind; [apply IH|]. intros t st1 H1. apply watched_ret. destruct st; cbn in *; try done. by destruct (same_place _ _ _ _ _).
Qed.
Lemma q_look o a n : W (PLook o) (rd bs a n) (fun _ st' => exists o', st' = PLook o').
Proof. eapply watched_impl; [apply q_rd|]. intros b st' ->. cbn. destruct (same_place _ _ _ _ _); eauto. Qed.
Lemma q_check st c msg : W st (check c msg) (fun _ s => s = st).
Proof. by apply watched_check. Qed.

Lemma q_probe o header : W (PLook o) (probe_body shake pl mt header) (fun _ st' => exists b, st' = PRestored b).
Proof.
  unfold probe_body. cbv zeta. eapply watched_bind; [apply q_check|intros [] ? ->]. eapply watched_bind; [apply q_rd|]. intros b ? ->. cbn [p_after_read]. rewrite same_place_refl.
  eapply watched_bind; [by apply q_unit|intros [] ? ->].
  eapply watched_bind with (Q1 := fun _ s => s = PWrote b).
  { eapply watched_bind; [apply q_check|intros [] ? ->]. apply watched_unit. intros r. eexists. split; [cbn; by rewrite Z.eqb_refl, eqb_refl_bytes|]. by intros ->. }
  intros [] ? ->. eapply watched_bind; [by apply q_unit|intros [] ? ->]. eapply watched_bind; [apply q_rd|]. intros bk ? ->. cbn [p_after_read]. eapply watched_bind; [apply q_check|intros [] ? ->].
  eapply watched_bind; [apply q_hash|]. intros h1 ? ->. eapply watched_bind; [apply q_check|intros [] ? ->]. eapply watched_bind; [apply q_hash|]. intros h2 ? ->. eapply watched_bind; [apply q_check|intros [] ? ->].
  eapply watched_bind with (Q1 := fun _ s => s = PRestored b).
  { eapply watched_bind; [apply q_check|intros [] ? ->]. apply watched_unit. intros r. eexists. split; [cbn; by rewrite Z.eqb_refl, eqb_refl_bytes|]. by intros ->. }
  intros [] ? ->. eapply watched_bind; [by apply q_unit|intros [] ? ->]. eapply watched_bind; [apply q_rd|]. intros ag ? ->. cbn [p_after_read]. eapply watched_bind; [apply q_check|intros [] ? ->].
  eapply watched_bind; [apply q_rd|]. intros hd ? ->. apply watched_check. intros _. by exists b.
Qed.

Lemma q_rest m f : W (PLook None) (window_rest shake Probe m f pl mt) (fun _ st' => exists b, st' = PRestored b).
Proof.
  unfold window_rest. cbv zeta. eapply watched_bind; [apply q_edges|]. cbn. intros oe ? [o1 ->]. eapply watched_bind; [apply q_look|]. intros ch ? [o2 ->]. eapply watched_bind; [apply q_check|intros [] ? ->].
  eapply watched_bind; [by apply q_unit|intros [] ? ->]. eapply watched_bind; [apply q_look|]. intros sm ? [o3 ->]. eapply watched_bind; [apply q_hash|]. intros nt ? ->. eapply watched_bind; [apply q_check|intros [] ? ->].
  eapply watched_bind; [apply q_probe|]. intros [] ? [b ->]. eapply watched_bind; [by apply q_unit|intros [] ? ->]. eapply watched_bind; [apply q_edges|]. cbn. intros l ? ->. apply watched_check. intros _. by exists b.
Qed.
End probing.

Definition read_only_trace (new : list event) : Prop := Forall (fun e => writes e = false) new.

(** What a run did to the disk. *)
Definition run_ok (shake : Z -> bytes) (md : mode) (m : manifest_json) (f : package_files) (nsze bs mt : Z) (r : result unit) (new : list event) : Prop :=
  (read_only_trace new /\ (r = Ok tt -> md = Check_)) \/
  exists gpt pl, EGpt (nsze - 1) (Ok gpt) ∈ new /\ window_plan m gpt nsze bs = Ok pl /\
    match md with
    | Check_ => False
    | Probe => exists st, follow (probe_rule shake pl mt) (PLook None) new = Some st /\ (r = Ok tt -> exists o, st = PRestored o)
    | Apply | Restore_ => exists st, follow (mode_rule md pl m f) (Watch Looking []) new = Some st /\ (r = Ok tt -> wa_stage st = Published)
    end.

Lemma run_ok_nothing shake md m f nsze bs mt x new : read_only_trace new -> run_ok shake md m f nsze bs mt (Raise x) new.
Proof. intros H. by left. Qed.

Definition cleanup_events (evs : list event) : Prop := Forall (fun e => exists x, e = EOther x) evs.

Lemma follow_cleanup {St} (step : St -> event -> option St) st evs : (forall x, step st (EOther x) = Some st) -> cleanup_events evs -> follow step st evs = Some st.
Proof. intros Hs. induction 1 as [|e evs [x ->] _ IH]; cbn; [done|]. by rewrite Hs. Qed.

Lemma run_ok_more shake md m f nsze bs mt r r' new evs : run_ok shake md m f nsze bs mt r new -> (r' = Ok tt -> r = Ok tt) -> cleanup_events evs -> run_ok shake md m f nsze bs mt r' (new ++ evs).
Proof.
  intros H Hr He. assert (Hro : read_only_trace evs) by (eapply Forall_impl; [exact He|]; by intros e [x ->]).
  destruct H as [[H1 H2]|(gpt & pl & Hin & Hp & Hm)]; [left; split; [by apply Forall_app|tauto]|].
  right. exists gpt, pl. split; [apply elem_of_app; by left|]. split; [done|]. destruct md; [done| | |]; destruct Hm as (st & Hf & Hs); exists st; (split; [|tauto]); rewrite follow_app, Hf; by apply follow_cleanup.
Qed.

Lemma window_body_ok shake md m f nsze bs mt eui d r d' : window_body shake md m f nsze bs mt eui d = (r, d') ->
  exists new, de_log d' = rev new ++ de_log d /\ run_ok shake md m f nsze bs mt r new.
Proof.
  unfold window_body. intros E. unfold check at 1, py_bind at 1, py_lift in E. destruct (require _ _) as [[]|x]; [|injection E as <- <-; exists []; split; [done|]; apply run_ok_nothing; constructor].
  unfold check at 1, py_bind at 1, py_lift in E. destruct (require _ _) as [[]|x]; [|injection E as <- <-; exists []; split; [done|]; apply run_ok_nothing; constructor].
  unfold py_bind at 1 in E. cbn [dk_gpt AnyDisk] in E. destruct (de_table d _) as [gpt|x] eqn:Eg.
  2:{ injection E as <- <-. exists [EGpt (nsze - 1) (Raise x)]. split; [done|]. apply run_ok_nothing. by repeat constructor. }
  unfold py_bind at 1, py_lift in E. destruct (window_plan m gpt nsze bs) as [pl|x] eqn:Ep.
  2:{ injection E as <- <-. exists [EGpt (nsze - 1) (Ok gpt)]. split; [done|]. apply run_ok_nothing. by repeat constructor. }
  assert (Hlog : forall new, de_log d' = rev new ++ EGpt (nsze - 1) (Ok gpt) :: de_log d -> de_log d' = rev (EGpt (nsze - 1) (Ok gpt) :: new) ++ de_log d) by (intros new ->; cbn; by rewrite <- app_assoc).
  destruct md.
  - destruct (p_check_mode shake m f pl mt _ _ _ E) as (new & [] & Hl & Hf & _). exists (EGpt (nsze - 1) (Ok gpt) :: new). split; [by apply Hlog|]. left. split; [|done]. constructor; [done|by apply follow_never in Hf].
  - destruct (q_rest shake pl mt m f _ _ _ E) as (new & st & Hl & Hf & HQ). exists (EGpt (nsze - 1) (Ok gpt) :: new). split; [by apply Hlog|]. right. exists gpt, pl. split; [by left|]. split; [done|]. exists st. split; [done|]. by intros ->.
  - destruct (w_rest shake Apply m f pl mt ltac:(by left) _ _ _ E) as (new & st & Hl & Hf & HQ). exists (EGpt (nsze - 1) (Ok gpt) :: new). split; [by apply Hlog|]. right. exists gpt, pl. split; [by left|]. split; [done|]. exists st. split; [done|]. by intros ->.
  - destruct (w_rest shake Restore_ m f pl mt ltac:(by right) _ _ _ E) as (new & st & Hl & Hf & HQ). exists (EGpt (nsze - 1) (Ok gpt) :: new). split; [by apply Hlog|]. right. exists gpt, pl. split; [by left|]. split; [done|]. exists st. split; [done|]. by intros ->.
Qed.

(** C8: a window is published last: whatever the disk and the controller answer, a run
    that applies or restores a package writes in one order only.  It first
    overwrites the header with zeros; once that is flushed and reads back, it
    writes the extents in order, each one only after the one before it read back;
    and it writes the new header only after all extents were flushed, the whole
    container, the ISC image and its tail were hashed to the wanted digests, and
    the four neighbouring regions read as they did at the start.  It stops at the
    first write that fails, and returns only with the header written.  A check
    writes nothing, and a probe writes only the scratch area: the pattern, then
    what the area held before. *)
Theorem window_published_last (shake : Z -> bytes) (md : mode) (m : manifest_json) (f : package_files) (nsze bs mt : Z) (eui : bytes) (d : disk) :
  let '(r, d') := window_run shake md m f nsze bs mt eui d in
  exists new, de_log d' = rev new ++ de_log d /\ run_ok shake md m f nsze bs mt r new.
Proof.
  unfold window_run. destruct (window_body shake md m f nsze bs mt eui d) as [r d1] eqn:E. apply window_body_ok in E as (new & Hl & Hok).
  destruct ((dk_disable ;;; dk_close) d1) as [c d2] eqn:Ec.
  assert (Hc : exists evs, de_log d2 = rev evs ++ de_log d1 /\ cleanup_events evs).
  { unfold py_bind in Ec. cbn [dk_disable dk_close AnyDisk] in Ec. unfold tell_unit in Ec. destruct (de_unit d1 _) as [u|x]; injection Ec as <- <-.
    - eexists [_; _]. split; [done|]. repeat constructor; eauto.
    - eexists [_]. split; [done|]. repeat constructor; eauto. }
  destruct Hc as (evs & Hl2 & He). exists (new ++ evs). split; [by rewrite Hl2, Hl, rev_app_distr, app_assoc|].
  eapply run_ok_more; [exact Hok| |exact He]. by destruct r as [[]|].
Qed.

(** ** Accepted packages *)

Definition extent_in (cb : Z) (e : extent_json) : Prop :=
  0 <= ej_container_offset e /\ 0 < ej_bytes e /\ ej_container_offset e mod 4096 = 0 /\ ej_bytes e mod 4096 = 0 /\ ej_container_offset e + ej_bytes e <= cb.
Definition extent_before (a b : extent_json) : Prop := ej_container_offset a + ej_bytes a <= ej_container_offset b.

Lemma require_ok c msg u : require c msg = Ok u -> c = true.
Proof. unfold require. by destruct c. Qed.

Lemma check_extents_spec es cb before after packed stop p' : check_extents es cb before after packed stop = Ok p' -> 0 <= stop -> 0 <= packed ->
  packed <= p' /\ Forall (extent_in cb) es /\ Forall (fun e => stop <= ej_container_offset e) es /\ StronglySorted extent_before es /\
  Forall (fun e => digest (extent_data before e) = ej_before_sha256 e /\ digest (extent_data after e) = ej_after_sha256 e) es /\
  forall pack, p' <= zlen pack -> concat (map (extent_data pack) es) = slice (Z.to_nat packed) (Z.to_nat p') pack.
Proof.
  revert packed stop. induction es as [|e es IH]; intros packed stop E Hs Hp; cbn [check_extents] in E.
  - injection E as <-. split; [lia|]. do 4 (split; [constructor|]). intros pack _. unfold slice. by rewrite Nat.sub_diag.
  - apply bind_inv in E as (u1 & H1%require_ok & E). apply bind_inv in E as (u2 & H2%require_ok & E).
    rewrite !andb_true_iff, Z.leb_le, Z.ltb_lt, !Z.eqb_eq, Z.leb_le in H1. destruct H1 as ((((Ho & Hz) & Ha & Hb) & Hc) & Hpo). apply andb_true_iff in H2 as [D1%bytes_eqb_true D2%bytes_eqb_true].
    destruct (IH _ _ E ltac:(lia) ltac:(lia)) as (Hpp & F1 & F2 & F3 & F4 & F5). split; [lia|]. split; [constructor; [unfold extent_in; lia|done]|].
    split; [constructor; [done|]; eapply Forall_impl; [exact F2|]; cbn; lia|]. split; [constructor; [done|]; eapply Forall_impl; [exact F2|]; done|]. split; [by constructor|].
    intros pack Hlen. cbn [map concat]. rewrite (F5 pack Hlen). unfold extent_data at 1. rewrite Hpo. unfold slice.
    replace (Z.to_nat p' - Z.to_nat packed)%nat with (Z.to_nat (packed + ej_bytes e) - Z.to_nat packed + (Z.to_nat p' - Z.to_nat (packed + ej_bytes e)))%nat by lia.
    rewrite <- take_take_drop, drop_drop. do 3 f_equal. lia.
Qed.

(** An accepted package is what its pin says and fits the container: the package,
    manifest, packs and headers have the pinned digests; the extents are nonempty
    blocks of whole pages inside the container, in order and disjoint; and laid
    end to end they are exactly the two packs, piece by piece with the digests of
    the manifest. *)
Theorem package_sound (loads_package : bytes -> result package_json) (loads_manifest : bytes -> result manifest_json) (f : package_files) (pin : bytes) (p : package_json) (m : manifest_json) :
  package loads_package loads_manifest f pin = Ok (p, m) ->
  digest (pf_package f) = pin /\ digest (pf_manifest f) = pj_manifest_sha256 p /\ digest (pf_before f) = mj_before_pack_sha256 m /\ digest (pf_after f) = mj_after_pack_sha256 m /\
  zlen (pf_header_before f) = 4096 /\ zlen (pf_header_after f) = 4096 /\ 0 < zlen (pf_before f) <= 64 * MIB /\
  Forall (extent_in (mj_container_bytes m)) (mj_extents m) /\ StronglySorted extent_before (mj_extents m) /\
  concat (map (extent_data (pf_before f)) (mj_extents m)) = pf_before f /\ concat (map (extent_data (pf_after f)) (mj_extents m)) = pf_after f /\
  Forall (fun e => digest (extent_data (pf_before f) e) = ej_before_sha256 e /\ digest (extent_data (pf_after f) e) = ej_after_sha256 e) (mj_extents m).
Proof.
  unfold package. intros E. apply bind_inv in E as (u1 & H1%require_ok & E). apply bind_inv in E as (p0 & Hp & E). apply bind_inv in E as (u2 & _ & E). apply bind_inv in E as (u3 & H3%require_ok & E).
  apply bind_inv in E as (m0 & Hm & E). apply bind_inv in E as (u4 & _ & E). cbv zeta in E. apply bind_inv in E as (u5 & H5%require_ok & E). apply bind_inv in E as (u6 & H6%require_ok & E).
  apply bind_inv in E as (u7 & H7%require_ok & E). apply bind_inv in E as (packed & Hx & E). apply bind_inv in E as (u8 & H8%require_ok & [= -> ->]).
  rewrite !andb_true_iff, Z.ltb_lt, !Z.eqb_eq, Z.leb_le in H5. destruct H5 as (((H51 & H52) & H53) & H54). apply andb_true_iff in H6 as [D1%bytes_eqb_true D2%bytes_eqb_true].
  rewrite !andb_true_iff, !Z.eqb_eq in H7. destruct H7 as (((H71 & H72) & _) & _). rewrite andb_true_iff, !Z.eqb_eq in H8. destruct H8 as [-> _].
  apply check_extents_spec in Hx as (_ & F1 & _ & F3 & F4 & F5); [|done|done]. apply bytes_eqb_true in H1, H3. split_and!; try done; try lia.
  - rewrite (F5 (pf_before f)) by lia. unfold slice. cbn [Z.to_nat]. rewrite drop_0, Nat.sub_0_r. apply take_ge. unfold zlen. lia.
  - rewrite (F5 (pf_after f)) by lia. unfold slice. cbn [Z.to_nat]. rewrite drop_0, Nat.sub_0_r. apply take_ge. unfold zlen in *. lia.
Qed.

(** ** A package of one extent *)

Definition ones4k : bytes := replicate 4096 x01.
Definition one_files : package_files := PackageFiles (text "package") (text "manifest") zeros4k ones4k zeros4k ones4k.
Definition one_package : package_json := PackageJson (text "PACKAGED_LOCAL_ONLY") (digest (text "manifest")) (digest zeros4k) (digest ones4k) 1.
Definition one_manifest : manifest_json :=
  {| mj_schema := text "snapintosh-window-delta/1"; mj_block_bytes := 4096; mj_payload_bytes := 4096; mj_before_pack_sha256 := digest zeros4k; mj_after_pack_sha256 := digest ones4k;
     mj_extents := [ExtentJson 8192 4096 0 (digest zeros4k) (digest ones4k)];
     mj_container_bytes := 65536; mj_container_before_sha256 := []; mj_container_after_sha256 := []; mj_disk_bytes := 0; mj_disk_unique_id := []; mj_disk_guid := [];
     mj_partition_guid := []; mj_partition_offset := 0; mj_partition_size := 0; mj_partition_type := []; mj_header_offset := 0; mj_container_offset := 0; mj_isc_offset := 0;
     mj_isc_image := 0; mj_isc_region := 0; mj_isc_sha256 := []; mj_isc_zero_tail_sha256 := [] |}.

Lemma package_sound_witness : package (fun _ => Ok one_package) (fun _ => Ok one_manifest) one_files (digest (text "package")) = Ok (one_package, one_manifest) /\
  concat (map (extent_data zeros4k) (mj_extents one_manifest)) = zeros4k.
Proof.
  assert (H : package (fun _ => Ok one_package) (fun _ => Ok one_manifest) one_files (digest (text "package")) = Ok (one_package, one_manifest)) by (vm_compute; reflexivity).
  split; [exact H|]. destruct (package_sound (fun _ => Ok one_package) (fun _ => Ok one_manifest) one_files (digest (text "package")) one_package one_manifest H) as (_ & _ & _ & _ & _ & _ & _ & _ & _ & Hb & _).
  exact Hb.
Defined.
