(* ===== verification/Ncm.v ===== *)
(** * tools/a16xhci.py: NCM transfer blocks, ICMPv6 and descriptors

    The pure half of the xHCI tool: [parse_ntb] and [build_ntb] (Ethernet frames in
    a 16-bit NCM transfer block), the Internet checksum and the ICMPv6 and IPv6
    headers around it, and [walk_configuration] over USB descriptors.

    Offsets and lengths are [nat]; both loops of [parse_ntb] take fuel, and
    [parse_ntb_total] shows that the block's length is enough. *)

From Stdlib Require Import ZArith Lia.
From Stdlib Require Import Strings.Byte Strings.String.
From stdpp Require Import base list numbers gmap sets.
From S2P Require Import Prelude Bytes.

Local Open Scope list_scope.
Local Open Scope Z_scope.

(** ** NCM transfer blocks *)

Definition NCMH : bytes := list_byte_of_string "NCMH"%string.
Definition NCM0 : bytes := list_byte_of_string "NCM0"%string.

Record ntb_header := NtbHeader { nt_sequence : Z; nt_block_length : Z; nt_header_length : Z }.

(** One [H] of a little-endian format, as an offset. *)
Definition u16 (data : bytes) (off : nat) : result nat :=
  let? v := unpack_u 2 off data in Ok (Z.to_nat v).

(** The entries of one datagram pointer table. *)
Fixpoint ntb_entries (fuel : nat) (data : bytes) (stop offset : nat) (frames : list bytes) : result (list bytes) :=
  if (offset + 4 <=? stop)%nat then
    match fuel with
    | O => Raise OutOfFuel
    | S k =>
        let? index := u16 data offset in
        let? size := u16 data (offset + 2) in
        if ((index =? 0) && (size =? 0))%nat then Ok frames
        else ntb_entries k data stop (offset + 4)
               (if (index + size <=? length data)%nat then frames ++ [slice index (index + size) data] else frames)
    end
  else Ok frames.

(** The chain of tables; [seen] stops a loop of them. *)
Fixpoint ntb_tables (fuel : nat) (data : bytes) (ndp_index : nat) (seen : gset nat) (frames : list bytes)
    : result (list bytes) :=
  if negb (ndp_index =? 0)%nat && (ndp_index + 8 <=? length data)%nat && bool_decide (ndp_index ∉ seen) then
    match fuel with
    | O => Raise OutOfFuel
    | S k =>
        let? len := u16 data (ndp_index + 4) in
        let? next_index := u16 data (ndp_index + 6) in
        let? frames := ntb_entries (length data) data (ndp_index + len) (ndp_index + 8) frames in
        ntb_tables k data next_index ({[ndp_index]} ∪ seen) frames
    end
  else Ok frames.

Definition parse_ntb (data : bytes) : result (option ntb_header * list bytes) :=
  if (length data <? 12)%nat || negb (bytes_eqb (slice 0 4 data) NCMH) then Ok (None, [])
  else
    let? header_length := unpack_u 2 4 data in
    let? sequence := unpack_u 2 6 data in
    let? block_length := unpack_u 2 8 data in
    let? ndp_index := u16 data 10 in
    let? frames := ntb_tables (length data) data ndp_index ∅ [] in
    Ok (Some {| nt_sequence := sequence; nt_block_length := block_length; nt_header_length := header_length |}, frames).

(** [(n + 3) & ~3]. *)
Definition align4 (n : nat) : nat := Z.to_nat (Z.land (Z.of_nat n + 3) (Z.lnot 3)).

(** Offset, body and pointers of the block under construction. *)
Definition ntb_add (st : nat * bytes * list (nat * nat)) (frame : bytes) : nat * bytes * list (nat * nat) :=
  let '(offset, body, pointers) := st in
  let offset := align4 offset in
  let body := body ++ replicate (offset - 12 - length body) x00 in
  (offset + length frame, body ++ frame, pointers ++ [(offset, length frame)])%nat.

Fixpoint pack_pointers (l : list (nat * nat)) : result bytes :=
  match l with
  | [] => Ok []
  | (index, size) :: r =>
      let? a := pack_u 2 (Z.of_nat index) in
      let? b := pack_u 2 (Z.of_nat size) in
      let? c := pack_pointers r in
      Ok (a ++ b ++ c)
  end.

Definition build_ntb (datagrams : list bytes) (sequence : Z) : result bytes :=
  let '(offset, body, pointers) := fold_left ntb_add datagrams (12%nat, [], []) in
  let ndp_index := align4 offset in
  let body := body ++ replicate (ndp_index - 12 - length body) x00 in
  let? len := pack_u 2 (Z.of_nat (8 + 4 * (length pointers + 1))) in
  let? zero := pack_u 2 0 in
  let? entries := pack_pointers pointers in
  let ndp := NCM0 ++ (len ++ zero) ++ entries ++ (zero ++ zero) in
  let total := (ndp_index + length ndp)%nat in
  let? h := pack_u 2 12 in
  let? s := pack_u 2 (Z.land sequence 0xFFFF) in
  let? t := pack_u 2 (Z.of_nat total) in
  let? i := pack_u 2 (Z.of_nat ndp_index) in
  Ok ((NCMH ++ h ++ s ++ t ++ i) ++ body ++ ndp).

(** ** Internet checksum and IPv6 *)

(** [struct.pack] of one big-endian field. *)
Definition pack_be (n : nat) (z : Z) : result bytes := let? b := pack_u n z in Ok (rev b).

(** [struct.unpack('>nH')]. *)
Fixpoint be_words (d : bytes) : list Z :=
  match d with
  | a :: b :: r => 256 * byte_to_Z a + byte_to_Z b :: be_words r
  | _ => []
  end.

(** [while total >> 16]: each pass at least halves what is above 16 bits. *)
Fixpoint fold16 (fuel : nat) (total : Z) : Z :=
  match fuel with
  | O => total
  | S k => if Z.shiftr total 16 =? 0 then total else fold16 k (Z.land total 0xFFFF + Z.shiftr total 16)
  end.

Definition total16 (data : bytes) : Z :=
  let data := if Nat.odd (length data) then data ++ [x00] else data in
  fold_right Z.add 0 (be_words data).

Definition checksum16 (data : bytes) : Z :=
  let total := total16 data in
  Z.land (Z.lnot (fold16 (Z.to_nat (Z.log2 total)) total)) 0xFFFF.

Definition icmpv6_pseudo (source destination body : bytes) : result bytes :=
  let? l := pack_be 4 (zlen body) in
  Ok (source ++ destination ++ l ++ [x00; x00; x00; byte_of_Z 58]).

Definition icmpv6 (source destination body : bytes) : result bytes :=
  let? pseudo := icmpv6_pseudo source destination body in
  let payload := take 2 body ++ [x00; x00] ++ drop 4 body in
  let? value := pack_be 2 (checksum16 (pseudo ++ payload)) in
  Ok (take 2 body ++ value ++ drop 4 body).

Definition ipv6_frame (source_mac destination_mac source destination payload : bytes) (hop_limit : Z) : result bytes :=
  let? v := pack_be 4 0x60000000 in
  let? l := pack_be 2 (zlen payload) in
  let? n := pack_be 1 58 in
  let? h := pack_be 1 hop_limit in
  let header := (v ++ l ++ n ++ h) ++ source ++ destination in
  Ok (destination_mac ++ source_mac ++ [x86; xdd] ++ header ++ payload).

Definition multicast_mac (address : bytes) : bytes := [x33; x33] ++ slice 12 16 address.

(** [link_local] of this tool: unlike udplink's it does not check the length. *)
Definition eui64_link_local (mac : bytes) : result bytes :=
  match mac with
  | m0 :: _ => Ok ([xfe; x80] ++ replicate 6 x00 ++ [byte_of_Z (Z.lxor (byte_to_Z m0) 0x02)] ++ slice 1 3 mac ++ [xff; xfe] ++ slice 3 6 mac)
  | [] => Raise IndexError
  end.

(** ** USB descriptors *)

(** The generator [walk_configuration], as the list of what it yields. *)
Fixpoint walk_from (fuel : nat) (data : bytes) (offset : nat) : list (Z * bytes) :=
  match fuel with
  | O => []
  | S k =>
      if (offset + 2 <=? length data)%nat then
        let len := Z.to_nat (byte_to_Z (default x00 (data !! offset))) in
        if (len <? 2)%nat || (length data <? offset + len)%nat then []
        else (byte_to_Z (default x00 (data !! (offset + 1)%nat)), slice offset (offset + len) data)
             :: walk_from k data (offset + len)
      else []
  end.
Definition walk_configuration (data : bytes) : list (Z * bytes) := walk_from (S (length data)) data 0.

Example ntb_two : (let? b := build_ntb [[x01; x02; x03]; []; [x04]] 70000 in parse_ntb b)
  = Ok (Some {| nt_sequence := 4464; nt_block_length := 44; nt_header_length := 12 |}, [[x01; x02; x03]; []; [x04]]).
Proof. vm_compute. reflexivity. Qed.

(** ** The Internet checksum *)

Lemma shiftr16 z : Z.shiftr z 16 = z / 65536.
Proof. by rewrite Z.shiftr_div_pow2. Qed.
Lemma land16 z : Z.land z 0xFFFF = z mod 65536.
Proof. exact (Z.land_ones z 16 ltac:(lia)). Qed.

(** One pass keeps the value modulo 65535 and the sign. *)
Lemma fold16_step t : 0 <= t -> let t' := Z.land t 0xFFFF + Z.shiftr t 16 in
  0 <= t' /\ (0 < t -> 0 < t') /\ (65535 | t - t').
Proof.
  intros Ht. cbv zeta. rewrite shiftr16, land16. pose proof (Z.mod_pos_bound t 65536 ltac:(lia)). pose proof (Z.div_mod t 65536 ltac:(lia)).
  assert (0 <= t / 65536) by (apply Z.div_pos; lia). repeat split; [lia|nia|]. exists (t / 65536). lia.
Qed.

Lemma fold16_keeps fuel t : 0 <= t -> 0 <= fold16 fuel t /\ (0 < t -> 0 < fold16 fuel t) /\ (65535 | t - fold16 fuel t).
Proof.
  revert t. induction fuel as [|k IH]; intros t Ht; cbn [fold16]; [rewrite Z.sub_diag; repeat split; auto using Z.divide_0_r|].
  case_match; [rewrite Z.sub_diag; repeat split; auto using Z.divide_0_r|].
  destruct (fold16_step t Ht) as (H1 & H2 & H3). destruct (IH _ H1) as (I1 & I2 & I3). repeat split; auto.
  replace (t - _) with ((t - (Z.land t 0xFFFF + Z.shiftr t 16)) + ((Z.land t 0xFFFF + Z.shiftr t 16) - fold16 k (Z.land t 0xFFFF + Z.shiftr t 16))) by lia.
  by apply Z.divide_add_r.
Qed.

Lemma fold16_small fuel t : 0 <= t < 65536 -> fold16 fuel t = t.
Proof. intros H. destruct fuel; [done|]. cbn [fold16]. rewrite shiftr16, Z.div_small by lia. done. Qed.

(** The loop ends: [n + 1] passes bring [16 + n] bits down to 16. *)
Lemma fold16_ends n fuel t : (n < fuel)%nat -> 0 <= t < 2 ^ (16 + Z.of_nat n) -> fold16 fuel t < 65536.
Proof.
  revert fuel t. induction n as [|n IH]; intros fuel t Hf Ht; [rewrite fold16_small; simpl in Ht; lia|].
  destruct fuel as [|k]; [lia|]. cbn [fold16]. destruct (Z.eqb_spec (Z.shiftr t 16) 0) as [E|E]; rewrite shiftr16 in *.
  { apply Z.div_small_iff in E; lia. }
  destruct (fold16_step t ltac:(lia)) as (H1 & _ & _). cbv zeta in H1. rewrite shiftr16, land16 in *.
  pose proof (Z.mod_pos_bound t 65536 ltac:(lia)).
  assert (Hd : t / 65536 < 2 ^ Z.of_nat (S n)).
  { apply Z.div_lt_upper_bound; [lia|]. replace (65536 * _) with (2 ^ (16 + Z.of_nat (S n))); [lia|]. by rewrite Z.pow_add_r by lia. }
  destruct n as [|n].
  - change (2 ^ Z.of_nat 1) with 2 in Hd. destruct (decide (t mod 65536 + t / 65536 < 65536)); [rewrite fold16_small; lia|].
    replace (t mod 65536 + t / 65536) with 65536 by lia. destruct k as [|k]; [lia|]. cbn [fold16].
    change (Z.shiftr 65536 16 =? 0) with false. change (Z.land 65536 0xFFFF + Z.shiftr 65536 16) with 1. cbv iota. rewrite fold16_small; lia.
  - apply IH; [lia|]. split; [lia|].
    replace (2 ^ (16 + Z.of_nat (S n))) with (65536 * 2 ^ Z.of_nat (S n)) by (by rewrite Z.pow_add_r by lia).
    replace (2 ^ Z.of_nat (S (S n))) with (2 * 2 ^ Z.of_nat (S n)) in Hd by (by rewrite !Nat2Z.inj_succ, <- Z.pow_succ_r by lia).
    assert (2 <= 2 ^ Z.of_nat (S n)) by (change 2 with (2 ^ 1) at 1; apply Z.pow_le_mono_r; lia). lia.
Qed.

Lemma fold16_range t : 0 <= t -> 0 <= fold16 (Z.to_nat (Z.log2 t)) t < 65536.
Proof.
  intros Ht. split; [by apply fold16_keeps|]. destruct (decide (t < 65536)); [rewrite fold16_small; lia|].
  assert (16 <= Z.log2 t) by (change 16 with (Z.log2 65536); apply Z.log2_le_mono; lia).
  apply (fold16_ends (Z.to_nat (Z.log2 t - 15))); [lia|]. rewrite Z2Nat.id by lia.
  replace (16 + (Z.log2 t - 15)) with (Z.succ (Z.log2 t)) by lia. pose proof (Z.log2_spec t ltac:(lia)). lia.
Qed.

Lemma be_words_nonneg d : 0 <= fold_right Z.add 0 (be_words d).
Proof.
  revert d. refine (fix IH d := _). destruct d as [|a [|b d]]; cbn [be_words fold_right]; [lia..|].
  pose proof (byte_to_Z_range a). pose proof (byte_to_Z_range b). specialize (IH d). lia.
Qed.

(** The checksum is what brings the sum to a multiple of 65535. *)
Lemma checksum16_range d : 0 <= checksum16 d < 65536.
Proof. unfold checksum16. rewrite land16. by apply Z.mod_pos_bound. Qed.

Lemma lnot16 z : 0 <= z < 65536 -> Z.land (Z.lnot z) 0xFFFF = 65535 - z.
Proof. intros H. rewrite land16. unfold Z.lnot. symmetry. apply (Z.mod_unique _ _ (-1)); lia. Qed.

Lemma checksum16_completes d : (65535 | total16 d + checksum16 d).
Proof.
  unfold checksum16. cbv zeta. assert (0 <= total16 d) by (apply be_words_nonneg). rewrite lnot16 by (by apply fold16_range).
  set (t := total16 d) in *. destruct (fold16_keeps (Z.to_nat (Z.log2 t)) t ltac:(lia)) as (_ & _ & [q Hq]). exists (q + 1). lia.
Qed.

Lemma checksum16_zero d : 0 < total16 d -> (65535 | total16 d) -> checksum16 d = 0.
Proof.
  intros Hp [q Hq]. unfold checksum16. cbv zeta. rewrite lnot16 by (apply fold16_range; lia). set (t := total16 d) in *.
  destruct (fold16_keeps (Z.to_nat (Z.log2 t)) t ltac:(lia)) as (H1 & H2 & [p Hd]). pose proof (fold16_range t ltac:(lia)).
  specialize (H2 Hp). nia.
Qed.

Lemma be_words_app n p q : length p = (2 * n)%nat -> be_words (p ++ q) = be_words p ++ be_words q.
Proof.
  revert p. induction n as [|n IH]; intros p Hp; [by destruct p|].
  destruct p as [|a [|b p]]; [simpl in Hp; lia..|]. cbn [app be_words]. rewrite IH; [done|]. cbn [length] in Hp. lia.
Qed.

Lemma sum_app l k : fold_right Z.add 0 (l ++ k) = fold_right Z.add 0 l + fold_right Z.add 0 k.
Proof. induction l as [|x l IH]; cbn [app fold_right]; lia. Qed.

Lemma total16_app n p q : length p = (2 * n)%nat -> total16 (p ++ q) = total16 p + total16 q.
Proof.
  intros Hp. unfold total16. rewrite length_app, Nat.odd_add, Hp.
  replace (Nat.odd (2 * n)) with false by (by rewrite Nat.odd_mul). cbv zeta. rewrite xorb_false_l.
  destruct (Nat.odd (length q)); rewrite <- ?app_assoc, (be_words_app n), sum_app by done; done.
Qed.

(** A 16-bit field of the data counts with its value. *)
Lemma total16_field n p v r : length p = (2 * n)%nat -> 0 <= v < 65536 ->
  total16 (p ++ rev (le_bytes 2 v) ++ r) = total16 p + v + total16 r.
Proof.
  intros Hp Hv. rewrite (total16_app n p), (total16_app 1) by (rewrite ?length_rev, ?length_le_bytes; done).
  enough (total16 (rev (le_bytes 2 v)) = v) by lia. unfold total16. cbn -[Z.div Z.mul Z.add]. rewrite !byte_to_of_Z.
  pose proof (Z.div_mod v 256 ltac:(lia)). rewrite (Z.mod_small (v / 256)); [lia|]. split; [apply Z.div_pos; lia|apply Z.div_lt_upper_bound; lia].
Qed.

(** The message [icmpv6] returns differs from the body in the checksum field only,
    and the receiver's sum over the pseudo-header and the message is zero. *)
Theorem icmpv6_verifies (source destination body : bytes) :
  length source = 16%nat -> length destination = 16%nat -> (4 <= length body)%nat -> zlen body < 2 ^ 32 ->
  exists pseudo m, icmpv6_pseudo source destination body = Ok pseudo /\ icmpv6 source destination body = Ok m /\
    checksum16 (pseudo ++ m) = 0 /\ length m = length body /\ take 2 m = take 2 body /\ drop 4 m = drop 4 body.
Proof.
  intros Hs Hd Hb Hl. unfold icmpv6, icmpv6_pseudo, pack_be. rewrite (pack_u_ok 4) by (unfold zlen in *; lia). cbn [rbind].
  set (pseudo := source ++ destination ++ rev (le_bytes 4 (zlen body)) ++ [x00; x00; x00; byte_of_Z 58]).
  set (c := checksum16 _). assert (Hc : 0 <= c < 65536) by apply checksum16_range. rewrite (pack_u_ok 2) by (simpl; lia). cbn [rbind].
  assert (Ht : length (take 2 body) = 2%nat) by (rewrite length_take; lia).
  assert (Hp : length (pseudo ++ take 2 body) = (2 * 21)%nat)
    by (unfold pseudo; rewrite !length_app, length_rev, length_le_bytes, Hs, Hd, Ht; done).
  assert (Hq : 0 < total16 pseudo).
  { unfold pseudo. rewrite !app_assoc. rewrite (total16_app 18) by (rewrite !length_app, length_rev, length_le_bytes, Hs, Hd; done).
    assert (0 <= total16 ((source ++ destination) ++ rev (le_bytes 4 (zlen body)))) by (apply be_words_nonneg).
    enough (total16 [x00; x00; x00; byte_of_Z 58] = 58) by lia. reflexivity. }
  exists pseudo. eexists. do 2 (split; [done|]). split_and!.
  - assert (Hz : total16 (pseudo ++ take 2 body ++ [x00; x00] ++ drop 4 body) = total16 (pseudo ++ take 2 body) + 0 + total16 (drop 4 body))
      by (rewrite app_assoc; by apply (total16_field 21 _ 0)).
    assert (Hv : total16 (pseudo ++ take 2 body ++ rev (le_bytes 2 c) ++ drop 4 body) = total16 (pseudo ++ take 2 body) + c + total16 (drop 4 body))
      by (rewrite app_assoc; by apply (total16_field 21)).
    assert (0 <= total16 (take 2 body)) by apply be_words_nonneg. assert (0 <= total16 (drop 4 body)) by apply be_words_nonneg.
    assert (total16 (pseudo ++ take 2 body) = total16 pseudo + total16 (take 2 body))
      by (apply (total16_app 20); unfold pseudo; rewrite !length_app, length_rev, length_le_bytes, Hs, Hd; done).
    apply checksum16_zero; rewrite Hv; [lia|].
    pose proof (checksum16_completes (pseudo ++ take 2 body ++ [x00; x00] ++ drop 4 body)) as Hx. fold c in Hx. rewrite Hz in Hx.
    by replace (_ + c + _) with (total16 (pseudo ++ take 2 body) + 0 + total16 (drop 4 body) + c) by lia.
  - rewrite !length_app, length_rev, length_le_bytes, length_drop, Ht. lia.
  - rewrite take_app_le by lia. rewrite take_ge by lia. done.
  - rewrite app_assoc. rewrite drop_app_length'; [done|]. rewrite length_app, length_rev, length_le_bytes, Ht. done.
Qed.

(** A list of known length, element by element. *)
Tactic Notation "unlist" integer(n) hyp(l) hyp(H) :=
  do n (let b := fresh "b" in destruct l as [|b l]; [cbn in H; discriminate H|]); destruct l; [|cbn in H; discriminate H].

(** A receiver's check of an Ethernet frame: ethertype, version, payload length,
    next header, and the ICMPv6 checksum over the addresses of the frame itself. *)
Definition frame_verifies (f : bytes) : Prop :=
  (54 <= length f)%nat /\ slice 12 14 f = [x86; xdd] /\ slice 14 18 f = [x60; x00; x00; x00] /\
  slice 18 20 f = rev (le_bytes 2 (zlen (drop 54 f))) /\ slice 20 21 f = [byte_of_Z 58] /\
  exists pseudo, icmpv6_pseudo (slice 22 38 f) (slice 38 54 f) (drop 54 f) = Ok pseudo /\ checksum16 (pseudo ++ drop 54 f) = 0.

(** A message wrapped for the wire. *)
Definition icmp_frame (source_mac destination_mac source destination body : bytes) : result bytes :=
  let? m := icmpv6 source destination body in ipv6_frame source_mac destination_mac source destination m 255.

(** Every ICMPv6 frame the tool builds passes those checks, with the addresses it was
    given; nothing of the body but the checksum field is changed. *)
Lemma icmp_frame_verifies (source_mac destination_mac source destination body : bytes) :
  length source_mac = 6%nat -> length destination_mac = 6%nat -> length source = 16%nat -> length destination = 16%nat ->
  (4 <= length body)%nat -> zlen body < 65536 ->
  exists f, icmp_frame source_mac destination_mac source destination body = Ok f /\ frame_verifies f /\
    slice 0 6 f = destination_mac /\ slice 6 12 f = source_mac /\ slice 22 38 f = source /\ slice 38 54 f = destination /\
    length f = (54 + length body)%nat /\ slice 54 56 f = take 2 body /\ drop 58 f = drop 4 body.
Proof.
  intros Hsm Hdm Hs Hd Hb Hl. destruct (icmpv6_verifies source destination body Hs Hd Hb ltac:(lia)) as (pseudo & m & Hp & Hm & Hc & Hlm & H2 & H4).
  unfold icmp_frame. rewrite Hm. cbn [rbind]. unfold ipv6_frame, pack_be. rewrite (pack_u_ok 4) by (simpl; lia). cbn [rbind].
  rewrite (pack_u_ok 2) by (unfold zlen in *; change (256 ^ Z.of_nat 2) with 65536; lia). cbn [rbind].
  rewrite (pack_u_ok 1 58), (pack_u_ok 1 255) by (simpl; lia). cbn [rbind]. eexists. split; [reflexivity|].
  set (n := rev (le_bytes 2 (zlen m))) in *. assert (Hn : length n = 2%nat) by done. assert (Hnz : n = rev (le_bytes 2 (zlen m))) by done. clearbody n.
  unlist 6 source_mac Hsm. unlist 6 destination_mac Hdm. unlist 16 source Hs. unlist 16 destination Hd. unlist 2 n Hn. cbn [rev app le_bytes].
  split; [|repeat split; try (unfold slice; cbn [drop take Nat.sub]; exact H2 || done)].
  - repeat split; try (by cbn); [cbn; lia|]. exists pseudo. split; [|done]. rewrite <- Hp. unfold icmpv6_pseudo, zlen. rewrite <- Hlm. done.
  - cbn [length]. lia.
Qed.

(** ** Transfer blocks: termination *)

Lemma u16_ok data off : (off + 2 <= length data)%nat -> exists v, u16 data off = Ok v.
Proof. intros H. unfold u16, unpack_u. rewrite decide_True by done. by eexists. Qed.

Lemma u16_inv data off v : u16 data off = Ok v -> (off + 2 <= length data)%nat.
Proof. unfold u16, unpack_u. by case_decide. Qed.

Lemma u16_err data off e : u16 data off = Raise e -> e = StructError.
Proof. unfold u16, unpack_u. case_decide; [done|]. by intros [= <-]. Qed.

(** A frame is a contiguous part of the block. *)
Definition in_block (data f : bytes) : Prop :=
  exists i, (i + length f <= length data)%nat /\ f = slice i (i + length f) data.

(** With a quarter of the bytes left to go as fuel, the entries end; the frames
    added are parts of the block. *)
Lemma ntb_entries_ends fuel data stop offset frames : (0 < fuel)%nat -> (length data < offset + 4 * fuel)%nat ->
  match ntb_entries fuel data stop offset frames with
  | Ok out => exists new, out = frames ++ new /\ Forall (in_block data) new
  | Raise e => e = StructError /\ (length data < stop)%nat
  end.
Proof.
  revert offset frames. induction fuel as [|k IH]; intros offset frames H0 Hf; [lia|]. cbn [ntb_entries].
  destruct (Nat.leb_spec (offset + 4) stop) as [Hs|Hs]; [|exists []; by rewrite app_nil_r].
  destruct (u16 data offset) as [i|e] eqn:Ei; cbn [rbind].
  2:{ split; [by apply u16_err in Ei|]. destruct (decide (offset + 2 <= length data)%nat) as [Hd|]; [|lia].
      destruct (u16_ok _ _ Hd). congruence. }
  destruct (u16 data (offset + 2)) as [n|e] eqn:En; cbn [rbind].
  2:{ split; [by apply u16_err in En|]. destruct (decide (offset + 2 + 2 <= length data)%nat) as [Hd|]; [|lia].
      destruct (u16_ok _ _ Hd). congruence. }
  apply u16_inv in En. destruct (_ && _); [exists []; by rewrite app_nil_r|].
  assert (Hk : (0 < k)%nat /\ (length data < offset + 4 + 4 * k)%nat) by lia. destruct Hk as [Hk0 Hk].
  destruct (Nat.leb_spec (i + n) (length data)) as [Hin|Hin]; [|exact (IH _ _ Hk0 Hk)].
  specialize (IH (offset + 4)%nat (frames ++ [slice i (i + n) data]) Hk0 Hk). case_match; [|done].
  destruct IH as (new & -> & Hnew). exists (slice i (i + n) data :: new). rewrite <- app_assoc. split; [done|]. constructor; [|done].
  exists i. assert (length (slice i (i + n) data) = n) as -> by (unfold slice; rewrite length_take, length_drop; lia). done.
Qed.

Lemma ntb_tables_ends fuel data ndp seen frames :
  (12 <= length data)%nat -> seen ⊆ set_seq 1 (length data - 8) -> (length data - 8 < size seen + fuel)%nat ->
  match ntb_tables fuel data ndp seen frames with
  | Ok out => exists new, out = frames ++ new /\ Forall (in_block data) new
  | Raise e => e = StructError
  end.
Proof.
  revert ndp seen frames. induction fuel as [|k IH]; intros ndp seen frames Hlen Hsub Hf; cbn [ntb_tables].
  { pose proof (subseteq_size _ _ Hsub). rewrite size_set_seq in *. lia. }
  destruct (_ && _ && _) eqn:E; [|exists []; by rewrite app_nil_r].
  apply andb_true_iff in E as [[E0 E1]%andb_true_iff E2]. apply negb_true_iff, Nat.eqb_neq in E0. apply Nat.leb_le in E1. apply bool_decide_eq_true in E2.
  destruct (u16_ok data (ndp + 4) ltac:(lia)) as [l Hl], (u16_ok data (ndp + 6) ltac:(lia)) as [nx Hnx]. rewrite Hl, Hnx. cbn [rbind].
  pose proof (ntb_entries_ends (length data) data (ndp + l) (ndp + 8) frames ltac:(lia) ltac:(lia)) as He.
  destruct (ntb_entries _ _ _ _ _) as [out|e]; cbn [rbind]; [|by destruct He].
  destruct He as (new & -> & Hnew).
  assert (Hsub' : {[ndp]} ∪ seen ⊆ set_seq 1 (length data - 8)).
  { apply union_subseteq. split; [|done]. apply singleton_subseteq_l, elem_of_set_seq. lia. }
  assert (Hsz : (length data - 8 < size ({[ndp]} ∪ seen) + k)%nat) by (rewrite size_union, size_singleton by set_solver; lia).
  specialize (IH nx _ (frames ++ new) Hlen Hsub' Hsz). case_match; [|done].
  destruct IH as (new' & -> & Hnew'). exists (new ++ new'). rewrite app_assoc. split; [done|by apply Forall_app].
Qed.

(** Parsing a transfer block ends whatever the block holds, tables that point
    at each other included: it returns, or raises [struct.error] at a table whose
    length leads out of the block; the fuel is never used up.  Every frame it
    returns is a contiguous part of the block. *)
Theorem parse_ntb_total (data : bytes) :
  match parse_ntb data with
  | Ok (_, frames) => Forall (in_block data) frames
  | Raise e => e = StructError
  end.
Proof.
  unfold parse_ntb. destruct (_ || _) eqn:E; [constructor|]. apply orb_false_iff in E as [E _]. apply Nat.ltb_ge in E.
  unfold unpack_u. do 3 (rewrite decide_True by lia; cbn [rbind]).
  destruct (u16_ok data 10 ltac:(lia)) as [i Hi]. rewrite Hi. cbn [rbind].
  pose proof (ntb_tables_ends (length data) data i ∅ [] ltac:(lia) ltac:(set_solver) ltac:(rewrite size_empty; lia)) as Ht.
  destruct (ntb_tables _ _ _ _ _); cbn [rbind]; [|done]. by destruct Ht as (new & -> & Hn).
Qed.

(** ** Transfer blocks: round trip *)

Lemma align4_spec n : (n <= align4 n < n + 4)%nat.
Proof.
  unfold align4. rewrite <- Z.ldiff_land.
  replace (Z.ldiff (Z.of_nat n + 3) 3) with ((Z.of_nat n + 3) / 4 * 4)
    by (change 3 with (Z.ones 2) at 3; by rewrite Z.ldiff_ones_r, Z.shiftl_mul_pow2, Z.shiftr_div_pow2 by lia).
  pose proof (Z.div_mod (Z.of_nat n + 3) 4 ltac:(lia)). pose proof (Z.mod_pos_bound (Z.of_nat n + 3) 4 ltac:(lia)). lia.
Qed.

(** A pointer locates its frame in a body that starts at offset 12. *)
Definition points (offset : nat) (body f : bytes) (p : nat * nat) : Prop :=
  snd p = length f /\ (12 <= fst p)%nat /\ (fst p + length f <= offset)%nat /\ slice (fst p - 12) (fst p - 12 + length f) body = f.

Definition built (frames : list bytes) (st : nat * bytes * list (nat * nat)) : Prop :=
  let '(offset, body, pointers) := st in
  (12 <= offset)%nat /\ length body = (offset - 12)%nat /\ Forall2 (points offset body) frames pointers.

Lemma slice_app_l i j (a b : bytes) : (j <= length a)%nat -> slice i j (a ++ b) = slice i j a.
Proof.
  intros Hj. unfold slice. destruct (decide (i <= length a)%nat).
  - rewrite drop_app_le by done. apply take_app_le. rewrite length_drop. lia.
  - replace (j - i)%nat with 0%nat by lia. done.
Qed.

Lemma points_mono offset body f p n x : length body = (offset - 12)%nat -> points offset body f p -> points (offset + n) (body ++ x) f p.
Proof.
  intros Hb (H1 & H2 & H3 & H4). repeat split; [done..|lia|]. rewrite slice_app_l by lia. done.
Qed.

(** Padding up to an aligned offset keeps what is built. *)
Lemma built_pad frames offset body pointers : built frames (offset, body, pointers) ->
  built frames (align4 offset, body ++ replicate (align4 offset - 12 - length body) x00, pointers).
Proof.
  intros (H1 & H2 & H3). pose proof (align4_spec offset). split_and!; [lia|rewrite length_app, length_replicate; lia|].
  replace (align4 offset) with (offset + (align4 offset - offset))%nat at 1 by lia.
  eapply Forall2_impl; [exact H3|]. intros f p Hp. by apply points_mono.
Qed.

Lemma built_add frames st f : built frames st -> built (frames ++ [f]) (ntb_add st f).
Proof.
  destruct st as [[offset body] pointers]. intros H%built_pad. cbn [ntb_add]. set (o := align4 offset) in *. set (b := body ++ _) in *.
  destruct H as (H1 & H2 & H3). split_and!; [lia|rewrite length_app; lia|]. apply Forall2_app.
  - eapply Forall2_impl; [exact H3|]. intros g p Hp. by apply points_mono.
  - constructor; [|constructor]. repeat split; cbn [fst snd]; [lia|lia|]. rewrite <- (app_nil_r (b ++ f)), <- app_assoc.
    rewrite <- H2. by apply slice_app_mid.
Qed.

Lemma built_all frames : built frames (fold_left ntb_add frames (12%nat, [], [])).
Proof.
  induction frames as [|f frames IH] using rev_ind; [cbn; repeat split; [lia|constructor]|].
  rewrite fold_left_app. by apply built_add.
Qed.

Lemma u16_app a z c off : length a = off -> 0 <= z < 65536 -> u16 (a ++ le_bytes 2 z ++ c) off = Ok (Z.to_nat z).
Proof. intros Ha Hz. unfold u16. by rewrite unpack_u_le_bytes. Qed.

(** Reading back the table that [pack_pointers] wrote. *)
Lemma entries_roundtrip data pointers entries (fs : list bytes) : forall (pre post : bytes) fuel frames,
  data = pre ++ entries ++ (le_bytes 2 0 ++ le_bytes 2 0) ++ post -> pack_pointers pointers = Ok entries -> (length pointers < fuel)%nat ->
  Forall2 (fun f p => snd p = length f /\ (12 <= fst p)%nat /\ (fst p + length f <= length data)%nat /\ slice (fst p) (fst p + length f) data = f) fs pointers ->
  ntb_entries fuel data (length pre + length entries + 4) (length pre) frames = Ok (frames ++ fs).
Proof.
  intros pre post fuel frames Hdata Hpack Hfuel Hfs. revert entries pre fuel frames Hdata Hpack Hfuel.
  induction Hfs as [|f [o n] fs ps (Hn & Ho & Hl & Hf) _ IH]; intros entries pre fuel frames Hdata Hpack Hfuel; (destruct fuel as [|k]; [cbn in Hfuel; lia|]); cbn [ntb_entries].
  - injection Hpack as <-. cbn [app] in Hdata. rewrite (proj2 (Nat.leb_le _ _)) by (cbn [length]; lia).
    rewrite <- app_assoc in Hdata. rewrite Hdata at 1. rewrite u16_app by (done || lia). cbn [rbind].
    rewrite Hdata at 1. rewrite (app_assoc pre). rewrite u16_app by (rewrite ?length_app, ?length_le_bytes; done || lia). cbn. by rewrite app_nil_r.
  - cbn [pack_pointers fst snd] in *. subst n. destruct (pack_u 2 (Z.of_nat o)) as [a|] eqn:Ea; [|done]. destruct (pack_u 2 (Z.of_nat (length f))) as [b|] eqn:Eb; [|done].
    destruct (pack_pointers ps) as [c|] eqn:Ec; [|done]. cbn [rbind] in Hpack. injection Hpack as <-.
    apply pack_u_inv in Ea as [Ra ->]. apply pack_u_inv in Eb as [Rb ->]. cbn in Ra, Rb.
    rewrite !length_app, !length_le_bytes. rewrite (proj2 (Nat.leb_le _ _)) by lia.
    rewrite <- !app_assoc in Hdata. rewrite Hdata at 1. rewrite u16_app by (done || lia). cbn [rbind].
    rewrite Hdata at 1. rewrite (app_assoc pre), u16_app by (rewrite ?length_app, ?length_le_bytes; done || lia). cbn [rbind]. rewrite !Nat2Z.id.
    replace ((o =? 0)%nat) with false by (symmetry; apply Nat.eqb_neq; lia). cbn [andb]. rewrite (proj2 (Nat.leb_le _ _)) by lia. rewrite Hf.
    replace (length pre + 4)%nat with (length (pre ++ le_bytes 2 (Z.of_nat o) ++ le_bytes 2 (Z.of_nat (length f)))) by (rewrite !length_app, !length_le_bytes; lia).
    replace (length pre + (2 + (2 + length c)) + 4)%nat with (length (pre ++ le_bytes 2 (Z.of_nat o) ++ le_bytes 2 (Z.of_nat (length f))) + length c + 4)%nat
      by (rewrite !length_app, !length_le_bytes; lia).
    rewrite (IH c) with (pre := pre ++ le_bytes 2 (Z.of_nat o) ++ le_bytes 2 (Z.of_nat (length f))); [by rewrite <- app_assoc| |done|cbn in Hfuel; lia].
    rewrite Hdata, <- !app_assoc. done.
Qed.

(** The largest offset [build_ntb] reaches: every frame may need 3 bytes of padding. *)
Definition ntb_room (frames : list bytes) : Z := fold_right (fun f n => zlen f + 7 + n) 27 frames.

Lemma ntb_add_size frames : forall offset body pointers,
  let '(offset', _, pointers') := fold_left ntb_add frames (offset, body, pointers) in
  Z.of_nat offset' + 4 * Z.of_nat (length pointers') <= Z.of_nat offset + 4 * Z.of_nat (length pointers) + ntb_room frames - 27.
Proof.
  induction frames as [|f frames IH]; intros offset body pointers; cbn [fold_left ntb_room fold_right]; [lia|].
  cbn [ntb_add]. set (b := _ ++ f). specialize (IH (align4 offset + length f)%nat b (pointers ++ [(align4 offset, length f)])). fold (ntb_room frames) in *.
  destruct (fold_left _ _ _) as [[o bb] p]. rewrite length_app in IH. cbn [length] in IH. pose proof (align4_spec offset). unfold zlen. lia.
Qed.

Lemma pack_pointers_ok pointers : Forall (fun p => Z.of_nat (fst p) < 65536 /\ Z.of_nat (snd p) < 65536) pointers ->
  exists e, pack_pointers pointers = Ok e.
Proof.
  induction 1 as [|[i n] l [H1 H2] _ [e IH]]; [by exists []|]. cbn [pack_pointers fst snd] in *.
  rewrite !pack_u_ok, IH by (simpl; lia). by eexists.
Qed.

Lemma pack_pointers_length pointers e : pack_pointers pointers = Ok e -> length e = (4 * length pointers)%nat.
Proof.
  revert e. induction pointers as [|[i n] l IH]; intros e; cbn [pack_pointers]; [by intros [= <-]|].
  destruct (pack_u 2 (Z.of_nat i)) as [a|] eqn:Ea; [|done]. destruct (pack_u 2 (Z.of_nat n)) as [b|] eqn:Eb; [|done].
  destruct (pack_pointers l) as [c|]; [|done]. cbn [rbind]. intros [= <-].
  apply pack_u_inv in Ea as [_ ->]. apply pack_u_inv in Eb as [_ ->]. rewrite !length_app, !length_le_bytes, (IH c eq_refl). cbn [length]. lia.
Qed.

Lemma slice_shift (h d : bytes) i j : slice (length h + i) (length h + j) (h ++ d) = slice i j d.
Proof. unfold slice. rewrite <- drop_drop, drop_app_length. f_equal. lia. Qed.

Lemma build_ntb_fits frames sequence : ntb_room frames <= 65535 -> exists ntb, build_ntb frames sequence = Ok ntb.
Proof.
  intros Hr. unfold build_ntb. pose proof (built_all frames) as Hb. pose proof (ntb_add_size frames 12 [] []) as Hs.
  destruct (fold_left ntb_add frames (12%nat, [], [])) as [[offset body] pointers]. apply built_pad in Hb. pose proof (align4_spec offset).
  destruct Hb as (H1 & H2 & H3). cbn [length] in Hs.
  rewrite (pack_u_ok 2 (Z.of_nat (8 + 4 * (length pointers + 1)))) by (change (256 ^ Z.of_nat 2) with 65536; lia). rewrite (pack_u_ok 2 0) by (simpl; lia). cbn [rbind].
  destruct (pack_pointers_ok pointers) as [e He].
  { apply Forall_forall. intros p Hp. apply list_elem_of_lookup in Hp as [k Hk]. destruct (Forall2_lookup_r _ _ _ _ _ H3 Hk) as (f & _ & Hn & Ho & Hl & _). lia. }
  rewrite He. cbn [rbind]. apply pack_pointers_length in He. rewrite (pack_u_ok 2 12) by (simpl; lia). cbn [rbind].
  rewrite (pack_u_ok 2 (Z.land _ _)) by (rewrite land16; apply Z.mod_pos_bound; lia). cbn [rbind].
  rewrite !pack_u_ok by (change (256 ^ Z.of_nat 2) with 65536; rewrite ?length_app, ?length_le_bytes, ?He; cbn [length NCM0]; simpl; lia). by eexists.
Qed.

(** The chain of a block with one table. *)
Lemma tables_single data fuel i len frames : (12 <= i)%nat -> (i + 8 <= length data)%nat -> (0 < fuel)%nat ->
  u16 data (i + 4) = Ok len -> u16 data (i + 6) = Ok 0%nat ->
  ntb_entries (length data) data (i + len) (i + 8) [] = Ok frames -> ntb_tables fuel data i ∅ [] = Ok frames.
Proof.
  intros H12 H8 Hf Hl Hn He. destruct fuel as [|k]; [lia|]. cbn [ntb_tables].
  rewrite (proj2 (Nat.eqb_neq i 0)), (proj2 (Nat.leb_le (i + 8) (length data))), bool_decide_true by (set_solver || lia).
  cbn [negb andb]. rewrite Hl, Hn. cbn [rbind]. rewrite He. cbn [rbind]. by destruct k.
Qed.

(** What [build_ntb] assembles. *)
Lemma build_ntb_shape frames sequence ntb : build_ntb frames sequence = Ok ntb ->
  exists body pointers entries (i : nat),
    ntb = (NCMH ++ le_bytes 2 12 ++ le_bytes 2 (Z.land sequence 0xFFFF) ++ le_bytes 2 (Z.of_nat (i + (8 + length entries + 4))) ++ le_bytes 2 (Z.of_nat i))
          ++ body ++ NCM0 ++ (le_bytes 2 (Z.of_nat (8 + length entries + 4)) ++ le_bytes 2 0) ++ entries ++ (le_bytes 2 0 ++ le_bytes 2 0) /\
    built frames (i, body, pointers) /\ pack_pointers pointers = Ok entries /\ Z.of_nat (i + (8 + length entries + 4)) < 65536.
Proof.
  intros H. unfold build_ntb in H. pose proof (built_all frames) as Hb.
  destruct (fold_left ntb_add frames (12%nat, [], [])) as [[offset body] pointers]. apply built_pad in Hb. set (i := align4 offset) in *. set (b := body ++ _) in *.
  destruct (pack_u 2 (Z.of_nat (8 + 4 * (length pointers + 1)))) as [len|] eqn:El; [|done]. apply pack_u_inv in El as [_ ->].
  rewrite (pack_u_ok 2 0) in H by (simpl; lia). cbn [rbind] in H. destruct (pack_pointers pointers) as [e|] eqn:Ee; [|done].
  cbn [rbind] in H. pose proof (pack_pointers_length _ _ Ee) as Le.
  rewrite (pack_u_ok 2 12), (pack_u_ok 2 (Z.land _ _)) in H by (rewrite ?land16; (simpl; lia) || (apply Z.mod_pos_bound; lia)). cbn [rbind] in H.
  rewrite !length_app, !length_le_bytes in H. change (length NCM0) with 4%nat in H.
  destruct (pack_u 2 (Z.of_nat (i + _))) as [t|] eqn:Et; [|done]. apply pack_u_inv in Et as [Rt ->]. cbn [rbind] in H.
  rewrite (pack_u_ok 2 (Z.of_nat i)) in H by (change (256 ^ Z.of_nat 2) with 65536 in *; lia). cbn [rbind] in H. apply Ok_inj in H as <-.
  exists b, pointers, e, i. change (256 ^ Z.of_nat 2) with 65536 in Rt.
  replace (8 + 4 * (length pointers + 1))%nat with (8 + length e + 4)%nat by lia.
  replace (i + (4 + (2 + 2 + (length e + (2 + 2)))))%nat with (i + (8 + length e + 4))%nat in * by lia. split_and!; [done|exact Hb|done|lia].
Qed.

(** Whatever is built is parsed back. *)
Lemma parse_build (frames : list bytes) (sequence : Z) (ntb : bytes) : build_ntb frames sequence = Ok ntb ->
  parse_ntb ntb = Ok (Some {| nt_sequence := sequence mod 65536; nt_block_length := zlen ntb; nt_header_length := 12 |}, frames).
Proof.
  intros (body & pointers & e & i & Hntb & (Hi & Hb & Hp) & He & Ht)%build_ntb_shape.
  set (s := Z.land sequence 0xFFFF) in *. assert (Hs : 0 <= s < 65536) by (unfold s; rewrite land16; by apply Z.mod_pos_bound).
  set (T := (i + (8 + length e + 4))%nat) in *. set (h := NCMH ++ _ ++ _ ++ _ ++ _) in Hntb. set (n := (8 + length e + 4)%nat) in *.
  assert (Hh : length h = 12%nat) by done.
  assert (Hlen : length ntb = T) by (rewrite Hntb, !length_app, !length_le_bytes, Hh; change (length NCM0) with 4%nat; lia).
  assert (Hbi : length (h ++ body ++ NCM0) = (i + 4)%nat) by (rewrite !length_app, Hh; change (length NCM0) with 4%nat; lia).
  unfold parse_ntb. rewrite (proj2 (Nat.ltb_ge _ _)) by lia.
  replace (bytes_eqb (slice 0 4 ntb) NCMH) with true by (rewrite Hntb; reflexivity). cbn [orb negb].
  assert (Hf : ntb = NCMH ++ le_bytes 2 12 ++ le_bytes 2 s ++ le_bytes 2 (Z.of_nat T) ++ le_bytes 2 (Z.of_nat i) ++ drop 12 ntb).
  { rewrite <- Hh. rewrite Hntb at 2. rewrite drop_app_length. rewrite Hntb at 1. unfold h. by rewrite <- !app_assoc. }
  rewrite Hf at 1. rewrite unpack_u_le_bytes by (done || simpl; lia). cbn [rbind].
  rewrite Hf at 1. rewrite (app_assoc NCMH), unpack_u_le_bytes by (done || simpl; lia). cbn [rbind].
  rewrite Hf at 1. rewrite (app_assoc NCMH), (app_assoc (NCMH ++ _)), unpack_u_le_bytes by (done || (change (256 ^ Z.of_nat 2) with 65536; lia)). cbn [rbind].
  rewrite Hf at 1. rewrite (app_assoc NCMH), (app_assoc (NCMH ++ _)), (app_assoc ((NCMH ++ _) ++ _)), u16_app by (done || lia). cbn [rbind]. rewrite Nat2Z.id.
  rewrite (tables_single _ _ i n frames); [|lia..| | |].
  - cbn [rbind]. unfold zlen. rewrite Hlen. unfold s. by rewrite land16.
  - rewrite Hntb. rewrite (app_assoc body), (app_assoc h), <- (app_assoc _ _ (e ++ _)). rewrite u16_app by (done || lia). by rewrite Nat2Z.id.
  - rewrite Hntb. rewrite (app_assoc body), (app_assoc h), <- (app_assoc _ _ (e ++ _)), (app_assoc (h ++ _)), u16_app by (rewrite 1?length_app, ?Hbi, ?length_le_bytes; lia). done.
  - set (pre := h ++ body ++ NCM0 ++ le_bytes 2 (Z.of_nat n) ++ le_bytes 2 0).
    assert (Hpre : length pre = (i + 8)%nat) by (unfold pre; rewrite !length_app, Hh, !length_le_bytes; change (length NCM0) with 4%nat; lia).
    replace (i + n)%nat with (length pre + length e + 4)%nat by lia. rewrite <- Hpre.
    apply (entries_roundtrip ntb pointers e frames pre [] _ []); [|done|apply pack_pointers_length in He; lia|].
    { unfold pre. rewrite app_nil_r, Hntb, <- !app_assoc. done. }
    eapply Forall2_impl; [exact Hp|]. intros f p (P1 & P2 & P3 & P4). split_and!; [done|done|lia|]. rewrite Hntb.
    replace (fst p) with (length h + (fst p - 12))%nat by lia. rewrite <- Nat.add_assoc, slice_shift, slice_app_l by lia. done.
Qed.

(** C38: NCM transfer blocks round trip: [build_ntb] accepts every list of frames
    that fits 16-bit offsets, empty frames included, and whatever it builds,
    [parse_ntb] returns the same frames in the same order, the sequence number
    modulo 2^16 and the block's length. *)
Theorem ntb_roundtrip (frames : list bytes) (sequence : Z) :
  (ntb_room frames <= 65535 -> is_ok (build_ntb frames sequence) = true) /\
  (forall ntb, build_ntb frames sequence = Ok ntb ->
     parse_ntb ntb = Ok (Some {| nt_sequence := sequence mod 65536; nt_block_length := zlen ntb; nt_header_length := 12 |}, frames)).
Proof. split; [intros [ntb ->]%(build_ntb_fits _ sequence); done|]. intros ntb. apply parse_build. Qed.

Lemma ntb_roundtrip_witness : exists ntb, build_ntb [[x01; x02; x03]; []; [x04]] 70000 = Ok ntb /\
  parse_ntb ntb = Ok (Some {| nt_sequence := 4464; nt_block_length := zlen ntb; nt_header_length := 12 |}, [[x01; x02; x03]; []; [x04]]).
Proof.
  destruct (ntb_roundtrip [[x01; x02; x03]; []; [x04]] 70000) as [H1 H2]. specialize (H1 ltac:(vm_compute; discriminate)).
  destruct (build_ntb _ _) as [ntb|]; [|done]. exists ntb. split; [done|]. exact (H2 ntb eq_refl).
Defined.

(** Every ICMPv6 message the tool sends is accepted at the other end: for 6-byte
    hardware and 16-byte IPv6 addresses and a body from its 4-byte header up to 65000
    bytes, whatever the body's parity and whatever its checksum field held, the block
    built from it parses back to one frame; that frame is addressed as asked, has the
    right type, version, length and next header, its checksum verifies against the
    addresses the frame itself carries, and nothing of the body but the checksum
    field was changed. *)
Theorem icmp_block_verifies (our_mac mac our_address destination body : bytes) (sequence : Z) :
  length our_mac = 6%nat -> length mac = 6%nat -> length our_address = 16%nat -> length destination = 16%nat ->
  (4 <= length body)%nat -> zlen body < 65000 ->
  exists frame ntb h, icmp_frame our_mac mac our_address destination body = Ok frame /\ build_ntb [frame] sequence = Ok ntb /\
    parse_ntb ntb = Ok (Some h, [frame]) /\ frame_verifies frame /\
    slice 0 6 frame = mac /\ slice 6 12 frame = our_mac /\ slice 22 38 frame = our_address /\ slice 38 54 frame = destination /\
    slice 54 56 frame = take 2 body /\ drop 58 frame = drop 4 body.
Proof.
  intros H1 H2 H3 H4 H5 H6. destruct (icmp_frame_verifies our_mac mac our_address destination body H1 H2 H3 H4 H5 ltac:(lia)) as (f & Hf & Hv & A & B & C & D & Hl & E & G).
  destruct (build_ntb_fits [f] sequence) as [ntb Hn]; [unfold ntb_room, zlen in *; cbn [fold_right]; lia|].
  exists f, ntb. eexists. rewrite Hf, Hn, (parse_build _ _ _ Hn). done.
Qed.

Lemma icmp_block_verifies_witness : exists frame ntb h,
  icmp_frame (replicate 6 x02) (replicate 6 x33) (replicate 16 x01) (replicate 16 x02) [byte_of_Z 128; x00; x07; x07; x01] = Ok frame /\
  build_ntb [frame] 3 = Ok ntb /\ parse_ntb ntb = Ok (Some h, [frame]) /\ frame_verifies frame.
Proof.
  destruct (icmp_block_verifies (replicate 6 x02) (replicate 6 x33) (replicate 16 x01) (replicate 16 x02) [byte_of_Z 128; x00; x07; x07; x01] 3
    ltac:(reflexivity) ltac:(reflexivity) ltac:(reflexivity) ltac:(reflexivity) ltac:(simpl; lia) ltac:(vm_compute; reflexivity)) as (f & ntb & h & A & B & C & D & _).
  by exists f, ntb, h.
Defined.

(** ** What the parser does not check *)

(** A table length that leads out of the block raises [struct.error] instead of
    being skipped like a datagram that does. *)
Lemma ntb_long_table_raises :
  parse_ntb (NCMH ++ concat (map (le_bytes 2) [12; 0; 20; 12]) ++ NCM0 ++ concat (map (le_bytes 2) [64; 0])) = Raise StructError.
Proof. reflexivity. Qed.

(** The signature of a table is read and not compared. *)
Lemma ntb_signature_unchecked :
  parse_ntb (NCMH ++ concat (map (le_bytes 2) [12; 0; 30; 12]) ++ replicate 4 x00 ++ concat (map (le_bytes 2) [16; 0; 28; 2; 0; 0]) ++ [x07; x08])
  = Ok (Some {| nt_sequence := 0; nt_block_length := 30; nt_header_length := 12 |}, [[x07; x08]]).
Proof. reflexivity. Qed.

(** ** Descriptors *)

(** A descriptor's first byte is its length, its second its type. *)
Definition descriptor (kb : Z * bytes) : Prop :=
  (2 <= length (snd kb))%nat /\ byte_to_Z (default x00 (snd kb !! 0%nat)) = zlen (snd kb) /\
  byte_to_Z (default x00 (snd kb !! 1%nat)) = fst kb.
(** No descriptor starts here. *)
Definition walk_stop (rest : bytes) : Prop :=
  (length rest < 2)%nat \/ byte_to_Z (default x00 (rest !! 0%nat)) < 2 \/ zlen rest < byte_to_Z (default x00 (rest !! 0%nat)).

Lemma walk_from_spec fuel data offset : (length data < offset + 2 * fuel)%nat -> (offset <= length data)%nat ->
  Forall descriptor (walk_from fuel data offset) /\
  exists rest, drop offset data = concat (map snd (walk_from fuel data offset)) ++ rest /\ walk_stop rest.
Proof.
  revert offset. induction fuel as [|k IH]; intros offset Hf Ho; [lia|]. cbn [walk_from].
  destruct (Nat.leb_spec (offset + 2) (length data)) as [H2|H2]; [|split; [constructor|]; exists (drop offset data); split; [done|]; left; rewrite length_drop; lia].
  set (b := default x00 (data !! offset)). set (n := Z.to_nat (byte_to_Z b)). pose proof (byte_to_Z_range b) as Hr.
  assert (Hb : default x00 (drop offset data !! 0%nat) = b) by (rewrite lookup_drop, Nat.add_0_r; done).
  destruct ((n <? 2)%nat || (length data <? offset + n)%nat) eqn:E.
  { split; [constructor|]. exists (drop offset data). split; [done|]. right. rewrite Hb. unfold zlen. rewrite length_drop.
    apply orb_true_iff in E as [E%Nat.ltb_lt|E%Nat.ltb_lt]; lia. }
  apply orb_false_iff in E as [E1%Nat.ltb_ge E2%Nat.ltb_ge]. destruct (IH (offset + n)%nat ltac:(lia) ltac:(lia)) as (HF & rest & Hrest & Hstop).
  assert (Hl : length (slice offset (offset + n) data) = n) by (unfold slice; rewrite length_take, length_drop; lia).
  split.
  - constructor; [|done]. unfold descriptor. cbn [fst snd]. unfold zlen. rewrite Hl, !lookup_slice, Nat.add_0_r by lia. fold b. repeat split; [done|lia].
  - exists rest. split; [|done]. cbn [map snd concat]. rewrite <- app_assoc, <- Hrest. unfold slice.
    rewrite <- drop_drop. replace (offset + n - offset)%nat with n by lia. by rewrite take_drop.
Qed.

(** The walk ends and is maximal: the descriptors it yields are consecutive from
    the first byte, and it stops where no descriptor fits. *)
Theorem walk_configuration_exact (data : bytes) : Forall descriptor (walk_configuration data) /\
  exists rest, data = concat (map snd (walk_configuration data)) ++ rest /\ walk_stop rest.
Proof. apply (walk_from_spec (S (length data)) data 0); lia. Qed.
