(* ===== verification/Xhci.v ===== *)
(** * tools/a16xhci.py: the xHCI host controller driver

    [XHCI] over the target interface: registers, bring-up, the command ring, the
    event ring, device addressing, control and bulk transfers, port resets and
    [attach].  The state holds the target, the [XHCI] object and the device record
    the methods are given (one dictionary, made by [address_device] and mutated by
    the transfers).

    The source writes a TRB into a ring in three places (commands, control
    transfers, bulk transfers) with the same code; [put_trb] is that code, with the
    ring it works on as an argument.  Waiting loops take the number of looks at the
    clock as fuel; logging is omitted, the register reads its arguments make are
    not. *)

From Stdlib Require Import ZArith Lia.
From Stdlib Require Import Strings.Byte.
From stdpp Require Import base list numbers strings gmap.
From S2P Require Import Prelude Bytes Transport Q1n1Link Target Preload.

Local Open Scope list_scope.
Local Open Scope Z_scope.
Local Open Scope py_scope.

(** ** Constants *)

Definition USB1_BASE := 0x0A800000.
Definition USB0_BASE := 0x0A600000.
Definition USBCMD := 0x00.
Definition USBSTS := 0x04.
Definition PAGESIZE := 0x08.
Definition CRCR := 0x18.
Definition DCBAAP := 0x30.
Definition CONFIG := 0x38.
Definition CMD_RS := Z.shiftl 1 0.
Definition CMD_HCRST := Z.shiftl 1 1.
Definition STS_HCH := Z.shiftl 1 0.
Definition STS_CNR := Z.shiftl 1 11.
Definition IMOD := 0x04.
Definition ERSTSZ := 0x08.
Definition ERSTBA := 0x10.
Definition ERDP := 0x18.
Definition P_CCS := Z.shiftl 1 0.
Definition P_PED := Z.shiftl 1 1.
Definition P_PR := Z.shiftl 1 4.
Definition P_CSC := Z.shiftl 1 17.
Definition P_PEC := Z.shiftl 1 18.
Definition P_WRC := Z.shiftl 1 19.
Definition P_OCC := Z.shiftl 1 20.
Definition P_PRC := Z.shiftl 1 21.
Definition P_PLC := Z.shiftl 1 22.
Definition P_CEC := Z.shiftl 1 23.
Definition P_WPR := Z.shiftl 1 31.
Definition lors (l : list Z) : Z := fold_left Z.lor l 0.
Definition PORTSC_RW := Z.land (Z.lnot (lors [P_PED; P_CSC; P_PEC; P_WRC; P_OCC; P_PRC; P_PLC; P_CEC])) 0xFFFFFFFF.
Definition CMD_RING_TRBS := 256.
Definition EVENT_RING_TRBS := 256.
Definition TRB_SIZE := 16.

(** ** Transfer request blocks *)

Record trb := Trb { tb_parameter : Z; tb_status : Z; tb_control : Z }.
#[global] Instance trb_eq_dec : EqDecision trb.
Proof. solve_decision. Defined.

Definition trb_type (control : Z) : Z := Z.land (Z.shiftr control 10) 0x3F.
Definition tb_type (e : trb) : Z := trb_type (tb_control e).
Definition tb_code (e : trb) : Z := Z.land (Z.shiftr (tb_status e) 24) 0xFF.

(** [struct.pack('<QII')] and [struct.unpack('<QII')]. *)
Definition pack_trb (t : trb) : result bytes :=
  let? a := pack_Q (tb_parameter t) in
  let? b := pack_I (tb_status t) in
  let? c := pack_I (tb_control t) in Ok (a ++ b ++ c).
Definition unpack_trb (d : bytes) : result trb :=
  if negb (Nat.eqb (length d) 16) then Raise StructError else
  let? a := unpack_u 8 0 d in
  let? b := unpack_u 4 8 d in
  let? c := unpack_u 4 12 d in Ok {| tb_parameter := a; tb_status := b; tb_control := c |}.

Definition link_control (cycle : Z) : Z := Z.lor (Z.lor (Z.shiftl 6 10) (Z.shiftl 1 1)) cycle.

(** ** The driver and the device *)

(** What [__init__] and [read_caps] fix. *)
Record caps := Caps {
  c_base : Z; c_dma : Z; c_dma_size : Z;
  c_op : Z; c_ir0 : Z; c_db : Z;
  c_max_slots : Z; c_max_ports : Z; c_context_size : Z; c_scratchpads : Z; c_hccparams1 : Z
}.
Definition dcbaa (c : caps) := c_dma c + 0x0000.
Definition cmd_ring (c : caps) := c_dma c + 0x1000.
Definition event_ring (c : caps) := c_dma c + 0x2000.
Definition erst (c : caps) := c_dma c + 0x3000.
Definition scratch_array (c : caps) := c_dma c + 0x4000.
Definition scratch_buffers (c : caps) := c_dma c + 0x5000.
Definition x_free (c : caps) := c_dma c + 0x10000.

(** A producer's position in a ring. *)
Record ring := Ring { rg_base : Z; rg_index : Z; rg_cycle : Z }.

Record xhci := Xhci {
  x_caps : caps; x_page_size : Z;
  x_cmd_index : Z; x_cmd_cycle : Z; x_event_index : Z; x_event_cycle : Z
}.

Record device := Device {
  v_slot : Z; v_device_context : Z; v_input_context : Z; v_ep0_ring : Z; v_packet : Z;
  v_index : Z; v_cycle : Z;
  v_rings : gmap Z ring;
  v_pending : gmap Z Z            (* the entries that are not [None] *)
}.
(** Before [address_device]. *)
Definition no_device : device :=
  {| v_slot := 0; v_device_context := 0; v_input_context := 0; v_ep0_ring := 0; v_packet := 0; v_index := 0; v_cycle := 1;
     v_rings := ∅; v_pending := ∅ |}.

Definition x_set_page (p : Z) (x : xhci) : xhci :=
  {| x_caps := x_caps x; x_page_size := p; x_cmd_index := x_cmd_index x; x_cmd_cycle := x_cmd_cycle x;
     x_event_index := x_event_index x; x_event_cycle := x_event_cycle x |}.
Definition x_set_cmd (i c : Z) (x : xhci) : xhci :=
  {| x_caps := x_caps x; x_page_size := x_page_size x; x_cmd_index := i; x_cmd_cycle := c;
     x_event_index := x_event_index x; x_event_cycle := x_event_cycle x |}.
Definition x_set_event (i c : Z) (x : xhci) : xhci :=
  {| x_caps := x_caps x; x_page_size := x_page_size x; x_cmd_index := x_cmd_index x; x_cmd_cycle := x_cmd_cycle x;
     x_event_index := i; x_event_cycle := c |}.
Definition v_set_ep0 (i c : Z) (v : device) : device :=
  {| v_slot := v_slot v; v_device_context := v_device_context v; v_input_context := v_input_context v; v_ep0_ring := v_ep0_ring v;
     v_packet := v_packet v; v_index := i; v_cycle := c; v_rings := v_rings v; v_pending := v_pending v |}.
Definition v_set_rings (r : gmap Z ring) (v : device) : device :=
  {| v_slot := v_slot v; v_device_context := v_device_context v; v_input_context := v_input_context v; v_ep0_ring := v_ep0_ring v;
     v_packet := v_packet v; v_index := v_index v; v_cycle := v_cycle v; v_rings := r; v_pending := v_pending v |}.
Definition v_set_pending (p : gmap Z Z) (v : device) : device :=
  {| v_slot := v_slot v; v_device_context := v_device_context v; v_input_context := v_input_context v; v_ep0_ring := v_ep0_ring v;
     v_packet := v_packet v; v_index := v_index v; v_cycle := v_cycle v; v_rings := v_rings v; v_pending := p |}.

(** Which ring a TRB goes to. *)
Inductive rref := Cmd | Ep0 | Bulk (dci : Z).

Definition is_xhci_error (e : exn) : bool := match e with XHCIError _ => true | _ => false end.

(** ** Opening the controller *)
Section Open.
  Context {S : Type} `{!TargetOps S}.

Definition read_caps (base dma dma_size : Z) : M S caps :=
  let! cap := t_read32 base in
  let caplength := Z.land cap 0xFF in
  let! hcsparams1 := t_read32 (base + 0x04) in
  let! hcsparams2 := t_read32 (base + 0x08) in
  let! hccparams1 := t_read32 (base + 0x10) in
  let! dboff := t_read32 (base + 0x14) in
  let! rtsoff := t_read32 (base + 0x18) in
  let runtime := base + Z.land rtsoff (Z.lnot 0x1F) in
  py_ret {| c_base := base; c_dma := dma; c_dma_size := dma_size;
            c_op := base + caplength; c_ir0 := runtime + 0x20; c_db := base + Z.land dboff (Z.lnot 0x3);
            c_max_slots := Z.land hcsparams1 0xFF; c_max_ports := Z.land (Z.shiftr hcsparams1 24) 0xFF;
            c_context_size := (if Z.land (Z.shiftr hccparams1 2) 1 =? 0 then 32 else 64);
            c_scratchpads := Z.lor (Z.shiftl (Z.land (Z.shiftr hcsparams2 21) 0x1F) 5) (Z.land (Z.shiftr hcsparams2 27) 0x1F);
            c_hccparams1 := hccparams1 |}.

(** [XHCI.__init__]. *)
Definition xhci_open (info : boot_info) (base : Z) (dma : option Z) (dma_size : Z) : M S xhci :=
  if negb (rget info "usb_ports" =? 0) then py_raise (XHCIError "both controllers are managed by q1n1") else
  let! gctl := t_read32 (base + 0xC110) in
  let! active := (if Z.land (Z.shiftr gctl 12) 3 =? 2 then
                    let! dctl := t_read32 (base + 0xC704) in py_ret (negb (Z.land dctl (Z.shiftl 1 31) =? 0))
                  else py_ret false) in
  if active : bool then py_raise (XHCIError "refusing raw takeover of an active USB device controller") else
  let! dma := match dma with
              | Some d => py_ret d
              | None =>
                  let! heap_base := py_lift (info_item info "heap_base") in
                  let! heap_size := py_lift (info_item info "heap_size") in
                  py_ret (Z.land (heap_base + heap_size - dma_size) (Z.lnot 0xFFFF))
              end in
  let! c := read_caps base dma dma_size in
  py_ret {| x_caps := c; x_page_size := 0; x_cmd_index := 0; x_cmd_cycle := 1; x_event_index := 0; x_event_cycle := 1 |}.
End Open.

(** ** The methods *)
Section Driver.
  Context {S : Type} `{!TargetOps S}.
  Abbreviation X := (S * (xhci * device))%type.

Definition on_target {A} (m : M S A) : M X A := fun s => let '(r, h) := m (fst s) in (r, (h, snd s)).
Definition self : M X xhci := py_get (fun s => fst (snd s)).
Definition dev : M X device := py_get (fun s => snd (snd s)).
Definition xc : M X caps := py_get (fun s => x_caps (fst (snd s))).
Definition set_x (f : xhci -> xhci) : M X unit := py_modify (fun s => (fst s, (f (fst (snd s)), snd (snd s)))).
Definition set_v (f : device -> device) : M X unit := py_modify (fun s => (fst s, (fst (snd s), f (snd (snd s))))).

Definition x_r32 (a : Z) : M X Z := on_target (t_read32 a).
Definition x_r64 (a : Z) : M X Z := on_target (t_read64 a).
Definition x_w32 (a v : Z) : M X unit := on_target (t_write32 a v).
Definition x_w64 (a v : Z) : M X unit := on_target (t_request P_WRITE64 [a; v]).
Definition x_read (a n : Z) : M X bytes := on_target (t_readmem a n false).
Definition x_write (a : Z) (d : bytes) : M X unit := on_target (t_writemem a d).
Definition x_now : M X Z := on_target t_now.
Definition x_zero (address size : Z) : M X unit := on_target (t_request P_MEMSET8 [address; 0; size]).

Definition op_rd (off : Z) : M X Z := let! c := xc in x_r32 (c_op c + off).
Definition op_wr (off value : Z) : M X unit := let! c := xc in x_w32 (c_op c + off) value.

Definition portsc (port : Z) : M X Z := let! c := xc in x_r32 (c_op c + 0x400 + 0x10 * (port - 1)).
Definition portsc_write (port value : Z) : M X unit := let! c := xc in x_w32 (c_op c + 0x400 + 0x10 * (port - 1)) value.
Definition portsc_set (port bits : Z) : M X unit :=
  let! value := portsc port in portsc_write port (Z.lor (Z.land value PORTSC_RW) bits).
Definition portsc_ack (port bits : Z) : M X unit :=
  let! value := portsc port in portsc_write port (Z.lor (Z.land value PORTSC_RW) bits).

Fixpoint xwait_loop (fuel : nat) (read : M X Z) (mask want deadline : Z) : M X Z :=
  match fuel with
  | O => py_raise OutOfFuel
  | Datatypes.S k =>
      let! value := read in
      if Z.land value mask =? want then py_ret value else
      let! now := x_now in
      if deadline <? now then py_raise (XHCIError "timed out waiting for a register") else xwait_loop k read mask want deadline
  end.
Definition xwait (fuel : nat) (read : M X Z) (mask want timeout : Z) : M X Z :=
  let! now := x_now in xwait_loop fuel read mask want (now + timeout).

(** *** Bring-up *)

Definition mode : M X Z := let! c := xc in let! v := x_r32 (c_base c + 0xC110) in py_ret (Z.land (Z.shiftr v 12) 3).
Definition halted : M X bool := let! v := op_rd USBSTS in py_ret (negb (Z.land v STS_HCH =? 0)).

Definition xstop (fuel : nat) (timeout : Z) : M X unit :=
  let! h := halted in
  if h : bool then py_ret tt else
  let! v := op_rd USBCMD in
  op_wr USBCMD (Z.land v (Z.lnot CMD_RS)) ;;;
  xwait fuel (op_rd USBSTS) STS_HCH STS_HCH timeout ;;; py_ret tt.

Definition xreset (fuel : nat) (timeout : Z) : M X unit :=
  xstop fuel timeout ;;;
  op_wr USBCMD CMD_HCRST ;;;
  xwait fuel (op_rd USBCMD) CMD_HCRST 0 timeout ;;;
  xwait fuel (op_rd USBSTS) STS_CNR 0 timeout ;;;
  let! p := op_rd PAGESIZE in
  set_x (x_set_page (Z.shiftl (Z.land p 0xFFFF) 12)) ;;;
  op_rd USBCMD ;;; op_rd USBSTS ;;; py_ret tt.

Definition build_rings : M X unit :=
  let! x := self in
  let c := x_caps x in
  x_zero (c_dma c) 0x10000 ;;;
  (if negb (c_scratchpads c =? 0) then
     let! entries := py_lift (pack_Qs (map (fun n => scratch_buffers c + Z.of_nat n * x_page_size x) (seq 0 (Z.to_nat (c_scratchpads c))))) in
     x_write (scratch_array c) entries ;;;
     x_zero (scratch_buffers c) (c_scratchpads c * x_page_size x) ;;;
     x_w64 (dcbaa c) (scratch_array c)
   else py_ret tt) ;;;
  let! link := py_lift (pack_trb (Trb (cmd_ring c) 0 (link_control (x_cmd_cycle x)))) in
  x_write (cmd_ring c + (CMD_RING_TRBS - 1) * TRB_SIZE) link ;;;
  let! segment := py_lift (pack_trb (Trb (event_ring c) EVENT_RING_TRBS 0)) in
  x_write (erst c) segment ;;;
  x_w64 (c_op c + DCBAAP) (dcbaa c) ;;;
  op_wr CONFIG (c_max_slots c) ;;;
  x_w64 (c_op c + CRCR) (Z.lor (cmd_ring c) (x_cmd_cycle x)) ;;;
  x_w32 (c_ir0 c + ERSTSZ) 1 ;;;
  x_w64 (c_ir0 c + ERDP) (event_ring c) ;;;
  x_w64 (c_ir0 c + ERSTBA) (erst c) ;;;
  x_w32 (c_ir0 c + IMOD) 0.

Definition xstart (fuel : nat) (timeout : Z) : M X unit :=
  let! v := op_rd USBCMD in
  op_wr USBCMD (Z.lor v CMD_RS) ;;;
  xwait fuel (op_rd USBSTS) STS_HCH 0 timeout ;;;
  op_rd USBCMD ;;; op_rd USBSTS ;;;
  let! c := xc in x_r64 (c_op c + CRCR) ;;; py_ret tt.

Definition xinit (fuel : nat) : M X unit :=
  let! m := mode in
  if negb (m =? 1) then py_raise (XHCIError "DWC3 is not in host mode") else
  xreset fuel 2000 ;;; build_rings ;;; xstart fuel 2000.

(** *** Rings *)

Definition get_ring (r : rref) : M X ring :=
  match r with
  | Cmd => let! x := self in py_ret {| rg_base := cmd_ring (x_caps x); rg_index := x_cmd_index x; rg_cycle := x_cmd_cycle x |}
  | Ep0 => let! v := dev in py_ret {| rg_base := v_ep0_ring v; rg_index := v_index v; rg_cycle := v_cycle v |}
  | Bulk dci => let! v := dev in match v_rings v !! dci with Some g => py_ret g | None => py_raise (KeyError "rings") end
  end.
Definition move_ring (r : rref) (i c : Z) : M X unit :=
  match r with
  | Cmd => set_x (x_set_cmd i c)
  | Ep0 => set_v (v_set_ep0 i c)
  | Bulk dci => set_v (fun v => v_set_rings (alter (fun g => {| rg_base := rg_base g; rg_index := i; rg_cycle := c |}) dci (v_rings v)) v)
  end.

(** A TRB with the producer's cycle bit at the producer's index; the last slot is
    the Link TRB, rewritten with the cycle of the lap it ends. *)
Definition put_trb (r : rref) (t : trb) : M X Z :=
  let! g := get_ring r in
  let address := rg_base g + rg_index g * TRB_SIZE in
  let! d := py_lift (pack_trb (Trb (tb_parameter t) (tb_status t) (Z.lor (Z.land (tb_control t) (Z.lnot 1)) (rg_cycle g)))) in
  x_write address d ;;;
  move_ring r (rg_index g + 1) (rg_cycle g) ;;;
  (if rg_index g + 1 =? CMD_RING_TRBS - 1 then
     let! link := py_lift (pack_trb (Trb (rg_base g) 0 (link_control (rg_cycle g)))) in
     x_write (rg_base g + (CMD_RING_TRBS - 1) * TRB_SIZE) link ;;;
     move_ring r 0 (Z.lxor (rg_cycle g) 1)
   else py_ret tt) ;;;
  py_ret address.

Definition post_command (t : trb) : M X Z :=
  let! address := put_trb Cmd t in
  let! c := xc in x_w32 (c_db c) 0 ;;; py_ret address.

(** The [for _ in range(limit)] loop of [poll_events]. *)
Fixpoint poll_loop (limit : nat) (events : list trb) : M X (list trb) :=
  match limit with
  | O => py_ret events
  | Datatypes.S k =>
      let! x := self in
      let! d := x_read (event_ring (x_caps x) + x_event_index x * TRB_SIZE) TRB_SIZE in
      let! e := py_lift (unpack_trb d) in
      if negb (Z.land (tb_control e) 1 =? x_event_cycle x) then py_ret events else
      (if x_event_index x + 1 =? EVENT_RING_TRBS then set_x (x_set_event 0 (Z.lxor (x_event_cycle x) 1))
       else set_x (x_set_event (x_event_index x + 1) (x_event_cycle x))) ;;;
      poll_loop k (events ++ [e])
  end.
Definition poll_events (limit : nat) : M X (list trb) :=
  let! events := poll_loop limit [] in
  (if bool_decide (events = []) then py_ret tt else
   let! x := self in
   let dequeue := event_ring (x_caps x) + x_event_index x * TRB_SIZE in
   x_w64 (c_ir0 (x_caps x) + ERDP) (Z.lor dequeue (Z.shiftl 1 3))) ;;;
  py_ret events.

Fixpoint drain_loop (fuel : nat) (limit : nat) (deadline : Z) (collected : list trb) : M X (list trb) :=
  match fuel with
  | O => py_raise OutOfFuel
  | Datatypes.S k =>
      let! now := x_now in
      if (now <? deadline) && (Nat.ltb (length collected) limit) then
        let! events := poll_events limit in drain_loop k limit deadline (collected ++ events)
      else py_ret collected
  end.
Definition drain (fuel : nat) (timeout : Z) (limit : nat) : M X (list trb) :=
  let! now := x_now in drain_loop fuel limit (now + timeout) [].

(** [for event in ...: if ...: return]: the rest of the batch is dropped. *)
Fixpoint first_event {A} (f : trb -> M X (option A)) (events : list trb) : M X (option A) :=
  match events with
  | [] => py_ret None
  | e :: r => let! a := f e in match a with Some x => py_ret (Some x) | None => first_event f r end
  end.
(** [while time.monotonic() < deadline]: poll, look, sleep. *)
Fixpoint watch_loop {A} (fuel : nat) (f : trb -> M X (option A)) (deadline : Z) : M X (option A) :=
  match fuel with
  | O => py_raise OutOfFuel
  | Datatypes.S k =>
      let! now := x_now in
      if now <? deadline then
        let! events := poll_events 16 in
        let! a := first_event f events in
        match a with Some x => py_ret (Some x) | None => watch_loop k f deadline end
      else py_ret None
  end.
Definition watch {A} (fuel : nat) (f : trb -> M X (option A)) (timeout : Z) : M X (option A) :=
  let! now := x_now in watch_loop fuel f (now + timeout).

Definition command (fuel : nat) (t : trb) (timeout : Z) : M X trb :=
  let! address := post_command t in
  let! e := watch fuel (fun e => py_ret (if (tb_type e =? 33) && (tb_parameter e =? address) then Some e else None)) timeout in
  match e with
  | Some e => py_ret e
  | None => op_rd USBSTS ;;; (let! c := xc in x_r64 (c_op c + CRCR)) ;;; py_raise (XHCIError "no completion for command TRB")
  end.

Definition no_op (fuel : nat) : M X trb := command fuel (Trb 0 0 (Z.shiftl 23 10)) 1000.

(** *** Supported protocols *)

Record protocol := Protocol { pr_major : Z; pr_minor : Z; pr_name : bytes; pr_first : Z; pr_count : Z; pr_slot_type : Z }.

Fixpoint protocols_loop (n : nat) (pointer : Z) (found : list protocol) : M X (list protocol) :=
  match n with
  | O => py_ret found
  | Datatypes.S k =>
      let! word := x_r32 pointer in
      if (word =? 0) || (word =? 0xFFFFFFFF) then py_ret found else
      let! found := (if Z.land word 0xFF =? 2 then
                       let! name := x_r32 (pointer + 4) in
                       let! ports := x_r32 (pointer + 8) in
                       let! slot := x_r32 (pointer + 12) in
                       py_ret (found ++ [{| pr_major := Z.land (Z.shiftr word 24) 0xFF; pr_minor := Z.land (Z.shiftr word 16) 0xFF;
                                            pr_name := le_bytes 4 name;
                                            pr_first := Z.land ports 0xFF; pr_count := Z.land (Z.shiftr ports 8) 0xFF;
                                            pr_slot_type := Z.land slot 0x1F |}])
                     else py_ret found) in
      let nxt := Z.land (Z.shiftr word 8) 0xFF in
      if nxt =? 0 then py_ret found else protocols_loop k (pointer + nxt * 4) found
  end.
Definition protocols : M X (list protocol) :=
  let! c := xc in
  let offset := Z.land (Z.shiftr (c_hccparams1 c) 16) 0xFFFF in
  if offset =? 0 then py_ret [] else protocols_loop 32 (c_base c + offset * 4) [].
Definition slot_type_for_port (port : Z) : M X Z :=
  let! l := protocols in
  py_ret match List.find (fun e => (pr_first e <=? port) && (port <? pr_first e + pr_count e)) l with
         | Some e => pr_slot_type e
         | None => 0
         end.

(** *** Addressing *)

(** The fields of a [struct.pack] format: sizes and values. *)
Fixpoint pack_fields (l : list (nat * Z)) : result bytes :=
  match l with
  | [] => Ok []
  | (n, z) :: r => let? a := pack_u n z in let? b := pack_fields r in Ok (a ++ b)
  end.

(** Offset of a context in an input context. *)
Definition context_offset (c : caps) (dci : Z) : Z := c_context_size c * (dci + 1).

Definition disable_slot (fuel : nat) (slot : Z) : M X unit :=
  py_catch (command fuel (Trb 0 0 (Z.lor (Z.shiftl 10 10) (Z.shiftl slot 24))) 1000 ;;; py_ret tt) is_xhci_error (py_ret tt).

Definition ep0_packet (speed : Z) : Z :=
  if speed =? 1 then 64 else if speed =? 2 then 8 else if speed =? 3 then 64 else if speed =? 4 then 512
  else if speed =? 5 then 512 else 64.

Definition address_device (fuel : nat) (port speed slot_type : Z) (block : bool) : M X unit :=
  let! event := command fuel (Trb 0 0 (Z.lor (Z.shiftl 9 10) (Z.shiftl slot_type 16))) 1000 in
  if negb (tb_code event =? 1) then py_raise (XHCIError "Enable Slot failed") else
  let slot := Z.land (Z.shiftr (tb_control event) 24) 0xFF in
  let! c := xc in
  let device_context := x_free c + 0x0000 in
  let input_context := x_free c + 0x1000 in
  let ep0_ring := x_free c + 0x2000 in
  x_zero (x_free c) (0x3000 + 0x1000) ;;;
  let! link := py_lift (pack_trb (Trb ep0_ring 0 (link_control 1))) in
  x_write (ep0_ring + (CMD_RING_TRBS - 1) * TRB_SIZE) link ;;;
  let! icc := py_lift (pack_fields [(4%nat, 0); (4%nat, 3)]) in
  x_write input_context icc ;;;
  let! slot_ctx := py_lift (pack_fields [(4%nat, Z.lor (Z.shiftl (Z.land speed 0xF) 20) (Z.shiftl 1 27)); (4%nat, Z.shiftl (Z.land port 0xFF) 16);
                                         (4%nat, 0); (4%nat, 0)]) in
  x_write (input_context + context_offset c 0) slot_ctx ;;;
  let packet := ep0_packet speed in
  let! ep0_ctx := py_lift (pack_fields [(4%nat, 0); (4%nat, lors [Z.shiftl 3 1; Z.shiftl 4 3; Z.shiftl packet 16]); (8%nat, Z.lor ep0_ring 1);
                                        (4%nat, 8); (4%nat, 0)]) in
  x_write (input_context + context_offset c 1) ep0_ctx ;;;
  x_w64 (dcbaa c + 8 * slot) device_context ;;;
  let control := lors [Z.shiftl 11 10; Z.shiftl slot 24; if block then Z.shiftl 1 9 else 0] in
  let! event := command fuel (Trb input_context 0 control) 2000 in
  if negb (tb_code event =? 1) then disable_slot fuel slot ;;; py_raise (XHCIError "Address Device failed") else
  let! state := x_read (device_context + 12) 4 in
  let! _ := py_lift (if Nat.eqb (length state) 4 then unpack_u 4 0 state else Raise StructError) in
  set_v (fun _ => {| v_slot := slot; v_device_context := device_context; v_input_context := input_context; v_ep0_ring := ep0_ring;
                     v_packet := packet; v_index := 0; v_cycle := 1; v_rings := ∅; v_pending := ∅ |}).

(** *** Control transfers *)

Fixpoint put_trbs (r : rref) (l : list trb) : M X unit :=
  match l with [] => py_ret tt | t :: k => put_trb r t ;;; put_trbs r k end.

Definition control_trbs (setup : Z) (incoming : bool) (buffer len : Z) : list trb :=
  let trt := if len =? 0 then 0 else if incoming then 3 else 2 in
  [Trb setup 8 (lors [Z.shiftl 2 10; Z.shiftl trt 16; Z.shiftl 1 6])] ++
  (if len =? 0 then [] else [Trb buffer len (Z.lor (Z.shiftl 3 10) (if incoming then Z.shiftl 1 16 else 0))]) ++
  [Trb 0 0 (lors [Z.shiftl 4 10; if incoming then 0 else Z.shiftl 1 16; Z.shiftl 1 5])].

Definition control_transfer (fuel : nat) (request_type request value index len : Z) : M X bytes :=
  let! c := xc in
  let buffer := x_free c + 0x3000 in
  let! setup := py_lift (pack_fields [(1%nat, request_type); (1%nat, request); (2%nat, value); (2%nat, index); (2%nat, len)]) in
  let incoming := negb (Z.land request_type 0x80 =? 0) in
  (if len =? 0 then py_ret tt else x_zero buffer (Z.land (len + 63) (Z.lnot 63))) ;;;
  put_trbs Ep0 (control_trbs (le_Z setup) incoming buffer len) ;;;
  let! v := dev in
  x_w32 (c_db c + 4 * v_slot v) 1 ;;;
  let! got := watch fuel (fun e =>
    if tb_type e =? 32 then
      if negb (bool_decide (tb_code e ∈ [1; 13])) then py_raise (XHCIError "control transfer failed") else
      let got := if len =? 0 then 0 else len - Z.land (tb_status e) 0xFFFFFF in
      let! data := (if got =? 0 then py_ret [] else x_read buffer got) in
      py_ret (Some data)
    else py_ret None) 2000 in
  match got with
  | Some data => py_ret data
  | None => op_rd USBSTS ;;; py_raise (XHCIError "no transfer event")
  end.

(** *** Endpoints *)

Definition endpoint_ring (dci : Z) : M X ring :=
  let! v := dev in
  match v_rings v !! dci with
  | Some g => py_ret g
  | None =>
      let! c := xc in
      let base := x_free c + 0x4000 + 0x1000 * (dci - 2) in
      x_zero base 0x1000 ;;;
      let! link := py_lift (pack_trb (Trb base 0 (link_control 1))) in
      x_write (base + (CMD_RING_TRBS - 1) * TRB_SIZE) link ;;;
      let g := {| rg_base := base; rg_index := 0; rg_cycle := 1 |} in
      set_v (fun v => v_set_rings (<[dci := g]> (v_rings v)) v) ;;;
      py_ret g
  end.

(** One endpoint: its number, type and packet size. *)
Definition endpoint := (Z * Z * Z)%type.
Definition endpoint_dci (e : endpoint) : Z := fst (fst e).

Fixpoint write_contexts (endpoints : list endpoint) : M X unit :=
  match endpoints with
  | [] => py_ret tt
  | (dci, ep_type, packet) :: rest =>
      let! g := endpoint_ring dci in
      let! context := py_lift (pack_fields [(4%nat, 0); (4%nat, lors [Z.shiftl 3 1; Z.shiftl ep_type 3; Z.shiftl packet 16]);
                                            (8%nat, Z.lor (rg_base g) (rg_cycle g)); (4%nat, packet); (4%nat, 0)]) in
      let! v := dev in
      let! c := xc in
      x_write (v_input_context v + context_offset c dci) context ;;;
      write_contexts rest
  end.

Definition configure_endpoints (fuel : nat) (endpoints : list endpoint) : M X trb :=
  let! v := dev in
  let! c := xc in
  let input_context := v_input_context v in
  x_zero input_context (c_context_size c * 33) ;;;
  write_contexts endpoints ;;;
  let add := fold_left (fun a e => Z.lor a (Z.shiftl 1 (endpoint_dci e))) endpoints 1 in
  let highest := fold_left (fun h e => Z.max h (endpoint_dci e)) endpoints 1 in
  let! icc := py_lift (pack_fields [(4%nat, 0); (4%nat, add)]) in
  x_write input_context icc ;;;
  let! slot := x_read (v_device_context v) 32 in
  let! word := py_lift (unpack_u 4 0 slot) in
  let! word := py_lift (pack_I (Z.lor (Z.land word 0x07FFFFFF) (Z.shiftl highest 27))) in
  x_write (input_context + context_offset c 0) (word ++ drop 4 slot) ;;;
  let! event := command fuel (Trb input_context 0 (Z.lor (Z.shiftl 12 10) (Z.shiftl (v_slot v) 24))) 2000 in
  if negb (tb_code event =? 1) then py_raise (XHCIError "Configure Endpoint failed") else py_ret event.

Definition post_transfer (dci buffer len : Z) : M X Z :=
  endpoint_ring dci ;;;
  let! address := put_trb (Bulk dci) (Trb buffer len (lors [Z.shiftl 1 10; Z.shiftl 1 5; Z.shiftl 1 2])) in
  let! v := dev in
  let! c := xc in
  x_w32 (c_db c + 4 * v_slot v) dci ;;;
  py_ret address.

Definition await_transfer (fuel : nat) (address len timeout : Z) : M X (option Z) :=
  watch fuel (fun e =>
    if (tb_type e =? 32) && (tb_parameter e =? address) then
      if negb (bool_decide (tb_code e ∈ [1; 13])) then py_raise (XHCIError "transfer failed")
      else py_ret (Some (len - Z.land (tb_status e) 0xFFFFFF))
    else py_ret None) timeout.

(** [transfer] returns the data of an IN transfer, the count otherwise. *)
Inductive transferred := Data (d : bytes) | Count (n : Z).
Definition transfer (fuel : nat) (dci buffer len timeout : Z) (direction_in : bool) : M X transferred :=
  let! address := post_transfer dci buffer len in
  let! got := await_transfer fuel address len timeout in
  match got with
  | None => py_raise (XHCIError "no transfer event on the endpoint")
  | Some got => if direction_in && negb (got =? 0) then let! d := x_read buffer got in py_ret (Data d) else py_ret (Count got)
  end.

Definition receive (fuel : nat) (dci buffer size timeout : Z) : M X (option bytes) :=
  let! v := dev in
  let! address := match v_pending v !! dci with
                  | Some a => py_ret a
                  | None =>
                      let! a := post_transfer dci buffer size in
                      set_v (fun v => v_set_pending (<[dci := a]> (v_pending v)) v) ;;; py_ret a
                  end in
  let! got := await_transfer fuel address size timeout in
  match got with
  | None => py_ret None
  | Some got =>
      set_v (fun v => v_set_pending (delete dci (v_pending v)) v) ;;;
      if got =? 0 then py_ret (Some []) else let! d := x_read buffer got in py_ret (Some d)
  end.

Definition send (fuel : nat) (dci buffer : Z) (data : bytes) (timeout : Z) : M X Z :=
  x_write buffer data ;;;
  transfer fuel dci buffer (zlen data) timeout false ;;;
  (if negb (zlen data =? 0) && (zlen data mod 512 =? 0) then transfer fuel dci buffer 0 timeout false ;;; py_ret tt else py_ret tt) ;;;
  py_ret (zlen data).

(** *** Requests *)

Definition set_configuration (fuel : nat) (value : Z) : M X unit := control_transfer fuel 0x00 9 value 0 0 ;;; py_ret tt.
Definition set_interface (fuel : nat) (interface alternate : Z) : M X unit := control_transfer fuel 0x01 11 alternate interface 0 ;;; py_ret tt.
Definition get_ntb_parameters (fuel : nat) (interface : Z) : M X bytes := control_transfer fuel 0xA1 0x80 0 interface 28.
Definition set_packet_filter (fuel : nat) (interface filter_bits : Z) : M X unit := control_transfer fuel 0x21 0x43 filter_bits interface 0 ;;; py_ret tt.
Definition get_descriptor (fuel : nat) (kind index len language : Z) : M X bytes :=
  control_transfer fuel 0x80 6 (Z.lor (Z.shiftl kind 8) index) language len.
(** [get_string] before it decodes the text: the UTF-16 bytes. *)
Definition get_string_data (fuel : nat) (index language : Z) : M X bytes :=
  if index =? 0 then py_ret [] else
  let! head := get_descriptor fuel 3 index 4 language in
  match head with
  | h0 :: h1 :: _ =>
      if negb (byte_to_Z h1 =? 3) then py_ret [] else
      let! data := get_descriptor fuel 3 index (byte_to_Z h0) language in py_ret (drop 2 data)
  | _ => py_ret []
  end.

Definition release (fuel : nat) (data_interface : option Z) : M X unit :=
  py_catch ((match data_interface with Some i => set_interface fuel i 0 | None => py_ret tt end) ;;; set_configuration fuel 0)
           is_xhci_error (py_ret tt) ;;;
  let! v := dev in disable_slot fuel (v_slot v).

(** *** Ports *)

Fixpoint port_wait (fuel : nat) (port deadline : Z) : M X Z :=
  match fuel with
  | O => py_raise OutOfFuel
  | Datatypes.S k =>
      let! now := x_now in
      if now <? deadline then
        let! value := portsc port in
        if negb (Z.land value (Z.lor P_PRC P_WRC) =? 0) then py_ret value else port_wait k port deadline
      else portsc port
  end.
Definition reset_port (fuel : nat) (port : Z) (warm : bool) (timeout : Z) : M X Z :=
  portsc_set port (if warm then P_WPR else P_PR) ;;;
  let! now := x_now in port_wait fuel port (now + timeout).

(** The first port with a device. *)
Fixpoint connected (n : nat) (port : Z) : M X (option Z) :=
  match n with
  | O => py_ret None
  | Datatypes.S k => let! v := portsc port in if negb (Z.land v P_CCS =? 0) then py_ret (Some port) else connected k (port + 1)
  end.
Fixpoint wait_device (fuel : nat) (deadline : Z) : M X (option Z) :=
  match fuel with
  | O => py_raise OutOfFuel
  | Datatypes.S k =>
      let! now := x_now in
      if now <? deadline then
        poll_events 16 ;;;
        let! c := xc in
        let! p := connected (Z.to_nat (c_max_ports c)) 1 in
        match p with Some port => py_ret (Some port) | None => wait_device k deadline end
      else py_ret None
  end.

Definition CHANGES : Z := lors [P_PRC; P_WRC; P_CSC; P_PEC; P_PLC].

(** One attempt of [attach]: whether the device got its address. *)
Definition attach_attempt (fuel : nat) (port : Z) (attempt : nat) : M X bool :=
  (if Nat.leb 2 attempt then
     let! v := portsc port in portsc_write port (Z.lor (Z.land v PORTSC_RW) P_PED)
   else py_ret tt) ;;;
  portsc_ack port P_CSC ;;;
  reset_port fuel port (port =? 2) 2000 ;;;
  portsc_ack port CHANGES ;;;
  let! value := portsc port in
  if Z.land value P_PED =? 0 then py_ret false else
  drain fuel 200 32 ;;;
  py_catch (let! st := slot_type_for_port port in
            address_device fuel port (Z.land (Z.shiftr value 10) 0xF) st false ;;; py_ret true)
           is_xhci_error (portsc port ;;; py_ret false).

Fixpoint attach_loop (fuel : nat) (port : Z) (attempts attempt : nat) : M X Z :=
  match attempts with
  | O => py_raise (XHCIError "could not address the device")
  | Datatypes.S k =>
      let! ok := attach_attempt fuel port attempt in
      if ok : bool then py_ret port else attach_loop fuel port k (Datatypes.S attempt)
  end.

(** [attach] on an open controller. *)
Definition attach_on (fuel : nat) (wait : Z) (attempts : nat) : M X Z :=
  xinit fuel ;;;
  let! now := x_now in
  let! port := wait_device fuel (now + wait) in
  match port with
  | None => py_raise (XHCIError "no device attached")
  | Some port => attach_loop fuel port attempts 0
  end.
End Driver.

(** [attach]. *)
Definition attach {S} `{!TargetOps S} (info : boot_info) (base : Z) (fuel : nat) (wait : Z) (attempts : nat) : M S (Z * (xhci * device)) :=
  let! x := xhci_open info base None (Z.shiftl 1 20) in
  fun s => match attach_on fuel wait attempts (s, (x, no_device)) with
           | (Ok port, (s', xv)) => (Ok (port, xv), s')
           | (Raise e, (s', _)) => (Raise e, s')
           end.
