(* ===== verification/XhciRings.v ===== *)
(** * The rings of the xHCI driver

    A ring shared with the controller is a queue: the cycle bit of a slot says
    whether it belongs to the lap the consumer is in.  [ring_at] relates memory, the
    producer's and the consumer's position (counted from the start, not modulo the
    ring) and the queue; producing and consuming preserve it.  The driver produces
    commands and transfers, closing a lap with the Link TRB that [hw_fetch], the
    controller's side as the xHCI specification describes it, follows; and it
    consumes events ([poll_events]). *)

From Stdlib Require Import ZArith Lia.
From Stdlib Require Import Strings.Byte.
From stdpp Require Import base list numbers strings gmap.
From S2P Require Import Prelude Bytes Transport Q1n1Link Target Preload Xhci.

Local Open Scope list_scope.
Local Open Scope Z_scope.
Local Open Scope py_scope.

(** ** TRBs in memory *)

Definition load_trb (m : Z -> byte) (a : Z) : trb :=
  Trb (le_Z (mem_read m a 8)) (le_Z (mem_read m (a + 8) 4)) (le_Z (mem_read m (a + 12) 4)).

Lemma unpack_trb_load m a : unpack_trb (mem_read m a 16) = Ok (load_trb m a).
Proof.
  unfold unpack_trb, unpack_u. rewrite length_mem_read. cbn [Nat.eqb negb]. do 3 (rewrite decide_True by lia; cbn [rbind]).
  rewrite !(mem_read_slice m a 16) by lia. unfold load_trb. by rewrite Z.add_0_r.
Qed.

Lemma pack_trb_inv t d : pack_trb t = Ok d ->
  d = le_bytes 8 (tb_parameter t) ++ le_bytes 4 (tb_status t) ++ le_bytes 4 (tb_control t) /\
  0 <= tb_parameter t < 2 ^ 64 /\ 0 <= tb_status t < 2 ^ 32 /\ 0 <= tb_control t < 2 ^ 32.
Proof.
  unfold pack_trb, pack_Q, pack_I. destruct (pack_u 8 _) as [a|] eqn:Ea; [|done]. destruct (pack_u 4 (tb_status t)) as [b|] eqn:Eb; [|done].
  destruct (pack_u 4 (tb_control t)) as [c|] eqn:Ec; [|done]. cbn [rbind]. intros <-%Ok_inj.
  apply pack_u_inv in Ea as [? ->]. apply pack_u_inv in Eb as [? ->]. apply pack_u_inv in Ec as [? ->]. done.
Qed.

Definition trb_ok (t : trb) : Prop := 0 <= tb_parameter t < 2 ^ 64 /\ 0 <= tb_status t < 2 ^ 32 /\ 0 <= tb_control t < 2 ^ 32.
Definition trb_bytes (t : trb) : bytes := le_bytes 8 (tb_parameter t) ++ le_bytes 4 (tb_status t) ++ le_bytes 4 (tb_control t).

Lemma pack_trb_ok t : trb_ok t -> pack_trb t = Ok (trb_bytes t).
Proof. intros (H1 & H2 & H3). unfold pack_trb, pack_Q, pack_I. by rewrite !pack_u_ok. Qed.

Lemma length_trb_bytes t : length (trb_bytes t) = 16%nat.
Proof. unfold trb_bytes. by rewrite !length_app, !length_le_bytes. Qed.

Lemma load_store_same m a t : trb_ok t -> load_trb (mem_store a (trb_bytes t) m) a = t.
Proof.
  intros (H1 & H2 & H3). pose proof (unpack_trb_load (mem_store a (trb_bytes t) m) a) as H.
  rewrite <- (length_trb_bytes t), mem_read_store in H. apply Ok_inj. rewrite <- H.
  unfold unpack_trb. rewrite length_trb_bytes. cbn [Nat.eqb negb]. unfold trb_bytes.
  rewrite (unpack_u_le_bytes 8 0 [] _ _ eq_refl H1 : unpack_u 8 0 (le_bytes 8 _ ++ _) = _). cbn [rbind].
  rewrite unpack_u_le_bytes by (by rewrite ?length_le_bytes). cbn [rbind].
  rewrite <- (app_nil_r (le_bytes 4 (tb_control t))), app_assoc. rewrite unpack_u_le_bytes by (by rewrite ?length_app, ?length_le_bytes). cbn [rbind]. by destruct t.
Qed.

Lemma load_store_apart m a b t : a + 16 <= b \/ b + 16 <= a -> load_trb (mem_store a (trb_bytes t) m) b = load_trb m b.
Proof.
  intros H. apply Ok_inj. rewrite <- !unpack_trb_load. f_equal. apply mem_read_store_apart. unfold zlen. rewrite length_trb_bytes. lia.
Qed.

(** ** Laps *)

Definition lap_cycle (N n : nat) : Z := if Nat.even (n / N) then 1 else 0.
Definition slot (base : Z) (N n : nat) : Z := base + 16 * Z.of_nat (n mod N).
Definition cycle_bit (t : trb) : Z := Z.land (tb_control t) 1.

Lemma lap_cycle_01 N n : lap_cycle N n = 0 \/ lap_cycle N n = 1.
Proof. unfold lap_cycle. case_match; auto. Qed.

Lemma lap_cycle_lap N n : (0 < N)%nat -> lap_cycle N (n + N) = 1 - lap_cycle N n.
Proof.
  intros HN. unfold lap_cycle. replace (n + N)%nat with (n + 1 * N)%nat by lia. rewrite Nat.div_add by lia. rewrite Nat.add_1_r, Nat.even_succ, <- Nat.negb_even.
  by destruct (Nat.even (n / N)).
Qed.

Lemma slot_lap base N n : (0 < N)%nat -> slot base N (n + N) = slot base N n.
Proof. intros HN. unfold slot. replace (n + N)%nat with (n + 1 * N)%nat by lia. by rewrite Nat.Div0.mod_add. Qed.

(** Consecutive positions of one lap's length are different slots. *)
Lemma slot_apart base N a b : (0 < N)%nat -> (a < b < a + N)%nat -> slot base N a + 16 <= slot base N b \/ slot base N b + 16 <= slot base N a.
Proof.
  intros HN Hab. unfold slot. enough (a mod N <> b mod N)%nat by lia. intros E.
  pose proof (Nat.div_mod_eq a N). pose proof (Nat.div_mod_eq b N).
  destruct (Nat.lt_trichotomy (a / N) (b / N)) as [|[|]]; nia.
Qed.

(** The next position, as a producer or consumer computes it. *)
Lemma position_next N n : (0 < N)%nat ->
  (S n mod N = if Nat.eqb (S (n mod N)) N then 0 else S (n mod N))%nat /\
  lap_cycle N (S n) = if Nat.eqb (S (n mod N)) N then 1 - lap_cycle N n else lap_cycle N n.
Proof.
  intros HN. pose proof (Nat.mod_upper_bound n N ltac:(lia)). pose proof (Nat.div_mod_eq n N). destruct (Nat.eqb_spec (S (n mod N)) N) as [E|E].
  - assert (Hd : (S n = (S (n / N)) * N)%nat) by nia. unfold lap_cycle. rewrite Hd, Nat.Div0.mod_mul, Nat.div_mul by lia. split; [done|].
    rewrite Nat.even_succ, <- Nat.negb_even. by destruct (Nat.even (n / N)).
  - assert (Hq : (S n / N = n / N)%nat) by (symmetry; apply (Nat.div_unique _ _ _ (S (n mod N))); lia).
    unfold lap_cycle. rewrite Hq. split; [|done]. symmetry. apply (Nat.mod_unique _ _ (n / N)); lia.
Qed.

(** ** A ring as a queue *)

(** [p] TRBs were produced, [c] consumed; [q] is what is between. *)
Record ring_at (base : Z) (N : nat) (m : Z -> byte) (c : nat) (q : list trb) : Prop := {
  ra_room : (length q <= N)%nat;
  ra_full k t : q !! k = Some t -> load_trb m (slot base N (c + k)) = t /\ cycle_bit t = lap_cycle N (c + k);
  ra_free k : (length q <= k < N)%nat -> cycle_bit (load_trb m (slot base N (c + k))) = 1 - lap_cycle N (c + k)
}.

Lemma ring_produce base N m c q t : (0 < N)%nat -> ring_at base N m c q -> (length q < N)%nat -> trb_ok t ->
  cycle_bit t = lap_cycle N (c + length q) -> ring_at base N (mem_store (slot base N (c + length q)) (trb_bytes t) m) c (q ++ [t]).
Proof.
  intros HN [H1 H2 H3] Hr Ht Hc. split.
  - rewrite length_app. cbn [length]. lia.
  - intros k u Hk. destruct (decide (k < length q)%nat) as [Hlt|Hge].
    + rewrite lookup_app_l in Hk by done. destruct (H2 _ _ Hk) as [<- ?]. split; [|done]. apply load_store_apart.
      destruct (slot_apart base N (c + k) (c + length q) HN ltac:(lia)); lia.
    + rewrite lookup_app_r in Hk by lia. destruct (k - length q)%nat eqn:E; [|done]. injection Hk as <-.
      replace k with (length q) by lia. split; [by apply load_store_same|done].
  - intros k Hk. rewrite length_app in Hk. cbn [length] in Hk. rewrite load_store_apart; [apply H3; lia|].
    destruct (slot_apart base N (c + length q) (c + k) HN ltac:(lia)); lia.
Qed.

Lemma ring_consume base N m c t q : (0 < N)%nat -> ring_at base N m c (t :: q) -> ring_at base N m (S c) q.
Proof.
  intros HN [H1 H2 H3]. cbn [length] in *. split; [lia| |].
  - intros k u Hk. replace (S c + k)%nat with (c + S k)%nat by lia. by apply H2.
  - intros k Hk. replace (S c + k)%nat with (c + S k)%nat by lia. destruct (decide (S k = N)) as [E|E]; [|apply H3; lia].
    rewrite E, slot_lap, lap_cycle_lap by done. destruct (H2 0%nat t eq_refl) as [Hl Hc]. rewrite Nat.add_0_r in *. rewrite Hl, Hc. lia.
Qed.

(** What a consumer sees in its slot: the head of the queue, or a slot of the
    other lap. *)
Lemma ring_head base N m c q : (0 < N)%nat -> ring_at base N m c q ->
  match q with
  | t :: _ => load_trb m (slot base N c) = t /\ cycle_bit t = lap_cycle N c
  | [] => cycle_bit (load_trb m (slot base N c)) <> lap_cycle N c
  end.
Proof.
  intros HN [H1 H2 H3]. destruct q as [|t q].
  - specialize (H3 0%nat ltac:(cbn; lia)). rewrite Nat.add_0_r in H3. destruct (lap_cycle_01 N c); lia.
  - specialize (H2 0%nat t eq_refl). by rewrite Nat.add_0_r in H2.
Qed.

(** Memory outside the ring does not matter. *)
Lemma ring_frame base N m c q a d : ring_at base N m c q -> (0 < N)%nat -> a + zlen d <= base \/ base + 16 * Z.of_nat N <= a ->
  ring_at base N (mem_store a d m) c q.
Proof.
  intros [H1 H2 H3] HN Ha. assert (Hl : forall n, load_trb (mem_store a d m) (slot base N n) = load_trb m (slot base N n)).
  { intros n. apply Ok_inj. rewrite <- !unpack_trb_load. f_equal. apply mem_read_store_apart.
    pose proof (Nat.mod_upper_bound n N ltac:(lia)). unfold slot. lia. }
  split; [done|..]; intros; rewrite Hl; eauto.
Qed.

(** ** The controller's side of a command or transfer ring *)

(** Fetching the next TRB from position and cycle state [h]: a slot whose cycle bit
    differs is not the controller's yet; a Link TRB is followed, toggling the cycle
    state when it says so. *)
Fixpoint hw_fetch (n : nat) (m : Z -> byte) (h : Z * Z) : option (Z * trb * (Z * Z)) :=
  let t := load_trb m (fst h) in
  if negb (cycle_bit t =? snd h) then None else
  if tb_type t =? 6 then
    match n with
    | O => None
    | S k => hw_fetch k m (Z.land (tb_parameter t) (Z.lnot 0xF), if Z.testbit (tb_control t) 1 then 1 - snd h else snd h)
    end
  else Some (fst h, t, (fst h + 16, snd h)).

(** The cycle bit of the Link TRB after [p] TRBs: that of the last whole lap. *)
Definition link_cycle (p : nat) : Z := if Nat.ltb p 255 then 1 else lap_cycle 255 (p - 255).
Definition link_slot (base : Z) : Z := base + 255 * 16.
Definition aligned (base : Z) : Prop := 0 <= base < 2 ^ 64 /\ base mod 16 = 0.

Record prod_at (g : ring) (m : Z -> byte) (c : nat) (h : Z * Z) (q : list trb) : Prop := {
  pa_ring : ring_at (rg_base g) 255 m c q;
  pa_room : (length q <= 254)%nat;
  pa_index : rg_index g = Z.of_nat ((c + length q) mod 255);
  pa_cycle : rg_cycle g = lap_cycle 255 (c + length q);
  pa_types : Forall (fun t => tb_type t <> 6) q;
  pa_link : load_trb m (link_slot (rg_base g)) = Trb (rg_base g) 0 (link_control (link_cycle (c + length q)));
  pa_hw : h = (slot (rg_base g) 255 c, lap_cycle 255 c) \/
          ((c mod 255 = 0)%nat /\ (0 < c)%nat /\ h = (link_slot (rg_base g), lap_cycle 255 (c - 1)));
  pa_base : aligned (rg_base g)
}.

Lemma aligned_land base : aligned base -> Z.land base (Z.lnot 0xF) = base.
Proof.
  intros [_ H]. change 0xF with (Z.ones 4). rewrite <- Z.ldiff_land, Z.ldiff_ones_r, Z.shiftl_mul_pow2, Z.shiftr_div_pow2 by lia.
  change (2 ^ 4) with 16. pose proof (Z.div_mod base 16 ltac:(lia)). lia.
Qed.

Lemma link_trb_facts base c : c = 0 \/ c = 1 -> let t := Trb base 0 (link_control c) in
  cycle_bit t = c /\ tb_type t = 6 /\ Z.testbit (tb_control t) 1 = true.
Proof. by intros [->| ->]. Qed.

Lemma link_trb_ok base c : aligned base -> c = 0 \/ c = 1 -> trb_ok (Trb base 0 (link_control c)).
Proof. by intros [H _] [->| ->]. Qed.

Lemma link_cycle_01 p : link_cycle p = 0 \/ link_cycle p = 1.
Proof. unfold link_cycle. case_match; [by right|apply lap_cycle_01]. Qed.

(** Crossing the end of a lap: with at most 254 TRBs queued, the Link TRB has the
    cycle bit of the lap the controller is in. *)
Lemma link_cycle_at c n : (c mod 255 = 0)%nat -> (0 < c)%nat -> (n <= 254)%nat -> link_cycle (c + n) = lap_cycle 255 (c - 1) /\ 1 - lap_cycle 255 (c - 1) = lap_cycle 255 c.
Proof.
  intros H0 Hc Hn. pose proof (Nat.div_mod_eq c 255) as Hd. rewrite H0 in Hd.
  assert (Hk : exists k, c = (255 * S k)%nat) by (exists (pred (c / 255)); lia). destruct Hk as [k ->].
  assert (E1 : ((255 * S k + n - 255) / 255 = k)%nat) by (symmetry; apply (Nat.div_unique _ _ _ n); lia).
  assert (E2 : ((255 * S k - 1) / 255 = k)%nat) by (symmetry; apply (Nat.div_unique _ _ _ 254); lia).
  assert (E3 : ((255 * S k) / 255 = S k)%nat) by (symmetry; apply (Nat.div_unique _ _ _ 0); lia).
  unfold link_cycle. rewrite (proj2 (Nat.ltb_ge _ _)) by lia. unfold lap_cycle. rewrite E1, E2, E3, Nat.even_succ, <- Nat.negb_even.
  by destruct (Nat.even k).
Qed.

(** Fetching takes the head of the queue. *)
Lemma fetch_slot g m c q n : ring_at (rg_base g) 255 m c q -> Forall (fun t => tb_type t <> 6) q ->
  hw_fetch n m (slot (rg_base g) 255 c, lap_cycle 255 c) =
  match q with [] => None | t :: _ => Some (slot (rg_base g) 255 c, t, (slot (rg_base g) 255 c + 16, lap_cycle 255 c)) end.
Proof.
  intros Hr Ht. pose proof (ring_head _ 255 _ _ _ ltac:(lia) Hr) as Hh. destruct n, q as [|t q]; cbn [hw_fetch fst snd].
  1,3: by rewrite (proj2 (Z.eqb_neq _ _) Hh).
  all: destruct Hh as [-> ->]; rewrite Z.eqb_refl; cbn [negb]; inversion Ht; subst; by rewrite (proj2 (Z.eqb_neq _ _)).
Qed.

Lemma fetch_head g m c h q : prod_at g m c h q ->
  match q with
  | [] => hw_fetch 1 m h = None
  | t :: q' => exists h', hw_fetch 1 m h = Some (slot (rg_base g) 255 c, t, h') /\ prod_at g m (S c) h' q'
  end.
Proof.
  intros [H1 H2 H3 H4 H5 H6 H7 H8].
  assert (Hf : hw_fetch 1 m h = match q with [] => None | t :: _ => Some (slot (rg_base g) 255 c, t, (slot (rg_base g) 255 c + 16, lap_cycle 255 c)) end).
  { destruct H7 as [->|(H0 & Hc & ->)]; [by apply fetch_slot|]. rewrite <- (fetch_slot g m c q 0 H1 H5).
    destruct (link_cycle_at c (length q) H0 Hc H2) as [E1 E2]. change (hw_fetch 1 m ?h) with
      (let t := load_trb m (fst h) in
       if negb (cycle_bit t =? snd h) then None else
       if tb_type t =? 6 then hw_fetch 0 m (Z.land (tb_parameter t) (Z.lnot 0xF), if Z.testbit (tb_control t) 1 then 1 - snd h else snd h)
       else Some (fst h, t, (fst h + 16, snd h))). cbv zeta. cbn [fst snd]. rewrite H6.
    destruct (link_trb_facts (rg_base g) _ (link_cycle_01 (c + length q))) as (L1 & L2 & L3). rewrite L1, L2, L3, E1, Z.eqb_refl. cbn [negb Z.eqb Pos.eqb tb_parameter].
    rewrite aligned_land, E2 by done. unfold slot. by rewrite H0, Z.mul_0_r, Z.add_0_r. }
  destruct q as [|t q]; [done|]. eexists. split; [exact Hf|].
  cbn [length] in *. replace (c + S (length q))%nat with (S c + length q)%nat in * by lia.
  constructor; [by apply (ring_consume _ _ _ _ t); [lia|]|lia|done|done|by inversion H5|done| |done].
  destruct (position_next 255 c ltac:(lia)) as [P1 P2]. destruct (Nat.eqb_spec (S (c mod 255)) 255) as [E|E].
  - right. split; [done|]. split; [lia|]. replace (S c - 1)%nat with c by lia. f_equal. unfold slot, link_slot. lia.
  - left. unfold slot. rewrite P1, P2. f_equal. lia.
Qed.

(** ** The producer's cycle bit *)

Definition with_cycle (t : trb) (c : Z) : trb := Trb (tb_parameter t) (tb_status t) (Z.lor (Z.land (tb_control t) (Z.lnot 1)) c).

Lemma with_cycle_control x c : c = 0 \/ c = 1 -> Z.lor (Z.land x (Z.lnot 1)) c = 2 * (x / 2) + c.
Proof.
  intros Hc. rewrite <- Z.ldiff_land. change 1 with (Z.ones 1) at 1. rewrite Z.ldiff_ones_r, Z.shiftl_mul_pow2, Z.shiftr_div_pow2 by lia.
  change (2 ^ 1) with 2. rewrite Z.mul_comm. destruct Hc as [->| ->]; [by rewrite Z.lor_0_r, Z.add_0_r|].
  apply Z.bits_inj'. intros n Hn. rewrite Z.lor_spec. destruct (decide (n = 0)) as [->|].
  - by rewrite Z.testbit_odd_0, orb_true_r.
  - replace (Z.testbit 1 n) with false by (symmetry; apply (Z.bits_above_log2 1); cbn; lia). rewrite orb_false_r.
    replace n with (Z.succ (n - 1)) by lia. by rewrite Z.testbit_even_succ, Z.testbit_odd_succ by lia.
Qed.

Lemma with_cycle_facts t c : trb_ok t -> c = 0 \/ c = 1 ->
  trb_ok (with_cycle t c) /\ cycle_bit (with_cycle t c) = c /\ tb_type (with_cycle t c) = tb_type t.
Proof.
  intros (H1 & H2 & H3) Hc. unfold trb_ok, cycle_bit, tb_type, trb_type, with_cycle. cbn [tb_parameter tb_status tb_control].
  rewrite with_cycle_control by done. set (x := tb_control t) in *. pose proof (Z.div_mod x 2 ltac:(lia)). pose proof (Z.mod_pos_bound x 2 ltac:(lia)).
  split; [repeat split; lia|split].
  - change 1 with (Z.ones 1). rewrite Z.land_ones by lia. change (2 ^ 1) with 2. rewrite Z.mul_comm, Z.add_comm, Z.mod_add by lia. apply Z.mod_small. lia.
  - f_equal. rewrite !Z.shiftr_div_pow2 by lia. change (2 ^ 10) with (2 * 512). rewrite <- !Z.div_div by lia. f_equal.
    rewrite Z.mul_comm, Z.div_add_l by lia. rewrite (Z.div_small c) by lia. lia.
Qed.

Lemma with_cycle_twice t a b : a = 0 \/ a = 1 -> b = 0 \/ b = 1 -> with_cycle (with_cycle t a) b = with_cycle t b.
Proof.
  intros Ha Hb. unfold with_cycle. cbn [tb_parameter tb_status tb_control]. f_equal. rewrite !with_cycle_control by done. do 2 f_equal.
  rewrite Z.mul_comm, Z.div_add_l by lia. rewrite (Z.div_small a) by lia. lia.
Qed.

(** A ring as the driver makes it: zeroed slots and the Link TRB of the first lap. *)
Definition fresh_ring (base : Z) (m : Z -> byte) : Prop :=
  aligned base /\ (forall k, (k < 255)%nat -> cycle_bit (load_trb m (base + 16 * Z.of_nat k)) = 0) /\
  load_trb m (link_slot base) = Trb base 0 (link_control 1).

Lemma fresh_prod base m : fresh_ring base m -> prod_at (Ring base 0 1) m 0 (base, 1) [].
Proof.
  intros (H1 & H2 & H3). constructor; cbn [rg_base rg_index rg_cycle length]; try done; try lia.
  - split; [cbn; lia|done|]. intros k [_ Hk]. rewrite Nat.add_0_l. unfold slot. rewrite Nat.mod_small, H2 by done.
    unfold lap_cycle. by rewrite Nat.div_small.
  - left. unfold slot. f_equal. rewrite Nat.Div0.mod_0_l. lia.
Qed.

Lemma load_zeroed m base n k : (16 * k + 16 <= n)%nat ->
  load_trb (mem_store base (replicate n x00) m) (base + 16 * Z.of_nat k) = Trb 0 0 0.
Proof.
  intros H. apply Ok_inj. rewrite <- unpack_trb_load. replace (mem_read _ _ 16) with (replicate 16 x00); [done|].
  apply list_eq. intros i. destruct (decide (i < 16)%nat) as [Hi|Hi].
  - rewrite lookup_mem_read by done. rewrite lookup_replicate_2 by done. f_equal. unfold mem_store.
    rewrite (proj2 (Z.leb_le _ _)) by lia. rewrite lookup_replicate_2 by lia. done.
  - rewrite !lookup_ge_None_2; [done|rewrite length_mem_read; lia|rewrite length_replicate; lia].
Qed.

(** ** Targets with memory that controller and driver share *)

(** A target whose operations succeed: memory reads and writes work on [st_mem],
    register accesses and the clock leave it alone. *)
Class TargetStore (S : Type) `{!TargetOps S} := {
  st_mem : S -> Z -> byte;
  st_poke : (Z -> byte) -> S -> S;              (* the controller changes memory *)
  st_poke_mem m s : st_mem (st_poke m s) = m;
  st_readmem a n live s : exists s', t_readmem a n live s = (Ok (mem_read (st_mem s) a (Z.to_nat n)), s') /\ st_mem s' = st_mem s;
  st_writemem a d s : exists s', t_writemem a d s = (Ok tt, s') /\ st_mem s' = mem_store a d (st_mem s);
  st_write32 a v s : exists s', t_write32 a v s = (Ok tt, s') /\ st_mem s' = st_mem s;
  st_write64 a v s : exists s', t_request P_WRITE64 [a; v] s = (Ok tt, s') /\ st_mem s' = st_mem s;
  st_memset8 a n s : exists s', t_request P_MEMSET8 [a; 0; n] s = (Ok tt, s') /\ st_mem s' = mem_store a (replicate (Z.to_nat n) x00) (st_mem s);
  st_now s : exists v s', t_now s = (Ok v, s') /\ st_mem s' = st_mem s
}.

Section Producer.
  Context {T : Type} `{!TargetOps T} `{!TargetStore T}.
  Abbreviation X := (T * (xhci * device))%type.
Definition xmem (s : X) : Z -> byte := st_mem (fst s).

(** The ring record of a reference, where there is one. *)
Definition ring_of (r : rref) (s : X) : option ring :=
  match r with
  | Cmd => Some {| rg_base := cmd_ring (x_caps (fst (snd s))); rg_index := x_cmd_index (fst (snd s)); rg_cycle := x_cmd_cycle (fst (snd s)) |}
  | Ep0 => Some {| rg_base := v_ep0_ring (snd (snd s)); rg_index := v_index (snd (snd s)); rg_cycle := v_cycle (snd (snd s)) |}
  | Bulk dci => v_rings (snd (snd s)) !! dci
  end.

Lemma get_ring_of r s g : ring_of r s = Some g -> get_ring r s = (Ok g, s).
Proof.
  destruct r as [| |dci]; cbn [ring_of get_ring]; [by intros [= <-]..|].
  intros H. unfold py_bind, dev, py_get. by rewrite H.
Qed.

Lemma move_ring_of r i c s g : ring_of r s = Some g -> exists s', move_ring r i c s = (Ok tt, s') /\
  ring_of r s' = Some {| rg_base := rg_base g; rg_index := i; rg_cycle := c |} /\ fst s' = fst s.
Proof.
  destruct r as [| |dci]; cbn [ring_of]; intros H; eexists; (split; [reflexivity|]); cbn [fst snd].
  1,2: by injection H as <-.
  split; [|done]. cbn. by rewrite lookup_alter_eq, H.
Qed.

Lemma x_write_ok a d (s : X) : exists s', x_write a d s = (Ok tt, s') /\ xmem s' = mem_store a d (xmem s) /\ snd s' = snd s.
Proof. destruct (st_writemem a d (fst s)) as (h & E & Hm). exists (h, snd s). unfold x_write, on_target. by rewrite E. Qed.

Lemma ring_of_hw r (s s' : X) : snd s' = snd s -> ring_of r s' = ring_of r s.
Proof. intros H. destruct r; cbn [ring_of]; by rewrite H. Qed.

(** What [put_trb] stores, and where it leaves the ring. *)
Lemma put_trb_run r t s g : ring_of r s = Some g -> trb_ok (with_cycle t (rg_cycle g)) -> trb_ok (Trb (rg_base g) 0 (link_control (rg_cycle g))) ->
  let a := rg_base g + rg_index g * 16 in
  let m1 := mem_store a (trb_bytes (with_cycle t (rg_cycle g))) (xmem s) in
  let wrap := rg_index g + 1 =? 255 in
  exists s', put_trb r t s = (Ok a, s') /\
    xmem s' = (if wrap then mem_store (rg_base g + 255 * 16) (trb_bytes (Trb (rg_base g) 0 (link_control (rg_cycle g)))) m1 else m1) /\
    ring_of r s' = Some (if wrap then {| rg_base := rg_base g; rg_index := 0; rg_cycle := Z.lxor (rg_cycle g) 1 |}
                         else {| rg_base := rg_base g; rg_index := rg_index g + 1; rg_cycle := rg_cycle g |}).
Proof.
  intros Hg Ht Hl. cbv zeta. unfold put_trb. erewrite py_bind_ok by (by apply get_ring_of). cbv zeta.
  change (Trb (tb_parameter t) (tb_status t) (Z.lor (Z.land (tb_control t) (Z.lnot 1)) (rg_cycle g))) with (with_cycle t (rg_cycle g)).
  rewrite (pack_trb_ok _ Ht). erewrite py_bind_ok by reflexivity.
  destruct (x_write_ok (rg_base g + rg_index g * TRB_SIZE) (trb_bytes (with_cycle t (rg_cycle g))) s) as (s1 & E1 & M1 & D1). erewrite py_bind_ok by exact E1.
  destruct (move_ring_of r (rg_index g + 1) (rg_cycle g) s1 g) as (s2 & E2 & R2 & D2); [by rewrite (ring_of_hw r s)|]. erewrite py_bind_ok by exact E2.
  assert (M2 : xmem s2 = xmem s1) by (unfold xmem; by rewrite D2). change (CMD_RING_TRBS - 1) with 255. change TRB_SIZE with 16 in *.
  destruct (rg_index g + 1 =? 255).
  - rewrite (pack_trb_ok _ Hl).
    destruct (x_write_ok (rg_base g + 255 * 16) (trb_bytes (Trb (rg_base g) 0 (link_control (rg_cycle g)))) s2) as (s3 & E3 & M3 & D3).
    destruct (move_ring_of r 0 (Z.lxor (rg_cycle g) 1) s3 _ ltac:(rewrite (ring_of_hw r s2) by done; exact R2)) as (s4 & E4 & R4 & D4).
    exists s4. split; [|split; [unfold xmem at 1; rewrite D4; fold (xmem s3); by rewrite M3, M2, M1|done]].
    erewrite py_bind_ok; [reflexivity|]. erewrite py_bind_ok by reflexivity. erewrite py_bind_ok by exact E3. exact E4.
  - exists s2. split; [reflexivity|]. split; [by rewrite M2|done].
Qed.

(** Queueing a TRB appends it. *)
Lemma put_trb_appends r t s g c h q : ring_of r s = Some g -> prod_at g (xmem s) c h q -> (length q < 254)%nat -> trb_ok t -> tb_type t <> 6 ->
  exists s' g', put_trb r t s = (Ok (slot (rg_base g) 255 (c + length q)), s') /\ ring_of r s' = Some g' /\ rg_base g' = rg_base g /\
    prod_at g' (xmem s') c h (q ++ [with_cycle t (lap_cycle 255 (c + length q))]).
Proof.
  intros Hg [H1 H2 H3 H4 H5 H6 H7 H8] Hq Ht Hty. set (p := (c + length q)%nat) in *. pose proof (lap_cycle_01 255 p) as H01.
  destruct (with_cycle_facts t (lap_cycle 255 p) Ht H01) as (F1 & F2 & F3).
  destruct (put_trb_run r t s g Hg) as (s' & E & Hm & Hr); [by rewrite H4|rewrite H4; by apply link_trb_ok|]. rewrite H3, H4 in *.
  assert (Ha : rg_base g + Z.of_nat (p mod 255) * 16 = slot (rg_base g) 255 p) by (unfold slot; lia). rewrite Ha in *.
  set (u := with_cycle t (lap_cycle 255 p)) in *. set (m1 := mem_store (slot (rg_base g) 255 p) (trb_bytes u) (xmem s)) in *.
  pose proof (ring_produce _ 255 _ _ _ u ltac:(lia) H1 ltac:(lia) F1 F2) as Hp. fold p m1 in Hp.
  pose proof (Nat.mod_upper_bound p 255 ltac:(lia)) as Hb.
  assert (Hl1 : load_trb m1 (link_slot (rg_base g)) = Trb (rg_base g) 0 (link_control (link_cycle p))).
  { rewrite <- H6. apply load_store_apart. left. unfold slot, link_slot. lia. }
  assert (Hlen : (c + length (q ++ [u]) = S p)%nat) by (rewrite length_app; cbn [length]; lia).
  destruct (position_next 255 p ltac:(lia)) as [P1 P2].
  assert (Hw : (Z.of_nat (p mod 255) + 1 =? 255) = Nat.eqb (S (p mod 255)) 255) by (destruct (Nat.eqb_spec (S (p mod 255)) 255); lia).
  rewrite Hw in *. exists s'. eexists. split; [exact E|]. split; [exact Hr|]. rewrite Hm.
  destruct (Nat.eqb_spec (S (p mod 255)) 255) as [E255|E255]; (split; [done|]); constructor; cbn [rg_base rg_index rg_cycle]; rewrite ?Hlen; try done.
  all: try (rewrite length_app; cbn [length]; lia). all: try (apply Forall_app; split; [done|constructor; [by rewrite F3|done]]).
  - apply ring_frame; [done|lia|]. right. lia.
  - by rewrite P1.
  - rewrite P2. by destruct H01 as [->| ->].
  - change (rg_base g + 255 * 16) with (link_slot (rg_base g)). rewrite load_store_same by (by apply link_trb_ok). do 2 f_equal.
    pose proof (Nat.div_mod_eq p 255). unfold link_cycle. rewrite (proj2 (Nat.ltb_ge _ _)) by lia.
    unfold lap_cycle. replace ((S p - 255) / 255)%nat with (p / 255)%nat; [done|]. apply (Nat.div_unique _ _ _ 0); lia.
  - rewrite P1. lia.
  - rewrite Hl1. do 2 f_equal. unfold link_cycle. destruct (Nat.ltb_spec p 255), (Nat.ltb_spec (S p) 255); try done; [exfalso; rewrite Nat.mod_small in E255; lia|lia|].
    replace (S p - 255)%nat with (S (p - 255)) by lia. destruct (position_next 255 (p - 255) ltac:(lia)) as [_ Q2].
    replace ((p - 255) mod 255)%nat with (p mod 255)%nat in Q2; [by rewrite Q2, (proj2 (Nat.eqb_neq _ _) E255)|].
    replace p with (p - 255 + 1 * 255)%nat at 1 by lia. by rewrite Nat.Div0.mod_add.
Qed.

Lemma x_zero_ok a n (s : X) : exists s', x_zero a n s = (Ok tt, s') /\ xmem s' = mem_store a (replicate (Z.to_nat n) x00) (xmem s) /\ snd s' = snd s.
Proof. destruct (st_memset8 a n (fst s)) as (h & E & Hm). exists (h, snd s). unfold x_zero, on_target. by rewrite E. Qed.

(** [endpoint_ring] makes a fresh ring where there is none. *)
Lemma endpoint_ring_fresh dci (s : X) : let base := x_free (x_caps (fst (snd s))) + 0x4000 + 0x1000 * (dci - 2) in
  aligned base -> v_rings (snd (snd s)) !! dci = None ->
  exists s', endpoint_ring dci s = (Ok (Ring base 0 1), s') /\ ring_of (Bulk dci) s' = Some (Ring base 0 1) /\ fresh_ring base (xmem s').
Proof.
  intros base Hb Hn. unfold endpoint_ring, py_bind at 1, dev, py_get. rewrite Hn. unfold py_bind at 1, xc, py_get. fold base.
  destruct (x_zero_ok base 0x1000 s) as (s1 & E1 & M1 & D1). erewrite py_bind_ok by exact E1.
  rewrite (pack_trb_ok _ (link_trb_ok base 1 Hb ltac:(auto))). erewrite py_bind_ok by reflexivity.
  destruct (x_write_ok (base + (CMD_RING_TRBS - 1) * TRB_SIZE) (trb_bytes (Trb base 0 (link_control 1))) s1) as (s2 & E2 & M2 & D2). erewrite py_bind_ok by exact E2.
  eexists. split; [reflexivity|]. split; [cbn; by rewrite lookup_insert_eq|].
  change (fresh_ring base (xmem s2)). rewrite M2, M1. change (base + (CMD_RING_TRBS - 1) * TRB_SIZE) with (link_slot base). split; [done|]. split.
  - intros k Hk. rewrite load_store_apart by (unfold link_slot; lia). by rewrite (load_zeroed _ _ (Z.to_nat 0x1000)) by lia.
  - apply load_store_same. apply link_trb_ok; auto.
Qed.

(** ** Commands and transfers reach the controller in order *)

Inductive ring_step := Post (t : trb) | Fetch.
Inductive ring_out := Posted (a : Z) | Fetched (o : option (Z * trb)).

(** The driver queues, the controller fetches, in any order; a fetched TRB is
    shown without its cycle bit. *)
Fixpoint ring_run (r : rref) (steps : list ring_step) (s : X) (h : Z * Z) : result (list ring_out) :=
  match steps with
  | [] => Ok []
  | Post t :: rest =>
      match put_trb r t s with
      | (Ok a, s') => let? o := ring_run r rest s' h in Ok (Posted a :: o)
      | (Raise e, _) => Raise e
      end
  | Fetch :: rest =>
      match hw_fetch 1 (xmem s) h with
      | Some (a, t, h') => let? o := ring_run r rest s h' in Ok (Fetched (Some (a, with_cycle t 0)) :: o)
      | None => let? o := ring_run r rest s h in Ok (Fetched None :: o)
      end
  end.

(** The abstract ring: a queue of at most 254 TRBs with the address of each. *)
Fixpoint queue_run (base : Z) (n : nat) (steps : list ring_step) (q : list (Z * trb)) : option (list ring_out) :=
  match steps with
  | [] => Some []
  | Post t :: rest =>
      if Nat.ltb (length q) 254 then cons (Posted (slot base 255 n)) <$> queue_run base (S n) rest (q ++ [(slot base 255 n, with_cycle t 0)])
      else None
  | Fetch :: rest =>
      match q with
      | [] => cons (Fetched None) <$> queue_run base n rest []
      | t :: q' => cons (Fetched (Some t)) <$> queue_run base n rest q'
      end
  end.

(** What a queue of stored TRBs looks like from outside. *)
Definition shown (base : Z) (c : nat) (q : list trb) : list (Z * trb) := imap (fun k t => (slot base 255 (c + k), with_cycle t 0)) q.

Lemma shown_app base c q t : shown base c (q ++ [t]) = shown base c q ++ [(slot base 255 (c + length q), with_cycle t 0)].
Proof. unfold shown. rewrite imap_app. cbn. by rewrite Nat.add_0_r. Qed.
Lemma shown_cons base c t q : shown base c (t :: q) = (slot base 255 c, with_cycle t 0) :: shown base (S c) q.
Proof. unfold shown. cbn. rewrite Nat.add_0_r. f_equal. apply imap_ext. intros i x _. cbn. do 2 f_equal. lia. Qed.

Definition postable (st : ring_step) : Prop := match st with Post t => trb_ok t /\ tb_type t <> 6 | Fetch => True end.

Lemma ring_run_queue r steps : forall s g c h q outs, ring_of r s = Some g -> prod_at g (xmem s) c h q -> Forall postable steps ->
  queue_run (rg_base g) (c + length q) steps (shown (rg_base g) c q) = Some outs -> ring_run r steps s h = Ok outs.
Proof.
  induction steps as [|[t|] steps IH]; intros s g c h q outs Hg Hp Hok Hrun; cbn [queue_run ring_run] in *; [by injection Hrun as <-|..].
  all: inversion Hok as [|? ? Hpo Hok']; subst.
  - destruct (Nat.ltb_spec (length (shown (rg_base g) c q)) 254) as [Hl|]; [|done]. unfold shown in Hl. rewrite length_imap in Hl.
    destruct Hpo as [Ht Hty]. destruct (put_trb_appends r t s g c h q Hg Hp Hl Ht Hty) as (s' & g' & E & Hg' & Hb & Hp'). rewrite E.
    apply fmap_Some in Hrun as (o & Hrun & ->). rewrite <- Hb in *.
    rewrite (IH s' g' c h _ o Hg' Hp' Hok'); [done|]. rewrite <- Hrun, length_app, shown_app, with_cycle_twice by (auto using lap_cycle_01). cbn [length].
    by replace (c + (length q + 1))%nat with (S (c + length q)) by lia.
  - pose proof (fetch_head g (xmem s) c h q Hp) as Hf. destruct q as [|t q].
    + rewrite Hf. cbn in Hrun. apply fmap_Some in Hrun as (o & Hrun & ->). by rewrite (IH s g c h [] o).
    + destruct Hf as (h' & Hf & Hp'). rewrite Hf. rewrite shown_cons in Hrun. apply fmap_Some in Hrun as (o & Hrun & ->).
      rewrite (IH s g (S c) h' q o Hg Hp' Hok'); [done|]. rewrite <- Hrun. cbn [length]. f_equal. lia.
Qed.

(** C12: every ring the driver produces into (commands, control transfers and bulk
    transfers) is a queue for the controller: from a fresh ring, under any
    interleaving of posts and fetches with at most 254 TRBs outstanding and over any
    number of laps, posting never fails, and the controller fetches exactly the
    posted TRBs, in order, each once and at the address the post returned; it finds
    nothing when nothing is outstanding. *)
Theorem driver_ring_is_queue (r : rref) (s : X) (base : Z) (steps : list ring_step) (outs : list ring_out) :
  ring_of r s = Some (Ring base 0 1) -> fresh_ring base (xmem s) -> Forall postable steps ->
  queue_run base 0 steps [] = Some outs -> ring_run r steps s (base, 1) = Ok outs.
Proof. intros Hg Hf Hok Hrun. exact (ring_run_queue r steps s _ 0 _ [] outs Hg (fresh_prod _ _ Hf) Hok Hrun). Qed.
End Producer.

(** ** Events reach the driver in order *)
Section Events.
  Context {T : Type} `{!TargetOps T} `{!TargetStore T}.
  Abbreviation X := (T * (xhci * device))%type.

Definition event_base (s : X) : Z := event_ring (x_caps (fst (snd s))).

(** [c] events were consumed; [q] are in the ring. *)
Record events_at (s : X) (c : nat) (q : list trb) : Prop := {
  ea_ring : ring_at (event_base s) 256 (xmem s) c q;
  ea_index : x_event_index (fst (snd s)) = Z.of_nat (c mod 256);
  ea_cycle : x_event_cycle (fst (snd s)) = lap_cycle 256 c
}.

Lemma x_read_ok a n (s : X) : exists s', x_read a n s = (Ok (mem_read (xmem s) a (Z.to_nat n)), s') /\ xmem s' = xmem s /\ snd s' = snd s.
Proof. destruct (st_readmem a n false (fst s)) as (h & E & Hm). exists (h, snd s). unfold x_read, on_target. by rewrite E. Qed.

Lemma events_at_same (s s' : X) c q : xmem s' = xmem s -> snd s' = snd s -> events_at s c q -> events_at s' c q.
Proof. intros Hm Hd [H1 H2 H3]. split; [unfold event_base|..]; rewrite ?Hm, ?Hd; done. Qed.

(** What one pass of the loop reads. *)
Lemma event_read (s : X) c q : events_at s c q ->
  exists s', x_read (event_ring (x_caps (fst (snd s))) + x_event_index (fst (snd s)) * TRB_SIZE) TRB_SIZE s
             = (Ok (mem_read (xmem s) (slot (event_base s) 256 c) 16), s') /\ events_at s' c q /\ xmem s' = xmem s /\ snd s' = snd s.
Proof.
  intros H. destruct (x_read_ok (event_ring (x_caps (fst (snd s))) + x_event_index (fst (snd s)) * TRB_SIZE) TRB_SIZE s) as (s' & E & Hm & Hd).
  exists s'. split; [|split; [by apply (events_at_same s)|done]]. rewrite E. do 2 f_equal. unfold slot, event_base. rewrite (ea_index _ _ _ H). unfold TRB_SIZE. f_equal. lia.
Qed.

Lemma poll_loop_exact limit : forall (s : X) c q acc, events_at s c q ->
  exists s', poll_loop limit acc s = (Ok (acc ++ take limit q), s') /\ events_at s' (c + length (take limit q)) (drop limit q) /\
    xmem s' = xmem s /\ x_caps (fst (snd s')) = x_caps (fst (snd s)).
Proof.
  induction limit as [|k IH]; intros s c q acc H; cbn [poll_loop].
  { exists s. rewrite take_0, drop_0, app_nil_r. cbn [length]. by rewrite Nat.add_0_r. }
  unfold py_bind at 1, self, py_get. destruct (event_read s c q H) as (s1 & E1 & H1 & M1 & D1). erewrite py_bind_ok by exact E1.
  rewrite unpack_trb_load. erewrite py_bind_ok by reflexivity.
  pose proof (ring_head _ 256 _ _ _ ltac:(lia) (ea_ring _ _ _ H)) as Hh. unfold cycle_bit in Hh. rewrite (ea_cycle _ _ _ H).
  destruct q as [|t q].
  { rewrite (proj2 (Z.eqb_neq _ _) Hh). cbn [negb take drop]. exists s1. rewrite app_nil_r. cbn [length]. rewrite Nat.add_0_r. by rewrite D1. }
  destruct Hh as [-> Hc]. rewrite Hc, Z.eqb_refl. cbn [negb].
  destruct (position_next 256 c ltac:(lia)) as [P1 P2]. rewrite (ea_index _ _ _ H). pose proof (Nat.mod_upper_bound c 256 ltac:(lia)).
  set (next := if Z.of_nat (c mod 256) + 1 =? EVENT_RING_TRBS then _ else _).
  assert (Hn : exists s2, next s1 = (Ok tt, s2) /\ events_at s2 (S c) q /\ xmem s2 = xmem s1 /\ x_caps (fst (snd s2)) = x_caps (fst (snd s1))).
  { pose proof (ring_consume _ 256 _ _ _ _ ltac:(lia) (ea_ring _ _ _ H1)) as Hr. unfold next, EVENT_RING_TRBS.
    destruct (Z.eqb_spec (Z.of_nat (c mod 256) + 1) 256) as [E|E]; (eexists; split; [reflexivity|]); (split; [|done]);
      (split; [exact Hr|cbn [fst snd x_event_index x_set_event]; rewrite P1|cbn [fst snd x_event_cycle x_set_event]; rewrite P2]).
    - by rewrite (proj2 (Nat.eqb_eq _ _)) by lia.
    - rewrite (proj2 (Nat.eqb_eq _ _)) by lia. by destruct (lap_cycle_01 256 c) as [->| ->].
    - rewrite (proj2 (Nat.eqb_neq _ _)) by lia. lia.
    - by rewrite (proj2 (Nat.eqb_neq _ _)) by lia. }
  destruct Hn as (s2 & E2 & H2 & M2 & C2). erewrite py_bind_ok by exact E2.
  destruct (IH s2 (S c) q (acc ++ [t]) H2) as (s3 & E3 & H3 & M3 & C3). exists s3. rewrite E3. cbn [take drop length]. rewrite <- app_assoc.
  split; [done|]. replace (c + S (length (take k q)))%nat with (S c + length (take k q))%nat by lia. split; [done|]. rewrite M3, C3, M2, C2, M1, D1. done.
Qed.

Lemma x_w64_ok a v (s : X) : exists s', x_w64 a v s = (Ok tt, s') /\ xmem s' = xmem s /\ snd s' = snd s.
Proof. destruct (st_write64 a v (fst s)) as (h & E & Hm). exists (h, snd s). unfold x_w64, on_target. by rewrite E. Qed.

Lemma poll_events_exact limit (s : X) c q : events_at s c q ->
  exists s', poll_events limit s = (Ok (take limit q), s') /\ events_at s' (c + length (take limit q)) (drop limit q) /\
    xmem s' = xmem s /\ x_caps (fst (snd s')) = x_caps (fst (snd s)).
Proof.
  intros H. destruct (poll_loop_exact limit s c q [] H) as (s1 & E1 & H1 & M1 & C1). unfold poll_events. erewrite py_bind_ok by exact E1. cbn [app].
  case_bool_decide; [exists s1; by erewrite py_bind_ok by reflexivity|].
  destruct (x_w64_ok (c_ir0 (x_caps (fst (snd s1))) + ERDP) (Z.lor (event_ring (x_caps (fst (snd s1))) + x_event_index (fst (snd s1)) * TRB_SIZE) (Z.shiftl 1 3)) s1)
    as (s2 & E2 & M2 & D2).
  exists s2. split; [by erewrite py_bind_ok by exact E2|]. split; [by apply (events_at_same s1)|]. by rewrite M2, D2.
Qed.

Inductive event_step := Event (e : trb) | Poll (limit : nat).

(** The controller writes an event at its position [p], with the cycle bit of its lap. *)
Definition hw_event (p : nat) (e : trb) (s : X) : X :=
  (st_poke (mem_store (slot (event_base s) 256 p) (trb_bytes (with_cycle e (lap_cycle 256 p))) (xmem s)) (fst s), snd s).

Fixpoint event_run (steps : list event_step) (s : X) (p : nat) : result (list (list trb)) :=
  match steps with
  | [] => Ok []
  | Event e :: rest => event_run rest (hw_event p e s) (S p)
  | Poll limit :: rest =>
      match poll_events limit s with
      | (Ok l, s') => let? o := event_run rest s' p in Ok (map (fun e => with_cycle e 0) l :: o)
      | (Raise e, _) => Raise e
      end
  end.

(** The abstract event ring: a queue of at most 256 events, taken in batches. *)
Fixpoint batches (steps : list event_step) (q : list trb) : option (list (list trb)) :=
  match steps with
  | [] => Some []
  | Event e :: rest => if Nat.ltb (length q) 256 then batches rest (q ++ [with_cycle e 0]) else None
  | Poll limit :: rest => cons (take limit q) <$> batches rest (drop limit q)
  end.

Definition event_ok (st : event_step) : Prop := match st with Event e => trb_ok e | Poll _ => True end.

Lemma hw_event_at p e (s : X) c q : events_at s c q -> p = (c + length q)%nat -> (length q < 256)%nat -> trb_ok e ->
  events_at (hw_event p e s) c (q ++ [with_cycle e (lap_cycle 256 p)]).
Proof.
  intros [H1 H2 H3] -> Hl He. destruct (with_cycle_facts e (lap_cycle 256 (c + length q)) He (lap_cycle_01 _ _)) as (F1 & F2 & _).
  split; [|done..]. unfold hw_event, event_base, xmem. cbn [fst snd]. rewrite st_poke_mem. apply ring_produce; done || lia.
Qed.

Lemma event_run_batches steps : forall (s : X) c q outs, events_at s c q -> Forall event_ok steps ->
  batches steps (map (fun e => with_cycle e 0) q) = Some outs -> event_run steps s (c + length q) = Ok outs.
Proof.
  induction steps as [|[e|limit] steps IH]; intros s c q outs H Hok Hb; cbn [batches event_run] in *; [by injection Hb as <-|..].
  all: inversion Hok as [|? ? He Hok']; subst.
  - rewrite length_map in Hb. destruct (Nat.ltb_spec (length q) 256) as [Hl|]; [|done].
    pose proof (hw_event_at _ e s c q H eq_refl Hl He) as H'. replace (S (c + length q)) with (c + length (q ++ [with_cycle e (lap_cycle 256 (c + length q))]))%nat
      by (rewrite length_app; cbn [length]; lia).
    apply (IH _ _ _ _ H' Hok'). rewrite map_app. cbn [map]. by rewrite with_cycle_twice by (auto using lap_cycle_01).
  - destruct (poll_events_exact limit s c q H) as (s' & E & H' & _). rewrite E. apply fmap_Some in Hb as (o & Hb & ->).
    replace (c + length q)%nat with (c + length (take limit q) + length (drop limit q))%nat by (rewrite length_take, length_drop; lia).
    rewrite (IH s' _ _ o H' Hok'); [by rewrite firstn_map|]. by rewrite <- skipn_map.
Qed.

(** C13: events are delivered exactly once and in order: with a controller that
    writes events with the cycle bit of its lap and never overruns the ring, any
    interleaving of events and polls with any limits, over any number of laps, makes
    each poll return exactly the next events of the queue, up to its limit, and
    nothing when there are none; a poll never fails. *)
Theorem events_delivered_once (s : X) (steps : list event_step) (outs : list (list trb)) :
  x_event_index (fst (snd s)) = 0 -> x_event_cycle (fst (snd s)) = 1 ->
  (forall k, (k < 256)%nat -> cycle_bit (load_trb (xmem s) (event_base s + 16 * Z.of_nat k)) = 0) ->
  Forall event_ok steps -> batches steps [] = Some outs -> event_run steps s 0 = Ok outs.
Proof.
  intros Hi Hc Hz Hok Hb. apply (event_run_batches steps s 0 []); [|done..]. split; [|done..]. split; [cbn; lia|done|].
  intros k [_ Hk]. rewrite Nat.add_0_l. unfold slot. rewrite Nat.mod_small, Hz by done. unfold lap_cycle. by rewrite Nat.div_small.
Qed.
End Events.

(** ** A memory with a clock *)

(** Every look at the clock takes 100 ms; registers read as zero. *)
Record cram := Cram { cr_mem : Z -> byte; cr_clock : Z }.

#[global] Instance CramTarget : TargetOps cram := {|
  t_read32 _ := py_ret 0;
  t_read64 _ := py_ret 0;
  t_write32 _ _ := py_ret tt;
  t_readmem a n _ := py_get (fun s => mem_read (cr_mem s) a (Z.to_nat n));
  t_writemem a d := py_modify (fun s => Cram (mem_store a d (cr_mem s)) (cr_clock s));
  t_request op args :=
    match args with
    | [a; _; n] => if op =? P_MEMSET8 then py_modify (fun s => Cram (mem_store a (replicate (Z.to_nat n) x00) (cr_mem s)) (cr_clock s)) else py_ret tt
    | _ => py_ret tt
    end;
  t_query _ _ := py_ret 0;
  t_call _ _ := py_ret 0;
  t_memcpy8 _ _ _ := py_ret tt;
  t_now s := (Ok (cr_clock s), Cram (cr_mem s) (cr_clock s + 100))
|}.

#[global, refine] Instance CramStore : TargetStore cram := {| st_mem := cr_mem; st_poke := fun m s => Cram m (cr_clock s) |}.
Proof. all: intros; try (eexists; split; reflexivity); try (eexists _, _; split; reflexivity). Defined.

Definition demo_caps : caps :=
  {| c_base := 0; c_dma := 0x100000; c_dma_size := 0x100000; c_op := 0x40; c_ir0 := 0x800; c_db := 0x1000;
     c_max_slots := 8; c_max_ports := 2; c_context_size := 32; c_scratchpads := 0; c_hccparams1 := 0 |}.
Definition demo_xhci : xhci := Xhci demo_caps 4096 0 1 0 1.
(** A device with nothing queued. *)
Definition demo_device : device := Device 1 0x110000 0x111000 0x112000 64 0 1 ∅ ∅.
Definition demo_state : cram * (xhci * device) := (Cram (fun _ => x00) 0, (demo_xhci, demo_device)).

Definition demo_link : cram * (xhci * device) :=
  (Cram (mem_store (link_slot 0x101000) (trb_bytes (Trb 0x101000 0 (link_control 1))) (fun _ => x00)) 0, (demo_xhci, demo_device)).
Definition demo_cmd (n : Z) : trb := Trb n 0 (Z.shiftl 23 10).

Lemma demo_link_fresh : fresh_ring 0x101000 (xmem demo_link).
Proof.
  split; [done|]. split; [intros k Hk|apply load_store_same; done]. unfold demo_link, xmem. cbn [fst st_mem CramStore cr_mem].
  rewrite load_store_apart by (unfold link_slot; lia). reflexivity.
Qed.

(** A lap and a half of commands, fetched in pairs. *)
Definition demo_steps : list ring_step :=
  flat_map (fun n => [Post (demo_cmd (2 * Z.of_nat n)); Post (demo_cmd (2 * Z.of_nat n + 1)); Fetch; Fetch; Fetch]) (seq 0 190).

Lemma driver_ring_is_queue_witness : exists outs, queue_run 0x101000 0 demo_steps [] = Some outs /\
  ring_run Cmd demo_steps demo_link (0x101000, 1) = Ok outs /\ length outs = 950%nat.
Proof.
  destruct (queue_run 0x101000 0 demo_steps []) as [outs|] eqn:E; [|exfalso; revert E; vm_compute; discriminate].
  exists outs. split; [done|]. split; [|revert E; vm_compute; by intros [= <-]].
  apply (driver_ring_is_queue Cmd demo_link 0x101000 demo_steps outs); [reflexivity|exact demo_link_fresh| |exact E].
  unfold demo_steps. apply Forall_forall. intros st Hst. apply list_elem_of_In, in_flat_map in Hst as (n & Hn & Hst). apply in_seq in Hn.
  destruct Hst as [<-|[<-|[<-|[<-|[<-|[]]]]]]; try done; (split; [|done]); (split; [cbn [tb_parameter demo_cmd]; lia|done]).
Defined.

Lemma events_delivered_once_witness :
  event_run [Poll 16; Event (Trb 7 0 0); Event (Trb 8 0 0); Event (Trb 9 0 0); Poll 2; Poll 16] demo_state 0
  = Ok [[]; [Trb 7 0 0; Trb 8 0 0]; [Trb 9 0 0]].
Proof.
  apply (events_delivered_once demo_state); [reflexivity|reflexivity|intros; reflexivity| |reflexivity].
  repeat constructor; cbn; lia.
Defined.

(** ** Events that are consumed while waiting for another one *)

Definition transfer_event (address : Z) : trb := Trb address (Z.shiftl 1 24) (Z.shiftl 32 10).

(** A receive is waiting for its TRB at 0x115000; the controller completes it and
    then the TRB of a send at 0x114000, which the driver is waiting for. *)
Definition receive_wait : M (cram * (xhci * device)) (option bytes) := receive 20 3 0x130000 64 500.
Definition complete_both : M (cram * (xhci * device)) unit :=
  py_modify (fun s => hw_event 1 (transfer_event 0x114000) (hw_event 0 (transfer_event 0x115000) s)).
Definition lost_event_run : M (cram * (xhci * device)) (option bytes * Z * option bytes * option bytes) :=
  let! first := receive_wait in
  complete_both ;;;
  let! sent := send 20 2 0x140000 [x01] 500 in
  let! second := receive_wait in
  let! third := receive_wait in
  py_ret (first, sent, second, third).

(** The event of the receive is consumed by the send's wait and dropped: the
    receive keeps waiting for a TRB that is complete, and queues no other. *)
Lemma lost_event_stalls_receive :
  fst (lost_event_run demo_state) = Ok (None, 1, None, None) /\
  v_pending (snd (snd (snd (lost_event_run demo_state)))) !! 3 = Some 0x115000.
Proof. vm_compute. done. Qed.

(** A control transfer takes the completion of any other transfer for its own. *)
Lemma control_takes_foreign_event :
  fst ((py_modify (hw_event 0 (transfer_event 0x115000)) ;;; set_configuration 20 1) demo_state) = Ok tt.
Proof. vm_compute. done. Qed.
