(* ===== verification/XhciSafe.v ===== *)
(** * The xHCI driver is confined

    Whatever the controller, the device and the memory answer, a session of the
    driver ([attach], then any sequence of operations on the device) writes only
    the controller's operational, interrupter, port and doorbell registers and its
    own DMA window, and every write to a port register sets exactly the
    write-to-clear and disable bits it means to.

    The argument is a small program logic on an arbitrary target ([kept]): a state
    predicate before, one after that may depend on the result, one ([E]) after an
    [XHCIError], which the driver catches; after any other exception the session is
    over and nothing is claimed about the state. *)

From Stdlib Require Import ZArith Lia.
From Stdlib Require Import Strings.Byte.
From stdpp Require Import base list numbers strings gmap.
From S2P Require Import Prelude Bytes Transport Q1n1Link Target Preload Xhci.

Local Open Scope list_scope.
Local Open Scope Z_scope.
Local Open Scope py_scope.

Abbreviation X := (env * (xhci * device))%type.

(** ** What a session may do *)

(** Bits of PORTSC that clear a change or disable the port when written as one. *)
Definition P_SENSITIVE : Z := lors [P_PED; P_CSC; P_PEC; P_WRC; P_OCC; P_PRC; P_PLC; P_CEC].
Definition portsc_ok (v : Z) : Prop := Z.land v P_SENSITIVE ∈ [0; P_CSC; CHANGES; P_PED].

Section Allowed.
  Context (c : caps).

Definition inside (a n : Z) : Prop := c_dma c <= a /\ a + n <= c_dma c + c_dma_size c.

Definition register32 (a v : Z) : Prop :=
  a ∈ [c_op c + USBCMD; c_op c + CONFIG; c_ir0 c + ERSTSZ; c_ir0 c + IMOD] \/
  (exists slot, 0 <= slot < 256 /\ a = c_db c + 4 * slot) \/
  (exists port, 1 <= port <= c_max_ports c /\ a = c_op c + 0x400 + 0x10 * (port - 1) /\ portsc_ok v).
Definition register64 (a : Z) : Prop :=
  a ∈ [c_op c + DCBAAP; c_op c + CRCR; c_ir0 c + ERDP; c_ir0 c + ERSTBA].

(** The scratchpad pages the controller asks for are zeroed wherever they end. *)
Definition zeroed (a n : Z) : Prop :=
  inside a n \/ exists pages, 0 <= pages < 65536 /\ a = scratch_buffers c /\ n = c_scratchpads c * (pages * 4096).

Definition allowed (x : action) : Prop :=
  match x with
  | ARead32 _ | ARead64 _ | AReadMem _ _ _ | ANow => True
  | AWrite32 a v => register32 a v
  | AWriteMem a d => inside a (zlen d)
  | ARequest op args =>
      (op = P_WRITE64 /\ exists a v, args = [a; v] /\ (register64 a \/ inside a 8)) \/
      (op = P_MEMSET8 /\ exists a n, args = [a; 0; n] /\ zeroed a n)
  | ACall _ _ | ACopy _ _ _ => False
  end.
End Allowed.

(** The link never raises the driver's exception, and a memory read has the size
    that was asked for. *)
Definition lawful (e : env) : Prop :=
  (forall log x, ev_word e log = Raise x -> is_xhci_error x = false) /\
  (forall log x, ev_data e log = Raise x -> is_xhci_error x = false) /\
  (forall a n live log d, ev_data e (AReadMem a n live :: log) = Ok d -> zlen d = n).

(** ** The logic *)
Section Logic.
  Context (c : caps) (E : X -> Prop).

Definition kept {A} (I : X -> Prop) (m : M X A) (Q : A -> X -> Prop) : Prop := forall s r s', I s -> m s = (r, s') ->
  (exists new, ev_log (fst s') = new ++ ev_log (fst s) /\ Forall (allowed c) new) /\
  match r with Ok a => Q a s' | Raise x => is_xhci_error x = true -> E s' end.

Lemma kept_conseq {A} (I I' : X -> Prop) (m : M X A) (Q Q' : A -> X -> Prop) :
  kept I' m Q' -> (forall s, I s -> I' s) -> (forall a s, Q' a s -> Q a s) -> kept I m Q.
Proof. intros Hm HI HQ s r s' Hs Er. destruct (Hm s r s' (HI _ Hs) Er) as [L R]. split; [done|]. destruct r; auto. Qed.

Lemma kept_ret {A} (I : X -> Prop) (a : A) : kept I (py_ret a) (fun b s => b = a /\ I s).
Proof. intros s r s' HI [= <- <-]. split; [by exists []|done]. Qed.

Lemma kept_raise {A} (I : X -> Prop) x Q : (is_xhci_error x = true -> forall s, I s -> E s) -> kept I (py_raise (A := A) x) Q.
Proof. intros Hx s r s' HI [= <- <-]. split; [by exists []|]. intros H. by apply Hx. Qed.

Lemma kept_bind {A B} (I : X -> Prop) (m : M X A) (k : A -> M X B) Q R : kept I m Q -> (forall a, kept (Q a) (k a) R) -> kept I (py_bind m k) R.
Proof.
  intros Hm Hk s r s' HI Er. unfold py_bind in Er. destruct (m s) as [[a|x] s1] eqn:E1; destruct (Hm _ _ _ HI E1) as [(n1 & L1 & F1) HQ].
  - destruct (Hk a _ _ _ HQ Er) as [(n2 & L2 & F2) HR]. split; [|done]. exists (n2 ++ n1). rewrite L2, L1, app_assoc. split; [done|by apply Forall_app].
  - injection Er as <- <-. split; [|done]. by exists n1.
Qed.

Lemma kept_get {A B} (I : X -> Prop) (f : X -> A) (k : A -> M X B) R : (forall a, kept (fun s => I s /\ f s = a) (k a) R) -> kept I (py_bind (py_get f) k) R.
Proof. intros Hk s r s' HI Er. exact (Hk (f s) s r s' (conj HI eq_refl) Er). Qed.

Lemma kept_modify (I J : X -> Prop) f : (forall s, I s -> J (f s) /\ fst (f s) = fst s) -> kept I (py_modify f) (fun _ => J).
Proof. intros Hf s r s' HI [= <- <-]. destruct (Hf s HI) as [? ->]. split; [by exists []|done]. Qed.

Lemma kept_lift {A} (I : X -> Prop) (x : result A) : (forall s, I s -> E s) -> kept I (py_lift x) (fun a s => x = Ok a /\ I s).
Proof. intros HE s r s' HI [= <- <-]. split; [by exists []|]. destruct x; auto. Qed.

Lemma kept_catch {A} (I : X -> Prop) (m h : M X A) Q : kept I m Q -> kept E h Q -> kept I (py_catch m is_xhci_error h) Q.
Proof.
  intros Hm Hh s r s' HI Er. unfold py_catch in Er. destruct (m s) as [[a|x] s1] eqn:E1; destruct (Hm _ _ _ HI E1) as [(n1 & L1 & F1) HQ].
  - injection Er as <- <-. split; [|done]. by exists n1.
  - destruct (is_xhci_error x) eqn:Ex; [|injection Er as <- <-; split; [by exists n1|]; congruence].
    destruct (Hh _ _ _ (HQ eq_refl) Er) as [(n2 & L2 & F2) HR]. split; [|done]. exists (n2 ++ n1). rewrite L2, L1, app_assoc. split; [done|by apply Forall_app].
Qed.

(** A statement that does not depend on the state. *)
Lemma kept_fact {A} (I : X -> Prop) (P : Prop) (m : M X A) Q : (P -> kept I m Q) -> kept (fun s => I s /\ P) m Q.
Proof. intros H s r s' [HI HP] Er. exact (H HP s r s' HI Er). Qed.
Lemma kept_fact' {A} (I : X -> Prop) (P : Prop) (m : M X A) Q : (P -> kept I m Q) -> kept (fun s => P /\ I s) m Q.
Proof. intros H s r s' [HP HI] Er. exact (H HP s r s' HI Er). Qed.

(** One operation on the target. *)
Lemma kept_target {A} (I : X -> Prop) (m : M env A) (Qa : A -> Prop) x :
  allowed c x -> (forall s, I s -> lawful (fst s)) -> (forall s e, I s -> lawful e -> I (e, snd s)) ->
  (forall e r e', lawful e -> m e = (r, e') -> e' = ev_push x e /\ match r with Ok a => Qa a | Raise y => is_xhci_error y = false end) ->
  kept I (on_target m) (fun a s => I s /\ Qa a).
Proof.
  intros Hx Hl Hset Hm s r s' HI Er. unfold on_target in Er. destruct (m (fst s)) as [r1 e1] eqn:E1. injection Er as <- <-.
  destruct (Hm _ _ _ (Hl _ HI) E1) as [-> HQ]. split; [exists [x]; split; [done|by repeat constructor]|].
  destruct r1 as [a|y]; [|congruence]. split; [|done]. apply Hset; [done|]. exact (Hl _ HI).
Qed.
End Logic.

(** ** The state of a session *)

Definition caps_ok (c : caps) : Prop :=
  c_dma_size c = 0x100000 /\ (c_context_size c = 32 \/ c_context_size c = 64) /\ 0 <= c_scratchpads c < 1024.

(** A device as [address_device] makes it, with rings where [endpoint_ring] puts them. *)
Definition ring_base (c : caps) (dci : Z) : Z := x_free c + 0x4000 + 0x1000 * (dci - 2).
Definition dev_ok (c : caps) (v : device) : Prop :=
  0 <= v_slot v < 256 /\ v_device_context v = x_free c + 0x0000 /\ v_input_context v = x_free c + 0x1000 /\
  v_ep0_ring v = x_free c + 0x2000 /\ 0 <= v_index v < 255 /\
  map_Forall (fun dci g => 2 <= dci <= 31 /\ rg_base g = ring_base c dci /\ 0 <= rg_index g < 255) (v_rings v).

Record st_ok (c : caps) (D : device -> Prop) (s : X) : Prop := {
  so_caps : x_caps (fst (snd s)) = c;
  so_index : 0 <= x_cmd_index (fst (snd s)) < 255;
  so_page : exists k, 0 <= k < 65536 /\ x_page_size (fst (snd s)) = k * 4096;
  so_dev : D (snd (snd s));
  so_law : lawful (fst s)
}.

Section Rules.
  Context (c : caps) (Hc : caps_ok c) (D : device -> Prop).

(** From a session state to a session state, with a fact about the result. *)
Definition sfq {A} (Qa : A -> Prop) (m : M X A) : Prop := kept c (st_ok c D) (st_ok c D) m (fun a s => st_ok c D s /\ Qa a).
Definition any {A} : A -> Prop := fun _ => True.

Lemma q_ret {A} (Qa : A -> Prop) a : Qa a -> sfq Qa (py_ret a).
Proof. intros Ha. eapply kept_conseq; [apply kept_ret|done|]. by intros b s [-> H]. Qed.
Lemma q_raise {A} (Qa : A -> Prop) x : sfq Qa (py_raise x).
Proof. apply kept_raise. auto. Qed.
Lemma q_bind {A B} (Qa : A -> Prop) (Qb : B -> Prop) (m : M X A) k : sfq Qa m -> (forall a, Qa a -> sfq Qb (k a)) -> sfq Qb (py_bind m k).
Proof. intros Hm Hk. eapply kept_bind; [exact Hm|]. intros a. apply kept_fact. apply Hk. Qed.
Lemma q_lift {A} (x : result A) : sfq (fun a => x = Ok a) (py_lift x).
Proof. eapply kept_conseq; [by apply kept_lift|done|]. by intros a s [H1 H2]. Qed.
Lemma q_weaken {A} (Qa Qb : A -> Prop) m : sfq Qa m -> (forall a, Qa a -> Qb a) -> sfq Qb m.
Proof. intros Hm H. eapply kept_conseq; [exact Hm|done|]. intros a s [? ?]; auto. Qed.
Lemma q_any {A} (Qa : A -> Prop) m : sfq Qa m -> sfq any m.
Proof. intros Hm. by eapply q_weaken. Qed.
Lemma q_catch {A} (Qa : A -> Prop) m h : sfq Qa m -> sfq Qa h -> sfq Qa (py_catch m is_xhci_error h).
Proof. intros Hm Hh. by apply kept_catch. Qed.

Lemma q_get {A B} (f : X -> A) (Qb : B -> Prop) k : (forall s, st_ok c D s -> sfq Qb (k (f s))) -> sfq Qb (py_bind (py_get f) k).
Proof. intros Hk s r s' HI Er. exact (Hk s HI s r s' HI Er). Qed.
Lemma q_xc {B} (Qb : B -> Prop) k : sfq Qb (k c) -> sfq Qb (py_bind xc k).
Proof. intros Hk. apply q_get. intros s Hs. by rewrite (so_caps _ _ _ Hs). Qed.
Lemma q_self {B} (Qb : B -> Prop) k :
  (forall x, x_caps x = c -> (exists p, 0 <= p < 65536 /\ x_page_size x = p * 4096) -> sfq Qb (k x)) -> sfq Qb (py_bind self k).
Proof. intros Hk. apply q_get. intros s Hs. apply Hk; apply Hs. Qed.
Lemma q_dev {B} (Qb : B -> Prop) k : (forall v, D v -> sfq Qb (k v)) -> sfq Qb (py_bind dev k).
Proof. intros Hk. apply q_get. intros s Hs. apply Hk, Hs. Qed.
Lemma q_set_page p : (exists k, 0 <= k < 65536 /\ p = k * 4096) -> sfq any (set_x (x_set_page p)).
Proof. intros Hp. eapply kept_conseq; [apply (kept_modify c _ (st_ok c D) (st_ok c D))|done|done]. intros s [? ? ? ? ?]. done. Qed.
Lemma q_set_event i y : sfq any (set_x (x_set_event i y)).
Proof. eapply kept_conseq; [apply (kept_modify c _ (st_ok c D) (st_ok c D))|done|done]. intros s [? ? ? ? ?]. done. Qed.
Lemma q_set_v f : (forall v, D v -> D (f v)) -> sfq any (set_v f).
Proof. intros Hf. eapply kept_conseq; [apply (kept_modify c _ (st_ok c D) (st_ok c D))|done|done]. intros s [? ? ? ? ?]. split; [constructor; cbn; auto|done]. Qed.

(** *** Single operations *)

Lemma q_target {A} (m : M env A) (Qa : A -> Prop) x : allowed c x ->
  (forall e r e', lawful e -> m e = (r, e') -> e' = ev_push x e /\ match r with Ok a => Qa a | Raise y => is_xhci_error y = false end) ->
  sfq Qa (on_target m).
Proof. intros Hx Hm. apply (kept_target c _ _ m Qa x); [done|by intros s []|by intros s e []|done]. Qed.

Lemma ask_run e x r e' : lawful e -> ask x e = (r, e') -> e' = ev_push x e /\ match r with Ok _ => True | Raise y => is_xhci_error y = false end.
Proof. intros (H & _) [= <- <-]. split; [done|]. destruct (ev_word _ _) eqn:Ew; [done|]. by eapply H. Qed.
Lemma tell_run e x r e' : lawful e -> tell x e = (r, e') -> e' = ev_push x e /\ match r with Ok _ => True | Raise y => is_xhci_error y = false end.
Proof.
  intros He. unfold tell, py_bind. destruct (ask x e) as [[v|y] e1] eqn:Ea; destruct (ask_run _ _ _ _ He Ea) as [-> Hy]; by intros [= <- <-].
Qed.

Lemma q_r32 a : sfq any (x_r32 a).
Proof. apply (q_target _ _ (ARead32 a)); [done|]. intros e r e' He. by apply ask_run. Qed.
Lemma q_r64 a : sfq any (x_r64 a).
Proof. apply (q_target _ _ (ARead64 a)); [done|]. intros e r e' He. by apply ask_run. Qed.
Lemma q_now : sfq any x_now.
Proof. apply (q_target _ _ ANow); [done|]. intros e r e' He. by apply ask_run. Qed.
Lemma q_read a n : sfq (fun d => zlen d = n) (x_read a n).
Proof.
  apply (q_target _ _ (AReadMem a n false)); [done|]. intros e r e' (_ & H1 & H2) [= <- <-]. split; [done|].
  destruct (ev_data _ _) eqn:Ed; [by eapply H2|by eapply H1].
Qed.
Lemma q_w32 a v : register32 c a v -> sfq any (x_w32 a v).
Proof. intros H. apply (q_target _ _ (AWrite32 a v)); [done|]. intros e r e' He. by apply tell_run. Qed.
Lemma q_w64 a v : register64 c a \/ inside c a 8 -> sfq any (x_w64 a v).
Proof. intros H. apply (q_target _ _ (ARequest P_WRITE64 [a; v])); [left; eauto|]. intros e r e' He. by apply tell_run. Qed.
Lemma q_zero a n : zeroed c a n -> sfq any (x_zero a n).
Proof. intros H. apply (q_target _ _ (ARequest P_MEMSET8 [a; 0; n])); [right; eauto|]. intros e r e' He. by apply tell_run. Qed.
Lemma q_write a d : inside c a (zlen d) -> sfq any (x_write a d).
Proof. intros H. apply (q_target _ _ (AWriteMem a d)); [done|]. intros e r e' He. by apply tell_run. Qed.

(** *** Queueing a TRB *)

Definition moved (r : rref) (i y : Z) (p : xhci * device) : xhci * device :=
  match r with
  | Cmd => (x_set_cmd i y (fst p), snd p)
  | Ep0 => (fst p, v_set_ep0 i y (snd p))
  | Bulk dci => (fst p, v_set_rings (alter (fun g => {| rg_base := rg_base g; rg_index := i; rg_cycle := y |}) dci (v_rings (snd p))) (snd p))
  end.
Lemma move_ring_moved r i y (s : X) : move_ring r i y s = (Ok tt, (fst s, moved r i y (snd s))).
Proof. by destruct r. Qed.
Lemma moved_moved r i y i' y' p : moved r i' y' (moved r i y p) = moved r i' y' p.
Proof.
  destruct r as [| |dci], p as [x v]; cbn; [done..|]. f_equal. unfold v_set_rings. cbn. f_equal. apply map_eq. intros k.
  destruct (decide (k = dci)) as [->|]; [rewrite !lookup_alter_eq; by destruct (v_rings v !! dci)|by rewrite !lookup_alter_ne].
Qed.

(** A session state whose ring [r] may be at any index. *)
Definition adrift (r : rref) (s : X) : Prop := lawful (fst s) /\ forall i y, 0 <= i < 255 -> st_ok c D (fst s, moved r i y (snd s)).

Definition ring_safe (r : rref) : Prop :=
  (forall s, st_ok c D s -> exists x, get_ring r s = (x, s) /\
     match x with Ok g => inside c (rg_base g) 0x1000 /\ 0 <= rg_index g < 255 | Raise y => is_xhci_error y = false end) /\
  (forall s i y, st_ok c D s -> 0 <= i < 255 -> st_ok c D (fst s, moved r i y (snd s))).

Lemma pack_trb_length t d : pack_trb t = Ok d -> zlen d = 16.
Proof.
  unfold pack_trb, pack_Q, pack_I. destruct (pack_u 8 _) as [a|] eqn:Ea; [|done]. destruct (pack_u 4 (tb_status t)) as [b|] eqn:Eb; [|done].
  destruct (pack_u 4 (tb_control t)) as [e|] eqn:Ee; [|done]. cbn [rbind]. intros <-%Ok_inj.
  apply pack_u_inv in Ea as [_ ->]. apply pack_u_inv in Eb as [_ ->]. apply pack_u_inv in Ee as [_ ->]. done.
Qed.
Lemma pack_trb_error t x : pack_trb t = Raise x -> is_xhci_error x = false.
Proof.
  unfold pack_trb, pack_Q, pack_I, pack_u. repeat (case_match; cbn [rbind]); by try intros [= <-].
Qed.

Lemma adrift_move r i y : ring_safe r -> kept c (st_ok c D) (st_ok c D) (move_ring r i y) (fun _ s => adrift r s /\ (0 <= i < 255 -> st_ok c D s)).
Proof.
  intros [_ Hm] s x s' Hs. rewrite move_ring_moved. intros [= <- <-]. split; [by exists []|]. split; [split; [apply Hs|]|by apply Hm].
  intros j z Hj. cbn [fst snd]. rewrite moved_moved. by apply Hm.
Qed.

(** The end of a lap: the Link TRB is written and the index goes back to 0. *)
Lemma q_close r base y : inside c base 0x1000 -> kept c (st_ok c D) (adrift r)
  (let! link := py_lift (pack_trb (Trb base 0 (link_control y))) in
   x_write (base + (CMD_RING_TRBS - 1) * TRB_SIZE) link ;;; move_ring r 0 (Z.lxor y 1)) (fun _ => st_ok c D).
Proof.
  intros Hb. eapply (kept_bind _ _ _ _ _ (fun d s => zlen d = 16 /\ adrift r s)).
  { intros s x s' Hs [= <- <-]. split; [by exists []|]. destruct (pack_trb _) eqn:Ep; [split; [by apply pack_trb_length in Ep|done]|apply pack_trb_error in Ep; congruence]. }
  intros d. apply kept_fact'. intros Hd. eapply (kept_bind _ _ _ _ _ (fun _ => adrift r)).
  - eapply kept_conseq; [eapply (kept_target c _ (adrift r) (t_writemem (base + (CMD_RING_TRBS - 1) * TRB_SIZE) d) any (AWriteMem (base + (CMD_RING_TRBS - 1) * TRB_SIZE) d))|done|by intros a s []].
    + unfold inside, CMD_RING_TRBS, TRB_SIZE in *. cbn. unfold inside. lia.
    + by intros s [].
    + intros s e [_ H] He. split; [done|]. intros i z Hi. destruct (H i z Hi). by constructor.
    + intros e x e' He. by apply tell_run.
  - intros _ s x s' [_ Hs]. rewrite move_ring_moved. intros [= <- <-]. split; [by exists []|]. apply Hs. lia.
Qed.

Lemma q_put_trb r t : ring_safe r -> sfq any (put_trb r t).
Proof.
  intros Hr. pose proof Hr as [Hg Hm]. unfold put_trb.
  eapply (kept_bind _ _ _ _ _ (fun g s => st_ok c D s /\ (inside c (rg_base g) 0x1000 /\ 0 <= rg_index g < 255))).
  { intros s x s' Hs. destruct (Hg s Hs) as (y & -> & Hy). intros [= <- <-]. split; [by exists []|]. destruct y; [done|congruence]. }
  intros g. apply kept_fact. intros [Hb Hi]. apply (q_bind _ _ _ _ (q_lift _)). intros d Hd%pack_trb_length.
  apply (q_bind any).
  { apply q_write. unfold inside, TRB_SIZE in *. lia. }
  intros _ _. eapply kept_bind; [by apply adrift_move|]. intros []. eapply (kept_bind _ _ _ _ _ (fun _ => st_ok c D)).
  2:{ intros []. by apply q_ret. }
  destruct (Z.eqb_spec (rg_index g + 1) (CMD_RING_TRBS - 1)) as [E|E].
  - eapply kept_conseq; [by apply q_close|by intros s []|done].
  - unfold CMD_RING_TRBS in E. eapply kept_conseq; [apply (kept_ret c _ (st_ok c D))|intros s [_ H]; apply H; lia|by intros a s []].
Qed.

Lemma ring_safe_cmd : ring_safe Cmd.
Proof.
  destruct Hc as [Hd _]. split.
  - intros s [H1 H2 _ _ _]. eexists. split; [reflexivity|]. cbn [rg_base rg_index]. rewrite H1. split; [|done]. unfold inside, cmd_ring. lia.
  - intros s i y [H1 H2 H3 H4 H5] Hi. by constructor.
Qed.

(** *** The operations that do not use a device *)

Ltac window := unfold inside, zeroed, inside, context_offset, dcbaa, cmd_ring, event_ring, erst, scratch_array, scratch_buffers, ring_base, x_free, CMD_RING_TRBS, TRB_SIZE in *; lia.
(** One bind of a program whose first part a rule covers. *)
Ltac q1 := first
  [ apply q_xc | apply q_self; intros ? ? ? | apply q_dev; intros ? ? | apply q_raise | apply q_ret; done
  | apply (q_bind any); [solve [auto with xhci]|intros ? _] | apply (q_bind _ _ _ _ (q_lift _)); intros ? ?
  | solve [auto with xhci] | case_match ].
Create HintDb xhci.
Hint Resolve q_r32 q_r64 q_now q_set_event : xhci.

Lemma q_op_rd off : sfq any (op_rd off).
Proof. unfold op_rd. repeat q1. Qed.
Lemma q_op_wr off v : register32 c (c_op c + off) v -> sfq any (op_wr off v).
Proof. intros H. apply q_xc. by apply q_w32. Qed.
Lemma q_cmd v : sfq any (op_wr USBCMD v).
Proof. apply q_op_wr. left. constructor. Qed.
Hint Resolve q_op_rd q_cmd : xhci.

Lemma q_portsc port : sfq any (portsc port).
Proof. unfold portsc. repeat q1. Qed.
Hint Resolve q_portsc : xhci.

(** The bits of a port register write that matter are those asked for. *)
Lemma portsc_masked v bits : Z.land (Z.lor (Z.land v PORTSC_RW) bits) P_SENSITIVE = Z.land bits P_SENSITIVE.
Proof.
  rewrite Z.land_lor_distr_l, <- Z.land_assoc. change (Z.land PORTSC_RW P_SENSITIVE) with 0. by rewrite Z.land_0_r, Z.lor_0_l.
Qed.
Definition port_ok (port : Z) : Prop := 1 <= port <= c_max_ports c.
Lemma q_port_write port v bits : port_ok port -> Z.land bits P_SENSITIVE ∈ [0; P_CSC; CHANGES; P_PED] ->
  sfq any (portsc_write port (Z.lor (Z.land v PORTSC_RW) bits)).
Proof.
  intros Hp Hb. unfold portsc_write. apply q_xc, q_w32. right; right. exists port. split; [done|]. split; [done|]. unfold portsc_ok. by rewrite portsc_masked.
Qed.
Lemma q_portsc_set port bits : port_ok port -> Z.land bits P_SENSITIVE ∈ [0; P_CSC; CHANGES; P_PED] -> sfq any (portsc_set port bits).
Proof. intros Hp Hb. unfold portsc_set. q1. by apply q_port_write. Qed.
Lemma q_portsc_ack port bits : port_ok port -> Z.land bits P_SENSITIVE ∈ [0; P_CSC; CHANGES; P_PED] -> sfq any (portsc_ack port bits).
Proof. exact (q_portsc_set port bits). Qed.

Lemma q_wait fuel read mask want timeout : sfq any read -> sfq any (xwait fuel read mask want timeout).
Proof.
  intros Hr. unfold xwait. q1. generalize (a + timeout). intros d. induction fuel as [|k IH]; cbn [xwait_loop]; [q1|]. repeat q1.
Qed.
Hint Resolve q_wait : xhci.

Lemma q_mode : sfq any mode.
Proof. unfold mode. repeat q1. Qed.
Lemma q_halted : sfq any halted.
Proof. unfold halted. repeat q1. Qed.
Hint Resolve q_mode q_halted : xhci.
Lemma q_stop fuel timeout : sfq any (xstop fuel timeout).
Proof. unfold xstop. repeat q1. Qed.
Hint Resolve q_stop : xhci.
Lemma q_reset fuel timeout : sfq any (xreset fuel timeout).
Proof.
  unfold xreset. do 5 q1. apply (q_bind any); [|intros _ _; repeat q1]. apply q_set_page. exists (Z.land a3 0xFFFF).
  change 0xFFFF with (Z.ones 16). rewrite Z.land_ones, Z.shiftl_mul_pow2 by lia. split; [apply Z.mod_pos_bound; lia|done].
Qed.
Lemma q_start fuel timeout : sfq any (xstart fuel timeout).
Proof. unfold xstart. repeat q1. Qed.
Hint Resolve q_reset q_start : xhci.

Lemma pack_Qs_zlen l d : pack_Qs l = Ok d -> zlen d = 8 * Z.of_nat (length l).
Proof. intros H%pack_Qs_length. unfold zlen. lia. Qed.

Lemma q_build_rings : sfq any build_rings.
Proof.
  destruct Hc as (Hd & _ & Hs). unfold build_rings. apply q_self. intros x Hx (p & Hp & Hpg). rewrite Hx, Hpg.
  apply (q_bind any); [apply q_zero; window|intros _ _]. apply (q_bind any).
  { case_match; [|by apply q_ret]. apply (q_bind _ _ _ _ (q_lift _)). intros d Hl%pack_Qs_zlen. rewrite length_map, length_seq in Hl.
    apply (q_bind any); [apply q_write; window|intros _ _]. apply (q_bind any); [apply q_zero; right; by exists p|intros _ _]. apply q_w64. right. window. }
  intros _ _. apply (q_bind _ _ _ _ (q_lift _)). intros d1 H1%pack_trb_length. apply (q_bind any); [apply q_write; window|intros _ _].
  apply (q_bind _ _ _ _ (q_lift _)). intros d2 H2%pack_trb_length. apply (q_bind any); [apply q_write; window|intros _ _].
  assert (R64 : forall a v, register64 c a -> sfq any (x_w64 a v)) by (intros; apply q_w64; by left).
  assert (R32 : forall a v, a ∈ [c_op c + USBCMD; c_op c + CONFIG; c_ir0 c + ERSTSZ; c_ir0 c + IMOD] -> sfq any (x_w32 a v)) by (intros; apply q_w32; by left).
  apply (q_bind any); [apply R64; unfold register64; set_solver|intros _ _]. apply (q_bind any); [apply q_op_wr; left; set_solver|intros _ _].
  apply (q_bind any); [apply R64; unfold register64; set_solver|intros _ _]. apply (q_bind any); [apply R32; set_solver|intros _ _].
  do 2 (apply (q_bind any); [apply R64; unfold register64; set_solver|intros _ _]). apply R32. set_solver.
Qed.
Hint Resolve q_build_rings : xhci.
Lemma q_init fuel : sfq any (xinit fuel).
Proof. unfold xinit. repeat q1. Qed.

Lemma q_post_command t : sfq any (post_command t).
Proof.
  unfold post_command. apply (q_bind any); [apply q_put_trb, ring_safe_cmd|intros a _]. apply q_xc.
  apply (q_bind any); [|intros; by apply q_ret]. apply q_w32. right; left. exists 0. split; lia.
Qed.

Lemma q_poll limit : sfq any (poll_events limit).
Proof.
  unfold poll_events. apply (q_bind any).
  - generalize (@nil trb). induction limit as [|k IH]; intros l; cbn [poll_loop]; [q1|]. apply q_self. intros x Hx _.
    apply (q_bind _ _ _ _ (q_read _ _)). intros d _. repeat q1.
  - intros l _. apply (q_bind any); [|intros; q1]. case_bool_decide; [q1|]. apply q_self. intros x -> _. apply q_w64. left. unfold register64. set_solver.
Qed.
Hint Resolve q_init q_post_command q_poll : xhci.

Lemma q_drain fuel timeout limit : sfq any (drain fuel timeout limit).
Proof.
  unfold drain. q1. generalize (a + timeout) (@nil trb). induction fuel as [|k IH]; intros d l; cbn [drain_loop]; repeat q1.
Qed.

Lemma q_watch {A} fuel (f : trb -> M X (option A)) timeout : (forall e, sfq any (f e)) -> sfq any (watch fuel f timeout).
Proof.
  intros Hf. assert (He : forall l, sfq any (first_event f l)).
  { induction l as [|e l IH]; cbn [first_event]; [q1|]. apply (q_bind any); [done|intros o _]. destruct o; [q1|done]. }
  unfold watch. q1. generalize (a + timeout). induction fuel as [|k IH]; intros d; cbn [watch_loop]; [q1|]. q1. case_match; [|q1]. q1.
  apply (q_bind any); [done|intros o _]. destruct o; [q1|done].
Qed.

Lemma q_command fuel t timeout : sfq any (command fuel t timeout).
Proof.
  unfold command. q1. apply (q_bind any); [apply q_watch; intros; q1|intros o _]. destruct o; [q1|]. q1.
  apply (q_bind any); [|intros; q1]. apply q_xc. auto with xhci.
Qed.
Hint Resolve q_drain q_command : xhci.
Lemma q_disable fuel slot : sfq any (disable_slot fuel slot).
Proof. unfold disable_slot. apply q_catch; repeat q1. Qed.

Lemma q_slot_type port : sfq any (slot_type_for_port port).
Proof.
  unfold slot_type_for_port. apply (q_bind any); [|intros; q1]. unfold protocols. apply q_xc. case_match; [q1|].
  generalize 32%nat (c_base c + Z.land (Z.shiftr (c_hccparams1 c) 16) 0xFFFF * 4) (@nil protocol). induction n as [|k IH]; intros p l; cbn [protocols_loop]; [q1|].
  q1. case_match; [q1|]. apply (q_bind any); [repeat q1|intros l' _]. case_match; [q1|done].
Qed.

Lemma q_reset_port fuel port warm timeout : port_ok port -> sfq any (reset_port fuel port warm timeout).
Proof.
  intros Hp. unfold reset_port. apply (q_bind any); [apply q_portsc_set; [done|destruct warm; constructor]|intros _ _]. q1.
  generalize (a + timeout). induction fuel as [|k IH]; intros d; cbn [port_wait]; repeat q1.
Qed.
Hint Resolve q_disable q_slot_type q_reset_port : xhci.

(** *** Attaching *)

Lemma q_connected n port : sfq (fun o => forall p, o = Some p -> port <= p < port + Z.of_nat n) (connected n port).
Proof.
  revert port. induction n as [|k IH]; intros port; cbn [connected]; [by apply q_ret|]. q1. case_match; [apply q_ret; intros p [= <-]; lia|].
  eapply q_weaken; [apply IH|]. intros o Ho p Hp. specialize (Ho p Hp). lia.
Qed.

Lemma q_wait_device fuel deadline : sfq (fun o => forall p, o = Some p -> port_ok p) (wait_device fuel deadline).
Proof.
  induction fuel as [|k IH]; cbn [wait_device]; [q1|]. q1. case_match; [|by apply q_ret]. q1. apply q_xc.
  eapply q_bind; [apply q_connected|]. intros o Ho. destruct o as [p|]; [|done]. apply q_ret. intros q [= <-]. specialize (Ho p eq_refl). unfold port_ok. lia.
Qed.

Lemma pack_fields_zlen l d : pack_fields l = Ok d -> zlen d = Z.of_nat (fold_right (fun f n => fst f + n)%nat 0%nat l).
Proof.
  revert d. induction l as [|[n z] l IH]; intros d; cbn [pack_fields fold_right fst]; [by intros <-%Ok_inj|].
  destruct (pack_u n z) as [a|] eqn:Ea; [|done]. destruct (pack_fields l) as [b|]; [|done]. cbn [rbind]. intros <-%Ok_inj.
  apply pack_u_inv in Ea as [_ ->]. specialize (IH b eq_refl). unfold zlen in *. rewrite length_app, length_le_bytes. lia.
Qed.

Lemma pack_fields_range l d : pack_fields l = Ok d -> Forall (fun f => 0 <= snd f < 256 ^ Z.of_nat (fst f)) l.
Proof.
  revert d. induction l as [|[n z] l IH]; intros d; cbn [pack_fields]; [constructor|].
  destruct (pack_u n z) as [a|] eqn:Ea; [|done]. destruct (pack_fields l) as [b|]; [|done]. intros _. constructor; [by apply pack_u_inv in Ea as [? _]|by eapply IH].
Qed.

Lemma slot_range v : 0 <= Z.land (Z.shiftr v 24) 0xFF < 256.
Proof. change 0xFF with (Z.ones 8). rewrite Z.land_ones by lia. apply Z.mod_pos_bound. lia. Qed.

(** Programs that end in another predicate than they start from. *)
Abbreviation tm := (kept c (st_ok c D) (st_ok c D)).
Lemma t_then {A B} (Qa : A -> Prop) (m : M X A) (k : A -> M X B) R : sfq Qa m -> (forall a, Qa a -> tm (k a) R) -> tm (py_bind m k) R.
Proof. intros Hm Hk. eapply kept_bind; [exact Hm|]. intros a. apply kept_fact, Hk. Qed.
Lemma t_skip {B} m (k : unit -> M X B) R : sfq any m -> tm (k tt) R -> tm (py_bind m k) R.
Proof. intros Hm Hk. apply (t_then any); [done|by intros []]. Qed.

(** A write of packed fields into the window. *)
Lemma t_fields {B} l a (k : unit -> M X B) R : inside c a (Z.of_nat (fold_right (fun f n => fst f + n)%nat 0%nat l)) -> tm (k tt) R ->
  tm (let! d := py_lift (pack_fields l) in let! u := x_write a d in k u) R.
Proof.
  intros Ha Hk. eapply t_then; [apply q_lift|]. intros d Hd%pack_fields_zlen. apply t_skip; [apply q_write; by rewrite Hd|done].
Qed.

(** The contexts are written inside the window and the new device is well formed. *)
Lemma t_address fuel port speed st block : tm (address_device fuel port speed st block) (fun _ => st_ok c (dev_ok c)).
Proof.
  destruct Hc as (Hd & Hx & _). unfold address_device.
  apply (t_then any); [apply q_command|]. intros ev _. case_match; [by apply kept_raise|]. cbv zeta.
  pose proof (slot_range (tb_control ev)) as Hslot. set (sl := Z.land (Z.shiftr (tb_control ev) 24) 0xFF) in *.
  apply (t_then (eq c)); [unfold xc; intros s r s' Hs [= <- <-]; split; [by exists []|]; by rewrite (so_caps _ _ _ Hs)|intros _ <-].
  apply t_skip; [apply q_zero; window|]. eapply t_then; [apply q_lift|]. intros d1 H1%pack_trb_length.
  apply t_skip; [apply q_write; window|]. apply t_fields; [cbn [fold_right fst]; window|]. apply t_fields; [cbn [fold_right fst]; window|].
  apply t_fields; [cbn [fold_right fst]; window|]. apply t_skip; [apply q_w64; right; window|].
  apply (t_then any); [apply q_command|]. intros ev2 _. case_match; [apply t_skip; [apply q_disable|by apply kept_raise]|].
  eapply t_then; [apply q_read|]. intros d2 _. eapply t_then; [apply q_lift|]. intros w _.
  apply kept_modify. intros s [S1 S2 S3 S4 S5]. split; [|done]. by constructor.
Qed.

Definition fresh_dev : Prop := forall v, dev_ok c v -> D v.
Lemma st_ok_dev s : fresh_dev -> st_ok c (dev_ok c) s -> st_ok c D s.
Proof. intros HD [H1 H2 H3 H4 H5]. constructor; auto. Qed.

Lemma t_attempt fuel port n : fresh_dev -> port_ok port ->
  tm (attach_attempt fuel port n) (fun b s => st_ok c D s /\ (b = true -> st_ok c (dev_ok c) s)).
Proof.
  intros HD Hp. unfold attach_attempt. apply t_skip.
  { case_match; [q1|by apply q_ret]. apply q_port_write; [done|set_solver]. }
  apply t_skip; [apply q_portsc_ack; [done|set_solver]|]. apply (t_then any); [by apply q_reset_port|intros _ _].
  apply t_skip; [apply q_portsc_ack; [done|set_solver]|]. apply (t_then any); [apply q_portsc|intros v _].
  case_match; [eapply kept_conseq; [apply kept_ret|done|by intros b s [-> Hs]]|]. apply (t_then any); [apply q_drain|intros _ _].
  apply kept_catch.
  - apply (t_then any); [apply q_slot_type|intros st _]. eapply kept_bind; [apply t_address|]. intros u.
    eapply kept_conseq; [apply kept_ret|done|]. intros b s [-> Hs]. split; [by apply st_ok_dev|done].
  - apply (t_then any); [apply q_portsc|intros _ _]. eapply kept_conseq; [apply kept_ret|done|by intros b s [-> Hs]].
Qed.

Lemma t_attach fuel wait attempts : fresh_dev -> tm (attach_on fuel wait attempts) (fun _ => st_ok c (dev_ok c)).
Proof.
  intros HD. unfold attach_on. apply t_skip; [apply q_init|]. apply (t_then any); [apply q_now|intros now _].
  eapply t_then; [apply q_wait_device|]. intros [port|] Hport; [|by apply kept_raise]. specialize (Hport port eq_refl). generalize 0%nat.
  induction attempts as [|k IH]; intros n; cbn [attach_loop]; [by apply kept_raise|]. eapply kept_bind; [by apply t_attempt|]. intros b. destruct b.
  - eapply kept_conseq; [apply (kept_ret c _ (st_ok c (dev_ok c)))|by intros s [_ Hs]; apply Hs|by intros a s []].
  - eapply kept_conseq; [apply IH|by intros s []|done].
Qed.

(** *** The operations on an addressed device *)

Context (HD : forall v, D v <-> dev_ok c v).

Lemma ring_safe_ep0 : ring_safe Ep0.
Proof.
  destruct Hc as [Hd _]. split.
  - intros s [H1 H2 H3 H4%HD H5]. eexists. split; [reflexivity|]. cbn [rg_base rg_index]. destruct H4 as (_ & _ & _ & -> & Hi & _). split; [window|done].
  - intros s i y [H1 H2 H3 H4%HD H5] Hi. constructor; try done. apply HD. destruct H4 as (A1 & A2 & A3 & A4 & A5 & A6). exact (conj A1 (conj A2 (conj A3 (conj A4 (conj Hi A6))))).
Qed.

Lemma ring_safe_bulk dci : ring_safe (Bulk dci).
Proof.
  destruct Hc as [Hd _]. split.
  - intros s [H1 H2 H3 H4%HD H5]. destruct H4 as (_ & _ & _ & _ & _ & Hm). cbn [get_ring]. unfold py_bind, dev, py_get.
    destruct (v_rings (snd (snd s)) !! dci) as [g|] eqn:Eg; [|by eexists]. eexists. split; [reflexivity|].
    destruct (Hm dci g Eg) as (B1 & B2 & B3). split; [rewrite B2; window|done].
  - intros s i y [H1 H2 H3 H4%HD H5] Hi. constructor; try done. apply HD. destruct H4 as (A1 & A2 & A3 & A4 & A5 & A6). refine (conj A1 (conj A2 (conj A3 (conj A4 (conj A5 _))))).
    cbn. intros k g Hk. destruct (decide (k = dci)) as [->|Hne].
    + rewrite lookup_alter_eq in Hk. apply fmap_Some in Hk as (g0 & Hg0 & ->). destruct (A6 _ _ Hg0) as (B1 & B2 & B3). done.
    + rewrite lookup_alter_ne in Hk by done. by apply A6.
Qed.

Lemma q_put_trbs l : sfq any (put_trbs Ep0 l).
Proof. induction l as [|t l IH]; cbn [put_trbs]; [q1|]. apply (q_bind any); [apply q_put_trb, ring_safe_ep0|done]. Qed.

Lemma q_doorbell v k : D v -> sfq any (x_w32 (c_db c + 4 * v_slot v) k).
Proof. intros (Hs & _)%HD. apply q_w32. right; left. by exists (v_slot v). Qed.

Lemma control_area len : 0 <= len < 65536 -> inside c (x_free c + 0x3000) (Z.land (len + 63) (Z.lnot 63)).
Proof.
  destruct Hc as [Hd _]. intros Hl. change 63 with (Z.ones 6) at 2. rewrite <- Z.ldiff_land, Z.ldiff_ones_r, Z.shiftl_mul_pow2, Z.shiftr_div_pow2 by lia.
  change (2 ^ 6) with 64. pose proof (Z.div_mod (len + 63) 64 ltac:(lia)). pose proof (Z.mod_pos_bound (len + 63) 64 ltac:(lia)). window.
Qed.

Lemma q_control fuel rt rq value index len : sfq any (control_transfer fuel rt rq value index len).
Proof.
  unfold control_transfer. apply q_xc. cbv zeta. apply (q_bind _ _ _ _ (q_lift _)). intros setup Hs.
  assert (Hl : 0 <= len < 65536) by (apply pack_fields_range in Hs; by rewrite !Forall_cons in Hs; destruct Hs as (_ & _ & _ & _ & Hs & _)).
  apply (q_bind any); [case_match; [by apply q_ret|apply q_zero; left; by apply control_area]|intros _ _].
  apply (q_bind any); [apply q_put_trbs|intros _ _]. apply q_dev. intros v Hv. apply (q_bind any); [by apply q_doorbell|intros _ _].
  apply (q_bind any); [|intros o _; destruct o; repeat q1]. apply q_watch. intros e. case_match; [|q1]. case_match; [q1|]. cbv zeta.
  apply (q_bind any); [|intros; q1]. case_match; [q1|]. eapply q_any, q_read.
Qed.
Hint Resolve q_control : xhci.

Definition dci_ok (dci : Z) : Prop := 2 <= dci <= 31.
Lemma q_endpoint_ring dci : dci_ok dci -> sfq any (endpoint_ring dci).
Proof.
  destruct Hc as [Hd _]. intros Hi. unfold dci_ok in Hi. unfold endpoint_ring. apply q_dev. intros v Hv. case_match; [q1|]. apply q_xc. cbv zeta.
  apply (q_bind any); [apply q_zero; window|intros _ _]. apply (q_bind _ _ _ _ (q_lift _)). intros d Hdl%pack_trb_length.
  apply (q_bind any); [apply q_write; window|intros _ _]. apply (q_bind any); [|intros; q1]. apply q_set_v. intros w Hw%HD. apply HD.
  destruct Hw as (A1 & A2 & A3 & A4 & A5 & A6). refine (conj A1 (conj A2 (conj A3 (conj A4 (conj A5 _))))). apply map_Forall_insert_2; [|done]. cbn. unfold ring_base. repeat split; lia.
Qed.

Lemma q_contexts eps : Forall (fun e => dci_ok (endpoint_dci e)) eps -> sfq any (write_contexts eps).
Proof.
  destruct Hc as (Hd & Hx & _). induction 1 as [|[[dci ty] packet] eps Hi _ IH]; cbn [write_contexts]; [q1|]. cbn in Hi. unfold dci_ok in Hi.
  apply (q_bind any); [by apply q_endpoint_ring|intros g _]. apply (q_bind _ _ _ _ (q_lift _)). intros d Hdl%pack_fields_zlen. cbn [fold_right fst] in Hdl.
  apply q_dev. intros v (_ & _ & -> & _)%HD. apply q_xc. apply (q_bind any); [apply q_write; unfold context_offset; destruct Hx as [-> | ->]; window|done].
Qed.

Lemma q_configure fuel eps : Forall (fun e => dci_ok (endpoint_dci e)) eps -> sfq any (configure_endpoints fuel eps).
Proof.
  destruct Hc as (Hd & Hx & _). intros Hi. unfold configure_endpoints. apply q_dev. intros v (_ & _ & -> & _)%HD. apply q_xc. cbv zeta.
  apply (q_bind any); [apply q_zero; destruct Hx as [-> | ->]; window|intros _ _]. apply (q_bind any); [by apply q_contexts|intros _ _].
  apply (q_bind _ _ _ _ (q_lift _)). intros d Hdl%pack_fields_zlen. cbn [fold_right fst] in Hdl. apply (q_bind any); [apply q_write; window|intros _ _].
  eapply q_bind; [apply q_read|]. intros slot Hsl. apply (q_bind _ _ _ _ (q_lift _)). intros w _. apply (q_bind _ _ _ _ (q_lift _)). intros wd Hw.
  apply pack_u_inv in Hw as [_ ->]. apply (q_bind any).
  { apply q_write. unfold zlen in *. rewrite length_app, length_le_bytes, length_drop. unfold context_offset. destruct Hx as [-> | ->]; window. }
  intros _ _. repeat q1.
Qed.

Lemma q_post dci buffer len : dci_ok dci -> sfq any (post_transfer dci buffer len).
Proof.
  intros Hi. unfold post_transfer. apply (q_bind any); [by apply q_endpoint_ring|intros _ _].
  apply (q_bind any); [apply q_put_trb, ring_safe_bulk|intros a _]. apply q_dev. intros v Hv. apply q_xc.
  apply (q_bind any); [by apply q_doorbell|intros; q1].
Qed.
Lemma q_await fuel a len timeout : sfq any (await_transfer fuel a len timeout).
Proof. unfold await_transfer. apply q_watch. intros e. case_match; [|q1]. case_match; q1. Qed.
Hint Resolve q_post q_await : xhci.

Lemma q_transfer fuel dci buffer len timeout dir : dci_ok dci -> sfq any (transfer fuel dci buffer len timeout dir).
Proof.
  intros Hi. unfold transfer. q1. q1. destruct a0; [|q1]. case_match; [|q1]. eapply q_bind; [apply q_read|intros; q1].
Qed.
Lemma q_pending f : sfq any (set_v (fun v => v_set_pending (f v) v)).
Proof. apply q_set_v. intros v (A1 & A2 & A3 & A4 & A5 & A6)%HD. apply HD. exact (conj A1 (conj A2 (conj A3 (conj A4 (conj A5 A6))))). Qed.

Lemma q_receive fuel dci buffer size timeout : dci_ok dci -> sfq any (receive fuel dci buffer size timeout).
Proof.
  intros Hi. unfold receive. apply q_dev. intros v Hv. apply (q_bind any).
  { case_match; [q1|]. q1. apply (q_bind any); [apply (q_pending (fun v => <[dci := a]> (v_pending v)))|intros; q1]. }
  intros a _. q1. destruct a0; [|q1]. apply (q_bind any); [apply (q_pending (fun v => delete dci (v_pending v)))|intros _ _].
  case_match; [q1|]. eapply q_bind; [apply q_read|intros; q1].
Qed.

Lemma q_send fuel dci buffer data timeout : dci_ok dci -> inside c buffer (zlen data) -> sfq any (send fuel dci buffer data timeout).
Proof.
  intros Hi Hb. unfold send. apply (q_bind any); [by apply q_write|intros _ _]. apply (q_bind any); [by apply q_transfer|intros _ _].
  apply (q_bind any); [|intros; q1]. case_match; [|q1]. apply (q_bind any); [by apply q_transfer|intros; q1].
Qed.

Lemma q_release fuel di : sfq any (release fuel di).
Proof.
  unfold release, set_interface, set_configuration. apply (q_bind any).
  - apply q_catch; [|q1]. apply (q_bind any); [destruct di; repeat q1|intros; repeat q1].
  - intros _ _. apply q_dev. intros v Hv. apply q_disable.
Qed.
End Rules.

(** ** Sessions *)

(** What is done with a device; buffers are offsets into the free part of the window. *)
Inductive x_op :=
| OControl (request_type request value index len : Z)
| OConfigure (endpoints : list endpoint)
| OTransfer (dci offset len timeout : Z) (direction_in : bool)
| OReceive (dci offset size timeout : Z)
| OSend (dci offset : Z) (data : bytes) (timeout : Z)
| ODrain (timeout : Z) (limit : nat)
| ONoOp.

Definition run_xop {S} `{!TargetOps S} (fuel : nat) (o : x_op) : M (S * (xhci * device)) unit :=
  match o with
  | OControl rt rq v i l => control_transfer fuel rt rq v i l ;;; py_ret tt
  | OConfigure eps => configure_endpoints fuel eps ;;; py_ret tt
  | OTransfer dci off len timeout dir => let! c := xc in transfer fuel dci (x_free c + off) len timeout dir ;;; py_ret tt
  | OReceive dci off size timeout => let! c := xc in receive fuel dci (x_free c + off) size timeout ;;; py_ret tt
  | OSend dci off data timeout => let! c := xc in send fuel dci (x_free c + off) data timeout ;;; py_ret tt
  | ODrain timeout limit => drain fuel timeout limit ;;; py_ret tt
  | ONoOp => no_op fuel ;;; py_ret tt
  end.
Fixpoint run_xops {S} `{!TargetOps S} (fuel : nat) (l : list x_op) : M (S * (xhci * device)) unit :=
  match l with [] => py_ret tt | o :: r => run_xop fuel o ;;; run_xops fuel r end.

(** Endpoints have the numbers a device can have, and what is sent fits the window. *)
Definition op_fits (o : x_op) : Prop :=
  match o with
  | OConfigure eps => Forall (fun e => dci_ok (endpoint_dci e)) eps
  | OTransfer dci _ _ _ _ | OReceive dci _ _ _ => dci_ok dci
  | OSend dci off data _ => dci_ok dci /\ 0 <= off /\ off + zlen data <= 0xF0000
  | _ => True
  end.

(** [attach], some operations, [release] and [stop]: [cmd_ncm] and [cmd_link]. *)
Definition session {S} `{!TargetOps S} (info : boot_info) (base : Z) (fuel : nat) (wait : Z) (attempts : nat) (ops : list x_op) (data_interface : option Z) : M S unit :=
  let! p := attach info base fuel wait attempts in
  fun s => let '(r, s') := (run_xops fuel ops ;;; release fuel data_interface ;;; xstop fuel 2000) (s, snd p) in (r, fst s').

Lemma q_run_op c fuel o : caps_ok c -> op_fits o -> sfq c (dev_ok c) any (run_xop fuel o).
Proof.
  intros Hc Ho. assert (HD : forall v, dev_ok c v <-> dev_ok c v) by done.
  destruct o; cbn [run_xop op_fits] in *; try apply q_xc.
  all: apply (q_bind _ _ any); [|intros; by apply q_ret].
  - by apply q_control.
  - by apply q_configure.
  - by apply q_transfer.
  - by apply q_receive.
  - destruct Ho as (H1 & H2 & H3), Hc as (Hd & Hx & Hs). apply q_send; try done. unfold inside, x_free. lia.
  - by apply q_drain.
  - by apply q_command.
Qed.

Lemma q_run_ops c fuel ops di : caps_ok c -> Forall op_fits ops -> sfq c (dev_ok c) any (run_xops fuel ops ;;; release fuel di ;;; xstop fuel 2000).
Proof.
  intros Hc Ho. assert (HD : forall v, dev_ok c v <-> dev_ok c v) by done. apply (q_bind _ _ any).
  - induction Ho as [|o ops Hf _ IH]; cbn [run_xops]; [by apply q_ret|]. apply (q_bind _ _ any); [by apply q_run_op|done].
  - intros _ _. apply (q_bind _ _ any); [by apply q_release|intros _ _; by apply q_stop].
Qed.

(** Opening only reads; the window is the top of the heap. *)
Definition reads_only (new : list action) : Prop := Forall (fun x => match x with ARead32 _ => True | _ => False end) new.
Definition heap_window (info : boot_info) (c : caps) : Prop :=
  exists hb hs, info_item info "heap_base" = Ok hb /\ info_item info "heap_size" = Ok hs /\
    c_dma c + c_dma_size c <= hb + hs /\ (0x110000 <= hs -> hb <= c_dma c).

(** What was read since a state [e0] of the target, newest first, and what the
    target answered to one of these reads. *)
Section Reading.
  Context (e0 : env).

Definition answered (n : list action) (a v : Z) : Prop :=
  exists post pre, n = post ++ ARead32 a :: pre /\ ev_word e0 (ARead32 a :: pre ++ ev_log e0) = Ok v.

(** The register layout the controller at [base] declared in its capability
    registers: CAPLENGTH, the maximum number of ports and of scratchpads of
    HCSPARAMS1 and HCSPARAMS2, the offsets DBOFF and RTSOFF. *)
Definition declared (n : list action) (base : Z) (c : caps) : Prop :=
  exists cap hcs1 hcs2 dboff rtsoff,
    answered n base cap /\ answered n (base + 0x04) hcs1 /\ answered n (base + 0x08) hcs2 /\ answered n (base + 0x14) dboff /\ answered n (base + 0x18) rtsoff /\
    c_op c = base + cap mod 256 /\ c_max_ports c = hcs1 / 2 ^ 24 mod 256 /\ c_scratchpads c = hcs2 / 2 ^ 21 mod 32 * 32 + hcs2 / 2 ^ 27 mod 32 /\
    c_db c = base + dboff / 4 * 4 /\ c_ir0 c = base + rtsoff / 32 * 32 + 0x20.

Record since (n : list action) (e : env) : Prop := {
  si_log : ev_log e = n ++ ev_log e0;
  si_word : ev_word e = ev_word e0;
  si_data : ev_data e = ev_data e0;
  si_reads : reads_only n
}.

Definition reading {A} (I : list action -> Prop) (m : M env A) (Q : A -> list action -> Prop) : Prop := forall n e r e', since n e -> I n -> m e = (r, e') ->
  exists n', since n' e' /\ match r with Ok a => Q a n' | Raise _ => True end.
Definition stable (I : list action -> Prop) : Prop := forall n x, I n -> I (x :: n).

Lemma stable_and (I J : list action -> Prop) : stable I -> stable J -> stable (fun n => I n /\ J n).
Proof. intros HI HJ n x [H1 H2]. split; [by apply HI|by apply HJ]. Qed.
Lemma stable_pure (P : Prop) : stable (fun _ => P).
Proof. by intros n x H. Qed.
Lemma stable_answered a v : stable (fun n => answered n a v).
Proof. intros n x (post & pre & -> & H). by exists (x :: post), pre. Qed.

Lemma reading_bind {A B} (m : M env A) (k : A -> M env B) I P Q : reading I m P -> (forall a, reading (P a) (k a) Q) -> reading I (py_bind m k) Q.
Proof.
  intros Hm Hk n e r e' Hn HI E. unfold py_bind in E. destruct (m e) as [[a|x] e1] eqn:E1; destruct (Hm _ _ _ _ Hn HI E1) as (n1 & Hn1 & Ha).
  - exact (Hk a _ _ _ _ Hn1 Ha E).
  - injection E as <- <-. by exists n1.
Qed.
Lemma reading_ret {A} I (a : A) : reading I (py_ret a) (fun b n => b = a /\ I n).
Proof. intros n e r e' Hn HI [= <- <-]. by exists n. Qed.
Lemma reading_raise {A} I x (Q : A -> list action -> Prop) : reading I (py_raise x) Q.
Proof. intros n e r e' Hn HI [= <- <-]. by exists n. Qed.
Lemma reading_lift {A} I (x : result A) : reading I (py_lift x) (fun a n => x = Ok a /\ I n).
Proof. intros n e r e' Hn HI [= <- <-]. exists n. split; [done|by destruct x]. Qed.
Lemma reading_r32 I a : stable I -> reading I (t_read32 a) (fun v n => answered n a v /\ I n).
Proof.
  intros HI n e r e' [Hl Hw Hd Hr] Hn [= <- <-]. exists (ARead32 a :: n). rewrite Hl, Hw. split.
  - split; cbn; [by rewrite Hl|done|done|by constructor].
  - destruct (ev_word _ _) as [v|] eqn:E; [|done]. split; [by exists [], n|by apply HI].
Qed.
Lemma reading_post {A} I (m : M env A) (P Q : A -> list action -> Prop) : reading I m P -> (forall a n, P a n -> Q a n) -> reading I m Q.
Proof. intros Hm H n e r e' Hn HI E. destruct (Hm _ _ _ _ Hn HI E) as (n' & Hn' & Ha). exists n'. split; [done|]. destruct r; auto. Qed.

Lemma land_mod v k m : 0 <= k -> m = Z.ones k -> Z.land v m = v mod 2 ^ k.
Proof. intros Hk ->. by apply Z.land_ones. Qed.
Lemma land_lnot_div v k m : 0 <= k -> m = Z.ones k -> Z.land v (Z.lnot m) = v / 2 ^ k * 2 ^ k.
Proof. intros Hk ->. rewrite <- Z.ldiff_land, Z.ldiff_ones_r, Z.shiftl_mul_pow2, Z.shiftr_div_pow2 by done. done. Qed.

(** The two halves of the number of scratchpads do not overlap. *)
Lemma lor_halves h l : 0 <= l < 32 -> Z.lor (Z.shiftl h 5) l = h * 32 + l.
Proof.
  intros Hl. rewrite Z.shiftl_mul_pow2 by done. assert (Hd : Z.land (h * 2 ^ 5) l = 0).
  { apply Z.bits_inj'. intros n Hn. rewrite Z.land_spec, Z.bits_0. destruct (decide (n < 5)).
    - by rewrite Z.mul_pow2_bits_low by lia.
    - rewrite (Z.bits_above_log2 l), andb_false_r; [done|lia|]. destruct (decide (l = 0)) as [->|]; [cbn; lia|]. assert (Z.log2 l < 5) by (apply Z.log2_lt_pow2; lia). lia. }
  pose proof (Z.add_lor_land (h * 2 ^ 5) l) as Ha. rewrite Hd in Ha. change (2 ^ 5) with 32 in *. lia.
Qed.

Ltac stable := repeat match goal with
  | |- stable (fun _ => _ /\ _) => refine (stable_and _ _ _ _)
  | |- stable (fun _ => answered _ _ _) => refine (stable_answered _ _)
  | |- stable (fun _ => ?P) => exact (stable_pure P)
  | |- stable _ => assumption
  end.

Lemma read_caps_ok I base dma : stable I -> reading I (read_caps base dma (Z.shiftl 1 20))
  (fun c n => (c_base c = base /\ c_dma c = dma /\ caps_ok c /\ declared n base c) /\ I n).
Proof.
  intros HI. unfold read_caps. eapply reading_bind; [by apply reading_r32|intros cap]. do 5 (cbv zeta; eapply reading_bind; [apply reading_r32; stable|intros ?]).
  eapply reading_post; [apply reading_ret|]. intros c n (-> & H6 & H5 & H4 & H3 & H2 & H1 & Hn). split; [|done]. cbn.
  rewrite !(land_mod _ 5 0x1F), lor_halves by (first [done | apply Z.mod_pos_bound; done]). split_and!; try done.
  - split; [done|]. cbn. split; [case_match; auto|]. rewrite !Z.shiftr_div_pow2 by done. set (h := _ / 2 ^ 21). set (l := _ / 2 ^ 27).
    pose proof (Z.mod_pos_bound h 32 eq_refl). pose proof (Z.mod_pos_bound l 32 eq_refl). change (2 ^ 5) with 32. lia.
  - do 5 eexists. do 5 (split; [eassumption|]). cbn. rewrite !Z.shiftr_div_pow2, !(land_mod _ 8 0xFF), (land_lnot_div _ 2 0x3), (land_lnot_div _ 5 0x1F) by done.
    split_and!; done.
Qed.

Lemma open_reads info base : reading (fun _ => True) (xhci_open info base None (Z.shiftl 1 20))
  (fun x n => caps_ok (x_caps x) /\ c_base (x_caps x) = base /\ declared n base (x_caps x) /\ heap_window info (x_caps x) /\ rget info "usb_ports" = 0 /\
              x = Xhci (x_caps x) 0 0 1 0 1).
Proof.
  unfold xhci_open. destruct (Z.eqb_spec (rget info "usb_ports") 0) as [Hu|]; cbn [negb]; [|apply reading_raise].
  eapply reading_bind; [apply reading_r32; stable|intros g]. eapply reading_bind with (P := fun _ _ => True).
  { case_match; [eapply reading_bind; [apply reading_r32; stable|intros]|]; (eapply reading_post; [apply reading_ret|done]). }
  intros b. destruct b; [apply reading_raise|].
  eapply reading_bind with (P := fun dma _ => exists hb hs, info_item info "heap_base" = Ok hb /\ info_item info "heap_size" = Ok hs /\
    dma + 0x100000 <= hb + hs /\ (0x110000 <= hs -> hb <= dma)).
  { eapply reading_bind; [apply reading_lift|intros hb]. eapply reading_bind; [apply reading_lift|intros hs]. eapply reading_post; [apply reading_ret|].
    intros dma n (-> & Hs & Hb & _).
    exists hb, hs. split; [done|]. split; [done|]. change (Z.shiftl 1 20) with 0x100000. set (z := hb + hs - 0x100000).
    rewrite (land_lnot_div _ 16 0xFFFF) by done. change (2 ^ 16) with 65536.
    pose proof (Z.div_mod z 65536 ltac:(lia)). pose proof (Z.mod_pos_bound z 65536 ltac:(lia)). lia. }
  intros dma. eapply reading_bind; [apply read_caps_ok; stable|]. intros c. eapply reading_post; [apply reading_ret|].
  intros x n (-> & (B & <- & Hc & Hd) & hb & hs & Hb & Hs & H1 & H2). cbn. do 3 (split; [done|]). split; [|done]. exists hb, hs. destruct Hc as [-> _]. done.
Qed.

Lemma declared_app post n base c : declared n base c -> declared (post ++ n) base c.
Proof.
  assert (Ha : forall a v, answered n a v -> answered (post ++ n) a v) by (intros a v (q & p & -> & H); exists (post ++ q), p; by rewrite app_assoc).
  intros (v1 & v2 & v3 & v4 & v5 & H1 & H2 & H3 & H4 & H5 & H). exists v1, v2, v3, v4, v5. do 5 (split; [by apply Ha|]). done.
Qed.
End Reading.

Lemma reads_allowed c new : reads_only new -> Forall (allowed c) new.
Proof. intros H. eapply Forall_impl; [exact H|]. by intros []. Qed.

(** What was done between two states of the target: nothing but reads, or only what
    is allowed with the registers and ports the controller at [base] declared when
    it was opened, and a window at the top of the heap; nothing at all where q1n1
    manages the ports. *)
Definition confined (info : boot_info) (base : Z) (e e' : env) : Prop :=
  exists new, ev_log e' = new ++ ev_log e /\ (rget info "usb_ports" <> 0 -> new = []) /\
    (reads_only new \/ exists c, c_base c = base /\ declared e new base c /\ caps_ok c /\ heap_window info c /\ Forall (allowed c) new).

(** Attaching, and then anything that is confined on an addressed device. *)
Lemma attach_then {B} (k : X -> result B * env) info base fuel wait attempts e r e' : lawful e ->
  (forall c s, caps_ok c -> st_ok c (dev_ok c) s -> exists new, ev_log (snd (k s)) = new ++ ev_log (fst s) /\ Forall (allowed c) new) ->
  (let! p := attach info base fuel wait attempts in fun s => k (s, snd p)) e = (r, e') -> confined info base e e'.
Proof.
  intros He Hk Hs. unfold attach, py_bind in Hs. destruct (decide (rget info "usb_ports" = 0)) as [Hu|Hu].
  2:{ unfold xhci_open in Hs. rewrite (proj2 (Z.eqb_neq _ _) Hu) in Hs. cbn in Hs. injection Hs as <- <-. exists []. split; [done|]. split; [done|]. left. constructor. }
  destruct (xhci_open info base None (Z.shiftl 1 20) e) as [[x|y] e1] eqn:E1;
    destruct (open_reads e info base [] e _ _ (Build_since e [] e eq_refl eq_refl eq_refl (Forall_nil_2 _)) I E1) as (n1 & [L1 W1 D1 F1] & Hx).
  2:{ injection Hs as <- <-. exists n1. split; [done|]. split; [done|]. by left. }
  destruct Hx as (Hc & Hb & Hd & Hw & _ & Hx). set (c := x_caps x) in *. assert (He1 : lawful e1) by (unfold lawful; by rewrite W1, D1).
  pose proof (t_attach c Hc (fun v => v = no_device \/ dev_ok c v) fuel wait attempts ltac:(intros v; by right)) as Ha.
  assert (H0 : st_ok c (fun v => v = no_device \/ dev_ok c v) (e1, (x, no_device))).
  { constructor; try done; cbn; [rewrite Hx; cbn; lia|exists 0; rewrite Hx; split; [lia|done]|by left]. }
  destruct (attach_on fuel wait attempts (e1, (x, no_device))) as [[port|y] [e2 xv]] eqn:E2; destruct (Ha _ _ _ H0 E2) as [(n2 & L2 & F2) HQ]; cbn [fst] in L2.
  2:{ injection Hs as <- <-. exists (n2 ++ n1). rewrite L2, L1, app_assoc. split; [done|]. split; [done|]. right. exists c. split_and!; try done; [by apply declared_app|].
      apply Forall_app. split; [done|by apply reads_allowed]. }
  cbn [snd] in Hs. destruct (Hk c _ Hc HQ) as (n3 & L3 & F3). rewrite Hs in L3. cbn [fst snd] in L3.
  exists (n3 ++ n2 ++ n1). rewrite L3, L2, L1, !app_assoc. split; [done|]. split; [done|]. right. exists c. split_and!; try done; [by apply declared_app|].
  rewrite !Forall_app. split; [split; [done|done]|by apply reads_allowed].
Qed.

(** C11: a session of the xHCI driver is confined, on every target: whatever the
    registers, the memory and the clock answer, attaching, any sequence of transfers
    on the device (with valid endpoint numbers, and payloads placed inside the
    window), releasing it and stopping either never got past reading registers, or
    wrote only the operational, interrupter and doorbell registers where the
    capability registers of that controller, as it answered them when it was opened,
    put them, the port registers of the ports it declared there (clearing exactly the
    intended change bits, and disabling a port in no other write), and the DMA window
    at the top of the heap, except for the scratchpad pages the controller asked for,
    which are zeroed without a bound; a target whose ports q1n1 manages is not touched
    at all. *)
Theorem session_confined (e e' : env) (info : boot_info) (base : Z) (fuel : nat) (wait : Z) (attempts : nat)
    (ops : list x_op) (di : option Z) (r : result unit) :
  lawful e -> Forall op_fits ops -> session info base fuel wait attempts ops di e = (r, e') -> confined info base e e'.
Proof.
  intros He Ho Hs.
  refine (attach_then (fun s => let '(r, s') := (run_xops fuel ops ;;; release fuel di ;;; xstop fuel 2000) s in (r, fst s')) info base fuel wait attempts e r e' He _ Hs).
  intros c s Hc Hok. destruct ((run_xops fuel ops ;;; release fuel di ;;; xstop fuel 2000) s) as [r1 s1] eqn:E1.
  exact (proj1 (q_run_ops c fuel ops di Hc Ho _ _ _ Hok E1)).
Qed.

(** ** A controller that runs but never completes a command *)

Definition stuck_base : Z := 0x1000000.
(** The last value written to a register, newest first. *)
Fixpoint last_write (a : Z) (log : list action) : Z :=
  match log with
  | [] => 0
  | AWrite32 b v :: r => if b =? a then v else last_write a r
  | _ :: r => last_write a r
  end.
(** Host mode, one port with a device, halted unless told to run; 100 ms pass
    with every action. *)
Definition stuck_word (log : list action) : Z :=
  match log with
  | ANow :: r => 100 * Z.of_nat (length r)
  | ARead32 a :: r =>
      if a =? stuck_base + 0xC110 then 0x1000
      else if a =? stuck_base then 0x40
      else if a =? stuck_base + 0x04 then 0x01000008
      else if a =? stuck_base + 0x40 + USBSTS then (if Z.testbit (last_write (stuck_base + 0x40 + USBCMD) r) 0 then 0 else 1)
      else if a =? stuck_base + 0x440 then 3
      else 0
  | _ => 0
  end.
Definition stuck_env : env :=
  {| ev_log := []; ev_word := fun log => Ok (stuck_word log);
     ev_data := fun log => match log with
                           | AReadMem _ n _ :: _ => if n <? 0 then Raise StructError else Ok (replicate (Z.to_nat n) x00)
                           | _ => Raise StructError
                           end |}.
Definition stuck_info : boot_info := [("heap_base", 0x80000000); ("heap_size", 0x400000)].
Definition stuck_ops : list x_op := [OConfigure [(2, 2, 512); (3, 6, 512)]; OSend 2 0x30000 [x01; x02] 1000].

Lemma stuck_lawful : lawful stuck_env.
Proof.
  split; [|split]; cbn.
  - done.
  - intros log x. repeat case_match; by intros [= <-].
  - intros a n live log d. destruct (Z.ltb_spec n 0); [done|]. intros [= <-]. unfold zlen. rewrite length_replicate. lia.
Qed.

Lemma session_confined_witness : confined stuck_info stuck_base stuck_env (snd (session stuck_info stuck_base 40 15000 2 stuck_ops (Some 1) stuck_env)).
Proof.
  destruct (session stuck_info stuck_base 40 15000 2 stuck_ops (Some 1) stuck_env) as [r e'] eqn:E.
  apply (session_confined stuck_env e' stuck_info stuck_base 40 15000 2 stuck_ops (Some 1) r); [exact stuck_lawful| |exact E].
  unfold stuck_ops. rewrite !Forall_cons, Forall_nil. cbn [op_fits]. rewrite !Forall_cons, Forall_nil. unfold dci_ok, zlen. cbn. lia.
Defined.

(** The session gets as far as posting commands and ends when the device cannot be
    addressed. *)
Lemma stuck_session : fst (session stuck_info stuck_base 40 15000 2 stuck_ops (Some 1) stuck_env) = Raise (XHCIError "could not address the device") /\
  existsb (fun x => match x with AWriteMem _ _ => true | _ => false end) (ev_log (snd (session stuck_info stuck_base 40 15000 2 stuck_ops (Some 1) stuck_env))) = true.
Proof. vm_compute. done. Qed.

(** ** Scratchpad pages are not bounded by the window *)

(** 32 pages end behind the start of the device contexts, 1023 outside the window. *)
Definition scratch_caps (n : Z) : caps :=
  {| c_base := 0; c_dma := 0x100000; c_dma_size := 0x100000; c_op := 0x40; c_ir0 := 0x820; c_db := 0x1000;
     c_max_slots := 8; c_max_ports := 2; c_context_size := 32; c_scratchpads := n; c_hccparams1 := 0 |}.
Definition scratch_log (n : Z) : list action :=
  ev_log (fst (snd (build_rings (stuck_env, (Xhci (scratch_caps n) 4096 0 1 0 1, no_device))))).

Lemma scratchpads_unbounded :
  (exists a n, ARequest P_MEMSET8 [a; 0; n] ∈ scratch_log 32 /\ a < x_free (scratch_caps 32) < a + n) /\
  (exists a n, ARequest P_MEMSET8 [a; 0; n] ∈ scratch_log 1023 /\ ~ inside (scratch_caps 1023) a n).
Proof.
  split; [exists 0x105000, 0x20000|exists 0x105000, (1023 * 4096)].
  - split; [|unfold x_free; cbn; lia]. apply list_elem_of_In. vm_compute. tauto.
  - split; [|unfold inside; cbn; lia]. apply list_elem_of_In. vm_compute. tauto.
Qed.
