(* ===== verification/XhciLink.v ===== *)
(** * tools/a16xhci.py: [cmd_link], IPv6 over the USB network function

    The session that composes the driver ([Xhci]) with the network code ([Ncm]):
    attach, configure the NCM function, learn the peer's addresses from its traffic,
    advertise ours, ping, answer solicitations, release.  The link's own state is
    the sequence number of the next transfer block, passed along.

    [link_confined]: the whole command is confined on every target, like the
    sessions of [XhciSafe].  What [send_icmp] sends is covered by [Ncm]:
    a receiver that parses the block finds one frame, which passes its checks. *)

From Stdlib Require Import ZArith Lia.
From Stdlib Require Import Strings.Byte Strings.String.
From stdpp Require Import base list numbers strings gmap.
From S2P Require Import Prelude Bytes Transport Q1n1Link Target Preload Ncm Xhci XhciSafe.

Local Open Scope list_scope.
Local Open Scope Z_scope.
Local Open Scope py_scope.

(** ** Frames *)

Definition ETHERTYPE_IPV6 : bytes := [x86; xdd].
(** [len(frame) < 62 or frame[12:14] != b'\x86\xdd']. *)
Definition other_frame (frame : bytes) : bool := (length frame <? 62)%nat || negb (bytes_eqb (slice 12 14 frame) ETHERTYPE_IPV6).
(** [fe80::/10]. *)
Definition is_link_local (source : bytes) : bool :=
  match source with
  | s0 :: s1 :: _ => (byte_to_Z s0 =? 0xFE) && (Z.land (byte_to_Z s1) 0xC0 =? 0x80)
  | _ => false
  end.

(** The first frame that tells the peer's addresses. *)
Fixpoint learn_from (frames : list bytes) : option (bytes * bytes) :=
  match frames with
  | [] => None
  | frame :: rest =>
      if other_frame frame then learn_from rest
      else let source := slice 22 38 frame in
           if is_link_local source then Some (slice 6 12 frame, source) else learn_from rest
  end.

Definition ALL_NODES : bytes := [xff; x02] ++ replicate 13 x00 ++ [x01].

(** [struct.pack('>BBHI', 136, 0, 0, flags) + address + b'\x02\x01' + mac]. *)
Definition advert_body (flags : Z) (address mac : bytes) : result bytes :=
  let? f := pack_be 4 flags in
  Ok ([byte_of_Z 136; x00; x00; x00] ++ f ++ address ++ [x02; x01] ++ mac).
(** [struct.pack('>BBHHH', 128, 0, 0, identifier, number) + b'q1n1-xhci']. *)
Definition echo_body (identifier number : Z) : result bytes :=
  let? i := pack_be 2 identifier in
  let? n := pack_be 2 number in
  Ok ([byte_of_Z 128; x00; x00; x00] ++ i ++ n ++ list_byte_of_string "q1n1-xhci"%string).

Section Link.
  Context {S : Type} `{!TargetOps S}.
  Abbreviation XS := (S * (xhci * device))%type.
  (** The endpoints, the receive size and our addresses. *)
  Context (fuel : nat) (dci_out dci_in size : Z) (our_mac our_address : bytes).

Definition frames_in (timeout : Z) : M XS (list bytes) :=
  let! c := xc in
  let! data := receive fuel dci_in (x_free c + 0x20000) size timeout in
  match data with
  | None | Some [] => py_ret []
  | Some d =>
      let! p := py_lift (parse_ntb d) in
      py_ret match fst p with Some _ => snd p | None => [] end
  end.

Definition send_frames (frames : list bytes) (sequence : Z) : M XS Z :=
  let! c := xc in
  let! ntb := py_lift (build_ntb frames sequence) in
  send fuel dci_out (x_free c + 0x30000) ntb 2000 ;;;
  py_ret (sequence + 1).

(** An ICMPv6 message of ours in a transfer block of its own. *)
Definition send_icmp (mac destination body : bytes) (sequence : Z) : M XS Z :=
  let! frame := py_lift (icmp_frame our_mac mac our_address destination body) in
  send_frames [frame] sequence.

Fixpoint learn (n : nat) (deadline : Z) : M XS (option (bytes * bytes)) :=
  match n with
  | O => py_raise OutOfFuel
  | Datatypes.S k =>
      let! now := x_now in
      if now <? deadline then
        let! frames := frames_in 1000 in
        match learn_from frames with Some p => py_ret (Some p) | None => learn k deadline end
      else py_ret None
  end.

(** One batch while waiting for an echo reply: the sequence number, and whether the
    reply came. *)
Fixpoint answer (peer_address : bytes) (frames : list bytes) (sequence : Z) : M XS (Z * bool) :=
  match frames with
  | [] => py_ret (sequence, false)
  | frame :: rest =>
      if other_frame frame then answer peer_address rest sequence else
      let kind := byte_to_Z (default x00 (frame !! 54%nat)) in
      if (kind =? 135) && bytes_eqb (slice 62 78 frame) our_address then
        let target := slice 22 38 frame in
        let! body := py_lift (advert_body 0x60000000 our_address our_mac) in
        let! sequence := send_icmp (slice 6 12 frame) target body sequence in
        answer peer_address rest sequence
      else if (kind =? 129) && bytes_eqb (slice 22 38 frame) peer_address then py_ret (sequence, true)
      else answer peer_address rest sequence
  end.

Fixpoint await_reply (n : nat) (peer_address : bytes) (deadline sequence : Z) : M XS (Z * bool) :=
  match n with
  | O => py_raise OutOfFuel
  | Datatypes.S k =>
      let! now := x_now in
      if now <? deadline then
        let! got := frames_in 500 in
        let! r := answer peer_address got sequence in
        if snd r then py_ret r else await_reply k peer_address deadline (fst r)
      else py_ret (sequence, false)
  end.

Fixpoint pings (numbers : list Z) (peer_mac peer_address : bytes) (timeout sequence replies : Z) : M XS Z :=
  match numbers with
  | [] => py_ret replies
  | number :: rest =>
      let! body := py_lift (echo_body 0x71C1 number) in
      let! sequence := send_icmp peer_mac peer_address body sequence in
      let! now := x_now in
      let! r := await_reply fuel peer_address (now + timeout) sequence in
      pings rest peer_mac peer_address timeout (fst r) (if snd r then replies + 1 else replies)
  end.

(** From the configured function to the release; [None]: no peer was heard. *)
Definition exchange (learn_time : Z) (count : nat) (timeout data_interface : Z) : M XS (option Z) :=
  let! now := x_now in
  let! peer := learn fuel (now + learn_time) in
  match peer with
  | None => py_ret None
  | Some (peer_mac, peer_address) =>
      let! body := py_lift (advert_body 0x20000000 our_address our_mac) in
      let! sequence := send_icmp (multicast_mac ALL_NODES) ALL_NODES body 0 in
      let! replies := pings (map Z.of_nat (seq 0 count)) peer_mac peer_address timeout sequence 0 in
      release fuel (Some data_interface) ;;;
      xstop fuel 2000 ;;;
      py_ret (Some replies)
  end.
End Link.

(** [cmd_link] on an attached device. *)
Definition link_on {S} `{!TargetOps S} (fuel : nat) (control_interface : Z) (mac : bytes) (learn_time : Z) (count : nat) (timeout : Z)
    : M (S * (xhci * device)) (option Z) :=
  let data_interface := control_interface + 1 in
  let endpoint := control_interface / 2 + 1 in
  let dci_out := endpoint * 2 in
  let dci_in := endpoint * 2 + 1 in
  set_configuration fuel 1 ;;;
  configure_endpoints fuel [(dci_out, 2, 512); (dci_in, 6, 512)] ;;;
  set_interface fuel data_interface 1 ;;;
  let! raw := get_ntb_parameters fuel control_interface in
  let in_max := if (28 <=? length raw)%nat then le_Z (slice 4 8 raw) else 0x4000 in
  py_catch (set_packet_filter fuel control_interface 0x0F) is_xhci_error (py_ret tt) ;;;
  let! address := py_lift (eui64_link_local mac) in
  let size := Z.min (if in_max =? 0 then 0x4000 else in_max) 0x8000 in
  exchange fuel dci_out dci_in size mac address learn_time count timeout data_interface.

(** [cmd_link]; USB0 carries the proxy console. *)
Definition cmd_link {S} `{!TargetOps S} (info : boot_info) (base : Z) (fuel : nat) (wait control_interface : Z) (mac : bytes) (learn_time : Z) (count : nat) (timeout : Z)
    : M S Z :=
  if base =? USB0_BASE then py_ret 1 else
  let! p := attach info base fuel wait 4 in
  fun s => match link_on fuel control_interface mac learn_time count timeout (s, snd p) with
           | (Ok (Some replies), (s', _)) => (Ok (if replies =? 0 then 1 else 0), s')
           | (Ok None, (s', _)) => (Ok 1, s')
           | (Raise e, (s', _)) => (Raise e, s')
           end.

(** ** The command is confined *)

Lemma build_ntb_zlen frames sequence ntb : build_ntb frames sequence = Ok ntb -> zlen ntb < 65536.
Proof.
  intros (body & pointers & e & i & -> & (H1 & H2 & _) & _ & Ht)%build_ntb_shape. unfold zlen. rewrite !length_app, !length_le_bytes.
  change (length NCMH) with 4%nat. change (length NCM0) with 4%nat. lia.
Qed.

Section Confined.
  Context (c : caps) (Hc : caps_ok c) (fuel : nat) (dci_out dci_in size : Z) (mac address : bytes).
  Hypothesis Hout : dci_ok dci_out.
  Hypothesis Hin : dci_ok dci_in.
  Abbreviation sq := (sfq c (dev_ok c)).

Lemma q_frames_in timeout : sq any (frames_in fuel dci_in size timeout).
Proof.
  unfold frames_in. apply q_xc. apply (q_bind _ _ any); [by apply q_receive|]. intros [[|b d]|] _; [by apply q_ret| |by apply q_ret].
  eapply q_bind; [apply q_lift|]. intros p _. by apply q_ret.
Qed.

Lemma q_send_frames frames sequence : sq any (send_frames fuel dci_out frames sequence).
Proof.
  unfold send_frames. apply q_xc. eapply q_bind; [apply q_lift|]. intros ntb Hn%build_ntb_zlen. apply (q_bind _ _ any); [|intros; by apply q_ret].
  apply q_send; [done|done|done|]. destruct Hc as [Hd _]. unfold inside, x_free. unfold zlen in *. lia.
Qed.

Lemma q_send_icmp m destination body sequence : sq any (send_icmp fuel dci_out mac address m destination body sequence).
Proof. unfold send_icmp. eapply q_bind; [apply q_lift|]. intros f _. apply q_send_frames. Qed.

Lemma q_learn n deadline : sq any (learn fuel dci_in size n deadline).
Proof.
  induction n as [|k IH]; cbn [learn]; [apply q_raise|]. apply (q_bind _ _ any); [apply q_now|intros now _]. case_match; [|by apply q_ret].
  apply (q_bind _ _ any); [apply q_frames_in|intros l _]. case_match; [by apply q_ret|done].
Qed.

Lemma q_answer peer frames sequence : sq any (answer fuel dci_out mac address peer frames sequence).
Proof.
  revert sequence. induction frames as [|f frames IH]; intros sequence; cbn [answer]; [by apply q_ret|]. case_match; [done|]. case_match.
  - eapply q_bind; [apply q_lift|]. intros body _. apply (q_bind _ _ any); [apply q_send_icmp|intros n _; apply IH].
  - case_match; [by apply q_ret|done].
Qed.

Lemma q_await_reply n peer deadline sequence : sq any (await_reply fuel dci_out dci_in size mac address n peer deadline sequence).
Proof.
  revert sequence. induction n as [|k IH]; intros sequence; cbn [await_reply]; [apply q_raise|].
  apply (q_bind _ _ any); [apply q_now|intros now _]. case_match; [|by apply q_ret]. apply (q_bind _ _ any); [apply q_frames_in|intros l _].
  apply (q_bind _ _ any); [apply q_answer|intros [n b] _]. destruct b; [by apply q_ret|apply IH].
Qed.

Lemma q_pings numbers pm pa timeout sequence replies : sq any (pings fuel dci_out dci_in size mac address numbers pm pa timeout sequence replies).
Proof.
  revert sequence replies. induction numbers as [|n numbers IH]; intros sequence replies; cbn [pings]; [by apply q_ret|].
  eapply q_bind; [apply q_lift|]. intros body _. apply (q_bind _ _ any); [apply q_send_icmp|intros sq' _].
  apply (q_bind _ _ any); [apply q_now|intros now _]. apply (q_bind _ _ any); [apply q_await_reply|intros r _; apply IH].
Qed.

Lemma q_exchange lt count timeout di : sq any (exchange fuel dci_out dci_in size mac address lt count timeout di).
Proof.
  unfold exchange. apply (q_bind _ _ any); [apply q_now|intros now _]. apply (q_bind _ _ any); [apply q_learn|]. intros [[pm pa]|] _; [|by apply q_ret].
  eapply q_bind; [apply q_lift|]. intros body _. apply (q_bind _ _ any); [apply q_send_icmp|intros n _]. apply (q_bind _ _ any); [apply q_pings|intros r _].
  apply (q_bind _ _ any); [by apply q_release|intros _ _]. apply (q_bind _ _ any); [by apply q_stop|intros _ _; by apply q_ret].
Qed.
End Confined.

Lemma q_link_on c fuel ci mac lt count timeout : caps_ok c -> 0 <= ci <= 28 -> sfq c (dev_ok c) any (link_on fuel ci mac lt count timeout).
Proof.
  intros Hc Hci. pose proof (Z.div_mod ci 2 ltac:(lia)). pose proof (Z.mod_pos_bound ci 2 ltac:(lia)).
  assert (HD : forall v, dev_ok c v <-> dev_ok c v) by done. unfold link_on, set_configuration, set_interface, get_ntb_parameters, set_packet_filter. cbv zeta.
  assert (Hctl : forall rt rq v i l, sfq c (dev_ok c) any (control_transfer fuel rt rq v i l ;;; py_ret tt))
    by (intros; apply (q_bind _ _ any); [by apply q_control|intros; by apply q_ret]).
  apply (q_bind _ _ any); [apply Hctl|intros _ _]. apply (q_bind _ _ any).
  { apply q_configure; try done. repeat constructor; unfold dci_ok, endpoint_dci; cbn [fst]; lia. }
  intros _ _. apply (q_bind _ _ any); [apply Hctl|intros _ _]. apply (q_bind _ _ any); [by apply q_control|intros raw _].
  apply (q_bind _ _ any); [apply q_catch; [apply Hctl|by apply q_ret]|intros _ _]. eapply q_bind; [apply q_lift|]. intros a _.
  apply q_exchange; unfold dci_ok; done || lia.
Qed.

(** The whole command is confined on every target, whatever the peer sends, and
    never touches the controller that carries the console. *)
Theorem link_confined (e e' : env) (info : boot_info) (base : Z) (fuel : nat) (wait control_interface : Z) (mac : bytes)
    (learn_time : Z) (count : nat) (timeout : Z) (r : result Z) :
  lawful e -> 0 <= control_interface <= 28 -> cmd_link info base fuel wait control_interface mac learn_time count timeout e = (r, e') ->
  confined info base e e' /\ (base = USB0_BASE -> e' = e).
Proof.
  intros He Hci Hs. unfold cmd_link in Hs. destruct (Z.eqb_spec base USB0_BASE) as [Hb|Hb].
  { injection Hs as <- <-. split; [|done]. exists []. split; [done|]. split; [done|]. left. constructor. }
  split; [|done]. set (body := link_on fuel control_interface mac learn_time count timeout) in Hs.
  refine (attach_then (fun s => match body s with
    | (Ok (Some replies), (s', _)) => (Ok (if replies =? 0 then 1 else 0), s')
    | (Ok None, (s', _)) => (Ok 1, s') | (Raise x, (s', _)) => (Raise x, s') end) info base fuel wait 4 e r e' He _ Hs).
  intros c s Hc Hok. pose proof (q_link_on c fuel control_interface mac learn_time count timeout Hc Hci s) as Hq. fold body in Hq.
  destruct (body s) as [r1 [e1 xv]]. destruct (Hq r1 (e1, xv) Hok eq_refl) as [Hlog _]. destruct r1 as [[n|]|x]; exact Hlog.
Qed.
