(* ===== verification/GpuRegs.v ===== *)
(** * The register registry of the Adreno X2-90

    src/tools/adreno_x2.py names every register, memory window and constant the GPU
    tools may use, and src/tools/adreno_x2_protect.py the tables of the command
    processor.  A register carries its block, its power domain, the gate that must
    have been proven before it is touched, and what may be done to it; [REGS] is the
    registry, in the order of the source.  The evidence and the notes of an entry are
    documentation and are left out. *)

From Stdlib Require Import ZArith Lia.
From stdpp Require Import base list numbers strings.
From S2P Require Import Prelude.

Local Open Scope list_scope.
Local Open Scope string_scope.
Local Open Scope Z_scope.

(** ** Registers *)

Inductive domain := AO | CX | GX.

(** The gates of [GATES], and the two that only Stage 3 proves. *)
Inductive gate :=
| always | gpu_cfg_ahb | gpucc_critical | cx_fuse | cx_misc | cx_gmu | cx_smmu | gmu_reset | gx | never
| gmu_smmu | gmu_booted.

(** '', 'r' and 'rw'. *)
Inductive access := NoAcc | RO | RW.

Inductive halt := NoHalt | HALT | HALT_VOTED | HALT_DELAY | CRITICAL.

#[global] Instance domain_eq_dec : EqDecision domain.
Proof. solve_decision. Defined.
#[global] Instance gate_eq_dec : EqDecision gate.
Proof. solve_decision. Defined.
#[global] Instance halt_eq_dec : EqDecision halt.
Proof. solve_decision. Defined.

Record reg := Reg {
  rg_name : string;
  rg_addr : Z;
  rg_block : string;
  rg_domain : domain;
  rg_gate : gate;
  rg_access : access;
  rg_count : Z;
  rg_stride : Z;
  rg_halt : halt;
  rg_inner : Z;
  rg_inner_stride : Z
}.

Definition readable (r : reg) : bool := match rg_access r with NoAcc => false | _ => true end.
Definition writable (r : reg) : bool := match rg_access r with RW => true | _ => false end.

(** The address of entry [index] of a register array. *)
Definition reg_at (r : reg) (index : Z) : result Z :=
  if negb ((0 <=? index) && (index <? rg_count r)) then Raise IndexError else
  Ok (rg_addr r + rg_stride r * (index / rg_inner r) + rg_inner_stride r * (index mod rg_inner r)).

Record block := Block { bk_name : string; bk_base : Z; bk_size : Z; bk_domain : domain; bk_gate : gate }.

Definition BLOCKS : list block :=
  [Block "GCC" 0x100000 0x200000 AO always;
   Block "GICD" 0x17000000 0x10000 AO always;
   Block "CMD_DB" 0x81c60000 0x20000 AO always;
   Block "GPU" 0x3d00000 0xf000 GX gx;
   Block "GBIF" 0x3d0f000 0x1000 CX cx_gmu;
   Block "GPU" 0x3d10000 0x40000 GX gx;
   Block "RSCC" 0x3d50000 0x10000 CX cx_gmu;
   Block "GXCLKCTL" 0x3d64000 0x6000 GX gx;
   Block "GMU_GX" 0x3d6a000 0x2000 GX gx;
   Block "GMU" 0x3d6c000 0x24000 CX cx_gmu;
   Block "GPUCC" 0x3d90000 0x9800 CX gpu_cfg_ahb;
   Block "CX_MISC" 0x3d9e000 0x2000 CX cx_gmu;
   Block "SMMU" 0x3da0000 0x40000 CX cx_smmu;
   Block "APPS_RSC" 0x18900000 0x30000 AO always;
   Block "IMEM" 0x14680000 0x1000 AO always;
   Block "LLCC_BCAST" 0x20400000 0x400000 AO always;
   Block "RPMH_STATS" 0xc30f000 0x400 AO always;
   Block "LLCC0" 0x21800000 0x100000 AO always].

Definition block_of (addr : Z) : option block :=
  List.find (fun b => (bk_base b <=? addr) && (addr <? bk_base b + bk_size b)) BLOCKS.

(** An entry of the table written with Reg itself. *)
Definition reg_ (name : string) (addr : Z) (block : string) (d : domain) (g : gate) (a : access) (count stride : Z) : reg :=
  Reg name addr block d g a count stride NoHalt 1 0.

Definition _gcc (name : string) (off : Z) (a : access) (h : halt) (g : gate) : reg :=
  Reg name (0x00100000 + off) "GCC" AO g a 1 4 h 1 0.
Definition _gpucc (name : string) (off : Z) (a : access) (h : halt) (g : gate) (d : domain) : reg :=
  Reg name (0x03D90000 + off) "GPUCC" d g a 1 4 h 1 0.
Definition _gicd (name : string) (off count stride : Z) : reg :=
  reg_ name (0x17000000 + off) "GICD" AO always RO count stride.

Definition GPU_BASE : Z := 0x03D00000.
Definition SMMU_CB_BASE : Z := 0x3dc0000.
Definition SMMU_NUM_CB : Z := 0x19.
Definition RSC_TCS : Z := 0x18920d00.
Definition RSC_NUM_TCS : Z := 8.

Definition _gmu (name : string) (dword : Z) (a : access) (g : gate) (count : Z) : reg :=
  reg_ name (GPU_BASE + 4 * dword) "GMU" CX g a count 4.
Definition _gx (name : string) (dword : Z) (a : access) (count : Z) : reg :=
  reg_ name (GPU_BASE + 4 * dword) "GPU" GX gx a count 4.
Definition _gbif (name : string) (dword : Z) (a : access) : reg :=
  reg_ name (GPU_BASE + 4 * dword) "GBIF" CX cx_gmu a 1 4.
Definition _rscc (name : string) (dword : Z) (a : access) : reg :=
  reg_ name (0x03D50000 + 4 * dword) "RSCC" CX cx_gmu a 1 4.
Definition _pll (name : string) (off : Z) (a : access) : reg :=
  reg_ name (0x03D90000 + off) "GPUCC" CX gpu_cfg_ahb a 1 4.
Definition _cb (name : string) (off : Z) (a : access) : reg :=
  reg_ name (SMMU_CB_BASE + off) "SMMU" CX cx_smmu a SMMU_NUM_CB 0x1000.
Definition _tcs (name : string) (v3_off v2_off : Z) : list reg :=
  [reg_ (name +:+ "_V3") (RSC_TCS + v3_off) "APPS_RSC" AO always RW RSC_NUM_TCS 672;
   reg_ (name +:+ "_V2") (RSC_TCS + v2_off) "APPS_RSC" AO always RW RSC_NUM_TCS 672].
Definition _tcs_cmd (name : string) (v3_off v2_off : Z) : list reg :=
  [Reg (name +:+ "_V3") (RSC_TCS + v3_off) "APPS_RSC" AO always RW (RSC_NUM_TCS * 16) 672 NoHalt 16 24;
   Reg (name +:+ "_V2") (RSC_TCS + v2_off) "APPS_RSC" AO always RW (RSC_NUM_TCS * 16) 672 NoHalt 16 20].

(** ** The registry *)

Definition REGS_GIC : list reg :=
  [_gicd "GICD_CTLR" 0 1 4;
   _gicd "GICD_TYPER" 4 1 4;
   _gicd "GICD_IGROUPR" 0x80 32 4;
   _gicd "GICD_ISENABLER" 0x100 32 4;
   _gicd "GICD_ISPENDR" 0x200 32 4;
   _gicd "GICD_ICFGR" 0xc00 64 4;
   _gicd "GICD_IROUTER_LO" 0x6000 1020 8].

Definition REGS_GCC : list reg :=
  [_gcc "GCC_GPU_BCR" 0x71000 RO NoHalt always;
   _gcc "GCC_GPU_CFG_AHB_CBCR" 0x71004 RO NoHalt always;
   _gcc "GCC_QMIP_GPU_AHB_CBCR" 0x71008 RO NoHalt always;
   _gcc "GCC_GPU_GEMNOC_GFX_CBCR" 0x71010 RW HALT_VOTED always;
   _gcc "GCC_GPU_GPLL0_CLK_SRC_CBCR" 0x71024 RO HALT_VOTED always;
   _gcc "GCC_GPU_GPLL0_DIV_CLK_SRC_CBCR" 0x7102c RO HALT_VOTED always;
   _gcc "GCC_APCS_CLOCK_BRANCH_ENA_VOTE" 0x62038 RW NoHalt always].

Definition REGS_GPUCC : list reg :=
  [_gpucc "GPU_CC_PLL0_MODE" 0 RW NoHalt gpu_cfg_ahb CX;
   _gpucc "GPU_CC_RSCC_XO_AON_CBCR" 0x9004 RW CRITICAL gpu_cfg_ahb CX;
   _gpucc "GPU_CC_CXO_AON_CBCR" 0x9008 RW CRITICAL gpu_cfg_ahb CX;
   _gpucc "GPU_CC_CX_GDSCR" 0x9080 RW NoHalt gpu_cfg_ahb CX;
   _gpucc "GPU_CC_CX_CFG_GDSCR" 0x9084 RO NoHalt gpu_cfg_ahb CX;
   _gpucc "GPU_CC_CX_GDS_HW_CTRL" 0x9094 RO NoHalt gpu_cfg_ahb CX;
   _gpucc "GPU_CC_AHB_CBCR" 0x90bc RW HALT_DELAY gpu_cfg_ahb CX;
   _gpucc "GPU_CC_SLEEP_CBCR" 0x90cc RO HALT gpu_cfg_ahb CX;
   _gpucc "GPU_CC_CX_GMU_CBCR" 0x90d4 RW HALT_VOTED gpu_cfg_ahb CX;
   _gpucc "GPU_CC_CXO_CBCR" 0x90e4 RW HALT gpu_cfg_ahb CX;
   _gpucc "GPU_CC_HUB_CX_INT_CBCR" 0x90e8 RW HALT_VOTED gpu_cfg_ahb CX;
   _gpucc "GPU_CC_MEMNOC_GFX_CBCR" 0x90f0 RO HALT_VOTED gpu_cfg_ahb CX;
   _gpucc "GPU_CC_GMU_CMD_RCGR" 0x9318 RW NoHalt gpu_cfg_ahb CX;
   _gpucc "GPU_CC_GMU_CFG_RCGR" 0x931c RW NoHalt gpu_cfg_ahb CX;
   _gpucc "GPU_CC_CB_CBCR" 0x93a4 RW CRITICAL gpu_cfg_ahb CX;
   _gpucc "GPU_CC_RSCC_HUB_AON_CBCR" 0x93e8 RW HALT gpu_cfg_ahb CX;
   _gpucc "GPU_CC_HUB_AON_CBCR" 0x93ec RO HALT_VOTED gpu_cfg_ahb CX;
   _gpucc "GPU_CC_HUB_CMD_RCGR" 0x93f0 RW NoHalt gpu_cfg_ahb CX;
   _gpucc "GPU_CC_HUB_CFG_RCGR" 0x93f4 RW NoHalt gpu_cfg_ahb CX;
   _gpucc "GPU_CC_FF_CMD_RCGR" 0x9474 RW NoHalt gpu_cfg_ahb CX;
   _gpucc "GPU_CC_FF_CFG_RCGR" 0x9478 RW NoHalt gpu_cfg_ahb CX;
   _gpucc "GPU_CC_GPU_SMMU_VOTE_CBCR" 0x7000 RW HALT_VOTED gpu_cfg_ahb CX;
   _gpucc "GPU_CC_XO_BCR" 0x9000 NoAcc NoHalt never CX;
   _gpucc "GPU_CC_CX_BCR" 0x907c NoAcc NoHalt never CX;
   _gpucc "GPU_CC_GMU_BCR" 0x9314 NoAcc NoHalt never CX;
   _gpucc "GPU_CC_CB_BCR" 0x93a0 NoAcc NoHalt never CX;
   _gpucc "GPU_CC_FAST_HUB_BCR" 0x93e4 NoAcc NoHalt never CX;
   _gpucc "GPU_CC_FF_BCR" 0x9470 NoAcc NoHalt never CX;
   _gpucc "GPU_CC_GX_BCR" 0x905c NoAcc NoHalt never GX;
   _gpucc "GPU_CC_GX_GMU_CBCR" 0x9060 NoAcc HALT gx GX;
   _gpucc "GPU_CC_GX_GDSCR_XML" 0x100c NoAcc NoHalt never GX].

Definition REGS_CX_MISC : list reg :=
  [reg_ "CX_MISC_TCM_RET_CNTL" 0x3d9e0e4 "CX_MISC" CX cx_misc RO 1 4;
   reg_ "CX_MISC_SLICE_ENABLE_FINAL" 0x3d9e21c "CX_MISC" CX cx_misc RO 1 4;
   reg_ "CX_MISC_SW_FUSE_VALUE" 0x3d9f000 "CX_MISC" CX cx_misc RO 1 4;
   reg_ "CX_MISC_SW_FUSE_FREQ_LIMIT_STATUS" 0x3d9f014 "CX_MISC" CX cx_fuse RO 1 4].

Definition REGS_GBIF1 : list reg :=
  [reg_ "GBIF_CX_CONFIG" 0x3d0f000 "GBIF" CX cx_gmu RW 1 4;
   reg_ "GBIF_HALT" 0x3d0f114 "GBIF" CX cx_gmu RW 1 4].

Definition REGS_GMU1 : list reg :=
  [reg_ "GMU_CORE_FW_VERSION" 0x3d74fe0 "GMU" CX cx_gmu RO 1 4;
   reg_ "GMU_PWR_CLK_STATUS" 0x3d7dfa0 "GMU" CX cx_gmu RO 1 4;
   reg_ "GMU_CX_FAL_INTF" 0x3d7dfb0 "GMU" CX cx_gmu RW 1 4;
   reg_ "GMU_CX_FALNEXT_INTF" 0x3d7dfb4 "GMU" CX cx_gmu RW 1 4;
   reg_ "GMU_GMU2HOST_INTR_INFO" 0x3d7e648 "GMU" CX cx_gmu RO 1 4;
   reg_ "GMU_HOST2GMU_INTR_SET" 0x3d7e650 "GMU" CX cx_gmu RW 1 4].

Definition REGS_GX1 : list reg :=
  [reg_ "GX_GDSCR" 0x3d68024 "GXCLKCTL" GX gx NoAcc 1 4;
   reg_ "RBBM_STATUS" 0x3d00048 "GPU" GX gx RO 1 4;
   reg_ "RBBM_SECVID_TRUST_CNTL" 0x3d3d000 "GPU" GX gx RW 1 4;
   reg_ "CP_SQE_INSTR_BASE" 0x3d02058 "GPU" GX gx RW 1 4].

Definition REGS_SMMU1 : list reg :=
  [reg_ "SMMU_sCR0" 0x3da0000 "SMMU" CX cx_smmu RW 1 4;
   reg_ "SMMU_IDR0" 0x3da0020 "SMMU" CX cx_smmu RO 1 4;
   reg_ "SMMU_IDR1" 0x3da0024 "SMMU" CX cx_smmu RO 1 4;
   reg_ "SMMU_IDR2" 0x3da0028 "SMMU" CX cx_smmu RO 1 4;
   reg_ "SMMU_IDR7" 0x3da003c "SMMU" CX cx_smmu RO 1 4;
   reg_ "SMMU_SMR" 0x3da0800 "SMMU" CX cx_smmu RW 128 4;
   reg_ "SMMU_S2CR" 0x3da0c00 "SMMU" CX cx_smmu RW 128 4].

Definition REGS_PLL0 : list reg :=
  [_pll "GPU_CC_PLL0_OPMODE" 4 RW;
   _pll "GPU_CC_PLL0_STATE" 8 RO;
   _pll "GPU_CC_PLL0_STATUS" 0xc RO;
   _pll "GPU_CC_PLL0_L_VAL" 0x10 RW;
   _pll "GPU_CC_PLL0_ALPHA_VAL" 0x14 RW;
   _pll "GPU_CC_PLL0_USER_CTL" 0x18 RW;
   _pll "GPU_CC_PLL0_USER_CTL_U" 0x1c RW;
   _pll "GPU_CC_PLL0_CONFIG_CTL" 0x20 RW;
   _pll "GPU_CC_PLL0_CONFIG_CTL_U" 0x24 RW;
   _pll "GPU_CC_PLL0_CONFIG_CTL_U1" 0x28 RW].

Definition REGS_GMU : list reg :=
  [_gmu "GMU_CM3_ITCM" 0x1b400 RW gmu_reset 0x1000;
   _gmu "GMU_CM3_DTCM" 0x1c400 RW gmu_reset 0x1000;
   _gmu "GMU_ICACHE_CONFIG" 0x1f400 RW cx_gmu 1;
   _gmu "GMU_DCACHE_CONFIG" 0x1f401 RW cx_gmu 1;
   _gmu "GMU_SYS_BUS_CONFIG" 0x1f40f RW cx_gmu 1;
   _gmu "GMU_MRC_GBIF_QOS_CTRL" 0x1f50b RW cx_gmu 1;
   _gmu "GMU_GMU_PWR_COL_KEEPALIVE" 0x1f7e4 RW cx_gmu 1;
   _gmu "GMU_RPMH_POWER_STATE" 0x1f7e9 RO cx_gmu 1;
   _gmu "GMU_CM3_SYSRESET" 0x1f800 RW cx_gmu 1;
   _gmu "GMU_CM3_BOOT_CONFIG" 0x1f801 RW cx_gmu 1;
   _gmu "GMU_CM3_FW_INIT_RESULT" 0x1f81c RW cx_gmu 1;
   _gmu "GMU_CM3_CFG" 0x1f82d RW cx_gmu 1;
   _gmu "GMU_POWER_COUNTER_ENABLE" 0x1fc10 RW cx_gmu 1;
   _gmu "GMU_POWER_COUNTER_SELECT_XOCLK_0" 0x1fc40 RW cx_gmu 1;
   _gmu "GMU_POWER_COUNTER_SELECT_XOCLK_1" 0x1fc41 RW cx_gmu 1;
   _gmu "GMU_HFI_CTRL_STATUS" 0x1f980 RO cx_gmu 1;
   _gmu "GMU_HFI_QTBL_INFO" 0x1f984 RW cx_gmu 1;
   _gmu "GMU_HFI_QTBL_ADDR" 0x1f985 RW cx_gmu 1;
   _gmu "GMU_HFI_CTRL_INIT" 0x1f986 RW cx_gmu 1;
   _gmu "GMU_GMU2HOST_INTR_CLR" 0x1f991 RW cx_gmu 1;
   _gmu "GMU_GMU2HOST_INTR_MASK" 0x1f993 RW cx_gmu 1;
   _gmu "GMU_GENERAL_8" 0x1f9c8 RW cx_gmu 1;
   _gmu "GMU_GENERAL_9" 0x1f9c9 RW cx_gmu 1;
   _gmu "GMU_GENERAL_10" 0x1f9ca RW cx_gmu 1;
   _gmu "GMU_AO_HOST_INTERRUPT_CLR" 0x23b04 RW cx_gmu 1;
   _gmu "GMU_AO_HOST_INTERRUPT_STATUS" 0x23b05 RO cx_gmu 1;
   _gmu "GMU_AO_HOST_INTERRUPT_MASK" 0x23b06 RW cx_gmu 1;
   _gmu "GMU_RSCC_CONTROL_REQ" 0x23b07 RW cx_gmu 1;
   _gmu "GMU_RSCC_CONTROL_ACK" 0x23b08 RO cx_gmu 1;
   _gmu "GMU_AO_GPU_CX_BUSY_STATUS" 0x23b0c RO cx_gmu 1;
   _gmu "GMU_AO_GPU_CX_BUSY_MASK" 0x23b0e RW cx_gmu 1;
   _gmu "GMU_AO_AHB_FENCE_CTRL" 0x23b10 RW cx_gmu 1;
   _gmu "GMU_AHB_FENCE_RANGE_0" 0x23b11 RW cx_gmu 1;
   _gmu "GMU_AHB_FENCE_STATUS" 0x23b13 RO cx_gmu 1;
   _gmu "GMU_AHB_FENCE_STATUS_CLR" 0x23b14 RW cx_gmu 1].

Definition REGS_RSCC : list reg :=
  [_rscc "RSCC_RSC_STATUS0_DRV0" 4 RO;
   _rscc "RSCC_SEQ_BUSY_DRV0" 0x101 RO;
   reg_ "RSCC_TCS_DRV0_STATUS" 0x3d50d28 "RSCC" CX cx_gmu RO 10 0x2a0].

Definition REGS_GBIF : list reg :=
  [_gbif "GBIF_QSB_SIDE0" 0x3c03 RW;
   _gbif "GBIF_QSB_SIDE1" 0x3c04 RW;
   _gbif "GBIF_QSB_SIDE2" 0x3c05 RW;
   _gbif "GBIF_QSB_SIDE3" 0x3c06 RW;
   _gbif "GBIF_HALT_ACK" 0x3c46 RO].

Definition REGS_SMMU : list reg :=
  [reg_ "SMMU_sGFSR" 0x3da0048 "SMMU" CX cx_smmu RW 1 4;
   reg_ "SMMU_sGFSYNR0" 0x3da0050 "SMMU" CX cx_smmu RO 1 4;
   reg_ "SMMU_CBAR" 0x3da1000 "SMMU" CX cx_smmu RW 25 4;
   reg_ "SMMU_CBFRSYNRA" 0x3da1400 "SMMU" CX cx_smmu RO 25 4;
   reg_ "SMMU_CBA2R" 0x3da1800 "SMMU" CX cx_smmu RW 25 4;
   _cb "SMMU_CB_SCTLR" 0 RW;
   _cb "SMMU_CB_ACTLR" 4 RW;
   _cb "SMMU_CB_TCR2" 0x10 RW;
   _cb "SMMU_CB_TTBR0" 0x20 RW;
   _cb "SMMU_CB_TTBR0_HI" 0x24 RW;
   _cb "SMMU_CB_TTBR1" 0x28 RW;
   _cb "SMMU_CB_TTBR1_HI" 0x2c RW;
   _cb "SMMU_CB_TCR" 0x30 RW;
   _cb "SMMU_CB_MAIR0" 0x38 RW;
   _cb "SMMU_CB_MAIR1" 0x3c RW;
   _cb "SMMU_CB_FSR" 0x58 RW;
   _cb "SMMU_CB_FAR" 0x60 RO;
   _cb "SMMU_CB_FAR_HI" 0x64 RO;
   _cb "SMMU_CB_FSYNR0" 0x68 RO;
   _cb "SMMU_CB_TLBIASID" 0x610 RW;
   _cb "SMMU_CB_TLBSYNC" 0x7f0 RW;
   _cb "SMMU_CB_TLBSTATUS" 0x7f4 RO].

Definition REGS_RSC : list reg :=
  [reg_ "RSC_DRV_ID" 0x18920000 "APPS_RSC" AO always RO 1 4;
   reg_ "RSC_DRV_PRNT_CHLD_CONFIG" 0x1892000c "APPS_RSC" AO always RO 1 4;
   reg_ "RSC_IRQ_ENABLE" 0x18920d00 "APPS_RSC" AO always RW 1 4;
   reg_ "RSC_IRQ_STATUS" 0x18920d04 "APPS_RSC" AO always RO 1 4;
   reg_ "RSC_IRQ_CLEAR" 0x18920d08 "APPS_RSC" AO always RW 1 4].

Definition REGS_TCS : list reg :=
  _tcs "RSC_TCS_WAIT_FOR_CMPL" 0x20 0x10 ++ _tcs "RSC_TCS_CONTROL" 0x24 0x14 ++ _tcs "RSC_TCS_STATUS" 0x28 0x18 ++ _tcs "RSC_TCS_CMD_ENABLE" 0x2c 0x1c ++ _tcs_cmd "RSC_TCS_CMD_MSGID" 0x34 0x30 ++ _tcs_cmd "RSC_TCS_CMD_ADDR" 0x38 0x34 ++ _tcs_cmd "RSC_TCS_CMD_DATA" 0x3c 0x38 ++ _tcs_cmd "RSC_TCS_CMD_STATUS" 0x40 0x3c.

Definition REGS_GXa : list reg :=
  [_gx "RBBM_GBIF_HALT" 0xa RW 1;
   _gx "RBBM_GBIF_HALT_ACK" 0xb RO 1;
   _gx "RBBM_GBIF_CLIENT_QOS_CNTL" 8 RW 1;
   _gx "RBBM_WAIT_IDLE_CLOCKS_CNTL" 0x10 RW 1;
   _gx "RBBM_WAIT_IDLE_CLOCKS_CNTL2" 0x11 RW 1;
   _gx "RBBM_STATUS1" 0x13 RO 1;
   _gx "RBBM_INTERFACE_HANG_INT_CNTL" 0x2f RW 1;
   _gx "RBBM_INT_0_MASK" 0x62 RW 1;
   _gx "RBBM_INT_0_STATUS" 0x6a RO 1;
   _gx "RBBM_CGC_P2S_CNTL" 0x9d RW 1;
   _gx "RBBM_PERFCTR_GPU_BUSY_MASKED" 0x19e RW 1;
   _gx "RBBM_NC_MODE_CNTL" 0x440 RW 1;
   _gx "RBBM_PERFCTR_CNTL" 0x460 RW 1;
   _gx "RBBM_SLICE_PERFCTR_CNTL" 0x500 RW 1;
   _gx "RBBM_SLICE_INTERFACE_HANG_INT_CNTL" 0x58f RW 1;
   _gx "RBBM_SLICE_NC_MODE_CNTL" 0x5ec RW 1;
   _gx "CP_RB_BASE" 0x800 RW 1;
   _gx "CP_RB_BASE_HI" 0x801 RW 1;
   _gx "CP_RB_CNTL" 0x802 RW 1;
   _gx "CP_RB_RPTR_ADDR" 0x804 RW 1;
   _gx "CP_RB_RPTR_ADDR_HI" 0x805 RW 1;
   _gx "CP_RB_RPTR" 0x806 RO 1;
   _gx "CP_RB_WPTR" 0x807 RW 1;
   _gx "CP_RB_RPTR_ADDR_BV" 0x808 RW 1;
   _gx "CP_RB_RPTR_ADDR_BV_HI" 0x809 RW 1;
   _gx "CP_SMMU_STREAM_ID_LPAC" 0x814 RW 1;
   _gx "CP_SQE_CNTL" 0x815 RW 1;
   _gx "CP_SQE_INSTR_BASE_HI" 0x817 RW 1;
   _gx "CP_APERTURE_CNTL_HOST" 0x81c RW 1;
   _gx "CP_APRIV_CNTL_PIPE" 0x84d RW 1;
   _gx "CP_PROTECT_CNTL_PIPE" 0x84e RW 1;
   _gx "CP_PROTECT_GLOBAL" 0x850 RW 64;
   _gx "CP_PROTECT_PIPE" 0x8a0 RW 16;
   _gx "CP_HW_FAULT_STATUS_MASK_PIPE" 0x8b4 RW 1;
   _gx "CP_INTERRUPT_STATUS_MASK_GLOBAL" 0x8b6 RW 1;
   _gx "CP_INTERRUPT_STATUS_MASK_PIPE" 0x8b8 RW 1;
   _gx "CP_PERFCTR_CP_SEL" 0x8d0 RW 16;
   _gx "UCHE_MODE_CNTL" 0xe01 RW 1;
   _gx "UCHE_WRITE_THRU_BASE" 0xe06 RW 2;
   _gx "UCHE_TRAP_BASE" 0xe08 RW 2].

Definition REGS_GXb : list reg :=
  [_gx "UCHE_VARB_IDLE_TIMEOUT" 0xe10 RW 1;
   _gx "UCHE_CLIENT_PF" 0xe11 RW 1;
   _gx "UCHE_GBIF_GX_CONFIG" 0xe12 RW 1;
   _gx "UCHE_CCHE_MODE_CNTL" 0xf01 RW 1;
   _gx "UCHE_CCHE_CACHE_WAYS" 0xf02 RW 1;
   _gx "UCHE_CCHE_WRITE_THRU_BASE" 0xf04 RW 2;
   _gx "UCHE_CCHE_TRAP_BASE" 0xf06 RW 2;
   _gx "UCHE_CCHE_GC_GMEM_RANGE_MIN" 0xf08 RW 2;
   _gx "GRAS_TSEFE_DBG_ECO_CNTL" 0x8600 RW 1;
   _gx "GRAS_DBG_ECO_CNTL" 0x8702 RW 1;
   _gx "RB_GC_GMEM_PROTECT" 0x8e09 RW 1;
   _gx "RB_CONTEXT_SWITCH_GMEM_SAVE_RESTORE_ENABLE" 0x8e50 RW 1;
   _gx "RB_RESOLVE_PREFETCH_CNTL" 0x8f01 RW 1;
   _gx "RB_CMP_DBG_ECO_CNTL" 0x8f02 RW 1;
   _gx "VPC_FLATSHADE_MODE_CNTL" 0x9741 RW 1;
   _gx "PC_AUTO_VERTEX_STRIDE" 0x9e0a RW 1;
   _gx "PC_VIS_STREAM_CNTL" 0x9e0d RW 1;
   _gx "PC_CHICKEN_BITS_3" 0x9e22 RW 1;
   _gx "PC_CHICKEN_BITS_4" 0x9e23 RW 1;
   _gx "PC_CHICKEN_BITS_1" 0x9e50 RW 1;
   _gx "PC_CONTEXT_SWITCH_STABILIZE_CNTL_1" 0x9e64 RW 1;
   _gx "PC_CHICKEN_BITS_2" 0x9f20 RW 1;
   _gx "VFD_DBG_ECO_CNTL" 0xa600 RW 1;
   _gx "VFD_CB_BV_THRESHOLD" 0xa639 RW 1;
   _gx "VFD_CB_BR_THRESHOLD" 0xa63a RW 1;
   _gx "VFD_CB_BUSY_REQ_CNT" 0xa63b RW 1;
   _gx "VFD_CB_LP_REQ_CNT" 0xa63c RW 1;
   _gx "SP_CHICKEN_BITS_2" 0xae09 RW 1;
   _gx "SP_CHICKEN_BITS_3" 0xae0a RW 1;
   _gx "SP_PERFCTR_SHADER_MASK" 0xae0f RW 1;
   _gx "SP_HLSQ_TIMEOUT_THRESHOLD_DP" 0xae6b RW 1;
   _gx "SP_READ_SEL" 0xae6d RW 1;
   _gx "SP_HLSQ_DBG_ECO_CNTL_2" 0xae74 RW 1;
   _gx "SP_HLSQ_GC_GMEM_RANGE_MIN" 0xae10 RW 2;
   _gx "TPL1_DBG_ECO_CNTL" 0xb600 RW 1;
   _gx "TPL1_DBG_ECO_CNTL1" 0xb602 RW 1;
   _gx "TPL1_BICUBIC_WEIGHTS_TABLE" 0xb606 RW 20;
   _gx "RBBM_SECVID_TSB_TRUSTED_BASE" 0xf800 RW 2;
   _gx "RBBM_SECVID_TSB_TRUSTED_SIZE" 0xf802 RW 1;
   _gx "RBBM_SECVID_TSB_CNTL" 0xf803 RW 1].

Definition REGS_DIAG : list reg :=
  [_gx "CP_AQE_INSTR_BASE_0" 0x818 RO 2;
   _gx "CP_CP2GMU_STATUS" 0x822 RO 1;
   _gx "CP_INTERRUPT_STATUS_GLOBAL" 0x8b5 RO 1;
   _gx "RBBM_SW_FUSE_INT_STATUS" 0x71 RO 1;
   reg_ "SMMU_sGFAR" 0x3da0040 "SMMU" CX cx_smmu RO 1 4;
   reg_ "SMMU_sGFAR_HI" 0x3da0044 "SMMU" CX cx_smmu RO 1 4;
   reg_ "SMMU_sGFSYNR1" 0x3da0054 "SMMU" CX cx_smmu RO 1 4;
   reg_ "SMMU_sGFSYNR2" 0x3da0058 "SMMU" CX cx_smmu RO 1 4;
   _cb "SMMU_CB_FSYNR1" 0x6c RO;
   reg_ "CX_MISC_CX_AHB_CNTL" 0x3d9e040 "CX_MISC" CX cx_misc RW 5 4;
   reg_ "IMEM_DLOAD_MAGIC" 0x14680000 "IMEM" AO always RO 2 4;
   reg_ "IMEM_DLOAD_TYPE" 0x1468001c "IMEM" AO always RO 1 4;
   reg_ "IMEM_RESTART_REASON" 0x1468065c "IMEM" AO always RO 1 4;
   reg_ "IMEM_BOOT_STATS" 0x146806b0 "IMEM" AO always RO 8 4;
   reg_ "IMEM_PIL_RELOC" 0x1468094c "IMEM" AO always RO 1 4;
   reg_ "LLCC_BCAST_TRP_STATUS" 0x20400004 "LLCC_BCAST" AO always RO 32 0x1000;
   reg_ "LLCC_BCAST_AND_TRP_STATUS" 0x20600004 "LLCC_BCAST" AO always RO 32 0x1000;
   reg_ "RPMH_DDR_STATS" 0xc30f0b8 "RPMH_STATS" AO always RO 130 4;
   reg_ "LLCC_BCAST_TRP_ACT_CTRL" 0x20400000 "LLCC_BCAST" AO always RW 32 0x1000;
   reg_ "LLCC_BCAST_TRP_ACT_CLEAR" 0x20400008 "LLCC_BCAST" AO always RW 32 0x1000;
   reg_ "LLCC_BCAST_COMMON_HW_INFO" 0x20464000 "LLCC_BCAST" AO always RO 1 4;
   reg_ "LLCC0_COMMON_STATUS0" 0x2186400c "LLCC0" AO always RO 1 4].

Definition LLCC_BASES : list (string * Z * access) := [("BCAST", 0x20400000, RW); ("BCAST_AND", 0x20600000, RO)].

Definition REGS_LLCC_ATTR : list reg :=
  flat_map (fun '(base, addr, a) =>
    map (fun '(n, off) => reg_ ("LLCC_" +:+ base +:+ "_TRP_ATTR" +:+ n) (addr + off) "LLCC_BCAST" AO always a 32 64)
      [("0", 0x41000); ("1", 0x41008); ("2", 0x41010); ("3", 0x41014)]) LLCC_BASES.

Definition REGS_LLCC_ALGO : list reg :=
  flat_map (fun '(base, addr, a) =>
    map (fun '(name, off) => reg_ ("LLCC_" +:+ base +:+ "_" +:+ name) (addr + off) "LLCC_BCAST" AO always a 2 4)
      [("ALGO_STALE_EN", 0x42008); ("ALGO_STALE_CAP_EN", 0x42010); ("ALGO_MRU0", 0x42018); ("ALGO_MRU1", 0x42020);
       ("ALGO_ALLOC0", 0x42028); ("ALGO_ALLOC1", 0x42030); ("ALGO_ALLOC2", 0x42038); ("ALGO_ALLOC3", 0x42040);
       ("WRS_EN", 0x42080); ("WRS_CACHEABLE_EN", 0x42088)]) LLCC_BASES.

Definition REGS_SCACHE : list reg :=
  [_gbif "GBIF_SCACHE_CNTL0" 0x3c01 RW;
   _gbif "GBIF_SCACHE_CNTL1" 0x3c02 RW].

Definition REGS_X290 : list reg :=
  [_gx "RBBM_CLOCK_CNTL_GLOBAL" 0x9a RO 1;
   _gx "RBBM_CGC_GLOBAL_LOAD_CMD" 0x9b RO 1;
   _gx "RBBM_CGC_P2S_STATUS" 0x9f RO 1;
   _gx "RBBM_CGC_0_PC" 0x10b RO 1;
   _gx "UCHE_CCHE_LPAC_GMEM_RANGE_MIN" 0xf0a RO 2;
   _gx "RB_CCU_CNTL" 0x8e07 RO 1;
   _gx "RB_CCU_NC_MODE_CNTL" 0x8e08 RW 1;
   _gx "RB_LPAC_GMEM_PROTECT" 0x8e0a RO 1;
   _gx "RB_CCU_CACHE_CNTL" 0x88e5 RO 1;
   _gx "GRAS_NC_MODE_CNTL" 0x8700 RW 1;
   _gx "RB_CMP_NC_MODE_CNTL" 0x8f00 RW 1;
   _gx "RB_UNSLICE_STATUS" 0x8f03 RO 1;
   _gx "SP_NC_MODE_CNTL" 0xae02 RW 1;
   _gx "SP_HLSQ_LPAC_GMEM_RANGE_MIN" 0xae12 RO 2;
   _gx "TPL1_NC_MODE_CNTL" 0xb604 RW 1;
   _gmu "GMU_AO_GMU_CGC_MODE_CNTL" 0x23b09 RO cx_gmu 1;
   _gmu "GMU_AO_GMU_CGC_DELAY_CNTL" 0x23b0a RO cx_gmu 1;
   _gmu "GMU_AO_GMU_CGC_HYST_CNTL" 0x23b0b RO cx_gmu 1].

Definition REGS : list reg :=
  REGS_GIC ++ REGS_GCC ++ REGS_GPUCC ++ REGS_CX_MISC ++ REGS_GBIF1 ++ REGS_GMU1 ++ REGS_GX1 ++ REGS_SMMU1 ++
  REGS_PLL0 ++ REGS_GMU ++ REGS_RSCC ++ REGS_GBIF ++ REGS_SMMU ++ REGS_RSC ++ REGS_TCS ++ REGS_GXa ++ REGS_GXb ++
  REGS_DIAG ++ REGS_LLCC_ATTR ++ REGS_LLCC_ALGO ++ REGS_SCACHE ++ REGS_X290.

(** REGS[name]. *)
Definition reg_named (name : string) : result reg :=
  match List.find (fun r => String.eqb (rg_name r) name) REGS with Some r => Ok r | None => Raise (KeyError name) end.

(** ** Constants *)
Definition BCR_BLK_ARES : Z := 1.
Definition CBCR_CLK_ENABLE : Z := 1.
Definition CBCR_HW_CTL : Z := 2.
Definition CBCR_CLK_OFF : Z := 0x80000000.
Definition GDSC_SW_COLLAPSE : Z := 1.
Definition GDSC_HW_CONTROL : Z := 2.
Definition GDSC_SW_OVERRIDE : Z := 4.
Definition GDSC_CLK_DIS_WAIT : Z := 0xf000.
Definition GDSC_EN_FEW_WAIT : Z := 0xf0000.
Definition GDSC_EN_REST_WAIT : Z := 0xf00000.
Definition GDSC_RETAIN_FF : Z := 0x800.
Definition GDSC_PWR_ON : Z := 0x80000000.
Definition CX_GDSC_WAITS : Z := 0x22f000.
Definition CFG_POWER_UP_COMPLETE : Z := 0x10000.
Definition CFG_POWER_DOWN_COMPLETE : Z := 0x8000.
Definition RCG_CMD_UPDATE : Z := 1.
Definition RCG_CMD_ROOT_EN : Z := 2.
Definition RCG_CMD_ROOT_OFF : Z := 0x80000000.
Definition RCG_CFG_SRC_DIV : Z := 0x1f.
Definition RCG_CFG_SRC_SEL : Z := 0x700.
Definition GCC_VOTE_GPU_GPLL0 : Z := 1.
Definition GCC_VOTE_GPU_GPLL0_DIV : Z := 2.
Definition FREQ_LIMIT_MASK : Z := 0x1ff.
Definition INTID_GFX : Z := 0x14c.
Definition INTID_GFX_LPAC : Z := 0x14d.
Definition INTID_GMU_HFI : Z := 0x150.
Definition INTID_GMU : Z := 0x151.
Definition INTID_SMMU_GLOBAL : Z := 0x2c2.
Definition INTID_SMMU_CB0 : Z := 0x2c6.
Definition PLL0_L_VAL : Z := 0x44003b.
Definition PLL0_ALPHA : Z := 0xe555.
Definition PLL0_CONFIG_CTL : Z := 0x25c400e7.
Definition PLL0_CONFIG_CTL_U : Z := 0xa8060e0.
Definition PLL0_CONFIG_CTL_U1 : Z := 0xf51dea20.
Definition PLL0_USER_CTL : Z := 0x408.
Definition PLL0_USER_CTL_U : Z := 2.
Definition PLL_MODE_OUTCTRL : Z := 1.
Definition PLL_MODE_RESET_N : Z := 4.
Definition PLL_MODE_PCAL_NOT_DONE : Z := 0x100.
Definition PLL_MODE_LOCK_DET : Z := 0x80000000.
Definition PLL_OPMODE_STANDBY : Z := 0.
Definition PLL_OPMODE_RUN : Z := 1.
Definition PLL_USER_OUT_MASK : Z := 7.
Definition PLL_USER_VOTE_RUN : Z := 0x2000000.
Definition GMU_RCG_CFG_575 : Z := 0x201.
Definition HUB_RCG_CFG_200 : Z := 0x505.
Definition RCG_CFG_SRC_MASK : Z := 0x71f.
Definition GMU_SID : Z := 5.
Definition GPU_SID : Z := 0.
Definition GMU_CB : Z := 1.
Definition GPU_CB : Z := 0.
Definition GMU_SMR : Z := 1.
Definition GPU_SMR : Z := 0.
Definition GPU_SID_LPAC : Z := 1.
Definition GPU_SMR_LPAC : Z := 2.
Definition GMU_ICACHE_VA : Z := 0x4000.
Definition GMU_ICACHE_SIZE : Z := 0xffc000.
Definition GMU_DUMMY_VA : Z := 0x60000000.
Definition GMU_DUMMY_SIZE : Z := 0x4000.
Definition GMU_DEBUG_VA : Z := 0x60400000.
Definition GMU_DEBUG_SIZE : Z := 0x7000.
Definition GMU_LOG_VA : Z := 0x60004000.
Definition GMU_LOG_SIZE : Z := 0x4000.
Definition GMU_HFI_VA : Z := 0x60008000.
Definition GMU_HFI_SIZE : Z := 0x4000.
Definition GMU_ITCM_BASE : Z := 0.
Definition GMU_DTCM_BASE : Z := 0x10004000.
Definition GMU_TCM_SIZE : Z := 0x4000.
Definition GMU_CHIPID_A8 : Z := 0x8010100.
Definition GMU_CM3_CFG_VALUE : Z := 0x4052.
Definition GMU_BOOT_CONFIG_VALUE : Z := 2.
Definition GMU_FENCE_RANGE_0 : Z := 0x80c808c0.
Definition GBIF_CX_CONFIG_VALUE : Z := 0x20023000.
Definition GBIF_HALT_CLEAR_GEN8 : Z := 8.
Definition GBIF_QSB_SIDE_VALUE : Z := 0x71e20.
Definition MRC_GBIF_QOS_VALUE : Z := 0x33.
Definition GMU_INIT_RESULT_MASK : Z := 0x1ff.
Definition GMU_INIT_RESULT_OK : Z := 0x100.
Definition AO_HOST_IRQ_WDOG : Z := 1.
Definition AO_HOST_IRQ_FENCE_ERR : Z := 8.
Definition AO_HOST_IRQ_AHB_ERR : Z := 0x20.
Definition GMU2HOST_MSGQ : Z := 1.
Definition GMU2HOST_CM3_FAULT : Z := 0x800000.
Definition OOB_GPU_SET_REQUEST : Z := 0x1e.
Definition OOB_GPU_SET_ACK : Z := 0x1f.
Definition OOB_GPU_SET_CLEAR : Z := 0x1f.
Definition PWR_CLK_STATUS_GX_OFF : Z := 3.
Definition CX_BUSY_GPUBUSYIGNAHB : Z := 0x800000.
Definition GMU_IDLE_STATE_ACTIVE : Z := 0.
Definition GMU_FW_VERSION : Z := 0x50020026.
Definition HFI_MSG_TABLE : Z := 0xf.
Definition HFI_MSG_BW_TABLE : Z := 3.
Definition HFI_MSG_CORE_FW_START : Z := 0xe.
Definition HFI_MSG_START : Z := 0xa.
Definition HFI_MSG_GX_BW_PERF_VOTE : Z := 0x1e.
Definition HFI_MSG_PREPARE_SLUMBER : Z := 0x21.
Definition HFI_F2H_MSG_ACK : Z := 0x7e.
Definition HFI_F2H_MSG_ERROR : Z := 0x64.
Definition HFI_MSG_TYPE_ACK : Z := 1.
Definition HFI_TABLE_GPU_PERF : Z := 1.
Definition RPMH_LEVEL_LOW_SVS : Z := 0x40.
Definition BCM_COMMIT : Z := 0x40000000.
Definition BCM_VALID : Z := 0x20000000.
Definition TCS_AMC_MODE_ENABLE : Z := 0x10000.
Definition TCS_AMC_MODE_TRIGGER : Z := 0x1000000.
Definition CMD_MSGID_LEN : Z := 8.
Definition CMD_MSGID_RESP_REQ : Z := 0x100.
Definition CMD_MSGID_WRITE : Z := 0x10000.
Definition CMD_STATUS_COMPL : Z := 0x10000.
Definition SCR0_CLIENTPD : Z := 1.
Definition SCR0_USFCFG : Z := 0x400.
Definition SMR_VALID : Z := 0x80000000.
Definition S2CR_TYPE_TRANS : Z := 0.
Definition S2CR_TYPE_FAULT : Z := 2.
Definition CBAR_S1_BYPASS_S2 : Z := 0x1f300.
Definition CBA2R_VA64 : Z := 1.
Definition SCTLR_M : Z := 1.
Definition SCTLR_ASIDPNE : Z := 0x1000.
Definition CB_SCTLR : Z := 0x1167.
Definition CB_ACTLR : Z := 0x303.
Definition CB_T0SZ : Z := 0x20.
Definition CB_TCR : Z := 0x802020.
Definition CB_TCR_WIDE : Z := 0x80201e.
Definition IDR2_UBS_SHIFT : Z := 8.
Definition IDR2_UBS_MASK : Z := 0xf.
Definition CB_TCR2 : Z := 0x38012.
Definition CB_MAIR0 : Z := 0xf404ff44.
Definition CB_FSR_FAULT : Z := 0xc00001fe.
Definition PTE_TYPE_TABLE : Z := 3.
Definition PTE_AP_UNPRIV : Z := 0x40.
Definition PTE_AP_RDONLY : Z := 0x80.
Definition PTE_SH_OS : Z := 0x200.
Definition PTE_AF : Z := 0x400.
Definition PTE_NG : Z := 0x800.
Definition PTE_ATTR_NC : Z := 0.
Definition ARENA_SIZE : Z := 0x2000000.
Definition CP_SQE_VA : Z := 0x10000000.
Definition CP_RB_VA : Z := 0x10100000.
Definition CP_MEMPTRS_VA : Z := 0x10200000.
Definition CP_RPTR_SHADOW_OFF : Z := 0.
Definition CP_BV_RPTR_OFF : Z := 8.
Definition CP_FENCE_OFF : Z := 0x40.
Definition RB_CNTL_DEFAULT : Z := 0x20c.
Definition UCHE_TRAP_BASE : Z := 0x1fffffffff000.
Definition GMEM_RANGE_MIN : Z := 0x4000000.
Definition CP_THREAD_CONTROL : Z := 0x17.
Definition CP_MEM_WRITE : Z := 0x3d.
Definition CP_ME_INIT : Z := 0x48.
Definition CP_ME_INIT_MASK : Z := 0x4b.
Definition PIPE_NONE : Z := 0.
Definition PIPE_BR : Z := 1.
Definition PIPE_BV : Z := 2.
Definition PIPE_LPAC : Z := 3.
Definition PIPE_DDE_BV : Z := 7.
Definition A8XX_INT_MASK : Z := 0x33d283c2.
Definition A8XX_APRIV_MASK : Z := 0xf.
Definition A8XX_BR_APRIV_MASK : Z := 0x6f.
Definition A8XX_CP_GLOBAL_INT_MASK : Z := 0x7f007f.
Definition A8XX_CP_INT_MASK_PIPE : Z := 0x7e83f7f.
Definition A8XX_CP_HW_FAULT_MASK_PIPE : Z := 0x77f.
Definition CP_PROTECT_CNTL : Z := 0xffff000b.
Definition RBBM_STATUS_CX_MASTER : Z := 1.
Definition GPU_VERSION_APERTURE : Z := 3.
Definition AHB_CNTL_DEFAULT : Z := 0x1b00.
Definition AHB_CNTL_FIELDS : Z := 0x1b1f.
Definition NOC_TIMEOUT_US : Z := 0xd52.
Definition AHB_MIN_TIMEOUT_US : Z := 0x3e8.
Definition RBBM_INT_HANG_DETECT : Z := 0x800000.
Definition SECVID_TRUST_CNTL_NONSECURE : Z := 0.
Definition HFI_QUEUE_DWORDS : Z := 4096 / 4.
Definition PTE_TYPE_PAGE : Z := 3.
Definition PTE_ADDR_MASK : Z := Z.land (Z.shiftl 1 48 - 1) (Z.lnot 0xFFF).
Definition MUST_FAULT_SIDS : list Z := [2; 4; 7].
Definition GPU_SIDS : list Z := [GPU_SID; GPU_SID_LPAC].
Definition RSC_ACTIVE_TCS : list Z := [0; 1].
Definition RSC_SLEEP_TCS : list Z := [2; 3; 4].
Definition HFI_QUEUE_IDS : list Z := [0; 1; 2].
Definition CMD_DB : Z * Z := (0x81C60000, 0x20000).
Definition CMD_DB_MAGIC : list Z := [0xDB; 0x30; 0x03; 0x0C].
Definition CMD_DB_GPU_KEYS : list string := ["gfx.lvl"; "gmxc.lvl"; "mx.lvl"; "cx.lvl"; "SH0"; "MC0"; "ACV"; "CN0"].
Definition SURVEY_INTIDS : list Z :=
  [INTID_GFX; INTID_GFX_LPAC; INTID_GMU_HFI; INTID_GMU; INTID_SMMU_GLOBAL; INTID_SMMU_CB0].

(** Bits of a context-bank register the hardware fixes whatever is written. *)
Definition CB_READBACK_FIXED (name : string) : Z :=
  if String.eqb name "SMMU_CB_SCTLR" then SCTLR_ASIDPNE
  else if String.eqb name "SMMU_CB_TCR2" then Z.lor (Z.shiftl 1 5) (Z.shiftl 1 6) else 0.

(** (Hz, RPMh level, peak kBps, opp-supported-hw). *)
Definition GPU_OPPS : list (Z * Z * Z * Z) :=
  [(310000000, 56, 2136719, 0xF); (410000000, 64, 6074219, 0xF); (572000000, 128, 12449219, 0xF);
   (760000000, 192, 12449219, 0xF); (820000000, 224, 16500000, 0xF); (915000000, 256, 16500000, 0xF);
   (1070000000, 320, 16500000, 0xF); (1185000000, 384, 16500000, 0xF); (1350000000, 416, 18597657, 0xF);
   (1550000000, 448, 18597657, 0x7); (1700000000, 452, 18597657, 0x7); (1850000000, 456, 18597657, 0x3)].
Definition GMU_OPPS : list (Z * Z) := [(575000000, 64); (700000000, 128); (725000000, 192); (750000000, 256)].
(** (name, bus width, fixed vote, perfmode). *)
Definition GPU_BCMS : list (string * Z * bool * Z) :=
  [("SH0", 16, false, 0); ("MC0", 4, false, 0); ("ACV", 0, true, Z.shiftl 1 2)].

(** ** The arena *)

Definition ARENA_LAYOUT : list (string * (Z * Z)) :=
  [("tables", (0x0000000, 0x0100000)); ("state", (0x0100000, 0x0001000)); ("gmu_dummy", (0x0104000, GMU_DUMMY_SIZE));
   ("gmu_debug", (0x0108000, GMU_DEBUG_SIZE)); ("gmu_log", (0x0110000, GMU_LOG_SIZE)); ("gmu_hfi", (0x0114000, GMU_HFI_SIZE));
   ("cp_sqe", (0x0120000, 0x0020000)); ("cp_rb", (0x0140000, 0x0008000)); ("cp_memptrs", (0x0148000, 0x0001000));
   ("gmu_icache", (0x0200000, GMU_ICACHE_SIZE)); ("p67_ib", (0x1200000, 0x0010000)); ("p67_misc", (0x1210000, 0x0001000));
   ("p6_src", (0x1220000, 0x0040000)); ("p6_dst", (0x1260000, 0x0048000)); ("p7_code", (0x12B0000, 0x0002000));
   ("p7_data", (0x12B2000, 0x0001000)); ("p7_tex", (0x12B4000, 0x0004000)); ("p7_rt", (0x12B8000, 0x0008000));
   ("snap_smmu", (0x1400000, 0x0603000)); ("r_ib", (0x1A10000, 0x00A0000)); ("r_misc", (0x1AB0000, 0x0001000));
   ("r_code", (0x1AC0000, 0x0050000)); ("r_data", (0x1B10000, 0x00A0000)); ("r_tex", (0x1BB0000, 0x0100000));
   ("r_rt", (0x1CB0000, 0x0300000))].

(** ARENA_LAYOUT[name]. *)
Definition arena_region (name : string) : result (Z * Z) :=
  match List.find (fun e => String.eqb (fst e) name) ARENA_LAYOUT with Some e => Ok (snd e) | None => Raise (KeyError name) end.

(** The parts of [ARENA_LAYOUT] the code names with a literal. *)
Definition region_off (name : string) : Z := match arena_region name with Ok r => fst r | Raise _ => 0 end.
Definition region_size (name : string) : Z := match arena_region name with Ok r => snd r | Raise _ => 0 end.

(** ** Identity *)

Definition SPEEDBINS : list (Z * Z) := [(0, 0); (388, 1); (357, 2); (284, 3)].
Definition speed_bin (freq_limit_status : Z) : Z * option Z :=
  let fuse := Z.land freq_limit_status FREQ_LIMIT_MASK in
  (fuse, snd <$> List.find (fun e => fst e =? fuse) SPEEDBINS).

(** ** Command packets *)

Definition pm4_parity (value : Z) : Z :=
  Z.land (Z.shiftr 0x9669 (Z.land 0xF
    (Z.lxor (Z.lxor (Z.lxor (Z.lxor (Z.lxor (Z.lxor (Z.lxor value (Z.shiftr value 4)) (Z.shiftr value 8)) (Z.shiftr value 12))
       (Z.shiftr value 16)) (Z.shiftr value 20)) (Z.shiftr value 24)) (Z.shiftr value 28)))) 1.
Definition pkt7 (opcode count : Z) : Z :=
  Z.lor (Z.lor (Z.lor (Z.lor 0x70000000 count) (Z.shiftl (pm4_parity count) 15)) (Z.shiftl (Z.land opcode 0x7F) 16))
    (Z.shiftl (pm4_parity opcode) 23).
Definition aperture (pipe slice_id : Z) : Z := Z.lor (Z.shiftl pipe 12) (Z.shiftl slice_id 16).
Definition protect (reg length : Z) (rdonly : bool) : Z :=
  Z.lor (Z.lor (if rdonly then 0 else Z.shiftl 1 31) (Z.shiftl (Z.land length 0x3FFF) 18)) (Z.land reg 0x3FFFF).

(** ** AHB timeouts *)

(** The largest 2^(v+1) HUB cycles below the NoC timeout, as the CNTL word. *)
Definition ahb_timeout_cntl (hub_hz : Z) : option Z :=
  let mhz := hub_hz / 1000000 in
  let cycles := mhz * NOC_TIMEOUT_US in
  let cycles := if Z.land cycles (cycles - 1) =? 0 then cycles - 1 else cycles in
  let value := Z.log2 cycles in
  if (0x1F <? value) || (Z.shiftl 1 value <? AHB_MIN_TIMEOUT_US * mhz) then None else Some (Z.lor AHB_CNTL_DEFAULT (value - 1)).
Definition HUB_HZ : list (Z * Z) := [(0x505, 200000000); (0x506, 171428571); (0x507, 150000000)].

(** ** The tables of the command processor (adreno_x2_protect.py) *)

Definition X285_PROTECT_REGS : list (Z * Z * bool) :=
  [(0x8, 0x39b, true); (0x3b4, 0x8b, true); (0x440, 0x1f, false); (0x580, 0x5f, true); (0x5e0, 0x11f, false); (0x74a, 0x5, true);
   (0x759, 0x26, true); (0x789, 0x0, true); (0x78c, 0x13, true); (0x800, 0x29, false); (0x82c, 0x0, false); (0x837, 0xaf, false);
   (0x8e7, 0xc9, true); (0x8ec, 0xc3, false); (0x9b1, 0x250, false); (0xce0, 0x1, true); (0xdf0, 0x0, true); (0xdf1, 0x0, false);
   (0xe01, 0x0, false); (0xe03, 0x1fff, false); (0x3c00, 0xc5, false); (0x3cc6, 0x39, true); (0x3d00, 0x1fff, false); (0x8600, 0x1ff, false);
   (0x8e00, 0xff, false); (0x8f00, 0x0, true); (0x8f01, 0x1be, false); (0x9600, 0x1ff, false); (0x981a, 0x2e5, true); (0x9e00, 0x1ff, false);
   (0xa600, 0x1ff, false); (0xa82e, 0x0, false); (0xae00, 0x6, false); (0xae08, 0x6, false); (0xae10, 0xbf, false); (0xaed0, 0x2f, true);
   (0xaf00, 0x27f, false); (0xb600, 0x1fff, false); (0xdc00, 0x1fff, false); (0xfc00, 0x1fff, true); (0x18400, 0x3f, false);
   (0x18440, 0x13f, true); (0x18580, 0x1fff, false); (0x1b400, 0x1fff, false); (0x1f400, 0x477, false); (0x1f878, 0x507, true);
   (0x1f930, 0x329, false); (0x1fd80, 0x1fff, false); (0x27800, 0x7f, false); (0x27880, 0x385, true); (0x27882, 0xa, false);
   (0x27c06, 0x0, false)].
Definition X285_PROTECT : list Z := map (fun '(r, n, ro) => protect r n ro) X285_PROTECT_REGS.

(** (register, value, pipe mask). *)
Definition X285_NONCTXT : list (string * Z * Z) :=
  [("CP_SMMU_STREAM_ID_LPAC", 0x101, 1); ("GRAS_DBG_ECO_CNTL", 0x800, 6); ("GRAS_TSEFE_DBG_ECO_CNTL", 0x200000, 6);
   ("PC_AUTO_VERTEX_STRIDE", 0x1, 6); ("PC_VIS_STREAM_CNTL", 0x10010000, 6); ("PC_CONTEXT_SWITCH_STABILIZE_CNTL_1", 0x2, 6);
   ("PC_CHICKEN_BITS_1", 0x3, 6); ("PC_CHICKEN_BITS_2", 0x200, 6); ("PC_CHICKEN_BITS_3", 0x500000, 6); ("PC_CHICKEN_BITS_4", 0x500050, 6);
   ("RB_GC_GMEM_PROTECT", 0x15000000, 2); ("RB_RESOLVE_PREFETCH_CNTL", 0x7, 2); ("RB_CMP_DBG_ECO_CNTL", 0x4000, 2);
   ("RBBM_NC_MODE_CNTL", 0x1, 1); ("RBBM_SLICE_NC_MODE_CNTL", 0x1, 1); ("RBBM_WAIT_IDLE_CLOCKS_CNTL", 0x30, 1);
   ("RBBM_WAIT_IDLE_CLOCKS_CNTL2", 0x30, 1); ("RBBM_INTERFACE_HANG_INT_CNTL", 0xfffffff, 1); ("RBBM_GBIF_CLIENT_QOS_CNTL", 0x22122212, 1);
   ("RBBM_CGC_P2S_CNTL", 0x40, 1); ("SP_CHICKEN_BITS_2", 0x820800, 1); ("SP_CHICKEN_BITS_3", 0x300000, 1);
   ("SP_PERFCTR_SHADER_MASK", 0x3f, 1); ("SP_HLSQ_DBG_ECO_CNTL_2", 0x80000000, 1); ("SP_HLSQ_TIMEOUT_THRESHOLD_DP", 0x80, 1);
   ("SP_READ_SEL", 0x1ff00, 1); ("TPL1_DBG_ECO_CNTL", 0x10000000, 1); ("TPL1_DBG_ECO_CNTL1", 0x4000720, 1); ("UCHE_MODE_CNTL", 0x80080000, 1);
   ("UCHE_CCHE_MODE_CNTL", 0x1000, 1); ("UCHE_CCHE_CACHE_WAYS", 0x800, 1); ("UCHE_GBIF_GX_CONFIG", 0x10240e0, 1);
   ("UCHE_VARB_IDLE_TIMEOUT", 0x20, 1); ("VFD_DBG_ECO_CNTL", 0x8000, 6); ("VFD_CB_BV_THRESHOLD", 0x500050, 6);
   ("VFD_CB_BR_THRESHOLD", 0x600060, 6); ("VFD_CB_BUSY_REQ_CNT", 0x200020, 6); ("VFD_CB_LP_REQ_CNT", 0x20, 6);
   ("VPC_FLATSHADE_MODE_CNTL", 0x1, 6)].
Definition BICUBIC_WEIGHTS : list Z :=
  [0x0; 0x3fe05ff4; 0x3fa0ebee; 0x3f5193ed; 0x3f0243f0; 0x0; 0x3fd093e8; 0x3f4133dc; 0x3ea1dfdb; 0x3e0283e0; 0xac2b; 0xf01d; 0x114412;
   0x21980a; 0x51ec05; 0x380e; 0x3ff09001; 0x3fc10bfa; 0x3f9193f7; 0x3f7227f7].
Definition SMC_CP_APERTURE : list Z := [0x42000C1B; 4; 0xFFFF0000; 0xFFFFFFFF].
Definition GMU_INIT_RESULT_LEGACY : Z * Z := (0xFFFFFFFF, 0xBABEFACE).
Definition CX_AHB_PORTS : list string := ["AON"; "GMU"; "CP"; "VBIF_SMMU"; "HOST"].
Definition RPMH_LEVELS : list (string * Z) := [("low_svs", RPMH_LEVEL_LOW_SVS); ("svs", 128); ("nom", 256)].

(** The pinned firmware: file name, size and SHA-256 in hexadecimal. *)
Definition FIRMWARE : list (string * (string * Z * string)) :=
  [("gmu", ("gen80100_gmu.bin", 117596, "dae725872a751eccb73aa563dc2d4aeee3ddcc53805a900783787c329cab4d20"));
   ("sqe", ("gen80100_sqe.fw", 119828, "bfcc5193269855bab8961a83425d7ef1f1188e76cd6aee70a5a82f0c1aa7b258"))].
