(* ===== verification/GpuSession.v ===== *)
(** * GPU sessions: gated register access and the Stage 1 power-on

    src/tools/a16gpu.py.  [session] is the only path from the GPU tools to the
    hardware: it holds the target, the gates proven so far with their evidence, the
    log and the poll record, and the parts of the report ([out]) that later steps
    read back.  Every access names a register of [REGS] and passes [s_check], which
    is Session._check or, in a Stage 3 session, Session3._check.  The log and the
    poll record are newest first; the rest of the JSON report is not modelled.

    The clock counts milliseconds. *)

From Stdlib Require Import ZArith Lia.
From Stdlib Require Import Strings.Byte.
From stdpp Require Import base list numbers strings.
From S2P Require Import Prelude Bytes Transport Q1n1Link Target Preload GpuRegs.

Local Open Scope string_scope.
Local Open Scope list_scope.
Local Open Scope Z_scope.
Local Open Scope py_scope.

(** ** The target *)

(** Targets that report their boot information (Proxy.bootinfo). *)
Class BootOps (S : Type) := { t_bootinfo : M S boot_info }.

Section LinkBoot.
  Context {T : Type} `{!Transport T} (have_numpy : bool) (budget : nat) (handler : Z -> Z -> M (link T proxy_st) unit).
Definition LinkBoot : BootOps (link T proxy_st) := {| t_bootinfo := q_bootinfo have_numpy budget handler |}.
End LinkBoot.

(** Proxy.bootinfo on the operations of a target. *)
Definition bootinfo_of {S} `{!TargetOps S} : M S boot_info :=
  let! address := t_query P_GET_BOOTARGS [] in
  let! h := t_readmem address 24 false in
  let! hv := py_lift (unpack_Qs 3 0 h) in
  let magic := nth 0 hv 0 in let version := nth 1 hv 0 in let size := nth 2 hv 0 in
  if negb (magic =? MAGIC) || negb (version =? 1) || (size <? 24) || negb (size mod 8 =? 0) || (4096 <? size)
  then py_raise (ProxyError "invalid bootinfo header") else
  let count := Z.min (size / 8) (zlen BOOTINFO_FIELDS) in
  let! d := t_readmem address (8 * count) false in
  let! vals := py_lift (unpack_Qs (Z.to_nat count) 0 d) in
  py_ret (("address", address) :: record_of BOOTINFO_FIELDS vals).
#[global] Instance EnvBoot : BootOps env := {| t_bootinfo := bootinfo_of |}.

(** Proxy.serror_state, serror_reset and serror_strict. *)
Definition serror_state {S} `{!TargetOps S} : M S (list (string * Z)) :=
  let! address := t_query P_Q1N1_SERROR [0] in
  let! d := t_readmem address (8 * zlen SERROR_FIELDS) false in
  let! vals := py_lift (unpack_Qs (length SERROR_FIELDS) 0 d) in
  let values := record_of SERROR_FIELDS vals in
  if negb (rget values "magic" =? SERROR_MAGIC) then py_raise (ProxyError "bad SError record magic")
  else py_ret (("address", address) :: values).
Definition serror_reset {S} `{!TargetOps S} : M S unit := t_request P_Q1N1_SERROR [1].
Definition serror_strict {S} `{!TargetOps S} (enabled : bool) : M S unit :=
  t_request P_Q1N1_SERROR [2; if enabled then SERROR_STRICT else 0].

Definition S_SERROR : Z := -0x53.
Definition ST_XFRERR : Z := -3.
Definition MARKER32 : Z := Z.land 0xACCE5515ABAD1DEA 0xFFFFFFFF.

(** [try: m except ProxyRemoteError as problem: h(problem)]. *)
Definition on_remote {St A} (m : M St A) (h : Z -> M St A) : M St A :=
  fun s => match m s with (Raise (ProxyRemoteError st), s') => h st s' | x => x end.

(** Stop and its subclasses. *)
Definition is_stop (e : exn) : bool :=
  match e with Stop _ | SErrorStop _ | AbortStop _ | PollTimeout _ | GuardMissing _ => true | _ => false end.
Definition is_abort (e : exn) : bool := match e with AbortStop _ => true | _ => false end.
Definition is_timeout (e : exn) : bool := match e with PollTimeout _ => true | _ => false end.
(** ProxyError, its subclasses, and OSError. *)
Definition is_link_error (e : exn) : bool :=
  match e with ProxyError _ | ProxyTimeout | ProxyRemoteError _ | OSError _ => true | _ => false end.

(** ** Evidence, log and report *)

(** What the text recorded with a gate says. *)
Inductive evidence :=
| EvAO
| EvCfgAhb (cbcr bcr : Z)
| EvCritical (values : list (string * Z))
| EvFuse
| EvGmuClocks
| EvGmuByRead
| EvMiscGmu (e : evidence)
| EvMiscRead (freq : Z)
| EvSmmu (ahb : bool)
| EvReset
| EvGx (status : Z)
| EvText (what : string).

(** ['FREQ_LIMIT' in str(evidence)]. *)
Fixpoint mentions_freq_limit (e : evidence) : bool :=
  match e with EvMiscRead _ => true | EvMiscGmu e => mentions_freq_limit e | _ => false end.

Inductive log_entry :=
| LReg (write : bool) (name : string) (addr : Z) (value : option Z) (abort : Z)
| LFailed (op : string) (name : option string) (addr : Z)
| LUdelay (us : Z)
| LMem (op : string) (addr size : Z)
| LCall (op : Z) (args : list Z) (value : Z)
| LHfi (what : string) (words : list Z).

(** A region of the EFI memory map. *)
Inductive efi_type := EfiName (s : string) | EfiNum (kind : Z).
#[global] Instance efi_type_eq_dec : EqDecision efi_type.
Proof. solve_decision. Defined.
Record efi_region := Efi { ef_type : efi_type; ef_base : Z; ef_size : Z; ef_attr : Z }.

(** An entry of the RPMh command database, and the power state of the CX domain. *)
Record db_entry := DbEntry { de_slave : Z; de_addr : Z; de_aux : bytes }.
Record gdsc := Gdsc { gd_on : bool; gd_pwr_on : bool; gd_sw_collapse : bool; gd_hw_control : bool; gd_retain_ff : bool; gd_down : bool }.

Record outp := Out {
  o_order : list string;                        (* out['order'] *)
  o_gicd : Z;                                   (* out['stage']['gic_distributor'] *)
  o_cmd_db : option (list (string * option db_entry));   (* out['cmd_db']['gpu'] *)
  o_gdscr : Z;                                  (* out['gpucc']['registers']['GPU_CC_CX_GDSCR'] *)
  o_gdsc : gdsc;                                (* out['gpucc']['cx_gdsc'] *)
  o_speed_bin : option (option Z);              (* out['freq_limit'].get('speed_bin') *)
  o_regions : list efi_region;                  (* out['_efi_regions'] *)
  o_ahb : option Z                              (* out['cx_ahb'].get('value') *)
}.
Definition blank_gdsc : gdsc := Gdsc false false false false false false.
Definition blank_out : outp := Out [] 0 None 0 blank_gdsc None [] None.

Record session (S : Type) := Session {
  ss_tgt : S;
  ss_stage3 : bool;                    (* Session3 *)
  ss_writes : bool;
  ss_guarded : bool;
  ss_proven : gate -> option evidence;
  ss_log : list log_entry;
  ss_polls : list (string * Z * bool);
  ss_step : string;
  ss_freq_clean : option Z;            (* freq_limit_clean *)
  ss_arena : option (Z * Z);
  ss_gpu_call : Z;
  ss_gpu_record : Z;
  ss_boot : option boot_info;          (* _bootinfo_cache *)
  ss_host : list (string * Z);         (* the host record of Stage 3 *)
  ss_out : outp
}.
Arguments Session {S}.
Arguments ss_tgt {S}. Arguments ss_stage3 {S}. Arguments ss_writes {S}. Arguments ss_guarded {S}. Arguments ss_proven {S}.
Arguments ss_log {S}. Arguments ss_polls {S}. Arguments ss_step {S}. Arguments ss_freq_clean {S}. Arguments ss_arena {S}.
Arguments ss_gpu_call {S}. Arguments ss_gpu_record {S}. Arguments ss_boot {S}. Arguments ss_host {S}. Arguments ss_out {S}.

Definition blank_proven : gate -> option evidence := fun g => if decide (g = always) then Some EvAO else None.
Definition session_new {S} (t : S) (stage3 writes guarded : bool) : session S :=
  Session t stage3 writes guarded blank_proven [] [] "setup" None None 0 0 None [] blank_out.

Definition upd_tgt {S} (t : S) (s : session S) : session S :=
  Session t (ss_stage3 s) (ss_writes s) (ss_guarded s) (ss_proven s) (ss_log s) (ss_polls s) (ss_step s) (ss_freq_clean s) (ss_arena s)
    (ss_gpu_call s) (ss_gpu_record s) (ss_boot s) (ss_host s) (ss_out s).
Definition upd_proven {S} (f : (gate -> option evidence) -> gate -> option evidence) (s : session S) : session S :=
  Session (ss_tgt s) (ss_stage3 s) (ss_writes s) (ss_guarded s) (f (ss_proven s)) (ss_log s) (ss_polls s) (ss_step s) (ss_freq_clean s)
    (ss_arena s) (ss_gpu_call s) (ss_gpu_record s) (ss_boot s) (ss_host s) (ss_out s).
Definition upd_log {S} (e : log_entry) (s : session S) : session S :=
  Session (ss_tgt s) (ss_stage3 s) (ss_writes s) (ss_guarded s) (ss_proven s) (e :: ss_log s) (ss_polls s) (ss_step s) (ss_freq_clean s)
    (ss_arena s) (ss_gpu_call s) (ss_gpu_record s) (ss_boot s) (ss_host s) (ss_out s).
Definition upd_polls {S} (p : string * Z * bool) (s : session S) : session S :=
  Session (ss_tgt s) (ss_stage3 s) (ss_writes s) (ss_guarded s) (ss_proven s) (ss_log s) (p :: ss_polls s) (ss_step s) (ss_freq_clean s)
    (ss_arena s) (ss_gpu_call s) (ss_gpu_record s) (ss_boot s) (ss_host s) (ss_out s).
Definition upd_step {S} (x : string) (s : session S) : session S :=
  Session (ss_tgt s) (ss_stage3 s) (ss_writes s) (ss_guarded s) (ss_proven s) (ss_log s) (ss_polls s) x (ss_freq_clean s) (ss_arena s)
    (ss_gpu_call s) (ss_gpu_record s) (ss_boot s) (ss_host s) (ss_out s).
Definition upd_freq {S} (v : Z) (s : session S) : session S :=
  Session (ss_tgt s) (ss_stage3 s) (ss_writes s) (ss_guarded s) (ss_proven s) (ss_log s) (ss_polls s) (ss_step s) (Some v) (ss_arena s)
    (ss_gpu_call s) (ss_gpu_record s) (ss_boot s) (ss_host s) (ss_out s).
Definition upd_arena {S} (a : Z * Z) (s : session S) : session S :=
  Session (ss_tgt s) (ss_stage3 s) (ss_writes s) (ss_guarded s) (ss_proven s) (ss_log s) (ss_polls s) (ss_step s) (ss_freq_clean s) (Some a)
    (ss_gpu_call s) (ss_gpu_record s) (ss_boot s) (ss_host s) (ss_out s).
Definition upd_gpu {S} (call record : Z) (s : session S) : session S :=
  Session (ss_tgt s) (ss_stage3 s) (ss_writes s) (ss_guarded s) (ss_proven s) (ss_log s) (ss_polls s) (ss_step s) (ss_freq_clean s) (ss_arena s)
    call record (ss_boot s) (ss_host s) (ss_out s).
Definition upd_boot {S} (i : boot_info) (s : session S) : session S :=
  Session (ss_tgt s) (ss_stage3 s) (ss_writes s) (ss_guarded s) (ss_proven s) (ss_log s) (ss_polls s) (ss_step s) (ss_freq_clean s) (ss_arena s)
    (ss_gpu_call s) (ss_gpu_record s) (Some i) (ss_host s) (ss_out s).
Definition upd_host {S} (h : list (string * Z)) (s : session S) : session S :=
  Session (ss_tgt s) (ss_stage3 s) (ss_writes s) (ss_guarded s) (ss_proven s) (ss_log s) (ss_polls s) (ss_step s) (ss_freq_clean s) (ss_arena s)
    (ss_gpu_call s) (ss_gpu_record s) (ss_boot s) h (ss_out s).
Definition upd_out {S} (f : outp -> outp) (s : session S) : session S :=
  Session (ss_tgt s) (ss_stage3 s) (ss_writes s) (ss_guarded s) (ss_proven s) (ss_log s) (ss_polls s) (ss_step s) (ss_freq_clean s) (ss_arena s)
    (ss_gpu_call s) (ss_gpu_record s) (ss_boot s) (ss_host s) (f (ss_out s)).

Definition o_set_order (x : string) (o : outp) : outp := Out (o_order o ++ [x]) (o_gicd o) (o_cmd_db o) (o_gdscr o) (o_gdsc o) (o_speed_bin o) (o_regions o) (o_ahb o).
Definition o_set_gicd (v : Z) (o : outp) : outp := Out (o_order o) v (o_cmd_db o) (o_gdscr o) (o_gdsc o) (o_speed_bin o) (o_regions o) (o_ahb o).
Definition o_set_cmd_db v (o : outp) : outp := Out (o_order o) (o_gicd o) v (o_gdscr o) (o_gdsc o) (o_speed_bin o) (o_regions o) (o_ahb o).
Definition o_set_gpucc (v : Z) (g : gdsc) (o : outp) : outp := Out (o_order o) (o_gicd o) (o_cmd_db o) v g (o_speed_bin o) (o_regions o) (o_ahb o).
Definition o_set_speed v (o : outp) : outp := Out (o_order o) (o_gicd o) (o_cmd_db o) (o_gdscr o) (o_gdsc o) v (o_regions o) (o_ahb o).
Definition o_set_regions v (o : outp) : outp := Out (o_order o) (o_gicd o) (o_cmd_db o) (o_gdscr o) (o_gdsc o) (o_speed_bin o) v (o_ahb o).

Definition o_set_ahb v (o : outp) : outp := Out (o_order o) (o_gicd o) (o_cmd_db o) (o_gdscr o) (o_gdsc o) (o_speed_bin o) (o_regions o) v.

(** ** Pure helpers *)

Definition EFI_TYPES : list string :=
  ["Reserved"; "LoaderCode"; "LoaderData"; "BootCode"; "BootData"; "RuntimeCode"; "RuntimeData"; "Conventional"; "Unusable";
   "ACPIReclaim"; "ACPINVS"; "MMIO"; "MMIOPort"; "PalCode"; "Persistent"].
Definition FREE_AFTER_EBS : list string := ["LoaderCode"; "LoaderData"; "BootCode"; "BootData"; "Conventional"].
Definition efi_kind (kind : Z) : efi_type :=
  match EFI_TYPES !! Z.to_nat kind with Some s => EfiName s | None => EfiNum kind end.

(** struct.unpack_from('<IIQQQQ', blob, offset). *)
Definition efi_entry (blob : bytes) (offset : nat) : result efi_region :=
  let? kind := unpack_u 4 offset blob in
  let? _ := unpack_u 4 (offset + 4) blob in
  let? phys := unpack_u 8 (offset + 8) blob in
  let? _ := unpack_u 8 (offset + 16) blob in
  let? pages := unpack_u 8 (offset + 24) blob in
  let? attr := unpack_u 8 (offset + 32) blob in
  Ok (Efi (efi_kind kind) phys (Z.shiftl pages 12) attr).

(** [for offset in range(0, len(blob) - 39, stride)]. *)
Fixpoint efi_entries (fuel : nat) (blob : bytes) (stride offset : nat) : result (list efi_region) :=
  match fuel with
  | O => Ok []
  | S k =>
      if Z.of_nat offset <? zlen blob - 39
      then let? e := efi_entry blob offset in let? rest := efi_entries k blob stride (offset + stride) in Ok (e :: rest)
      else Ok []
  end.
Definition parse_efi_map (blob : bytes) (stride : Z) : result (list efi_region) :=
  if stride =? 0 then Raise (ValueError "range() arg 3 must not be zero") else
  if stride <? 0 then Ok [] else efi_entries (length blob) blob (Z.to_nat stride) 0.

Definition overlaps (r : efi_region) (base size : Z) : bool := (ef_base r <? base + size) && (base <? ef_base r + ef_size r).
Definition covering (regions : list efi_region) (base size : Z) : list efi_region := List.filter (fun r => overlaps r base size) regions.
Definition freed (r : efi_region) : bool :=
  match ef_type r with EfiName s => existsb (String.eqb s) FREE_AFTER_EBS | EfiNum _ => false end.

(** [blob.rstrip(b'\0')]. *)
Fixpoint rstrip0 (d : bytes) : bytes :=
  match d with
  | [] => []
  | c :: r => match rstrip0 r with [] => if Byte.eqb c Byte.x00 then [] else [c] | r' => c :: r' end
  end.

Definition db_data : nat := 8 + 16 * 8 + 8.

(** The entries of one slave: later entries of the same name replace earlier ones,
    so the newest is first. *)
Fixpoint db_entries (count : nat) (blob : bytes) (slv header_offset data_offset : Z) (index : Z) (acc : list (bytes * db_entry)) : result (list (bytes * db_entry)) :=
  match count with
  | O => Ok acc
  | S k =>
      let start := Z.of_nat db_data + header_offset + 24 * index in
      if zlen blob <? start + 24 then Ok acc else
      let ident := rstrip0 (slice (Z.to_nat start) (Z.to_nat start + 8) blob) in
      let? addr := unpack_u 4 (Z.to_nat start + 16) blob in
      let? length := unpack_u 2 (Z.to_nat start + 20) blob in
      let? offset := unpack_u 2 (Z.to_nat start + 22) blob in
      let from := Z.to_nat (Z.of_nat db_data + data_offset + offset) in
      db_entries k blob slv header_offset data_offset (index + 1) ((ident, DbEntry slv addr (slice from (from + Z.to_nat length) blob)) :: acc)
  end.

Fixpoint db_slaves (slaves : list nat) (blob : bytes) (acc : list (bytes * db_entry)) : result (list (bytes * db_entry)) :=
  match slaves with
  | [] => Ok acc
  | slave :: rest =>
      let start := (8 + 16 * slave)%nat in
      let? slv := unpack_u 2 start blob in
      let? header_offset := unpack_u 2 (start + 2) blob in
      let? data_offset := unpack_u 2 (start + 4) blob in
      let? count := unpack_u 2 (start + 6) blob in
      let? _ := unpack_u 2 (start + 8) blob in
      if slv =? 0 then Ok acc else
      let? acc := db_entries (Z.to_nat count) blob slv header_offset data_offset 0 acc in
      db_slaves rest blob acc
  end.

(** parse_cmd_db(blob)['gpu'], or [None] for a blob without the magic. *)
Definition parse_cmd_db (blob : bytes) : result (option (list (string * option db_entry))) :=
  if negb (bool_decide (map byte_to_Z (slice 4 8 blob) = CMD_DB_MAGIC)) then Ok None else
  let? entries := db_slaves (seq 0 8) blob [] in
  let? _ := unpack_u 4 0 blob in
  Ok (Some (map (fun key => (key, snd <$> List.find (fun e => bytes_eqb (fst e) (String.list_byte_of_string key)) entries)) CMD_DB_GPU_KEYS)).

(** The decoded identification registers of the SMMU: stream match groups, context
    banks and page size. *)
Record smmu_id := SmmuId { si_groups : Z; si_banks : Z; si_page : Z }.
Definition decode_smmu (idr0 idr1 : Z) : smmu_id :=
  SmmuId (Z.land idr0 0xFF) (Z.land idr1 0xFF) (if Z.shiftr idr1 31 =? 0 then 0x1000 else 0x10000).

Inductive branch := Running | Enabled | HwGated | Disabled | EnabledNotRunning | Off.
#[global] Instance branch_eq_dec : EqDecision branch.
Proof. solve_decision. Defined.

Definition bits (value mask : Z) : bool := negb (Z.land value mask =? 0).

Definition branch_state (r : reg) (value : Z) : branch :=
  if String.eqb (rg_block r) "GCC" && bits value CBCR_HW_CTL then HwGated
  else if decide (rg_halt r = HALT_DELAY) then (if bits value CBCR_CLK_ENABLE then Enabled else Disabled)
  else if negb (bits value CBCR_CLK_OFF) then Running else if bits value CBCR_CLK_ENABLE then EnabledNotRunning else Off.
Definition running (r : reg) (value : Z) : bool :=
  match branch_state r value with Running | Enabled | HwGated => true | _ => false end.
(** [running(R.REGS[name], value)] for a name of the registry. *)
Definition running_named (name : string) (value : Z) : bool :=
  match reg_named name with Ok r => running r value | Raise _ => false end.

Definition gdsc_state (gdscr cfg : Z) : gdsc :=
  Gdsc (bits cfg CFG_POWER_UP_COMPLETE) (bits gdscr GDSC_PWR_ON) (bits gdscr GDSC_SW_COLLAPSE) (bits gdscr GDSC_HW_CONTROL)
    (bits gdscr GDSC_RETAIN_FF) (bits cfg CFG_POWER_DOWN_COMPLETE).
Definition is_xo (cfg_rcgr : Z) : bool :=
  (Z.land cfg_rcgr RCG_CFG_SRC_SEL =? 0) && ((Z.land cfg_rcgr RCG_CFG_SRC_DIV =? 0) || (Z.land cfg_rcgr RCG_CFG_SRC_DIV =? 1)).

Definition GCC_SURVEY : list string :=
  ["GCC_GPU_BCR"; "GCC_GPU_CFG_AHB_CBCR"; "GCC_QMIP_GPU_AHB_CBCR"; "GCC_GPU_GEMNOC_GFX_CBCR"; "GCC_GPU_GPLL0_CLK_SRC_CBCR";
   "GCC_GPU_GPLL0_DIV_CLK_SRC_CBCR"; "GCC_APCS_CLOCK_BRANCH_ENA_VOTE"].
Definition GPUCC_SURVEY : list string :=
  ["GPU_CC_CX_GDSCR"; "GPU_CC_CX_CFG_GDSCR"; "GPU_CC_CX_GDS_HW_CTRL"; "GPU_CC_CB_CBCR"; "GPU_CC_CXO_AON_CBCR";
   "GPU_CC_RSCC_XO_AON_CBCR"; "GPU_CC_AHB_CBCR"; "GPU_CC_CX_GMU_CBCR"; "GPU_CC_CXO_CBCR"; "GPU_CC_HUB_CX_INT_CBCR";
   "GPU_CC_RSCC_HUB_AON_CBCR"; "GPU_CC_GPU_SMMU_VOTE_CBCR"; "GPU_CC_HUB_AON_CBCR"; "GPU_CC_MEMNOC_GFX_CBCR"; "GPU_CC_SLEEP_CBCR";
   "GPU_CC_GMU_CMD_RCGR"; "GPU_CC_GMU_CFG_RCGR"; "GPU_CC_HUB_CMD_RCGR"; "GPU_CC_HUB_CFG_RCGR"; "GPU_CC_FF_CMD_RCGR";
   "GPU_CC_FF_CFG_RCGR"; "GPU_CC_PLL0_MODE"].
Definition SHARED_RCGS : list (string * string) :=
  [("GPU_CC_GMU_CMD_RCGR", "GPU_CC_GMU_CFG_RCGR"); ("GPU_CC_HUB_CMD_RCGR", "GPU_CC_HUB_CFG_RCGR"); ("GPU_CC_FF_CMD_RCGR", "GPU_CC_FF_CFG_RCGR")].
Definition CRITICAL_CBCRS : list string := ["GPU_CC_CB_CBCR"; "GPU_CC_CXO_AON_CBCR"; "GPU_CC_RSCC_XO_AON_CBCR"].
Definition GMU_CLOCKS : list string :=
  ["GPU_CC_AHB_CBCR"; "GPU_CC_CX_GMU_CBCR"; "GPU_CC_CXO_CBCR"; "GCC_GPU_GEMNOC_GFX_CBCR"; "GPU_CC_HUB_CX_INT_CBCR"; "GPU_CC_RSCC_HUB_AON_CBCR"].
Definition SMMU_CLOCKS : list string := ["GPU_CC_GPU_SMMU_VOTE_CBCR"].
(** GMU_CLOCKS without the AHB clock. *)
Definition OTHER_CLOCKS : list string := List.filter (fun n => negb (String.eqb n "GPU_CC_AHB_CBCR")) GMU_CLOCKS.

(** A critical branch counts when it is enabled or runs. *)
Definition critical_on (value : Z) : bool := bits value CBCR_CLK_ENABLE || negb (bits value CBCR_CLK_OFF).

(** ** Session *)

Section session.
  Context {S : Type} `{!TargetOps S, !BootOps S}.
  Abbreviation G := (M (session S)).

Definition on_t {A} (m : M S A) : G A := fun s => let '(r, t) := m (ss_tgt s) in (r, upd_tgt t s).
Definition set_step (x : string) : G unit := py_modify (upd_step x).
Definition order (x : string) : G unit := py_modify (upd_out (o_set_order x)).
Definition prove (g : gate) (e : evidence) : G unit :=
  py_modify (upd_proven (fun p g' => if decide (g' = g) then Some e else p g')).
Definition withdraw (g : gate) : G unit :=
  py_modify (upd_proven (fun p g' => if decide (g' = g) then None else p g')).
Definition is_proven (g : gate) : G bool := py_get (fun s => match ss_proven s g with Some _ => true | None => false end).

(** Session._check and Session3._check. *)
Definition check_reg (stage3 writes : bool) (proven : gate -> option evidence) (r : reg) (write : bool) : result unit :=
  let open := match proven (rg_gate r) with Some _ => true | None => false end in
  let gx_open := match proven gx with Some _ => true | None => false end in
  if if stage3 then bool_decide (rg_gate r = never)
     else bool_decide (rg_domain r = GX) || bool_decide (rg_gate r = gx) || bool_decide (rg_gate r = never)
  then Raise (Refused "never touched")
  else if stage3 && bool_decide (rg_domain r = GX) && negb gx_open then Raise (Refused "GX: refused until the GMU reports GX on")
  else if write && (negb (writable r) || negb writes) then Raise (Refused "write not allowed")
  else if negb write && negb (readable r) then Raise (Refused "not readable")
  else if negb open then Raise (Refused "gate not proven") else Ok tt.
Definition s_check (r : reg) (write : bool) : G unit :=
  fun s => (check_reg (ss_stage3 s) (ss_writes s) (ss_proven s) r write, s).

(** _remote_failure: always raises. *)
Definition remote_failure {A} (op : string) (r : option reg) (addr status : Z) : G A :=
  py_modify (upd_log (LFailed op (rg_name <$> r) addr)) ;;;
  let! guarded := py_get ss_guarded in
  (if guarded && ((status =? S_SERROR) || (status =? ST_XFRERR)) then
     let! state := on_remote (on_t serror_state) (fun _ => py_raise (SErrorStop "the record read was refused")) in
     let seen := negb (rget state "before" =? 0) || negb (rget state "during" =? 0) in
     if negb (rget state "unconsumed" =? 0) && negb seen then py_raise (SErrorStop "SError still pending")
     else if seen then py_raise (SErrorStop "SError") else py_ret tt
   else py_ret tt) ;;;
  if status =? ST_XFRERR then py_raise (AbortStop "transfer refused (synchronous abort)") else py_raise (Stop "proxy error").

Definition rd (name : string) (index : Z) : G Z :=
  let! r := py_lift (reg_named name) in
  s_check r false ;;;
  let! addr := py_lift (reg_at r index) in
  let! raw := on_remote (on_t (t_read32 addr)) (remote_failure "read" (Some r) addr) in
  let value := Z.land raw 0xFFFFFFFF in
  (if value =? MARKER32 then
     let! faults := on_t (t_query P_GET_EXC_COUNT []) in
     if negb (faults =? 0) then py_modify (upd_log (LReg false name addr (Some value) faults)) ;;; py_raise (AbortStop "read: synchronous abort (guard marker)")
     else py_ret tt
   else py_ret tt) ;;;
  py_modify (upd_log (LReg false name addr (Some value) 0)) ;;;
  py_ret value.

Definition wr (name : string) (value index : Z) : G unit :=
  let! r := py_lift (reg_named name) in
  s_check r true ;;;
  let! addr := py_lift (reg_at r index) in
  let value := Z.land value 0xFFFFFFFF in
  on_remote (on_t (t_write32 addr value)) (remote_failure "write" (Some r) addr) ;;;
  let! faults := on_t (t_query P_GET_EXC_COUNT []) in
  py_modify (upd_log (LReg true name addr (Some value) faults)) ;;;
  if negb (faults =? 0) then py_raise (AbortStop "write: synchronous abort") else py_ret tt.

(** update, and wr_update of Session3. *)
Definition wr_update (name : string) (mask bits index : Z) : G Z :=
  let! old := rd name index in
  let new := Z.lor (Z.land old (Z.lnot mask)) (Z.land bits mask) in
  (if negb (new =? old) then wr name new index else py_ret tt) ;;;
  py_ret new.
Definition update (name : string) (mask bits : Z) : G Z := wr_update name mask bits 0.

Definition udelay (us : Z) : G unit :=
  on_t (t_request P_UDELAY [us]) ;;; py_modify (upd_log (LUdelay us)).

Inductive poll_kind := KGdsc | KBranch | KRcg.
Definition POLL_LIMITS (k : poll_kind) : nat := match k with KGdsc => 20 | KBranch => 10 | KRcg => 10 end.
Definition POLL_BUDGET (k : poll_kind) : Z := match k with KGdsc => 1000 | KBranch | KRcg => 500 end.

(** The attempts from [attempt] on, [left] of them. *)
Fixpoint poll_loop (left : nat) (name : string) (mask want deadline attempt : Z) : G Z :=
  match left with
  | O => py_modify (upd_polls (name, attempt - 1, false)) ;;; py_raise (PollTimeout name)
  | Datatypes.S k =>
      let! value := rd name 0 in
      if Z.land value mask =? want then py_modify (upd_polls (name, attempt, true)) ;;; py_ret value else
      let! now := on_t t_now in
      if deadline <? now then py_modify (upd_polls (name, attempt, false)) ;;; py_raise (PollTimeout name)
      else poll_loop k name mask want deadline (attempt + 1)
  end.
Definition poll (name : string) (mask want : Z) (kind : poll_kind) : G Z :=
  let! now := on_t t_now in
  poll_loop (POLL_LIMITS kind) name mask want (now + POLL_BUDGET kind) 1.

Definition dram1 (base size : Z) : G bytes :=
  if match block_of base with Some b => negb (String.eqb (bk_name b) "CMD_DB") | None => false end then py_raise (Refused "readmem of MMIO") else
  let! data := on_remote (on_t (t_readmem base size false)) (remote_failure "readmem" None base) in
  py_modify (upd_log (LMem "readmem" base size)) ;;;
  py_ret data.

(** dram with the hook of Stage 3's run (_hook_efi_regions). *)
Definition dram (base size : Z) : G bytes :=
  let! data := dram1 base size in
  let! hooked := py_get (fun s => ss_stage3 s && match o_regions (ss_out s) with [] => true | _ => false end) in
  (if hooked && (40 <? size) then
     let! cached := py_get ss_boot in
     let! info := match cached with Some i => py_ret i | None => on_t t_bootinfo end in
     py_modify (upd_boot info) ;;;
     if base =? rget info "memory_map" then
       let! regions := py_lift (parse_efi_map data (rget info "memory_map_stride")) in
       py_modify (upd_out (o_set_regions regions))
     else py_ret tt
   else py_ret tt) ;;;
  py_ret data.

(** [{name: s.rd(name) for name in names}]. *)
Fixpoint rd_all (names : list string) : G (list (string * Z)) :=
  match names with
  | [] => py_ret []
  | n :: rest => let! v := rd n 0 in let! vs := rd_all rest in py_ret ((n, v) :: vs)
  end.
(** [for x in xs: f(x)]. *)
Fixpoint each {A} (f : A -> G unit) (xs : list A) : G unit :=
  match xs with [] => py_ret tt | x :: rest => f x ;;; each f rest end.
(** [[f(x) for x in xs]]. *)
Fixpoint collect {A B} (f : A -> G B) (xs : list A) : G (list B) :=
  match xs with [] => py_ret [] | x :: rest => let! y := f x in let! ys := collect f rest in py_ret (y :: ys) end.

(** ** Survey steps *)

Definition step_cmd_db : G unit :=
  set_step "S0" ;;;
  let! info := on_t t_bootinfo in
  py_modify (upd_out (o_set_gicd (rget info "gic_distributor"))) ;;;
  let! map := dram (rget info "memory_map") (rget info "memory_map_size") in
  let! regions := py_lift (parse_efi_map map (rget info "memory_map_stride")) in
  let hits := covering regions (fst CMD_DB) (snd CMD_DB) in
  let! db :=
    match hits with
    | [] => py_ret None
    | _ => if existsb freed hits then py_ret None
           else py_catch (let! blob := dram (fst CMD_DB) (snd CMD_DB) in py_lift (parse_cmd_db blob)) is_abort (py_ret None)
    end in
  py_modify (upd_out (o_set_cmd_db db)) ;;;
  order "cmd_db".

Definition gic_intid (lines intid : Z) : G unit :=
  if lines <=? intid then py_ret tt else
  rd "GICD_IGROUPR" (intid / 32) ;;; rd "GICD_ISENABLER" (intid / 32) ;;; rd "GICD_ISPENDR" (intid / 32) ;;;
  rd "GICD_ICFGR" (intid / 16) ;;; rd "GICD_IROUTER_LO" intid ;;; py_ret tt.
Definition step_gic : G unit :=
  set_step "S1" ;;;
  let! gicd := py_get (fun s => o_gicd (ss_out s)) in
  if negb ((gicd =? 0) || (gicd =? 0x17000000)) then py_raise (Stop "bootinfo GICD is not the registry's") else
  let! typer := rd "GICD_TYPER" 0 in
  rd "GICD_CTLR" 0 ;;;
  each (gic_intid (32 * (Z.land typer 0x1F + 1))) SURVEY_INTIDS ;;;
  order "gic".

Definition step_gcc : G (list (string * Z)) :=
  set_step "S2" ;;;
  let! values := rd_all GCC_SURVEY in
  order "gcc" ;;;
  if bits (rget values "GCC_GPU_BCR") BCR_BLK_ARES then py_raise (Stop "GCC_GPU_BCR holds the GPU subsystem in reset")
  else if bits (rget values "GCC_GPU_CFG_AHB_CBCR") CBCR_CLK_OFF then py_raise (Stop "GCC_GPU_CFG_AHB_CLK is off")
  else
    prove gpu_cfg_ahb (EvCfgAhb (rget values "GCC_GPU_CFG_AHB_CBCR") (rget values "GCC_GPU_BCR")) ;;;
    py_ret values.

Definition prove_critical (values : list (string * Z)) : G unit :=
  if forallb (fun n => critical_on (rget values n)) CRITICAL_CBCRS then prove gpucc_critical (EvCritical values)
  else withdraw gpucc_critical.

Definition prove_fuse (g : gdsc) : G unit :=
  let! critical := is_proven gpucc_critical in
  if critical && gd_on g && negb (gd_hw_control g) then prove cx_fuse EvFuse else withdraw cx_fuse.

(** [ok(name)]: the branch runs, from the GPUCC survey and the fresh GEMNOC read. *)
Definition clock_ok (values : list (string * Z)) (gemnoc : Z) (name : string) : bool :=
  running_named name (if String.prefix "GCC_" name then gemnoc else rget values name).

Definition domain_ok (g : gdsc) : bool := gd_on g && negb (gd_hw_control g).

Definition gate_gmu (g : gdsc) (values : list (string * Z)) (gemnoc : Z) : G unit :=
  let ok := clock_ok values gemnoc in
  if domain_ok g && ok "GPU_CC_AHB_CBCR" && forallb ok GMU_CLOCKS then prove cx_gmu EvGmuClocks else withdraw cx_gmu.
Definition gate_misc (g : gdsc) (values : list (string * Z)) (gemnoc : Z) : G unit :=
  let! gmu := py_get (fun s => ss_proven s cx_gmu) in
  let! clean := py_get ss_freq_clean in
  match gmu, clean with
  | Some e, _ => prove cx_misc (EvMiscGmu e)
  | None, Some freq => if domain_ok g && forallb (clock_ok values gemnoc) OTHER_CLOCKS then prove cx_misc (EvMiscRead freq) else withdraw cx_misc
  | None, None => withdraw cx_misc
  end.
Definition gate_smmu (g : gdsc) (values : list (string * Z)) (gemnoc : Z) : G unit :=
  let! misc := is_proven cx_misc in
  let! gmu := is_proven cx_gmu in
  let ahb := clock_ok values gemnoc "GPU_CC_AHB_CBCR" in
  let ahb_by_read := misc && negb gmu in
  if domain_ok g && (ahb || ahb_by_read) && forallb (clock_ok values gemnoc) SMMU_CLOCKS then prove cx_smmu (EvSmmu ahb) else withdraw cx_smmu.

Definition evaluate_gates (g : gdsc) (values : list (string * Z)) (gcc_gemnoc : Z) : G unit :=
  prove_fuse g ;;; gate_gmu g values gcc_gemnoc ;;; gate_misc g values gcc_gemnoc ;;; gate_smmu g values gcc_gemnoc.

(** step_gpucc; [after] is the second reading of cx-on (label 'gpucc_after'). *)
Definition step_gpucc (after : bool) : G (list (string * Z)) :=
  (if after then py_ret tt else set_step "S3") ;;;
  let! values := rd_all GPUCC_SURVEY in
  let! gcc_gemnoc := rd "GCC_GPU_GEMNOC_GFX_CBCR" 0 in
  let g := gdsc_state (rget values "GPU_CC_CX_GDSCR") (rget values "GPU_CC_CX_CFG_GDSCR") in
  (if after then py_ret tt else py_modify (upd_out (o_set_gpucc (rget values "GPU_CC_CX_GDSCR") g)) ;;; order "gpucc") ;;;
  prove_critical values ;;;
  evaluate_gates g values gcc_gemnoc ;;;
  py_ret values.

Definition step_freq_limit : G unit :=
  set_step "S4" ;;;
  let! fuse := is_proven cx_fuse in
  if negb fuse then py_modify (upd_out (o_set_speed None)) else
  let! raw := rd "CX_MISC_SW_FUSE_FREQ_LIMIT_STATUS" 0 in
  py_modify (upd_out (o_set_speed (Some (snd (speed_bin raw))))) ;;;
  order "freq_limit" ;;;
  py_modify (upd_freq raw).

Definition step_identify (required : bool) : G unit :=
  set_step "S5" ;;;
  let! misc := is_proven cx_misc in
  (if misc then rd "CX_MISC_SLICE_ENABLE_FINAL" 0 ;;; rd "CX_MISC_TCM_RET_CNTL" 0 ;;; order "cx_misc" else py_ret tt) ;;;
  let! smmu := is_proven cx_smmu in
  (if smmu then
     let! idr0 := rd "SMMU_IDR0" 0 in
     let! idr1 := rd "SMMU_IDR1" 0 in
     rd "SMMU_IDR2" 0 ;;; rd "SMMU_IDR7" 0 ;;; rd "SMMU_sCR0" 0 ;;;
     each (fun n => rd "SMMU_SMR" n ;;; rd "SMMU_S2CR" n ;;; py_ret tt) (seqZ 0 (Z.min (si_groups (decode_smmu idr0 idr1)) 128)) ;;;
     order "smmu"
   else py_ret tt) ;;;
  if required && negb (misc && smmu) then py_raise (Stop "a gate is still not proven") else py_ret tt.

Definition SURVEY_STEPS : list string := ["S0"; "S1"; "S2"; "S3"; "S4"; "S5"].
(** survey: the steps up to [last], an index of [SURVEY_STEPS]. *)
Definition survey (last : nat) : G unit :=
  each (fun m => m) (take (Datatypes.S last)
    [step_cmd_db; step_gic; (step_gcc ;;; py_ret tt); (step_gpucc false ;;; py_ret tt); step_freq_limit; step_identify false]).

(** ** CX power-on *)

Definition branch_on (name : string) : G unit :=
  let! r := py_lift (reg_named name) in
  let! value := update name CBCR_CLK_ENABLE CBCR_CLK_ENABLE in
  if decide (rg_halt r = HALT_DELAY) then udelay 10
  else if decide (rg_halt r = CRITICAL) then py_ret tt
  else if String.eqb (rg_block r) "GCC" && bits value CBCR_HW_CTL then py_ret tt
  else poll name CBCR_CLK_OFF 0 KBranch ;;; py_ret tt.

Definition park_rcg (cmd cfg_name : string) : G unit :=
  let! cfg := rd cfg_name 0 in
  if is_xo cfg then py_ret tt else
  update cmd RCG_CMD_ROOT_EN RCG_CMD_ROOT_EN ;;;
  py_reraise
    (poll cmd RCG_CMD_ROOT_OFF 0 KRcg ;;;
     wr cfg_name 0 0 ;;;
     update cmd RCG_CMD_UPDATE RCG_CMD_UPDATE ;;;
     poll cmd RCG_CMD_UPDATE 0 KRcg)
    is_timeout
    (py_catch (update cmd RCG_CMD_ROOT_EN 0 ;;; py_ret tt) is_stop (py_ret tt)) ;;;
  update cmd RCG_CMD_ROOT_EN 0 ;;;
  py_ret tt.

Definition park_shared_rcgs : G unit := each (fun '(cmd, cfg) => park_rcg cmd cfg) SHARED_RCGS.

Definition gpll0_wait (name : string) : G unit :=
  let! v := rd name 0 in
  if bits v CBCR_HW_CTL then py_ret tt else poll name CBCR_CLK_OFF 0 KBranch ;;; py_ret tt.

(** P1: the GCC votes. *)
Definition cx_votes : G unit :=
  set_step "P1" ;;;
  each withdraw [cx_fuse; cx_gmu; cx_smmu] ;;;
  update "GCC_APCS_CLOCK_BRANCH_ENA_VOTE" (Z.lor GCC_VOTE_GPU_GPLL0 GCC_VOTE_GPU_GPLL0_DIV) (Z.lor GCC_VOTE_GPU_GPLL0 GCC_VOTE_GPU_GPLL0_DIV) ;;;
  each gpll0_wait ["GCC_GPU_GPLL0_CLK_SRC_CBCR"; "GCC_GPU_GPLL0_DIV_CLK_SRC_CBCR"] ;;;
  order "gcc_votes".

(** P3: the critical branches. *)
Definition cx_critical : G unit :=
  set_step "P3" ;;;
  each branch_on CRITICAL_CBCRS ;;;
  order "critical_cbcrs" ;;;
  let! values := rd_all CRITICAL_CBCRS in
  prove_critical values ;;;
  let! critical := is_proven gpucc_critical in
  if negb critical then py_raise (Stop "critical GPUCC CBCRs are not running after P3") else py_ret tt.

Definition GDSC_INIT_MASK : Z := Z.lor (Z.lor (Z.lor (Z.lor GDSC_HW_CONTROL GDSC_SW_OVERRIDE) GDSC_EN_REST_WAIT) GDSC_EN_FEW_WAIT) GDSC_CLK_DIS_WAIT.

(** P4: the CX GDSC. *)
Definition cx_gdsc : G unit :=
  set_step "P4" ;;;
  update "GPU_CC_CX_GDSCR" GDSC_INIT_MASK CX_GDSC_WAITS ;;;
  update "GPU_CC_CX_GDSCR" GDSC_SW_COLLAPSE 0 ;;;
  udelay 1 ;;;
  poll "GPU_CC_CX_CFG_GDSCR" CFG_POWER_UP_COMPLETE CFG_POWER_UP_COMPLETE KGdsc ;;;
  udelay 1 ;;;
  let! gdscr := update "GPU_CC_CX_GDSCR" GDSC_RETAIN_FF GDSC_RETAIN_FF in
  order "cx_gdsc" ;;;
  let! cfg := rd "GPU_CC_CX_CFG_GDSCR" 0 in
  prove_fuse (gdsc_state gdscr cfg) ;;;
  let! fuse := is_proven cx_fuse in
  if negb fuse then py_raise (Stop "CX GDSC does not read on after P4") else step_freq_limit.

Definition cx_on (take_hw_control : bool) : G unit :=
  step_cmd_db ;;; step_gic ;;; step_gcc ;;; step_gpucc false ;;;
  let! gdscr := py_get (fun s => o_gdscr (ss_out s)) in
  if bits gdscr GDSC_HW_CONTROL && negb take_hw_control then py_raise (Stop "CX GDSC is under HW control") else
  cx_votes ;;;
  cx_critical ;;;
  set_step "P5" ;;; withdraw cx_fuse ;;; park_shared_rcgs ;;; order "gmu_rcg" ;;;
  cx_gdsc ;;;
  set_step "P6" ;;; each branch_on GMU_CLOCKS ;;; order "gmu_clocks" ;;;
  set_step "P7" ;;; each branch_on SMMU_CLOCKS ;;; order "smmu_clock" ;;;
  step_gpucc true ;;;
  step_identify true.
End session.

(** ** One subcommand *)

Section run.
  Context {S : Type} `{!TargetOps S, !BootOps S}.

Definition arm_guard (allow_unguarded arm : bool) : M S (option (list (string * Z))) :=
  let! state := on_remote (let! st := serror_state in py_ret (Some st))
    (fun _ => if allow_unguarded then py_ret None else py_raise (GuardMissing "the running q1n1 has no SError guard")) in
  match state with
  | None => py_ret None
  | Some st =>
      if (rget st "mechanism" =? 0) && negb allow_unguarded then py_raise (GuardMissing "no mechanism on this core") else
      (if arm then serror_reset ;;; serror_strict true else py_ret tt) ;;;
      py_ret (Some st)
  end.

(** The exit status of the exceptions [run] handles. *)
Definition exit_status (e : exn) : option Z :=
  match e with
  | SErrorStop _ | AbortStop _ => Some 3
  | GuardMissing _ => Some 4
  | Refused _ => Some 6
  | _ => if is_stop e then Some 2 else if is_link_error e then Some 5 else None
  end.

Definition counters (st : list (string * Z)) : bool :=
  negb (rget st "before" =? 0) || negb (rget st "during" =? 0) || negb (rget st "unconsumed" =? 0).

(** The [finally] of [run]: one more bracketed access after a clean run, the record,
    and the strict mode as it was found.  Returns serror_guard['after']. *)
Definition disarm (previous : option (list (string * Z))) (status : Z) : M S (option (list (string * Z))) :=
  match previous with
  | None => py_ret None
  | Some p =>
      py_catch
        ((if status =? 0 then on_remote (t_read64 (rget p "address") ;;; py_ret tt) (fun _ => py_ret tt) else py_ret tt) ;;;
         let! after := serror_state in
         (* recorded before the mode is restored: kept when that fails *)
         py_catch (serror_strict (negb (Z.land (rget p "flags") SERROR_STRICT =? 0))) is_link_error (py_ret tt) ;;;
         py_ret (Some after))
        is_link_error (py_ret None)
  end.

(** [body] in a fresh session after [arm_guard], with the handlers of [run]: the
    exit status and the session. *)
Definition run_session (stage3 writes : bool) (previous : option (list (string * Z))) (body : M (session S) unit) : M S (Z * session S) := fun t =>
  let '(r, s) := body (session_new t stage3 writes (match previous with Some _ => true | None => false end)) in
  let handled := match r with Ok _ => Some 0 | Raise e => exit_status e end in
  let '(r2, t2) := disarm previous (default 0 handled) (ss_tgt s) in
  let s2 := upd_tgt t2 s in
  match r2, r, handled with
  | Raise e, _, _ => (Raise e, t2)
  | Ok _, Raise e, None => (Raise e, t2)
  | Ok after, _, _ =>
      let status := default 0 handled in
      (Ok (if (status =? 0) && match after with Some a => counters a | None => false end then 3 else status, s2), t2)
  end.

Inductive command := CmdGuard | CmdSurvey (stop_after : nat) | CmdCxOn (take_hw_control : bool).

(** run: the exit status, and the session when one was opened. *)
Definition run (cmd : command) (allow_writes allow_unguarded : bool) : M S (Z * option (session S)) := fun t =>
  match arm_guard allow_unguarded (match cmd with CmdGuard => false | _ => true end) t with
  | (Raise e, t') => match exit_status e with Some st => (Ok (st, None), t') | None => (Raise e, t') end
  | (Ok previous, t') =>
      match cmd with
      | CmdGuard => (Ok (0, None), t')
      | CmdSurvey last => (let! x := run_session false allow_writes previous (survey last) in py_ret (fst x, Some (snd x))) t'
      | CmdCxOn take => (let! x := run_session false allow_writes previous (cx_on take) in py_ret (fst x, Some (snd x))) t'
      end
  end.
End run.
