(* ===== verification/GpuTables.v ===== *)
(** * GPU page tables

    The stage-1 tables src/tools/a16gpu_stage3.py builds for the GMU and the command
    processor: PageTables, walk, gmu_mappings, gpu_mappings, build_tables, ttbr_for.

    A 4 KiB table is the list of its 512 entries; _entry and _set access it with
    struct at multiples of eight bytes only.  [image] is the bytes written to DRAM,
    and [walk] the translation of the hardware, read through any [read_u64]. *)

From Stdlib Require Import ZArith Lia.
From Stdlib Require Import Strings.Byte.
From stdpp Require Import base list numbers strings gmap sets.
From S2P Require Import Prelude Bytes GpuRegs.

Local Open Scope string_scope.
Local Open Scope list_scope.
Local Open Scope Z_scope.
Local Open Scope py_scope.

Record page_tables := PT {
  pt_base : Z;
  pt_pool : Z;                 (* pool_offset *)
  pt_size : Z;                 (* pool_size *)
  pt_used : Z;
  pt_tables : gmap Z (list Z);
  pt_root : Z
}.

Definition pt_blank_table : list Z := replicate 512 0.
#[global] Arguments pt_blank_table : simpl never.

Definition pt_alloc : M page_tables Z := fun p =>
  if pt_size p <? pt_used p + 4096 then (Raise (Refused "page-table pool exhausted"), p) else
  let phys := pt_base p + pt_pool p + pt_used p in
  (Ok phys, PT (pt_base p) (pt_pool p) (pt_size p) (pt_used p + 4096) (<[phys := pt_blank_table]> (pt_tables p)) (pt_root p)).

Definition pt_new (base pool size : Z) : result page_tables :=
  match pt_alloc (PT base pool size 0 ∅ 0) with
  | (Ok root, p) => Ok (PT base pool size (pt_used p) (pt_tables p) root)
  | (Raise e, _) => Raise e
  end.

Definition pt_entry (table index : Z) : M page_tables Z := fun p =>
  match pt_tables p !! table with
  | Some t => match t !! Z.to_nat index with Some v => (Ok v, p) | None => (Raise StructError, p) end
  | None => (Raise (KeyError "table"), p)
  end.

(** struct.pack_into('<Q', ...). *)
Definition pt_set (table index value : Z) : M page_tables unit := fun p =>
  match pt_tables p !! table with
  | Some t =>
      if negb ((0 <=? value) && (value <? 2 ^ 64)) || negb (Z.to_nat index <? length t)%nat then (Raise StructError, p) else
      (Ok tt, PT (pt_base p) (pt_pool p) (pt_size p) (pt_used p) (<[table := <[Z.to_nat index := value]> t]> (pt_tables p)) (pt_root p))
  | None => (Raise (KeyError "table"), p)
  end.

Definition pt_next (table index : Z) : M page_tables Z :=
  let! entry := pt_entry table index in
  if Z.land entry 3 =? PTE_TYPE_TABLE then py_ret (Z.land entry PTE_ADDR_MASK)
  else if negb (entry =? 0) then py_raise (Refused "page-table overlap")
  else
    let! child := pt_alloc in
    pt_set table index (Z.lor child PTE_TYPE_TABLE) ;;;
    py_ret child.

Definition pt_map_page (va pa attrs : Z) : M page_tables unit :=
  let! root := py_get pt_root in
  let! l2 := pt_next root (Z.land (Z.shiftr va 30) 3) in
  let! l3 := pt_next l2 (Z.land (Z.shiftr va 21) 0x1FF) in
  let! e := pt_entry l3 (Z.land (Z.shiftr va 12) 0x1FF) in
  if negb (e =? 0) then py_raise (Refused "VA mapped twice")
  else pt_set l3 (Z.land (Z.shiftr va 12) 0x1FF) (Z.lor (Z.lor pa attrs) PTE_TYPE_PAGE).

(** [for page in range(0, size, 4096)]. *)
Fixpoint pt_map_pages (n : nat) (va pa attrs : Z) : M page_tables unit :=
  match n with
  | O => py_ret tt
  | Datatypes.S k => pt_map_page va pa attrs ;;; pt_map_pages k (va + 4096) (pa + 4096) attrs
  end.
Definition pt_map (va pa size attrs : Z) : M page_tables unit :=
  if negb (va mod 4096 =? 0) || negb (pa mod 4096 =? 0) || negb (size mod 4096 =? 0) || (Z.shiftl 1 CB_T0SZ <? va + size)
  then py_raise (Refused "bad mapping") else pt_map_pages (Z.to_nat (size / 4096)) va pa attrs.

(** image: the tables in the order they were allocated. *)
Fixpoint pt_image_from (tables : gmap Z (list Z)) (n : nat) (at_ : Z) : result bytes :=
  match n with
  | O => Ok []
  | Datatypes.S k => match tables !! at_ with
                     | Some t => let? rest := pt_image_from tables k (at_ + 4096) in Ok (flat_map (le_bytes 8) t ++ rest)
                     | None => Raise (KeyError "table")
                     end
  end.
Definition pt_image (p : page_tables) : result (Z * bytes) :=
  let? blob := pt_image_from (pt_tables p) (Z.to_nat (pt_used p / 4096)) (pt_base p + pt_pool p) in
  Ok (pt_pool p, blob).

(** walk(read_u64, ttbr, va, t0sz): the address and the leaf entry. *)
Definition walk (read_u64 : Z -> Z) (ttbr va t0sz : Z) : option (Z * Z) :=
  if negb (Z.shiftr va (64 - t0sz) =? 0) then None else
  let e1 := read_u64 (Z.land ttbr PTE_ADDR_MASK + 8 * Z.land (Z.shiftr va 30) (Z.shiftl 1 (34 - t0sz) - 1)) in
  if negb (Z.land e1 3 =? PTE_TYPE_TABLE) then None else
  let e2 := read_u64 (Z.land e1 PTE_ADDR_MASK + 8 * Z.land (Z.shiftr va 21) 0x1FF) in
  if negb (Z.land e2 3 =? PTE_TYPE_TABLE) then None else
  let leaf := read_u64 (Z.land e2 PTE_ADDR_MASK + 8 * Z.land (Z.shiftr va 12) 0x1FF) in
  if negb (Z.land leaf 3 =? PTE_TYPE_PAGE) then None else
  Some (Z.lor (Z.land leaf PTE_ADDR_MASK) (Z.land va 0xFFF), leaf).

(** ** The mappings *)

Definition PRIV_RW : Z := Z.lor (Z.lor (Z.lor PTE_NG PTE_AF) PTE_SH_OS) PTE_ATTR_NC.
Definition UNPRIV_RW : Z := Z.lor PRIV_RW PTE_AP_UNPRIV.
Definition UNPRIV_RO : Z := Z.lor UNPRIV_RW PTE_AP_RDONLY.

(** (name, va, pa, size, attributes). *)
Definition mapping : Type := string * Z * Z * Z * Z.
Definition mp_va (m : mapping) : Z := m.1.1.1.2.
Definition mp_pa (m : mapping) : Z := m.1.1.2.
Definition mp_size (m : mapping) : Z := m.1.2.
Definition mp_attrs (m : mapping) : Z := m.2.

Definition gmu_mappings (base : Z) : list mapping :=
  [("icache", GMU_ICACHE_VA, base + region_off "gmu_icache", GMU_ICACHE_SIZE, PRIV_RW);
   ("dummy", GMU_DUMMY_VA, base + region_off "gmu_dummy", GMU_DUMMY_SIZE, PRIV_RW);
   ("debug", GMU_DEBUG_VA, base + region_off "gmu_debug", GMU_DEBUG_SIZE, PRIV_RW);
   ("log", GMU_LOG_VA, base + region_off "gmu_log", GMU_LOG_SIZE, UNPRIV_RW);
   ("hfi", GMU_HFI_VA, base + region_off "gmu_hfi", GMU_HFI_SIZE, UNPRIV_RW)].
Definition gpu_mappings (base : Z) : list mapping :=
  [("sqe", CP_SQE_VA, base + region_off "cp_sqe", region_size "cp_sqe", UNPRIV_RO);
   ("rb", CP_RB_VA, base + region_off "cp_rb", region_size "cp_rb", UNPRIV_RO);
   ("memptrs", CP_MEMPTRS_VA, base + region_off "cp_memptrs", region_size "cp_memptrs", UNPRIV_RW)].

Fixpoint map_all (ms : list mapping) : M page_tables unit :=
  match ms with
  | [] => py_ret tt
  | m :: rest => pt_map (mp_va m) (mp_pa m) (mp_size m) (mp_attrs m) ;;; map_all rest
  end.

Inductive table_set := GmuTables | GpuTables.
Definition pool_half : Z := region_size "tables" / 2.
Definition build_tables (base : Z) (which : table_set) (probe : bool) : result page_tables :=
  let pool := region_off "tables" + match which with GpuTables => pool_half | GmuTables => 0 end in
  let? p := pt_new base pool pool_half in
  let ms := if probe then [] else match which with GmuTables => gmu_mappings base | GpuTables => gpu_mappings base end in
  match map_all ms p with (Ok _, p') => Ok p' | (Raise e, _) => Raise e end.

Definition ttbr_for (p : page_tables) (cb : Z) : Z := Z.lor (pt_root p) (Z.shiftl cb 48).

(** ** The tables as a tree *)

(** The translation of a page: its leaf entry, 0 when there is none. *)
Definition leaves := Z -> Z.
Definition leaf_at (lf : leaves) (path : list Z) (k : Z) : Z :=
  match path with [i; j] => lf ((i * 512 + j) * 512 + k) | _ => 0 end.

(** [g] places the table of every path of indices; the entries of a table are the
    tables of its children or, at the third level, the leaves. *)
Definition content (g : gmap (list Z) Z) (lf : leaves) (path : list Z) (k : Z) : Z :=
  if (length path <? 2)%nat then match g !! (path ++ [k]) with Some c => Z.lor c 3 | None => 0 end else leaf_at lf path k.

Definition table_is (p : page_tables) (a : Z) (f : Z -> Z) : Prop :=
  exists t, pt_tables p !! a = Some t /\ length t = 512%nat /\ forall k, 0 <= k < 512 -> t !! Z.to_nat k = Some (f k).

Definition in_pool (p : page_tables) (a : Z) : Prop := exists k, 0 <= k < pt_used p / 4096 /\ a = pt_base p + pt_pool p + 4096 * k.

Definition path_ok (x : list Z) : Prop := (length x <= 2)%nat /\ Forall (fun i => 0 <= i < 512) x.

Record pt_ok (p : page_tables) (g : gmap (list Z) Z) (lf : leaves) : Prop := {
  po_pool : 0 <= pt_base p + pt_pool p /\ (pt_base p + pt_pool p) mod 4096 = 0 /\ pt_base p + pt_pool p + pt_size p <= 2 ^ 48;
  po_used : pt_used p = 4096 * Z.of_nat (size g) /\ pt_used p <= pt_size p;
  po_root : g !! [] = Some (pt_root p);
  po_inj : forall x y a, g !! x = Some a -> g !! y = Some a -> x = y;
  po_tables : forall x a, g !! x = Some a -> path_ok x /\ in_pool p a /\ table_is p a (content g lf x);
  po_onto : forall a, in_pool p a -> exists x, g !! x = Some a;
  po_closed : forall i j, is_Some (g !! [i; j]) -> is_Some (g !! [i]);
  po_zero : forall i j k, g !! [i; j] = None -> 0 <= j < 512 -> 0 <= k < 512 -> lf ((i * 512 + j) * 512 + k) = 0
}.

Lemma pool_addr p g lf a : pt_ok p g lf -> in_pool p a -> 0 <= a < 2 ^ 48 /\ a mod 4096 = 0 /\ Z.land (Z.lor a 3) 3 = 3 /\ Z.land (Z.lor a 3) PTE_ADDR_MASK = a.
Proof.
  intros [(Hb & Hm & Hs) [Hu Hl] _ _ _ _ _ _] (k & Hk & ->). pose proof (mod_div_exact _ 4096 ltac:(lia) Hm) as Hd.
  assert (0 <= 4096 * k < pt_size p) by (rewrite Hu in Hk; rewrite Z.mul_comm, Z.div_mul in Hk by lia; lia).
  set (q := (pt_base p + pt_pool p) / 4096 + k). replace (pt_base p + pt_pool p + 4096 * k) with (4096 * q) by (unfold q; lia).
  assert (0 <= 4096 * q < 2 ^ 48) by (unfold q; lia). split; [done|]. split; [rewrite Z.mul_comm; by apply Z.mod_mul|].
  assert (Hq : 4096 * q = Z.shiftl q 12) by (rewrite Z.shiftl_mul_pow2 by lia; lia).
  split; apply Z.bits_inj'; intros n Hn; rewrite ?Z.land_spec, ?Z.lor_spec, Hq, ?Z.shiftl_spec by lia.
  - destruct (Z.lt_ge_cases n 12) as [Hlt|Hge].
    + rewrite (Z.testbit_neg_r q) by lia. cbn [orb]. apply andb_diag.
    + assert (Hz : Z.testbit 3 n = false) by (apply Z.bits_above_log2; [lia|]; change (Z.log2 3) with 1; lia). rewrite Hz. apply andb_false_r.
  - unfold PTE_ADDR_MASK. rewrite Z.land_spec. destruct (Z.lt_ge_cases n 12) as [Hlt|Hge].
    + rewrite (Z.testbit_neg_r q) by lia. change 0xFFF with (Z.ones 12). rewrite Z.lnot_spec, Z.ones_spec_low by lia. cbn [negb]. by rewrite !andb_false_r.
    + assert (Hz : Z.testbit 3 n = false) by (apply Z.bits_above_log2; [lia|]; change (Z.log2 3) with 1; lia). rewrite Hz, orb_false_r.
      change 0xFFF with (Z.ones 12). rewrite Z.lnot_spec, Z.ones_spec_high by lia. cbn [negb]. rewrite andb_true_r.
      replace (Z.shiftl 1 48 - 1) with (Z.ones 48) by done. destruct (Z.lt_ge_cases n 48).
      * by rewrite Z.ones_spec_low, andb_true_r by lia.
      * rewrite Z.ones_spec_high, andb_false_r by lia. symmetry. destruct (Z.eq_dec q 0) as [->|]; [apply Z.bits_0|].
        apply Z.bits_above_log2; [lia|]. apply Z.log2_lt_pow2; [lia|]. assert (q < 2 ^ 36) by lia.
        eapply Z.lt_le_trans; [eassumption|]. apply Z.pow_le_mono_r; lia.
Qed.

Lemma entry_spec p a f i : table_is p a f -> 0 <= i < 512 -> pt_entry a i p = (Ok (f i), p).
Proof. intros (t & Ht & _ & Hf) Hi. unfold pt_entry. by rewrite Ht, (Hf i Hi). Qed.

Lemma set_spec p a f i v : table_is p a f -> 0 <= i < 512 -> 0 <= v < 2 ^ 64 ->
  exists p', pt_set a i v p = (Ok tt, p') /\ pt_base p' = pt_base p /\ pt_pool p' = pt_pool p /\ pt_size p' = pt_size p /\
    pt_used p' = pt_used p /\ pt_root p' = pt_root p /\ table_is p' a (fun k => if k =? i then v else f k) /\
    forall b h, b <> a -> table_is p b h -> table_is p' b h.
Proof.
  intros (t & Ht & Hl & Hf) Hi Hv. unfold pt_set. rewrite Ht. replace ((0 <=? v) && (v <? 2 ^ 64)) with true by lia.
  replace (Z.to_nat i <? length t)%nat with true by (symmetry; apply Nat.ltb_lt; lia). cbn [negb orb]. eexists. split; [done|]. cbn. split_and!; try done.
  - exists (<[Z.to_nat i:=v]> t). cbn [pt_tables]. rewrite lookup_insert_eq. split; [done|]. split; [by rewrite length_insert|]. intros k Hk. destruct (Z.eqb_spec k i) as [->|Hne].
    + apply list_lookup_insert_eq. lia.
    + rewrite list_lookup_insert_ne by lia. by apply Hf.
  - intros b h Hb (t' & Ht' & Hr). exists t'. split; [|done]. cbn [pt_tables]. by rewrite lookup_insert_ne.
Qed.

(** The cursor of [pt_next]: the child of a table, allocated when there is none. *)
Definition pt_grows (p p' : page_tables) : Prop :=
  pt_base p' = pt_base p /\ pt_pool p' = pt_pool p /\ pt_size p' = pt_size p /\ pt_root p' = pt_root p.

Lemma pt_grows_refl p : pt_grows p p.
Proof. done. Qed.

Lemma table_is_ext p a f h : table_is p a f -> (forall k, 0 <= k < 512 -> f k = h k) -> table_is p a h.
Proof. intros (t & Ht & Hl & Hf) He. exists t. split; [done|]. split; [done|]. intros k Hk. rewrite <- He by done. by apply Hf. Qed.

Lemma alloc_spec p g lf : pt_ok p g lf ->
  (pt_size p < 4096 * (Z.of_nat (size g) + 1) /\ pt_alloc p = (Raise (Refused "page-table pool exhausted"), p)) \/
  exists c p', pt_alloc p = (Ok c, p') /\ pt_grows p p' /\ pt_used p' = pt_used p + 4096 /\ pt_used p' <= pt_size p /\ ~ in_pool p c /\ in_pool p' c /\
    table_is p' c (fun _ => 0) /\ (forall b, in_pool p' b -> in_pool p b \/ b = c) /\ forall b h, in_pool p b -> table_is p b h -> in_pool p' b /\ table_is p' b h.
Proof.
  intros [_ [Hu Hl] _ _ _ _ _ _]. unfold pt_alloc. destruct (Z.ltb_spec (pt_size p) (pt_used p + 4096)) as [Hlt|Hge]; [left; split; [lia|done]|right].
  eexists _, _. split; [done|]. split; [done|]. cbn [pt_used]. split; [done|]. split; [done|].
  assert (Hq : pt_used p / 4096 = Z.of_nat (size g)) by (rewrite Hu, Z.mul_comm, Z.div_mul; lia).
  assert (Hq' : (pt_used p + 4096) / 4096 = Z.of_nat (size g) + 1).
  { replace (pt_used p + 4096) with ((Z.of_nat (size g) + 1) * 4096) by lia. apply Z.div_mul. lia. }
  assert (Hfresh : ~ in_pool p (pt_base p + pt_pool p + pt_used p)) by (intros (k & Hk & He); rewrite Hq in Hk; lia).
  split; [done|]. split; [exists (Z.of_nat (size g)); cbn; rewrite Hq'; lia|]. split.
  - exists pt_blank_table. cbn [pt_tables]. rewrite lookup_insert_eq. split; [done|]. split; [done|]. intros k Hk. apply lookup_replicate_2. lia.
  - split.
    { intros b (k & Hk & ->). cbn in Hk. rewrite Hq' in Hk. cbn [pt_base pt_pool]. destruct (decide (k = Z.of_nat (size g))) as [->|]; [right; lia|left; exists k; rewrite Hq; lia]. }
    intros b h Hb (t & Ht & Hr). split; [destruct Hb as (k & Hk & ->); exists k; cbn; rewrite Hq'; rewrite Hq in Hk; lia|].
    exists t. split; [|done]. cbn [pt_tables]. rewrite lookup_insert_ne; [done|]. intros <-. by apply Hfresh.
Qed.

Lemma pt_next_spec p g lf x a i : pt_ok p g lf -> g !! x = Some a -> (length x < 2)%nat -> 0 <= i < 512 ->
  (exists c, g !! (x ++ [i]) = Some c /\ pt_next a i p = (Ok c, p)) \/
  (g !! (x ++ [i]) = None /\ pt_size p < 4096 * (Z.of_nat (size g) + 1) /\ exists e, pt_next a i p = (Raise e, p)) \/
  (g !! (x ++ [i]) = None /\ exists c p', pt_next a i p = (Ok c, p') /\ pt_ok p' (<[x ++ [i] := c]> g) lf /\ pt_grows p p').
Proof.
  intros Hok Hx Hlen Hi. destruct (po_tables _ _ _ Hok x a Hx) as (Hxp & Hpa & Ha). unfold pt_next.
  rewrite (py_bind_ok _ _ _ _ _ (entry_spec _ _ _ _ Ha Hi)). unfold content. replace (length x <? 2)%nat with true by (symmetry; by apply Nat.ltb_lt).
  destruct (g !! (x ++ [i])) as [c|] eqn:Hc.
  { left. exists c. split; [done|]. destruct (po_tables _ _ _ Hok _ _ Hc) as (_ & Hpc & _). destruct (pool_addr _ _ _ _ Hok Hpc) as (_ & _ & H3 & Hm). cbn beta iota. unfold PTE_TYPE_TABLE. rewrite H3. cbn [Z.eqb Pos.eqb]. by rewrite Hm. }
  right. change (Z.land 0 3 =? PTE_TYPE_TABLE) with false. change (negb (0 =? 0)) with false. cbn iota.
  destruct (alloc_spec _ _ _ Hok) as [[Hfull Hal]|(c & p1 & Hal & Hg1 & Hu1 & Hs1 & Hfresh & Hpc & Hc0 & Hnew & Hkeep)]; [left; split; [done|]; split; [done|]; rewrite (py_bind_raise _ _ _ _ _ Hal); by eexists|right].
  rewrite (py_bind_ok _ _ _ _ _ Hal).
  split; [done|]. destruct Hg1 as (Hb1 & Hp1 & Hsz1 & Hr1). destruct (Hkeep a _ Hpa Ha) as [Hpa1 Ha1].
  assert (Hcb : 0 <= c < 2 ^ 48).
  { destruct Hpc as (k & Hk & ->). destruct Hok as [(H0 & _ & H1) [Hu Hl] _ _ _ _ _ _].
    assert (pt_used p1 / 4096 = Z.of_nat (size g) + 1) by (rewrite Hu1, Hu; replace (4096 * Z.of_nat (size g) + 4096) with ((Z.of_nat (size g) + 1) * 4096) by lia; by rewrite Z.div_mul). lia. }
  assert (Hcl : 0 <= Z.lor c 3 < 2 ^ 64).
  { split; [apply Z.lor_nonneg; lia|]. destruct (Z.eq_dec (Z.lor c 3) 0) as [->|]; [lia|]. assert (0 <= Z.lor c 3) by (apply Z.lor_nonneg; lia). apply Z.log2_lt_pow2; [lia|].
    rewrite Z.log2_lor by lia. apply Z.max_lub_lt; [|done]. destruct (Z.eq_dec c 0) as [->|]; [done|]. apply Z.log2_lt_pow2; lia. }
  destruct (set_spec _ _ _ i (Z.lor c PTE_TYPE_TABLE) Ha1 Hi Hcl) as (p2 & Hset & Hb2 & Hp2 & Hs2 & Hu2 & Hr2 & Ha2 & Hk2).
  rewrite (py_bind_ok _ _ _ _ _ Hset). exists c, p2. split; [done|]. split; [|by unfold pt_grows; split_and!; congruence].
  assert (Hin : forall b, in_pool p1 b -> in_pool p2 b) by (intros b (k & Hk & ->); exists k; rewrite Hu2, Hb2, Hp2; done).
  assert (Hxi : x ++ [i] <> []) by (intros [_ ?]%app_eq_nil; done).
  assert (Hold : forall y b, g !! y = Some b -> b <> c) by (intros y b Hy ->; apply Hfresh; by destruct (po_tables _ _ _ Hok y c Hy) as (_ & ? & _)).
  split.
  - rewrite Hb2, Hp2, Hs2, Hb1, Hp1, Hsz1. apply Hok.
  - rewrite Hu2, Hs2, Hsz1. rewrite map_size_insert_None by done. destruct (po_used _ _ _ Hok). lia.
  - rewrite lookup_insert_ne by done. rewrite Hr2, Hr1. apply Hok.
  - intros y z b. rewrite !lookup_insert_Some. intros [[<- <-]|[Hy1 Hy2]] [[<- Hcb']|[Hz1 Hz2]]; [done|by destruct (Hold _ _ Hz2)|subst; by destruct (Hold _ _ Hy2)|by apply (po_inj _ _ _ Hok y z b)].
  - intros y b. rewrite lookup_insert_Some. intros [[<- <-]|[Hy1 Hy2]].
    + split; [split; [rewrite length_app; cbn; lia|apply Forall_app; split; [exact (proj2 Hxp)|by apply Forall_singleton]]|]. split; [by apply Hin|].
      assert (a <> c) by (by apply (Hold x)). apply (table_is_ext _ _ (fun _ => 0)); [by apply Hk2|]. intros k Hk. unfold content.
      destruct (Nat.ltb_spec (length (x ++ [i])) 2) as [Hl2|Hl2].
      * destruct x as [|? [|]]; [|rewrite length_app in Hl2; cbn in Hl2; lia..]. cbn [app]. rewrite lookup_insert_ne by done.
        destruct (g !! [i; k]) eqn:E; [|done]. destruct (po_closed _ _ _ Hok i k) as [? Hi']; [by eexists|]. cbn [app] in Hc. congruence.
      * destruct x as [|x0 [|]]; [cbn in Hl2; lia| |cbn in Hlen; lia]. cbn [app leaf_at]. symmetry. by apply (po_zero _ _ _ Hok).
    + destruct (po_tables _ _ _ Hok y b Hy2) as (Hyl & Hyp & Hyt). destruct (Hkeep b _ Hyp Hyt) as [Hyp1 Hyt1]. split; [done|]. split; [by apply Hin|].
      destruct (decide (b = a)) as [->|Hba].
      * assert (y = x) as -> by (by apply (po_inj _ _ _ Hok y x a)). apply (table_is_ext _ _ _ _ Ha2). intros k Hk. unfold content.
        replace (length x <? 2)%nat with true by (symmetry; by apply Nat.ltb_lt). destruct (Z.eqb_spec k i) as [->|Hki]; [by rewrite lookup_insert_eq|].
        rewrite lookup_insert_ne; [done|]. intros [_ ?]%app_inj_tail. congruence.
      * apply (table_is_ext _ _ (content g lf y)); [by apply Hk2|]. intros k Hk. unfold content. rewrite lookup_insert_ne; [done|].
        intros [<- _]%app_inj_tail. apply Hba. congruence.
  - intros b (k & Hk & ->). rewrite Hu2 in Hk. rewrite Hb2, Hp2. destruct (Hnew (pt_base p1 + pt_pool p1 + 4096 * k)) as [Hb| ->]; [by exists k| |].
    + destruct (po_onto _ _ _ Hok _ Hb) as [y Hy]. exists y. rewrite lookup_insert_ne; [done|]. intros <-. congruence.
    + exists (x ++ [i]). apply lookup_insert_eq.
  - intros i0 j0. rewrite !lookup_insert_is_Some'. intros [He|Hs].
    + destruct x as [|x0 [|]]; cbn [app] in He; simplify_eq; [|cbn in Hlen; lia]. right. by eexists.
    + right. by apply (po_closed _ _ _ Hok i0 j0).
  - intros i0 j0 k. rewrite lookup_insert_None. intros [Hn _] Hj Hk. by apply (po_zero _ _ _ Hok).
Qed.

(** ** Mapping a page *)

Definition upd (lf : leaves) (q v : Z) : leaves := fun x => if x =? q then v else lf x.
Definition path2 (q : Z) : list Z := [q / 2 ^ 18].
Definition path3 (q : Z) : list Z := [q / 2 ^ 18; (q / 512) mod 512].

Lemma page_index q : 0 <= q < 2 ^ 20 ->
  Z.land (Z.shiftr (4096 * q) 30) 3 = q / 2 ^ 18 /\ Z.land (Z.shiftr (4096 * q) 21) 0x1FF = (q / 512) mod 512 /\
  Z.land (Z.shiftr (4096 * q) 12) 0x1FF = q mod 512.
Proof.
  intros Hq. rewrite !Z.shiftr_div_pow2 by lia. change 3 with (Z.ones 2). change 0x1FF with (Z.ones 9). rewrite !Z.land_ones by lia.
  change (2 ^ 9) with 512. split_and!.
  - replace (4096 * q / 2 ^ 30) with (q / 2 ^ 18) by (rewrite (Z.mul_comm 4096); change (2 ^ 30) with (2 ^ 18 * 4096); by rewrite Z.div_mul_cancel_r).
    apply Z.mod_small. split; [apply Z.div_pos; lia|apply Z.div_lt_upper_bound; lia].
  - f_equal. rewrite (Z.mul_comm 4096). change (2 ^ 21) with (512 * 4096). by rewrite Z.div_mul_cancel_r.
  - f_equal. rewrite (Z.mul_comm 4096). by apply Z.div_mul.
Qed.

Lemma va_page_split q : 0 <= q -> (q / 2 ^ 18 * 512 + (q / 512) mod 512) * 512 + q mod 512 = q.
Proof.
  intros Hq. change (2 ^ 18) with (512 * 512). rewrite <- Z.div_div by lia.
  pose proof (Z.div_mod q 512 ltac:(lia)). pose proof (Z.div_mod (q / 512) 512 ltac:(lia)). lia.
Qed.

Lemma page_join i j k q : 0 <= j < 512 -> 0 <= k < 512 -> (i * 512 + j) * 512 + k = q -> i = q / 2 ^ 18 /\ j = (q / 512) mod 512 /\ k = q mod 512.
Proof.
  intros Hj Hk <-. assert (Hq : ((i * 512 + j) * 512 + k) / 512 = i * 512 + j) by (rewrite Z.div_add_l by lia; rewrite (Z.div_small k) by lia; lia).
  split_and!.
  - change (2 ^ 18) with (512 * 512). rewrite <- Z.div_div, Hq by lia. rewrite Z.div_add_l by lia. rewrite (Z.div_small j) by lia. lia.
  - rewrite Hq, Z.add_comm, Z.mod_add by lia. symmetry. by apply Z.mod_small.
  - rewrite Z.add_comm, Z.mod_add by lia. symmetry. by apply Z.mod_small.
Qed.

Lemma leaf_set p g lf q a v : pt_ok p g lf -> 0 <= q < 2 ^ 20 -> g !! path3 q = Some a -> 0 <= v < 2 ^ 64 ->
  exists p', pt_set a (q mod 512) v p = (Ok tt, p') /\ pt_ok p' g (upd lf q v) /\ pt_grows p p'.
Proof.
  intros Hok Hq Ha Hv. destruct (po_tables _ _ _ Hok _ _ Ha) as (_ & Hpa & Hta). pose proof (Z.mod_pos_bound q 512 ltac:(lia)) as Hk.
  destruct (set_spec _ _ _ _ v Hta Hk Hv) as (p' & Hset & Hb & Hp & Hs & Hu & Hr & Hta' & Hkeep). exists p'. split; [done|].
  assert (Hin : forall b, in_pool p b -> in_pool p' b) by (intros b (k & Hk' & ->); exists k; rewrite Hu, Hb, Hp; done).
  split; [|done]. split.
  - rewrite Hb, Hp, Hs. apply Hok.
  - rewrite Hu, Hs. apply Hok.
  - rewrite Hr. apply Hok.
  - apply Hok.
  - intros x b Hx. destruct (po_tables _ _ _ Hok x b Hx) as (Hl & Hpb & Htb). split; [done|]. split; [by apply Hin|]. destruct (decide (b = a)) as [->|Hne].
    + assert (x = path3 q) as -> by (by apply (po_inj _ _ _ Hok x _ a)). apply (table_is_ext _ _ _ _ Hta'). intros k Hk'. unfold content, path3, leaf_at, upd. cbn [length Nat.ltb Nat.leb].
      destruct (Z.eqb_spec k (q mod 512)) as [->|Hne]; [by rewrite va_page_split, Z.eqb_refl by lia|]. rewrite (proj2 (Z.eqb_neq _ _)); [done|].
      intros He. apply page_join in He as (_ & _ & ->); [done|by apply Z.mod_pos_bound|done].
    + apply (table_is_ext _ _ (content g lf x)); [by apply Hkeep|]. intros k Hk'. unfold content. destruct (length x <? 2)%nat; [done|].
      unfold leaf_at. destruct x as [|i [|j [|]]]; try done. unfold upd. rewrite (proj2 (Z.eqb_neq _ _)); [done|]. intros He. apply Hne.
      destruct Hl as [_ [_ [Hj _]%Forall_cons]%Forall_cons]. apply page_join in He as (-> & -> & _); [|done|done]. unfold path3 in Ha. congruence.
  - intros b (k & Hk' & ->). rewrite Hu in Hk'. rewrite Hb, Hp. apply (po_onto _ _ _ Hok). by exists k.
  - apply Hok.
  - intros i j k Hn Hj Hk'. unfold upd. rewrite (proj2 (Z.eqb_neq _ _)); [by apply (po_zero _ _ _ Hok)|]. intros He.
    apply page_join in He as (-> & -> & _); [|done|done]. unfold path3 in Ha. congruence.
Qed.

Definition pte (pa attrs : Z) : Z := Z.lor (Z.lor pa attrs) PTE_TYPE_PAGE.

(** What [g] may gain: the tables on the way to page [q]. *)
Definition gains (g g' : gmap (list Z) Z) (q : Z) : Prop := forall x, is_Some (g' !! x) -> is_Some (g !! x) \/ x = path2 q \/ x = path3 q.

Lemma gains_refl g q : gains g g q.
Proof. intros x Hx. by left. Qed.

Lemma map_page_spec p g lf q pa attrs : pt_ok p g lf -> 0 <= q < 2 ^ 20 -> 0 <= pte pa attrs < 2 ^ 64 ->
  (lf q = 0 /\ exists g' p', pt_map_page (4096 * q) pa attrs p = (Ok tt, p') /\ pt_ok p' g' (upd lf q (pte pa attrs)) /\ pt_grows p p' /\ g ⊆ g' /\ gains g g' q) \/
  ((lf q <> 0 \/ exists g', gains g g' q /\ pt_size p < 4096 * (Z.of_nat (size g') + 1)) /\ exists e p', pt_map_page (4096 * q) pa attrs p = (Raise e, p')).
Proof.
  intros Hok Hq Hv. destruct (page_index q Hq) as (H1 & H2 & H3). unfold pt_map_page. rewrite H1, H2, H3. unfold py_get.
  change (py_bind (λ s, (Ok (pt_root s), s)) ?k p) with (k (pt_root p) p). cbn beta.
  assert (Hi1 : 0 <= q / 2 ^ 18 < 512) by (split; [apply Z.div_pos; lia|apply Z.div_lt_upper_bound; lia]).
  pose proof (Z.mod_pos_bound (q / 512) 512 ltac:(lia)) as Hi2. pose proof (Z.mod_pos_bound q 512 ltac:(lia)) as Hi3.
  assert (Hl2 : exists r p1, pt_next (pt_root p) (q / 2 ^ 18) p = (r, p1) /\ ((exists l2 g1, r = Ok l2 /\ pt_ok p1 g1 lf /\ pt_grows p p1 /\ g ⊆ g1 /\ gains g g1 q /\ g1 !! path2 q = Some l2) \/
     exists e, r = Raise e /\ pt_size p < 4096 * (Z.of_nat (size g) + 1))).
  { destruct (pt_next_spec p g lf [] (pt_root p) (q / 2 ^ 18) Hok (po_root _ _ _ Hok)) as [(c & Hc & ->)|[(Hn & Hf & e & ->)|(Hn & c & p1 & -> & Hok1 & Hg1)]]; [cbn; lia|done|..]; eexists _, _; (split; [done|]).
    - left. exists c, g. split_and!; try done. apply gains_refl.
    - right. by exists e.
    - left. exists c, (<[[q / 2 ^ 18] := c]> g). split_and!; try done; [by apply insert_subseteq| |by apply lookup_insert_eq].
      intros x. rewrite lookup_insert_is_Some'. intros [<-|]; [right; by left|by left]. }
  destruct Hl2 as (r & p1 & E1 & [(l2 & g1 & -> & Hok1 & Hgr1 & Hsub1 & Hga1 & Hl2)|(e & -> & Hf)]).
  2: { right. split; [right; exists g; split; [apply gains_refl|done]|]. rewrite (py_bind_raise _ _ _ _ _ E1). by eexists _, _. }
  rewrite (py_bind_ok _ _ _ _ _ E1).
  assert (Hl3 : exists r p2, pt_next l2 ((q / 512) mod 512) p1 = (r, p2) /\ ((exists l3 g2, r = Ok l3 /\ pt_ok p2 g2 lf /\ pt_grows p p2 /\ g ⊆ g2 /\ gains g g2 q /\ g2 !! path3 q = Some l3) \/
     exists e, r = Raise e /\ pt_size p < 4096 * (Z.of_nat (size g1) + 1))).
  { destruct Hgr1 as (? & ? & Hs1 & ?).
    destruct (pt_next_spec p1 g1 lf (path2 q) l2 ((q / 512) mod 512) Hok1 Hl2) as [(c & Hc & ->)|[(Hn & Hf & e & ->)|(Hn & c & p2 & -> & Hok2 & (? & ? & ? & ?))]]; [cbn; lia|done|..]; eexists _, _; (split; [done|]).
    - left. exists c, g1. by split_and!.
    - right. exists e. rewrite Hs1 in Hf. done.
    - left. exists c, (<[path3 q := c]> g1). split_and!; try done; [split_and!; congruence|etrans; [done|by apply insert_subseteq]| |by apply lookup_insert_eq].
      intros x. rewrite lookup_insert_is_Some'. intros [<-|Hx]; [right; by right|by apply Hga1]. }
  destruct Hl3 as (r & p2 & E2 & [(l3 & g2 & -> & Hok2 & Hgr2 & Hsub2 & Hga2 & Hl3)|(e & -> & Hf)]).
  2: { right. split; [right; exists g1; split; done|]. rewrite (py_bind_raise _ _ _ _ _ E2). by eexists _, _. }
  rewrite (py_bind_ok _ _ _ _ _ E2). destruct (po_tables _ _ _ Hok2 _ _ Hl3) as (_ & _ & Ht3).
  rewrite (py_bind_ok _ _ _ _ _ (entry_spec _ _ _ _ Ht3 Hi3)). assert (Hc3 : content g2 lf (path3 q) (q mod 512) = lf q) by (unfold content, path3, leaf_at; cbn [length Nat.ltb Nat.leb]; by rewrite va_page_split by lia).
  rewrite Hc3. destruct (Z.eqb_spec (lf q) 0) as [Hz|Hnz]; cbn [negb]; [left; split; [done|]|right; split; [by left|by eexists _, _]].
  destruct (leaf_set p2 g2 lf q l3 (pte pa attrs) Hok2 Hq Hl3 Hv) as (p3 & Hset & Hok3 & (? & ? & ? & ?)).
  exists g2, p3. split; [exact Hset|]. split; [done|]. destruct Hgr2 as (? & ? & ? & ?). split; [split_and!; congruence|done].
Qed.

(** ** Mapping a range *)

Definition upd_range (lf : leaves) (q n pa attrs : Z) : leaves := fun x => if (q <=? x) && (x <? q + n) then pte (pa + 4096 * (x - q)) attrs else lf x.

Lemma pt_ok_ext p g lf lf' : pt_ok p g lf -> (forall x, lf x = lf' x) -> pt_ok p g lf'.
Proof.
  intros [] He. split; try done.
  - intros x a Hx. destruct (po_tables0 x a Hx) as (? & ? & Ht). split; [done|]. split; [done|]. apply (table_is_ext _ _ _ _ Ht).
    intros k _. unfold content, leaf_at. destruct (_ <? _)%nat; [done|]. by destruct x as [|? [|? [|]]].
  - intros i j k ? ? ?. rewrite <- He. by apply po_zero0.
Qed.

(** Everything in [g'] was in [g] or is on the way to one of the pages of [L]. *)
Definition grown (L : Z -> Prop) (g g' : gmap (list Z) Z) : Prop :=
  forall x, is_Some (g' !! x) -> is_Some (g !! x) \/ exists q, L q /\ (x = path2 q \/ x = path3 q).

Lemma grown_trans (L L1 L2 : Z -> Prop) g1 g2 g3 : grown L1 g1 g2 -> grown L2 g2 g3 -> (forall q, L1 q -> L q) -> (forall q, L2 q -> L q) -> grown L g1 g3.
Proof. intros H1 H2 HL1 HL2 x Hx. destruct (H2 x Hx) as [Hx2|(q & Hq & Hp)]; [|right; exists q; auto]. destruct (H1 x Hx2) as [|(q & Hq & Hp)]; [by left|right; exists q; auto]. Qed.

Lemma gains_grown g g' q (L : Z -> Prop) : gains g g' q -> L q -> grown L g g'.
Proof. intros H HL x Hx. destruct (H x Hx) as [|Hp]; [by left|right; by exists q]. Qed.

Lemma grown_refl L g : grown L g g.
Proof. intros x Hx. by left. Qed.

Lemma map_pages_spec n p g lf q pa attrs : pt_ok p g lf -> 0 <= q -> q + Z.of_nat n <= 2 ^ 20 ->
  (forall k, 0 <= k < Z.of_nat n -> 0 <= pte (pa + 4096 * k) attrs < 2 ^ 64) ->
  ((forall k, 0 <= k < Z.of_nat n -> lf (q + k) = 0) /\ exists g' p', pt_map_pages n (4096 * q) pa attrs p = (Ok tt, p') /\
     pt_ok p' g' (upd_range lf q (Z.of_nat n) pa attrs) /\ pt_grows p p' /\ g ⊆ g' /\ grown (fun r => q <= r < q + Z.of_nat n) g g') \/
  (((exists k, 0 <= k < Z.of_nat n /\ lf (q + k) <> 0) \/ exists g', grown (fun r => q <= r < q + Z.of_nat n) g g' /\ pt_size p < 4096 * (Z.of_nat (size g') + 1)) /\
   exists e p', pt_map_pages n (4096 * q) pa attrs p = (Raise e, p')).
Proof.
  revert p g lf q pa. induction n as [|n IH]; intros p g lf q pa Hok Hq Hn Hv.
  { left. split; [lia|]. exists g, p. split; [done|]. split; [|by split_and!; try done; apply grown_refl]. apply (pt_ok_ext _ _ _ _ Hok). intros x. unfold upd_range. destruct (Z.leb_spec q x), (Z.ltb_spec x (q + Z.of_nat 0)); try done; lia. }
  cbn [pt_map_pages]. destruct (map_page_spec p g lf q pa attrs Hok ltac:(lia)) as [(Hz & g1 & p1 & E1 & Hok1 & Hgr1 & Hsub1 & Hga1)|(Hwhy & e & p1 & E1)].
  { specialize (Hv 0 ltac:(lia)). by rewrite Z.mul_0_r, Z.add_0_r in Hv. }
  - rewrite (py_bind_ok _ _ _ _ _ E1). replace (4096 * q + 4096) with (4096 * (q + 1)) by lia. destruct Hgr1 as (Hb1 & Hp1 & Hs1 & Hr1).
    assert (Hga : forall L : Z -> Prop, L q -> grown L g g1) by (intros L HL; by apply (gains_grown _ _ q)).
    destruct (IH p1 g1 (upd lf q (pte pa attrs)) (q + 1) (pa + 4096) Hok1 ltac:(lia) ltac:(lia)) as [(Hz' & g' & p' & E' & Hok' & Hgr' & Hsub' & Hg')|(Hwhy & He)].
    { intros k Hk. specialize (Hv (k + 1) ltac:(lia)). by replace (pa + 4096 + 4096 * k) with (pa + 4096 * (k + 1)) by lia. }
    + left. split.
      { intros k Hk. destruct (decide (k = 0)) as [->|Hk0]; [by rewrite Z.add_0_r|]. specialize (Hz' (k - 1) ltac:(lia)). unfold upd in Hz'.
        replace (q + 1 + (k - 1)) with (q + k) in Hz' by lia. by rewrite (proj2 (Z.eqb_neq _ _)) in Hz' by lia. }
      exists g', p'. split; [done|]. destruct Hgr' as (? & ? & ? & ?). split_and!; try (unfold pt_grows; split_and!; congruence); [|by etrans|].
      * apply (pt_ok_ext _ _ _ _ Hok'). intros x. unfold upd_range, upd. destruct (Z.eqb_spec x q) as [->|Hne].
        -- rewrite (proj2 (Z.leb_gt (q + 1) q)), Z.leb_refl, (proj2 (Z.ltb_lt q (q + Z.of_nat (Datatypes.S n)))) by lia. cbn [andb]. by rewrite Z.sub_diag, Z.mul_0_r, Z.add_0_r.
        -- destruct (Z.leb_spec (q + 1) x), (Z.ltb_spec x (q + 1 + Z.of_nat n)), (Z.leb_spec q x), (Z.ltb_spec x (q + Z.of_nat (Datatypes.S n))); cbn [andb]; try done; try lia. f_equal. lia.
      * apply (grown_trans _ (fun r => r = q) _ _ _ _ (Hga _ eq_refl) Hg'); lia.
    + right. split; [|done]. destruct Hwhy as [(k & Hk & Hne)|(g' & Hg' & Hf)].
      * left. exists (k + 1). split; [lia|]. unfold upd in Hne. rewrite (proj2 (Z.eqb_neq _ _)) in Hne by lia. by replace (q + (k + 1)) with (q + 1 + k) by lia.
      * right. exists g'. split; [|by rewrite Hs1 in Hf]. apply (grown_trans _ (fun r => r = q) _ _ _ _ (Hga _ eq_refl) Hg'); lia.
  - right. rewrite (py_bind_raise _ _ _ _ _ E1). split; [|by eexists _, _]. destruct Hwhy as [Hne|(g' & Hg' & Hf)].
    + left. exists 0. split; [lia|]. by rewrite Z.add_0_r.
    + right. exists g'. split; [|done]. apply (gains_grown _ _ q); [done|lia].
Qed.

(** ** Building a set of tables *)

Definition mp_first (m : mapping) : Z := mp_va m / 4096.
Definition mp_pages (m : mapping) : Z := mp_size m / 4096.
Definition in_mapping (m : mapping) (q : Z) : bool := (mp_first m <=? q) && (q <? mp_first m + mp_pages m).
Definition mp_leaf (m : mapping) (q : Z) : Z := pte (mp_pa m + 4096 * (q - mp_first m)) (mp_attrs m).

(** The leaf entry of a page under a list of mappings. *)
Definition page_leaf (ms : list mapping) : leaves := fun q =>
  match List.find (fun m => in_mapping m q) ms with Some m => mp_leaf m q | None => 0 end.

Record mapping_ok (m : mapping) : Prop := {
  mo_va : 0 <= mp_va m /\ mp_va m mod 4096 = 0 /\ mp_va m + mp_size m <= 2 ^ 32;
  mo_pa : 0 <= mp_pa m /\ mp_pa m mod 4096 = 0 /\ mp_pa m + mp_size m <= 2 ^ 48;
  mo_size : 0 <= mp_size m /\ mp_size m mod 4096 = 0;
  mo_attrs : 0 <= mp_attrs m < 2 ^ 12
}.

(** No page is mapped twice. *)
Fixpoint disjoint_mappings (ms : list mapping) : Prop :=
  match ms with
  | [] => True
  | m :: rest => Forall (fun m' => mp_first m + mp_pages m <= mp_first m' \/ mp_first m' + mp_pages m' <= mp_first m) rest /\ disjoint_mappings rest
  end.

Lemma pte_bound pa attrs : 0 <= pa < 2 ^ 48 -> 0 <= attrs < 2 ^ 12 -> 0 <= pte pa attrs < 2 ^ 64.
Proof.
  intros Hpa Ha. unfold pte. assert (H0 : 0 <= Z.lor (Z.lor pa attrs) PTE_TYPE_PAGE) by (rewrite !Z.lor_nonneg; unfold PTE_TYPE_PAGE; lia).
  split; [done|]. destruct (Z.eq_dec (Z.lor (Z.lor pa attrs) PTE_TYPE_PAGE) 0) as [->|]; [lia|]. apply Z.log2_lt_pow2; [lia|].
  assert (Hlog : forall x, 0 <= x < 2 ^ 48 -> Z.log2 x < 64) by (intros x Hx; destruct (Z.eq_dec x 0) as [->|]; [done|apply Z.log2_lt_pow2; lia]).
  rewrite !Z.log2_lor by (rewrite ?Z.lor_nonneg; unfold PTE_TYPE_PAGE; lia). repeat apply Z.max_lub_lt; [apply Hlog; lia..|done].
Qed.

Lemma map_spec p g lf m : pt_ok p g lf -> mapping_ok m -> (forall q, in_mapping m q = true -> lf q = 0) ->
  (forall g', grown (fun q => in_mapping m q = true) g g' -> 4096 * (Z.of_nat (size g') + 1) <= pt_size p) ->
  exists g' p', pt_map (mp_va m) (mp_pa m) (mp_size m) (mp_attrs m) p = (Ok tt, p') /\
    pt_ok p' g' (fun q => if in_mapping m q then mp_leaf m q else lf q) /\ pt_grows p p' /\ grown (fun q => in_mapping m q = true) g g'.
Proof.
  intros Hok [(Hva0 & Hva & Hva1) (Hpa0 & Hpa & Hpa1) (Hs0 & Hs) Hat] Hz Hcap. unfold pt_map. rewrite Hva, Hpa, Hs. cbn [negb orb Z.eqb].
  change (Z.shiftl 1 CB_T0SZ) with (2 ^ 32). replace (2 ^ 32 <? mp_va m + mp_size m) with false by (symmetry; apply Z.ltb_ge; lia).
  pose proof (mod_div_exact _ 4096 ltac:(lia) Hva) as Ev. pose proof (mod_div_exact _ 4096 ltac:(lia) Hs) as Es. fold (mp_first m) in Ev. fold (mp_pages m) in Es.
  assert (Hn : Z.of_nat (Z.to_nat (mp_pages m)) = mp_pages m) by (apply Z2Nat.id; unfold mp_pages; apply Z.div_pos; lia).
  assert (Hin : forall q, in_mapping m q = true <-> mp_first m <= q < mp_first m + mp_pages m) by (intros q; unfold in_mapping; lia).
  fold (mp_pages m). rewrite <- Ev. destruct (map_pages_spec (Z.to_nat (mp_pages m)) p g lf (mp_first m) (mp_pa m) (mp_attrs m) Hok) as [(_ & g' & p' & E & Hok' & Hgr & _ & Hg)|(Hwhy & _)]; rewrite ?Hn in *; try lia.
  - intros k Hk. apply pte_bound; lia.
  - exists g', p'. split; [done|]. split_and!; try done. intros x Hx. destruct (Hg x Hx) as [|(q & Hq & Hp)]; [by left|right; exists q; split; [by apply Hin|done]].
  - exfalso. destruct Hwhy as [(k & Hk & Hne)|(g' & Hg & Hf)].
    + apply Hne, Hz, Hin. lia.
    + assert (4096 * (Z.of_nat (size g') + 1) <= pt_size p); [|lia]. apply Hcap. intros x Hx. destruct (Hg x Hx) as [|(q & Hq & Hp)]; [by left|right; exists q; split; [by apply Hin|done]].
Qed.

Definition covers (ms : list mapping) (q : Z) : Prop := Exists (fun m => in_mapping m q = true) ms.

Lemma map_all_spec ms p g lf : pt_ok p g lf -> Forall mapping_ok ms -> disjoint_mappings ms -> (forall q, covers ms q -> lf q = 0) ->
  (forall g', grown (covers ms) g g' -> 4096 * (Z.of_nat (size g') + 1) <= pt_size p) ->
  exists g' p', map_all ms p = (Ok tt, p') /\ pt_grows p p' /\ pt_ok p' g' (fun q => if bool_decide (covers ms q) then page_leaf ms q else lf q).
Proof.
  revert p g lf. induction ms as [|m ms IH]; intros p g lf Hok Hms Hd Hz Hcap.
  { exists g, p. split; [done|]. split; [done|]. apply (pt_ok_ext _ _ _ _ Hok). intros x. by rewrite bool_decide_eq_false_2 by inversion 1. }
  apply Forall_cons in Hms as [Hm Hms]. destruct Hd as [Hdm Hd]. cbn [map_all].
  destruct (map_spec p g lf m Hok Hm) as (g1 & p1 & E1 & Hok1 & Hgr1 & Hg1).
  { intros q Hq. apply Hz. by left. }
  { intros g' Hg'. apply Hcap. intros x Hx. destruct (Hg' x Hx) as [|(q & Hq & Hp)]; [by left|right; exists q; split; [by left|done]]. }
  rewrite (py_bind_ok _ _ _ _ _ E1). destruct Hgr1 as (Hb1 & Hp1 & Hs1 & Hr1). rewrite Forall_forall in Hdm.
  assert (Hapart : forall q, covers ms q -> in_mapping m q = false).
  { intros q (m' & Hm' & Hq)%Exists_exists. specialize (Hdm m' Hm'). unfold in_mapping in *. lia. }
  destruct (IH p1 g1 _ Hok1 Hms Hd) as (g' & p' & E' & (? & ? & ? & ?) & Hok').
  { intros q Hq. cbn beta. rewrite (Hapart q Hq). apply Hz. by right. }
  { intros g' Hg'. rewrite Hs1. apply Hcap. apply (grown_trans _ _ _ _ _ _ Hg1 Hg'); intros q Hq; [by left|by right]. }
  exists g', p'. split; [done|]. split; [unfold pt_grows; split_and!; congruence|]. apply (pt_ok_ext _ _ _ _ Hok'). intros x. unfold page_leaf. cbn [List.find].
  destruct (in_mapping m x) eqn:Ex.
  - rewrite bool_decide_eq_false_2 by (intros Hc; apply Hapart in Hc; congruence). by rewrite bool_decide_eq_true_2 by (by left).
  - destruct (decide (covers ms x)) as [Hc|Hc]; [by rewrite !bool_decide_eq_true_2 by (done || by right)|].
    rewrite !bool_decide_eq_false_2; [done| |done]. intros [|]%Exists_cons; [congruence|done].
Qed.

(** ** Capacity *)

(** The paths of the tables that the pages of a mapping need. *)
Definition needed (ms : list mapping) : list (list Z) :=
  flat_map (fun m => flat_map (fun u => [[u / 512]; [u / 512; u mod 512]]) (seqZ (mp_first m / 512) (mp_pages m / 512 + 2))) ms.

Lemma needed_covers ms q : Forall (fun m => 0 <= mp_first m /\ 0 <= mp_pages m) ms -> covers ms q -> path2 q ∈ needed ms /\ path3 q ∈ needed ms.
Proof.
  intros Hms (m & Hm & Hq)%Exists_exists. rewrite Forall_forall in Hms. destruct (Hms m Hm) as [Hf Hp].
  assert (Hu : q / 512 ∈ seqZ (mp_first m / 512) (mp_pages m / 512 + 2)).
  { apply elem_of_seqZ. unfold in_mapping in Hq. assert (Hr : mp_first m <= q < mp_first m + mp_pages m) by lia. split; [apply Z.div_le_mono; lia|].
    pose proof (Z.div_mod (mp_first m) 512 ltac:(lia)). pose proof (Z.mod_pos_bound (mp_first m) 512 ltac:(lia)).
    pose proof (Z.div_mod (mp_pages m) 512 ltac:(lia)). pose proof (Z.mod_pos_bound (mp_pages m) 512 ltac:(lia)).
    apply Z.div_lt_upper_bound; lia. }
  assert (Hin : forall x, x ∈ [[q / 512 / 512]; [q / 512 / 512; (q / 512) mod 512]] -> x ∈ needed ms).
  { intros x Hx. unfold needed. apply list_elem_of_In, in_flat_map. exists m. split; [by apply list_elem_of_In|]. apply in_flat_map. exists (q / 512). split; by apply list_elem_of_In. }
  unfold path2, path3. change (2 ^ 18) with (512 * 512). rewrite <- Z.div_div by lia. split; apply Hin; [by left|by right; left].
Qed.

Lemma grown_size (L : list (list Z)) ms g0 g : (forall x, is_Some (g0 !! x) -> x = []) -> (forall q, covers ms q -> path2 q ∈ L /\ path3 q ∈ L) ->
  grown (covers ms) g0 g -> (size g <= size (list_to_set ([] :: L) : gset (list Z)))%nat.
Proof.
  intros H0 HL Hg. rewrite <- size_dom. apply subseteq_size. intros x Hx%elem_of_dom. apply elem_of_list_to_set. destruct (Hg x Hx) as [Hx0|(q & Hq & Hp)].
  - rewrite (H0 x Hx0). by left.
  - destruct (HL q Hq). right. by destruct Hp as [->| ->].
Qed.

Definition root_only (base pool : Z) : gmap (list Z) Z := {[ [] := base + pool ]}.

Lemma pt_new_ok base pool size : 0 <= base + pool -> (base + pool) mod 4096 = 0 -> base + pool + size <= 2 ^ 48 -> 4096 <= size ->
  exists p, pt_new base pool size = Ok p /\ pt_ok p (root_only base pool) (fun _ => 0) /\
    pt_base p = base /\ pt_pool p = pool /\ pt_size p = size /\ pt_root p = base + pool.
Proof.
  intros H0 Hm Hs H4. unfold pt_new, pt_alloc. cbn [pt_size pt_used pt_base pt_pool pt_tables]. replace (size <? 0 + 4096) with false by lia.
  eexists. split; [done|]. cbn. rewrite Z.add_0_r. split_and!; try done. split; cbn.
  - done.
  - unfold root_only. rewrite map_size_singleton. lia.
  - apply lookup_singleton_eq.
  - intros x y a. unfold root_only. rewrite !lookup_singleton_Some. by intros [<- _] [<- _].
  - intros x a. unfold root_only. rewrite lookup_singleton_Some. intros [<- <-]. split; [by split; [cbn; lia|]|]. split; [exists 0; change (0 <= 0 < 1 /\ base + pool = base + pool + 4096 * 0); lia|].
    exists pt_blank_table. cbn. rewrite lookup_insert_eq. split; [done|]. split; [done|]. intros k Hk. unfold content, root_only. cbn [length Nat.ltb Nat.leb app].
    rewrite lookup_singleton_ne by done. apply lookup_replicate_2. lia.
  - intros a (k & Hk & ->). change (0 <= k < 1) in Hk. cbn [pt_base pt_pool]. exists []. unfold root_only. replace k with 0 by lia. rewrite Z.mul_0_r, Z.add_0_r. apply lookup_singleton_eq.
  - intros i j [? Hx]. unfold root_only in Hx. by rewrite lookup_singleton_ne in Hx.
  - done.
Qed.

(** ** What the hardware walks *)

Definition reads (g : gmap (list Z) Z) (lf : leaves) (read : Z -> Z) : Prop :=
  forall x a k, g !! x = Some a -> 0 <= k < 512 -> read (a + 8 * k) = content g lf x k.

Lemma va_index va : 0 <= va < 2 ^ 32 ->
  Z.land (Z.shiftr va 30) 3 = va / 4096 / 2 ^ 18 /\ Z.land (Z.shiftr va 21) 0x1FF = (va / 4096 / 512) mod 512 /\ Z.land (Z.shiftr va 12) 0x1FF = (va / 4096) mod 512.
Proof.
  intros Hva. rewrite !Z.shiftr_div_pow2 by lia. change 3 with (Z.ones 2). change 0x1FF with (Z.ones 9). rewrite !Z.land_ones by lia. rewrite !Z.div_div by lia.
  change (4096 * 2 ^ 18) with (2 ^ 30). change (4096 * 512) with (2 ^ 21). change 4096 with (2 ^ 12). change 512 with (2 ^ 9). split; [|done].
  apply Z.mod_small. split; [apply Z.div_pos; lia|apply Z.div_lt_upper_bound; lia].
Qed.

Lemma ttbr_root p g lf cb : pt_ok p g lf -> 0 <= cb -> Z.land (ttbr_for p cb) PTE_ADDR_MASK = pt_root p.
Proof.
  intros Hok Hcb. destruct (po_tables _ _ _ Hok _ _ (po_root _ _ _ Hok)) as (_ & Hp & _). destruct (pool_addr _ _ _ _ Hok Hp) as (Hr & _ & _ & Hm).
  unfold ttbr_for. rewrite Z.land_lor_distr_l. assert (Z.land (Z.shiftl cb 48) PTE_ADDR_MASK = 0) as ->.
  { apply Z.bits_inj'. intros n Hn. rewrite Z.land_spec, Z.shiftl_spec, Z.bits_0 by lia. unfold PTE_ADDR_MASK. rewrite Z.land_spec. replace (Z.shiftl 1 48 - 1) with (Z.ones 48) by done.
    destruct (Z.lt_ge_cases n 48); [by rewrite (Z.testbit_neg_r cb) by lia|]. rewrite Z.ones_spec_high by lia. cbn [andb]. apply andb_false_r. }
  rewrite Z.lor_0_r. rewrite <- Hm at 2. rewrite Z.land_lor_distr_l. assert (Z.land 3 PTE_ADDR_MASK = 0) as -> by done. by rewrite Z.lor_0_r.
Qed.

Lemma walk_spec p g lf read cb va : pt_ok p g lf -> reads g lf read -> 0 <= cb -> 0 <= va ->
  walk read (ttbr_for p cb) va CB_T0SZ =
  if va <? 2 ^ 32 then (let leaf := lf (va / 4096) in if Z.land leaf 3 =? 3 then Some (Z.lor (Z.land leaf PTE_ADDR_MASK) (Z.land va 0xFFF), leaf) else None) else None.
Proof.
  intros Hok Hread Hcb Hva. unfold walk. change (64 - CB_T0SZ) with 32. change (Z.shiftl 1 (34 - CB_T0SZ) - 1) with 3.
  destruct (Z.ltb_spec va (2 ^ 32)) as [Hlt|Hge].
  2: { rewrite Z.shiftr_div_pow2 by lia. assert (0 < va / 2 ^ 32) by (apply Z.div_str_pos; lia). by replace (va / 2 ^ 32 =? 0) with false by lia. }
  rewrite (proj2 (Z.eqb_eq (Z.shiftr va 32) 0)) by (rewrite Z.shiftr_div_pow2 by lia; apply Z.div_small; lia). cbn [negb]. rewrite (ttbr_root _ _ _ _ Hok Hcb).
  destruct (va_index va (conj Hva Hlt)) as (-> & -> & ->). set (q := va / 4096). assert (Hq : 0 <= q < 2 ^ 20) by (unfold q; split; [apply Z.div_pos; lia|apply Z.div_lt_upper_bound; lia]).
  assert (Hi1 : 0 <= q / 2 ^ 18 < 512) by (split; [apply Z.div_pos; lia|apply Z.div_lt_upper_bound; lia]).
  pose proof (Z.mod_pos_bound (q / 512) 512 ltac:(lia)) as Hi2. pose proof (Z.mod_pos_bound q 512 ltac:(lia)) as Hi3.
  assert (Hchild : forall x c, g !! x = Some c -> Z.land (Z.lor c 3) 3 = 3 /\ Z.land (Z.lor c 3) PTE_ADDR_MASK = c).
  { intros x c Hx. destruct (po_tables _ _ _ Hok x c Hx) as (_ & Hp & _). by destruct (pool_addr _ _ _ _ Hok Hp) as (_ & _ & ? & ?). }
  assert (Hc1 : content g lf [] (q / 2 ^ 18) = match g !! path2 q with Some c => Z.lor c 3 | None => 0 end) by done.
  assert (Hc2 : content g lf (path2 q) ((q / 512) mod 512) = match g !! path3 q with Some c => Z.lor c 3 | None => 0 end) by done.
  assert (Hc3 : content g lf (path3 q) (q mod 512) = lf q) by (unfold content, leaf_at, path3; cbn [length Nat.ltb Nat.leb]; by rewrite va_page_split by lia).
  assert (Hnone : g !! path3 q = None -> lf q = 0) by (intros Hn; rewrite <- (va_page_split q) by lia; by apply (po_zero _ _ _ Hok)).
  rewrite (Hread [] _ _ (po_root _ _ _ Hok) Hi1), Hc1. change PTE_TYPE_TABLE with 3. change PTE_TYPE_PAGE with 3. destruct (g !! path2 q) as [l2|] eqn:E2.
  2: { rewrite Hnone; [done|]. destruct (g !! path3 q) eqn:E3; [|done]. destruct (po_closed _ _ _ Hok (q / 2 ^ 18) ((q / 512) mod 512)) as [? H]; [by eexists|]. unfold path2 in E2. congruence. }
  destruct (Hchild _ _ E2) as [H3 Hm]. rewrite H3, Hm. cbn [Z.eqb Pos.eqb negb]. rewrite (Hread _ _ _ E2 Hi2), Hc2.
  destruct (g !! path3 q) as [l3|] eqn:E3; [|by rewrite Hnone]. destruct (Hchild _ _ E3) as [H3' Hm']. rewrite H3', Hm'. cbn [Z.eqb Pos.eqb negb].
  rewrite (Hread _ _ _ E3 Hi3), Hc3. by destruct (Z.land (lf q) 3 =? 3).
Qed.

(** ** The image in DRAM *)

(** DRAM holds [blob] from [base] on. *)
Definition holds (mem : Z -> byte) (base : Z) (blob : bytes) : Prop :=
  forall i b, blob !! i = Some b -> mem (base + Z.of_nat i) = b.
Definition ram_u64 (mem : Z -> byte) (a : Z) : Z := le_Z (List.map mem (seqZ a 8)).

Lemma holds_app mem a x y : holds mem a (x ++ y) -> holds mem a x /\ holds mem (a + zlen x) y.
Proof.
  intros H. split; intros i b Hi; [apply H; by apply lookup_app_l_Some|]. unfold zlen. rewrite <- Z.add_assoc, <- Nat2Z.inj_add. apply H.
  rewrite lookup_app_r by lia. by replace (length x + i - length x)%nat with i by lia.
Qed.

Lemma holds_bytes mem a x : holds mem a x -> List.map mem (seqZ a (zlen x)) = x.
Proof.
  intros H. change (mem <$> seqZ a (zlen x) = x). apply list_eq. intros i. rewrite list_lookup_fmap. destruct (x !! i) as [b|] eqn:E.
  - rewrite (proj2 (lookup_seqZ a (zlen x) i (a + Z.of_nat i))) by (apply lookup_lt_Some in E; unfold zlen; lia). cbn. f_equal. by apply H.
  - rewrite lookup_seqZ_ge; [done|]. apply lookup_ge_None in E. unfold zlen. lia.
Qed.

Lemma holds_entry mem a t i v : holds mem a (flat_map (le_bytes 8) t) -> t !! i = Some v -> 0 <= v < 2 ^ 64 -> ram_u64 mem (a + 8 * Z.of_nat i) = v.
Proof.
  intros H Hi Hv. revert a i H Hi. induction t as [|w t IH]; intros a i H Hi; [done|]. cbn [flat_map] in H. apply holds_app in H as [Hw Ht].
  destruct i as [|i]; cbn in Hi; simplify_eq.
  - rewrite Z.mul_0_r, Z.add_0_r. unfold ram_u64. replace 8 with (zlen (le_bytes 8 v)) by (unfold zlen; by rewrite length_le_bytes). rewrite (holds_bytes _ _ _ Hw). by apply le_Z_small.
  - replace (a + 8 * Z.of_nat (Datatypes.S i)) with (a + zlen (le_bytes 8 w) + 8 * Z.of_nat i) by (unfold zlen; rewrite length_le_bytes; lia). by apply IH.
Qed.

Lemma table_entries_length t : zlen (flat_map (le_bytes 8) t) = 8 * zlen t.
Proof. unfold zlen. induction t as [|v t IH]; [done|]. cbn [flat_map length]. rewrite length_app, length_le_bytes. lia. Qed.

Lemma image_from tabs n a : (forall k, 0 <= k < Z.of_nat n -> exists t, tabs !! (a + 4096 * k) = Some t /\ length t = 512%nat) ->
  exists blob, pt_image_from tabs n a = Ok blob /\ zlen blob = 4096 * Z.of_nat n /\ forall mem, holds mem a blob -> forall k t, 0 <= k < Z.of_nat n -> tabs !! (a + 4096 * k) = Some t -> holds mem (a + 4096 * k) (flat_map (le_bytes 8) t).
Proof.
  revert a. induction n as [|n IH]; intros a H; [exists []; split; [done|]; split; [done|lia]|]. cbn [pt_image_from].
  destruct (H 0 ltac:(lia)) as (t & Ht & Hl). rewrite Z.mul_0_r, Z.add_0_r in Ht. rewrite Ht. destruct (IH (a + 4096)) as (rest & -> & Hlen & Hrest).
  { intros k Hk. replace (a + 4096 + 4096 * k) with (a + 4096 * (k + 1)) by lia. apply H. lia. }
  assert (Ht4 : zlen (flat_map (le_bytes 8) t) = 4096) by (rewrite table_entries_length; unfold zlen; rewrite Hl; lia). eexists. split; [done|]. split.
  { unfold zlen in *. rewrite length_app. lia. }
  intros mem Hm k t' Hk Ht'. apply holds_app in Hm as [Hm0 Hm1]. rewrite Ht4 in Hm1. destruct (decide (k = 0)) as [->|].
  - rewrite Z.mul_0_r, Z.add_0_r in *. by simplify_eq.
  - replace (a + 4096 * k) with (a + 4096 + 4096 * (k - 1)) in * by lia. apply Hrest; [done|lia|done].
Qed.

(** The bytes [pt_image] writes are read back as the tables. *)
Lemma image_spec p g lf : pt_ok p g lf -> (forall q, 0 <= lf q < 2 ^ 64) ->
  exists blob, pt_image p = Ok (pt_pool p, blob) /\ zlen blob = pt_used p /\ forall mem, holds mem (pt_base p + pt_pool p) blob -> reads g lf (ram_u64 mem).
Proof.
  intros Hok Hlf. pose proof (po_used _ _ _ Hok) as [Hu _]. assert (Hn : pt_used p / 4096 = Z.of_nat (size g)) by (rewrite Hu, Z.mul_comm, Z.div_mul; lia).
  destruct (image_from (pt_tables p) (Z.to_nat (pt_used p / 4096)) (pt_base p + pt_pool p)) as (blob & E & Hl & Hmem).
  { intros k Hk. destruct (po_onto _ _ _ Hok (pt_base p + pt_pool p + 4096 * k)) as [x Hx]; [exists k; lia|].
    destruct (po_tables _ _ _ Hok x _ Hx) as (_ & _ & t & Ht & Hl & _). by exists t. }
  exists blob. unfold pt_image. rewrite E. split; [done|]. split; [lia|]. intros mem Hh x a k Hx Hk.
  destruct (po_tables _ _ _ Hok x a Hx) as (_ & (j & Hj & ->) & t & Ht & _ & Hf). rewrite <- (Z2Nat.id k) at 1 by lia.
  apply (holds_entry _ _ t); [by apply Hmem; [done|lia|]|by apply Hf|]. unfold content. destruct (_ <? _)%nat; [|unfold leaf_at; destruct x as [|? [|? [|]]]; try lia; apply Hlf].
  destruct (g !! (x ++ [k])) as [c|] eqn:Ec; [|lia]. destruct (po_tables _ _ _ Hok _ _ Ec) as (_ & Hpc & _). destruct (pool_addr _ _ _ _ Hok Hpc) as (Hc & _).
  pose proof (pte_bound c 0 ltac:(lia) ltac:(lia)) as Hb. unfold pte in Hb. by rewrite Z.lor_0_r in Hb.
Qed.

(** ** The address spaces of the GMU and of the command processor *)

Definition set_mappings (base : Z) (which : table_set) : list mapping :=
  match which with GmuTables => gmu_mappings base | GpuTables => gpu_mappings base end.
Definition set_pool (which : table_set) : Z := region_off "tables" + match which with GpuTables => pool_half | GmuTables => 0 end.

(** What the mappings say of a virtual address. *)
Definition translate (ms : list mapping) (va : Z) : option (Z * Z) :=
  match List.find (fun m => (mp_va m <=? va) && (va <? mp_va m + mp_size m)) ms with
  | Some m => Some (mp_pa m + (va - mp_va m), pte (mp_pa m + 4096 * (va / 4096 - mp_first m)) (mp_attrs m))
  | None => None
  end.

Lemma aligned_add a b : a mod 4096 = 0 -> b mod 4096 = 0 -> (a + b) mod 4096 = 0.
Proof. intros Ha Hb. by rewrite Z.add_mod, Ha, Hb. Qed.

(** The mappings with the arena at [base] are those with the arena at 0, moved. *)
Definition shift_mapping (base : Z) (m : mapping) : mapping := (m.1.1.1.1, mp_va m, base + mp_pa m, mp_size m, mp_attrs m).

Lemma set_mappings_shift base which : set_mappings base which = List.map (shift_mapping base) (set_mappings 0 which).
Proof. by destruct which. Qed.

Definition arena_mapping (m : mapping) : bool :=
  (0 <=? mp_va m) && (mp_va m mod 4096 =? 0) && (mp_va m + mp_size m <=? 2 ^ 32) && (0 <=? mp_pa m) && (mp_pa m mod 4096 =? 0) &&
  (mp_pa m + mp_size m <=? ARENA_SIZE) && (0 <=? mp_size m) && (mp_size m mod 4096 =? 0) && (0 <=? mp_attrs m) && (mp_attrs m <? 2 ^ 12).

Lemma shift_mapping_ok base m : 0 <= base -> base mod 4096 = 0 -> base + ARENA_SIZE <= 2 ^ 48 -> arena_mapping m = true -> mapping_ok (shift_mapping base m).
Proof.
  unfold arena_mapping. intros H0 Hb Hs H. split; unfold shift_mapping, mp_va, mp_pa, mp_size, mp_attrs in *; cbn [fst snd] in *; split_and?; try lia. apply aligned_add; lia.
Qed.

Lemma set_mappings_ok base which : 0 <= base -> base mod 4096 = 0 -> base + ARENA_SIZE <= 2 ^ 48 -> Forall mapping_ok (set_mappings base which).
Proof.
  intros H0 Hm Hs. rewrite set_mappings_shift. assert (Hb : Forall (fun m => arena_mapping m = true) (set_mappings 0 which)) by (destruct which; repeat constructor).
  induction Hb; [by constructor|]. cbn [List.map]. constructor; [by apply shift_mapping_ok|done].
Qed.

Lemma shift_disjoint base ms : disjoint_mappings ms -> disjoint_mappings (List.map (shift_mapping base) ms).
Proof.
  induction ms as [|m ms IH]; [done|]. cbn [disjoint_mappings List.map]. intros [Hm Hd]. split; [|by apply IH]. by apply Forall_map.
Qed.

Definition disjoint_mappingsb (ms : list mapping) : bool :=
  (fix go ms := match ms with
                | [] => true
                | m :: rest => forallb (fun m' => (mp_first m + mp_pages m <=? mp_first m') || (mp_first m' + mp_pages m' <=? mp_first m)) rest && go rest
                end) ms.
Lemma disjoint_mappingsb_spec ms : disjoint_mappingsb ms = true -> disjoint_mappings ms.
Proof.
  induction ms as [|m ms IH]; [done|]. cbn [disjoint_mappings]. intros [Hm Hd]%andb_prop. split; [|by apply IH].
  apply Forall_forall. intros m' Hm'. rewrite forallb_forall in Hm. specialize (Hm m' (proj1 (list_elem_of_In _ _) Hm')). lia.
Qed.

Lemma set_disjoint base which : disjoint_mappings (set_mappings base which).
Proof. rewrite set_mappings_shift. apply shift_disjoint, disjoint_mappingsb_spec. by destruct which. Qed.

Lemma needed_shift base ms : needed (List.map (shift_mapping base) ms) = needed ms.
Proof. unfold needed. rewrite !flat_map_concat_map, List.map_map. done. Qed.

Lemma set_capacity base which g0 g : (forall x, is_Some (g0 !! x) -> x = []) -> grown (covers (set_mappings base which)) g0 g -> 4096 * (Z.of_nat (size g) + 1) <= pool_half.
Proof.
  intros H0 Hg. assert (Hc : forall q, covers (set_mappings base which) q -> path2 q ∈ needed (set_mappings 0 which) /\ path3 q ∈ needed (set_mappings 0 which)).
  { intros q. rewrite <- (needed_shift base), <- set_mappings_shift. apply needed_covers. rewrite set_mappings_shift. apply Forall_map. destruct which; repeat constructor; unfold mp_first, mp_pages; vm_compute; done. }
  pose proof (grown_size _ _ _ _ H0 Hc Hg) as Hsz. assert (Hle : (size (list_to_set ([] :: needed (set_mappings 0 which)) : gset (list Z)) <= 127)%nat) by (destruct which; vm_compute; lia).
  change pool_half with (4096 * 128). lia.
Qed.

Lemma bits_high x k n : 0 <= x < 2 ^ k -> 0 <= k <= n -> Z.testbit x n = false.
Proof.
  intros Hx Hk. destruct (Z.eq_dec x 0) as [->|]; [apply Z.bits_0|]. apply Z.bits_above_log2; [lia|].
  apply (Z.lt_le_trans _ k); [apply Z.log2_lt_pow2|]; lia.
Qed.

Lemma page_shift pa : pa mod 4096 = 0 -> pa = Z.shiftl (pa / 4096) 12.
Proof. intros Hm. rewrite Z.shiftl_mul_pow2 by lia. pose proof (mod_div_exact pa 4096 ltac:(lia) Hm). lia. Qed.

(** The low twelve bits and the bits above them do not meet. *)
Lemma page_land pa o : pa mod 4096 = 0 -> 0 <= o < 2 ^ 12 -> Z.land pa o = 0.
Proof.
  intros Hm Ho. apply Z.bits_inj'. intros n Hn. rewrite Z.land_spec, Z.bits_0, (page_shift pa Hm), Z.shiftl_spec by lia.
  destruct (Z.lt_ge_cases n 12); [by rewrite (Z.testbit_neg_r (pa / 4096)) by lia|]. rewrite (bits_high o 12 n) by lia. apply andb_false_r.
Qed.

Lemma page_or pa o : pa mod 4096 = 0 -> 0 <= o < 2 ^ 12 -> Z.lor pa o = pa + o.
Proof. intros Hm Ho. rewrite <- Z.lxor_lor by (by apply page_land). symmetry. by apply Z.add_nocarry_lxor, page_land. Qed.

Lemma pte_fields pa attrs : 0 <= pa < 2 ^ 48 -> pa mod 4096 = 0 -> 0 <= attrs < 2 ^ 12 -> Z.land (pte pa attrs) 3 = 3 /\ Z.land (pte pa attrs) PTE_ADDR_MASK = pa.
Proof.
  intros H0 Hm Ha. unfold pte. rewrite !Z.land_lor_distr_l. change (Z.land PTE_TYPE_PAGE 3) with 3. change (Z.land PTE_TYPE_PAGE PTE_ADDR_MASK) with 0. rewrite Z.lor_0_r. split.
  - rewrite (page_land pa 3 Hm ltac:(lia)), Z.lor_0_l. apply Z.bits_inj'. intros n Hn. rewrite Z.lor_spec, Z.land_spec. by destruct (Z.testbit attrs n), (Z.testbit 3 n).
  - rewrite (Z.land_comm attrs), (page_land PTE_ADDR_MASK attrs eq_refl Ha), Z.lor_0_r. apply Z.bits_inj'. intros n Hn. change PTE_ADDR_MASK with (Z.shiftl (Z.ones 36) 12).
    rewrite Z.land_spec, Z.shiftl_spec by lia. destruct (Z.lt_ge_cases n 12); [rewrite (page_shift pa Hm), Z.shiftl_spec, !(Z.testbit_neg_r _ (n - 12)) by lia; done|].
    destruct (Z.lt_ge_cases n 48); [by rewrite Z.ones_spec_low, andb_true_r by lia|]. rewrite Z.ones_spec_high, andb_false_r by lia. symmetry. by apply (bits_high _ 48).
Qed.

Lemma in_mapping_va m va : mapping_ok m -> in_mapping m (va / 4096) = (mp_va m <=? va) && (va <? mp_va m + mp_size m).
Proof.
  intros [(? & Hv & _) _ (? & Hs) _]. pose proof (mod_div_exact _ 4096 ltac:(lia) Hv). pose proof (mod_div_exact _ 4096 ltac:(lia) Hs). unfold in_mapping, mp_first, mp_pages.
  pose proof (Z.div_mod va 4096 ltac:(lia)). pose proof (Z.mod_pos_bound va 4096 ltac:(lia)). apply eq_true_iff_eq. lia.
Qed.

Lemma find_ext_in {A} (f h : A -> bool) l : Forall (fun x => f x = h x) l -> List.find f l = List.find h l.
Proof. induction 1 as [|x l Hx _ IH]; [done|]. cbn. by rewrite Hx, IH. Qed.

(** The walk of tables whose leaves are those of [ms] is [translate ms]. *)
Lemma leaf_translate ms va : Forall mapping_ok ms -> 0 <= va < 2 ^ 32 ->
  (let leaf := page_leaf ms (va / 4096) in if Z.land leaf 3 =? 3 then Some (Z.lor (Z.land leaf PTE_ADDR_MASK) (Z.land va 0xFFF), leaf) else None) = translate ms va.
Proof.
  intros Hms Hva. unfold page_leaf, translate. rewrite (find_ext_in _ (fun m => (mp_va m <=? va) && (va <? mp_va m + mp_size m))).
  2: { apply (Forall_impl _ _ _ Hms). intros m Hm. by apply in_mapping_va. }
  destruct (List.find _ ms) as [m|] eqn:E; [|done]. apply find_some in E as [Hin Hb]. rewrite Forall_forall in Hms. apply list_elem_of_In in Hin. destruct (Hms m Hin) as [(? & Hv & _) (? & Hp & Hpl) (? & Hs) Hat].
  pose proof (Z.div_mod va 4096 ltac:(lia)). pose proof (Z.mod_pos_bound va 4096 ltac:(lia)). pose proof (mod_div_exact _ 4096 ltac:(lia) Hv). pose proof (mod_div_exact _ 4096 ltac:(lia) Hs). pose proof (mod_div_exact _ 4096 ltac:(lia) Hp).
  unfold mp_leaf, mp_first. set (pa := mp_pa m + 4096 * (va / 4096 - mp_va m / 4096)).
  assert (Hpm : pa mod 4096 = 0) by (unfold pa; apply aligned_add; [done|rewrite Z.mul_comm; apply Z.mod_mul; lia]).
  destruct (pte_fields pa (mp_attrs m) ltac:(unfold pa; lia) Hpm Hat) as [-> ->]. cbn [Z.eqb Pos.eqb]. change 0xFFF with (Z.ones 12). rewrite Z.land_ones by lia. change (2 ^ 12) with 4096.
  rewrite page_or by (done || (change (2 ^ 12) with 4096; by apply Z.mod_pos_bound)). do 2 f_equal. unfold pa. lia.
Qed.

Lemma translate_high ms va : Forall mapping_ok ms -> 2 ^ 32 <= va -> translate ms va = None.
Proof.
  intros Hms Hva. unfold translate. destruct (List.find _ ms) as [m|] eqn:E; [|done]. apply find_some in E as [Hin Hb]. rewrite Forall_forall in Hms. apply list_elem_of_In in Hin. destruct (Hms m Hin) as [(? & ? & ?) _ _ _]. lia.
Qed.

Lemma page_leaf_bound ms q : Forall mapping_ok ms -> 0 <= page_leaf ms q < 2 ^ 64.
Proof.
  intros Hms. unfold page_leaf. destruct (List.find _ ms) as [m|] eqn:E; [|lia]. apply find_some in E as [Hin Hb]. rewrite Forall_forall in Hms. apply list_elem_of_In in Hin.
  destruct (Hms m Hin) as [_ (? & Hp & ?) (? & Hs) Hat]. unfold mp_leaf. apply pte_bound; [|done]. unfold in_mapping, mp_pages in Hb. pose proof (mod_div_exact _ 4096 ltac:(lia) Hs). lia.
Qed.

(** C17: For every page-aligned place of the arena below 2^48, build_tables succeeds for the GMU and for the command processor within its half of the table pool; once the bytes of image() are in DRAM, the hardware walk from the TTBR value of any context bank translates a virtual address exactly as the list of mappings says, to the arena byte and with the leaf attributes listed, and every other address faults. *)
Theorem build_tables_exact base which cb :
  0 <= base -> base mod 4096 = 0 -> base + ARENA_SIZE <= 2 ^ 48 -> 0 <= cb ->
  exists p blob, build_tables base which false = Ok p /\ pt_image p = Ok (set_pool which, blob) /\ zlen blob <= pool_half /\
    (forall mem va, holds mem (base + set_pool which) blob -> 0 <= va ->
     walk (ram_u64 mem) (ttbr_for p cb) va CB_T0SZ = translate (set_mappings base which) va).
Proof.
  intros H0 Hm Hs Hcb. set (ms := set_mappings base which). assert (Hms : Forall mapping_ok ms) by (by apply set_mappings_ok).
  assert (set_pool which mod 4096 = 0 /\ 0 <= set_pool which /\ set_pool which + pool_half <= ARENA_SIZE) as (Hpm & Hp1 & Hp2) by (destruct which; vm_compute; done).
  destruct (pt_new_ok base (set_pool which) pool_half) as (p0 & E0 & Hok0 & Hb0 & Hp0 & Hs0 & Hr0); [lia|by apply aligned_add|lia|vm_compute; done|].
  destruct (map_all_spec ms p0 _ _ Hok0 Hms (set_disjoint base which)) as (g & p & E & (Hb & Hp & Hsz & Hr) & Hok); [done| |].
  { intros g' Hg'. rewrite Hs0. apply (set_capacity base which (root_only base (set_pool which))); [|done]. intros x [a Ha]. unfold root_only in Ha. by apply lookup_singleton_Some in Ha as [<- _]. }
  assert (Hleaf : forall q, (if bool_decide (covers ms q) then page_leaf ms q else 0) = page_leaf ms q).
  { intros q. case_bool_decide as Hc; [done|]. unfold page_leaf. destruct (List.find _ ms) as [m|] eqn:Ef; [|done]. destruct Hc. apply find_some in Ef as [Hin Hq]. apply Exists_exists. exists m. split; [by apply list_elem_of_In|done]. }
  pose proof (pt_ok_ext _ _ _ _ Hok Hleaf) as Hok'. destruct (image_spec p g (page_leaf ms) Hok') as (blob & Ei & Hl & Hmem); [intros q; by apply page_leaf_bound|].
  exists p, blob. unfold build_tables. fold (set_pool which). rewrite E0. cbn [rbind]. change (match which with GmuTables => gmu_mappings base | GpuTables => gpu_mappings base end) with ms. rewrite E. split; [done|].
  rewrite Ei, Hl, Hp, Hp0. split; [done|]. pose proof (po_used _ _ _ Hok'). split; [lia|]. intros mem va Hh Hva. rewrite Hb, Hb0, Hp, Hp0 in Hmem.
  rewrite (walk_spec p g (page_leaf ms) (ram_u64 mem) cb va Hok' (Hmem mem Hh) Hcb Hva). destruct (Z.ltb_spec va (2 ^ 32)); [apply leaf_translate; [done|lia]|symmetry; by apply translate_high].
Qed.

(** DRAM that holds [blob] at [base] and zeroes elsewhere. *)
Definition ram_with (base : Z) (blob : bytes) (a : Z) : byte := if a <? base then x00 else default x00 (blob !! Z.to_nat (a - base)).

Lemma holds_ram_with base blob : holds (ram_with base blob) base blob.
Proof. intros i b Hi. unfold ram_with. rewrite (proj2 (Z.ltb_ge (base + Z.of_nat i) base)) by lia. replace (Z.to_nat (base + Z.of_nat i - base)) with i by lia. by rewrite Hi. Qed.

Lemma build_tables_exact_witness : exists p blob, build_tables 0x880000000 GmuTables false = Ok p /\ pt_image p = Ok (set_pool GmuTables, blob) /\
  let mem := ram_with (0x880000000 + set_pool GmuTables) blob in
  walk (ram_u64 mem) (ttbr_for p 4) (GMU_LOG_VA + 0x123) CB_T0SZ = Some (0x880000000 + region_off "gmu_log" + 0x123, pte (0x880000000 + region_off "gmu_log") UNPRIV_RW) /\
  walk (ram_u64 mem) (ttbr_for p 4) CP_RB_VA CB_T0SZ = None.
Proof.
  destruct (build_tables_exact 0x880000000 GmuTables 4) as (p & blob & E & Ei & _ & H); [lia|reflexivity|vm_compute; discriminate|lia|].
  exists p, blob. split; [done|]. split; [done|]. cbv zeta. split; (etransitivity; [apply H; [apply holds_ram_with|vm_compute; discriminate]|vm_compute; reflexivity]).
Defined.
