(* ===== verification/GpuLogic.v ===== *)
(** * A program logic for sessions on an arbitrary target

    [steps allowed] relates two targets when the second is the first after actions
    that [allowed] permits, each given the history before it; [hoare] is a triple for
    session programs with a postcondition for results and one for exceptions, every
    action of which is permitted.  The history functions say what the answers of the
    target showed so far. *)

From Stdlib Require Import ZArith Lia.
From Stdlib Require Import Strings.Byte.
From stdpp Require Import base list numbers strings sets.
From S2P Require Import Prelude Bytes Transport Q1n1Link Target Preload GpuRegs GpuSession.

Local Open Scope string_scope.
Local Open Scope list_scope.
Local Open Scope Z_scope.
Local Open Scope py_scope.

(** ** What the history shows *)

Abbreviation answers := (list action -> result Z).

(** What happened at address [a]: the newest value read from it, and the values
    written since, newest first.  An access that failed leaves nothing known. *)
Fixpoint trail (w : answers) (h : list action) (a : Z) : list Z * option Z :=
  match h with
  | [] => ([], None)
  | x :: rest =>
      match x with
      | ARead32 b => if a =? b then ([], match w h with Ok v => Some (Z.land v 0xFFFFFFFF) | Raise _ => None end) else trail w rest a
      | AWrite32 b v => if a =? b then match w h with Ok _ => (v :: fst (trail w rest a), snd (trail w rest a)) | Raise _ => ([], None) end else trail w rest a
      | _ => trail w rest a
      end
  end.

(** The newest value, read or written. *)
Definition known (w : answers) (h : list action) (a : Z) : option Z :=
  match trail w h a with (u :: _, _) => Some u | ([], v) => v end.
(** The value of the newest access, if that was a read: a write takes it away. *)
Definition read_back (w : answers) (h : list action) (a : Z) : option Z :=
  match trail w h a with ([], v) => v | _ => None end.
(** The newest value read, last, after the values written since.  Without a read there
    is no evidence, whatever was written. *)
Definition shown (w : answers) (h : list action) (a : Z) : option (list Z) :=
  match trail w h a with (us, Some v) => Some (us ++ [v]) | _ => None end.

(** Address [a] has been read without an error. *)
Fixpoint answered (w : answers) (h : list action) (a : Z) : bool :=
  match h with
  | [] => false
  | x :: rest =>
      match x with ARead32 b => (a =? b) && match w h with Ok _ => true | Raise _ => false end | _ => false end || answered w rest a
  end.

(** The target gave out [a] as the address of its boot arguments or of its SError
    record. *)
Fixpoint pointer (w : answers) (h : list action) (a : Z) : bool :=
  match h with
  | [] => false
  | x :: rest =>
      match x with
      | ARequest op _ => ((op =? P_GET_BOOTARGS) || (op =? P_Q1N1_SERROR)) && match w h with Ok v => v =? a | Raise _ => false end
      | _ => false
      end || pointer w rest a
  end.

(** [e'] is [e] after more actions. *)
Definition extends (e e' : env) : Prop := ev_word e' = ev_word e /\ ev_data e' = ev_data e /\ exists n, ev_log e' = n ++ ev_log e.

(** Reading [n] bytes at [a] has answered [d]. *)
Definition saw_data (e : env) (a n : Z) (d : bytes) : Prop :=
  exists k h, ev_log e = k ++ AReadMem a n false :: h /\ ev_data e (AReadMem a n false :: h) = Ok d.
Definition at_pointer (a : Z) (e : env) : Prop := pointer (ev_word e) (ev_log e) a = true.
(** [info] is boot information the target reported. *)
Definition boot_seen (e : env) (info : boot_info) : Prop :=
  exists a n k d vals, at_pointer a e /\ saw_data e a n d /\ unpack_Qs k 0 d = Ok vals /\ info = ("address", a) :: record_of BOOTINFO_FIELDS vals.
(** [regions] is the EFI memory map, read where the boot information places it. *)
Definition regions_seen (e : env) (regions : list efi_region) : Prop :=
  exists info n d, boot_seen e info /\ saw_data e (rget info "memory_map") n d /\ parse_efi_map d (rget info "memory_map_stride") = Ok regions.

Lemma extends_refl e : extends e e.
Proof. split_and!; [done|done|by exists []]. Qed.
Lemma extends_push x e : extends e (ev_push x e).
Proof. split_and!; [done|done|by exists [x]]. Qed.
Lemma pointer_app w n h a : pointer w h a = true -> pointer w (n ++ h) a = true.
Proof. intros H. induction n as [|x n IH]; [done|]. cbn [app pointer]. rewrite IH. apply orb_true_r. Qed.
Lemma at_pointer_ext a e e' : extends e e' -> at_pointer a e -> at_pointer a e'.
Proof. intros (Hw & _ & n & Hl) H. unfold at_pointer. rewrite Hw, Hl. by apply pointer_app. Qed.
Lemma saw_data_ext e e' a n d : extends e e' -> saw_data e a n d -> saw_data e' a n d.
Proof. intros (_ & Hd & m & Hl) (k & h & E & Ed). exists (m ++ k), h. rewrite Hl, E, Hd. by rewrite <- app_assoc. Qed.
Lemma boot_seen_ext e e' info : extends e e' -> boot_seen e info -> boot_seen e' info.
Proof. intros Hx (a & n & k & d & vals & Hp & Hd & H). exists a, n, k, d, vals. split; [by eapply at_pointer_ext|]. split; [by eapply saw_data_ext|done]. Qed.
Lemma regions_seen_ext e e' regions : extends e e' -> regions_seen e regions -> regions_seen e' regions.
Proof. intros Hx (info & n & d & Hb & Hd & H). exists info, n, d. split; [by eapply boot_seen_ext|]. split; [by eapply saw_data_ext|done]. Qed.

(** ** Permitted histories *)

Section logic.
  Context {allowed : answers -> list action -> action -> Prop}.

Fixpoint trace (w : answers) (new old : list action) : Prop :=
  match new with
  | [] => True
  | x :: rest => allowed w (rest ++ old) x /\ trace w rest old
  end.

Definition steps (e e' : env) : Prop :=
  ev_word e' = ev_word e /\ ev_data e' = ev_data e /\ exists new, ev_log e' = new ++ ev_log e /\ trace (ev_word e) new (ev_log e).

Lemma trace_cat w a b old : trace w a (b ++ old) -> trace w b old -> trace w (a ++ b) old.
Proof. induction a as [|x a IH]; [done|]. intros [Hx Ha] Hb. cbn [app trace]. rewrite <- app_assoc. split; [done|by apply IH]. Qed.

Lemma steps_refl e : steps e e.
Proof. split_and!; [done|done|by exists []]. Qed.

Lemma steps_trans e1 e2 e3 : steps e1 e2 -> steps e2 e3 -> steps e1 e3.
Proof.
  intros (W1 & D1 & n1 & L1 & T1) (W2 & D2 & n2 & L2 & T2). split_and!; [congruence..|]. exists (n2 ++ n1). rewrite L2, L1, app_assoc. split; [done|].
  rewrite W1, L1 in T2. by apply trace_cat.
Qed.

Lemma steps_push x e : allowed (ev_word e) (ev_log e) x -> steps e (ev_push x e).
Proof. intros H. split_and!; [done..|]. exists [x]. split; [done|]. by split. Qed.

Lemma steps_extends e e' : steps e e' -> extends e e'.
Proof. intros (Hw & Hd & n & Hl & _). split_and!; [done|done|by exists n]. Qed.

(** ** Programs *)

Abbreviation GS := (session env).
Definition hoare {A} (P : GS -> Prop) (m : M GS A) (Q : A -> GS -> Prop) (X : GS -> Prop) : Prop := forall s r s',
  P s -> m s = (r, s') -> steps (ss_tgt s) (ss_tgt s') /\ match r with Ok a => Q a s' | Raise _ => X s' end.

Lemma h_ret {A} (P : GS -> Prop) (a : A) X : hoare P (py_ret a) (fun b s => P s /\ b = a) X.
Proof. intros s r s' HP [= <- <-]. split; [apply steps_refl|done]. Qed.

Lemma h_ret' {A} (P : GS -> Prop) (a : A) (Q : A -> GS -> Prop) X : (forall s, P s -> Q a s) -> hoare P (py_ret a) Q X.
Proof. intros H s r s' HP [= <- <-]. split; [apply steps_refl|by apply H]. Qed.

Lemma h_raise {A} (P : GS -> Prop) e (Q : A -> GS -> Prop) : hoare P (py_raise e) Q P.
Proof. intros s r s' HP [= <- <-]. split; [apply steps_refl|done]. Qed.

Lemma h_lift {A} (P : GS -> Prop) (x : result A) : hoare P (py_lift x) (fun a s => P s /\ x = Ok a) P.
Proof. intros s r s' HP [= <- <-]. split; [apply steps_refl|]. by destruct x. Qed.

Lemma h_lift' {A} (P X : GS -> Prop) (x : result A) : (forall s, P s -> X s) -> hoare P (py_lift x) (fun a s => P s /\ x = Ok a) X.
Proof. intros HX s r s' HP [= <- <-]. split; [apply steps_refl|]. destruct x; [done|by apply HX]. Qed.

Lemma h_bind {A B} P (m : M GS A) (Q : A -> GS -> Prop) (k : A -> M GS B) R X :
  hoare P m Q X -> (forall a, hoare (Q a) (k a) R X) -> hoare P (py_bind m k) R X.
Proof.
  intros Hm Hk s r s' HP E. unfold py_bind in E. destruct (m s) as [[a|e] s1] eqn:E1; destruct (Hm _ _ _ HP E1) as [S1 H1].
  - destruct (Hk a _ _ _ H1 E) as [S2 H2]. split; [by eapply steps_trans|done].
  - by injection E as <- <-.
Qed.

Lemma h_conseq {A} (P P' : GS -> Prop) (m : M GS A) (Q Q' : A -> GS -> Prop) (X X' : GS -> Prop) :
  hoare P m Q X -> (forall s, P' s -> P s) -> (forall a s, Q a s -> Q' a s) -> (forall s, X s -> X' s) -> hoare P' m Q' X'.
Proof. intros Hm HP HQ HX s r s' H E. destruct (Hm _ _ _ (HP _ H) E) as [S1 H1]. split; [done|]. destruct r; auto. Qed.

Lemma h_pre {A} (P P' : GS -> Prop) (m : M GS A) Q (X X' : GS -> Prop) : hoare P m Q X -> (forall s, P' s -> P s) -> (forall s, X s -> X' s) -> hoare P' m Q X'.
Proof. intros Hm HP HX. by apply (h_conseq P _ _ Q _ X). Qed.

Lemma h_get {A B} P (f : GS -> A) (k : A -> M GS B) Q X : (forall a, hoare (fun s => P s /\ f s = a) (k a) Q X) -> hoare P (py_bind (py_get f) k) Q X.
Proof. intros Hk s r s' HP E. exact (Hk (f s) s r s' (conj HP eq_refl) E). Qed.

Lemma h_modify (P : GS -> Prop) f (Q : unit -> GS -> Prop) X : (forall s, P s -> Q tt (f s) /\ ss_tgt (f s) = ss_tgt s) -> hoare P (py_modify f) Q X.
Proof. intros H s r s' HP [= <- <-]. destruct (H s HP) as [HQ ->]. split; [apply steps_refl|done]. Qed.

Lemma h_catch {A} P (m : M GS A) p h Q X X' : hoare P m Q X -> hoare X h Q X' -> (forall s, X s -> X' s) -> hoare P (py_catch m p h) Q X'.
Proof.
  intros Hm Hh HX s r s' HP E. unfold py_catch in E. destruct (m s) as [[a|e] s1] eqn:E1; destruct (Hm _ _ _ HP E1) as [S1 H1]; [by injection E as <- <-|].
  destruct (p e); [|injection E as <- <-; by split; [|apply HX]]. destruct (Hh _ _ _ H1 E) as [S2 H2]. split; [by eapply steps_trans|done].
Qed.

Lemma h_reraise {A} P (m : M GS A) p h Q X : hoare P m Q X -> hoare X h (fun _ => X) X -> hoare P (py_reraise m p h) Q X.
Proof.
  intros Hm Hh s r s' HP E. unfold py_reraise in E. destruct (m s) as [[a|e] s1] eqn:E1; destruct (Hm _ _ _ HP E1) as [S1 H1]; [by injection E as <- <-|].
  destruct (p e); [|by injection E as <- <-]. destruct (h s1) as [r2 s2] eqn:E2. destruct (Hh _ _ _ H1 E2) as [S2 H2].
  destruct r2; injection E as <- <-; (split; [by eapply steps_trans|done]).
Qed.

Lemma h_remote {A} P (m : M GS A) h Q X : hoare P m Q X -> (forall z, hoare X (h z) Q X) -> hoare P (on_remote m h) Q X.
Proof.
  intros Hm Hh s r s' HP E. unfold on_remote in E. destruct (m s) as [[a|e] s1] eqn:E1; destruct (Hm _ _ _ HP E1) as [S1 H1]; [by injection E as <- <-|].
  destruct e; try (by injection E as <- <-). destruct (Hh _ _ _ _ H1 E) as [S2 H2]. split; [by eapply steps_trans|done].
Qed.

(** Forget what a result says. *)
Lemma h_fst {A} (P R : GS -> Prop) (m : M GS A) Q X : hoare P m Q X -> hoare (fun s => P s /\ R s) m Q X.
Proof. intros H. apply (h_conseq P _ _ Q _ X); [done|by intros s []|done|done]. Qed.

(** What stays true as the history grows. *)
Lemma h_stable {A} (R : env -> Prop) P (m : M GS A) Q X : (forall e e', R e -> steps e e' -> R e') -> hoare P m Q X ->
  hoare (fun s => P s /\ R (ss_tgt s)) m (fun a s => Q a s /\ R (ss_tgt s)) X.
Proof. intros HR Hm s r s' [HP H] E. destruct (Hm _ _ _ HP E) as [HS HQ]. split; [done|]. destruct r; [|done]. split; [done|]. by apply (HR (ss_tgt s)). Qed.

(** A precondition of some value. *)
Lemma h_ex {A T} (P : T -> GS -> Prop) (m : M GS A) Q X : (forall t, hoare (P t) m Q X) -> hoare (fun s => exists t, P t s) m Q X.
Proof. intros H s r s' [t Ht] E. by apply (H t). Qed.

(** A fact that does not depend on the state. *)
Lemma h_fact {A} (F : Prop) P (m : M GS A) Q X : (F -> hoare P m Q X) -> hoare (fun s => P s /\ F) m Q X.
Proof. intros H s r s' [HP HF] E. by apply (H HF). Qed.

Lemma h_absurd {A} (P : GS -> Prop) (m : M GS A) Q X : (forall s, ~ P s) -> hoare P m Q X.
Proof. intros H s r s' HP. by destruct (H s). Qed.

Lemma h_each {A} P (f : A -> M GS unit) xs X : (forall x, x ∈ xs -> hoare P (f x) (fun _ => P) X) -> hoare P (each f xs) (fun _ => P) X.
Proof.
  induction xs as [|x xs IH]; intros H; cbn [each]; [by apply h_ret'|]. eapply h_bind; [apply H; left|]. intros []. apply IH. intros y Hy. apply H. by right.
Qed.

End logic.
Arguments trace : clear implicits.
Arguments steps : clear implicits.
Arguments hoare allowed {A} P m Q X.

(** Sequencing. *)
Ltac hseq t := eapply h_bind; [t|]; let x := fresh "x" in intros x; cbn beta; lazymatch type of x with unit => destruct x | _ => idtac end.

(** Membership of a literal list. *)
Ltac in_list := repeat first [apply list_elem_of_here | apply list_elem_of_further].
