(* ===== verification/GpuSafe.v ===== *)
(** * What Stage 1 may do to the GPU

    On every target, whatever it answers, src/tools/a16gpu.py touches a register only
    when values it read show that the register's power domain and clocks are on, never
    a GX register, and the survey writes nothing.

    [shown] is the newest value read of a register in the history of a target with the
    values written since, and [backed] says what the history must show for a gate.  [inv D] says that every proven gate
    outside [D] is backed; [D] is the gates whose status registers are being changed. *)

From Stdlib Require Import ZArith Lia.
From Stdlib Require Import Strings.Byte.
From stdpp Require Import base list numbers strings sets.
From S2P Require Import Prelude Bytes Transport Q1n1Link Target Preload GpuRegs GpuSession GpuLogic.

Local Open Scope string_scope.
Local Open Scope list_scope.
Local Open Scope Z_scope.
Local Open Scope py_scope.

Definition addr_of (name : string) : Z := match reg_named name with Ok r => rg_addr r | Raise _ => 0 end.

(** The newest value read of the register satisfies [p], and so does every value
    written since: a write alone shows nothing, and one that breaks [p] ends it. *)
Definition shows (w : answers) (h : list action) (name : string) (p : Z -> bool) : bool :=
  match shown w h (addr_of name) with Some l => forallb p l | None => false end.
Definition clocks (w : answers) (h : list action) (names : list string) : bool :=
  forallb (fun n => shows w h n (running_named n)) names.
Definition domain_on (w : answers) (h : list action) : bool :=
  shows w h "GPU_CC_CX_CFG_GDSCR" (fun v => bits v CFG_POWER_UP_COMPLETE) && shows w h "GPU_CC_CX_GDSCR" (fun v => negb (bits v GDSC_HW_CONTROL)).
Definition ahb_on (w : answers) (h : list action) : bool :=
  clocks w h ["GPU_CC_AHB_CBCR"] || answered w h (addr_of "CX_MISC_SW_FUSE_FREQ_LIMIT_STATUS").

(** What must be seen before the registers behind a gate are touched. *)
Definition backed (w : answers) (h : list action) (g : gate) : bool :=
  match g with
  | always => true
  | gpu_cfg_ahb => shows w h "GCC_GPU_BCR" (fun v => negb (bits v BCR_BLK_ARES)) && shows w h "GCC_GPU_CFG_AHB_CBCR" (fun v => negb (bits v CBCR_CLK_OFF))
  | gpucc_critical => forallb (fun n => shows w h n critical_on) CRITICAL_CBCRS
  | cx_fuse => forallb (fun n => shows w h n critical_on) CRITICAL_CBCRS && domain_on w h
  | cx_gmu => domain_on w h && clocks w h GMU_CLOCKS
  | cx_misc => domain_on w h && clocks w h OTHER_CLOCKS && ahb_on w h
  | cx_smmu => domain_on w h && clocks w h SMMU_CLOCKS && ahb_on w h
  | _ => false
  end.

Lemma backed_gmu_misc w h : backed w h cx_gmu = true -> backed w h cx_misc = true.
Proof.
  cbn [backed]. intros [-> Hc]%andb_prop. cbn [andb]. unfold clocks in *. cbn [GMU_CLOCKS forallb] in Hc. apply andb_prop in Hc as [Ha Hc].
  unfold ahb_on, clocks. cbn [forallb]. rewrite Ha. cbn. cbn in Hc. by rewrite Hc.
Qed.

(** The status registers of a gate. *)
Definition CX_GDSC : list string := ["GPU_CC_CX_CFG_GDSCR"; "GPU_CC_CX_GDSCR"].
Definition support (g : gate) : list string :=
  match g with
  | gpu_cfg_ahb => ["GCC_GPU_BCR"; "GCC_GPU_CFG_AHB_CBCR"]
  | gpucc_critical => CRITICAL_CBCRS
  | cx_fuse => CRITICAL_CBCRS ++ CX_GDSC
  | cx_gmu | cx_misc => CX_GDSC ++ GMU_CLOCKS
  | cx_smmu => CX_GDSC ++ SMMU_CLOCKS ++ ["GPU_CC_AHB_CBCR"]
  | _ => []
  end.

(** ** Allowed actions *)

Section allowed.
  Context (data : list action -> result bytes) (stage3 flag writes : bool).

(** The memory that may be read: a record whose address the target gave out, the memory
    map where the boot information places it (not in an MMIO block), and the command
    database. *)
Definition map_named (e : env) (a n : Z) : Prop :=
  exists info, boot_seen e info /\ a = rget info "memory_map" /\ n = rget info "memory_map_size" /\ (forall b, block_of a = Some b -> bk_name b = "CMD_DB").
Definition mem_named (e : env) (a n : Z) : Prop := (at_pointer a e /\ n <= 4096) \/ map_named e a n \/ (a, n) = CMD_DB.

(** [h] is the history before the action. *)
Definition allowed (w : answers) (h : list action) (x : action) : Prop :=
  match x with
  | ARead32 a => exists r i, r ∈ REGS /\ reg_at r i = Ok a /\ rg_domain r <> GX /\ readable r = true /\ backed w h (rg_gate r) = true
  | AWrite32 a _ => writes = true /\ exists r i, r ∈ REGS /\ reg_at r i = Ok a /\ rg_domain r <> GX /\ writable r = true /\ backed w h (rg_gate r) = true
  | AReadMem a n _ => mem_named (Env h w data) a n
  | ARead64 a => pointer w h a = true
  | ARequest op _ => op ∈ [P_GET_BOOTARGS; P_Q1N1_SERROR; P_GET_EXC_COUNT; P_UDELAY]
  | ANow => True
  | AWriteMem _ _ | ACall _ _ | ACopy _ _ _ => False
  end.

Abbreviation GS := (session env).
Abbreviation steps := (GpuLogic.steps allowed).
Abbreviation hoare := (GpuLogic.hoare allowed).

Definition hist_shown (s : GS) (a : Z) : option (list Z) := shown (ev_word (ss_tgt s)) (ev_log (ss_tgt s)) a.
Definition hist_backed (s : GS) (g : gate) : bool := backed (ev_word (ss_tgt s)) (ev_log (ss_tgt s)) g.
Definition freq_read (s : GS) : bool := answered (ev_word (ss_tgt s)) (ev_log (ss_tgt s)) (addr_of "CX_MISC_SW_FUSE_FREQ_LIMIT_STATUS").

(** What the session holds besides the gates: no arena and no entry point of Stage 3
    yet, and only a memory map and boot information that were read. *)
Record start (s : GS) : Prop := {
  in_data : ev_data (ss_tgt s) = data;
  in_stage : ss_stage3 s = stage3;
  in_writes : ss_writes s = flag;
  in_gx : ss_proven s gx = None;
  in_fresh : ss_arena s = None /\ ss_gpu_call s = 0 /\ ss_gpu_record s = 0;
  in_boot : forall i, ss_boot s = Some i -> boot_seen (ss_tgt s) i;
  in_regions : o_regions (ss_out s) = [] \/ regions_seen (ss_tgt s) (o_regions (ss_out s))
}.
Record inv (D : list gate) (s : GS) : Prop := {
  in_start : start s;
  in_proven : forall g e, ss_proven s g = Some e -> g ∈ D \/ hist_backed s g = true;
  in_freq : forall v, ss_freq_clean s = Some v -> freq_read s = true
}.

(** [inv D], with what is shown of some registers. *)
Definition st (D : list gate) (vs : list (string * list Z)) (s : GS) : Prop :=
  inv D s /\ Forall (fun p => hist_shown s (addr_of p.1) = Some p.2) vs.
(** Values that were just read. *)
Definition once_each (l : list (string * Z)) : list (string * list Z) := (fun p => (p.1, [p.2])) <$> l.
Lemma once_each_names l : (once_each l).*1 = l.*1.
Proof. unfold once_each. by rewrite <- list_fmap_compose. Qed.

(** ** Operations that touch no register *)

Definition quiet_action (x : action) : bool := match x with ARead32 _ | AWrite32 _ _ => false | _ => true end.

Lemma trail_quiet w x h a : quiet_action x = true -> trail w (x :: h) a = trail w h a.
Proof. by destruct x. Qed.
Lemma answered_quiet w x h a : quiet_action x = true -> answered w (x :: h) a = answered w h a.
Proof. by destruct x. Qed.

Lemma shows_ext w h h' n p : trail w h' (addr_of n) = trail w h (addr_of n) -> shows w h' n p = shows w h n p.
Proof. unfold shows, shown. by intros ->. Qed.

Lemma forallb_ext_in {A} (f g : A -> bool) l : (forall x, x ∈ l -> f x = g x) -> forallb f l = forallb g l.
Proof. induction l as [|x l IH]; intros H; [done|]. cbn. rewrite (H x) by left. f_equal. apply IH. intros y Hy. apply H. by right. Qed.

(** A gate stays backed while its status registers keep their newest values. *)
Lemma backed_frame w h h' g : (forall n, n ∈ support g -> trail w h' (addr_of n) = trail w h (addr_of n)) ->
  (answered w h (addr_of "CX_MISC_SW_FUSE_FREQ_LIMIT_STATUS") = true -> answered w h' (addr_of "CX_MISC_SW_FUSE_FREQ_LIMIT_STATUS") = true) ->
  backed w h g = true -> backed w h' g = true.
Proof.
  intros H Hf. assert (Hc : forall l p, l ⊆ support g -> forallb (fun n => shows w h' n (p n)) l = forallb (fun n => shows w h n (p n)) l).
  { intros l p Hl. apply forallb_ext_in. intros n Hn. by apply shows_ext, H, Hl. }
  assert (Hd : CX_GDSC ⊆ support g -> domain_on w h' = domain_on w h).
  { intros Hs. unfold domain_on. f_equal; apply shows_ext, H, Hs; unfold CX_GDSC; in_list. }
  assert (Ha : "GPU_CC_AHB_CBCR" ∈ support g -> ahb_on w h = true -> ahb_on w h' = true).
  { intros Hs. unfold ahb_on, clocks. rewrite (Hc ["GPU_CC_AHB_CBCR"]) by (by intros n ->%list_elem_of_singleton). intros [->|Hr]%orb_prop; [done|]. rewrite (Hf Hr). apply orb_true_r. }
  assert (Hs : forall l1 l2 : list string, forallb (fun x => existsb (String.eqb x) l2) l1 = true -> l1 ⊆ l2).
  { intros l1 l2 Hb x Hx. rewrite forallb_forall in Hb. specialize (Hb x (proj1 (list_elem_of_In _ _) Hx)). apply existsb_exists in Hb as (y & Hy & ->%String.eqb_eq). by apply list_elem_of_In. }
  destruct g; cbn [backed]; try done; unfold clocks.
  - rewrite <- !(shows_ext w h h') by (apply H; cbn; in_list). done.
  - by rewrite (Hc CRITICAL_CBCRS) by (by apply Hs).
  - by rewrite (Hc CRITICAL_CBCRS), Hd by (by apply Hs).
  - rewrite (Hc OTHER_CLOCKS), Hd by (by apply Hs). intros [-> Hx]%andb_prop. cbn [andb]. apply Ha; [cbn; in_list|done].
  - by rewrite (Hc GMU_CLOCKS), Hd by (by apply Hs).
  - rewrite (Hc SMMU_CLOCKS), Hd by (by apply Hs). intros [-> Hx]%andb_prop. cbn [andb]. apply Ha; [cbn; in_list|done].
Qed.

Lemma start_ext e s : start s -> extends (ss_tgt s) e -> start (upd_tgt e s).
Proof.
  intros [H0 H1 H2 H3 H4 H5 H6] Hx. split; try done.
  - destruct Hx as (_ & Hd & _). cbn [upd_tgt ss_tgt]. by rewrite Hd.
  - intros i Hi. eapply boot_seen_ext; [exact Hx|]. by apply H5.
  - destruct H6 as [H6|H6]; [by left|right]. by eapply regions_seen_ext.
Qed.

(** What [inv] needs of a change of the target. *)
Lemma inv_tgt D e s : inv D s -> extends (ss_tgt s) e ->
  (forall g, g ∉ D -> backed (ev_word (ss_tgt s)) (ev_log (ss_tgt s)) g = true -> backed (ev_word (ss_tgt s)) (ev_log e) g = true) ->
  (freq_read s = true -> answered (ev_word (ss_tgt s)) (ev_log e) (addr_of "CX_MISC_SW_FUSE_FREQ_LIMIT_STATUS") = true) -> inv D (upd_tgt e s).
Proof.
  intros [H1 H3 H4] Hx Hb Hf. pose proof Hx as (Hw & _ & _). split; [by apply start_ext| |].
  - intros g x Hp. destruct (H3 g x Hp) as [|Hg]; [by left|]. destruct (decide (g ∈ D)); [by left|right]. unfold hist_backed. cbn [ss_tgt upd_tgt]. rewrite Hw. by apply Hb.
  - intros v Hv. unfold freq_read. cbn [ss_tgt upd_tgt]. rewrite Hw. apply Hf. by apply (H4 v).
Qed.

(** A computation on the target that touches no register. *)
Definition quiet {A} (P : env -> Prop) (m : M env A) (Q : A -> env -> Prop) : Prop := forall e r e', P e -> m e = (r, e') -> steps e e' /\
  (forall a, trail (ev_word e') (ev_log e') a = trail (ev_word e) (ev_log e) a) /\ (forall a, answered (ev_word e') (ev_log e') a = answered (ev_word e) (ev_log e) a) /\
  forall v, r = Ok v -> Q v e'.
Abbreviation any := (fun _ : env => True).

Lemma quiet_push x e : quiet_action x = true -> allowed (ev_word e) (ev_log e) x -> steps e (ev_push x e) /\
  (forall a, trail (ev_word (ev_push x e)) (ev_log (ev_push x e)) a = trail (ev_word e) (ev_log e) a) /\
  (forall a, answered (ev_word (ev_push x e)) (ev_log (ev_push x e)) a = answered (ev_word e) (ev_log e) a).
Proof. intros Hq Ha. split; [by apply steps_push|]. cbn [ev_push ev_word ev_log]. split; intros a; [by apply trail_quiet|by apply answered_quiet]. Qed.

Lemma quiet_ask (P : env -> Prop) x : quiet_action x = true -> (forall e, P e -> allowed (ev_word e) (ev_log e) x) ->
  quiet P (ask x) (fun v e => exists h, ev_log e = x :: h /\ ev_word e (ev_log e) = Ok v).
Proof. intros Hq Ha e r e' HP [= <- <-]. destruct (quiet_push x e Hq (Ha e HP)) as (? & ? & ?). split_and!; try done. intros v Hv. by exists (ev_log e). Qed.
Lemma quiet_tell (P : env -> Prop) x : quiet_action x = true -> (forall e, P e -> allowed (ev_word e) (ev_log e) x) -> quiet P (tell x) (fun _ => any).
Proof. intros Hq Ha e r e' HP E. apply tell_log in E as ->. destruct (quiet_push x e Hq (Ha e HP)) as (? & ? & ?). by split_and!. Qed.
Lemma quiet_data (P : env -> Prop) x : quiet_action x = true -> (forall e, P e -> allowed (ev_word e) (ev_log e) x) -> quiet P (ask_data x) (fun d e => exists e0, P e0 /\ e = ev_push x e0 /\ ev_data e (ev_log e) = Ok d).
Proof. intros Hq Ha e r e' HP [= <- <-]. destruct (quiet_push x e Hq (Ha e HP)) as (? & ? & ?). split_and!; try done. intros v Hv. by exists e. Qed.

Lemma quiet_lift {A} (P : env -> Prop) (x : result A) : quiet P (py_lift x) (fun a e => P e /\ x = Ok a).
Proof. intros e r e' HP [= <- <-]. split; [apply steps_refl|]. by split_and!. Qed.
Lemma quiet_ret {A} (P : env -> Prop) (x : A) (Q : A -> env -> Prop) : (forall e, P e -> Q x e) -> quiet P (py_ret x) Q.
Proof. intros H e r e' HP [= <- <-]. split; [apply steps_refl|]. split_and!; try done. intros v [= <-]. by apply H. Qed.
Lemma quiet_raise {A} (P : env -> Prop) x (Q : A -> env -> Prop) : quiet P (py_raise x) Q.
Proof. intros e r e' HP [= <- <-]. split; [apply steps_refl|]. by split_and!. Qed.

Lemma quiet_bind {A B} P (m : M env A) (k : A -> M env B) Q R : quiet P m Q -> (forall a, quiet (Q a) (k a) R) -> quiet P (py_bind m k) R.
Proof.
  intros Hm Hk e r e' HP E. unfold py_bind in E. destruct (m e) as [[a|x] e1] eqn:E1; destruct (Hm _ _ _ HP E1) as (S1 & K1 & A1 & Q1).
  - destruct (Hk a e1 r e' (Q1 a eq_refl) E) as (S2 & K2 & A2 & Q2). split; [by eapply steps_trans|]. split; [intros b; by rewrite K2, K1|]. split; [intros b; by rewrite A2, A1|done].
  - injection E as <- <-. by split_and!.
Qed.

Lemma quiet_weaken {A} (P P' : env -> Prop) (m : M env A) (Q Q' : A -> env -> Prop) : quiet P m Q -> (forall e, P' e -> P e) -> (forall a e, Q a e -> Q' a e) -> quiet P' m Q'.
Proof. intros Hm HP HQ e r e' H E. destruct (Hm _ _ _ (HP _ H) E) as (? & ? & ? & H1). split_and!; try done. intros v Hv. by apply HQ, H1. Qed.

Lemma st_quiet D vs e s : st D vs s -> steps (ss_tgt s) e -> (forall a, trail (ev_word e) (ev_log e) a = trail (ev_word (ss_tgt s)) (ev_log (ss_tgt s)) a) ->
  (forall a, answered (ev_word e) (ev_log e) a = answered (ev_word (ss_tgt s)) (ev_log (ss_tgt s)) a) -> st D vs (upd_tgt e s).
Proof.
  intros [HI HF] HS Hk Ha. assert (Hx : extends (ss_tgt s) e) by (by eapply steps_extends). destruct HS as (Hw & _). rewrite Hw in Hk, Ha. split; [|apply (Forall_impl _ _ _ HF); intros [n v] Hp; unfold hist_shown, shown in *; cbn [ss_tgt upd_tgt]; by rewrite Hw, Hk].
  apply inv_tgt; [done|exact Hx| |].
  - intros g _. apply backed_frame; [intros n _; apply Hk|by rewrite Ha].
  - unfold freq_read. by rewrite Ha.
Qed.

Lemma h_quiet_if {A} D vs P (m : M env A) Q : quiet P m Q -> hoare (fun s => st D vs s /\ P (ss_tgt s)) (on_t m) (fun v s => st D vs s /\ Q v (ss_tgt s)) (st D vs).
Proof.
  intros Hm s r s' [HP Hs] E. unfold on_t in E. destruct (m (ss_tgt s)) as [r1 e1] eqn:E1. injection E as <- <-. destruct (Hm _ _ _ Hs E1) as (HS & Hk & Ha & HQ).
  pose proof (st_quiet D vs e1 s HP HS Hk Ha) as Hst. split; [done|]. destruct r1; [|done]. split; [done|]. by apply HQ.
Qed.
Lemma h_quiet {A} D vs (m : M env A) Q : quiet any m Q -> hoare (st D vs) (on_t m) (fun v s => st D vs s /\ Q v (ss_tgt s)) (st D vs).
Proof. intros Hm. eapply h_pre; [by apply h_quiet_if|by split|done]. Qed.

(** *** The records of the target *)

Lemma at_pointer_steps a e e' : at_pointer a e -> steps e e' -> at_pointer a e'.
Proof. intros H HS. eapply at_pointer_ext; [by eapply steps_extends|done]. Qed.

(** A record whose address the target answers to a request. *)
Lemma quiet_record {A} op args n (k : Z -> bytes -> M env A) (Q : A -> env -> Prop) : (op =? P_GET_BOOTARGS) || (op =? P_Q1N1_SERROR) = true -> n <= 4096 ->
  (forall address d, quiet (at_pointer address) (k address d) Q) ->
  quiet any (let! address := ask (ARequest op args) in let! d := ask_data (AReadMem address n false) in k address d) Q.
Proof.
  intros Hop Hn Hk. eapply quiet_bind.
  - apply quiet_ask; [done|]. intros e _. cbn [allowed]. apply orb_prop in Hop as [->%Z.eqb_eq| ->%Z.eqb_eq]; in_list.
  - intros address. apply (quiet_weaken (at_pointer address) _ _ Q); [|intros e (h & Hl & Hw)|done].
    + eapply quiet_bind; [apply (quiet_data (at_pointer address)); [done|intros e He; by left]|]. intros d. eapply quiet_weaken; [apply Hk| |done].
      intros e (e0 & Hp & -> & _). apply (at_pointer_steps _ e0); [done|]. apply steps_push. by left.
    + unfold at_pointer. rewrite Hl in *. cbn [pointer]. by rewrite Hop, Hw, Z.eqb_refl.
Qed.

Lemma saw_push a n d e : ev_data e (AReadMem a n false :: ev_log e) = Ok d -> saw_data (ev_push (AReadMem a n false) e) a n d.
Proof. intros H. by exists [], (ev_log e). Qed.

Lemma quiet_reread address n : n <= 4096 -> quiet (at_pointer address) (t_readmem (S := env) address n false) (fun d e => at_pointer address e /\ saw_data e address n d).
Proof.
  intros Hn. eapply quiet_weaken; [apply (quiet_data (at_pointer address)); [done|intros e He; by left]|done|]. intros d e (e0 & Hp & -> & Hd). split; [|by apply saw_push].
  apply (at_pointer_steps _ e0); [done|]. apply steps_push. by left.
Qed.

Lemma quiet_bootinfo : quiet any t_bootinfo (fun i e => boot_seen e i).
Proof.
  apply (quiet_record P_GET_BOOTARGS []); [done|done|]. intros a d. eapply quiet_bind; [apply quiet_lift|]. intros hv. cbn zeta. destruct (_ || _); [apply quiet_raise|].
  eapply quiet_bind; [eapply quiet_weaken; [apply (quiet_reread a)|by intros e []|intros d' e H; exact H]; pose proof (eq_refl : (8 * zlen BOOTINFO_FIELDS <=? 4096) = true); lia|]. intros d'. eapply quiet_bind; [apply quiet_lift|]. intros v. apply quiet_ret.
  intros e [[Hp Hd] Hv]. by eexists a, _, _, d', v.
Qed.

Lemma quiet_serror_state : quiet any serror_state (fun r e => at_pointer (rget r "address") e).
Proof.
  apply (quiet_record P_Q1N1_SERROR [0]); [done|done|]. intros a d. eapply quiet_bind; [apply quiet_lift|]. intros v. cbn zeta. destruct (negb _); [apply quiet_raise|].
  apply quiet_ret. by intros e [H _].
Qed.

Lemma quiet_now : quiet any (t_now (S := env)) (fun _ => any).
Proof. eapply quiet_weaken; [apply (quiet_ask any); [done|by intros]|done|by intros]. Qed.

(** Requests of the allow-list. *)
Lemma quiet_request op args : op ∈ [P_GET_BOOTARGS; P_Q1N1_SERROR; P_GET_EXC_COUNT; P_UDELAY] ->
  quiet any (t_request (S := env) op args) (fun _ => any) /\ quiet any (t_query (S := env) op args) (fun _ => any).
Proof. intros H. split; [by apply quiet_tell|eapply quiet_weaken; [by apply (quiet_ask any)|done|by intros]]. Qed.

(** ** Register accesses *)

Definition reg_last (r : reg) : Z := rg_addr r + rg_stride r * ((rg_count r - 1) / rg_inner r) + rg_inner_stride r * (rg_inner r - 1).
Definition reg_shape (r : reg) : bool := (0 <? rg_inner r) && (0 <=? rg_stride r) && (0 <=? rg_inner_stride r).
(** No entry of [r] is at [a]. *)
Definition avoids (r : reg) (a : Z) : bool := (a <? rg_addr r) || (reg_last r <? a).

Lemma reg_shapes r : r ∈ REGS -> reg_shape r = true.
Proof. intros Hr. assert (H : forallb reg_shape REGS = true) by (vm_compute; reflexivity). rewrite forallb_forall in H. by apply H, list_elem_of_In. Qed.

Lemma reg_at_range r i a : reg_shape r = true -> reg_at r i = Ok a -> rg_addr r <= a <= reg_last r.
Proof.
  unfold reg_shape, reg_at, reg_last. intros Hs. destruct ((0 <=? i) && (i <? rg_count r)) eqn:Hi; [|done]. cbn [negb]. intros [= <-].
  pose proof (Z.mod_pos_bound i (rg_inner r) ltac:(lia)). pose proof (Z.div_pos i (rg_inner r) ltac:(lia) ltac:(lia)). assert (Hd : i / rg_inner r <= (rg_count r - 1) / rg_inner r) by (apply Z.div_le_mono; lia).
  split; [nia|]. nia.
Qed.

Lemma avoids_ne r i a b : r ∈ REGS -> reg_at r i = Ok a -> avoids r b = true -> b <> a.
Proof. intros Hr Ha Hv. pose proof (reg_at_range r i a (reg_shapes r Hr) Ha). unfold avoids in Hv. lia. Qed.

Lemma reg_named_in n r : reg_named n = Ok r -> r ∈ REGS /\ rg_addr r = addr_of n.
Proof.
  intros E. unfold addr_of. rewrite E. split; [|done]. unfold reg_named in E. destruct (List.find _ REGS) as [r'|] eqn:Ef; [|done]. injection E as <-.
  apply find_some in Ef as [Hin _]. by apply list_elem_of_In.
Qed.

Definition STATUS_GATES : list gate := [gpu_cfg_ahb; gpucc_critical; cx_fuse; cx_misc; cx_gmu; cx_smmu].

(** Touching [name] needs no gate of [D] and leaves the status registers of the
    other gates alone. *)
Definition touch_ok (D : list gate) (name : string) : bool :=
  match reg_named name with
  | Ok r => negb (bool_decide (rg_gate r ∈ D)) && forallb (fun g => bool_decide (g ∈ D) || forallb (fun n => avoids r (addr_of n)) (support g)) STATUS_GATES
  | Raise _ => true
  end.
Definition keeps (name : string) (ns : list string) : bool :=
  match reg_named name with Ok r => forallb (fun n => avoids r (addr_of n)) ns | Raise _ => true end.

Lemma answered_cons w x h a : answered w h a = true -> answered w (x :: h) a = true.
Proof. intros H. cbn [answered]. rewrite H. apply orb_true_r. Qed.

Lemma trail_other w x h a b : x = ARead32 b \/ (exists v, x = AWrite32 b v) -> a <> b -> trail w (x :: h) a = trail w h a.
Proof. intros [->|[v ->]] Hne; cbn [trail]; by rewrite (proj2 (Z.eqb_neq a b)). Qed.

Lemma st_touch D vs name r i a x s : st D vs s -> reg_named name = Ok r -> touch_ok D name = true -> keeps name vs.*1 = true -> reg_at r i = Ok a ->
  x = ARead32 a \/ (exists v, x = AWrite32 a v) -> st D vs (upd_tgt (ev_push x (ss_tgt s)) s).
Proof.
  intros [HI HF] Hn Ht Hk Ha Hx. destruct (reg_named_in _ _ Hn) as [Hr _]. unfold touch_ok, keeps in *. rewrite Hn in Ht, Hk. apply andb_prop in Ht as [_ Ht].
  rewrite forallb_forall in Ht, Hk. split.
  - apply inv_tgt; [done|apply extends_push| |].
    + intros g Hg. apply backed_frame; [|apply answered_cons]. intros n Hs. apply (trail_other _ _ _ _ a); [done|]. destruct (decide (g ∈ STATUS_GATES)) as [Hin|Hout].
      * specialize (Ht g (proj1 (list_elem_of_In _ _) Hin)). rewrite bool_decide_eq_false_2 in Ht by done. cbn [orb] in Ht. rewrite forallb_forall in Ht. apply (avoids_ne r i); [done..|]. by apply Ht, list_elem_of_In.
      * assert (support g = []) as E by (destruct g; try done; destruct Hout; unfold STATUS_GATES; in_list). rewrite E in Hs. by apply elem_of_nil in Hs.
    + apply answered_cons.
  - apply Forall_forall. intros p Hp. rewrite Forall_forall in HF. rewrite <- (HF p Hp). unfold hist_shown, shown. cbn [upd_tgt ss_tgt ev_push ev_word ev_log].
    rewrite (trail_other _ _ _ _ a); [done|done|]. apply (avoids_ne r i); [done..|]. apply Hk, list_elem_of_In. by apply list_elem_of_fmap_2.
Qed.

(** Changes of the session that leave the target and the gates alone. *)
Definition same (s s' : GS) : Prop :=
  ss_tgt s' = ss_tgt s /\ ss_stage3 s' = ss_stage3 s /\ ss_writes s' = ss_writes s /\ ss_proven s' = ss_proven s /\ ss_freq_clean s' = ss_freq_clean s /\
  ss_arena s' = ss_arena s /\ ss_gpu_call s' = ss_gpu_call s /\ ss_gpu_record s' = ss_gpu_record s /\ ss_boot s' = ss_boot s /\ o_regions (ss_out s') = o_regions (ss_out s).
Lemma st_same D vs s s' : st D vs s -> same s s' -> st D vs s'.
Proof.
  intros [[[H0 H1 H2 H3 H4 H5 H6] Hp Hf] HF] (Ht & Es & Ew & Ep & Ef & Ea & Ec & Eg & Eb & Er). split; [split; [split|..]|].
  - by rewrite Ht.
  - by rewrite Es.
  - by rewrite Ew.
  - by rewrite Ep.
  - by rewrite Ea, Ec, Eg.
  - by rewrite Eb, Ht.
  - by rewrite Er, Ht.
  - intros g e. rewrite Ep. intros Hg. destruct (Hp g e Hg) as [|Hb]; [by left|right]. unfold hist_backed in *. by rewrite Ht.
  - intros v. rewrite Ef. intros Hv. unfold freq_read in *. rewrite Ht. by apply (Hf v).
  - unfold hist_shown in *. by rewrite Ht.
Qed.

Lemma h_note D vs f : (forall s, same s (f s)) -> hoare (st D vs) (py_modify f) (fun _ => st D vs) (st D vs).
Proof. intros H. apply h_modify. intros s Hs. split; [by apply (st_same D vs s)|apply (H s)]. Qed.

Ltac note := apply h_note; intros; by split_and!.

Lemma h_failure {A} D vs op r a z (Q : A -> GS -> Prop) : hoare (st D vs) (remote_failure op r a z) Q (st D vs).
Proof.
  unfold remote_failure. eapply h_bind; [note|]. intros []. apply h_get. intros guarded. apply h_fst.
  eapply (h_bind _ _ (fun _ => st D vs)); [|intros []; destruct (_ =? _); apply h_raise]. destruct (_ && _); [|apply h_ret'; by intros].
  eapply h_bind; [apply h_remote; [apply h_quiet, quiet_serror_state|intros z'; apply h_raise]|]. intros state. cbn zeta. apply h_fst.
  destruct (_ && _); [apply h_raise|]. destruct (_ || _); [apply h_raise|]. apply h_ret'. by intros.
Qed.

(** A passed check. *)
Lemma check_passed s D vs r write : st D vs s -> check_reg (ss_stage3 s) (ss_writes s) (ss_proven s) r write = Ok tt -> rg_gate r ∉ D ->
  rg_domain r <> GX /\ hist_backed s (rg_gate r) = true /\ (if write then writable r = true /\ flag = true else readable r = true).
Proof.
  intros [[[_ H1 H2 H3 _ _ _] Hp _] _] E Hg. unfold check_reg in E. rewrite H2, H3 in E. cbn [negb andb] in E.
  assert (Hd : rg_domain r <> GX).
  { intros Hd. rewrite (bool_decide_eq_true_2 _ Hd) in E. cbn [orb] in E. destruct (ss_stage3 s); [|done]. by destruct (bool_decide _). }
  destruct (if ss_stage3 s then _ else _); [done|]. rewrite (bool_decide_eq_false_2 _ Hd), andb_false_r in E. cbn [andb] in E.
  split; [done|]. destruct (write && _) eqn:Ew; [done|]. destruct (negb write && _) eqn:Er; [done|].
  destruct (ss_proven s (rg_gate r)) as [ev|] eqn:Ep; [|done]. split; [by destruct (Hp _ _ Ep)|]. destruct write; cbn [andb negb] in *.
  - apply orb_false_elim in Ew as [Hw Hy]. by rewrite negb_false_iff in Hw, Hy.
  - by rewrite negb_false_iff in Er.
Qed.

Definition read_ok (a : Z) (e : env) : Prop := answered (ev_word e) (ev_log e) a = true.
Lemma read_ok_steps a e e' : read_ok a e -> steps e e' -> read_ok a e'.
Proof. intros H (Hw & _ & n & Hl & _). unfold read_ok. rewrite Hw, Hl. clear Hl. induction n as [|x n IH]; [done|]. by apply answered_cons. Qed.

Definition checked (r : reg) (write : bool) (s : GS) : Prop :=
  rg_domain r <> GX /\ hist_backed s (rg_gate r) = true /\ (if write then writable r = true /\ flag = true else readable r = true).

Lemma h_check_if D vs (P : GS -> Prop) name r write : (forall s, P s -> st D vs s) -> reg_named name = Ok r -> touch_ok D name = true ->
  hoare P (s_check r write) (fun _ s => P s /\ checked r write s) (st D vs).
Proof.
  intros HPs Hn Ht s x s' HP E. unfold s_check in E. injection E as <- <-. split; [apply steps_refl|]. destruct (check_reg _ _ _ _ _) as [[]|] eqn:Ec; [|by apply HPs]. split; [done|].
  apply (check_passed _ D vs); [by apply HPs|done|]. unfold touch_ok in Ht. rewrite Hn in Ht. apply andb_prop in Ht as [Ht _]. by case_bool_decide.
Qed.
Lemma h_check D vs name r write : reg_named name = Ok r -> touch_ok D name = true ->
  hoare (st D vs) (s_check r write) (fun _ s => st D vs s /\ checked r write s) (st D vs).
Proof.
  intros Hn Ht. by apply h_check_if with (name := name).
Qed.

Lemma reg_at_0 name r a : reg_named name = Ok r -> reg_at r 0 = Ok a -> a = addr_of name.
Proof.
  intros Hn Ha. destruct (reg_named_in _ _ Hn) as [Hr <-]. unfold reg_at in Ha. destruct (_ && _); [|done]. injection Ha as <-.
  pose proof (reg_shapes r Hr) as Hs. unfold reg_shape in Hs. rewrite Z.div_0_l, Z.mod_0_l by lia. lia.
Qed.

Definition note_value (name : string) (i : Z) (l : list Z) (vs : list (string * list Z)) : list (string * list Z) := if i =? 0 then (name, l) :: vs else vs.

Lemma st_note D vs name r i a x l s : st D vs s -> reg_named name = Ok r -> touch_ok D name = true -> keeps name vs.*1 = true -> reg_at r i = Ok a ->
  x = ARead32 a \/ (exists u, x = AWrite32 a u) -> shown (ev_word (ss_tgt s)) (x :: ev_log (ss_tgt s)) a = Some l ->
  st D (note_value name i l vs) (upd_tgt (ev_push x (ss_tgt s)) s).
Proof.
  intros HP Hn Ht Hk Ha Hx Hv. destruct (st_touch D vs name r i a x s HP Hn Ht Hk Ha Hx) as [HI HF]. split; [done|]. unfold note_value.
  destruct (Z.eqb_spec i 0) as [->|]; [|done]. constructor; [|done]. cbn [fst snd]. by rewrite <- (reg_at_0 name r a).
Qed.

Lemma h_read32 D vs name r i a : reg_named name = Ok r -> touch_ok D name = true -> keeps name vs.*1 = true -> reg_at r i = Ok a ->
  hoare (fun s => st D vs s /\ checked r false s) (on_t (t_read32 a))
    (fun v s => st D (note_value name i [Z.land v 0xFFFFFFFF] vs) s /\ read_ok a (ss_tgt s)) (st D vs).
Proof.
  intros Hn Ht Hk Ha s x s' [HP (Hd & Hb & Hr)] E. unfold on_t in E. cbn [t_read32 EnvTarget ask] in E. injection E as <- <-. split.
  - apply steps_push. cbn [allowed]. exists r, i. destruct (reg_named_in _ _ Hn) as [Hin _]. by split_and!.
  - destruct (ev_word (ss_tgt s) (ARead32 a :: ev_log (ss_tgt s))) as [v|] eqn:Ev.
    + split; [apply (st_note D vs name r i a); try done; [by left|]|]; unfold shown; cbn [trail]; [by rewrite Z.eqb_refl, Ev|].
      unfold read_ok. cbn [upd_tgt ss_tgt ev_push ev_word ev_log answered]. by rewrite Z.eqb_refl, Ev.
    + apply (st_touch D vs name r i a); try done. by left.
Qed.

(** A write, after which the register shows what it showed before and the value. *)
Lemma h_write32 D vs name r i a v : (flag = true -> writes = true) -> reg_named name = Ok r -> touch_ok D name = true -> keeps name vs.*1 = true -> reg_at r i = Ok a ->
  forall old, hoare (fun s => (st D vs s /\ (i = 0 -> hist_shown s (addr_of name) = Some old)) /\ checked r true s) (on_t (t_write32 a v)) (fun _ s => st D (note_value name i (v :: old) vs) s) (st D vs).
Proof.
  intros Hfw Hn Ht Hk Ha old s x s' [[HP Ho] (Hd & Hb & Hr & Hw)] E. unfold on_t in E. cbn [t_write32 EnvTarget] in E. unfold tell, py_bind, ask in E.
  assert (HS : steps (ss_tgt s) (ev_push (AWrite32 a v) (ss_tgt s))).
  { apply steps_push. cbn [allowed]. split; [auto|]. exists r, i. destruct (reg_named_in _ _ Hn) as [Hin _]. by split_and!. }
  assert (Hx : AWrite32 a v = ARead32 a \/ (exists u, AWrite32 a v = AWrite32 a u)) by (right; by exists v).
  destruct (ev_word (ss_tgt s) (AWrite32 a v :: ev_log (ss_tgt s))) as [u|] eqn:Ev; injection E as <- <-; (split; [done|]); [|by apply (st_touch D vs name r i a)].
  destruct (st_touch D vs name r i a _ s HP Hn Ht Hk Ha Hx) as [HI HF]. split; [done|]. unfold note_value. destruct (Z.eqb_spec i 0) as [->|]; [|done]. constructor; [|done].
  cbn [fst snd]. specialize (Ho eq_refl). rewrite <- (reg_at_0 name r a Hn Ha) in *. unfold hist_shown, shown in *. cbn [upd_tgt ss_tgt ev_push ev_word ev_log trail]. rewrite Z.eqb_refl, Ev.
  destruct (trail _ _ a) as [us [z|]]; [|done]. cbn [fst snd app]. by injection Ho as <-.
Qed.
(** A write of which nothing is kept. *)
Lemma h_write32_any D vs name r i a v : (flag = true -> writes = true) -> reg_named name = Ok r -> touch_ok D name = true -> keeps name vs.*1 = true -> reg_at r i = Ok a ->
  hoare (fun s => st D vs s /\ checked r true s) (on_t (t_write32 a v)) (fun _ => st D vs) (st D vs).
Proof.
  intros Hfw Hn Ht Hk Ha s x s' [HP (Hd & Hb & Hr & Hw)] E. unfold on_t in E. cbn [t_write32 EnvTarget] in E. unfold tell, py_bind, ask in E.
  assert (HS : steps (ss_tgt s) (ev_push (AWrite32 a v) (ss_tgt s))).
  { apply steps_push. cbn [allowed]. split; [auto|]. exists r, i. destruct (reg_named_in _ _ Hn) as [Hin _]. by split_and!. }
  assert (Hx : AWrite32 a v = ARead32 a \/ (exists u, AWrite32 a v = AWrite32 a u)) by (right; by exists v).
  pose proof (st_touch D vs name r i a _ s HP Hn Ht Hk Ha Hx) as Hst. destruct (ev_word (ss_tgt s) _); injection E as <- <-; by split.
Qed.

Lemma h_on {A} D vs (m : M env A) Q : quiet any m Q -> hoare (st D vs) (on_t m) (fun _ => st D vs) (st D vs).
Proof. intros Hm. eapply h_conseq; [by apply (h_quiet D vs)|done|by intros v s []|done]. Qed.
Lemma h_request D vs op args : op ∈ [P_GET_BOOTARGS; P_Q1N1_SERROR; P_GET_EXC_COUNT; P_UDELAY] -> hoare (st D vs) (on_t (t_request op args)) (fun _ => st D vs) (st D vs).
Proof. intros Hop. eapply h_on. by apply quiet_request. Qed.
Lemma h_query D vs op args : op ∈ [P_GET_BOOTARGS; P_Q1N1_SERROR; P_GET_EXC_COUNT; P_UDELAY] -> hoare (st D vs) (on_t (t_query op args)) (fun _ => st D vs) (st D vs).
Proof. intros Hop. eapply h_on. by apply quiet_request. Qed.

Lemma st_drop D name i l vs s : st D (note_value name i l vs) s -> st D vs s.
Proof. intros [HI HF]. split; [done|]. unfold note_value in HF. destruct (i =? 0); [by apply Forall_cons in HF as [_ HF]|done]. Qed.

(** A read: the value is the newest of its register. *)
Lemma h_rd D vs name i : touch_ok D name = true -> keeps name vs.*1 = true ->
  hoare (st D vs) (rd name i) (fun v s => st D (note_value name i [v] vs) s /\ (i = 0 -> read_ok (addr_of name) (ss_tgt s)) /\ Z.land v 0xFFFFFFFF = v) (st D vs).
Proof.
  intros Ht Hk. unfold rd. eapply h_bind; [apply h_lift|]. intros r. apply h_fact. intros Hn. eapply h_bind; [by apply (h_check D vs name)|]. intros [].
  eapply h_bind; [apply h_lift'; by intros s []|]. intros a. apply h_fact. intros Ha.
  eapply h_bind; [apply h_remote; [by apply (h_read32 D vs name r i)|intros z; apply h_failure]|]. intros raw. cbn zeta. set (v := Z.land raw 0xFFFFFFFF).
  set (V := note_value name i [v] vs). assert (HX : forall s, st D V s -> st D vs s) by (intros s; apply st_drop).
  eapply (h_bind _ _ (fun _ s => st D V s /\ read_ok a (ss_tgt s))).
  - eapply h_conseq; [apply (h_stable (read_ok a) (st D V) _ (fun _ => st D V) (st D V)); [apply read_ok_steps|]|done|done|done].
    destruct (v =? MARKER32); [|apply h_ret'; by intros]. eapply h_bind; [apply h_query; in_list|]. intros faults. cbn beta. destruct (negb _); [|apply h_ret'; by intros].
    eapply h_bind; [note|]. intros []. apply h_raise.
  - intros []. eapply (h_bind _ _ (fun _ s => st D V s /\ read_ok a (ss_tgt s))).
    + eapply h_conseq; [apply (h_stable (read_ok a) (st D V) _ (fun _ => st D V) (st D V)); [apply read_ok_steps|note]|done|done|done].
    + intros []. apply h_ret'. intros s [HP Hok]. split; [done|]. split; [intros ->; by rewrite <- (reg_at_0 name r a)|]. unfold v. by rewrite <- Z.land_assoc.
Qed.

(** A write. *)
Lemma h_wr_gen D vs V (P : GS -> Prop) name v i : touch_ok D name = true -> (forall s, P s -> st D vs s) -> (forall s, st D V s -> st D vs s) ->
  (forall r a, reg_named name = Ok r -> reg_at r i = Ok a -> hoare (fun s => P s /\ checked r true s) (on_t (t_write32 a (Z.land v 0xFFFFFFFF))) (fun _ => st D V) (st D vs)) ->
  hoare P (wr name v i) (fun _ => st D V) (st D vs).
Proof.
  intros Ht HP HV Hw. unfold wr. eapply h_bind; [by apply h_lift'|]. intros r. apply h_fact. intros Hn. eapply h_bind; [by apply (h_check_if D vs P name)|]. intros [].
  eapply h_bind; [apply h_lift'; intros s []; auto|]. intros a. apply h_fact. intros Ha. cbn zeta.
  eapply h_bind; [apply h_remote; [by apply Hw|intros z; apply h_failure]|]. intros []. cbn beta.
  apply (h_conseq (st D V) _ _ (fun _ => st D V) _ (st D V)); [|done|done|done].
  eapply h_bind; [apply h_query; in_list|]. intros faults. cbn beta. eapply h_bind; [note|]. intros []. destruct (negb _); [apply h_raise|apply h_ret'; by intros].
Qed.
Lemma h_wr D vs name v i : (flag = true -> writes = true) -> touch_ok D name = true -> keeps name vs.*1 = true -> hoare (st D vs) (wr name v i) (fun _ => st D vs) (st D vs).
Proof. intros Hfw Ht Hk. apply (h_wr_gen D vs vs); [done|done|done|]. intros r a Hn Ha. by apply (h_write32_any D vs name r i). Qed.
(** A write to a register of which something is shown. *)
Lemma h_wr_shown D vs name v old : (flag = true -> writes = true) -> touch_ok D name = true -> keeps name vs.*1 = true ->
  hoare (st D ((name, old) :: vs)) (wr name v 0) (fun _ => st D ((name, Z.land v 0xFFFFFFFF :: old) :: vs)) (st D vs).
Proof.
  intros Hfw Ht Hk. assert (HX : forall l s, st D ((name, l) :: vs) s -> st D vs s) by (intros l s; apply (st_drop D name 0 l vs)). apply (h_wr_gen D vs); [done|apply HX|apply HX|].
  intros r a Hn Ha. eapply h_pre; [by apply (h_write32 D vs name r 0 a _ Hfw Hn Ht Hk Ha old)| |done]. intros s [HP Hc]. split; [|done]. split; [by eapply HX|]. intros _. destruct HP as [_ HF].
  by apply Forall_cons in HF as [HF _].
Qed.

(** ** Derived operations *)

Lemma st_sub D vs vs' s : st D vs s -> vs' ⊆ vs -> st D vs' s.
Proof. intros [HI HF] Hs. split; [done|]. rewrite Forall_forall in *. auto. Qed.

Lemma st_tail D p vs s : st D (p :: vs) s -> st D vs s.
Proof. intros H. apply (st_sub _ (p :: vs)); [done|]. intros x. by apply list_elem_of_further. Qed.

(** A read of a single register. *)
Lemma h_rd0 D vs name : touch_ok D name = true -> keeps name vs.*1 = true ->
  hoare (st D vs) (rd name 0) (fun v s => st D ((name, [v]) :: vs) s /\ Z.land v 0xFFFFFFFF = v) (st D vs).
Proof. intros Ht Hk. eapply h_conseq; [by apply (h_rd D vs name 0)|done|by intros v s (H & _ & Hv)|done]. Qed.
Lemma h_rdi D vs name i : touch_ok D name = true -> keeps name vs.*1 = true -> hoare (st D vs) (rd name i) (fun _ => st D vs) (st D vs).
Proof. intros Ht Hk. eapply h_conseq; [by apply (h_rd D vs name i)|done|intros v s (H & _); by eapply st_drop|done]. Qed.
Lemma h_wr0 D vs name v : (flag = true -> writes = true) -> touch_ok D name = true -> keeps name vs.*1 = true -> hoare (st D vs) (wr name v 0) (fun _ => st D vs) (st D vs).
Proof. apply h_wr. Qed.

Lemma land_small a b : Z.land a 0xFFFFFFFF = a -> Z.land b 0xFFFFFFFF = b -> forall m, Z.land (Z.lor (Z.land a m) b) 0xFFFFFFFF = Z.lor (Z.land a m) b.
Proof. intros Ha Hb m. rewrite Z.land_lor_distr_l, Hb. f_equal. rewrite (Z.land_comm a m), <- Z.land_assoc. by rewrite Ha. Qed.

(** An update: the value read, and the new one if that is different and was written. *)
Lemma h_update D vs name mask b : (flag = true -> writes = true) -> touch_ok D name = true -> keeps name vs.*1 = true -> Z.land (Z.land b mask) 0xFFFFFFFF = Z.land b mask ->
  hoare (st D vs) (update name mask b)
    (fun v s => exists old, (st D ((name, if v =? old then [v] else [v; old]) :: vs) s) /\ v = Z.lor (Z.land old (Z.lnot mask)) (Z.land b mask)) (st D vs).
Proof.
  intros Hfw Ht Hk Hb. unfold update, wr_update. eapply h_bind; [by apply h_rd0|]. intros old. apply h_fact. intros Ho. cbn zeta. set (new := Z.lor _ _).
  assert (Hn : Z.land new 0xFFFFFFFF = new) by (by apply land_small). destruct (Z.eqb_spec new old) as [E|E]; cbn [negb].
  - eapply h_bind; [apply h_ret|]. intros []. apply h_ret'. intros s [H _]. exists old. rewrite (proj2 (Z.eqb_eq _ _) E), E. done.
  - eapply h_bind; [by apply (h_wr_shown D vs name new [old])|]. intros []. apply h_ret'. intros s. rewrite Hn. intros H. exists old. rewrite (proj2 (Z.eqb_neq _ _) E). done.
Qed.

Lemma h_udelay D vs us : hoare (st D vs) (udelay us) (fun _ => st D vs) (st D vs).
Proof. unfold udelay. eapply h_bind; [apply h_request; in_list|]. intros []. note. Qed.

Lemma h_poll_loop left D vs name mask want deadline attempt : touch_ok D name = true -> keeps name vs.*1 = true ->
  hoare (st D vs) (poll_loop left name mask want deadline attempt) (fun v => st D ((name, [v]) :: vs)) (st D vs).
Proof.
  intros Ht Hk. revert attempt. induction left as [|left IH]; intros attempt; cbn [poll_loop]; [eapply h_bind; [note|]; intros []; apply h_raise|].
  eapply h_bind; [by apply h_rd0|]. intros v. apply h_fst. destruct (_ =? _).
  - apply (h_pre (st D ((name, [v]) :: vs)) _ _ _ (st D ((name, [v]) :: vs))); [eapply h_bind; [note|]; intros []; by apply h_ret'|done|intros s; apply st_tail].
  - apply (h_conseq (st D vs) _ _ (fun v => st D ((name, [v]) :: vs)) _ (st D vs)); [|intros s; apply st_tail|done|done]. eapply h_bind; [eapply h_on, quiet_now|]. intros now. cbn beta.
    destruct (_ <? _); [eapply h_bind; [note|]; intros []; apply h_raise|apply IH].
Qed.

Lemma h_poll D vs name mask want kind : touch_ok D name = true -> keeps name vs.*1 = true ->
  hoare (st D vs) (poll name mask want kind) (fun v => st D ((name, [v]) :: vs)) (st D vs).
Proof. intros Ht Hk. unfold poll. eapply h_bind; [eapply h_on, quiet_now|]. intros now. by apply h_poll_loop. Qed.

(** Registers that are apart from each other and from [ns]. *)
Fixpoint apart (names ns : list string) : bool :=
  match names with [] => true | n :: rest => keeps n ns && apart rest (n :: ns) end.

Lemma h_rd_all D vs names : forallb (touch_ok D) names = true -> apart names vs.*1 = true ->
  hoare (st D vs) (rd_all names) (fun l s => st D (once_each l ++ vs) s /\ l.*1 = names) (st D vs).
Proof.
  revert vs. induction names as [|n names IH]; intros vs Ht Ha; cbn [rd_all]; [by apply h_ret'|]. cbn in Ht, Ha. apply andb_prop in Ht as [Hn Ht]. apply andb_prop in Ha as [Hk Ha].
  eapply h_bind; [by apply h_rd0|]. intros v. apply h_fst. eapply h_bind; [eapply h_pre; [by apply (IH ((n, [v]) :: vs))|done|intros s; apply st_tail]|].
  intros l. apply h_fact. intros <-. apply h_ret'. intros s H. split; [|done]. apply (st_sub _ (once_each l ++ (n, [v]) :: vs)); [done|]. intros p. unfold once_each. rewrite fmap_cons. cbn [app]. rewrite !elem_of_cons, !elem_of_app, !elem_of_cons. tauto.
Qed.

(** ** Gates *)

Lemma inv_weaken D D' s : inv D s -> D ⊆ D' -> inv D' s.
Proof. intros [H1 H3 H4] Hs. split; [done| |done]. intros g e Hg. destruct (H3 g e Hg); [left; by apply Hs|by right]. Qed.
Lemma st_weaken D D' vs s : st D vs s -> D ⊆ D' -> st D' vs s.
Proof. intros [HI HF] Hs. split; [by apply (inv_weaken D)|done]. Qed.

(** The gates of [D] but [g]. *)
Definition without (g : gate) (D : list gate) : list gate := filter (fun g' => g' <> g) D.

Lemma start_gates f s : start s -> f (ss_proven s) gx = None -> start (upd_proven f s).
Proof. intros [H0 H1 H2 H3 H4 H5 H6] Hf. by split. Qed.
Lemma inv_proven D g e s : inv (g :: D) s -> hist_backed s g = true -> inv D (upd_proven (fun p g' => if decide (g' = g) then Some e else p g') s).
Proof.
  intros [H1 H3 H4] Hb. split; [| |done].
  - apply start_gates; [done|]. rewrite decide_False by (by intros <-). apply H1.
  - intros g' e' Hg. cbn [upd_proven ss_proven] in Hg. destruct (decide (g' = g)) as [->|Hne]; [by right|].
    destruct (H3 g' e' Hg) as [[->|]%elem_of_cons|]; [done|by left|by right].
Qed.
Lemma inv_withdrawn D g s : inv (g :: D) s -> inv D (upd_proven (fun p g' => if decide (g' = g) then None else p g') s).
Proof.
  intros [H1 H3 H4]. split; [| |done].
  - apply start_gates; [done|]. case_decide; [done|apply H1].
  - intros g' e' Hg. cbn [upd_proven ss_proven] in Hg. destruct (decide (g' = g)) as [->|Hne]; [done|].
    destruct (H3 g' e' Hg) as [[->|]%elem_of_cons|]; [done|by left|by right].
Qed.

Lemma h_prove D vs g e X : hoare (fun s => st (g :: D) vs s /\ hist_backed s g = true) (prove g e) (fun _ s => st D vs s /\ is_Some (ss_proven s g)) X.
Proof.
  apply h_modify. intros s [[HI HF] Hb]. split; [|done]. split; [split; [by apply inv_proven|done]|]. cbn [upd_proven ss_proven]. rewrite decide_True by done. by eexists.
Qed.
Lemma h_withdraw D vs g X : hoare (st (g :: D) vs) (withdraw g) (fun _ => st D vs) X.
Proof. apply h_modify. intros s [HI HF]. split; [|done]. split; [by apply inv_withdrawn|done]. Qed.

Lemma h_proven {B} P g (k : bool -> M GS B) Q X : (forall b, hoare (fun s => P s /\ (b = true <-> is_Some (ss_proven s g))) (k b) Q X) -> hoare P (py_bind (is_proven g) k) Q X.
Proof.
  intros Hk. apply h_get. intros b. eapply h_pre; [apply (Hk b)| |done]. intros s [HP <-]. split; [done|]. by destruct (ss_proven s g).
Qed.

(** A proven gate is backed. *)
Lemma proven_backed D vs g s : st D vs s -> is_Some (ss_proven s g) -> g ∉ D -> hist_backed s g = true.
Proof. intros [[_ H _] _] [e He] Hg. by destruct (H g e He). Qed.

Lemma shows_all D vs n l p s : st D vs s -> (n, l) ∈ vs -> shows (ev_word (ss_tgt s)) (ev_log (ss_tgt s)) n p = forallb p l.
Proof. intros [_ HF] Hin. rewrite Forall_forall in HF. unfold shows. specialize (HF _ Hin). cbn [fst snd] in HF. unfold hist_shown in HF. by rewrite HF. Qed.
Lemma shows_read D vs n v p s : st D vs s -> (n, [v]) ∈ vs -> shows (ev_word (ss_tgt s)) (ev_log (ss_tgt s)) n p = p v.
Proof. intros HS Hin. rewrite (shows_all D vs n [v] p s HS Hin). cbn [forallb]. apply andb_true_r. Qed.

Lemma rget_in (l : list (string * Z)) n : n ∈ l.*1 -> (n, rget l n) ∈ l.
Proof.
  intros H. unfold rget. destruct (List.find _ l) as [[k v]|] eqn:E.
  - apply find_some in E as [Hin Ek%String.eqb_eq]. cbn [fst snd] in *. subst k. by apply list_elem_of_In.
  - apply list_elem_of_fmap in H as ([k v] & Ek & Hin). cbn [fst] in Ek. subst k. pose proof (List.find_none _ _ E (n, v) (proj1 (list_elem_of_In _ _) Hin)) as Hn. cbn [fst] in Hn. by rewrite String.eqb_refl in Hn.
Qed.

(** ** The survey *)

(** The two places [dram] is used for. *)
Definition dram_named (a n : Z) (e : env) : Prop :=
  (a, n) = CMD_DB \/ exists info, boot_seen e info /\ a = rget info "memory_map" /\ n = rget info "memory_map_size".
Lemma dram_named_steps a n e e' : dram_named a n e -> steps e e' -> dram_named a n e'.
Proof. intros [H|(info & Hb & H)] HS; [by left|right]. exists info. split; [|done]. eapply boot_seen_ext; [by eapply steps_extends|done]. Qed.

Lemma h_dram1 D vs a n : hoare (fun s => st D vs s /\ dram_named a n (ss_tgt s)) (dram1 a n) (fun d s => st D vs s /\ saw_data (ss_tgt s) a n d) (st D vs).
Proof.
  unfold dram1. destruct (match block_of a with Some b => _ | None => _ end) eqn:Eb; [eapply h_pre; [apply h_raise|by intros s [H _]; exact H|done]|].
  assert (Hblk : forall b, block_of a = Some b -> bk_name b = "CMD_DB").
  { intros b Hb. rewrite Hb in Eb. apply negb_false_iff in Eb. by apply String.eqb_eq. }
  eapply (h_bind _ _ (fun d s => st D vs s /\ saw_data (ss_tgt s) a n d)); [apply h_remote; [|intros z; apply h_failure]|].
  - eapply h_pre; [apply (h_quiet_if D vs (fun e => ev_data e = data /\ dram_named a n e) _ (fun d e => saw_data e a n d))| |done].
    + eapply quiet_weaken; [apply (quiet_data (fun e => ev_data e = data /\ dram_named a n e)); [done|]|done|].
      * intros e [Hd Hn]. cbn [allowed]. assert (Env (ev_log e) (ev_word e) data = e) as -> by (destruct e; cbn in *; by subst).
        destruct Hn as [Hn|(info & Hb & Ha & Hn)]; [by right; right|right; left; by exists info].
      * intros d e (e0 & _ & -> & Hd). by apply saw_push.
    + intros s [HS Hn]. split; [done|]. split; [apply HS|done].
  - intros d. eapply (h_bind _ _ (fun _ s => st D vs s /\ saw_data (ss_tgt s) a n d)).
    + eapply (h_stable (fun e => saw_data e a n d)); [|note]. intros e e' Hd HS. eapply saw_data_ext; [by eapply steps_extends|done].
    + intros []. by apply h_ret'.
Qed.

(** The hook of Stage 3: the map is kept when it is the one of the boot information. *)
Lemma st_set_boot D vs i s : st D vs s -> boot_seen (ss_tgt s) i -> st D vs (upd_boot i s).
Proof. intros [[[H0 H1 H2 H3 H4 H5 H6] Hp Hf] HF] Hb. split; [|done]. split; [|done|done]. split; try done. intros j [= <-]. exact Hb. Qed.
Lemma st_set_regions D vs r s : st D vs s -> regions_seen (ss_tgt s) r -> st D vs (upd_out (o_set_regions r) s).
Proof. intros [[[H0 H1 H2 H3 H4 H5 H6] Hp Hf] HF] Hb. split; [|done]. split; [|done|done]. split; try done. by right. Qed.

Lemma stable_saw {A} D vs (m : M GS A) Q X a n d : hoare (st D vs) m Q X -> hoare (fun s => st D vs s /\ saw_data (ss_tgt s) a n d) m (fun x s => Q x s /\ saw_data (ss_tgt s) a n d) X.
Proof. intros Hm. apply (h_stable (fun e => saw_data e a n d)); [|done]. intros e e' Hd HS. eapply saw_data_ext; [by eapply steps_extends|done]. Qed.
Lemma stable_boot {A} P (m : M GS A) Q X i : hoare P m Q X -> hoare (fun s => P s /\ boot_seen (ss_tgt s) i) m (fun x s => Q x s /\ boot_seen (ss_tgt s) i) X.
Proof. intros Hm. apply (h_stable (fun e => boot_seen e i)); [|done]. intros e e' Hd HS. eapply boot_seen_ext; [by eapply steps_extends|done]. Qed.

Lemma h_dram D vs a n : hoare (fun s => st D vs s /\ dram_named a n (ss_tgt s)) (dram a n) (fun _ => st D vs) (st D vs).
Proof.
  unfold dram. eapply h_bind; [apply h_dram1|]. intros d. apply h_get. intros hooked. apply h_fst.
  eapply (h_bind _ _ (fun _ => st D vs)); [|intros []; by apply h_ret']. destruct (_ && _); [|apply h_ret'; by intros s []].
  apply h_get. intros cached. eapply (h_bind _ _ (fun i s => (st D vs s /\ saw_data (ss_tgt s) a n d) /\ boot_seen (ss_tgt s) i)).
  { destruct cached as [i|].
    - apply h_ret'. intros s [[HS Hd] Hc]. split; [done|]. destruct HS as [[HI _ _] _]. by apply in_boot.
    - apply h_fst. eapply h_conseq; [apply (stable_saw D vs _ (fun i s => st D vs s /\ boot_seen (ss_tgt s) i) (st D vs) a n d), (h_quiet D vs _ (fun i e => boot_seen e i)), quiet_bootinfo|done|by intros i s [[H1 H2] H3]|done]. }
  intros i. eapply (h_bind _ _ (fun _ s => (st D vs s /\ saw_data (ss_tgt s) a n d) /\ boot_seen (ss_tgt s) i)).
  { apply h_modify. intros s [[HS Hd] Hb]. split; [|done]. split; [split; [by apply st_set_boot|done]|done]. }
  intros []. destruct (Z.eqb_spec a (rget i "memory_map")) as [->|]; [|apply h_ret'; by intros s [[H _] _]].
  eapply h_bind; [apply h_lift'; by intros s [[H _] _]|]. intros r. apply h_modify. intros s [[[HS Hd] Hb] Hr]. split; [|done].
  apply st_set_regions; [done|]. by exists i, n, d.
Qed.

Lemma h_step D vs x : hoare (st D vs) (set_step x) (fun _ => st D vs) (st D vs).
Proof. note. Qed.
Lemma h_order D vs x : hoare (st D vs) (order x) (fun _ => st D vs) (st D vs).
Proof. note. Qed.

Lemma h_step_cmd_db D vs : hoare (st D vs) step_cmd_db (fun _ => st D vs) (st D vs).
Proof.
  unfold step_cmd_db. hseq ltac:(apply h_step). eapply h_bind; [apply h_quiet, quiet_bootinfo|]. intros info. cbn beta.
  eapply (h_bind _ _ (fun _ s => st D vs s /\ boot_seen (ss_tgt s) info)); [apply stable_boot; note|]. intros [].
  eapply h_bind; [eapply h_pre; [apply h_dram| |done]; intros s [HS Hb]; split; [done|]; right; by exists info|]. intros map. cbn beta.
  eapply h_bind; [apply h_lift|]. intros regions. apply h_fst. cbn zeta.
  eapply (h_bind _ _ (fun _ => st D vs)).
  - destruct (covering _ _ _); [by apply h_ret'|]. destruct (existsb _ _); [by apply h_ret'|]. eapply h_catch; [|by apply h_ret'|done].
    eapply h_bind; [eapply h_pre; [apply h_dram| |done]; intros s HS; split; [done|by left]|]. intros blob. eapply h_conseq; [apply h_lift|done|by intros ? ? []|done].
  - intros db. hseq ltac:(note). apply h_order.
Qed.

Lemma h_gic_intid D vs lines intid : forallb (touch_ok D) ["GICD_IGROUPR"; "GICD_ISENABLER"; "GICD_ISPENDR"; "GICD_ICFGR"; "GICD_IROUTER_LO"] = true ->
  forallb (fun n => keeps n vs.*1) ["GICD_IGROUPR"; "GICD_ISENABLER"; "GICD_ISPENDR"; "GICD_ICFGR"; "GICD_IROUTER_LO"] = true ->
  hoare (st D vs) (gic_intid lines intid) (fun _ => st D vs) (st D vs).
Proof.
  intros Ht Hk. rewrite forallb_forall in Ht, Hk. unfold gic_intid. destruct (_ <=? _); [by apply h_ret'|].
  do 5 (eapply h_bind; [apply h_rdi; [apply Ht|apply Hk]; cbn; tauto|]; intros ?; cbn beta). by apply h_ret'.
Qed.

Definition GATES0 : list gate := gpu_cfg_ahb :: gpucc_critical :: cx_fuse :: cx_gmu :: cx_misc :: cx_smmu :: [].
Definition GATES1 : list gate := [gpucc_critical; cx_fuse; cx_gmu; cx_misc; cx_smmu].

(** Side conditions on the registry. *)
Ltac regs := vm_compute; reflexivity.

Lemma h_step_gic D : forallb (touch_ok D) ["GICD_TYPER"; "GICD_CTLR"; "GICD_IGROUPR"; "GICD_ISENABLER"; "GICD_ISPENDR"; "GICD_ICFGR"; "GICD_IROUTER_LO"] = true ->
  hoare (st D []) step_gic (fun _ => st D []) (st D []).
Proof.
  intros Ht. pose proof Ht as Hf. rewrite forallb_forall in Ht. unfold step_gic. hseq ltac:(apply h_step). apply h_get. intros gicd. apply h_fst. destruct (negb _); [apply h_raise|].
  hseq ltac:(apply h_rdi; [apply Ht; cbn; tauto|regs]). hseq ltac:(apply h_rdi; [apply Ht; cbn; tauto|regs]).
  hseq ltac:(apply h_each; intros n _; apply h_gic_intid; [apply forallb_forall; intros m Hm; apply Ht; cbn in Hm |- *; tauto|regs]). apply h_order.
Qed.

Lemma elem_of_rget names (l : list (string * Z)) (vs : list (string * list Z)) n : l.*1 = names -> existsb (String.eqb n) names = true -> (n, [rget l n]) ∈ once_each l ++ vs.
Proof. intros <- H. apply elem_of_app. left. apply (list_elem_of_fmap_2 (fun p => (p.1, [p.2])) l (n, rget l n)), rget_in. apply existsb_exists in H as (m & Hm & ->%String.eqb_eq). by apply list_elem_of_In. Qed.

Lemma shows_survey D names (values : list (string * Z)) vs n p s : st D (once_each values ++ vs) s -> values.*1 = names -> existsb (String.eqb n) names = true ->
  shows (ev_word (ss_tgt s)) (ev_log (ss_tgt s)) n p = p (rget values n).
Proof. intros H Hv Hn. apply (shows_read D (once_each values ++ vs)); [done|]. by apply (elem_of_rget names). Qed.

Lemma h_step_gcc : hoare (st GATES0 []) step_gcc (fun _ => st GATES1 []) (st GATES0 []).
Proof.
  unfold step_gcc. hseq ltac:(apply h_step). eapply h_bind; [apply h_rd_all; regs|]. intros values. apply h_fact. intros Hv. set (V := once_each values ++ []).
  apply (h_pre (st GATES0 V) _ _ _ (st GATES0 V)); [|done|intros s H; apply (st_sub _ V); [done|apply list_subseteq_nil]]. hseq ltac:(apply h_order).
  destruct (bits (rget values "GCC_GPU_BCR") _) eqn:Eb; [apply h_raise|]. destruct (bits (rget values "GCC_GPU_CFG_AHB_CBCR") _) eqn:Ea; [apply h_raise|].
  eapply h_bind; [eapply h_pre; [apply (h_prove GATES1 V)| |intros s H; exact H]|]. 2: { intros []. apply h_ret'. intros s [H _]. apply (st_sub _ V); [done|apply list_subseteq_nil]. }
  intros s H. split; [done|]. unfold hist_backed. cbn [backed]. rewrite !(shows_survey GATES0 GCC_SURVEY values [] _ _ s H Hv) by reflexivity. by rewrite Eb, Ea.
Qed.

(** ** The CX gates *)

(** The newest reads of the GPUCC survey, and of the GEMNOC branch after it. *)
Definition surveyed (values : list (string * Z)) (gemnoc : Z) : list (string * list Z) := ("GCC_GPU_GEMNOC_GFX_CBCR", [gemnoc]) :: once_each values ++ [].

Section surveyed.
  Context (D : list gate) (values : list (string * Z)) (gem : Z) (s : GS).
  Context (HS : st D (surveyed values gem) s) (Hv : values.*1 = GPUCC_SURVEY).
  Abbreviation g := (gdsc_state (rget values "GPU_CC_CX_GDSCR") (rget values "GPU_CC_CX_CFG_GDSCR")).
  Abbreviation w := (ev_word (ss_tgt s)).
  Abbreviation h := (ev_log (ss_tgt s)).

Lemma sv_shows n p : existsb (String.eqb n) GPUCC_SURVEY = true -> shows w h n p = p (rget values n).
Proof. intros Hn. apply (shows_survey D GPUCC_SURVEY values []); [|done|done]. by eapply st_tail. Qed.

Lemma sv_domain : domain_on w h = domain_ok g.
Proof. unfold domain_on, domain_ok. by rewrite !sv_shows by reflexivity. Qed.

Lemma sv_clock n : (if String.prefix "GCC_" n then String.eqb n "GCC_GPU_GEMNOC_GFX_CBCR" else existsb (String.eqb n) GPUCC_SURVEY) = true ->
  shows w h n (running_named n) = clock_ok values gem n.
Proof.
  intros Hn. unfold clock_ok. destruct (String.prefix "GCC_" n); [|by apply sv_shows]. apply String.eqb_eq in Hn as ->.
  apply (shows_read D (surveyed values gem)); [done|]. left.
Qed.

Lemma sv_clocks l : forallb (fun n => if String.prefix "GCC_" n then String.eqb n "GCC_GPU_GEMNOC_GFX_CBCR" else existsb (String.eqb n) GPUCC_SURVEY) l = true ->
  clocks w h l = forallb (clock_ok values gem) l.
Proof. intros Hl. apply forallb_ext_in. intros n Hn. apply sv_clock. rewrite forallb_forall in Hl. by apply Hl, list_elem_of_In. Qed.

Lemma sv_critical : forallb (fun n => shows w h n critical_on) CRITICAL_CBCRS = forallb (fun n => critical_on (rget values n)) CRITICAL_CBCRS.
Proof. cbn [CRITICAL_CBCRS forallb]. by rewrite !sv_shows by reflexivity. Qed.
End surveyed.

(** Inclusions of lists of gates. *)
Ltac gates := apply (bool_decide_unpack _); vm_compute; exact I.

Lemma h_if_prove D V g e (c : bool) : (forall s, st (g :: D) V s -> c = true -> hist_backed s g = true) ->
  hoare (st (g :: D) V) (if c then prove g e else withdraw g) (fun _ => st D V) (st (g :: D) V).
Proof.
  intros Hc. destruct c; [|apply h_withdraw]. eapply h_conseq; [apply (h_prove D V)| |by intros [] s []|done]. intros s H. split; [done|by apply Hc].
Qed.

Lemma h_prove_critical D V values : (forall s, st (gpucc_critical :: D) V s ->
    forallb (fun n => shows (ev_word (ss_tgt s)) (ev_log (ss_tgt s)) n critical_on) CRITICAL_CBCRS = forallb (fun n => critical_on (rget values n)) CRITICAL_CBCRS) ->
  hoare (st (gpucc_critical :: D) V) (prove_critical values) (fun _ => st D V) (st (gpucc_critical :: D) V).
Proof. intros Hv. apply h_if_prove. intros s H Hc. unfold hist_backed. cbn [backed]. by rewrite Hv. Qed.

Lemma h_prove_fuse D V g : gpucc_critical ∉ D -> (forall s, st (cx_fuse :: D) V s -> domain_on (ev_word (ss_tgt s)) (ev_log (ss_tgt s)) = domain_ok g) ->
  hoare (st (cx_fuse :: D) V) (prove_fuse g) (fun _ => st D V) (st (cx_fuse :: D) V).
Proof.
  intros HD Hg. unfold prove_fuse. apply h_proven. intros b.
  assert (Hb : forall s, st (cx_fuse :: D) V s /\ (b = true <-> is_Some (ss_proven s gpucc_critical)) -> b && gd_on g && negb (gd_hw_control g) = true -> hist_backed s cx_fuse = true).
  { intros s [H Hs] Hc. apply andb_prop in Hc as [[Hb Ho]%andb_prop Hh]. pose proof (proven_backed _ _ gpucc_critical s H (proj1 Hs Hb)) as Hp. unfold hist_backed in *. cbn [backed] in *.
    rewrite Hp by (by intros [|]%elem_of_cons). rewrite (Hg s H). unfold domain_ok. by rewrite Ho, Hh. }
  destruct (b && gd_on g && negb (gd_hw_control g)).
  - eapply h_conseq; [apply (h_prove D V)| |by intros [] s []|by intros s H]. intros s H. split; [by destruct H|by apply Hb].
  - apply h_fst, h_withdraw.
Qed.

Section evaluate.
  Context (values : list (string * Z)) (gem : Z) (Hv : values.*1 = GPUCC_SURVEY).
  Abbreviation g := (gdsc_state (rget values "GPU_CC_CX_GDSCR") (rget values "GPU_CC_CX_CFG_GDSCR")).
  Abbreviation V := (surveyed values gem).

Lemma backed_misc D s : st D V s -> hist_backed s cx_gmu = true -> hist_backed s cx_misc = true.
Proof. intros _. apply backed_gmu_misc. Qed.

Lemma h_gate_gmu : hoare (st [cx_gmu; cx_misc; cx_smmu] V)
  (gate_gmu g values gem)
  (fun _ => st [cx_misc; cx_smmu] V) (st [cx_gmu; cx_misc; cx_smmu] V).
Proof.
  apply h_if_prove. intros s H [[Hd _]%andb_prop Hc]%andb_prop. unfold hist_backed. cbn [backed]. by rewrite (sv_domain _ values gem s H Hv), Hd, (sv_clocks _ values gem s H Hv) by reflexivity.
Qed.

Lemma h_gate_misc : hoare (st [cx_misc; cx_smmu] V)
  (gate_misc g values gem) (fun _ => st [cx_smmu] V) (st [cx_misc; cx_smmu] V).
Proof.
  unfold gate_misc. apply h_get. intros gmu. apply h_get. intros clean. destruct gmu as [e|].
  - eapply h_conseq; [apply (h_prove [cx_smmu] V)| |by intros [] s []|by intros s H]. intros s [[H Hg] _]. split; [done|]. apply (backed_misc _ s H), (proven_backed _ _ _ _ H); [by rewrite Hg|].
    by intros [|[|[]%elem_of_nil]%elem_of_cons]%elem_of_cons.
  - destruct clean as [freq|]; [|eapply h_pre; [apply (h_withdraw [cx_smmu] V)|by intros s [[H _] _]|done]].
    destruct (_ && _) eqn:Hc; [|eapply h_pre; [apply (h_withdraw [cx_smmu] V)|by intros s [[H _] _]|done]]. apply andb_prop in Hc as [Hd Hc].
    eapply h_conseq; [apply (h_prove [cx_smmu] V)| |by intros [] s []|by intros s H]. intros s [[H _] Hf]. split; [done|]. unfold hist_backed. cbn [backed].
    rewrite (sv_domain _ values gem s H Hv), Hd, (sv_clocks _ values gem s H Hv), Hc by reflexivity. cbn [andb]. unfold ahb_on. destruct H as [[_ _ Hr] _]. specialize (Hr freq Hf).
    unfold freq_read in Hr. rewrite Hr. apply orb_true_r.
Qed.

Lemma h_gate_smmu : hoare (st [cx_smmu] V)
  (gate_smmu g values gem)
  (fun _ => st [] V) (st [cx_smmu] V).
Proof.
  unfold gate_smmu. apply h_proven. intros misc. apply h_proven. intros gmu. cbn zeta. destruct (_ && _) eqn:Hc; [|eapply h_pre; [apply (h_withdraw [] V)|by intros s [[H _] _]|done]].
  apply andb_prop in Hc as [[Hd Ha]%andb_prop Hc]. eapply h_conseq; [apply (h_prove [] V)| |by intros [] s []|by intros s H]. intros s [[H Hm] _]. split; [done|]. unfold hist_backed. cbn [backed].
  rewrite (sv_domain _ values gem s H Hv), Hd, (sv_clocks _ values gem s H Hv), Hc by reflexivity. cbn [andb]. apply orb_prop in Ha as [Ha|[Ha _]%andb_prop].
  - unfold ahb_on. rewrite (sv_clocks _ values gem s H Hv) by reflexivity. cbn [forallb]. by rewrite Ha.
  - pose proof (proven_backed _ _ cx_misc s H (proj1 Hm Ha)) as Hb. unfold hist_backed in Hb. cbn [backed] in Hb. assert (Hn : cx_misc ∉ [cx_smmu]) by (by intros [|[]%elem_of_nil]%elem_of_cons).
    apply Hb in Hn. by apply andb_prop in Hn as [_ ?].
Qed.

Lemma h_evaluate : hoare (st [cx_fuse; cx_gmu; cx_misc; cx_smmu] V) (evaluate_gates g values gem) (fun _ => st [] V) (st GATES1 V).
Proof.
  assert (HX : forall D, D ⊆ GATES1 -> forall s, st D V s -> st GATES1 V s) by (intros D HD s H; by apply (st_weaken D)). unfold evaluate_gates.
  hseq ltac:(eapply h_pre; [apply (h_prove_fuse [cx_gmu; cx_misc; cx_smmu]); [gates|intros s H; by apply (sv_domain _ values gem s H Hv)]|done|apply HX; gates]).
  hseq ltac:(eapply h_pre; [apply h_gate_gmu|done|apply HX; gates]). hseq ltac:(eapply h_pre; [apply h_gate_misc|done|apply HX; gates]).
  eapply h_pre; [apply h_gate_smmu|done|apply HX; gates].
Qed.
End evaluate.

Lemma st_nil D vs s : st D vs s -> st D [] s.
Proof. intros H. apply (st_sub _ vs); [done|apply list_subseteq_nil]. Qed.

(** The values read stay the newest. *)
Lemma h_step_gpucc_values after : hoare (st GATES1 []) (step_gpucc after) (fun values s => exists gem, st [] (surveyed values gem) s /\ values.*1 = GPUCC_SURVEY) (st GATES1 []).
Proof.
  unfold step_gpucc. eapply (h_bind _ _ (fun _ => st GATES1 [])); [destruct after; [by apply h_ret'|apply h_step]|]. intros []. eapply h_bind; [apply h_rd_all; regs|]. intros values. apply h_fact. intros Hv.
  set (V0 := once_each values ++ []). apply (h_pre (st GATES1 V0) _ _ _ (st GATES1 V0)); [|done|intros s; apply st_nil].
  eapply h_bind; [apply h_rd0; [regs|]|]. { unfold V0. rewrite fmap_app, once_each_names, Hv. regs. }
  intros gem. apply h_fst. fold (surveyed values gem). change (("GCC_GPU_GEMNOC_GFX_CBCR", [gem]) :: V0) with (surveyed values gem). cbn zeta.
  assert (HX : forall s, st GATES1 (surveyed values gem) s -> st GATES1 V0 s) by (intros s; apply st_tail).
  eapply (h_bind _ _ (fun _ => st GATES1 (surveyed values gem))).
  { apply (h_pre (st GATES1 (surveyed values gem)) _ _ _ (st GATES1 (surveyed values gem))); [|done|apply HX]. destruct after; [by apply h_ret'|]. hseq ltac:(note). apply h_order. }
  intros []. hseq ltac:(eapply h_pre; [apply (h_prove_critical [cx_fuse; cx_gmu; cx_misc; cx_smmu]); intros s H; by apply (sv_critical _ values gem s H Hv)|done|apply HX]).
  hseq ltac:(eapply h_pre; [by apply h_evaluate|done|apply HX]). apply h_ret'. intros s H. by exists gem.
Qed.
Lemma h_step_gpucc after : hoare (st GATES1 []) (step_gpucc after) (fun _ => st [] []) (st GATES1 []).
Proof. eapply h_conseq; [apply h_step_gpucc_values|done| |done]. intros values s (gem & H & _). by eapply st_nil. Qed.

Lemma h_step_freq_limit_values D V : cx_fuse ∉ D -> touch_ok D "CX_MISC_SW_FUSE_FREQ_LIMIT_STATUS" = true -> keeps "CX_MISC_SW_FUSE_FREQ_LIMIT_STATUS" V.*1 = true ->
  hoare (st D V) step_freq_limit (fun _ => st D V) (st D V).
Proof.
  intros Hf Ht Hk. unfold step_freq_limit. hseq ltac:(apply h_step). apply h_proven. intros b. apply h_fst. destruct (negb b); [note|].
  eapply h_bind; [by apply h_rd|]. intros raw. cbn beta. unfold note_value. cbn [Z.eqb]. set (a := addr_of _).
  apply (h_pre (fun s => st D V s /\ read_ok a (ss_tgt s)) _ _ _ (st D V)); [|intros s (H & Hr & _); split; [by eapply st_tail|by apply Hr]|done].
  hseq ltac:(eapply h_stable; [apply read_ok_steps|note]). hseq ltac:(eapply h_stable; [apply read_ok_steps|apply h_order]).
  apply h_modify. intros s [[[H1 H3 H4] HF] Hr]. split; [|done]. split; [|done]. split; [by destruct H1; split|done|]. intros v _. exact Hr.
Qed.
Lemma h_step_freq_limit D : cx_fuse ∉ D -> touch_ok D "CX_MISC_SW_FUSE_FREQ_LIMIT_STATUS" = true -> hoare (st D []) step_freq_limit (fun _ => st D []) (st D []).
Proof. intros Hf Ht. apply h_step_freq_limit_values; [done|done|]. reflexivity. Qed.

Lemma h_read D name i : touch_ok D name = true -> hoare (st D []) (rd name i) (fun _ => st D []) (st D []).
Proof. intros Ht. apply h_rdi; [done|]. unfold keeps. by destruct (reg_named name). Qed.
Lemma h_set D name v : (flag = true -> writes = true) -> touch_ok D name = true -> hoare (st D []) (wr name v 0) (fun _ => st D []) (st D []).
Proof. intros Hfw Ht. apply h_wr0; [done|done|]. unfold keeps. by destruct (reg_named name). Qed.
Lemma h_bits D name mask b : (flag = true -> writes = true) -> touch_ok D name = true -> Z.land (Z.land b mask) 0xFFFFFFFF = Z.land b mask -> hoare (st D []) (update name mask b) (fun _ => st D []) (st D []).
Proof.
  intros Hfw Ht Hb. eapply h_conseq; [apply (h_update D [] name mask b); [done|done| |done]|done|intros v s (old & H & _); by eapply st_tail|done]. unfold keeps. by destruct (reg_named name).
Qed.
Lemma h_wait D name mask want kind : touch_ok D name = true -> hoare (st D []) (poll name mask want kind) (fun _ => st D []) (st D []).
Proof. intros Ht. eapply h_conseq; [apply (h_poll D [] name); [done|]|done|intros v s; apply st_tail|done]. unfold keeps. by destruct (reg_named name). Qed.

Lemma h_step_identify required : hoare (st [] []) (step_identify required) (fun _ => st [] []) (st [] []).
Proof.
  unfold step_identify. hseq ltac:(apply h_step). apply h_proven. intros misc. apply h_fst. eapply (h_bind _ _ (fun _ => st [] [])).
  { destruct misc; [|by apply h_ret']. hseq ltac:(apply h_read; regs). hseq ltac:(apply h_read; regs). apply h_order. }
  intros []. apply h_proven. intros smmu. apply h_fst. eapply (h_bind _ _ (fun _ => st [] [])).
  { destruct smmu; [|by apply h_ret']. do 5 (hseq ltac:(apply h_read; regs)). hseq ltac:(apply h_each; intros n _; hseq ltac:(apply h_read; regs); hseq ltac:(apply h_read; regs); by apply h_ret'). apply h_order. }
  intros []. destruct (_ && _); [apply h_raise|by apply h_ret'].
Qed.

Lemma h_widen {A} D D' (m : M GS A) Q : hoare (st D []) m Q (st D []) -> D ⊆ D' -> hoare (st D []) m Q (st D' []).
Proof. intros H HD. eapply h_pre; [exact H|done|]. intros s Hs. by apply (st_weaken D). Qed.

Lemma h_survey last : hoare (st [] []) (survey last) (fun _ _ => True) (st GATES0 []).
Proof.
  assert (H0 : hoare (st [] []) step_cmd_db (fun _ => st [] []) (st GATES0 [])) by (apply h_widen; [apply h_step_cmd_db|gates]).
  assert (H1 : hoare (st [] []) step_gic (fun _ => st [] []) (st GATES0 [])) by (apply h_widen; [apply h_step_gic; regs|gates]).
  assert (H2 : hoare (st [] []) (step_gcc ;;; py_ret tt) (fun _ => st GATES1 []) (st GATES0 [])).
  { hseq ltac:(eapply h_pre; [apply h_step_gcc|intros s H; apply (st_weaken []); [done|gates]|done]). by apply h_ret'. }
  assert (H3 : hoare (st GATES1 []) (step_gpucc false ;;; py_ret tt) (fun _ => st [] []) (st GATES0 [])).
  { hseq ltac:(eapply h_pre; [apply h_step_gpucc|done|intros s H; apply (st_weaken GATES1); [done|gates]]). by apply h_ret'. }
  assert (H4 : hoare (st [] []) step_freq_limit (fun _ => st [] []) (st GATES0 [])) by (apply h_widen; [apply h_step_freq_limit; [by intros ?%elem_of_nil|regs]|gates]).
  assert (H5 : hoare (st [] []) (step_identify false) (fun _ => st [] []) (st GATES0 [])) by (apply h_widen; [apply h_step_identify|gates]).
  assert (Hend : forall P : GS -> Prop, hoare P (each (fun m => m) []) (fun _ _ => True) (st GATES0 [])) by (intros P; by apply h_ret').
  unfold survey. destruct last as [|[|[|[|[|last]]]]]; cbn [take each]; repeat (eapply h_bind; [eassumption|intros ?; cbn beta]); try apply Hend. rewrite take_nil. apply Hend.
Qed.

(** ** CX power-on *)

Section cx_on.
  Context (Hfw : flag = true -> writes = true).

Lemma h_branch_on D name : touch_ok D name = true -> hoare (st D []) (branch_on name) (fun _ => st D []) (st D []).
Proof.
  intros Ht. unfold branch_on. eapply h_bind; [apply h_lift|]. intros r. apply h_fst. hseq ltac:(by apply (h_bits _ _ _ _ Hfw)). repeat case_decide; [apply h_udelay|by apply h_ret'|].
  destruct (_ && _); [by apply h_ret'|]. hseq ltac:(by apply h_wait). by apply h_ret'.
Qed.

Lemma h_park_rcg D cmd cfg : touch_ok D cmd = true -> touch_ok D cfg = true -> hoare (st D []) (park_rcg cmd cfg) (fun _ => st D []) (st D []).
Proof.
  intros Hc Hg. unfold park_rcg. hseq ltac:(by apply h_read). destruct (is_xo _); [by apply h_ret'|]. hseq ltac:(by apply (h_bits _ _ _ _ Hfw)).
  hseq ltac:(apply (h_reraise _ _ _ _ (fun _ => st D []))); [| |].
  - hseq ltac:(by apply h_wait). hseq ltac:(by apply (h_set _ _ _ Hfw)). hseq ltac:(by apply (h_bits _ _ _ _ Hfw)). by apply h_wait.
  - eapply h_catch; [hseq ltac:(by apply (h_bits _ _ _ _ Hfw)); by apply h_ret'|by apply h_ret'|done].
  - hseq ltac:(by apply (h_bits _ _ _ _ Hfw)). by apply h_ret'.
Qed.

Lemma h_gpll0_wait D name : touch_ok D name = true -> hoare (st D []) (gpll0_wait name) (fun _ => st D []) (st D []).
Proof. intros Ht. unfold gpll0_wait. hseq ltac:(by apply h_read). destruct (bits _ _); [by apply h_ret'|]. hseq ltac:(by apply h_wait). by apply h_ret'. Qed.

Lemma h_away D g : hoare (st D []) (withdraw g) (fun _ => st D []) (st D []).
Proof. eapply h_pre; [apply (h_withdraw D [] g (st D []))|intros s H; apply (st_weaken D); [done|by apply list_subseteq_skip_r || (intros x; apply list_elem_of_further)]|done]. Qed.

Lemma h_cx_votes : hoare (st [] []) cx_votes (fun _ => st [] []) (st [] []).
Proof.
  unfold cx_votes. hseq ltac:(apply h_step). hseq ltac:(apply h_each; intros g _; apply h_away). hseq ltac:(apply (h_bits _ _ _ _ Hfw); regs).
  hseq ltac:(apply h_each; intros n Hn; apply h_gpll0_wait; repeat (apply elem_of_cons in Hn as [->|Hn]; [regs|]); by apply elem_of_nil in Hn). apply h_order.
Qed.

(** From here on the critical branches and the fuse are stale until read again. *)
Lemma h_cx_critical : hoare (st [gpucc_critical; cx_fuse] []) cx_critical (fun _ => st [cx_fuse] []) (st [gpucc_critical; cx_fuse] []).
Proof.
  unfold cx_critical. set (D := [gpucc_critical; cx_fuse]). hseq ltac:(apply h_step).
  hseq ltac:(apply h_each; intros n Hn; apply h_branch_on; repeat (apply elem_of_cons in Hn as [->|Hn]; [regs|]); by apply elem_of_nil in Hn). hseq ltac:(apply h_order).
  eapply h_bind; [apply h_rd_all; regs|]. intros values. apply h_fact. intros Hv. set (V := once_each values ++ []).
  apply (h_pre (st D V) _ _ _ (st D V)); [|done|intros s; apply st_nil].
  hseq ltac:(apply (h_prove_critical [cx_fuse]); intros s H; cbn [CRITICAL_CBCRS forallb]; by rewrite !(shows_survey D CRITICAL_CBCRS values [] _ _ s H Hv) by reflexivity).
  apply h_proven. intros b. apply (h_pre (st [cx_fuse] V) _ _ _ (st [cx_fuse] V)); [|by intros s []|intros s H; apply (st_weaken [cx_fuse]); [done|gates]].
  destruct (negb b); [apply h_raise|]. apply h_ret'. intros s. apply st_nil.
Qed.

(** Setting the retention bit leaves the hardware-control bit. *)
Lemma retain_keeps_control old new : new = Z.lor (Z.land old (Z.lnot GDSC_RETAIN_FF)) (Z.land GDSC_RETAIN_FF GDSC_RETAIN_FF) -> bits new GDSC_HW_CONTROL = bits old GDSC_HW_CONTROL.
Proof.
  intros ->. unfold bits. do 2 f_equal. rewrite Z.land_lor_distr_l, <- Z.land_assoc. change (Z.land (Z.lnot GDSC_RETAIN_FF) GDSC_HW_CONTROL) with GDSC_HW_CONTROL.
  change (Z.land (Z.land GDSC_RETAIN_FF GDSC_RETAIN_FF) GDSC_HW_CONTROL) with 0. apply Z.lor_0_r.
Qed.

Definition GATES4 : list gate := [cx_gmu; cx_misc; cx_smmu].
Lemma h_cx_gdsc : hoare (st (cx_fuse :: GATES4) []) cx_gdsc (fun _ => st GATES4 []) (st (cx_fuse :: GATES4) []).
Proof.
  unfold cx_gdsc. set (D := cx_fuse :: GATES4). hseq ltac:(apply h_step). hseq ltac:(apply (h_bits _ _ _ _ Hfw); regs). hseq ltac:(apply (h_bits _ _ _ _ Hfw); regs). hseq ltac:(apply h_udelay). hseq ltac:(apply h_wait; regs). hseq ltac:(apply h_udelay).
  eapply h_bind; [apply (h_update _ _ _ _ _ Hfw); regs|]. intros gdscr. cbn beta. apply h_ex. intros old. apply h_fact. intros Hold.
  set (V0 := [("GPU_CC_CX_GDSCR", if gdscr =? old then [gdscr] else [gdscr; old])]).
  assert (HX : forall D' vs, D' ⊆ D -> forall s, st D' vs s -> st D [] s) by (intros D' vs HD s H; apply (st_weaken D'); [by eapply st_nil|done]).
  hseq ltac:(eapply h_pre; [apply (h_order D V0)|done|apply HX; gates]). eapply h_bind; [eapply h_pre; [apply (h_rd0 D V0); regs|done|apply HX; gates]|]. intros cfg. apply h_fst. set (V := ("GPU_CC_CX_CFG_GDSCR", [cfg]) :: V0).
  assert (Hdom : forall s, st D V s -> domain_on (ev_word (ss_tgt s)) (ev_log (ss_tgt s)) = domain_ok (gdsc_state gdscr cfg)).
  { intros s H. unfold domain_on, domain_ok. rewrite (shows_read D V _ cfg _ s H) by (unfold V, V0; in_list). f_equal.
    rewrite (shows_all D V _ (if gdscr =? old then [gdscr] else [gdscr; old]) _ s H) by (unfold V, V0; in_list).
    change (gd_hw_control (gdsc_state gdscr cfg)) with (bits gdscr GDSC_HW_CONTROL).
    pose proof (retain_keeps_control old gdscr Hold) as Hc. destruct (gdscr =? old); cbn [forallb]; rewrite <- ?Hc; by destruct (bits gdscr GDSC_HW_CONTROL). }
  hseq ltac:(eapply h_pre; [apply (h_prove_fuse GATES4 V (gdsc_state gdscr cfg)); [gates|exact Hdom]|done|apply HX; gates]).
  apply h_proven. intros b. apply h_fst. destruct (negb b); [eapply h_pre; [apply h_raise|intros s H; exact H|apply HX; gates]|].
  eapply h_pre; [apply (h_step_freq_limit GATES4); [gates|regs]|intros s; apply st_nil|apply HX; gates].
Qed.

Lemma h_cx_on take : hoare (st [] []) (cx_on take) (fun _ _ => True) (st GATES0 []).
Proof.
  assert (W : forall A D D' (m : M GS A) Q, hoare (st D []) m Q (st D []) -> D ⊆ GATES0 -> D' ⊆ D -> hoare (st D' []) m Q (st GATES0 [])).
  { intros A D D' m Q H H1 H2. eapply h_pre; [by apply (h_widen D GATES0)|intros s Hs; by apply (st_weaken D')|done]. }
  assert (Hbr : forall names, forallb (touch_ok GATES4) names = true -> hoare (st GATES4 []) (each branch_on names) (fun _ => st GATES4 []) (st GATES4 [])).
  { intros names H. apply h_each. intros n Hn. apply h_branch_on. rewrite forallb_forall in H. by apply H, list_elem_of_In. }
  unfold cx_on. hseq ltac:(eapply W; [apply (h_step_cmd_db [])|gates..]). hseq ltac:(eapply W; [apply (h_step_gic []); regs|gates..]). hseq ltac:(eapply W; [apply h_step_gcc|gates..]).
  hseq ltac:(eapply W; [apply h_step_gpucc|gates..]). apply h_get. intros gdscr. apply h_fst. destruct (_ && _); [eapply W; [apply (h_raise (st [] []))|gates..]|].
  hseq ltac:(eapply W; [apply h_cx_votes|gates..]). hseq ltac:(eapply W; [apply h_cx_critical|gates..]). hseq ltac:(eapply W; [apply (h_step [cx_fuse])|gates..]).
  hseq ltac:(eapply W; [apply (h_withdraw [] [] cx_fuse (st [cx_fuse] []))|gates..]).
  hseq ltac:(eapply W; [apply (h_each (st [] [])); intros [cmd cfg] Hn; apply h_park_rcg; repeat (apply elem_of_cons in Hn as [[= -> ->]|Hn]; [regs|]); by apply elem_of_nil in Hn|gates..]).
  hseq ltac:(eapply W; [apply (h_order [])|gates..]). hseq ltac:(eapply W; [apply h_cx_gdsc|gates..]).
  hseq ltac:(eapply W; [apply (h_step GATES4)|gates..]). hseq ltac:(eapply W; [apply Hbr; regs|gates..]). hseq ltac:(eapply W; [apply (h_order GATES4)|gates..]).
  hseq ltac:(eapply W; [apply (h_step GATES4)|gates..]). hseq ltac:(eapply W; [apply Hbr; regs|gates..]). hseq ltac:(eapply W; [apply (h_order GATES4)|gates..]).
  hseq ltac:(eapply W; [apply (h_step_gpucc true)|gates..]). apply (h_conseq (st [] []) _ _ (fun _ => st [] []) _ (st GATES0 [])); [eapply W; [apply (h_step_identify true)|gates..]|done|done|done].
Qed.

End cx_on.

(** ** One run *)

(** A session in which no gate is proven. *)
Lemma session_new_st t guarded : ev_data t = data -> st [] [] (session_new t stage3 flag guarded).
Proof.
  intros Hd. split; [|constructor]. split; [split; try done; by left| |done]. intros g e. cbn [session_new ss_proven]. unfold blank_proven. case_decide as Hg; [|done]. subst g. by right.
Qed.

Lemma quiet_catch {A} P (m : M env A) p h Q : quiet P m Q -> quiet any h Q -> quiet P (py_catch m p h) Q.
Proof.
  intros Hm Hh e r e' HP E. unfold py_catch in E. destruct (m e) as [[a|x] e1] eqn:E1; destruct (Hm _ _ _ HP E1) as (S1 & K1 & A1 & Q1); [by injection E as <- <-|].
  destruct (p x); [|injection E as <- <-; by split_and!]. destruct (Hh _ _ _ I E) as (S2 & K2 & A2 & Q2). split; [by eapply steps_trans|]. split; [intros b; by rewrite K2, K1|]. split; [intros b; by rewrite A2, A1|done].
Qed.
Lemma quiet_remote {A} P (m : M env A) h Q : quiet P m Q -> (forall z, quiet any (h z) Q) -> quiet P (on_remote m h) Q.
Proof.
  intros Hm Hh e r e' HP E. unfold on_remote in E. destruct (m e) as [[a|x] e1] eqn:E1; destruct (Hm _ _ _ HP E1) as (S1 & K1 & A1 & Q1); [by injection E as <- <-|].
  destruct x; try (injection E as <- <-; by split_and!). destruct (Hh _ _ _ _ I E) as (S2 & K2 & A2 & Q2). split; [by eapply steps_trans|]. split; [intros b; by rewrite K2, K1|]. split; [intros b; by rewrite A2, A1|done].
Qed.

Lemma quiet_strict b P : quiet P (serror_strict (S := env) b) (fun _ => any).
Proof. eapply quiet_weaken; [apply (quiet_request P_Q1N1_SERROR); in_list|by intros|done]. Qed.

Lemma quiet_disarm p status : quiet (at_pointer (rget p "address")) (disarm (Some p) status) (fun _ => any).
Proof.
  apply quiet_catch; [|apply quiet_ret; by intros]. eapply (quiet_bind _ _ _ (fun _ => any)).
  - destruct (status =? 0); [|apply quiet_ret; by intros]. apply quiet_remote; [|intros z; apply quiet_ret; by intros].
    eapply quiet_bind; [apply quiet_ask; [done|by intros e He]|]. intros v. apply quiet_ret. by intros.
  - intros []. eapply quiet_bind; [apply quiet_serror_state|]. intros after. eapply (quiet_bind _ _ _ (fun _ => any)); [apply quiet_catch; [apply quiet_strict|apply quiet_ret; by intros]|]. intros []. apply quiet_ret. by intros.
Qed.

Lemma disarm_steps previous status t r t' : (forall p, previous = Some p -> at_pointer (rget p "address") t) -> disarm previous status t = (r, t') -> steps t t'.
Proof. intros Hp. destruct previous as [p|]; [|intros [= <- <-]; apply steps_refl]. intros E. by destruct (quiet_disarm p status _ _ _ (Hp p eq_refl) E). Qed.

Lemma run_session_steps body previous t r t' : ev_data t = data -> hoare (st [] []) body (fun _ _ => True) (st GATES0 []) -> (forall p, previous = Some p -> at_pointer (rget p "address") t) ->
  run_session stage3 flag previous body t = (r, t') -> steps t t'.
Proof.
  intros Hdt Hb Hp. unfold run_session. destruct (body _) as [r1 s] eqn:E1. destruct (Hb _ _ _ (session_new_st t _ Hdt) E1) as [S1 _]. cbn [session_new ss_tgt] in S1.
  destruct (disarm _ _ (ss_tgt s)) as [r2 t2] eqn:E2. assert (S2 : steps (ss_tgt s) t2).
  { apply (disarm_steps _ _ _ _ _ (fun p E => at_pointer_steps _ _ _ (Hp p E) S1) E2). }
  intros E. assert (t' = t2) as ->; [|by eapply steps_trans]. destruct r2; [|by injection E]. destruct r1 as [|e]; [by injection E|]. by destruct (exit_status e); injection E.
Qed.

Lemma quiet_arm allow arm : quiet any (arm_guard allow arm) (fun r e => forall p, r = Some p -> at_pointer (rget p "address") e).
Proof.
  intros e r e' _ E. unfold arm_guard in E.
  assert (H : quiet any (on_remote (let! st := serror_state in py_ret (Some st))
    (fun _ => if allow then py_ret None else py_raise (GuardMissing "the running q1n1 has no SError guard"))) (fun r e => forall p, r = Some p -> at_pointer (rget p "address") e)).
  { apply quiet_remote; [|intros z; destruct allow; [by apply quiet_ret|apply quiet_raise]]. eapply quiet_bind; [apply quiet_serror_state|]. intros st. apply quiet_ret. by intros e0 He p [= <-]. }
  revert e r e' E. enough (Hq : quiet any (arm_guard allow arm) (fun r e => forall p, r = Some p -> at_pointer (rget p "address") e)) by (intros e r e' E; by apply (Hq e r e')).
  unfold arm_guard. eapply quiet_bind; [exact H|]. intros [st|]; [|by apply quiet_ret]. destruct (_ && _); [apply quiet_raise|].
  intros e r e' He E. assert (Hp : at_pointer (rget st "address") e) by (by apply He).
  assert (Hs : quiet any ((if arm then serror_reset ;;; serror_strict true else py_ret tt) ;;; py_ret (Some st)) (fun r _ => r = Some st)).
  { eapply (quiet_bind _ _ _ (fun _ => any)); [|intros []; apply quiet_ret; by intros]. destruct arm; [|apply quiet_ret; by intros].
    eapply (quiet_bind _ _ _ (fun _ => any)); [apply (quiet_request P_Q1N1_SERROR); in_list|]. intros []. apply quiet_strict. }
  destruct (Hs e r e' I E) as (S1 & K1 & A1 & Q1). split_and!; try done. intros v Hv p Hvp. rewrite (Q1 v Hv) in Hvp. injection Hvp as <-. by apply (at_pointer_steps _ e).
Qed.
End allowed.

(** The commands that may write when they are allowed to: main allows it for cx-on only,
    and the survey writes nothing even if it is allowed. *)
Definition cmd_writes (cmd : command) (allow_writes : bool) : bool := match cmd with CmdCxOn _ => allow_writes | _ => false end.

(** C16: Whatever the target answers, a run of a16gpu.py touches a register only when the
    registry names it, outside the GX domain and in the direction it may be touched, and
    when its gate is open: for every status register of the gate the newest value that was
    read (and any value written since) shows the reset released, the clocks running and
    the CX domain powered and not under hardware control, or, for the bus clock, the fuse
    register was read without an error.  Only cx-on writes, and only when writes were
    allowed.  The run never writes memory and never calls code on the target; it reads the
    records whose addresses the target gave out (at most 4096 bytes), the memory map where
    the boot information places it, which does not start in an MMIO block, and the command
    database at its fixed place; and it sends no other request than boot arguments, the
    SError record, the exception count and delays. *)
Theorem stage1_safe cmd allow_writes allow_unguarded e : steps (allowed (ev_data e) (cmd_writes cmd allow_writes)) e (snd (run cmd allow_writes allow_unguarded e)).
Proof.
  destruct (run _ _ _ e) as [r e'] eqn:E. cbn [snd]. revert E. unfold run. set (W := cmd_writes cmd allow_writes).
  destruct (arm_guard _ _ e) as [[previous|x] t1] eqn:E1; destruct (quiet_arm (ev_data e) W _ _ _ _ _ I E1) as (S1 & _ & _ & Q1).
  - specialize (Q1 previous eq_refl). assert (Hd : ev_data t1 = ev_data e) by apply S1. destruct cmd as [|last|take]; [by intros [= <- <-]|..]; unfold py_bind; destruct (run_session _ _ _ _ t1) as [r2 t2] eqn:E2;
      (assert (S2 : steps (allowed (ev_data e) W) t1 t2) by (eapply run_session_steps; [exact Hd| | |exact E2]; [apply h_survey || by apply h_cx_on|done]));
      intros E; (assert (e' = t2) as -> by (destruct r2; by injection E)); by eapply steps_trans.
  - intros E. assert (e' = t1) as -> by (destruct (exit_status x); by injection E). done.
Qed.

(** ** A run that completes *)

(** A target whose registers hold what was last written to them, and [reset] before. *)
Definition plant_word (reset : Z -> Z) (h : list action) : result Z :=
  match h with
  | ARead32 a :: rest => Ok (default (reset a) (known (fun _ => Ok 0) (List.filter (fun x => match x with AWrite32 _ _ => true | _ => false end) rest) a))
  | ARequest op _ :: _ => Ok (if op =? P_GET_BOOTARGS then 0x90000000 else if op =? P_Q1N1_SERROR then 0x91000000 else 0)
  | _ => Ok 0
  end.
Definition plant_fields (names : list string) (vals : list (string * Z)) : bytes := flat_map (fun n => le_bytes 8 (rget vals n)) names.
Definition plant_data (h : list action) : result bytes :=
  match h with
  | AReadMem a n _ :: _ =>
      Ok (if a =? 0x90000000 then plant_fields BOOTINFO_FIELDS [("magic", MAGIC); ("version", 1); ("size", 8 * zlen BOOTINFO_FIELDS); ("memory_map", 0x92000000); ("memory_map_size", 0); ("memory_map_stride", 48)]
          else if a =? 0x91000000 then plant_fields SERROR_FIELDS [("magic", SERROR_MAGIC); ("mechanism", 1)] else [])
  | _ => Raise ProxyTimeout
  end.
(** The firmware left GPLL0 and the configuration bus on, and the CX domain collapsed
    but its status reading up. *)
Definition plant : env := Env [] (plant_word (fun a => if a =? addr_of "GPU_CC_CX_CFG_GDSCR" then CFG_POWER_UP_COMPLETE else 0)) plant_data.

Definition touched (x : action) (r : result (Z * option (session env)) * env) : bool := existsb (fun y => match x, y with ARead32 a, ARead32 b => a =? b | AWrite32 a v, AWrite32 b w => (a =? b) && (v =? w) | _, _ => false end) (ev_log (snd r)).

(** On such a target cx-on finishes with status 0, having read the fuse and the slice
    mask behind their gates and written the CX GDSC. *)
Example plant_cx_on : let r := run (CmdCxOn false) true false plant in
  match fst r with Ok (status, Some _) => status =? 0 | _ => false end = true /\ touched (ARead32 (addr_of "CX_MISC_SW_FUSE_FREQ_LIMIT_STATUS")) r = true /\ touched (ARead32 (addr_of "CX_MISC_SLICE_ENABLE_FINAL")) r = true /\
  touched (AWrite32 (addr_of "GPU_CC_CX_GDSCR") (Z.lor CX_GDSC_WAITS GDSC_RETAIN_FF)) r = true.
Proof. cbv zeta. split_and!; vm_compute; reflexivity. Qed.
