(* ===== verification/GpuFw.v ===== *)
(** * GPU firmware and power tables

    The pure parts of src/tools/a16gpu_stage3.py: the pinned firmware files, the blocks
    of the GMU firmware and where they go (load_firmware, parse_gmu_fw, plan_gmu_fw),
    the votes and tables of the HFI messages (arc_vote, dep_vote, opp_levels,
    rail_refusal, rail_safe_opps, perf_table, perf_vote, bw_votes, bw_table), and the
    layout of the HFI queues (hfi_table_image, hfi_header, and the ring arithmetic of
    hfi_send). *)

From Stdlib Require Import ZArith Lia.
From Stdlib Require Import Strings.Byte.
From stdpp Require Import base list sorting numbers strings.
From S2P Require Import Prelude Bytes Transport Q1n1Link Sha256 Target Preload GpuRegs GpuSession GpuTables.

Local Open Scope string_scope.
Local Open Scope list_scope.
Local Open Scope Z_scope.
Local Open Scope py_scope.

(** ** Firmware files *)

(** [files] is the firmware directory: the content of a file, or none. *)
Definition load_one (files : string -> option bytes) (entry : string * (string * Z * string)) : result (string * bytes) :=
  let '(key, (name, size, sha)) := entry in
  match files name with
  | None => Raise (Stop "firmware file missing")
  | Some data =>
      if negb (zlen data =? size) || negb (bytes_eqb (digest data) (String.list_byte_of_string sha))
      then Raise (Stop "firmware file is not the pinned one") else Ok (key, data)
  end.
Fixpoint load_all (files : string -> option bytes) (entries : list (string * (string * Z * string))) : result (list (string * bytes)) :=
  match entries with
  | [] => Ok []
  | e :: rest => let? x := load_one files e in let? xs := load_all files rest in Ok (x :: xs)
  end.
Definition load_firmware (files : string -> option bytes) : result (list (string * bytes)) := load_all files FIRMWARE.
Definition fw_get (fw : list (string * bytes)) (key : string) : bytes := default [] (snd <$> List.find (fun e => String.eqb (fst e) key) fw).

(** u32(data, index). *)
Definition u32 (data : bytes) (index : Z) : result Z := unpack_u 4 (Z.to_nat (4 * index)) data.

Record fw_block := FwBlock { fb_addr : Z; fb_size : Z; fb_type : Z; fb_value : Z; fb_data : bytes }.

(** [while offset + 16 <= len(data)]; [fuel] bounds the blocks, of 16 bytes or more. *)
Fixpoint parse_blocks (fuel : nat) (data : bytes) (offset : nat) : result (list fw_block) :=
  match fuel with
  | O => Raise AssertionError
  | Datatypes.S k =>
      if zlen data <? Z.of_nat offset + 16 then
        if Z.of_nat offset =? zlen data then Ok [] else Raise (Stop "GMU firmware has trailing bytes")
      else
        let? addr := unpack_u 4 offset data in
        let? size := unpack_u 4 (offset + 4) data in
        let? kind := unpack_u 4 (offset + 8) data in
        let? value := unpack_u 4 (offset + 12) data in
        if zlen data <? Z.of_nat offset + 16 + size then Raise (Stop "GMU firmware block runs past the end") else
        let next := (offset + 16 + Z.to_nat size)%nat in
        let? rest := parse_blocks k data next in
        Ok (FwBlock addr size kind value (slice (offset + 16) next data) :: rest)
  end.
Definition parse_gmu_fw (data : bytes) : result (list fw_block) := parse_blocks (Datatypes.S (length data)) data 0.

Record fw_plan := FwPlan {
  pl_itcm : list (Z * bytes);
  pl_dtcm : list (Z * bytes);
  pl_memory : list (string * Z * bytes);
  pl_prealloc : list (Z * Z);
  pl_version : option Z
}.
(** The GMU buffers a block may fall into: (name, va, size). *)
Definition fw_buffers : list (string * Z * Z) :=
  map (fun m : mapping => (m.1.1.1.1, mp_va m, mp_size m))
    (List.filter (fun m : mapping => existsb (String.eqb m.1.1.1.1) ["icache"; "dummy"; "debug"]) (gmu_mappings 0)).

Definition plan_block (p : fw_plan) (b : fw_block) : result fw_plan :=
  let addr := fb_addr b in
  if fb_size b =? 0 then
    Ok (if fb_type b =? 7 then FwPlan (pl_itcm p) (pl_dtcm p) (pl_memory p) (pl_prealloc p ++ [(addr, fb_value b)]) (pl_version p) else p)
  else if negb (fb_size b mod 4 =? 0) then Raise (Stop "GMU block is not a whole number of words")
  else if (GMU_ITCM_BASE <=? addr) && (addr <? GMU_ITCM_BASE + GMU_TCM_SIZE) then
    if GMU_ITCM_BASE + GMU_TCM_SIZE <? addr + fb_size b then Raise (Stop "ITCM block overflows 16 KiB") else
    Ok (FwPlan (pl_itcm p ++ [((addr - GMU_ITCM_BASE) / 4, fb_data b)]) (pl_dtcm p) (pl_memory p) (pl_prealloc p) (pl_version p))
  else if (GMU_DTCM_BASE <=? addr) && (addr <? GMU_DTCM_BASE + GMU_TCM_SIZE) then
    if GMU_DTCM_BASE + GMU_TCM_SIZE <? addr + fb_size b then Raise (Stop "DTCM block overflows 16 KiB") else
    let word := (0xFF8 * 4 - (addr - GMU_DTCM_BASE)) / 4 in
    let? version := (if (0 <=? word) && (word <? fb_size b / 4) then let? v := u32 (fb_data b) word in Ok (Some v) else Ok (pl_version p)) in
    Ok (FwPlan (pl_itcm p) (pl_dtcm p ++ [((addr - GMU_DTCM_BASE) / 4, fb_data b)]) (pl_memory p) (pl_prealloc p) version)
  else
    match List.find (fun '(_, va, size) => (va <=? addr) && (addr + fb_size b <=? va + size)) fw_buffers with
    | Some (name, va, _) => Ok (FwPlan (pl_itcm p) (pl_dtcm p) (pl_memory p ++ [(name, addr - va, fb_data b)]) (pl_prealloc p) (pl_version p))
    | None => Raise (Stop "GMU block matches no buffer")
    end.
Fixpoint plan_blocks (p : fw_plan) (bs : list fw_block) : result fw_plan :=
  match bs with [] => Ok p | b :: rest => let? p' := plan_block p b in plan_blocks p' rest end.
Definition plan_gmu_fw (blocks : list fw_block) : result fw_plan :=
  let? p := plan_blocks (FwPlan [] [] [] [] None) blocks in
  if forallb (fun '(addr, length) => existsb (fun '(_, va, size) => (va <=? addr) && (addr + length <=? va + size)) fw_buffers) (pl_prealloc p)
  then Ok p else Raise (Stop "GMU prealloc request is outside the mapped buffers").

(** ** Votes and tables *)

(** The 16-bit levels of a cmd-db entry. *)
Fixpoint levels_of (aux : bytes) : list Z :=
  match aux with
  | a :: b :: rest => byte_to_Z a + 256 * byte_to_Z b :: levels_of rest
  | _ => []
  end.
Definition aux_levels (e : db_entry) : list Z := levels_of (de_aux e).
(** struct.unpack_from('<IHB', blob): unit, width and vcd. *)
Definition aux_bcm (e : db_entry) : result (Z * Z * Z) :=
  let? unit := unpack_u 4 0 (de_aux e) in
  let? width := unpack_u 2 4 (de_aux e) in
  let? vcd := unpack_u 1 6 (de_aux e) in
  Ok (unit, width, vcd).

(** The first index whose level reaches [level]. *)
Fixpoint first_at_least (level : Z) (l : list Z) (j : Z) : option Z :=
  match l with
  | [] => None
  | v :: rest => if level <=? v then Some j else first_at_least level rest (j + 1)
  end.
(** The secondary index: the first that reaches [level]; else the last non-zero one,
    and [false]. *)
Fixpoint secondary (level : Z) (l : list Z) (j found : Z) : Z * bool :=
  match l with
  | [] => (found, false)
  | v :: rest => if level <=? v then (j, true) else secondary level rest (j + 1) (if v =? 0 then found else j)
  end.
Definition arc_vote (pri sec : list Z) (level : Z) (strict : bool) : result Z :=
  match first_at_least level pri 0 with
  | None => Raise (Stop "RPMh level is not in the primary list")
  | Some pindex =>
      let '(sindex, reached) := secondary level sec 0 0 in
      if negb reached && strict && negb (level =? 0) then Raise (Stop "RPMh level is above every secondary level: refused, not under-voted") else
      match pri !! Z.to_nat pindex with
      | Some v => Ok (Z.lor (Z.lor (Z.shiftl (Z.land v 0xFFFF) 16) (Z.shiftl sindex 8)) pindex)
      | None => Raise IndexError
      end
  end.
Definition dep_vote (mx : list Z) (level : Z) : result Z :=
  match first_at_least level mx 0 with
  | None => Raise (Stop "MX level is not in the list")
  | Some index => Ok (Z.lor (Z.lor (Z.shiftl 0x3FFF 14) (Z.shiftl index 8)) 0xFF)
  end.

(** A GPU operating point: (Hz, level, bandwidth, supported-hw mask). *)
Definition opp_hz (o : Z * Z * Z * Z) : Z := o.1.1.1.
Definition opp_level (o : Z * Z * Z * Z) : Z := o.1.1.2.
Definition opp_bw (o : Z * Z * Z * Z) : Z := o.1.2.
(** [usable[:max_opps]]. *)
Definition py_take {A} (n : Z) (l : list A) : list A := if 0 <=? n then take (Z.to_nat n) l else take (length l - Z.to_nat (- n)) l.
Definition opp_levels (speed_bin max_opps : Z) : list (Z * Z * Z * Z) :=
  py_take max_opps (List.filter (fun o : Z * Z * Z * Z => Z.testbit o.2 speed_bin) GPU_OPPS).

Definition cmd_db := list (string * option db_entry).
(** cmd_db[key], when the entry is there. *)
Definition db_get (db : cmd_db) (key : string) : result db_entry :=
  match List.find (fun e => String.eqb (fst e) key) db with
  | Some (_, Some e) => Ok e
  | Some (_, None) => Raise (TypeError "NoneType")
  | None => Raise (KeyError key)
  end.
Definition db_has (db : cmd_db) (key : string) : bool := match db_get db key with Ok _ => true | Raise _ => false end.

(** rail_refusal: the rail that cannot carry [level], if any. *)
Fixpoint refusing (db : cmd_db) (level : Z) (keys : list string) : result (option string) :=
  match keys with
  | [] => Ok None
  | key :: rest =>
      let? e := db_get db key in
      if existsb (fun v => level <=? v) (aux_levels e) then refusing db level rest
      else match aux_levels e with [] => Raise (ValueError "max() arg is an empty sequence") | _ => Ok (Some key) end
  end.
Definition rail_refusal (db : cmd_db) (level : Z) : result (option string) :=
  refusing db level ["gfx.lvl"; if db_has db "gmxc.lvl" then "gmxc.lvl" else "mx.lvl"; "mx.lvl"].

Fixpoint safe_prefix (db : cmd_db) (opps : list (Z * Z * Z * Z)) : result (list (Z * Z * Z * Z) * option (Z * Z * Z * Z)) :=
  match opps with
  | [] => Ok ([], None)
  | o :: rest =>
      let? why := rail_refusal db (opp_level o) in
      match why with
      | Some _ => Ok ([], Some o)
      | None => let? x := safe_prefix db rest in Ok (o :: fst x, snd x)
      end
  end.
Definition rail_safe_opps (db : cmd_db) (speed_bin : Z) : result (list (Z * Z * Z * Z) * option (Z * Z * Z * Z)) :=
  safe_prefix db (opp_levels speed_bin (zlen GPU_OPPS)).

(** [for n, (hz, level) in enumerate(gpu)]: the three words of a GX entry. *)
Fixpoint gx_entries (gfx gmxc mx : list Z) (n : nat) (gpu : list (Z * Z)) : result (list Z) :=
  match gpu with
  | [] => Ok []
  | (hz, level) :: rest =>
      let? arc := (if negb (hz =? 0) then arc_vote gfx gmxc level true else arc_vote gfx gmxc 0 false) in
      let? dep := (match n with O => Ok 0xFFFFFFFF | _ => dep_vote mx level end) in
      let? more := gx_entries gfx gmxc mx (n + 1) rest in
      Ok (arc :: dep :: hz / 1000 :: more)
  end.
Fixpoint cx_entries (cx mx : list Z) (gmu : list (Z * Z)) : result (list Z) :=
  match gmu with
  | [] => Ok []
  | (hz, level) :: rest =>
      let? arc := (if negb (hz =? 0) then arc_vote cx mx level false else arc_vote cx mx 0 false) in
      let? more := cx_entries cx mx rest in
      Ok (arc :: hz / 1000 :: more)
  end.
Definition perf_table (db : cmd_db) (speed_bin max_opps max_gmu_opps : Z) : result (list Z) :=
  let? gfx := db_get db "gfx.lvl" in
  let? gmxc := db_get db "gmxc.lvl" in
  let? mx := db_get db "mx.lvl" in
  let? cx := db_get db "cx.lvl" in
  let gpu := (0, 0) :: map (fun o => (opp_hz o, opp_level o)) (opp_levels speed_bin max_opps) in
  let gmu := (0, 0) :: py_take max_gmu_opps GMU_OPPS in
  let? gxs := gx_entries (aux_levels gfx) (aux_levels gmxc) (aux_levels mx) 0 gpu in
  let? cxs := cx_entries (aux_levels cx) (aux_levels mx) gmu in
  Ok ([0; HFI_TABLE_GPU_PERF; zlen gpu; 3] ++ gxs ++ [zlen gmu; 2] ++ cxs).

(** [sorted({bw ...})]. *)
Fixpoint insert_bw (x : Z) (l : list Z) : list Z :=
  match l with
  | [] => [x]
  | y :: rest => if x =? y then l else if x <? y then x :: l else y :: insert_bw x rest
  end.
Definition bandwidths (opps : list (Z * Z * Z * Z)) : list Z := 0 :: foldr insert_bw [] (map opp_bw opps).
(** [l.index(x)]. *)
Fixpoint index_of (x : Z) (l : list Z) (j : Z) : result Z :=
  match l with [] => Raise (ValueError "not in list") | y :: rest => if x =? y then Ok j else index_of x rest (j + 1) end.

Definition perf_vote (speed_bin max_opps perf_opp : Z) : result (list Z) :=
  let opps := opp_levels speed_bin max_opps in
  if negb ((1 <=? perf_opp) && (perf_opp <=? zlen opps)) then Raise (Stop "--perf-opp is outside the OPPs in the table") else
  match opps !! Z.to_nat (perf_opp - 1) with
  | Some o => let? b := index_of (opp_bw o) (bandwidths opps) 0 in Ok [1; perf_opp; b]
  | None => Raise IndexError
  end.

Definition bcm_cmd (commit valid : bool) (x y : Z) : Z :=
  Z.lor (Z.lor (Z.lor (if commit then BCM_COMMIT else 0) (if valid then BCM_VALID else 0)) (Z.shiftl (Z.land x 0x3FFF) 14)) (Z.land y 0x3FFF).

(** One bandwidth over the BCMs; [db] holds (unit, width, vcd) of each. *)
Fixpoint bw_cmds (bandwidth : Z) (bcms : list (string * Z * bool * Z)) (db : list (Z * Z * Z)) : result (list Z) :=
  match bcms, db with
  | [], _ => Ok []
  | (_, buswidth, fixed, perfmode) :: bcms', (unit, width, vcd) :: db' =>
      let commit := match bcms', db' with [], _ => true | _, (_, _, vcd') :: _ => negb (vcd =? vcd') | _, [] => true end in
      let? cmd :=
        (if bandwidth =? 0 then Ok (bcm_cmd commit false 0 0)
         else if fixed then Ok (bcm_cmd commit true 0 perfmode)
         else if unit =? 0 then Raise ZeroDivisionError else
         let peak := bandwidth * width / buswidth * 1000 / unit in
         let vote := Z.min (Z.max peak 1) 0x3FFF in
         Ok (bcm_cmd commit true vote vote)) in
      let? rest := bw_cmds bandwidth bcms' db' in
      Ok (cmd :: rest)
  | _ :: _, [] => Raise IndexError
  end.
Fixpoint bcm_info (db : cmd_db) (bcms : list (string * Z * bool * Z)) : result (list (Z * Z * Z)) :=
  match bcms with
  | [] => Ok []
  | (name, _, _, _) :: rest => let? e := db_get db name in let? x := aux_bcm e in let? xs := bcm_info db rest in Ok (x :: xs)
  end.
Definition bw_votes (db : cmd_db) (bandwidth : Z) : result (list Z) :=
  let? info := bcm_info db GPU_BCMS in bw_cmds bandwidth GPU_BCMS info.

Fixpoint bcm_addrs (db : cmd_db) (bcms : list (string * Z * bool * Z)) : result (list Z) :=
  match bcms with
  | [] => Ok []
  | (name, _, _, _) :: rest => let? e := db_get db name in let? xs := bcm_addrs db rest in Ok (de_addr e :: xs)
  end.
Fixpoint bw_rows (db : cmd_db) (bws : list Z) : result (list (list Z)) :=
  match bws with [] => Ok [] | bw :: rest => let? r := bw_votes db bw in let? rs := bw_rows db rest in Ok (r :: rs) end.
(** [row + [0] * (n - len(row))]. *)
Definition pad_row (n : nat) (row : list Z) : list Z := row ++ replicate (n - length row) 0.
(** The bits of the commands that commit. *)
Fixpoint commit_mask (row : list Z) (j : Z) : Z :=
  match row with [] => 0 | cmd :: rest => (if bits cmd BCM_COMMIT then Z.shiftl 1 j else 0) + commit_mask rest (j + 1) end.
Definition bw_table (db : cmd_db) (speed_bin max_opps : Z) : result (list Z) :=
  let bws := bandwidths (opp_levels speed_bin max_opps) in
  let? addrs := bcm_addrs db GPU_BCMS in
  let? rows := bw_rows db bws in
  let? cn0 := db_get db "CN0" in
  Ok ([zlen bws; 1; zlen addrs; 1; commit_mask (default [] (rows !! 0%nat)) 0] ++ pad_row 6 [de_addr cn0] ++ pad_row 6 [bcm_cmd true false 0 0] ++
      pad_row 6 [bcm_cmd true true 0 1] ++ pad_row 8 addrs ++ flat_map (pad_row 8) (take 16 (rows ++ replicate 16 []))).

(** ** HFI queues *)

Definition word_bytes (ws : list Z) : bytes := flat_map (le_bytes 4) ws.
(** struct.pack('<nI', *ws). *)
Fixpoint pack_Is (ws : list Z) : result bytes :=
  match ws with [] => Ok [] | w :: rest => let? a := pack_u 4 w in let? b := pack_Is rest in Ok (a ++ b) end.
Definition hfi_queue_header (index ident : Z) : list Z :=
  [1; GMU_HFI_VA + 4096 * (index + 1); Z.lor (Z.shiftl 10 8) ident; HFI_QUEUE_DWORDS; 0; 0; 1; 1; 1; 0; 0; 0].
Definition hfi_table_image : bytes :=
  word_bytes ([0; 24 + 3 * 48; 6; 12; 3; 3] ++ concat (imap (fun i ident => hfi_queue_header (Z.of_nat i) ident) HFI_QUEUE_IDS)).

Definition HFI_HDR (field : string) : Z :=
  if String.eqb field "status" then 0 else if String.eqb field "iova" then 1 else if String.eqb field "type" then 2
  else if String.eqb field "size" then 3 else if String.eqb field "read_index" then 10 else 11.
Definition hfi_header_offset (queue : Z) (field : string) : Z := region_off "gmu_hfi" + 24 + 48 * queue + 4 * HFI_HDR field.
Definition hfi_data_offset (queue index : Z) : Z := region_off "gmu_hfi" + 4096 * (queue + 1) + 4 * index.
Definition hfi_header (seq msg_id dwords : Z) : Z :=
  Z.lor (Z.lor (Z.shiftl (Z.land seq 0xFFF) 20) (Z.shiftl (Z.land dwords 0xFF) 8)) msg_id.

(** The positions of [words] in a ring of [size] dwords from [index] on, and the next
    index. *)
Fixpoint hfi_place (size index : Z) (words : list Z) : list (Z * Z) * Z :=
  match words with
  | [] => ([], index)
  | w :: rest => let '(l, i) := hfi_place size ((index + 1) mod size) rest in ((index, w) :: l, i)
  end.
(** [while index % 4]: padding; at most [fuel] words. *)
Fixpoint hfi_pad (fuel : nat) (size index : Z) : list (Z * Z) * Z :=
  match fuel with
  | O => ([], index)
  | Datatypes.S k => if index mod 4 =? 0 then ([], index) else let '(l, i) := hfi_pad k size ((index + 1) mod size) in ((index, 0xFAFAFAFA) :: l, i)
  end.
(** The contiguous runs of placed words. *)
Fixpoint hfi_runs (data : list (Z * Z)) : list (Z * list Z) :=
  match data with
  | [] => []
  | (at_, w) :: rest =>
      match hfi_runs rest with
      | (at', ws) :: more => if at' =? at_ + 1 then (at_, w :: ws) :: more else (at_, [w]) :: (at', ws) :: more
      | [] => [(at_, [w])]
      end
  end.

(** One message of the response queue from [read] on: its words and the next index. *)
Fixpoint ring_words (n : nat) (size at_ : Z) (page : bytes) : result (list Z * Z) :=
  match n with
  | O => Ok ([], at_)
  | Datatypes.S k => let? w := u32 page at_ in let? r := ring_words k size ((at_ + 1) mod size) page in Ok (w :: fst r, snd r)
  end.

(** ** The GMU firmware: parsing inverts emitting *)

#[local] Arguments le_bytes : simpl never.

Definition emit_block (b : fw_block) : bytes :=
  le_bytes 4 (fb_addr b) ++ le_bytes 4 (fb_size b) ++ le_bytes 4 (fb_type b) ++ le_bytes 4 (fb_value b) ++ fb_data b.
Definition is_u32 (z : Z) : Prop := 0 <= z < 2 ^ 32.
Definition block_ok (b : fw_block) : Prop :=
  is_u32 (fb_addr b) /\ is_u32 (fb_type b) /\ is_u32 (fb_value b) /\ is_u32 (fb_size b) /\ zlen (fb_data b) = fb_size b.

Lemma length_emit_block b : length (emit_block b) = (16 + length (fb_data b))%nat.
Proof. unfold emit_block. rewrite !length_app, !length_le_bytes. lia. Qed.

(** Sixteen bytes are four words. *)
Lemma split_words (l : bytes) : (16 <= length l)%nat ->
  exists a b c d rest, is_u32 a /\ is_u32 b /\ is_u32 c /\ is_u32 d /\
    l = le_bytes 4 a ++ le_bytes 4 b ++ le_bytes 4 c ++ le_bytes 4 d ++ rest.
Proof.
  intros Hl.
  assert (Hw : forall l : bytes, (4 <= length l)%nat -> exists a rest, is_u32 a /\ l = le_bytes 4 a ++ rest).
  { intros k Hk. exists (le_Z (take 4 k)), (drop 4 k). split.
    - pose proof (le_Z_range (take 4 k)) as H. unfold zlen in H. rewrite length_take_le in H by lia. exact H.
    - by rewrite le_bytes_le_Z, take_drop by (rewrite length_take_le; lia). }
  destruct (Hw l) as (a & l1 & Ha & ->); [lia|]. rewrite length_app, length_le_bytes in Hl.
  destruct (Hw l1) as (b & l2 & Hb & ->); [lia|]. rewrite length_app, length_le_bytes in Hl.
  destruct (Hw l2) as (c & l3 & Hc & ->); [lia|]. rewrite length_app, length_le_bytes in Hl.
  destruct (Hw l3) as (d & l4 & Hd & ->); [lia|]. by exists a, b, c, d, l4.
Qed.

(** The header of a block, read where it starts. *)
Lemma parse_blocks_header k (pre rest : bytes) a b c d :
  is_u32 a -> is_u32 b -> is_u32 c -> is_u32 d ->
  let data := pre ++ le_bytes 4 a ++ le_bytes 4 b ++ le_bytes 4 c ++ le_bytes 4 d ++ rest in
  parse_blocks (Datatypes.S k) data (length pre) =
    if zlen rest <? b then Raise (Stop "GMU firmware block runs past the end") else
    let next := (length pre + 16 + Z.to_nat b)%nat in
    let? more := parse_blocks k data next in
    Ok (FwBlock a b c d (take (Z.to_nat b) rest) :: more).
Proof.
  intros Ha Hb Hc Hd data. simpl.
  assert (Hlen : zlen data = Z.of_nat (length pre) + 16 + zlen rest).
  { unfold data. rewrite !zlen_app. unfold zlen. rewrite !length_le_bytes. lia. }
  rewrite (proj2 (Z.ltb_ge _ _)) by (rewrite Hlen; pose proof (zlen_nonneg rest); lia).
  assert (H0 : unpack_u 4 (length pre) data = Ok a) by (by apply unpack_u_le_bytes).
  assert (H1 : unpack_u 4 (length pre + 4) data = Ok b).
  { replace data with ((pre ++ le_bytes 4 a) ++ le_bytes 4 b ++ le_bytes 4 c ++ le_bytes 4 d ++ rest) by (unfold data; by rewrite <- !app_assoc).
    apply unpack_u_le_bytes; [by rewrite length_app, length_le_bytes|done]. }
  assert (H2 : unpack_u 4 (length pre + 8) data = Ok c).
  { replace data with ((pre ++ le_bytes 4 a ++ le_bytes 4 b) ++ le_bytes 4 c ++ le_bytes 4 d ++ rest) by (unfold data; by rewrite <- !app_assoc).
    apply unpack_u_le_bytes; [rewrite !length_app, !length_le_bytes; lia|done]. }
  assert (H3 : unpack_u 4 (length pre + 12) data = Ok d).
  { replace data with ((pre ++ le_bytes 4 a ++ le_bytes 4 b ++ le_bytes 4 c) ++ le_bytes 4 d ++ rest) by (unfold data; by rewrite <- !app_assoc).
    apply unpack_u_le_bytes; [rewrite !length_app, !length_le_bytes; lia|done]. }
  rewrite H0; simpl. rewrite H1; simpl. rewrite H2; simpl. rewrite H3; simpl.
  assert (Hs : slice (length pre + 16) (length pre + 16 + Z.to_nat b) data = take (Z.to_nat b) rest).
  { unfold slice. f_equal; [lia|].
    assert (Hd' : data = (pre ++ le_bytes 4 a ++ le_bytes 4 b ++ le_bytes 4 c ++ le_bytes 4 d) ++ rest) by (unfold data; by rewrite <- !app_assoc).
    rewrite Hd'. apply drop_app_length'. rewrite !length_app, !length_le_bytes. lia. }
  rewrite Hs. rewrite Hlen.
  destruct (Z.ltb_spec (Z.of_nat (length pre) + 16 + zlen rest) (Z.of_nat (length pre) + 16 + b)), (Z.ltb_spec (zlen rest) b); try lia; reflexivity.
Qed.

Lemma emit_take a b c d (rest : bytes) : 0 <= b <= zlen rest ->
  emit_block (FwBlock a b c d (take (Z.to_nat b) rest)) ++ drop (Z.to_nat b) rest =
  le_bytes 4 a ++ le_bytes 4 b ++ le_bytes 4 c ++ le_bytes 4 d ++ rest.
Proof. intros _. unfold emit_block. cbn. by rewrite <- !app_assoc, take_drop. Qed.

Lemma parse_blocks_exact fuel : forall (pre post : bytes) blocks, (length post < fuel)%nat ->
  parse_blocks fuel (pre ++ post) (length pre) = Ok blocks <-> post = flat_map emit_block blocks /\ Forall block_ok blocks.
Proof.
  induction fuel as [|k IH]; intros pre post blocks Hf; [lia|].
  destruct (decide (16 <= length post)%nat) as [Hl|Hl].
  - destruct (split_words post Hl) as (a & b & c & d & rest & Ha & Hb & Hc & Hd & ->).
    rewrite parse_blocks_header by done.
    pose proof Hb as [Hb0 Hb1].
    rewrite !length_app, !length_le_bytes in Hf.
    destruct (Z.ltb_spec (zlen rest) b) as [Hlt|Hge].
    + split; [discriminate|]. intros [He Hok]. exfalso. destruct blocks as [|x xs]; [apply (f_equal length) in He; rewrite length_app, length_le_bytes in He; cbn in He; lia|].
      cbn in He. inversion Hok as [|? ? (Hx1 & Hx2 & Hx3 & Hx4 & Hx) ?]; subst. unfold emit_block in He. rewrite <- !app_assoc in He.
      apply app_inj_1 in He as [_ He]; [|by rewrite !length_le_bytes]. apply app_inj_1 in He as [Hs He]; [|by rewrite !length_le_bytes].
      apply le_bytes_inj in Hs; [|done|done]. apply app_inj_1 in He as [_ He]; [|by rewrite !length_le_bytes].
      apply app_inj_1 in He as [_ He]; [|by rewrite !length_le_bytes].
      assert (zlen rest = zlen (fb_data x) + zlen (flat_map emit_block xs)) by (rewrite He, zlen_app; done).
      pose proof (zlen_nonneg (flat_map emit_block xs)). lia.
    + assert (Hstep : forall more, parse_blocks k (pre ++ le_bytes 4 a ++ le_bytes 4 b ++ le_bytes 4 c ++ le_bytes 4 d ++ rest) (length pre + 16 + Z.to_nat b) = Ok more
                 <-> drop (Z.to_nat b) rest = flat_map emit_block more /\ Forall block_ok more).
      { intros more. rewrite <- (emit_take a b c d rest) by lia. rewrite app_assoc.
        set (x := FwBlock _ _ _ _ _).
        assert (Hx : length (pre ++ emit_block x) = (length pre + 16 + Z.to_nat b)%nat).
        { rewrite length_app, length_emit_block. unfold x; cbn. rewrite length_take_le; unfold zlen in Hge; lia. }
        rewrite <- Hx. apply IH. rewrite length_drop. lia. }
      split.
      * cbv zeta. intros H. destruct (parse_blocks k _ _) as [more|] eqn:E; cbn in H; [|discriminate H]. injection H as <-.
        destruct (proj1 (Hstep more) eq_refl) as [He Hm]. split.
        -- cbn [flat_map]. rewrite <- He. symmetry. apply emit_take. lia.
        -- constructor; [|done]. repeat split; cbn; try lia; try apply Ha; try apply Hc; try apply Hd.
           unfold zlen in *. rewrite length_take_le; lia.
      * intros [He Hok]. destruct blocks as [|x xs]; [apply (f_equal length) in He; rewrite length_app, length_le_bytes in He; cbn in He; lia|].
        inversion Hok as [|? ? (Hx1 & Hx2 & Hx3 & Hx4 & Hx) Hxs]; subst. destruct x as [xa xb xc xd xl]. cbn in *.
        unfold emit_block in He. cbn in He. rewrite <- !app_assoc in He.
        apply (app_inj_1 (le_bytes 4 a) (le_bytes 4 xa)) in He as [H1 He]; [|by rewrite !length_le_bytes]. apply app_inj_1 in He as [H2 He]; [|by rewrite !length_le_bytes].
        apply app_inj_1 in He as [H3 He]; [|by rewrite !length_le_bytes]. apply app_inj_1 in He as [H4 He]; [|by rewrite !length_le_bytes].
        apply le_bytes_inj in H1, H2, H3, H4; try done. subst a b c d rest.
        assert (Hn : Z.to_nat xb = length xl) by (unfold zlen in Hx; lia).
        rewrite (proj2 (Hstep xs)); cbn [rbind].
        -- by rewrite Hn, take_app_length.
        -- split; [|done]. rewrite Hn. apply drop_app_length.
  - cbn [parse_blocks]. rewrite (proj2 (Z.ltb_lt _ _)) by (rewrite zlen_app; unfold zlen; lia).
    rewrite zlen_app. unfold zlen. destruct (Z.eqb_spec (Z.of_nat (length pre)) (Z.of_nat (length pre) + Z.of_nat (length post))) as [E|E].
    + assert (post = []) as -> by (apply length_zero_iff_nil; lia). split.
      * intros [= <-]. done.
      * intros [He _]. destruct blocks as [|x xs]; [done|]. exfalso. apply (f_equal length) in He. cbn in He. rewrite length_app, length_emit_block in He. lia.
    + split; [discriminate|]. intros [-> _]. exfalso. destruct blocks as [|x xs]; cbn in *; [lia|]. rewrite length_app, length_emit_block in Hl. lia.
Qed.

(** Parse_gmu_fw accepts exactly the images that are a sequence of well-formed
    blocks (16-byte headers, the announced number of data bytes, nothing after the
    last), and returns those blocks: parsing inverts emitting, both ways. *)
Theorem parse_gmu_fw_exact (data : bytes) (blocks : list fw_block) :
  parse_gmu_fw data = Ok blocks <-> data = flat_map emit_block blocks /\ Forall block_ok blocks.
Proof. apply (parse_blocks_exact (Datatypes.S (length data)) [] data blocks). lia. Qed.

(** ** Where the firmware goes *)

(** What a plan may write: whole words inside the 4096-word tightly coupled memories,
    bytes inside the icache, dummy and debug buffers. *)
Definition tcm_ok (w : Z * bytes) : Prop := 0 <= fst w /\ 4 * fst w + zlen (snd w) <= GMU_TCM_SIZE /\ zlen (snd w) mod 4 = 0.
Definition buffer_ok (m : string * Z * bytes) : Prop :=
  exists va size, (m.1.1, va, size) ∈ fw_buffers /\ 0 <= m.1.2 /\ m.1.2 + zlen m.2 <= size.
Definition prealloc_ok (r : Z * Z) : Prop :=
  exists name va size, (name, va, size) ∈ fw_buffers /\ va <= fst r /\ fst r + snd r <= va + size.
(** The bytes of the blocks, and those of the plan. *)
Definition plan_bytes (p : fw_plan) : Z :=
  foldr Z.add 0 (map (fun w => zlen (snd w)) (pl_itcm p)) + foldr Z.add 0 (map (fun w => zlen (snd w)) (pl_dtcm p)) +
  foldr Z.add 0 (map (fun m : string * Z * bytes => zlen m.2) (pl_memory p)).
Definition plan_ok (p : fw_plan) : Prop :=
  Forall tcm_ok (pl_itcm p) /\ Forall tcm_ok (pl_dtcm p) /\ Forall buffer_ok (pl_memory p).

Lemma sum_snoc {A} (f : A -> Z) l x : foldr Z.add 0 (map f (l ++ [x])) = foldr Z.add 0 (map f l) + f x.
Proof. induction l as [|y l IH]; cbn; [lia|]. rewrite IH. lia. Qed.

Lemma find_spec {A} (f : A -> bool) l x : List.find f l = Some x -> x ∈ l /\ f x = true.
Proof. intros H. apply List.find_some in H as [Hi Hf]. split; [by apply list_elem_of_In|done]. Qed.

Lemma plan_ok_snoc_itcm p w version : plan_ok p -> tcm_ok w -> plan_ok (FwPlan (pl_itcm p ++ [w]) (pl_dtcm p) (pl_memory p) (pl_prealloc p) version).
Proof. intros (Hi & Hd & Hm) Hw. split_and!; cbn; [apply Forall_app; split; [|constructor]| |]; done || constructor. Qed.
Lemma plan_ok_snoc_dtcm p w version : plan_ok p -> tcm_ok w -> plan_ok (FwPlan (pl_itcm p) (pl_dtcm p ++ [w]) (pl_memory p) (pl_prealloc p) version).
Proof. intros (Hi & Hd & Hm) Hw. split_and!; cbn; [|apply Forall_app; split; [|constructor]|]; done || constructor. Qed.
Lemma plan_ok_snoc_memory p w version : plan_ok p -> buffer_ok w -> plan_ok (FwPlan (pl_itcm p) (pl_dtcm p) (pl_memory p ++ [w]) (pl_prealloc p) version).
Proof. intros (Hi & Hd & Hm) Hw. split_and!; cbn; [| |apply Forall_app; split; [|constructor]]; done || constructor. Qed.

Lemma tcm_word_ok addr base (d : bytes) :
  base <= addr -> addr + zlen d <= base + GMU_TCM_SIZE -> zlen d mod 4 = 0 -> tcm_ok ((addr - base) / 4, d).
Proof. intros H1 H2 H3. split_and!; cbn [fst snd]; [apply Z.div_pos; lia| |done]. pose proof (Z.mul_div_le (addr - base) 4). lia. Qed.

Lemma plan_block_ok p b p' : plan_ok p -> block_ok b -> plan_block p b = Ok p' ->
  plan_ok p' /\ plan_bytes p' = plan_bytes p + fb_size b.
Proof.
  intros Hp (_ & _ & _ & [Hs _] & Hb) H. unfold plan_block in H.
  destruct (Z.eqb_spec (fb_size b) 0) as [Hz|Hz].
  { injection H as <-. destruct (fb_type b =? 7); (split; [exact Hp|by rewrite Hz, Z.add_0_r]). }
  destruct (Z.eqb_spec (fb_size b mod 4) 0) as [H4|H4]; cbn [negb] in H; [|discriminate H].
  destruct ((GMU_ITCM_BASE <=? fb_addr b) && _) eqn:Ei.
  { destruct (Z.ltb_spec (GMU_ITCM_BASE + GMU_TCM_SIZE) (fb_addr b + fb_size b)); [discriminate H|]. injection H as <-. zbool.
    split; [apply plan_ok_snoc_itcm; [done|apply tcm_word_ok; rewrite ?Hb; lia]|]. unfold plan_bytes; cbn [pl_itcm pl_dtcm pl_memory]. rewrite sum_snoc. cbn. lia. }
  destruct ((GMU_DTCM_BASE <=? fb_addr b) && _) eqn:Ed.
  { destruct (Z.ltb_spec (GMU_DTCM_BASE + GMU_TCM_SIZE) (fb_addr b + fb_size b)); [discriminate H|]. cbv zeta in H.
    match type of H with (rbind ?v _ = _) => destruct v as [version|]; [|discriminate H] end. cbn [rbind] in H. injection H as <-. zbool.
    split; [apply plan_ok_snoc_dtcm; [done|apply tcm_word_ok; rewrite ?Hb; lia]|]. unfold plan_bytes; cbn [pl_itcm pl_dtcm pl_memory]. rewrite sum_snoc. cbn. lia. }
  destruct (List.find _ fw_buffers) as [[[name va] size]|] eqn:Ef; [|discriminate H]. injection H as <-.
  apply find_spec in Ef as [Hin Hr]. zbool.
  split; [apply plan_ok_snoc_memory; [done|]; exists va, size; cbn; split_and!; [done|lia|lia]|].
  unfold plan_bytes; cbn [pl_itcm pl_dtcm pl_memory]. rewrite sum_snoc. cbn. lia.
Qed.

Lemma plan_blocks_ok bs : forall p p', plan_ok p -> Forall block_ok bs -> plan_blocks p bs = Ok p' ->
  plan_ok p' /\ plan_bytes p' = plan_bytes p + foldr Z.add 0 (map fb_size bs).
Proof.
  induction bs as [|b bs IH]; intros p p' Hp Hok H; cbn in H; [injection H as <-; cbn; split; [done|lia]|].
  inversion Hok as [|? ? Hb Hbs]; subst. destruct (plan_block p b) as [q|] eqn:E; [|discriminate H]. cbn in H.
  destruct (plan_block_ok p b q Hp Hb E) as [Hq Hn]. destruct (IH q p' Hq Hbs H) as [Hp' Hn']. split; [done|]. cbn. lia.
Qed.

(** C40: a GMU firmware image that parses and plans is loaded completely and only where
    it may go: every block with data becomes one write, whole words inside the 16 KiB
    ITCM or DTCM, or bytes inside one of the icache, dummy and debug buffers; the
    requested preallocations lie in those buffers; no byte of the image is dropped. *)
Theorem plan_gmu_fw_in_bounds (data : bytes) (blocks : list fw_block) (p : fw_plan) :
  parse_gmu_fw data = Ok blocks -> plan_gmu_fw blocks = Ok p ->
  plan_ok p /\ Forall prealloc_ok (pl_prealloc p) /\ plan_bytes p = zlen data - 16 * zlen blocks.
Proof.
  intros Hparse H. destruct (proj1 (parse_blocks_exact (Datatypes.S (length data)) [] data blocks ltac:(lia)) Hparse) as [-> Hok].
  unfold plan_gmu_fw in H. destruct (plan_blocks _ blocks) as [q|] eqn:E; [|discriminate H]. cbn [rbind] in H.
  destruct (forallb _ (pl_prealloc q)) eqn:Ep; [|discriminate H]. injection H as <-.
  destruct (plan_blocks_ok blocks (FwPlan [] [] [] [] None) q) as [Hq Hn]; [repeat split; constructor|done|done|].
  split_and!; [done| |].
  - apply Forall_forall. intros [addr len] Hin. rewrite forallb_forall in Ep. apply list_elem_of_In in Hin. specialize (Ep _ Hin). cbv beta iota in Ep.
    apply existsb_exists in Ep as ([[name va] size] & Hb & Hr). zbool. exists name, va, size. split; [by apply list_elem_of_In|done].
  - rewrite Hn. clear -Hok. induction Hok as [|b bs (_ & _ & _ & _ & Hb) _ IH]; [done|].
    cbn [map foldr flat_map]. rewrite zlen_app. unfold zlen at 1. rewrite length_emit_block. unfold zlen in *. cbn [length] in *. lia.
Qed.

Lemma plan_gmu_fw_in_bounds_witness :
  let b := FwBlock (GMU_DTCM_BASE + 0x3FE0) 4 0 0 (le_bytes 4 0x12345678) in
  let p := FwPlan [] [(0xFF8, le_bytes 4 0x12345678)] [] [] (Some 0x12345678) in
  plan_ok p /\ Forall prealloc_ok (pl_prealloc p) /\ plan_bytes p = zlen (emit_block b) - 16 * zlen [b].
Proof. intros b p. apply (plan_gmu_fw_in_bounds (emit_block b) [b] p); vm_compute; reflexivity. Defined.

(** ** Votes *)

Lemma first_at_least_spec level l : forall j k, first_at_least level l j = Some k ->
  exists v, l !! Z.to_nat (k - j) = Some v /\ level <= v /\ j <= k < j + zlen l.
Proof.
  induction l as [|x l IH]; intros j k H; [discriminate H|]. cbn in H. unfold zlen in *; cbn [length].
  destruct (Z.leb_spec level x).
  - injection H as <-. exists x. rewrite Z.sub_diag. split; [done|lia].
  - apply IH in H as (v & Hv & Hl & Hr). exists v. split; [|lia].
    replace (Z.to_nat (k - j)) with (Datatypes.S (Z.to_nat (k - (j + 1)))) by lia. exact Hv.
Qed.

Lemma secondary_spec level l : forall j found k, secondary level l j found = (k, true) ->
  exists v, l !! Z.to_nat (k - j) = Some v /\ level <= v /\ j <= k < j + zlen l.
Proof.
  induction l as [|x l IH]; intros j found k H; [discriminate H|]. cbn in H. unfold zlen in *; cbn [length].
  destruct (Z.leb_spec level x).
  - injection H as <-. exists x. rewrite Z.sub_diag. split; [done|lia].
  - apply IH in H as (v & Hv & Hl & Hr). exists v. split; [|lia].
    replace (Z.to_nat (k - j)) with (Datatypes.S (Z.to_nat (k - (j + 1)))) by lia. exact Hv.
Qed.

(** The fields of a vote, as the GMU reads them. *)
Definition vote_primary (w : Z) : Z := Z.land w 0xFF.
Definition vote_secondary (w : Z) : Z := Z.land (Z.shiftr w 8) 0xFF.
Definition vote_level (w : Z) : Z := Z.land (Z.shiftr w 16) 0xFFFF.
Definition dep_index (w : Z) : Z := Z.land (Z.shiftr w 8) 0x3F.

Lemma lor_disjoint k a b : 0 <= k -> 0 <= b < 2 ^ k -> Z.lor (a * 2 ^ k) b = a * 2 ^ k + b.
Proof.
  intros Hk Hb.
  assert (Hz : Z.land (a * 2 ^ k) b = 0).
  { apply Z.bits_inj'. intros n Hn. rewrite Z.land_spec, Z.bits_0. destruct (Z.ltb_spec n k); [by rewrite Z.mul_pow2_bits_low by lia|].
    destruct (decide (b = 0)) as [->|]; [by rewrite Z.bits_0, andb_false_r|].
    rewrite (Z.bits_above_log2 b n); [apply andb_false_r|lia|].
    apply Z.log2_lt_pow2; [lia|]. apply Z.lt_le_trans with (2 ^ k); [lia|apply Z.pow_le_mono_r; lia]. }
  rewrite <- Z.lxor_lor by done. symmetry. by apply Z.add_nocarry_lxor.
Qed.

Lemma pack_fields hi mid lo : 0 <= mid < 256 -> 0 <= lo < 256 ->
  Z.lor (Z.lor (Z.shiftl hi 16) (Z.shiftl mid 8)) lo = hi * 65536 + mid * 256 + lo.
Proof.
  intros Hm Hl. rewrite !Z.shiftl_mul_pow2 by lia. rewrite <- Z.lor_assoc, (lor_disjoint 8) by lia.
  rewrite (lor_disjoint 16) by lia. lia.
Qed.

Definition carries (l : list Z) (level : Z) : bool := existsb (fun v => level <=? v) l.

Lemma first_at_least_carries level l : forall j, carries l level = true -> exists k, first_at_least level l j = Some k.
Proof.
  unfold carries. induction l as [|x l IH]; intros j H; [discriminate H|]. cbn in *. destruct (level <=? x); [by exists j|by apply IH].
Qed.
Lemma secondary_carries level l : forall j found, carries l level = true -> exists k, secondary level l j found = (k, true).
Proof.
  unfold carries. induction l as [|x l IH]; intros j found H; [discriminate H|]. cbn in *. destruct (level <=? x); [by exists j|by apply IH].
Qed.
Lemma carries_mono l a b : a <= b -> carries l b = true -> carries l a = true.
Proof. unfold carries. rewrite !existsb_exists. intros Hab (v & Hv & Hl). exists v. split; [done|]. zbool. apply Z.leb_le. lia. Qed.

(** The vote names a primary and a secondary level that both reach [level]. *)
Definition arc_reaches (pri sec : list Z) (level w : Z) : Prop :=
  (exists v, pri !! Z.to_nat (vote_primary w) = Some v /\ level <= v /\ vote_level w = Z.land v 0xFFFF) /\
  (exists v, sec !! Z.to_nat (vote_secondary w) = Some v /\ level <= v).
Definition dep_reaches (mx : list Z) (level w : Z) : Prop := exists v, mx !! Z.to_nat (dep_index w) = Some v /\ level <= v.

Lemma vote_fields v mid lo : 0 <= mid < 256 -> 0 <= lo < 256 ->
  let w := Z.lor (Z.lor (Z.shiftl (Z.land v 0xFFFF) 16) (Z.shiftl mid 8)) lo in
  vote_primary w = lo /\ vote_secondary w = mid /\ vote_level w = Z.land v 0xFFFF.
Proof.
  intros Hm Hl. cbv zeta. rewrite pack_fields by done. change 0xFFFF with (Z.ones 16). rewrite Z.land_ones by lia.
  unfold vote_primary, vote_secondary, vote_level. change 0xFF with (Z.ones 8). change 0xFFFF with (Z.ones 16).
  rewrite !Z.land_ones, !Z.shiftr_div_pow2 by lia. pose proof (Z.mod_pos_bound v (2 ^ 16) ltac:(lia)).
  set (x := v mod 2 ^ 16) in *. clearbody x. change (2 ^ 16) with 65536 in *. change (2 ^ 8) with 256.
  assert (E8 : (x * 65536 + mid * 256 + lo) / 256 = x * 256 + mid) by (symmetry; apply (Z.div_unique _ _ _ lo); lia).
  assert (E16 : (x * 65536 + mid * 256 + lo) / 65536 = x) by (symmetry; apply (Z.div_unique _ _ _ (mid * 256 + lo)); lia).
  rewrite E8, E16. split_and!.
  - symmetry. apply (Z.mod_unique _ _ (x * 256 + mid)); lia.
  - symmetry. apply (Z.mod_unique _ _ x); lia.
  - by apply Z.mod_small.
Qed.

Lemma arc_vote_reaches pri sec level : carries pri level = true -> carries sec level = true ->
  zlen pri <= 64 -> zlen sec <= 64 -> exists w, arc_vote pri sec level true = Ok w /\ arc_reaches pri sec level w.
Proof.
  intros Hp Hs Hlp Hls. destruct (first_at_least_carries level pri 0 Hp) as [k Hk]. destruct (secondary_carries level sec 0 0 Hs) as [m Hm].
  unfold arc_vote. rewrite Hk, Hm. cbn [negb andb].
  destruct (first_at_least_spec _ _ _ _ Hk) as (v & Hv & Hle & Hr). destruct (secondary_spec _ _ _ _ _ Hm) as (u & Hu & Hle' & Hr').
  rewrite Z.sub_0_r in Hv, Hu. rewrite Hv. eexists. split; [reflexivity|].
  destruct (vote_fields v m k) as (E1 & E2 & E3); [lia|lia|]. split.
  - exists v. by rewrite E1, E3.
  - exists u. by rewrite E2.
Qed.

(** A vote that is not strict still needs a primary level, and nothing else. *)
Lemma arc_vote_weak pri sec level : carries pri level = true -> exists w, arc_vote pri sec level false = Ok w.
Proof.
  intros Hp. destruct (first_at_least_carries level pri 0 Hp) as [k Hk]. destruct (first_at_least_spec _ _ _ _ Hk) as (v & Hv & _ & _).
  unfold arc_vote. rewrite Hk. destruct (secondary level sec 0 0) as [m r]. rewrite andb_false_r. cbn [andb]. rewrite Z.sub_0_r in Hv. rewrite Hv. eauto.
Qed.

Lemma dep_vote_reaches mx level : carries mx level = true -> zlen mx <= 64 -> exists w, dep_vote mx level = Ok w /\ dep_reaches mx level w.
Proof.
  intros Hc Hl. destruct (first_at_least_carries level mx 0 Hc) as [k Hk]. destruct (first_at_least_spec _ _ _ _ Hk) as (v & Hv & Hle & Hr).
  unfold dep_vote. rewrite Hk. eexists. split; [reflexivity|]. exists v. rewrite Z.sub_0_r in Hv. split; [|done].
  replace (dep_index _) with k; [done|]. unfold dep_index. rewrite !Z.shiftl_mul_pow2 by lia.
  rewrite <- Z.lor_assoc, (lor_disjoint 8) by lia. rewrite (lor_disjoint 14) by lia.
  change 0x3F with (Z.ones 6). rewrite Z.land_ones, Z.shiftr_div_pow2 by lia.
  rewrite <- (Z.div_unique _ _ (0x3FFF * 64 + k) 0xFF) by lia. apply (Z.mod_unique _ _ 0x3FFF); lia.
Qed.

(** The three words of an operating point at [i] in the GX part of the table. *)
Definition entry_reaches (gfx gmxc mx : list Z) (hz level : Z) (ws : list Z) (at_ : nat) : Prop :=
  exists arc dep, ws !! at_ = Some arc /\ ws !! (at_ + 1)%nat = Some dep /\ ws !! (at_ + 2)%nat = Some (hz / 1000) /\
    arc_reaches gfx gmxc level arc /\ dep_reaches mx level dep.

Section rails.
Context (gfx gmxc mx : list Z) (Hgfx : zlen gfx <= 64) (Hgmxc : zlen gmxc <= 64) (Hmx : zlen mx <= 64).

Definition carried (o : Z * Z) : Prop := fst o <> 0 /\ carries gfx (snd o) = true /\ carries gmxc (snd o) = true /\ carries mx (snd o) = true.

Lemma gx_entries_reach gpu : forall n, Forall carried gpu ->
  exists ws, gx_entries gfx gmxc mx (Datatypes.S n) gpu = Ok ws /\
    forall i hz level, gpu !! i = Some (hz, level) -> entry_reaches gfx gmxc mx hz level ws (3 * i).
Proof.
  induction gpu as [|[hz level] gpu IH]; intros n Hok; [exists []; by split|].
  inversion Hok as [|? ? (Hz & H1 & H2 & H3) Hrest]; subst. cbn [fst snd] in *.
  destruct (arc_vote_reaches gfx gmxc level H1 H2 Hgfx Hgmxc) as (arc & Harc & Ra). destruct (dep_vote_reaches mx level H3 Hmx) as (dep & Hdep & Rd).
  destruct (IH (Datatypes.S n) Hrest) as (ws & Hws & Hw). exists (arc :: dep :: hz / 1000 :: ws). split.
  - cbn [gx_entries]. rewrite (proj2 (Z.eqb_neq _ _) Hz), Harc. cbn [negb rbind]. rewrite Hdep. cbn [rbind].
    rewrite Nat.add_1_r, Hws. reflexivity.
  - intros [|i] hz' level' Hi; cbn in Hi.
    + injection Hi as <- <-. exists arc, dep. done.
    + destruct (Hw i hz' level' Hi) as (a & d & Ea & Ed & Eh & Rest). exists a, d.
      replace (3 * Datatypes.S i)%nat with (Datatypes.S (Datatypes.S (Datatypes.S (3 * i)))) by lia. done.
Qed.
End rails.

Lemma db_get_has db key e : db_get db key = Ok e -> db_has db key = true.
Proof. unfold db_has. by intros ->. Qed.

Lemma refusing_none db level keys : refusing db level keys = Ok None -> Forall (fun key => exists e, db_get db key = Ok e /\ carries (aux_levels e) level = true) keys.
Proof.
  induction keys as [|key keys IH]; intros H; [constructor|]. cbn in H. destruct (db_get db key) as [e|] eqn:E; [|discriminate H]. cbn in H.
  destruct (existsb _ (aux_levels e)) eqn:Ec; [constructor; [eauto|by apply IH]|]. destruct (aux_levels e); discriminate H.
Qed.

Lemma rail_refusal_none db level gfx gmxc mx :
  db_get db "gfx.lvl" = Ok gfx -> db_get db "gmxc.lvl" = Ok gmxc -> db_get db "mx.lvl" = Ok mx -> rail_refusal db level = Ok None ->
  carries (aux_levels gfx) level = true /\ carries (aux_levels gmxc) level = true /\ carries (aux_levels mx) level = true.
Proof.
  intros Hg Hc Hm H. unfold rail_refusal in H. rewrite (db_get_has _ _ _ Hc) in H. apply refusing_none in H.
  apply Forall_cons in H as [(a & Ha & Ra) H]. apply Forall_cons in H as [(b & Hb & Rb) H]. apply Forall_cons in H as [(c & Hc' & Rc) _].
  rewrite Hg in Ha. rewrite Hc in Hb. rewrite Hm in Hc'. by simplify_eq.
Qed.

Lemma safe_prefix_spec db opps : forall safe refused, safe_prefix db opps = Ok (safe, refused) ->
  safe = take (length safe) opps /\ Forall (fun o => rail_refusal db (opp_level o) = Ok None) safe.
Proof.
  induction opps as [|o opps IH]; intros safe refused H; cbn [safe_prefix] in H; [by injection H as <- <-|].
  destruct (rail_refusal db (opp_level o)) as [[key|]|] eqn:E; cbn [rbind] in H; [by injection H as <- <-| |discriminate H].
  destruct (safe_prefix db opps) as [[l r]|]; cbn [rbind fst snd] in H; [|discriminate H]. injection H as <- <-.
  destruct (IH l r eq_refl) as [Hl Hf]. cbn [length take]. split; [by rewrite <- Hl|by constructor].
Qed.

Lemma opp_levels_opps bin max o : o ∈ opp_levels bin max -> o ∈ GPU_OPPS.
Proof.
  unfold opp_levels, py_take. intros H.
  assert (Hf : o ∈ List.filter (fun o : Z * Z * Z * Z => Z.testbit o.2 bin) GPU_OPPS).
  { destruct (0 <=? max); eapply elem_of_submseteq; [exact H|apply sublist_submseteq, sublist_take|exact H|apply sublist_submseteq, sublist_take]. }
  apply list_elem_of_In in Hf. apply filter_In in Hf as [Hf _]. by apply list_elem_of_In.
Qed.

Lemma py_take_all bin : opp_levels bin (zlen GPU_OPPS) = List.filter (fun o : Z * Z * Z * Z => Z.testbit o.2 bin) GPU_OPPS.
Proof.
  unfold opp_levels, py_take. rewrite (proj2 (Z.leb_le _ _)) by apply zlen_nonneg. unfold zlen. rewrite Nat2Z.id.
  apply take_ge. apply filter_length_le.
Qed.

(** The points of the table, when as many as asked for are safe. *)
Lemma opp_levels_safe db bin max safe refused : rail_safe_opps db bin = Ok (safe, refused) -> 0 <= max <= zlen safe ->
  Forall (fun o => o ∈ GPU_OPPS /\ rail_refusal db (opp_level o) = Ok None) (opp_levels bin max).
Proof.
  unfold rail_safe_opps. intros H Hm. apply safe_prefix_spec in H as [Hs Hf]. rewrite py_take_all in Hs.
  assert (Ho : opp_levels bin max = take (Z.to_nat max) safe).
  { rewrite Hs. unfold opp_levels, py_take. rewrite (proj2 (Z.leb_le _ _)) by lia. rewrite take_take. f_equal. unfold zlen in Hm. lia. }
  apply Forall_forall. intros o Hin. split; [by eapply opp_levels_opps|].
  rewrite Ho in Hin. eapply Forall_forall in Hf; [exact Hf|]. eapply elem_of_submseteq; [exact Hin|apply sublist_submseteq, sublist_take].
Qed.

Lemma opps_positive o : o ∈ GPU_OPPS -> opp_hz o <> 0 /\ 0 <= opp_level o.
Proof.
  assert (H : forallb (fun o => negb (opp_hz o =? 0) && (0 <=? opp_level o)) GPU_OPPS = true) by reflexivity.
  rewrite forallb_forall in H. intros Ho. apply list_elem_of_In, H in Ho. zbool. lia.
Qed.

Lemma first_at_least_none level l : forall j, carries l level = false -> first_at_least level l j = None.
Proof. unfold carries. induction l as [|x l IH]; intros j H; [done|]. cbn in *. destruct (level <=? x); [done|by apply IH]. Qed.
Lemma arc_vote_refused pri sec level strict : carries pri level = false -> arc_vote pri sec level strict = Raise (Stop "RPMh level is not in the primary list").
Proof. intros H. unfold arc_vote. by rewrite first_at_least_none. Qed.

(** C39: suppose the command DB has the four rails (the rail check itself makes do
    without gmxc), gfx, gmxc and mx with at most 64 levels each, and at least one and
    at most as many operating points are asked for as pass the rail check of cmd_hfi.
    Then perf_table succeeds exactly when cx, which that check does not look at,
    reaches the level 64 of the GMU's own clock, and stops otherwise; and when it
    succeeds no point is under-voted: for each one the GX vote names a gfx and a gmxc
    level, and the dependency vote an mx level, that reach the level the point needs,
    and the clock follows. *)
Theorem perf_table_reaches (db : cmd_db) (bin max : Z) gfx gmxc mx cx safe refused :
  db_get db "gfx.lvl" = Ok gfx -> db_get db "gmxc.lvl" = Ok gmxc -> db_get db "mx.lvl" = Ok mx -> db_get db "cx.lvl" = Ok cx ->
  zlen (aux_levels gfx) <= 64 -> zlen (aux_levels gmxc) <= 64 -> zlen (aux_levels mx) <= 64 ->
  rail_safe_opps db bin = Ok (safe, refused) -> 1 <= max <= zlen safe ->
  if carries (aux_levels cx) 64
  then exists words, perf_table db bin max 1 = Ok words /\
    forall i o, opp_levels bin max !! i = Some o ->
      entry_reaches (aux_levels gfx) (aux_levels gmxc) (aux_levels mx) (opp_hz o) (opp_level o) words (7 + 3 * i)
  else perf_table db bin max 1 = Raise (Stop "RPMh level is not in the primary list").
Proof.
  intros Hg Hc Hm Hx Lg Lc Lm Hsafe Hmax.
  pose proof (opp_levels_safe db bin max safe refused Hsafe ltac:(lia)) as Hall.
  set (gpu := map (fun o => (opp_hz o, opp_level o)) (opp_levels bin max)).
  assert (Hgpu : Forall (carried (aux_levels gfx) (aux_levels gmxc) (aux_levels mx)) gpu).
  { apply Forall_map. eapply Forall_impl; [exact Hall|]. intros o [Ho Hr]. split; [by apply opps_positive|].
    by apply (rail_refusal_none db (opp_level o)). }
  assert (Hg0 : carries (aux_levels gfx) 0 = true).
  { destruct (opp_levels bin max) as [|o l] eqn:Eo.
    - exfalso. unfold rail_safe_opps in Hsafe. apply safe_prefix_spec in Hsafe as [Hs _]. rewrite py_take_all in Hs.
      unfold opp_levels, py_take in Eo. rewrite (proj2 (Z.leb_le _ _)) in Eo by lia.
      destruct (List.filter _ GPU_OPPS) as [|o l]; [rewrite take_nil in Hs; subst safe; unfold zlen in Hmax; cbn in Hmax; lia|].
      destruct (Z.to_nat max) eqn:En; [lia|discriminate Eo].
    - apply Forall_cons in Hall as [[Ho Hr] _]. apply (carries_mono _ _ (opp_level o)); [by apply opps_positive|].
      by apply (rail_refusal_none db (opp_level o) gfx gmxc mx). }
  destruct (gx_entries_reach _ _ _ Lg Lc Lm gpu 0 Hgpu) as (ws & Hws & Hw).
  destruct (arc_vote_weak (aux_levels gfx) (aux_levels gmxc) 0 Hg0) as [a0 Ha0].
  assert (Hp : perf_table db bin max 1 = let? cxs := cx_entries (aux_levels cx) (aux_levels mx) [(0, 0); (575000000, 64)] in
    Ok ([0; HFI_TABLE_GPU_PERF; zlen ((0, 0) :: gpu); 3] ++ (a0 :: 0xFFFFFFFF :: 0 / 1000 :: ws) ++ [2; 2] ++ cxs)).
  { unfold perf_table. rewrite Hg. cbn [rbind]. rewrite Hc. cbn [rbind]. rewrite Hm. cbn [rbind]. rewrite Hx. cbn [rbind]. fold gpu.
    cbn [gx_entries Z.eqb negb]. rewrite Ha0. cbn [rbind]. rewrite Nat.add_0_l, Hws. cbn [rbind]. reflexivity. }
  rewrite Hp. clear Hp. cbn [cx_entries Z.eqb negb]. destruct (carries (aux_levels cx) 64) eqn:Hcx.
  2:{ rewrite (arc_vote_refused _ _ 64) by done. destruct (carries (aux_levels cx) 0) eqn:H0; [|by rewrite arc_vote_refused].
      destruct (arc_vote_weak (aux_levels cx) (aux_levels mx) 0 H0) as [b0 ->]. done. }
  destruct (arc_vote_weak (aux_levels cx) (aux_levels mx) 0 (carries_mono _ 0 64 ltac:(lia) Hcx)) as [b0 Hb0].
  destruct (arc_vote_weak (aux_levels cx) (aux_levels mx) 64 Hcx) as [b1 Hb1].
  eexists. split.
  - rewrite Hb0. cbn [rbind]. rewrite Hb1. cbn [rbind]. reflexivity.
  - intros i o Hi. destruct (Hw i (opp_hz o) (opp_level o)) as (arc & dep & H1 & H2 & H3 & Hr); [unfold gpu; by rewrite list_lookup_fmap, Hi|].
    exists arc, dep. cbn [app].
    assert (Hsh : forall (x : list Z) k y, ws !! k = Some y -> (0 :: HFI_TABLE_GPU_PERF :: zlen ((0, 0) :: gpu) :: 3 :: a0 :: 0xFFFFFFFF :: 0 / 1000 :: ws ++ x) !! (7 + k)%nat = Some y).
    { intros x k y Hk. cbn. by apply lookup_app_l_Some. }
    replace (7 + 3 * i + 1)%nat with (7 + (3 * i + 1))%nat by lia. replace (7 + 3 * i + 2)%nat with (7 + (3 * i + 2))%nat by lia.
    split_and!; [by apply Hsh|by apply Hsh|by apply Hsh|apply Hr|apply Hr].
Qed.

(** The rails of the test database: every list reaches 452, none 456. *)
Definition level_bytes (l : list Z) : bytes := flat_map (le_bytes 2) l.
Definition db_rail (l : list Z) : db_entry := DbEntry 0 (zlen (level_bytes l)) (level_bytes l).
Definition rails_db : cmd_db :=
  [("gfx.lvl", Some (db_rail [0; 56; 128; 256; 452])); ("gmxc.lvl", Some (db_rail [0; 64; 192; 320; 452]));
   ("mx.lvl", Some (db_rail [0; 128; 456])); ("cx.lvl", Some (db_rail [0; 64; 128]))].

Lemma perf_table_reaches_witness :
  zlen (opp_levels 0 11) = 11 /\ exists words, perf_table rails_db 0 11 1 = Ok words /\
    forall i o, opp_levels 0 11 !! i = Some o ->
      entry_reaches [0; 56; 128; 256; 452] [0; 64; 192; 320; 452] [0; 128; 456] (opp_hz o) (opp_level o) words (7 + 3 * i).
Proof.
  split; [reflexivity|].
  apply (perf_table_reaches rails_db 0 11 (db_rail [0; 56; 128; 256; 452]) (db_rail [0; 64; 192; 320; 452]) (db_rail [0; 128; 456]) (db_rail [0; 64; 128])
           (opp_levels 0 11) (GPU_OPPS !! 11%nat)); try reflexivity; vm_compute; (reflexivity || (split; discriminate) || discriminate).
Defined.

(** ** The ring of an HFI queue *)

(** The memory after the runs of a message are written to the queue at [base]. *)
Definition store_runs (base : Z) (runs : list (Z * list Z)) (s : Z -> byte) : Z -> byte :=
  fold_left (fun s r => mem_store (base + 4 * fst r) (word_bytes (snd r)) s) runs s.
Definition store_words (base : Z) (data : list (Z * Z)) (s : Z -> byte) : Z -> byte :=
  fold_left (fun s r => mem_store (base + 4 * fst r) (le_bytes 4 (snd r)) s) data s.

Lemma word_bytes_cons w ws : word_bytes (w :: ws) = le_bytes 4 w ++ word_bytes ws.
Proof. done. Qed.
Lemma zlen_word_bytes ws : zlen (word_bytes ws) = 4 * zlen ws.
Proof. induction ws as [|w ws IH]; [done|]. rewrite word_bytes_cons, zlen_app, IH. unfold zlen. rewrite length_le_bytes. cbn [length]. lia. Qed.

Lemma mem_store_ext a d (s s' : Z -> byte) : (forall x, s x = s' x) -> forall x, mem_store a d s x = mem_store a d s' x.
Proof. intros H x. unfold mem_store. destruct (if a <=? x then _ else _); [done|apply H]. Qed.
Lemma store_runs_ext base runs : forall s s', (forall x, s x = s' x) -> forall x, store_runs base runs s x = store_runs base runs s' x.
Proof. induction runs as [|r runs IH]; intros s s' H x; [apply H|]. cbn. apply IH. by apply mem_store_ext. Qed.

(** Writing the runs is writing the words one by one. *)
Lemma store_runs_words base data : forall s x, store_runs base (hfi_runs data) s x = store_words base data s x.
Proof.
  induction data as [|[p w] data IH]; intros s x; [done|]. cbn [hfi_runs store_words fold_left fst snd].
  change (fold_left _ data ?t) with (store_words base data t). rewrite <- IH.
  assert (H1 : forall t y, mem_store (base + 4 * p) (word_bytes [w]) t y = mem_store (base + 4 * p) (le_bytes 4 w) t y) by (intros; unfold word_bytes; cbn [flat_map]; by rewrite app_nil_r).
  destruct (hfi_runs data) as [|[p' ws] more]; [cbn; apply H1|].
  destruct (Z.eqb_spec p' (p + 1)) as [->|_].
  - cbn [store_runs fold_left fst snd]. apply store_runs_ext. intros y. rewrite word_bytes_cons, <- mem_store_app.
    replace (base + 4 * p + zlen (le_bytes 4 w)) with (base + 4 * (p + 1)) by (unfold zlen; rewrite length_le_bytes; lia). done.
  - cbn [store_runs fold_left fst snd]. apply store_runs_ext. intros y. apply mem_store_ext. apply H1.
Qed.

Lemma store_words_apart base data : forall s a n, Forall (fun r => a + Z.of_nat n <= base + 4 * fst r \/ base + 4 * fst r + 4 <= a) data ->
  Bytes.mem_read (store_words base data s) a n = Bytes.mem_read s a n.
Proof.
  induction data as [|[p w] data IH]; intros s a n H; [done|]. inversion H; subst. cbn [store_words fold_left fst snd] in *.
  change (fold_left _ data ?t) with (store_words base data t). rewrite IH by done. apply mem_read_store_apart. unfold zlen. rewrite length_le_bytes. lia.
Qed.

Lemma store_words_read base data : forall s p w, NoDup (map fst data) -> (p, w) ∈ data -> Bytes.mem_read (store_words base data s) (base + 4 * p) 4 = le_bytes 4 w.
Proof.
  induction data as [|[q v] data IH]; intros s p w Hnd Hin; [by apply list_elem_of_In in Hin|].
  cbn [map fst] in Hnd. apply NoDup_cons in Hnd as [Hq Hnd]. cbn [store_words fold_left fst snd].
  change (fold_left _ data ?t) with (store_words base data t). apply elem_of_cons in Hin as [[= -> ->]|Hin]; [|by apply IH].
  rewrite store_words_apart.
  - rewrite <- (length_le_bytes 4 v) at 2. apply mem_read_store.
  - apply Forall_forall. intros [r u] Hr. cbn. destruct (decide (r = q)) as [->|]; [|lia]. exfalso. apply Hq. by apply (list_elem_of_fmap_2 fst) in Hr.
Qed.

Definition ring (size i : Z) (ws : list Z) : list (Z * Z) := imap (fun k w => ((i + Z.of_nat k) mod size, w)) ws.

Lemma hfi_place_ring size ws : forall i, 0 < size -> 0 <= i < size -> hfi_place size i ws = (ring size i ws, (i + zlen ws) mod size).
Proof.
  induction ws as [|w ws IH]; intros i Hs Hi; [unfold zlen; cbn; by rewrite Z.add_0_r, Z.mod_small|].
  cbn [hfi_place]. rewrite IH by (try lia; by apply Z.mod_pos_bound). unfold ring. rewrite imap_cons. f_equal.
  - change (Z.of_nat 0) with 0. rewrite (Z.add_0_r i), (Z.mod_small i) by lia. f_equal. apply imap_ext. intros k x _. unfold compose. f_equal. rewrite Zplus_mod_idemp_l. f_equal. lia.
  - rewrite Zplus_mod_idemp_l. f_equal. unfold zlen. cbn [length]. lia.
Qed.

(** Padding is placing the missing words. *)
Lemma hfi_pad_place i : 0 <= i < HFI_QUEUE_DWORDS ->
  hfi_pad 4 HFI_QUEUE_DWORDS i = hfi_place HFI_QUEUE_DWORDS i (replicate (Z.to_nat (- i mod 4)) 0xFAFAFAFA).
Proof.
  unfold HFI_QUEUE_DWORDS. change (4096 / 4) with 1024. intros Hi.
  assert (Hstep : forall f j, hfi_pad (Datatypes.S f) 1024 j =
    if j mod 4 =? 0 then ([], j) else let '(l, i) := hfi_pad f 1024 ((j + 1) mod 1024) in ((j, 0xFAFAFAFA) :: l, i)) by done.
  assert (Hm : forall j, 0 <= j < 1024 -> 0 <= (j + 1) mod 1024 < 1024 /\ ((j + 1) mod 1024) mod 4 = (j + 1) mod 4).
  { intros j Hj. destruct (decide (j = 1023)) as [->|]; [done|]. rewrite (Z.mod_small (j + 1) 1024) by lia. lia. }
  pose proof (Hm i Hi) as [Hi1 Hm1]. pose proof (Hm _ Hi1) as [Hi2 Hm2]. pose proof (Hm _ Hi2) as [Hi3 Hm3].
  pose proof (Z.mod_pos_bound i 4 ltac:(lia)) as Hb. pose proof (Z.div_mod i 4 ltac:(lia)) as Hd.
  set (q := i / 4) in *. set (c := i mod 4) in *.
  assert (Hm1' : ((i + 1) mod 1024) mod 4 = (c + 1) mod 4) by (rewrite Hm1, Hd; replace (4 * q + c + 1) with (c + 1 + q * 4) by lia; apply Z.mod_add; lia).
  assert (Hm2' : (((i + 1) mod 1024 + 1) mod 1024) mod 4 = (c + 2) mod 4) by (rewrite Hm2, <- Zplus_mod_idemp_l, Hm1', Zplus_mod_idemp_l; f_equal; lia).
  assert (Hm3' : ((((i + 1) mod 1024 + 1) mod 1024 + 1) mod 1024) mod 4 = (c + 3) mod 4) by (rewrite Hm3, <- Zplus_mod_idemp_l, Hm2', Zplus_mod_idemp_l; f_equal; lia).
  assert (Hr : (- i) mod 4 = (- c) mod 4) by (rewrite Hd; replace (- (4 * q + c)) with (- c + (- q) * 4) by lia; apply Z.mod_add; lia).
  rewrite Hr, !Hstep. fold c. rewrite Hm1', Hm2', Hm3'. clearbody c. clear -Hb.
  assert (c = 0 \/ c = 1 \/ c = 2 \/ c = 3) as [->|[->|[->| ->]]] by lia; reflexivity.
Qed.

Lemma ring_app size i a b : 0 < size -> ring size i (a ++ b) = ring size i a ++ ring size ((i + zlen a) mod size) b.
Proof.
  intros Hs. unfold ring. rewrite imap_app. f_equal. apply imap_ext. intros k x _. f_equal. rewrite Zplus_mod_idemp_l. f_equal. unfold zlen. lia.
Qed.

Lemma ring_lookup size i ws k : ring size i ws !! k = (fun w => ((i + Z.of_nat k) mod size, w)) <$> ws !! k.
Proof. unfold ring. by rewrite list_lookup_imap. Qed.

Lemma ring_nodup size i ws : 0 < size -> zlen ws <= size -> NoDup (map fst (ring size i ws)).
Proof.
  intros Hs Hl. apply NoDup_alt. intros j k p Hj Hk. rewrite !list_lookup_fmap, !ring_lookup in Hj, Hk.
  destruct (ws !! j) eqn:Ej, (ws !! k) eqn:Ek; try discriminate. apply lookup_lt_Some in Ej, Ek. cbn in Hj, Hk. injection Hj as Hj. injection Hk as Hk.
  unfold zlen in Hl. rewrite <- Hj in Hk. clear Hj p.
  pose proof (Z.div_mod (i + Z.of_nat j) size ltac:(lia)) as Dj. pose proof (Z.div_mod (i + Z.of_nat k) size ltac:(lia)) as Dk. rewrite Hk in Dk.
  set (qj := (i + Z.of_nat j) / size) in *. set (qk := (i + Z.of_nat k) / size) in *. clearbody qj qk. set (r := (i + Z.of_nat j) mod size) in *. clearbody r.
  assert (size * (qk - qj) = Z.of_nat k - Z.of_nat j) by (rewrite Z.mul_sub_distr_l; lia).
  assert (qk = qj) by nia. lia.
Qed.

Lemma ring_words_read base size (s : Z -> byte) n ws : forall i, 0 <= i < size -> 4 * size <= Z.of_nat n -> Forall is_u32 ws ->
  (forall p w, (p, w) ∈ ring size i ws -> Bytes.mem_read s (base + 4 * p) 4 = le_bytes 4 w) ->
  ring_words (length ws) size i (Bytes.mem_read s base n) = Ok (ws, (i + zlen ws) mod size).
Proof.
  induction ws as [|w ws IH]; intros i Hi Hn Hu Hw; [unfold zlen; cbn; by rewrite Z.add_0_r, Z.mod_small|].
  inversion Hu as [|? ? Hx Hxs]; subst. cbn [ring_words length].
  assert (Hcons : ring size i (w :: ws) = (i, w) :: ring size ((i + 1) mod size) ws).
  { change (w :: ws) with ([w] ++ ws). rewrite ring_app by lia. unfold ring at 1. cbn. by rewrite Z.add_0_r, Z.mod_small. }
  assert (Hread : u32 (Bytes.mem_read s base n) i = Ok w).
  { unfold u32, unpack_u. rewrite decide_True by (rewrite length_mem_read; lia).
    rewrite mem_read_slice by lia. rewrite Z2Nat.id by lia. rewrite (Hw i w); [|rewrite Hcons; by apply list_elem_of_here]. by rewrite le_Z_small. }
  rewrite Hread. cbn [rbind]. rewrite IH; [|apply Z.mod_pos_bound; lia|done|done|intros p v Hp; apply Hw; rewrite Hcons; by apply list_elem_of_further].
  cbn [rbind fst snd]. do 2 f_equal. rewrite Zplus_mod_idemp_l. f_equal. unfold zlen. cbn [length]. lia.
Qed.

Lemma hfi_runs_spec data : Forall (fun r => snd r <> [] /\ forall k w, snd r !! k = Some w -> (fst r + Z.of_nat k, w) ∈ data) (hfi_runs data).
Proof.
  induction data as [|[p w] data IH]; [constructor|]. cbn [hfi_runs].
  assert (H1 : forall q v, [w] !! q = Some v -> (p + Z.of_nat q, v) ∈ (p, w) :: data).
  { intros [|q] v Hv; [|discriminate Hv]. injection Hv as <-. rewrite Z.add_0_r. by apply list_elem_of_here. }
  assert (Hw : forall l : list (Z * list Z), Forall (fun r => snd r <> [] /\ forall k v, snd r !! k = Some v -> (fst r + Z.of_nat k, v) ∈ data) l ->
                Forall (fun r => snd r <> [] /\ forall k v, snd r !! k = Some v -> (fst r + Z.of_nat k, v) ∈ (p, w) :: data) l).
  { intros l Hl. eapply Forall_impl; [exact Hl|]. intros r [Hr Hk]. split; [done|]. intros k v Hv. apply list_elem_of_further. by apply Hk. }
  destruct (hfi_runs data) as [|[p' ws] more]; [constructor; [by split|constructor]|].
  destruct (Z.eqb_spec p' (p + 1)) as [->|_]; [|constructor; [by split|by apply Hw]].
  apply Forall_cons in IH as [[_ Hws] Hmore]. constructor; [|by apply Hw]. split; [done|]. cbn [fst snd] in *. intros [|k] v Hv.
  - by apply H1.
  - apply list_elem_of_further. replace (p + Z.of_nat (Datatypes.S k)) with (p + 1 + Z.of_nat k) by lia. by apply Hws.
Qed.

Lemma pack_Is_words ws : Forall is_u32 ws -> pack_Is ws = Ok (word_bytes ws).
Proof. induction 1 as [|w ws Hw _ IH]; [done|]. cbn [pack_Is]. rewrite pack_u_ok by exact Hw. cbn [rbind]. rewrite IH. done. Qed.

(** A message written to an HFI queue by hfi_send, wherever the write index stands
    and wherever it wraps, stays inside the queue's page, and reading it back the way
    hfi_wait_ack does returns its words; the reader's next index is the writer's, a
    multiple of four. *)
Theorem hfi_message_roundtrip (base write : Z) (words : list Z) (s : Z -> byte) :
  0 <= write < HFI_QUEUE_DWORDS -> Forall is_u32 words -> zlen words + 3 <= HFI_QUEUE_DWORDS ->
  let '(data, next) := hfi_place HFI_QUEUE_DWORDS write words in
  let '(padding, next') := hfi_pad 4 HFI_QUEUE_DWORDS next in
  let s' := store_runs base (hfi_runs (data ++ padding)) s in
  Forall (fun r => 0 <= fst r /\ fst r + zlen (snd r) <= HFI_QUEUE_DWORDS /\ pack_Is (snd r) = Ok (word_bytes (snd r))) (hfi_runs (data ++ padding)) /\
  ring_words (length words) HFI_QUEUE_DWORDS write (Bytes.mem_read s' base 4096) = Ok (words, next) /\
  next' = Z.land (next + 3) (Z.lnot 3) mod HFI_QUEUE_DWORDS /\ next' mod 4 = 0 /\
  forall x, x < base \/ base + 4096 <= x -> s' x = s x.
Proof.
  intros Hw Hu Hl. rewrite hfi_place_ring by lia. set (n1 := (write + zlen words) mod _).
  assert (Hn1 : 0 <= n1 < HFI_QUEUE_DWORDS) by (apply Z.mod_pos_bound; lia).
  rewrite hfi_pad_place by done. rewrite hfi_place_ring by lia.
  set (pad := replicate _ _). set (n2 := (n1 + zlen pad) mod _). cbv zeta. unfold n1. rewrite <- ring_app by lia. fold n1.
  assert (Hpad : zlen pad = (- n1) mod 4) by (unfold zlen, pad; rewrite length_replicate, Z2Nat.id; [done|apply Z.mod_pos_bound; lia]).
  pose proof (Z.mod_pos_bound (- n1) 4 ltac:(lia)) as Hp4.
  set (data := ring _ write (words ++ pad)).
  assert (Hnd : NoDup (map fst data)) by (apply ring_nodup; [lia|rewrite zlen_app; lia]).
  assert (Hpos : forall p w, (p, w) ∈ data -> 0 <= p < HFI_QUEUE_DWORDS /\ is_u32 w).
  { intros p w Hp. apply list_elem_of_lookup in Hp as [k Hk]. unfold data in Hk. rewrite ring_lookup in Hk.
    destruct ((words ++ pad) !! k) as [v|] eqn:E; [|discriminate Hk]. cbn in Hk. injection Hk as <- <-. split; [apply Z.mod_pos_bound; lia|].
    assert (Hall : Forall is_u32 (words ++ pad)) by (apply Forall_app; split; [done|apply Forall_replicate; unfold is_u32; lia]).
    eapply Forall_lookup_1 in Hall; [exact Hall|exact E]. }
  split_and!.
  - eapply Forall_impl; [apply hfi_runs_spec|]. intros [p run] [Hne Hrun]. cbn [fst snd] in *.
    destruct run as [|w0 run]; [done|]. destruct (Hpos _ _ (Hrun O w0 eq_refl)) as [H0 _].
    destruct (lookup_lt_is_Some_2 (w0 :: run) (length run)) as [wl Hwl]; [cbn; lia|]. destruct (Hpos _ _ (Hrun _ _ Hwl)) as [H1 _].
    split_and!; [lia|unfold zlen; cbn [length]; lia|]. apply pack_Is_words. apply Forall_lookup. intros k v Hk. by apply (Hpos _ _ (Hrun _ _ Hk)).
  - rewrite (ring_words_read base _ _ 4096 words); [done|done|done|done|]. intros p w Hp.
    unfold Bytes.mem_read. erewrite map_ext; [|intros k; apply store_runs_words]. apply store_words_read; [done|].
    unfold data. rewrite ring_app by lia. apply elem_of_app. by left.
  - unfold n2. rewrite Hpad, <- Z.ldiff_land. change 3 with (Z.ones 2) at 2. rewrite Z.ldiff_ones_r, Z.shiftl_mul_pow2, Z.shiftr_div_pow2 by lia. f_equal. change (2 ^ 2) with 4. clearbody n1. clear. Z.to_euclidean_division_equations; lia.
  - unfold n2. rewrite Hpad. clearbody n1. unfold HFI_QUEUE_DWORDS in *. change (4096 / 4) with 1024 in *.
    assert ((n1 + (- n1) mod 4) mod 4 = 0) by (clear; Z.to_euclidean_division_equations; lia). assert (Hm : 0 <= n1 + (- n1) mod 4 <= 1026) by lia. set (m := n1 + (- n1) mod 4) in *. clearbody m.
    assert (m = 1024 \/ m < 1024) as [->|] by (clear -H Hm; Z.to_euclidean_division_equations; lia); [done|]. rewrite (Z.mod_small m 1024) by lia. done.
  - intros x Hx. rewrite store_runs_words.
    assert (Hm : Bytes.mem_read (store_words base data s) x 1 = Bytes.mem_read s x 1).
    { apply store_words_apart. apply Forall_forall. intros [p w] Hp. destruct (Hpos p w Hp) as [Hr _]. unfold HFI_QUEUE_DWORDS in Hr. change (4096 / 4) with 1024 in Hr. cbn [fst]. lia. }
    unfold Bytes.mem_read in Hm. cbn in Hm. rewrite Z.add_0_r in Hm. by injection Hm.
Qed.

(** A message of five words that wraps. *)
Lemma hfi_message_roundtrip_witness :
  let runs := [(1022, [5; 6]); (0, [7; 8; 9; 0xFAFAFAFA])] in
  let s' := store_runs 0x1000 runs (fun _ => Byte.x00) in
  Forall (fun r => 0 <= fst r /\ fst r + zlen (snd r) <= HFI_QUEUE_DWORDS /\ pack_Is (snd r) = Ok (word_bytes (snd r))) runs /\
  ring_words 5 HFI_QUEUE_DWORDS 1022 (Bytes.mem_read s' 0x1000 4096) = Ok ([5; 6; 7; 8; 9], 3) /\
  4 = Z.land (3 + 3) (Z.lnot 3) mod HFI_QUEUE_DWORDS /\ 4 mod 4 = 0 /\
  forall x, x < 0x1000 \/ 0x1000 + 4096 <= x -> s' x = Byte.x00.
Proof.
  refine (hfi_message_roundtrip 0x1000 1022 [5; 6; 7; 8; 9] (fun _ => Byte.x00) _ _ _).
  - split; [discriminate|reflexivity].
  - repeat (constructor; [split; [discriminate|reflexivity]|]). constructor.
  - discriminate.
Defined.
