(* ===== verification/GpuStage3.v ===== *)
(** * GPU bring-up, Stage 3

    src/tools/a16gpu_stage3.py: the arena, the SMMU context banks, the boot of the GMU,
    HFI and OOB, the command processor and the way back (quiesce), as programs of a
    Stage 3 session.  The host record, a dict every step shares and mutates, is
    [ss_host]; of the report only what later steps read back is kept.  Random tokens
    come from the arguments; the pre-start checkpoint file and the X2-90 option are
    left out.  Times are in milliseconds. *)

From Stdlib Require Import ZArith Lia.
From Stdlib Require Import Strings.Byte.
From stdpp Require Import base list numbers strings.
From S2P Require Import Prelude Bytes Transport Q1n1Link Sha256 Target Preload GpuRegs GpuSession GpuTables GpuFw.

Local Open Scope string_scope.
Local Open Scope list_scope.
Local Open Scope Z_scope.
Local Open Scope py_scope.

Definition P_MEMSET64 : Z := 0x204.
Definition P_DC_CIVAC : Z := 0x30A.

Definition GPU_STATE_FIELDS : list string :=
  ["magic"; "version"; "size"; "arena_base"; "arena_size"; "arena_source"; "arena_attr"; "claims"; "claim_status"; "smc_calls"; "smc_refused"; "smc_ok";
   "smc_status"; "smc_fid"; "smc_x1"; "smc_x2"; "smc_x3"; "smc_res0"; "smc_res1"; "smc_res2"; "smc_res3"; "smc_interrupted"; "smc_busy"; "smc_undefined"].
Definition GPU_MAGIC : Z := 0x31555047314E3151.
Definition GPU_VERSION : Z := 2.
Definition TZ_PENDING : Z := 2.
Definition TZ_LEFT_PENDING : list Z := [-8; -10].
Definition GPU_QUERY : Z := 0.
Definition GPU_CLAIM : Z := 1.
Definition GPU_SMC : Z := 2.
Definition GPU_RELEASE : Z := 3.
Definition GPU_STORE32 : Z := 4.
Definition SMC_GPU_INIT : list Z := [0x42002801; 1; 0x9; 0].
Definition HOST_MAGIC : Z := 0x3353363141314151.
Definition HOST_FIELDS : list string :=
  ["magic"; "version"; "arena_base"; "gmu_ttbr"; "gpu_ttbr"; "boot_token"; "hfi_token"; "hfi_seq"; "oob_token"; "cp_token"; "rb_wptr"; "fence_seq";
   "fence_value"; "rsc_cx"; "rsc_mx"; "tz_ok"; "hwinit_token"; "pdc_sleep"; "sqe_probe"; "p67_token"; "fb_mapped"; "hfi_opps"].

(** POLL: reads and milliseconds; no time of its own is one second. *)
Inductive poll3_kind := K3rcg | K3pll | K3tlb | K3gmu_init | K3hfi_start | K3msgq | K3oob | K3rsc | K3rscc | K3cp | K3gbif | K3idle.
Definition POLL3 (k : poll3_kind) : nat * Z :=
  match k with
  | K3rcg => (10%nat, 500) | K3pll => (200%nat, 500) | K3tlb => (20%nat, 500) | K3gmu_init => (400%nat, 1000) | K3hfi_start => (50%nat, 1000)
  | K3msgq => (2000%nat, 1000) | K3oob => (100%nat, 1000) | K3rsc => (200%nat, 1000) | K3rscc => (100%nat, 500) | K3cp => (400%nat, 1000)
  | K3gbif => (100%nat, 500) | K3idle => (100%nat, 500)
  end.
Definition HFI_DRAIN : nat * Z := (50%nat, 200).
Definition FENCE_POLL : nat * Z := (400%nat, 1000).

(** gpu_state_decode. *)
Definition gpu_state_decode (blob : bytes) : result (list (string * Z)) :=
  let? vals := unpack_Qs (length GPU_STATE_FIELDS) 0 blob in
  Ok (map (fun '(k, v) => (k, if String.eqb k "claim_status" || String.eqb k "smc_status" then signed64 v else v)) (record_of GPU_STATE_FIELDS vals)).
(** dict assignment of a key the record has. *)
Definition rset (r : list (string * Z)) (k : string) (v : Z) : list (string * Z) := map (fun e => if String.eqb (fst e) k then (k, v) else e) r.
Definition host_state_blank (base : Z) : list (string * Z) :=
  map (fun k => (k, if String.eqb k "magic" then HOST_MAGIC else if String.eqb k "version" then 1 else if String.eqb k "arena_base" then base else 0)) HOST_FIELDS.
Definition host_state_pack (h : list (string * Z)) : bytes := flat_map (fun k => le_bytes 8 (Z.land (rget h k) 0xFFFFFFFFFFFFFFFF)) HOST_FIELDS.
Definition host_state_unpack (blob : bytes) : result (list (string * Z)) :=
  if negb (zlen blob =? 8 * zlen HOST_FIELDS) then Raise StructError else
  let? vals := unpack_Qs (length HOST_FIELDS) 0 blob in Ok (record_of HOST_FIELDS vals).

(** ** The arena *)

Definition arena_overlap (base size b n : Z) : bool := (b <? base + size) && (base <? b + n).
Definition arena_kind (r : efi_region) (names : list string) : bool :=
  match ef_type r with EfiName s => existsb (String.eqb s) names | EfiNum _ => false end.
Definition arena_covered (base size : Z) (hits : list efi_region) : Z :=
  foldr (fun r acc => Z.min (base + size) (ef_base r + ef_size r) - Z.max base (ef_base r) + acc) 0 hits.
(** What q1n1 owns, from its boot information. *)
Definition arena_owned (info : boot_info) : list (Z * Z) :=
  map (fun '(b, n) => (rget info b, rget info n))
    [("image_base", "image_size"); ("heap_base", "heap_size"); ("dma_base", "dma_size"); ("stage_base", "stage_size"); ("fb_base", "fb_size");
     ("memory_map", "memory_map_size"); ("preload_table", "preload_size")].
(** The checks of arena_prove on what was read. *)
Definition arena_check (info : boot_info) (state : list (string * Z)) (regions : list efi_region) : result (Z * Z) :=
  let base := rget state "arena_base" in let size := rget state "arena_size" in
  if base =? 0 then Raise (Stop "no GPU arena") else
  if (size <? ARENA_SIZE) || negb (base mod 4096 =? 0) then Raise (Stop "arena too small or unaligned") else
  let hits := covering regions base size in
  if negb (forallb (fun r => arena_kind r ["Conventional"; "LoaderData"]) hits) || (arena_covered base size hits <? size)
  then Raise (Stop "the arena is not wholly RAM the EFI map gave up") else
  if (rget state "arena_source" =? 2) && negb (negb (Nat.eqb (length hits) 0) && forallb (fun r => arena_kind r ["Conventional"]) hits)
  then Raise (Stop "a claimed arena must be Conventional memory only") else
  if existsb (fun '(b, n) => negb (b =? 0) && negb (n =? 0) && arena_overlap base size b n) (arena_owned info)
  then Raise (Stop "the arena overlaps q1n1's own memory") else Ok (base, size).

(** ** Streams *)

Definition smr_matches (smr sid : Z) : bool :=
  bits smr SMR_VALID && (Z.land (Z.land (Z.lxor sid smr) (Z.lnot (Z.shiftr smr 16))) 0x7FFF =? 0).

(** The registers of a context bank, in the order they are read. *)
Definition CB_NAMES : list string :=
  ["SMMU_CB_SCTLR"; "SMMU_CB_TCR"; "SMMU_CB_TCR2"; "SMMU_CB_TTBR0"; "SMMU_CB_TTBR0_HI"; "SMMU_CB_MAIR0"; "SMMU_CB_ACTLR"; "SMMU_CB_FSR"; "SMMU_CBAR"; "SMMU_CBA2R"].
Definition smmu_cb_expected (tables : page_tables) (cb : Z) (wide : bool) : list (string * Z) :=
  let ttbr := ttbr_for tables cb in
  [("SMMU_CB_SCTLR", CB_SCTLR); ("SMMU_CB_TCR", if wide && (cb =? GPU_CB) then CB_TCR_WIDE else CB_TCR); ("SMMU_CB_TCR2", CB_TCR2);
   ("SMMU_CB_TTBR0", Z.land ttbr 0xFFFFFFFF); ("SMMU_CB_TTBR0_HI", Z.shiftr ttbr 32); ("SMMU_CB_MAIR0", CB_MAIR0); ("SMMU_CB_ACTLR", CB_ACTLR);
   ("SMMU_CBAR", CBAR_S1_BYPASS_S2); ("SMMU_CBA2R", CBA2R_VA64)].
(** [cb_diff(current, expect)] is empty. *)
Definition cb_same (current expect : list (string * Z)) : bool :=
  forallb (fun '(k, v) => Z.land (Z.lxor (rget current k) v) (Z.lnot (CB_READBACK_FIXED k)) =? 0) expect.

(** ** Arguments *)

Record args := Args {
  a_undo : bool; a_claim : bool; a_release : bool; a_resend : bool; a_force_smc : bool; a_host_bw : bool; a_leave_halted : bool;
  a_rail_vote_unseen : bool; a_no_aperture : bool; a_no_ahb_timeout : bool; a_prestart_faults_ok : bool; a_inferred_imem : bool;
  a_sqe_probe : bool; a_va_wide : bool; a_sqe_samples : Z; a_sqe_sample_us : Z; a_stop_after : option string; a_rail_level : string;
  a_max_opps : Z; a_perf_opp : Z; a_init_timeout : Z; a_limit : Z; a_files : string -> option bytes; a_random : Z
}.
Definition stops_at (a : args) (step : string) : bool := match a_stop_after a with Some x => String.eqb x step | None => false end.

Section stage3.
  Context {S : Type} `{!TargetOps S, !BootOps S}.
  Abbreviation G := (M (session S)).

(** ** Session3 *)

Fixpoint poll3_loop (left : nat) (name : string) (mask want index deadline attempt : Z) : G Z :=
  match left with
  | O => py_modify (upd_polls (name, attempt - 1, false)) ;;; py_raise (PollTimeout name)
  | Datatypes.S k =>
      let! value := rd name index in
      if Z.land value mask =? want then py_modify (upd_polls (name, attempt, true)) ;;; py_ret value else
      let! late := (if 2 <=? attempt then let! now := on_t t_now in py_ret (deadline <? now) else py_ret false) in
      if late then py_modify (upd_polls (name, attempt, false)) ;;; py_raise (PollTimeout name)
      else poll3_loop k name mask want index deadline (attempt + 1)
  end.
Definition poll3b (name : string) (mask want : Z) (kind : poll3_kind) (index budget : Z) : G Z :=
  let! now := on_t t_now in
  poll3_loop (fst (POLL3 kind)) name mask want index (now + budget) 1.
Definition poll3 (name : string) (mask want : Z) (kind : poll3_kind) (index : Z) : G Z := poll3b name mask want kind index (snd (POLL3 kind)).

Definition arena_addr (offset length : Z) : G Z :=
  let! arena := py_get ss_arena in
  match arena with
  | None => py_raise (Refused "no GPU arena proven in this run")
  | Some (base, size) =>
      if (offset <? 0) || (length <? 0) || (size <? offset + length) then py_raise (Refused "arena access outside the arena") else py_ret (base + offset)
  end.
Definition need_writes (what : string) : G unit :=
  let! w := py_get ss_writes in if negb w then py_raise (Refused (what +:+ " with writes off")) else py_ret tt.
(** _dram. *)
Definition dram_op {A} (op : string) (address : Z) (m : M S A) : G A := on_remote (on_t m) (remote_failure op None address).
Definition clean (address length : Z) : G unit := dram_op "dc_civac" address (t_request P_DC_CIVAC [address; length]).
Definition mem_write (offset : Z) (data : bytes) : G unit :=
  need_writes "arena write" ;;;
  let! address := arena_addr offset (zlen data) in
  dram_op "writemem" address (t_writemem address data) ;;;
  clean address (zlen data) ;;;
  py_modify (upd_log (LMem "writemem" address (zlen data))).
Definition call_gpu (op : Z) (args : list Z) : G Z :=
  let! call := py_get ss_gpu_call in
  if call =? 0 then py_raise (Refused "the running stage publishes no gpu_call") else
  (if existsb (Z.eqb op) [GPU_CLAIM; GPU_SMC; GPU_RELEASE; GPU_STORE32] then need_writes "gpu_call" else py_ret tt) ;;;
  let! value := dram_op "call" call (t_call call (op :: args)) in
  py_modify (upd_log (LCall op args (Z.land value 0xFFFFFFFFFFFFFFFF))) ;;;
  py_ret (signed64 value).
Definition mem_store32 (offset value : Z) : G unit :=
  need_writes "arena store" ;;;
  let! address := arena_addr offset 4 in
  if negb (address mod 4 =? 0) then py_raise (Refused "arena word stores are 4-byte aligned") else
  let! status := call_gpu GPU_STORE32 [address; Z.land value 0xFFFFFFFF] in
  if negb (status =? 0) then py_raise (Stop "GPU_STORE32 refused") else
  py_modify (upd_log (LMem "store32" address 4)).
Definition mem_fill (offset length : Z) : G unit :=
  need_writes "arena fill" ;;;
  let! address := arena_addr offset length in
  if negb (address mod 8 =? 0) || negb (length mod 8 =? 0) then py_raise (Refused "arena fills are 8-byte aligned") else
  dram_op "memset" address (t_request P_MEMSET64 [address; 0; length]) ;;;
  clean address length ;;;
  py_modify (upd_log (LMem "memset" address length)).
Definition mem_read (offset length : Z) : G bytes :=
  let! address := arena_addr offset length in
  clean address length ;;;
  let! data := dram_op "readmem" address (t_readmem address length false) in
  py_modify (upd_log (LMem "readmem" address length)) ;;;
  py_ret data.
Definition payload_read (address length : Z) : G bytes :=
  let! data := dram_op "readmem" address (t_readmem address length false) in
  py_modify (upd_log (LMem "readmem" address length)) ;;;
  py_ret data.

Definition host_get (k : string) : G Z := py_get (fun s => rget (ss_host s) k).
Definition host_set (k : string) (v : Z) : G unit := fun s => (Ok tt, upd_host (rset (ss_host s) k v) s).
Definition fill_region (name : string) : G unit := mem_fill (region_off name) (region_size name).

(** ** Common prologue *)

Definition prove_cx_gmu (g : gdsc) (values : list (string * Z)) (gemnoc : Z) : G unit :=
  let! gmu := is_proven cx_gmu in
  if gmu then py_ret tt else
  let! misc := py_get (fun s => ss_proven s cx_misc) in
  if match misc with Some e => mentions_freq_limit e | None => false end && domain_ok g && forallb (clock_ok values gemnoc) OTHER_CLOCKS
  then prove cx_gmu EvGmuByRead else py_ret tt.

Definition prologue (need : list gate) : G unit :=
  step_cmd_db ;;;
  step_gcc ;;;
  let! values := step_gpucc false in
  step_freq_limit ;;;
  let! g := py_get (fun s => o_gdsc (ss_out s)) in
  let! gemnoc := rd "GCC_GPU_GEMNOC_GFX_CBCR" 0 in
  evaluate_gates g values gemnoc ;;;
  prove_cx_gmu g values gemnoc ;;;
  let! proven := py_get ss_proven in
  if forallb (fun g => match proven g with Some _ => true | None => false end) need then order "stage1_gates"
  else py_raise (Stop "Stage 1 gates are not proven from reads").
Definition NEED : list gate := [cx_gmu; cx_smmu].

(** [info.get(k, 0)]; [rget] is 0 for a field the record does not have. *)
Definition bootinfo_gpu : G boot_info :=
  let! info := on_t t_bootinfo in
  py_modify (upd_gpu (rget info "gpu_call") (rget info "gpu_state")) ;;;
  if (rget info "gpu_call" =? 0) || (rget info "gpu_state" =? 0) then py_raise (GuardMissing "the running stage has no gpu_call/gpu_state") else py_ret info.

Definition read_gpu_state : G (list (string * Z)) :=
  let! record := py_get ss_gpu_record in
  let! blob := payload_read record (8 * zlen GPU_STATE_FIELDS) in
  let! state := py_lift (gpu_state_decode blob) in
  if negb (rget state "magic" =? GPU_MAGIC) || negb (rget state "size" =? 8 * zlen GPU_STATE_FIELDS) then py_raise (Stop "gpu_state record is not ours")
  else if rget state "version" <? GPU_VERSION then py_raise (Stop "gpu_state version: no GPU_STORE32") else py_ret state.

Definition read_host : G (list (string * Z)) :=
  let! blob := mem_read (region_off "state") (8 * zlen HOST_FIELDS) in py_lift (host_state_unpack blob).
Definition write_host : G unit :=
  let! host := py_get ss_host in mem_write (region_off "state") (host_state_pack host).

(** arena_prove; the host record becomes [ss_host]. *)
Definition arena_prove (claim : bool) (limit : Z) : G unit :=
  set_step "A0" ;;;
  let! info := bootinfo_gpu in
  let! state := read_gpu_state in
  let! state :=
    (if (rget state "arena_base" =? 0) && claim then
       let! status := call_gpu GPU_CLAIM [ARENA_SIZE; limit; 0] in
       let! state := read_gpu_state in
       if negb (status =? 0) then py_raise (Stop "arena claim failed") else py_ret state
     else py_ret state) in
  let! regions := py_get (fun s => o_regions (ss_out s)) in
  let! arena := py_lift (arena_check info state regions) in
  py_modify (upd_arena arena) ;;;
  let! host := read_host in
  let host := if negb (rget host "magic" =? HOST_MAGIC) || negb (rget host "arena_base" =? fst arena) then host_state_blank (fst arena) else host in
  py_modify (upd_host host) ;;;
  order "arena".

(** s.arena[0]. *)
Definition arena_base : G Z :=
  let! arena := py_get ss_arena in match arena with Some (base, _) => py_ret base | None => py_raise (TypeError "NoneType") end.

(** ** SMMU *)

Definition smmu_read_cb (cb : Z) : G (list (string * Z)) := collect (fun n => let! v := rd n cb in py_ret (n, v)) CB_NAMES.
Definition smmu_streams (groups : Z) : G (list (Z * Z * Z)) :=
  collect (fun n => let! smr := rd "SMMU_SMR" n in let! s2cr := rd "SMMU_S2CR" n in py_ret (n, smr, s2cr)) (seqZ 0 groups).
Definition smmu_globals : G (Z * Z) :=
  let! scr0 := rd "SMMU_sCR0" 0 in
  let! idr0 := rd "SMMU_IDR0" 0 in
  let! idr1 := rd "SMMU_IDR1" 0 in
  rd "SMMU_IDR7" 0 ;;;
  let d := decode_smmu idr0 idr1 in
  if bits scr0 SCR0_CLIENTPD then py_raise (Stop "sCR0.CLIENTPD is set")
  else if negb (si_banks d =? SMMU_NUM_CB) || negb (si_page d =? 0x1000) || negb (Z.land (Z.shiftr idr1 28) 7 =? 4) then py_raise (Stop "SMMU geometry differs from the A16")
  else py_ret (scr0, si_groups d).
Definition smmu_tlbi (cb : Z) : G unit :=
  wr "SMMU_CB_TLBIASID" cb cb ;;; wr "SMMU_CB_TLBSYNC" 0 cb ;;; poll3 "SMMU_CB_TLBSTATUS" 1 0 K3tlb cb ;;; py_ret tt.

Definition want_smr (sid : Z) : Z := Z.lor SMR_VALID sid.
Definition want_s2cr (cb : Z) : Z := Z.lor (Z.shiftl S2CR_TYPE_TRANS 16) cb.

(** The stream faults and no longer matches. *)
Definition stream_off (smr_index : Z) : G unit :=
  wr "SMMU_S2CR" (Z.shiftl S2CR_TYPE_FAULT 16) smr_index ;;; wr "SMMU_SMR" 0 smr_index.
Definition bank_writes (expect : list (string * Z)) (cb : Z) : list (string * Z) :=
  [("SMMU_CB_SCTLR", 0); ("SMMU_CB_ACTLR", CB_ACTLR); ("SMMU_CBA2R", CBA2R_VA64); ("SMMU_CBAR", CBAR_S1_BYPASS_S2); ("SMMU_CB_TCR2", CB_TCR2);
   ("SMMU_CB_TCR", rget expect "SMMU_CB_TCR"); ("SMMU_CB_TTBR0", rget expect "SMMU_CB_TTBR0"); ("SMMU_CB_TTBR0_HI", rget expect "SMMU_CB_TTBR0_HI");
   ("SMMU_CB_TTBR1", 0); ("SMMU_CB_TTBR1_HI", Z.shiftl cb 16); ("SMMU_CB_MAIR0", CB_MAIR0); ("SMMU_CB_MAIR1", 0); ("SMMU_CB_FSR", 0xFFFFFFFF);
   ("SMMU_CB_SCTLR", CB_SCTLR)].
Definition smmu_program (tables : page_tables) (cb smr_index sid : Z) (wide : bool) : G bool :=
  let expect := smmu_cb_expected tables cb wide in
  let! current := smmu_read_cb cb in
  let! smr := rd "SMMU_SMR" smr_index in
  let! s2cr := rd "SMMU_S2CR" smr_index in
  let ours := cb_same current expect in
  if ours && (smr =? want_smr sid) && (s2cr =? want_s2cr cb) then py_ret false
  else if bits (rget current "SMMU_CB_SCTLR") SCTLR_M && negb ours then py_raise (Stop "context bank is enabled with a configuration that is not ours")
  else if bits smr SMR_VALID && negb (smr =? want_smr sid) then py_raise (Stop "SMR is in use by someone else")
  else
    (if bits smr SMR_VALID then stream_off smr_index ;;; smmu_tlbi cb else py_ret tt) ;;;
    each (fun '(name, value) => wr name value cb) (bank_writes expect cb) ;;;
    smmu_tlbi cb ;;;
    let! readback := smmu_read_cb cb in
    if negb (cb_same readback expect) then py_raise (Stop "context bank did not read back as written") else
    wr "SMMU_S2CR" (want_s2cr cb) smr_index ;;;
    wr "SMMU_SMR" (want_smr sid) smr_index ;;;
    py_ret true.

Definition s2cr_type (s2cr : Z) : Z := Z.land (Z.shiftr s2cr 16) 3.
Definition stream_hits (streams : list (Z * Z * Z)) (sid : Z) : list (Z * Z * Z) := List.filter (fun '(_, smr, _) => smr_matches smr sid) streams.
(** A stream of [sids] reaches memory. *)
Definition sid_live (scr0 : Z) (streams : list (Z * Z * Z)) (sid : Z) : bool :=
  existsb (fun '(_, _, s2cr) => negb (s2cr_type s2cr =? S2CR_TYPE_FAULT)) (stream_hits streams sid) ||
  (match stream_hits streams sid with [] => true | _ => false end && negb (bits scr0 SCR0_USFCFG)).
Definition sids_reaching_memory (scr0 groups : Z) (sids : list Z) : G (list Z) :=
  let! streams := smmu_streams groups in py_ret (List.filter (sid_live scr0 streams) sids).

Definition smmu_disable (cb smr_index sid : Z) : G unit :=
  let! smr := rd "SMMU_SMR" smr_index in
  if bits smr SMR_VALID && negb (Z.land smr 0x7FFF =? sid) then py_raise (Stop "SMR is not ours; leaving it") else
  stream_off smr_index ;;; wr "SMMU_CB_SCTLR" 0 cb ;;; smmu_tlbi cb.
Definition smmu_route (smr_index sid cb : Z) : G bool :=
  let! smr := rd "SMMU_SMR" smr_index in
  let! s2cr := rd "SMMU_S2CR" smr_index in
  if (smr =? want_smr sid) && (s2cr =? want_s2cr cb) then py_ret false
  else if bits smr SMR_VALID && negb (smr =? want_smr sid) then py_raise (Stop "SMR is in use by someone else")
  else wr "SMMU_S2CR" (want_s2cr cb) smr_index ;;; wr "SMMU_SMR" (want_smr sid) smr_index ;;; py_ret true.
Definition smmu_unroute (smr_index sid : Z) : G bool :=
  let! smr := rd "SMMU_SMR" smr_index in
  if negb (bits smr SMR_VALID) then py_ret false
  else if negb (Z.land smr 0x7FFF =? sid) then py_raise (Stop "SMR is not ours; leaving it")
  else stream_off smr_index ;;; py_ret true.

(** [expect]: the bank of every expected stream. *)
Definition stream_ok (streams : list (Z * Z * Z)) (e : Z * Z) : bool :=
  match stream_hits streams (fst e) with [(_, _, s2cr)] => (s2cr_type s2cr =? S2CR_TYPE_TRANS) && (Z.land s2cr 0xFF =? snd e) | _ => false end.
Definition must_fault (streams : list (Z * Z * Z)) (sid : Z) : bool := forallb (fun '(_, _, s2cr) => s2cr_type s2cr =? S2CR_TYPE_FAULT) (stream_hits streams sid).
Definition smmu_verify (groups : Z) (expect : list (Z * Z)) : G unit :=
  let! streams := smmu_streams groups in
  if negb (forallb (stream_ok streams) expect) then py_raise (Stop "a SID does not translate through exactly its bank")
  else if negb (forallb (must_fault streams) MUST_FAULT_SIDS) then py_raise (Stop "a SID must fault but matches")
  else
    let! scr0 := rd "SMMU_sCR0" 0 in
    if negb (bits scr0 SCR0_USFCFG) then py_raise (Stop "USFCFG clear, unmatched streams would bypass") else py_ret tt.
Definition ensure_usfcfg : G unit :=
  let! scr0 := rd "SMMU_sCR0" 0 in
  if negb (bits scr0 SCR0_USFCFG) then wr "SMMU_sCR0" (Z.lor scr0 SCR0_USFCFG) 0 else py_ret tt.

Definition write_tables (tables : page_tables) : G bool :=
  let! image := py_lift (pt_image tables) in
  let '(offset, blob) := image in
  let! current := mem_read offset (zlen blob) in
  if bytes_eqb current blob then py_ret false else
  mem_write offset blob ;;;
  let! check := mem_read offset (zlen blob) in
  if negb (bytes_eqb check blob) then py_raise (Stop "page tables did not read back") else py_ret true.

(** cb_faults: whether the bank holds a fault. *)
Definition cb_faults (cb : Z) : G bool :=
  let! fsr := rd "SMMU_CB_FSR" cb in
  (if bits fsr CB_FSR_FAULT then rd "SMMU_CB_FAR_HI" cb ;;; rd "SMMU_CB_FAR" cb ;;; rd "SMMU_CB_FSYNR0" cb ;;; rd "SMMU_CBFRSYNRA" cb ;;; py_ret tt else py_ret tt) ;;;
  py_ret (bits fsr CB_FSR_FAULT).

(** ** GMU state *)

Record gmu := Gmu { gm_reset : Z; gm_init : Z; gm_hfi : Z }.
Definition gm_booted (g : gmu) : bool := Z.land (gm_init g) GMU_INIT_RESULT_MASK =? GMU_INIT_RESULT_OK.
Definition gm_live (g : gmu) : bool := negb (Z.testbit (gm_reset g) 0).
Definition gm_running (g : gmu) : bool := gm_live g && gm_booted g.
Definition gm_hfi_ready (g : gmu) : bool := Z.testbit (gm_hfi g) 0.
Definition gmu_state : G gmu :=
  let! reset := rd "GMU_CM3_SYSRESET" 0 in
  let! init := rd "GMU_CM3_FW_INIT_RESULT" 0 in
  let! hfi := rd "GMU_HFI_CTRL_STATUS" 0 in
  py_ret (Gmu reset init hfi).

(** ** P2: gmu-smmu *)

Definition gmu_tables : G page_tables := let! base := arena_base in py_lift (build_tables base GmuTables false).
Definition cmd_gmu_smmu (a : args) : G unit :=
  prologue NEED ;;;
  arena_prove false (a_limit a) ;;;
  set_step "G1" ;;;
  let! globals := smmu_globals in
  let! state := gmu_state in
  if a_undo a then
    if gm_live state then py_raise (Stop "the GMU CM3 is out of reset") else
    smmu_disable GMU_CB GMU_SMR GMU_SID ;;; host_set "gmu_ttbr" 0 ;;; write_host ;;; order "gmu_smmu_undone"
  else
    set_step "G2" ;;;
    let! tables := gmu_tables in
    (if gm_live state then
       let! image := py_lift (pt_image tables) in
       let! current := mem_read (fst image) (zlen (snd image)) in
       if negb (bytes_eqb current (snd image)) then py_raise (Stop "the GMU is running on tables that differ") else py_ret tt
     else write_tables tables ;;; py_ret tt) ;;;
    order "gmu_tables" ;;;
    set_step "G3" ;;;
    (if gm_live state then
       let! current := smmu_read_cb GMU_CB in
       if negb (cb_same current (smmu_cb_expected tables GMU_CB false)) then py_raise (Stop "the GMU runs on a context bank that is not ours") else py_ret tt
     else smmu_program tables GMU_CB GMU_SMR GMU_SID false ;;; py_ret tt) ;;;
    ensure_usfcfg ;;;
    order "gmu_cb" ;;;
    set_step "G4" ;;;
    let! gpu := host_get "gpu_ttbr" in
    smmu_verify (snd globals) ((GMU_SID, GMU_CB) :: (if gpu =? 0 then [] else map (fun sid => (sid, GPU_CB)) GPU_SIDS)) ;;;
    cb_faults GMU_CB ;;;
    host_set "gmu_ttbr" (ttbr_for tables GMU_CB) ;;;
    write_host ;;;
    order "gmu_smmu_verified" ;;;
    prove gmu_smmu (EvText "gmu-smmu").

Definition gmu_smmu_proven : G unit :=
  let! tables := gmu_tables in
  let! current := smmu_read_cb GMU_CB in
  if negb (cb_same current (smmu_cb_expected tables GMU_CB false)) then py_raise (Stop "GMU context bank is not set up") else
  let! globals := smmu_globals in
  smmu_verify (snd globals) [(GMU_SID, GMU_CB)] ;;;
  prove gmu_smmu (EvText "read back").

(** ** RPMh: the apps RSC *)

Record rsc_layout_t := RscLayout { rl_suffix : string; rl_max_tcs : Z; rl_ncpt : Z }.
Definition rsc_layout : G rsc_layout_t :=
  let! drv_id := rd "RSC_DRV_ID" 0 in
  let! config := rd "RSC_DRV_PRNT_CHLD_CONFIG" 0 in
  let l := RscLayout (if 3 <=? Z.land (Z.shiftr drv_id 16) 0xFF then "_V3" else "_V2") (Z.land (Z.shiftr config (6 * 2)) 0x3F) (Z.land (Z.shiftr config 27) 0x1F) in
  if (rl_max_tcs l <? RSC_NUM_TCS) || negb ((1 <=? rl_ncpt l) && (rl_ncpt l <=? 16)) then py_raise (Stop "not the 8-TCS layout") else py_ret l.

(** The enabled commands of a TCS: (address, data). *)
Definition rsc_tcs (l : rsc_layout_t) (tcs : Z) : G (Z * list (Z * Z)) :=
  let sfx := rl_suffix l in
  let! enable := rd ("RSC_TCS_CMD_ENABLE" +:+ sfx) tcs in
  rd ("RSC_TCS_STATUS" +:+ sfx) tcs ;;;
  rd ("RSC_TCS_CONTROL" +:+ sfx) tcs ;;;
  let! cmds := collect (fun cmd =>
    let at_ := tcs * 16 + cmd in
    let! addr := rd ("RSC_TCS_CMD_ADDR" +:+ sfx) at_ in
    let! data := rd ("RSC_TCS_CMD_DATA" +:+ sfx) at_ in
    rd ("RSC_TCS_CMD_MSGID" +:+ sfx) at_ ;;;
    py_ret (addr, data)) (List.filter (fun cmd => Z.testbit enable cmd) (seqZ 0 (rl_ncpt l))) in
  py_ret (tcs, cmds).
Definition rsc_survey (l : rsc_layout_t) : G (list (Z * list (Z * Z))) := collect (rsc_tcs l) (seqZ 0 RSC_NUM_TCS).

Definition zmax (l : list Z) : option Z := match l with [] => None | x :: rest => Some (foldr Z.max x rest) end.
Definition rsc_existing (survey : list (Z * list (Z * Z))) (addr : Z) (skip : list Z) : option Z :=
  zmax (flat_map (fun '(tcs, cmds) => if existsb (Z.eqb tcs) skip then [] else map snd (List.filter (fun '(a, _) => a =? addr) cmds)) survey).

(** The commands from index [j] on, and the enable mask. *)
Fixpoint rsc_commands (sfx : string) (tcs j enable : Z) (cmds : list (Z * Z)) : G Z :=
  match cmds with
  | [] => py_ret enable
  | (addr, data) :: rest =>
      let at_ := tcs * 16 + j in
      wr ("RSC_TCS_CMD_MSGID" +:+ sfx) (Z.lor (Z.lor CMD_MSGID_LEN CMD_MSGID_WRITE) CMD_MSGID_RESP_REQ) at_ ;;;
      wr ("RSC_TCS_CMD_ADDR" +:+ sfx) addr at_ ;;;
      wr ("RSC_TCS_CMD_DATA" +:+ sfx) data at_ ;;;
      rsc_commands sfx tcs (j + 1) (Z.lor enable (Z.shiftl 1 j)) rest
  end.
Definition rsc_send (l : rsc_layout_t) (tcs : Z) (cmds : list (Z * Z)) : G unit :=
  let sfx := rl_suffix l in
  let! status := rd ("RSC_TCS_STATUS" +:+ sfx) tcs in
  let! busy := (if status =? 0 then py_ret true else let! e := rd ("RSC_TCS_CMD_ENABLE" +:+ sfx) tcs in py_ret (negb (e =? 0))) in
  if busy then py_raise (Stop "active TCS is busy") else
  let! enable := rsc_commands sfx tcs 0 0 cmds in
  wr ("RSC_TCS_CMD_ENABLE" +:+ sfx) enable tcs ;;;
  wr_update "RSC_IRQ_ENABLE" (Z.shiftl 1 tcs) (Z.shiftl 1 tcs) 0 ;;;
  let! c := rd ("RSC_TCS_CONTROL" +:+ sfx) tcs in
  let control := Z.land c (Z.lnot (Z.lor TCS_AMC_MODE_TRIGGER TCS_AMC_MODE_ENABLE)) in
  wr ("RSC_TCS_CONTROL" +:+ sfx) control tcs ;;;
  wr ("RSC_TCS_CONTROL" +:+ sfx) (Z.lor control TCS_AMC_MODE_ENABLE) tcs ;;;
  wr ("RSC_TCS_CONTROL" +:+ sfx) (Z.lor (Z.lor control TCS_AMC_MODE_ENABLE) TCS_AMC_MODE_TRIGGER) tcs ;;;
  py_finally
    (each (fun j => poll3 ("RSC_TCS_CMD_STATUS" +:+ sfx) CMD_STATUS_COMPL CMD_STATUS_COMPL K3rsc (tcs * 16 + j) ;;; py_ret tt) (seqZ 0 (zlen cmds)) ;;;
     rd "RSC_IRQ_STATUS" 0 ;;; py_ret tt)
    (wr ("RSC_TCS_CONTROL" +:+ sfx) control tcs ;;;
     wr ("RSC_TCS_CMD_ENABLE" +:+ sfx) 0 tcs ;;;
     wr "RSC_IRQ_CLEAR" (Z.shiftl 1 tcs) 0).

(** out['cmd_db'].get('gpu') or {}. *)
Definition gpu_db : G cmd_db := py_get (fun s => default [] (o_cmd_db (ss_out s))).

(** The vote of one rail: the commands to send and whether its current vote is unseen. *)
Definition rail_vote (a : args) (db : cmd_db) (survey : list (Z * list (Z * Z))) (key field : string) : G (list (Z * Z) * bool) :=
  let! e := py_lift (db_get db key) in
  let! floor := py_lift (match List.find (fun x => String.eqb (fst x) (a_rail_level a)) RPMH_LEVELS with Some x => Ok (snd x) | None => Raise (KeyError (a_rail_level a)) end) in
  let! want := py_lift (match first_at_least floor (aux_levels e) 0 with Some j => Ok j | None => Raise (TypeError "NoneType") end) in
  let existing := rsc_existing survey (de_addr e) RSC_SLEEP_TCS in
  let vote := Z.max (Z.max want (default 0 existing)) (default 0 (rsc_existing survey (de_addr e) [])) in
  let! sent := host_get field in
  let vote := if sent =? 0 then vote else Z.max vote (sent - 1) in
  if sent =? vote + 1 then py_ret ([], false) else
  host_set field (vote + 1) ;;;
  py_ret ([(de_addr e, vote)], match existing with None => true | Some _ => false end).

Fixpoint bw_commands (db : cmd_db) (survey : list (Z * list (Z * Z))) (names : list string) (data : list Z) : result (list (Z * Z)) :=
  match names, data with
  | name :: names', d :: data' =>
      let? e := db_get db name in
      let? rest := bw_commands db survey names' data' in
      Ok (match rsc_existing survey (de_addr e) [] with
          | Some x => if Z.land d 0x0FFFFFFF <=? Z.land x 0x0FFFFFFF then rest else (de_addr e, d) :: rest
          | None => (de_addr e, d) :: rest
          end)
  | _, _ => Ok []
  end.
(** The optional DDR vote; [bin] is out['speed_bin']. *)
Definition host_bw (db : cmd_db) (survey : list (Z * list (Z * Z))) (bin : option Z) : result (list (Z * Z)) :=
  match bin with
  | None => Raise (TypeError "NoneType")
  | Some b =>
      match opp_levels b 1 with
      | [] => Raise IndexError
      | o :: _ => let? data := bw_votes db (opp_bw o) in bw_commands db survey (map (fun x => x.1.1.1) GPU_BCMS) data
      end
  end.

Definition step_rpmh (a : args) (bin : option Z) : G unit :=
  set_step "B1" ;;;
  let! db := gpu_db in
  if negb (db_has db "cx.lvl" && db_has db "mx.lvl") then py_raise (Stop "cmd-db cx.lvl/mx.lvl were not read in S0") else
  let! l := rsc_layout in
  let! survey := rsc_survey l in
  let! mx := rail_vote a db survey "mx.lvl" "rsc_mx" in
  let! cx := rail_vote a db survey "cx.lvl" "rsc_cx" in
  if (snd mx || snd cx) && negb (a_rail_vote_unseen a) then py_raise (Stop "no wake TCS shows drv-2's current vote") else
  let! bw := (if a_host_bw a then py_lift (host_bw db survey bin) else py_ret []) in
  let cmds := fst mx ++ fst cx ++ bw in
  match cmds with [] => order "rpmh" | _ => rsc_send l (default 0 (RSC_ACTIVE_TCS !! 0%nat)) cmds ;;; order "rpmh" end.

(** ** B2: clocks *)

Definition pll_on : G unit :=
  wr_update "GPU_CC_PLL0_MODE" PLL_MODE_RESET_N PLL_MODE_RESET_N 0 ;;;
  wr "GPU_CC_PLL0_OPMODE" PLL_OPMODE_RUN 0 ;;;
  py_reraise (poll3 "GPU_CC_PLL0_MODE" PLL_MODE_LOCK_DET PLL_MODE_LOCK_DET K3pll 0) is_timeout (wr "GPU_CC_PLL0_OPMODE" PLL_OPMODE_STANDBY 0) ;;;
  wr_update "GPU_CC_PLL0_USER_CTL" PLL_USER_OUT_MASK PLL_USER_OUT_MASK 0 ;;;
  wr_update "GPU_CC_PLL0_MODE" PLL_MODE_OUTCTRL PLL_MODE_OUTCTRL 0 ;;;
  py_ret tt.
Definition pll_off : G unit :=
  wr_update "GPU_CC_PLL0_MODE" PLL_MODE_OUTCTRL 0 0 ;;;
  wr_update "GPU_CC_PLL0_USER_CTL" PLL_USER_OUT_MASK 0 0 ;;;
  wr "GPU_CC_PLL0_OPMODE" PLL_OPMODE_STANDBY 0.
Definition PLL0_CONFIG : list (string * Z) :=
  [("GPU_CC_PLL0_L_VAL", PLL0_L_VAL); ("GPU_CC_PLL0_ALPHA_VAL", PLL0_ALPHA); ("GPU_CC_PLL0_CONFIG_CTL", PLL0_CONFIG_CTL);
   ("GPU_CC_PLL0_CONFIG_CTL_U", PLL0_CONFIG_CTL_U); ("GPU_CC_PLL0_CONFIG_CTL_U1", PLL0_CONFIG_CTL_U1); ("GPU_CC_PLL0_USER_CTL", PLL0_USER_CTL);
   ("GPU_CC_PLL0_USER_CTL_U", PLL0_USER_CTL_U)].
Definition pll0_enable : G unit :=
  let! mode := rd "GPU_CC_PLL0_MODE" 0 in
  let! opmode := rd "GPU_CC_PLL0_OPMODE" 0 in
  let! user := rd "GPU_CC_PLL0_USER_CTL" 0 in
  if bits user PLL_USER_VOTE_RUN then py_raise (Stop "PLL0 is in FSM (vote) mode") else
  if bits opmode PLL_OPMODE_RUN && bits mode PLL_MODE_OUTCTRL then
    let! l_val := rd "GPU_CC_PLL0_L_VAL" 0 in
    let! alpha := rd "GPU_CC_PLL0_ALPHA_VAL" 0 in
    if negb (Z.land l_val 0xFFFF =? Z.land PLL0_L_VAL 0xFFFF) || negb (alpha =? PLL0_ALPHA) || negb (bits mode PLL_MODE_LOCK_DET)
    then py_raise (Stop "PLL0 already runs, not at 1150 MHz") else py_ret tt
  else
    each (fun '(name, value) => wr name value 0) PLL0_CONFIG ;;;
    wr_update "GPU_CC_PLL0_MODE" PLL_MODE_OUTCTRL 0 0 ;;;
    wr "GPU_CC_PLL0_OPMODE" PLL_OPMODE_STANDBY 0 ;;;
    wr_update "GPU_CC_PLL0_MODE" PLL_MODE_RESET_N PLL_MODE_RESET_N 0 ;;;
    let! m := rd "GPU_CC_PLL0_MODE" 0 in
    (if bits m PLL_MODE_PCAL_NOT_DONE then pll_on ;;; pll_off else py_ret tt) ;;;
    pll_on ;;;
    let! mode := rd "GPU_CC_PLL0_MODE" 0 in
    if negb (bits mode PLL_MODE_LOCK_DET) || negb (bits mode PLL_MODE_OUTCTRL) then py_raise (Stop "PLL0 not locked with outputs on") else py_ret tt.

Definition rcg_switch (cmd cfg_name : string) (value : Z) : G unit :=
  let! cfg := rd cfg_name 0 in
  if Z.land cfg RCG_CFG_SRC_MASK =? value then py_ret tt else
  wr_update cmd RCG_CMD_ROOT_EN RCG_CMD_ROOT_EN 0 ;;;
  py_reraise
    (poll3 cmd RCG_CMD_ROOT_OFF 0 K3rcg 0 ;;;
     wr cfg_name (Z.lor (Z.land cfg (Z.lnot (Z.lor RCG_CFG_SRC_MASK (Z.shiftl 1 20)))) value) 0 ;;;
     wr_update cmd RCG_CMD_UPDATE RCG_CMD_UPDATE 0 ;;;
     poll3 cmd RCG_CMD_UPDATE 0 K3rcg 0)
    is_timeout
    (py_catch (wr_update cmd RCG_CMD_ROOT_EN 0 0 ;;; py_ret tt) is_stop (py_ret tt)) ;;;
  wr_update cmd RCG_CMD_ROOT_EN 0 0 ;;;
  py_ret tt.

Definition gpll0_check (name : string) : G unit :=
  let! value := rd name 0 in
  if negb (bits value CBCR_HW_CTL) && bits value CBCR_CLK_OFF then py_raise (Stop "GPLL0 is not reaching GPUCC") else py_ret tt.
Definition branch_check (name : string) : G unit :=
  let! value := rd name 0 in if bits value CBCR_CLK_OFF then py_raise (Stop "stopped after the RCG switch") else py_ret tt.
Definition step_clocks : G unit :=
  set_step "B2" ;;;
  each gpll0_check ["GCC_GPU_GPLL0_CLK_SRC_CBCR"; "GCC_GPU_GPLL0_DIV_CLK_SRC_CBCR"] ;;;
  pll0_enable ;;;
  rcg_switch "GPU_CC_GMU_CMD_RCGR" "GPU_CC_GMU_CFG_RCGR" GMU_RCG_CFG_575 ;;;
  rcg_switch "GPU_CC_HUB_CMD_RCGR" "GPU_CC_HUB_CFG_RCGR" HUB_RCG_CFG_200 ;;;
  each branch_check ["GPU_CC_CX_GMU_CBCR"; "GPU_CC_HUB_CX_INT_CBCR"; "GPU_CC_RSCC_HUB_AON_CBCR"] ;;;
  order "clocks".

Definition ahb_ports : list Z := seqZ 0 (zlen CX_AHB_PORTS).
Definition ahb_read : G (list Z) := collect (fun n => rd "CX_MISC_CX_AHB_CNTL" n) ahb_ports.
Definition ahb_timeouts (a : args) : G unit :=
  if a_no_ahb_timeout a then ahb_read ;;; py_modify (upd_out (o_set_ahb None)) else
  let! h := rd "GPU_CC_HUB_CFG_RCGR" 0 in
  let hub_cfg := Z.land h RCG_CFG_SRC_MASK in
  match (let? hz := match List.find (fun e => fst e =? hub_cfg) HUB_HZ with Some e => Ok (snd e) | None => Raise IndexError end in
         match ahb_timeout_cntl hz with Some w => Ok w | None => Raise IndexError end) with
  | Raise _ => py_raise (Stop "HUB RCG CFG is not a rate the AHB timeout can be sized for")
  | Ok want =>
      let! before := ahb_read in
      if existsb (fun v => bits v (Z.lnot AHB_CNTL_FIELDS)) before
      then py_modify (upd_out (o_set_ahb None)) ;;; py_raise (Stop "CX AHB timeout registers are not the ones KGSL describes") else
      each (fun '(n, value) => if negb (value =? want) then wr "CX_MISC_CX_AHB_CNTL" want n else py_ret tt) (zip ahb_ports before) ;;;
      let! after := ahb_read in
      py_modify (upd_out (o_set_ahb (Some want))) ;;;
      if negb (forallb (Z.eqb want) after) then py_raise (Stop "CX AHB timeout is not armed") else py_ret tt
  end.

(** ** B3: TrustZone *)

Definition left_pending (status : Z) : bool := existsb (Z.eqb status) TZ_LEFT_PENDING.
Definition step_tz (force : bool) : G unit :=
  set_step "B3" ;;;
  let! state := read_gpu_state in
  let! tz := host_get "tz_ok" in
  let pending := (tz =? TZ_PENDING) || left_pending (signed64 (rget state "smc_status")) in
  if pending && negb force then py_raise (Stop "the last SMC was left pending in TrustZone") else
  (if (negb (rget state "smc_ok" =? 0) || (tz =? 1)) && negb force then py_ret tt else
   let! status := call_gpu GPU_SMC SMC_GPU_INIT in
   let! state := read_gpu_state in
   (if left_pending status then host_set "tz_ok" TZ_PENDING ;;; write_host else py_ret tt) ;;;
   if negb (status =? 0) then py_raise (Stop "SMC not completed")
   else if negb (rget state "smc_res0" =? 0) then py_raise (Stop "TrustZone refused the SMC")
   else host_set "tz_ok" 1 ;;; write_host) ;;;
  rd "CX_MISC_SW_FUSE_VALUE" 0 ;;;
  order "tz".

(** ** B6..B9: firmware and CM3 start *)

Fixpoint write_words (name : string) (word : Z) (n : nat) (j : Z) (data : bytes) : G unit :=
  match n with
  | O => py_ret tt
  | Datatypes.S k => let! v := py_lift (u32 data j) in wr name v (word + j) ;;; write_words name word k (j + 1) data
  end.
Definition write_tcm (name : string) (e : Z * bytes) : G unit := write_words name (fst e) (Z.to_nat (zlen (snd e) / 4)) 0 (snd e).
Definition step_fw_load (gmu_fw : bytes) : G unit :=
  set_step "B7" ;;;
  let! blocks := py_lift (parse_gmu_fw gmu_fw) in
  let! plan := py_lift (plan_gmu_fw blocks) in
  if negb (bool_decide (pl_version plan = Some GMU_FW_VERSION)) then py_raise (Stop "GMU firmware version word is not the pinned one") else
  wr "GMU_CM3_SYSRESET" 1 0 ;;;
  let! reset := rd "GMU_CM3_SYSRESET" 0 in
  if negb (Z.testbit reset 0) then py_raise (Stop "CM3_SYSRESET does not read back 1") else
  prove gmu_reset EvReset ;;;
  each (write_tcm "GMU_CM3_ITCM") (pl_itcm plan) ;;;
  each (write_tcm "GMU_CM3_DTCM") (pl_dtcm plan) ;;;
  each fill_region ["gmu_icache"; "gmu_dummy"; "gmu_debug"; "gmu_log"] ;;;
  each (fun '(buffer, offset, data) => mem_write (region_off ("gmu_" +:+ buffer) + offset) data) (pl_memory plan) ;;;
  fill_region "gmu_hfi" ;;;
  mem_write (region_off "gmu_hfi") hfi_table_image ;;;
  let! version := rd "GMU_CORE_FW_VERSION" 0 in
  if negb (version =? GMU_FW_VERSION) then py_raise (Stop "CORE_FW_VERSION is not the pinned one") else order "fw_load".

Definition GMU_REGS : list (string * Z) :=
  [("GMU_CM3_FW_INIT_RESULT", 0); ("GMU_CM3_BOOT_CONFIG", GMU_BOOT_CONFIG_VALUE); ("GMU_HFI_QTBL_ADDR", GMU_HFI_VA); ("GMU_HFI_QTBL_INFO", 1);
   ("GMU_AHB_FENCE_RANGE_0", GMU_FENCE_RANGE_0); ("GMU_CM3_CFG", GMU_CM3_CFG_VALUE); ("GMU_GENERAL_10", GMU_CHIPID_A8);
   ("GMU_GENERAL_8", Z.lor (Z.land GMU_LOG_VA 0xFFFFF000) (Z.land (GMU_LOG_SIZE / 4096 - 1) 0xFF));
   ("GBIF_QSB_SIDE0", GBIF_QSB_SIDE_VALUE); ("GBIF_QSB_SIDE1", GBIF_QSB_SIDE_VALUE); ("GBIF_QSB_SIDE2", GBIF_QSB_SIDE_VALUE); ("GBIF_QSB_SIDE3", GBIF_QSB_SIDE_VALUE);
   ("GBIF_CX_CONFIG", GBIF_CX_CONFIG_VALUE); ("GBIF_CX_CONFIG", GBIF_CX_CONFIG_VALUE); ("GMU_MRC_GBIF_QOS_CTRL", MRC_GBIF_QOS_VALUE);
   ("GMU_SYS_BUS_CONFIG", 1); ("GMU_ICACHE_CONFIG", 1); ("GMU_DCACHE_CONFIG", 1)].
Definition wr_all (l : list (string * Z)) : G unit := each (fun '(name, value) => wr name value 0) l.
Definition step_gmu_regs : G unit :=
  set_step "B8" ;;;
  wr_all GMU_REGS ;;;
  rd "GBIF_HALT_ACK" 0 ;;;
  wr "GBIF_HALT" GBIF_HALT_CLEAR_GEN8 0 ;;;
  rd "GBIF_HALT" 0 ;;;
  rd "GBIF_HALT_ACK" 0 ;;;
  order "gmu_regs".

(** _gmu_diagnostics: a Stop inside it is only recorded. *)
Definition gmu_diagnostics : G unit :=
  py_catch (rd "GMU_AO_HOST_INTERRUPT_STATUS" 0 ;;; rd "GMU_GMU2HOST_INTR_INFO" 0 ;;; cb_faults GMU_CB ;;; py_ret tt) is_stop (py_ret tt).
Definition step_gmu_start (a : args) : G unit :=
  set_step "B9" ;;;
  let! version := rd "GMU_CORE_FW_VERSION" 0 in
  let '(mask, want) := if 0x20010004 <? version then (GMU_INIT_RESULT_MASK, GMU_INIT_RESULT_OK) else GMU_INIT_RESULT_LEGACY in
  wr "GMU_CM3_SYSRESET" 1 0 ;;;
  wr "GMU_GENERAL_9" 0 0 ;;;
  withdraw gmu_reset ;;;
  wr "GMU_CM3_SYSRESET" 0 0 ;;;
  py_reraise (poll3b "GMU_CM3_FW_INIT_RESULT" mask want K3gmu_init 0 (a_init_timeout a)) is_timeout gmu_diagnostics ;;;
  wr "GMU_HFI_CTRL_INIT" 1 0 ;;;
  poll3b "GMU_HFI_CTRL_STATUS" 1 1 K3hfi_start 0 100 ;;;
  wr "GMU_GMU2HOST_INTR_CLR" 0xFFFFFFFF 0 ;;;
  wr "GMU_GMU2HOST_INTR_MASK" (Z.land (Z.lnot GMU2HOST_CM3_FAULT) 0xFFFFFFFF) 0 ;;;
  host_set "boot_token" (Z.lor (a_random a) 1) ;;;
  each (fun k => host_set k 0) ["hfi_token"; "hfi_seq"; "oob_token"; "cp_token"; "hwinit_token"] ;;;
  write_host ;;;
  order "gmu_start".

Definition step_rpmh_start : G unit :=
  let! status0 := rd "RSCC_RSC_STATUS0_DRV0" 0 in
  let! slept := host_get "pdc_sleep" in
  if (slept =? 0) && negb (Z.testbit status0 16) then py_ret tt else
  wr "GMU_RSCC_CONTROL_REQ" (Z.shiftl 1 1) 0 ;;;
  poll3 "GMU_RSCC_CONTROL_ACK" (Z.shiftl 1 1) (Z.shiftl 1 1) K3rscc 0 ;;;
  poll3 "RSCC_SEQ_BUSY_DRV0" 0xFFFFFFFF 0 K3rscc 0 ;;;
  wr "GMU_RSCC_CONTROL_REQ" 0 0 ;;;
  host_set "pdc_sleep" 0 ;;;
  write_host ;;;
  order "rscc_start".
Definition step_irq_setup : G unit :=
  set_step "B6" ;;;
  wr "GMU_AO_HOST_INTERRUPT_CLR" 0xFFFFFFFF 0 ;;;
  wr "GMU_AO_HOST_INTERRUPT_MASK" (Z.land (Z.lnot (Z.lor (Z.lor AO_HOST_IRQ_WDOG AO_HOST_IRQ_AHB_ERR) AO_HOST_IRQ_FENCE_ERR)) 0xFFFFFFFF) 0 ;;;
  wr "GMU_CX_FALNEXT_INTF" 1 0 ;;;
  wr "GMU_CX_FAL_INTF" 1 0 ;;;
  rd "CX_MISC_SLICE_ENABLE_FINAL" 0 ;;;
  order "irq_fal" ;;;
  step_rpmh_start.

(** The steps in order; a run may end after one of them. *)
Fixpoint run_steps (a : args) (steps : list (string * G unit)) : G bool :=
  match steps with
  | [] => py_ret true
  | (id, m) :: rest => m ;;; if stops_at a id then write_host ;;; py_ret false else run_steps a rest
  end.
Definition cmd_gmu_boot (a : args) : G unit :=
  prologue NEED ;;;
  arena_prove false (a_limit a) ;;;
  set_step "B0" ;;;
  let! bin := py_get (fun s => match o_speed_bin (ss_out s) with Some b => b | None => Some 1 end) in
  gmu_smmu_proven ;;;
  let! state := gmu_state in
  let! token := host_get "boot_token" in
  if gm_running state && gm_hfi_ready state then
    if negb (token =? 0) then order "gmu_running" else py_raise (Stop "a GMU is running that this arena did not boot")
  else
    let! tcm := rd "CX_MISC_TCM_RET_CNTL" 0 in
    if negb (tcm =? 0) then py_raise (Stop "the GMU would take the warm-boot path") else
    let! fw := py_lift (load_firmware (a_files a)) in
    order "gmu_checks" ;;;
    let! done_ := run_steps a [("B1", step_rpmh a bin); ("B2", step_clocks ;;; ahb_timeouts a); ("B3", step_tz (a_force_smc a)); ("B6", step_irq_setup);
                               ("B7", step_fw_load (fw_get fw "gmu")); ("B8", step_gmu_regs); ("B9", step_gmu_start a)] in
    if negb done_ then py_ret tt else
    let! fault := cb_faults GMU_CB in
    if fault then py_raise (Stop "context bank 1 recorded a fault while the GMU booted") else prove gmu_booted (EvText "INIT_RESULT").

(** ** P4: HFI *)

Definition gmu_running_proven : G unit :=
  gmu_smmu_proven ;;;
  let! state := gmu_state in
  if negb (gm_running state && gm_hfi_ready state) then py_raise (Stop "the GMU is not running with HFI ready") else
  let! token := host_get "boot_token" in
  if token =? 0 then py_raise (Stop "the running GMU was not booted from this arena record") else
  let! fault := cb_faults GMU_CB in
  if fault then py_raise (Stop "context bank 1 holds a fault") else prove gmu_booted (EvText "HFI ready").

(** struct.unpack('<12I', ...). *)
Fixpoint words_of (d : bytes) : list Z :=
  match d with a :: b :: c :: e :: rest => le_Z [a; b; c; e] :: words_of rest | _ => [] end.
Definition queue_header (queue : Z) : G (list Z) :=
  let! d := mem_read (hfi_header_offset queue "status") 48 in
  if negb (zlen d =? 48) then py_raise StructError else py_ret (words_of d).
Definition qh (h : list Z) (i : nat) : Z := default 0 (h !! i).

Definition drained : string := "hfi cmd queue drained (DRAM)".
Fixpoint drain_loop (left : nat) (deadline attempt : Z) : G (list Z) :=
  match left with
  | O => py_modify (upd_polls (drained, attempt - 1, false)) ;;; py_raise (Stop "HFI command queue not drained")
  | Datatypes.S k =>
      let! h := queue_header 0 in
      let size := qh h 3 in let read := qh h 10 in let write := qh h 11 in
      if negb (size =? HFI_QUEUE_DWORDS) || (size <=? read) || (size <=? write) || negb (read mod 4 =? 0) || negb (write mod 4 =? 0)
      then py_raise (Stop "HFI command queue header is corrupt") else
      if read =? write then py_modify (upd_polls (drained, attempt, true)) ;;; py_ret h else
      let! late := (if 2 <=? attempt then let! now := on_t t_now in py_ret (deadline <? now) else py_ret false) in
      if late then py_modify (upd_polls (drained, attempt, false)) ;;; py_raise (Stop "HFI command queue not drained") else drain_loop k deadline (attempt + 1)
  end.
Definition cmd_queue_drained : G (list Z) := let! now := on_t t_now in drain_loop (fst HFI_DRAIN) (now + snd HFI_DRAIN) 1.

Inductive rsp := RspAck (words : list Z) | RspSkip.
Definition is_ack (seq msg_id : Z) (words : list Z) : bool :=
  let w0 := qh words 0 in let w1 := qh words 1 in
  ((Z.land w0 0xFF =? HFI_F2H_MSG_ACK) || ((Z.land (Z.shiftr w0 16) 0xF =? HFI_MSG_TYPE_ACK) && (Z.land w0 0xFF =? msg_id))) &&
  negb (zlen words <? 3) && (Z.land (Z.shiftr w1 20) 0xFFF =? seq) && (Z.land w1 0xFF =? msg_id).
Definition take_response (seq msg_id size read : Z) : G rsp :=
  let! page := mem_read (hfi_data_offset 1 0) (4 * size) in
  let! first := py_lift (u32 page read) in
  let dwords := Z.land (Z.shiftr first 8) 0xFF in
  if negb ((1 <=? dwords) && (dwords <=? 19)) then py_raise (Stop "HFI response header has a bad size: corrupt queue") else
  let! r := py_lift (ring_words (Z.to_nat dwords) size read page) in
  let '(words, at_) := r in
  cmd_queue_drained ;;;
  mem_store32 (hfi_header_offset 1 "read_index") (Z.land (at_ + 3) (Z.lnot 3) mod size) ;;;
  if Z.land (qh words 0) 0xFF =? HFI_F2H_MSG_ERROR then py_modify (upd_log (LHfi "hfi_error" words)) ;;; py_ret RspSkip
  else if negb (is_ack seq msg_id words) then py_modify (upd_log (LHfi "hfi_skipped" words)) ;;; py_ret RspSkip
  else if negb (qh words 2 =? 0) then py_raise (Stop "HFI returned an error") else py_ret (RspAck words).

(** The messages of one round; [None] when the queue is empty. *)
Fixpoint drain_responses (left : nat) (seq msg_id : Z) : G (option (list Z)) :=
  match left with
  | O => py_raise (Stop "the response queue did not drain")
  | Datatypes.S k =>
      let! h := queue_header 1 in
      let size := qh h 3 in let read := qh h 10 in let write := qh h 11 in
      if read =? write then py_ret None else
      if negb (size =? HFI_QUEUE_DWORDS) || (size <=? read) || (size <=? write) then py_raise (Stop "HFI response queue header is corrupt") else
      let! r := take_response seq msg_id size read in
      match r with RspAck words => py_ret (Some words) | RspSkip => drain_responses k seq msg_id end
  end.
Fixpoint ack_rounds (left : nat) (seq msg_id : Z) : G (list Z) :=
  match left with
  | O => py_raise (Stop "no acknowledgement")
  | Datatypes.S k =>
      poll3b "GMU_GMU2HOST_INTR_INFO" GMU2HOST_MSGQ GMU2HOST_MSGQ K3msgq 0 1000 ;;;
      wr "GMU_GMU2HOST_INTR_CLR" GMU2HOST_MSGQ 0 ;;;
      let! r := drain_responses (Z.to_nat (HFI_QUEUE_DWORDS / 4 + 1)) seq msg_id in
      match r with Some words => py_ret words | None => ack_rounds k seq msg_id end
  end.
Definition hfi_wait_ack (seq msg_id : Z) : G (list Z) := ack_rounds 4 seq msg_id.

Definition hfi_send (msg_id : Z) (payload : list Z) : G (list Z) :=
  let words_needed := 1 + zlen payload in
  let! h := cmd_queue_drained in
  let size := qh h 3 in let read := qh h 10 in let write := qh h 11 in
  if (read - write - 1) mod size <? words_needed then py_raise (Stop "HFI command queue has no room") else
  let! old := host_get "hfi_seq" in
  let seq := (old + 1) mod 0xFFF in
  host_set "hfi_seq" seq ;;;
  let '(data, next) := hfi_place size write (hfi_header seq msg_id words_needed :: payload) in
  let '(padding, next) := hfi_pad 4 size next in
  each (fun '(at_, run) => let! d := py_lift (pack_Is run) in mem_write (hfi_data_offset 0 at_) d) (hfi_runs (data ++ padding)) ;;;
  mem_store32 (hfi_header_offset 0 "write_index") next ;;;
  wr "GMU_HOST2GMU_INTR_SET" 1 0 ;;;
  let! response := hfi_wait_ack seq msg_id in
  write_host ;;;
  py_ret response.

Definition hfi_tables (a : args) (db : cmd_db) (bin : Z) : result (list (string * Z * list Z)) :=
  let? perf := perf_table db bin (a_max_opps a) 1 in
  let? bw := bw_table db bin (a_max_opps a) in
  let? vote := perf_vote bin (a_max_opps a) (a_perf_opp a) in
  Ok [("H1", HFI_MSG_TABLE, perf); ("H2", HFI_MSG_BW_TABLE, bw); ("H3", HFI_MSG_CORE_FW_START, [0]); ("H4", HFI_MSG_START, []); ("H5", HFI_MSG_GX_BW_PERF_VOTE, vote)].

Fixpoint hfi_sequence (a : args) (bin : Z) (msgs : list (string * Z * list Z)) : G unit :=
  match msgs with
  | [] => py_ret tt
  | (id, msg_id, payload) :: rest =>
      set_step id ;;;
      hfi_send msg_id payload ;;;
      order ("hfi_" +:+ id) ;;;
      (if String.eqb id "H4" then
         let! token := host_get "boot_token" in
         host_set "hfi_token" token ;;; host_set "hfi_opps" (zlen (opp_levels bin (a_max_opps a))) ;;; write_host
       else py_ret tt) ;;;
      if stops_at a id then py_ret tt else hfi_sequence a bin rest
  end.
Definition cmd_hfi (a : args) : G unit :=
  prologue NEED ;;;
  arena_prove false (a_limit a) ;;;
  set_step "H0" ;;;
  gmu_running_proven ;;;
  let! hfi := host_get "hfi_token" in
  let! boot := host_get "boot_token" in
  if (hfi =? boot) && negb (a_resend a) then order "hfi_done" else
  let! db := gpu_db in
  if negb (forallb (db_has db) CMD_DB_GPU_KEYS) then py_raise (Stop "cmd-db entries missing for the HFI tables") else
  let! sb := py_get (fun s => o_speed_bin (ss_out s)) in
  match sb with
  | Some (Some bin) =>
      let! safe := py_lift (rail_safe_opps db bin) in
      if zlen (fst safe) <? a_max_opps a then
        if zlen (opp_levels bin (zlen GPU_OPPS)) <? a_max_opps a then py_raise (Stop "--max-opps: more than the speed bin allows")
        else py_raise (Stop "--max-opps reaches an OPP a rail cannot carry: refused rather than under-voted")
      else
        let! msgs := py_lift (hfi_tables a db bin) in
        hfi_sequence a bin msgs
  | _ => py_raise (Stop "no speed bin read in this run")
  end.

(** ** P4: OOB *)

Definition gx_on_proven : G bool :=
  let! status := rd "GMU_PWR_CLK_STATUS" 0 in
  if bits status PWR_CLK_STATUS_GX_OFF then withdraw gx ;;; py_ret false else prove gx (EvGx status) ;;; py_ret true.

Definition oob_request : G unit :=
  wr "GMU_HOST2GMU_INTR_SET" (Z.shiftl 1 OOB_GPU_SET_REQUEST) 0 ;;;
  py_reraise (poll3b "GMU_GMU2HOST_INTR_INFO" (Z.shiftl 1 OOB_GPU_SET_ACK) (Z.shiftl 1 OOB_GPU_SET_ACK) K3oob 0 100) is_timeout
    (wr "GMU_HOST2GMU_INTR_SET" (Z.shiftl 1 OOB_GPU_SET_CLEAR) 0) ;;;
  wr "GMU_GMU2HOST_INTR_CLR" (Z.shiftl 1 OOB_GPU_SET_ACK) 0.
Definition cmd_oob (a : args) : G unit :=
  prologue NEED ;;;
  arena_prove false (a_limit a) ;;;
  set_step "O0" ;;;
  gmu_running_proven ;;;
  let! hfi := host_get "hfi_token" in
  let! boot := host_get "boot_token" in
  if negb (hfi =? boot) then py_raise (Stop "HFI START was not acknowledged for this GMU boot") else
  let! oob := host_get "oob_token" in
  let! on := (if oob =? boot then gx_on_proven else py_ret false) in
  if on then order "gx_on" else
  set_step "O1" ;;;
  oob_request ;;;
  set_step "O2" ;;;
  let! on := gx_on_proven in
  if negb on then wr "GMU_HOST2GMU_INTR_SET" (Z.shiftl 1 OOB_GPU_SET_CLEAR) 0 ;;; py_raise (Stop "OOB acknowledged but GX is off") else
  host_set "oob_token" boot ;;;
  write_host ;;;
  order "gx_on".

(** ** P5: CP *)

Definition aperture_clear : G unit := wr "CP_APERTURE_CNTL_HOST" (aperture PIPE_NONE 0) 0.
Definition pipe_write (pipe : Z) (name : string) (value index : Z) : G unit := wr "CP_APERTURE_CNTL_HOST" (aperture pipe 0) 0 ;;; wr name value index.
Definition wr64 (name : string) (value : Z) : G unit :=
  let! r := py_lift (reg_named name) in
  if rg_count r =? 2 then wr name (Z.land value 0xFFFFFFFF) 0 ;;; wr name (Z.shiftr value 32) 1
  else wr name (Z.land value 0xFFFFFFFF) 0 ;;; wr (name +:+ "_HI") (Z.shiftr value 32) 0.

Definition cp_aperture (a : args) : G unit :=
  if a_no_aperture a then py_ret tt else
  let! state := read_gpu_state in
  if rget state "version" <? GPU_VERSION_APERTURE then py_raise (Stop "the running stage cannot forward the aperture SMC") else
  let! tz := host_get "tz_ok" in
  if (tz =? TZ_PENDING) || left_pending (signed64 (rget state "smc_status")) then py_raise (Stop "an SMC was left pending in TrustZone this boot") else
  let! status := call_gpu GPU_SMC SMC_CP_APERTURE in
  read_gpu_state ;;;
  (if left_pending status then host_set "tz_ok" TZ_PENDING ;;; write_host else py_ret tt) ;;;
  if negb (status =? 0) then py_raise (Stop "CP aperture SMC not completed") else py_ret tt.

(** The pipes [from..PIPE_DDE_BV] but the LPAC one. *)
Definition pipes (from : Z) : list Z := List.filter (fun p => negb (p =? PIPE_LPAC)) (seqZ from (PIPE_DDE_BV + 1 - from)).
Definition nonctxt_pipe (pipe : Z) : G unit :=
  wr "CP_APERTURE_CNTL_HOST" (aperture pipe 0) 0 ;;;
  each (fun '(name, value, mask) => if Z.testbit mask pipe then wr name value 0 else py_ret tt) X285_NONCTXT.
Definition x285_gmem_protect : Z := match List.find (fun e => String.eqb e.1.1 "RB_GC_GMEM_PROTECT") X285_NONCTXT with Some e => e.1.2 | None => 0 end.
Definition masks_pipe (pipe : Z) : G unit :=
  wr "CP_APERTURE_CNTL_HOST" (aperture pipe 0) 0 ;;;
  wr "CP_APRIV_CNTL_PIPE" (if pipe =? PIPE_BR then A8XX_BR_APRIV_MASK else A8XX_APRIV_MASK) 0 ;;;
  wr "CP_INTERRUPT_STATUS_MASK_PIPE" A8XX_CP_INT_MASK_PIPE 0 ;;;
  wr "CP_HW_FAULT_STATUS_MASK_PIPE" A8XX_CP_HW_FAULT_MASK_PIPE 0.
(** [for n, value in enumerate(values): s.wr(name, value, n)]. *)
Fixpoint wr_array (name : string) (n : Z) (values : list Z) : G unit :=
  match values with [] => py_ret tt | v :: rest => wr name v n ;;; wr_array name (n + 1) rest end.

(** hw_init; the value it returns is [x285_gmem_protect]. *)
Definition hw_init (a : args) : G unit :=
  set_step "C3" ;;;
  ahb_timeouts a ;;;
  aperture_clear ;;;
  wr "GBIF_HALT" GBIF_HALT_CLEAR_GEN8 0 ;;; rd "GBIF_HALT" 0 ;;;
  wr "RBBM_GBIF_HALT" 0 0 ;;; rd "RBBM_GBIF_HALT" 0 ;;;
  wr "RBBM_SECVID_TSB_CNTL" 0 0 ;;;
  wr64 "RBBM_SECVID_TSB_TRUSTED_BASE" 0 ;;;
  wr "RBBM_SECVID_TSB_TRUSTED_SIZE" 0 0 ;;;
  wr "RBBM_PERFCTR_GPU_BUSY_MASKED" 0xFFFFFFFF 0 ;;;
  wr64 "UCHE_CCHE_GC_GMEM_RANGE_MIN" GMEM_RANGE_MIN ;;;
  wr64 "SP_HLSQ_GC_GMEM_RANGE_MIN" GMEM_RANGE_MIN ;;;
  each (fun name => wr64 name UCHE_TRAP_BASE) ["UCHE_TRAP_BASE"; "UCHE_WRITE_THRU_BASE"; "UCHE_CCHE_TRAP_BASE"; "UCHE_CCHE_WRITE_THRU_BASE"] ;;;
  wr "RBBM_PERFCTR_CNTL" 1 0 ;;;
  wr "RBBM_SLICE_PERFCTR_CNTL" 1 0 ;;;
  wr "GMU_POWER_COUNTER_SELECT_XOCLK_1" 0x4 0 ;;;
  wr "CP_PERFCTR_CP_SEL" 1 0 ;;;
  wr_array "TPL1_BICUBIC_WEIGHTS_TABLE" 0 BICUBIC_WEIGHTS ;;;
  wr "UCHE_CLIENT_PF" (Z.lor (Z.shiftl 1 7) 1) 0 ;;;
  each nonctxt_pipe (pipes PIPE_NONE) ;;;
  aperture_clear ;;;
  wr "RBBM_INTERFACE_HANG_INT_CNTL" (Z.lor (Z.shiftl 1 30) 0xCFFFFF) 0 ;;;
  wr "RBBM_SLICE_INTERFACE_HANG_INT_CNTL" (Z.shiftl 1 30) 0 ;;;
  wr "GMU_AO_GPU_CX_BUSY_MASK" 0xFF000000 0 ;;;
  wr_update "GMU_POWER_COUNTER_SELECT_XOCLK_0" 0xFF (Z.shiftl 1 5) 0 ;;;
  wr "GMU_POWER_COUNTER_ENABLE" 1 0 ;;;
  pipe_write PIPE_BR "CP_PROTECT_CNTL_PIPE" CP_PROTECT_CNTL 0 ;;;
  pipe_write PIPE_BV "CP_PROTECT_CNTL_PIPE" CP_PROTECT_CNTL 0 ;;;
  aperture_clear ;;;
  wr_array "CP_PROTECT_GLOBAL" 0 X285_PROTECT ;;;
  pipe_write PIPE_BR "CP_PROTECT_PIPE" (default 0 (last X285_PROTECT)) 15 ;;;
  pipe_write PIPE_BV "CP_PROTECT_PIPE" (default 0 (last X285_PROTECT)) 15 ;;;
  aperture_clear ;;;
  pipe_write PIPE_BR "RB_CONTEXT_SWITCH_GMEM_SAVE_RESTORE_ENABLE" 1 0 ;;;
  each masks_pipe (pipes PIPE_BR) ;;;
  aperture_clear ;;;
  wr "CP_INTERRUPT_STATUS_MASK_GLOBAL" A8XX_CP_GLOBAL_INT_MASK 0 ;;;
  wr "RBBM_INT_0_MASK" A8XX_INT_MASK 0 ;;;
  cp_aperture a ;;;
  set_step "C3" ;;;
  arena_base ;;;
  wr64 "CP_SQE_INSTR_BASE" CP_SQE_VA ;;;
  wr64 "CP_RB_BASE" CP_RB_VA ;;;
  wr "CP_RB_CNTL" RB_CNTL_DEFAULT 0 ;;;
  wr64 "CP_RB_RPTR_ADDR" (CP_MEMPTRS_VA + CP_RPTR_SHADOW_OFF) ;;;
  wr64 "CP_RB_RPTR_ADDR_BV" (CP_MEMPTRS_VA + CP_BV_RPTR_OFF).

Definition PRESTART_CX : list string :=
  ["SMMU_sCR0"; "SMMU_sGFSR"; "SMMU_sGFSYNR0"; "SMMU_sGFSYNR1"; "SMMU_sGFSYNR2"; "SMMU_sGFAR"; "SMMU_sGFAR_HI"; "GMU_CM3_SYSRESET"; "GMU_CM3_FW_INIT_RESULT";
   "GMU_HFI_CTRL_STATUS"; "GMU_PWR_CLK_STATUS"; "GMU_RPMH_POWER_STATE"; "GMU_AO_GPU_CX_BUSY_STATUS"; "GMU_AO_HOST_INTERRUPT_STATUS"; "GMU_GMU2HOST_INTR_INFO";
   "GMU_AHB_FENCE_STATUS"; "GBIF_HALT"; "GBIF_HALT_ACK"].
Definition PRESTART_GX : list string :=
  ["RBBM_SECVID_TRUST_CNTL"; "RBBM_SECVID_TSB_CNTL"; "RBBM_SECVID_TSB_TRUSTED_SIZE"; "RBBM_STATUS"; "RBBM_STATUS1"; "RBBM_INT_0_STATUS"; "RBBM_SW_FUSE_INT_STATUS";
   "RBBM_GBIF_HALT_ACK"; "CP_SQE_CNTL"; "CP_SQE_INSTR_BASE"; "CP_SQE_INSTR_BASE_HI"; "CP_RB_BASE"; "CP_RB_BASE_HI"; "CP_RB_CNTL"; "CP_RB_RPTR"; "CP_RB_WPTR";
   "CP_INTERRUPT_STATUS_GLOBAL"; "CP_CP2GMU_STATUS"].
Definition SAMPLE_CX : list string :=
  ["SMMU_sGFSR"; "GMU_AO_HOST_INTERRUPT_STATUS"; "GMU_GMU2HOST_INTR_INFO"; "GMU_PWR_CLK_STATUS"; "GMU_AHB_FENCE_STATUS"; "GMU_AO_GPU_CX_BUSY_STATUS"].
Definition SAMPLE_GX : list string := ["RBBM_STATUS"; "RBBM_INT_0_STATUS"; "CP_INTERRUPT_STATUS_GLOBAL"; "CP_SQE_CNTL"; "CP_RB_RPTR"].

Definition CB_REPORT : list string :=
  ["SMMU_CB_SCTLR"; "SMMU_CB_TTBR0"; "SMMU_CB_TTBR0_HI"; "SMMU_CB_FSR"; "SMMU_CB_FAR"; "SMMU_CB_FAR_HI"; "SMMU_CB_FSYNR0"; "SMMU_CB_FSYNR1"; "SMMU_CBFRSYNRA"].
Definition cb_report (cb : Z) : G (list (string * Z)) := collect (fun n => let! v := rd n cb in py_ret (n, v)) CB_REPORT.

(** read_u64 of the walk: the tables as they are in DRAM, zero outside them. *)
Definition image_u64 (base : Z) (image : bytes) (pa : Z) : Z :=
  if (base <=? pa) && (pa <? base + zlen image) then match unpack_u 8 (Z.to_nat (pa - base)) image with Ok v => v | Raise _ => 0 end else 0.
(** The CP buffers translate as built, or (probe) not at all. *)
Definition walks_ok (read_u64 : Z -> Z) (ttbr base : Z) (probe : bool) : bool :=
  forallb (fun m : mapping =>
    forallb (fun '(va, pa) => match walk read_u64 ttbr va CB_T0SZ with Some (got, _) => negb probe && (got =? pa) | None => probe end)
      [(mp_va m, mp_pa m); (mp_va m + mp_size m - 4, mp_pa m + mp_size m - 4)]) (gpu_mappings base).
Definition hi_lo (r : list (string * Z)) (hi lo : string) : Z := Z.lor (Z.shiftl (rget r hi) 32) (rget r lo).
Definition base_ok (gxv : list (string * Z)) (lo : string) (want : Z) : bool :=
  let got := hi_lo gxv (lo +:+ "_HI") lo in (got =? want) || (got =? 0).

(** What sqe_prestart read. *)
Record snap := Snap { sn_cx : list (string * Z); sn_cb0 : list (string * Z); sn_cb1 : list (string * Z); sn_ahb : list Z; sn_gx : list (string * Z) }.
(** The reasons not to start the SQE that the registers give. *)
Definition prestart_ok (a : args) (want_ahb : option Z) (n : snap) : bool :=
  let fault v := bits v CB_FSR_FAULT in
  (negb (fault (rget (sn_cb0 n) "SMMU_CB_FSR") || fault (rget (sn_cb1 n) "SMMU_CB_FSR") || negb (rget (sn_cx n) "SMMU_sGFSR" =? 0)) || a_prestart_faults_ok a) &&
  negb (Z.testbit (rget (sn_gx n) "CP_SQE_CNTL") 0) &&
  negb (bits (rget (sn_cx n) "GMU_PWR_CLK_STATUS") PWR_CLK_STATUS_GX_OFF) &&
  negb (bits (rget (sn_cx n) "GBIF_HALT") 3 || Z.testbit (rget (sn_gx n) "RBBM_GBIF_HALT_ACK") 0) &&
  (rget (sn_gx n) "RBBM_SECVID_TSB_TRUSTED_SIZE" =? 0) &&
  base_ok (sn_gx n) "CP_SQE_INSTR_BASE" CP_SQE_VA && base_ok (sn_gx n) "CP_RB_BASE" CP_RB_VA &&
  match want_ahb with Some w => a_no_ahb_timeout a || forallb (Z.eqb w) (sn_ahb n) | None => true end.

Definition sqe_prestart (a : args) (sqe : bytes) (probe : bool) : G snap :=
  set_step "C3P" ;;;
  let! cxv := rd_all PRESTART_CX in
  let! cb0 := cb_report GPU_CB in
  let! cb1 := cb_report GMU_CB in
  let! ahb := ahb_read in
  let! gxv := rd_all PRESTART_GX in
  rd "CP_AQE_INSTR_BASE_0" 1 ;;; rd "CP_AQE_INSTR_BASE_0" 0 ;;;
  let! globals := smmu_globals in
  smmu_verify (snd globals) [(GPU_SID, GPU_CB); (GPU_SID_LPAC, GPU_CB); (GMU_SID, GMU_CB)] ;;;
  let! base := arena_base in
  let! tables := py_lift (build_tables base GpuTables probe) in
  let! image := py_lift (pt_image tables) in
  let! dram := mem_read (fst image) (zlen (snd image)) in
  let walks := walks_ok (image_u64 (base + fst image) dram) (hi_lo cb0 "SMMU_CB_TTBR0_HI" "SMMU_CB_TTBR0") base probe in
  let! code := mem_read (region_off "cp_sqe") (zlen sqe) in
  let! want_ahb := py_get (fun s => o_ahb (ss_out s)) in
  let n := Snap cxv cb0 cb1 ahb gxv in
  if negb (prestart_ok a want_ahb n && walks && bytes_eqb (digest code) (digest sqe)) then py_raise (Stop "not starting the SQE")
  else order "sqe_prestart" ;;; py_ret n.

Fixpoint sqe_samples (n : nat) (gap_us : Z) : G unit :=
  match n with
  | O => py_ret tt
  | Datatypes.S k =>
      on_t t_now ;;;
      rd "SMMU_CB_FSR" GPU_CB ;;;
      rd_all (SAMPLE_CX ++ SAMPLE_GX) ;;;
      (match k with O => py_ret tt | _ => udelay gap_us end) ;;;
      sqe_samples k gap_us
  end.
Definition sqe_start (a : args) (probe : bool) (baseline : snap) : G unit :=
  set_step "C3S" ;;;
  on_t t_now ;;;
  wr "CP_SQE_CNTL" 1 0 ;;;
  sqe_samples (Z.to_nat (Z.max 1 (a_sqe_samples a))) (a_sqe_sample_us a) ;;;
  let! cb0 := cb_report GPU_CB in
  let! gfsr := rd "SMMU_sGFSR" 0 in
  (if negb (gfsr =? 0) then rd_all ["SMMU_sGFSYNR0"; "SMMU_sGFSYNR1"; "SMMU_sGFSYNR2"; "SMMU_sGFAR"; "SMMU_sGFAR_HI"] ;;; py_ret tt else py_ret tt) ;;;
  let fsr := rget cb0 "SMMU_CB_FSR" in
  let far := hi_lo cb0 "SMMU_CB_FAR_HI" "SMMU_CB_FAR" in
  if probe then
    if bits fsr 0x2 && (CP_SQE_VA <=? far) && (far <? CP_SQE_VA + region_size "cp_sqe") then order "sqe_probe" else py_raise (Stop "SQE probe: not the SQE fetch")
  else if (bits fsr CB_FSR_FAULT && negb (fsr =? rget (sn_cb0 baseline) "SMMU_CB_FSR")) || (negb (gfsr =? 0) && negb (gfsr =? rget (sn_cx baseline) "SMMU_sGFSR"))
  then py_raise (Stop "the SQE started but the SMMU recorded a fault") else order "sqe_started".

Definition fenced_try (name : string) (value : Z) : G bool :=
  wr name value 0 ;;;
  let! status := rd "GMU_AHB_FENCE_STATUS" 0 in
  if negb (Z.testbit status 0) then py_ret true else udelay 10 ;;; py_ret false.
Definition fenced_write (name : string) (value : Z) : G unit :=
  let! ok := fenced_try name value in
  if ok then py_ret tt else
  let! ok := fenced_try name value in
  if ok then py_ret tt else py_raise (Stop "fenced write dropped twice").

Definition ring_submit (words : list Z) : G Z :=
  let offset := region_off "cp_rb" in
  let size := region_size "cp_rb" / 4 in
  let! wptr := host_get "rb_wptr" in
  let! hw_wptr := rd "CP_RB_WPTR" 0 in
  let! hw_rptr := rd "CP_RB_RPTR" 0 in
  if negb (hw_wptr =? wptr) || negb (hw_rptr =? wptr) then py_raise (Stop "ring pointers disagree") else
  if size <=? wptr + zlen words then py_raise (Stop "ring would wrap") else
  let! d := py_lift (pack_Is words) in
  mem_write (offset + 4 * wptr) d ;;;
  fenced_write "CP_RB_WPTR" (wptr + zlen words) ;;;
  host_set "rb_wptr" (wptr + zlen words) ;;;
  py_ret (wptr + zlen words).

Definition cp_idle (wptr : Z) : G unit :=
  poll3 "CP_RB_RPTR" 0xFFFFFFFF wptr K3cp 0 ;;;
  let! status := rd "RBBM_STATUS" 0 in
  let! irq := rd "RBBM_INT_0_STATUS" 0 in
  rd "GMU_AO_GPU_CX_BUSY_STATUS" 0 ;;;
  if bits status (Z.lnot RBBM_STATUS_CX_MASTER) || bits irq RBBM_INT_HANG_DETECT then py_raise (Stop "GPU not idle") else py_ret tt.

(** --va-wide: the checks of C0. *)
Definition wide_check (started : bool) : G unit :=
  let! idr2 := rd "SMMU_IDR2" 0 in
  if Z.land (Z.shiftr idr2 IDR2_UBS_SHIFT) IDR2_UBS_MASK =? 0 then py_raise (Stop "UBS is 32 bits, too narrow for the wide CB0") else
  if started then let! tcr := rd "SMMU_CB_TCR" GPU_CB in if negb (tcr =? CB_TCR_WIDE) then py_raise (Stop "CB0 TCR is not the wide one this GMU boot") else py_ret tt
  else py_ret tt.

(** Step C1: the context bank of the command processor. *)
Definition cp_bank (a : args) (probe : bool) : G unit :=
  set_step "C1" ;;;
  let! base := arena_base in
  let! tables := py_lift (build_tables base GpuTables probe) in
  let! globals := smmu_globals in
  let! current := smmu_read_cb GPU_CB in
  (if negb (cb_same current (smmu_cb_expected tables GPU_CB (a_va_wide a))) then smmu_unroute GPU_SMR_LPAC GPU_SID_LPAC ;;; py_ret tt else py_ret tt) ;;;
  let! changed := write_tables tables in
  let! programmed := smmu_program tables GPU_CB GPU_SMR GPU_SID (a_va_wide a) in
  (if negb programmed && changed then smmu_tlbi GPU_CB else py_ret tt) ;;;
  smmu_route GPU_SMR_LPAC GPU_SID_LPAC GPU_CB ;;;
  ensure_usfcfg ;;;
  smmu_verify (snd globals) [(GPU_SID, GPU_CB); (GPU_SID_LPAC, GPU_CB); (GMU_SID, GMU_CB)] ;;;
  host_set "gpu_ttbr" (ttbr_for tables GPU_CB) ;;;
  order "gpu_cb".
(** Step C2: the buffers of the command processor. *)
Definition cp_buffers (sqe : bytes) : G unit :=
  set_step "C2" ;;;
  fill_region "cp_sqe" ;;;
  mem_write (region_off "cp_sqe") sqe ;;;
  let! check := mem_read (region_off "cp_sqe") (zlen sqe) in
  if negb (bytes_eqb check sqe) then py_raise (Stop "SQE image did not read back") else
  fill_region "cp_rb" ;;;
  fill_region "cp_memptrs" ;;;
  each (fun k => host_set k 0) ["rb_wptr"; "cp_token"; "hwinit_token"] ;;;
  write_host ;;;
  order "cp_buffers".

Definition CP_INIT_WORDS : list Z :=
  [pkt7 CP_THREAD_CONTROL 1; Z.shiftl 1 27; pkt7 CP_ME_INIT 7; CP_ME_INIT_MASK; 0x00000003; 0x20000000; 0x00000002; 0; 0; Z.shiftl 1 31].
(** C4 and C5. *)
Definition cp_me_init (boot : Z) : G unit :=
  set_step "C4" ;;;
  let! sent := host_get "rb_wptr" in
  let! wptr :=
    (if negb (sent =? 0) then
       let! hw := rd "CP_RB_WPTR" 0 in
       if negb (hw =? sent) then py_raise (Stop "record wptr is not CP_RB_WPTR") else py_ret sent
     else let! w := ring_submit CP_INIT_WORDS in write_host ;;; py_ret w) in
  py_reraise (cp_idle wptr) is_timeout (cb_faults GPU_CB ;;; rd "CP_SQE_CNTL" 0 ;;; rd "RBBM_STATUS" 0 ;;; py_ret tt) ;;;
  order "cp_init" ;;;
  set_step "C5" ;;;
  wr "RBBM_SECVID_TRUST_CNTL" SECVID_TRUST_CNTL_NONSECURE 0 ;;;
  let! secvid := rd "RBBM_SECVID_TRUST_CNTL" 0 in
  if negb (secvid =? SECVID_TRUST_CNTL_NONSECURE) then py_raise (Stop "RBBM_SECVID_TRUST_CNTL: still secure") else
  pipe_write PIPE_BR "RB_GC_GMEM_PROTECT" x285_gmem_protect 0 ;;;
  aperture_clear ;;;
  host_set "cp_token" boot ;;;
  write_host ;;;
  order "secvid".

Fixpoint fence_loop (left : nat) (value deadline attempt : Z) : G (Z * Z) :=
  let! d := mem_read (region_off "cp_memptrs" + CP_FENCE_OFF) 4 in
  let! seen := py_lift (unpack_u 4 0 d) in
  if seen =? value then py_ret (seen, attempt) else
  match left with
  | O => py_ret (seen, attempt)
  | Datatypes.S k =>
      let! late := (if 2 <=? attempt then let! now := on_t t_now in py_ret (deadline <? now) else py_ret false) in
      if late then py_ret (seen, attempt) else fence_loop k value deadline (attempt + 1)
  end.
(** Step C6: a fence the command processor writes. *)
Definition cp_fence_write : G unit :=
  set_step "C6" ;;;
  let! seq := host_get "fence_seq" in
  host_set "fence_seq" (seq + 1) ;;;
  let value := Z.lor 0xF3A00000 (Z.land (seq + 1) 0xFFFFF) in
  let fence_va := CP_MEMPTRS_VA + CP_FENCE_OFF in
  let! wptr := ring_submit [pkt7 CP_MEM_WRITE 3; Z.land fence_va 0xFFFFFFFF; Z.shiftr fence_va 32; value] in
  write_host ;;;
  let! now := on_t t_now in
  let! r := fence_loop (fst FENCE_POLL - 1) value (now + snd FENCE_POLL) 1 in
  let '(seen, attempt) := r in
  py_modify (upd_polls ("fence (DRAM)", attempt, seen =? value)) ;;;
  cb_faults GPU_CB ;;;
  if negb (seen =? value) then py_raise (Stop "the GPU did not write the fence") else
  cp_idle wptr ;;;
  host_set "fence_value" value ;;;
  write_host ;;;
  order "fence".

(** C1-C3S of a boot whose hw_init has not run; [false] ends the command. *)
Definition cp_bring_up (a : args) (sqe : bytes) (boot : Z) : G bool :=
  let probe := a_sqe_probe a in
  cp_bank a probe ;;;
  cp_buffers sqe ;;;
  hw_init a ;;;
  order "hw_init" ;;;
  if stops_at a "C3" then py_ret false else
  let! n := sqe_prestart a sqe probe in
  if stops_at a "C3P" then py_ret false else
  host_set "hwinit_token" boot ;;;
  host_set "sqe_probe" (if probe then boot else 0) ;;;
  write_host ;;;
  sqe_start a probe n ;;;
  py_ret (negb probe).

Definition cmd_cp_fence (a : args) : G unit :=
  prologue NEED ;;;
  arena_prove false (a_limit a) ;;;
  set_step "C0" ;;;
  gmu_running_proven ;;;
  let! oob := host_get "oob_token" in
  let! boot := host_get "boot_token" in
  if negb (oob =? boot) then py_raise (Stop "OOB GPU_SET was not acknowledged for this GMU boot") else
  let! on := gx_on_proven in
  if negb on then py_raise (Stop "GX is off; GX registers stay refused") else
  order "gx_on" ;;;
  let! fw := py_lift (load_firmware (a_files a)) in
  let! v := rd "CP_SQE_CNTL" 0 in
  let sqe_on := Z.testbit v 0 in
  let! cp := host_get "cp_token" in
  let! hwi := host_get "hwinit_token" in
  let! prb := host_get "sqe_probe" in
  let cp_ready := (cp =? boot) && sqe_on in
  let hw_done := (hwi =? boot) && sqe_on in
  (if a_va_wide a then wide_check (cp_ready || hw_done) else py_ret tt) ;;;
  let! go :=
    (if cp_ready then py_ret true else
     if sqe_on && negb (prb =? 0) && (prb =? boot) then py_raise (Stop "this GMU boot's SQE was started by the fault probe")
     else if sqe_on && negb hw_done then py_raise (Stop "a running CP is never re-initialised")
     else
       let! go := (if hw_done then order "hw_init_done" ;;; py_ret true else cp_bring_up a (drop 4 (fw_get fw "sqe")) boot) in
       if negb go || stops_at a "C3" || stops_at a "C3P" || stops_at a "C3S" then py_ret false else
       cp_me_init boot ;;;
       py_ret (negb (stops_at a "C5"))) in
  if go then cp_fence_write else py_ret tt.

(** ** Quiesce *)

Definition gbif_halt (leave_halted : bool) : G unit :=
  wr "GBIF_HALT" 1 0 ;;;
  poll3 "GBIF_HALT_ACK" 1 1 K3gbif 0 ;;;
  wr "GBIF_HALT" 2 0 ;;;
  poll3 "GBIF_HALT_ACK" 2 2 K3gbif 0 ;;;
  if leave_halted then py_ret tt else wr "GBIF_HALT" 0 0.
Definition oob_handshake : G unit := oob_request ;;; wr "GMU_HOST2GMU_INTR_SET" (Z.shiftl 1 OOB_GPU_SET_CLEAR) 0.
(** _hfi_stop: [false] when the reset does not read back. *)
Definition hfi_stop : G bool :=
  let! reset := rd "GMU_CM3_SYSRESET" 0 in
  if negb (Z.testbit reset 0) then py_ret false else
  each (fun queue => mem_write (hfi_header_offset queue "read_index") (word_bytes [0; 0])) [0; 1; 2] ;;;
  py_ret true.

(** The graceful path. *)
Definition quiesce_graceful (a : args) (state : gmu) : G unit :=
  let! boot := host_get "boot_token" in
  let! hfi := host_get "hfi_token" in
  let! oob := host_get "oob_token" in
  let started := (hfi =? boot) && negb (boot =? 0) in
  if negb (gm_running state) then py_raise (Stop "the GMU is out of reset but not booted: no graceful path") else
  (if started && negb (oob =? boot) then oob_handshake else py_ret tt) ;;;
  poll3 "GMU_RPMH_POWER_STATE" 0xFFFFFFFF GMU_IDLE_STATE_ACTIVE K3idle 0 ;;;
  gbif_halt (a_leave_halted a) ;;;
  (if started then wr "GMU_POWER_COUNTER_ENABLE" 0 0 ;;; hfi_send HFI_MSG_PREPARE_SLUMBER [0; 0] ;;; py_ret tt else py_ret tt) ;;;
  wr "GMU_AO_AHB_FENCE_CTRL" 0 0 ;;;
  wr "GMU_CX_FALNEXT_INTF" 1 0 ;;;
  poll3 "GMU_AO_GPU_CX_BUSY_STATUS" CX_BUSY_GPUBUSYIGNAHB 0 K3idle 0 ;;;
  py_ret tt.
Definition quiesce_force (a : args) : G unit :=
  wr "GMU_GMU_PWR_COL_KEEPALIVE" 0 0 ;;;
  withdraw gx ;;;
  wr "GMU_CX_FALNEXT_INTF" 1 0 ;;;
  each (fun n => py_catch (poll3 "RSCC_TCS_DRV0_STATUS" 1 1 K3rscc n ;;; py_ret tt) is_timeout (py_ret tt)) (seqZ 0 10) ;;;
  wr "GMU_AHB_FENCE_STATUS_CLR" 0x7 0 ;;;
  wr "GMU_AO_AHB_FENCE_CTRL" 0 0 ;;;
  py_catch (gbif_halt (a_leave_halted a)) is_timeout (py_ret tt).
(** A Stop that is not an SError or an abort. *)
Definition recoverable (e : exn) : bool := is_stop e && negb (is_abort e) && match e with SErrorStop _ => false | _ => true end.

(** Q1 and Q2 with the CM3 out of reset; [false] when it does not stop. *)
Definition quiesce_gmu (a : args) (state : gmu) : G bool :=
  gx_on_proven ;;;
  set_step "Q1" ;;;
  let! boot := host_get "boot_token" in
  let! oob := host_get "oob_token" in
  (if (oob =? boot) && negb (boot =? 0) then wr "GMU_HOST2GMU_INTR_SET" (Z.shiftl 1 OOB_GPU_SET_CLEAR) 0 else py_ret tt) ;;;
  py_catch (quiesce_graceful a state) recoverable (quiesce_force a) ;;;
  set_step "Q2" ;;;
  wr "GMU_AO_HOST_INTERRUPT_MASK" 0xFFFFFFFF 0 ;;;
  wr "GMU_GMU2HOST_INTR_MASK" 0xFFFFFFFF 0 ;;;
  wr "GMU_CM3_SYSRESET" 1 0 ;;;
  let! stopped := hfi_stop in
  withdraw gx ;;;
  wr "GMU_RSCC_CONTROL_REQ" 1 0 ;;;
  host_set "pdc_sleep" 1 ;;;
  write_host ;;;
  py_catch (poll3 "RSCC_RSC_STATUS0_DRV0" (Z.shiftl 1 16) (Z.shiftl 1 16) K3rscc 0 ;;; py_ret tt) is_timeout (py_ret tt) ;;;
  wr "GMU_RSCC_CONTROL_REQ" 0 0 ;;;
  rd "GMU_PWR_CLK_STATUS" 0 ;;;
  py_ret stopped.
(** Q3: every stream faults. *)
Definition bank_off (e : Z * Z * Z) : G unit :=
  let '(cb, smr, sid) := e in
  let! v := rd "SMMU_SMR" smr in
  let! on := (if bits v SMR_VALID then py_ret true else let! sctlr := rd "SMMU_CB_SCTLR" cb in py_ret (bits sctlr SCTLR_M)) in
  if on then smmu_disable cb smr sid else py_ret tt.
Definition quiesce_smmu : G unit :=
  set_step "Q3" ;;;
  let! globals := smmu_globals in
  smmu_unroute GPU_SMR_LPAC GPU_SID_LPAC ;;;
  each bank_off [(GPU_CB, GPU_SMR, GPU_SID); (GMU_CB, GMU_SMR, GMU_SID)] ;;;
  ensure_usfcfg ;;;
  let! scr0 := rd "SMMU_sCR0" 0 in
  let! live := sids_reaching_memory scr0 (snd globals) (GPU_SIDS ++ [GMU_SID] ++ MUST_FAULT_SIDS) in
  match live with [] => order "smmu_off" | _ => py_raise (Stop "streams still reach memory after quiesce") end.
Definition cmd_quiesce (a : args) : G unit :=
  prologue NEED ;;;
  arena_prove false (a_limit a) ;;;
  set_step "Q0" ;;;
  let! state := gmu_state in
  let! stopped := (if gm_live state then quiesce_gmu a state else withdraw gx ;;; py_ret true) in
  quiesce_smmu ;;;
  set_step "Q4" ;;;
  park_rcg "GPU_CC_GMU_CMD_RCGR" "GPU_CC_GMU_CFG_RCGR" ;;;
  park_rcg "GPU_CC_HUB_CMD_RCGR" "GPU_CC_HUB_CFG_RCGR" ;;;
  let! opmode := rd "GPU_CC_PLL0_OPMODE" 0 in
  (if bits opmode PLL_OPMODE_RUN then pll_off else py_ret tt) ;;;
  order "clocks_parked" ;;;
  each (fun k => host_set k 0) ["boot_token"; "hfi_token"; "oob_token"; "cp_token"; "gmu_ttbr"; "gpu_ttbr"; "rb_wptr"; "hwinit_token"; "sqe_probe"; "p67_token"; "fb_mapped"] ;;;
  write_host ;;;
  if negb stopped then py_raise (Stop "GMU_CM3_SYSRESET did not read back 1") else order "quiesced".

(** ** Read-only commands and the release of the arena *)

Definition cmd_status (a : args) : G unit :=
  prologue [] ;;;
  py_catch (arena_prove false (a_limit a)) is_stop (py_ret tt) ;;;
  let! smmu := is_proven cx_smmu in
  (if smmu then
     set_step "T1" ;;;
     let! globals := smmu_globals in
     smmu_read_cb GPU_CB ;;; smmu_read_cb GMU_CB ;;;
     smmu_streams (snd globals) ;;;
     rd_all ["SMMU_sGFSR"; "SMMU_sGFSYNR0"; "SMMU_sGFSYNR1"; "SMMU_sGFSYNR2"; "SMMU_sGFAR"; "SMMU_sGFAR_HI"] ;;;
     cb_report GPU_CB ;;; cb_report GMU_CB ;;; py_ret tt
   else py_ret tt) ;;;
  let! misc := is_proven cx_misc in
  (if misc then ahb_read ;;; py_ret tt else py_ret tt) ;;;
  let! gmu := is_proven cx_gmu in
  (if gmu then
     set_step "T2" ;;;
     gmu_state ;;;
     rd_all ["GMU_PWR_CLK_STATUS"; "GMU_GMU2HOST_INTR_INFO"; "GMU_AO_HOST_INTERRUPT_STATUS"; "GMU_RPMH_POWER_STATE"; "GMU_AO_GPU_CX_BUSY_STATUS"; "GBIF_HALT";
             "GBIF_HALT_ACK"; "GPU_CC_PLL0_MODE"; "GPU_CC_PLL0_OPMODE"; "GPU_CC_GMU_CFG_RCGR"; "GPU_CC_HUB_CFG_RCGR"] ;;; py_ret tt
   else py_ret tt) ;;;
  order "status".
Definition cmd_rsc_survey : G unit :=
  step_cmd_db ;;; set_step "R1" ;;; let! l := rsc_layout in rsc_survey l ;;; order "rsc_survey".

Definition release_proven : G unit :=
  set_step "A1" ;;;
  let! reset := rd "GMU_CM3_SYSRESET" 0 in
  let! globals := smmu_globals in
  let! banks := collect (fun cb => rd "SMMU_CB_SCTLR" cb) [GPU_CB; GMU_CB] in
  let! live := sids_reaching_memory (fst globals) (snd globals) (GPU_SIDS ++ [GMU_SID]) in
  if negb (Z.testbit reset 0) || existsb (fun v => bits v SCTLR_M) banks || match live with [] => false | _ => true end
  then py_raise (Stop "the GPU or GMU can still reach the arena") else py_ret tt.
Definition cmd_arena (a : args) : G unit :=
  (if a_release a then prologue NEED else step_cmd_db) ;;;
  arena_prove (a_claim a) (a_limit a) ;;;
  if negb (a_release a) then py_ret tt else
  set_step "A1" ;;;
  let! boot := host_get "boot_token" in
  let! gmu := host_get "gmu_ttbr" in
  let! gpu := host_get "gpu_ttbr" in
  if negb (boot =? 0) || negb (gmu =? 0) || negb (gpu =? 0) then py_raise (Stop "the host record says the GPU may still use the arena") else
  release_proven ;;;
  let! status := call_gpu GPU_RELEASE [0x455341454C455247] in
  if negb (status =? 0) then py_raise (Stop "release refused") else py_ret tt.

Definition cmd_reset_reason (a : args) : G unit :=
  set_step "R0" ;;;
  rd "IMEM_PIL_RELOC" 0 ;;;
  (if a_inferred_imem a then
     collect (fun n => rd "IMEM_DLOAD_MAGIC" n) [0; 1] ;;;
     rd "IMEM_RESTART_REASON" 0 ;;;
     rd "IMEM_DLOAD_TYPE" 0 ;;;
     collect (fun n => rd "IMEM_BOOT_STATS" n) (seqZ 0 8) ;;; py_ret tt
   else py_ret tt) ;;;
  order "reset_reason".

(** ** One subcommand *)

Inductive command3 := C3Arena | C3Status | C3RscSurvey | C3ResetReason | C3GmuSmmu | C3GmuBoot | C3Hfi | C3Oob | C3CpFence | C3Quiesce.
Definition COMMANDS (c : command3) (a : args) : G unit * bool :=
  match c with
  | C3Arena => (cmd_arena a, false)
  | C3Status => (cmd_status a, false)
  | C3RscSurvey => (cmd_rsc_survey, false)
  | C3ResetReason => (cmd_reset_reason a, false)
  | C3GmuSmmu => (cmd_gmu_smmu a, true)
  | C3GmuBoot => (cmd_gmu_boot a, true)
  | C3Hfi => (cmd_hfi a, true)
  | C3Oob => (cmd_oob a, true)
  | C3CpFence => (cmd_cp_fence a, true)
  | C3Quiesce => (cmd_quiesce a, true)
  end.
Definition writes3 (c : command3) (a : args) : bool := a_claim a || a_release a || snd (COMMANDS c a).
Definition run3 (c : command3) (a : args) : M S (Z * option (session S)) := fun t =>
  match arm_guard false true t with
  | (Raise e, t') => match exit_status e with Some st => (Ok (st, None), t') | None => (Raise e, t') end
  | (Ok previous, t') => (let! x := run_session true (writes3 c a) previous (fst (COMMANDS c a)) in py_ret (fst x, Some (snd x))) t'
  end.
End stage3.

(** ** What the arena checks establish *)











