(* ===== verification/GpuSafe3.v ===== *)
(** * What Stage 3 may do to the machine

    On every target, whatever it answers, a command of src/tools/a16gpu_stage3.py
    writes memory only inside an arena that [arena_check] accepted from the target's own
    boot information, GPU record and memory map, calls only the GPU entry point the boot
    information names and with the fixed operations, touches a GX register only after
    the GMU reported GX on, and a register behind another gate only after its evidence
    was read ([shows]: what the tool itself wrote is no evidence).

    The surveys at the start of a command are those of Stage 1, so its triples apply
    ([start] and [st] in GpuSafe); from there on [inv3], which no step of the target can
    invalidate, is kept by every operation. *)

From Stdlib Require Import ZArith Lia.
From Stdlib Require Import Strings.Byte.
From stdpp Require Import base list numbers strings sets.
From S2P Require Import Prelude Bytes Transport Q1n1Link Sha256 Target Preload GpuRegs GpuSession GpuTables GpuFw GpuStage3 GpuLogic GpuSafe.

Local Open Scope string_scope.
Local Open Scope list_scope.
Local Open Scope Z_scope.
Local Open Scope py_scope.

(** ** Evidence *)

(** At some moment of the history [p] held. *)
Definition once (e : env) (p : answers -> list action -> bool) : Prop := exists k h, ev_log e = k ++ h /\ p (ev_word e) h = true.
Definition gx_on (w : answers) (h : list action) : bool := shows w h "GMU_PWR_CLK_STATUS" (fun v => negb (bits v PWR_CLK_STATUS_GX_OFF)).
Definition cm3_held (w : answers) (h : list action) : bool := shows w h "GMU_CM3_SYSRESET" (fun v => Z.testbit v 0).

(** What was seen before a gate counts as proven.  No register is behind [gmu_smmu] or
    [gmu_booted] ([no_reg_behind]): the commands only record them. *)
Definition gate_seen (e : env) (g : gate) : Prop :=
  match g with
  | gx => once e gx_on
  | gmu_reset => once e cm3_held
  | cx_gmu => once e (fun w h => backed w h cx_misc)
  | never => False
  | gmu_smmu | gmu_booted => True
  | g => once e (fun w h => backed w h g)
  end.

Lemma no_reg_behind : forallb (fun r => negb (bool_decide (rg_gate r = gmu_smmu)) && negb (bool_decide (rg_gate r = gmu_booted))) REGS = true.
Proof. vm_compute. reflexivity. Qed.

(** The size of the GPU record. *)
Abbreviation record_size := (8 * zlen GPU_STATE_FIELDS).

(** The arena of the GPU record the boot information points to, checked against the
    memory map. *)
Definition arena_seen (e : env) (a : Z * Z) : Prop :=
  exists info d state regions, boot_seen e info /\ saw_data e (rget info "gpu_state") (8 * zlen GPU_STATE_FIELDS) d /\ gpu_state_decode d = Ok state /\
    regions_seen e regions /\ arena_check info state regions = Ok a.
Definition in_arena (e : env) (a n : Z) : Prop := exists base size, arena_seen e (base, size) /\ base <= a /\ 0 <= n /\ a + n <= base + size.

Lemma once_ext e e' p : extends e e' -> once e p -> once e' p.
Proof. intros (Hw & _ & n & Hl) (k & h & E & Hp). exists (n ++ k), h. rewrite Hl, E, Hw. by rewrite <- app_assoc. Qed.
Lemma gate_seen_ext e e' g : extends e e' -> gate_seen e g -> gate_seen e' g.
Proof. intros Hx. destruct g; cbn [gate_seen]; try done; by apply once_ext. Qed.
Lemma arena_seen_ext e e' a : extends e e' -> arena_seen e a -> arena_seen e' a.
Proof.
  intros Hx (info & d & state & regions & Hb & Hd & Hs & Hr & Hc). exists info, d, state, regions.
  split_and!; [by eapply boot_seen_ext|by eapply saw_data_ext|done|by eapply regions_seen_ext|done].
Qed.
Lemma in_arena_ext e e' a n : extends e e' -> in_arena e a n -> in_arena e' a n.
Proof. intros Hx (base & size & Ha & H). exists base, size. split; [by eapply arena_seen_ext|done]. Qed.

(** ** Allowed actions *)

Section allowed3.
  Context (data : list action -> result bytes) (writes : bool).

(** A register is touched only when it is not one that is never touched, its gate's
    evidence was seen and, in the GX domain, GX was seen on. *)
Definition reg_open (e : env) (r : reg) : Prop := rg_gate r <> never /\ gate_seen e (rg_gate r) /\ (rg_domain r = GX -> gate_seen e gx).
Definition call_ok (e : env) (args : list Z) : Prop :=
  (exists limit, args = [GPU_CLAIM; ARENA_SIZE; limit; 0]) \/ args = GPU_SMC :: SMC_GPU_INIT \/ args = GPU_SMC :: SMC_CP_APERTURE \/
  args = [GPU_RELEASE; 0x455341454C455247] \/
  exists a v, args = [GPU_STORE32; a; v] /\ in_arena e a 4 /\ a mod 4 = 0 /\ 0 <= v < 2 ^ 32.
(** [h] is the history before the action. *)
Definition allowed3 (w : answers) (h : list action) (x : action) : Prop :=
  let e := Env h w data in
  match x with
  | ARead32 a => exists r i, r ∈ REGS /\ reg_at r i = Ok a /\ readable r = true /\ reg_open e r
  | AWrite32 a _ => writes = true /\ exists r i, r ∈ REGS /\ reg_at r i = Ok a /\ writable r = true /\ reg_open e r
  | AReadMem a n _ =>
      mem_named e a n \/ (n = record_size /\ (a = 0 \/ exists info, boot_seen e info /\ a = rget info "gpu_state")) \/ in_arena e a n
  | ARead64 a => at_pointer a e
  | ARequest op args =>
      op ∈ [P_GET_BOOTARGS; P_Q1N1_SERROR; P_GET_EXC_COUNT; P_UDELAY] \/ (op = P_DC_CIVAC /\ exists a n, args = [a; n] /\ in_arena e a n) \/
      (op = P_MEMSET64 /\ writes = true /\ exists a n, args = [a; 0; n] /\ in_arena e a n)
  | AWriteMem a d => writes = true /\ in_arena e a (zlen d)
  | ACall a args => writes = true /\ a <> 0 /\ (exists info, boot_seen e info /\ a = rget info "gpu_call") /\ call_ok e args
  | ACopy _ _ _ => False
  | ANow => True
  end.

Abbreviation GS := (session env).
Abbreviation hoare := (GpuLogic.hoare allowed3).
Abbreviation st := (GpuSafe.st data true writes).

(** ** The invariant *)

Definition named (e : env) (field : string) (a : Z) : Prop := a = 0 \/ exists info, boot_seen e info /\ a = rget info field.
Record inv3 (s : GS) : Prop := {
  i3_data : ev_data (ss_tgt s) = data;
  i3_stage : ss_stage3 s = true;
  i3_writes : ss_writes s = writes;
  i3_gates : forall g e, ss_proven s g = Some e -> gate_seen (ss_tgt s) g;
  i3_arena : forall a, ss_arena s = Some a -> arena_seen (ss_tgt s) a;
  i3_call : named (ss_tgt s) "gpu_call" (ss_gpu_call s);
  i3_record : named (ss_tgt s) "gpu_state" (ss_gpu_record s);
  i3_regions : o_regions (ss_out s) = [] \/ regions_seen (ss_tgt s) (o_regions (ss_out s))
}.
Definition safe3 {A} (m : M GS A) : Prop := hoare inv3 m (fun _ => inv3) inv3.

Lemma named_ext e e' f a : extends e e' -> named e f a -> named e' f a.
Proof. intros Hx [->|(info & Hb & ->)]; [by left|right]. exists info. split; [by eapply boot_seen_ext|done]. Qed.

Lemma inv3_ext e s : inv3 s -> extends (ss_tgt s) e -> inv3 (upd_tgt e s).
Proof.
  intros [H1 H2 H3 H4 H5 H6 H7 H8] Hx. split; cbn [upd_tgt ss_tgt ss_stage3 ss_writes ss_proven ss_arena ss_gpu_call ss_gpu_record ss_out]; try done.
  - destruct Hx as (_ & -> & _). done.
  - intros g x Hg. eapply gate_seen_ext; [exact Hx|]. by eapply H4.
  - intros a Ha. eapply arena_seen_ext; [exact Hx|]. by apply H5.
  - by eapply named_ext.
  - by eapply named_ext.
  - destruct H8 as [H8|H8]; [by left|right]. by eapply regions_seen_ext.
Qed.

(** What is shown of a target is shown of the history [allowed3] gets. *)
Lemma env_eta e : ev_data e = data -> Env (ev_log e) (ev_word e) data = e.
Proof. by destruct e; intros <-. Qed.

(** ** Rules *)

Lemma s3_ret {A} (a : A) : safe3 (py_ret a).
Proof. by apply h_ret'. Qed.
Lemma s3_raise {A} e : safe3 (A := A) (py_raise e).
Proof. apply h_raise. Qed.
Lemma s3_lift {A} (x : result A) : safe3 (py_lift x).
Proof. eapply h_conseq; [apply h_lift|done|by intros a s []|done]. Qed.
Lemma s3_bind {A B} (m : M GS A) (k : A -> M GS B) : safe3 m -> (forall a, safe3 (k a)) -> safe3 (py_bind m k).
Proof. intros Hm Hk. eapply h_bind; [exact Hm|]. intros a. apply Hk. Qed.
Lemma s3_get {A B} (f : GS -> A) (k : A -> M GS B) : (forall a, safe3 (k a)) -> safe3 (py_bind (py_get f) k).
Proof. intros Hk. apply h_get. intros a. apply h_fst, Hk. Qed.
Lemma s3_get0 {A} (f : GS -> A) : safe3 (py_get f).
Proof. intros s r s' HP [= <- <-]. split; [apply steps_refl|done]. Qed.
Lemma s3_catch {A} (m : M GS A) p h : safe3 m -> safe3 h -> safe3 (py_catch m p h).
Proof. intros Hm Hh. by eapply h_catch. Qed.
Lemma s3_reraise {A} (m : M GS A) p h : safe3 m -> safe3 h -> safe3 (py_reraise m p h).
Proof. intros Hm Hh. by apply h_reraise. Qed.
Lemma s3_remote {A} (m : M GS A) h : safe3 m -> (forall z, safe3 (h z)) -> safe3 (on_remote m h).
Proof. intros Hm Hh. by apply h_remote. Qed.
Lemma s3_finally {A} (m : M GS A) f : safe3 m -> safe3 f -> safe3 (py_finally m f).
Proof.
  intros Hm Hf s r s' HP E. unfold py_finally in E. destruct (m s) as [r1 s1] eqn:E1. destruct (Hm _ _ _ HP E1) as [S1 H1].
  assert (HI : inv3 s1) by (by destruct r1). destruct (f s1) as [r2 s2] eqn:E2. destruct (Hf _ _ _ HI E2) as [S2 H2].
  assert (s' = s2) as -> by (by destruct r2; injection E as _ <-). split; [by eapply steps_trans|].
  destruct r2; injection E as <-; [by destruct r1|done].
Qed.
Lemma s3_each {A} (f : A -> M GS unit) xs : (forall x, x ∈ xs -> safe3 (f x)) -> safe3 (each f xs).
Proof. intros H. by apply h_each. Qed.
Lemma s3_collect {A B} (f : A -> M GS B) xs : (forall x, safe3 (f x)) -> safe3 (collect f xs).
Proof. intros H. induction xs as [|x xs IH]; cbn [collect]; [apply s3_ret|]. apply s3_bind; [apply H|]. intros y. apply s3_bind; [exact IH|]. intros ys. apply s3_ret. Qed.

(** Changes of the session that leave alone what [inv3] is about. *)
Definition same3 (s s' : GS) : Prop :=
  ss_tgt s' = ss_tgt s /\ ss_stage3 s' = ss_stage3 s /\ ss_writes s' = ss_writes s /\ ss_proven s' = ss_proven s /\ ss_arena s' = ss_arena s /\
  ss_gpu_call s' = ss_gpu_call s /\ ss_gpu_record s' = ss_gpu_record s /\ o_regions (ss_out s') = o_regions (ss_out s).
Lemma inv3_same s s' : inv3 s -> same3 s s' -> inv3 s'.
Proof.
  intros [H1 H2 H3 H4 H5 H6 H7 H8] (Et & Es & Ew & Ep & Ea & Ec & Er & Eo). split; rewrite ?Et, ?Es, ?Ew, ?Ea, ?Ec, ?Er, ?Eo; try done.
  intros g e. rewrite Ep. apply H4.
Qed.
Lemma s3_note f : (forall s, same3 s (f s)) -> safe3 (py_modify f).
Proof. intros H. apply h_modify. intros s Hs. split; [by apply (inv3_same s)|apply (H s)]. Qed.
Ltac note3 := apply s3_note; intros; by split_and!.

Lemma s3_host_set k v : safe3 (host_set (S := env) k v).
Proof. intros s r s' HP [= <- <-]. split; [apply steps_refl|]. apply (inv3_same s); [done|]. by split_and!. Qed.

(** A single action. *)
Lemma push_ok x s : inv3 s -> allowed3 (ev_word (ss_tgt s)) (ev_log (ss_tgt s)) x -> GpuLogic.steps allowed3 (ss_tgt s) (ev_push x (ss_tgt s)) /\ inv3 (upd_tgt (ev_push x (ss_tgt s)) s).
Proof. intros HI Ha. split; [by apply steps_push|]. apply inv3_ext; [done|apply extends_push]. Qed.

Lemma h3_ask P x : (forall s, P s -> inv3 s /\ allowed3 (ev_word (ss_tgt s)) (ev_log (ss_tgt s)) x) ->
  hoare P (on_t (ask x)) (fun v s => inv3 s /\ exists h, ev_log (ss_tgt s) = x :: h /\ ev_word (ss_tgt s) (x :: h) = Ok v) inv3.
Proof.
  intros H s r s' HP E. destruct (H s HP) as [HI Ha]. destruct (push_ok x s HI Ha) as [S1 I1]. unfold on_t, ask in E. injection E as <- <-. split; [done|].
  destruct (ev_word (ss_tgt s) (x :: ev_log (ss_tgt s))) as [v|] eqn:Ev; [|done]. split; [done|]. by exists (ev_log (ss_tgt s)).
Qed.
Lemma h3_tell P x : (forall s, P s -> inv3 s /\ allowed3 (ev_word (ss_tgt s)) (ev_log (ss_tgt s)) x) -> hoare P (on_t (tell x)) (fun _ => inv3) inv3.
Proof.
  intros H s r s' HP E. destruct (H s HP) as [HI Ha]. destruct (push_ok x s HI Ha) as [S1 I1]. unfold on_t in E. destruct (tell x (ss_tgt s)) as [r1 e1] eqn:Et.
  apply tell_log in Et as ->. injection E as <- <-. split; [done|]. by destruct r1.
Qed.
Lemma h3_data P x : (forall s, P s -> inv3 s /\ allowed3 (ev_word (ss_tgt s)) (ev_log (ss_tgt s)) x) ->
  hoare P (on_t (ask_data x)) (fun d s => inv3 s /\ exists h, ev_log (ss_tgt s) = x :: h /\ ev_data (ss_tgt s) (x :: h) = Ok d) inv3.
Proof.
  intros H s r s' HP E. destruct (H s HP) as [HI Ha]. destruct (push_ok x s HI Ha) as [S1 I1]. unfold on_t, ask_data in E. injection E as <- <-. split; [done|].
  destruct (ev_data (ss_tgt s) (x :: ev_log (ss_tgt s))) as [v|] eqn:Ev; [|done]. split; [done|]. by exists (ev_log (ss_tgt s)).
Qed.
Lemma h3_drop {A} P (m : M GS A) Q : hoare P m (fun a s => inv3 s /\ Q a s) inv3 -> hoare P m (fun _ => inv3) inv3.
Proof. intros H. eapply h_conseq; [exact H|done|by intros a s []|done]. Qed.

(** ** What Stage 1 allows *)

Lemma once_now e p : p (ev_word e) (ev_log e) = true -> once e p.
Proof. intros H. by exists [], (ev_log e). Qed.
Lemma backed_seen e g : backed (ev_word e) (ev_log e) g = true -> g <> never /\ gate_seen e g.
Proof.
  intros H. split; [by intros ->|]. destruct g; cbn [gate_seen]; try done; try (by apply once_now). apply once_now. cbn beta. by apply backed_gmu_misc.
Qed.
Lemma allowed_mono w h x : GpuSafe.allowed data writes w h x -> allowed3 w h x.
Proof.
  destruct x; cbn [allowed allowed3]; try done.
  - intros (r & i & Hr & Ha & Hd & Hx & Hb). exists r, i. destruct (backed_seen (Env h w data) (rg_gate r) Hb) as [Hn Hs]. by split_and!.
  - intros (Hw & r & i & Hr & Ha & Hd & Hx & Hb). split; [done|]. exists r, i. destruct (backed_seen (Env h w data) (rg_gate r) Hb) as [Hn Hs]. by split_and!.
  - intros H. by left.
  - intros H. by left.
Qed.

Lemma trace_mono w new old : GpuLogic.trace (GpuSafe.allowed data writes) w new old -> GpuLogic.trace allowed3 w new old.
Proof. induction new as [|x new IH]; [done|]. intros [Hx Hn]. split; [by apply allowed_mono|by apply IH]. Qed.
Lemma steps_mono e e' : GpuLogic.steps (GpuSafe.allowed data writes) e e' -> GpuLogic.steps allowed3 e e'.
Proof. intros (Hw & Hd & n & Hl & Ht). split_and!; [done|done|]. exists n. split; [done|by apply trace_mono]. Qed.
Lemma hoare_mono {A} P (m : M GS A) Q X : GpuLogic.hoare (GpuSafe.allowed data writes) P m Q X -> hoare P m Q X.
Proof. intros H s r s' HP E. destruct (H _ _ _ HP E) as [HS HQ]. split; [by apply steps_mono|done]. Qed.

Abbreviation any := (fun _ : env => True).
Lemma h3_quiet {A} (m : M env A) Q : quiet data writes any m Q -> hoare inv3 (on_t m) (fun v s => inv3 s /\ Q v (ss_tgt s)) inv3.
Proof.
  intros Hm s r s' HP E. unfold on_t in E. destruct (m (ss_tgt s)) as [r1 e1] eqn:E1. injection E as <- <-. destruct (Hm _ _ _ I E1) as (HS & _ & _ & HQ).
  assert (HI : inv3 (upd_tgt e1 s)) by (apply inv3_ext; [done|by eapply steps_extends]).
  split; [by apply steps_mono|]. destruct r1; [|done]. split; [done|]. by apply HQ.
Qed.
Lemma s3_quiet {A} (m : M env A) Q : quiet data writes any m Q -> safe3 (on_t m).
Proof. intros Hm. apply (h3_drop _ _ (fun v s => Q v (ss_tgt s))), h3_quiet, Hm. Qed.
Lemma s3_now : safe3 (on_t (t_now (S := env))).
Proof. eapply s3_quiet, quiet_now. Qed.
Lemma s3_query op args : op ∈ [P_GET_BOOTARGS; P_Q1N1_SERROR; P_GET_EXC_COUNT; P_UDELAY] -> safe3 (on_t (t_query (S := env) op args)).
Proof. intros H. eapply s3_quiet. by apply quiet_request. Qed.
Lemma s3_request op args : op ∈ [P_GET_BOOTARGS; P_Q1N1_SERROR; P_GET_EXC_COUNT; P_UDELAY] -> safe3 (on_t (t_request (S := env) op args)).
Proof. intros H. eapply s3_quiet. by apply quiet_request. Qed.

Lemma s3_delay us : safe3 (on_t (t_request (S := env) P_UDELAY [us])).
Proof. apply s3_request; in_list. Qed.

Create HintDb safe3 discriminated.
#[local] Hint Constants Opaque : safe3.
#[local] Hint Resolve s3_delay : safe3.
#[local] Hint Resolve s3_ret s3_raise s3_lift s3_get0 s3_host_set s3_now : safe3.

(** The structure of a program; what is left are its obligations. *)
Ltac s3 :=
  repeat lazymatch goal with
    | |- forall _, _ => intros
    | |- safe3 (let _ := _ in _) => cbv zeta
    | |- safe3 (py_bind (py_get _) _) => apply s3_get
    | |- safe3 (py_bind _ _) => apply s3_bind
    | |- safe3 (py_modify _) => solve [note3]
    | |- safe3 (py_catch _ _ _) => apply s3_catch
    | |- safe3 (py_reraise _ _ _) => apply s3_reraise
    | |- safe3 (py_finally _ _) => apply s3_finally
    | |- safe3 (each _ _) => apply s3_each
    | |- safe3 (collect _ _) => apply s3_collect
    | |- safe3 (on_remote _ _) => apply s3_remote
    | |- safe3 (if ?b then _ else _) => destruct b
    | |- safe3 (match ?x with _ => _ end) => destruct x
    | |- _ => solve [auto 1 with safe3]
    end.

Lemma h3_failure {A} op r a z (Q : A -> GS -> Prop) : hoare inv3 (remote_failure op r a z) Q inv3.
Proof.
  unfold remote_failure. eapply (h_bind _ _ (fun _ => inv3)); [note3|]. intros []. apply h_get. intros guarded. apply h_fst.
  eapply (h_bind _ _ (fun _ => inv3)); [|intros []; destruct (_ =? _); apply h_raise]. change (safe3 (if guarded && ((z =? S_SERROR) || (z =? ST_XFRERR)) then
     let! state := on_remote (on_t serror_state) (fun _ => py_raise (SErrorStop "the record read was refused")) in
     let seen := negb (rget state "before" =? 0) || negb (rget state "during" =? 0) in
     if negb (rget state "unconsumed" =? 0) && negb seen then py_raise (SErrorStop "SError still pending")
     else if seen then py_raise (SErrorStop "SError") else py_ret tt
   else py_ret tt)). s3. eapply s3_quiet, quiet_serror_state.
Qed.
Lemma s3_failure {A} op r a z : safe3 (A := A) (remote_failure op r a z).
Proof. apply h3_failure. Qed.
#[local] Hint Resolve s3_failure : safe3.

(** ** Registers *)

Lemma check3 s r write : inv3 s -> check_reg (ss_stage3 s) (ss_writes s) (ss_proven s) r write = Ok tt ->
  reg_open (ss_tgt s) r /\ (if write then writable r = true /\ writes = true else readable r = true).
Proof.
  intros [H1 H2 H3 H4 _ _ _ _] E. unfold check_reg in E. rewrite H2, H3 in E.
  destruct (bool_decide (rg_gate r = never)) eqn:En; [done|]. apply bool_decide_eq_false in En.
  destruct (true && _ && _) eqn:Eg; [done|]. destruct (write && _) eqn:Ew; [done|]. destruct (negb write && _) eqn:Er; [done|].
  destruct (ss_proven s (rg_gate r)) as [ev|] eqn:Ep; [|done]. split.
  - split_and!; [done|by eapply H4|]. intros Hd. rewrite (bool_decide_eq_true_2 _ Hd) in Eg. cbn [andb] in Eg.
    destruct (ss_proven s gx) as [ev'|] eqn:Ex; [by eapply H4|done].
  - destruct write; cbn [andb negb] in *.
    + apply orb_false_elim in Ew as [Hw Hy]. by rewrite negb_false_iff in Hw, Hy.
    + by rewrite negb_false_iff in Er.
Qed.

(** The value [v] was read from register [name]. *)
Definition saw (name : string) (v : Z) (e : env) : Prop := once e (fun w h => bool_decide (read_back w h (addr_of name) = Some v)).
Lemma saw_ext name v e e' : extends e e' -> saw name v e -> saw name v e'.
Proof. apply once_ext. Qed.

(** A read; at index 0 the value is one the register showed. *)
Lemma h3_rd name i : hoare inv3 (rd name i) (fun v s => inv3 s /\ (i = 0 -> saw name v (ss_tgt s))) inv3.
Proof.
  unfold rd. eapply h_bind; [apply h_lift|]. intros r. apply h_fact. intros Hn. destruct (reg_named_in _ _ Hn) as [Hr _].
  eapply (h_bind _ _ (fun _ s => inv3 s /\ reg_open (ss_tgt s) r /\ readable r = true)).
  { intros s x s' HP [= <- <-]. split; [apply steps_refl|]. destruct (check_reg _ _ _ _ _) as [[]|] eqn:Ec; [|done]. split; [done|]. by apply (check3 s r false). }
  intros []. eapply h_bind; [apply h_lift'; by intros s []|]. intros a. apply h_fact. intros Ha.
  set (Q := fun v s => inv3 s /\ (i = 0 -> saw name (Z.land v 0xFFFFFFFF) (ss_tgt s))).
  eapply (h_bind _ _ Q).
  { apply h_remote; [|intros z; apply h3_failure].
    eapply h_conseq; [apply (h3_ask (fun s => inv3 s /\ reg_open (ss_tgt s) r /\ readable r = true) (ARead32 a))|done| |done].
    - intros s (HI & Ho & Hx). split; [done|]. cbn [allowed3]. exists r, i. rewrite env_eta by apply HI. by split_and!.
    - intros v s [HI (h & El & Ev)]. split; [done|]. intros ->. unfold saw. apply once_now. cbn beta. rewrite El. unfold read_back. cbn [trail].
      rewrite <- (reg_at_0 name r a Hn Ha), Z.eqb_refl, Ev. by apply bool_decide_eq_true_2. }
  intros raw. cbn zeta. set (v := Z.land raw 0xFFFFFFFF) in *. unfold Q. fold v. set (R := fun e => i = 0 -> saw name v e).
  assert (HR : forall e e', R e -> GpuLogic.steps allowed3 e e' -> R e') by (intros e e' H HS Hi; eapply saw_ext; [by eapply steps_extends|by apply H]).
  eapply (h_bind _ _ (fun _ s => inv3 s /\ R (ss_tgt s))).
  { apply (h_stable R inv3 _ (fun _ => inv3)); [exact HR|]. change (safe3 (if v =? MARKER32 then
     let! faults := on_t (t_query P_GET_EXC_COUNT []) in
     if negb (faults =? 0) then py_modify (upd_log (LReg false name a (Some v) faults)) ;;; py_raise (AbortStop "read: synchronous abort (guard marker)")
     else py_ret tt
   else py_ret tt)). s3. apply s3_query; in_list. }
  intros []. eapply (h_bind _ _ (fun _ s => inv3 s /\ R (ss_tgt s))); [apply (h_stable R inv3 _ (fun _ => inv3)); [exact HR|note3]|].
  intros []. by apply h_ret'.
Qed.
Lemma s3_rd name i : safe3 (rd name i).
Proof. eapply h3_drop, h3_rd. Qed.

Lemma s3_wr name v i : safe3 (wr name v i).
Proof.
  unfold wr. eapply h_bind; [apply h_lift|]. intros r. apply h_fact. intros Hn. destruct (reg_named_in _ _ Hn) as [Hr _].
  set (P := fun s => inv3 s /\ reg_open (ss_tgt s) r /\ writable r = true /\ writes = true).
  eapply (h_bind _ _ (fun _ => P)).
  { intros s x s' HP [= <- <-]. split; [apply steps_refl|]. destruct (check_reg _ _ _ _ _) as [[]|] eqn:Ec; [|done]. split; [done|]. by apply (check3 s r true). }
  intros []. eapply h_bind; [apply h_lift'; by intros s []|]. intros a. apply h_fact. intros Ha. cbn zeta.
  eapply (h_bind _ _ (fun _ => inv3)).
  { apply h_remote; [|intros z; apply h3_failure]. apply h3_tell. intros s (HI & Ho & Hx & Hw). split; [done|]. cbn [allowed3]. split; [done|].
    exists r, i. rewrite env_eta by apply HI. by split_and!. }
  intros []. change (safe3 (let! faults := on_t (t_query P_GET_EXC_COUNT []) in
    py_modify (upd_log (LReg true name a (Some (Z.land v 0xFFFFFFFF)) faults)) ;;; if negb (faults =? 0) then py_raise (AbortStop "write: synchronous abort") else py_ret tt)).
  s3. apply s3_query; in_list.
Qed.
#[local] Hint Resolve s3_rd s3_wr : safe3.

(** ** The arena *)

(** What stays shown as the history grows. *)
Lemma h3_keep {A} (R : env -> Prop) (m : M GS A) Q : (forall e e', extends e e' -> R e -> R e') -> hoare inv3 m (fun a s => inv3 s /\ Q a s) inv3 ->
  hoare (fun s => inv3 s /\ R (ss_tgt s)) m (fun a s => (inv3 s /\ Q a s) /\ R (ss_tgt s)) inv3.
Proof. intros HR Hm. apply (h_stable R); [|exact Hm]. intros e e' H HS. eapply HR; [by eapply steps_extends|done]. Qed.
Lemma h3_hold {A} (R : env -> Prop) (m : M GS A) : (forall e e', extends e e' -> R e -> R e') -> hoare (fun s => inv3 s /\ R (ss_tgt s)) m (fun _ => inv3) inv3 ->
  hoare (fun s => inv3 s /\ R (ss_tgt s)) m (fun _ s => inv3 s /\ R (ss_tgt s)) inv3.
Proof.
  intros HR Hm s r s' HP E. destruct (Hm s r s' HP E) as [HS HQ]. split; [done|]. destruct r; [|done]. split; [done|]. eapply HR; [by eapply steps_extends|apply HP].
Qed.

Lemma h3_need what : hoare inv3 (need_writes what) (fun _ s => inv3 s /\ writes = true) inv3.
Proof.
  unfold need_writes. apply h_get. intros w. destruct w; cbn [negb]; [|apply h_fst, h_raise]. apply h_ret'. intros s [HI Hw]. split; [done|]. by rewrite <- (i3_writes s HI).
Qed.
Lemma h3_arena_addr offset length : hoare inv3 (arena_addr offset length) (fun a s => inv3 s /\ in_arena (ss_tgt s) a length) inv3.
Proof.
  unfold arena_addr. apply h_get. intros [[base size]|]; [|apply h_fst, h_raise]. destruct (_ || _) eqn:Eb; [apply h_fst, h_raise|]. zbool.
  apply h_ret'. intros s [HI Ha]. split; [done|]. exists base, size. split; [by apply (i3_arena s HI)|lia].
Qed.

(** One action on memory of the arena. *)
Lemma h3_dram {A} op address (m : M env A) P Q : hoare P (on_t m) Q inv3 -> hoare P (dram_op op address m) Q inv3.
Proof. intros H. apply h_remote; [exact H|]. intros z. apply h3_failure. Qed.

Lemma h3_clean a n : hoare (fun s => inv3 s /\ in_arena (ss_tgt s) a n) (clean a n) (fun _ => inv3) inv3.
Proof.
  apply h3_dram, h3_tell. intros s [HI Ha]. split; [done|]. cbn [allowed3]. right. left. split; [done|]. exists a, n. rewrite env_eta by apply HI. done.
Qed.

Lemma h3_clean' a n : hoare (fun s => inv3 s /\ in_arena (ss_tgt s) a n) (clean a n) (fun _ s => inv3 s /\ in_arena (ss_tgt s) a n) inv3.
Proof. apply (h3_hold (fun e => in_arena e a n)); [by intros e e'; apply in_arena_ext|apply h3_clean]. Qed.

Lemma s3_mem_write offset d : safe3 (mem_write offset d).
Proof.
  unfold mem_write. eapply h_bind; [apply h3_need|]. intros []. apply h_fact. intros Hw. eapply h_bind; [apply h3_arena_addr|]. intros a. cbn beta.
  eapply h_bind.
  - apply (h3_hold (fun e => in_arena e a (zlen d))); [by intros e e'; apply in_arena_ext|]. apply h3_dram, h3_tell.
    intros s [HI Ha]. split; [done|]. cbn [allowed3]. split; [done|]. by rewrite env_eta by apply HI.
  - intros []. eapply h_bind; [apply h3_clean|]. intros []. note3.
Qed.
Lemma s3_mem_fill offset length : safe3 (mem_fill offset length).
Proof.
  unfold mem_fill. eapply h_bind; [apply h3_need|]. intros []. apply h_fact. intros Hw. eapply h_bind; [apply h3_arena_addr|]. intros a. cbn beta.
  destruct (_ || _); [apply h_fst, h_raise|]. eapply h_bind.
  - apply (h3_hold (fun e => in_arena e a length)); [by intros e e'; apply in_arena_ext|]. apply h3_dram, h3_tell.
    intros s [HI Ha]. split; [done|]. cbn [allowed3]. right. right. split; [done|]. split; [done|]. exists a, length. by rewrite env_eta by apply HI.
  - intros []. eapply h_bind; [apply h3_clean|]. intros []. note3.
Qed.
Lemma s3_mem_read offset length : safe3 (GpuStage3.mem_read offset length).
Proof.
  unfold GpuStage3.mem_read. eapply h_bind; [apply h3_arena_addr|]. intros a. cbn beta. eapply h_bind; [apply h3_clean'|]. intros [].
  eapply (h_bind _ _ (fun _ => inv3)).
  - apply h3_dram. eapply h3_drop, h3_data. intros s [HI Ha]. split; [done|]. cbn [allowed3]. right. right. by rewrite env_eta by apply HI.
  - intros d. change (safe3 (py_modify (upd_log (LMem "readmem" a length)) ;;; py_ret d)). s3.
Qed.
#[local] Hint Resolve s3_mem_write s3_mem_fill s3_mem_read : safe3.

(** ** The GPU entry point *)

Lemma call_ok_ext e e' args : extends e e' -> call_ok e args -> call_ok e' args.
Proof.
  intros Hx [H|[H|[H|[H|(a & v & H1 & H2 & H3)]]]]; [by left|right; by left|do 2 right; by left|do 3 right; by left|do 4 right]. exists a, v. split; [done|]. split; [by eapply in_arena_ext|done].
Qed.

Lemma h3_call op args : existsb (Z.eqb op) [GPU_CLAIM; GPU_SMC; GPU_RELEASE; GPU_STORE32] = true ->
  hoare (fun s => inv3 s /\ call_ok (ss_tgt s) (op :: args)) (call_gpu op args) (fun _ => inv3) inv3.
Proof.
  intros Hop. unfold call_gpu. apply h_get. intros call. destruct (Z.eqb_spec call 0) as [|Hc]; [eapply h_pre; [apply (h_raise inv3)|by intros s [[] ]|done]|]. rewrite Hop.
  set (R := fun e => call_ok e (op :: args) /\ exists info, boot_seen e info /\ call = rget info "gpu_call").
  assert (HR : forall e e', extends e e' -> R e -> R e').
  { intros e e' Hx [H1 (info & Hb & H2)]. split; [by eapply call_ok_ext|]. exists info. split; [by eapply boot_seen_ext|done]. }
  apply (h_pre (fun s => inv3 s /\ R (ss_tgt s)) _ _ _ inv3); [|intros s [[HI Ho] Hs]; split; [done|]; split; [done|]|done].
  - eapply h_bind; [apply (h3_keep R _ (fun _ _ => writes = true)); [exact HR|apply h3_need]|]. intros [].
    eapply (h_bind _ _ (fun _ => inv3)).
    + apply h3_dram. eapply h3_drop, h3_ask. intros s [[HI Hw] [Ho Hb]]. split; [done|]. cbn [allowed3]. by rewrite env_eta by apply HI.
    + intros v. change (safe3 (py_modify (upd_log (LCall op args (Z.land v 0xFFFFFFFFFFFFFFFF))) ;;; py_ret (signed64 v))). s3.
  - destruct (i3_call s HI) as [H0|H]; [by rewrite Hs in H0|]. by rewrite Hs in H.
Qed.

(** Calls whose arguments are fixed. *)
Lemma s3_call op args : existsb (Z.eqb op) [GPU_CLAIM; GPU_SMC; GPU_RELEASE; GPU_STORE32] = true -> (forall e, call_ok e (op :: args)) -> safe3 (call_gpu op args).
Proof. intros Hop Hc. eapply h_pre; [by apply h3_call| |done]. intros s HI. by split. Qed.
Lemma s3_claim limit : safe3 (call_gpu GPU_CLAIM [ARENA_SIZE; limit; 0]).
Proof. apply s3_call; [done|]. intros e. left. by exists limit. Qed.
Lemma s3_smc_init : safe3 (call_gpu GPU_SMC SMC_GPU_INIT).
Proof. apply s3_call; [done|]. intros e. right. by left. Qed.
Lemma s3_smc_aperture : safe3 (call_gpu GPU_SMC SMC_CP_APERTURE).
Proof. apply s3_call; [done|]. intros e. do 2 right. by left. Qed.
Lemma s3_release : safe3 (call_gpu GPU_RELEASE [0x455341454C455247]).
Proof. apply s3_call; [done|]. intros e. do 3 right. by left. Qed.

Lemma s3_mem_store32 offset v : safe3 (mem_store32 offset v).
Proof.
  unfold mem_store32. eapply h_bind; [apply h3_need|]. intros []. apply h_fst. eapply h_bind; [apply h3_arena_addr|]. intros a. cbn beta.
  destruct (Z.eqb_spec (a mod 4) 0) as [H4|]; cbn [negb]; [|apply h_fst, h_raise].
  eapply (h_bind _ _ (fun _ => inv3)).
  - eapply h_pre; [apply h3_call; reflexivity| |done]. intros s [HI Ha]. split; [done|]. do 4 right. exists a, (Z.land v 0xFFFFFFFF). split; [done|]. split; [done|]. split; [done|].
    change 0xFFFFFFFF with (Z.ones 32). rewrite Z.land_ones by lia. by apply Z.mod_pos_bound.
  - intros status. change (safe3 (if negb (status =? 0) then py_raise (Stop "GPU_STORE32 refused") else py_modify (upd_log (LMem "store32" a 4)))). s3.
Qed.
#[local] Hint Resolve s3_claim s3_smc_init s3_smc_aperture s3_release s3_mem_store32 : safe3.

(** ** What surveys and calls leave alone *)

(** The address of the GPU record and the power state noted by the survey. *)
Definition keeps {A} (m : M GS A) : Prop := forall s r s', m s = (r, s') -> ss_gpu_record s' = ss_gpu_record s /\ o_gdsc (ss_out s') = o_gdsc (ss_out s).

Lemma k_ret {A} (a : A) : keeps (py_ret a). Proof. by intros s r s' [= <- <-]. Qed.
Lemma k_raise {A} e : keeps (A := A) (py_raise e). Proof. by intros s r s' [= <- <-]. Qed.
Lemma k_lift {A} (x : result A) : keeps (py_lift x). Proof. by intros s r s' [= <- <-]. Qed.
Lemma k_get {A} (f : GS -> A) : keeps (py_get f). Proof. by intros s r s' [= <- <-]. Qed.
Lemma k_check r w : keeps (s_check (S := env) r w). Proof. by intros s x s' [= <- <-]. Qed.
Lemma k_on {A} (m : M env A) : keeps (on_t m). Proof. intros s r s' E. unfold on_t in E. destruct (m (ss_tgt s)). by injection E as <- <-. Qed.
Lemma k_modify f : (forall s : GS, ss_gpu_record (f s) = ss_gpu_record s /\ o_gdsc (ss_out (f s)) = o_gdsc (ss_out s)) -> keeps (py_modify f).
Proof. intros H s r s' [= <- <-]. apply H. Qed.
Lemma k_bind {A B} (m : M GS A) (k : A -> M GS B) : keeps m -> (forall a, keeps (k a)) -> keeps (py_bind m k).
Proof.
  intros Hm Hk s r s' E. unfold py_bind in E. destruct (m s) as [[a|e] s1] eqn:E1; destruct (Hm _ _ _ E1) as [H1 H2].
  - destruct (Hk a _ _ _ E) as [H3 H4]. split; congruence.
  - by injection E as <- <-.
Qed.
Lemma k_remote {A} (m : M GS A) h : keeps m -> (forall z, keeps (h z)) -> keeps (on_remote m h).
Proof.
  intros Hm Hh s r s' E. unfold on_remote in E. destruct (m s) as [[a|e] s1] eqn:E1; destruct (Hm _ _ _ E1) as [H1 H2]; [by injection E as <- <-|].
  destruct e; try (by injection E as <- <-). destruct (Hh _ _ _ _ E) as [H3 H4]. split; congruence.
Qed.
Create HintDb keeps.
#[local] Hint Resolve k_ret k_raise k_lift k_get k_check k_on : keeps.
Ltac ks :=
  repeat first
    [ solve [auto 2 with keeps]
    | progress intros
    | progress cbv zeta
    | match goal with
      | |- keeps (py_bind _ _) => apply k_bind
      | |- keeps (py_modify _) => solve [apply k_modify; done]
      | |- keeps (on_remote _ _) => apply k_remote
      | |- keeps (if ?b then _ else _) => destruct b
      | |- keeps (match ?x with _ => _ end) => destruct x
      end ].
Lemma k_failure {A} op r a z : keeps (A := A) (remote_failure op r a z).
Proof. unfold remote_failure. ks. Qed.
#[local] Hint Resolve k_failure : keeps.
Lemma k_rd name i : keeps (rd name i).
Proof. unfold rd. ks. Qed.
#[local] Hint Resolve k_rd : keeps.
Lemma k_prove g e : keeps (prove g e). Proof. by apply k_modify. Qed.
Lemma k_withdraw g : keeps (withdraw g). Proof. by apply k_modify. Qed.
#[local] Hint Resolve k_prove k_withdraw : keeps.
Lemma k_evaluate g values gem : keeps (evaluate_gates g values gem).
Proof. unfold evaluate_gates, prove_fuse, gate_gmu, gate_misc, gate_smmu, is_proven. ks. Qed.
Lemma k_freq : keeps step_freq_limit.
Proof. unfold step_freq_limit, set_step, order, is_proven. ks. Qed.
Lemma k_call op args : keeps (call_gpu op args).
Proof. unfold call_gpu, need_writes, dram_op. ks. Qed.
Lemma k_payload a n : keeps (payload_read a n).
Proof. unfold payload_read, dram_op. ks. Qed.

(** A postcondition from the program alone. *)
Lemma h_and {A} P (m : M GS A) Q R X : hoare P m Q X -> (forall s a s', P s -> m s = (Ok a, s') -> R a s') -> hoare P m (fun a s => Q a s /\ R a s) X.
Proof. intros Hm HR s r s' HP E. destruct (Hm s r s' HP E) as [HS HQ]. split; [done|]. destruct r; [|done]. split; [done|]. by eapply HR. Qed.

(** ** The records of the target *)

Definition record_seen (e : env) (a : Z) (state : list (string * Z)) : Prop := exists d, saw_data e a record_size d /\ gpu_state_decode d = Ok state.
Lemma record_seen_ext e e' a state : extends e e' -> record_seen e a state -> record_seen e' a state.
Proof. intros Hx (d & Hd & Hs). exists d. split; [by eapply saw_data_ext|done]. Qed.

(** The boot information in use. *)
Definition booted (info : boot_info) (s : GS) : Prop := inv3 s /\ boot_seen (ss_tgt s) info /\ ss_gpu_record s = rget info "gpu_state".
Lemma booted_keeps {A} info (m : M GS A) Q : hoare inv3 m (fun a s => inv3 s /\ Q a (ss_tgt s)) inv3 -> keeps m -> hoare (booted info) m (fun a s => booted info s /\ Q a (ss_tgt s)) inv3.
Proof.
  intros Hm Hk s r s' (HI & Hb & Hr) E. destruct (Hm s r s' HI E) as [HS HQ]. split; [done|]. destruct r; [|done]. destruct HQ as [HI' HQ]. split; [|done].
  split_and!; [done|eapply boot_seen_ext; [by eapply steps_extends|done]|]. destruct (Hk _ _ _ E) as [-> _]. done.
Qed.

Lemma h3_payload a : hoare (fun s => inv3 s /\ ss_gpu_record s = a) (payload_read a record_size) (fun d s => inv3 s /\ saw_data (ss_tgt s) a record_size d) inv3.
Proof.
  unfold payload_read. eapply (h_bind _ _ (fun d s => inv3 s /\ saw_data (ss_tgt s) a record_size d)).
  - apply h3_dram. eapply h_conseq; [apply (h3_data (fun s => inv3 s /\ ss_gpu_record s = a) (AReadMem a record_size false))|done| |done].
    + intros s [HI Ha]. split; [done|]. cbn [allowed3]. rewrite env_eta by apply HI. right. left. split; [done|]. rewrite <- Ha. apply (i3_record s HI).
    + intros d s [HI (h & El & Ed)]. split; [done|]. exists [], h. by rewrite El.
  - intros d. eapply (h_bind _ _ (fun _ s => inv3 s /\ saw_data (ss_tgt s) a record_size d)).
    + apply (h3_hold (fun e => saw_data e a record_size d)); [by intros e e'; apply saw_data_ext|]. apply h_fst. note3.
    + intros []. by apply h_ret'.
Qed.

Lemma h3_read_gpu_state : hoare inv3 read_gpu_state (fun state s => inv3 s /\ record_seen (ss_tgt s) (ss_gpu_record s) state) inv3.
Proof.
  unfold read_gpu_state. apply h_get. intros record.
  eapply (h_bind _ _ (fun d s => (inv3 s /\ saw_data (ss_tgt s) record record_size d) /\ ss_gpu_record s = record)).
  - apply h_and; [apply h3_payload|]. intros s d s' [HI Ha] E. destruct (k_payload _ _ _ _ _ E) as [-> _]. done.
  - intros d. eapply h_bind; [apply h_lift'; by intros s [[] _]|]. intros state. apply h_fact. intros Hd.
    assert (HX : forall s, (inv3 s /\ saw_data (ss_tgt s) record record_size d) /\ ss_gpu_record s = record -> inv3 s) by (by intros s [[] _]).
    destruct (_ || _); [eapply h_pre; [apply (h_raise inv3)|exact HX|done]|]. destruct (_ <? _); [eapply h_pre; [apply (h_raise inv3)|exact HX|done]|].
    apply h_ret'. intros s [[HI Hs] ->]. split; [done|]. by exists d.
Qed.
Lemma s3_read_gpu_state : safe3 read_gpu_state.
Proof. eapply h3_drop, h3_read_gpu_state. Qed.
#[local] Hint Resolve k_payload k_call : keeps.
Lemma k_read_gpu_state : keeps read_gpu_state.
Proof. unfold read_gpu_state. ks. Qed.
#[local] Hint Resolve s3_read_gpu_state : safe3.

Lemma booted_read info : hoare (booted info) read_gpu_state (fun state s => booted info s /\ record_seen (ss_tgt s) (rget info "gpu_state") state) inv3.
Proof.
  intros s r s' (HI & Hb & Hr) E. destruct (h3_read_gpu_state s r s' HI E) as [HS HQ]. split; [done|]. destruct r as [state|]; [|done]. destruct HQ as [HI' HQ].
  destruct (k_read_gpu_state _ _ _ E) as [Er _]. rewrite Er, Hr in HQ. split; [|done]. split_and!; [done|eapply boot_seen_ext; [by eapply steps_extends|done]|by rewrite Er].
Qed.

Lemma h3_bootinfo_gpu : hoare inv3 bootinfo_gpu booted inv3.
Proof.
  unfold bootinfo_gpu. eapply h_bind; [apply (h3_quiet _ (fun i e => boot_seen e i)), quiet_bootinfo|]. intros info. cbn beta.
  eapply (h_bind _ _ (fun _ => booted info)).
  - apply h_modify. intros s [[H1 H2 H3 H4 H5 H6 H7 H8] Hb]. split; [|done]. split_and!; [|done|done]. split; try done; right; by exists info.
  - intros []. destruct (_ || _); [eapply h_pre; [apply (h_raise inv3)|by intros s []|done]|by apply h_ret'].
Qed.

(** Without a memory map no arena passes. *)
Lemma arena_check_map info state a : arena_check info state [] <> Ok a.
Proof.
  unfold arena_check. cbn [covering List.filter forallb negb orb arena_covered foldr]. destruct (_ =? 0); [done|]. destruct (_ || _) eqn:E; [done|]. zbool.
  assert (HA : 0 < ARENA_SIZE) by reflexivity. by rewrite (proj2 (Z.ltb_lt 0 _)) by lia.
Qed.

Lemma s3_read_host : safe3 read_host.
Proof. unfold read_host. s3. Qed.
Lemma s3_write_host : safe3 write_host.
Proof. unfold write_host. s3. Qed.
Lemma s3_set_step x : safe3 (set_step (S := env) x). Proof. note3. Qed.
Lemma s3_order x : safe3 (order (S := env) x). Proof. note3. Qed.
#[local] Hint Resolve s3_read_host s3_write_host s3_set_step s3_order : safe3.

Lemma s3_host_get k : safe3 (host_get (S := env) k). Proof. apply s3_get0. Qed.
#[local] Hint Resolve s3_host_get : safe3.
Lemma s3_set_host h : safe3 (py_modify (upd_host (S := env) h)).
Proof. note3. Qed.
#[local] Hint Resolve s3_set_host : safe3.

(** arena_prove: the arena is the one of the record, checked against the map. *)
Lemma s3_arena_prove claim limit : safe3 (arena_prove claim limit).
Proof.
  unfold arena_prove. eapply h_bind; [apply s3_set_step|]. intros []. eapply h_bind; [apply h3_bootinfo_gpu|]. intros info.
  eapply h_bind; [apply booted_read|]. intros state0.
  eapply (h_bind _ _ (fun state s => booted info s /\ record_seen (ss_tgt s) (rget info "gpu_state") state)).
  { destruct (_ && _); [|by apply h_ret']. apply h_fst. eapply h_bind.
    - apply (booted_keeps info _ (fun _ _ => True)); [|apply k_call]. eapply h_conseq; [apply s3_claim|done|by intros|done].
    - intros status. apply h_fst. eapply h_bind; [apply booted_read|]. intros state. cbn beta. destruct (negb _); [|by apply h_ret'].
      eapply h_pre; [apply (h_raise inv3)|by intros s [[] _]|done]. }
  intros state. apply h_get. intros regions. eapply h_bind; [apply h_lift'; by intros s [[[] _] _]|]. intros arena. apply h_fact. intros Hc.
  eapply (h_bind _ _ (fun _ => inv3)).
  - apply h_modify. intros s [[(HI & Hb & Hr) (d & Hd & Hs)] Ho]. split; [|done]. pose proof HI as [H1 H2 H3 H4 H5 H6 H7 H8]. split; try done.
    intros a [= <-]. exists info, d, state, regions. split_and!; try done. rewrite Ho in H8. destruct H8 as [->|H8]; [|done]. by apply arena_check_map in Hc.
  - intros []. change (safe3 (let! host := read_host in
      let host := if negb (rget host "magic" =? HOST_MAGIC) || negb (rget host "arena_base" =? fst arena) then host_state_blank (fst arena) else host in
      py_modify (upd_host host) ;;; order "arena")). s3.
Qed.
#[local] Hint Resolve s3_arena_prove : safe3.

(** ** Gates *)

Lemma h3_prove g e : hoare (fun s => inv3 s /\ gate_seen (ss_tgt s) g) (prove g e) (fun _ => inv3) inv3.
Proof.
  apply h_modify. intros s [[H1 H2 H3 H4 H5 H6 H7 H8] Hg]. split; [|done]. split; try done. cbn [upd_proven ss_proven]. intros g' x. case_decide as Hd; [by subst|apply H4].
Qed.
Lemma s3_prove g e : g = gmu_smmu \/ g = gmu_booted -> safe3 (prove g e).
Proof. intros Hg. eapply h_pre; [apply h3_prove| |done]. intros s HI. split; [done|]. by destruct Hg as [-> | ->]. Qed.
Lemma s3_prove_smmu e : safe3 (prove gmu_smmu e). Proof. apply s3_prove; by left. Qed.
Lemma s3_prove_booted e : safe3 (prove gmu_booted e). Proof. apply s3_prove; by right. Qed.
Lemma s3_withdraw g : safe3 (withdraw g).
Proof.
  apply h_modify. intros s [H1 H2 H3 H4 H5 H6 H7 H8]. split; [|done]. split; try done. cbn [upd_proven ss_proven]. intros g' x. case_decide; [done|apply H4].
Qed.
Lemma s3_is_proven g : safe3 (is_proven g). Proof. apply s3_get0. Qed.
#[local] Hint Resolve s3_prove_smmu s3_prove_booted s3_withdraw s3_is_proven : safe3.

(** What a value that was read shows. *)
Lemma saw_once name v e (p : Z -> bool) : saw name v e -> p v = true -> once e (fun w h => shows w h name p).
Proof.
  intros (k & h & El & Hk) Hp. exists k, h. split; [done|]. cbn beta in Hk |- *. set (w := ev_word e) in *. apply bool_decide_eq_true in Hk. unfold read_back, shows, shown in *.
  destruct (trail w h (addr_of name)) as [[|u us] z]; [|done]. subst z. cbn [app forallb]. by rewrite Hp.
Qed.

Lemma s3_gx_on_proven : safe3 gx_on_proven.
Proof.
  unfold gx_on_proven. eapply h_bind; [apply h3_rd|]. intros status. cbn beta. destruct (bits status _) eqn:Eb.
  - eapply h_pre; [|by intros s []|done]. change (safe3 (withdraw gx ;;; py_ret false)). s3.
  - eapply (h_bind _ _ (fun _ => inv3)).
    + eapply h_pre; [apply h3_prove| |done]. intros s [HI Hs]. split; [done|]. cbn [gate_seen]. apply (saw_once _ status); [by apply Hs|]. by rewrite Eb.
    + intros []. apply s3_ret.
Qed.
#[local] Hint Resolve s3_gx_on_proven : safe3.

(** ** Every step *)

(** *** Polls and updates *)
Lemma s3_poll3_loop left : forall name mask want index deadline attempt, safe3 (poll3_loop left name mask want index deadline attempt).
Proof. induction left; intros; cbn [poll3_loop]; s3. Qed.
#[local] Hint Resolve s3_poll3_loop : safe3.
Lemma s3_poll3b name mask want kind index budget : safe3 (poll3b name mask want kind index budget).
Proof. unfold poll3b. s3. Qed.
#[local] Hint Resolve s3_poll3b : safe3.
Lemma s3_poll3 name mask want kind index : safe3 (poll3 name mask want kind index).
Proof. unfold poll3. s3. Qed.
#[local] Hint Resolve s3_poll3 : safe3.
Lemma s3_wr_update name mask b index : safe3 (wr_update name mask b index).
Proof. unfold wr_update. s3. Qed.
#[local] Hint Resolve s3_wr_update : safe3.
Lemma s3_update name mask b : safe3 (update name mask b).
Proof. unfold update. s3. Qed.
#[local] Hint Resolve s3_update : safe3.
Lemma s3_udelay us : safe3 (udelay us).
Proof. unfold udelay. s3. Qed.
#[local] Hint Resolve s3_udelay : safe3.
Lemma s3_poll_loop left : forall name mask want deadline attempt, safe3 (poll_loop left name mask want deadline attempt).
Proof. induction left; intros; cbn [poll_loop]; s3. Qed.
#[local] Hint Resolve s3_poll_loop : safe3.
Lemma s3_poll name mask want kind : safe3 (poll name mask want kind).
Proof. unfold poll. s3. Qed.
#[local] Hint Resolve s3_poll : safe3.
Lemma s3_rd_all names : safe3 (rd_all names).
Proof. induction names; intros; cbn [rd_all]; s3. Qed.
#[local] Hint Resolve s3_rd_all : safe3.
Lemma s3_park_rcg cmd cfg : safe3 (park_rcg cmd cfg).
Proof. unfold park_rcg. s3. Qed.
#[local] Hint Resolve s3_park_rcg : safe3.
Lemma s3_fill_region name : safe3 (fill_region name).
Proof. unfold fill_region. s3. Qed.
#[local] Hint Resolve s3_fill_region : safe3.
Lemma s3_arena_base : safe3 (arena_base).
Proof. unfold arena_base. s3. Qed.
#[local] Hint Resolve s3_arena_base : safe3.

(** *** SMMU *)
Lemma s3_smmu_read_cb cb : safe3 (smmu_read_cb cb).
Proof. unfold smmu_read_cb. s3. Qed.
#[local] Hint Resolve s3_smmu_read_cb : safe3.
Lemma s3_smmu_streams groups : safe3 (smmu_streams groups).
Proof. unfold smmu_streams. s3. Qed.
#[local] Hint Resolve s3_smmu_streams : safe3.
Lemma s3_smmu_globals : safe3 (smmu_globals).
Proof. unfold smmu_globals. s3. Qed.
#[local] Hint Resolve s3_smmu_globals : safe3.
Lemma s3_smmu_tlbi cb : safe3 (smmu_tlbi cb).
Proof. unfold smmu_tlbi. s3. Qed.
#[local] Hint Resolve s3_smmu_tlbi : safe3.
Lemma s3_stream_off i : safe3 (stream_off i).
Proof. unfold stream_off. s3. Qed.
#[local] Hint Resolve s3_stream_off : safe3.
Lemma s3_smmu_program tables cb i sid wide : safe3 (smmu_program tables cb i sid wide).
Proof. unfold smmu_program. s3. Qed.
#[local] Hint Resolve s3_smmu_program : safe3.
Lemma s3_sids_reaching_memory scr0 groups sids : safe3 (sids_reaching_memory scr0 groups sids).
Proof. unfold sids_reaching_memory. s3. Qed.
#[local] Hint Resolve s3_sids_reaching_memory : safe3.
Lemma s3_smmu_disable cb i sid : safe3 (smmu_disable cb i sid).
Proof. unfold smmu_disable. s3. Qed.
#[local] Hint Resolve s3_smmu_disable : safe3.
Lemma s3_smmu_route i sid cb : safe3 (smmu_route i sid cb).
Proof. unfold smmu_route. s3. Qed.
#[local] Hint Resolve s3_smmu_route : safe3.
Lemma s3_smmu_unroute i sid : safe3 (smmu_unroute i sid).
Proof. unfold smmu_unroute. s3. Qed.
#[local] Hint Resolve s3_smmu_unroute : safe3.
Lemma s3_smmu_verify groups expect : safe3 (smmu_verify groups expect).
Proof. unfold smmu_verify. s3. Qed.
#[local] Hint Resolve s3_smmu_verify : safe3.
Lemma s3_ensure_usfcfg : safe3 (ensure_usfcfg).
Proof. unfold ensure_usfcfg. s3. Qed.
#[local] Hint Resolve s3_ensure_usfcfg : safe3.
Lemma s3_write_tables tables : safe3 (write_tables tables).
Proof. unfold write_tables. s3. Qed.
#[local] Hint Resolve s3_write_tables : safe3.
Lemma s3_cb_faults cb : safe3 (cb_faults cb).
Proof. unfold cb_faults. s3. Qed.
#[local] Hint Resolve s3_cb_faults : safe3.
Lemma s3_gmu_state : safe3 (gmu_state).
Proof. unfold gmu_state. s3. Qed.
#[local] Hint Resolve s3_gmu_state : safe3.
Lemma s3_gmu_tables : safe3 (gmu_tables).
Proof. unfold gmu_tables. s3. Qed.
#[local] Hint Resolve s3_gmu_tables : safe3.
Lemma s3_gmu_smmu_proven : safe3 (gmu_smmu_proven).
Proof. unfold gmu_smmu_proven. s3. Qed.
#[local] Hint Resolve s3_gmu_smmu_proven : safe3.

(** *** RPMh and clocks *)
Lemma s3_rsc_layout : safe3 (rsc_layout).
Proof. unfold rsc_layout. s3. Qed.
#[local] Hint Resolve s3_rsc_layout : safe3.
Lemma s3_rsc_tcs l tcs : safe3 (rsc_tcs l tcs).
Proof. unfold rsc_tcs. s3. Qed.
#[local] Hint Resolve s3_rsc_tcs : safe3.
Lemma s3_rsc_survey l : safe3 (rsc_survey l).
Proof. unfold rsc_survey. s3. Qed.
#[local] Hint Resolve s3_rsc_survey : safe3.
Lemma s3_rsc_commands cmds : forall sfx tcs j enable, safe3 (rsc_commands sfx tcs j enable cmds).
Proof. induction cmds; intros; cbn [rsc_commands]; s3. Qed.
#[local] Hint Resolve s3_rsc_commands : safe3.
Lemma s3_rsc_send l tcs cmds : safe3 (rsc_send l tcs cmds).
Proof. unfold rsc_send. s3. Qed.
#[local] Hint Resolve s3_rsc_send : safe3.
Lemma s3_gpu_db : safe3 (gpu_db).
Proof. unfold gpu_db. s3. Qed.
#[local] Hint Resolve s3_gpu_db : safe3.
Lemma s3_rail_vote a db survey key field : safe3 (rail_vote a db survey key field).
Proof. unfold rail_vote. s3. Qed.
#[local] Hint Resolve s3_rail_vote : safe3.
Lemma s3_step_rpmh a bin : safe3 (step_rpmh a bin).
Proof. unfold step_rpmh. s3. Qed.
#[local] Hint Resolve s3_step_rpmh : safe3.
Lemma s3_pll_on : safe3 (pll_on).
Proof. unfold pll_on. s3. Qed.
#[local] Hint Resolve s3_pll_on : safe3.
Lemma s3_pll_off : safe3 (pll_off).
Proof. unfold pll_off. s3. Qed.
#[local] Hint Resolve s3_pll_off : safe3.
Lemma s3_pll0_enable : safe3 (pll0_enable).
Proof. unfold pll0_enable. s3. Qed.
#[local] Hint Resolve s3_pll0_enable : safe3.
Lemma s3_rcg_switch cmd cfg value : safe3 (rcg_switch cmd cfg value).
Proof. unfold rcg_switch. s3. Qed.
#[local] Hint Resolve s3_rcg_switch : safe3.
Lemma s3_gpll0_check name : safe3 (gpll0_check name).
Proof. unfold gpll0_check. s3. Qed.
#[local] Hint Resolve s3_gpll0_check : safe3.
Lemma s3_branch_check name : safe3 (branch_check name).
Proof. unfold branch_check. s3. Qed.
#[local] Hint Resolve s3_branch_check : safe3.
Lemma s3_step_clocks : safe3 (step_clocks).
Proof. unfold step_clocks. s3. Qed.
#[local] Hint Resolve s3_step_clocks : safe3.
Lemma s3_ahb_read : safe3 (ahb_read).
Proof. unfold ahb_read. s3. Qed.
#[local] Hint Resolve s3_ahb_read : safe3.
Lemma s3_ahb_timeouts a : safe3 (ahb_timeouts a).
Proof. unfold ahb_timeouts. s3. Qed.
#[local] Hint Resolve s3_ahb_timeouts : safe3.

(** *** TrustZone and the GMU *)
Lemma s3_step_tz force : safe3 (step_tz force).
Proof. unfold step_tz. s3. Qed.
#[local] Hint Resolve s3_step_tz : safe3.
Lemma s3_write_words n : forall name word j d, safe3 (write_words name word n j d).
Proof. induction n; intros; cbn [write_words]; s3. Qed.
#[local] Hint Resolve s3_write_words : safe3.
Lemma s3_write_tcm name e : safe3 (write_tcm name e).
Proof. unfold write_tcm. s3. Qed.
#[local] Hint Resolve s3_write_tcm : safe3.

(** The reset of the CM3 is proven by its readback. *)
Lemma s3_step_fw_load gmu_fw : safe3 (step_fw_load gmu_fw).
Proof.
  unfold step_fw_load. apply s3_bind; [s3|]. intros []. apply s3_bind; [s3|]. intros blocks. apply s3_bind; [s3|]. intros plan. destruct (negb _); [s3|].
  apply s3_bind; [s3|]. intros []. eapply h_bind; [apply h3_rd|]. intros reset. cbn beta. destruct (Z.testbit reset 0) eqn:Eb; cbn [negb]; [|apply h_fst, s3_raise].
  eapply (h_bind _ _ (fun _ => inv3)).
  - eapply h_pre; [apply h3_prove| |done]. intros s [HI Hs]. split; [done|]. cbn [gate_seen]. apply (saw_once _ reset); [by apply Hs|done].
  - intros []. repeat (apply s3_bind; [s3|]; intros ?). s3.
Qed.
#[local] Hint Resolve s3_step_fw_load : safe3.

(** *** Starting the GMU *)
Lemma s3_wr_all l : safe3 (wr_all l).
Proof. unfold wr_all. s3. Qed.
#[local] Hint Resolve s3_wr_all : safe3.
Lemma s3_step_gmu_regs : safe3 (step_gmu_regs).
Proof. unfold step_gmu_regs. s3. Qed.
#[local] Hint Resolve s3_step_gmu_regs : safe3.
Lemma s3_gmu_diagnostics : safe3 (gmu_diagnostics).
Proof. unfold gmu_diagnostics. s3. Qed.
#[local] Hint Resolve s3_gmu_diagnostics : safe3.
Lemma s3_step_gmu_start a : safe3 (step_gmu_start a).
Proof. unfold step_gmu_start. s3. Qed.
#[local] Hint Resolve s3_step_gmu_start : safe3.
Lemma s3_step_rpmh_start : safe3 (step_rpmh_start).
Proof. unfold step_rpmh_start. s3. Qed.
#[local] Hint Resolve s3_step_rpmh_start : safe3.
Lemma s3_step_irq_setup : safe3 (step_irq_setup).
Proof. unfold step_irq_setup. s3. Qed.
#[local] Hint Resolve s3_step_irq_setup : safe3.
Lemma s3_gmu_running_proven : safe3 (gmu_running_proven).
Proof. unfold gmu_running_proven. s3. Qed.
#[local] Hint Resolve s3_gmu_running_proven : safe3.

(** *** HFI and OOB *)
Lemma s3_queue_header queue : safe3 (queue_header queue).
Proof. unfold queue_header. s3. Qed.
#[local] Hint Resolve s3_queue_header : safe3.
Lemma s3_drain_loop left : forall deadline attempt, safe3 (drain_loop left deadline attempt).
Proof. induction left; intros; cbn [drain_loop]; s3. Qed.
#[local] Hint Resolve s3_drain_loop : safe3.
Lemma s3_cmd_queue_drained : safe3 (cmd_queue_drained).
Proof. unfold cmd_queue_drained. s3. Qed.
#[local] Hint Resolve s3_cmd_queue_drained : safe3.
Lemma s3_take_response seq msg_id size read : safe3 (take_response seq msg_id size read).
Proof. unfold take_response. s3. Qed.
#[local] Hint Resolve s3_take_response : safe3.
Lemma s3_drain_responses left : forall seq msg_id, safe3 (drain_responses left seq msg_id).
Proof. induction left; intros; cbn [drain_responses]; s3. Qed.
#[local] Hint Resolve s3_drain_responses : safe3.
Lemma s3_ack_rounds left : forall seq msg_id, safe3 (ack_rounds left seq msg_id).
Proof. induction left; intros; cbn [ack_rounds]; s3. Qed.
#[local] Hint Resolve s3_ack_rounds : safe3.
Lemma s3_hfi_wait_ack seq msg_id : safe3 (hfi_wait_ack seq msg_id).
Proof. unfold hfi_wait_ack. s3. Qed.
#[local] Hint Resolve s3_hfi_wait_ack : safe3.
Lemma s3_hfi_send msg_id payload : safe3 (hfi_send msg_id payload).
Proof. unfold hfi_send. s3. Qed.
#[local] Hint Resolve s3_hfi_send : safe3.
Lemma s3_hfi_sequence msgs : forall a bin, safe3 (hfi_sequence a bin msgs).
Proof. induction msgs; intros; cbn [hfi_sequence]; s3. Qed.
#[local] Hint Resolve s3_hfi_sequence : safe3.
Lemma s3_oob_request : safe3 (oob_request).
Proof. unfold oob_request. s3. Qed.
#[local] Hint Resolve s3_oob_request : safe3.

(** *** The command processor *)
Lemma s3_aperture_clear : safe3 (aperture_clear).
Proof. unfold aperture_clear. s3. Qed.
#[local] Hint Resolve s3_aperture_clear : safe3.
Lemma s3_pipe_write pipe name value index : safe3 (pipe_write pipe name value index).
Proof. unfold pipe_write. s3. Qed.
#[local] Hint Resolve s3_pipe_write : safe3.
Lemma s3_wr64 name value : safe3 (wr64 name value).
Proof. unfold wr64. s3. Qed.
#[local] Hint Resolve s3_wr64 : safe3.
Lemma s3_cp_aperture a : safe3 (cp_aperture a).
Proof. unfold cp_aperture. s3. Qed.
#[local] Hint Resolve s3_cp_aperture : safe3.
Lemma s3_nonctxt_pipe pipe : safe3 (nonctxt_pipe pipe).
Proof. unfold nonctxt_pipe. s3. Qed.
#[local] Hint Resolve s3_nonctxt_pipe : safe3.
Lemma s3_masks_pipe pipe : safe3 (masks_pipe pipe).
Proof. unfold masks_pipe. s3. Qed.
#[local] Hint Resolve s3_masks_pipe : safe3.
Lemma s3_wr_array values : forall name n, safe3 (wr_array name n values).
Proof. induction values; intros; cbn [wr_array]; s3. Qed.
#[local] Hint Resolve s3_wr_array : safe3.
Lemma s3_hw_init a : safe3 (hw_init a).
Proof. unfold hw_init. s3. Qed.
#[local] Hint Resolve s3_hw_init : safe3.
Lemma s3_cb_report cb : safe3 (cb_report cb).
Proof. unfold cb_report. s3. Qed.
#[local] Hint Resolve s3_cb_report : safe3.
Lemma s3_sqe_prestart a sqe probe : safe3 (sqe_prestart a sqe probe).
Proof. unfold sqe_prestart. s3. Qed.
#[local] Hint Resolve s3_sqe_prestart : safe3.
Lemma s3_sqe_samples n : forall gap, safe3 (sqe_samples n gap).
Proof. induction n; intros; cbn [sqe_samples]; s3. Qed.
#[local] Hint Resolve s3_sqe_samples : safe3.
Lemma s3_sqe_start a probe baseline : safe3 (sqe_start a probe baseline).
Proof. unfold sqe_start. s3. Qed.
#[local] Hint Resolve s3_sqe_start : safe3.
Lemma s3_fenced_try name value : safe3 (fenced_try name value).
Proof. unfold fenced_try. s3. Qed.
#[local] Hint Resolve s3_fenced_try : safe3.
Lemma s3_fenced_write name value : safe3 (fenced_write name value).
Proof. unfold fenced_write. s3. Qed.
#[local] Hint Resolve s3_fenced_write : safe3.
Lemma s3_ring_submit words : safe3 (ring_submit words).
Proof. unfold ring_submit. s3. Qed.
#[local] Hint Resolve s3_ring_submit : safe3.
Lemma s3_cp_idle wptr : safe3 (cp_idle wptr).
Proof. unfold cp_idle. s3. Qed.
#[local] Hint Resolve s3_cp_idle : safe3.
Lemma s3_wide_check started : safe3 (wide_check started).
Proof. unfold wide_check. s3. Qed.
#[local] Hint Resolve s3_wide_check : safe3.
Lemma s3_cp_bank a probe : safe3 (cp_bank a probe).
Proof. unfold cp_bank. s3. Qed.
#[local] Hint Resolve s3_cp_bank : safe3.
Lemma s3_cp_buffers sqe : safe3 (cp_buffers sqe).
Proof. unfold cp_buffers. s3. Qed.
#[local] Hint Resolve s3_cp_buffers : safe3.
Lemma s3_cp_me_init boot : safe3 (cp_me_init boot).
Proof. unfold cp_me_init. s3. Qed.
#[local] Hint Resolve s3_cp_me_init : safe3.
Lemma s3_fence_loop left : forall value deadline attempt, safe3 (fence_loop left value deadline attempt).
Proof. induction left; intros; cbn [fence_loop]; s3. Qed.
#[local] Hint Resolve s3_fence_loop : safe3.
Lemma s3_cp_fence_write : safe3 (cp_fence_write).
Proof. unfold cp_fence_write. s3. Qed.
#[local] Hint Resolve s3_cp_fence_write : safe3.
Lemma s3_cp_bring_up a sqe boot : safe3 (cp_bring_up a sqe boot).
Proof. unfold cp_bring_up. s3. Qed.
#[local] Hint Resolve s3_cp_bring_up : safe3.

(** *** The way back *)
Lemma s3_gbif_halt leave : safe3 (gbif_halt leave).
Proof. unfold gbif_halt. s3. Qed.
#[local] Hint Resolve s3_gbif_halt : safe3.
Lemma s3_oob_handshake : safe3 (oob_handshake).
Proof. unfold oob_handshake. s3. Qed.
#[local] Hint Resolve s3_oob_handshake : safe3.
Lemma s3_hfi_stop : safe3 (hfi_stop).
Proof. unfold hfi_stop. s3. Qed.
#[local] Hint Resolve s3_hfi_stop : safe3.
Lemma s3_quiesce_graceful a state : safe3 (quiesce_graceful a state).
Proof. unfold quiesce_graceful. s3. Qed.
#[local] Hint Resolve s3_quiesce_graceful : safe3.
Lemma s3_quiesce_force a : safe3 (quiesce_force a).
Proof. unfold quiesce_force. s3. Qed.
#[local] Hint Resolve s3_quiesce_force : safe3.
Lemma s3_quiesce_gmu a state : safe3 (quiesce_gmu a state).
Proof. unfold quiesce_gmu. s3. Qed.
#[local] Hint Resolve s3_quiesce_gmu : safe3.
Lemma s3_bank_off e : safe3 (bank_off e).
Proof. unfold bank_off. s3. Qed.
#[local] Hint Resolve s3_bank_off : safe3.
Lemma s3_quiesce_smmu : safe3 (quiesce_smmu).
Proof. unfold quiesce_smmu. s3. Qed.
#[local] Hint Resolve s3_quiesce_smmu : safe3.
Lemma s3_release_proven : safe3 (release_proven).
Proof. unfold release_proven. s3. Qed.
#[local] Hint Resolve s3_release_proven : safe3.

(** ** The prologue *)

Abbreviation hoare1 := (GpuLogic.hoare (GpuSafe.allowed data writes)).
Definition data_kept (s : GS) : Prop := ev_data (ss_tgt s) = data.
Abbreviation anyway := (fun _ : GS => True).

Lemma h3_stage1 {A} P (m : M GS A) Q X : hoare1 P m Q X -> hoare (fun s => P s /\ data_kept s) m (fun a s => Q a s /\ data_kept s) anyway.
Proof.
  intros Hm. eapply h_conseq; [apply (h_stable (fun e => ev_data e = data)), hoare_mono, Hm|done|done|done]. intros e e' H (_ & Hd & _). by rewrite Hd.
Qed.

(** The gates of a survey have their evidence. *)
Lemma st_inv3 V s : st [] V s -> data_kept s -> inv3 s.
Proof.
  intros [[[H0 H1 H2 H3 (Ha & Hc & Hr) H5 H6] Hp _] _] Hd. split; try done.
  - intros g e Hg. destruct (Hp g e Hg) as [Hn|Hb]; [by apply elem_of_nil in Hn|]. by apply backed_seen.
  - intros a. by rewrite Ha.
  - by left.
  - by left.
Qed.

(** step_gpucc notes the power state it read. *)
Lemma k_prove_critical values : keeps (prove_critical values).
Proof. unfold prove_critical. ks. Qed.
Lemma step_gpucc_gdsc s values s' : step_gpucc false s = (Ok values, s') ->
  o_gdsc (ss_out s') = gdsc_state (rget values "GPU_CC_CX_GDSCR") (rget values "GPU_CC_CX_CFG_GDSCR").
Proof.
  unfold step_gpucc. intros (? & s1 & _ & E)%py_bind_inv. apply py_bind_inv in E as (vs & s2 & _ & E). apply py_bind_inv in E as (gem & s3 & _ & E). cbn zeta in E.
  apply py_bind_inv in E as (? & s4 & E4 & E). apply py_bind_inv in E as (? & s5 & E5 & E). apply py_bind_inv in E as (? & s6 & E6 & E). injection E as <- <-.
  destruct (k_evaluate _ _ _ _ _ _ E6) as [_ ->]. destruct (k_prove_critical _ _ _ _ E5) as [_ ->].
  apply py_bind_inv in E4 as (? & s7 & E7 & E4). injection E7 as _ <-. injection E4 as _ <-. reflexivity.
Qed.

Lemma st_survey values gem s : st [] (surveyed values gem) s -> st [] (once_each values ++ []) s.
Proof. apply st_tail. Qed.

(** The gates are proven from what the survey read, and once more with the GEMNOC
    branch read last. *)
Lemma h3_prologue need : hoare (fun s => st [] [] s /\ data_kept s) (prologue need) (fun _ => inv3) anyway.
Proof.
  unfold prologue. eapply h_bind; [eapply h3_stage1, (h_step_cmd_db data true writes writes [] [])|]. intros [].
  eapply h_bind; [eapply h_pre; [eapply h3_stage1, (h_step_gcc data true writes writes)| |done]|].
  { intros s [HS Hd]. split; [|done]. apply (st_weaken data true writes []); [done|apply list_subseteq_nil]. }
  intros gcc. eapply h_bind.
  { apply h_and; [eapply h3_stage1, (h_step_gpucc_values data true writes writes false)|]. intros s values s' _ E. exact (step_gpucc_gdsc s values s' E). }
  intros values. cbn beta.
  set (G := gdsc_state (rget values "GPU_CC_CX_GDSCR") (rget values "GPU_CC_CX_CFG_GDSCR")).
  apply (h_pre (fun s => ((st [] (once_each values ++ []) s /\ data_kept s) /\ o_gdsc (ss_out s) = G) /\ values.*1 = GPUCC_SURVEY) _ _ _ anyway);
    [|intros s [[(gem & HS & Hv) Hd] Hg]; split_and!; [by eapply st_survey|done|done|done]|done].
  apply h_fact. intros Hv.
  assert (Hk : GpuSafe.keeps "CX_MISC_SW_FUSE_FREQ_LIMIT_STATUS" (once_each values ++ []).*1 = true) by (rewrite fmap_app, once_each_names, Hv; vm_compute; reflexivity).
  assert (Hn : GpuSafe.keeps "GCC_GPU_GEMNOC_GFX_CBCR" (once_each values ++ []).*1 = true) by (rewrite fmap_app, once_each_names, Hv; vm_compute; reflexivity).
  eapply h_bind.
  { apply (h_and _ _ (fun _ s => st [] (once_each values ++ []) s /\ data_kept s) (fun _ s => o_gdsc (ss_out s) = G)).
    - eapply h_fst, h3_stage1, (h_step_freq_limit_values data true writes writes []); [by intros []%elem_of_nil|vm_compute; reflexivity|exact Hk].
    - intros s a s' [_ HG] E. destruct (k_freq _ _ _ E) as [_ ->]. exact HG. }
  intros []. apply h_get. intros g. apply (h_pre (fun s => (st [] (once_each values ++ []) s /\ data_kept s) /\ g = G) _ _ _ anyway); [|by intros s [[HS HG] Hg]; split; [|congruence]|done].
  apply h_fact. intros ->.
  eapply h_bind.
  { eapply h_pre; [eapply h3_stage1, (h_rd0 data true writes writes [cx_fuse; cx_gmu; cx_misc; cx_smmu] (once_each values ++ [])); [vm_compute; reflexivity|exact Hn]| |done].
    intros s [HS Hd]. split; [|done]. apply (st_weaken data true writes []); [done|apply list_subseteq_nil]. }
  intros gem'. eapply h_bind; [eapply h_pre; [eapply h3_stage1, (h_evaluate data true writes writes values gem' Hv)|by intros s [[HS _] Hd]|done]|].
  intros []. eapply (h_bind _ _ (fun _ => inv3)).
  { unfold prove_cx_gmu, is_proven. apply h_get. intros gmu. destruct gmu; [apply h_ret'; intros s [[HS Hd] _]; by eapply st_inv3|].
    apply h_get. intros misc. destruct (_ && _) eqn:Ec; [|apply h_ret'; intros s [[[HS Hd] _] _]; by eapply st_inv3].
    eapply h_pre; [apply h3_prove| |done]. intros s [[[HS Hd] _] Hm]. split; [by eapply st_inv3|]. cbn [gate_seen]. apply once_now. cbn beta.
    destruct misc as [e|]; [|done]. apply (proven_backed data true writes [] _ cx_misc s HS); [by exists e|by intros []%elem_of_nil]. }
  intros []. apply (h_pre inv3 _ _ _ inv3); [|done|done]. change (safe3 (let! proven := py_get ss_proven in
     if forallb (fun g => match proven g with Some _ => true | None => false end) need then order "stage1_gates"
     else py_raise (Stop "Stage 1 gates are not proven from reads"))). s3.
Qed.

(** ** Commands *)

Abbreviation fresh := (fun s => st [] [] s /\ data_kept s).
Lemma fresh_inv3 s : fresh s -> inv3 s.
Proof. intros [HS Hd]. by eapply st_inv3. Qed.
Lemma h3_then {A B} P (m : M GS A) (k : A -> M GS B) : hoare P m (fun _ => inv3) anyway -> (forall a, safe3 (k a)) -> hoare P (py_bind m k) (fun _ => inv3) anyway.
Proof. intros Hm Hk. eapply h_bind; [exact Hm|]. intros a. eapply h_pre; [apply Hk|done|done]. Qed.
Lemma h3_cmd_db : hoare fresh step_cmd_db (fun _ => inv3) anyway.
Proof. eapply h_conseq; [eapply h3_stage1, (h_step_cmd_db data true writes writes [] [])|done|by intros [] s; apply fresh_inv3|done]. Qed.

Lemma s3_run_steps a l : Forall (fun x => safe3 (snd x)) l -> safe3 (run_steps a l).
Proof. induction 1 as [|[id m] l Hm _ IH]; cbn [run_steps]; [apply s3_ret|]. apply s3_bind; [exact Hm|]. intros []. destruct (stops_at a id); [s3|exact IH]. Qed.

Lemma command_safe c a : hoare fresh (fst (COMMANDS c a)) (fun _ => inv3) anyway.
Proof.
  destruct c; cbn [COMMANDS fst].
  - unfold cmd_arena. apply h3_then; [destruct (a_release a); [apply h3_prologue|apply h3_cmd_db]|]. s3.
  - unfold cmd_status. apply h3_then; [apply h3_prologue|]. s3.
  - unfold cmd_rsc_survey. apply h3_then; [apply h3_cmd_db|]. s3.
  - apply (h_pre inv3 _ _ _ inv3); [|apply fresh_inv3|done]. unfold cmd_reset_reason. change (safe3 (cmd_reset_reason (S := env) a)). unfold cmd_reset_reason. s3.
  - unfold cmd_gmu_smmu. apply h3_then; [apply h3_prologue|]. s3.
  - unfold cmd_gmu_boot. apply h3_then; [apply h3_prologue|]. s3. apply s3_run_steps. repeat (constructor; [cbn [snd]; s3|]). constructor.
  - unfold cmd_hfi. apply h3_then; [apply h3_prologue|]. s3.
  - unfold cmd_oob. apply h3_then; [apply h3_prologue|]. s3.
  - unfold cmd_cp_fence. apply h3_then; [apply h3_prologue|]. s3.
  - unfold cmd_quiesce. apply h3_then; [apply h3_prologue|]. s3.
Qed.

Lemma run_session3 body previous t r t' : hoare fresh body (fun _ => inv3) anyway -> ev_data t = data -> (forall p, previous = Some p -> at_pointer (rget p "address") t) ->
  run_session true writes previous body t = (r, t') -> GpuLogic.steps allowed3 t t'.
Proof.
  intros Hb Hd Hp. unfold run_session. destruct (body _) as [r1 s] eqn:E1. destruct (Hb _ _ _ (conj (session_new_st data true writes t _ Hd) Hd) E1) as [S1 _]. cbn [session_new ss_tgt] in S1.
  destruct (disarm _ _ (ss_tgt s)) as [r2 t2] eqn:E2. assert (S2 : GpuLogic.steps allowed3 (ss_tgt s) t2).
  { apply steps_mono. eapply (disarm_steps data writes); [|exact E2]. intros p E. eapply at_pointer_ext; [by eapply steps_extends|by apply Hp]. }
  intros E. assert (t' = t2) as ->; [|by eapply steps_trans]. destruct r2; [|by injection E]. destruct r1 as [|e]; [by injection E|]. by destruct (exit_status e); injection E.
Qed.
End allowed3.

(** C14: Whatever the target answers, a run of a16gpu_stage3.py writes memory (directly, by
    a fill, or with the GPU's word store) only inside an arena that its checks accepted
    from the target's own boot information, GPU record and EFI memory map, and only in a
    command that may write; it calls only the GPU entry point the boot information names,
    with one of the fixed operations; it touches a register only when the registry lets
    it and, in the GX domain, after the GMU reported GX on; at some earlier moment of the
    run the gate of the register was open by values that had been read, a value the tool
    wrote counting only together with a read that agrees ([shows]); registers that are
    never to be touched are not.  It reads memory only in the arena, in the places Stage 1
    may read ([mem_named]), and the GPU record, in its size, where the boot information
    names it (at 0 while no record was named). *)
Theorem stage3_safe (c : command3) (a : args) (e : env) : GpuLogic.steps (allowed3 (ev_data e) (writes3 c a)) e (snd (run3 c a e)).
Proof.
  destruct (run3 c a e) as [r e'] eqn:E. cbn [snd]. revert E. unfold run3. destruct (arm_guard _ _ e) as [[previous|x] t1] eqn:E1; destruct (quiet_arm (ev_data e) (writes3 c a) _ _ _ _ _ I E1) as (S1 & _ & _ & Q1).
  - specialize (Q1 previous eq_refl). assert (Hd : ev_data t1 = ev_data e) by apply S1. unfold py_bind. destruct (run_session _ _ _ _ t1) as [r2 t2] eqn:E2.
    assert (S2 : GpuLogic.steps (allowed3 (ev_data e) (writes3 c a)) t1 t2) by (eapply run_session3; [apply command_safe|exact Hd|exact Q1|exact E2]).
    intros E. assert (e' = t2) as -> by (destruct r2; by injection E). eapply steps_trans; [by apply steps_mono|done].
  - intros E. assert (e' = t1) as -> by (destruct (exit_status x); by injection E). by apply steps_mono.
Qed.

(** ** Runs of the arena command *)

Definition efi_bytes (kind base pages : Z) : bytes := le_bytes 4 kind ++ le_bytes 4 0 ++ le_bytes 8 base ++ le_bytes 8 0 ++ le_bytes 8 pages ++ le_bytes 8 0 ++ le_bytes 8 0.
(** A stage that published an arena at [arena] and owns a heap at 0xB0000000, in one
    region of Conventional memory. *)
Definition stage_data (arena : Z) (h : list action) : result bytes :=
  match h with
  | AReadMem a n _ :: _ =>
      Ok (if a =? 0x90000000 then plant_fields BOOTINFO_FIELDS
            [("magic", MAGIC); ("version", 1); ("size", 8 * zlen BOOTINFO_FIELDS); ("memory_map", 0x92000000); ("memory_map_size", 48); ("memory_map_stride", 48);
             ("heap_base", 0xB0000000); ("heap_size", 0x1000000); ("gpu_call", 0x9A000000); ("gpu_state", 0x9B000000)]
          else if a =? 0x91000000 then plant_fields SERROR_FIELDS [("magic", SERROR_MAGIC); ("mechanism", 1)]
          else if a =? 0x92000000 then efi_bytes 7 0xA0000000 0x20000
          else if a =? 0x9B000000 then plant_fields GPU_STATE_FIELDS
            [("magic", GPU_MAGIC); ("version", GPU_VERSION); ("size", 8 * zlen GPU_STATE_FIELDS); ("arena_base", arena); ("arena_size", ARENA_SIZE)]
          else replicate (Z.to_nat n) Byte.x00)
  | _ => Raise ProxyTimeout
  end.
Definition stage_args : args :=
  Args false false false false false false false false false false false false false false 0 0 None "" 0 0 0 0 (fun _ => None) 0.
Definition arena_run (arena : Z) : option (Z * option (Z * Z)) :=
  match fst (run3 C3Arena stage_args (Env [] (plant_word (fun _ => 0)) (stage_data arena))) with
  | Ok (status, Some s) => Some (status, ss_arena s)
  | _ => None
  end.

(** An arena in free memory is accepted; one that reaches into the heap, and one that is
    not in the memory map, are refused. *)
Example arena_accepted : arena_run 0xA0000000 = Some (0, Some (0xA0000000, ARENA_SIZE)).
Proof. vm_compute. reflexivity. Qed.
Example arena_in_heap_refused : arena_run (0xB0000000 - 0x1000) = Some (2, None).
Proof. vm_compute. reflexivity. Qed.
Example arena_off_map_refused : arena_run 0xC0000000 = Some (2, None).
Proof. vm_compute. reflexivity. Qed.

(** ** An SError while a vote is sent *)

(** A target that answers the read of a command's status with an SError. *)
Definition serror_word (h : list action) : result Z :=
  match h with
  | ARead32 a :: _ => if a =? addr_of "RSC_TCS_CMD_STATUS_V3" then Raise (ProxyRemoteError S_SERROR) else plant_word (fun b => if b =? addr_of "RSC_TCS_STATUS_V3" then 1 else 0) h
  | _ => plant_word (fun _ => 0) h
  end.
Definition serror_data (h : list action) : result bytes :=
  match h with
  | AReadMem a _ _ :: _ => if a =? 0x91000000 then Ok (plant_fields SERROR_FIELDS [("magic", SERROR_MAGIC); ("mechanism", 1); ("during", 1)]) else plant_data h
  | _ => plant_data h
  end.
Definition serror_run : result unit * session env :=
  rsc_send (RscLayout "_V3" 8 16) 0 [(0x30000, 3)] (session_new (Env [] serror_word serror_data) true true true).

(** rsc_send stops on it, but not before three more register writes: the finally clause
    runs for every stop. *)
Example rsc_send_after_serror :
  fst serror_run = Raise (SErrorStop "SError") /\
  exists log, List.filter (fun x => match x with AWrite32 _ _ | ARead32 _ => true | _ => false end) (ev_log (ss_tgt (snd serror_run))) =
    AWrite32 (addr_of "RSC_IRQ_CLEAR") 1 :: AWrite32 (addr_of "RSC_TCS_CMD_ENABLE_V3") 0 :: AWrite32 (addr_of "RSC_TCS_CONTROL_V3") 0 ::
    ARead32 (addr_of "RSC_TCS_CMD_STATUS_V3") :: log.
Proof. split; [vm_compute; reflexivity|]. eexists. vm_compute. reflexivity. Qed.
