(* ===== verification/GpuSmmu.v ===== *)
(** * The order in which a stream is connected

    smmu_program and smmu_disable of src/tools/a16gpu_stage3.py on an arbitrary target:
    the context bank of a stream is changed only while the stream is known to be cut off,
    and the stream is connected only after every register of the bank was read back as
    expected.  [known] is the newest value of a register in the history, read or written,
    and [read_back] the value of its newest access if that was a read. *)

From Stdlib Require Import ZArith Lia.
From Stdlib Require Import Strings.Byte.
From stdpp Require Import base list numbers strings sets.
From S2P Require Import Prelude Bytes Transport Q1n1Link Target Preload GpuRegs GpuSession GpuTables GpuStage3 GpuLogic GpuSafe.

Local Open Scope string_scope.
Local Open Scope list_scope.
Local Open Scope Z_scope.
Local Open Scope py_scope.

(** The address of entry [k] of a register. *)
Definition at_entry (name : string) (k : Z) : Z := match (let? r := reg_named name in reg_at r k) with Ok a => a | Raise _ => 0 end.

(** The streams Stage 3 programs. *)
Inductive stream := GmuStream | GpuStream.
Definition stream_bank (x : stream) : Z := match x with GmuStream => GMU_CB | GpuStream => GPU_CB end.
Definition stream_smr (x : stream) : Z := match x with GmuStream => GMU_SMR | GpuStream => GPU_SMR end.
Definition stream_sid (x : stream) : Z := match x with GmuStream => GMU_SID | GpuStream => GPU_SID end.

Definition BANK_REGS : list string :=
  ["SMMU_CB_SCTLR"; "SMMU_CB_ACTLR"; "SMMU_CBA2R"; "SMMU_CBAR"; "SMMU_CB_TCR2"; "SMMU_CB_TCR"; "SMMU_CB_TTBR0"; "SMMU_CB_TTBR0_HI"; "SMMU_CB_TTBR1"; "SMMU_CB_TTBR1_HI";
   "SMMU_CB_MAIR0"; "SMMU_CB_MAIR1"; "SMMU_CB_FSR"].

Section ordered.
  Context (x : stream) (tables : page_tables) (wide : bool).
  Abbreviation cb := (stream_bank x).
  Abbreviation smr := (at_entry "SMMU_SMR" (stream_smr x)).
  Abbreviation s2cr := (at_entry "SMMU_S2CR" (stream_smr x)).
  Abbreviation expect := (smmu_cb_expected tables cb wide).
  Abbreviation GS := (session env).

(** The stream matches nothing. *)
Definition cut (w : answers) (h : list action) : Prop := exists u, known w h smr = Some u /\ bits u SMR_VALID = false.
(** Every register of the bank was read back, after it was last written, with what it
    should hold, up to the bits the hardware fixes. *)
Definition bank_shown (w : answers) (h : list action) : Prop :=
  forall k v, (k, v) ∈ expect -> exists u, read_back w h (at_entry k cb) = Some u /\ Z.land (Z.lxor u v) (Z.lnot (CB_READBACK_FIXED k)) = 0.
Definition connected (w : answers) (h : list action) : Prop :=
  bank_shown w h /\ known w h s2cr = Some (want_s2cr cb) /\ known w h smr = Some (want_smr (stream_sid x)).

(** A register of the bank is written only while the stream is cut off; the stream is
    sent to the bank, rather than to a fault, only while it is cut off; and it is
    enabled only for its own ID, with its routing written and its bank read back. *)
Definition ordered (w : answers) (h : list action) (y : action) : Prop :=
  match y with
  | AWrite32 a v =>
      (a ∈ map (fun n => at_entry n cb) BANK_REGS -> cut w h) /\
      (a = s2cr -> s2cr_type v = S2CR_TYPE_FAULT \/ cut w h) /\
      (a = smr -> bits v SMR_VALID = true -> v = want_smr (stream_sid x) /\ bank_shown w h /\ known w h s2cr = Some (want_s2cr cb))
  | _ => True
  end.

Abbreviation hoare := (GpuLogic.hoare ordered).
Abbreviation anyway := (fun _ : GS => True).

(** What is known of some addresses: the newest value, and whether it was read. *)
Definition fact (w : answers) (h : list action) (p : Z * (Z * bool)) : Prop :=
  known w h p.1 = Some p.2.1 /\ (p.2.2 = true -> read_back w h p.1 = Some p.2.1).
Definition facts (K : list (Z * (Z * bool))) (s : GS) : Prop := Forall (fact (ev_word (ss_tgt s)) (ev_log (ss_tgt s))) K.
Definition others (a : Z) (K : list (Z * (Z * bool))) : list (Z * (Z * bool)) := List.filter (fun p => negb (p.1 =? a)) K.
Lemma fact_trail w h h' p : trail w h' p.1 = trail w h p.1 -> fact w h p -> fact w h' p.
Proof. unfold fact, known, read_back. by intros ->. Qed.

Lemma facts_others K a y s : facts K s -> y = ARead32 a \/ (exists v, y = AWrite32 a v) -> facts (others a K) (upd_tgt (ev_push y (ss_tgt s)) s).
Proof.
  intros HK Hy. unfold facts in *. rewrite Forall_forall in *. intros p Hp. apply list_elem_of_In, filter_In in Hp as [Hp Hn].
  cbn [upd_tgt ss_tgt ev_push ev_word ev_log]. eapply fact_trail; [|apply HK; by apply list_elem_of_In]. apply (trail_other _ _ _ _ a); [done|].
  apply negb_true_iff, Z.eqb_neq in Hn. done.
Qed.

(** Nothing below depends on what memory holds. *)
Abbreviation nodata := (fun _ : list action => @Raise bytes ProxyTimeout).
Lemma steps_quiet e e' : GpuLogic.steps (GpuSafe.allowed nodata false) e e' -> GpuLogic.steps ordered e e'.
Proof.
  intros (Hw & Hd & n & Hl & Ht). split_and!; [done|done|]. exists n. split; [done|]. clear Hl. induction n as [|y n IH]; [done|]. destruct Ht as [Hy Ht]. split; [|by apply IH].
  destruct y; try done. by destruct Hy.
Qed.
Lemma p_quiet {A} K (m : M env A) Q : quiet nodata false (fun _ => True) m Q -> hoare (facts K) (on_t m) (fun _ => facts K) (facts K).
Proof.
  intros Hm s r s' HP E. unfold on_t in E. destruct (m (ss_tgt s)) as [r1 e1] eqn:E1. injection E as <- <-. destruct (Hm _ _ _ Logic.I E1) as (HS & Hk & _ & _).
  assert (HF : facts K (upd_tgt e1 s)).
  { unfold facts in *. eapply Forall_impl; [exact HP|]. intros p Hp. cbn [upd_tgt ss_tgt]. destruct HS as (Hw & _). specialize (Hk p.1). rewrite Hw in Hk |- *. by eapply fact_trail. }
  split; [by apply steps_quiet|]. by destruct r1.
Qed.

Lemma p_note K f : (forall s, ss_tgt (f s) = ss_tgt s) -> hoare (facts K) (py_modify f) (fun _ => facts K) (facts K).
Proof. intros H. apply h_modify. intros s Hs. split; [|apply H]. unfold facts in *. by rewrite H. Qed.

Lemma p_failure {A} K op r a z (Q : A -> GS -> Prop) : hoare (facts K) (remote_failure op r a z) Q anyway.
Proof.
  unfold remote_failure. assert (HX : forall s, facts K s -> anyway s) by done.
  eapply h_bind; [eapply h_pre; [by apply p_note|done|exact HX]|]. intros []. apply h_get. intros guarded. apply h_fst.
  eapply (h_bind _ _ (fun _ => facts K)); [|intros []; destruct (_ =? _); (eapply h_pre; [apply (h_raise (facts K))|done|done])].
  destruct (_ && _); [|by apply h_ret']. eapply (h_bind _ _ (fun _ => facts K)).
  - apply (h_pre (facts K) _ _ _ (facts K)); [|done|done]. apply h_remote; [eapply p_quiet, quiet_serror_state|intros z'; apply h_raise].
  - intros state. cbn zeta. destruct (_ && _); [eapply h_pre; [apply (h_raise (facts K))|done|done]|]. destruct (_ || _); [eapply h_pre; [apply (h_raise (facts K))|done|done]|]. by apply h_ret'.
Qed.

Lemma at_entry_ok name r k a : reg_named name = Ok r -> reg_at r k = Ok a -> at_entry name k = a.
Proof. intros Hn Ha. unfold at_entry. by rewrite Hn; cbn [rbind]; rewrite Ha. Qed.

Lemma p_gate K r w : hoare (facts K) (s_check (S := env) r w) (fun _ => facts K) anyway.
Proof. intros s z s' HP [= <- <-]. split; [apply steps_refl|]. by destruct (check_reg _ _ _ _ _). Qed.

(** A read. *)
Lemma p_read K name k : hoare (facts K) (rd name k) (fun v s => facts ((at_entry name k, (v, true)) :: others (at_entry name k) K) s) anyway.
Proof.
  unfold rd. eapply h_bind; [apply h_lift'; done|]. intros r. apply h_fact. intros Hn. eapply h_bind; [apply p_gate|]. intros [].
  eapply h_bind; [apply h_lift'; done|]. intros a. apply h_fact. intros Ha. rewrite (at_entry_ok _ _ _ _ Hn Ha).
  set (V := fun v => (a, (Z.land v 0xFFFFFFFF, true)) :: others a K).
  eapply (h_bind _ _ (fun v => facts (V v))).
  - intros s z s' HP E. unfold on_remote, on_t in E. cbn [t_read32 EnvTarget ask] in E.
    assert (S1 : GpuLogic.steps ordered (ss_tgt s) (ev_push (ARead32 a) (ss_tgt s))) by (by apply steps_push).
    assert (F1 : facts (others a K) (upd_tgt (ev_push (ARead32 a) (ss_tgt s)) s)) by (apply facts_others; [done|by left]).
    destruct (ev_word (ss_tgt s) (ARead32 a :: ev_log (ss_tgt s))) as [v|e] eqn:Ev.
    + injection E as <- <-. split; [done|]. constructor; [|exact F1]. unfold fact, known, read_back. cbn [fst snd upd_tgt ss_tgt ev_push ev_word ev_log trail]. by rewrite Z.eqb_refl, Ev.
    + destruct e; try (injection E as <- <-; by split). destruct (p_failure (A := Z) (others a K) _ _ _ _ (fun v => facts (V v)) _ _ _ F1 E) as [S2 F2]. split; [by eapply steps_trans|done].
  - intros raw. cbn zeta. assert (HX : forall s, facts (V raw) s -> anyway s) by done. eapply (h_bind _ _ (fun _ => facts (V raw))).
    + destruct (_ =? _); [|by apply h_ret']. eapply (h_bind _ _ (fun _ => facts (V raw))); [eapply h_pre; [eapply p_quiet, quiet_request; in_list|done|exact HX]|].
      intros faults. destruct (negb _); [|by apply h_ret']. eapply h_bind; [eapply h_pre; [by apply p_note|done|exact HX]|]. intros []. eapply h_pre; [apply (h_raise (facts (V raw)))|done|done].
    + intros []. eapply h_bind; [eapply h_pre; [by apply p_note|done|exact HX]|]. intros []. by apply h_ret'.
Qed.

(** A write that is in order. *)
Lemma p_wr K name v k : (forall w h, Forall (fact w h) K -> ordered w h (AWrite32 (at_entry name k) (Z.land v 0xFFFFFFFF))) ->
  hoare (facts K) (wr name v k) (fun _ s => facts ((at_entry name k, (Z.land v 0xFFFFFFFF, false)) :: others (at_entry name k) K) s) anyway.
Proof.
  intros Ho. unfold wr. eapply h_bind; [apply h_lift'; done|]. intros r. apply h_fact. intros Hn. eapply h_bind; [apply p_gate|]. intros [].
  eapply h_bind; [apply h_lift'; done|]. intros a. apply h_fact. intros Ha. rewrite (at_entry_ok _ _ _ _ Hn Ha) in *. cbn zeta.
  set (u := Z.land v 0xFFFFFFFF) in *. set (V := (a, (u, false)) :: others a K).
  eapply (h_bind _ _ (fun _ => facts V)).
  - intros s z s' HP E. unfold on_remote, on_t in E. cbn [t_write32 EnvTarget] in E. unfold tell, py_bind, ask in E.
    assert (S1 : GpuLogic.steps ordered (ss_tgt s) (ev_push (AWrite32 a u) (ss_tgt s))) by (apply steps_push; by apply Ho).
    assert (F1 : facts (others a K) (upd_tgt (ev_push (AWrite32 a u) (ss_tgt s)) s)) by (apply facts_others; [done|right; by exists u]).
    destruct (ev_word (ss_tgt s) (AWrite32 a u :: ev_log (ss_tgt s))) as [w|e] eqn:Ev.
    + injection E as <- <-. split; [done|]. constructor; [|exact F1]. unfold fact, known, read_back. cbn [fst snd upd_tgt ss_tgt ev_push ev_word ev_log trail]. by rewrite Z.eqb_refl, Ev.
    + destruct e; try (injection E as <- <-; by split). destruct (p_failure (A := unit) (others a K) _ _ _ _ (fun _ => facts V) _ _ _ F1 E) as [S2 F2]. split; [by eapply steps_trans|done].
  - intros []. assert (HX : forall s, facts V s -> anyway s) by done.
    eapply (h_bind _ _ (fun _ => facts V)); [eapply h_pre; [eapply p_quiet, quiet_request; in_list|done|exact HX]|].
    intros faults. eapply h_bind; [eapply h_pre; [by apply p_note|done|exact HX]|]. intros []. destruct (negb _); [eapply h_pre; [apply (h_raise (facts V))|done|done]|by apply h_ret'].
Qed.

Lemma facts_sub K K' s : facts K s -> K' ⊆ K -> facts K' s.
Proof. unfold facts. rewrite !Forall_forall. auto. Qed.

(** ** Addresses *)

(** A decidable proposition by its decision. *)
Ltac computed := match goal with |- ?P => refine (bool_decide_eq_true_1 P _) end.

Definition bank_addrs : list Z := map (fun n => at_entry n cb) BANK_REGS.
Definition tlb_addrs : list Z := map (fun n => at_entry n cb) ["SMMU_CB_TLBIASID"; "SMMU_CB_TLBSYNC"; "SMMU_CB_TLBSTATUS"].
Lemma addrs_distinct : NoDup (smr :: s2cr :: bank_addrs ++ tlb_addrs).
Proof. unfold bank_addrs, tlb_addrs; destruct x; computed; vm_compute; reflexivity. Qed.
Lemma smr_s2cr : smr <> s2cr.
Proof. pose proof addrs_distinct as H. apply NoDup_cons in H as [H _]. intros E. apply H. rewrite E. by left. Qed.
Lemma bank_not_smr a : a ∈ bank_addrs ++ tlb_addrs -> a <> smr.
Proof. intros Ha ->. pose proof addrs_distinct as H. apply NoDup_cons in H as [H _]. apply H. by right. Qed.
Lemma bank_not_s2cr a : a ∈ bank_addrs ++ tlb_addrs -> a <> s2cr.
Proof. intros Ha ->. pose proof addrs_distinct as H. apply NoDup_cons in H as [_ [H _]%NoDup_cons]. by apply H. Qed.
Lemma tlb_not_bank a : a ∈ tlb_addrs -> a ∉ bank_addrs.
Proof. intros Ha Hb. pose proof addrs_distinct as H. apply NoDup_cons in H as [_ [_ H]%NoDup_cons]. apply NoDup_app in H as (_ & H & _). by apply (H a). Qed.
Lemma names_distinct : NoDup (map (fun n => at_entry n cb) CB_NAMES).
Proof. unfold bank_addrs, tlb_addrs; destruct x; computed; vm_compute; reflexivity. Qed.
Lemma names_bank n : n ∈ CB_NAMES -> at_entry n cb ∈ bank_addrs.
Proof.
  intros Hn. apply (list_elem_of_fmap_2 (fun n => at_entry n cb)). revert n Hn. change (CB_NAMES ⊆ BANK_REGS). computed. vm_compute. reflexivity.
Qed.
Lemma smr_not_bank : smr ∉ bank_addrs.
Proof. intros H. apply (bank_not_smr smr); [apply elem_of_app; by left|done]. Qed.
Lemma s2cr_not_bank : s2cr ∉ bank_addrs.
Proof. intros H. apply (bank_not_s2cr s2cr); [apply elem_of_app; by left|done]. Qed.

(** ** While the stream is cut off *)

Definition is_cut (s : GS) : Prop := cut (ev_word (ss_tgt s)) (ev_log (ss_tgt s)).

(** Registers of the bank may be written. *)
Lemma p_bank_write name v : at_entry name cb ∈ bank_addrs ++ tlb_addrs -> hoare is_cut (wr name v cb) (fun _ => is_cut) anyway.
Proof.
  intros Ha s r s' (u & Hk & Hb) E. set (K := [(smr, (u, false))]).
  assert (HP : hoare (facts K) (wr name v cb) (fun _ => facts ((at_entry name cb, (Z.land v 0xFFFFFFFF, false)) :: others (at_entry name cb) K)) anyway).
  { apply p_wr. intros w h HK. apply Forall_cons in HK as [[HK _] _]. cbn [fst snd] in HK. cbn [ordered]. split_and!.
    - intros _. by exists u.
    - intros Ec. by destruct (bank_not_s2cr _ Ha).
    - intros Ec. by destruct (bank_not_smr _ Ha). }
  destruct (HP s r s') as [HS HQ]; [by constructor; [split|]|done|]. split; [done|]. destruct r; [|done]. exists u. split; [|done].
  apply Forall_cons in HQ as [_ HQ]. unfold K, others in HQ. cbn [List.filter fst] in HQ. rewrite (proj2 (Z.eqb_neq _ _)) in HQ by (apply not_eq_sym, bank_not_smr, Ha).
  cbn [negb] in HQ. by apply Forall_cons in HQ as [[HQ _] _].
Qed.
Lemma p_cut_read name : at_entry name cb ∈ bank_addrs ++ tlb_addrs -> hoare is_cut (rd name cb) (fun _ => is_cut) anyway.
Proof.
  intros Ha s r s' (u & Hk & Hb) E. set (K := [(smr, (u, false))]). destruct (p_read K name cb s r s') as [HS HQ]; [by constructor; [split|]|done|]. split; [done|]. destruct r; [|done]. exists u. split; [|done].
  apply Forall_cons in HQ as [_ HQ]. unfold K, others in HQ. cbn [List.filter fst] in HQ. rewrite (proj2 (Z.eqb_neq _ _)) in HQ by (apply not_eq_sym, bank_not_smr, Ha).
  cbn [negb] in HQ. by apply Forall_cons in HQ as [[HQ _] _].
Qed.
Lemma p_cut_quiet {A} (m : M env A) Q : quiet nodata false (fun _ => True) m Q -> hoare is_cut (on_t m) (fun _ => is_cut) anyway.
Proof.
  intros Hm s r s' (u & Hk & Hb) E. destruct (p_quiet [(smr, (u, false))] m Q Hm s r s') as [HS HQ]; [by constructor; [split|]|done|]. split; [done|]. destruct r; [|done]. exists u.
  by apply Forall_cons in HQ as [[HQ _] _].
Qed.
Lemma p_cut_note f : (forall s, ss_tgt (f s) = ss_tgt s) -> hoare is_cut (py_modify f) (fun _ => is_cut) anyway.
Proof. intros H. apply h_modify. intros s Hs. split; [|apply H]. unfold is_cut in *. by rewrite H. Qed.
Lemma p_cut_raise {A} e (Q : A -> GS -> Prop) : hoare is_cut (py_raise e) Q anyway.
Proof. eapply h_pre; [apply (h_raise is_cut)|done|done]. Qed.

Lemma p_cut_poll left name mask want deadline attempt : at_entry name cb ∈ bank_addrs ++ tlb_addrs ->
  hoare is_cut (poll3_loop left name mask want cb deadline attempt) (fun _ => is_cut) anyway.
Proof.
  intros Ha. revert attempt. induction left as [|left IH]; intros attempt; cbn [poll3_loop].
  - eapply h_bind; [by apply p_cut_note|]. intros []. apply p_cut_raise.
  - eapply h_bind; [by apply p_cut_read|]. intros v. destruct (_ =? _); [eapply h_bind; [by apply p_cut_note|]; intros []; by apply h_ret'|].
    eapply (h_bind _ _ (fun _ => is_cut)).
    + destruct (_ <=? _); [|by apply h_ret']. eapply h_bind; [eapply p_cut_quiet, quiet_now|]. intros now. by apply h_ret'.
    + intros late. destruct late; [|apply IH]. eapply h_bind; [by apply p_cut_note|]. intros []. apply p_cut_raise.
Qed.
Lemma p_tlbi : hoare is_cut (smmu_tlbi cb) (fun _ => is_cut) anyway.
Proof.
  assert (Ht : forall n, n ∈ ["SMMU_CB_TLBIASID"; "SMMU_CB_TLBSYNC"; "SMMU_CB_TLBSTATUS"] -> at_entry n cb ∈ bank_addrs ++ tlb_addrs).
  { intros n Hn. apply elem_of_app. right. by apply (list_elem_of_fmap_2 (fun n => at_entry n cb)). }
  unfold smmu_tlbi. eapply h_bind; [apply p_bank_write, Ht; in_list|]. intros []. eapply h_bind; [apply p_bank_write, Ht; in_list|]. intros [].
  eapply (h_bind _ _ (fun _ => is_cut)).
  - unfold poll3, poll3b. eapply h_bind; [eapply p_cut_quiet, quiet_now|]. intros now. apply p_cut_poll, Ht; in_list.
  - intros v. by apply h_ret'.
Qed.

(** Cutting the stream off. *)
Lemma p_stream_off P : hoare P (stream_off (stream_smr x)) (fun _ => is_cut) anyway.
Proof.
  eapply h_pre; [|intros s _; exact (Forall_nil_2 _ : facts [] s)|done]. unfold stream_off.
  eapply h_bind.
  - apply p_wr. intros w h _. cbn [ordered]. split_and!; [intros H; by destruct s2cr_not_bank|intros _; left; reflexivity|intros H; by destruct smr_s2cr].
  - intros []. eapply h_conseq; [apply p_wr|intros s H; exact H| |done].
    + intros w h _. cbn [ordered]. split_and!; [intros H; by destruct smr_not_bank|intros H; by destruct smr_s2cr|intros _ H; discriminate H].
    + intros [] s HF. apply Forall_cons in HF as [[HF _] _]. by exists 0.
Qed.

(** ** Reading the bank *)

Definition bank_facts (l : list (string * Z)) : list (Z * (Z * bool)) := map (fun p => (at_entry p.1 cb, (p.2, true))) l.
Lemma others_id a K : a ∉ map fst K -> others a K = K.
Proof.
  intros H. unfold others. induction K as [|[b v] K IH]; [done|]. cbn [map fst List.filter] in *. rewrite (proj2 (Z.eqb_neq b a)) by (intros ->; apply H; by left).
  cbn [negb]. f_equal. apply IH. intros Ha. apply H. by right.
Qed.
Lemma p_collect names : forall K, NoDup (map (fun n => at_entry n cb) names) -> (forall n, n ∈ names -> at_entry n cb ∉ map fst K) ->
  hoare (facts K) (collect (fun n => let! v := rd n cb in py_ret (n, v)) names) (fun l s => facts (bank_facts l ++ K) s /\ l.*1 = names) anyway.
Proof.
  induction names as [|n names IH]; intros K Hnd HK; cbn [collect]; [by apply h_ret'|]. cbn [map] in Hnd. apply NoDup_cons in Hnd as [Hn Hnd].
  eapply (h_bind _ _ (fun p s => facts ((at_entry n cb, (p.2, true)) :: K) s /\ p.1 = n)).
  - eapply h_bind; [apply p_read|]. intros v. apply h_ret'. intros s HF. rewrite others_id in HF by (apply HK; by left). done.
  - intros [n' v]. apply h_fact. cbn [fst snd]. intros ->. eapply h_bind; [apply (IH ((at_entry n cb, (v, true)) :: K)); [done|]|].
    + intros m Hm. cbn [map fst]. intros [E|E]%elem_of_cons; [|by apply (HK m); [by right|]]. apply Hn. rewrite <- E. by apply (list_elem_of_fmap_2 (fun n => at_entry n cb)).
    + intros l. apply h_fact. intros <-. apply h_ret'. intros s HF. split; [|done]. apply (facts_sub (bank_facts l ++ (at_entry n cb, (v, true)) :: K)); [done|].
      intros p. unfold bank_facts. cbn [map app fst snd]. rewrite !elem_of_cons, !elem_of_app, !elem_of_cons. tauto.
Qed.

(** A bank that reads as expected. *)
Lemma shown_from w h l K : Forall (fact w h) K -> bank_facts l ⊆ K -> l.*1 = CB_NAMES -> cb_same l expect = true -> bank_shown w h.
Proof.
  intros HF HK Hl Hs k v Hin. exists (rget l k).
  assert (Hk : k ∈ CB_NAMES).
  { apply (list_elem_of_fmap_2 fst) in Hin. cbn [fst] in Hin. revert k Hin. change ((expect).*1 ⊆ CB_NAMES). unfold smmu_cb_expected. cbv zeta. cbn [fmap list_fmap fst].
    computed. vm_compute. reflexivity. }
  split.
  - rewrite Forall_forall in HF. specialize (HF (at_entry k cb, (rget l k, true))). apply HF; [|done]. apply HK.
    unfold bank_facts. apply (list_elem_of_fmap_2 (fun p => (at_entry p.1 cb, (p.2, true))) l (k, rget l k)). apply rget_in. by rewrite Hl.
  - unfold cb_same in Hs. rewrite forallb_forall in Hs. apply list_elem_of_In in Hin. specialize (Hs _ Hin). cbn in Hs. by apply Z.eqb_eq.
Qed.

(** ** The two operations *)

Lemma bank_facts_addrs l : l.*1 = CB_NAMES -> forall a, a ∈ map fst (bank_facts l) -> a ∈ bank_addrs.
Proof.
  intros Hl a Ha. unfold bank_facts in Ha. rewrite map_map in Ha. cbn [fst] in Ha. apply list_elem_of_In, in_map_iff in Ha as ([n v] & <- & Hin). cbn [fst].
  apply names_bank. rewrite <- Hl. apply (list_elem_of_fmap_2 fst l (n, v)). by apply list_elem_of_In.
Qed.
Lemma wanted : Z.land (want_s2cr cb) 0xFFFFFFFF = want_s2cr cb /\ Z.land (want_smr (stream_sid x)) 0xFFFFFFFF = want_smr (stream_sid x).
Proof. by destruct x. Qed.
Lemma bank_writes_in name v : (name, v) ∈ bank_writes expect cb -> at_entry name cb ∈ bank_addrs ++ tlb_addrs.
Proof.
  intros H. apply elem_of_app. left. apply (list_elem_of_fmap_2 fst) in H. apply (list_elem_of_fmap_2 (fun n => at_entry n cb)). cbn [fst] in H. revert name H.
  change ((bank_writes expect cb).*1 ⊆ BANK_REGS). unfold bank_writes. cbn [fmap list_fmap fst]. computed. vm_compute. reflexivity.
Qed.
Lemma cut_facts u b K s : facts K s -> (smr, (u, b)) ∈ K -> bits u SMR_VALID = false -> is_cut s.
Proof. intros HF Hin Hb. exists u. split; [|done]. unfold facts in HF. rewrite Forall_forall in HF. apply (HF _ Hin). Qed.

Lemma in_others a K p : p ∈ K -> p.1 <> a -> p ∈ others a K.
Proof. intros Hp Ha. unfold others. apply list_elem_of_In, filter_In. split; [by apply list_elem_of_In|]. by apply negb_true_iff, Z.eqb_neq. Qed.
Lemma bank_others a l K : l.*1 = CB_NAMES -> a ∉ bank_addrs -> bank_facts l ⊆ K -> bank_facts l ⊆ others a K.
Proof. intros Hl Ha HK p Hp. apply in_others; [by apply HK|]. intros E. apply Ha. rewrite <- E. apply (bank_facts_addrs l Hl). by apply (list_elem_of_fmap_2 fst). Qed.
Lemma known_in w h K a v b : Forall (fact w h) K -> (a, (v, b)) ∈ K -> known w h a = Some v.
Proof. rewrite Forall_forall. intros HK Hp. apply (HK _ Hp). Qed.

(** What the reads and writes leave known of the bank, the routing and the stream. *)
Lemma connected_facts K l s b b' : facts K s -> bank_facts l ⊆ K -> l.*1 = CB_NAMES -> cb_same l expect = true -> (s2cr, (want_s2cr cb, b)) ∈ K -> (smr, (want_smr (stream_sid x), b')) ∈ K ->
  connected (ev_word (ss_tgt s)) (ev_log (ss_tgt s)).
Proof. intros HF Hl Hn Hs H1 H2. split_and!; [by apply (shown_from _ _ l K)|by eapply (known_in _ _ K)|by eapply (known_in _ _ K)]. Qed.

(** The connection: of a bank that was read as expected, while the stream is cut off. *)
Lemma p_route l K u b : l.*1 = CB_NAMES -> cb_same l expect = true -> bank_facts l ⊆ K -> (smr, (u, b)) ∈ K -> bits u SMR_VALID = false ->
  hoare (facts K) (wr "SMMU_S2CR" (want_s2cr cb) (stream_smr x) ;;; wr "SMMU_SMR" (want_smr (stream_sid x)) (stream_smr x) ;;; py_ret true)
    (fun _ s => connected (ev_word (ss_tgt s)) (ev_log (ss_tgt s))) anyway.
Proof.
  intros Hl Hs HK Hu Hb. destruct wanted as [W1 W2].
  eapply h_bind.
  - apply p_wr. intros w h HF. cbn [ordered]. split_and!.
    + intros H. by destruct s2cr_not_bank.
    + intros _. right. exists u. by split; [eapply (known_in _ _ K)|].
    + intros E. by destruct smr_s2cr.
  - intros []. rewrite W1. assert (HK' : bank_facts l ⊆ (s2cr, (want_s2cr cb, false)) :: others s2cr K).
    { intros p Hp. right. revert p Hp. by apply bank_others; [|apply s2cr_not_bank|]. }
    eapply h_bind.
    + apply p_wr. rewrite W2. intros w h HF. cbn [ordered]. split_and!.
      * intros H. by destruct smr_not_bank.
      * intros E. by destruct smr_s2cr.
      * intros _ _. split_and!; [done|by eapply shown_from|]. eapply (known_in _ _ _ _ _ _ HF). by left.
    + intros []. rewrite W2. apply h_ret'. intros s HF. eapply (connected_facts _ l s _ _ HF); [|done|done| |by left].
      * intros p Hp. right. revert p Hp. by apply bank_others; [|apply smr_not_bank|].
      * right. apply in_others; [by left|]. cbn [fst]. apply not_eq_sym, smr_s2cr.
Qed.

Lemma cut_known s : is_cut s -> exists u, facts [(smr, (u, false))] s /\ bits u SMR_VALID = false.
Proof. intros (u & Hk & Hb). exists u. by split; [constructor; [split|]|]. Qed.

(** From a cut stream: the bank is read back and the stream connected. *)
Lemma p_connect : hoare is_cut
  (let! readback := smmu_read_cb cb in
   if negb (cb_same readback expect) then py_raise (Stop "context bank did not read back as written") else
   wr "SMMU_S2CR" (want_s2cr cb) (stream_smr x) ;;; wr "SMMU_SMR" (want_smr (stream_sid x)) (stream_smr x) ;;; py_ret true)
  (fun _ s => connected (ev_word (ss_tgt s)) (ev_log (ss_tgt s))) anyway.
Proof.
  eapply h_pre; [|exact cut_known|intros s H; exact H]. apply h_ex. intros u. apply h_fact. intros Hb. eapply h_bind.
  - apply p_collect; [exact names_distinct|]. intros n Hn E%list_elem_of_singleton. cbn [fst] in E. apply smr_not_bank. rewrite <- E. by apply names_bank.
  - intros l. apply h_fact. intros Hl. destruct (cb_same l expect) eqn:Hs; cbn [negb]; [|eapply h_pre; [apply (h_raise (fun _ => True))|done|done]].
    apply (p_route l _ u false Hl Hs); [|apply elem_of_app; right; by left|done]. intros p Hp. apply elem_of_app. by left.
Qed.

Lemma p_program : hoare anyway (smmu_program tables cb (stream_smr x) (stream_sid x) wide) (fun _ s => connected (ev_word (ss_tgt s)) (ev_log (ss_tgt s))) anyway.
Proof.
  unfold smmu_program. cbv zeta. eapply h_bind; [eapply h_pre; [apply (p_collect CB_NAMES [])|by constructor|done]; [exact names_distinct|by intros n _ H%elem_of_nil]|].
  intros l. apply h_fact. intros Hl. rewrite app_nil_r. eapply h_bind; [apply p_read|]. intros v. eapply h_bind; [apply p_read|]. intros c.
  set (K := (s2cr, (c, true)) :: others s2cr ((smr, (v, true)) :: others smr (bank_facts l))). assert (HK : bank_facts l ⊆ K).
  { intros p Hp. right. revert p Hp. apply bank_others; [done|apply s2cr_not_bank|]. intros p Hp. right. revert p Hp. by apply bank_others; [|apply smr_not_bank|]. }
  assert (Hv : (smr, (v, true)) ∈ K) by (right; apply in_others; [by left|apply smr_s2cr]).
  destruct (cb_same l expect && _ && _) eqn:Ho.
  { apply andb_true_iff in Ho as [[Hs ->%Z.eqb_eq]%andb_true_iff ->%Z.eqb_eq]. apply h_ret'. intros s HF. by apply (connected_facts K l s true true); [| | | |left|]. }
  destruct (bits _ SCTLR_M && _); [eapply h_pre; [apply (h_raise (fun _ => True))|done|done]|].
  destruct (bits v SMR_VALID && _); [eapply h_pre; [apply (h_raise (fun _ => True))|done|done]|].
  eapply (h_bind _ _ (fun _ => is_cut)).
  - destruct (bits v SMR_VALID) eqn:Hb; [|apply h_ret'; intros s HF; by apply (cut_facts v true K)]. eapply h_bind; [apply p_stream_off|]. intros []. apply p_tlbi.
  - intros []. eapply h_bind; [apply h_each; intros [n z] Hn; apply p_bank_write; by eapply bank_writes_in|]. intros []. eapply h_bind; [apply p_tlbi|]. intros []. apply p_connect.
Qed.

Lemma p_disable : hoare anyway (smmu_disable cb (stream_smr x) (stream_sid x)) (fun _ => is_cut) anyway.
Proof.
  unfold smmu_disable. eapply h_bind; [eapply h_pre; [apply (p_read [])|by constructor|done]|]. intros v.
  destruct (bits v SMR_VALID && _); [eapply h_pre; [apply (h_raise (fun _ => True))|done|done]|].
  eapply h_bind; [apply p_stream_off|]. intros []. eapply h_bind; [apply p_bank_write; apply elem_of_app; left; by left|]. intros []. apply p_tlbi.
Qed.
End ordered.

(** C15: Whatever the target answers, smmu_program writes a register of a stream's context
    bank only while the newest value read from or written to the stream's match register
    matches nothing, sends the stream to the bank only then, and enables the match only
    for the stream's own ID, after every expected register of the bank was read back as
    expected since it was last written and the routing was written; if it returns, the
    bank was so read back, and routing and match were read or written as wanted.
    smmu_disable keeps the same order and, if it returns, leaves the stream cut off. *)
Theorem smmu_streams_ordered (x : stream) (tables : page_tables) (wide : bool) (s : session env) :
  let programmed := smmu_program tables (stream_bank x) (stream_smr x) (stream_sid x) wide s in
  let disabled := smmu_disable (stream_bank x) (stream_smr x) (stream_sid x) s in
  GpuLogic.steps (ordered x tables wide) (ss_tgt s) (ss_tgt (snd programmed)) /\
  GpuLogic.steps (ordered x tables wide) (ss_tgt s) (ss_tgt (snd disabled)) /\
  match fst programmed with Ok _ => connected x tables wide (ev_word (ss_tgt s)) (ev_log (ss_tgt (snd programmed))) | Raise _ => True end /\
  match fst disabled with Ok _ => cut x (ev_word (ss_tgt s)) (ev_log (ss_tgt (snd disabled))) | Raise _ => True end.
Proof.
  cbv zeta. destruct (smmu_program _ _ _ _ _ s) as [r1 s1] eqn:E1. destruct (smmu_disable _ _ _ s) as [r2 s2] eqn:E2. cbn [fst snd].
  destruct (p_program x tables wide s r1 s1 Logic.I E1) as [H1 Q1]. destruct (p_disable x tables wide s r2 s2 Logic.I E2) as [H2 Q2]. split_and!; [done|done| |].
  - rewrite <- (proj1 H1). exact Q1.
  - rewrite <- (proj1 H2). exact Q2.
Qed.

(** A target whose registers keep what is written, its streams disconnected, and its
    SMMU open. *)
Definition smmu_plant : session env :=
  upd_proven (fun _ _ => Some EvAO) (session_new (Env [] (plant_word (fun _ => 0)) plant_data) true true true).
Definition smmu_plant_tables : page_tables := PT 0xA0000000 0 0x10000 0x1000 ∅ 0.

(** There smmu_program connects both streams, and smmu_disable then cuts them off. *)
Example smmu_plant_runs : Forall (fun x =>
  let programmed := smmu_program smmu_plant_tables (stream_bank x) (stream_smr x) (stream_sid x) false smmu_plant in
  fst programmed = Ok true /\ fst (smmu_disable (stream_bank x) (stream_smr x) (stream_sid x) (snd programmed)) = Ok tt) [GmuStream; GpuStream].
Proof. repeat constructor; vm_compute; reflexivity. Qed.
