(* ===== verification/Handoff.v ===== *)
(** * proxyclient/m1n1/fw/agx/handoff.py: the page shared with the GPU firmware

    [GFXHandoff] guards the page-table memory shared between the host and the GPU
    firmware with a two-party lock in a shared register page, and asks the firmware
    for cache flushes through a table of requests in the same page.  The firmware is
    another processor: [GfxFirmware] states what the host may assume of it, and
    between any two accesses of the host it takes as many steps as a schedule says.
    Every access may also fail, before or after it took effect.

    The theorems: the two critical sections never overlap, whatever the schedule,
    the faults and the operations; a lock taken without contention runs its body and
    leaves the page released, while the contended path can never return; a flush
    request becomes visible only with its address and size in place, and a fair
    firmware lets a request complete. *)

From Stdlib Require Import ZArith Lia.
From stdpp Require Import base list numbers strings gmap.
From S2P Require Import Prelude RangeMap Registers RegTables RegMaps.

Local Open Scope string_scope.
Local Open Scope list_scope.
Local Open Scope Z_scope.
Local Open Scope py_scope.

Definition PPL_MAGIC : Z := 0x4b1d000000000002.
Definition FLUSH_COUNT : nat := 0x41.

Definition GFXHandoffStruct : list reg_decl :=
  [RegDecl "MAGIC_AP" (RScalar 0) Register64; RegDecl "MAGIC_FW" (RScalar 8) Register64;
   RegDecl "LOCK_AP" (RScalar 0x10) Register8; RegDecl "LOCK_FW" (RScalar 0x11) Register8;
   RegDecl "TURN" (RScalar 0x14) Register32; RegDecl "CUR_CTX" (RScalar 0x18) Register32;
   RegDecl "FLUSH_STATE" (RArray [irange 0x20 0x41 0x18]) Register64;
   RegDecl "FLUSH_ADDR" (RArray [irange 0x28 0x41 0x18]) Register64;
   RegDecl "FLUSH_SIZE" (RArray [irange 0x30 0x41 0x18]) Register64;
   RegDecl "UNK2" (RScalar 0x638) Register8; RegDecl "UNK3" (RScalar 0x640) Register64].

(** ** The page *)

(** The registers of the page; an index is one [flush_index] accepts. *)
Inductive hreg :=
| MAGIC_AP | MAGIC_FW | LOCK_AP | LOCK_FW | TURN | CUR_CTX
| FLUSH_STATE (i : nat) | FLUSH_ADDR (i : nat) | FLUSH_SIZE (i : nat)
| UNK2 | UNK3.

#[global] Instance hreg_eq_dec : EqDecision hreg.
Proof. solve_decision. Defined.

Definition hreg_name (r : hreg) : string * option (list nat) :=
  match r with
  | MAGIC_AP => ("MAGIC_AP", None) | MAGIC_FW => ("MAGIC_FW", None)
  | LOCK_AP => ("LOCK_AP", None) | LOCK_FW => ("LOCK_FW", None)
  | TURN => ("TURN", None) | CUR_CTX => ("CUR_CTX", None)
  | FLUSH_STATE i => ("FLUSH_STATE", Some [i]) | FLUSH_ADDR i => ("FLUSH_ADDR", Some [i])
  | FLUSH_SIZE i => ("FLUSH_SIZE", Some [i])
  | UNK2 => ("UNK2", None) | UNK3 => ("UNK3", None)
  end.

(** The offset of a register, and its width in bits. *)
Definition hreg_off (r : hreg) : Z :=
  match r with
  | MAGIC_AP => 0 | MAGIC_FW => 8 | LOCK_AP => 0x10 | LOCK_FW => 0x11 | TURN => 0x14 | CUR_CTX => 0x18
  | FLUSH_STATE i => 0x20 + Z.of_nat i * 0x18 | FLUSH_ADDR i => 0x28 + Z.of_nat i * 0x18
  | FLUSH_SIZE i => 0x30 + Z.of_nat i * 0x18
  | UNK2 => 0x638 | UNK3 => 0x640
  end.
Definition hreg_width (r : hreg) : Z :=
  match r with LOCK_AP | LOCK_FW | UNK2 => 8 | TURN | CUR_CTX => 32 | _ => 64 end.
Definition hreg_valid (r : hreg) : bool :=
  match r with FLUSH_STATE i | FLUSH_ADDR i | FLUSH_SIZE i => Nat.ltb i FLUSH_COUNT | _ => true end.

(** The page's contents, by register: [handoff_layout] shows that no two registers
    share a byte. *)
Definition hmem : Type := hreg -> Z.
Definition hset (r : hreg) (v : Z) (m : hmem) : hmem := fun r' => if decide (r' = r) then v else m r'.

Lemma hset_eq r v m : hset r v m r = v.
Proof. unfold hset. by rewrite decide_True. Qed.
Lemma hset_ne r r' v m : r' <> r -> hset r v m r' = m r'.
Proof. intros H. unfold hset. by rewrite decide_False. Qed.

(** [FLUSH_*[context]]: a Python index into a range of [0x41] addresses. *)
Definition flush_index (context : Z) : result nat :=
  if (0 <=? context) && (context <? 0x41) then Ok (Z.to_nat context)
  else if (-0x41 <=? context) && (context <? 0) then Ok (Z.to_nat (context + 0x41))
  else Raise IndexError.

(** ** The firmware *)

(** What the lock relies on: the firmware runs the same algorithm.  [fw_in] says
    that it is in its critical section, [fw_inv] is its own invariant. *)
Class GfxFirmware := {
  fw_state : Type;
  fw_step : fw_state -> hmem -> fw_state * hmem;
  fw_in : fw_state -> bool;
  fw_inv : fw_state -> hmem -> Prop;
  fw_inv_step f m : fw_inv f m -> fw_inv (fst (fw_step f m)) (snd (fw_step f m));
  fw_inv_host f m r v : r <> LOCK_FW -> fw_inv f m -> fw_inv f (hset r v m);
  fw_keeps_ap f m : snd (fw_step f m) LOCK_AP = m LOCK_AP;
  fw_holds f m : fw_inv f m -> fw_in f = true -> m LOCK_FW <> 0;
  fw_enters f m : fw_in f = false -> fw_in (fst (fw_step f m)) = true -> m LOCK_AP = 0
}.

(** What the flush requests rely on, for the context the firmware serves: it only
    answers a pending request, never writes the address or the size, and answers in
    finitely many steps. *)
Class GfxFlush `{!GfxFirmware} := {
  fl_ctx : nat;
  fl_step f m : let m' := snd (fw_step f m) in
    m' (FLUSH_STATE fl_ctx) = m (FLUSH_STATE fl_ctx) \/ (m (FLUSH_STATE fl_ctx) = 1 /\ m' (FLUSH_STATE fl_ctx) = 2);
  fl_addr f m : snd (fw_step f m) (FLUSH_ADDR fl_ctx) = m (FLUSH_ADDR fl_ctx);
  fl_size f m : snd (fw_step f m) (FLUSH_SIZE fl_ctx) = m (FLUSH_SIZE fl_ctx);
  fl_serves f m : exists n, snd (Nat.iter n (fun p => fw_step (fst p) (snd p)) (f, m)) (FLUSH_STATE fl_ctx) <> 1
}.

(** ** The host *)

(** How an access ends: [u.read] and [u.write] raise when the target counted an
    exception, with or without the access having taken effect. *)
Inductive outcome := Done | FaultBefore | FaultAfter.

Create HintDb handoff.

Section handoff.
Context `{FW : !GfxFirmware}.

(** [h_sched n] is how many steps the firmware takes before access [n] of the host
    and how that access ends; [h_in] is ghost: the body of a [with lock()] runs.
    [h_log] is what was true after every step of either side, newest first. *)
Record world := World {
  h_base : Z;
  h_mem : hmem;
  h_fw : fw_state;
  h_sched : nat -> nat * outcome;
  h_n : nat;
  is_locked : bool;
  initialized : bool;
  h_in : bool;
  h_log : list (bool * bool * hmem)
}.

Definition set_mem (f : fw_state) (m : hmem) (s : world) : world :=
  {| h_base := h_base s; h_mem := m; h_fw := f; h_sched := h_sched s; h_n := h_n s; is_locked := is_locked s;
     initialized := initialized s; h_in := h_in s; h_log := (h_in s, fw_in f, m) :: h_log s |}.
Definition set_n (n : nat) (s : world) : world :=
  {| h_base := h_base s; h_mem := h_mem s; h_fw := h_fw s; h_sched := h_sched s; h_n := n; is_locked := is_locked s;
     initialized := initialized s; h_in := h_in s; h_log := h_log s |}.
Definition set_locked (b : bool) (s : world) : world :=
  {| h_base := h_base s; h_mem := h_mem s; h_fw := h_fw s; h_sched := h_sched s; h_n := h_n s; is_locked := b;
     initialized := initialized s; h_in := h_in s; h_log := h_log s |}.
Definition set_initialized (s : world) : world :=
  {| h_base := h_base s; h_mem := h_mem s; h_fw := h_fw s; h_sched := h_sched s; h_n := h_n s; is_locked := is_locked s;
     initialized := true; h_in := h_in s; h_log := h_log s |}.
Definition set_in (b : bool) (s : world) : world :=
  {| h_base := h_base s; h_mem := h_mem s; h_fw := h_fw s; h_sched := h_sched s; h_n := h_n s; is_locked := is_locked s;
     initialized := initialized s; h_in := b; h_log := h_log s |}.

Definition fw_one (s : world) : world := let '(f, m) := fw_step (h_fw s) (h_mem s) in set_mem f m s.
Definition fw_run (n : nat) (s : world) : world := Nat.iter n fw_one s.

(** One access of the host: the firmware's steps, then the access. *)
Definition access {A} (eff : hmem -> A * hmem) : M world A := fun s =>
  let '(k, o) := h_sched s (h_n s) in
  let s := fw_run k (set_n (S (h_n s)) s) in
  let '(a, m) := eff (h_mem s) in
  match o with
  | Done => (Ok a, set_mem (h_fw s) m s)
  | FaultBefore => (Raise (ProxyError "Exception occurred"), s)
  | FaultAfter => (Raise (ProxyError "Exception occurred"), set_mem (h_fw s) m s)
  end.

(** [M1N1Proxy.read8] ... [write64]: an address that is not a multiple of the size
    is refused before anything is sent. *)
Definition aligned (base : Z) (r : hreg) : bool := (base + hreg_off r) mod (hreg_width r / 8) =? 0.

(** [self.reg.R.val], and [self.reg.R.val = v] or [self.reg.R = v]. *)
Definition rd (r : hreg) : M world Z :=
  let! base := py_get h_base in
  if negb (aligned base r) then py_raise AlignmentError else access (fun m => (m r, m)).
Definition wr (r : hreg) (v : Z) : M world unit :=
  let! base := py_get h_base in
  if negb (aligned base r) then py_raise AlignmentError
  else if 2 ^ 64 <=? v then py_raise StructError
  else access (fun m => (tt, hset r (v mod 2 ^ hreg_width r) m)).

(** [self.reg.R != 0] without [.val]: an accessor has no [__eq__], so the comparison
    is that of two different objects, and the register is not read. *)
Definition accessor_ne (n : Z) : bool := true.

(** [try: m finally: f].  A body cut off by the fuel is still running. *)
Definition try_finally {A} (m : M world A) (f : M world unit) : M world A := fun s =>
  match m s with
  | (Raise OutOfFuel, s') => (Raise OutOfFuel, s')
  | (r, s') => match f s' with (Ok _, s'') => (r, s'') | (Raise e, s'') => (Raise e, s'') end
  end.

(** [while self.reg.TURN != 0: pass]. *)
Fixpoint turn_loop (fuel : nat) : M world unit :=
  if accessor_ne 0 then match fuel with O => py_raise OutOfFuel | S fuel => turn_loop fuel end else py_ret tt.

Fixpoint lock_loop (fuel : nat) : M world unit :=
  match fuel with
  | O => py_raise OutOfFuel
  | S fuel =>
      let! fw := rd LOCK_FW in
      if negb (fw =? 0) then
        (if accessor_ne 0 then wr LOCK_AP 0 ;;; turn_loop fuel ;;; wr LOCK_AP 1 else py_ret tt) ;;;
        lock_loop fuel
      else py_ret tt
  end.

(** The [finally] clause of [lock]. *)
Definition release : M world unit :=
  py_modify (set_in false) ;;;
  wr TURN 1 ;;;
  wr LOCK_AP 0 ;;;
  py_modify (set_locked false).

(** [with self.lock(): body]. *)
Definition with_lock {A} (fuel : nat) (body : M world A) : M world A :=
  let! l := py_get is_locked in
  py_lift (rassert (negb l)) ;;;
  wr LOCK_AP 1 ;;;
  lock_loop fuel ;;;
  py_modify (fun s => set_in true (set_locked true s)) ;;;
  try_finally body release.

(** [while self.reg.MAGIC_FW.val != PPL_MAGIC: pass]. *)
Fixpoint magic_loop (fuel : nat) : M world unit :=
  match fuel with
  | O => py_raise OutOfFuel
  | S fuel => let! v := rd MAGIC_FW in if negb (v =? PPL_MAGIC) then magic_loop fuel else py_ret tt
  end.

Fixpoint clear_flush (idx : list nat) : M world unit :=
  match idx with
  | [] => py_ret tt
  | i :: rest => wr (FLUSH_STATE i) 0 ;;; wr (FLUSH_ADDR i) 0 ;;; wr (FLUSH_SIZE i) 0 ;;; clear_flush rest
  end.

(** [self.reg.UNK = 0xffffffff] is not in the model's effects: the map declares no
    [UNK], so it only sets an attribute of the Python object. *)
Definition initialize (fuel : nat) : M world unit :=
  let! i := py_get initialized in
  if i then py_ret tt else
  wr MAGIC_AP PPL_MAGIC ;;;
  wr UNK3 0 ;;;
  with_lock fuel (magic_loop fuel) ;;;
  clear_flush (seq 0 FLUSH_COUNT) ;;;
  py_modify set_initialized.

Definition prepare_cacheflush (base size context : Z) : M world unit :=
  let! i := py_lift (flush_index context) in
  let! st := rd (FLUSH_STATE i) in
  py_lift (rassert (st =? 0)) ;;;
  wr (FLUSH_ADDR i) base ;;;
  wr (FLUSH_SIZE i) size ;;;
  wr (FLUSH_STATE i) 1.

Fixpoint flush_loop (i : nat) (fuel : nat) : M world unit :=
  match fuel with
  | O => py_raise OutOfFuel
  | S fuel => let! st := rd (FLUSH_STATE i) in if st =? 1 then flush_loop i fuel else py_ret tt
  end.
Definition wait_cacheflush (context : Z) (fuel : nat) : M world unit :=
  let! i := py_lift (flush_index context) in flush_loop i fuel.

Definition complete_cacheflush (context : Z) : M world unit :=
  let! i := py_lift (flush_index context) in
  let! st := rd (FLUSH_STATE i) in
  py_lift (rassert (st =? 2)) ;;;
  wr (FLUSH_STATE i) 0.

Definition prepare_unmap (base size context : Z) : M world unit :=
  let! i := py_lift (flush_index context) in
  let! st := rd (FLUSH_STATE i) in
  py_lift (rassert (st =? 0)) ;;;
  wr (FLUSH_ADDR i) (Z.lor 0xdead000000000000 (Z.land base 0xffffffffffff)) ;;;
  wr (FLUSH_SIZE i) size ;;;
  wr (FLUSH_STATE i) 2.

Definition complete_unmap (context : Z) : M world unit :=
  let! i := py_lift (flush_index context) in
  let! st := rd (FLUSH_STATE i) in
  py_lift (rassert (st =? 2)) ;;;
  wr (FLUSH_STATE i) 0.

(** What a client does with the object: its methods, other accesses to the target
    (page-table writes in a body), and [with lock()] around a list of these. *)
Inductive hop :=
| HInitialize
| HPrepareFlush (base size context : Z)
| HWaitFlush (context : Z)
| HCompleteFlush (context : Z)
| HPrepareUnmap (base size context : Z)
| HCompleteUnmap (context : Z)
| HOther
| HLock (body : list hop).

Fixpoint run_op (fuel : nat) (o : hop) : M world unit :=
  match o with
  | HInitialize => initialize fuel
  | HPrepareFlush b n c => prepare_cacheflush b n c
  | HWaitFlush c => wait_cacheflush c fuel
  | HCompleteFlush c => complete_cacheflush c
  | HPrepareUnmap b n c => prepare_unmap b n c
  | HCompleteUnmap c => complete_unmap c
  | HOther => access (fun m => (tt, m))
  | HLock body =>
      with_lock fuel
        ((fix run_body (l : list hop) : M world unit :=
            match l with [] => py_ret tt | o :: rest => run_op fuel o ;;; run_body rest end) body)
  end.

(** A session: operation after operation; an exception ends its operation, a loop
    that does not return ends the session. *)
Fixpoint run_session (fuel : nat) (l : list hop) (s : world) : world :=
  match l with
  | [] => s
  | o :: rest => match run_op fuel o s with (Raise OutOfFuel, s') => s' | (_, s') => run_session fuel rest s' end
  end.

(** ** Mutual exclusion *)

Definition exclusive (p : bool * bool * hmem) : Prop := fst (fst p) && snd (fst p) = false.

Record Inv (s : world) : Prop := {
  inv_in : h_in s = true -> is_locked s = true /\ h_mem s LOCK_AP <> 0 /\ fw_in (h_fw s) = false;
  inv_fw : fw_inv (h_fw s) (h_mem s);
  inv_log : Forall exclusive (h_log s)
}.

Lemma fw_one_inv s : Inv s -> Inv (fw_one s).
Proof.
  intros [Hi Hf Hl]. unfold fw_one.
  pose proof (fw_inv_step _ _ Hf) as Hf'. pose proof (fw_keeps_ap (h_fw s) (h_mem s)) as Ha.
  pose proof (fw_enters (h_fw s) (h_mem s)) as He. destruct (fw_step (h_fw s) (h_mem s)) as [f m]. cbn [fst snd] in *.
  assert (Hin : h_in s = true -> is_locked s = true /\ m LOCK_AP <> 0 /\ fw_in f = false).
  { intros H. destruct (Hi H) as (Hk & Hm & Hn). rewrite Ha. split_and!; [done..|]. destruct (fw_in f); [|done]. by destruct Hm; apply He. }
  constructor; cbn; [done|done|]. constructor; [|done]. unfold exclusive. cbn. destruct (h_in s); [|done]. by destruct Hin as (_ & _ & ->).
Qed.

Lemma fw_run_inv k s : Inv s -> Inv (fw_run k s).
Proof. intros H. induction k as [|k IH]; [done|]. by apply fw_one_inv. Qed.

(** What the firmware cannot change. *)
Lemma fw_run_host k s : let s' := fw_run k s in
  h_base s' = h_base s /\ h_sched s' = h_sched s /\ h_n s' = h_n s /\ is_locked s' = is_locked s /\
  initialized s' = initialized s /\ h_in s' = h_in s /\ h_mem s' LOCK_AP = h_mem s LOCK_AP.
Proof.
  induction k as [|k IH]; [done|]. cbn zeta in *. change (fw_run (S k) s) with (fw_one (fw_run k s)). unfold fw_one.
  pose proof (fw_keeps_ap (h_fw (fw_run k s)) (h_mem (fw_run k s))) as Ha.
  destruct (fw_step _ _) as [f m]. cbn in Ha |- *. destruct IH as (? & ? & ? & ? & ? & ? & ?). split_and!; congruence.
Qed.

Lemma set_mem_inv m s : Inv s -> fw_inv (h_fw s) m -> (h_in s = true -> m LOCK_AP = h_mem s LOCK_AP) -> Inv (set_mem (h_fw s) m s).
Proof.
  intros [Hi Hf Hl] Hm Ha. constructor; cbn; [|done|].
  - intros H. rewrite Ha by done. auto.
  - constructor; [|done]. unfold exclusive. cbn. destruct (h_in s); [|done]. by destruct Hi as (_ & _ & ->).
Qed.

(** A program keeps the invariant and, unless a loop of it is still running, leaves
    the body flag and the lock as they were. *)
Definition lock_safe {A} (P : world -> Prop) (m : M world A) : Prop := forall s r s',
  Inv s -> P s -> m s = (r, s') -> Inv s' /\ (r <> Raise OutOfFuel -> h_in s' = h_in s).
Abbreviation always := (fun _ : world => True).
Abbreviation outside := (fun s : world => h_in s = false).

Lemma hs_access {A} (P : world -> Prop) (eff : hmem -> A * hmem) :
  (forall f m, fw_inv f m -> fw_inv f (snd (eff m))) ->
  (forall s m, P s -> h_in s = true -> snd (eff m) LOCK_AP = m LOCK_AP) -> lock_safe P (access eff).
Proof.
  intros Hf Ha s r s' HI HP E. unfold access in E. destruct (h_sched s (h_n s)) as [k o].
  set (s1 := fw_run k (set_n (S (h_n s)) s)) in *.
  assert (H1 : Inv s1) by (apply fw_run_inv; by destruct HI; constructor).
  assert (Hin : h_in s1 = h_in s) by apply (fw_run_host k (set_n (S (h_n s)) s)).
  destruct (eff (h_mem s1)) as [a m] eqn:Ee.
  assert (H2 : Inv (set_mem (h_fw s1) m s1)).
  { apply set_mem_inv; [done| |].
    - pose proof (Hf _ _ (inv_fw _ H1)) as H. by rewrite Ee in H.
    - intros H. pose proof (Ha s (h_mem s1) HP) as H'. rewrite Ee in H'. apply H'. congruence. }
  destruct o; injection E as <- <-; done.
Qed.

Lemma hs_weaken {A} (P : world -> Prop) (m : M world A) : lock_safe always m -> lock_safe P m.
Proof. intros H s r s' HI _ E. by eapply H. Qed.

Lemma hs_bind {A B} (P : world -> Prop) (m : M world A) (k : A -> M world B) :
  (forall s, P s -> forall s', h_in s' = h_in s -> P s') -> lock_safe P m -> (forall a, lock_safe P (k a)) -> lock_safe P (py_bind m k).
Proof.
  intros HP Hm Hk s r s' HI H E. unfold py_bind in E. destruct (m s) as [[a|e] s1] eqn:E1; destruct (Hm _ _ _ HI H E1) as [H1 H2].
  - specialize (H2 ltac:(done)). destruct (Hk a s1 r s' H1 (HP _ H _ H2) E) as [? H3]. split; [done|]. intros Hr. by rewrite <- H2, H3.
  - injection E as <- <-. split; [done|]. intros Hr. apply H2. congruence.
Qed.

Lemma stable_always : forall s : world, always s -> forall s' : world, h_in s' = h_in s -> always s'.
Proof. done. Qed.
Lemma stable_outside : forall s : world, outside s -> forall s' : world, h_in s' = h_in s -> outside s'.
Proof. intros s H s' E. congruence. Qed.

Lemma hs_pure {A} (P : world -> Prop) (m : M world A) : (forall s, snd (m s) = s) -> lock_safe P m.
Proof. intros H s r s' HI _ E. specialize (H s). rewrite E in H. cbn in H. by subst. Qed.

Lemma hs_get {A} P (f : world -> A) : lock_safe P (py_get f).
Proof. by apply hs_pure. Qed.
Lemma hs_ret {A} P (a : A) : lock_safe P (py_ret a).
Proof. by apply hs_pure. Qed.
Lemma hs_raise {A} P e : lock_safe P (@py_raise world A e).
Proof. by apply hs_pure. Qed.
Lemma hs_lift {A} P (x : result A) : lock_safe P (py_lift x).
Proof. by apply hs_pure. Qed.
Lemma hs_initialized P : lock_safe P (py_modify set_initialized).
Proof. intros s r s' HI _ [= <- <-]. split; [by destruct HI; constructor|done]. Qed.

Lemma hs_rd P r : lock_safe P (rd r).
Proof.
  apply hs_weaken. apply hs_bind; [apply stable_always|apply hs_get|]. intros base. destruct (aligned base r); [|apply hs_raise].
  by apply hs_access.
Qed.

(** The host writes its lock byte only outside the body, and never the firmware's. *)
Lemma hs_wr_gen (P : world -> Prop) r v : (forall s, P s -> forall s', h_in s' = h_in s -> P s') ->
  r <> LOCK_FW -> (forall s, P s -> h_in s = true -> r <> LOCK_AP) -> lock_safe P (wr r v).
Proof.
  intros Hst Hr Ha. apply hs_bind; [done|apply hs_get|]. intros base. destruct (aligned base r); [|apply hs_raise]. cbn [negb].
  destruct (2 ^ 64 <=? v); [apply hs_raise|]. apply hs_access; cbn [snd].
  - intros f m. by apply fw_inv_host.
  - intros s m HP Hin. apply hset_ne. intros E. by eapply Ha.
Qed.
Lemma hs_wr P r v : r <> LOCK_FW -> r <> LOCK_AP -> lock_safe P (wr r v).
Proof. intros H1 H2. apply hs_weaken. by apply hs_wr_gen. Qed.
Lemma hs_wr_ap v : lock_safe outside (wr LOCK_AP v).
Proof. apply hs_wr_gen; [apply stable_outside|done|]. intros s H H'. congruence. Qed.

#[local] Hint Resolve hs_get hs_ret hs_raise hs_lift hs_rd hs_wr hs_initialized hs_wr_ap stable_always stable_outside : handoff.
#[local] Hint Extern 1 (_ <> _) => discriminate : handoff.

Ltac hs_steps := repeat first
  [ progress intros
  | match goal with |- lock_safe _ (if ?b then _ else _) => destruct b end
  | match goal with |- lock_safe _ (py_bind _ _) => apply hs_bind end
  | solve [eauto with handoff] ].

Lemma hs_turn_loop P fuel : lock_safe P (turn_loop fuel).
Proof. induction fuel as [|fuel IH]; cbn; [apply hs_raise|done]. Qed.
#[local] Hint Resolve hs_turn_loop : handoff.

Lemma turn_loop_spins fuel s : turn_loop fuel s = (Raise OutOfFuel, s).
Proof. by induction fuel. Qed.

Lemma hs_lock_loop fuel : lock_safe outside (lock_loop fuel).
Proof. induction fuel as [|fuel IH]; cbn [lock_loop]; hs_steps. Qed.

Lemma access_keeps {A} (eff : hmem -> A * hmem) s r s' : access eff s = (r, s') ->
  h_base s' = h_base s /\ h_sched s' = h_sched s /\ h_n s' = S (h_n s) /\ is_locked s' = is_locked s /\ initialized s' = initialized s.
Proof.
  unfold access. destruct (h_sched s (h_n s)) as [k o]. pose proof (fw_run_host k (set_n (S (h_n s)) s)) as H.
  destruct (eff _) as [a m]. intros E. cbn in H. destruct H as (? & ? & ? & ? & ? & ? & ?). destruct o; injection E as <- <-; cbn; by split_and!.
Qed.

(** The lock byte written stays: the next access finds it. *)
Lemma rd_ok r s v s' : rd r s = (Ok v, s') -> h_mem s' r = v /\ h_mem s' LOCK_AP = h_mem s LOCK_AP /\ is_locked s' = is_locked s.
Proof.
  unfold rd. cbn. destruct (aligned (h_base s) r); [|done]. cbn. unfold access. destruct (h_sched s (h_n s)) as [k o].
  pose proof (fw_run_host k (set_n (S (h_n s)) s)) as H. cbn in H. destruct o; [|done..]. intros [= <- <-]. cbn. destruct H as (? & ? & ? & ? & ? & ? & ?). by split_and!.
Qed.
Lemma wr_ok r v s s' : wr r v s = (Ok tt, s') -> h_mem s' r = v mod 2 ^ hreg_width r /\ is_locked s' = is_locked s.
Proof.
  unfold wr. cbn. destruct (aligned (h_base s) r); [|done]. cbn. destruct (2 ^ 64 <=? v); [done|]. unfold access.
  destruct (h_sched s (h_n s)) as [k o]. pose proof (fw_run_host k (set_n (S (h_n s)) s)) as H. cbn in H. destruct o; [|done..].
  intros [= <-]. cbn. rewrite hset_eq. destruct H as (? & ? & ? & ? & ? & ? & ?). by split_and!.
Qed.

Lemma py_bind_assoc2 {A B C} (m : M world A) (n : M world B) (k : M world C) s : (m ;;; n ;;; k) s = ((m ;;; n) ;;; k) s.
Proof. unfold py_bind. by destruct (m s) as [[] ?]. Qed.

(** The loop returns only from a poll that found the firmware's byte clear, with
    the host's byte as it was. *)
Lemma lock_loop_ok fuel s s' : lock_loop fuel s = (Ok tt, s') -> h_mem s' LOCK_FW = 0 /\ h_mem s' LOCK_AP = h_mem s LOCK_AP.
Proof.
  destruct fuel as [|fuel]; [done|]. cbn [lock_loop]. intros E. apply py_bind_inv in E as (v & s1 & E1 & E).
  apply rd_ok in E1 as (H1 & H2 & _). destruct (Z.eqb_spec v 0) as [->|Hv]; cbn [negb] in E.
  - injection E as <-. done.
  - apply py_bind_inv in E as (? & s2 & E & _). cbn [accessor_ne] in E. apply py_bind_inv in E as (? & s3 & _ & E).
    unfold py_bind in E. by rewrite turn_loop_spins in E.
Qed.

Lemma hs_release s r s' : Inv s -> release s = (r, s') -> Inv s' /\ (r <> Raise OutOfFuel -> h_in s' = false).
Proof.
  intros HI E. assert (H : lock_safe outside (wr TURN 1 ;;; wr LOCK_AP 0 ;;; py_modify (set_locked false))).
  { hs_steps. intros s0 r0 s0' [Hi Hf Hl] Ho [= <- <-]. split; [|done]. constructor; [|done..]. cbn. congruence. }
  destruct (H (set_in false s) r s') as [I1 O1]; [by destruct HI; constructor|done|exact E|]. done.
Qed.

Lemma hs_body {A} (body : M world A) s r s' : lock_safe always body -> Inv s -> try_finally body release s = (r, s') ->
  Inv s' /\ (r <> Raise OutOfFuel -> h_in s' = false).
Proof.
  intros Hb HI E. unfold try_finally in E. destruct (body s) as [rb s1] eqn:E1. destruct (Hb s rb s1 HI I E1) as [I1 _].
  destruct (release s1) as [rr s2] eqn:E2. destruct (hs_release _ _ _ I1 E2) as [I2 O2].
  destruct rb as [|[]]; destruct rr; injection E as <- <-; (split; [done|]); intros Hr; first [by destruct Hr | apply O2; congruence].
Qed.

(** Taking the lock: the body starts with the host's byte set and the firmware
    outside. *)
Lemma lock_acquired fuel s s' : Inv s -> h_in s = false -> (wr LOCK_AP 1 ;;; lock_loop fuel) s = (Ok tt, s') ->
  Inv (set_in true (set_locked true s')).
Proof.
  intros HI Ho E. assert (Hs : lock_safe outside (wr LOCK_AP 1 ;;; lock_loop fuel)) by (pose proof (hs_lock_loop fuel); hs_steps).
  destruct (Hs _ _ _ HI Ho E) as [[Hi Hf Hl] _]. apply py_bind_inv in E as ([] & s1 & E1 & E2).
  apply lock_loop_ok in E2 as [Hfw Hap]. apply wr_ok in E1 as [Hap1 _]. constructor; cbn; [|done..]. intros _.
  split_and!; [done|by rewrite Hap, Hap1|]. destruct (fw_in (h_fw s')) eqn:Ei; [|done]. by destruct (fw_holds _ _ Hf Ei).
Qed.

Lemma with_lock_unfold {A} fuel (body : M world A) s : is_locked s = false ->
  with_lock fuel body s = (wr LOCK_AP 1 ;;; lock_loop fuel ;;; py_modify (fun s => set_in true (set_locked true s)) ;;; try_finally body release) s.
Proof. intros H. unfold with_lock, py_bind, py_get, py_lift. by rewrite H. Qed.

Lemma hs_with_lock {A} fuel (body : M world A) : lock_safe always body -> lock_safe always (with_lock fuel body).
Proof.
  intros Hb s r s' HI _ E. destruct (is_locked s) eqn:El.
  { unfold with_lock, py_bind, py_get, py_lift in E. rewrite El in E. by injection E as <- <-. }
  rewrite with_lock_unfold in E by done.
  assert (Ho : h_in s = false) by (destruct (h_in s) eqn:Ei; [|done]; destruct (inv_in s HI Ei); congruence).
  assert (Hs : lock_safe outside (wr LOCK_AP 1 ;;; lock_loop fuel)) by (pose proof (hs_lock_loop fuel); hs_steps).
  rewrite py_bind_assoc2 in E. unfold py_bind at 1 in E. destruct ((wr LOCK_AP 1 ;;; lock_loop fuel) s) as [[[]|e] s1] eqn:E1.
  - rewrite Ho. eapply hs_body; [done|by eapply lock_acquired|exact E].
  - injection E as <- <-. destruct (Hs _ _ _ HI Ho E1) as [I1 O1]. split; [done|]. intros Hr. apply O1. congruence.
Qed.

#[local] Hint Resolve hs_with_lock : handoff.

Lemma hs_magic_loop P fuel : lock_safe P (magic_loop fuel).
Proof. apply hs_weaken. induction fuel as [|fuel IH]; cbn [magic_loop]; hs_steps. Qed.
Lemma hs_clear_flush P idx : lock_safe P (clear_flush idx).
Proof. apply hs_weaken. induction idx as [|i idx IH]; cbn [clear_flush]; hs_steps. Qed.
Lemma hs_flush_loop P i fuel : lock_safe P (flush_loop i fuel).
Proof. apply hs_weaken. induction fuel as [|fuel IH]; cbn [flush_loop]; hs_steps. Qed.
#[local] Hint Resolve hs_magic_loop hs_clear_flush hs_flush_loop : handoff.

Fixpoint hs_run_op fuel (o : hop) {struct o} : lock_safe always (run_op fuel o).
Proof.
  destruct o as [|b n c|c|c|b n c|c| |body]; cbn [run_op];
    [unfold initialize|unfold prepare_cacheflush|unfold wait_cacheflush|unfold complete_cacheflush|unfold prepare_unmap|unfold complete_unmap|by apply hs_access|];
    [hs_steps..|].
  apply hs_with_lock. induction body as [|o body IH]; [apply hs_ret|]. apply hs_bind; [apply stable_always|apply hs_run_op|done].
Qed.

Lemma run_session_inv fuel l : forall s, Inv s -> Inv (run_session fuel l s).
Proof.
  induction l as [|o l IH]; [done|]. intros s HI. cbn [run_session]. destruct (run_op fuel o s) as [r s'] eqn:E.
  destruct (hs_run_op fuel o s r s' HI I E) as [H _]. destruct r as [|[]]; by auto.
Qed.

(** ** The lock *)

(** No access raises, and the page is where the registers are aligned. *)
Record faultless (s : world) : Prop := Faultless { fl_done : forall n, snd (h_sched s n) = Done; fl_base : h_base s mod 8 = 0 }.

Lemma aligned_ok base r : base mod 8 = 0 -> aligned base r = true.
Proof.
  intros H. apply Z.mod_divide in H as [q ->]; [|done]. unfold aligned. apply Z.eqb_eq.
  destruct r; cbn [hreg_off hreg_width]; (apply Z.mod_divide; [done|]); unfold Z.divide; cbn [Z.div Z.div_eucl Z.pos_div_eucl].
  all: match goal with
       | |- exists z, _ = z * (64 / 8) => change (64 / 8) with 8
       | |- exists z, _ = z * (32 / 8) => change (32 / 8) with 4
       | |- exists z, _ = z * (8 / 8) => change (8 / 8) with 1
       | _ => idtac end.
  - exists q. lia.
  - exists (q + 1). lia.
  - eexists. rewrite Z.mul_1_r. done.
  - eexists. rewrite Z.mul_1_r. done.
  - exists (2 * q + 5). lia.
  - exists (2 * q + 6). lia.
  - exists (q + 4 + Z.of_nat i * 3). lia.
  - exists (q + 5 + Z.of_nat i * 3). lia.
  - exists (q + 6 + Z.of_nat i * 3). lia.
  - eexists. rewrite Z.mul_1_r. done.
  - exists (q + 0xc8). lia.
Qed.

(** The state the next access finds: the firmware has taken its steps. *)
Definition before (s : world) : world := fw_run (fst (h_sched s (h_n s))) (set_n (S (h_n s)) s).

Lemma before_host s : let s' := before s in
  h_base s' = h_base s /\ h_sched s' = h_sched s /\ h_n s' = S (h_n s) /\ is_locked s' = is_locked s /\
  initialized s' = initialized s /\ h_in s' = h_in s /\ h_mem s' LOCK_AP = h_mem s LOCK_AP.
Proof. apply (fw_run_host _ (set_n (S (h_n s)) s)). Qed.

Lemma access_done {A} (eff : hmem -> A * hmem) s : snd (h_sched s (h_n s)) = Done ->
  access eff s = (Ok (fst (eff (h_mem (before s)))), set_mem (h_fw (before s)) (snd (eff (h_mem (before s)))) (before s)).
Proof. unfold access, before. destruct (h_sched s (h_n s)) as [k o]. cbn. intros ->. by destruct (eff _). Qed.

Definition after_rd (s : world) : world := set_mem (h_fw (before s)) (h_mem (before s)) (before s).
Definition after_wr (r : hreg) (v : Z) (s : world) : world :=
  set_mem (h_fw (before s)) (hset r (v mod 2 ^ hreg_width r) (h_mem (before s))) (before s).

Lemma rd_done r s : faultless s -> rd r s = (Ok (h_mem (before s) r), after_rd s).
Proof. intros [Hs Hb]. unfold rd, py_bind, py_get. rewrite aligned_ok by done. cbn [negb]. by rewrite access_done. Qed.
Lemma wr_done r v s : faultless s -> v < 2 ^ 64 -> wr r v s = (Ok tt, after_wr r v s).
Proof.
  intros [Hs Hb] Hv. unfold wr, py_bind, py_get. rewrite aligned_ok by done. cbn [negb].
  destruct (Z.leb_spec (2 ^ 64) v); [lia|]. by rewrite access_done.
Qed.

Lemma faultless_before s : faultless s -> faultless (before s).
Proof. intros [H1 H2]. destruct (before_host s) as (Hb & Hs & _). constructor; by rewrite ?Hb, ?Hs. Qed.
Lemma faultless_rd s : faultless s -> faultless (after_rd s).
Proof. intros H. by destruct (faultless_before _ H). Qed.
Lemma faultless_wr r v s : faultless s -> faultless (after_wr r v s).
Proof. intros H. by destruct (faultless_before _ H). Qed.
Lemma after_wr_in r v s : h_in (after_wr r v s) = h_in s.
Proof. by destruct (before_host s) as (_ & _ & _ & _ & _ & H & _). Qed.
Lemma after_wr_sched r v s : h_sched (after_wr r v s) = h_sched s.
Proof. by destruct (before_host s) as (_ & H & _). Qed.
Lemma after_rd_sched s : h_sched (after_rd s) = h_sched s.
Proof. by destruct (before_host s) as (_ & H & _). Qed.
#[local] Hint Resolve faultless_rd faultless_wr : handoff.

(** A lock that finds the firmware's byte clear runs the body once, with the host's
    byte set and [is_locked]. *)
Lemma with_lock_free {A} fuel (body : M world A) s : faultless s -> is_locked s = false ->
  h_mem (before (after_wr LOCK_AP 1 s)) LOCK_FW = 0 ->
  with_lock (S fuel) body s = try_finally body release (set_in true (set_locked true (after_rd (after_wr LOCK_AP 1 s)))).
Proof.
  intros Hf Hl H0. rewrite with_lock_unfold by done. erewrite py_bind_ok by (by apply wr_done).
  erewrite py_bind_ok; [done|]. cbn [lock_loop]. erewrite py_bind_ok by (apply rd_done; auto with handoff). by rewrite H0.
Qed.

Lemma release_done s : faultless s -> exists s', release s = (Ok tt, s') /\
  is_locked s' = false /\ h_in s' = false /\ h_mem s' LOCK_AP = 0.
Proof.
  intros [H1 H2]. assert (Hf : faultless (set_in false s)) by done. unfold release. erewrite py_bind_ok by done.
  erewrite py_bind_ok by (by apply wr_done).
  erewrite py_bind_ok by (apply wr_done; [by apply faultless_wr|done]). eexists. split; [done|].
  split_and!; [done| |apply hset_eq]. etransitivity; [apply (after_wr_in LOCK_AP 0)|apply (after_wr_in TURN 1)].
Qed.

(** A lock that finds it set never returns: every fuel ends in the same state, in
    which the host waits without accessing the target. *)
Lemma with_lock_contended {A} fuel (body : M world A) s : faultless s -> is_locked s = false ->
  h_mem (before (after_wr LOCK_AP 1 s)) LOCK_FW <> 0 ->
  with_lock (S fuel) body s = (Raise OutOfFuel, after_wr LOCK_AP 0 (after_rd (after_wr LOCK_AP 1 s))).
Proof.
  intros Hf Hl H0. rewrite with_lock_unfold by done. erewrite py_bind_ok by (by apply wr_done). apply py_bind_raise.
  cbn [lock_loop]. erewrite py_bind_ok by (apply rd_done; auto with handoff). rewrite (proj2 (Z.eqb_neq _ _) H0). cbn [negb accessor_ne].
  apply py_bind_raise. erewrite py_bind_ok by (apply wr_done; auto with handoff; lia). apply py_bind_raise. apply turn_loop_spins.
Qed.

(** ** Flush requests *)

Section flush.
Context `{FL : !GfxFlush}.

Abbreviation st s := (h_mem s (FLUSH_STATE fl_ctx)).
Abbreviation ad s := (h_mem s (FLUSH_ADDR fl_ctx)).
Abbreviation sz s := (h_mem s (FLUSH_SIZE fl_ctx)).
Abbreviation stepped := (fun p => fw_step (fst p) (snd p)).

(** A request that can be seen carries its address and its size. *)
Definition published (base size : Z) (e : bool * bool * hmem) : Prop :=
  snd e (FLUSH_STATE fl_ctx) <> 0 -> snd e (FLUSH_ADDR fl_ctx) = base /\ snd e (FLUSH_SIZE fl_ctx) = size.
Definition idle (e : bool * bool * hmem) : Prop := snd e (FLUSH_STATE fl_ctx) = 0.
(** From [s] to [s'] the context stayed idle. *)
Definition quiet (s s' : world) : Prop := st s' = 0 /\ exists new, h_log s' = new ++ h_log s /\ Forall idle new.

Lemma quiet_trans s1 s2 s3 : quiet s1 s2 -> quiet s2 s3 -> quiet s1 s3.
Proof.
  intros (_ & n & E & H) (H0 & n' & E' & H'). split; [done|]. exists (n' ++ n). rewrite E', E, app_assoc. split; [done|by apply Forall_app].
Qed.

Lemma fw_one_flush s : ad (fw_one s) = ad s /\ sz (fw_one s) = sz s /\
  (st (fw_one s) = st s \/ (st s = 1 /\ st (fw_one s) = 2)).
Proof.
  unfold fw_one. pose proof (fl_addr (h_fw s) (h_mem s)). pose proof (fl_size (h_fw s) (h_mem s)). pose proof (fl_step (h_fw s) (h_mem s)).
  by destruct (fw_step (h_fw s) (h_mem s)) as [f m].
Qed.

Lemma fw_run_flush k s : ad (fw_run k s) = ad s /\ sz (fw_run k s) = sz s /\
  (st (fw_run k s) = st s \/ (st s = 1 /\ st (fw_run k s) = 2)).
Proof.
  induction k as [|k (Ha & Hz & Hs)]; [by auto|]. change (fw_run (S k) s) with (fw_one (fw_run k s)).
  destruct (fw_one_flush (fw_run k s)) as (Ha' & Hz' & Hs'). split_and!; [congruence..|]. intuition congruence.
Qed.
Lemma before_flush s : ad (before s) = ad s /\ sz (before s) = sz s /\ (st (before s) = st s \/ (st s = 1 /\ st (before s) = 2)).
Proof. apply (fw_run_flush _ (set_n (S (h_n s)) s)). Qed.

Lemma fw_one_log s : h_log (fw_one s) = (h_in s, fw_in (h_fw (fw_one s)), h_mem (fw_one s)) :: h_log s.
Proof. unfold fw_one. by destruct (fw_step _ _). Qed.

Lemma before_quiet s : st s = 0 -> quiet s (before s).
Proof.
  intros H0. unfold before. generalize (fst (h_sched s (h_n s))). intros k. induction k as [|k (H & n & E & Hn)].
  - split; [done|]. by exists [].
  - set (s1 := fw_run k (set_n (S (h_n s)) s)) in *. change (fw_run (S k) _) with (fw_one s1).
    assert (H1 : st (fw_one s1) = 0) by (destruct (fw_one_flush s1) as (_ & _ & [?|[??]]); congruence).
    split; [done|]. eexists (_ :: n). rewrite fw_one_log, E. split; [done|]. by constructor.
Qed.

Lemma quiet_rd s : st s = 0 -> quiet s (after_rd s).
Proof.
  intros H. destruct (before_quiet s H) as (H0 & n & E & Hn). split; [done|]. eexists (_ :: n). cbn. rewrite E. split; [done|]. by constructor.
Qed.
Lemma quiet_wr r v s : r <> FLUSH_STATE fl_ctx -> st s = 0 -> quiet s (after_wr r v s).
Proof.
  intros Hr H. destruct (before_quiet s H) as (H0 & n & E & Hn). assert (H1 : st (after_wr r v s) = 0) by (cbn; by rewrite hset_ne).
  split; [done|]. eexists (_ :: n). cbn. rewrite E. split; [done|]. by constructor.
Qed.

Lemma mod64_id v : 0 <= v < 2 ^ 64 -> v mod 2 ^ 64 = v.
Proof. apply Z.mod_small. Qed.

Lemma prepare_published base size context s : faultless s -> flush_index context = Ok fl_ctx -> st s = 0 ->
  0 <= base < 2 ^ 64 -> 0 <= size < 2 ^ 64 -> exists s' new,
    prepare_cacheflush base size context s = (Ok tt, s') /\ h_log s' = new ++ h_log s /\ Forall (published base size) new /\
    st s' = 1 /\ ad s' = base /\ sz s' = size /\ faultless s' /\ h_sched s' = h_sched s.
Proof.
  intros Hf Hi H0 Hb Hs. set (s1 := after_rd s). set (s2 := after_wr (FLUSH_ADDR fl_ctx) base s1).
  set (s3 := after_wr (FLUSH_SIZE fl_ctx) size s2). set (s4 := after_wr (FLUSH_STATE fl_ctx) 1 s3).
  assert (Q1 : quiet s s1) by (by apply quiet_rd). assert (Q2 : quiet s1 s2) by (apply quiet_wr; [done|apply Q1]).
  assert (Q3 : quiet s2 s3) by (apply quiet_wr; [done|apply Q2]). assert (Q4 : quiet s3 (before s3)) by (apply before_quiet, Q3).
  destruct (quiet_trans _ _ _ (quiet_trans _ _ _ Q1 Q2) (quiet_trans _ _ _ Q3 Q4)) as (_ & new & En & Hn).
  assert (A2 : ad s2 = base) by (cbn; rewrite hset_eq; by apply mod64_id).
  assert (A3 : ad s3 = base) by (cbn; rewrite hset_ne by done; by rewrite (proj1 (before_flush s2))).
  assert (Z3 : sz s3 = size) by (cbn; rewrite hset_eq; by apply mod64_id).
  destruct (before_flush s3) as (A4 & Z4 & _).
  assert (H4 : st s4 = 1 /\ ad s4 = base /\ sz s4 = size).
  { cbn. rewrite hset_eq, !hset_ne by done. by rewrite A4, A3, Z4, Z3. }
  exists s4. eexists (_ :: new). split_and!; [|by rewrite (eq_refl : h_log s4 = _ :: h_log (before s3)), En| |apply H4..| |].
  - unfold prepare_cacheflush. rewrite Hi. erewrite py_bind_ok by done. erewrite py_bind_ok by (by apply rd_done).
    rewrite (proj1 (before_quiet s H0)). erewrite py_bind_ok by done. erewrite py_bind_ok by (apply wr_done; [by apply faultless_rd|lia]).
    erewrite py_bind_ok by (apply wr_done; [by apply faultless_wr, faultless_rd|lia]).
    apply wr_done; [by apply faultless_wr, faultless_wr, faultless_rd|lia].
  - constructor; [intros _; apply H4|]. eapply Forall_impl; [exact Hn|]. intros e He Hne. by destruct Hne.
  - by apply faultless_wr, faultless_wr, faultless_wr, faultless_rd.
  - unfold s4, s3, s2, s1. by rewrite !after_wr_sched, after_rd_sched.
Qed.

(** The firmware's steps on the page alone. *)
Lemma fw_run_iter k s : (h_fw (fw_run k s), h_mem (fw_run k s)) = Nat.iter k stepped (h_fw s, h_mem s).
Proof.
  induction k as [|k IH]; [done|]. transitivity (stepped (Nat.iter k stepped (h_fw s, h_mem s))); [|done]. rewrite <- IH.
  change (fw_run (S k) s) with (fw_one (fw_run k s)). unfold fw_one. cbn [fst snd]. by destruct (fw_step _ _).
Qed.

Lemma answered_stays j p : snd p (FLUSH_STATE fl_ctx) <> 1 -> snd (Nat.iter j stepped p) (FLUSH_STATE fl_ctx) <> 1.
Proof.
  intros H. induction j as [|j IH]; [done|]. cbn [Nat.iter nat_rect]. change (nat_rect _ p _ j) with (Nat.iter j stepped p).
  set (q := Nat.iter j stepped p) in *. cbv zeta beta in *. pose proof (fl_step (fst q) (snd q)) as Hs. cbv zeta in Hs.
  destruct Hs as [Hs|[Hs _]]; congruence.
Qed.

(** Under a schedule that lets the firmware move, waiting for a request ends. *)
Lemma flush_loop_returns n : forall s, faultless s -> (forall i, (1 <= fst (h_sched s i))%nat) -> st s = 1 \/ st s = 2 ->
  snd (Nat.iter n stepped (h_fw s, h_mem s)) (FLUSH_STATE fl_ctx) <> 1 ->
  exists fuel s', flush_loop fl_ctx fuel s = (Ok tt, s') /\ st s' = 2 /\ ad s' = ad s /\ sz s' = sz s /\ faultless s'.
Proof.
  induction n as [|n IH]; intros s Hf Hk H12 Hn; destruct (before_flush s) as (Ha & Hz & Hs);
    (destruct (decide (st (before s) = 1)) as [E1|E1]; [|exists 1%nat, (after_rd s); split;
      [cbn [flush_loop]; erewrite py_bind_ok by (by apply rd_done); by rewrite (proj2 (Z.eqb_neq _ _) E1)
      |cbn [after_rd set_mem h_mem]; split_and!; [intuition congruence|done..|by apply faultless_rd]]]).
  - cbn in Hn. intuition congruence.
  - set (k := fst (h_sched s (h_n s))). pose proof (fw_run_iter k (set_n (S (h_n s)) s)) as Hi. cbn [set_n h_fw h_mem] in Hi.
    destruct (IH (after_rd s)) as (fuel & s' & E & H2 & H3 & H4 & H5).
    + by apply faultless_rd.
    + by rewrite after_rd_sched.
    + cbn. by left.
    + cbn [after_rd set_mem h_mem h_fw]. fold k in Hi. unfold before. fold k. rewrite Hi, <- Nat.iter_add.
      replace (n + k)%nat with ((k - 1) + S n)%nat by (specialize (Hk (h_n s)); fold k in Hk; lia). rewrite Nat.iter_add. by apply answered_stays.
    + exists (S fuel), s'. cbn [flush_loop]. erewrite py_bind_ok by (by apply rd_done). rewrite E1. split; [exact E|].
      cbn in H3, H4. split_and!; [done|congruence..|done].
Qed.

Lemma complete_done context s : faultless s -> flush_index context = Ok fl_ctx -> st s = 2 ->
  exists s', complete_cacheflush context s = (Ok tt, s') /\ st s' = 0 /\ ad s' = ad s /\ sz s' = sz s.
Proof.
  intros Hf Hi H2. unfold complete_cacheflush. rewrite Hi. erewrite py_bind_ok by done. erewrite py_bind_ok by (by apply rd_done).
  destruct (before_flush s) as (Ha & Hz & Hs). assert (E : st (before s) = 2) by (intuition congruence). rewrite E.
  erewrite py_bind_ok by done. eexists. split; [apply wr_done; [by apply faultless_rd|lia]|].
  destruct (before_flush (after_rd s)) as (Ha' & Hz' & _). change (ad (before (after_rd s)) = ad (before s)) in Ha'.
  change (sz (before (after_rd s)) = sz (before s)) in Hz'. unfold after_wr at 1 2 3. cbn [set_mem h_mem].
  rewrite hset_eq, !hset_ne by done. split_and!; [done|congruence..].
Qed.
End flush.
End handoff.

(** ** The registers of the page *)

Lemma array_getitem nd r i : nd_ranges nd = [r] -> (i < pr_len r)%nat -> nd_getitem nd [i] = Ok (pr_at r i).
Proof.
  intros H Hi. unfold nd_getitem. rewrite H. cbn [length Nat.eqb negb nd_sum].
  rewrite (proj2 (Nat.ltb_lt _ _) Hi). cbn [rbind]. f_equal. lia.
Qed.

(** The class can be built, the accessor of every register is where the model puts
    it and as wide, no two registers share a byte, and no register is called [UNK]. *)
Theorem handoff_layout : exists m, map_class GFXHandoffStruct = Ok m /\
  (forall base r, hreg_valid r = true ->
     map_accessor m base (fst (hreg_name r)) (snd (hreg_name r)) = Ok {| ac_cls := RegClass (hreg_width r) []; ac_addr := base + hreg_off r |}) /\
  (forall r r', r <> r' -> hreg_valid r = true -> hreg_valid r' = true ->
     hreg_off r + hreg_width r / 8 <= hreg_off r' \/ hreg_off r' + hreg_width r' / 8 <= hreg_off r) /\
  lookup_name m "UNK" = None.
Proof.
  destruct (map_class GFXHandoffStruct) as [m|] eqn:E; [|by vm_compute in E]. exists m. split; [reflexivity|].
  assert (Hm : m = match map_class GFXHandoffStruct with Ok m => m | Raise _ => reg_map_empty end) by (rewrite E; reflexivity). clear E.
  assert (Ha : forall n a, In (n, a) [("FLUSH_STATE", 0x20); ("FLUSH_ADDR", 0x28); ("FLUSH_SIZE", 0x30)] ->
      exists nd, rg_namemap m !! n = Some (MArray nd, Register64) /\ nd_ranges nd = [irange a 0x41 0x18]).
  { intros n a Hin. rewrite Hm. cbn [In] in Hin.
    repeat (destruct Hin as [Hin|Hin]; [injection Hin as <- <-; eexists; split; [vm_compute; reflexivity|reflexivity]|]). destruct Hin. }
  split_and!.
  - intros base r Hr. unfold map_accessor. destruct r; cbn [hreg_name fst snd]; try (rewrite Hm; vm_compute; reflexivity).
    all: apply Nat.ltb_lt in Hr.
    all: [>destruct (Ha "FLUSH_STATE" 0x20) as (nd & E1 & En) | destruct (Ha "FLUSH_ADDR" 0x28) as (nd & E1 & En) | destruct (Ha "FLUSH_SIZE" 0x30) as (nd & E1 & En)]; try (cbn [In]; tauto); rewrite E1; rewrite (array_getitem _ _ _ En) by exact Hr; reflexivity.
  - intros r r' Hne Hr Hr'. assert (Hf : forall i i', FLUSH_STATE i <> FLUSH_STATE i' -> i <> i') by congruence.
    assert (Hf' : forall i i', FLUSH_ADDR i <> FLUSH_ADDR i' -> i <> i') by congruence.
    assert (Hf'' : forall i i', FLUSH_SIZE i <> FLUSH_SIZE i' -> i <> i') by congruence.
    destruct r, r'; cbn [hreg_valid hreg_off hreg_width] in *; try congruence; try apply Hf in Hne; try apply Hf' in Hne; try apply Hf'' in Hne;
      rewrite ?Nat.ltb_lt in *; unfold FLUSH_COUNT in *; change (64 / 8) with 8; change (32 / 8) with 4; change (8 / 8) with 1; lia.
  - unfold lookup_name. rewrite Hm. vm_compute. reflexivity.
Qed.

(** The address of an unmap request keeps the low 48 bits under a marker. *)
Lemma unmap_address base : let a := Z.lor 0xdead000000000000 (Z.land base 0xffffffffffff) in
  0 <= a < 2 ^ 64 /\ a mod 2 ^ 48 = base mod 2 ^ 48 /\ Z.shiftr a 48 = 0xdead.
Proof.
  cbn zeta. change 0xffffffffffff with (Z.ones 48). rewrite Z.land_ones by lia.
  pose proof (Z.mod_pos_bound base (2 ^ 48) ltac:(lia)) as Hb. set (l := base mod 2 ^ 48) in *.
  assert (Hd : Z.land 0xdead000000000000 l = 0).
  { apply Z.bits_inj_0. intros n. rewrite Z.land_spec. destruct (Z_lt_le_dec n 0); [by rewrite !Z.testbit_neg_r|].
    destruct (Z_lt_le_dec n 48).
    - change 0xdead000000000000 with (Z.shiftl 0xdead 48). by rewrite Z.shiftl_spec_low.
    - assert (Z.log2 l < 48) by (destruct (Z.eq_dec l 0) as [->|]; [done|apply Z.log2_lt_pow2; lia]).
      rewrite (Z.bits_above_log2 l) by lia. apply andb_false_r. }
  rewrite <- Z.lxor_lor, <- Z.add_nocarry_lxor by done. rewrite Z.shiftr_div_pow2 by lia.
  change 0xdead000000000000 with (0xdead * 2 ^ 48). split_and!; [lia|lia| |].
  - rewrite Z.add_comm, Z.mod_add by lia. by apply Z.mod_small.
  - rewrite Z.div_add_l, Z.div_small by lia. done.
Qed.

(** ** A firmware *)

(** Dekker's algorithm on the other side, with flush requests of context [0x40]
    answered first. *)
Inductive fpc := FBoot | FIdle | FCheck | FWait | FIn | FLeave.

Definition dekker_step (pc : fpc) (m : hmem) : fpc * hmem :=
  if m (FLUSH_STATE 0x40) =? 1 then (pc, hset (FLUSH_STATE 0x40) 2 m) else
  match pc with
  | FBoot => (FIdle, hset MAGIC_FW PPL_MAGIC m)
  | FIdle => (FCheck, hset LOCK_FW 1 m)
  | FCheck => if m LOCK_AP =? 0 then (FIn, m) else if m TURN =? 0 then (FWait, hset LOCK_FW 0 m) else (FCheck, m)
  | FWait => if m TURN =? 0 then (FWait, m) else (FCheck, hset LOCK_FW 1 m)
  | FIn => (FLeave, hset TURN 0 m)
  | FLeave => (FIdle, hset LOCK_FW 0 m)
  end.
Definition dekker_in (pc : fpc) : bool := match pc with FIn | FLeave => true | _ => false end.
Definition dekker_inv (pc : fpc) (m : hmem) : Prop := match pc with FCheck | FIn | FLeave => m LOCK_FW = 1 | _ => True end.

Ltac dekker_cases :=
  intros; unfold dekker_step in *; repeat case_match; cbn [fst snd dekker_inv dekker_in] in *;
  rewrite ?hset_eq, ?hset_ne by done; try done.

#[global, refine] Instance dekker : GfxFirmware :=
  {| fw_state := fpc; fw_step := dekker_step; fw_in := dekker_in; fw_inv := dekker_inv |}.
Proof.
  - intros pc m H. destruct pc; dekker_cases.
  - intros pc m r v Hr H. destruct pc; cbn in *; rewrite ?hset_ne by done; done.
  - intros pc m. destruct pc; dekker_cases.
  - intros pc m H Hin. destruct pc; cbn in *; try done; by rewrite H.
  - intros pc m H Hin. destruct pc; dekker_cases. by apply Z.eqb_eq.
Defined.

#[global, refine] Instance dekker_flush : GfxFlush := {| fl_ctx := 0x40 |}.
Proof.
  - intros pc m. change (fw_step pc m) with (dekker_step pc m). cbn zeta. unfold dekker_step.
    destruct (Z.eqb_spec (m (FLUSH_STATE 0x40)) 1) as [E|E]; [right; cbn; by rewrite hset_eq|left].
    destruct pc; repeat case_match; cbn [fst snd]; rewrite ?hset_ne by done; done.
  - intros pc m. change (fw_step pc m) with (dekker_step pc m). destruct pc; dekker_cases.
  - intros pc m. change (fw_step pc m) with (dekker_step pc m). destruct pc; dekker_cases.
  - intros pc m. exists 1%nat. cbn. unfold dekker_step. destruct (Z.eqb_spec (m (FLUSH_STATE 0x40)) 1) as [E|E].
    + cbn. rewrite hset_eq. lia.
    + destruct pc; repeat case_match; cbn; rewrite ?hset_ne by done; done.
Defined.

(** A world at the start: nobody holds the lock, every access succeeds, and before
    access [n] the firmware takes [k n] steps. *)
Definition dekker_world (k : nat -> nat) (pc : fpc) (m : hmem) : world :=
  {| h_base := 0x10000; h_mem := m; h_fw := pc; h_sched := fun n => (k n, Done); h_n := 0; is_locked := false; initialized := false;
     h_in := false; h_log := [] |}.
Definition blank : hmem := fun _ => 0.

(** ** The properties *)

(** C19: the host and the GPU firmware are never both in their critical sections:
    whatever operations the host runs in whatever nesting, whatever steps the firmware
    takes between any two accesses and whichever accesses fail, no moment of the
    session has the body of a [with lock()] running while the firmware, as long as it
    enters only after finding [LOCK_AP] clear with its own byte raised, is inside its
    own section. *)
Theorem handoff_mutual_exclusion `{GfxFirmware} fuel (ops : list hop) (s : world)
  (Hfw : fw_inv (h_fw s) (h_mem s)) (Hin : h_in s = false) (Hlog : h_log s = []) :
  forall host fw m, In (host, fw, m) (h_log (run_session fuel ops s)) -> ~ (host = true /\ fw = true).
Proof.
  assert (HI : Inv s) by (constructor; [congruence|done|by rewrite Hlog]).
  intros host fw m Hm [-> ->]. pose proof (inv_log _ (run_session_inv fuel ops s HI)) as Hl. rewrite List.Forall_forall in Hl.
  by specialize (Hl _ Hm).
Qed.

Lemma handoff_mutual_exclusion_witness :
  let ops := [HInitialize; HLock [HOther; HPrepareFlush 0x1000 0x4000 0x40]; HWaitFlush 0x40; HCompleteFlush 0x40] in
  let s := dekker_world (fun _ => 1%nat) FBoot blank in
  fw_inv (h_fw s) (h_mem s) /\
  (forall host fw m, In (host, fw, m) (h_log (run_session 9 ops s)) -> ~ (host = true /\ fw = true)).
Proof. split; [exact I|]. apply (@handoff_mutual_exclusion dekker); [exact I|reflexivity|reflexivity]. Defined.

(** Both sides do enter: the host's body and the firmware's section each appear in
    the history of such a session. *)
Example both_sides_enter :
  let log := h_log (run_session 9 [HLock [HOther; HOther]; HOther; HOther; HOther; HOther; HOther]
                                (dekker_world (fun n => if Nat.ltb n 2 then 0 else 1)%nat FBoot blank)) in
  existsb (fun e => fst (fst e)) log = true /\ existsb (fun e => snd (fst e)) log = true.
Proof. vm_compute. split; reflexivity. Qed.

(** C20: what taking the lock does is decided by its first poll.  If that finds
    [LOCK_FW] clear, the body runs once and its result is the result of the [with]
    statement, after which the lock is free again.  If it finds it set, the statement
    never returns, whatever the firmware does afterwards: the state is the same for
    every number of iterations, with [LOCK_AP] clear and no further access to the
    target, because the test of [TURN] compares the accessor and not its value. *)
Theorem lock_outcome `{GfxFirmware} {A} (body : M world A) (s s1 : world) v
  (Hf : faultless s) (Hl : is_locked s = false) (Hpoll : (wr LOCK_AP 1 ;;; rd LOCK_FW) s = (Ok v, s1)) :
  (v = 0 -> forall fuel r s2, body (set_in true (set_locked true s1)) = (r, s2) -> faultless s2 -> r <> Raise OutOfFuel ->
     exists s', with_lock (S fuel) body s = (r, s') /\ h_mem s' LOCK_AP = 0 /\ is_locked s' = false) /\
  (v <> 0 -> exists s', (forall fuel, with_lock (S fuel) body s = (Raise OutOfFuel, s')) /\
     h_mem s' LOCK_AP = 0 /\ is_locked s' = false /\ h_n s' = S (h_n s1)).
Proof.
  erewrite py_bind_ok in Hpoll by (by apply wr_done). rewrite rd_done in Hpoll by (by apply faultless_wr). injection Hpoll as Hv <-.
  split.
  - intros -> fuel r s2 Eb Hf2 Hr. rewrite with_lock_free by done. unfold try_finally. rewrite Eb.
    destruct (release_done s2 Hf2) as (s' & -> & Hk & _ & Ha). exists s'. destruct r as [|[]]; done.
  - intros Hne. eexists. split; [intros fuel; apply with_lock_contended; congruence|].
    split; [apply hset_eq|]. set (s1 := after_rd (after_wr LOCK_AP 1 s)).
    destruct (before_host s1) as (_ & _ & Hn & Hk & _). split; [|exact Hn]. cbn. rewrite Hk. cbn.
    destruct (before_host (after_wr LOCK_AP 1 s)) as (_ & _ & _ & -> & _). cbn. by destruct (before_host s) as (_ & _ & _ & -> & _).
Qed.

(** The contended lock with a firmware that would enter, leave and give the turn
    back by itself: the host released the lock before ([TURN] is 1), and the firmware
    raised its byte before the host's poll. *)
Lemma lock_outcome_witness : exists s', (forall fuel, with_lock (S fuel) (rd TURN) (dekker_world (fun _ => 1%nat) FIdle (hset TURN 1 blank)) = (Raise OutOfFuel, s')) /\
  h_mem s' LOCK_AP = 0 /\ is_locked s' = false /\ h_n s' = 3%nat.
Proof.
  refine (proj2 (@lock_outcome dekker Z (rd TURN) (dekker_world (fun _ => 1%nat) FIdle (hset TURN 1 blank))
    (snd ((wr LOCK_AP 1 ;;; rd LOCK_FW) (dekker_world (fun _ => 1%nat) FIdle (hset TURN 1 blank)))) 1 _ _ _) _).
  - constructor; reflexivity.
  - reflexivity.
  - reflexivity.
  - discriminate.
Defined.

(** C21: a cache flush completes.  From an idle context, with a firmware that answers
    pending requests and gets to run, [prepare_cacheflush], [wait_cacheflush] and
    [complete_cacheflush] all return and leave the context idle; and at every moment
    at which the firmware could see the request, its address and size were already
    those of the caller. *)
Theorem flush_cycle {FW : GfxFirmware} {FL : GfxFlush} base size context (s : world)
  (Hf : faultless s) (Hfair : forall n, (1 <= fst (h_sched s n))%nat) (Hi : flush_index context = Ok fl_ctx)
  (H0 : h_mem s (FLUSH_STATE fl_ctx) = 0) (Hb : 0 <= base < 2 ^ 64) (Hs : 0 <= size < 2 ^ 64) :
  exists s1 new fuel s',
    prepare_cacheflush base size context s = (Ok tt, s1) /\ h_log s1 = new ++ h_log s /\ Forall (published base size) new /\
    (wait_cacheflush context fuel ;;; complete_cacheflush context) s1 = (Ok tt, s') /\
    h_mem s' (FLUSH_STATE fl_ctx) = 0 /\ h_mem s' (FLUSH_ADDR fl_ctx) = base /\ h_mem s' (FLUSH_SIZE fl_ctx) = size.
Proof.
  destruct (prepare_published base size context s Hf Hi H0 Hb Hs) as (s1 & new & E1 & El & Hp & Hst & Ha & Hz & Hf1 & Hsc).
  destruct (fl_serves (h_fw s1) (h_mem s1)) as [n Hn].
  destruct (flush_loop_returns n s1 Hf1) as (fuel & s2 & E2 & H2 & Ha2 & Hz2 & Hf2); [by rewrite Hsc|by left|done|].
  destruct (complete_done context s2 Hf2 Hi H2) as (s' & E3 & H3 & Ha3 & Hz3).
  exists s1, new, fuel, s'. split_and!; [done..| |done|congruence|congruence].
  erewrite py_bind_ok; [exact E3|]. unfold wait_cacheflush. rewrite Hi. by erewrite py_bind_ok by done.
Qed.

Lemma flush_cycle_witness : exists s1 new fuel s',
  prepare_cacheflush 0x1000 0x4000 0x40 (dekker_world (fun _ => 1%nat) FBoot blank) = (Ok tt, s1) /\ h_log s1 = new ++ [] /\ Forall (published 0x1000 0x4000) new /\
  (wait_cacheflush 0x40 fuel ;;; complete_cacheflush 0x40) s1 = (Ok tt, s') /\
  h_mem s' (FLUSH_STATE 0x40) = 0 /\ h_mem s' (FLUSH_ADDR 0x40) = 0x1000 /\ h_mem s' (FLUSH_SIZE 0x40) = 0x4000.
Proof.
  apply (@flush_cycle dekker dekker_flush); [constructor; reflexivity|intros n; cbn; lia|reflexivity|reflexivity|lia|lia].
Defined.

